(* ===== verification/_CoqProject ===== *)
-Q . S2P
Prelude.v
ErrorCodes.v
DataBuffer.v
Tlv.v
SessionHeader.v
DataSenderReceiver.v
MessageHeader.v
StdMap.v
StdString.v
EventQueue.v
Base64.v
Framework.v
ContinueEvent.v
CollabEvent.v
Effects.v
CommandTotality.v
Continue.v
ContinueLemmas.v
ContinueTotality.v
ContinueProperties.v
ContinueManager.v
ContinueManagerLemmas.v
ContinueManagerProperties.v
Collab.v
CollabLemmas.v
CollabRelease.v
CollabProperties.v
CollabManager.v
CollabManagerLemmas.v
CollabManagerProperties.v
StreamData.v
ChannelManager.v
ChannelManagerLemmas.v
ChannelManagerProperties.v
ChannelService.v
AbilityConnection.v
AbilityConnectionLemmas.v
AbilityConnectionProperties.v
SoftbusSession.v
SoftbusLink.v
SoftbusAdapter.v
MissionConditions.v
MissionConditionsProperties.v
ContinueRecommend.v
ContinueRecommendProperties.v
ContinueSender.v
ContinueSenderLemmas.v
ContinueSenderProperties.v
SoftbusBroadcast.v
SoftbusBroadcastProperties.v
ContinueReceiver.v
ContinueReceiverProperties.v
Interleaving.v
MessageParcel.v
SelectionData.v
DeviceSelection.v
DeviceSelectionLemmas.v
DeviceSelectionProperties.v
