(* ===== verification/Prelude.v ===== *)
(** * Verification of the distributed scheduler (dmsfwk)

    The program moves a running ability from one device to another ("continuation"),
    shares softbus sessions between such requests and carries messages and byte streams
    between connected abilities.  This library models the parts that decide something
    themselves; what the operating system, the softbus and the other services answer is
    a parameter of the model, so that every theorem holds for all their answers.

    ** Files, and the code they model (under src/services unless a path is given)

    - [Prelude]: executions of C++ code ([run]: a result, an undefined access, or fuel
      that ran out), fixed-width integers, memory, memcpy_s, tactics and hint databases.
    - [ErrorCodes]: the codes of common/include/dtbschedmgr_log.h and dtbcollabmgr_log.h
      that the modelled functions return.
    - [DataBuffer]: dtbcollabmgr channel_manager/av_trans_data_buffer.cpp and its twin
      dtbschedmgr softbus_adapter/transport/dsched_data_buffer.cpp.
    - [Tlv], [SessionHeader]: channel_manager/session_data_header.cpp, the header of a
      bytes packet; reader and writer byte by byte.
    - [DataSenderReceiver]: channel_manager/data_sender_receiver.cpp, cutting a message
      into packets and putting it together.
    - [MessageHeader]: ability_connection_manager/message_data_header.cpp and the message
      part of ability_connection_session.cpp.
    - [StdMap], [StdString]: std::map as a list in key order, std::string as its bytes.
    - [Base64]: the base64 text of parcels, common/src/distributed_sched_utils.cpp.
    - [Framework]: interfaces of the code outside the repository (cJSON, nlohmann json,
      parcels, Want), their documented laws, and instances that can be evaluated.
    - [ContinueEvent]: dtbschedmgr continue/dsched_continue_event.cpp, the commands the
      two devices of a continuation exchange and their JSON text.
    - [CollabEvent]: dtbschedmgr collab/dsched_collab_event.cpp, the commands of a
      collaboration.
    - [CommandTotality]: the readers of both kinds of commands always return.
    - [EventQueue]: the queue of an event handler's thread: tasks with the times they are
      due, removal by name, and the pace of attempts that are repeated ([paced]).
    - [Effects]: a state, failure and trace monad; [preserves] and [total] with the
      tactics that follow a program through a relation or to its end, and weakest
      preconditions ([wp]) for the components whose code can fail.
    - [Continue]: continue/dsched_continue.cpp with its event handler and state machine
      (continue/state): one continuation, its queue of events and its handlers.
      [ContinueLemmas], [ContinueTotality] and [ContinueProperties] reason about it.
    - [ContinueManager]: continue/dsched_continue_manager.cpp, the table of the
      continuations, the tasks of the manager's thread and their due times.
      [ContinueManagerLemmas] and [ContinueManagerProperties] reason about it.
    - [Collab]: collab/dsched_collab.cpp and collab/state: one collaboration, the
      handshake of its source and its sink.  [CollabLemmas], [CollabRelease] (who releases
      the session with the peer), [CollabProperties].
    - [CollabManager]: collab/dsched_collab_manager.cpp, the table of the collaborations
      and its thread.  [CollabManagerLemmas], [CollabManagerProperties].
    - [StreamData]: channel_manager/av_trans_stream_data.cpp, the frame that a stream
      channel carries and the JSON text of its attributes.
    - [ChannelManager]: channel_manager/channel_manager.cpp, the channels between two
      connected abilities, the sockets below them, their listeners and the tasks of the
      three event handlers.  [ChannelManagerLemmas] has its invariant,
      [ChannelManagerProperties] its theorems.
    - [ChannelService]: what a user of the channel manager relies on, as a class of
      operations ([ChannelService]) and one of laws ([ChannelServiceOk]), and the channel
      manager as an instance of both.
    - [AbilityConnection]: ability_connection_manager/ability_connection_session.cpp and
      ability_connection_manager.cpp with their headers: the sessions of connected
      abilities and the manager that holds them, over any [ChannelService].
      [AbilityConnectionLemmas] has the invariant, [AbilityConnectionProperties] the
      theorems and a run over the real channel manager.
    - [SoftbusSession], [SoftbusLink], [SoftbusAdapter]: softbus_adapter/transport/
      dsched_softbus_session.cpp and dsched_transport_softbus_adapter.cpp, sessions
      between two devices, their packets and their reference counts; [SoftbusLink] joins
      two adapters by a transport.
    - [MissionConditions]: dtbschedmgr mission/dms_continue_condition_manager.cpp, the
      missions of every user and the conditions under which an event of one is told to
      other devices.  [MissionConditionsProperties] has its invariant.
    - [ContinueRecommend]: mission/notification/dms_continue_recommend_manager.cpp, the
      devices that could continue a mission.  [ContinueRecommendProperties].
    - [ContinueSender]: mission/notification/dms_continue_send_manager.cpp and
      dms_continue_send_strategy.cpp with what feeds them
      (mission/distributed_mission_focused_listener.cpp, adapter/mmi_adapter.cpp and
      handlers of distributed_sched_service.cpp and common_event_listener.cpp): which
      event of a mission is broadcast, and when the offer is taken back.
      [ContinueSenderLemmas], [ContinueSenderProperties].
    - [SoftbusBroadcast]: softbus_adapter/softbus_adapter.cpp, the events that go out over
      softbus and those that come in.  [SoftbusBroadcastProperties].
    - [ContinueReceiver]: mission/notification/dms_continue_recv_manager.cpp, the
      broadcasts of other devices, the bundle that may continue, and the icon of the dock.
      [ContinueReceiverProperties].
    - [Interleaving]: calls that take a lock several times, as threads of critical
      sections, their schedules, and the reasoning about every schedule from a guarantee
      of each thread.
    - [MessageParcel]: the parcel of a remote call, as a class of operations and one of
      laws, and an instance that can be run.
    - [SelectionData], [DeviceSelection]: src/services/dtbabilitymgr, the service through
      which applications let the user select devices: its tokens, notifiers and panel, and
      what travels between them.  [DeviceSelectionLemmas] has what each section keeps,
      [DeviceSelectionProperties] the theorems.

    ** How the parts interact

    A request reaches the manager ([ContinueManager.ContinueMission]), which posts a task
    to its thread; the task ([run_task]) makes a continuation and posts the first event to
    that object's queue.  A turn of the object's thread ([Continue.event_turn]) executes
    the event in the current state, sends commands to the peer through the adapter
    ([SendCommand], an effect) and calls the manager back, which [object_turn] turns
    into tasks again.  Bytes that arrive go through [SoftbusSession.PackRecvData] and
    [SoftbusAdapter.OnDataReady] to [HandleDataRecv], which finds the object of the
    session.  Threads interleave one turn at a time: a turn holds the lock of what it
    changes.

    A collaboration has the same shape ([Collab.event_turn], [CollabManager.run_task]),
    with two state machines that take turns: each command the peer sends is an event of
    the other device's queue.  The channel manager is called by the abilities and by the
    softbus; it answers later, through the tasks of its handlers ([ChannelManager.Move]
    lists everything that can happen to it).

    The sessions of connected abilities use the channel manager through the requests of
    [ChannelService] only, so their theorems are proved against its laws; the state of
    the service is a part of theirs ([Connections.channels]), and what it does between
    two calls of theirs is a move of its own ([ServiceMoves]).  A session is an object
    with an address (its number): [objects] holds those that some pointer keeps alive,
    [sessionMap_] those the manager knows, and a detached thread that finds its object
    gone is undefined behaviour.

    A mission is offered to other devices before any continuation starts.  An event of the
    ability manager is a task of the listener ([ContinueSender.listener_turn]), which
    updates the conditions and posts to the manager's thread; a turn of that thread
    ([send_turn]) asks the conditions, runs the strategy of the event and broadcasts four
    bytes ([event_buffer]), which the adapter retries ([SoftbusBroadcast]).  On the other
    device [ContinueReceiver.NotifyDataRecv] reads them back and posts a task that finds
    the bundle and tells the dock; the timeouts on both sides are tasks with due times.
    The conditions are shared by three threads and all users, so they are a part of the
    state of the sender ([Notifier.conditions_]).

    The device selection service is called by many threads at once, and its functions take
    and release their locks several times; there the unit is the critical section, not the
    call ([Interleaving.thread]), and a schedule ([Interleaving.Move]) says whose section is
    next.  The other components are called by one thread, or hold one lock for a whole turn.

    The state of a component is a record; a function of the code is a definition of the
    same name; one that changes state is a computation of the monad [M] of [Effects]
    whose trace lists the calls to other services in order.  Their answers are functions
    of that trace (class [Env], [ManagerEnv]), so an answer may change from call to call.

    ** What is shown

    - Transport of bytes: headers and messages survive the trip, readers never leave the
      received bytes, reassembly is exact, sending ends whatever the softbus answers.
    - Sessions: two adapters agree on the number of users of a session in every
      interleaving of requests and deliveries.
    - Commands: every command survives its JSON text up to the named losses.
    - One continuation: it keeps its role and moves forward, an error or an end always
      reaches the end state and the manager, its thread empties its queue, the sink
      starts an ability on the data of a continuation only after the checks.
    - The manager: every step returns and keeps the table in order and the counters
      below their bounds; a timeout removes a continuation; what a peer sends reaches the
      continuation of its session.
    - Collaborations: every step returns and leaves the object initialised, a source that
      cleans up has released the session with the sink on record, once, and a sink never
      releases anything, an error empties the queue and asks the manager to clean up;
      the manager keeps its table within its limit and in order, and every ability that
      any collaboration starts was permitted just before.
    - Channels: the tables of the channel manager agree with each other after any sequence
      of calls, callbacks and task turns (but for two inputs of a peer that the code is not
      defined for, [ChannelManagerLemmas.move_ok]); identifiers are never given twice; bytes that
      one side sends reach the listeners of the other side once, whole and in order.
    - Sessions of connected abilities: every call returns in any interleaving in which no
      detached thread outlives its session, no channel belongs to two sessions, a session
      that ends closes its channels, a request to connect is always answered, of two
      requests that cross one is kept, and a message reaches the listener of the peer.
    - Notifications: any interleaving of events, inputs, switches and the turns of four
      threads returns and leaves one focused mission and one timeout at most; a broadcast
      needs the conditions; an offer is taken back a minute later on either side; what is
      broadcast is what the other side reads, a refused event is tried four times, fifty
      milliseconds apart, and an unknown bundle six times, two seconds apart, whatever turns
      the threads take; only a trusted bundle is offered or recommended, a recommendation is
      published at most once and when the conditions hold, and no other device can take an
      icon away.
    - Device selection: whatever sections interleave, no null notifier is used (but for the
      selections of the panel, which can race) and tokens stay distinct until all are given,
      across restarts; what the user selects reaches the notifier of the application; a dead
      or unregistered token leaves nothing behind and a token of another is refused.
    - Where the code does not do what it means to, a theorem of kind error shows it; they
      are listed with the other findings in the manifest.

    ** Bounds and fuel

    Loops over received bytes are structural or have fuel from the length of the buffer;
    the theorems that they return show it is enough ([Deserialize_safe],
    [SendBytesData_sends_prefix]).  [Continue.drain] and [object_turns] take three turns
    for every waiting event, which [queue_weight] bounds; [Collab.drain] takes two.  [Undefined] stands for undefined behaviour of C++ and for an
    exception that no caller catches: both end the process.  Integers wrap at their width
    ([u8] ... [u64], [to_int32]); lengths of std::string and buffers are below 2^63.

    ** Assumptions

    memcpy_s behaves as C11 Annex K says, the machine is little-endian, operator new
    throws when it fails.  The event queue of the eventhandler library runs tasks in the
    order of their due times, the first posted first, and drops the rest when it stops.
    The default build is modelled, without DMSFWK_ALL_CONNECT_MGR, without several
    distributed accounts and without recommended installations.  A clock of a component
    counts milliseconds and never goes back.

    ** Not modelled

    Logging, statistics and radar reports, since nothing is read back from them; IPC stubs
    and proxies, script bindings and the media pipeline, which hand data on; mutexes,
    beyond the rule that turns do not overlap; the codecs of the audio/video engines;
    the caches that mirror another service's state (devices, accounts, bundles, missions),
    which are asked through oracles; the permission checks, which are decisions of the
    access token service; the text of wants and their parameters, which are parameters of
    the model with their laws; the scheduler's system ability, which passes the calls of
    other processes on to the managers modelled here; distributed intents, a second service
    over the same transport that shares no state with these.  Of the sessions of abilities the engines of audio
    and video are oracles too, and SetTimeOut, RemoveTimeout, IsConnecting and
    IsConnected, which nothing calls, are left out. *)

From Stdlib Require Import ZArith Lia.
From stdpp Require Import base list option.

Declare Scope dms_scope.
Delimit Scope dms_scope with dms.
Open Scope Z_scope.

(** ** Executions of C++ code

    A modelled operation either finishes, or performs an access C++ leaves
    undefined (null or out-of-range), or exhausts the fuel of a loop.  The last
    two are kept apart from every error code the program returns. *)

Inductive run (A : Type) : Type :=
  | Done (a : A)
  | Undefined
  | OutOfFuel.
Arguments Done {A} a.
Arguments Undefined {A}.
Arguments OutOfFuel {A}.

Definition run_bind {A B : Type} (m : run A) (k : A -> run B) : run B :=
  match m with
  | Done a => k a
  | Undefined => Undefined
  | OutOfFuel => OutOfFuel
  end.

Notation "'let*' x ':=' m 'in' k" := (run_bind m (fun x => k))
  (at level 10, x pattern, m at level 100, k at level 200) : dms_scope.
Open Scope dms_scope.

(** ** Machine integers *)

Definition u16 (z : Z) : Z := z mod 2 ^ 16.
Definition u32 (z : Z) : Z := z mod 2 ^ 32.
Definition u64 (z : Z) : Z := z mod 2 ^ 64.
Definition to_int32 (z : Z) : Z := (z + 2 ^ 31) mod 2 ^ 32 - 2 ^ 31.

Definition is_u8 (z : Z) : Prop := 0 <= z < 2 ^ 8.
Definition is_u16 (z : Z) : Prop := 0 <= z < 2 ^ 16.
Definition is_u32 (z : Z) : Prop := 0 <= z < 2 ^ 32.

(** ** Bytes and memory

    An object is the list of its bytes, a pointer into it an offset.  The null
    pointer is [None]. *)

Abbreviation bytes := (list Z).

Definition zlen (l : bytes) : Z := Z.of_nat (length l).

Definition slice (l : bytes) (off n : Z) : bytes :=
  take (Z.to_nat n) (drop (Z.to_nat off) l).

Definition load_n (l : bytes) (off n : Z) : run bytes :=
  if (0 <=? off) && (0 <=? n) && (off + n <=? zlen l) then Done (slice l off n)
  else Undefined.

Definition load8 (l : bytes) (off : Z) : run Z :=
  let* bs := load_n l off 1 in
  match bs with b :: _ => Done b | [] => Undefined end.

Definition store_n (l : bytes) (off : Z) (bs : bytes) : run bytes :=
  if (0 <=? off) && (off + zlen bs <=? zlen l) then
    Done (slice l 0 off ++ bs ++ slice l (off + zlen bs) (zlen l))
  else Undefined.

Definition store8 (l : bytes) (off b : Z) : run bytes := store_n l off [b].

(** The object representation of unsigned integers is little-endian. *)
Fixpoint le_bytes (w : nat) (z : Z) : bytes :=
  match w with
  | O => []
  | S w' => z mod 2 ^ 8 :: le_bytes w' (z / 2 ^ 8)
  end.

Fixpoint le_val (l : bytes) : Z :=
  match l with
  | [] => 0
  | b :: l' => b + 2 ^ 8 * le_val l'
  end.

(** The two bytes the TLV writers emit for a 16-bit type or length. *)
Definition be16_bytes (z : Z) : bytes := [Z.shiftr z 8; Z.land z 255].

(** ** memcpy_s (C11, K.3.7.1.1)

    A violated runtime constraint zeroes the destination when there is one and
    yields a non-zero [errno_t]; otherwise the bytes are copied and 0 returned. *)

Definition EOK : Z := 0.
Definition EINVAL : Z := 22.
Definition ERANGE : Z := 34.
Definition RSIZE_MAX : Z := 2 ^ 63 - 1.

Definition zeros (n : Z) : bytes := replicate (Z.to_nat n) 0.

Definition memcpy_s (dst : option bytes) (doff dmax : Z)
    (src : option bytes) (soff n : Z) : run (Z * option bytes) :=
  match dst with
  | None => Done (EINVAL, None)
  | Some d =>
    if RSIZE_MAX <? dmax then Done (ERANGE, Some d)
    else match src with
    | None => let* d' := store_n d doff (zeros dmax) in Done (EINVAL, Some d')
    | Some s =>
      if dmax <? n then let* d' := store_n d doff (zeros dmax) in Done (ERANGE, Some d')
      else
        let* bs := load_n s soff n in
        let* d' := store_n d doff bs in
        Done (EOK, Some d')
    end
  end.

(** [memcpy_s(&field, sizeof field, ptr, n)] on an unsigned field of [w] bytes. *)
Definition memcpy_field (w : nat) (old : Z) (src : option bytes) (soff n : Z)
    : run (Z * Z) :=
  let* (ret, d) := memcpy_s (Some (le_bytes w old)) 0 (Z.of_nat w) src soff n in
  Done (ret, match d with Some bs => le_val bs | None => old end).

Create HintDb dms discriminated.
Create Rewrite HintDb dms_len.
Create Rewrite HintDb dms_map.

(** ** Tactics *)

Ltac unfold_ints := unfold u16, u32, u64, is_u8, is_u16, is_u32, RSIZE_MAX in *.

(** Decide the next boolean guard of the goal, or of a hypothesis. *)
Ltac split_guard :=
  match goal with
  | |- context [if ?b then _ else _] =>
    let E := fresh "Guard" in destruct b eqn:E
  | H : context [if ?b then _ else _] |- _ =>
    let E := fresh "Guard" in destruct b eqn:E
  end.

(** Turn boolean guards among the hypotheses into propositions. *)
Ltac guards_to_prop :=
  repeat match goal with
  | H : _ && _ = true |- _ => apply andb_true_iff in H; destruct H
  | H : _ && _ = false |- _ => apply andb_false_iff in H
  | H : _ || _ = false |- _ => apply orb_false_iff in H; destruct H
  | H : _ || _ = true |- _ => apply orb_true_iff in H
  | H : negb _ = true |- _ => apply negb_true_iff in H
  | H : negb _ = false |- _ => apply negb_false_iff in H
  | H : (_ <=? _) = true |- _ => apply Z.leb_le in H
  | H : (_ <=? _) = false |- _ => apply Z.leb_gt in H
  | H : (_ <? _) = true |- _ => apply Z.ltb_lt in H
  | H : (_ <? _) = false |- _ => apply Z.ltb_ge in H
  | H : (_ =? _) = true |- _ => apply Z.eqb_eq in H
  | H : (_ =? _) = false |- _ => apply Z.eqb_neq in H
  end.

(** Resolve the guards whose truth value follows from the context by arithmetic. *)
Ltac bool_lia :=
  repeat match goal with
  | |- context [?a <=? ?b] =>
    first [ rewrite (proj2 (Z.leb_le a b)) by lia
          | rewrite (proj2 (Z.leb_gt a b)) by lia ]
  | |- context [?a <? ?b] =>
    first [ rewrite (proj2 (Z.ltb_lt a b)) by lia
          | rewrite (proj2 (Z.ltb_ge a b)) by lia ]
  | |- context [?a =? ?b] =>
    first [ rewrite (proj2 (Z.eqb_eq a b)) by lia
          | rewrite (proj2 (Z.eqb_neq a b)) by lia ]
  end; cbn [andb orb negb].

(** Bounds between constants, by evaluation. *)
Ltac by_compute :=
  repeat match goal with
  | |- _ /\ _ => split
  | |- Forall _ [] => constructor
  | |- Forall _ (_ :: _) => constructor
  end; vm_compute; first [ reflexivity | discriminate | by split ].

(** Peel the binds of a hypothesis [m = Done r]. *)
Ltac run_inv H :=
  repeat match type of H with
  | run_bind ?m _ = Done _ =>
    let E := fresh "Run" in destruct m eqn:E; cbn [run_bind] in H; try discriminate H
  | Done _ = Done _ => injection H as H; subst
  end.

(** ** Lemmas *)

Lemma run_bind_assoc {A B C} (m : run A) (f : A -> run B) (g : B -> run C) :
  run_bind (run_bind m f) g = run_bind m (fun a => run_bind (f a) g).
Proof. by destruct m. Qed.

Lemma u16_id z : is_u16 z -> u16 z = z.
Proof. unfold_ints. intros. by apply Z.mod_small. Qed.

Lemma u32_id z : is_u32 z -> u32 z = z.
Proof. unfold_ints. intros. by apply Z.mod_small. Qed.

Lemma u64_id z : 0 <= z < 2 ^ 64 -> u64 z = z.
Proof. unfold_ints. intros. by apply Z.mod_small. Qed.

Lemma u16_range z : is_u16 (u16 z).
Proof. unfold_ints. by apply Z.mod_pos_bound. Qed.

Lemma u32_range z : is_u32 (u32 z).
Proof. unfold_ints. by apply Z.mod_pos_bound. Qed.
#[export] Hint Resolve u16_range u32_range : dms.

Lemma zlen_nonneg l : 0 <= zlen l.
Proof. unfold zlen. lia. Qed.
#[export] Hint Resolve zlen_nonneg : dms.

Lemma zlen_nil : zlen [] = 0.
Proof. done. Qed.

Lemma zlen_cons b l : zlen (b :: l) = 1 + zlen l.
Proof. unfold zlen. cbn [length]. lia. Qed.

Lemma zlen_app l1 l2 : zlen (l1 ++ l2) = zlen l1 + zlen l2.
Proof. unfold zlen. rewrite length_app. lia. Qed.

Lemma zlen_zeros n : 0 <= n -> zlen (zeros n) = n.
Proof. intros. unfold zlen, zeros. rewrite length_replicate. lia. Qed.

Lemma length_le_bytes w z : length (le_bytes w z) = w.
Proof. revert z. induction w; intros; cbn; auto. Qed.

Lemma zlen_le_bytes w z : zlen (le_bytes w z) = Z.of_nat w.
Proof. unfold zlen. by rewrite length_le_bytes. Qed.

Lemma zlen_be16 z : zlen (be16_bytes z) = 2.
Proof. done. Qed.
#[export] Hint Rewrite zlen_nil zlen_cons zlen_app zlen_le_bytes zlen_be16 : dms_len.

Ltac zlen_simpl := autorewrite with dms_len in *.

Lemma zlen_0_nil l : zlen l = 0 -> l = [].
Proof. destruct l; [done|]. rewrite zlen_cons. pose proof (zlen_nonneg l). lia. Qed.

(** *** Slices *)

Lemma slice_app_l l1 l2 n : n = zlen l1 -> slice (l1 ++ l2) 0 n = l1.
Proof. intros ->. unfold slice, zlen. rewrite Nat2Z.id. cbn. apply take_app_length. Qed.

Lemma slice_app_mid l1 l2 l3 off n :
  off = zlen l1 -> n = zlen l2 -> slice (l1 ++ l2 ++ l3) off n = l2.
Proof.
  intros -> ->. unfold slice, zlen. rewrite !Nat2Z.id, drop_app_length.
  apply take_app_length.
Qed.

Lemma slice_app_tail l1 l2 off n :
  off = zlen l1 -> zlen l2 <= n -> slice (l1 ++ l2) off n = l2.
Proof.
  intros -> ?. unfold slice, zlen in *. rewrite Nat2Z.id, drop_app_length.
  apply take_ge. lia.
Qed.

Lemma slice_all l n : zlen l <= n -> slice l 0 n = l.
Proof. intros. unfold slice, zlen in *. cbn. apply take_ge. lia. Qed.

Lemma slice_nil l off : slice l off 0 = [].
Proof. done. Qed.

Lemma zlen_slice l off n :
  0 <= off -> 0 <= n -> off + n <= zlen l -> zlen (slice l off n) = n.
Proof. intros. unfold slice, zlen in *. rewrite length_take, length_drop. lia. Qed.

Lemma zlen_slice_tail l off n :
  0 <= off <= zlen l -> zlen l <= n -> zlen (slice l off n) = zlen l - off.
Proof. intros. unfold slice, zlen in *. rewrite length_take, length_drop. lia. Qed.

Lemma slice_slice l a b n :
  0 <= a -> 0 <= b -> 0 <= n -> slice l a b ++ slice l (a + b) n = slice l a (b + n).
Proof.
  intros. unfold slice. rewrite !Z2Nat.inj_add by lia.
  rewrite <- drop_drop. by rewrite take_take_drop.
Qed.

Lemma slice_split l n : 0 <= n <= zlen l -> l = slice l 0 n ++ slice l n (zlen l).
Proof.
  intros. unfold slice, zlen in *. rewrite Z2Nat.inj_0, drop_0.
  rewrite (take_ge (drop _ _)) by (rewrite length_drop; lia).
  by rewrite take_drop.
Qed.

(** *** Loads and stores *)

Lemma load_n_app l1 l2 l3 off n :
  off = zlen l1 -> n = zlen l2 -> load_n (l1 ++ l2 ++ l3) off n = Done l2.
Proof.
  intros -> ->. unfold load_n. pose proof (zlen_nonneg l1). pose proof (zlen_nonneg l2).
  pose proof (zlen_nonneg l3). zlen_simpl. bool_lia. by rewrite slice_app_mid.
Qed.

Lemma load_n_ok l off n :
  0 <= off -> 0 <= n -> off + n <= zlen l -> load_n l off n = Done (slice l off n).
Proof. intros. unfold load_n. by bool_lia. Qed.

Lemma load8_ok l off :
  0 <= off < zlen l -> exists b, load8 l off = Done b /\ b ∈ l.
Proof.
  intros. unfold load8. rewrite load_n_ok by lia. cbn [run_bind].
  pose proof (zlen_slice l off 1 ltac:(lia) ltac:(lia) ltac:(lia)) as Hlen.
  destruct (slice l off 1) as [|b bs] eqn:E; [done|].
  exists b. split; [done|].
  assert (b ∈ slice l off 1) as Hin by (rewrite E; by left).
  unfold slice in Hin. apply elem_of_take in Hin as (i & Hi & _).
  rewrite lookup_drop in Hi. by eapply list_elem_of_lookup_2.
Qed.

Lemma load8_app l1 b l2 off : off = zlen l1 -> load8 (l1 ++ b :: l2) off = Done b.
Proof. intros. unfold load8. by rewrite (load_n_app l1 [b] l2). Qed.

Lemma store_n_app l1 l2 l3 bs off :
  off = zlen l1 -> zlen bs = zlen l2 ->
  store_n (l1 ++ l2 ++ l3) off bs = Done (l1 ++ bs ++ l3).
Proof.
  intros -> Hbs. unfold store_n. pose proof (zlen_nonneg l1). pose proof (zlen_nonneg l2).
  pose proof (zlen_nonneg l3). zlen_simpl. bool_lia. f_equal. f_equal.
  - by apply slice_app_l.
  - f_equal. rewrite app_assoc. apply slice_app_tail; zlen_simpl; lia.
Qed.

Lemma store_n_ok l off bs :
  0 <= off -> off + zlen bs <= zlen l ->
  exists l', store_n l off bs = Done l' /\ zlen l' = zlen l.
Proof.
  intros. pose proof (zlen_nonneg bs). unfold store_n. bool_lia. eexists. split; [done|].
  zlen_simpl. rewrite zlen_slice, zlen_slice_tail by lia. lia.
Qed.

Lemma store_n_zlen l off bs l' : store_n l off bs = Done l' -> zlen l' = zlen l.
Proof.
  unfold store_n. split_guard; [|done]. guards_to_prop. intros [= <-].
  pose proof (zlen_nonneg bs). zlen_simpl. rewrite zlen_slice, zlen_slice_tail by lia. lia.
Qed.

(** *** memcpy_s *)

Lemma memcpy_s_copy l1 l2 l3 s doff dmax soff n bs :
  load_n s soff n = Done bs -> doff = zlen l1 -> zlen l2 = n -> n <= dmax <= RSIZE_MAX ->
  memcpy_s (Some (l1 ++ l2 ++ l3)) doff dmax (Some s) soff n
  = Done (EOK, Some (l1 ++ bs ++ l3)).
Proof.
  intros Hload -> <- ?. unfold memcpy_s. bool_lia. rewrite Hload. cbn [run_bind].
  rewrite (store_n_app l1 l2 l3); [done..|].
  unfold load_n in Hload. split_guard; [|done]. guards_to_prop. injection Hload as <-.
  rewrite zlen_slice; lia.
Qed.

Lemma memcpy_s_null doff dmax src soff n :
  memcpy_s None doff dmax src soff n = Done (EINVAL, None).
Proof. done. Qed.

(** Within the objects' bounds [memcpy_s] never has undefined behaviour, and it
    keeps the size of the destination. *)
Lemma memcpy_s_safe d doff dmax s soff n :
  0 <= doff -> 0 <= dmax -> doff + dmax <= zlen d ->
  0 <= soff -> 0 <= n -> soff + n <= zlen s ->
  exists ret d', memcpy_s (Some d) doff dmax (Some s) soff n = Done (ret, Some d')
    /\ zlen d' = zlen d /\ (ret = EOK <-> n <= dmax <= RSIZE_MAX).
Proof.
  intros. unfold memcpy_s. destruct (RSIZE_MAX <? dmax) eqn:E1.
  { guards_to_prop. eexists _, _. split; [done|]. split; [done|]. split; [done|lia]. }
  destruct (dmax <? n) eqn:E2; guards_to_prop.
  - destruct (store_n_ok d doff (zeros dmax)) as (d' & -> & ?); [lia|rewrite zlen_zeros; lia|].
    eexists _, _. split; [done|]. split; [done|]. split; [done|lia].
  - rewrite load_n_ok by lia. cbn [run_bind].
    destruct (store_n_ok d doff (slice s soff n)) as (d' & -> & ?);
      [lia|rewrite zlen_slice; lia|].
    eexists _, _. split; [done|]. split; [done|]. split; [lia|done].
Qed.

(** *** Little-endian representation *)

Lemma le_val_bytes w z : le_val (le_bytes w z) = z mod 2 ^ (8 * Z.of_nat w).
Proof.
  revert z. induction w as [|w IH]; intros z.
  - cbn. by rewrite Z.mod_1_r.
  - cbn [le_bytes le_val]. rewrite IH.
    replace (8 * Z.of_nat (S w)) with (8 + 8 * Z.of_nat w) by lia.
    rewrite Z.pow_add_r, Z.rem_mul_r by lia. done.
Qed.

Lemma le_val_range l : Forall is_u8 l -> 0 <= le_val l < 2 ^ (8 * zlen l).
Proof.
  induction 1 as [|b l Hb _ IH]; [done|].
  cbn [le_val]. rewrite zlen_cons, Z.mul_add_distr_l, Z.pow_add_r
    by (pose proof (zlen_nonneg l); lia).
  unfold is_u8 in Hb. change (2 ^ (8 * 1)) with 256. change (2 ^ 8) with 256 in *. nia.
Qed.

Lemma le_bytes_val l : Forall is_u8 l -> le_bytes (length l) (le_val l) = l.
Proof.
  induction 1 as [|b l Hb _ IH]; [done|].
  cbn [length le_bytes le_val]. unfold is_u8 in Hb. f_equal.
  - rewrite Z.mul_comm, Z.mod_add by lia. by apply Z.mod_small.
  - rewrite Z.mul_comm, Z.div_add, Z.div_small, Z.add_0_l by lia. done.
Qed.

Lemma le_bytes_u8 w z : Forall is_u8 (le_bytes w z).
Proof.
  revert z. induction w; intros; cbn [le_bytes]; constructor; [|done].
  by apply Z.mod_pos_bound.
Qed.
#[export] Hint Resolve le_bytes_u8 : dms.

(** Reading a field of [w] bytes from an encoding of [w] bytes. *)
Lemma memcpy_field_full w old s soff v :
  load_n s soff (Z.of_nat w) = Done (le_bytes w v) -> Z.of_nat w <= RSIZE_MAX ->
  memcpy_field w old (Some s) soff (Z.of_nat w) = Done (EOK, v mod 2 ^ (8 * Z.of_nat w)).
Proof.
  intros Hload ?. unfold memcpy_field.
  pose proof (memcpy_s_copy [] (le_bytes w old) [] s 0 (Z.of_nat w) soff (Z.of_nat w) _ Hload) as H'.
  rewrite !app_nil_r in H'. cbn [app] in H'. rewrite H';
    [|by zlen_simpl|by rewrite zlen_le_bytes|lia].
  cbn [run_bind]. by rewrite le_val_bytes.
Qed.

Lemma memcpy_field_safe w old s soff n :
  0 <= soff -> 0 <= n -> soff + n <= zlen s ->
  exists ret v, memcpy_field w old (Some s) soff n = Done (ret, v).
Proof.
  intros. unfold memcpy_field.
  destruct (memcpy_s_safe (le_bytes w old) 0 (Z.of_nat w) s soff n)
    as (ret & d' & -> & _ & _); try lia; [by rewrite zlen_le_bytes|].
  by eexists _, _.
Qed.

(** The big-endian 16-bit tags written by the TLV writers. *)
Lemma be16_read z : is_u16 z -> Z.lor (Z.shiftl (Z.shiftr z 8) 8) (Z.land z 255) = z.
Proof.
  intros _. change 255 with (Z.ones 8). rewrite <- Z.ldiff_ones_r by lia.
  rewrite Z.lor_comm. apply Z.bits_inj'. intros n Hn.
  rewrite Z.lor_spec, Z.land_spec, Z.ldiff_spec.
  by destruct (Z.testbit z n), (Z.testbit (Z.ones 8) n).
Qed.

Lemma store_n_u8 d off bs d' :
  Forall is_u8 d -> Forall is_u8 bs -> store_n d off bs = Done d' -> Forall is_u8 d'.
Proof.
  intros Hd Hbs. unfold store_n. split_guard; [|done]. intros [= <-].
  unfold slice. rewrite !Forall_app. split_and!; [|done|]; by apply Forall_take, Forall_drop.
Qed.

Lemma load_n_u8 s off n bs : Forall is_u8 s -> load_n s off n = Done bs -> Forall is_u8 bs.
Proof.
  intros Hs. unfold load_n. split_guard; [|done]. intros [= <-].
  unfold slice. by apply Forall_take, Forall_drop.
Qed.

Lemma zeros_u8 n : Forall is_u8 (zeros n).
Proof. unfold zeros. by apply Forall_replicate. Qed.
#[export] Hint Resolve zeros_u8 : dms.

(** A field filled from bytes is in the range of its type. *)
Lemma memcpy_field_range w old s soff n ret v :
  Forall is_u8 s -> memcpy_field w old (Some s) soff n = Done (ret, v) ->
  0 <= v < 2 ^ (8 * Z.of_nat w).
Proof.
  intros Hs. unfold memcpy_field, memcpy_s.
  assert (forall l, Forall is_u8 l -> zlen l = Z.of_nat w -> 0 <= le_val l < 2 ^ (8 * Z.of_nat w))
    as Hval by (intros l ? <-; by apply le_val_range).
  assert (forall off bs d, Forall is_u8 bs -> store_n (le_bytes w old) off bs = Done d ->
    0 <= le_val d < 2 ^ (8 * Z.of_nat w)) as Hstore.
  { intros off bs d ? Hst. apply Hval.
    - eapply store_n_u8; [apply le_bytes_u8|done|done].
    - by rewrite (store_n_zlen _ _ _ _ Hst), zlen_le_bytes. }
  split_guard; [intros [= _ <-]; apply Hval; auto using zlen_le_bytes with dms|].
  split_guard.
  - destruct (store_n _ _ (zeros _)) eqn:Hst; [|done..]. intros [= _ <-].
    eapply Hstore; [|done]. apply zeros_u8.
  - destruct (load_n s soff n) eqn:Hl; [cbn [run_bind]|done..].
    destruct (store_n _ _ _) eqn:Hst; [|done..]. intros [= _ <-].
    eapply Hstore; [|done]. by eapply load_n_u8.
Qed.

Lemma run_bind_Done {A B} (m : run A) (k : A -> run B) r :
  run_bind m k = Done r -> exists a, m = Done a /\ k a = Done r.
Proof. destruct m; [|done..]. intros. by eexists. Qed.

Lemma zeros_app a b : 0 <= a -> 0 <= b -> zeros (a + b) = zeros a ++ zeros b.
Proof. intros. unfold zeros. rewrite <- replicate_add. f_equal. lia. Qed.

Lemma zeros_0 : zeros 0 = [].
Proof. done. Qed.

Lemma slice_u8 l off n : Forall is_u8 l -> Forall is_u8 (slice l off n).
Proof. intros. unfold slice. by apply Forall_take, Forall_drop. Qed.
#[export] Hint Resolve slice_u8 : dms.

Lemma slice_of_slice l a b off n :
  0 <= a -> 0 <= off -> 0 <= n -> off + n <= b ->
  slice (slice l a b) off n = slice l (a + off) n.
Proof.
  intros. unfold slice. rewrite Z2Nat.inj_add by lia. rewrite <- drop_drop.
  rewrite (take_drop_commute (take _ _)), take_take, Nat.min_l by lia.
  by rewrite <- take_drop_commute.
Qed.
