(* ===== verification/ErrorCodes.v ===== *)
(** * Error codes

    The result codes the modelled functions return, with the values of
    common/include/dtbcollabmgr_log.h (Module [DtbCollab], base 29425664) and
    common/include/dtbschedmgr_log.h (Module [Dms], base 29360128).  [ERR_OK]
    and [SOFTBUS_OK] are both zero; the sources compare a [SOFTBUS_OK] result
    with [ERR_OK]. *)

From Stdlib Require Import ZArith.
Open Scope Z_scope.

Definition ERR_OK : Z := 0.
Definition SOFTBUS_OK : Z := 0.

Module DtbCollab.
Definition DMS_SERVICE_ERR_OFFSET : Z := 29425664.
Definition INVALID_PARAMETERS_ERR : Z := DMS_SERVICE_ERR_OFFSET.
Definition WRITE_TLV_ITEM_TO_BUFFER_FAILED : Z := DMS_SERVICE_ERR_OFFSET + 23.
Definition READ_TLV_ITEM_FROM_BUFFER_FAILED : Z := DMS_SERVICE_ERR_OFFSET + 24.
Definition GET_SESSION_OPTION_FAILED : Z := DMS_SERVICE_ERR_OFFSET + 25.
Definition WRITE_SESSION_HEADER_FAILED : Z := DMS_SERVICE_ERR_OFFSET + 26.
Definition WRITE_SEND_DATA_BUFFER_FAILED : Z := DMS_SERVICE_ERR_OFFSET + 27.
Definition SEND_DATA_BY_SOFTBUS_FAILED : Z := DMS_SERVICE_ERR_OFFSET + 28.
Definition INVALID_SESSION_HEADER_FLAG_TYPE : Z := DMS_SERVICE_ERR_OFFSET + 31.
Definition INVALID_SESSION_HEADER_TOTAL_LEN : Z := DMS_SERVICE_ERR_OFFSET + 32.
Definition INVALID_SESSION_HEADER_SEQ_NUM : Z := DMS_SERVICE_ERR_OFFSET + 33.
Definition INVALID_SESSION_HEADER_SUB_SEQ : Z := DMS_SERVICE_ERR_OFFSET + 34.
Definition WRITE_PAYLOAD_TO_BUFFER_FAILED : Z := DMS_SERVICE_ERR_OFFSET + 35.
Definition FLAG_TYPE_NOT_MATCH_BUFFER_STATE : Z := DMS_SERVICE_ERR_OFFSET + 36.
Definition PEER_APP_REJECTED : Z := DMS_SERVICE_ERR_OFFSET + 66.
Definition PEER_ABILITY_NO_ONCOLLABORATE : Z := DMS_SERVICE_ERR_OFFSET + 69.
Definition INVALID_SESSION_HEADER_PACKET_LEN : Z := 29360162.
Definition INVALID_SESSION_HEADER_PAYLOAD_LEN : Z := 29360163.
Definition INVALID_SESSION_HEADER_DATA_OFFSET : Z := 29360164.
Definition INVALID_SESSION_HEADER_DATA_RANGE : Z := 29360165.
Definition NULL_POINTER_ERROR : Z := DMS_SERVICE_ERR_OFFSET + 1.
Definition CREATE_SOCKET_FAILED : Z := DMS_SERVICE_ERR_OFFSET + 2.
Definition LISTEN_SOCKET_FAILED : Z := DMS_SERVICE_ERR_OFFSET + 3.
Definition BIND_SOCKET_FAILED : Z := DMS_SERVICE_ERR_OFFSET + 4.
Definition NULL_EVENT_HANDLER : Z := DMS_SERVICE_ERR_OFFSET + 5.
Definition POST_TASK_FAILED : Z := DMS_SERVICE_ERR_OFFSET + 6.
Definition NO_SUCH_CHANNEL : Z := DMS_SERVICE_ERR_OFFSET + 9.
Definition CHANNEL_NUM_EXCEED_LIMIT : Z := DMS_SERVICE_ERR_OFFSET + 10.
Definition CREATE_SERVER_CHANNEL_FAILED : Z := DMS_SERVICE_ERR_OFFSET + 11.
Definition CREATE_CLIENT_CHANNEL_FAILED : Z := DMS_SERVICE_ERR_OFFSET + 12.
Definition INVALID_CHANNEL_ID : Z := DMS_SERVICE_ERR_OFFSET + 13.
Definition INVALID_CHANNEL_NAME : Z := DMS_SERVICE_ERR_OFFSET + 15.
Definition INVALID_LISTENER : Z := DMS_SERVICE_ERR_OFFSET + 16.
Definition INVALID_SOCKET_ID : Z := DMS_SERVICE_ERR_OFFSET + 17.
Definition NO_CONNECTED_SOCKET_ID : Z := DMS_SERVICE_ERR_OFFSET + 19.
Definition CONNECT_CHANNEL_FAILED : Z := DMS_SERVICE_ERR_OFFSET + 20.
Definition RECV_DATA_EMPTY : Z := DMS_SERVICE_ERR_OFFSET + 21.
Definition COPY_DATA_TO_BUFFER_FAILED : Z := DMS_SERVICE_ERR_OFFSET + 22.
Definition DATA_SIZE_EXCEED_LIMIT : Z := DMS_SERVICE_ERR_OFFSET + 29.
Definition PARSE_AV_TRANS_STREAM_EXT_FAILED : Z := DMS_SERVICE_ERR_OFFSET + 37.
Definition ERR_JSON_GENERATION_FAILED : Z := DMS_SERVICE_ERR_OFFSET + 51.
Definition REGISTER_FILE_SCHEMA_FAILED : Z := DMS_SERVICE_ERR_OFFSET + 52.
Definition ONLY_SUPPORT_ONE_STREAM : Z := DMS_SERVICE_ERR_OFFSET + 44.
Definition RECEIVE_STREAM_NOT_START : Z := DMS_SERVICE_ERR_OFFSET + 45.
Definition STREAM_CHANNEL_NOT_EXITS : Z := DMS_SERVICE_ERR_OFFSET + 47.
Definition CONNECT_MESSAGE_CHANNEL_FAILED : Z := DMS_SERVICE_ERR_OFFSET + 48.
Definition CONNECT_DATA_CHANNEL_FAILED : Z := DMS_SERVICE_ERR_OFFSET + 49.
Definition FAILED_TO_CREATE_MESSAGE_CHANNEL : Z := DMS_SERVICE_ERR_OFFSET + 55.
Definition FAILED_TO_CREATE_DATA_CHANNEL : Z := DMS_SERVICE_ERR_OFFSET + 56.
Definition FAILED_TO_CREATE_STREAM_CHANNEL : Z := DMS_SERVICE_ERR_OFFSET + 57.
Definition FAILED_TO_CREATE_SEND_FILE_CHANNEL : Z := DMS_SERVICE_ERR_OFFSET + 58.
Definition FAILED_TO_CREATE_RECEIVE_FILE_CHANNEL : Z := DMS_SERVICE_ERR_OFFSET + 59.
Definition CONNECT_STREAM_CHANNEL_FAILED : Z := DMS_SERVICE_ERR_OFFSET + 60.
Definition CONNECT_SEND_FILE_CHANNEL_FAILED : Z := DMS_SERVICE_ERR_OFFSET + 61.
Definition SAME_SESSION_IS_CONNECTING : Z := DMS_SERVICE_ERR_OFFSET + 62.
Definition INVALID_SESSION_ID : Z := DMS_SERVICE_ERR_OFFSET + 63.
Definition COLLAB_PERMISSION_DENIED : Z := DMS_SERVICE_ERR_OFFSET + 64.
Definition CONNECTED_SESSION_EXISTS : Z := DMS_SERVICE_ERR_OFFSET + 65.
Definition LOCAL_WIFI_NOT_OPEN : Z := DMS_SERVICE_ERR_OFFSET + 67.
Definition PEER_WIFI_NOT_OPEN : Z := DMS_SERVICE_ERR_OFFSET + 68.
Definition NOT_FIND_SERVICE_REGISTRY : Z := 29360161.
End DtbCollab.

Module Dms.
Definition INVALID_PARAMETERS_ERR : Z := 29360128.
Definition NO_CONNECT_CALLBACK_ERR : Z := 29360130.
Definition INVALID_REMOTE_PARAMETERS_ERR : Z := 29360131.
Definition GET_LOCAL_DEVICE_ERR : Z := 29360144.
Definition IPC_CALL_NORESPONSE_ERR : Z := 29360149.
Definition NOTIFYCOMPLETECONTINUATION_FAILED : Z := 29360152.
Definition CONTINUE_ABILITY_TIMEOUT_ERR : Z := 29360153.
Definition SOFTBUS_SERVICE_ERR : Z := 29360170.
Definition REMOTE_DEVICE_BIND_ABILITY_ERR : Z := 29360132.
Definition SOFTBUS_QUERY_VALID_QOS_ERR : Z := 29360342.
Definition NO_MISSION_INFO_FOR_MISSION_ID : Z := 29360221.
Definition OPERATION_DEVICE_NOT_INITIATOR_OR_TARGET : Z := 29360222.
Definition CONTINUE_ALREADY_IN_PROGRESS : Z := 29360223.
Definition CONTINUE_SEND_EVENT_FAILED : Z := 29360225.
Definition CONTINUE_STATE_MACHINE_INVALID_STATE : Z := 29360226.
Definition CONTINUE_SESSION_SHUTDOWN : Z := 29360227.
Definition CONTINUE_CALL_CONTINUE_ABILITY_FAILED : Z := 29360228.
Definition CONTINUE_CALL_START_ABILITY_FAILED : Z := 29360229.
Definition CONTINUE_SINK_ABILITY_TERMINATED : Z := 29360230.
Definition MISSION_NOT_CONTINUE_ACTIVE : Z := 29360233.
Definition DMS_GET_WINDOW_FAILED_FROM_SCB : Z := 29360238.
Definition CAN_NOT_FOUND_MODULE_ERR : Z := 29360239.
Definition ERR_DMS_WORK_ABNORMALLY : Z := 16300501.
Definition ERR_CONTINUE_ALREADY_IN_PROGRESS : Z := 16300506.
Definition ERR_BIND_REMOTE_HOTSPOT_ENABLE_STATE : Z := 16300508.
Definition ERR_BIND_REMOTE_IN_BUSY_LINK : Z := 16300509.
Definition SEND_REQUEST_DEF_FAIL : Z := 29360163.
Definition DMS_START_CONTROL_PERMISSION_DENIED : Z := 29360220.
Definition DMS_NOT_FOREGROUND_USER : Z := 29360236.
Definition DMS_NOT_GET_MANAGER : Z := 29360237.
Definition DMS_PERMISSION_DENIED : Z := 29360157.
Definition MISSION_NOT_FOCUSED : Z := 29360234.
Definition COLLAB_SEND_EVENT_FAILED : Z := 29360330.
Definition FIND_REMOTE_DEVICEID_ERR : Z := 29360332.
Definition COLLAB_SESSION_SHUTDOWN : Z := 29360333.
Definition FIND_LOCAL_DEVICEID_ERR : Z := 29360334.
Definition GET_APPID_ERR : Z := 29360335.
Definition GET_BUNDLENAMELIST_ERR : Z := 29360336.
Definition GET_ACCOUNT_INFO_ERR : Z := 29360337.
Definition COLLAB_STATE_MACHINE_INVALID_STATE : Z := 29360339.
Definition COLLAB_ABILITY_TIMEOUT_ERR : Z := 29360340.
Definition COLLAB_ABILITY_REJECT_ERR : Z := 29360341.
Definition ERR_CAPABILITY_NOT_SUPPORT : Z := 16300509.
End Dms.
