(* ===== verification/DataBuffer.v ===== *)
(** * Data buffers

    [AVTransDataBuffer] (services/dtbcollabmgr, channel_manager) and
    [DSchedDataBuffer] (services/dtbschedmgr, softbus_adapter/transport) are the
    same class in two name spaces: a heap array with a window
    [rangeOffset_, rangeOffset_ + rangeLength_) selected by [SetRange].  The
    object is the record [DataBuffer]; [data_ = None] is the null pointer the
    constructor leaves when the capacity is zero or too large.  Operator [new]
    is taken to succeed (it throws otherwise). *)

From Stdlib Require Import ZArith Lia.
From stdpp Require Import base list option.
From S2P Require Import Prelude.

Record DataBuffer : Type := mkDataBuffer {
  capacity_ : Z;
  rangeOffset_ : Z;
  rangeLength_ : Z;
  data_ : option bytes
}.

Definition DSCHED_MAX_BUFFER_SIZE : Z := 80 * 1024 * 1024.

(** The constructor [AVTransDataBuffer::AVTransDataBuffer(size_t capacity)]. *)
Definition make_buffer (capacity : Z) : DataBuffer :=
  if negb (capacity =? 0) && (capacity <? DSCHED_MAX_BUFFER_SIZE) then
    mkDataBuffer capacity 0 capacity (Some (zeros capacity))
  else mkDataBuffer 0 0 0 None.

Definition Size (b : DataBuffer) : Z := rangeLength_ b.
Definition Offset (b : DataBuffer) : Z := rangeOffset_ b.
Definition Capacity (b : DataBuffer) : Z := capacity_ b.

(** [Data()]: the null pointer, or the offset of the window in the array. *)
Definition Data (b : DataBuffer) : option Z :=
  match data_ b with
  | None => None
  | Some _ => Some (rangeOffset_ b)
  end.

(** [SetRange]: the sum of the arguments is a [size_t] and may wrap. *)
Definition SetRange (b : DataBuffer) (offset size : Z) : Z * DataBuffer :=
  if negb (offset <=? capacity_ b) || negb (u64 (offset + size) <=? capacity_ b) then (-1, b)
  else (0, mkDataBuffer (capacity_ b) offset size (data_ b)).

(** Writing through the pointer replaces the array and nothing else. *)
Definition set_data (b : DataBuffer) (m : option bytes) : DataBuffer :=
  mkDataBuffer (capacity_ b) (rangeOffset_ b) (rangeLength_ b) m.

(** The same class in [namespace DistributedSchedule]. *)
Module DSched.
Definition make_buffer (capacity : Z) : DataBuffer := DataBuffer.make_buffer capacity.
Definition Size (b : DataBuffer) : Z := DataBuffer.Size b.
Definition Data (b : DataBuffer) : option Z := DataBuffer.Data b.
Definition SetRange (b : DataBuffer) (offset size : Z) : Z * DataBuffer :=
  DataBuffer.SetRange b offset size.
End DSched.

(** What a reader of the window sees. *)
Definition content (b : DataBuffer) : bytes :=
  match data_ b with
  | None => []
  | Some d => slice d (rangeOffset_ b) (rangeLength_ b)
  end.

(** The representation invariant of the class. *)
Definition buffer_wf (b : DataBuffer) : Prop :=
  0 <= rangeOffset_ b /\ 0 <= rangeLength_ b /\
  rangeOffset_ b + rangeLength_ b <= capacity_ b /\
  match data_ b with
  | None => capacity_ b = 0
  | Some d => zlen d = capacity_ b /\ 0 < capacity_ b < DSCHED_MAX_BUFFER_SIZE
  end.

(** A buffer whose window is the whole array, holding [l]. *)
Definition buffer_of (l : bytes) : DataBuffer := mkDataBuffer (zlen l) 0 (zlen l) (Some l).

Lemma make_buffer_ok n :
  0 < n < DSCHED_MAX_BUFFER_SIZE -> make_buffer n = buffer_of (zeros n).
Proof.
  intros. unfold make_buffer, buffer_of. rewrite zlen_zeros by lia. by bool_lia.
Qed.

Lemma make_buffer_null n :
  n = 0 \/ DSCHED_MAX_BUFFER_SIZE <= n -> make_buffer n = mkDataBuffer 0 0 0 None.
Proof. intros [->|?]; [done|]. unfold make_buffer. bool_lia. by rewrite andb_false_r. Qed.

Lemma make_buffer_wf n : 0 <= n -> buffer_wf (make_buffer n).
Proof.
  intros. unfold make_buffer. split_guard; guards_to_prop.
  - unfold buffer_wf; cbn. rewrite zlen_zeros by lia. lia.
  - by unfold buffer_wf; cbn.
Qed.
#[export] Hint Resolve make_buffer_wf : dms.

Lemma buffer_of_wf l :
  0 < zlen l < DSCHED_MAX_BUFFER_SIZE -> buffer_wf (buffer_of l).
Proof. intros. unfold buffer_wf, buffer_of; cbn. lia. Qed.
#[export] Hint Resolve buffer_of_wf : dms.

Lemma content_buffer_of l : content (buffer_of l) = l.
Proof. unfold content, buffer_of; cbn. by apply slice_all. Qed.

Lemma set_data_buffer_of l l' :
  zlen l' = zlen l -> set_data (buffer_of l) (Some l') = buffer_of l'.
Proof. unfold set_data, buffer_of. cbn. by intros ->. Qed.

Lemma SetRange_wf b offset size :
  buffer_wf b -> 0 <= offset -> 0 <= size < 2 ^ 63 -> capacity_ b < 2 ^ 63 ->
  buffer_wf (SetRange b offset size).2.
Proof.
  intros (H1 & H2 & H3 & H4) ? ? ?. unfold SetRange. split_guard; [done|].
  guards_to_prop. rewrite u64_id in * by lia. unfold buffer_wf; cbn.
  split_and!; [lia..|done].
Qed.

Lemma SetRange_prefix l n :
  0 <= n <= zlen l -> zlen l < DSCHED_MAX_BUFFER_SIZE ->
  exists b, SetRange (buffer_of l) 0 n = (0, b) /\ content b = slice l 0 n /\ Size b = n.
Proof.
  intros ? Hmax. unfold DSCHED_MAX_BUFFER_SIZE in Hmax. unfold SetRange; cbn -[u64].
  rewrite u64_id by lia. bool_lia. eexists. split; [done|]. done.
Qed.
