(* ===== verification/Tlv.v ===== *)
(** * Type-length-value items

    The byte-level steps the three TLV codecs of the repository share
    ([SessionDataHeader] and [MessageDataHeader] of dtbcollabmgr, and the
    header of [DSchedSoftbusSession] of dtbschedmgr): two big-endian 16-bit
    words, then the value in host order.  The hosts the code is built for are
    little-endian. *)

From Stdlib Require Import ZArith Lia.
From stdpp Require Import base list option.
From S2P Require Import Prelude.

(** [struct TlvItem] / [struct MessageTlvItem]. *)
Record TlvItem : Type := mkTlvItem { type : Z; len : Z; value : Z }.

Definition HEADER_TYPE_BYTES : Z := 2.
Definition HEADER_LEN_BYTES : Z := 2.

(** The stores of the writers: [*current++ = ...] four times, then
    [memcpy_s(current, dmax, &item.value, item.len)]. *)
Definition put_tlv (item : TlvItem) (mem : bytes) (header dmax : Z) : run (Z * bytes) :=
  let* mem := store8 mem header (Z.shiftr (type item) 8) in
  let* mem := store8 mem (header + 1) (Z.land (type item) 255) in
  let* mem := store8 mem (header + 2) (Z.shiftr (len item) 8) in
  let* mem := store8 mem (header + 3) (Z.land (len item) 255) in
  let* (ret, mem') :=
    memcpy_s (Some mem) (header + 4) dmax (Some (le_bytes 4 (value item))) 0 (len item) in
  Done (ret, match mem' with Some m => m | None => mem end).

(** [(header[0] << 8) | header[1]], returned as [uint16_t]. *)
Definition ReadUint16 (mem : bytes) (header : Z) : run Z :=
  let* hi := load8 mem header in
  let* lo := load8 mem (header + 1) in
  Done (u16 (Z.lor (Z.shiftl hi 8) lo)).

(** The bytes an item stands for on the wire. *)
Definition tlv_bytes (ty : Z) (w : nat) (v : Z) : bytes :=
  be16_bytes ty ++ be16_bytes (Z.of_nat w) ++ le_bytes w v.

Lemma zlen_tlv_bytes ty w v : zlen (tlv_bytes ty w v) = 4 + Z.of_nat w.
Proof. unfold tlv_bytes. zlen_simpl. lia. Qed.
#[export] Hint Rewrite zlen_tlv_bytes : dms_len.

Lemma be16_bytes_u8 z : is_u16 z -> Forall is_u8 (be16_bytes z).
Proof.
  unfold_ints. intros. unfold be16_bytes. repeat constructor.
  - apply Z.shiftr_nonneg. lia.
  - rewrite Z.shiftr_div_pow2 by lia. apply Z.div_lt_upper_bound; lia.
  - apply Z.land_nonneg. lia.
  - change 255 with (Z.ones 8). rewrite Z.land_ones by lia. apply Z.mod_pos_bound. lia.
Qed.

Lemma tlv_bytes_u8 ty w v :
  is_u16 ty -> is_u16 (Z.of_nat w) -> Forall is_u8 (tlv_bytes ty w v).
Proof.
  intros. unfold tlv_bytes.
  apply Forall_app_2; [|apply Forall_app_2]; auto using be16_bytes_u8, le_bytes_u8.
Qed.

Lemma slice_le_bytes w v : (w <= 4)%nat -> slice (le_bytes 4 v) 0 (Z.of_nat w) = le_bytes w v.
Proof.
  intros. unfold slice. rewrite Nat2Z.id. change (Z.to_nat 0) with 0%nat. rewrite drop_0.
  do 5 (destruct w as [|w]; [reflexivity|]). lia.
Qed.

(** Writing an item over [4 + w] bytes of the buffer. *)
Lemma put_tlv_app pre old post ty w v header dmax :
  (w <= 4)%nat -> header = zlen pre -> zlen old = 4 + Z.of_nat w ->
  Z.of_nat w <= dmax <= RSIZE_MAX ->
  put_tlv (mkTlvItem ty (Z.of_nat w) v) (pre ++ old ++ post) header dmax
  = Done (EOK, pre ++ tlv_bytes ty w v ++ post).
Proof.
  intros Hw -> Hold ?. unfold put_tlv; cbn [type len value].
  destruct old as [|o0 [|o1 [|o2 [|o3 old]]]]; zlen_simpl; try lia; try (pose proof (zlen_nonneg old); lia).
  unfold store8. rewrite <- !app_comm_cons.
  assert (forall a b c d o, pre ++ a :: b :: c :: d :: o ++ post
     = (pre ++ [a;b;c;d]) ++ o ++ post) as Happ4 by (intros; by rewrite <- app_assoc).
  rewrite (store_n_app pre [o0] (o1 :: o2 :: o3 :: old ++ post)) by done. cbn [run_bind].
  set (b0 := Z.shiftr ty 8).
  replace (pre ++ [b0] ++ o1 :: o2 :: o3 :: old ++ post)
    with ((pre ++ [b0]) ++ [o1] ++ o2 :: o3 :: old ++ post) by (by rewrite <- app_assoc).
  rewrite store_n_app by (zlen_simpl; lia). cbn [run_bind]. set (b1 := Z.land ty 255).
  replace ((pre ++ [b0]) ++ [b1] ++ o2 :: o3 :: old ++ post)
    with ((pre ++ [b0; b1]) ++ [o2] ++ o3 :: old ++ post) by (by rewrite <- !app_assoc).
  rewrite store_n_app by (zlen_simpl; lia). cbn [run_bind]. set (b2 := Z.shiftr (Z.of_nat w) 8).
  replace ((pre ++ [b0; b1]) ++ [b2] ++ o3 :: old ++ post)
    with ((pre ++ [b0; b1; b2]) ++ [o3] ++ old ++ post) by (by rewrite <- !app_assoc).
  rewrite store_n_app by (zlen_simpl; lia). cbn [run_bind]. set (b3 := Z.land (Z.of_nat w) 255).
  replace ((pre ++ [b0; b1; b2]) ++ [b3] ++ old ++ post)
    with ((pre ++ [b0; b1; b2; b3]) ++ old ++ post) by (by rewrite <- !app_assoc).
  rewrite (memcpy_s_copy _ old post _ _ _ _ _ (le_bytes w v)).
  - cbn [run_bind]. unfold tlv_bytes, be16_bytes. by rewrite <- !app_assoc.
  - rewrite load_n_ok by (rewrite ?zlen_le_bytes; lia). by rewrite slice_le_bytes.
  - zlen_simpl. lia.
  - lia.
  - lia.
Qed.

(** Writing an item over the zeros behind [pre]. *)
Lemma put_tlv_zeros pre n ty w v header dmax :
  (w <= 4)%nat -> header = zlen pre -> 4 + Z.of_nat w <= n -> Z.of_nat w <= dmax <= RSIZE_MAX ->
  put_tlv (mkTlvItem ty (Z.of_nat w) v) (pre ++ zeros n) header dmax
  = Done (EOK, (pre ++ tlv_bytes ty w v) ++ zeros (n - (4 + Z.of_nat w))).
Proof.
  intros. replace n with (4 + Z.of_nat w + (n - (4 + Z.of_nat w))) at 1 by lia.
  rewrite zeros_app, put_tlv_app by (lia || done || (rewrite zlen_zeros; lia)).
  by rewrite <- app_assoc.
Qed.

Lemma ReadUint16_be16 pre ty post header :
  is_u16 ty -> header = zlen pre ->
  ReadUint16 (pre ++ be16_bytes ty ++ post) header = Done ty.
Proof.
  intros Hty ->. unfold ReadUint16, be16_bytes. cbn [app].
  rewrite load8_app by done. cbn [run_bind].
  replace (pre ++ Z.shiftr ty 8 :: Z.land ty 255 :: post)
    with ((pre ++ [Z.shiftr ty 8]) ++ Z.land ty 255 :: post) by (by rewrite <- app_assoc).
  rewrite load8_app by (zlen_simpl; lia). cbn [run_bind]. by rewrite be16_read, u16_id.
Qed.

Lemma ReadUint16_safe mem header :
  0 <= header -> header + 2 <= zlen mem ->
  exists z, ReadUint16 mem header = Done z /\ is_u16 z.
Proof.
  intros. unfold ReadUint16.
  destruct (load8_ok mem header) as (hi & -> & _); [lia|]. cbn [run_bind].
  destruct (load8_ok mem (header + 1)) as (lo & -> & _); [lia|]. cbn [run_bind].
  eexists. split; [done|]. auto with dms.
Qed.

(** Reading back the three parts of an item. *)
Lemma tlv_read_type pre ty w v post header :
  is_u16 ty -> header = zlen pre ->
  ReadUint16 (pre ++ tlv_bytes ty w v ++ post) header = Done ty.
Proof. intros. unfold tlv_bytes. rewrite <- app_assoc. by apply ReadUint16_be16. Qed.

Lemma tlv_read_len pre ty w v post header :
  Z.of_nat w < 65536 -> header = zlen pre + 2 ->
  ReadUint16 (pre ++ tlv_bytes ty w v ++ post) header = Done (Z.of_nat w).
Proof.
  intros ? ->. unfold tlv_bytes. rewrite <- !app_assoc, (app_assoc pre).
  apply ReadUint16_be16; [unfold_ints; lia|]. by zlen_simpl.
Qed.

Lemma tlv_read_value pre ty w v post header :
  header = zlen pre + 4 ->
  load_n (pre ++ tlv_bytes ty w v ++ post) header (Z.of_nat w) = Done (le_bytes w v).
Proof.
  intros ->. unfold tlv_bytes. rewrite <- !app_assoc, !(app_assoc pre).
  rewrite !(app_assoc (pre ++ _)). apply load_n_app; by zlen_simpl; lia.
Qed.
