(* ===== verification/SessionHeader.v ===== *)
(** * The session header of the collaboration channel

    [SessionDataHeader] of services/dtbcollabmgr (channel_manager): the eight
    TLV items in front of every packet of a bytes channel, its writer
    [Serialize] and its reader [Deserialize] with the checks on the announced
    lengths.  Uninitialised members of the object the reader fills are the
    parameter [junk]: whatever the storage held. *)

From Stdlib Require Import ZArith Lia.
From stdpp Require Import base list option.
From S2P Require Import Prelude ErrorCodes DataBuffer Tlv.
Import ErrorCodes.DtbCollab.

(** ** Types *)

(** [enum class FRAG_TYPE : uint8_t]; the reader copies any byte into it. *)
Definition FRAG_NULL : Z := 0.
Definition FRAG_START : Z := 1.
Definition FRAG_MID : Z := 2.
Definition FRAG_END : Z := 3.
Definition FRAG_START_END : Z := 4.

(** [enum class TLV_TYPE : uint16_t]. *)
Definition TLV_TYPE_VERSION : Z := 1001.
Definition TLV_TYPE_FRAG_FLAG : Z := 1002.
Definition TLV_TYPE_DATA_TYPE : Z := 1003.
Definition TLV_TYPE_SEQ_NUM : Z := 1004.
Definition TLV_TYPE_TOTAL_LEN : Z := 1005.
Definition TLV_TYPE_SUB_SEQ : Z := 1006.
Definition TLV_TYPE_PAYLOAD_LEN : Z := 1007.
Definition TLV_TYPE_PACKET_LEN : Z := 1008.

Record SessionDataHeader : Type := mkHeader {
  version_ : Z;
  fragFlag_ : Z;
  dataType_ : Z;
  seqNum_ : Z;
  totalLen_ : Z;
  packetLen_ : Z;
  payloadLen_ : Z;
  subSeq_ : Z
}.

Definition PROTOCOL_VERSION : Z := 1.
Definition HEADER_TLV_NUM : Z := 8.
Definition HEADER_UINT8_NUM : Z := 1.
Definition HEADER_UINT16_NUM : Z := 2.
Definition HEADER_UINT32_NUM : Z := 5.
Definition HEADER_LEN : Z :=
  2 * 2 * HEADER_TLV_NUM + 2 * HEADER_UINT16_NUM + 4 * HEADER_UINT32_NUM + 1 * HEADER_UINT8_NUM.
Definition BASE_HEADER_LEN : Z :=
  2 * 2 * HEADER_TLV_NUM + 2 * HEADER_UINT16_NUM + 4 * HEADER_UINT32_NUM + 1 * HEADER_UINT8_NUM.
Definition BINARY_DATA_MAX_TOTAL_LEN : Z := 100 * 1024 * 1024.
Definition BINARY_PAYLOAD_MAX_LEN : Z := 4 * 1024 * 1024.

(** [HEADER_LEN_VERSION_MAP], in key order. *)
Definition HEADER_LEN_VERSION_MAP : list (Z * Z) := [(PROTOCOL_VERSION, HEADER_LEN)].

(** ** Writer

    The buffer is the array [mem] and [header] the offset of the write pointer;
    [mem = None] is the null pointer. *)

Definition WriteTlvItemToBuffer (tlvItem : TlvItem) (mem : option bytes) (header bufLen : Z)
    : run (Z * option bytes) :=
  match mem with
  | None => if header =? 0 then Done (INVALID_PARAMETERS_ERR, None) else Undefined
  | Some m =>
    let* (ret, m') := put_tlv tlvItem m header (u64 (bufLen - 4)) in
    if negb (ret =? EOK) then Done (WRITE_TLV_ITEM_TO_BUFFER_FAILED, Some m')
    else Done (ERR_OK, Some m')
  end.

(** The return code of the item writer is dropped by all eight callers. *)
Definition WriteVersion (h : SessionDataHeader) (mem : option bytes) (header bufLen : Z)
    : run (Z * option bytes) :=
  let item := mkTlvItem TLV_TYPE_VERSION 2 (version_ h) in
  let* (_, mem) := WriteTlvItemToBuffer item mem header bufLen in
  Done (HEADER_TYPE_BYTES + HEADER_LEN_BYTES + 2, mem).

Definition WriteFragFlag (h : SessionDataHeader) (mem : option bytes) (header bufLen : Z)
    : run (Z * option bytes) :=
  let item := mkTlvItem TLV_TYPE_FRAG_FLAG 1 (fragFlag_ h) in
  let* (_, mem) := WriteTlvItemToBuffer item mem header bufLen in
  Done (HEADER_TYPE_BYTES + HEADER_LEN_BYTES + 1, mem).

Definition WriteDataType (h : SessionDataHeader) (mem : option bytes) (header bufLen : Z)
    : run (Z * option bytes) :=
  let item := mkTlvItem TLV_TYPE_DATA_TYPE 4 (dataType_ h) in
  let* (_, mem) := WriteTlvItemToBuffer item mem header bufLen in
  Done (HEADER_TYPE_BYTES + HEADER_LEN_BYTES + 4, mem).

Definition WriteSeqNum (h : SessionDataHeader) (mem : option bytes) (header bufLen : Z)
    : run (Z * option bytes) :=
  let item := mkTlvItem TLV_TYPE_SEQ_NUM 4 (seqNum_ h) in
  let* (_, mem) := WriteTlvItemToBuffer item mem header bufLen in
  Done (HEADER_TYPE_BYTES + HEADER_LEN_BYTES + 4, mem).

Definition WriteTotalLen (h : SessionDataHeader) (mem : option bytes) (header bufLen : Z)
    : run (Z * option bytes) :=
  let item := mkTlvItem TLV_TYPE_TOTAL_LEN 4 (totalLen_ h) in
  let* (_, mem) := WriteTlvItemToBuffer item mem header bufLen in
  Done (HEADER_TYPE_BYTES + HEADER_LEN_BYTES + 4, mem).

Definition WriteSubSeq (h : SessionDataHeader) (mem : option bytes) (header bufLen : Z)
    : run (Z * option bytes) :=
  let item := mkTlvItem TLV_TYPE_SUB_SEQ 2 (subSeq_ h) in
  let* (_, mem) := WriteTlvItemToBuffer item mem header bufLen in
  Done (HEADER_TYPE_BYTES + HEADER_LEN_BYTES + 2, mem).

Definition WritePayloadLen (h : SessionDataHeader) (mem : option bytes) (header bufLen : Z)
    : run (Z * option bytes) :=
  let item := mkTlvItem TLV_TYPE_PAYLOAD_LEN 4 (payloadLen_ h) in
  let* (_, mem) := WriteTlvItemToBuffer item mem header bufLen in
  Done (HEADER_TYPE_BYTES + HEADER_LEN_BYTES + 4, mem).

Definition WritePacketLen (h : SessionDataHeader) (mem : option bytes) (header bufLen : Z)
    : run (Z * option bytes) :=
  let item := mkTlvItem TLV_TYPE_PACKET_LEN 4 (packetLen_ h) in
  let* (_, mem) := WriteTlvItemToBuffer item mem header bufLen in
  Done (HEADER_TYPE_BYTES + HEADER_LEN_BYTES + 4, mem).

Definition Serialize (h : SessionDataHeader) : run DataBuffer :=
  let buffer := make_buffer HEADER_LEN in
  let mem := data_ buffer in
  let header := rangeOffset_ buffer in
  let bufLen := HEADER_LEN in
  let* (itemCapacity, mem) := WriteVersion h mem header bufLen in
  let header := header + itemCapacity in
  let bufLen := u32 (bufLen - itemCapacity) in
  let* (itemCapacity, mem) := WriteFragFlag h mem header bufLen in
  let header := header + itemCapacity in
  let bufLen := u32 (bufLen - itemCapacity) in
  let* (itemCapacity, mem) := WriteDataType h mem header bufLen in
  let header := header + itemCapacity in
  let bufLen := u32 (bufLen - itemCapacity) in
  let* (itemCapacity, mem) := WriteSeqNum h mem header bufLen in
  let header := header + itemCapacity in
  let bufLen := u32 (bufLen - itemCapacity) in
  let* (itemCapacity, mem) := WriteTotalLen h mem header bufLen in
  let header := header + itemCapacity in
  let bufLen := u32 (bufLen - itemCapacity) in
  let* (itemCapacity, mem) := WritePacketLen h mem header bufLen in
  let header := header + itemCapacity in
  let bufLen := u32 (bufLen - itemCapacity) in
  let* (itemCapacity, mem) := WritePayloadLen h mem header bufLen in
  let header := header + itemCapacity in
  let bufLen := u32 (bufLen - itemCapacity) in
  let* (itemCapacity, mem) := WriteSubSeq h mem header bufLen in
  Done (set_data buffer mem).

(** ** Reader *)

Definition set_version (h : SessionDataHeader) (v : Z) : SessionDataHeader :=
  mkHeader v (fragFlag_ h) (dataType_ h) (seqNum_ h) (totalLen_ h) (packetLen_ h) (payloadLen_ h) (subSeq_ h).
Definition set_fragFlag (h : SessionDataHeader) (v : Z) : SessionDataHeader :=
  mkHeader (version_ h) v (dataType_ h) (seqNum_ h) (totalLen_ h) (packetLen_ h) (payloadLen_ h) (subSeq_ h).
Definition set_dataType (h : SessionDataHeader) (v : Z) : SessionDataHeader :=
  mkHeader (version_ h) (fragFlag_ h) v (seqNum_ h) (totalLen_ h) (packetLen_ h) (payloadLen_ h) (subSeq_ h).
Definition set_seqNum (h : SessionDataHeader) (v : Z) : SessionDataHeader :=
  mkHeader (version_ h) (fragFlag_ h) (dataType_ h) v (totalLen_ h) (packetLen_ h) (payloadLen_ h) (subSeq_ h).
Definition set_totalLen (h : SessionDataHeader) (v : Z) : SessionDataHeader :=
  mkHeader (version_ h) (fragFlag_ h) (dataType_ h) (seqNum_ h) v (packetLen_ h) (payloadLen_ h) (subSeq_ h).
Definition set_packetLen (h : SessionDataHeader) (v : Z) : SessionDataHeader :=
  mkHeader (version_ h) (fragFlag_ h) (dataType_ h) (seqNum_ h) (totalLen_ h) v (payloadLen_ h) (subSeq_ h).
Definition set_payloadLen (h : SessionDataHeader) (v : Z) : SessionDataHeader :=
  mkHeader (version_ h) (fragFlag_ h) (dataType_ h) (seqNum_ h) (totalLen_ h) (packetLen_ h) v (subSeq_ h).
Definition set_subSeq (h : SessionDataHeader) (v : Z) : SessionDataHeader :=
  mkHeader (version_ h) (fragFlag_ h) (dataType_ h) (seqNum_ h) (totalLen_ h) (packetLen_ h) (payloadLen_ h) v.

Definition ReadVersionFromBuffer (sessionHeader : SessionDataHeader) (mem : bytes) (header len : Z)
    : run (Z * SessionDataHeader) :=
  let* (ret, v) := memcpy_field 2 (version_ sessionHeader) (Some mem) header len in
  let sessionHeader := set_version sessionHeader v in
  if negb (ret =? EOK) then Done (READ_TLV_ITEM_FROM_BUFFER_FAILED, sessionHeader)
  else Done (ERR_OK, sessionHeader).

Definition ReadFragFlagFromBuffer (sessionHeader : SessionDataHeader) (mem : bytes) (header len : Z)
    : run (Z * SessionDataHeader) :=
  let* (ret, v) := memcpy_field 1 (fragFlag_ sessionHeader) (Some mem) header len in
  let sessionHeader := set_fragFlag sessionHeader v in
  if negb (ret =? EOK) then Done (READ_TLV_ITEM_FROM_BUFFER_FAILED, sessionHeader)
  else Done (ERR_OK, sessionHeader).

Definition ReadDataTypeFromBuffer (sessionHeader : SessionDataHeader) (mem : bytes) (header len : Z)
    : run (Z * SessionDataHeader) :=
  let* (ret, v) := memcpy_field 4 (dataType_ sessionHeader) (Some mem) header len in
  let sessionHeader := set_dataType sessionHeader v in
  if negb (ret =? EOK) then Done (READ_TLV_ITEM_FROM_BUFFER_FAILED, sessionHeader)
  else Done (ERR_OK, sessionHeader).

Definition ReadSeqNumFromBuffer (sessionHeader : SessionDataHeader) (mem : bytes) (header len : Z)
    : run (Z * SessionDataHeader) :=
  let* (ret, v) := memcpy_field 4 (seqNum_ sessionHeader) (Some mem) header len in
  let sessionHeader := set_seqNum sessionHeader v in
  if negb (ret =? EOK) then Done (READ_TLV_ITEM_FROM_BUFFER_FAILED, sessionHeader)
  else Done (ERR_OK, sessionHeader).

Definition ReadTotalLenFromBuffer (sessionHeader : SessionDataHeader) (mem : bytes) (header len : Z)
    : run (Z * SessionDataHeader) :=
  let* (ret, v) := memcpy_field 4 (totalLen_ sessionHeader) (Some mem) header len in
  let sessionHeader := set_totalLen sessionHeader v in
  if negb (ret =? EOK) then Done (READ_TLV_ITEM_FROM_BUFFER_FAILED, sessionHeader)
  else Done (ERR_OK, sessionHeader).

Definition ReadSubSeqFromBuffer (sessionHeader : SessionDataHeader) (mem : bytes) (header len : Z)
    : run (Z * SessionDataHeader) :=
  let* (ret, v) := memcpy_field 2 (subSeq_ sessionHeader) (Some mem) header len in
  let sessionHeader := set_subSeq sessionHeader v in
  if negb (ret =? EOK) then Done (READ_TLV_ITEM_FROM_BUFFER_FAILED, sessionHeader)
  else Done (ERR_OK, sessionHeader).

Definition ReadPayloadLenFromBuffer (sessionHeader : SessionDataHeader) (mem : bytes) (header len : Z)
    : run (Z * SessionDataHeader) :=
  let* (ret, v) := memcpy_field 4 (payloadLen_ sessionHeader) (Some mem) header len in
  let sessionHeader := set_payloadLen sessionHeader v in
  if negb (ret =? EOK) then Done (READ_TLV_ITEM_FROM_BUFFER_FAILED, sessionHeader)
  else Done (ERR_OK, sessionHeader).

Definition ReadPacketLenFromBuffer (sessionHeader : SessionDataHeader) (mem : bytes) (header len : Z)
    : run (Z * SessionDataHeader) :=
  let* (ret, v) := memcpy_field 4 (packetLen_ sessionHeader) (Some mem) header len in
  let sessionHeader := set_packetLen sessionHeader v in
  if negb (ret =? EOK) then Done (READ_TLV_ITEM_FROM_BUFFER_FAILED, sessionHeader)
  else Done (ERR_OK, sessionHeader).

(** The [switch] over the item type of [ReadTlvItemFromBuffer]. *)
Definition ReadTlvValue (ty : Z) (sessionHeader : SessionDataHeader) (mem : bytes)
    (current len : Z) : run (Z * SessionDataHeader) :=
  if ty =? TLV_TYPE_VERSION then ReadVersionFromBuffer sessionHeader mem current len
  else if ty =? TLV_TYPE_FRAG_FLAG then ReadFragFlagFromBuffer sessionHeader mem current len
  else if ty =? TLV_TYPE_DATA_TYPE then ReadDataTypeFromBuffer sessionHeader mem current len
  else if ty =? TLV_TYPE_SEQ_NUM then ReadSeqNumFromBuffer sessionHeader mem current len
  else if ty =? TLV_TYPE_TOTAL_LEN then ReadTotalLenFromBuffer sessionHeader mem current len
  else if ty =? TLV_TYPE_SUB_SEQ then ReadSubSeqFromBuffer sessionHeader mem current len
  else if ty =? TLV_TYPE_PAYLOAD_LEN then ReadPayloadLenFromBuffer sessionHeader mem current len
  else if ty =? TLV_TYPE_PACKET_LEN then ReadPacketLenFromBuffer sessionHeader mem current len
  else Done (READ_TLV_ITEM_FROM_BUFFER_FAILED, sessionHeader).

Definition ReadTlvItemFromBuffer (tlvItem : TlvItem) (sessionHeader : SessionDataHeader)
    (mem : bytes) (header end_ : Z) : run (Z * TlvItem * SessionDataHeader) :=
  if end_ <? header + HEADER_TYPE_BYTES + HEADER_LEN_BYTES then
    Done (READ_TLV_ITEM_FROM_BUFFER_FAILED, tlvItem, sessionHeader)
  else
    let current := header in
    let* ty := ReadUint16 mem current in
    let current := current + HEADER_TYPE_BYTES in
    let* ln := ReadUint16 mem current in
    let current := current + HEADER_LEN_BYTES in
    let tlvItem := mkTlvItem ty ln (value tlvItem) in
    if end_ <? current + ln then
      Done (READ_TLV_ITEM_FROM_BUFFER_FAILED, tlvItem, sessionHeader)
    else
      let* (ret, sessionHeader) := ReadTlvValue ty sessionHeader mem current ln in
      Done (ret, tlvItem, sessionHeader).

Definition ValidateHeaderParameters (sessionHeader : SessionDataHeader) (bufLen : Z) : bool :=
  if (BINARY_PAYLOAD_MAX_LEN <? payloadLen_ sessionHeader)
     || (BINARY_DATA_MAX_TOTAL_LEN <? packetLen_ sessionHeader) then false
  else if totalLen_ sessionHeader <? packetLen_ sessionHeader then false
  else if bufLen <? packetLen_ sessionHeader then false
  else if packetLen_ sessionHeader <? payloadLen_ sessionHeader then false
  else true.

(** The [while] loop of [Deserialize]; [None] is the early [return std::nullopt]. *)
Fixpoint read_items (fuel : nat) (item : TlvItem) (sessionHeader : SessionDataHeader)
    (mem : bytes) (current end_ : Z) : run (option SessionDataHeader) :=
  if current + HEADER_LEN_BYTES + HEADER_TYPE_BYTES <? end_ then
    match fuel with
    | O => OutOfFuel
    | S fuel =>
      let* (ret, item, sessionHeader) :=
        ReadTlvItemFromBuffer item sessionHeader mem current end_ in
      if negb (ret =? ERR_OK) then Done None
      else
        let current := current + (HEADER_LEN_BYTES + HEADER_TYPE_BYTES) in
        let current := current + len item in
        read_items fuel item sessionHeader mem current end_
    end
  else Done (Some sessionHeader).

(** The header length of a version; an unknown version has that of the last one. *)
Definition header_len_of (version : Z) : Z :=
  match List.find (fun e => e.1 =? version) HEADER_LEN_VERSION_MAP with
  | Some e => e.2
  | None => match head (reverse HEADER_LEN_VERSION_MAP) with Some e => e.2 | None => 0 end
  end.

Definition Deserialize (junk : SessionDataHeader) (buffer : option bytes) (bufLen : Z)
    : run (option SessionDataHeader) :=
  match buffer with
  | None => Done None
  | Some mem =>
    if bufLen <? HEADER_LEN then Done None
    else
      let sessionHeader := set_version junk PROTOCOL_VERSION in
      let* r := read_items (Z.to_nat BASE_HEADER_LEN) (mkTlvItem 0 0 0) sessionHeader
                  mem 0 BASE_HEADER_LEN in
      match r with
      | None => Done None
      | Some sessionHeader =>
        if negb (ValidateHeaderParameters sessionHeader bufLen) then Done None
        else
          let headerLen := header_len_of (version_ sessionHeader) in
          if packetLen_ sessionHeader <? u32 (payloadLen_ sessionHeader + headerLen)
          then Done None
          else Done (Some sessionHeader)
      end
  end.

(** ** Specification of the wire format *)

(** Every member fits its C++ type. *)
Definition header_wf (h : SessionDataHeader) : Prop :=
  is_u16 (version_ h) /\ is_u8 (fragFlag_ h) /\ is_u32 (dataType_ h) /\ is_u32 (seqNum_ h) /\
  is_u32 (totalLen_ h) /\ is_u32 (packetLen_ h) /\ is_u32 (payloadLen_ h) /\ is_u16 (subSeq_ h).

(** The eight items in the order of the writer. *)
Definition wire (h : SessionDataHeader) : bytes :=
  tlv_bytes TLV_TYPE_VERSION 2 (version_ h) ++
  tlv_bytes TLV_TYPE_FRAG_FLAG 1 (fragFlag_ h) ++
  tlv_bytes TLV_TYPE_DATA_TYPE 4 (dataType_ h) ++
  tlv_bytes TLV_TYPE_SEQ_NUM 4 (seqNum_ h) ++
  tlv_bytes TLV_TYPE_TOTAL_LEN 4 (totalLen_ h) ++
  tlv_bytes TLV_TYPE_PACKET_LEN 4 (packetLen_ h) ++
  tlv_bytes TLV_TYPE_PAYLOAD_LEN 4 (payloadLen_ h) ++
  tlv_bytes TLV_TYPE_SUB_SEQ 2 (subSeq_ h).

(** What the reader demands of the announced lengths. *)
Definition lengths_ok (h : SessionDataHeader) (bufLen : Z) : Prop :=
  payloadLen_ h <= BINARY_PAYLOAD_MAX_LEN /\ packetLen_ h <= BINARY_DATA_MAX_TOTAL_LEN /\
  packetLen_ h <= totalLen_ h /\ packetLen_ h <= bufLen /\
  payloadLen_ h + HEADER_LEN <= packetLen_ h.

(** Width and setter of the member each item type fills. *)
Definition field_of (ty : Z) : option (nat * (SessionDataHeader -> Z -> SessionDataHeader)) :=
  if ty =? TLV_TYPE_VERSION then Some (2%nat, set_version)
  else if ty =? TLV_TYPE_FRAG_FLAG then Some (1%nat, set_fragFlag)
  else if ty =? TLV_TYPE_DATA_TYPE then Some (4%nat, set_dataType)
  else if ty =? TLV_TYPE_SEQ_NUM then Some (4%nat, set_seqNum)
  else if ty =? TLV_TYPE_TOTAL_LEN then Some (4%nat, set_totalLen)
  else if ty =? TLV_TYPE_SUB_SEQ then Some (2%nat, set_subSeq)
  else if ty =? TLV_TYPE_PAYLOAD_LEN then Some (4%nat, set_payloadLen)
  else if ty =? TLV_TYPE_PACKET_LEN then Some (4%nat, set_packetLen)
  else None.

(** ** Writer lemmas *)

Lemma zlen_wire h : zlen (wire h) = HEADER_LEN.
Proof. unfold wire. zlen_simpl. done. Qed.
#[export] Hint Rewrite zlen_wire : dms_len.

Lemma wire_u8 h : Forall is_u8 (wire h).
Proof. unfold wire. repeat (apply Forall_app_2; [by apply tlv_bytes_u8|]). by apply tlv_bytes_u8. Qed.

(** One step of [Serialize]: the next item goes over the zeros after [pre]. *)
Lemma write_step pre n ty w v header bufLen :
  (w <= 4)%nat -> header = zlen pre -> 4 + Z.of_nat w <= n ->
  4 + Z.of_nat w <= bufLen < 2 ^ 32 ->
  WriteTlvItemToBuffer (mkTlvItem ty (Z.of_nat w) v) (Some (pre ++ zeros n)) header bufLen
  = Done (ERR_OK, Some ((pre ++ tlv_bytes ty w v) ++ zeros (n - (4 + Z.of_nat w)))).
Proof.
  intros. unfold WriteTlvItemToBuffer. rewrite u64_id by lia.
  by rewrite put_tlv_zeros by (unfold_ints; lia).
Qed.

(** Offsets and sizes of the writer are constants: evaluate them, then step. *)
Ltac write_item w :=
  match goal with
  | |- context [WriteTlvItemToBuffer (mkTlvItem ?ty _ ?v) (Some (?pre ++ zeros ?n)) ?hd ?bl] =>
    let hd' := eval vm_compute in hd in
    let bl' := eval vm_compute in bl in
    let n' := eval vm_compute in n in
    change hd with hd'; change bl with bl'; change (zeros n) with (zeros n');
    let H := fresh in
    pose proof (write_step pre n' ty w v hd' bl' ltac:(lia) ltac:(zlen_simpl; lia)
               ltac:(lia) ltac:(lia)) as H;
    let w' := eval vm_compute in (Z.of_nat w) in
    change (Z.of_nat w) with w' in H; rewrite H; clear H; cbn [run_bind]
  end.

Lemma Serialize_wire h : Serialize h = Done (buffer_of (wire h)).
Proof.
  unfold Serialize. rewrite make_buffer_ok by done. cbn [data_ rangeOffset_ buffer_of].
  change (zeros HEADER_LEN) with ([] ++ zeros 57).
  unfold WriteVersion; write_item 2%nat. unfold WriteFragFlag; write_item 1%nat.
  unfold WriteDataType; write_item 4%nat. unfold WriteSeqNum; write_item 4%nat.
  unfold WriteTotalLen; write_item 4%nat. unfold WritePacketLen; write_item 4%nat.
  unfold WritePayloadLen; write_item 4%nat. unfold WriteSubSeq; write_item 2%nat.
  unfold set_data, buffer_of. cbn [capacity_ rangeOffset_ rangeLength_]. rewrite zlen_wire.
  unfold wire. rewrite <- !app_assoc. cbn [app].
  change (zeros (_ - _)) with (@nil Z). by rewrite app_nil_r.
Qed.

(** ** Reader lemmas *)

Ltac unfold_readers :=
  unfold ReadVersionFromBuffer, ReadFragFlagFromBuffer, ReadDataTypeFromBuffer,
    ReadSeqNumFromBuffer, ReadTotalLenFromBuffer, ReadSubSeqFromBuffer,
    ReadPayloadLenFromBuffer, ReadPacketLenFromBuffer.

(** The switch decides on the item type: one case per member, and the default. *)
Ltac case_tlv_type :=
  repeat match goal with
  | |- context [if ?ty =? ?c then _ else _] => destruct (Z.eqb_spec ty c); [subst|]
  end.

Lemma ReadTlvValue_full ty w set h mem current v :
  field_of ty = Some (w, set) -> 0 <= v < 2 ^ (8 * Z.of_nat w) ->
  load_n mem current (Z.of_nat w) = Done (le_bytes w v) ->
  ReadTlvValue ty h mem current (Z.of_nat w) = Done (ERR_OK, set h v).
Proof.
  unfold field_of, ReadTlvValue. intros Hf Hv Hload.
  repeat match goal with
  | H : context [if ty =? ?c then _ else _] |- _ => destruct (ty =? c)
  end; try discriminate Hf; injection Hf as <- <-; unfold_readers;
  (rewrite memcpy_field_full with (v := v) by (done || unfold_ints; lia));
  cbn [run_bind]; rewrite Z.mod_small by done; done.
Qed.

Lemma ReadTlvValue_safe ty h mem current ln :
  0 <= current -> 0 <= ln -> current + ln <= zlen mem ->
  exists ret h', ReadTlvValue ty h mem current ln = Done (ret, h').
Proof.
  intros. unfold ReadTlvValue.
  repeat match goal with |- context [if ty =? ?c then _ else _] => destruct (ty =? c) end;
    try (by eexists _, _); unfold_readers;
  match goal with |- context [memcpy_field ?w ?o _ _ _] =>
    destruct (memcpy_field_safe w o mem current ln) as (ret & v & ->); [lia..|]
  end; cbn [run_bind]; split_guard; by eexists _, _.
Qed.

Lemma ReadTlvValue_wf ty h mem current ln ret h' :
  Forall is_u8 mem -> header_wf h ->
  ReadTlvValue ty h mem current ln = Done (ret, h') -> header_wf h'.
Proof.
  intros Hmem (?&?&?&?&?&?&?&?). unfold ReadTlvValue.
  repeat match goal with |- context [if ty =? ?c then _ else _] => destruct (ty =? c) end;
    try (by intros [= _ <-]); unfold_readers;
  match goal with |- context [memcpy_field ?w ?o _ _ _] =>
    destruct (memcpy_field w o (Some mem) current ln) as [[r v]| |] eqn:Hc; [|done..];
    pose proof (memcpy_field_range _ _ _ _ _ _ _ Hmem Hc)
  end; cbn [run_bind]; split_guard; intros [= _ <-]; unfold header_wf; cbn; by split_and!.
Qed.

(** Reading one well-formed item that ends before [end_]. *)
Lemma ReadTlvItem_tlv item h pre post ty w set v header end_ :
  field_of ty = Some (w, set) -> is_u16 ty -> 0 <= v < 2 ^ (8 * Z.of_nat w) ->
  Z.of_nat w < 65536 -> header = zlen pre -> header + 4 + Z.of_nat w <= end_ ->
  ReadTlvItemFromBuffer item h (pre ++ tlv_bytes ty w v ++ post) header end_
  = Done (ERR_OK, mkTlvItem ty (Z.of_nat w) (value item), set h v).
Proof.
  intros. unfold ReadTlvItemFromBuffer, HEADER_TYPE_BYTES, HEADER_LEN_BYTES. bool_lia.
  rewrite tlv_read_type by done. cbn [run_bind].
  rewrite tlv_read_len by lia. cbn [run_bind]. bool_lia.
  erewrite ReadTlvValue_full; [done|done|done|]. apply tlv_read_value. lia.
Qed.

Lemma ReadTlvItem_safe item h mem header end_ :
  0 <= header -> end_ <= zlen mem ->
  exists ret item' h', ReadTlvItemFromBuffer item h mem header end_ = Done (ret, item', h')
    /\ (ret = ERR_OK -> 0 <= len item' /\ header + 4 + len item' <= end_).
Proof.
  intros. unfold ReadTlvItemFromBuffer, HEADER_TYPE_BYTES, HEADER_LEN_BYTES.
  split_guard; guards_to_prop; [by eexists _, _, _|].
  destruct (ReadUint16_safe mem header) as (ty & -> & _); [lia..|]. cbn [run_bind].
  destruct (ReadUint16_safe mem (header + 2)) as (ln & -> & Hln); [lia..|]. cbn [run_bind].
  unfold_ints. split_guard; guards_to_prop; [by eexists _, _, _|].
  destruct (ReadTlvValue_safe ty h mem (header + 2 + 2) ln) as (ret & h' & ->); [lia..|].
  eexists _, _, _. split; [done|]. cbn [len]. lia.
Qed.

Lemma ReadTlvItem_wf item h mem header end_ ret item' h' :
  Forall is_u8 mem -> header_wf h ->
  ReadTlvItemFromBuffer item h mem header end_ = Done (ret, item', h') -> header_wf h'.
Proof.
  intros Hmem Hh. unfold ReadTlvItemFromBuffer. split_guard; [by intros [= _ _ <-]|].
  intros (ty & _ & H1)%run_bind_Done. apply run_bind_Done in H1 as (ln & _ & H2).
  revert H2. split_guard; [by intros [= _ _ <-]|].
  intros ([r h1] & Hv & [= _ _ <-])%run_bind_Done. by eapply ReadTlvValue_wf.
Qed.

(** The loop terminates within [end_ - current] rounds and stays in bounds. *)
Lemma read_items_safe fuel item h mem current end_ :
  0 <= current -> end_ <= zlen mem -> end_ - current <= Z.of_nat fuel ->
  exists r, read_items fuel item h mem current end_ = Done r.
Proof.
  revert item h current. induction fuel as [|fuel IH]; intros item h current ???;
    cbn [read_items]; unfold HEADER_TYPE_BYTES, HEADER_LEN_BYTES;
    (split_guard; guards_to_prop; [|by eexists]); [lia|].
  destruct (ReadTlvItem_safe item h mem current end_) as (ret & it & h' & -> & Hb); [lia..|].
  cbn [run_bind]. split_guard; guards_to_prop; [by eexists|].
  destruct (Hb Guard0). apply IH; lia.
Qed.

Lemma read_items_wf fuel item h mem current end_ h' :
  Forall is_u8 mem -> header_wf h ->
  read_items fuel item h mem current end_ = Done (Some h') -> header_wf h'.
Proof.
  intros Hmem. revert item h current.
  induction fuel as [|fuel IH]; intros item h current Hh; cbn [read_items];
    (split_guard; [|by intros [= <-]]); [done|].
  intros ([[ret it] h1] & Hr & H1)%run_bind_Done. revert H1.
  split_guard; [done|]. apply IH. by eapply ReadTlvItem_wf.
Qed.

(** One round of the loop on a well-formed item. *)
Lemma read_items_step fuel item h pre post ty w set v current end_ :
  field_of ty = Some (w, set) -> is_u16 ty -> 0 <= v < 2 ^ (8 * Z.of_nat w) ->
  Z.of_nat w < 65536 -> (0 < w)%nat -> current = zlen pre -> current + 4 + Z.of_nat w <= end_ ->
  read_items (S fuel) item h (pre ++ tlv_bytes ty w v ++ post) current end_
  = read_items fuel (mkTlvItem ty (Z.of_nat w) (value item)) (set h v)
      ((pre ++ tlv_bytes ty w v) ++ post) (current + 4 + Z.of_nat w) end_.
Proof.
  intros. cbn [read_items]. unfold HEADER_TYPE_BYTES, HEADER_LEN_BYTES. bool_lia.
  erewrite ReadTlvItem_tlv by done. cbn [run_bind]. rewrite <- app_assoc.
  change (negb (ERR_OK =? ERR_OK)) with false. cbn [len].
  f_equal; lia.
Qed.

(** Reading an item of the wire format: leaves the rest of the items. *)
Ltac read_item :=
  match goal with
  | |- context [read_items (S ?f) ?it ?h (?pre ++ tlv_bytes ?ty ?w ?v ++ ?post) ?c ?e] =>
    rewrite (read_items_step f it h pre post ty w _ v c e eq_refl);
    [ | unfold_ints; done | done | lia | lia | zlen_simpl; lia | lia ]
  end.

Lemma read_items_wire item junk h tail :
  header_wf h ->
  read_items (Z.to_nat BASE_HEADER_LEN) item junk (wire h ++ tail) 0 BASE_HEADER_LEN = Done (Some h).
Proof.
  intros (?&?&?&?&?&?&?&?). unfold wire. rewrite <- !app_assoc.
  change (Z.to_nat BASE_HEADER_LEN) with 57%nat. change BASE_HEADER_LEN with 57.
  match goal with |- context [tlv_bytes TLV_TYPE_VERSION 2 ?v ++ ?rest] =>
    change (tlv_bytes TLV_TYPE_VERSION 2 v ++ rest) with ([] ++ tlv_bytes TLV_TYPE_VERSION 2 v ++ rest)
  end.
  do 8 read_item. cbn [read_items]. destruct h; reflexivity.
Qed.

Lemma Deserialize_wire junk h tail bufLen :
  header_wf h -> lengths_ok h bufLen ->
  Deserialize junk (Some (wire h ++ tail)) bufLen = Done (Some h).
Proof.
  intros Hwf (?&?&?&?&?). pose proof Hwf as (_&_&_&_&?&?&?&_). unfold_ints.
  unfold Deserialize. unfold BINARY_PAYLOAD_MAX_LEN, BINARY_DATA_MAX_TOTAL_LEN in *.
  change HEADER_LEN with 57 in *. bool_lia. rewrite read_items_wire by done. cbn [run_bind].
  unfold ValidateHeaderParameters, BINARY_PAYLOAD_MAX_LEN, BINARY_DATA_MAX_TOTAL_LEN.
  bool_lia.
  assert (header_len_of (version_ h) = 57) as ->
    by (unfold header_len_of; cbn [List.find HEADER_LEN_VERSION_MAP fst]; by destruct (_ =? _)).
  rewrite u32_id by (unfold_ints; lia). by bool_lia.
Qed.

Lemma Deserialize_run junk mem bufLen :
  bufLen <= zlen mem -> exists r, Deserialize junk (Some mem) bufLen = Done r.
Proof.
  intros Hlen. unfold Deserialize. split_guard; [by eexists|]. guards_to_prop.
  destruct (read_items_safe (Z.to_nat BASE_HEADER_LEN) (mkTlvItem 0 0 0)
    (set_version junk PROTOCOL_VERSION) mem 0 BASE_HEADER_LEN) as (r & ->).
  { done. } { change BASE_HEADER_LEN with HEADER_LEN. lia. } { done. }
  cbn [run_bind]. destruct r; [|by eexists]. repeat (split_guard; [by eexists|]). by eexists.
Qed.

Lemma Deserialize_lengths junk mem bufLen h :
  Forall is_u8 mem -> header_wf junk ->
  Deserialize junk (Some mem) bufLen = Done (Some h) -> header_wf h /\ lengths_ok h bufLen.
Proof.
  intros Hmem Hjunk. unfold Deserialize. split_guard; [done|].
  intros ([h'|] & Hr & H)%run_bind_Done; [|done].
  apply read_items_wf in Hr; [|done|].
  2:{ destruct Hjunk as (?&?&?&?&?&?&?&?). unfold header_wf; cbn. by split_and!. }
  pose proof Hr as (_&_&_&_&?&?&?&_). revert H.
  destruct (ValidateHeaderParameters h' bufLen) eqn:Hval; [cbn [negb]|done].
  assert (header_len_of (version_ h') = HEADER_LEN) as ->
    by (unfold header_len_of; cbn [List.find HEADER_LEN_VERSION_MAP fst]; by destruct (_ =? _)).
  revert Hval. unfold ValidateHeaderParameters. repeat (split_guard; [done|]). intros _.
  guards_to_prop. unfold BINARY_PAYLOAD_MAX_LEN, BINARY_DATA_MAX_TOTAL_LEN in *.
  change HEADER_LEN with 57 in *. unfold is_u32 in *.
  assert (u32 (payloadLen_ h' + 57) = payloadLen_ h' + 57) by (apply u32_id; unfold_ints; lia).
  intros [= <-]. split; [done|].
  unfold lengths_ok, BINARY_PAYLOAD_MAX_LEN, BINARY_DATA_MAX_TOTAL_LEN. change HEADER_LEN with 57.
  lia.
Qed.

(** ** Properties *)

(** A header with values that fit and lengths in the limits. *)
Definition sample_header : SessionDataHeader :=
  mkHeader PROTOCOL_VERSION FRAG_MID 1 7 1000 157 100 3.

Definition zero_header : SessionDataHeader := mkHeader 0 0 0 0 0 0 0 0.

(** C37 [Deserialize] inverts [Serialize]: any header whose members fit their
    C++ types and whose lengths pass the limits is read back, member by member,
    from its own encoding followed by an arbitrary payload, whatever the
    uninitialised storage held. *)
Theorem Deserialize_Serialize (junk h : SessionDataHeader) (tail : bytes) (bufLen : Z) :
  header_wf h -> lengths_ok h bufLen ->
  exists b, Serialize h = Done b /\ Size b = HEADER_LEN /\
    Deserialize junk (Some (content b ++ tail)) bufLen = Done (Some h).
Proof.
  intros. eexists. split; [apply Serialize_wire|].
  rewrite content_buffer_of. split; [by cbn; zlen_simpl|]. by apply Deserialize_wire.
Qed.

Lemma Deserialize_Serialize_witness :
  exists b, Serialize sample_header = Done b /\ Size b = HEADER_LEN /\
    Deserialize zero_header (Some (content b ++ zeros 100)) 157 = Done (Some sample_header).
Proof.
  apply (Deserialize_Serialize zero_header sample_header (zeros 100) 157).
  - unfold header_wf, is_u8, is_u16, is_u32; by_compute.
  - unfold lengths_ok; by_compute.
Defined.

(** [Deserialize] is memory safe and terminates on every input: as long as
    the caller passes a length the buffer really has, no byte outside the buffer
    is read whatever the bytes are, and the loop over the items ends. *)
Theorem Deserialize_safe (junk : SessionDataHeader) (buffer : option bytes) (bufLen : Z) :
  (forall mem, buffer = Some mem -> bufLen <= zlen mem) ->
  exists r, Deserialize junk buffer bufLen = Done r.
Proof.
  intros Hlen. destruct buffer as [mem|]; [|by eexists].
  apply Deserialize_run, (Hlen mem eq_refl).
Qed.

Lemma Deserialize_safe_witness :
  exists r, Deserialize zero_header (Some (replicate 60 255)) 60 = Done r.
Proof.
  apply (Deserialize_safe zero_header (Some (replicate 60 255)) 60).
  intros mem [= <-]. vm_compute. discriminate.
Defined.

(** Whatever bytes arrive, an accepted header announces lengths the receiver
    can rely on: the payload and the header fit in the packet, the packet in the
    received bytes and in the announced total, and both limits hold. *)
Theorem Deserialize_accepted_lengths (junk h : SessionDataHeader) (mem : bytes) (bufLen : Z) :
  Forall is_u8 mem -> header_wf junk ->
  Deserialize junk (Some mem) bufLen = Done (Some h) -> header_wf h /\ lengths_ok h bufLen.
Proof. apply Deserialize_lengths. Qed.

Lemma Deserialize_accepted_lengths_witness :
  header_wf sample_header /\ lengths_ok sample_header 157.
Proof.
  apply (Deserialize_accepted_lengths zero_header sample_header (wire sample_header ++ zeros 100) 157).
  - apply Forall_app_2; [apply wire_u8|apply zeros_u8].
  - unfold header_wf, is_u8, is_u16, is_u32; by_compute.
  - vm_compute. reflexivity.
Defined.

(** Nine VERSION items: the bytes of a packet that sets no other member. *)
Definition version_only_packet : bytes :=
  concat (replicate 9 (tlv_bytes TLV_TYPE_VERSION 2 1)) ++ zeros 200.

(** The reader does not require every item to occur: a packet that only
    repeats the VERSION item is accepted with the seven other members left as
    the storage had them, so two runs on the same bytes give different headers. *)
Theorem Deserialize_reads_uninitialised :
  exists junk1 junk2 h1 h2,
    Deserialize junk1 (Some version_only_packet) 254 = Done (Some h1) /\
    Deserialize junk2 (Some version_only_packet) 254 = Done (Some h2) /\
    seqNum_ h1 = seqNum_ junk1 /\ seqNum_ h2 = seqNum_ junk2 /\ h1 <> h2.
Proof.
  exists (mkHeader 1 1 1 5 100 100 1 1), (mkHeader 1 1 1 6 100 100 1 1).
  eexists _, _. split; [vm_compute; reflexivity|]. split; [vm_compute; reflexivity|].
  split; [done|]. split; [done|]. done.
Qed.
