(* ===== verification/DataSenderReceiver.v ===== *)
(** * Sending and receiving byte messages over a collaboration channel

    [DataSenderReceiver] of services/dtbcollabmgr (channel_manager): a message
    is cut into packets no longer than the softbus session allows, each behind a
    [SessionDataHeader]; the peer reassembles them in one buffer.  The softbus
    calls are parameters of the sender: [GetSessionOption] and [SendBytes] see
    the packets handed over so far, so their answers may change over time. *)

From Stdlib Require Import ZArith Lia.
From stdpp Require Import base list option relations.
From S2P Require Import Prelude ErrorCodes DataBuffer Tlv SessionHeader.
Import ErrorCodes.DtbCollab.

(** ** Sender *)

Section Sender.
Context (GetSessionOption : list bytes -> Z * Z).
Context (SendBytes : list bytes -> bytes -> Z).

(** [DoSendPacket(headerPara, dataHeader, dataLen)]; [data] and [current] are the
    array and offset [dataHeader] points to, [sent] the packets handed over. *)
Definition DoSendPacket (headerPara : SessionDataHeader) (data : option bytes)
    (current dataLen : Z) (sent : list bytes) : run (Z * list bytes) :=
  let* headerBuffer := Serialize headerPara in
  let sendBuffer := make_buffer (u32 (HEADER_LEN + dataLen)) in
  let header := rangeOffset_ sendBuffer in
  let* (ret, mem) := memcpy_s (data_ sendBuffer) header (Size sendBuffer)
                       (data_ headerBuffer) (rangeOffset_ headerBuffer) HEADER_LEN in
  if negb (ret =? EOK) then Done (WRITE_SESSION_HEADER_FAILED, sent)
  else
    let* (ret, mem) := memcpy_s mem (header + HEADER_LEN) (u64 (Size sendBuffer - HEADER_LEN))
                         data current dataLen in
    if negb (ret =? EOK) then Done (WRITE_SEND_DATA_BUFFER_FAILED, sent)
    else
      let packet := content (set_data sendBuffer mem) in
      let ret := SendBytes sent packet in
      let sent := sent ++ [packet] in
      if negb (ret =? SOFTBUS_OK) then Done (SEND_DATA_BY_SOFTBUS_FAILED, sent)
      else Done (ret, sent).

Definition SendAllPackets (sendData : DataBuffer) (dataType : Z) (sent : list bytes)
    : run (Z * list bytes) :=
  let current := rangeOffset_ sendData in
  let totalLen := u32 (Size sendData + HEADER_LEN) in
  let packetLen := u32 (Size sendData + HEADER_LEN) in
  let payloadLen := u32 (packetLen - HEADER_LEN) in
  let headerPara := mkHeader PROTOCOL_VERSION FRAG_START_END (u32 dataType) 0
                      totalLen packetLen payloadLen 0 in
  let* (ret, sent) := DoSendPacket headerPara (data_ sendData) current payloadLen sent in
  if negb (ret =? ERR_OK) then Done (ret, sent) else Done (ERR_OK, sent).

(** The [while (current < dataEnd)] loop of [SendUnpackData]. *)
Fixpoint send_loop (fuel : nat) (headerPara : SessionDataHeader) (data : option bytes)
    (current dataEnd : Z) (sent : list bytes) : run (Z * list bytes) :=
  if current <? dataEnd then
    match fuel with
    | O => OutOfFuel
    | S fuel =>
      let '(ret, maxSendSize) := GetSessionOption sent in
      if negb (ret =? ERR_OK) then Done (GET_SESSION_OPTION_FAILED, sent)
      else
        let headerPara := set_packetLen headerPara maxSendSize in
        let remaining := u32 (dataEnd - current) in
        let maxPayloadLen := u32 (maxSendSize - HEADER_LEN) in
        let currentPayloadLen := Z.min maxPayloadLen remaining in
        let headerPara := set_payloadLen headerPara currentPayloadLen in
        let headerPara := set_fragFlag headerPara
          (if currentPayloadLen <? remaining then FRAG_MID else FRAG_END) in
        let headerPara := set_subSeq headerPara (u16 (subSeq_ headerPara + 1)) in
        let* (ret, sent) := DoSendPacket headerPara data current currentPayloadLen sent in
        if negb (ret =? ERR_OK) then Done (ret, sent)
        else send_loop fuel headerPara data (current + currentPayloadLen) dataEnd sent
    end
  else Done (ERR_OK, sent).

Definition SendUnpackData (fuel : nat) (sendData : DataBuffer) (dataType : Z)
    (sent : list bytes) : run (Z * list bytes) :=
  let '(ret, maxSendSize) := GetSessionOption sent in
  if negb (ret =? ERR_OK) then Done (GET_SESSION_OPTION_FAILED, sent)
  else if u64 (Size sendData + HEADER_LEN) <=? maxSendSize then
    SendAllPackets sendData dataType sent
  else
    let dataHeader := rangeOffset_ sendData in
    let dataEnd := dataHeader + Size sendData in
    let current := dataHeader in
    let totalLen := u32 (Size sendData) in
    let packetLen := maxSendSize in
    let payloadLen := u32 (packetLen - HEADER_LEN) in
    let headerPara := mkHeader PROTOCOL_VERSION FRAG_START (u32 dataType) 0
                        totalLen packetLen payloadLen 0 in
    let* (ret, sent) := DoSendPacket headerPara (data_ sendData) current payloadLen sent in
    if negb (ret =? ERR_OK) then Done (ret, sent)
    else
      let current := current + payloadLen in
      send_loop fuel headerPara (data_ sendData) current dataEnd sent.

(** [ChannelDataType::BYTES]. *)
Definition CHANNEL_DATA_BYTES : Z := 1.

Definition SendBytesData (fuel : nat) (sendData : DataBuffer) (sent : list bytes)
    : run (Z * list bytes) :=
  SendUnpackData fuel sendData CHANNEL_DATA_BYTES sent.

End Sender.

(** ** Receiver *)

(** The members the receiving side uses.  [currentPos] is the write pointer into
    the array of [packBuffer_], null when there is none. *)
Record Receiver : Type := mkReceiver {
  isWaiting_ : bool;
  nowSeqNum_ : Z;
  nowSubSeq_ : Z;
  nowTotalLen_ : Z;
  packBuffer_ : option DataBuffer;
  currentPos : option Z
}.

Definition ResetFlag (st : Receiver) : Receiver := mkReceiver false 0 0 0 None None.

Definition isDataReady (st : Receiver) : bool :=
  negb (isWaiting_ st) && match packBuffer_ st with Some _ => true | None => false end.

Definition set_pack (st : Receiver) (b : DataBuffer) (pos : option Z) : Receiver :=
  mkReceiver (isWaiting_ st) (nowSeqNum_ st) (nowSubSeq_ st) (nowTotalLen_ st) (Some b) pos.

Definition set_progress (st : Receiver) (waiting : bool) (seqNum subSeq : Z) : Receiver :=
  mkReceiver waiting seqNum subSeq (nowTotalLen_ st) (packBuffer_ st) (currentPos st).

(** The copy at the end of [WriteRecvBytesDataToBuffer]: [memcpy_s] to
    [currentPos], limited to what is left of the buffer. *)
Definition copy_payload (st : Receiver) (b : DataBuffer) (pos : option Z)
    (data : bytes) (dataOffset payloadLen : Z) : run (Z * Receiver) :=
  match pos, data_ b with
  | None, None =>
    let* (ret, _) := memcpy_s None 0 (u64 (Size b)) (Some data) dataOffset payloadLen in
    Done (if negb (ret =? EOK) then WRITE_PAYLOAD_TO_BUFFER_FAILED else ret, set_pack st b None)
  | Some p, Some d =>
    let* (ret, mem) := memcpy_s (Some d) p (u64 (Size b - (p - rangeOffset_ b)))
                         (Some data) dataOffset payloadLen in
    let b := set_data b mem in
    if negb (ret =? EOK) then Done (WRITE_PAYLOAD_TO_BUFFER_FAILED, set_pack st b (Some p))
    else Done (ret, set_pack st b (Some (p + payloadLen)))
  | _, _ => Undefined
  end.

Definition WriteRecvBytesDataToBuffer (st : Receiver) (data : bytes) (dataLen : Z)
    (headerPara : SessionDataHeader) : run (Z * Receiver) :=
  if dataLen <? packetLen_ headerPara then Done (INVALID_SESSION_HEADER_PACKET_LEN, st)
  else if packetLen_ headerPara <? payloadLen_ headerPara then
    Done (INVALID_SESSION_HEADER_PAYLOAD_LEN, st)
  else
    let dataOffset := u32 (packetLen_ headerPara - payloadLen_ headerPara) in
    if dataLen <? dataOffset then Done (INVALID_SESSION_HEADER_DATA_OFFSET, st)
    else if dataLen <? u32 (dataOffset + payloadLen_ headerPara) then
      Done (INVALID_SESSION_HEADER_DATA_RANGE, st)
    else
      match packBuffer_ st with
      | None =>
        let b := make_buffer (totalLen_ headerPara) in
        copy_payload st b (Data b) data dataOffset (payloadLen_ headerPara)
      | Some b =>
        if negb (Size b =? totalLen_ headerPara) then Done (INVALID_SESSION_HEADER_TOTAL_LEN, st)
        else copy_payload st b (currentPos st) data dataOffset (payloadLen_ headerPara)
      end.

Definition has_buffer (st : Receiver) : bool :=
  match packBuffer_ st with Some _ => true | None => false end.

Definition ProcessAllPacketRecv (st : Receiver) (data : bytes) (dataLen : Z)
    (headerPara : SessionDataHeader) : run (Z * Receiver) :=
  if has_buffer st || isWaiting_ st then Done (FLAG_TYPE_NOT_MATCH_BUFFER_STATE, ResetFlag st)
  else
    let* (ret, st) := WriteRecvBytesDataToBuffer st data dataLen headerPara in
    if negb (ret =? ERR_OK) then Done (WRITE_PAYLOAD_TO_BUFFER_FAILED, ResetFlag st)
    else Done (ERR_OK, st).

Definition ProcessStartPacketRecv (st : Receiver) (data : bytes) (dataLen : Z)
    (headerPara : SessionDataHeader) : run (Z * Receiver) :=
  if has_buffer st || isWaiting_ st then Done (FLAG_TYPE_NOT_MATCH_BUFFER_STATE, ResetFlag st)
  else
    let* (ret, st) := WriteRecvBytesDataToBuffer st data dataLen headerPara in
    if negb (ret =? ERR_OK) then Done (ret, ResetFlag st)
    else Done (ERR_OK, set_progress st true (seqNum_ headerPara) (subSeq_ headerPara)).

Definition ProcessMidPacketRecv (st : Receiver) (data : bytes) (dataLen : Z)
    (headerPara : SessionDataHeader) : run (Z * Receiver) :=
  if negb (has_buffer st) || negb (isWaiting_ st) then
    Done (FLAG_TYPE_NOT_MATCH_BUFFER_STATE, ResetFlag st)
  else
    let* (ret, st) := WriteRecvBytesDataToBuffer st data dataLen headerPara in
    if negb (ret =? ERR_OK) then Done (ret, ResetFlag st)
    else Done (ERR_OK, set_progress st (isWaiting_ st) (seqNum_ headerPara) (subSeq_ headerPara)).

Definition ProcessEndPacketRecv (st : Receiver) (data : bytes) (dataLen : Z)
    (headerPara : SessionDataHeader) : run (Z * Receiver) :=
  if negb (has_buffer st) || negb (isWaiting_ st) then
    Done (FLAG_TYPE_NOT_MATCH_BUFFER_STATE, ResetFlag st)
  else
    let* (ret, st) := WriteRecvBytesDataToBuffer st data dataLen headerPara in
    if negb (ret =? ERR_OK) then Done (ret, ResetFlag st)
    else Done (ret, set_progress st false (nowSeqNum_ st) (nowSubSeq_ st)).

Definition CheckRecvSessionHeader (st : Receiver) (headerPara : SessionDataHeader) : Z :=
  if negb (nowSeqNum_ st =? seqNum_ headerPara) then INVALID_SESSION_HEADER_SEQ_NUM
  else if (nowSubSeq_ st =? 0) && (subSeq_ headerPara =? 0) then ERR_OK
  else if negb (u32 (nowSubSeq_ st + 1) =? subSeq_ headerPara) then INVALID_SESSION_HEADER_SUB_SEQ
  else ERR_OK.

Definition PackRecvPacketData (junk : SessionDataHeader) (st : Receiver)
    (header : option bytes) (dataLen : Z) : run (Z * Receiver) :=
  let* headerPara := Deserialize junk header dataLen in
  match headerPara, header with
  | Some sessionHeader, Some data =>
    let ret := CheckRecvSessionHeader st sessionHeader in
    if negb (ret =? ERR_OK) then Done (ret, st)
    else if fragFlag_ sessionHeader =? FRAG_START_END then
      ProcessAllPacketRecv st data dataLen sessionHeader
    else if fragFlag_ sessionHeader =? FRAG_START then
      ProcessStartPacketRecv st data dataLen sessionHeader
    else if fragFlag_ sessionHeader =? FRAG_MID then
      ProcessMidPacketRecv st data dataLen sessionHeader
    else if fragFlag_ sessionHeader =? FRAG_END then
      ProcessEndPacketRecv st data dataLen sessionHeader
    else Done (INVALID_SESSION_HEADER_FLAG_TYPE, st)
  | _, _ => Done (WRITE_SESSION_HEADER_FAILED, st)
  end.

(** [GetPacketedData]: the buffer cut to the bytes received, and a fresh state. *)
Definition GetPacketedData (st : Receiver) : option DataBuffer * Receiver :=
  if isDataReady st then
    match packBuffer_ st with
    | Some b =>
      let n := match currentPos st with Some p => p - rangeOffset_ b | None => 0 end in
      let '(_, b) := SetRange b 0 n in
      (Some b, ResetFlag st)
    | None => (None, st)
    end
  else (None, st).

(** The receiver before any packet, and a run of packets through it. *)
Definition init_receiver : Receiver := mkReceiver false 0 0 0 None None.

Fixpoint receive_all (junk : SessionDataHeader) (st : Receiver) (packets : list bytes)
    : run (list Z * Receiver) :=
  match packets with
  | [] => Done ([], st)
  | p :: ps =>
    let* (ret, st) := PackRecvPacketData junk st (Some p) (zlen p) in
    let* (rets, st) := receive_all junk st ps in
    Done (ret :: rets, st)
  end.

(** ** Sender lemmas *)

Lemma DoSendPacket_ok SendBytes hdr d cur n sent :
  0 <= cur -> 0 <= n -> cur + n <= zlen d -> HEADER_LEN + n < DSCHED_MAX_BUFFER_SIZE ->
  let packet := wire hdr ++ slice d cur n in
  DoSendPacket SendBytes hdr (Some d) cur n sent
  = Done (if SendBytes sent packet =? SOFTBUS_OK then ERR_OK else SEND_DATA_BY_SOFTBUS_FAILED,
          sent ++ [packet]).
Proof.
  intros ??? Hmax packet. unfold DoSendPacket. rewrite Serialize_wire. cbn [run_bind].
  change HEADER_LEN with 57 in *. unfold DSCHED_MAX_BUFFER_SIZE in Hmax.
  rewrite u32_id by (unfold_ints; lia).
  rewrite make_buffer_ok by (unfold DSCHED_MAX_BUFFER_SIZE; lia).
  unfold Size. cbn [data_ rangeOffset_ rangeLength_ buffer_of].
  rewrite zeros_app, zlen_app, !zlen_zeros by lia.
  pose proof (memcpy_s_copy [] (zeros 57) (zeros n) (wire hdr) 0 (57 + n) 0 57 (wire hdr)) as Hc1.
  cbn [app] in Hc1. rewrite Hc1; [| |done|done|unfold_ints; lia].
  2:{ rewrite load_n_ok by (zlen_simpl; change HEADER_LEN with 57; lia).
      by rewrite slice_all by (by zlen_simpl). }
  cbn [run_bind]. change (negb (EOK =? EOK)) with false. cbv iota.
  rewrite u64_id by lia.
  pose proof (memcpy_s_copy (wire hdr) (zeros n) [] d (0 + 57) (57 + n - 57) cur n (slice d cur n)) as Hc2.
  rewrite !app_nil_r in Hc2. rewrite Hc2;
    [|by apply load_n_ok|by zlen_simpl|by rewrite zlen_zeros|unfold_ints; lia].
  cbn [run_bind]. change (negb (EOK =? EOK)) with false. cbv iota.
  unfold content, set_data, buffer_of; cbn [data_ rangeOffset_ rangeLength_].
  rewrite slice_all by (zlen_simpl; rewrite zlen_slice, !zlen_zeros by lia;
    change HEADER_LEN with 57; lia).
  fold packet. destruct (Z.eqb_spec (SendBytes sent packet) SOFTBUS_OK) as [->|]; done.
Qed.

(** The part of a packet behind the session header. *)
Definition payload (packet : bytes) : bytes := slice packet HEADER_LEN (zlen packet).

#[global] Arguments payload : simpl never.
#[global] Arguments wire : simpl never.

Lemma payload_wire hdr l : payload (wire hdr ++ l) = l.
Proof.
  unfold payload. apply slice_app_tail; zlen_simpl; [done|].
  change HEADER_LEN with 57. lia.
Qed.

Section SenderSpec.
Context (GetSessionOption : list bytes -> Z * Z).
Context (SendBytes : list bytes -> bytes -> Z).

(** Whenever softbus reports a packet size, it leaves room for the header and a
    packet of that size can be allocated. *)
Definition sizes_usable : Prop :=
  forall s, (GetSessionOption s).1 = ERR_OK ->
    HEADER_LEN < (GetSessionOption s).2 < DSCHED_MAX_BUFFER_SIZE.

(** No packet is longer than softbus allowed when it was built. *)
Definition sizes_respected (sent : list bytes) : Prop :=
  forall i p, sent !! i = Some p -> zlen p <= (GetSessionOption (take i sent)).2.

Lemma sizes_respected_nil : sizes_respected [].
Proof. intros i p. by rewrite lookup_nil. Qed.

Lemma sizes_respected_snoc sent p :
  sizes_respected sent -> zlen p <= (GetSessionOption sent).2 -> sizes_respected (sent ++ [p]).
Proof.
  intros Hs Hp i q [Hi|[Hle Hq]]%lookup_app_Some.
  - rewrite take_app_le by (apply lookup_lt_Some in Hi; lia). by apply Hs.
  - apply list_lookup_singleton_Some in Hq as [Hi <-].
    replace i with (length sent) by lia. by rewrite take_app_length.
Qed.

(** The outcome of sending: what was handed over is a prefix of the message, cut
    at packet boundaries, and all of it when the call reports success. *)
Definition send_outcome (l : bytes) (res : run (Z * list bytes)) : Prop :=
  exists ret sent k, res = Done (ret, sent) /\ 0 <= k <= zlen l /\
    concat (payload <$> sent) = slice l 0 k /\ (ret = ERR_OK -> k = zlen l) /\
    sizes_respected sent.

Lemma concat_payload_snoc sent hdr l :
  concat (payload <$> (sent ++ [wire hdr ++ l])) = concat (payload <$> sent) ++ l.
Proof. rewrite fmap_app, concat_app. cbn. by rewrite payload_wire, app_nil_r. Qed.

Lemma send_loop_outcome fuel hdr d lo n k sent :
  sizes_usable -> 0 <= lo -> 0 <= k <= n -> lo + n <= zlen d -> n < DSCHED_MAX_BUFFER_SIZE ->
  n - k <= Z.of_nat fuel ->
  concat (payload <$> sent) = slice (slice d lo n) 0 k -> sizes_respected sent ->
  send_outcome (slice d lo n)
    (send_loop GetSessionOption SendBytes fuel hdr (Some d) (lo + k) (lo + n) sent).
Proof.
  intros Hsz Hlo. revert hdr k sent.
  induction fuel as [|fuel IH]; intros hdr k sent Hk Hn Hmax Hf Hc Hr; cbn [send_loop].
  { bool_lia. eexists _, _, k. rewrite zlen_slice by lia. split_and!; try done; lia. }
  split_guard; guards_to_prop.
  2:{ eexists _, _, k. rewrite zlen_slice by lia. split_and!; try done; lia. }
  destruct (GetSessionOption sent) as [ret maxSendSize] eqn:HG. specialize (Hsz sent).
  rewrite HG in Hsz. cbn [fst snd] in Hsz. split_guard; guards_to_prop.
  { eexists _, _, k. rewrite zlen_slice by lia. split_and!; done || lia. }
  change HEADER_LEN with 57 in *. unfold DSCHED_MAX_BUFFER_SIZE in *.
  specialize (Hsz Guard0). rewrite !u32_id by (unfold_ints; lia).
  set (h := set_subSeq _ _). set (w := Z.min _ _).
  rewrite DoSendPacket_ok by (unfold DSCHED_MAX_BUFFER_SIZE; change HEADER_LEN with 57; lia).
  cbn [run_bind].
  assert (concat (payload <$> (sent ++ [wire h ++ slice d (lo + k) w]))
    = slice (slice d lo n) 0 (k + w)) as Hc'.
  { rewrite concat_payload_snoc, Hc, <- (slice_slice _ 0 k) by lia. f_equal.
    by rewrite slice_of_slice by lia. }
  assert (sizes_respected (sent ++ [wire h ++ slice d (lo + k) w])) as Hr'.
  { apply sizes_respected_snoc; [done|]. rewrite HG. zlen_simpl. rewrite zlen_slice by lia.
    change HEADER_LEN with 57. cbn. lia. }
  destruct (_ =? SOFTBUS_OK).
  - change (negb (ERR_OK =? ERR_OK)) with false. cbv iota.
    rewrite <- Z.add_assoc. apply IH; try done; lia.
  - eexists _, _, (k + w). rewrite zlen_slice by lia.
    split_and!; [reflexivity|lia|lia|done|done|done].
Qed.

Lemma SendBytesData_outcome fuel d lo n cap :
  sizes_usable -> 0 <= lo -> 0 <= n -> lo + n <= zlen d -> n < DSCHED_MAX_BUFFER_SIZE ->
  n <= Z.of_nat fuel ->
  send_outcome (slice d lo n)
    (SendBytesData GetSessionOption SendBytes fuel (mkDataBuffer cap lo n (Some d)) []).
Proof.
  intros Hsz ? ? ? Hmax ?. unfold SendBytesData, SendUnpackData.
  destruct (GetSessionOption []) as [ret maxSendSize] eqn:HG. pose proof (Hsz []) as Hsz0.
  rewrite HG in Hsz0. cbn [fst snd] in Hsz0. split_guard; guards_to_prop.
  { eexists _, _, 0. rewrite zlen_slice by lia.
    split_and!; done || lia || apply sizes_respected_nil. }
  change HEADER_LEN with 57 in *. unfold DSCHED_MAX_BUFFER_SIZE in *. specialize (Hsz0 Guard).
  unfold SendAllPackets, Size. cbn [rangeLength_ rangeOffset_ data_].
  rewrite u64_id by lia. split_guard; guards_to_prop.
  - change HEADER_LEN with 57 in *. rewrite (u32_id (n + 57)), (u32_id (n + 57 - 57))
      by (unfold_ints; lia).
    set (h := mkHeader _ _ _ _ _ _ _ _).
    replace (n + 57 - 57) with n by lia.
    rewrite DoSendPacket_ok by (unfold DSCHED_MAX_BUFFER_SIZE; change HEADER_LEN with 57; lia).
    cbn [run_bind app].
    assert (sizes_respected [wire h ++ slice d lo n]) as Hr'.
    { apply (sizes_respected_snoc []); [apply sizes_respected_nil|]. rewrite HG. zlen_simpl.
      rewrite zlen_slice by lia. change HEADER_LEN with 57. cbn. lia. }
    assert (concat (payload <$> [wire h ++ slice d lo n]) = slice (slice d lo n) 0 n) as Hc'.
    { cbn. rewrite payload_wire, app_nil_r. symmetry. apply slice_all.
      rewrite zlen_slice; lia. }
    destruct (_ =? SOFTBUS_OK); eexists _, _, n; rewrite zlen_slice by lia;
      (split_and!; [reflexivity|lia|lia|done|done|done]).
  - rewrite (u32_id n), (u32_id (maxSendSize - 57)) by (unfold_ints; lia).
    set (h := mkHeader _ _ _ _ _ _ _ _).
    rewrite DoSendPacket_ok by (unfold DSCHED_MAX_BUFFER_SIZE; change HEADER_LEN with 57; lia).
    cbn [run_bind app]. set (w := maxSendSize - 57) in *.
    assert (sizes_respected [wire h ++ slice d lo w]) as Hr'.
    { apply (sizes_respected_snoc []); [apply sizes_respected_nil|]. rewrite HG. zlen_simpl.
      rewrite zlen_slice by lia. change HEADER_LEN with 57. cbn. lia. }
    assert (concat (payload <$> [wire h ++ slice d lo w]) = slice (slice d lo n) 0 w) as Hc'.
    { cbn. rewrite payload_wire, app_nil_r, slice_of_slice by lia. f_equal. lia. }
    destruct (_ =? SOFTBUS_OK).
    + change (negb (ERR_OK =? ERR_OK)) with false. cbv iota.
      apply send_loop_outcome; try done; unfold DSCHED_MAX_BUFFER_SIZE; lia.
    + eexists _, _, w. rewrite zlen_slice by lia.
      split_and!; [reflexivity|lia|lia|done|done|done].
Qed.

(** Sending ends whatever the buffer is, one without an array included. *)
Lemma SendBytesData_ends b :
  sizes_usable -> buffer_wf b ->
  exists r, SendBytesData GetSessionOption SendBytes (Z.to_nat (Size b)) b [] = Done r.
Proof.
  intros Hsz. destruct b as [cap lo n [d|]]; intros (Hlo & Hn & Hfit & Hd); cbn in *.
  - destruct Hd as (Hd & Hcap).
    destruct (SendBytesData_outcome (Z.to_nat n) d lo n cap Hsz) as (ret & sent & k & Hrun & _); [lia..|].
    unfold Size. cbn. rewrite Hrun. by eexists.
  - assert (lo = 0) as -> by lia. assert (n = 0) as -> by lia.
    unfold SendBytesData, SendUnpackData, Size. cbn [rangeLength_].
    destruct (GetSessionOption []) as [ret maxSendSize] eqn:HG. pose proof (Hsz []) as Hsz0.
    rewrite HG in Hsz0. cbn [fst snd] in Hsz0. split_guard; guards_to_prop; [by eexists|].
    specialize (Hsz0 Guard). change HEADER_LEN with 57 in *.
    change (u64 (0 + 57)) with 57. bool_lia. unfold SendAllPackets, DoSendPacket.
    rewrite Serialize_wire. cbn. by eexists.
Qed.
End SenderSpec.

(** ** The packets of a message under a constant packet size *)

(** A session that always grants packets of [m] bytes and takes every packet. *)
Definition steady_option (m : Z) (_ : list bytes) : Z * Z := (ERR_OK, m).
Definition steady_send (_ : list bytes) (_ : bytes) : Z := SOFTBUS_OK.

Section Fragments.
Context (m : Z) (data : bytes).

Definition frag_size : Z := m - HEADER_LEN.

Definition frag_len (i : Z) : Z := Z.min frag_size (zlen data - i * frag_size).

Definition frag_header (i : Z) : SessionDataHeader :=
  mkHeader PROTOCOL_VERSION
    (if i =? 0 then FRAG_START
     else if frag_len i <? zlen data - i * frag_size then FRAG_MID else FRAG_END)
    CHANNEL_DATA_BYTES 0 (zlen data) m (frag_len i) (u16 i).

Definition fragment (i : Z) : bytes :=
  wire (frag_header i) ++ slice data (i * frag_size) (frag_len i).

(** Fragments [i], [i + 1], ... of which there are [n]. *)
Fixpoint fragments (i : Z) (n : nat) : list bytes :=
  match n with O => [] | S n => fragment i :: fragments (i + 1) n end.

Context (Hm : HEADER_LEN < m < DSCHED_MAX_BUFFER_SIZE).
Context (Hdata : zlen data < DSCHED_MAX_BUFFER_SIZE).

Lemma frag_size_mul_S i r : (i + Z.of_nat (S r)) * frag_size = (i + 1 + Z.of_nat r) * frag_size.
Proof. f_equal. lia. Qed.

Lemma send_loop_fragments fuel r i f pk pl sent :
  0 < i -> (r <= fuel)%nat ->
  (i + Z.of_nat r) * frag_size < zlen data + frag_size ->
  zlen data <= (i + Z.of_nat r) * frag_size ->
  send_loop (steady_option m) steady_send fuel
    (mkHeader PROTOCOL_VERSION f CHANNEL_DATA_BYTES 0 (zlen data) pk pl (u16 (i - 1)))
    (Some data) (Z.min (i * frag_size) (zlen data)) (zlen data) sent
  = Done (ERR_OK, sent ++ fragments i r).
Proof.
  assert (0 < frag_size) as Hw by (unfold frag_size; change HEADER_LEN with 57 in *; lia).
  assert (m - HEADER_LEN = frag_size) as Hmw by done.
  unfold DSCHED_MAX_BUFFER_SIZE in *.
  revert fuel i f pk pl sent. induction r as [|r IH]; intros fuel i f pk pl sent Hi Hf Hlo Hhi.
  { rewrite Z.add_0_r in Hhi. rewrite Z.min_r by lia.
    destruct fuel; cbn [send_loop]; bool_lia; cbn [fragments]; by rewrite app_nil_r. }
  rewrite frag_size_mul_S in Hlo, Hhi.
  assert (i * frag_size < zlen data) as Hcur by nia.
  destruct fuel as [|fuel]; [lia|]. cbn [send_loop fragments]. rewrite Z.min_l by lia. bool_lia.
  change (steady_option m sent) with (ERR_OK, m). cbv iota beta.
  change (negb (ERR_OK =? ERR_OK)) with false. cbv iota. rewrite Hmw.
  assert (0 <= i * frag_size) by nia. change HEADER_LEN with 57 in *.
  rewrite (u32_id (zlen data - _)), (u32_id frag_size) by (unfold_ints; lia).
  cbv beta iota zeta delta [set_packetLen set_payloadLen set_fragFlag set_subSeq version_ fragFlag_
    dataType_ seqNum_ totalLen_ packetLen_ payloadLen_ subSeq_].
  assert (u16 (u16 (i - 1) + 1) = u16 i) as ->.
  { unfold u16. rewrite Zplus_mod_idemp_l. f_equal. lia. }
  rewrite DoSendPacket_ok by (unfold DSCHED_MAX_BUFFER_SIZE; change HEADER_LEN with 57; lia).
  cbv zeta. unfold steady_send at 1. cbn [run_bind].
  change (SOFTBUS_OK =? SOFTBUS_OK) with true. change (negb (ERR_OK =? ERR_OK)) with false. cbv iota.
  replace (i * frag_size + Z.min frag_size (zlen data - i * frag_size))
    with (Z.min ((i + 1) * frag_size) (zlen data)) by lia.
  pose proof (IH fuel (i + 1)) as IH'. replace (i + 1 - 1) with i in IH' by lia.
  rewrite IH' by lia. rewrite <- app_assoc. cbn [app]. unfold fragment, frag_header, frag_len.
  by rewrite (proj2 (Z.eqb_neq i 0)) by lia.
Qed.

(** A message that does not fit one packet leaves as its fragments, in order. *)
Lemma SendBytesData_fragments fuel r :
  (r <= fuel)%nat -> frag_size < zlen data ->
  (Z.of_nat r * frag_size < zlen data <= (1 + Z.of_nat r) * frag_size) ->
  SendBytesData (steady_option m) steady_send fuel (buffer_of data) [] = Done (ERR_OK, fragments 0 (S r)).
Proof.
  intros Hf Hlong Hr. unfold frag_size in *.
  pose proof Hm as Hm'. change HEADER_LEN with 57 in *. unfold DSCHED_MAX_BUFFER_SIZE in *.
  unfold SendBytesData, SendUnpackData, buffer_of, Size.
  cbn [steady_option fst snd rangeLength_ rangeOffset_ data_].
  change (negb (ERR_OK =? ERR_OK)) with false. cbv iota. change HEADER_LEN with 57.
  rewrite u64_id by lia. bool_lia.
  rewrite (u32_id (zlen data)), (u32_id (m - 57)) by (unfold_ints; lia).
  change (u32 CHANNEL_DATA_BYTES) with CHANNEL_DATA_BYTES.
  rewrite DoSendPacket_ok by (unfold DSCHED_MAX_BUFFER_SIZE; change HEADER_LEN with 57; lia).
  cbv zeta. unfold steady_send at 1. cbn [run_bind app].
  change (SOFTBUS_OK =? SOFTBUS_OK) with true. change (negb (ERR_OK =? ERR_OK)) with false. cbv iota.
  pose proof (send_loop_fragments fuel r 1 FRAG_START m (m - 57)
    [wire (mkHeader PROTOCOL_VERSION FRAG_START CHANNEL_DATA_BYTES 0 (zlen data) m (m - 57) 0)
      ++ slice data 0 (m - 57)]) as Hloop.
  unfold frag_size in Hloop. change HEADER_LEN with 57 in Hloop.
  change (u16 (1 - 1)) with 0 in Hloop.
  rewrite Z.min_l in Hloop by lia. rewrite Z.mul_1_l in Hloop.
  replace (0 + (m - 57)) with (m - 57) by lia. replace (0 + zlen data) with (zlen data) by lia.
  rewrite Hloop by lia. cbn [fragments app]. do 3 f_equal.
  unfold fragment, frag_header, frag_len, frag_size. change HEADER_LEN with 57.
  change (0 =? 0) with true. cbv iota. rewrite Z.mul_0_l, Z.min_l by lia. done.
Qed.
End Fragments.


(** ** Receiver lemmas *)

(** What the receiver has assembled so far. *)
Definition received (st : Receiver) : bytes :=
  match packBuffer_ st, currentPos st with
  | Some b, Some p => slice (content b) 0 p
  | _, _ => []
  end.

(** Either nothing is pending and the object is as constructed, or the write
    pointer lies in a live buffer whose window is the whole array. *)
Definition receiver_wf (st : Receiver) : Prop :=
  st = init_receiver \/
  exists d p, packBuffer_ st = Some (buffer_of d) /\ currentPos st = Some p /\
    0 < zlen d < DSCHED_MAX_BUFFER_SIZE /\ 0 <= p <= zlen d.

(** A pending message of [total] bytes of which [a] have arrived. *)
Definition pending (waiting : bool) (sub total : Z) (a : bytes) : Receiver :=
  mkReceiver waiting 0 sub 0 (Some (buffer_of (a ++ zeros (total - zlen a)))) (Some (zlen a)).

Lemma mkDataBuffer_full n l : zlen l = n -> mkDataBuffer n 0 n (Some l) = buffer_of l.
Proof. by intros <-. Qed.

Lemma copy_payload_ok st d p data off n :
  zlen d < DSCHED_MAX_BUFFER_SIZE -> 0 <= p <= zlen d -> 0 <= off -> 0 <= n ->
  off + n <= zlen data ->
  copy_payload st (buffer_of d) (Some p) data off n
  = if n <=? zlen d - p then
      Done (ERR_OK, set_pack st (buffer_of (slice d 0 p ++ slice data off n
              ++ slice d (p + n) (zlen d))) (Some (p + n)))
    else
      Done (WRITE_PAYLOAD_TO_BUFFER_FAILED, set_pack st
        (buffer_of (slice d 0 p ++ zeros (zlen d - p))) (Some p)).
Proof.
  intros Hmax ????. unfold DSCHED_MAX_BUFFER_SIZE in *.
  unfold copy_payload, buffer_of, Size. cbn [data_ rangeLength_ rangeOffset_].
  rewrite Z.sub_0_r, u64_id by lia. unfold memcpy_s, RSIZE_MAX. bool_lia.
  assert (zlen (slice data off n) = n) as Hl by (rewrite zlen_slice; lia).
  assert (zlen (slice d 0 p) = p) by (rewrite zlen_slice; lia).
  split_guard; guards_to_prop; bool_lia; unfold store_n.
  - rewrite zlen_zeros by lia. bool_lia. cbn [run_bind].
    change (EINVAL =? EOK) with false. change (ERANGE =? EOK) with false. cbn [negb]. cbv iota.
    unfold set_data. cbn [capacity_ rangeOffset_ rangeLength_].
    replace (p + (zlen d - p)) with (zlen d) by lia.
    assert (slice d (zlen d) (zlen d) = []) as ->.
    { unfold slice, zlen. rewrite Nat2Z.id, drop_all. by rewrite take_nil. }
    rewrite app_nil_r, mkDataBuffer_full; [done|]. zlen_simpl. rewrite zlen_zeros; lia.
  - rewrite load_n_ok by lia. cbn [run_bind]. rewrite Hl. bool_lia. cbn [run_bind].
    change (EOK =? EOK) with true. cbn [negb]. cbv iota.
    unfold set_data. cbn [capacity_ rangeOffset_ rangeLength_].
    rewrite mkDataBuffer_full; [done|]. zlen_simpl. rewrite (zlen_slice_tail d (p + n)) by lia. lia.
Qed.

(** The payload range of an accepted header lies behind its session header. *)
Lemma WriteRecv_accepted st data h :
  header_wf h -> lengths_ok h (zlen data) ->
  WriteRecvBytesDataToBuffer st data (zlen data) h
  = match packBuffer_ st with
    | None =>
      let b := make_buffer (totalLen_ h) in
      copy_payload st b (Data b) data (packetLen_ h - payloadLen_ h) (payloadLen_ h)
    | Some b =>
      if negb (Size b =? totalLen_ h) then Done (INVALID_SESSION_HEADER_TOTAL_LEN, st)
      else copy_payload st b (currentPos st) data (packetLen_ h - payloadLen_ h) (payloadLen_ h)
    end.
Proof.
  intros (_&_&_&_&?&?&?&_) (?&?&?&?&?). unfold_ints. change HEADER_LEN with 57 in *.
  unfold WriteRecvBytesDataToBuffer. bool_lia.
  rewrite (u32_id (packetLen_ h - payloadLen_ h)) by (unfold_ints; lia). bool_lia.
  rewrite u32_id by (unfold_ints; lia). by bool_lia.
Qed.

(** The payload of a packet with header [h]. *)
Definition payload_of (h : SessionDataHeader) (data : bytes) : bytes :=
  slice data (packetLen_ h - payloadLen_ h) (payloadLen_ h).

(** A step of the copy: what it leaves extends what was there. *)
Definition extended (st st' : Receiver) (total : Z) (l : bytes) : Prop :=
  exists d p, st' = set_pack st (buffer_of d) (Some p) /\ zlen d = total /\
    0 < zlen d < DSCHED_MAX_BUFFER_SIZE /\ 0 <= p <= zlen d /\
    slice d 0 p = received st ++ l.

Lemma copy_payload_step st d p data h :
  header_wf h -> lengths_ok h (zlen data) ->
  0 < zlen d < DSCHED_MAX_BUFFER_SIZE -> 0 <= p <= zlen d -> received st = slice d 0 p ->
  exists ret st', copy_payload st (buffer_of d) (Some p) data
      (packetLen_ h - payloadLen_ h) (payloadLen_ h) = Done (ret, st') /\
    (ret = ERR_OK -> extended st st' (zlen d) (payload_of h data)).
Proof.
  intros (_&_&_&_&?&?&?&_) (?&?&?&?&?) ?? Hrec. unfold_ints. change HEADER_LEN with 57 in *.
  rewrite copy_payload_ok by lia.
  assert (zlen (payload_of h data) = payloadLen_ h) as Hl
    by (unfold payload_of; rewrite zlen_slice; lia).
  assert (zlen (slice d 0 p) = p) as Hp by (rewrite zlen_slice; lia).
  split_guard; guards_to_prop; eexists _, _; (split; [done|]); [|done].
  intros _. unfold payload_of in *. eexists _, _. split; [done|]. rewrite app_assoc.
  zlen_simpl. rewrite (zlen_slice_tail d (p + _)), Hrec by lia.
  split_and!; [lia..|]. apply slice_app_l. zlen_simpl. lia.
Qed.

Lemma WriteRecv_step st data h :
  receiver_wf st -> header_wf h -> lengths_ok h (zlen data) ->
  exists ret st', WriteRecvBytesDataToBuffer st data (zlen data) h = Done (ret, st') /\
    (ret = ERR_OK -> extended st st' (totalLen_ h) (payload_of h data)).
Proof.
  intros Hst Hwf Hlen. pose proof Hwf as (_&_&_&_&?&?&?&_). pose proof Hlen as (?&?&?&?&?).
  rewrite WriteRecv_accepted by done. unfold_ints. change HEADER_LEN with 57 in *.
  destruct Hst as [->|(d & p & Hb & Hpos & ? & ?)]; cbn [packBuffer_ init_receiver].
  - destruct (Z.lt_ge_cases (totalLen_ h) DSCHED_MAX_BUFFER_SIZE).
    + rewrite make_buffer_ok by lia. cbv zeta. change (Data _) with (Some 0).
      destruct (copy_payload_step init_receiver (zeros (totalLen_ h)) 0 data h)
        as (ret & st' & -> & Hok); [done..| | |done|].
      { rewrite zlen_zeros; lia. } { rewrite zlen_zeros; lia. }
      rewrite zlen_zeros in Hok by lia. by eexists _, _.
    + rewrite make_buffer_null by lia. cbv zeta. cbn [Data data_ copy_payload].
      by eexists _, _.
  - rewrite Hb, Hpos. unfold Size. cbn [buffer_of rangeLength_].
    split_guard; guards_to_prop; [by eexists _, _|]. rewrite <- Guard.
    apply copy_payload_step; [done..|]. unfold received. by rewrite Hb, Hpos, content_buffer_of.
Qed.

Lemma extended_wf st st' total l w s1 s2 :
  extended st st' total l -> receiver_wf (set_progress st' w s1 s2) /\
  received (set_progress st' w s1 s2) = received st ++ l.
Proof.
  intros (d & p & -> & _ & ? & ? & Hs). split; [right; by eexists _, _|].
  change (slice (content (buffer_of d)) 0 p = received st ++ l). by rewrite content_buffer_of.
Qed.

(** What every packet handler guarantees, for a packet with payload [l]. *)
Definition recv_ok (st : Receiver) (l : bytes) (res : run (Z * Receiver)) : Prop :=
  exists ret st', res = Done (ret, st') /\ receiver_wf st' /\
    (ret <> ERR_OK -> st' = st \/ st' = init_receiver) /\
    (ret = ERR_OK -> received st' = received st ++ l).

Lemma recv_ok_fail st l ret st' :
  receiver_wf st -> ret <> ERR_OK -> st' = st \/ st' = init_receiver ->
  recv_ok st l (Done (ret, st')).
Proof. intros Hst ? [->| ->]; eexists _, _; (split_and!; [done| |auto|done]); [done|by left]. Qed.

(** A handler that writes the payload and, on success, updates the progress. *)
Lemma recv_ok_write st data h err (k : Receiver -> Receiver) (m : run (Z * Receiver)) :
  receiver_wf st -> header_wf h -> lengths_ok h (zlen data) ->
  (forall ret, ret <> ERR_OK -> err ret <> ERR_OK) ->
  (forall st', exists w s1 s2, k st' = set_progress st' w s1 s2) ->
  m = run_bind (WriteRecvBytesDataToBuffer st data (zlen data) h)
        (fun '(ret, st') => if negb (ret =? ERR_OK) then Done (err ret, ResetFlag st')
                            else Done (ERR_OK, k st')) ->
  recv_ok st (payload_of h data) m.
Proof.
  intros Hst Hwf Hlen Herr Hk ->.
  destruct (WriteRecv_step st data h) as (ret & st' & -> & Hok); [done..|]. cbn [run_bind].
  split_guard; guards_to_prop; [apply recv_ok_fail; auto|].
  destruct (Hk st') as (w & s1 & s2 & ->). destruct (extended_wf _ _ _ _ w s1 s2 (Hok Guard)).
  eexists _, _. by split_and!.
Qed.

Lemma set_progress_id st : st = set_progress st (isWaiting_ st) (nowSeqNum_ st) (nowSubSeq_ st).
Proof. by destruct st. Qed.

Lemma PackRecv_step junk st data :
  header_wf junk -> Forall is_u8 data -> receiver_wf st ->
  exists l, recv_ok st l (PackRecvPacketData junk st (Some data) (zlen data)) /\
    (forall h, Deserialize junk (Some data) (zlen data) = Done (Some h) -> l = payload_of h data).
Proof.
  intros Hjunk Hdata Hst. unfold PackRecvPacketData.
  destruct (Deserialize junk (Some data) (zlen data)) as [[h|]| |] eqn:HD; cbn [run_bind].
  - exists (payload_of h data). split; [|by intros h' [= ->]].
    apply Deserialize_lengths in HD as [Hwf Hlen]; [|done..].
    split_guard; guards_to_prop; [by apply recv_ok_fail; auto|].
    unfold ProcessAllPacketRecv, ProcessStartPacketRecv, ProcessMidPacketRecv, ProcessEndPacketRecv.
    repeat (split_guard; [split_guard; [by apply recv_ok_fail; auto|]|]);
      [| | | |by apply recv_ok_fail; auto].
    + apply (recv_ok_write st data h (fun _ => WRITE_PAYLOAD_TO_BUFFER_FAILED) id); try done.
      intros st'. eexists _, _, _. apply set_progress_id.
    + eapply (recv_ok_write st data h id); try done. intros. by eexists _, _, _.
    + apply (recv_ok_write st data h id (fun st => set_progress st (isWaiting_ st)
        (seqNum_ h) (subSeq_ h))); try done. intros. by eexists _, _, _.
    + apply (recv_ok_write st data h id (fun st => set_progress st false
        (nowSeqNum_ st) (nowSubSeq_ st))); try done; [intros; by eexists _, _, _|].
      destruct (WriteRecvBytesDataToBuffer _ _ _ _) as [[ret st']| |]; [cbn [run_bind]|done..].
      unfold id. destruct (ret =? ERR_OK) eqn:E; [|done]. guards_to_prop. by rewrite E.
  - exists []. split; [by apply recv_ok_fail; auto|done].
  - destruct (Deserialize_run junk data (zlen data)) as [r Hr]; [done|]. congruence.
  - destruct (Deserialize_run junk data (zlen data)) as [r Hr]; [done|]. congruence.
Qed.

(** ** Reassembly *)

Section Reassembly.
Context (h : SessionDataHeader) (l : bytes).
Context (Hwf : header_wf h) (Hlen : lengths_ok h (zlen (wire h ++ l))).
Context (Hpacket : packetLen_ h = zlen (wire h ++ l)) (Hpayload : payloadLen_ h = zlen l).
Context (Htotal : totalLen_ h < DSCHED_MAX_BUFFER_SIZE).

Lemma slice_payload : slice (wire h ++ l) (packetLen_ h - payloadLen_ h) (payloadLen_ h) = l.
Proof.
  rewrite Hpacket, Hpayload. zlen_simpl. replace (HEADER_LEN + _ - _) with HEADER_LEN by lia.
  apply slice_app_tail; zlen_simpl; lia.
Qed.

Lemma total_bounds : 0 < totalLen_ h /\ zlen l <= totalLen_ h /\
  0 <= packetLen_ h - payloadLen_ h.
Proof.
  destruct Hlen as (?&?&?&?&?). pose proof (zlen_nonneg l). rewrite zlen_app, zlen_wire in Hpacket.
  change HEADER_LEN with 57 in *. lia.
Qed.

Lemma WriteRecv_first st :
  packBuffer_ st = None ->
  WriteRecvBytesDataToBuffer st (wire h ++ l) (zlen (wire h ++ l)) h
  = Done (ERR_OK, set_pack st (buffer_of (l ++ zeros (totalLen_ h - zlen l))) (Some (zlen l))).
Proof.
  intros Hb. destruct total_bounds as (?&?&?). rewrite WriteRecv_accepted, Hb by done. cbv zeta.
  pose proof (zlen_nonneg l). rewrite make_buffer_ok by lia. change (Data _) with (Some 0).
  rewrite copy_payload_ok; rewrite ?zlen_zeros; try lia.
  rewrite slice_payload, Hpayload. bool_lia. rewrite slice_nil, Z.add_0_l. cbn [app].
  do 4 f_equal. replace (totalLen_ h) with (zlen l + (totalLen_ h - zlen l)) at 1 by lia.
  rewrite zeros_app by lia. f_equal. apply slice_app_tail; rewrite ?zlen_zeros; lia.
Qed.

Lemma WriteRecv_next a waiting sub :
  zlen a + zlen l <= totalLen_ h ->
  WriteRecvBytesDataToBuffer (pending waiting sub (totalLen_ h) a)
    (wire h ++ l) (zlen (wire h ++ l)) h
  = Done (ERR_OK, pending waiting sub (totalLen_ h) (a ++ l)).
Proof.
  intros Ha. destruct total_bounds as (?&?&?). pose proof (zlen_nonneg a). pose proof (zlen_nonneg l).
  rewrite WriteRecv_accepted by done. set (T := totalLen_ h) in *. unfold pending.
  cbn [packBuffer_ currentPos].
  assert (zlen (a ++ zeros (T - zlen a)) = T) as HT by (zlen_simpl; rewrite zlen_zeros; lia).
  unfold Size. cbn [buffer_of rangeLength_]. rewrite HT. bool_lia.
  change (mkDataBuffer _ _ _ _) with (buffer_of (a ++ zeros (T - zlen a))).
  rewrite copy_payload_ok; rewrite ?HT; try lia.
  rewrite slice_payload, Hpayload. bool_lia. unfold set_pack; cbn [isWaiting_ nowSeqNum_ nowSubSeq_ nowTotalLen_].
  rewrite slice_app_l, zlen_app by done. do 4 f_equal. rewrite <- app_assoc. do 2 f_equal.
  replace (T - zlen a) with (zlen l + (T - (zlen a + zlen l))) at 1 by lia.
  rewrite zeros_app, app_assoc by lia. f_equal. apply slice_app_tail; zlen_simpl; rewrite !zlen_zeros; lia.
Qed.
End Reassembly.

Lemma PackRecv_wire junk st h l :
  header_wf h -> lengths_ok h (zlen (wire h ++ l)) ->
  PackRecvPacketData junk st (Some (wire h ++ l)) (zlen (wire h ++ l))
  = let data := wire h ++ l in
    let ret := CheckRecvSessionHeader st h in
    if negb (ret =? ERR_OK) then Done (ret, st)
    else if fragFlag_ h =? FRAG_START_END then ProcessAllPacketRecv st data (zlen data) h
    else if fragFlag_ h =? FRAG_START then ProcessStartPacketRecv st data (zlen data) h
    else if fragFlag_ h =? FRAG_MID then ProcessMidPacketRecv st data (zlen data) h
    else if fragFlag_ h =? FRAG_END then ProcessEndPacketRecv st data (zlen data) h
    else Done (INVALID_SESSION_HEADER_FLAG_TYPE, st).
Proof. intros. unfold PackRecvPacketData. by rewrite Deserialize_wire. Qed.

(** The receiver when all of [a] has arrived and no packet is awaited. *)
Lemma GetPacketedData_pending sub total a :
  0 < total < DSCHED_MAX_BUFFER_SIZE -> zlen a <= total ->
  exists b, GetPacketedData (pending false sub total a) = (Some b, init_receiver) /\
    content b = a /\ Size b = zlen a.
Proof.
  intros. pose proof (zlen_nonneg a). unfold GetPacketedData, pending.
  cbn [isDataReady isWaiting_ packBuffer_ currentPos negb andb].
  set (d := a ++ _). assert (zlen d = total) by (unfold d; zlen_simpl; rewrite zlen_zeros; lia).
  change (rangeOffset_ (buffer_of d)) with 0. rewrite Z.sub_0_r.
  destruct (SetRange_prefix d (zlen a)) as (b & -> & Hc & Hs); [lia..|].
  exists b. split; [done|]. split; [|done]. rewrite Hc. by apply slice_app_l.
Qed.

Section ReassembleFragments.
Context (m : Z) (data : bytes) (k : Z).
Context (Hm : HEADER_LEN < m <= zlen data).
Context (Hpayload : frag_size m <= BINARY_PAYLOAD_MAX_LEN).
Context (Hmax : zlen data < DSCHED_MAX_BUFFER_SIZE).
Context (Hwhole : zlen data = k * frag_size m) (Hk : k <= 65536).

Lemma frag_size_pos : 0 < frag_size m.
Proof. unfold frag_size. lia. Qed.

(** Every fragment is full, so its header tells the length it really has. *)
Lemma frag_full i : 0 <= i < k -> frag_len m data i = frag_size m.
Proof. intros. pose proof frag_size_pos. unfold frag_len. rewrite Hwhole. nia. Qed.

Lemma fragment_zlen i : 0 <= i < k -> zlen (fragment m data i) = m.
Proof.
  intros. pose proof frag_size_pos. unfold fragment. rewrite frag_full by done. zlen_simpl.
  rewrite zlen_slice by nia. unfold frag_size. lia.
Qed.

Lemma frag_header_wf i : 0 <= i < k -> header_wf (frag_header m data i).
Proof.
  intros. pose proof frag_size_pos. unfold DSCHED_MAX_BUFFER_SIZE in *.
  unfold header_wf, frag_header; cbn [version_ fragFlag_ dataType_ seqNum_ totalLen_ packetLen_
    payloadLen_ subSeq_]. rewrite frag_full by done.
  assert (frag_size m < m) by (unfold frag_size; change HEADER_LEN with 57; lia).
  change HEADER_LEN with 57 in *.
  split_and!; auto with dms; unfold is_u8, is_u16, is_u32; try lia; try by_compute.
  by repeat case_match; by_compute.
Qed.

Lemma frag_lengths_ok i : 0 <= i < k -> lengths_ok (frag_header m data i) m.
Proof.
  intros. unfold lengths_ok, frag_header; cbn [totalLen_ packetLen_ payloadLen_].
  rewrite frag_full by done. unfold frag_size, DSCHED_MAX_BUFFER_SIZE, BINARY_DATA_MAX_TOTAL_LEN in *.
  split_and!; lia.
Qed.

(** The state after fragment [i]. *)
Definition after (i : Z) : Receiver :=
  pending (i + 1 <? k) (if i + 1 <? k then i else i - 1) (zlen data)
    (slice data 0 ((i + 1) * frag_size m)).

Lemma recv_fragment_first junk :
  1 < k -> PackRecvPacketData junk init_receiver (Some (fragment m data 0)) (zlen (fragment m data 0))
  = Done (ERR_OK, after 0).
Proof.
  intros. pose proof frag_size_pos. pose proof (fragment_zlen 0 ltac:(lia)) as Hz.
  unfold fragment in *. set (h := frag_header m data 0) in *. set (l := slice _ _ _) in *.
  assert (header_wf h) by (apply frag_header_wf; lia).
  assert (lengths_ok h (zlen (wire h ++ l))) by (rewrite Hz; apply frag_lengths_ok; lia).
  assert (payloadLen_ h = zlen l) as Hl.
  { unfold l. rewrite frag_full, zlen_slice by nia. apply frag_full. lia. }
  rewrite PackRecv_wire by done. cbv zeta.
  change (CheckRecvSessionHeader init_receiver h) with ERR_OK.
  change (fragFlag_ h) with FRAG_START.
  change (negb (ERR_OK =? ERR_OK)) with false.
  change (FRAG_START =? FRAG_START_END) with false. change (FRAG_START =? FRAG_START) with true.
  cbv iota. unfold ProcessStartPacketRecv. cbn [has_buffer init_receiver packBuffer_ isWaiting_ orb].
  rewrite WriteRecv_first by done. cbn [run_bind]. change (negb (ERR_OK =? ERR_OK)) with false.
  cbv iota. do 2 f_equal. unfold after, pending. bool_lia.
  assert (slice data 0 ((0 + 1) * frag_size m) = l) as ->.
  { unfold l. rewrite frag_full by lia. by rewrite Z.mul_1_l. }
  done.
Qed.
Lemma recv_fragment_next junk i :
  0 < i < k ->
  PackRecvPacketData junk (after (i - 1)) (Some (fragment m data i)) (zlen (fragment m data i))
  = Done (ERR_OK, after i).
Proof.
  intros Hi. pose proof frag_size_pos. pose proof (fragment_zlen i ltac:(lia)) as Hz.
  unfold fragment in *. set (h := frag_header m data i) in *. set (l := slice _ _ _) in *.
  assert (header_wf h) by (apply frag_header_wf; lia).
  assert (lengths_ok h (zlen (wire h ++ l))) by (rewrite Hz; apply frag_lengths_ok; lia).
  assert (payloadLen_ h = zlen l) as Hl.
  { unfold l. rewrite frag_full, zlen_slice by nia. apply frag_full. lia. }
  assert (subSeq_ h = i) as Hsub by (apply u16_id; unfold_ints; lia).
  assert (fragFlag_ h = if i + 1 <? k then FRAG_MID else FRAG_END) as Hflag.
  { unfold h, frag_header. cbn [fragFlag_]. rewrite frag_full by lia. bool_lia.
    rewrite Hwhole. destruct (Z.ltb_spec (i + 1) k); bool_lia; try done.
    - by rewrite (proj2 (Z.ltb_lt _ _)) by nia.
    - by rewrite (proj2 (Z.ltb_ge _ _)) by nia. }
  rewrite PackRecv_wire by done. cbv zeta.
  assert (after (i - 1) = pending true (i - 1) (zlen data) (slice data 0 (i * frag_size m))) as ->
    by (unfold after; replace (i - 1 + 1) with i by lia; by bool_lia).
  assert (CheckRecvSessionHeader (pending true (i - 1) (zlen data)
    (slice data 0 (i * frag_size m))) h = ERR_OK) as ->.
  { unfold CheckRecvSessionHeader. cbn [pending nowSeqNum_ nowSubSeq_]. change (seqNum_ h) with 0.
    change (0 =? 0) with true. rewrite Hsub, u32_id by (unfold_ints; lia).
    replace (i - 1 + 1) with i by lia. rewrite Z.eqb_refl. by destruct (_ && _). }
  change (negb (ERR_OK =? ERR_OK)) with false. cbv iota.
  pose proof (WriteRecv_next h l ltac:(done) ltac:(done) ltac:(by rewrite Hz) Hl ltac:(done)
    (slice data 0 (i * frag_size m)) true (i - 1)) as Hw.
  change (totalLen_ h) with (zlen data) in Hw.
  assert (zlen l = frag_size m) as Hll by (rewrite <- Hl; apply frag_full; lia).
  rewrite zlen_slice in Hw by nia.
  assert (slice data 0 (i * frag_size m) ++ l = slice data 0 ((i + 1) * frag_size m)) as Happ.
  { unfold l. rewrite frag_full by lia. rewrite (slice_slice data 0 (i * frag_size m)) by nia.
    f_equal. lia. }
  rewrite Happ in Hw. specialize (Hw ltac:(nia)).
  rewrite Hflag. destruct (Z.ltb_spec (i + 1) k).
  - change (FRAG_MID =? FRAG_START_END) with false. change (FRAG_MID =? FRAG_START) with false.
    change (FRAG_MID =? FRAG_MID) with true. cbv iota. unfold ProcessMidPacketRecv.
    match goal with |- context [has_buffer ?st] =>
      change (negb (has_buffer st) || negb (isWaiting_ st)) with false end.
    cbv iota. rewrite Hw. cbn [run_bind]. change (negb (ERR_OK =? ERR_OK)) with false. cbv iota.
    unfold after. bool_lia. unfold set_progress, pending. by rewrite Hsub.
  - change (FRAG_END =? FRAG_START_END) with false. change (FRAG_END =? FRAG_START) with false.
    change (FRAG_END =? FRAG_MID) with false. change (FRAG_END =? FRAG_END) with true. cbv iota.
    unfold ProcessEndPacketRecv.
    match goal with |- context [has_buffer ?st] =>
      change (negb (has_buffer st) || negb (isWaiting_ st)) with false end.
    cbv iota. rewrite Hw. cbn [run_bind]. change (negb (ERR_OK =? ERR_OK)) with false. cbv iota.
    unfold after. bool_lia. done.
Qed.

Lemma recv_fragments junk n i :
  0 < i -> i + Z.of_nat n = k ->
  receive_all junk (after (i - 1)) (fragments m data i n)
  = Done (replicate n ERR_OK, after (k - 1)).
Proof.
  revert i. induction n as [|n IH]; intros i Hi Hn.
  { cbn. by replace i with k by lia. }
  cbn [fragments receive_all]. rewrite recv_fragment_next by lia. cbn [run_bind].
  replace i with (i + 1 - 1) at 1 by lia. rewrite IH by lia. done.
Qed.
End ReassembleFragments.

(** A packet that announces more bytes than arrived is refused in every state. *)
Lemma PackRecv_short_packet junk st h l :
  header_wf h -> zlen (wire h ++ l) < packetLen_ h ->
  PackRecvPacketData junk st (Some (wire h ++ l)) (zlen (wire h ++ l))
  = Done (WRITE_SESSION_HEADER_FAILED, st).
Proof.
  intros ? Hshort. unfold PackRecvPacketData, Deserialize. split_guard; [done|].
  rewrite read_items_wire by done. cbn [run_bind].
  assert (ValidateHeaderParameters h (zlen (wire h ++ l)) = false) as ->; [|done].
  unfold ValidateHeaderParameters. split_guard; [done|]. split_guard; [done|]. by bool_lia.
Qed.

Lemma length_fragments m data i n : length (fragments m data i n) = n.
Proof. revert i. induction n; intros; cbn; auto. Qed.

Lemma fragments_snoc m data n i :
  fragments m data i (S n) = fragments m data i n ++ [fragment m data (i + Z.of_nat n)].
Proof.
  revert i. induction n as [|n IH]; intros i.
  { cbn. by rewrite Z.add_0_r. }
  cbn [fragments app]. f_equal. pose proof (IH (i + 1)) as IH'. cbn [fragments] in IH'.
  rewrite IH'. do 3 f_equal. lia.
Qed.

(** Where softbus always grants the same size and takes every packet. *)
Lemma DoSendPacket_steady B h data cur n sent :
  (forall sent p, B sent p = SOFTBUS_OK) ->
  DoSendPacket B h data cur n sent = DoSendPacket steady_send h data cur n sent.
Proof.
  intros HB. unfold DoSendPacket. destruct (Serialize h) as [b| |]; cbn [run_bind]; [|done..].
  destruct (memcpy_s _ _ _ _ _ HEADER_LEN) as [[ret mem]| |]; cbn [run_bind]; [|done..].
  destruct (negb _); [done|]. destruct (memcpy_s _ _ _ _ _ n) as [[ret' mem']| |]; cbn [run_bind]; [|done..].
  by rewrite HB.
Qed.

Lemma SendBytesData_steady G B m fuel data sent :
  (forall sent, G sent = (ERR_OK, m)) -> (forall sent p, B sent p = SOFTBUS_OK) ->
  SendBytesData G B fuel data sent = SendBytesData (steady_option m) steady_send fuel data sent.
Proof.
  intros HG HB.
  assert (forall fuel h d cur e sent, send_loop G B fuel h d cur e sent =
    send_loop (steady_option m) steady_send fuel h d cur e sent) as Hloop.
  { clear fuel sent. induction fuel as [|fuel IH]; intros h d cur e sent; cbn [send_loop]; [done|].
    rewrite HG. cbn [steady_option]. destruct (cur <? e); [|done]. destruct (negb (ERR_OK =? ERR_OK)); [done|].
    rewrite (DoSendPacket_steady B) by done.
    destruct (DoSendPacket steady_send _ _ _ _ _) as [[ret sent']| |]; cbn [run_bind]; [|done..].
    by rewrite IH. }
  unfold SendBytesData, SendUnpackData, SendAllPackets. rewrite HG. cbn [steady_option].
  destruct (negb (ERR_OK =? ERR_OK)); [done|]. rewrite !(DoSendPacket_steady B) by done.
  destruct (_ <=? _); [done|].
  destruct (DoSendPacket steady_send _ _ _ _ _) as [[ret sent']| |]; cbn [run_bind]; [|done..].
  by rewrite Hloop.
Qed.

(** [assembles st packets data]: from [st], each packet is accepted and the last one
    completes [data], which leaves the receiver as constructed. *)
Inductive assembles : Receiver -> list bytes -> bytes -> Prop :=
| assembles_last st p st' b data :
  (forall junk, PackRecvPacketData junk st (Some p) (zlen p) = Done (ERR_OK, st')) ->
  GetPacketedData st' = (Some b, init_receiver) -> content b = data -> assembles st [p] data
| assembles_more st p st' ps data :
  (forall junk, PackRecvPacketData junk st (Some p) (zlen p) = Done (ERR_OK, st')) ->
  GetPacketedData st' = (None, st') -> assembles st' ps data -> assembles st (p :: ps) data.

(** ** Properties *)

(** Messages the channel carries in one packet of at most [m] bytes. *)
Definition fits_one_packet (m : Z) (data : bytes) : Prop :=
  0 < zlen data <= BINARY_PAYLOAD_MAX_LEN /\ zlen data + HEADER_LEN <= m /\ m < 2 ^ 32.

(** It leaves as a single packet, which any receiver at rest accepts. *)
Lemma one_packet_runs m data fuel :
  fits_one_packet m data ->
  exists packet,
    SendBytesData (steady_option m) steady_send fuel (buffer_of data) [] = Done (ERR_OK, [packet]) /\
    forall junk, PackRecvPacketData junk init_receiver (Some packet) (zlen packet)
      = Done (ERR_OK, pending false 0 (zlen data + HEADER_LEN) data).
Proof.
  intros (Hn & Hfit & Hm). unfold BINARY_PAYLOAD_MAX_LEN in *. change HEADER_LEN with 57 in *.
  set (h := mkHeader PROTOCOL_VERSION FRAG_START_END CHANNEL_DATA_BYTES 0
    (zlen data + 57) (zlen data + 57) (zlen data) 0).
  assert (zlen (wire h ++ data) = zlen data + 57) as Hz
    by (zlen_simpl; change HEADER_LEN with 57; lia).
  assert (header_wf h).
  { unfold header_wf, h, is_u8, is_u16, is_u32; cbn [version_ fragFlag_ dataType_ seqNum_ totalLen_
      packetLen_ payloadLen_ subSeq_]. split_and!; try lia; by_compute. }
  assert (lengths_ok h (zlen (wire h ++ data))).
  { rewrite Hz. unfold lengths_ok, BINARY_PAYLOAD_MAX_LEN, BINARY_DATA_MAX_TOTAL_LEN, h.
    cbn [totalLen_ packetLen_ payloadLen_]. change HEADER_LEN with 57. lia. }
  assert (totalLen_ h < DSCHED_MAX_BUFFER_SIZE)
    by (unfold h, DSCHED_MAX_BUFFER_SIZE; cbn [totalLen_]; lia).
  exists (wire h ++ data). split.
  - unfold SendBytesData, SendUnpackData, SendAllPackets, Size. cbn [steady_option buffer_of
      rangeLength_ rangeOffset_ data_]. change (negb (ERR_OK =? ERR_OK)) with false. cbv iota.
    change HEADER_LEN with 57. rewrite (u64_id (zlen data + 57)) by lia. bool_lia.
    rewrite (u32_id (zlen data + 57)), (u32_id (zlen data + 57 - 57)) by (unfold_ints; lia).
    change (u32 CHANNEL_DATA_BYTES) with CHANNEL_DATA_BYTES. replace (zlen data + 57 - 57) with (zlen data) by lia.
    rewrite DoSendPacket_ok by (unfold DSCHED_MAX_BUFFER_SIZE; change HEADER_LEN with 57; lia).
    rewrite slice_all by done. done.
  - intros junk. rewrite PackRecv_wire by done. cbv zeta.
    change (fragFlag_ h) with FRAG_START_END.
    change (CheckRecvSessionHeader init_receiver h) with ERR_OK.
    change (negb (ERR_OK =? ERR_OK)) with false. change (FRAG_START_END =? FRAG_START_END) with true.
    cbv iota. unfold ProcessAllPacketRecv. change (has_buffer _ || isWaiting_ _) with false. cbv iota.
    by rewrite WriteRecv_first.
Qed.

(** A message that fits one packet arrives: it leaves as a single packet, the
    receiver accepts it, and [GetPacketedData] hands out exactly the bytes that
    were sent and returns the receiver to its initial state. *)
Theorem one_packet_delivered (junk : SessionDataHeader) (m : Z) (data : bytes) (fuel : nat) :
  fits_one_packet m data ->
  exists packet st b,
    SendBytesData (steady_option m) steady_send fuel (buffer_of data) [] = Done (ERR_OK, [packet]) /\
    receive_all junk init_receiver [packet] = Done ([ERR_OK], st) /\
    GetPacketedData st = (Some b, init_receiver) /\ content b = data.
Proof.
  intros Hfit. destruct (one_packet_runs m data fuel Hfit) as (packet & Hs & Hrecv).
  destruct Hfit as (Hn & _ & _). unfold BINARY_PAYLOAD_MAX_LEN in Hn.
  destruct (GetPacketedData_pending 0 (zlen data + HEADER_LEN) data) as (b & Hget & Hc & _);
    [unfold DSCHED_MAX_BUFFER_SIZE; change HEADER_LEN with 57; lia|change HEADER_LEN with 57; lia|].
  exists packet, (pending false 0 (zlen data + HEADER_LEN) data), b. split; [done|]. split; [|done].
  cbn [receive_all]. by rewrite Hrecv.
Qed.

(** Messages cut into [k] full packets of [m] bytes. *)
Definition fills_packets (m : Z) (data : bytes) (k : Z) : Prop :=
  HEADER_LEN < m <= zlen data /\ frag_size m <= BINARY_PAYLOAD_MAX_LEN /\
  zlen data < DSCHED_MAX_BUFFER_SIZE /\ zlen data = k * frag_size m /\ 1 < k <= 65536.

(** A longer message whose length is a multiple of the payload size arrives:
    the sender cuts it into numbered START, MID, ..., END fragments, the receiver
    accepts each of them in order and puts the message together again. *)
Theorem fragments_delivered (junk : SessionDataHeader) (m : Z) (data : bytes) (k : Z) (fuel : nat) :
  fills_packets m data k -> k <= Z.of_nat fuel ->
  exists packets st b,
    SendBytesData (steady_option m) steady_send fuel (buffer_of data) [] = Done (ERR_OK, packets) /\
    length packets = Z.to_nat k /\
    receive_all junk init_receiver packets = Done (replicate (length packets) ERR_OK, st) /\
    GetPacketedData st = (Some b, init_receiver) /\ content b = data.
Proof.
  intros (Hm & Hpay & Hmax & Hwhole & Hk) Hfuel.
  assert (0 < frag_size m) as Hw by (unfold frag_size; lia).
  assert (Z.to_nat k = S (Z.to_nat (k - 1))) as Hk' by lia.
  exists (fragments m data 0 (Z.to_nat k)), (after m data k (k - 1)).
  destruct (GetPacketedData_pending (k - 1 - 1) (zlen data) data) as (b & Hget & Hc & _); [lia..|].
  exists b. rewrite length_fragments. split_and!; [|done| | |done].
  - rewrite Hk'. apply SendBytesData_fragments; [lia..|nia|nia].
  - rewrite Hk'. cbn [fragments receive_all]. rewrite (recv_fragment_first m data k) by (done || lia).
    cbn [run_bind]. pose proof (recv_fragments m data k Hm Hpay Hmax Hwhole ltac:(lia) junk
      (Z.to_nat (k - 1)) 1 ltac:(lia) ltac:(lia)) as Hrest.
    change (1 - 1) with 0 in Hrest. change (0 + 1) with 1. by rewrite Hrest.
  - unfold after. replace (k - 1 + 1) with k by lia. bool_lia.
    by rewrite <- Hwhole, slice_all.
Qed.

Lemma fragments_delivered_witness :
  exists packets st b,
    SendBytesData (steady_option 59) steady_send 40 (buffer_of (zeros 80)) []
      = Done (ERR_OK, packets) /\
    length packets = Z.to_nat 40 /\
    receive_all zero_header init_receiver packets
      = Done (replicate (length packets) ERR_OK, st) /\
    GetPacketedData st = (Some b, init_receiver) /\ content b = zeros 80.
Proof.
  apply (fragments_delivered zero_header 59 (zeros 80) 40 40).
  - unfold fills_packets, frag_size, BINARY_PAYLOAD_MAX_LEN, DSCHED_MAX_BUFFER_SIZE; by_compute.
  - by_compute.
Defined.

Lemma rest_assembles m data k n i :
  fills_packets m data k -> 0 < i -> i + Z.of_nat (S n) = k ->
  assembles (after m data k (i - 1)) (fragments m data i (S n)) data.
Proof.
  intros (Hm & Hpay & Hmax & Hwhole & Hk). assert (0 < zlen data) by (change HEADER_LEN with 57 in Hm; lia).
  revert i. induction n as [|n IH]; intros i Hi Hn; cbn [fragments].
  - assert (i = k - 1) as -> by lia. set (p := fragment m data (k - 1)).
    destruct (GetPacketedData_pending (k - 1 - 1) (zlen data) data) as (b & Hget & Hc & _); [lia..|].
    eapply assembles_last; [|exact Hget|done]. intros junk.
    rewrite (recv_fragment_next m data k) by (done || lia). do 2 f_equal. unfold after.
    replace (k - 1 + 1) with k by lia. bool_lia. by rewrite <- Hwhole, slice_all.
  - eapply assembles_more; [intros junk; apply recv_fragment_next; done || lia| |].
    + unfold after. by bool_lia.
    + replace i with (i + 1 - 1) at 1 by lia. apply IH; lia.
Qed.

(** The packets that sending yields, one or many, assemble to the message. *)
Lemma sent_assembles m data fuel :
  (length data <= fuel)%nat -> fits_one_packet m data \/ (exists k, fills_packets m data k) ->
  exists packets,
    SendBytesData (steady_option m) steady_send fuel (buffer_of data) [] = Done (ERR_OK, packets) /\
    assembles init_receiver packets data.
Proof.
  intros Hfuel [Hone|(k & Hfill)].
  - destruct (one_packet_runs m data fuel Hone) as (packet & Hs & Hrecv). exists [packet]. split; [done|].
    destruct Hone as (Hn & _ & _). unfold BINARY_PAYLOAD_MAX_LEN in Hn.
    destruct (GetPacketedData_pending 0 (zlen data + HEADER_LEN) data) as (b & Hget & Hc & _);
      [unfold DSCHED_MAX_BUFFER_SIZE; change HEADER_LEN with 57; lia|change HEADER_LEN with 57; lia|].
    by eapply assembles_last.
  - pose proof Hfill as (Hm & Hpay & Hmax & Hwhole & Hk). unfold zlen in Hwhole.
    assert (0 < frag_size m) as Hw by (unfold frag_size; lia). fold (zlen data) in Hwhole.
    assert (k <= zlen data) by nia. unfold zlen in *.
    exists (fragments m data 0 (S (Z.to_nat (k - 1)))). split.
    + apply SendBytesData_fragments; unfold zlen; [lia..|nia|nia].
    + cbn [fragments]. eapply assembles_more; [intros junk; apply recv_fragment_first; done || lia| |].
      * unfold after. by bool_lia.
      * replace (Z.to_nat (k - 1)) with (S (Z.to_nat (k - 2))) by lia.
        apply (rest_assembles m data k _ 1 Hfill); lia.
Qed.

(** A message whose last fragment is shorter than the others is never
    delivered: the sender reports success, but the header of the last packet
    announces the full packet size, so every receiver refuses it, whatever its
    state, and goes on waiting. *)
Theorem short_last_fragment_refused (m : Z) (data : bytes) (fuel : nat) :
  HEADER_LEN < m < DSCHED_MAX_BUFFER_SIZE -> frag_size m < zlen data < DSCHED_MAX_BUFFER_SIZE ->
  zlen data mod frag_size m <> 0 -> zlen data <= Z.of_nat fuel ->
  exists front last,
    SendBytesData (steady_option m) steady_send fuel (buffer_of data) []
      = Done (ERR_OK, front ++ [last]) /\
    forall junk st, PackRecvPacketData junk st (Some last) (zlen last)
      = Done (WRITE_SESSION_HEADER_FAILED, st).
Proof.
  intros Hm [Hlong Hmax] Hmod Hfuel. unfold DSCHED_MAX_BUFFER_SIZE in *.
  assert (0 < frag_size m < m) as Hw by (unfold frag_size; change HEADER_LEN with 57 in *; lia).
  set (q := zlen data / frag_size m).
  pose proof (Z.div_mod (zlen data) (frag_size m) ltac:(lia)) as Hdm. fold q in Hdm.
  pose proof (Z.mod_pos_bound (zlen data) (frag_size m) ltac:(lia)) as Hb.
  assert (0 <= q <= zlen data) as Hq by (split; [apply Z.div_pos; lia|nia]).
  exists (fragments m data 0 (Z.to_nat q)), (fragment m data q). split.
  - rewrite SendBytesData_fragments with (r := Z.to_nat q) by (unfold DSCHED_MAX_BUFFER_SIZE; nia || lia).
    rewrite fragments_snoc. do 5 f_equal. lia.
  - intros. unfold fragment. apply PackRecv_short_packet.
    + unfold header_wf, frag_header, is_u8, is_u32; cbn [version_ fragFlag_ dataType_ seqNum_
        totalLen_ packetLen_ payloadLen_ subSeq_].
      assert (0 <= frag_len m data q <= frag_size m) by (unfold frag_len; nia).
      split_and!; auto with dms; try lia; try by_compute; by repeat case_match.
    + cbn [frag_header packetLen_]. unfold frag_len. zlen_simpl.
      rewrite zlen_slice by nia. unfold frag_size in *. nia.
Qed.

Lemma short_last_fragment_refused_witness :
  exists front last,
    SendBytesData (steady_option 59) steady_send 81 (buffer_of (zeros 81)) []
      = Done (ERR_OK, front ++ [last]) /\
    forall junk st, PackRecvPacketData junk st (Some last) (zlen last)
      = Done (WRITE_SESSION_HEADER_FAILED, st).
Proof.
  apply (short_last_fragment_refused 59 (zeros 81) 81);
    unfold frag_size, DSCHED_MAX_BUFFER_SIZE; by_compute.
Defined.

(** Sending terminates and never misrepresents the message, whatever softbus
    answers along the way: the payloads handed over are a prefix of the message
    in order, the whole of it when [SendBytesData] reports success, and no packet
    is longer than the size softbus granted when it was built. *)
Theorem SendBytesData_sends_prefix (GetSessionOption : list bytes -> Z * Z)
    (SendBytes : list bytes -> bytes -> Z) (data : bytes) (fuel : nat) :
  sizes_usable GetSessionOption ->
  0 <= zlen data < DSCHED_MAX_BUFFER_SIZE -> zlen data <= Z.of_nat fuel ->
  exists ret sent k,
    SendBytesData GetSessionOption SendBytes fuel (buffer_of data) [] = Done (ret, sent) /\
    concat (payload <$> sent) = slice data 0 k /\ 0 <= k <= zlen data /\
    (ret = ERR_OK -> k = zlen data) /\ sizes_respected GetSessionOption sent.
Proof.
  intros Hsz [Hn Hmax] Hfuel.
  destruct (SendBytesData_outcome GetSessionOption SendBytes fuel data 0 (zlen data) (zlen data) Hsz)
    as (ret & sent & k & Hrun & Hk & Hc & Hok & Hr); [lia..|].
  rewrite (slice_all data) in Hk, Hc, Hok by done. by exists ret, sent, k.
Qed.

(** A session whose packet size shrinks from 67 to 60 bytes after one packet and
    which breaks down at the third. *)
Definition shrinking_option (sent : list bytes) : Z * Z :=
  (ERR_OK, if (length sent =? 0)%nat then 67 else 60).
Definition breaking_send (sent : list bytes) (_ : bytes) : Z :=
  if (length sent =? 2)%nat then -1 else SOFTBUS_OK.

Lemma SendBytesData_sends_prefix_witness :
  exists ret sent k,
    SendBytesData shrinking_option breaking_send 20 (buffer_of (zeros 20)) [] = Done (ret, sent) /\
    concat (payload <$> sent) = slice (zeros 20) 0 k /\ 0 <= k <= 20 /\
    (ret = ERR_OK -> k = 20) /\ sizes_respected shrinking_option sent.
Proof.
  apply (SendBytesData_sends_prefix shrinking_option breaking_send (zeros 20) 20).
  - intros s _. unfold shrinking_option. destruct (length s =? 0)%nat; by_compute.
  - by_compute.
  - by_compute.
Defined.

(** The receiver as a transition system: a packet arrives, or the channel asks
    for the assembled message. *)
Inductive receiver_step (junk : SessionDataHeader) : Receiver -> Receiver -> Prop :=
  | step_packet st data ret st' :
    Forall is_u8 data ->
    PackRecvPacketData junk st (Some data) (zlen data) = Done (ret, st') ->
    receiver_step junk st st'
  | step_take st b st' :
    GetPacketedData st = (b, st') -> receiver_step junk st st'.

Lemma receiver_step_wf junk st st' :
  header_wf junk -> receiver_wf st -> receiver_step junk st st' -> receiver_wf st'.
Proof.
  intros Hjunk Hst Hstep. destruct Hstep as [st data ret st' Hdata Hrun|st b st' Hget].
  - destruct (PackRecv_step junk st data Hjunk Hdata Hst) as (l & (r & s & Hr & Hwf & _) & _).
    by rewrite Hr in Hrun; injection Hrun as _ <-.
  - unfold GetPacketedData in Hget. destruct (isDataReady st); [|by injection Hget as _ <-].
    destruct (packBuffer_ st); [|by injection Hget as _ <-].
    destruct (SetRange _ _ _). injection Hget as _ <-. by left.
Qed.

Lemma receiver_reachable_wf junk st :
  header_wf junk -> rtc (receiver_step junk) init_receiver st -> receiver_wf st.
Proof.
  intros Hjunk. apply (rtc_ind_r (fun s => receiver_wf s)); [by left|].
  intros s s' _ Hstep Hs. by eapply receiver_step_wf.
Qed.

(** C36 Whatever packets a peer has sent, the next one is handled within bounds:
    no byte outside the packet or the assembly buffer is touched, a refused packet
    leaves the receiver as it was or as it was constructed, and an accepted one
    appends exactly its announced payload to what had been assembled. *)
Theorem receiver_safe (junk : SessionDataHeader) (st : Receiver) (data : bytes) :
  header_wf junk -> rtc (receiver_step junk) init_receiver st -> Forall is_u8 data ->
  exists ret st', PackRecvPacketData junk st (Some data) (zlen data) = Done (ret, st') /\
    (ret <> ERR_OK -> st' = st \/ st' = init_receiver) /\
    (forall h, ret = ERR_OK -> Deserialize junk (Some data) (zlen data) = Done (Some h) ->
       received st' = received st ++ payload_of h data).
Proof.
  intros Hjunk Hreach Hdata. apply receiver_reachable_wf in Hreach; [|done].
  destruct (PackRecv_step junk st data Hjunk Hdata Hreach)
    as (l & (ret & st' & Hrun & _ & Hfail & Hok) & Hl).
  exists ret, st'. split_and!; [done..|]. intros h Hret HD. by rewrite Hok, (Hl h HD).
Qed.

(** A first fragment with 2 of 100 announced bytes. *)
Definition start_packet : bytes :=
  wire (mkHeader PROTOCOL_VERSION FRAG_START CHANNEL_DATA_BYTES 0 100 59 2 0) ++ [5; 6].

Lemma start_packet_u8 : Forall is_u8 start_packet.
Proof. apply Forall_app_2; [apply wire_u8|]. by repeat constructor. Qed.

Lemma receiver_safe_witness :
  exists st, rtc (receiver_step zero_header) init_receiver st /\ isWaiting_ st = true /\
  exists ret st', PackRecvPacketData zero_header st (Some start_packet) (zlen start_packet)
      = Done (ret, st') /\
    (ret <> ERR_OK -> st' = st \/ st' = init_receiver) /\
    (forall h, ret = ERR_OK ->
       Deserialize zero_header (Some start_packet) (zlen start_packet) = Done (Some h) ->
       received st' = received st ++ payload_of h start_packet).
Proof.
  set (st := pending true 0 100 [5; 6]). exists st.
  assert (rtc (receiver_step zero_header) init_receiver st) as Hreach.
  { apply rtc_once. apply (step_packet _ _ start_packet ERR_OK).
    - apply start_packet_u8.
    - vm_compute. reflexivity. }
  split; [done|]. split; [done|].
  apply (receiver_safe zero_header st start_packet); [|done|apply start_packet_u8].
  unfold header_wf, is_u8, is_u16, is_u32; by_compute.
Defined.
