(* ===== verification/MessageHeader.v ===== *)
(** * Messages between the two sides of an ability connection

    [MessageDataHeader] of services/dtbcollabmgr (ability_connection_manager):
    the three TLV items in front of every message of an
    [AbilityConnectionSession], and the framing the session builds on it:
    [PrepareSendMessage] on one side, [OnMessageReceived] on the other.
    Uninitialised members of the object the reader fills are the parameter
    [junk]. *)

From Stdlib Require Import ZArith Lia.
From stdpp Require Import base list option gmap.
From S2P Require Import Prelude ErrorCodes DataBuffer Tlv.
Import ErrorCodes.DtbCollab.

(** ** The header *)

(** [enum class MESSAGE_TLV_TYPE : uint16_t]. *)
Definition TLV_TYPE_VERSION : Z := 1001.
Definition TLV_TYPE_DATA_TYPE : Z := 1002.
Definition TLV_TYPE_TOTAL_LEN : Z := 1003.

Record MessageDataHeader : Type := mkMessageHeader {
  version_ : Z;
  dataType_ : Z;
  totalLen_ : Z
}.

Definition PROTOCOL_VERSION : Z := 1.
Definition HEADER_TLV_NUM : Z := 3.
Definition HEADER_UINT16_NUM : Z := 1.
Definition HEADER_UINT32_NUM : Z := 2.
Definition HEADER_LEN : Z :=
  2 * 2 * HEADER_TLV_NUM + 2 * HEADER_UINT16_NUM + 4 * HEADER_UINT32_NUM.
Definition BASE_HEADER_LEN : Z :=
  2 * 2 * HEADER_TLV_NUM + 2 * HEADER_UINT16_NUM + 4 * HEADER_UINT32_NUM.

Definition WriteTlvItemToBuffer (tlvItem : TlvItem) (mem : option bytes) (header bufLen : Z)
    : run (Z * option bytes) :=
  match mem with
  | None => if header =? 0 then Done (WRITE_TLV_ITEM_TO_BUFFER_FAILED, None) else Undefined
  | Some m =>
    let* (ret, m') := put_tlv tlvItem m header (u64 (bufLen - 4)) in
    if negb (ret =? ERR_OK) then Done (WRITE_TLV_ITEM_TO_BUFFER_FAILED, Some m')
    else Done (ERR_OK, Some m')
  end.

Definition WriteVersion (h : MessageDataHeader) (mem : option bytes) (header bufLen : Z)
    : run (Z * option bytes) :=
  let item := mkTlvItem TLV_TYPE_VERSION 2 (version_ h) in
  let* (_, mem) := WriteTlvItemToBuffer item mem header bufLen in
  Done (HEADER_TYPE_BYTES + HEADER_LEN_BYTES + 2, mem).

Definition WriteDataType (h : MessageDataHeader) (mem : option bytes) (header bufLen : Z)
    : run (Z * option bytes) :=
  let item := mkTlvItem TLV_TYPE_DATA_TYPE 4 (dataType_ h) in
  let* (_, mem) := WriteTlvItemToBuffer item mem header bufLen in
  Done (HEADER_TYPE_BYTES + HEADER_LEN_BYTES + 4, mem).

Definition WriteTotalLen (h : MessageDataHeader) (mem : option bytes) (header bufLen : Z)
    : run (Z * option bytes) :=
  let item := mkTlvItem TLV_TYPE_TOTAL_LEN 4 (totalLen_ h) in
  let* (_, mem) := WriteTlvItemToBuffer item mem header bufLen in
  Done (HEADER_TYPE_BYTES + HEADER_LEN_BYTES + 4, mem).

Definition Serialize (h : MessageDataHeader) : run DataBuffer :=
  let buffer := make_buffer HEADER_LEN in
  let mem := data_ buffer in
  let header := rangeOffset_ buffer in
  let bufLen := HEADER_LEN in
  let* (itemCapacity, mem) := WriteVersion h mem header bufLen in
  let header := header + itemCapacity in
  let bufLen := u32 (bufLen - itemCapacity) in
  let* (itemCapacity, mem) := WriteDataType h mem header bufLen in
  let header := header + itemCapacity in
  let bufLen := u32 (bufLen - itemCapacity) in
  let* (itemCapacity, mem) := WriteTotalLen h mem header bufLen in
  Done (set_data buffer mem).

Definition set_version (h : MessageDataHeader) (v : Z) : MessageDataHeader :=
  mkMessageHeader v (dataType_ h) (totalLen_ h).
Definition set_dataType (h : MessageDataHeader) (v : Z) : MessageDataHeader :=
  mkMessageHeader (version_ h) v (totalLen_ h).
Definition set_totalLen (h : MessageDataHeader) (v : Z) : MessageDataHeader :=
  mkMessageHeader (version_ h) (dataType_ h) v.

Definition ReadVersionFromBuffer (messageHeader : MessageDataHeader) (mem : bytes) (header len : Z)
    : run (Z * MessageDataHeader) :=
  let* (ret, v) := memcpy_field 2 (version_ messageHeader) (Some mem) header len in
  let messageHeader := set_version messageHeader v in
  if negb (ret =? ERR_OK) then Done (READ_TLV_ITEM_FROM_BUFFER_FAILED, messageHeader)
  else Done (ERR_OK, messageHeader).

Definition ReadDataTypeFromBuffer (messageHeader : MessageDataHeader) (mem : bytes) (header len : Z)
    : run (Z * MessageDataHeader) :=
  let* (ret, v) := memcpy_field 4 (dataType_ messageHeader) (Some mem) header len in
  let messageHeader := set_dataType messageHeader v in
  if negb (ret =? ERR_OK) then Done (READ_TLV_ITEM_FROM_BUFFER_FAILED, messageHeader)
  else Done (ERR_OK, messageHeader).

Definition ReadTotalLenFromBuffer (messageHeader : MessageDataHeader) (mem : bytes) (header len : Z)
    : run (Z * MessageDataHeader) :=
  let* (ret, v) := memcpy_field 4 (totalLen_ messageHeader) (Some mem) header len in
  let messageHeader := set_totalLen messageHeader v in
  if negb (ret =? ERR_OK) then Done (READ_TLV_ITEM_FROM_BUFFER_FAILED, messageHeader)
  else Done (ERR_OK, messageHeader).

(** The [switch] of [ReadTlvItemFromBuffer]. *)
Definition ReadTlvValue (ty : Z) (messageHeader : MessageDataHeader) (mem : bytes)
    (current len : Z) : run (Z * MessageDataHeader) :=
  if ty =? TLV_TYPE_VERSION then ReadVersionFromBuffer messageHeader mem current len
  else if ty =? TLV_TYPE_DATA_TYPE then ReadDataTypeFromBuffer messageHeader mem current len
  else if ty =? TLV_TYPE_TOTAL_LEN then ReadTotalLenFromBuffer messageHeader mem current len
  else Done (READ_TLV_ITEM_FROM_BUFFER_FAILED, messageHeader).

Definition ReadTlvItemFromBuffer (tlvItem : TlvItem) (messageHeader : MessageDataHeader)
    (mem : bytes) (header end_ : Z) : run (Z * TlvItem * MessageDataHeader) :=
  if end_ <? header + HEADER_TYPE_BYTES + HEADER_LEN_BYTES then
    Done (READ_TLV_ITEM_FROM_BUFFER_FAILED, tlvItem, messageHeader)
  else
    let current := header in
    let* ty := ReadUint16 mem current in
    let current := current + HEADER_TYPE_BYTES in
    let* ln := ReadUint16 mem current in
    let current := current + HEADER_LEN_BYTES in
    let tlvItem := mkTlvItem ty ln (value tlvItem) in
    if end_ <? current + ln then
      Done (READ_TLV_ITEM_FROM_BUFFER_FAILED, tlvItem, messageHeader)
    else
      let* (ret, messageHeader) := ReadTlvValue ty messageHeader mem current ln in
      Done (ret, tlvItem, messageHeader).

Fixpoint read_items (fuel : nat) (item : TlvItem) (messageHeader : MessageDataHeader)
    (mem : bytes) (current end_ : Z) : run (option MessageDataHeader) :=
  if current + HEADER_LEN_BYTES + HEADER_TYPE_BYTES <? end_ then
    match fuel with
    | O => OutOfFuel
    | S fuel =>
      let* (ret, item, messageHeader) :=
        ReadTlvItemFromBuffer item messageHeader mem current end_ in
      if negb (ret =? ERR_OK) then Done None
      else
        let current := current + (HEADER_LEN_BYTES + HEADER_TYPE_BYTES) in
        let current := current + len item in
        read_items fuel item messageHeader mem current end_
    end
  else Done (Some messageHeader).

Definition Deserialize (junk : MessageDataHeader) (buffer : option bytes) (bufLen : Z)
    : run (option MessageDataHeader) :=
  match buffer with
  | None => Done None
  | Some mem =>
    if bufLen <? HEADER_LEN then Done None
    else
      let messageHeader := set_version junk PROTOCOL_VERSION in
      read_items (Z.to_nat BASE_HEADER_LEN) (mkTlvItem 0 0 0) messageHeader
        mem 0 BASE_HEADER_LEN
  end.

(** ** The messages of an ability connection session *)

(** [enum class MessageType : uint32_t]. *)
Definition NORMAL : Z := 0.
Definition WIFI_OPEN : Z := 1.
Definition UPDATE_RECV_ENGINE_CHANNEL : Z := 2.
Definition UPDATE_SENDER_ENGINE_CHANNEL : Z := 3.
Definition RECEIVE_STREAM_START : Z := 4.
Definition STREAM_ENCODING : Z := 5.
Definition CONNECT_FILE_CHANNEL : Z := 6.
Definition FILE_CHANNEL_CONNECT_SUCCESS : Z := 7.
Definition FILE_CHANNEL_CONNECT_FAILED : Z := 8.
Definition SESSION_CONNECT_SUCCESS : Z := 9.

(** The keys the constructor of the session enters in [messageHandlerMap_]. *)
Definition messageHandlerMap_ : list Z :=
  [NORMAL; WIFI_OPEN; UPDATE_RECV_ENGINE_CHANNEL; UPDATE_SENDER_ENGINE_CHANNEL;
   CONNECT_FILE_CHANNEL; FILE_CHANNEL_CONNECT_SUCCESS; FILE_CHANNEL_CONNECT_FAILED;
   SESSION_CONNECT_SUCCESS; RECEIVE_STREAM_START].

(** [enum class TransChannelType : int32_t]. *)
Inductive TransChannelType : Type := MESSAGE | DATA | STREAM_BYTES | STREAM | SEND_FILE | RECEIVE_FILE.

#[export] Instance TransChannelType_eq_dec : EqDecision TransChannelType.
Proof. solve_decision. Defined.

Record TransChannelInfo : Type := mkTransChannelInfo {
  channelId : Z;
  channelType : Z;
  transType : TransChannelType;
  isConnected : bool
}.

(** [transChannels_] of a session: at most one channel of each type. *)
Abbreviation TransChannels := (list (TransChannelType * TransChannelInfo)).

Definition GetTransChannelInfo (transChannels_ : TransChannels) (type : TransChannelType)
    : Z * option TransChannelInfo :=
  match List.find (fun e => bool_decide (e.1 = type)) transChannels_ with
  | None => (INVALID_PARAMETERS_ERR, None)
  | Some item => (ERR_OK, Some item.2)
  end.

Definition IsVaildChannel (transChannels_ : TransChannels) (channelId' : Z) : bool :=
  match transChannels_ with
  | [] => false
  | _ => existsb (fun iter => channelId iter.2 =? channelId') transChannels_
  end.

(** The second half of [PrepareSendMessage]: a header in front of the text. *)
Definition frame_message (transChannels_ : TransChannels) (sendData : DataBuffer) (messageType : Z)
    : run (Z * option (Z * DataBuffer)) :=
  let totalLen := u32 (Size sendData + HEADER_LEN) in
  let headerPara := mkMessageHeader PROTOCOL_VERSION messageType totalLen in
  let* headerBuffer := Serialize headerPara in
  let sendBuffer := make_buffer totalLen in
  let header := rangeOffset_ sendBuffer in
  let* (ret, mem) := memcpy_s (data_ sendBuffer) header (Size sendBuffer)
                       (data_ headerBuffer) (rangeOffset_ headerBuffer) HEADER_LEN in
  if negb (ret =? ERR_OK) then Done (WRITE_SESSION_HEADER_FAILED, None)
  else
    let* (ret, mem) := memcpy_s mem (header + HEADER_LEN) (u64 (Size sendBuffer - HEADER_LEN))
                         (data_ sendData) (rangeOffset_ sendData) (Size sendData) in
    let sendBuffer := set_data sendBuffer mem in
    if negb (ret =? ERR_OK) then Done (WRITE_SEND_DATA_BUFFER_FAILED, None)
    else
      match GetTransChannelInfo transChannels_ MESSAGE with
      | (_, Some transChannelInfo) => Done (ERR_OK, Some (channelId transChannelInfo, sendBuffer))
      | (ret, None) => Done (ret, None)
      end.

(** [PrepareSendMessage]: the result, the channel and the framed message. *)
Definition PrepareSendMessage (transChannels_ : TransChannels) (msg : bytes) (messageType : Z)
    : run (Z * option (Z * DataBuffer)) :=
  let sendData := make_buffer (u64 (zlen msg + 1)) in
  let* (ret, mem) := memcpy_s (data_ sendData) (rangeOffset_ sendData) (Capacity sendData)
                       (Some (msg ++ [0])) 0 (zlen msg) in
  let sendData := set_data sendData mem in
  if negb (ret =? ERR_OK) then Done (ret, None)
  else frame_message transChannels_ sendData messageType.

(** What [OnMessageReceived] does with a message: nothing, or the handler of its
    type is called with the text, on the calling thread or on one of its own. *)
Inductive MessageAction : Type :=
  | Ignored
  | Handled (dataType : Z) (msg : bytes)
  | HandledAsync (dataType : Z) (msg : bytes).

Definition OnMessageReceived (junk : MessageDataHeader) (transChannels_ : TransChannels)
    (channel : Z) (dataBuffer : DataBuffer)
    : run MessageAction :=
  if negb (IsVaildChannel transChannels_ channel) then Done Ignored
  else if Size dataBuffer <? HEADER_LEN then Done Ignored
  else
    match data_ dataBuffer with
    | None => Done Ignored
    | Some d =>
      let data := slice d (rangeOffset_ dataBuffer) (zlen d) in
      let* headerPara := Deserialize junk (Some data) (Size dataBuffer) in
      match headerPara with
      | None => Done Ignored
      | Some headerPara =>
        let* msg := load_n data HEADER_LEN (Size dataBuffer - HEADER_LEN) in
        let has_handler := existsb (Z.eqb (dataType_ headerPara)) messageHandlerMap_ in
        if dataType_ headerPara =? CONNECT_FILE_CHANNEL then
          match GetTransChannelInfo transChannels_ SEND_FILE with
          | (_, Some _) => Done Ignored
          | (_, None) =>
            Done (if has_handler then HandledAsync (dataType_ headerPara) msg else Ignored)
          end
        else Done (if has_handler then Handled (dataType_ headerPara) msg else Ignored)
      end
    end.

(** ** Lemmas *)

Definition header_wf (h : MessageDataHeader) : Prop :=
  is_u16 (version_ h) /\ is_u32 (dataType_ h) /\ is_u32 (totalLen_ h).

(** The three items in the order of the writer. *)
Definition wire (h : MessageDataHeader) : bytes :=
  tlv_bytes TLV_TYPE_VERSION 2 (version_ h) ++
  tlv_bytes TLV_TYPE_DATA_TYPE 4 (dataType_ h) ++
  tlv_bytes TLV_TYPE_TOTAL_LEN 4 (totalLen_ h).

Lemma msg_zlen_wire h : zlen (wire h) = HEADER_LEN.
Proof. unfold wire. zlen_simpl. done. Qed.
#[export] Hint Rewrite msg_zlen_wire : dms_len.

Lemma msg_write_step pre n ty w v header bufLen :
  (w <= 4)%nat -> header = zlen pre -> 4 + Z.of_nat w <= n ->
  4 + Z.of_nat w <= bufLen < 2 ^ 32 ->
  WriteTlvItemToBuffer (mkTlvItem ty (Z.of_nat w) v) (Some (pre ++ zeros n)) header bufLen
  = Done (ERR_OK, Some ((pre ++ tlv_bytes ty w v) ++ zeros (n - (4 + Z.of_nat w)))).
Proof.
  intros. unfold WriteTlvItemToBuffer. rewrite u64_id by lia.
  by rewrite put_tlv_zeros by (unfold_ints; lia).
Qed.

Ltac write_item w :=
  match goal with
  | |- context [WriteTlvItemToBuffer (mkTlvItem ?ty _ ?v) (Some (?pre ++ zeros ?n)) ?hd ?bl] =>
    let hd' := eval vm_compute in hd in
    let bl' := eval vm_compute in bl in
    let n' := eval vm_compute in n in
    let w' := eval vm_compute in (Z.of_nat w) in
    let H := fresh in
    pose proof (msg_write_step pre n' ty w v hd' bl' ltac:(lia) ltac:(zlen_simpl; lia)
               ltac:(lia) ltac:(lia)) as H;
    change hd with hd'; change bl with bl'; change (zeros n) with (zeros n');
    change (Z.of_nat w) with w' in H; rewrite H; clear H; cbn [run_bind]
  end.

Lemma msg_Serialize_wire h : Serialize h = Done (buffer_of (wire h)).
Proof.
  unfold Serialize. rewrite make_buffer_ok by done. cbn [data_ rangeOffset_ buffer_of].
  change (zeros HEADER_LEN) with ([] ++ zeros 22).
  unfold WriteVersion; write_item 2%nat. unfold WriteDataType; write_item 4%nat.
  unfold WriteTotalLen; write_item 4%nat.
  unfold set_data, buffer_of. cbn [capacity_ rangeOffset_ rangeLength_]. rewrite msg_zlen_wire.
  unfold wire. rewrite <- !app_assoc. cbn [app].
  change (zeros (_ - _)) with (@nil Z). by rewrite app_nil_r.
Qed.

(** Width and setter of the member each item type fills. *)
Definition field_of (ty : Z) : option (nat * (MessageDataHeader -> Z -> MessageDataHeader)) :=
  if ty =? TLV_TYPE_VERSION then Some (2%nat, set_version)
  else if ty =? TLV_TYPE_DATA_TYPE then Some (4%nat, set_dataType)
  else if ty =? TLV_TYPE_TOTAL_LEN then Some (4%nat, set_totalLen)
  else None.

Ltac unfold_readers := unfold ReadVersionFromBuffer, ReadDataTypeFromBuffer, ReadTotalLenFromBuffer.

Lemma msg_ReadTlvValue_full ty w set h mem current v :
  field_of ty = Some (w, set) -> 0 <= v < 2 ^ (8 * Z.of_nat w) ->
  load_n mem current (Z.of_nat w) = Done (le_bytes w v) ->
  ReadTlvValue ty h mem current (Z.of_nat w) = Done (ERR_OK, set h v).
Proof.
  unfold field_of, ReadTlvValue. intros Hf Hv Hload.
  repeat match goal with
  | H : context [if ty =? ?c then _ else _] |- _ => destruct (ty =? c)
  end; try discriminate Hf; injection Hf as <- <-; unfold_readers;
  (rewrite memcpy_field_full with (v := v) by (done || unfold_ints; lia));
  cbn [run_bind]; rewrite Z.mod_small by done; done.
Qed.

Lemma msg_ReadTlvValue_safe ty h mem current ln :
  0 <= current -> 0 <= ln -> current + ln <= zlen mem ->
  exists ret h', ReadTlvValue ty h mem current ln = Done (ret, h').
Proof.
  intros. unfold ReadTlvValue.
  repeat match goal with |- context [if ty =? ?c then _ else _] => destruct (ty =? c) end;
    try (by eexists _, _); unfold_readers;
  match goal with |- context [memcpy_field ?w ?o _ _ _] =>
    destruct (memcpy_field_safe w o mem current ln) as (ret & v & ->); [lia..|]
  end; cbn [run_bind]; split_guard; by eexists _, _.
Qed.

Lemma msg_ReadTlvItem_safe item h mem header end_ :
  0 <= header -> end_ <= zlen mem ->
  exists ret item' h', ReadTlvItemFromBuffer item h mem header end_ = Done (ret, item', h')
    /\ (ret = ERR_OK -> 0 <= len item' /\ header + 4 + len item' <= end_).
Proof.
  intros. unfold ReadTlvItemFromBuffer, HEADER_TYPE_BYTES, HEADER_LEN_BYTES.
  split_guard; guards_to_prop; [by eexists _, _, _|].
  destruct (ReadUint16_safe mem header) as (ty & -> & _); [lia..|]. cbn [run_bind].
  destruct (ReadUint16_safe mem (header + 2)) as (ln & -> & Hln); [lia..|]. cbn [run_bind].
  unfold_ints. split_guard; guards_to_prop; [by eexists _, _, _|].
  destruct (msg_ReadTlvValue_safe ty h mem (header + 2 + 2) ln) as (ret & h' & ->); [lia..|].
  eexists _, _, _. split; [done|]. cbn [len]. lia.
Qed.

Lemma msg_read_items_safe fuel item h mem current end_ :
  0 <= current -> end_ <= zlen mem -> end_ - current <= Z.of_nat fuel ->
  exists r, read_items fuel item h mem current end_ = Done r.
Proof.
  revert item h current. induction fuel as [|fuel IH]; intros item h current ???;
    cbn [read_items]; unfold HEADER_TYPE_BYTES, HEADER_LEN_BYTES;
    (split_guard; guards_to_prop; [|by eexists]); [lia|].
  destruct (msg_ReadTlvItem_safe item h mem current end_) as (ret & it & h' & -> & Hb); [lia..|].
  cbn [run_bind]. split_guard; guards_to_prop; [by eexists|].
  destruct (Hb Guard0). apply IH; lia.
Qed.

Lemma msg_Deserialize_safe junk mem bufLen :
  bufLen <= zlen mem -> exists r, Deserialize junk (Some mem) bufLen = Done r.
Proof.
  intros. unfold Deserialize. split_guard; guards_to_prop; [by eexists|].
  apply msg_read_items_safe; try done. change BASE_HEADER_LEN with HEADER_LEN. lia.
Qed.

(** One round of the loop on a well-formed item. *)
Lemma msg_read_items_step fuel item h pre post ty w set v current end_ :
  field_of ty = Some (w, set) -> is_u16 ty -> 0 <= v < 2 ^ (8 * Z.of_nat w) ->
  Z.of_nat w < 65536 -> (0 < w)%nat -> current = zlen pre -> current + 4 + Z.of_nat w <= end_ ->
  read_items (S fuel) item h (pre ++ tlv_bytes ty w v ++ post) current end_
  = read_items fuel (mkTlvItem ty (Z.of_nat w) (value item)) (set h v)
      ((pre ++ tlv_bytes ty w v) ++ post) (current + 4 + Z.of_nat w) end_.
Proof.
  intros. cbn [read_items]. unfold ReadTlvItemFromBuffer, HEADER_TYPE_BYTES, HEADER_LEN_BYTES.
  bool_lia. rewrite tlv_read_type by done. cbn [run_bind].
  rewrite tlv_read_len by lia. cbn [run_bind]. bool_lia.
  erewrite msg_ReadTlvValue_full; [|done|done|apply tlv_read_value; lia]. cbn [run_bind].
  rewrite <- app_assoc. change (negb (ERR_OK =? ERR_OK)) with false. cbn [len]. f_equal; lia.
Qed.

Ltac read_item :=
  match goal with
  | |- context [read_items (S ?f) ?it ?h (?pre ++ tlv_bytes ?ty ?w ?v ++ ?post) ?c ?e] =>
    rewrite (msg_read_items_step f it h pre post ty w _ v c e eq_refl);
    [ | unfold_ints; done | done | lia | lia | zlen_simpl; lia | lia ]
  end.

Lemma msg_Deserialize_wire junk h tail bufLen :
  header_wf h -> HEADER_LEN <= bufLen ->
  Deserialize junk (Some (wire h ++ tail)) bufLen = Done (Some h).
Proof.
  intros (?&?&?) ?. unfold Deserialize. bool_lia. unfold wire. rewrite <- !app_assoc.
  change (Z.to_nat BASE_HEADER_LEN) with 22%nat. change BASE_HEADER_LEN with 22.
  match goal with |- context [tlv_bytes TLV_TYPE_VERSION 2 ?v ++ ?rest] =>
    change (tlv_bytes TLV_TYPE_VERSION 2 v ++ rest) with ([] ++ tlv_bytes TLV_TYPE_VERSION 2 v ++ rest)
  end.
  do 3 read_item. cbn [read_items]. by destruct h.
Qed.

(** The text and its terminating zero fill a buffer. *)
Lemma PrepareSendMessage_text chans msg ty :
  zlen msg + 1 < DSCHED_MAX_BUFFER_SIZE ->
  PrepareSendMessage chans msg ty = frame_message chans (buffer_of (msg ++ [0])) ty.
Proof.
  intros Hmax. pose proof (zlen_nonneg msg). unfold DSCHED_MAX_BUFFER_SIZE in Hmax.
  unfold PrepareSendMessage. rewrite (u64_id (zlen msg + 1)) by lia.
  rewrite make_buffer_ok by (unfold DSCHED_MAX_BUFFER_SIZE; lia).
  unfold Capacity, Size. cbn [data_ rangeOffset_ rangeLength_ capacity_ buffer_of].
  rewrite zlen_zeros by lia.
  pose proof (memcpy_s_copy [] (zeros (zlen msg)) (zeros 1) (msg ++ [0]) 0 (zlen msg + 1) 0
    (zlen msg) msg) as Hc. cbn [app] in Hc. rewrite <- zeros_app in Hc by lia.
  rewrite Hc; [|by apply (load_n_app [] msg [0])|done|rewrite zlen_zeros; lia|unfold_ints; lia].
  cbn [run_bind]. change (negb (EOK =? ERR_OK)) with false. cbv iota.
  rewrite set_data_buffer_of by (zlen_simpl; rewrite !zlen_zeros by lia; lia). done.
Qed.

(** Two copies fill a fresh buffer: the header, then the text. *)
Lemma frame_message_short chans text ty :
  0 < zlen text -> zlen text + HEADER_LEN < DSCHED_MAX_BUFFER_SIZE ->
  frame_message chans (buffer_of text) ty =
  match GetTransChannelInfo chans MESSAGE with
  | (_, Some info) => Done (ERR_OK, Some (channelId info,
      buffer_of (wire (mkMessageHeader PROTOCOL_VERSION ty (zlen text + HEADER_LEN)) ++ text)))
  | (ret, None) => Done (ret, None)
  end.
Proof.
  intros Hpos Hmax. unfold DSCHED_MAX_BUFFER_SIZE in Hmax. change HEADER_LEN with 22 in *.
  unfold frame_message, Size. cbn [rangeLength_ rangeOffset_ data_ buffer_of]. change HEADER_LEN with 22.
  rewrite u32_id by (unfold_ints; lia). rewrite msg_Serialize_wire. cbn [run_bind]. set (h := mkMessageHeader _ _ _).
  rewrite make_buffer_ok by (unfold DSCHED_MAX_BUFFER_SIZE; lia).
  cbn [data_ rangeOffset_ rangeLength_ buffer_of].
  rewrite zlen_zeros by lia. replace (zlen text + 22) with (22 + zlen text) by lia. rewrite zeros_app by lia.
  pose proof (memcpy_s_copy [] (zeros 22) (zeros (zlen text)) (wire h) 0 (22 + zlen text) 0 22 (wire h)) as Hc1.
  cbn [app] in Hc1. rewrite Hc1; [| |done|done|unfold_ints; lia].
  2:{ rewrite load_n_ok by (zlen_simpl; change HEADER_LEN with 22; lia).
      by rewrite slice_all by (by zlen_simpl). }
  cbn [run_bind]. change (negb (EOK =? ERR_OK)) with false. cbv iota.
  rewrite u64_id by lia.
  pose proof (memcpy_s_copy (wire h) (zeros (zlen text)) [] text (0 + 22) (22 + zlen text - 22) 0 (zlen text) text)
    as Hc2. rewrite !app_nil_r in Hc2.
  rewrite Hc2; [| |by zlen_simpl|by rewrite zlen_zeros by lia|unfold_ints; lia].
  2:{ rewrite load_n_ok by (zlen_simpl; lia). by rewrite slice_all by (zlen_simpl; lia). }
  cbn [run_bind]. change (negb (EOK =? ERR_OK)) with false. cbv iota.
  rewrite set_data_buffer_of; [done|]. zlen_simpl. rewrite !zlen_zeros by lia. change HEADER_LEN with 22. lia.
Qed.

(** A text too long for one buffer is refused. *)
Lemma frame_message_long chans text ty :
  zlen text < DSCHED_MAX_BUFFER_SIZE <= zlen text + HEADER_LEN ->
  frame_message chans (buffer_of text) ty = Done (WRITE_SESSION_HEADER_FAILED, None).
Proof.
  intros (H1 & H2). unfold DSCHED_MAX_BUFFER_SIZE in *. change HEADER_LEN with 22 in *.
  unfold frame_message, Size. cbn [rangeLength_ rangeOffset_ data_ buffer_of]. change HEADER_LEN with 22.
  rewrite u32_id by (unfold_ints; lia). rewrite msg_Serialize_wire. cbn [run_bind].
  rewrite make_buffer_null by (unfold DSCHED_MAX_BUFFER_SIZE; lia). cbn [data_ rangeOffset_ rangeLength_].
  rewrite memcpy_s_null. done.
Qed.

Lemma PrepareSendMessage_ok chans msg ty info :
  zlen msg + 1 + HEADER_LEN < DSCHED_MAX_BUFFER_SIZE ->
  GetTransChannelInfo chans MESSAGE = (ERR_OK, Some info) ->
  PrepareSendMessage chans msg ty
  = Done (ERR_OK, Some (channelId info,
      buffer_of (wire (mkMessageHeader PROTOCOL_VERSION ty (zlen msg + 1 + HEADER_LEN))
                 ++ msg ++ [0]))).
Proof.
  intros Hmax Hchan. pose proof (zlen_nonneg msg). change HEADER_LEN with 22 in *.
  assert (zlen (msg ++ [0]) = zlen msg + 1) as Hz by (by zlen_simpl).
  rewrite PrepareSendMessage_text, frame_message_short by (rewrite ?Hz; change HEADER_LEN with 22; lia).
  by rewrite Hchan, Hz.
Qed.

(** Every message is either framed in a buffer of its own or refused. *)
Lemma PrepareSendMessage_ends chans msg ty :
  zlen msg + 1 < 2 ^ 64 ->
  exists ret r, PrepareSendMessage chans msg ty = Done (ret, r) /\
    match r with
    | Some (id, b) => ret = ERR_OK /\ buffer_wf b /\
        exists info, GetTransChannelInfo chans MESSAGE = (ERR_OK, Some info) /\ id = channelId info
    | None => ret <> ERR_OK
    end.
Proof.
  intros Hlen. pose proof (zlen_nonneg msg). assert (zlen (msg ++ [0]) = zlen msg + 1) as Hz by (by zlen_simpl).
  destruct (Z_lt_dec (zlen msg + 1) DSCHED_MAX_BUFFER_SIZE) as [H1|H1].
  - rewrite PrepareSendMessage_text by done.
    destruct (Z_lt_dec (zlen msg + 1 + HEADER_LEN) DSCHED_MAX_BUFFER_SIZE) as [H2|H2].
    + rewrite frame_message_short by (rewrite Hz; lia). unfold GetTransChannelInfo.
      destruct (List.find _ chans) as [item|]; cbn -[wire buffer_of app]; eexists _, _; (split; [done|]); [|done].
      split; [done|]. split; [|by eexists]. apply buffer_of_wf. rewrite zlen_app, msg_zlen_wire, Hz.
      change HEADER_LEN with 22 in *. lia.
    + rewrite frame_message_long by (rewrite Hz; lia). by eexists _, _.
  - unfold PrepareSendMessage. rewrite u64_id by lia. rewrite make_buffer_null by lia.
    cbn [data_ rangeOffset_]. rewrite memcpy_s_null. by eexists _, _.
Qed.

(** ** Properties *)

(** A framed text of a handled type is taken apart again. *)
Lemma OnMessageReceived_framed (junk : MessageDataHeader) (chans : TransChannels) (msg : bytes) (messageType channel : Z) :
  zlen msg + 1 + HEADER_LEN < DSCHED_MAX_BUFFER_SIZE -> IsVaildChannel chans channel = true ->
  messageType ∈ messageHandlerMap_ ->
  OnMessageReceived junk chans channel
      (buffer_of (wire (mkMessageHeader PROTOCOL_VERSION messageType (zlen msg + 1 + HEADER_LEN)) ++ msg ++ [0]))
  = Done (if messageType =? CONNECT_FILE_CHANNEL then
            match GetTransChannelInfo chans SEND_FILE with
            | (_, Some _) => Ignored
            | (_, None) => HandledAsync messageType (msg ++ [0])
            end
          else Handled messageType (msg ++ [0])).
Proof.
  intros Hmax Hvalid Hty. pose proof (zlen_nonneg msg).
  unfold OnMessageReceived. rewrite Hvalid. cbn [negb]. cbv iota.
  set (h := mkMessageHeader _ _ _).
  assert (zlen (wire h ++ msg ++ [0]) = HEADER_LEN + (zlen msg + 1)) as Hz by (zlen_simpl; lia).
  unfold Size. cbn [buffer_of rangeLength_ rangeOffset_ data_]. rewrite Hz. bool_lia.
  rewrite slice_all by lia.
  assert (is_u32 messageType).
  { unfold messageHandlerMap_ in Hty. unfold_ints. repeat (apply elem_of_cons in Hty as [->|Hty];
      [by_compute|]). by apply elem_of_nil in Hty. }
  rewrite msg_Deserialize_wire; [|unfold header_wf, h; cbn; split_and!; [by_compute|done|]|lia].
  2:{ unfold_ints. unfold DSCHED_MAX_BUFFER_SIZE in Hmax. change HEADER_LEN with 22 in *. lia. }
  cbn [run_bind]. change (dataType_ h) with messageType.
  pose proof (load_n_app (wire h) (msg ++ [0]) []) as Hl. rewrite !app_nil_r in Hl.
  rewrite Hl; [|by zlen_simpl|zlen_simpl; lia]. cbn [run_bind].
  assert (existsb (Z.eqb messageType) messageHandlerMap_ = true) as ->.
  { apply existsb_exists. exists messageType. split; [by apply list_elem_of_In|apply Z.eqb_refl]. }
  destruct (messageType =? CONNECT_FILE_CHANNEL); [|done]. by destruct (GetTransChannelInfo _ _) as [? [|]].
Qed.

(** A message sent over the message channel reaches the handler of its type
    on the other side: the framed buffer carries the type, and the text handed
    to the handler is the text sent, followed by its terminating zero. *)
Theorem message_delivered (junk : MessageDataHeader) (chans chans' : TransChannels)
    (info : TransChannelInfo) (msg : bytes) (messageType channel : Z) :
  zlen msg + 1 + HEADER_LEN < DSCHED_MAX_BUFFER_SIZE ->
  GetTransChannelInfo chans MESSAGE = (ERR_OK, Some info) ->
  IsVaildChannel chans' channel = true ->
  messageType ∈ messageHandlerMap_ -> messageType <> CONNECT_FILE_CHANNEL ->
  exists b, PrepareSendMessage chans msg messageType = Done (ERR_OK, Some (channelId info, b)) /\
    OnMessageReceived junk chans' channel (buffer_of (content b))
    = Done (Handled messageType (msg ++ [0])).
Proof.
  intros Hmax Hchan Hvalid Hty Hfile. pose proof (zlen_nonneg msg).
  eexists. split; [by apply PrepareSendMessage_ok|]. rewrite content_buffer_of, OnMessageReceived_framed by done.
  by rewrite (proj2 (Z.eqb_neq _ _) Hfile).
Qed.

Definition sample_channels : TransChannels :=
  [(MESSAGE, mkTransChannelInfo 12 0 MESSAGE true); (DATA, mkTransChannelInfo 13 1 DATA true)].

Lemma message_delivered_witness :
  exists b, PrepareSendMessage sample_channels [104; 105] NORMAL = Done (ERR_OK, Some (12, b)) /\
    OnMessageReceived (mkMessageHeader 0 0 0) sample_channels 12 (buffer_of (content b))
    = Done (Handled NORMAL [104; 105; 0]).
Proof.
  apply (message_delivered (mkMessageHeader 0 0 0) sample_channels sample_channels
    (mkTransChannelInfo 12 0 MESSAGE true) [104; 105] NORMAL 12);
    [by_compute|reflexivity|reflexivity|by left|discriminate].
Defined.

(** Close a branch of [OnMessageReceived] that calls no handler. *)
Ltac ignored := eexists; split; [done|]; split; [done|]; by intros ? ? [|].

(** No message a peer can send makes [OnMessageReceived] read outside the
    received buffer, and nothing happens for a channel the session does not own. *)
Theorem OnMessageReceived_safe (junk : MessageDataHeader) (chans : TransChannels)
    (channel : Z) (b : DataBuffer) :
  buffer_wf b ->
  exists act, OnMessageReceived junk chans channel b = Done act /\
    (IsVaildChannel chans channel = false -> act = Ignored) /\
    (forall ty msg, act = Handled ty msg \/ act = HandledAsync ty msg ->
       msg = slice (content b) HEADER_LEN (Size b - HEADER_LEN) /\ ty ∈ messageHandlerMap_).
Proof.
  intros (Ho & Hr & Hc & Hd). unfold OnMessageReceived.
  destruct (IsVaildChannel chans channel); cbn [negb]; [|by ignored].
  unfold Size. split_guard; guards_to_prop; [by ignored|].
  destruct (data_ b) as [d|] eqn:Hb; [|by ignored].
  destruct Hd as [Hz Hcap]. change HEADER_LEN with 22 in *.
  set (data := slice d (rangeOffset_ b) (zlen d)).
  assert (zlen data = zlen d - rangeOffset_ b) as Hdata by (unfold data; rewrite zlen_slice_tail; lia).
  destruct (msg_Deserialize_safe junk data (rangeLength_ b)) as [[h|] ->]; [lia| |];
    cbn [run_bind]; [|by ignored].
  rewrite load_n_ok by lia. cbn [run_bind].
  assert (slice data 22 (rangeLength_ b - 22)
    = slice (content b) 22 (rangeLength_ b - 22)) as <-
    by (unfold data, content; rewrite Hb, !slice_of_slice by lia; done).
  set (msg := slice data 22 _).
  destruct (existsb _ _) eqn:Hex.
  - apply existsb_exists in Hex as (ty & Hin & ->%Z.eqb_eq). apply list_elem_of_In in Hin.
    split_guard; [destruct (GetTransChannelInfo chans SEND_FILE) as [? [?|]]|]; [by ignored| |];
      eexists; (split; [done|]); (split; [done|]); by intros ? ? [[= <- <-]|[= <- <-]].
  - split_guard; [destruct (GetTransChannelInfo chans SEND_FILE) as [? [?|]]|];
      by ignored.
Qed.

Lemma OnMessageReceived_safe_witness :
  exists act, OnMessageReceived (mkMessageHeader 0 0 0) sample_channels 12 (buffer_of (replicate 30 3))
      = Done act /\
    (IsVaildChannel sample_channels 12 = false -> act = Ignored) /\
    (forall ty msg, act = Handled ty msg \/ act = HandledAsync ty msg ->
       msg = slice (content (buffer_of (replicate 30 3))) HEADER_LEN 8 /\ ty ∈ messageHandlerMap_).
Proof.
  apply (OnMessageReceived_safe (mkMessageHeader 0 0 0) sample_channels 12 (buffer_of (replicate 30 3))).
  apply buffer_of_wf. by_compute.
Defined.
