(* ===== verification/StdMap.v ===== *)
(** * Ordered maps

    [std::map]: an association list in key order.  Two keys are the same when
    neither is less than the other, which for a comparison of its own need not be
    equality; an assignment to a present key keeps the key that is there. *)

From Stdlib Require Import ZArith Lia Sorted.
From stdpp Require Import base list option.
From S2P Require Import Prelude.

Class KeyOrder (K : Type) := key_lt : K -> K -> bool.

#[export] Instance Z_key_order : KeyOrder Z := Z.ltb.

Definition key_eq {K} `{KeyOrder K} (a b : K) : bool := negb (key_lt a b) && negb (key_lt b a).

(** What the lookup lemmas need of the comparison. *)
Class KeyOrderOk (K : Type) `{KeyOrder K} : Prop := {
  key_eq_refl (a : K) : key_eq a a = true;
  key_eq_sym (a b : K) : key_eq a b = key_eq b a;
  key_eq_trans (a b c : K) : key_eq a b = true -> key_eq b c = true -> key_eq a c = true
}.

#[export] Instance Z_key_order_ok : KeyOrderOk Z.
Proof.
  assert (forall a b : Z, key_eq a b = (a =? b)) as Heq.
  { intros a b. unfold key_eq, key_lt, Z_key_order.
    destruct (Z.ltb_spec a b), (Z.ltb_spec b a), (Z.eqb_spec a b); done || lia. }
  split; intros; rewrite ?Heq in *; rewrite ?Z.eqb_eq in *; [lia|apply Z.eqb_sym|congruence].
Qed.

Lemma Z_key_eq (a b : Z) : key_eq a b = (a =? b).
Proof.
  unfold key_eq, key_lt, Z_key_order.
  destruct (Z.ltb_spec a b), (Z.ltb_spec b a), (Z.eqb_spec a b); done || lia.
Qed.

Definition std_map (K V : Type) : Type := list (K * V).

Section Operations.
Context {K V : Type} `{KeyOrder K}.
Implicit Types (l : std_map K V) (k : K) (v : V).

Definition map_find l k : option V :=
  match List.find (fun e => key_eq e.1 k) l with Some e => Some e.2 | None => None end.

Definition map_count l k : bool := match map_find l k with Some _ => true | None => false end.

(** [m[k] = v]. *)
Fixpoint map_assign l k v : std_map K V :=
  match l with
  | [] => [(k, v)]
  | (k', v') :: t =>
    if key_lt k k' then (k, v) :: l
    else if key_lt k' k then (k', v') :: map_assign t k v
    else (k', v) :: t
  end.

(** [m.emplace(k, v)] leaves a present entry alone. *)
Definition map_emplace l k v : std_map K V := if map_count l k then l else map_assign l k v.

Definition map_erase l k : std_map K V := List.filter (fun e => negb (key_eq e.1 k)) l.
End Operations.

Section Lemmas.
Context {K V : Type} `{KeyOrderOk K}.
Implicit Types (l : std_map K V) (k : K) (v : V).

(** An assignment adds one entry, under a key that compares equal. *)
Lemma in_assign l k v e : In e (map_assign l k v) -> In e l \/ (e.2 = v /\ key_eq e.1 k = true).
Proof.
  induction l as [|[k' v'] l IH]; cbn [map_assign].
  - intros [<-|[]]. right. split; [done|]. apply key_eq_refl.
  - destruct (key_lt k k') eqn:E1; [intros [<-|H1]; [right; split; [done|apply key_eq_refl]|by left]|].
    destruct (key_lt k' k) eqn:E2.
    + intros [<-|H1]; [by left; left|]. destruct (IH H1); [left; by right|by right].
    + intros [<-|H1]; [|by left; right]. right. split; [done|]. cbn. unfold key_eq. by rewrite E1, E2.
Qed.

Lemma map_find_assign_eq l k v : map_find (map_assign l k v) k = Some v.
Proof.
  unfold map_find. induction l as [|[k' v'] l IH]; cbn [map_assign List.find fst].
  - by rewrite key_eq_refl.
  - destruct (key_lt k k') eqn:E1; [cbn; by rewrite key_eq_refl|].
    destruct (key_lt k' k) eqn:E2; cbn [List.find fst].
    + assert (key_eq k' k = false) as -> by (unfold key_eq; by rewrite E1, E2). done.
    + assert (key_eq k' k = true) as -> by (unfold key_eq; by rewrite E1, E2). done.
Qed.

Lemma map_find_assign_ne l k k2 v :
  key_eq k k2 = false -> map_find (map_assign l k v) k2 = map_find l k2.
Proof.
  intros Hne. unfold map_find. induction l as [|[k' v'] l IH]; cbn [map_assign List.find fst].
  - by rewrite Hne.
  - destruct (key_lt k k') eqn:E1; [cbn; by rewrite Hne|].
    destruct (key_lt k' k) eqn:E2; cbn [List.find fst].
    + by destruct (key_eq k' k2).
    + destruct (key_eq k' k2) eqn:E3; [|done].
      assert (key_eq k k' = true) as E4 by (unfold key_eq; by rewrite E1, E2).
      by rewrite (key_eq_trans _ _ _ E4 E3) in Hne.
Qed.

Lemma map_find_erase_eq l k : map_find (map_erase l k) k = None.
Proof.
  unfold map_find, map_erase. induction l as [|[k' v'] l IH]; [done|]. cbn [List.filter fst].
  destruct (key_eq k' k) eqn:E; cbn [negb]; [done|]. cbn [List.find fst]. by rewrite E.
Qed.

Lemma map_find_erase_ne l k k2 :
  key_eq k k2 = false -> map_find (map_erase l k) k2 = map_find l k2.
Proof.
  intros Hne. unfold map_find, map_erase. induction l as [|[k' v'] l IH]; [done|].
  cbn [List.filter List.find fst]. destruct (key_eq k' k) eqn:E; cbn [negb List.find fst].
  - destruct (key_eq k' k2) eqn:E2; [|done].
    assert (key_eq k k' = true) as E3 by (by rewrite key_eq_sym).
    by rewrite (key_eq_trans _ _ _ E3 E2) in Hne.
  - by destruct (key_eq k' k2).
Qed.

Lemma map_find_key l k k2 : key_eq k k2 = true -> map_find l k2 = map_find l k.
Proof.
  intros E. unfold map_find.
  assert (forall a, key_eq a k2 = key_eq a k) as Hk.
  { intros a. apply eq_true_iff_eq. split; intros Ha; (eapply key_eq_trans; [exact Ha|]); [|done].
    by rewrite key_eq_sym. }
  induction l as [|[a v] l IH]; cbn [List.find fst]; [done|]. rewrite Hk. by destruct (key_eq a k).
Qed.

Lemma map_find_assign l k k2 v :
  map_find (map_assign l k v) k2 = if key_eq k k2 then Some v else map_find l k2.
Proof.
  destruct (key_eq k k2) eqn:E; [|by apply map_find_assign_ne].
  rewrite (map_find_key _ _ _ E). apply map_find_assign_eq.
Qed.

Lemma map_find_erase l k k2 :
  map_find (map_erase l k) k2 = if key_eq k k2 then None else map_find l k2.
Proof.
  destruct (key_eq k k2) eqn:E; [|by apply map_find_erase_ne].
  unfold map_find, map_erase. induction l as [|[k' v'] l IH]; [done|]. cbn [List.filter fst].
  destruct (key_eq k' k) eqn:E2; cbn [negb]; [done|]. cbn [List.find fst].
  destruct (key_eq k' k2) eqn:E3; [|done].
  assert (key_eq k2 k = true) as E4 by (by rewrite key_eq_sym).
  by rewrite (key_eq_trans _ _ _ E3 E4) in E2.
Qed.

Lemma map_find_emplace l k k2 v :
  map_find (map_emplace l k v) k2 =
  if negb (map_count l k) && key_eq k k2 then Some v else map_find l k2.
Proof. unfold map_emplace. destruct (map_count l k); cbn; [done|]. apply map_find_assign. Qed.
End Lemmas.

#[export] Hint Rewrite @map_find_assign_eq @map_find_erase_eq : dms_map.

(** ** Sorted maps

    A comparison that is a strict weak order keeps a map in key order, and then an entry
    is found under its own key. *)
Class StrictWeakOrder (K : Type) `{KeyOrder K} : Prop := {
  key_lt_irrefl (a : K) : key_lt a a = false;
  key_lt_trans (a b c : K) : key_lt a b = true -> key_lt b c = true -> key_lt a c = true;
  key_equiv_trans (a b c : K) : key_eq a b = true -> key_eq b c = true -> key_eq a c = true
}.

#[export] Instance strict_weak_order_ok K `{StrictWeakOrder K} : KeyOrderOk K | 10.
Proof.
  split.
  - intros a. unfold key_eq. by rewrite key_lt_irrefl.
  - intros a b. unfold key_eq. apply andb_comm.
  - apply key_equiv_trans.
Qed.

Section Sorted.
Context {K V : Type} `{StrictWeakOrder K}.
Implicit Types (l : std_map K V) (k : K) (v : V).

Definition map_sorted l : Prop := StronglySorted (fun a b => key_lt a.1 b.1 = true) l.

Lemma map_sorted_nil : map_sorted [].
Proof. constructor. Qed.

Lemma key_lt_eq_l k1 k2 k3 : key_eq k1 k2 = true -> key_lt k2 k3 = true -> key_lt k1 k3 = true.
Proof.
  intros He Hl. destruct (key_lt k1 k3) eqn:E; [done|]. exfalso.
  assert (key_lt k3 k1 = false) as E2.
  { destruct (key_lt k3 k1) eqn:E2; [|done]. pose proof (key_lt_trans _ _ _ Hl E2) as E3.
    unfold key_eq in He. by rewrite E3, andb_false_r in He. }
  assert (key_eq k1 k3 = true) as E3 by (unfold key_eq; by rewrite E, E2).
  assert (key_eq k2 k1 = true) as E4 by (by rewrite key_eq_sym).
  pose proof (key_equiv_trans _ _ _ E4 E3) as E5. unfold key_eq in E5. by rewrite Hl in E5.
Qed.

Lemma Forall_map_assign (P : K * V -> Prop) l k v :
  Forall P l -> (forall k', key_eq k' k = true -> P (k', v)) -> Forall P (map_assign l k v).
Proof.
  intros Hl Hk. assert (P (k, v)) as Hkv by (apply Hk; apply key_eq_refl).
  induction Hl as [|[k' v'] l Hp Hl IH]; cbn [map_assign]; [by repeat constructor|].
  destruct (key_lt k k') eqn:E1; [by repeat constructor|].
  destruct (key_lt k' k) eqn:E2; constructor; auto.
  apply Hk. unfold key_eq. by rewrite E1, E2.
Qed.

Lemma Forall_map_emplace (P : K * V -> Prop) l k v :
  Forall P l -> P (k, v) -> Forall P (map_emplace l k v).
Proof.
  intros Hl Hkv. unfold map_emplace, map_count, map_find.
  destruct (List.find _ l) as [e|] eqn:E; [done|].
  assert (Forall (fun e => key_eq e.1 k = false) l) as Hne.
  { apply List.Forall_forall. intros e He. by apply (List.find_none _ _ E). }
  clear E. induction l as [|[k' v'] l IH]; cbn [map_assign]; [by repeat constructor|].
  apply Forall_cons_1 in Hl as (Hp & Hl). apply Forall_cons_1 in Hne as (Hn & Hne).
  destruct (key_lt k k') eqn:E1; [by repeat constructor|].
  destruct (key_lt k' k) eqn:E2; constructor; auto.
  cbn in Hn. unfold key_eq in Hn. by rewrite E1, E2 in Hn.
Qed.

Lemma Forall_map_erase (P : K * V -> Prop) l k : Forall P l -> Forall P (map_erase l k).
Proof.
  intros Hl. apply List.Forall_forall. intros e (He & _)%List.filter_In. by eapply List.Forall_forall in Hl.
Qed.

Lemma map_sorted_assign l k v : map_sorted l -> map_sorted (map_assign l k v).
Proof.
  unfold map_sorted. induction 1 as [|[k' v'] l Hl IH Hk]; cbn [map_assign]; [by repeat constructor|].
  destruct (key_lt k k') eqn:E1.
  - constructor; [by constructor|]. constructor; [done|]. revert Hk.
    apply Forall_impl. intros e He. by eapply key_lt_trans.
  - destruct (key_lt k' k) eqn:E2; constructor; [done| |done|done].
    apply Forall_map_assign; [done|]. intros k2 Hk2. cbn.
    destruct (key_lt k' k2) eqn:E3; [done|]. exfalso.
    rewrite key_eq_sym in Hk2. unfold key_eq in Hk2.
    destruct (key_lt k2 k') eqn:E4.
    + pose proof (key_lt_trans _ _ _ E4 E2) as E5. by rewrite E5, andb_false_r in Hk2.
    + assert (key_eq k' k2 = true) as E5 by (unfold key_eq; by rewrite E3, E4).
      assert (key_eq k2 k = true) as E6 by (rewrite key_eq_sym; unfold key_eq; done).
      pose proof (key_equiv_trans _ _ _ E5 E6) as E7. unfold key_eq in E7. by rewrite E2 in E7.
Qed.

Lemma map_sorted_emplace l k v : map_sorted l -> map_sorted (map_emplace l k v).
Proof. intros. unfold map_emplace. destruct (map_count l k); [done|]. by apply map_sorted_assign. Qed.

Lemma map_sorted_erase l k : map_sorted l -> map_sorted (map_erase l k).
Proof.
  unfold map_sorted, map_erase. induction 1 as [|[k' v'] l Hl IH Hk]; [constructor|]. cbn [List.filter].
  destruct (negb _); [|done]. constructor; [done|]. by apply Forall_map_erase.
Qed.

Lemma map_find_In l k v : map_sorted l -> In (k, v) l -> map_find l k = Some v.
Proof.
  unfold map_find. induction 1 as [|[k' v'] l Hl IH Hk]; [done|]. intros [[= <- <-]|Hin]; cbn [List.find fst].
  - by rewrite key_eq_refl.
  - eapply List.Forall_forall in Hk; [|exact Hin]. cbn in Hk.
    assert (key_eq k' k = false) as -> by (unfold key_eq; by rewrite Hk). auto.
Qed.

Lemma map_find_Some l k v :
  map_find l k = Some v -> exists k', In (k', v) l /\ key_eq k' k = true.
Proof.
  unfold map_find. destruct (List.find _ l) as [[k' v']|] eqn:E; [|done]. intros [= ->].
  apply List.find_some in E as (? & ?). by exists k'.
Qed.

Lemma map_count_false l k : map_count l k = false -> Forall (fun e => key_eq e.1 k = false) l.
Proof.
  unfold map_count, map_find. destruct (List.find _ l) as [e|] eqn:E; [done|]. intros _.
  apply List.Forall_forall. intros e He. by apply (List.find_none _ _ E).
Qed.

Lemma length_map_assign l k v :
  map_sorted l -> length (map_assign l k v) = if map_count l k then length l else S (length l).
Proof.
  unfold map_sorted, map_count, map_find.
  induction 1 as [|[k' v'] l Hl IH Hk]; cbn [map_assign List.find fst]; [done|].
  destruct (key_lt k k') eqn:E1.
  - assert (key_eq k' k = false) as -> by (unfold key_eq; by rewrite E1, andb_false_r).
    destruct (List.find _ l) as [e|] eqn:Hf; [|done]. apply List.find_some in Hf as (He & Heq).
    eapply List.Forall_forall in Hk; [|exact He]. cbn in Hk.
    pose proof (key_lt_trans _ _ _ E1 Hk) as E2. unfold key_eq in Heq. by rewrite E2, andb_false_r in Heq.
  - destruct (key_lt k' k) eqn:E2.
    + assert (key_eq k' k = false) as -> by (unfold key_eq; by rewrite E2).
      cbn [length]. rewrite IH. by destruct (List.find _ l).
    + assert (key_eq k' k = true) as -> by (unfold key_eq; by rewrite E1, E2). done.
Qed.

Lemma length_map_erase l k : (length (map_erase l k) <= length l)%nat.
Proof. apply List.filter_length_le. Qed.
End Sorted.
