(* ===== verification/StdString.v ===== *)
(** * Strings

    [std::string] is the list of its bytes.  [c_str] is what a C function sees of
    it: the bytes before the first null byte.  The searches answer [npos], the
    largest [size_t], when nothing is found. *)

From Stdlib Require Import ZArith Lia Ascii String.
From stdpp Require Import base list option.
From S2P Require Import Prelude StdMap.

(** A string literal of the sources. *)
Definition str (s : string) : bytes :=
  List.map (fun c => Z.of_nat (nat_of_ascii c)) (list_ascii_of_string s).

Definition npos : Z := 2 ^ 64 - 1.

Definition empty (s : bytes) : bool := match s with [] => true | _ => false end.

Fixpoint c_str (s : bytes) : bytes :=
  match s with
  | [] => []
  | c :: s => if c =? 0 then [] else c :: c_str s
  end.

Definition no_nul (s : bytes) : Prop := Forall (fun c => c <> 0) s.

Fixpoint bytes_eqb (s t : bytes) : bool :=
  match s, t with
  | [], [] => true
  | a :: s, b :: t => (a =? b) && bytes_eqb s t
  | _, _ => false
  end.

(** [std::to_string] of an integer of at most 64 bits. *)
Fixpoint decimal (fuel : nat) (n : Z) (acc : bytes) : bytes :=
  match fuel with
  | O => acc
  | S fuel => if n <? 10 then (48 + n) :: acc else decimal fuel (n / 10) ((48 + n mod 10) :: acc)
  end.
Definition to_string (z : Z) : bytes :=
  if z <? 0 then 45 :: decimal 20 (- z) [] else decimal 20 z [].

(** [strtoull(s, nullptr, 10)]: white space, a sign, digits up to the first other character;
    a value that does not fit is the largest, one with a minus wraps. *)
Definition is_space (c : Z) : bool := (c =? 32) || ((9 <=? c) && (c <=? 13)).
Definition is_digit (c : Z) : bool := (48 <=? c) && (c <=? 57).
Fixpoint skip_spaces (s : bytes) : bytes :=
  match s with
  | c :: s' => if is_space c then skip_spaces s' else s
  | [] => []
  end.
Fixpoint digits_value (s : bytes) (v : Z) : Z :=
  match s with
  | c :: s => if is_digit c then digits_value s (v * 10 + (c - 48)) else v
  | [] => v
  end.
Definition strtoull (s : bytes) : Z :=
  let s := skip_spaces s in
  let '(negative, s) := match s with
    | 45 :: s => (true, s)
    | 43 :: s => (false, s)
    | _ => (false, s)
    end in
  let v := digits_value s 0 in
  if 2 ^ 64 <=? v then 2 ^ 64 - 1 else if negative then u64 (- v) else v.

(** [operator<]: lexicographic on unsigned bytes. *)
Fixpoint bytes_ltb (s t : bytes) : bool :=
  match s, t with
  | _, [] => false
  | [], _ :: _ => true
  | a :: s, b :: t => (a <? b) || ((a =? b) && bytes_ltb s t)
  end.

(** [s.find(c)] for a character. *)
Fixpoint find_from (s : bytes) (c : Z) (i : Z) : Z :=
  match s with
  | [] => npos
  | b :: s => if b =? c then i else find_from s c (i + 1)
  end.
Definition find_char (s : bytes) (c : Z) : Z := find_from s c 0.

(** [s.substr(0, n)]. *)
Definition substr0 (s : bytes) (n : Z) : bytes := slice s 0 n.

Fixpoint starts_with (p s : bytes) : bool :=
  match p, s with
  | [], _ => true
  | a :: p, b :: s => (a =? b) && starts_with p s
  | _ :: _, [] => false
  end.

(** [s.rfind(p)]: the last position where [p] occurs. *)
Fixpoint rfind_opt (p s : bytes) : option Z :=
  match s with
  | [] => if starts_with p [] then Some 0 else None
  | _ :: s' =>
    match rfind_opt p s' with
    | Some i => Some (i + 1)
    | None => if starts_with p s then Some 0 else None
    end
  end.
Definition rfind (s p : bytes) : Z :=
  match rfind_opt p s with Some i => i | None => npos end.

Lemma bytes_eqb_eq s t : bytes_eqb s t = true <-> s = t.
Proof.
  revert t. induction s as [|a s IH]; intros [|b t]; cbn; try done.
  rewrite andb_true_iff, Z.eqb_eq, IH. naive_solver.
Qed.

Lemma bytes_eqb_refl s : bytes_eqb s s = true.
Proof. by apply bytes_eqb_eq. Qed.

Lemma bytes_eqb_neq s t : bytes_eqb s t = false <-> s <> t.
Proof. rewrite <- bytes_eqb_eq. by destruct (bytes_eqb s t). Qed.

Lemma bytes_eqb_sym s t : bytes_eqb s t = bytes_eqb t s.
Proof.
  destruct (bytes_eqb s t) eqn:E; symmetry.
  - by apply bytes_eqb_eq in E as ->; apply bytes_eqb_refl.
  - by apply bytes_eqb_neq in E; apply bytes_eqb_neq.
Qed.

Lemma bytes_ltb_irrefl s : bytes_ltb s s = false.
Proof. induction s as [|a s IH]; cbn; [done|]. by rewrite IH, Z.ltb_irrefl, andb_false_r. Qed.

Lemma bytes_ltb_total s t :
  bytes_ltb s t = false -> bytes_ltb t s = false -> s = t.
Proof.
  revert t. induction s as [|a s IH]; intros [|b t]; cbn; try done.
  rewrite !orb_false_iff, !andb_false_iff, !Z.ltb_ge, !Z.eqb_neq.
  intros (H1 & H2) (H3 & H4). assert (a = b) as -> by lia. f_equal. apply IH; naive_solver.
Qed.

Lemma bytes_ltb_trans s t u :
  bytes_ltb s t = true -> bytes_ltb t u = true -> bytes_ltb s u = true.
Proof.
  revert t u. induction s as [|a s IH]; intros [|b t] [|c u]; cbn; try done.
  rewrite !orb_true_iff, !andb_true_iff, !Z.ltb_lt, !Z.eqb_eq.
  intros [?|(-> & ?)] [?|(-> & ?)]; [left; lia|by left|by left|right; eauto].
Qed.

(** A comparison of strings that are computed from the keys. *)
Lemma key_eq_by {K} (f : K -> bytes) (a b : K) :
  @key_eq K (fun a b => bytes_ltb (f a) (f b)) a b = true <-> f a = f b.
Proof.
  unfold key_eq, key_lt. rewrite andb_true_iff, !negb_true_iff. split.
  - intros (H1 & H2). by apply bytes_ltb_total.
  - intros ->. by rewrite !bytes_ltb_irrefl.
Qed.

Lemma order_by {K} (f : K -> bytes) :
  @StrictWeakOrder K (fun a b => bytes_ltb (f a) (f b)).
Proof.
  split.
  - intros a. apply bytes_ltb_irrefl.
  - intros a b c. apply bytes_ltb_trans.
  - intros a b c. rewrite !key_eq_by. congruence.
Qed.

Lemma c_str_no_nul s : no_nul s -> c_str s = s.
Proof. induction 1 as [|c s Hc _ IH]; cbn; [done|]. bool_lia. by rewrite IH. Qed.

Lemma c_str_app_nul s t : no_nul s -> c_str (s ++ 0 :: t) = s.
Proof. induction 1 as [|c s Hc _ IH]; cbn; [done|]. bool_lia. by rewrite IH. Qed.

Lemma zlen_c_str s : zlen (c_str s) <= zlen s.
Proof.
  induction s as [|c s IH]; [done|]. cbn [c_str]. rewrite zlen_cons.
  pose proof (zlen_nonneg s). destruct (c =? 0); [change (zlen []) with 0|rewrite zlen_cons]; lia.
Qed.

Lemma c_str_is_no_nul s : no_nul (c_str s).
Proof.
  induction s as [|c s IH]; cbn; [constructor|].
  destruct (Z.eqb_spec c 0); [constructor|by constructor].
Qed.
#[export] Hint Resolve c_str_is_no_nul : dms.

Lemma starts_with_app p s : starts_with p (p ++ s) = true.
Proof. induction p as [|a p IH]; cbn; [done|]. by rewrite Z.eqb_refl. Qed.

Lemma starts_with_inv p s : starts_with p s = true -> exists t, s = p ++ t.
Proof.
  revert s. induction p as [|a p IH]; intros s; [by exists s|].
  destruct s as [|b s]; cbn; [done|].
  rewrite andb_true_iff, Z.eqb_eq. intros (-> & (t & ->)%IH). by exists t.
Qed.

Lemma rfind_opt_short p s : (length s < length p)%nat -> rfind_opt p s = None.
Proof.
  assert (forall p s, (length s < length p)%nat -> starts_with p s = false) as Hs.
  { clear. induction p as [|a p IH]; intros [|b s] ?; cbn in *; [lia..|done|].
    rewrite IH by lia. apply andb_false_r. }
  induction s as [|b s IH]; intros Hl; cbn [rfind_opt]; rewrite ?Hs by done; [done|].
  rewrite IH by (cbn in *; lia). done.
Qed.

Lemma rfind_opt_suffix p s : p <> [] -> rfind_opt p (s ++ p) = Some (zlen s).
Proof.
  intros Hp. induction s as [|b s IH].
  - destruct p as [|a p]; [done|]. cbn [app rfind_opt].
    rewrite rfind_opt_short by (cbn; lia).
    by rewrite <- (app_nil_r (a :: p)) at 2; rewrite starts_with_app.
  - cbn [app rfind_opt]. rewrite IH, zlen_cons. f_equal. lia.
Qed.

Lemma rfind_opt_occurs p s i :
  rfind_opt p s = Some i -> exists t u, s = t ++ p ++ u /\ zlen t = i.
Proof.
  revert i. induction s as [|b s IH]; intros i; cbn [rfind_opt].
  - destruct (starts_with p []) eqn:E; [|done]. intros [= <-].
    apply starts_with_inv in E as (u & ->). by exists [], u.
  - destruct (rfind_opt p s) as [j|].
    + intros [= <-]. destruct (IH j eq_refl) as (t & u & -> & <-).
      exists (b :: t), u. split; [done|]. rewrite zlen_cons. lia.
    + destruct (starts_with p (b :: s)) eqn:E; [|done]. intros [= <-].
      apply starts_with_inv in E as (u & ->). by exists [], u.
Qed.

(** ** Decimal text *)

Lemma decimal_value fuel n acc :
  0 <= n < 10 ^ Z.of_nat fuel -> digits_value (decimal fuel n acc) 0 = digits_value acc n.
Proof.
  revert n acc. induction fuel as [|fuel IH]; intros n acc Hn; cbn [decimal].
  { change (10 ^ Z.of_nat 0) with 1 in Hn. by replace n with 0 by lia. }
  rewrite Nat2Z.inj_succ, Z.pow_succ_r in Hn by lia.
  destruct (Z.ltb_spec n 10).
  - cbn [digits_value]. unfold is_digit. bool_lia. f_equal. lia.
  - pose proof (Z.div_mod n 10 ltac:(lia)). pose proof (Z.mod_pos_bound n 10 ltac:(lia)).
    rewrite IH by (split; [apply Z.div_pos; lia|apply Z.div_lt_upper_bound; lia]).
    cbn [digits_value]. unfold is_digit. bool_lia. f_equal. lia.
Qed.

Lemma decimal_digits fuel n acc :
  0 <= n -> Forall (fun c => is_digit c = true) acc -> Forall (fun c => is_digit c = true) (decimal fuel n acc).
Proof.
  revert n acc. induction fuel as [|fuel IH]; intros n acc Hn Hacc; cbn [decimal]; [done|].
  pose proof (Z.mod_pos_bound n 10 ltac:(lia)).
  destruct (Z.ltb_spec n 10); [constructor; [unfold is_digit; bool_lia; done|done]|].
  apply IH; [apply Z.div_pos; lia|]. constructor; [unfold is_digit; bool_lia; done|done].
Qed.

Lemma to_string_digits n : 0 <= n -> Forall (fun c => is_digit c = true) (to_string n).
Proof. intros. unfold to_string. bool_lia. by apply decimal_digits. Qed.

Lemma to_string_no_nul n : 0 <= n -> no_nul (to_string n).
Proof.
  intros H%to_string_digits. revert H. apply List.Forall_impl. intros c. unfold is_digit.
  intros Hc%andb_true_iff ->. destruct Hc as (Hc & _). by apply Z.leb_le in Hc.
Qed.

Lemma strtoull_digits s : Forall (fun c => is_digit c = true) s ->
  strtoull s = let v := digits_value s 0 in if 2 ^ 64 <=? v then 2 ^ 64 - 1 else v.
Proof.
  intros Hs. unfold strtoull. destruct Hs as [|c s Hc _]; [done|]. unfold is_digit in Hc.
  apply andb_true_iff in Hc as (H1%Z.leb_le & H2%Z.leb_le). cbn [skip_spaces].
  replace (is_space c) with false by (unfold is_space; bool_lia; rewrite ?andb_false_r; done).
  assert (In c [48; 49; 50; 51; 52; 53; 54; 55; 56; 57]) as Hin by (cbn; lia).
  cbn [In] in Hin. by repeat (destruct Hin as [<-|Hin]; [reflexivity|]).
Qed.

(** A 64-bit value survives its text. *)
Lemma strtoull_to_string n : 0 <= n < 2 ^ 64 -> strtoull (to_string n) = n.
Proof.
  intros Hn. rewrite strtoull_digits by (apply to_string_digits; lia).
  assert (digits_value (to_string n) 0 = n) as ->.
  { unfold to_string. bool_lia. rewrite decimal_value; [done|]. change (10 ^ Z.of_nat 20) with (10 ^ 20). lia. }
  cbv zeta. by rewrite (proj2 (Z.leb_gt _ _)) by lia.
Qed.
