(* ===== verification/EventQueue.v ===== *)
(** * The queue of an event handler

    The tasks posted to a thread of the eventhandler library: each has the time it is due
    and perhaps a name.  The first task that is due runs next; a task posted with a delay
    waits behind those due earlier, and one removed by its name never runs.  [paced] counts
    the attempts of a task that posts itself again. *)

From Stdlib Require Import ZArith Lia String Permutation.
From stdpp Require Import base list option.
From S2P Require Import Prelude StdString.

Section Queue.
Context {Task : Type}.

Record Posted := mkPosted { due : Z; taskName : bytes; task : Task }.

(** The queue is kept in the order of the due times, first posted first. *)
Fixpoint insert_task (p : Posted) (l : list Posted) : list Posted :=
  match l with
  | [] => [p]
  | q :: l' => if due p <? due q then p :: l else q :: insert_task p l'
  end.

(** [RemoveTask(name)]. *)
Definition remove_tasks (name : bytes) (l : list Posted) : list Posted :=
  List.filter (fun p => negb (bytes_eqb (taskName p) name)) l.

Lemma In_insert_task p q (posted : list Posted) :
  In p (insert_task q posted) <-> p = q \/ In p posted.
Proof.
  induction posted as [|r posted IH]; cbn [insert_task In]; [intuition congruence|].
  destruct (due q <? due r); cbn [In]; [intuition congruence|]. rewrite IH. intuition congruence.
Qed.

Lemma In_remove_tasks p name (posted : list Posted) :
  In p (remove_tasks name posted) <-> In p posted /\ taskName p <> name.
Proof.
  unfold remove_tasks. rewrite List.filter_In, negb_true_iff. intuition idtac.
  - subst. by rewrite (proj2 (bytes_eqb_eq _ _) eq_refl) in *.
  - destruct (bytes_eqb (taskName p) name) eqn:E; [|done]. by apply bytes_eqb_eq in E.
Qed.
End Queue.
Arguments Posted : clear implicits.

(** The order of the queue does not matter for what is in it. *)
Lemma insert_task_Permutation {T} (p : Posted T) l : Permutation (insert_task p l) (p :: l).
Proof.
  induction l as [|q l IH]; cbn; [done|]. destruct (due p <? due q); [done|].
  rewrite IH. apply perm_swap.
Qed.

Lemma Permutation_List_filter {A} (f : A -> bool) l l' : Permutation l l' -> Permutation (List.filter f l) (List.filter f l').
Proof.
  induction 1; cbn; [done|..].
  - destruct (f x); [by constructor|done].
  - destruct (f x), (f y); try done. apply perm_swap.
  - by etrans.
Qed.

(** ** Attempts that are repeated

    How many attempts have been made, [n] before, when the next one is due in [wait]
    milliseconds and its thread takes a turn after each of the times [ws]: an attempt is made at
    the first turn at which it is due; the next is due [gap] milliseconds after it; none follows
    one that [succeeds], nor the last of the [left] attempts that remain. *)
Section Paced.
Variables (gap : Z) (succeeds : nat -> bool).

Fixpoint paced (n left : nat) (wait : Z) (ws : list Z) : nat :=
  match left, ws with
  | S left', w :: ws =>
    let wait := wait - Z.max 0 w in
    if wait <=? 0 then
      if succeeds n then S n else paced (S n) left' gap ws
    else paced n left wait ws
  | _, _ => n
  end.

Lemma paced_bounds n left wait ws : (n <= paced n left wait ws <= n + left)%nat.
Proof.
  revert n left wait. induction ws as [|w ws IH]; intros n [|left] wait; cbn [paced]; try lia.
  destruct (_ <=? 0); [destruct (succeeds n); [lia|]; specialize (IH (S n) left gap); lia|].
  apply (IH n (S left)).
Qed.

(** Nobody has to wait longer: enough turns at the distance of the attempts make them all,
    up to the one that succeeds. *)
Lemma paced_enough n left wait ws :
  wait <= gap -> Forall (fun w => gap <= w) ws -> (left <= length ws)%nat ->
  let k := paced n left wait ws in
  k = (n + left)%nat \/ (n < k)%nat /\ succeeds (k - 1) = true.
Proof.
  revert n left wait. induction ws as [|w ws IH]; intros n left wait Hwait Hws Hlen k; cbn [length] in Hlen.
  { left. unfold k. destruct left; [cbn; lia|lia]. }
  destruct left as [|left]; [left; unfold k; cbn; lia|]. apply Forall_cons_1 in Hws as (Hw & Hws).
  assert (wait - Z.max 0 w <=? 0 = true) as Hdue by (apply Z.leb_le; lia).
  unfold k. cbn [paced]. rewrite Hdue. destruct (succeeds n) eqn:E.
  - right. split; [lia|]. by replace (S n - 1)%nat with n by lia.
  - destruct (IH (S n) left gap ltac:(lia) Hws ltac:(lia)) as [->|(Hk & Hs)]; [left; lia|right; split; [lia|done]].
Qed.

(** Every attempt but the last failed. *)
Lemma paced_failed n left wait ws i :
  (n <= i)%nat -> (S i < paced n left wait ws)%nat -> succeeds i = false.
Proof.
  revert n left wait. induction ws as [|w ws IH]; intros n [|left] wait Hi; cbn [paced]; try lia.
  destruct (_ <=? 0); [|by apply IH]. destruct (succeeds n) eqn:E; [lia|].
  destruct (Nat.eq_dec i n) as [->|]; [done|]. apply IH. lia.
Qed.
End Paced.
