(* ===== verification/Base64.v ===== *)
(** * Base64 text of parcels

    common/src/distributed_sched_utils.cpp: the commands two devices exchange are
    JSON texts in which parcels travel as base64 strings.  The scratch arrays
    [charArray3] and [charArray4] are the list of the entries written since the
    index [i] was last reset, which are the only ones read. *)

From Stdlib Require Import ZArith Lia Ascii String.
From stdpp Require Import base list option.
From S2P Require Import Prelude ErrorCodes StdString.

Definition BASE_64_CHARS : bytes :=
  Eval vm_compute in str "ABCDEFGHIJKLMNOPQRSTUVWXYZabcdefghijklmnopqrstuvwxyz0123456789+/".

Definition u8 (z : Z) : Z := z mod 2 ^ 8.

(** [isalnum] in the C locale. *)
Definition isalnum (c : Z) : bool :=
  (48 <=? c) && (c <=? 57) || (65 <=? c) && (c <=? 90) || (97 <=? c) && (c <=? 122).

Definition IsBase64 (c : Z) : bool := isalnum c || (c =? 43) || (c =? 47).

Definition EQUALS : Z := 61.

(** [charArray4] of [charArray3 = a, b, c]. *)
Definition encode_group (a b c : Z) : bytes :=
  [Z.shiftr (Z.land a 0xfc) 2;
   u8 (Z.shiftl (Z.land a 0x03) 4 + Z.shiftr (Z.land b 0xf0) 4);
   u8 (Z.shiftl (Z.land b 0x0f) 2 + Z.shiftr (Z.land c 0xc0) 6);
   Z.land c 0x3f].

(** [BASE_64_CHARS[v]]: a byte below 64 is in range. *)
Definition base64_char (v : Z) : Z := nth (Z.to_nat v) BASE_64_CHARS 0.

Fixpoint encode_loop (toEncode charArray3 ret : bytes) : bytes * bytes :=
  match toEncode with
  | [] => (charArray3, ret)
  | x :: toEncode =>
    match charArray3 ++ [x] with
    | [a; b; c] => encode_loop toEncode [] (ret ++ List.map base64_char (encode_group a b c))
    | charArray3 => encode_loop toEncode charArray3 ret
    end
  end.

(** The text of [toEncode[0..len)]. *)
Definition encode_bytes (data : bytes) : bytes :=
  let '(charArray3, ret) := encode_loop data [] [] in
  let i := zlen charArray3 in
  if 0 <? i then
    let z j := nth j charArray3 0 in
    ret ++ slice (List.map base64_char (encode_group (z 0%nat) (z 1%nat) (z 2%nat))) 0 (i + 1)
        ++ replicate (Z.to_nat (3 - i)) EQUALS
  else ret.

Definition Base64Encode (toEncode : option bytes) (len : Z) : run bytes :=
  match toEncode with
  | None => Done []
  | Some p =>
    if len =? 0 then Done []
    else let* data := load_n p 0 len in Done (encode_bytes data)
  end.

(** [charArray3] of [charArray4 = a, b, c, d]. *)
Definition decode_group (a b c d : Z) : bytes :=
  [u8 (Z.shiftl a 2 + Z.shiftr (Z.land b 0x30) 4);
   u8 (Z.shiftl (Z.land b 0xf) 4 + Z.shiftr (Z.land c 0x3c) 2);
   u8 (Z.shiftl (Z.land c 0x3) 6 + d)].

(** [charArray4[i] = BASE_64_CHARS.find(charArray4[i])]. *)
Definition base64_index (c : Z) : Z := u8 (find_char BASE_64_CHARS c).

Fixpoint decode_loop (s charArray4 ret : bytes) : bytes * bytes :=
  match s with
  | [] => (charArray4, ret)
  | x :: s =>
    if negb (x =? EQUALS) && IsBase64 x then
      match charArray4 ++ [x] with
      | [a; b; c; d] =>
        decode_loop s []
          (ret ++ decode_group (base64_index a) (base64_index b) (base64_index c) (base64_index d))
      | charArray4 => decode_loop s charArray4 ret
      end
    else (charArray4, ret)
  end.

(** The counter [int len] makes a string of 2^31 bytes or more undefined. *)
Definition Base64Decode (basicString : bytes) : run bytes :=
  if negb (zlen basicString <? 2 ^ 31) then Undefined
  else if empty basicString then Done []
  else
    let '(charArray4, ret) := decode_loop basicString [] [] in
    let i := zlen charArray4 in
    if 0 <? i then
      let z j := base64_index (nth j charArray4 0) in
      Done (ret ++ slice (decode_group (z 0%nat) (z 1%nat) (z 2%nat) (z 3%nat)) 0 (i - 1))
    else Done ret.

(** ** Parcels

    A [Parcel] of the c_utils library, as far as the code needs it: its data, the
    capacity it may grow to, and whether it accepts a size; [SetDataCapacity old n] grows
    a parcel that holds [old] bytes.  [HasData n] says that
    [GetData()] is not null once the capacity is [n]. *)
Class ParcelLib := {
  SetDataCapacity : Z -> Z -> bool;
  HasData : Z -> bool;
  GetMaxCapacity : Z;
  SetDataSize : Z -> bool
}.

(** A library that accepts sizes up to the one given. *)
Class ParcelLibOk (L : ParcelLib) (max : Z) : Prop := {
  parcel_grows old n :
    0 <= old < n -> n <= max ->
    SetDataCapacity old n = true /\ HasData n = true /\ SetDataSize n = true;
  parcel_max : max <= GetMaxCapacity < 2 ^ 63
}.

(** A capacity beyond the maximum is refused. *)
Class ParcelLibBound (L : ParcelLib) : Prop := {
  parcel_capacity_bound old n : SetDataCapacity old n = true -> n <= GetMaxCapacity
}.

Section Parcels.
Context {L : ParcelLib}.

Definition ParcelToBase64Str (parcel : bytes) : run bytes :=
  Base64Encode (Some parcel) (u32 (zlen parcel)).

(** The result code and the data of [parcel] afterwards. *)
Definition Base64StrToParcel (rawStr parcel : bytes) : run (Z * bytes) :=
  let* s := Base64Decode rawStr in
  let parcelSize := zlen s in
  if negb (SetDataCapacity (zlen parcel) parcelSize) then Done (Dms.INVALID_PARAMETERS_ERR, [])
  else
    let* (ret, data) :=
      memcpy_s (if HasData parcelSize then Some (zeros parcelSize) else None) 0 GetMaxCapacity (Some s) 0 parcelSize in
    if negb (ret =? ERR_OK) || negb (SetDataSize parcelSize)
    then Done (Dms.INVALID_PARAMETERS_ERR, [])
    else Done (ERR_OK, match data with Some d => d | None => [] end).
End Parcels.

(** ** Encoding *)

(** The text, three bytes at a time. *)
Fixpoint base64_text (l : bytes) : bytes :=
  match l with
  | a :: b :: c :: l => List.map base64_char (encode_group a b c) ++ base64_text l
  | [a; b] => slice (List.map base64_char (encode_group a b 0)) 0 3 ++ [EQUALS]
  | [a] => slice (List.map base64_char (encode_group a 0 0)) 0 2 ++ [EQUALS; EQUALS]
  | [] => []
  end.

(** Induction over a list three elements at a time. *)
Lemma list_ind3 {A} (P : list A -> Prop) :
  P [] -> (forall a, P [a]) -> (forall a b, P [a; b]) ->
  (forall a b c l, P l -> P (a :: b :: c :: l)) -> forall l, P l.
Proof.
  intros H0 H1 H2 H3. fix IH 1. intros [|a [|b [|c l]]]; [done|apply H1|apply H2|].
  apply H3, IH.
Qed.

Lemma encode_bytes_text l : encode_bytes l = base64_text l.
Proof.
  assert (forall ret, (let '(cs, r) := encode_loop l [] ret in
    let i := zlen cs in
    if 0 <? i then
      let z j := nth j cs 0 in
      r ++ slice (List.map base64_char (encode_group (z 0%nat) (z 1%nat) (z 2%nat))) 0 (i + 1)
        ++ replicate (Z.to_nat (3 - i)) EQUALS
    else r) = ret ++ base64_text l) as H; [|by apply (H [])].
  induction l as [|a|a b|a b c l IH] using list_ind3; intros ret; try done.
  - cbn [base64_text]. by rewrite app_nil_r.
  - cbn [encode_loop app base64_text]. rewrite IH, <- app_assoc. done.
Qed.

(** ** Decoding what was encoded *)

Definition below (n : nat) : list Z := List.map Z.of_nat (List.seq 0 n).

Lemma below_in n z : 0 <= z < Z.of_nat n -> In z (below n).
Proof.
  intros. apply List.in_map_iff. exists (Z.to_nat z). split; [lia|].
  apply List.in_seq. lia.
Qed.

(** A decidable property of the bytes below [n] holds if it evaluates to true. *)
Lemma check_below n (f : Z -> bool) z :
  forallb f (below n) = true -> 0 <= z < Z.of_nat n -> f z = true.
Proof. intros H ?. rewrite forallb_forall in H. by apply H, below_in. Qed.

Lemma check_below2 n (f : Z -> Z -> bool) a b :
  forallb (fun a => forallb (f a) (below n)) (below n) = true ->
  0 <= a < Z.of_nat n -> 0 <= b < Z.of_nat n -> f a b = true.
Proof. intros H Ha Hb. apply (check_below n); [|done]. by apply (check_below n _ a) in H. Qed.

Definition sextet (v : Z) : Prop := 0 <= v < 64.

Lemma base64_char_ok v : sextet v ->
  base64_char v <> EQUALS /\ IsBase64 (base64_char v) = true /\
  base64_index (base64_char v) = v /\ base64_char v <> 0.
Proof.
  intros Hv.
  pose proof (check_below 64 (fun v => negb (base64_char v =? EQUALS)
    && IsBase64 (base64_char v) && (base64_index (base64_char v) =? v)
    && negb (base64_char v =? 0)) v ltac:(vm_compute; reflexivity) Hv) as H.
  cbn beta in H. guards_to_prop. done.
Qed.

Lemma encode_group_sextets a b c :
  is_u8 a -> is_u8 b -> is_u8 c -> Forall sextet (encode_group a b c).
Proof.
  intros Ha Hb Hc. unfold encode_group.
  assert (forall x y (f : Z -> Z -> Z), is_u8 x -> is_u8 y ->
    forallb (fun x => forallb (fun y => (0 <=? f x y) && (f x y <? 64)) (below 256)) (below 256)
      = true -> sextet (f x y)) as H.
  { intros x y f Hx Hy Hf. pose proof (check_below2 256 _ x y Hf Hx Hy) as E.
    cbn beta in E. guards_to_prop. by split. }
  repeat apply Forall_cons_2; [..|apply Forall_nil_2].
  - apply (H a b (fun a _ => Z.shiftr (Z.land a 0xfc) 2)); by vm_compute.
  - apply (H a b (fun a b => u8 (Z.shiftl (Z.land a 0x03) 4 + Z.shiftr (Z.land b 0xf0) 4)));
      by vm_compute.
  - apply (H b c (fun b c => u8 (Z.shiftl (Z.land b 0x0f) 2 + Z.shiftr (Z.land c 0xc0) 6)));
      by vm_compute.
  - apply (H c c (fun c _ => Z.land c 0x3f)); by vm_compute.
Qed.

Lemma check_bytes2 a b (f : Z -> Z -> bool) :
  is_u8 a -> is_u8 b -> forallb (fun a => forallb (f a) (below 256)) (below 256) = true ->
  f a b = true.
Proof. intros ? ? H. by apply (check_below2 256 f a b H). Qed.

Lemma decode_encode_group a b c :
  is_u8 a -> is_u8 b -> is_u8 c ->
  match encode_group a b c with
  | [p; q; r; s] => decode_group p q r s = [a; b; c]
  | _ => False
  end.
Proof.
  intros Ha Hb Hc. unfold encode_group, decode_group. f_equal; [|f_equal; [|f_equal]].
  - apply Z.eqb_eq, (check_bytes2 a b (fun a b => u8 (Z.shiftl (Z.shiftr (Z.land a 252) 2) 2 +
      Z.shiftr (Z.land (u8 (Z.shiftl (Z.land a 3) 4 + Z.shiftr (Z.land b 240) 4)) 48) 4) =? a));
      by vm_compute.
  - assert (Z.land (u8 (Z.shiftl (Z.land a 3) 4 + Z.shiftr (Z.land b 240) 4)) 15 = Z.shiftr b 4)
      as -> by (apply Z.eqb_eq, (check_bytes2 a b (fun a b => Z.land (u8 (Z.shiftl (Z.land a 3) 4
        + Z.shiftr (Z.land b 240) 4)) 15 =? Z.shiftr b 4)); by vm_compute).
    apply Z.eqb_eq, (check_bytes2 b c (fun b c => u8 (Z.shiftl (Z.shiftr b 4) 4 + Z.shiftr (Z.land
      (u8 (Z.shiftl (Z.land b 15) 2 + Z.shiftr (Z.land c 192) 6)) 60) 2) =? b)); by vm_compute.
  - apply Z.eqb_eq, (check_bytes2 b c (fun b c => u8 (Z.shiftl (Z.land (u8 (Z.shiftl (Z.land b 15) 2
      + Z.shiftr (Z.land c 192) 6)) 3) 6 + Z.land c 63) =? c)); by vm_compute.
Qed.

Lemma decode_loop_char v s cs ret :
  sextet v ->
  decode_loop (base64_char v :: s) cs ret =
  match cs ++ [base64_char v] with
  | [a; b; c; d] =>
    decode_loop s []
      (ret ++ decode_group (base64_index a) (base64_index b) (base64_index c) (base64_index d))
  | cs => decode_loop s cs ret
  end.
Proof.
  intros (H1 & H2 & _)%base64_char_ok. cbn [decode_loop]. rewrite H2. bool_lia. done.
Qed.

Lemma decode_loop_group a b c s ret :
  is_u8 a -> is_u8 b -> is_u8 c ->
  decode_loop (List.map base64_char (encode_group a b c) ++ s) [] ret =
  decode_loop s [] (ret ++ [a; b; c]).
Proof.
  intros Ha Hb Hc. pose proof (decode_encode_group a b c Ha Hb Hc) as Hd.
  pose proof (encode_group_sextets a b c Ha Hb Hc) as Hs.
  unfold encode_group in *.
  rewrite !List.Forall_cons_iff in Hs. destruct Hs as (S1 & S2 & S3 & S4 & _).
  cbn [List.map app]. do 4 (rewrite decode_loop_char by done; cbn [app]).
  apply base64_char_ok in S1 as (_ & _ & -> & _), S2 as (_ & _ & -> & _),
    S3 as (_ & _ & -> & _), S4 as (_ & _ & -> & _).
  by rewrite Hd.
Qed.

(** What the end of [Base64Decode] makes of the characters left over. *)
Definition decode_rest (p : bytes * bytes) : bytes :=
  let i := zlen p.1 in
  if 0 <? i then
    let z j := base64_index (nth j p.1 0) in
    p.2 ++ slice (decode_group (z 0%nat) (z 1%nat) (z 2%nat) (z 3%nat)) 0 (i - 1)
  else p.2.

Lemma Base64Decode_rest s :
  zlen s < 2 ^ 31 -> Base64Decode s = Done (decode_rest (decode_loop s [] [])).
Proof.
  intros. unfold Base64Decode, decode_rest. bool_lia.
  destruct s as [|x s]; [done|]. cbn [empty].
  destruct (decode_loop (x :: s) [] []) as [cs ret]. cbn [fst snd]. by destruct (0 <? zlen cs).
Qed.

Lemma decode_rest_text l ret :
  Forall is_u8 l -> decode_rest (decode_loop (base64_text l) [] ret) = ret ++ l.
Proof.
  revert ret. induction l as [|a|a b|a b c l IH] using list_ind3; intros ret Hl;
    rewrite ?List.Forall_cons_iff in Hl.
  - cbn. by rewrite app_nil_r.
  - destruct Hl as (Ha & _). unfold base64_text.
    pose proof (decode_encode_group a 0 0 Ha ltac:(done) ltac:(done)) as Hd.
    pose proof (encode_group_sextets a 0 0 Ha ltac:(done) ltac:(done)) as Hs.
    unfold encode_group in *. rewrite !List.Forall_cons_iff in Hs. destruct Hs as (S1 & S2 & _).
    set (x := Z.shiftr _ 2) in *. set (y := u8 (Z.shiftl _ 4 + _)) in *.
    change (slice _ 0 2) with [base64_char x; base64_char y]. cbn [app].
    repeat (rewrite decode_loop_char by done; cbn [app]). cbn [decode_loop].
    change (negb (EQUALS =? EQUALS)) with false. cbn [andb]. unfold decode_rest.
    cbn [fst snd zlen length nth]. apply base64_char_ok in S1 as (_ & _ & -> & _),
      S2 as (_ & _ & -> & _). cbn. f_equal. unfold decode_group in *. by injection Hd as -> _.
  - destruct Hl as (Ha & Hb & _). unfold base64_text.
    pose proof (decode_encode_group a b 0 Ha Hb ltac:(done)) as Hd.
    pose proof (encode_group_sextets a b 0 Ha Hb ltac:(done)) as Hs.
    unfold encode_group in *. rewrite !List.Forall_cons_iff in Hs. destruct Hs as (S1 & S2 & S3 & _).
    set (x := Z.shiftr _ 2) in *. set (y := u8 (Z.shiftl _ 4 + _)) in *.
    set (w := u8 (Z.shiftl _ 2 + _)) in *.
    change (slice _ 0 3) with [base64_char x; base64_char y; base64_char w]. cbn [app].
    repeat (rewrite decode_loop_char by done; cbn [app]). cbn [decode_loop].
    change (negb (EQUALS =? EQUALS)) with false. cbn [andb]. unfold decode_rest.
    cbn [fst snd zlen length nth]. apply base64_char_ok in S1 as (_ & _ & -> & _),
      S2 as (_ & _ & -> & _), S3 as (_ & _ & -> & _).
    cbn. f_equal. unfold decode_group in *. by injection Hd as -> -> _.
  - destruct Hl as (Ha & Hb & Hc & Hl). cbn [base64_text].
    rewrite decode_loop_group, IH, <- app_assoc by done. done.
Qed.

Lemma zlen_base64_text l : zlen (base64_text l) = 4 * ((zlen l + 2) / 3).
Proof.
  induction l as [|a|a b|a b c l IH] using list_ind3; try done.
  cbn [base64_text]. rewrite zlen_app, IH, !zlen_cons.
  change (zlen (List.map base64_char (encode_group a b c))) with 4.
  replace (1 + (1 + (1 + zlen l)) + 2) with (zlen l + 2 + 1 * 3) by lia.
  rewrite Z.div_add by lia. lia.
Qed.

Lemma no_nul_chars l : Forall sextet l -> no_nul (List.map base64_char l).
Proof. induction 1 as [|v l Hv _ IH]; constructor; [|done]. by apply base64_char_ok. Qed.

Lemma no_nul_slice l off n : no_nul l -> no_nul (slice l off n).
Proof. intros. by apply Forall_take, Forall_drop. Qed.

Lemma no_nul_app s t : no_nul s -> no_nul t -> no_nul (s ++ t).
Proof. intros. by apply Forall_app_2. Qed.

Lemma base64_text_no_nul l : Forall is_u8 l -> no_nul (base64_text l).
Proof.
  assert (is_u8 0) by done.
  induction l as [|a|a b|a b c l IH] using list_ind3; intros Hl;
    rewrite ?List.Forall_cons_iff in Hl; cbn [base64_text].
  - constructor.
  - apply no_nul_app; [apply no_nul_slice, no_nul_chars, encode_group_sextets; tauto|].
    repeat constructor; done.
  - apply no_nul_app; [apply no_nul_slice, no_nul_chars, encode_group_sextets; tauto|].
    repeat constructor; done.
  - apply no_nul_app; [apply no_nul_chars, encode_group_sextets; tauto|].
    apply IH. tauto.
Qed.

Lemma Base64Encode_ok l :
  l <> [] -> Base64Encode (Some l) (zlen l) = Done (base64_text l).
Proof.
  intros Hl. unfold Base64Encode. assert (0 < zlen l) by (destruct l; [done|rewrite zlen_cons;
    pose proof (zlen_nonneg l); lia]).
  bool_lia. rewrite load_n_ok by lia. cbn [run_bind]. by rewrite slice_all, encode_bytes_text by lia.
Qed.

Lemma Base64Decode_text l :
  Forall is_u8 l -> zlen l < 2 ^ 30 -> Base64Decode (base64_text l) = Done l.
Proof.
  intros Hl Hn. rewrite Base64Decode_rest.
  - f_equal. by apply (decode_rest_text l []).
  - rewrite zlen_base64_text. pose proof (zlen_nonneg l).
    pose proof (Z.div_mod (zlen l + 2) 3 ltac:(lia)).
    pose proof (Z.mod_pos_bound (zlen l + 2) 3 ltac:(lia)). lia.
Qed.

Section ParcelLemmas.
Context {L : ParcelLib} {max : Z} {Lok : ParcelLibOk L max}.

Lemma ParcelToBase64Str_ok p :
  0 < zlen p < 2 ^ 30 -> ParcelToBase64Str p = Done (base64_text p).
Proof.
  intros. unfold ParcelToBase64Str. rewrite u32_id by (unfold_ints; lia).
  apply Base64Encode_ok. intros ->. rewrite zlen_nil in *. lia.
Qed.

Lemma Base64StrToParcel_text p old :
  Forall is_u8 p -> zlen old < zlen p -> 0 < zlen p <= max -> zlen p < 2 ^ 30 ->
  Base64StrToParcel (base64_text p) old = Done (ERR_OK, p).
Proof.
  intros Hp Hold Hn Hmax. pose proof (zlen_nonneg old) as Hnn. unfold Base64StrToParcel. rewrite Base64Decode_text by done.
  cbn [run_bind]. destruct (parcel_grows (L:=L) (zlen old) (zlen p)) as (-> & -> & ->); [lia..|].
  pose proof (parcel_max (L:=L)) as Hcap.
  assert (memcpy_s (Some (zeros (zlen p))) 0 GetMaxCapacity (Some p) 0 (zlen p)
    = Done (EOK, Some p)) as ->; [|done].
  pose proof (memcpy_s_copy [] (zeros (zlen p)) [] p 0 GetMaxCapacity 0 (zlen p) p) as H.
  cbn [app] in H. rewrite !app_nil_r in H. apply H; clear H; [|done|apply zlen_zeros; lia|unfold RSIZE_MAX; lia].
  rewrite load_n_ok by lia. by rewrite slice_all.
Qed.
End ParcelLemmas.

(** ** RFC 4648, bit by bit

    The reference: a byte string is its bits, most significant first; the text has a
    character of the table for every six of them, the last group filled with zeros, and
    is padded to whole groups of four characters. *)

Definition rfc_char (v : Z) : Z :=
  if v <? 26 then 65 + v else if v <? 52 then 97 + (v - 26) else if v <? 62 then 48 + (v - 52)
  else if v =? 62 then 43 else 47.

Definition rfc_value (c : Z) : option Z :=
  if (65 <=? c) && (c <=? 90) then Some (c - 65)
  else if (97 <=? c) && (c <=? 122) then Some (c - 97 + 26)
  else if (48 <=? c) && (c <=? 57) then Some (c - 48 + 52)
  else if c =? 43 then Some 62 else if c =? 47 then Some 63 else None.

(** The [n] low bits of [v], and the number some bits stand for. *)
Fixpoint bits (n : nat) (v : Z) : list bool :=
  match n with O => [] | S n => Z.testbit v (Z.of_nat n) :: bits n v end.

Definition of_bits (l : list bool) : Z := fold_left (fun v (b : bool) => 2 * v + Z.b2z b) l 0.

Fixpoint sextets (l : list bool) : list Z :=
  match l with
  | b1 :: b2 :: b3 :: b4 :: b5 :: b6 :: l => of_bits [b1; b2; b3; b4; b5; b6] :: sextets l
  | [] => []
  | l => [of_bits (take 6 (l ++ replicate 6 false))]
  end.

Fixpoint octets (l : list bool) : bytes :=
  match l with
  | b1 :: b2 :: b3 :: b4 :: b5 :: b6 :: b7 :: b8 :: l =>
    of_bits [b1; b2; b3; b4; b5; b6; b7; b8] :: octets l
  | _ => []
  end.

Definition rfc4648_encode (l : bytes) : bytes :=
  let text := List.map rfc_char (sextets (List.flat_map (bits 8) l)) in
  text ++ replicate (Z.to_nat (- zlen text mod 4)) EQUALS.

(** The values of the characters up to the first that is not in the table. *)
Fixpoint rfc_values (s : bytes) : list Z :=
  match s with
  | c :: s => match rfc_value c with Some v => v :: rfc_values s | None => [] end
  | [] => []
  end.

Definition rfc4648_decode (s : bytes) : bytes := octets (List.flat_map (bits 6) (rfc_values s)).

Lemma rfc_char_ok v : sextet v -> rfc_char v = base64_char v.
Proof.
  intros Hv. apply Z.eqb_eq, (check_below 64 (fun v => rfc_char v =? base64_char v)); by vm_compute.
Qed.

Lemma encode_group_bits a b c :
  is_u8 a -> is_u8 b -> is_u8 c -> encode_group a b c = sextets (bits 8 a ++ bits 8 b ++ bits 8 c).
Proof.
  intros Ha Hb Hc. unfold encode_group. cbn [bits app sextets].
  f_equal; [|f_equal; [|f_equal; [|f_equal]]]; apply Z.eqb_eq.
  - apply (check_bytes2 a a (fun a _ => Z.shiftr (Z.land a 0xfc) 2 =? of_bits (take 6 (bits 8 a))));
      by vm_compute.
  - apply (check_bytes2 a b (fun a b => u8 (Z.shiftl (Z.land a 0x03) 4 + Z.shiftr (Z.land b 0xf0) 4)
      =? of_bits (drop 6 (bits 8 a) ++ take 4 (bits 8 b)))); by vm_compute.
  - apply (check_bytes2 b c (fun b c => u8 (Z.shiftl (Z.land b 0x0f) 2 + Z.shiftr (Z.land c 0xc0) 6)
      =? of_bits (drop 4 (bits 8 b) ++ take 2 (bits 8 c)))); by vm_compute.
  - apply (check_bytes2 c c (fun c _ => Z.land c 0x3f =? of_bits (drop 2 (bits 8 c)))); by vm_compute.
Qed.

Lemma map_rfc_char l : Forall sextet l -> List.map rfc_char l = List.map base64_char l.
Proof. induction 1; cbn; f_equal; auto using rfc_char_ok. Qed.

Lemma base64_text_rfc l : Forall is_u8 l -> base64_text l = rfc4648_encode l.
Proof.
  assert (is_u8 0) as H0 by done.
  induction l as [|a|a b|a b c l IH] using list_ind3; intros Hl;
    rewrite ?List.Forall_cons_iff in Hl; [done|..].
  - destruct Hl as [Ha _].
    pose proof (map_rfc_char _ (encode_group_sextets a 0 0 Ha H0 H0)) as Hm.
    rewrite (encode_group_bits a 0 0) in Hm by done.
    cbn [base64_text]. rewrite (encode_group_bits a 0 0), <- Hm by done. reflexivity.
  - destruct Hl as (Ha & Hb & _).
    pose proof (map_rfc_char _ (encode_group_sextets a b 0 Ha Hb H0)) as Hm.
    rewrite (encode_group_bits a b 0) in Hm by done.
    cbn [base64_text]. rewrite (encode_group_bits a b 0), <- Hm by done. reflexivity.
  - destruct Hl as (Ha & Hb & Hc & Hl).
    pose proof (map_rfc_char _ (encode_group_sextets a b c Ha Hb Hc)) as Hm.
    cbn [base64_text]. rewrite IH by done. rewrite <- Hm, (encode_group_bits a b c) by done.
    unfold rfc4648_encode, zlen. cbn [List.flat_map bits app sextets List.map length]. rewrite !List.length_map.
    set (k := length (sextets _)).
    rewrite <- (Z.mod_add (- Z.of_nat (S (S (S (S k))))) 1 4) by lia.
    by replace (- Z.of_nat (S (S (S (S k)))) + 1 * 4) with (- Z.of_nat k) by lia.
Qed.

Lemma rfc_value_ok c :
  match rfc_value c with
  | Some v => IsBase64 c = true /\ (c =? EQUALS) = false /\ base64_index c = v /\ sextet v
  | None => IsBase64 c = false
  end.
Proof.
  destruct (Z.le_gt_cases 0 c), (Z.lt_ge_cases c 128).
  2-4: try lia; unfold rfc_value, IsBase64, isalnum; by bool_lia.
  pose proof (check_below 128 (fun c => match rfc_value c with
    | Some v => IsBase64 c && negb (c =? EQUALS) && (base64_index c =? v) && (0 <=? v) && (v <? 64)
    | None => negb (IsBase64 c) end) c ltac:(by vm_compute) ltac:(lia)) as Hc.
  cbn beta in Hc. unfold sextet. destruct (rfc_value c) as [v|]; guards_to_prop; [|done].
  split_and!; [done|by apply Z.eqb_neq|done..].
Qed.

(** Induction over a list four elements at a time. *)
Lemma list_ind4 {A} (P : list A -> Prop) :
  P [] -> (forall a, P [a]) -> (forall a b, P [a; b]) -> (forall a b c, P [a; b; c]) ->
  (forall a b c d l, P l -> P (a :: b :: c :: d :: l)) -> forall l, P l.
Proof.
  intros H0 H1 H2 H3 H4. fix IH 1.
  intros [|a [|b [|c [|d l]]]]; [done|apply H1|apply H2|apply H3|]. apply H4, IH.
Qed.

(** The loop reads the characters of the table and stops at the first other one. *)
Fixpoint table_prefix (s : bytes) : bytes :=
  match s with
  | c :: s => if IsBase64 c then c :: table_prefix s else []
  | [] => []
  end.

Lemma decode_loop_table s cs ret : decode_loop s cs ret = decode_loop (table_prefix s) cs ret.
Proof.
  revert cs ret. induction s as [|c s IH]; intros cs ret; [done|]. cbn [decode_loop table_prefix].
  destruct (IsBase64 c) eqn:Hc; [|by rewrite andb_false_r]. cbn [decode_loop]. rewrite Hc.
  destruct (negb (c =? EQUALS) && true); [|done]. by repeat case_match.
Qed.

Lemma rfc_values_table s :
  rfc_values s = List.map base64_index (table_prefix s) /\
  Forall sextet (rfc_values s) /\
  Forall (fun c => IsBase64 c = true /\ (c =? EQUALS) = false) (table_prefix s).
Proof.
  induction s as [|c s (IH1 & IH2 & IH3)]; [done|]. cbn [rfc_values table_prefix].
  pose proof (rfc_value_ok c) as Hc. destruct (rfc_value c) as [v|].
  - destruct Hc as (H1 & H2 & H3 & H4). rewrite H1. cbn [List.map]. rewrite H3, <- IH1. auto.
  - rewrite Hc. auto.
Qed.

Lemma decode_group_bits a b c d :
  sextet a -> sextet b -> sextet c -> sextet d ->
  decode_group a b c d = octets (bits 6 a ++ bits 6 b ++ bits 6 c ++ bits 6 d).
Proof.
  intros Ha Hb Hc Hd. unfold decode_group. cbn [bits app octets].
  f_equal; [|f_equal; [|f_equal]]; apply Z.eqb_eq.
  - apply (check_below2 64 (fun a b => u8 (Z.shiftl a 2 + Z.shiftr (Z.land b 0x30) 4)
      =? of_bits (bits 6 a ++ take 2 (bits 6 b))) a b); by vm_compute.
  - apply (check_below2 64 (fun b c => u8 (Z.shiftl (Z.land b 0xf) 4 + Z.shiftr (Z.land c 0x3c) 2)
      =? of_bits (drop 2 (bits 6 b) ++ take 4 (bits 6 c))) b c); by vm_compute.
  - apply (check_below2 64 (fun c d => u8 (Z.shiftl (Z.land c 0x3) 6 + d)
      =? of_bits (drop 4 (bits 6 c) ++ bits 6 d)) c d); by vm_compute.
Qed.

Lemma decode_rest_octets p ret :
  Forall (fun c => IsBase64 c = true /\ (c =? EQUALS) = false) p ->
  Forall sextet (List.map base64_index p) ->
  decode_rest (decode_loop p [] ret) = ret ++ octets (List.flat_map (bits 6) (List.map base64_index p)).
Proof.
  assert (sextet 0) as H0 by done.
  revert ret. induction p as [|a|a b|a b c|a b c d p IH] using list_ind4; intros ret Hp Hv;
    cbn [List.map] in *; rewrite ?List.Forall_cons_iff in Hp; rewrite ?List.Forall_cons_iff in Hv.
  - cbn. by rewrite app_nil_r.
  - destruct Hp as [(Ha & Ea) _]. cbn [decode_loop app]. rewrite Ha, Ea. cbn. done.
  - destruct Hp as [(Ha & Ea) [(Hb & Eb) _]], Hv as (Va & Vb & _).
    cbn [decode_loop app]. rewrite Ha, Ea, Hb, Eb. unfold decode_rest.
    cbn [negb andb fst snd nth]. change (0 <? zlen [a; b]) with true. cbv iota zeta. f_equal.
    change (slice (decode_group (base64_index a) (base64_index b) 0 0) 0 1
      = octets (bits 6 (base64_index a) ++ bits 6 (base64_index b) ++ [])).
    by rewrite decode_group_bits.
  - destruct Hp as [(Ha & Ea) [(Hb & Eb) [(Hc & Ec) _]]], Hv as (Va & Vb & Vc & _).
    cbn [decode_loop app]. rewrite Ha, Ea, Hb, Eb, Hc, Ec. unfold decode_rest.
    cbn [negb andb fst snd nth]. change (0 <? zlen [a; b; c]) with true. cbv iota zeta. f_equal.
    change (slice (decode_group (base64_index a) (base64_index b) (base64_index c) 0) 0 2
      = octets (bits 6 (base64_index a) ++ bits 6 (base64_index b) ++ bits 6 (base64_index c) ++ [])).
    by rewrite decode_group_bits.
  - destruct Hp as [(Ha & Ea) [(Hb & Eb) [(Hc & Ec) [(Hd & Ed) Hp]]]], Hv as (Va & Vb & Vc & Vd & Hv).
    cbn [decode_loop app]. rewrite Ha, Ea, Hb, Eb, Hc, Ec, Hd, Ed. cbn [negb andb].
    rewrite IH, (decode_group_bits _ _ _ _ Va Vb Vc Vd), <- app_assoc by done. done.
Qed.

Lemma Base64Decode_rfc s : zlen s < 2 ^ 31 -> Base64Decode s = Done (rfc4648_decode s).
Proof.
  intros Hs. rewrite Base64Decode_rest, decode_loop_table by done. f_equal.
  destruct (rfc_values_table s) as (H1 & H2 & H3). unfold rfc4648_decode. rewrite H1 in *.
  by rewrite decode_rest_octets.
Qed.

Lemma Base64Encode_rfc l :
  Forall is_u8 l -> Base64Encode (Some l) (zlen l) = Done (rfc4648_encode l).
Proof.
  intros Hl. destruct (decide (l = [])) as [->|Hn]; [done|].
  by rewrite Base64Encode_ok, base64_text_rfc.
Qed.

(** C32 The base64 code is RFC 4648: encoding gives, for every string of bytes, the text
    of its bits taken six at a time with the padding of the RFC, and decoding gives, for
    every text below 2^31 characters, well formed or not, the whole bytes of the bits of
    its characters up to the first that is not in the table. *)
Theorem base64_equals_rfc4648 (l s : bytes) :
  Forall is_u8 l -> zlen s < 2 ^ 31 ->
  Base64Encode (Some l) (zlen l) = Done (rfc4648_encode l) /\
  Base64Decode s = Done (rfc4648_decode s).
Proof. intros Hl Hs. split; [by apply Base64Encode_rfc|by apply Base64Decode_rfc]. Qed.

Lemma base64_equals_rfc4648_witness :
  Base64Encode (Some [77; 97; 110; 0]) 4 = Done (rfc4648_encode [77; 97; 110; 0]) /\
  Base64Decode [84; 87; 70; 117; 65; 61] = Done (rfc4648_decode [84; 87; 70; 117; 65; 61]).
Proof. apply (base64_equals_rfc4648 [77; 97; 110; 0] [84; 87; 70; 117; 65; 61]); by_compute. Defined.

(** A parcel of up to 2^30 bytes that the parcel library can hold, sent as base64 text,
    is rebuilt byte for byte by the receiver, also in a parcel that held less; the text is four characters for every
    three bytes begun and holds no null byte, so it survives as a C string. *)
Theorem parcel_text_roundtrip {L : ParcelLib} {max : Z} {Lok : ParcelLibOk L max} p old :
  Forall is_u8 p -> zlen old < zlen p <= max -> zlen p < 2 ^ 30 ->
  exists text,
    ParcelToBase64Str p = Done text /\
    Base64StrToParcel text old = Done (ERR_OK, p) /\
    no_nul text /\ zlen text = 4 * ((zlen p + 2) / 3).
Proof.
  intros Hp Hn Hmax. pose proof (zlen_nonneg old). exists (base64_text p). split_and!.
  - apply ParcelToBase64Str_ok. lia.
  - apply (Base64StrToParcel_text (max := max)); (done || lia).
  - by apply base64_text_no_nul.
  - apply zlen_base64_text.
Qed.

Definition demo_parcels : ParcelLib := {|
  SetDataCapacity old n := n <=? 204800;
  HasData n := negb (n =? 0);
  GetMaxCapacity := 204800;
  SetDataSize n := n <=? 204800
|}.

Lemma demo_parcels_ok : ParcelLibOk demo_parcels 204800.
Proof. split; [|done]. intros old n Ho Hn. cbn. by bool_lia. Qed.
Lemma demo_parcels_bound : ParcelLibBound demo_parcels.
Proof. split. intros old n. cbn. lia. Qed.

Lemma parcel_text_roundtrip_witness :
  exists text,
    ParcelToBase64Str [77; 97; 110; 0; 255] = Done text /\
    Base64StrToParcel (L := demo_parcels) text [9] = Done (ERR_OK, [77; 97; 110; 0; 255]) /\
    no_nul text /\ zlen text = 4 * ((zlen [77; 97; 110; 0; 255] + 2) / 3).
Proof.
  apply (parcel_text_roundtrip (L := demo_parcels) (Lok := demo_parcels_ok) [77; 97; 110; 0; 255] [9]);
    by_compute.
Defined.
