(* ===== verification/Framework.v ===== *)
(** * Interfaces of the code outside the modelled components

    The continuation service is written against the cJSON and nlohmann libraries
    and the ability framework's [Want].  Their types and functions are parameters,
    collected in one class per library; the classes ending in [Ok] state the
    documented behaviour some theorems rely on.  [Parcelable] is the contract
    between a command and the values it carries as parcels. *)

From Stdlib Require Import ZArith Lia.
From stdpp Require Import base list option countable.
From S2P Require Import Prelude StdString.

Definition is_int32 (z : Z) : Prop := - 2 ^ 31 <= z < 2 ^ 31.

(** ** cJSON *)

Class CJson := {
  cJSON : Type;
  cJSON_CreateObject : option cJSON;
  cJSON_CreateArray : option cJSON;
  cJSON_CreateString : bytes -> option cJSON;
  cJSON_AddNumberToObject : cJSON -> bytes -> Z -> cJSON;
  cJSON_AddStringToObject : cJSON -> bytes -> bytes -> cJSON;
  cJSON_AddBoolToObject : cJSON -> bytes -> bool -> cJSON;
  cJSON_AddItemToObject : cJSON -> bytes -> cJSON -> cJSON;
  cJSON_AddItemToArray : cJSON -> cJSON -> cJSON;
  cJSON_GetObjectItemCaseSensitive : cJSON -> bytes -> option cJSON;
  cJSON_ArrayItems : cJSON -> list cJSON;
  cJSON_IsNumber : cJSON -> bool;
  cJSON_IsString : cJSON -> bool;
  cJSON_IsBool : cJSON -> bool;
  valueint : cJSON -> Z;
  valuestring : cJSON -> option bytes;
  cJSON_Print : cJSON -> option bytes;
  cJSON_Parse : bytes -> option cJSON
}.

Section JsonItems.
Context {J : CJson}.

Definition number_item (i : cJSON) (n : Z) : Prop :=
  cJSON_IsNumber i = true /\ valueint i = n.

Definition string_item (i : cJSON) (s : bytes) : Prop :=
  cJSON_IsString i = true /\ valuestring i = Some s.

(** The parser stores 1 for true and 0 for false; only parsed items are asked. *)
Definition bool_item (i : cJSON) (b : bool) : Prop :=
  cJSON_IsBool i = true /\ valueint i = Z.b2z b.

(** The object has a member [k] that satisfies [P]. *)
Definition member (o : cJSON) (k : bytes) (P : cJSON -> Prop) : Prop :=
  exists i, cJSON_GetObjectItemCaseSensitive o k = Some i /\ P i.
End JsonItems.

(** Memory suffices, a member added under a new name is found there and leaves the
    other members alone, and a printed tree is read back. *)
Class CJsonOk (J : CJson) : Prop := {
  create_object : exists o, cJSON_CreateObject = Some o /\
    forall k, cJSON_GetObjectItemCaseSensitive o k = None;
  create_array : exists a, cJSON_CreateArray = Some a /\ cJSON_ArrayItems a = [];
  create_string s : no_nul s -> exists i, cJSON_CreateString s = Some i /\ string_item i s;
  array_items_add a i : cJSON_ArrayItems (cJSON_AddItemToArray a i) = cJSON_ArrayItems a ++ [i];
  add_number_new o k n : is_int32 n -> cJSON_GetObjectItemCaseSensitive o k = None ->
    member (cJSON_AddNumberToObject o k n) k (fun i => number_item i n);
  add_string_new o k s : no_nul s -> cJSON_GetObjectItemCaseSensitive o k = None ->
    member (cJSON_AddStringToObject o k s) k (fun i => string_item i s);
  add_bool_new o k b : cJSON_GetObjectItemCaseSensitive o k = None ->
    member (cJSON_AddBoolToObject o k b) k (fun i => bool_item i b);
  add_item_new o k i : cJSON_GetObjectItemCaseSensitive o k = None ->
    cJSON_GetObjectItemCaseSensitive (cJSON_AddItemToObject o k i) k = Some i;
  add_number_other o k n k' : k <> k' ->
    cJSON_GetObjectItemCaseSensitive (cJSON_AddNumberToObject o k n) k'
    = cJSON_GetObjectItemCaseSensitive o k';
  add_string_other o k s k' : k <> k' ->
    cJSON_GetObjectItemCaseSensitive (cJSON_AddStringToObject o k s) k'
    = cJSON_GetObjectItemCaseSensitive o k';
  add_bool_other o k b k' : k <> k' ->
    cJSON_GetObjectItemCaseSensitive (cJSON_AddBoolToObject o k b) k'
    = cJSON_GetObjectItemCaseSensitive o k';
  add_item_other o k i k' : k <> k' ->
    cJSON_GetObjectItemCaseSensitive (cJSON_AddItemToObject o k i) k'
    = cJSON_GetObjectItemCaseSensitive o k';
  print_parse o : exists t, cJSON_Print o = Some t /\ cJSON_Parse t = Some o /\ no_nul t
}.

(** Every item read from a text of [n] bytes: a string has its characters, at most [n]. *)
Class CJsonReads (J : CJson) := {
  fits : Z -> cJSON -> Prop;
  parse_fits t i : cJSON_Parse t = Some i -> fits (zlen t) i;
  item_fits n o k i : fits n o -> cJSON_GetObjectItemCaseSensitive o k = Some i -> fits n i;
  items_fit n a i : fits n a -> In i (cJSON_ArrayItems a) -> fits n i;
  string_fits n i : fits n i -> cJSON_IsString i = true ->
    exists s, valuestring i = Some s /\ zlen s <= n
}.

(** ** nlohmann::json, as far as [CallerInfo::extraInfoJson] needs it *)

Class NJson := {
  njson : Type;
  njson_null : njson;
  njson_set : njson -> bytes -> Z -> njson;
  dump : njson -> bytes
}.

(** The text of a null document with one integer member is a cJSON text of an
    object with that member only. *)
Class NJsonOk (J : CJson) (N : NJson) : Prop := {
  dump_set k n : is_int32 n -> exists o,
    cJSON_Parse (c_str (dump (njson_set njson_null k n))) = Some o /\
    member o k (fun i => number_item i n) /\
    forall k', k <> k' -> cJSON_GetObjectItemCaseSensitive o k' = None
}.

(** ** Parcels *)

(** [Marshalling] writes a value to an empty parcel, [Unmarshalling] reads one from
    the front of a parcel and leaves the rest. *)
Class Parcelable (A : Type) := {
  Marshalling : A -> option bytes;
  Unmarshalling : bytes -> option A * bytes
}.

(** A value that fits a parcel of [max] bytes and is read back. *)
Definition parcels_back {A} `{Parcelable A} (max : Z) (a : A) : Prop :=
  exists p, Marshalling a = Some p /\ Forall is_u8 p /\ 0 < zlen p <= max /\
    (Unmarshalling p).1 = Some a.

(** ** Parcels that hold several values

    [WriteTo] appends a value to a parcel; [ReadAt] reads the value at the cursor and
    answers the cursor after it. *)
Class ParcelStream (A : Type) := {
  WriteTo : bytes -> A -> option bytes;
  ReadAt : bytes -> Z -> option A * Z
}.

(** A value that fits behind the bytes [p] of a parcel, which become [p'], and is read
    back at its place whatever follows it. *)
Definition streams_back {A} `{ParcelStream A} (max : Z) (p : bytes) (a : A) (p' : bytes) : Prop :=
  WriteTo p a = Some p' /\ Forall is_u8 p' /\ zlen p < zlen p' <= max /\
  forall more, ReadAt (p' ++ more) (zlen p) = (Some a, zlen p').

(** ** Want

    [DWant] is [DistributedWantV2], the form in which a want travels;
    [WantParams] is [DistributedWantParams]. *)
Class WantLib := {
  Want : Type;
  DWant : Type;
  WantParams : Type;
  AbilityInfo : Type;
  want_parcel :: Parcelable Want;
  dwant_parcel :: Parcelable DWant;
  params_parcel :: Parcelable WantParams;
  ability_parcel :: Parcelable AbilityInfo;
  Want_empty : Want;
  WantParams_empty : WantParams;
  AbilityInfo_empty : AbilityInfo;
  FromWant : Want -> DWant;
  ToWant : DWant -> Want;
  (** [SetOperation(GetOperation())] and [SetParams(GetParams())]. *)
  copy_operation : Want -> Want -> Want;
  copy_params : Want -> Want -> Want;
  SetBundle : Want -> bytes -> Want;
  GetBundle : Want -> bytes;
  GetFlags : Want -> Z;
  SetFlags : Want -> Z -> Want;
  GetDeviceID : Want -> bytes;
  GetAbilityName : Want -> bytes;
  GetModuleName : Want -> bytes;
  (** Device, bundle, ability and module name; the last may be absent. *)
  SetElementName : Want -> bytes -> bytes -> bytes -> option bytes -> Want;
  SetParamInt : Want -> bytes -> Z -> Want;
  SetParamBool : Want -> bytes -> bool -> Want;
  SetParamString : Want -> bytes -> bytes -> Want;
  RemoveParam : Want -> bytes -> Want;
  GetBoolParam : Want -> bytes -> bool -> bool;
  GetStringParam : Want -> bytes -> bytes;
  (** The boolean member of [GetParams()], when there is one. *)
  QueryBoolean : Want -> bytes -> option bool
}.

(** [AAFwk::WantParams], the parameters of a want as the ability framework has them, and
    the parts of [Want] that take them. *)
Class ParamsLib {W : WantLib} := {
  AWantParams : Type;
  AWantParams_stream :: ParcelStream AWantParams;
  AWantParams_empty : AWantParams;
  SetParam_Boolean : AWantParams -> bytes -> bool -> AWantParams;
  SetParam_String : AWantParams -> bytes -> bytes -> AWantParams;
  SetParam_Params : AWantParams -> bytes -> AWantParams -> AWantParams;
  (** Whether [GetParam] is not null; the string it holds if it is an [IString]. *)
  GetParam : AWantParams -> bytes -> bool;
  GetParam_String : AWantParams -> bytes -> option bytes;
  FLAG_ABILITY_ON_COLLABORATE : Z;
  AddFlags : Want -> Z -> Want;
  SetParams : Want -> AWantParams -> Want
}.

(** ** A cJSON to evaluate *)

(** Trees of numbers (leaf [inl]), strings (leaf [inr]), arrays (node 0), objects
    (node 1, names and values in turn), false (node 2) and true (node 3), printed as the bits of their code and a byte
    for every character they hold.  It shows that the laws can hold together; the
    library prints JSON. *)
Module DemoJson.
Definition tree : Type := gen_tree (Z + list Z).

Fixpoint bits (p : positive) : bytes :=
  match p with xH => [] | xO p => 48 :: bits p | xI p => 49 :: bits p end.

Fixpoint of_bits (l : bytes) : positive :=
  match l with
  | [] => xH
  | c :: l => if c =? 48 then xO (of_bits l) else if c =? 49 then xI (of_bits l) else xH
  end.

(** How many characters the strings of a tree have. *)
Fixpoint characters (o : tree) : nat :=
  match o with
  | GenLeaf (inl _) => 0
  | GenLeaf (inr s) => length s
  | GenNode _ l => list_sum (List.map characters l)
  end.

Definition text (o : tree) : bytes := bits (encode o) ++ replicate (characters o) 50.

Definition read (s : bytes) : option tree :=
  match decode (of_bits s) with
  | Some o => if (characters o <=? length s)%nat then Some o else None
  | None => None
  end.

Lemma of_bits_bits p n : of_bits (bits p ++ replicate n 50) = p.
Proof.
  induction p as [p IH|p IH|]; cbn; [by rewrite IH|by rewrite IH|by destruct n].
Qed.

Lemma characters_in o (l : list tree) : In o l -> (characters o <= list_sum (List.map characters l))%nat.
Proof.
  unfold list_sum. induction l as [|x l IH]; cbn; [done|]. intros [->|Hin]; [lia|].
  specialize (IH Hin). lia.
Qed.

Lemma bits_no_nul p : no_nul (bits p).
Proof. induction p; constructor; done. Qed.

Lemma text_no_nul o : no_nul (text o).
Proof. apply Forall_app. split; [apply bits_no_nul|]. by apply Forall_replicate. Qed.

Lemma read_text o : read (text o) = Some o.
Proof.
  unfold read, text. rewrite of_bits_bits, decode_encode.
  destruct (Nat.leb_spec (characters o) (length (bits (encode o) ++ replicate (characters o) 50)))
    as [|H]; [done|]. rewrite length_app, length_replicate in H.
    lia.
Qed.

Fixpoint lookup_members (l : list tree) (k : bytes) : option tree :=
  match l with
  | GenLeaf (inr k') :: v :: l => if bytes_eqb k' k then Some v else lookup_members l k
  | _ => None
  end.

(** As in cJSON, a member may be added to any item. *)
Definition add (o : tree) (k : bytes) (v : tree) : tree :=
  match o with
  | GenNode n l => GenNode n (GenLeaf (inr k) :: v :: l)
  | GenLeaf _ => GenNode 1 [GenLeaf (inr k); v]
  end.

Definition get (o : tree) (k : bytes) : option tree :=
  match o with GenNode _ l => lookup_members l k | GenLeaf _ => None end.

Definition append (a i : tree) : tree :=
  match a with GenNode n l => GenNode n (l ++ [i]) | GenLeaf _ => GenNode 0 [i] end.

Definition demo : CJson := {|
  cJSON := tree;
  cJSON_CreateObject := Some (GenNode 1 []);
  cJSON_CreateArray := Some (GenNode 0 []);
  cJSON_CreateString s := Some (GenLeaf (inr s));
  cJSON_AddNumberToObject o k n := add o k (GenLeaf (inl n));
  cJSON_AddStringToObject o k s := add o k (GenLeaf (inr s));
  cJSON_AddBoolToObject o k b := add o k (GenNode (if b then 3 else 2) []);
  cJSON_AddItemToObject o k v := add o k v;
  cJSON_AddItemToArray := append;
  cJSON_GetObjectItemCaseSensitive := get;
  cJSON_ArrayItems a := match a with GenNode _ l => l | GenLeaf _ => [] end;
  cJSON_IsNumber i := match i with GenLeaf (inl _) => true | _ => false end;
  cJSON_IsString i := match i with GenLeaf (inr _) => true | _ => false end;
  cJSON_IsBool i := match i with GenNode 2 [] | GenNode 3 [] => true | _ => false end;
  valueint i := match i with
    | GenLeaf (inl n) => Z.max (- 2 ^ 31) (Z.min n (2 ^ 31 - 1))
    | GenNode 3 [] => 1
    | _ => 0
    end;
  valuestring i := match i with GenLeaf (inr s) => Some s | _ => None end;
  cJSON_Print o := Some (text o);
  cJSON_Parse := read
|}.

Lemma get_add o k v : get (add o k v) k = Some v.
Proof. destruct o; cbn; by rewrite bytes_eqb_refl. Qed.

Lemma get_add_other o k v k' : k <> k' -> get (add o k v) k' = get o k'.
Proof. intros Hk%bytes_eqb_neq. destruct o; cbn; by rewrite Hk. Qed.

Lemma demo_ok : CJsonOk demo.
Proof.
  split; cbn [cJSON cJSON_CreateObject cJSON_CreateArray cJSON_GetObjectItemCaseSensitive demo].
  - by exists (GenNode 1 []).
  - by exists (GenNode 0 []).
  - intros s _. by exists (GenLeaf (inr s)).
  - by intros [].
  - intros o k n Hn _. exists (GenLeaf (inl n)). split; [apply get_add|]. split; [done|].
    cbn. unfold is_int32 in Hn. lia.
  - intros o k s _ _. exists (GenLeaf (inr s)). by rewrite <- (get_add o k).
  - intros o k b _. exists (GenNode (if b then 3 else 2) []). rewrite <- (get_add o k).
    split; [done|by destruct b].
  - intros o k i _. apply get_add.
  - intros. by apply get_add_other.
  - intros. by apply get_add_other.
  - intros. by apply get_add_other.
  - intros. by apply get_add_other.
  - intros o. exists (text o). split_and!; [done|apply read_text|apply text_no_nul].
Qed.

Lemma lookup_members_in l k o : lookup_members l k = Some o -> In o l.
Proof.
  revert o. induction l as [l IH] using (induction_ltof1 _ (@length _)). intros o.
  destruct l as [|[[n|k']|n l'] [|v l]]; cbn [lookup_members]; try done.
  destruct (bytes_eqb k' k); [intros [= ->]; by right; left|].
  intros H%IH; [by right; right|]. unfold ltof. cbn. lia.
Qed.

#[refine] Definition demo_reads : CJsonReads demo := {|
  fits (n : Z) (o : cJSON (CJson := demo)) := Z.of_nat (characters o) <= n
|}.
Proof.
  - intros s o. cbn [cJSON_Parse demo]. unfold read. destruct (decode (of_bits s)) as [o'|]; [|done].
    destruct (Nat.leb_spec (characters o') (length s)); [|done]. intros [= <-]. unfold zlen. lia.
  - intros n [x|m l] k o Hn; [done|]. cbn [cJSON_GetObjectItemCaseSensitive demo get].
    intros H%lookup_members_in%characters_in. cbn in Hn. lia.
  - intros n [x|m l] o Hn; [done|]. cbn [cJSON_ArrayItems demo].
    intros H%characters_in. cbn in Hn. lia.
  - intros n [[x|s]|m l] Hn; [done| |done]. intros _. exists s. split; [done|exact Hn].
Defined.

(** Extra information is the member list itself. *)
Definition extra : NJson := {|
  njson := tree;
  njson_null := GenNode 1 [];
  njson_set o k n := add o k (GenLeaf (inl n));
  dump o := text o
|}.

Lemma extra_ok : NJsonOk demo extra.
Proof.
  split. intros k n Hn. exists (add (GenNode 1 []) k (GenLeaf (inl n))). split_and!.
  - cbn [dump extra njson_set njson_null]. rewrite c_str_no_nul by apply text_no_nul.
    apply read_text.
  - exists (GenLeaf (inl n)). split; [apply get_add|]. split; [done|]. cbn. unfold is_int32 in Hn. lia.
  - intros k' Hk. etrans; [by apply get_add_other|done].
Qed.
End DemoJson.

(** ** Wants to evaluate *)

(** Flags; device, bundle, ability and module name; parameters. *)
Module DemoWant.
Definition value : Type := Z + bool + bytes.
Definition want : Type := Z * (bytes * bytes * bytes * bytes) * list (bytes * value).

Fixpoint find_param (l : list (bytes * value)) (k : bytes) : option value :=
  match l with
  | [] => None
  | (k', v) :: l => if bytes_eqb k' k then Some v else find_param l k
  end.

Definition set_param (w : want) (k : bytes) (v : value) : want :=
  let '(f, e, l) := w in (f, e, (k, v) :: l).

(** A value as the bits of its code, after a byte that keeps the parcel from being empty. *)
#[export] Instance parcel_of_code A `{Countable A} : Parcelable A := {|
  Marshalling a := Some (1 :: DemoJson.bits (encode a));
  Unmarshalling p := (decode (DemoJson.of_bits (List.tl p)), [])
|}.

Definition demo : WantLib := {|
  Want := want;
  DWant := want;
  WantParams := list (bytes * value);
  AbilityInfo := bytes;
  Want_empty := (0, ([], [], [], []), []);
  WantParams_empty := [];
  AbilityInfo_empty := [];
  FromWant w := w;
  ToWant w := w;
  copy_operation w v := let '(_, _, l) := w in let '(f, e, _) := v in (f, e, l);
  copy_params w v := let '(f, e, _) := w in let '(_, _, l) := v in (f, e, l);
  SetBundle w b := let '(f, (d, _, a, m), l) := w in (f, (d, b, a, m), l);
  GetBundle w := let '(_, (_, b, _, _), _) := w in b;
  GetFlags w := let '(f, _, _) := w in f;
  SetFlags w f := let '(_, e, l) := w in (f, e, l);
  GetDeviceID w := let '(_, (d, _, _, _), _) := w in d;
  GetAbilityName w := let '(_, (_, _, a, _), _) := w in a;
  GetModuleName w := let '(_, (_, _, _, m), _) := w in m;
  SetElementName w d b a m :=
    let '(f, _, l) := w in (f, (d, b, a, match m with Some m => m | None => [] end), l);
  SetParamInt w k n := set_param w k (inl (inl n));
  SetParamBool w k b := set_param w k (inl (inr b));
  SetParamString w k s := set_param w k (inr s);
  RemoveParam w k := let '(f, e, l) := w in (f, e, List.filter (fun p => negb (bytes_eqb p.1 k)) l);
  GetBoolParam w k d :=
    let '(_, _, l) := w in match find_param l k with Some (inl (inr b)) => b | _ => d end;
  GetStringParam w k :=
    let '(_, _, l) := w in match find_param l k with Some (inr s) => s | _ => [] end;
  QueryBoolean w k :=
    let '(_, _, l) := w in match find_param l k with Some (inl (inr b)) => Some b | _ => None end
|}.

Lemma bits_u8 p : Forall is_u8 (DemoJson.bits p).
Proof. induction p; constructor; done. Qed.

Lemma code_parcels_back {A} `{Countable A} max (a : A) :
  1 + zlen (DemoJson.bits (encode a)) <= max -> parcels_back max a.
Proof.
  intros Hmax. exists (1 :: DemoJson.bits (encode a)). split_and!; [done| | | |].
  - constructor; [done|apply bits_u8].
  - rewrite zlen_cons. pose proof (zlen_nonneg (DemoJson.bits (encode a))). lia.
  - rewrite zlen_cons. lia.
  - cbn. rewrite <- (app_nil_r (DemoJson.bits _)), (DemoJson.of_bits_bits _ 0). by rewrite decode_encode.
Qed.
End DemoWant.

(** ** Parameter sets to evaluate *)

(** A set is an object of [DemoJson]; it is written as the bits of its code and a byte that
    ends them. *)
Module DemoParams.
Definition write (p : bytes) (a : DemoJson.tree) : bytes := p ++ DemoJson.bits (encode a) ++ [50].

Definition read_at (p : bytes) (cursor : Z) : option DemoJson.tree * Z :=
  match decode (DemoJson.of_bits (drop (Z.to_nat cursor) p)) with
  | Some a => (Some a, cursor + zlen (DemoJson.bits (encode a)) + 1)
  | None => (None, cursor)
  end.

#[export] Instance tree_stream : ParcelStream DemoJson.tree := {|
  WriteTo p a := Some (write p a);
  ReadAt := read_at
|}.

Lemma of_bits_end p more : DemoJson.of_bits (DemoJson.bits p ++ 50 :: more) = p.
Proof. induction p as [p IH|p IH|]; cbn; [by rewrite IH|by rewrite IH|done]. Qed.

Lemma tree_streams_back max p a :
  Forall is_u8 p -> zlen (write p a) <= max -> streams_back max p a (write p a).
Proof.
  intros Hp Hmax. unfold write in *. split_and!; [done| |..].
  - repeat (apply Forall_app; split); [done|apply DemoWant.bits_u8|]. by constructor.
  - rewrite !zlen_app. pose proof (zlen_nonneg (DemoJson.bits (encode a))).
    change (zlen [50]) with 1. lia.
  - done.
  - intros more. cbn [ReadAt tree_stream]. unfold read_at.
    unfold zlen at 1. rewrite Nat2Z.id, <- !app_assoc, drop_app_length. cbn [app].
    rewrite of_bits_end, decode_encode. rewrite !zlen_app. f_equal. change (zlen [50]) with 1. lia.
Qed.

(** The members a want of [DemoWant] can hold. *)
Fixpoint want_values (l : list DemoJson.tree) : list (bytes * DemoWant.value) :=
  match l with
  | GenLeaf (inr k) :: GenLeaf (inr s) :: l => (k, inr s) :: want_values l
  | GenLeaf (inr k) :: GenLeaf (inl n) :: l => (k, inl (inl n)) :: want_values l
  | GenLeaf (inr k) :: GenNode 2 [] :: l => (k, inl (inr false)) :: want_values l
  | GenLeaf (inr k) :: GenNode 3 [] :: l => (k, inl (inr true)) :: want_values l
  | _ :: _ :: l => want_values l
  | _ => []
  end.

Definition demo : ParamsLib (W := DemoWant.demo) := {|
  AWantParams := DemoJson.tree;
  AWantParams_empty := GenNode 1 [];
  SetParam_Boolean o k b := DemoJson.add o k (GenNode (if b then 3 else 2) []);
  SetParam_String o k s := DemoJson.add o k (GenLeaf (inr s));
  SetParam_Params := DemoJson.add;
  GetParam o k := bool_decide (is_Some (DemoJson.get o k));
  GetParam_String o k := match DemoJson.get o k with Some (GenLeaf (inr s)) => Some s | _ => None end;
  FLAG_ABILITY_ON_COLLABORATE := 8192;
  AddFlags (w : Want (WantLib := DemoWant.demo)) n :=
    let '(f, e, l) := w in (Z.lor f n, e, l);
  SetParams (w : Want (WantLib := DemoWant.demo)) o :=
    let '(f, e, _) := w in
    (f, e, match o with GenNode _ l => want_values l | GenLeaf _ => [] end)
|}.
End DemoParams.
