(* ===== verification/ContinueEvent.v ===== *)
(** * Commands of a continuation

    services/dtbschedmgr/src/continue/dsched_continue_event.cpp: the commands two
    devices exchange during a continuation, and their JSON text.  Each class is a
    record, the base class a field of it; [Marshal] answers the result code or the
    text, [Unmarshal] the code or the object.  Every caller drops the object when
    the code is not [ERR_OK], so a refused text yields no object.  The sequence of
    [cJSON_Delete] calls has no observable effect and is left out. *)

From Stdlib Require Import ZArith Lia String.
From stdpp Require Import base list option.
From S2P Require Import Prelude ErrorCodes StdString Base64 Framework.

(** ** Results *)

(** An error code, or a value. *)
Definition res (A : Type) : Type := run (Z + A).
Definition ok {A} (a : A) : res A := Done (inr a).
Definition fail {A} (e : Z) : res A := Done (inl e).
Definition res_bind {A B} (m : res A) (k : A -> res B) : res B :=
  let* r := m in match r with inl e => Done (inl e) | inr a => k a end.

Notation "'let?' x ':=' m 'in' k" := (res_bind m (fun x => k))
  (at level 10, x pattern, m at level 100, k at level 200) : dms_scope.

(** An allocation or another step that answers null on failure. *)
Definition non_null {A} (o : option A) : res A :=
  match o with Some a => ok a | None => fail Dms.INVALID_PARAMETERS_ERR end.

(** [if (call != ERR_OK) return INVALID_PARAMETERS_ERR]. *)
Definition or_invalid {A} (m : res A) : res A :=
  let* r := m in match r with inl _ => fail Dms.INVALID_PARAMETERS_ERR | inr a => ok a end.

Definition lift {A} (m : run A) : res A := let* a := m in ok a.

(** ** Data *)

Record DSchedContinueCmdBase := mkCmdBase {
  version_ : Z;
  serviceType_ : Z;
  subServiceType_ : Z;
  command_ : Z;
  srcDeviceId_ : bytes;
  srcBundleName_ : bytes;
  srcDeveloperId_ : bytes;
  dstDeviceId_ : bytes;
  dstBundleName_ : bytes;
  dstDeveloperId_ : bytes;
  continueType_ : bytes;
  continueByType_ : Z;
  sourceMissionId_ : Z;
  dmsVersion_ : Z
}.

Definition CmdBase_default : DSchedContinueCmdBase :=
  mkCmdBase 0 0 0 0 [] [] [] [] [] [] [] 0 0 0.

(** Values of [DSchedContinueCommand]. *)
Definition DSCHED_CONTINUE_CMD_START : Z := 1.
Definition DSCHED_CONTINUE_CMD_DATA : Z := 2.
Definition DSCHED_CONTINUE_CMD_REPLY : Z := 3.
Definition DSCHED_CONTINUE_CMD_END : Z := 4.

Definition EXTRO_INFO_JSON_KEY_ACCESS_TOKEN : string := "accessTokenID".
Definition DMS_VERSION_ID : string := "dmsVersion".
Definition EXTRO_INFO_JSON_KEY_ACCOUNT_ID : string := "accountId".
Definition EXTRO_INFO_JSON_KEY_USERID_ID : string := "userId".

Record AccountInfo := mkAccountInfo {
  accountType : Z;
  groupIdList : list bytes;
  activeAccountId : bytes;
  userId : Z
}.

Definition DIFF_ACCOUNT_TYPE : Z := 1.
Definition AccountInfo_default : AccountInfo := mkAccountInfo DIFF_ACCOUNT_TYPE [] [] (-1).

Record DSchedContinueReplyCmd := mkReplyCmd {
  reply_base : DSchedContinueCmdBase;
  replyCmd_ : Z;
  reply_appVersion_ : Z;
  reply_result_ : Z;
  reason_ : bytes
}.

Record DSchedContinueEndCmd := mkEndCmd {
  end_base : DSchedContinueCmdBase;
  end_result_ : Z
}.

Section Commands.
Context {J : CJson} {N : NJson} {W : WantLib} {PL : ParcelLib}.

Record CallerInfo := mkCallerInfo {
  uid : Z;
  pid : Z;
  callerType : Z;
  sourceDeviceId : bytes;
  duid : Z;
  callerAppId : bytes;
  bundleNames : list bytes;
  caller_dmsVersion : Z;
  accessToken : Z;
  extraInfoJson : njson
}.

Definition CallerInfo_default : CallerInfo :=
  mkCallerInfo (-1) (-1) 0 [] (-1) [] [] (-1) 0 njson_null.

Record DSchedContinueStartCmd := mkStartCmd {
  start_base : DSchedContinueCmdBase;
  start_direction_ : Z;
  start_appVersion_ : Z;
  wantParams_ : WantParams
}.

Record DSchedContinueDataCmd := mkDataCmd {
  data_base : DSchedContinueCmdBase;
  want_ : Want;
  abilityInfo_ : AbilityInfo;
  requestCode_ : Z;
  callerInfo_ : CallerInfo;
  accountInfo_ : AccountInfo
}.

(** ** Reading members *)

Definition get_number (o : cJSON) (key : bytes) : res Z :=
  match cJSON_GetObjectItemCaseSensitive o key with
  | Some item => if cJSON_IsNumber item then ok (valueint item) else fail Dms.INVALID_PARAMETERS_ERR
  | None => fail Dms.INVALID_PARAMETERS_ERR
  end.

Definition get_bool (o : cJSON) (key : bytes) : res bool :=
  match cJSON_GetObjectItemCaseSensitive o key with
  | Some item =>
    if cJSON_IsBool item then ok (negb (valueint item =? 0)) else fail Dms.INVALID_PARAMETERS_ERR
  | None => fail Dms.INVALID_PARAMETERS_ERR
  end.

Definition string_of (item : cJSON) : option bytes :=
  if cJSON_IsString item then valuestring item else None.

Definition get_string (o : cJSON) (key : bytes) : res bytes :=
  match cJSON_GetObjectItemCaseSensitive o key with
  | Some item => non_null (string_of item)
  | None => fail Dms.INVALID_PARAMETERS_ERR
  end.

(** The keys that are not required read as the empty string. *)
Definition get_string_or_empty (o : cJSON) (key : bytes) : bytes :=
  match cJSON_GetObjectItemCaseSensitive o key with
  | Some item => match string_of item with Some s => s | None => [] end
  | None => []
  end.

(** [cJSON_ArrayForEach] over an array of strings; a null array has no items. *)
Fixpoint read_strings (items : list cJSON) : res (list bytes) :=
  match items with
  | [] => ok []
  | item :: items =>
    let? s := non_null (string_of item) in
    let? rest := read_strings items in
    ok (s :: rest)
  end.

Definition get_strings (o : cJSON) (key : bytes) : res (list bytes) :=
  match cJSON_GetObjectItemCaseSensitive o key with
  | Some a => read_strings (cJSON_ArrayItems a)
  | None => ok []
  end.

(** Appending the C strings of a list to an array. *)
Fixpoint add_strings (a : cJSON) (l : list bytes) : res cJSON :=
  match l with
  | [] => ok a
  | s :: l =>
    let? item := non_null (cJSON_CreateString (c_str s)) in
    add_strings (cJSON_AddItemToArray a item) l
  end.

Definition add_number (key : string) (n : Z) (o : cJSON) : cJSON :=
  cJSON_AddNumberToObject o (str key) n.
Definition add_string (key : string) (s : bytes) (o : cJSON) : cJSON :=
  cJSON_AddStringToObject o (str key) (c_str s).
Definition add_bool (key : string) (b : bool) (o : cJSON) : cJSON :=
  cJSON_AddBoolToObject o (str key) b.

(** [std::string(data)] of the printed text. *)
Definition print (o : cJSON) : res bytes :=
  let? data := non_null (cJSON_Print o) in ok (c_str data).

Definition parse (jsonStr : bytes) : res cJSON := non_null (cJSON_Parse (c_str jsonStr)).

End Commands.

(** ** The base class *)

Module CmdBase.
Section Codec.
Context {J : CJson} {N : NJson} {W : WantLib} {PL : ParcelLib}.

Definition Marshal (c : DSchedContinueCmdBase) : res bytes :=
  let? o := non_null cJSON_CreateObject in
  let o := add_number "Version" (version_ c) o in
  let o := add_number "ServiceType" (serviceType_ c) o in
  let o := add_number "SubServiceType" (subServiceType_ c) o in
  let o := add_number "Command" (command_ c) o in
  let o := add_string "SrcDeviceId" (srcDeviceId_ c) o in
  let o := add_string "SrcBundleName" (srcBundleName_ c) o in
  let o := add_string "SrcDeveloperId" (srcDeveloperId_ c) o in
  let o := add_string "DstDeviceId" (dstDeviceId_ c) o in
  let o := add_string "DstBundleName" (dstBundleName_ c) o in
  let o := add_string "DstDeveloperId" (dstDeveloperId_ c) o in
  let o := add_string "ContinueType" (continueType_ c) o in
  let o := add_number "ContinueByType" (continueByType_ c) o in
  let o := add_number "SourceMissionId" (sourceMissionId_ c) o in
  let o := add_number "DmsVersion" (dmsVersion_ c) o in
  print o.

(** [this] keeps its [command_]. *)
Definition Unmarshal (this : DSchedContinueCmdBase) (jsonStr : bytes)
    : res DSchedContinueCmdBase :=
  let? o := parse jsonStr in
  let? version := get_number o (str "Version") in
  let? serviceType := get_number o (str "ServiceType") in
  let? subServiceType := get_number o (str "SubServiceType") in
  let? continueByType := get_number o (str "ContinueByType") in
  let? sourceMissionId := get_number o (str "SourceMissionId") in
  let? dmsVersion := get_number o (str "DmsVersion") in
  let? srcDeviceId := get_string o (str "SrcDeviceId") in
  let? srcBundleName := get_string o (str "SrcBundleName") in
  let? dstDeviceId := get_string o (str "DstDeviceId") in
  let? dstBundleName := get_string o (str "DstBundleName") in
  let? continueType := get_string o (str "ContinueType") in
  let srcDeveloperId := get_string_or_empty o (str "SrcDeveloperId") in
  let dstDeveloperId := get_string_or_empty o (str "DstDeveloperId") in
  ok (mkCmdBase version serviceType subServiceType (command_ this) srcDeviceId srcBundleName
    srcDeveloperId dstDeviceId dstBundleName dstDeveloperId continueType continueByType
    sourceMissionId dmsVersion).
End Codec.
End CmdBase.

Section DerivedCommands.
Context {J : CJson} {N : NJson} {W : WantLib} {PL : ParcelLib}.

(** The member "BaseCmd" of a derived command, read back with the base class. *)
Definition get_base (o : cJSON) : res DSchedContinueCmdBase :=
  let? baseCmdStr := get_string o (str "BaseCmd") in
  or_invalid (CmdBase.Unmarshal CmdBase_default baseCmdStr).

(** A parcel from its base64 text, and the value at its front. *)
Definition get_parcel (s : bytes) : res bytes :=
  let* (ret, parcel) := Base64StrToParcel s [] in
  if negb (ret =? ERR_OK) then fail Dms.INVALID_PARAMETERS_ERR else ok parcel.

End DerivedCommands.

(** ** Start *)

Module StartCmd.
Section Codec.
Context {J : CJson} {N : NJson} {W : WantLib} {PL : ParcelLib}.

Definition Marshal (c : DSchedContinueStartCmd) : res bytes :=
  let? o := non_null cJSON_CreateObject in
  let? baseJsonStr := or_invalid (CmdBase.Marshal (start_base c)) in
  let o := add_string "BaseCmd" baseJsonStr o in
  let o := add_number "Direction" (start_direction_ c) o in
  let o := add_number "AppVersion" (start_appVersion_ c) o in
  let? parcel := non_null (Marshalling (wantParams_ c)) in
  let? wantParamsStr := lift (ParcelToBase64Str parcel) in
  let o := add_string "WantParams" wantParamsStr o in
  print o.

Definition Unmarshal (jsonStr : bytes) : res DSchedContinueStartCmd :=
  let? o := parse jsonStr in
  let? base := get_base o in
  let? direction := get_number o (str "Direction") in
  let? appVersion := get_number o (str "AppVersion") in
  let? wantParamsStr := get_string o (str "WantParams") in
  let? parcel := get_parcel wantParamsStr in
  let? wantParams := non_null (Unmarshalling parcel).1 in
  ok (mkStartCmd base direction appVersion wantParams).
End Codec.
End StartCmd.

(** ** Data *)

Module DataCmd.
Section Codec.
Context {J : CJson} {N : NJson} {W : WantLib} {PL : ParcelLib}.

Definition MarshalCallerInfo (callerInfo : CallerInfo) : res bytes :=
  let? o := non_null cJSON_CreateObject in
  let o := add_number "Uid" (uid callerInfo) o in
  let o := add_number "Pid" (pid callerInfo) o in
  let o := add_number "CallerType" (callerType callerInfo) o in
  let o := add_string "SourceDeviceId" (sourceDeviceId callerInfo) o in
  let o := add_number "Duid" (duid callerInfo) o in
  let o := add_string "CallerAppId" (callerAppId callerInfo) o in
  let size := to_int32 (Z.of_nat (length (bundleNames callerInfo))) in
  let? bundleNamesJson := non_null cJSON_CreateArray in
  let? bundleNamesJson := add_strings bundleNamesJson (take (Z.to_nat size) (bundleNames callerInfo)) in
  let o := cJSON_AddItemToObject o (str "BundleNames") bundleNamesJson in
  let o := add_string "ExtraInfo" (dump (extraInfoJson callerInfo)) o in
  print o.

Definition MarshalAccountInfo (accountInfo : AccountInfo) : res bytes :=
  let? o := non_null cJSON_CreateObject in
  let o := add_number "AccountType" (accountType accountInfo) o in
  let size := to_int32 (Z.of_nat (length (groupIdList accountInfo))) in
  let? groupIds := non_null cJSON_CreateArray in
  let? groupIds := add_strings groupIds (take (Z.to_nat size) (groupIdList accountInfo)) in
  let o := cJSON_AddItemToObject o (str "GroupIdList") groupIds in
  let o := add_string EXTRO_INFO_JSON_KEY_ACCOUNT_ID (activeAccountId accountInfo) o in
  let o := add_number EXTRO_INFO_JSON_KEY_USERID_ID (userId accountInfo) o in
  print o.

(** [false] is the failure, which the caller turns into [INVALID_PARAMETERS_ERR]. *)
Definition MarshalInner (c : DSchedContinueDataCmd) (o : cJSON) : res cJSON :=
  let? dtbWantParcel := non_null (Marshalling (FromWant (want_ c))) in
  let? dtbWantStr := lift (ParcelToBase64Str dtbWantParcel) in
  let o := add_string "Want" dtbWantStr o in
  let? abilityParcel := non_null (Marshalling (abilityInfo_ c)) in
  let? abilityInfoStr := lift (ParcelToBase64Str abilityParcel) in
  let o := add_string "AbilityInfo" abilityInfoStr o in
  let o := add_number "RequestCode" (requestCode_ c) o in
  let? callerInfoStr := or_invalid (MarshalCallerInfo (callerInfo_ c)) in
  let o := add_string "CallerInfo" callerInfoStr o in
  let? accountInfoStr := or_invalid (MarshalAccountInfo (accountInfo_ c)) in
  let o := add_string "AccountInfo" accountInfoStr o in
  ok o.

Definition Marshal (c : DSchedContinueDataCmd) : res bytes :=
  let? o := non_null cJSON_CreateObject in
  let? baseJsonStr := or_invalid (CmdBase.Marshal (data_base c)) in
  let o := add_string "BaseCmd" baseJsonStr o in
  let? o := or_invalid (MarshalInner c o) in
  print o.

Definition UnmarshalWantParcel (o : cJSON) : res Want :=
  let? wantStr := get_string o (str "Want") in
  let? wantParcel := get_parcel wantStr in
  match Unmarshalling wantParcel with
  | (None, rest) => non_null (Unmarshalling (A := Want) rest).1
  | (Some dtbWant, _) =>
    let amsWant := ToWant dtbWant in
    ok (copy_params (copy_operation Want_empty amsWant) amsWant)
  end.

Definition UnmarshalParcel (jsonStr : bytes) : res (Want * AbilityInfo) :=
  let? o := parse jsonStr in
  let? want := or_invalid (UnmarshalWantParcel o) in
  let? abilityInfoStr := get_string o (str "AbilityInfo") in
  let? abilityParcel := get_parcel abilityInfoStr in
  let? abilityInfo := non_null (Unmarshalling abilityParcel).1 in
  ok (want, abilityInfo).

(** The bundle names, the access token if there is one, and the extra information. *)
Definition UnmarshalCallerInfoExtra (this : CallerInfo) (jsonStr : bytes) : res CallerInfo :=
  let? o := parse jsonStr in
  let? names := get_strings o (str "BundleNames") in
  let? extraInfo := get_string o (str "ExtraInfo") in
  let? extraInfoValue := parse extraInfo in
  let token :=
    match cJSON_GetObjectItemCaseSensitive extraInfoValue (str EXTRO_INFO_JSON_KEY_ACCESS_TOKEN) with
    | Some item => if cJSON_IsNumber item then u32 (valueint item) else accessToken this
    | None => accessToken this
    end in
  let extra :=
    match cJSON_GetObjectItemCaseSensitive extraInfoValue (str DMS_VERSION_ID) with
    | Some item =>
      if cJSON_IsNumber item then njson_set (extraInfoJson this) (str DMS_VERSION_ID) (valueint item)
      else extraInfoJson this
    | None => extraInfoJson this
    end in
  ok (mkCallerInfo (uid this) (pid this) (callerType this) (sourceDeviceId this) (duid this)
    (callerAppId this) names (caller_dmsVersion this) token extra).

Definition UnmarshalCallerInfo (this : CallerInfo) (jsonStr : bytes) : res CallerInfo :=
  let? o := parse jsonStr in
  let? sourceDeviceId := get_string o (str "SourceDeviceId") in
  let? callerAppId := get_string o (str "CallerAppId") in
  let? uid := get_number o (str "Uid") in
  let? pid := get_number o (str "Pid") in
  let? callerType := get_number o (str "CallerType") in
  let? duid := get_number o (str "Duid") in
  or_invalid (UnmarshalCallerInfoExtra
    (mkCallerInfo uid pid callerType sourceDeviceId duid callerAppId (bundleNames this)
      (caller_dmsVersion this) (accessToken this) (extraInfoJson this)) jsonStr).

Definition UnmarshalAccountInfo (this : AccountInfo) (jsonStr : bytes) : res AccountInfo :=
  let? o := parse jsonStr in
  let? accountType := get_number o (str "AccountType") in
  let? groupIds := get_strings o (str "groupIdList") in
  let? accountId :=
    match cJSON_GetObjectItemCaseSensitive o (str EXTRO_INFO_JSON_KEY_ACCOUNT_ID) with
    | Some item =>
      if cJSON_IsString item
      then match valuestring item with Some s => ok s | None => Undefined end
      else ok (activeAccountId this)
    | None => ok (activeAccountId this)
    end in
  let userId :=
    match cJSON_GetObjectItemCaseSensitive o (str EXTRO_INFO_JSON_KEY_USERID_ID) with
    | Some item => if cJSON_IsNumber item then valueint item else userId this
    | None => userId this
    end in
  ok (mkAccountInfo accountType groupIds accountId userId).

Definition Unmarshal (jsonStr : bytes) : res DSchedContinueDataCmd :=
  let? o := parse jsonStr in
  let? base := get_base o in
  let? (want, abilityInfo) := or_invalid (UnmarshalParcel jsonStr) in
  let? requestCode := get_number o (str "RequestCode") in
  let? callerInfoStr := get_string o (str "CallerInfo") in
  let? callerInfo := or_invalid (UnmarshalCallerInfo CallerInfo_default callerInfoStr) in
  let? accountInfoStr := get_string o (str "AccountInfo") in
  let? accountInfo := or_invalid (UnmarshalAccountInfo AccountInfo_default accountInfoStr) in
  ok (mkDataCmd base want abilityInfo requestCode callerInfo accountInfo).
End Codec.
End DataCmd.

(** ** Reply *)

Module ReplyCmd.
Section Codec.
Context {J : CJson} {N : NJson} {W : WantLib} {PL : ParcelLib}.

Definition Marshal (c : DSchedContinueReplyCmd) : res bytes :=
  let? o := non_null cJSON_CreateObject in
  let? baseJsonStr := or_invalid (CmdBase.Marshal (reply_base c)) in
  let o := add_string "BaseCmd" baseJsonStr o in
  let o := add_number "ReplyCmd" (replyCmd_ c) o in
  let o := add_number "AppVersion" (reply_appVersion_ c) o in
  let o := add_number "Result" (reply_result_ c) o in
  let o := add_string "Reason" (reason_ c) o in
  print o.

Definition Unmarshal (jsonStr : bytes) : res DSchedContinueReplyCmd :=
  let? o := parse jsonStr in
  let? base := get_base o in
  let? replyCmd := get_number o (str "ReplyCmd") in
  let? appVersion := get_number o (str "AppVersion") in
  let? result := get_number o (str "Result") in
  let? reason := get_string o (str "Reason") in
  ok (mkReplyCmd base replyCmd appVersion result reason).
End Codec.
End ReplyCmd.

(** ** End *)

Module EndCmd.
Section Codec.
Context {J : CJson} {N : NJson} {W : WantLib} {PL : ParcelLib}.

Definition Marshal (c : DSchedContinueEndCmd) : res bytes :=
  let? o := non_null cJSON_CreateObject in
  let? baseJsonStr := or_invalid (CmdBase.Marshal (end_base c)) in
  let o := add_string "BaseCmd" baseJsonStr o in
  let o := add_number "Result" (end_result_ c) o in
  print o.

Definition Unmarshal (jsonStr : bytes) : res DSchedContinueEndCmd :=
  let? o := parse jsonStr in
  let? base := get_base o in
  let? result := get_number o (str "Result") in
  ok (mkEndCmd base result).
End Codec.
End EndCmd.

(** ** Members of an object under construction *)

Lemma str_inj a b : str a = str b -> a = b.
Proof.
  unfold str. intros H. rewrite <- (string_of_list_ascii_of_string a),
    <- (string_of_list_ascii_of_string b). f_equal.
  revert H. generalize (list_ascii_of_string a), (list_ascii_of_string b).
  intros l. induction l as [|x l IH]; intros [|y m]; cbn; try done.
  intros [= H1%Nat2Z.inj H2%IH]. f_equal; [|done].
  rewrite <- (Ascii.ascii_nat_embedding x), <- (Ascii.ascii_nat_embedding y). by f_equal.
Qed.

Lemma str_neq a b : String.eqb a b = false -> str a <> str b.
Proof. intros H%String.eqb_neq E. by apply str_inj in E. Qed.

Section Members.
Context {J : CJson} {Jok : CJsonOk J}.
Implicit Types (o : cJSON) (k : string) (P : cJSON -> Prop).

Definition absent o (k : bytes) : Prop := cJSON_GetObjectItemCaseSensitive o k = None.

Lemma absent_number o k n k' :
  String.eqb k k' = false -> absent o (str k') -> absent (add_number k n o) (str k').
Proof. intros H%str_neq Ho. unfold absent, add_number. by rewrite add_number_other. Qed.

Lemma absent_string o k s k' :
  String.eqb k k' = false -> absent o (str k') -> absent (add_string k s o) (str k').
Proof. intros H%str_neq Ho. unfold absent, add_string. by rewrite add_string_other. Qed.

Lemma absent_bool o k b k' :
  String.eqb k k' = false -> absent o (str k') -> absent (add_bool k b o) (str k').
Proof. intros H%str_neq Ho. unfold absent, add_bool. by rewrite add_bool_other. Qed.

Lemma absent_item o k i k' :
  String.eqb k k' = false -> absent o (str k') ->
  absent (cJSON_AddItemToObject o (str k) i) (str k').
Proof. intros H%str_neq Ho. unfold absent. by rewrite add_item_other. Qed.

Lemma number_here o k n :
  is_int32 n -> absent o (str k) -> get_number (add_number k n o) (str k) = ok n.
Proof.
  intros Hn Ho. unfold get_number, add_number.
  by destruct (add_number_new o (str k) n Hn Ho) as (i & -> & -> & ->).
Qed.

Lemma number_skip_number o k n k' :
  String.eqb k k' = false -> get_number (add_number k n o) (str k') = get_number o (str k').
Proof. intros H%str_neq. unfold get_number, add_number. by rewrite add_number_other. Qed.

Lemma number_skip_string o k s k' :
  String.eqb k k' = false -> get_number (add_string k s o) (str k') = get_number o (str k').
Proof. intros H%str_neq. unfold get_number, add_string. by rewrite add_string_other. Qed.

Lemma number_skip_item o k i k' :
  String.eqb k k' = false ->
  get_number (cJSON_AddItemToObject o (str k) i) (str k') = get_number o (str k').
Proof. intros H%str_neq. unfold get_number. by rewrite add_item_other. Qed.

Lemma number_skip_bool o k b k' :
  String.eqb k k' = false -> get_number (add_bool k b o) (str k') = get_number o (str k').
Proof. intros H%str_neq. unfold get_number, add_bool. by rewrite add_bool_other. Qed.

Lemma bool_here o k b : absent o (str k) -> get_bool (add_bool k b o) (str k) = ok b.
Proof.
  intros Ho. unfold get_bool, add_bool.
  destruct (add_bool_new o (str k) b Ho) as (i & -> & -> & ->). by destruct b.
Qed.

Lemma bool_skip_bool o k b k' :
  String.eqb k k' = false -> get_bool (add_bool k b o) (str k') = get_bool o (str k').
Proof. intros H%str_neq. unfold get_bool, add_bool. by rewrite add_bool_other. Qed.

Lemma string_here o k s :
  no_nul s -> absent o (str k) -> get_string (add_string k s o) (str k) = ok s.
Proof.
  intros Hs Ho. unfold get_string, string_of, add_string. rewrite c_str_no_nul by done.
  by destruct (add_string_new o (str k) s Hs Ho) as (i & -> & -> & ->).
Qed.

Lemma string_skip_number o k n k' :
  String.eqb k k' = false -> get_string (add_number k n o) (str k') = get_string o (str k').
Proof. intros H%str_neq. unfold get_string, add_number. by rewrite add_number_other. Qed.

Lemma string_skip_string o k s k' :
  String.eqb k k' = false -> get_string (add_string k s o) (str k') = get_string o (str k').
Proof. intros H%str_neq. unfold get_string, add_string. by rewrite add_string_other. Qed.

Lemma string_skip_bool o k b k' :
  String.eqb k k' = false -> get_string (add_bool k b o) (str k') = get_string o (str k').
Proof. intros H%str_neq. unfold get_string, add_bool. by rewrite add_bool_other. Qed.

Lemma string_skip_item o k i k' :
  String.eqb k k' = false ->
  get_string (cJSON_AddItemToObject o (str k) i) (str k') = get_string o (str k').
Proof. intros H%str_neq. unfold get_string. by rewrite add_item_other. Qed.

Lemma get_string_or_empty_ok o (k : bytes) s : get_string o k = ok s -> get_string_or_empty o k = s.
Proof.
  unfold get_string, get_string_or_empty.
  destruct (cJSON_GetObjectItemCaseSensitive o k) as [i|]; [|done].
  unfold non_null. destruct (string_of i); [|done]. by intros [= ->].
Qed.

Lemma print_ok o : exists t, print o = ok t /\ parse t = ok o /\ no_nul t.
Proof.
  destruct (print_parse o) as (t & H1 & H2 & H3). exists t. unfold print, parse.
  by rewrite H1, c_str_no_nul, H2; cbn; rewrite ?c_str_no_nul.
Qed.
End Members.

(** Evaluate the reads of an object under construction whose other members were
    added under other names. *)
Ltac json_absent :=
  repeat first
    [ apply absent_number; [reflexivity|]
    | apply absent_string; [reflexivity|]
    | apply absent_bool; [reflexivity|]
    | apply absent_item; [reflexivity|] ]; trivial.

Ltac json_number :=
  repeat first
    [ rewrite number_skip_string by reflexivity
    | rewrite number_skip_number by reflexivity
    | rewrite number_skip_bool by reflexivity
    | rewrite number_skip_item by reflexivity ];
  apply number_here; [done|json_absent].

Ltac json_string :=
  repeat first
    [ rewrite string_skip_string by reflexivity
    | rewrite string_skip_number by reflexivity
    | rewrite string_skip_bool by reflexivity
    | rewrite string_skip_item by reflexivity ];
  apply string_here; [done|json_absent].

Ltac json_bool := repeat rewrite bool_skip_bool by reflexivity; apply bool_here; json_absent.

(** Replace the first read by its value. *)
Ltac json_read :=
  match goal with
  | |- context [get_number ?o ?k] =>
    let H := fresh in
    eassert (get_number o k = ok _) as H by json_number; rewrite H; clear H
  | |- context [get_string ?o ?k] =>
    let H := fresh in
    eassert (get_string o k = ok _) as H by json_string; rewrite H; clear H
  | |- context [get_bool ?o ?k] =>
    let H := fresh in
    eassert (get_bool o k = ok _) as H by json_bool; rewrite H; clear H
  | |- context [get_string_or_empty ?o ?k] =>
    let H := fresh in
    eassert (get_string_or_empty o k = _) as H
      by (apply get_string_or_empty_ok; json_string); rewrite H; clear H
  end; cbn [res_bind run_bind ok].

(** The printed object is read back by the reader of the same class. *)
Ltac print_and_read o Ho Habs :=
  destruct create_object as (o & Ho & Habs);
  pose proof (fun k => Habs (str k) : absent o (str k));
  rewrite Ho; cbn [non_null res_bind run_bind ok].

Ltac printed t :=
  let Hp := fresh "Hp" in let Hq := fresh "Hq" in let Ht := fresh "Ht" in
  edestruct print_ok as (t & Hp & Hq & Ht);
  exists t; split_and!; [exact Hp|done|..]; [..|rewrite Hq; cbn [res_bind run_bind ok]];
  [try (eexists _, _, _; split_and!; [exact Hq|json_string|eassumption|eassumption])..|].

(** ** Round trips *)

Definition base_wf (c : DSchedContinueCmdBase) : Prop :=
  (is_int32 (version_ c) /\ is_int32 (serviceType_ c) /\ is_int32 (subServiceType_ c) /\
   is_int32 (continueByType_ c) /\ is_int32 (sourceMissionId_ c) /\ is_int32 (dmsVersion_ c) /\
   is_int32 (command_ c)) /\
  (no_nul (srcDeviceId_ c) /\ no_nul (srcBundleName_ c) /\ no_nul (srcDeveloperId_ c) /\
   no_nul (dstDeviceId_ c) /\ no_nul (dstBundleName_ c) /\ no_nul (dstDeveloperId_ c) /\
   no_nul (continueType_ c)).

Definition set_command (c : DSchedContinueCmdBase) (command : Z) : DSchedContinueCmdBase :=
  mkCmdBase (version_ c) (serviceType_ c) (subServiceType_ c) command (srcDeviceId_ c)
    (srcBundleName_ c) (srcDeveloperId_ c) (dstDeviceId_ c) (dstBundleName_ c)
    (dstDeveloperId_ c) (continueType_ c) (continueByType_ c) (sourceMissionId_ c) (dmsVersion_ c).

Section RoundTrips.
Context {J : CJson} {Jok : CJsonOk J}.

Lemma base_roundtrip this c :
  base_wf c -> exists t,
    CmdBase.Marshal c = ok t /\ no_nul t /\
    CmdBase.Unmarshal this t = ok (set_command c (command_ this)) /\
    exists b, parse t = ok b /\ get_number b (str "Command") = ok (command_ c).
Proof.
  intros ((? & ? & ? & ? & ? & ? & ?) & (? & ? & ? & ? & ? & ? & ?)).
  destruct create_object as (o & Ho & Hnone).
  pose proof (fun k => Hnone (str k) : absent o (str k)) as Habs.
  unfold CmdBase.Marshal, CmdBase.Unmarshal. rewrite Ho. cbn [non_null res_bind run_bind ok].
  edestruct print_ok as (t & Hp & Hq & Ht). exists t. split_and!; [exact Hp|done| |].
  - rewrite Hq. cbn [res_bind run_bind ok]. repeat json_read. done.
  - eexists. split; [exact Hq|]. json_number.
Qed.

(** The command number in the base part of a text, which the manager looks at. *)
Definition announces (t : bytes) (command : Z) : Prop :=
  exists o tb b, parse t = ok o /\ get_string o (str "BaseCmd") = ok tb /\ parse tb = ok b /\
    get_number b (str "Command") = ok command.

Lemma get_base_ok o c t :
  get_string o (str "BaseCmd") = ok t ->
  CmdBase.Unmarshal CmdBase_default t = ok (set_command c (command_ CmdBase_default)) ->
  get_base o = ok (set_command c 0).
Proof. intros H1 H2. unfold get_base. by rewrite H1; cbn [res_bind run_bind ok]; rewrite H2. Qed.

Ltac base_and_read Hwf tb Hb :=
  let Hn := fresh "Hn" in let Hu := fresh "Hu" in
  destruct (base_roundtrip CmdBase_default _ Hwf) as (tb & Hb & Hn & Hu & ? & ? & ?);
  rewrite Hb; cbn [or_invalid res_bind run_bind ok].

Ltac read_base :=
  erewrite get_base_ok; [| |eassumption]; [cbn [res_bind run_bind ok]|json_string].

Lemma end_roundtrip c :
  base_wf (end_base c) -> is_int32 (end_result_ c) -> exists t,
    EndCmd.Marshal c = ok t /\ no_nul t /\ announces t (command_ (end_base c)) /\
    EndCmd.Unmarshal t = ok (mkEndCmd (set_command (end_base c) 0) (end_result_ c)).
Proof.
  intros Hwf Hr. unfold EndCmd.Marshal, EndCmd.Unmarshal.
  print_and_read o Ho Habs. base_and_read Hwf tb Hb. printed t. read_base. by json_read.
Qed.

Lemma reply_roundtrip c :
  base_wf (reply_base c) -> is_int32 (replyCmd_ c) -> is_int32 (reply_appVersion_ c) ->
  is_int32 (reply_result_ c) -> no_nul (reason_ c) -> exists t,
    ReplyCmd.Marshal c = ok t /\ no_nul t /\ announces t (command_ (reply_base c)) /\
    ReplyCmd.Unmarshal t = ok (mkReplyCmd (set_command (reply_base c) 0) (replyCmd_ c)
      (reply_appVersion_ c) (reply_result_ c) (reason_ c)).
Proof.
  intros Hwf H1 H2 H3 H4. unfold ReplyCmd.Marshal, ReplyCmd.Unmarshal.
  print_and_read o Ho Habs. base_and_read Hwf tb Hb. printed t. read_base. by repeat json_read.
Qed.

Section WithParcels.
Context {N : NJson} {Nok : NJsonOk J N} {W : WantLib} {PL : ParcelLib}.
Context {max : Z} {PLok : ParcelLibOk PL max} (Hmax : max < 2 ^ 30).

Lemma parcel_ok {A} `{Parcelable A} (a : A) :
  parcels_back max a -> exists p t,
    Marshalling a = Some p /\ ParcelToBase64Str p = Done t /\ no_nul t /\
    get_parcel t = ok p /\ (Unmarshalling p).1 = Some a.
Proof.
  intros (p & H1 & H2 & H3 & H4). exists p, (base64_text p). split_and!; try done.
  - apply ParcelToBase64Str_ok. lia.
  - by apply base64_text_no_nul.
  - unfold get_parcel. rewrite (Base64StrToParcel_text (max := max)) by (done || rewrite ?zlen_nil; lia). done.
Qed.

Lemma start_roundtrip c :
  base_wf (start_base c) -> is_int32 (start_direction_ c) -> is_int32 (start_appVersion_ c) ->
  parcels_back max (wantParams_ c) -> exists t,
    StartCmd.Marshal c = ok t /\ no_nul t /\ announces t (command_ (start_base c)) /\
    StartCmd.Unmarshal t = ok (mkStartCmd (set_command (start_base c) 0) (start_direction_ c)
      (start_appVersion_ c) (wantParams_ c)).
Proof.
  intros Hwf H1 H2 (p & tp & M1 & M2 & M3 & M4 & M5)%parcel_ok.
  unfold StartCmd.Marshal, StartCmd.Unmarshal.
  print_and_read o Ho Habs. base_and_read Hwf tb Hb. rewrite M1. cbn [non_null res_bind run_bind ok].
  rewrite M2. cbn [lift res_bind run_bind ok]. printed t. read_base. repeat json_read.
  rewrite M4. cbn [res_bind run_bind ok]. by rewrite M5.
Qed.

Lemma add_strings_ok l : forall a,
  Forall no_nul l -> exists a' items,
    add_strings a l = ok a' /\ cJSON_ArrayItems a' = cJSON_ArrayItems a ++ items /\
    read_strings items = ok l.
Proof.
  induction l as [|s l IH]; intros a Hl; cbn [add_strings].
  - exists a, []. by rewrite app_nil_r.
  - apply Forall_cons_1 in Hl as (Hs & Hl). rewrite c_str_no_nul by done.
    destruct (create_string s Hs) as (i & Hi & Hi1 & Hi2). rewrite Hi. cbn [non_null].
    destruct (IH (cJSON_AddItemToArray a i) Hl) as (a' & items & H1 & H2 & H3).
    exists a', (i :: items). split_and!; [exact H1| |].
    + by rewrite H2, array_items_add, <- app_assoc.
    + cbn [read_strings]. unfold string_of. rewrite Hi1, Hi2.
      cbn [non_null res_bind run_bind ok]. by rewrite H3.
Qed.

(** An array of C strings short enough for its [int32_t] count. *)
Lemma take_all_strings (l : list bytes) :
  Z.of_nat (length l) < 2 ^ 31 -> take (Z.to_nat (to_int32 (Z.of_nat (length l)))) l = l.
Proof.
  intros. unfold to_int32. rewrite Z.mod_small by lia.
  rewrite Z.add_simpl_r, Nat2Z.id. by apply take_ge.
Qed.

Lemma strings_here o (k : string) a :
  absent o (str k) ->
  get_strings (cJSON_AddItemToObject o (str k) a) (str k) = read_strings (cJSON_ArrayItems a).
Proof. intros. unfold get_strings. by rewrite add_item_new. Qed.

Lemma strings_skip_string o (k k' : string) s :
  String.eqb k k' = false -> get_strings (add_string k s o) (str k') = get_strings o (str k').
Proof. intros H%str_neq. unfold get_strings, add_string. by rewrite add_string_other. Qed.

Definition caller_wf (c : CallerInfo) (version : Z) : Prop :=
  (is_int32 (uid c) /\ is_int32 (pid c) /\ is_int32 (callerType c) /\ is_int32 (duid c)) /\
  (no_nul (sourceDeviceId c) /\ no_nul (callerAppId c)) /\
  Forall no_nul (bundleNames c) /\ Z.of_nat (length (bundleNames c)) < 2 ^ 31 /\
  is_int32 version /\ extraInfoJson c = njson_set njson_null (str DMS_VERSION_ID) version.

(** The members a caller keeps: its token does not travel. *)
Definition caller_received (c : CallerInfo) : CallerInfo :=
  mkCallerInfo (uid c) (pid c) (callerType c) (sourceDeviceId c) (duid c) (callerAppId c)
    (bundleNames c) (-1) 0 (extraInfoJson c).

Lemma caller_roundtrip c version :
  caller_wf c version -> exists t,
    DataCmd.MarshalCallerInfo c = ok t /\ no_nul t /\
    DataCmd.UnmarshalCallerInfo CallerInfo_default t = ok (caller_received c).
Proof.
  intros ((? & ? & ? & ?) & (? & ?) & Hnames & Hlen & Hv & Hextra).
  destruct (dump_set (N := N) (str DMS_VERSION_ID) version Hv) as (e & He & (i & Hi & Hi1 & Hi2) & Hother).
  unfold DataCmd.MarshalCallerInfo, DataCmd.UnmarshalCallerInfo, DataCmd.UnmarshalCallerInfoExtra.
  rewrite Hextra, take_all_strings by done. print_and_read o Ho Habs.
  destruct create_array as (a & Ha & Ha'). rewrite Ha. cbn [non_null res_bind run_bind ok].
  destruct (add_strings_ok (bundleNames c) a Hnames) as (a' & items & A1 & A2 & A3).
  rewrite A1. cbn [res_bind run_bind ok].
  assert (forall o', add_string "ExtraInfo" (dump (njson_set njson_null (str DMS_VERSION_ID) version)) o'
    = add_string "ExtraInfo" (c_str (dump (njson_set njson_null (str DMS_VERSION_ID) version))) o')
    as -> by (intros o'; unfold add_string; by rewrite (c_str_no_nul (c_str _)) by apply c_str_is_no_nul).
  set (d := c_str (dump _)) in *.
  assert (no_nul d) as Hdn by apply c_str_is_no_nul.
  printed t. repeat json_read.
  rewrite strings_skip_string, strings_here by (done || json_absent).
  rewrite A2, Ha'. cbn [app]. rewrite A3. cbn [res_bind run_bind ok].
  unfold parse at 1. rewrite c_str_no_nul by done. rewrite He.
  cbn [non_null res_bind run_bind ok]. rewrite Hi, Hi1, Hi2, Hother by (apply str_neq; reflexivity).
  unfold caller_received. by rewrite Hextra.
Qed.

Definition account_wf (a : AccountInfo) : Prop :=
  is_int32 (accountType a) /\ is_int32 (userId a) /\ no_nul (activeAccountId a) /\
  Forall no_nul (groupIdList a) /\ Z.of_nat (length (groupIdList a)) < 2 ^ 31.

(** The group ids are written as "GroupIdList" and looked up as "groupIdList". *)
Definition account_received (a : AccountInfo) : AccountInfo :=
  mkAccountInfo (accountType a) [] (activeAccountId a) (userId a).

Lemma get_number_inv o k n :
  get_number o k = ok n -> exists i,
    cJSON_GetObjectItemCaseSensitive o k = Some i /\ cJSON_IsNumber i = true /\ valueint i = n.
Proof.
  unfold get_number. destruct (cJSON_GetObjectItemCaseSensitive o k) as [i|]; [|done].
  destruct (cJSON_IsNumber i) eqn:E; [|done]. intros [= <-]. by exists i.
Qed.

Lemma get_string_inv o k s :
  get_string o k = ok s -> exists i,
    cJSON_GetObjectItemCaseSensitive o k = Some i /\ cJSON_IsString i = true /\
    valuestring i = Some s.
Proof.
  unfold get_string, string_of. destruct (cJSON_GetObjectItemCaseSensitive o k) as [i|]; [|done].
  destruct (cJSON_IsString i) eqn:E; [|done].
  destruct (valuestring i) eqn:E2; [|done]. intros [= <-]. by exists i.
Qed.

Lemma account_roundtrip c :
  account_wf c -> exists t,
    DataCmd.MarshalAccountInfo c = ok t /\ no_nul t /\
    DataCmd.UnmarshalAccountInfo AccountInfo_default t = ok (account_received c).
Proof.
  intros (? & ? & ? & Hids & Hlen).
  unfold DataCmd.MarshalAccountInfo, DataCmd.UnmarshalAccountInfo.
  rewrite take_all_strings by done. print_and_read o Ho Habs.
  destruct create_array as (a & Ha & Ha'). rewrite Ha. cbn [non_null res_bind run_bind ok].
  destruct (add_strings_ok (groupIdList c) a Hids) as (a' & items & A1 & A2 & A3).
  rewrite A1. cbn [res_bind run_bind ok]. printed t. json_read.
  unfold get_strings at 1.
  match goal with |- context [cJSON_GetObjectItemCaseSensitive ?o (str "groupIdList")] =>
    assert (absent o (str "groupIdList")) as Hnone by json_absent; rewrite Hnone;
    assert (get_string o (str EXTRO_INFO_JSON_KEY_ACCOUNT_ID) = ok (activeAccountId c)) as Hs
      by json_string;
    assert (get_number o (str EXTRO_INFO_JSON_KEY_USERID_ID) = ok (userId c)) as Hu
      by json_number
  end.
  cbn [res_bind run_bind ok].
  apply get_string_inv in Hs as (i & -> & -> & ->). apply get_number_inv in Hu as (j & -> & -> & ->).
  done.
Qed.

(** What [UnmarshalWantParcel] rebuilds from a sent want. *)
Definition want_received (w : Want) : Want :=
  let amsWant := ToWant (FromWant w) in copy_params (copy_operation Want_empty amsWant) amsWant.

Definition data_received (c : DSchedContinueDataCmd) : DSchedContinueDataCmd :=
  mkDataCmd (set_command (data_base c) 0) (want_received (want_ c)) (abilityInfo_ c)
    (requestCode_ c) (caller_received (callerInfo_ c)) (account_received (accountInfo_ c)).

Definition data_wf (c : DSchedContinueDataCmd) (version : Z) : Prop :=
  base_wf (data_base c) /\ is_int32 (requestCode_ c) /\
  parcels_back max (FromWant (want_ c)) /\ parcels_back max (abilityInfo_ c) /\
  caller_wf (callerInfo_ c) version /\ account_wf (accountInfo_ c).

Lemma want_parcel_read o w p t :
  get_string o (str "Want") = ok t -> get_parcel t = ok p ->
  (Unmarshalling p).1 = Some (FromWant w) ->
  or_invalid (DataCmd.UnmarshalWantParcel o) = ok (want_received w).
Proof.
  intros H1 H2 H3. unfold DataCmd.UnmarshalWantParcel. rewrite H1. cbn [res_bind run_bind ok].
  rewrite H2. cbn [res_bind run_bind ok].
  destruct (Unmarshalling p) as [d rest]. cbn [fst] in H3. by subst d.
Qed.

Lemma data_roundtrip c version :
  data_wf c version -> exists t,
    DataCmd.Marshal c = ok t /\ no_nul t /\ announces t (command_ (data_base c)) /\
    DataCmd.Unmarshal t = ok (data_received c).
Proof.
  intros (Hwf & Hr & Hw & Ha & Hc & Hacc).
  apply parcel_ok in Hw as (pw & tw & W1 & W2 & W3 & W4 & W5).
  apply parcel_ok in Ha as (pa & ta & B1 & B2 & B3 & B4 & B5).
  apply caller_roundtrip in Hc as (tc & C1 & C2 & C3).
  apply account_roundtrip in Hacc as (tacc & D1 & D2 & D3).
  unfold DataCmd.Marshal, DataCmd.MarshalInner, DataCmd.Unmarshal, DataCmd.UnmarshalParcel.
  print_and_read o Ho Habs. base_and_read Hwf tb Hb.
  rewrite W1. cbn [non_null res_bind run_bind ok]. rewrite W2. cbn [lift res_bind run_bind ok].
  rewrite B1. cbn [non_null res_bind run_bind ok]. rewrite B2. cbn [lift res_bind run_bind ok].
  rewrite C1. cbn [or_invalid res_bind run_bind ok]. rewrite D1. cbn [or_invalid res_bind run_bind ok].
  printed t. read_base.
  erewrite (want_parcel_read _ (want_ c)); [|json_string|exact W4|exact W5].
  cbn [res_bind run_bind ok]. repeat json_read.
  rewrite B4. cbn [res_bind run_bind ok]. rewrite B5. cbn [non_null or_invalid res_bind run_bind ok].
  rewrite C3. cbn [or_invalid res_bind run_bind ok]. by rewrite D3.
Qed.
End WithParcels.
End RoundTrips.

(** ** Properties *)

(** Well-formedness of a concrete command, up to its parcels. *)
Ltac wf_compute :=
  repeat match goal with
  | |- _ /\ _ => split
  | |- is_int32 _ => split; by_compute
  | |- no_nul _ => unfold no_nul; vm_compute; repeat constructor; discriminate
  | |- Forall no_nul _ =>
    vm_compute; repeat constructor; discriminate
  | |- _ < _ => by_compute
  | |- _ = _ => reflexivity
  end.

(** A data command survives the trip through its JSON text, with the parcels in base64
    and every string, except for what the code drops: the command number, the group ids
    (written as "GroupIdList", looked up as "groupIdList"), and the caller's access token
    and version. *)
Theorem DataCmd_roundtrip {J : CJson} {Jok : CJsonOk J} {N : NJson} {Nok : NJsonOk J N}
    {W : WantLib} {PL : ParcelLib} {max : Z} {PLok : ParcelLibOk PL max}
    (Hmax : max < 2 ^ 30) c version :
  data_wf (max := max) c version -> exists text,
    DataCmd.Marshal c = ok text /\ no_nul text /\
    DataCmd.Unmarshal text = ok
      (mkDataCmd (set_command (data_base c) 0) (want_received (want_ c)) (abilityInfo_ c)
        (requestCode_ c)
        (mkCallerInfo (uid (callerInfo_ c)) (pid (callerInfo_ c)) (callerType (callerInfo_ c))
          (sourceDeviceId (callerInfo_ c)) (duid (callerInfo_ c)) (callerAppId (callerInfo_ c))
          (bundleNames (callerInfo_ c)) (-1) 0 (extraInfoJson (callerInfo_ c)))
        (mkAccountInfo (accountType (accountInfo_ c)) [] (activeAccountId (accountInfo_ c))
          (userId (accountInfo_ c)))).
Proof.
  intros H. destruct (data_roundtrip Hmax c version H) as (t & H1 & H2 & _ & H3). by exists t.
Qed.

Definition demo_base : DSchedContinueCmdBase :=
  mkCmdBase 1 0 0 2 (str "src") (str "com.demo") [] (str "dst") (str "com.demo") [] (str "t") 0 7 6.

Definition demo_data : DSchedContinueDataCmd (N := DemoJson.extra) (W := DemoWant.demo) :=
  mkDataCmd (N := DemoJson.extra) (W := DemoWant.demo) demo_base
    (0, (str "d", str "b", str "a", []), []) (str "i") (-1)
    (mkCallerInfo (N := DemoJson.extra) 20010 (-1) 1 (str "src") (-1) (str "app") [str "com.demo"] (-1) 5
      (njson_set (NJson := DemoJson.extra) njson_null (str DMS_VERSION_ID) 6))
    (mkAccountInfo 0 [str "group"] (str "acct") 100).

Lemma DataCmd_roundtrip_witness :
  exists text,
    DataCmd.Marshal (J := DemoJson.demo) demo_data = ok text /\ no_nul text /\
    DataCmd.Unmarshal (J := DemoJson.demo) (PL := demo_parcels) text = ok
      (mkDataCmd (N := DemoJson.extra) (W := DemoWant.demo) (set_command demo_base 0)
        (0, (str "d", str "b", str "a", []), []) (str "i") (-1)
        (mkCallerInfo (N := DemoJson.extra) 20010 (-1) 1 (str "src") (-1) (str "app") [str "com.demo"]
          (-1) 0 (njson_set (NJson := DemoJson.extra) njson_null (str DMS_VERSION_ID) 6))
        (mkAccountInfo 0 [] (str "acct") 100)).
Proof.
  apply (DataCmd_roundtrip (J := DemoJson.demo) (Jok := DemoJson.demo_ok) (N := DemoJson.extra)
    (Nok := DemoJson.extra_ok) (W := DemoWant.demo) (PL := demo_parcels) (max := 204800)
    (PLok := demo_parcels_ok) ltac:(reflexivity) demo_data 6).
  unfold data_wf, base_wf, caller_wf, account_wf. wf_compute;
    apply DemoWant.code_parcels_back; by_compute.
Defined.

(** Start, reply and end commands survive the trip through their JSON text, parcel
    included; only the command number, which no reader looks up, is left at zero. *)
Theorem control_commands_roundtrip {J : CJson} {Jok : CJsonOk J} {W : WantLib} {PL : ParcelLib}
    {max : Z} {PLok : ParcelLibOk PL max} (Hmax : max < 2 ^ 30) b n v r reason wp :
  base_wf b -> is_int32 n -> is_int32 v -> is_int32 r -> no_nul reason -> parcels_back max wp ->
  (exists text, StartCmd.Marshal (mkStartCmd b n v wp) = ok text /\
    StartCmd.Unmarshal text = ok (mkStartCmd (set_command b 0) n v wp)) /\
  (exists text, ReplyCmd.Marshal (mkReplyCmd b n v r reason) = ok text /\
    ReplyCmd.Unmarshal text = ok (mkReplyCmd (set_command b 0) n v r reason)) /\
  (exists text, EndCmd.Marshal (mkEndCmd b r) = ok text /\
    EndCmd.Unmarshal text = ok (mkEndCmd (set_command b 0) r)).
Proof.
  intros Hb Hn Hv Hr Hs Hw. split_and!.
  - destruct (start_roundtrip Hmax (mkStartCmd b n v wp)) as (t & ? & _ & _ & ?); eauto.
  - destruct (reply_roundtrip (mkReplyCmd b n v r reason)) as (t & ? & _ & _ & ?); eauto.
  - destruct (end_roundtrip (mkEndCmd b r)) as (t & ? & _ & _ & ?); eauto.
Qed.

Lemma control_commands_roundtrip_witness :
  (exists text, StartCmd.Marshal (J := DemoJson.demo) (W := DemoWant.demo)
      (mkStartCmd (W := DemoWant.demo) demo_base 1 1000 []) = ok text /\
    StartCmd.Unmarshal (J := DemoJson.demo) (PL := demo_parcels) text
      = ok (mkStartCmd (W := DemoWant.demo) (set_command demo_base 0) 1 1000 [])) /\
  (exists text, ReplyCmd.Marshal (J := DemoJson.demo)
      (mkReplyCmd demo_base 1 1000 29360153 (str "late")) = ok text /\
    ReplyCmd.Unmarshal (J := DemoJson.demo) text
      = ok (mkReplyCmd (set_command demo_base 0) 1 1000 29360153 (str "late"))) /\
  (exists text, EndCmd.Marshal (J := DemoJson.demo) (mkEndCmd demo_base 29360153) = ok text /\
    EndCmd.Unmarshal (J := DemoJson.demo) text
      = ok (mkEndCmd (set_command demo_base 0) 29360153)).
Proof.
  apply (control_commands_roundtrip (J := DemoJson.demo) (Jok := DemoJson.demo_ok)
    (W := DemoWant.demo) (PL := demo_parcels) (max := 204800) (PLok := demo_parcels_ok)
    ltac:(reflexivity) demo_base 1 1000 29360153 (str "late") []);
    [unfold base_wf; wf_compute| wf_compute.. |].
  apply (DemoWant.code_parcels_back 204800 (A := list (bytes * DemoWant.value))); by_compute.
Defined.
