(* ===== verification/CollabEvent.v ===== *)
(** * Commands of a collaboration

    services/dtbschedmgr/src/collab/dsched_collab_event.cpp: the commands two devices
    exchange to set a collaboration session up, and their JSON text.  The results, the
    readers and the JSON lemmas are those of [ContinueEvent]; the caller and the account
    are written and read by functions that repeat [DSchedContinueDataCmd] word for word. *)

From Stdlib Require Import ZArith Lia String.
From stdpp Require Import base list option.
From S2P Require Import Prelude ErrorCodes StdString Base64 Framework ContinueEvent.

(** ** Data *)

(** Values of [DSchedCollabCommand]. *)
Definition MIN_CMD : Z := 0.
Definition SINK_GET_VERSION_CMD : Z := 1.
Definition SOURCE_GET_VERSION_CMD : Z := 2.
Definition SINK_START_CMD : Z := 3.
Definition NOTIFY_RESULT_CMD : Z := 4.
Definition DISCONNECT_CMD : Z := 5.

(** The [appVersion_] of the base class is hidden by the one of [SinkStartCmd] and never
    used. *)
Record BaseCmd := mkBaseCmd {
  needSendBigData_ : bool;
  needSendStream_ : bool;
  needRecvStream_ : bool;
  collabVersion_ : Z;
  dmsVersion_ : Z;
  command_ : Z;
  srcCollabSessionId_ : Z;
  collabToken_ : bytes;
  srcDeviceId_ : bytes;
  srcBundleName_ : bytes;
  srcAbilityName_ : bytes;
  srcModuleName_ : bytes;
  srcServerId_ : bytes;
  sinkDeviceId_ : bytes;
  sinkBundleName_ : bytes;
  sinkAbilityName_ : bytes;
  sinkModuleName_ : bytes;
  sinkServerId_ : bytes
}.

Definition BaseCmd_default : BaseCmd :=
  mkBaseCmd false false false (-1) (-1) (-1) (-1) [] [] [] [] [] [] [] [] [] [] [].

Record GetSinkCollabVersionCmd := mkGetSinkCollabVersionCmd {
  version_base : BaseCmd;
  version_srcPid_ : Z;
  version_srcUid_ : Z;
  version_srcAccessToken_ : Z;
  sinkCollabVersion_ : Z
}.

Record NotifyResultCmd := mkNotifyResultCmd {
  notify_base : BaseCmd;
  result_ : Z;
  sinkCollabSessionId_ : Z;
  sinkPid_ : Z;
  sinkAccessToken_ : Z;
  sinkUserId_ : Z;
  sinkAccountId_ : Z;
  sinkSocketName_ : bytes;
  abilityRejectReason_ : bytes
}.

Record DisconnectCmd := mkDisconnectCmd { disconnect_base : BaseCmd }.

Section SinkStart.
Context {N : NJson} {W : WantLib} {P : ParamsLib}.

Record SinkStartCmd := mkSinkStartCmd {
  start_base : BaseCmd;
  srcPid_ : Z;
  srcUid_ : Z;
  srcAccessToken_ : Z;
  appVersion_ : Z;
  callerInfo_ : CallerInfo;
  accountInfo_ : AccountInfo;
  startParams_ : AWantParams;
  messageParams_ : AWantParams
}.
End SinkStart.

(** ** The base class *)

Module BaseCmdCodec.
Section Codec.
Context {J : CJson}.

Definition Marshal (c : BaseCmd) : res bytes :=
  let? o := non_null cJSON_CreateObject in
  let o := add_number "Command" (command_ c) o in
  let o := add_number "CollabVersion" (collabVersion_ c) o in
  let o := add_number "DmsVersion" (dmsVersion_ c) o in
  let o := add_number "CollabSessionId" (srcCollabSessionId_ c) o in
  let o := add_string "CollabToken" (collabToken_ c) o in
  let o := add_string "SrcDeviceId" (srcDeviceId_ c) o in
  let o := add_string "SrcBundleName" (srcBundleName_ c) o in
  let o := add_string "SrcAbilityName" (srcAbilityName_ c) o in
  let o := add_string "SrcModuleName" (srcModuleName_ c) o in
  let o := add_string "SrcServiceId" (srcServerId_ c) o in
  let o := add_string "SinkDeviceId" (sinkDeviceId_ c) o in
  let o := add_string "SinkBundleName" (sinkBundleName_ c) o in
  let o := add_string "SinkAbilityName" (sinkAbilityName_ c) o in
  let o := add_string "SinkModuleName" (sinkModuleName_ c) o in
  let o := add_string "SinkServiceId" (sinkServerId_ c) o in
  let o := add_bool "NeedSendBigData" (needSendBigData_ c) o in
  let o := add_bool "NeedSendStream_" (needSendStream_ c) o in
  let o := add_bool "NeedRecvStream" (needRecvStream_ c) o in
  print o.

Definition Unmarshal (jsonStr : bytes) : res BaseCmd :=
  let? o := parse jsonStr in
  let? command := get_number o (str "Command") in
  let? collabVersion := get_number o (str "CollabVersion") in
  let? dmsVersion := get_number o (str "DmsVersion") in
  let? srcCollabSessionId := get_number o (str "CollabSessionId") in
  let? collabToken := get_string o (str "CollabToken") in
  let? srcDeviceId := get_string o (str "SrcDeviceId") in
  let? srcBundleName := get_string o (str "SrcBundleName") in
  let? srcAbilityName := get_string o (str "SrcAbilityName") in
  let? srcModuleName := get_string o (str "SrcModuleName") in
  let? srcServerId := get_string o (str "SrcServiceId") in
  let? sinkDeviceId := get_string o (str "SinkDeviceId") in
  let? sinkBundleName := get_string o (str "SinkBundleName") in
  let? sinkAbilityName := get_string o (str "SinkAbilityName") in
  let? sinkModuleName := get_string o (str "SinkModuleName") in
  let? sinkServerId := get_string o (str "SinkServiceId") in
  let? needSendBigData := get_bool o (str "NeedSendBigData") in
  let? needSendStream := get_bool o (str "NeedSendStream_") in
  let? needRecvStream := get_bool o (str "NeedRecvStream") in
  ok (mkBaseCmd needSendBigData needSendStream needRecvStream collabVersion dmsVersion command
    srcCollabSessionId collabToken srcDeviceId srcBundleName srcAbilityName srcModuleName
    srcServerId sinkDeviceId sinkBundleName sinkAbilityName sinkModuleName sinkServerId).

(** The member "BaseCmd" of a derived command, read back with the base class. *)
Definition get_base (o : cJSON) : res BaseCmd :=
  let? baseCmdStr := get_string o (str "BaseCmd") in
  or_invalid (Unmarshal baseCmdStr).
End Codec.
End BaseCmdCodec.

(** ** The version of the sink *)

Module GetSinkCollabVersionCmdCodec.
Section Codec.
Context {J : CJson}.

Definition Marshal (c : GetSinkCollabVersionCmd) : res bytes :=
  let? o := non_null cJSON_CreateObject in
  let? baseJsonStr := or_invalid (BaseCmdCodec.Marshal (version_base c)) in
  let o := add_string "BaseCmd" baseJsonStr o in
  let o := add_number "SrcPid" (version_srcPid_ c) o in
  let o := add_number "SrcUid" (version_srcUid_ c) o in
  let o := add_number "SrcAccessToken" (version_srcAccessToken_ c) o in
  let o := add_number "SinkCollabVersion" (sinkCollabVersion_ c) o in
  print o.

Definition Unmarshal (jsonStr : bytes) : res GetSinkCollabVersionCmd :=
  let? o := parse jsonStr in
  let? base := BaseCmdCodec.get_base o in
  let? srcPid := get_number o (str "SrcPid") in
  let? srcUid := get_number o (str "SrcUid") in
  let? srcAccessToken := get_number o (str "SrcAccessToken") in
  let? sinkCollabVersion := get_number o (str "SinkCollabVersion") in
  ok (mkGetSinkCollabVersionCmd base srcPid srcUid srcAccessToken sinkCollabVersion).
End Codec.
End GetSinkCollabVersionCmdCodec.

(** ** Start *)

Module SinkStartCmdCodec.
Section Codec.
Context {J : CJson} {N : NJson} {W : WantLib} {P : ParamsLib} {PL : ParcelLib}.

Definition MarshalCallerInfo (callerInfo : CallerInfo) : res bytes :=
  DataCmd.MarshalCallerInfo callerInfo.
Definition MarshalAccountInfo (accountInfo : AccountInfo) : res bytes :=
  DataCmd.MarshalAccountInfo accountInfo.
Definition UnmarshalCallerInfoExtra (this : CallerInfo) (jsonStr : bytes) : res CallerInfo :=
  DataCmd.UnmarshalCallerInfoExtra this jsonStr.
Definition UnmarshalCallerInfo (this : CallerInfo) (jsonStr : bytes) : res CallerInfo :=
  DataCmd.UnmarshalCallerInfo this jsonStr.
Definition UnmarshalAccountInfo (this : AccountInfo) (jsonStr : bytes) : res AccountInfo :=
  DataCmd.UnmarshalAccountInfo this jsonStr.

(** Both parameter sets are written to one parcel, so the second text holds both. *)
Definition Marshal (c : SinkStartCmd) : res bytes :=
  let? o := non_null cJSON_CreateObject in
  let? baseJsonStr := or_invalid (BaseCmdCodec.Marshal (start_base c)) in
  let o := add_string "BaseCmd" baseJsonStr o in
  let o := add_number "AppVersion" (appVersion_ c) o in
  let o := add_number "SrcPid" (srcPid_ c) o in
  let o := add_number "SrcUid" (srcUid_ c) o in
  let o := add_number "SrcAccessToken" (srcAccessToken_ c) o in
  let? parcel := non_null (WriteTo [] (startParams_ c)) in
  let? startParamsStr := lift (ParcelToBase64Str parcel) in
  let o := add_string "StartParams" startParamsStr o in
  let? parcel := non_null (WriteTo parcel (messageParams_ c)) in
  let? wantParamsStr := lift (ParcelToBase64Str parcel) in
  let o := add_string "WantParams" wantParamsStr o in
  let? callerInfoStr := or_invalid (MarshalCallerInfo (callerInfo_ c)) in
  let o := add_string "CallerInfo" callerInfoStr o in
  let? accountInfoStr := or_invalid (MarshalAccountInfo (accountInfo_ c)) in
  let o := add_string "AccountInfo" accountInfoStr o in
  print o.

(** The text of a parcel put into the parcel that holds [parcel], whose read cursor stays. *)
Definition refill (rawStr parcel : bytes) : res bytes :=
  let* (ret, parcel) := Base64StrToParcel rawStr parcel in
  if negb (ret =? ERR_OK) then fail Dms.INVALID_PARAMETERS_ERR else ok parcel.

Definition UnmarshalOptParams (o : cJSON) : res (AWantParams * AWantParams) :=
  let? startParamsStr := get_string o (str "StartParams") in
  let? parcel := refill startParamsStr [] in
  let '(startParamsPtr, cursor) := ReadAt parcel 0 in
  let? startParams := non_null startParamsPtr in
  let? wantParamsStr := get_string o (str "WantParams") in
  let? parcel := refill wantParamsStr parcel in
  let '(wantParamsPtr, _) := ReadAt parcel cursor in
  let? wantParams := non_null wantParamsPtr in
  ok (startParams, wantParams).

Definition UnmarshalPartParcel (o : cJSON) : res (AWantParams * AWantParams * CallerInfo * AccountInfo) :=
  let? (startParams, messageParams) := or_invalid (UnmarshalOptParams o) in
  let? callerInfoStr := get_string o (str "CallerInfo") in
  let? callerInfo := or_invalid (UnmarshalCallerInfo CallerInfo_default callerInfoStr) in
  let? accountInfoStr := get_string o (str "AccountInfo") in
  let? accountInfo := or_invalid (UnmarshalAccountInfo AccountInfo_default accountInfoStr) in
  ok (startParams, messageParams, callerInfo, accountInfo).

Definition Unmarshal (jsonStr : bytes) : res SinkStartCmd :=
  let? o := parse jsonStr in
  let? base := BaseCmdCodec.get_base o in
  let? appVersion := get_number o (str "AppVersion") in
  let? srcPid := get_number o (str "SrcPid") in
  let? srcUid := get_number o (str "SrcUid") in
  let? srcAccessToken := get_number o (str "SrcAccessToken") in
  let? (startParams, messageParams, callerInfo, accountInfo) := UnmarshalPartParcel o in
  ok (mkSinkStartCmd base srcPid srcUid srcAccessToken appVersion callerInfo accountInfo startParams
    messageParams).
End Codec.
End SinkStartCmdCodec.

(** ** Result *)

Module NotifyResultCmdCodec.
Section Codec.
Context {J : CJson}.

Definition Marshal (c : NotifyResultCmd) : res bytes :=
  let? o := non_null cJSON_CreateObject in
  let? baseJsonStr := or_invalid (BaseCmdCodec.Marshal (notify_base c)) in
  let o := add_string "BaseCmd" baseJsonStr o in
  let o := add_number "SinkCollabSessionId" (sinkCollabSessionId_ c) o in
  let o := add_number "Result" (result_ c) o in
  let o := add_string "SinkSocketName" (sinkSocketName_ c) o in
  let o := add_string "AbilityRejectReason" (abilityRejectReason_ c) o in
  let o := add_number "SinkPid" (sinkPid_ c) o in
  let o := add_number "SinkUserId" (sinkUserId_ c) o in
  let o := add_number "SinkAccessToken" (sinkAccessToken_ c) o in
  let o := add_number "SinkAccountId" (sinkAccountId_ c) o in
  print o.

(** The value of a string item, of which the code does not ask whether it is null. *)
Definition string_value (item : cJSON) : res bytes :=
  match valuestring item with Some s => ok s | None => Undefined end.

Definition get_string_unchecked (o : cJSON) (key : bytes) : res bytes :=
  match cJSON_GetObjectItemCaseSensitive o key with
  | Some item => if cJSON_IsString item then string_value item else fail Dms.INVALID_PARAMETERS_ERR
  | None => fail Dms.INVALID_PARAMETERS_ERR
  end.

(** Its result is ignored: the members after the first that is missing keep their -1. *)
Fixpoint read_numbers (o : cJSON) (keys : list string) : list Z :=
  match keys with
  | [] => []
  | key :: keys =>
    match cJSON_GetObjectItemCaseSensitive o (str key) with
    | Some item =>
      if cJSON_IsNumber item then valueint item :: read_numbers o keys
      else -1 :: List.map (fun _ => -1) keys
    | None => -1 :: List.map (fun _ => -1) keys
    end
  end.

Definition UnmarshalSinkInfo (o : cJSON) : list Z :=
  read_numbers o ["SinkPid"%string; "SinkUserId"%string; "SinkAccessToken"%string; "SinkAccountId"%string].

Definition Unmarshal (jsonStr : bytes) : res NotifyResultCmd :=
  let? o := parse jsonStr in
  let? base := BaseCmdCodec.get_base o in
  let? sinkCollabSessionId := get_number o (str "SinkCollabSessionId") in
  let? result := get_number o (str "Result") in
  let? sinkSocketName := get_string_unchecked o (str "SinkSocketName") in
  let? abilityRejectReason :=
    match cJSON_GetObjectItemCaseSensitive o (str "AbilityRejectReason") with
    | Some item => if cJSON_IsString item then string_value item else ok []
    | None => ok []
    end in
  let info := UnmarshalSinkInfo o in
  let z i := nth i info (-1) in
  ok (mkNotifyResultCmd base result sinkCollabSessionId (z 0%nat) (z 2%nat) (z 1%nat) (z 3%nat)
    sinkSocketName abilityRejectReason).
End Codec.
End NotifyResultCmdCodec.

(** ** Disconnect *)

Module DisconnectCmdCodec.
Section Codec.
Context {J : CJson}.

Definition Marshal (c : DisconnectCmd) : res bytes :=
  let? o := non_null cJSON_CreateObject in
  let? baseJsonStr := or_invalid (BaseCmdCodec.Marshal (disconnect_base c)) in
  let o := add_string "BaseCmd" baseJsonStr o in
  print o.

Definition Unmarshal (jsonStr : bytes) : res DisconnectCmd :=
  let? o := parse jsonStr in
  let? base := BaseCmdCodec.get_base o in
  ok (mkDisconnectCmd base).
End Codec.
End DisconnectCmdCodec.


(** ** Round trips *)

Definition collab_base_wf (c : BaseCmd) : Prop :=
  (is_int32 (collabVersion_ c) /\ is_int32 (dmsVersion_ c) /\ is_int32 (command_ c) /\
   is_int32 (srcCollabSessionId_ c)) /\
  (no_nul (collabToken_ c) /\ no_nul (srcDeviceId_ c) /\ no_nul (srcBundleName_ c) /\
   no_nul (srcAbilityName_ c) /\ no_nul (srcModuleName_ c) /\ no_nul (srcServerId_ c) /\
   no_nul (sinkDeviceId_ c) /\ no_nul (sinkBundleName_ c) /\ no_nul (sinkAbilityName_ c) /\
   no_nul (sinkModuleName_ c) /\ no_nul (sinkServerId_ c)).

(** The command number and the token in the base part of a text, which the manager looks
    at. *)
Definition collab_announces {J : CJson} (t : bytes) (command : Z) (token : bytes) : Prop :=
  exists o tb b, parse t = ok o /\ get_string o (str "BaseCmd") = ok tb /\ parse tb = ok b /\
    get_number b (str "Command") = ok command /\ get_string b (str "CollabToken") = ok token.

Section RoundTrips.
Context {J : CJson} {Jok : CJsonOk J}.

Lemma collab_base_roundtrip c :
  collab_base_wf c -> exists t,
    BaseCmdCodec.Marshal c = ok t /\ no_nul t /\ BaseCmdCodec.Unmarshal t = ok c /\
    exists b, parse t = ok b /\ get_number b (str "Command") = ok (command_ c) /\
      get_string b (str "CollabToken") = ok (collabToken_ c).
Proof.
  intros ((? & ? & ? & ?) & (? & ? & ? & ? & ? & ? & ? & ? & ? & ? & ?)).
  destruct create_object as (o & Ho & Hnone).
  pose proof (fun k => Hnone (str k) : absent o (str k)) as Habs.
  unfold BaseCmdCodec.Marshal, BaseCmdCodec.Unmarshal. rewrite Ho. cbn [non_null res_bind run_bind ok].
  edestruct print_ok as (t & Hp & Hq & Ht). exists t. split_and!; [exact Hp|done| |].
  - rewrite Hq. cbn [res_bind run_bind ok]. repeat json_read. by destruct c.
  - eexists. split_and!; [exact Hq|json_number|json_string].
Qed.

Lemma collab_get_base_ok o c t :
  get_string o (str "BaseCmd") = ok t -> BaseCmdCodec.Unmarshal t = ok c ->
  BaseCmdCodec.get_base o = ok c.
Proof.
  intros H1 H2. unfold BaseCmdCodec.get_base.
  by rewrite H1; cbn [res_bind run_bind ok]; rewrite H2.
Qed.

Ltac base_and_read Hwf tb Hb :=
  let Hn := fresh "Hn" in let Hu := fresh "Hu" in
  destruct (collab_base_roundtrip _ Hwf) as (tb & Hb & Hn & Hu & ? & ? & ? & ?);
  rewrite Hb; cbn [or_invalid res_bind run_bind ok].

Ltac printed t :=
  let Hp := fresh "Hp" in let Hq := fresh "Hq" in let Ht := fresh "Ht" in
  edestruct print_ok as (t & Hp & Hq & Ht);
  exists t; split_and!; [exact Hp|done| |];
  [eexists _, _, _; split_and!; [exact Hq|json_string|eassumption..]
  |rewrite Hq; cbn [res_bind run_bind ok]].

Ltac read_base :=
  erewrite collab_get_base_ok; [| |eassumption]; [cbn [res_bind run_bind ok]|json_string].

Lemma version_cmd_roundtrip c :
  collab_base_wf (version_base c) -> is_int32 (version_srcPid_ c) -> is_int32 (version_srcUid_ c) ->
  is_int32 (version_srcAccessToken_ c) -> is_int32 (sinkCollabVersion_ c) -> exists t,
    GetSinkCollabVersionCmdCodec.Marshal c = ok t /\ no_nul t /\
    collab_announces t (command_ (version_base c)) (collabToken_ (version_base c)) /\
    GetSinkCollabVersionCmdCodec.Unmarshal t = ok c.
Proof.
  intros Hwf ? ? ? ?.
  unfold GetSinkCollabVersionCmdCodec.Marshal, GetSinkCollabVersionCmdCodec.Unmarshal.
  print_and_read o Ho Habs. base_and_read Hwf tb Hb. printed t. read_base. repeat json_read.
  by destruct c.
Qed.

Lemma disconnect_cmd_roundtrip c :
  collab_base_wf (disconnect_base c) -> exists t,
    DisconnectCmdCodec.Marshal c = ok t /\ no_nul t /\
    collab_announces t (command_ (disconnect_base c)) (collabToken_ (disconnect_base c)) /\
    DisconnectCmdCodec.Unmarshal t = ok c.
Proof.
  intros Hwf. unfold DisconnectCmdCodec.Marshal, DisconnectCmdCodec.Unmarshal.
  print_and_read o Ho Habs. base_and_read Hwf tb Hb. printed t. read_base. by destruct c.
Qed.

(** The readers that do not ask whether a value is null. *)
Lemma unchecked_string_ok o k s :
  get_string o k = ok s -> NotifyResultCmdCodec.get_string_unchecked o k = ok s.
Proof.
  intros (i & H1 & H2 & H3)%get_string_inv.
  unfold NotifyResultCmdCodec.get_string_unchecked, NotifyResultCmdCodec.string_value.
  by rewrite H1, H2, H3.
Qed.

Lemma read_numbers_cons o k keys n :
  get_number o (str k) = ok n ->
  NotifyResultCmdCodec.read_numbers o (k :: keys) = n :: NotifyResultCmdCodec.read_numbers o keys.
Proof.
  intros (i & H1 & H2 & H3)%get_number_inv. cbn [NotifyResultCmdCodec.read_numbers].
  by rewrite H1, H2, H3.
Qed.

Definition notify_wf (c : NotifyResultCmd) : Prop :=
  collab_base_wf (notify_base c) /\
  (is_int32 (result_ c) /\ is_int32 (sinkCollabSessionId_ c) /\ is_int32 (sinkPid_ c) /\
   is_int32 (sinkAccessToken_ c) /\ is_int32 (sinkUserId_ c) /\ is_int32 (sinkAccountId_ c)) /\
  no_nul (sinkSocketName_ c) /\ no_nul (abilityRejectReason_ c).

Lemma notify_cmd_roundtrip c :
  notify_wf c -> exists t,
    NotifyResultCmdCodec.Marshal c = ok t /\ no_nul t /\
    collab_announces t (command_ (notify_base c)) (collabToken_ (notify_base c)) /\
    NotifyResultCmdCodec.Unmarshal t = ok c.
Proof.
  intros (Hwf & (? & ? & ? & ? & ? & ?) & ? & ?).
  unfold NotifyResultCmdCodec.Marshal, NotifyResultCmdCodec.Unmarshal.
  print_and_read o Ho Habs. base_and_read Hwf tb Hb. printed t. read_base. repeat json_read.
  erewrite unchecked_string_ok by json_string. cbn [res_bind run_bind ok].
  unfold NotifyResultCmdCodec.UnmarshalSinkInfo.
  erewrite !read_numbers_cons by json_number. cbn [nth].
  match goal with |- context [cJSON_GetObjectItemCaseSensitive ?o' (str "AbilityRejectReason")] =>
    assert (get_string o' (str "AbilityRejectReason") = ok (abilityRejectReason_ c)) as Hs by json_string
  end.
  apply get_string_inv in Hs as (i & -> & -> & Hi). unfold NotifyResultCmdCodec.string_value.
  rewrite Hi. cbn [res_bind run_bind ok]. by destruct c.
Qed.
Section WithParcels.
Context {N : NJson} {Nok : NJsonOk J N} {W : WantLib} {P : ParamsLib} {PL : ParcelLib}.
Context {max : Z} {PLok : ParcelLibOk PL max} (Hmax : max < 2 ^ 30).

(** The bytes [p] refill a parcel that holds less. *)
Lemma refill_ok p old :
  Forall is_u8 p -> zlen old < zlen p <= max -> exists t,
    ParcelToBase64Str p = Done t /\ no_nul t /\ SinkStartCmdCodec.refill t old = ok p.
Proof.
  intros Hp Hn. pose proof (zlen_nonneg old). exists (base64_text p). split_and!.
  - apply ParcelToBase64Str_ok. lia.
  - by apply base64_text_no_nul.
  - unfold SinkStartCmdCodec.refill.
    by rewrite (Base64StrToParcel_text (max := max)) by (done || lia).
Qed.

(** Both parameter sets can be written behind one another and read back. *)
Definition params_wf (start message : AWantParams) : Prop := exists p1 p2,
  streams_back max [] start p1 /\ streams_back max p1 message p2.

(** What is left of a sent start command: the caller's token and version and the group ids
    do not travel. *)
Definition start_received (c : SinkStartCmd) : SinkStartCmd :=
  mkSinkStartCmd (start_base c) (srcPid_ c) (srcUid_ c) (srcAccessToken_ c) (appVersion_ c)
    (caller_received (callerInfo_ c)) (account_received (accountInfo_ c)) (startParams_ c)
    (messageParams_ c).

Definition start_wf (c : SinkStartCmd) (version : Z) : Prop :=
  collab_base_wf (start_base c) /\
  (is_int32 (srcPid_ c) /\ is_int32 (srcUid_ c) /\ is_int32 (srcAccessToken_ c) /\
   is_int32 (appVersion_ c)) /\
  caller_wf (callerInfo_ c) version /\ account_wf (accountInfo_ c) /\
  params_wf (startParams_ c) (messageParams_ c).

Lemma opt_params_read o p1 p2 t1 t2 start message :
  get_string o (str "StartParams") = ok t1 -> get_string o (str "WantParams") = ok t2 ->
  SinkStartCmdCodec.refill t1 [] = ok p1 -> SinkStartCmdCodec.refill t2 p1 = ok p2 ->
  streams_back max [] start p1 -> streams_back max p1 message p2 ->
  or_invalid (SinkStartCmdCodec.UnmarshalOptParams o) = ok (start, message).
Proof.
  intros H1 H2 R1 R2 (_ & _ & _ & S1) (_ & _ & _ & S2).
  specialize (S1 []). specialize (S2 []). rewrite app_nil_r in S1, S2. rewrite zlen_nil in S1.
  unfold SinkStartCmdCodec.UnmarshalOptParams. rewrite H1. cbn [res_bind run_bind ok].
  rewrite R1. cbn [res_bind run_bind ok]. rewrite S1. cbn [non_null res_bind run_bind ok].
  rewrite H2. cbn [res_bind run_bind ok]. rewrite R2. cbn [res_bind run_bind ok].
  by rewrite S2.
Qed.

Lemma start_cmd_roundtrip c version :
  start_wf c version -> exists t,
    SinkStartCmdCodec.Marshal c = ok t /\ no_nul t /\
    collab_announces t (command_ (start_base c)) (collabToken_ (start_base c)) /\
    SinkStartCmdCodec.Unmarshal t = ok (start_received c).
Proof.
  intros (Hwf & (? & ? & ? & ?) & Hc & Hacc & p1 & p2 & S1 & S2).
  apply caller_roundtrip in Hc as (tc & C1 & C2 & C3).
  apply account_roundtrip in Hacc as (ta & D1 & D2 & D3).
  pose proof S1 as (W1 & U1 & L1 & _). pose proof S2 as (W2 & U2 & L2 & _).
  destruct (refill_ok p1 [] U1 L1) as (t1 & B1 & N1 & R1).
  destruct (refill_ok p2 p1 U2 L2) as (t2 & B2 & N2 & R2).
  unfold SinkStartCmdCodec.Marshal, SinkStartCmdCodec.Unmarshal, SinkStartCmdCodec.UnmarshalPartParcel.
  print_and_read o Ho Habs. base_and_read Hwf tb Hb.
  rewrite W1. cbn [non_null res_bind run_bind ok]. rewrite B1. cbn [lift res_bind run_bind ok].
  rewrite W2. cbn [non_null res_bind run_bind ok]. rewrite B2. cbn [lift res_bind run_bind ok].
  unfold SinkStartCmdCodec.MarshalCallerInfo, SinkStartCmdCodec.MarshalAccountInfo,
    SinkStartCmdCodec.UnmarshalCallerInfo, SinkStartCmdCodec.UnmarshalAccountInfo.
  rewrite C1. cbn [or_invalid res_bind run_bind ok]. rewrite D1. cbn [or_invalid res_bind run_bind ok].
  printed t. read_base. repeat json_read.
  erewrite (opt_params_read _ p1 p2 t1 t2 (startParams_ c) (messageParams_ c));
    [|json_string|json_string|done..].
  cbn [res_bind run_bind ok]. repeat json_read.
  rewrite C3. cbn [or_invalid res_bind run_bind ok]. repeat json_read. by rewrite D3.
Qed.
End WithParcels.
End RoundTrips.

(** ** Properties *)

(** Every command of a collaboration survives the trip through its JSON text: the
    version request, the result and the disconnect command with all members, the number of
    the command included; the start command with both parameter sets, of which the second
    text repeats the first, but without the group ids and the caller's access token and
    version. *)
Theorem collab_commands_roundtrip {J : CJson} {Jok : CJsonOk J} {N : NJson} {Nok : NJsonOk J N}
    {W : WantLib} {P : ParamsLib} {PL : ParcelLib} {max : Z} {PLok : ParcelLibOk PL max}
    (Hmax : max < 2 ^ 30) b pid uid token version start extra notify :
  collab_base_wf b -> is_int32 pid -> is_int32 uid -> is_int32 token -> is_int32 version ->
  start_wf (max := max) start extra -> notify_wf notify ->
  (exists text,
    GetSinkCollabVersionCmdCodec.Marshal (mkGetSinkCollabVersionCmd b pid uid token version) = ok text /\
    GetSinkCollabVersionCmdCodec.Unmarshal text = ok (mkGetSinkCollabVersionCmd b pid uid token version)) /\
  (exists text, SinkStartCmdCodec.Marshal start = ok text /\
    SinkStartCmdCodec.Unmarshal text = ok
      (mkSinkStartCmd (start_base start) (srcPid_ start) (srcUid_ start) (srcAccessToken_ start)
        (appVersion_ start) (caller_received (callerInfo_ start))
        (account_received (accountInfo_ start)) (startParams_ start) (messageParams_ start))) /\
  (exists text, NotifyResultCmdCodec.Marshal notify = ok text /\
    NotifyResultCmdCodec.Unmarshal text = ok notify) /\
  (exists text, DisconnectCmdCodec.Marshal (mkDisconnectCmd b) = ok text /\
    DisconnectCmdCodec.Unmarshal text = ok (mkDisconnectCmd b)).
Proof.
  intros Hb H1 H2 H3 H4 Hs Hn. split_and!.
  - destruct (version_cmd_roundtrip (mkGetSinkCollabVersionCmd b pid uid token version))
      as (t & ? & _ & _ & ?); eauto.
  - destruct (start_cmd_roundtrip Hmax start extra Hs) as (t & ? & _ & _ & ?); eauto.
  - destruct (notify_cmd_roundtrip notify Hn) as (t & ? & _ & _ & ?); eauto.
  - destruct (disconnect_cmd_roundtrip (mkDisconnectCmd b)) as (t & ? & _ & _ & ?); eauto.
Qed.

Definition demo_collab_base : BaseCmd :=
  mkBaseCmd true false true 1 6 3 7 (str "token") (str "src") (str "com.demo") (str "Main") (str "entry")
    (str "s1") (str "dst") (str "com.demo") (str "Main") (str "entry") (str "s1").

Definition demo_start : SinkStartCmd (N := DemoJson.extra) (W := DemoWant.demo) (P := DemoParams.demo) :=
  mkSinkStartCmd (N := DemoJson.extra) (W := DemoWant.demo) (P := DemoParams.demo) demo_collab_base
    100 20010 5 1000
    (mkCallerInfo (N := DemoJson.extra) 20010 (-1) 1 (str "src") (-1) (str "app") [str "com.demo"] (-1) 5
      (njson_set (NJson := DemoJson.extra) njson_null (str DMS_VERSION_ID) 6))
    (mkAccountInfo 0 [str "group"] (str "acct") 100)
    (SetParam_Boolean (ParamsLib := DemoParams.demo) AWantParams_empty (str "k") true)
    (SetParam_String (ParamsLib := DemoParams.demo) AWantParams_empty (str "m") (str "hi")).

Definition demo_notify : NotifyResultCmd :=
  mkNotifyResultCmd demo_collab_base 0 9 200 6 100 1 (str "socket") (str "no").

Lemma demo_start_wf :
  start_wf (max := 204800) demo_start 6.
Proof.
  unfold start_wf, collab_base_wf, caller_wf, account_wf. wf_compute.
  eexists _, _. split; apply DemoParams.tree_streams_back; try by_compute.
  vm_compute. repeat constructor; discriminate.
Qed.

Lemma collab_commands_roundtrip_witness :
  (exists text,
    GetSinkCollabVersionCmdCodec.Marshal (J := DemoJson.demo)
      (mkGetSinkCollabVersionCmd demo_collab_base 100 20010 5 1) = ok text /\
    GetSinkCollabVersionCmdCodec.Unmarshal (J := DemoJson.demo) text
    = ok (mkGetSinkCollabVersionCmd demo_collab_base 100 20010 5 1)) /\
  (exists text,
    SinkStartCmdCodec.Marshal (J := DemoJson.demo) demo_start = ok text /\
    SinkStartCmdCodec.Unmarshal (J := DemoJson.demo) (PL := demo_parcels) text = ok
      (mkSinkStartCmd (N := DemoJson.extra) (W := DemoWant.demo) (P := DemoParams.demo)
        (start_base demo_start) (srcPid_ demo_start) (srcUid_ demo_start)
        (srcAccessToken_ demo_start) (appVersion_ demo_start)
        (caller_received (callerInfo_ demo_start)) (account_received (accountInfo_ demo_start))
        (startParams_ demo_start) (messageParams_ demo_start))) /\
  (exists text, NotifyResultCmdCodec.Marshal (J := DemoJson.demo) demo_notify = ok text /\
    NotifyResultCmdCodec.Unmarshal (J := DemoJson.demo) text = ok demo_notify) /\
  (exists text,
    DisconnectCmdCodec.Marshal (J := DemoJson.demo) (mkDisconnectCmd demo_collab_base) = ok text /\
    DisconnectCmdCodec.Unmarshal (J := DemoJson.demo) text = ok (mkDisconnectCmd demo_collab_base)).
Proof.
  apply (collab_commands_roundtrip (J := DemoJson.demo) (Jok := DemoJson.demo_ok) (N := DemoJson.extra)
    (Nok := DemoJson.extra_ok) (W := DemoWant.demo) (P := DemoParams.demo) (PL := demo_parcels)
    (max := 204800) (PLok := demo_parcels_ok) ltac:(reflexivity) demo_collab_base 100 20010 5 1
    demo_start 6 demo_notify);
    [unfold collab_base_wf; wf_compute|by wf_compute|by wf_compute|by wf_compute|by wf_compute|
     apply demo_start_wf|unfold notify_wf, collab_base_wf; wf_compute].
Defined.
