(* ===== verification/Effects.v ===== *)
(** * Stateful code and its environment

    Services keep state and call code that is not part of the repository.  A
    call is recorded in a trace of effects, and its result is an oracle of the
    trace so far, so that the environment may answer differently every time. *)

From Stdlib Require Import ZArith.
From stdpp Require Import base list.
From S2P Require Import Prelude.

Section Monad.
Context {S E : Type}.

(** A computation over the state [S] that extends a trace of effects [E]. *)
Definition M (A : Type) : Type := S -> list E -> run (A * S * list E).

Definition mret {A} (a : A) : M A := fun s t => Done (a, s, t).

Definition mbind {A B} (m : M A) (k : A -> M B) : M B :=
  fun s t => let* (a, s, t) := m s t in k a s t.

Definition get : M S := fun s t => Done (s, s, t).
Definition modify (f : S -> S) : M unit := fun s t => Done (tt, f s, t).
Definition emit (e : E) : M unit := fun s t => Done (tt, s, t ++ [e]).
Definition trace : M (list E) := fun s t => Done (t, s, t).

(** An effect answered by the environment: the oracle sees the trace before it. *)
Definition call {A} (e : E) (oracle : list E -> A) : M A :=
  fun s t => Done (oracle t, s, t ++ [e]).

Definition undefined {A} : M A := fun _ _ => Undefined.

(** Code that touches neither the state nor the environment. *)
Definition from_run {A} (m : run A) : M A := fun s t => let* a := m in Done (a, s, t).

Fixpoint mfor {A} (l : list A) (f : A -> M unit) : M unit :=
  match l with
  | [] => mret tt
  | a :: l => mbind (f a) (fun _ => mfor l f)
  end.

(** The state and trace that [m] leaves. *)
Definition final {A} (m : M A) (s : S) (t : list E) : run (S * list E) :=
  let* (_, s, t) := m s t in Done (s, t).
End Monad.
Arguments M : clear implicits.

Notation "'let!' x ':=' m 'in' k" := (mbind m (fun x => k))
  (at level 10, x pattern, m at level 100, k at level 200) : dms_scope.
Notation "'do!' m 'in' k" := (mbind m (fun _ => k))
  (at level 10, m at level 100, k at level 200) : dms_scope.
Notation "'when' b 'do' m" := (if b then m else mret tt)
  (at level 10, b at level 99, m at level 100) : dms_scope.

(** ** Relations kept by a computation

    [preserves R m]: every run of [m] that ends relates the state and trace it starts
    from to those it leaves.  For a preorder the proof follows the code. *)
Section Preserves.
Context {S E : Type} (R : S -> list E -> S -> list E -> Prop).

Definition preserves {A} (m : M S E A) : Prop :=
  forall s t a s' t', m s t = Done (a, s', t') -> R s t s' t'.

Context (Rrefl : forall s t, R s t s t).
Context (Rtrans : forall s1 t1 s2 t2 s3 t3, R s1 t1 s2 t2 -> R s2 t2 s3 t3 -> R s1 t1 s3 t3).

Lemma preserves_mret {A} (a : A) : preserves (mret a).
Proof. intros s t b s' t' [= -> -> ->]. apply Rrefl. Qed.

Lemma preserves_get : preserves get.
Proof. intros s t b s' t' [= -> -> ->]. apply Rrefl. Qed.

Lemma preserves_trace : preserves trace.
Proof. intros s t b s' t' [= -> -> ->]. apply Rrefl. Qed.

Lemma preserves_from_run {A} (m : run A) : preserves (from_run m).
Proof.
  intros s t b s' t'. unfold from_run. destruct m; [|done..]. intros [= -> -> ->]. apply Rrefl.
Qed.

Lemma preserves_mbind {A B} (m : M S E A) (k : A -> M S E B) :
  preserves m -> (forall a, preserves (k a)) -> preserves (mbind m k).
Proof.
  intros Hm Hk s t b s' t'. unfold mbind. destruct (m s t) as [[[a s1] t1]| |] eqn:E1; [|done..].
  cbn. intros H. eapply Rtrans; [by apply Hm in E1|by apply Hk in H].
Qed.

Lemma preserves_modify f : (forall s t, R s t (f s) t) -> preserves (modify f).
Proof. intros H s t b s' t' [= <- <- <-]. apply H. Qed.

Lemma preserves_emit e : (forall s t, R s t s (t ++ [e])) -> preserves (emit e).
Proof. intros H s t b s' t' [= <- <- <-]. apply H. Qed.

Lemma preserves_call {A} e (oracle : list E -> A) :
  (forall s t, R s t s (t ++ [e])) -> preserves (call e oracle).
Proof. intros H s t b s' t' [= <- <- <-]. apply H. Qed.

(** A computation that starts by reading the state, with what that state is known to be. *)
Lemma preserves_get_bind {A} (k : S -> M S E A) s t a s' t' :
  preserves (k s) -> mbind get k s t = Done (a, s', t') -> R s t s' t'.
Proof. intros Hk H. by apply Hk in H. Qed.
End Preserves.

Lemma mbind_Done {S E A B} (m : M S E A) (k : A -> M S E B) s t r :
  mbind m k s t = Done r -> exists a s' t', m s t = Done (a, s', t') /\ k a s' t' = Done r.
Proof.
  unfold mbind. destruct (m s t) as [[[a s1] t1]| |] eqn:E1; [|done..]. intros H. by exists a, s1, t1.
Qed.

(** Follow the code of a computation through the relation; [base] closes the calls that
    have lemmas of their own. *)
Ltac preserves_with refl trans base :=
  repeat first
    [ match goal with
      | |- preserves _ (mret _) => apply preserves_mret; exact refl
      | |- preserves _ get => apply preserves_get; exact refl
      | |- preserves _ trace => apply preserves_trace; exact refl
      | |- preserves _ (from_run _) => apply preserves_from_run; exact refl
      end
    | base
    | match goal with
      | |- preserves _ (mbind _ _) =>
        apply preserves_mbind; [exact trans| |let a := fresh in intros a]
      | |- preserves _ (match ?x with _ => _ end) => destruct x eqn:?
      | |- preserves _ (let _ := _ in _) => cbv zeta
      | |- preserves _ ((fun _ => _) _) => cbv beta
      end ].

(** ** Computations that always end with a result *)

Definition total {S E A} (m : M S E A) : Prop := forall s t, exists r, m s t = Done r.

Lemma total_mret {S E A} (a : A) : total (S := S) (E := E) (mret a).
Proof. intros s t. by eexists. Qed.
Lemma total_get {S E} : total (S := S) (E := E) get.
Proof. intros s t. by eexists. Qed.
Lemma total_trace {S E} : total (S := S) (E := E) trace.
Proof. intros s t. by eexists. Qed.
Lemma total_modify {S E} f : total (S := S) (E := E) (modify f).
Proof. intros s t. by eexists. Qed.
Lemma total_emit {S E} e : total (S := S) (E := E) (emit e).
Proof. intros s t. by eexists. Qed.
Lemma total_call {S E A} e (oracle : list E -> A) : total (S := S) (call e oracle).
Proof. intros s t. by eexists. Qed.

Lemma total_from_run {S E A} (m : run A) :
  (exists a, m = Done a) -> total (S := S) (E := E) (from_run m).
Proof. intros (a & ->) s t. by eexists. Qed.

Lemma total_mbind {S E A B} (m : M S E A) (k : A -> M S E B) :
  total m -> (forall a, total (k a)) -> total (mbind m k).
Proof.
  intros Hm Hk s t. unfold mbind. destruct (Hm s t) as (((a & s') & t') & ->). apply Hk.
Qed.

#[export] Hint Resolve total_mret total_get total_trace total_modify total_emit total_call : dms.

(** Follow the code; [base] closes the calls that have lemmas of their own. *)
Ltac total_with base :=
  repeat first
    [ solve [eauto 1 with dms]
    | base
    | match goal with
      | |- total (mbind _ _) => apply total_mbind; [|let a := fresh in intros a]
      | |- total (match ?x with _ => _ end) => destruct x eqn:?
      | |- total (let _ := _ in _) => cbv zeta
      | |- total ((fun _ => _) _) => cbv beta
      end ].

(** ** Weakest preconditions

    [wp m Q s t]: run from [s] and [t], the computation ends, and its result, state and
    trace satisfy [Q]. *)
Section Wp.
Context {S E : Type}.

Definition wp {A} (m : M S E A) (Q : A -> S -> list E -> Prop) (s : S) (t : list E) : Prop :=
  exists a s' t', m s t = Done (a, s', t') /\ Q a s' t'.

Lemma wp_mono {A} (m : M S E A) (P Q : A -> S -> list E -> Prop) s t :
  wp m P s t -> (forall a s' t', P a s' t' -> Q a s' t') -> wp m Q s t.
Proof. intros (a & s' & t' & Hrun & HP) HQ. exists a, s', t'. auto. Qed.

(** A computation has one run. *)
Lemma wp_and {A} (m : M S E A) (P Q : A -> S -> list E -> Prop) s t :
  wp m P s t -> wp m Q s t -> wp m (fun a s' t' => P a s' t' /\ Q a s' t') s t.
Proof.
  intros (a & s' & t' & Hrun & HP) (b & s2 & t2 & Hrun2 & HQ). rewrite Hrun in Hrun2.
  injection Hrun2 as <- <- <-. by exists a, s', t'.
Qed.

Lemma wp_mret {A} (a : A) (Q : A -> S -> list E -> Prop) s t : Q a s t -> wp (mret a) Q s t.
Proof. intros. by exists a, s, t. Qed.

Lemma wp_mbind {A B} (m : M S E A) (k : A -> M S E B) Q s t :
  wp m (fun a s' t' => wp (k a) Q s' t') s t -> wp (mbind m k) Q s t.
Proof. intros (a & s' & t' & Hrun & Hk). unfold wp, mbind. by rewrite Hrun. Qed.

Lemma wp_get (Q : S -> S -> list E -> Prop) s t : Q s s t -> wp get Q s t.
Proof. intros. by exists s, s, t. Qed.

Lemma wp_trace (Q : list E -> S -> list E -> Prop) s t : Q t s t -> wp trace Q s t.
Proof. intros. by exists t, s, t. Qed.

Lemma wp_modify f (Q : unit -> S -> list E -> Prop) s t : Q tt (f s) t -> wp (modify f) Q s t.
Proof. intros. by exists tt, (f s), t. Qed.

Lemma wp_emit e (Q : unit -> S -> list E -> Prop) s t : Q tt s (t ++ [e]) -> wp (emit e) Q s t.
Proof. intros. by exists tt, s, (t ++ [e]). Qed.

Lemma wp_call {A} e (oracle : list E -> A) Q s t :
  Q (oracle t) s (t ++ [e]) -> wp (call e oracle) Q s t.
Proof. intros. by exists (oracle t), s, (t ++ [e]). Qed.

Lemma wp_from_run {A} (m : run A) (Q : A -> S -> list E -> Prop) s t a :
  m = Done a -> Q a s t -> wp (from_run m) Q s t.
Proof. intros -> ?. by exists a, s, t. Qed.

(** A loop keeps what every turn keeps. *)
Lemma wp_mfor {A} (I : S -> list E -> Prop) (l : list A) (f : A -> M S E unit) s t :
  I s t -> (forall a s t, In a l -> I s t -> wp (f a) (fun _ => I) s t) ->
  wp (mfor l f) (fun _ => I) s t.
Proof.
  revert s t. induction l as [|a l IH]; intros s t HI Hf; cbn [mfor]; [by apply wp_mret|].
  apply wp_mbind. eapply wp_mono; [apply Hf; [by left|done]|]. cbn. intros _ s' t' HI'.
  apply IH; [done|]. intros b s2 t2 Hb. apply Hf. by right.
Qed.

Lemma wp_run {A} (m : M S E A) Q s t : wp m Q s t -> exists a s' t', m s t = Done (a, s', t') /\ Q a s' t'.
Proof. done. Qed.
End Wp.

(** Follow the code of a computation; [base] closes the calls that have lemmas of their own. *)
Ltac wp_with base :=
  repeat first
    [ base
    | match goal with
      | |- wp (mbind _ _) _ _ _ => apply wp_mbind
      | |- wp (mret _) _ _ _ => apply wp_mret
      | |- wp get _ _ _ => apply wp_get
      | |- wp trace _ _ _ => apply wp_trace
      | |- wp (modify _) _ _ _ => apply wp_modify
      | |- wp (emit _) _ _ _ => apply wp_emit
      | |- wp (call _ _) _ _ _ => apply wp_call
      | |- wp (match ?x with _ => _ end) _ _ _ => destruct x eqn:?
      | |- wp (let _ := _ in _) _ _ _ => cbv zeta
      | |- wp ((fun _ => _) _) _ _ _ => cbv beta
      end ].

(** ** Results *)

(** Every result of the computation satisfies [P]. *)
Definition yields {S E A} (P : A -> Prop) (m : M S E A) : Prop :=
  forall s t a s' t', m s t = Done (a, s', t') -> P a.

Lemma yields_mret {S E A} (P : A -> Prop) (a : A) : P a -> yields (S := S) (E := E) P (mret a).
Proof. by intros H s t b s' t' [= <- <- <-]. Qed.
Lemma yields_mbind {S E A B} (P : B -> Prop) (m : M S E A) (k : A -> M S E B) :
  (forall a, yields P (k a)) -> yields P (mbind m k).
Proof. intros H s t b s' t' (a & s1 & t1 & _ & E2)%mbind_Done. by eapply H. Qed.

Lemma yields_then {S E A B} (P : A -> Prop) (Q : B -> Prop) (m : M S E A) (k : A -> M S E B) :
  yields P m -> (forall a, P a -> yields Q (k a)) -> yields Q (mbind m k).
Proof. intros Hm Hk s t b s' t' (a & s1 & t1 & E1 & E2)%mbind_Done. eapply Hk; [by eapply Hm|exact E2]. Qed.

(** An answer is the oracle's, for some effects so far. *)
Lemma yields_call {S E A} (e : E) (oracle : list E -> A) : yields (S := S) (fun a => exists t, a = oracle t) (call e oracle).
Proof. intros s t a s' t' [= <- <- <-]. by exists t. Qed.

Ltac yields_code :=
  repeat match goal with
  | |- yields _ (mret _) => apply yields_mret
  | |- yields _ (mbind _ _) => apply yields_mbind; let a := fresh in intros a
  | |- yields _ (match ?x with _ => _ end) => destruct x eqn:?
  end.

(** What holds after a run, and what every run yields or keeps. *)
Lemma wp_yields {S E A} (P : A -> Prop) (m : M S E A) (Q : A -> S -> list E -> Prop) s t :
  wp m Q s t -> yields P m -> wp m (fun a s' t' => Q a s' t' /\ P a) s t.
Proof. intros (a & s' & t' & Hrun & HQ) Hy. exists a, s', t'. split; [done|]. split; [done|]. by eapply Hy. Qed.
Lemma wp_preserves {S E A} (R : S -> list E -> S -> list E -> Prop) (m : M S E A) (Q : A -> S -> list E -> Prop) s t :
  wp m Q s t -> preserves R m -> wp m (fun a s' t' => Q a s' t' /\ R s t s' t') s t.
Proof. intros (a & s' & t' & Hrun & HQ) Hp. exists a, s', t'. split; [done|]. split; [done|]. by eapply Hp. Qed.

(** ** Concrete runs *)

(** The computation ends and its result, state and trace pass the test. *)
Definition ends_with {S E A} (test : A -> S -> list E -> bool) (m : run (A * S * list E)) : bool :=
  match m with Done (a, s, t) => test a s t | _ => false end.

Lemma ends_with_Done {S E A} (test : A -> S -> list E -> bool) m :
  ends_with test m = true -> exists a s t, m = Done (a, s, t) /\ test a s t = true.
Proof. destruct m as [[[a s] t]| |]; [|done..]. intros H. by exists a, s, t. Qed.
