(* ===== verification/CommandTotality.v ===== *)
(** * Writing and reading commands always returns

    No command stops the code that writes it, and no received text stops the code that
    reads it, because cJSON answers items whose strings are no longer than the text and a
    parcel takes no more than its capacity. *)

From Stdlib Require Import ZArith Lia String.
From stdpp Require Import base list option.
From S2P Require Import Prelude ErrorCodes DataBuffer StdString Base64 Framework ContinueEvent CollabEvent Effects.

(** ** Writing *)

Section Writing.
Context {J : CJson} {N : NJson} {W : WantLib}.

Lemma res_bind_total {A B} (m : res A) (k : A -> res B) :
  (exists a, m = Done a) -> (forall a, exists b, k a = Done b) -> exists b, res_bind m k = Done b.
Proof.
  intros ([e|a] & ->) Hk; [by exists (inl e)|]. unfold res_bind. cbn. apply Hk.
Qed.

Lemma or_invalid_total {A} (m : res A) : (exists a, m = Done a) -> exists b, or_invalid m = Done b.
Proof. intros ([e|a] & ->); by eexists. Qed.

Lemma non_null_total {A} (o : option A) : exists a, non_null o = Done a.
Proof. destruct o; by eexists. Qed.

Lemma parcel_text_total p : exists a, lift (ParcelToBase64Str p) = Done a.
Proof.
  unfold lift, ParcelToBase64Str, Base64Encode. case_match; [by eexists|].
  pose proof (zlen_nonneg p). pose proof (Z.mod_le (zlen p) (2 ^ 32)).
  pose proof (Z.mod_pos_bound (zlen p) (2 ^ 32)).
  rewrite load_n_ok by (unfold u32; lia). by eexists.
Qed.

Lemma add_strings_total a (l : list bytes) : exists b, add_strings a l = Done b.
Proof.
  revert a. induction l as [|x l IH]; intros a; cbn [add_strings]; [by eexists|].
  apply res_bind_total; [apply non_null_total|]. intros i. apply IH.
Qed.

Ltac res_total :=
  repeat match goal with
  | |- exists _, res_bind _ _ = Done _ => apply res_bind_total; [|let a := fresh in intros a]
  | |- exists _, or_invalid _ = Done _ => apply or_invalid_total
  | |- exists _, non_null _ = Done _ => apply non_null_total
  | |- exists _, lift (ParcelToBase64Str _) = Done _ => apply parcel_text_total
  | |- exists _, add_strings _ _ = Done _ => apply add_strings_total
  | |- exists _, ok _ = Done _ => by eexists
  | |- exists _, print _ = Done _ => unfold print
  end.

Lemma base_Marshal_total c : exists r, CmdBase.Marshal c = Done r.
Proof. unfold CmdBase.Marshal. res_total. Qed.

Lemma StartCmd_Marshal_total c : exists r, StartCmd.Marshal c = Done r.
Proof. unfold StartCmd.Marshal. res_total. apply base_Marshal_total. Qed.

Lemma ReplyCmd_Marshal_total c : exists r, ReplyCmd.Marshal c = Done r.
Proof. unfold ReplyCmd.Marshal. res_total. apply base_Marshal_total. Qed.

Lemma EndCmd_Marshal_total c : exists r, EndCmd.Marshal c = Done r.
Proof. unfold EndCmd.Marshal. res_total. apply base_Marshal_total. Qed.

Lemma DataCmd_Marshal_total c : exists r, DataCmd.Marshal c = Done r.
Proof.
  unfold DataCmd.Marshal, DataCmd.MarshalInner, DataCmd.MarshalCallerInfo,
    DataCmd.MarshalAccountInfo. res_total. apply base_Marshal_total.
Qed.

Lemma collab_base_Marshal_total c : exists r, BaseCmdCodec.Marshal c = Done r.
Proof. unfold BaseCmdCodec.Marshal. res_total. Qed.

Lemma version_Marshal_total c : exists r, GetSinkCollabVersionCmdCodec.Marshal c = Done r.
Proof. unfold GetSinkCollabVersionCmdCodec.Marshal. res_total. apply collab_base_Marshal_total. Qed.

Lemma notify_Marshal_total c : exists r, NotifyResultCmdCodec.Marshal c = Done r.
Proof. unfold NotifyResultCmdCodec.Marshal. res_total. apply collab_base_Marshal_total. Qed.

Lemma disconnect_Marshal_total c : exists r, DisconnectCmdCodec.Marshal c = Done r.
Proof. unfold DisconnectCmdCodec.Marshal. res_total. apply collab_base_Marshal_total. Qed.

Lemma collab_start_Marshal_total {P : ParamsLib} c : exists r, SinkStartCmdCodec.Marshal c = Done r.
Proof.
  unfold SinkStartCmdCodec.Marshal, SinkStartCmdCodec.MarshalCallerInfo, SinkStartCmdCodec.MarshalAccountInfo,
    DataCmd.MarshalCallerInfo, DataCmd.MarshalAccountInfo. res_total. apply collab_base_Marshal_total.
Qed.

(** The copy of a text into a buffer made for it. *)
Lemma buffer_copy_total json :
  let buffer := make_buffer (zlen json + 1) in
  exists r, memcpy_s (data_ buffer) 0 (Capacity buffer) (Some json) 0 (zlen json) = Done r.
Proof.
  cbv zeta. unfold make_buffer. pose proof (zlen_nonneg json).
  case_match; cbn [data_ Capacity capacity_]; guards_to_prop.
  - destruct (memcpy_s_safe (zeros (zlen json + 1)) 0 (zlen json + 1) json 0 (zlen json))
      as (ret & d & E & _); rewrite ?zlen_zeros; [lia..|]. by eexists.
  - rewrite memcpy_s_null. by eexists.
Qed.

(** A text that fits is copied with the terminator the new buffer already holds. *)
Lemma buffer_copy_ok json :
  zlen json + 1 < DSCHED_MAX_BUFFER_SIZE ->
  let buffer := make_buffer (zlen json + 1) in
  (Capacity buffer <? zlen json) = false /\
  memcpy_s (data_ buffer) 0 (Capacity buffer) (Some json) 0 (zlen json) = Done (ERR_OK, Some (json ++ [0])) /\
  content (set_data buffer (Some (json ++ [0]))) = json ++ [0].
Proof.
  intros Hmax. cbv zeta. pose proof (zlen_nonneg json). unfold make_buffer.
  replace (negb (zlen json + 1 =? 0) && (zlen json + 1 <? DSCHED_MAX_BUFFER_SIZE)) with true by (bool_lia; done).
  unfold Capacity. cbn [data_ capacity_]. split_and!; [by bool_lia| |].
  - rewrite zeros_app, <- (app_nil_l (zeros (zlen json) ++ zeros 1)) by lia.
    rewrite (memcpy_s_copy [] (zeros (zlen json)) (zeros 1) json 0 _ 0 (zlen json) json); [done|..|].
    + rewrite load_n_ok by lia. by rewrite slice_all by lia.
    + done.
    + by rewrite zlen_zeros by lia.
    + unfold DSCHED_MAX_BUFFER_SIZE, RSIZE_MAX in *. lia.
  - unfold content, set_data. cbn [data_ rangeOffset_ rangeLength_].
    apply slice_all. by rewrite zlen_app.
Qed.
End Writing.

(** ** Reading *)

Section Reading.
Context {J : CJson} {JR : CJsonReads J} {N : NJson} {W : WantLib} {PL : ParcelLib}
  {PB : ParcelLibBound PL}.

Lemma Base64StrToParcel_total s old : zlen s < 2 ^ 31 -> exists r, Base64StrToParcel s old = Done r.
Proof.
  intros Hs. unfold Base64StrToParcel. rewrite Base64Decode_rest by done. cbn [run_bind].
  set (p := decode_rest _). pose proof (zlen_nonneg p).
  destruct (SetDataCapacity (zlen old) (zlen p)) eqn:E; cbn [negb]; [|by eexists].
  apply parcel_capacity_bound in E.
  assert (exists r, memcpy_s (if HasData (zlen p) then Some (zeros (zlen p)) else None) 0 GetMaxCapacity
    (Some p) 0 (zlen p) = Done r) as ((ret & d) & ->).
  { destruct (HasData (zlen p)); [|by eexists]. unfold memcpy_s.
    destruct (RSIZE_MAX <? GetMaxCapacity); [by eexists|]. bool_lia. rewrite load_n_ok by lia. cbn [run_bind].
    destruct (store_n_ok (zeros (zlen p)) 0 (slice p 0 (zlen p))) as (d & -> & _);
      [lia|rewrite zlen_slice, zlen_zeros by lia; lia|]. by eexists. }
  cbn [run_bind]. case_match; by eexists.
Qed.

Lemma get_parcel_total s : zlen s < 2 ^ 31 -> exists r, get_parcel s = Done r.
Proof.
  intros Hs. destruct (Base64StrToParcel_total s [] Hs) as ((ret & p) & E). unfold get_parcel. rewrite E.
  cbn [run_bind]. case_match; by eexists.
Qed.

Lemma get_number_total o k : exists r, get_number o k = Done r.
Proof. unfold get_number. repeat case_match; by eexists. Qed.

(** A computation that returns, and what it returns when it succeeds. *)
Definition reads {A} (P : A -> Prop) (m : res A) : Prop :=
  exists r, m = Done r /\ forall a, r = inr a -> P a.

Lemma reads_bind {A B} (P : A -> Prop) (Q : B -> Prop) (m : res A) k :
  reads P m -> (forall a, P a -> reads Q (k a)) -> reads Q (res_bind m k).
Proof.
  intros ([e|a] & -> & HP) Hk; [by exists (inl e)|]. unfold res_bind. cbn. by apply Hk, HP.
Qed.

Lemma reads_or_invalid {A} (P : A -> Prop) (m : res A) : reads P m -> reads P (or_invalid m).
Proof. intros ([e|a] & -> & HP); by eexists. Qed.

Lemma reads_total {A} (m : res A) : (exists r, m = Done r) -> reads (fun _ => True) m.
Proof. intros (r & ->). by exists r. Qed.

Lemma reads_non_null {A} (P : A -> Prop) (o : option A) :
  (forall a, o = Some a -> P a) -> reads P (non_null o).
Proof. intros H. destruct o as [a|]; (eexists; split; [done|]); [|done]. intros b [= <-]. by apply H. Qed.

Lemma reads_ok {A} (P : A -> Prop) a : P a -> reads P (ok a).
Proof. intros. eexists. split; [done|]. by intros ? [= <-]. Qed.

Lemma parse_reads n t : zlen t <= n -> reads (fun o => exists m, m <= n /\ fits m o) (parse t).
Proof.
  intros Hn. apply reads_non_null. intros o Ho. exists (zlen (c_str t)).
  split; [|by apply parse_fits]. pose proof (zlen_c_str t). lia.
Qed.

Lemma get_string_reads n o k : fits n o -> reads (fun s => zlen s <= n) (get_string o k).
Proof.
  intros Hf. unfold get_string. destruct (cJSON_GetObjectItemCaseSensitive o k) as [i|] eqn:E;
    [|by eexists]. apply reads_non_null. unfold string_of. intros s Hs.
  destruct (cJSON_IsString i) eqn:Hi; [|done].
  destruct (string_fits n i (item_fits _ _ _ _ Hf E) Hi) as (s' & Hs' & ?). congruence.
Qed.

Lemma read_strings_total (items : list cJSON) : exists r, read_strings items = Done r.
Proof.
  induction items as [|i items IH]; cbn [read_strings]; [by eexists|].
  apply res_bind_total; [apply non_null_total|]. intros s. apply res_bind_total; [done|]. by eexists.
Qed.

Lemma get_strings_total o k : exists r, get_strings o k = Done r.
Proof. unfold get_strings. case_match; [apply read_strings_total|by eexists]. Qed.

(** Follow a reader: texts stay below the bound [n], parcels can be decoded. *)
Ltac reads_code :=
  repeat match goal with
  | |- reads _ (res_bind (parse ?t) _) =>
    let m := fresh "m" in let Hm := fresh "Hm" in let Hf := fresh "Hf" in
    eapply reads_bind; [by apply (parse_reads (zlen t))|]; intros ? (m & Hm & Hf)
  | Hf : fits ?n ?o |- reads _ (res_bind (get_string ?o _) _) =>
    eapply reads_bind; [by apply (get_string_reads n)|]; cbv beta; intros ? ?
  | |- reads _ (res_bind (get_parcel _) _) =>
    eapply reads_bind; [apply reads_total, get_parcel_total; lia|]; intros ? _
  | |- reads _ (res_bind (get_number _ _) _) =>
    eapply reads_bind; [apply reads_total, get_number_total|]; intros ? _
  | |- reads _ (res_bind (get_strings _ _) _) =>
    eapply reads_bind; [apply reads_total, get_strings_total|]; intros ? _
  | |- reads _ (res_bind (non_null _) _) =>
    eapply reads_bind; [apply reads_total, non_null_total|]; intros ? _
  | |- reads _ (res_bind (or_invalid _) _) =>
    apply (reads_bind (fun _ => True)); [apply reads_or_invalid|intros ? _]
  | |- reads _ (or_invalid _) => apply reads_or_invalid
  | |- reads _ (non_null _) => apply reads_total, non_null_total
  | |- reads _ (ok _) => by apply reads_ok
  | |- reads _ (let _ := _ in _) => cbv zeta
  end.

Abbreviation returns := (reads (fun _ => True)).

Lemma base_Unmarshal_reads c t : returns (CmdBase.Unmarshal c t).
Proof. unfold CmdBase.Unmarshal. reads_code. Qed.

Lemma get_base_reads n o : fits n o -> returns (get_base o).
Proof. intros Hf. unfold get_base. reads_code. apply base_Unmarshal_reads. Qed.

Ltac base_reads :=
  match goal with
  | Hf : fits ?n ?o |- reads _ (res_bind (get_base ?o) _) =>
    eapply reads_bind; [by apply (get_base_reads n)|]; intros ? _
  end.

Lemma StartCmd_reads t : zlen t < 2 ^ 31 -> returns (StartCmd.Unmarshal t).
Proof. intros. unfold StartCmd.Unmarshal. reads_code. base_reads. reads_code. Qed.

Lemma ReplyCmd_reads t : returns (ReplyCmd.Unmarshal t).
Proof. unfold ReplyCmd.Unmarshal. reads_code. base_reads. reads_code. Qed.

Lemma EndCmd_reads t : returns (EndCmd.Unmarshal t).
Proof. unfold EndCmd.Unmarshal. reads_code. base_reads. reads_code. Qed.

Lemma UnmarshalParcel_reads t : zlen t < 2 ^ 31 -> returns (DataCmd.UnmarshalParcel t).
Proof.
  intros. unfold DataCmd.UnmarshalParcel, DataCmd.UnmarshalWantParcel. reads_code.
  destruct (Unmarshalling _) as [[d|] rest]; reads_code.
Qed.

Lemma UnmarshalCallerInfo_reads c t : returns (DataCmd.UnmarshalCallerInfo c t).
Proof.
  unfold DataCmd.UnmarshalCallerInfo, DataCmd.UnmarshalCallerInfoExtra. reads_code.
Qed.

Lemma UnmarshalAccountInfo_reads a t : returns (DataCmd.UnmarshalAccountInfo a t).
Proof.
  unfold DataCmd.UnmarshalAccountInfo. reads_code.
  eapply (reads_bind (fun _ => True)); [|intros ? _; reads_code].
  match goal with |- reads _ (match ?x with _ => _ end) => destruct x as [i|] eqn:E end; reads_code.
  destruct (cJSON_IsString i) eqn:Hi; reads_code.
  destruct (string_fits m i (item_fits _ _ _ _ Hf E) Hi) as (s & -> & _). reads_code.
Qed.

Lemma DataCmd_reads t : zlen t < 2 ^ 31 -> returns (DataCmd.Unmarshal t).
Proof.
  intros. unfold DataCmd.Unmarshal. reads_code. base_reads. reads_code;
    [by apply UnmarshalParcel_reads|]. case_match. reads_code;
    [apply UnmarshalCallerInfo_reads|apply UnmarshalAccountInfo_reads].
Qed.

Lemma get_bool_total o k : exists r, get_bool o k = Done r.
Proof. unfold get_bool. repeat case_match; by eexists. Qed.

Lemma refill_total s old : zlen s < 2 ^ 31 -> exists r, SinkStartCmdCodec.refill s old = Done r.
Proof.
  intros Hs. destruct (Base64StrToParcel_total s old Hs) as ((ret & p) & E).
  unfold SinkStartCmdCodec.refill. rewrite E. cbn [run_bind]. case_match; by eexists.
Qed.

Ltac collab_reads :=
  repeat first
    [ progress reads_code
    | match goal with
      | |- reads _ (res_bind (get_bool _ _) _) =>
        eapply reads_bind; [apply reads_total, get_bool_total|]; intros ? _
      | |- reads _ (res_bind (SinkStartCmdCodec.refill _ _) _) =>
        eapply reads_bind; [apply reads_total, refill_total; lia|]; intros ? _
      end ].

Lemma collab_base_Unmarshal_reads t : returns (BaseCmdCodec.Unmarshal t).
Proof. unfold BaseCmdCodec.Unmarshal. collab_reads. Qed.

Lemma collab_get_base_reads n o : fits n o -> returns (BaseCmdCodec.get_base o).
Proof. intros Hf. unfold BaseCmdCodec.get_base. collab_reads. apply collab_base_Unmarshal_reads. Qed.

Ltac collab_base_reads :=
  match goal with
  | Hf : fits ?n ?o |- reads _ (res_bind (BaseCmdCodec.get_base ?o) _) =>
    eapply reads_bind; [by apply (collab_get_base_reads n)|]; intros ? _
  end.

Lemma version_reads t : returns (GetSinkCollabVersionCmdCodec.Unmarshal t).
Proof. unfold GetSinkCollabVersionCmdCodec.Unmarshal. collab_reads. collab_base_reads. collab_reads. Qed.

Lemma disconnect_reads t : returns (DisconnectCmdCodec.Unmarshal t).
Proof. unfold DisconnectCmdCodec.Unmarshal. collab_reads. collab_base_reads. collab_reads. Qed.

Lemma string_value_reads n o k i :
  fits n o -> cJSON_GetObjectItemCaseSensitive o k = Some i -> cJSON_IsString i = true ->
  returns (NotifyResultCmdCodec.string_value i).
Proof.
  intros Hf E Hi. unfold NotifyResultCmdCodec.string_value.
  destruct (string_fits n i (item_fits _ _ _ _ Hf E) Hi) as (s & -> & _). by apply reads_ok.
Qed.

Lemma notify_reads t : returns (NotifyResultCmdCodec.Unmarshal t).
Proof.
  unfold NotifyResultCmdCodec.Unmarshal, NotifyResultCmdCodec.get_string_unchecked.
  collab_reads. collab_base_reads. collab_reads.
  eapply (reads_bind (fun _ => True)).
  - match goal with |- reads _ (match ?x with _ => _ end) => destruct x as [i|] eqn:E end; [|by eexists].
    destruct (cJSON_IsString i) eqn:Hi; [by eapply string_value_reads|by eexists].
  - intros ? _. eapply (reads_bind (fun _ => True)); [|intros ? _; collab_reads].
    match goal with |- reads _ (match ?x with _ => _ end) => destruct x as [i|] eqn:E end; [|by apply reads_ok].
    destruct (cJSON_IsString i) eqn:Hi; [by eapply string_value_reads|by apply reads_ok].
Qed.

Lemma opt_params_reads {P : ParamsLib} n o :
  n < 2 ^ 31 -> fits n o -> returns (SinkStartCmdCodec.UnmarshalOptParams o).
Proof.
  intros Hn Hf. unfold SinkStartCmdCodec.UnmarshalOptParams. collab_reads.
  destruct (ReadAt _ _) as (start & cursor). collab_reads. destruct (ReadAt _ _) as (message & ?).
  collab_reads.
Qed.

Lemma collab_start_reads {P : ParamsLib} t : zlen t < 2 ^ 31 -> returns (SinkStartCmdCodec.Unmarshal t).
Proof.
  intros. unfold SinkStartCmdCodec.Unmarshal, SinkStartCmdCodec.UnmarshalPartParcel.
  collab_reads. collab_base_reads. collab_reads.
  eapply (reads_bind (fun _ => True)); [|intros (((? & ?) & ?) & ?) _; collab_reads].
  eapply (reads_bind (fun _ => True)).
  { apply reads_or_invalid. eapply opt_params_reads; [|done]. lia. }
  intros (? & ?) _. collab_reads; [apply UnmarshalCallerInfo_reads|apply UnmarshalAccountInfo_reads].
Qed.

(** What [SendCommand] hands over for a text: its characters and a terminator. *)
Definition sent (text : bytes) : option DataBuffer := Some (buffer_of (text ++ [0])).

Lemma parse_sent text : no_nul text -> parse (text ++ [0]) = parse text.
Proof. intros H. unfold parse. by rewrite c_str_app_nul, c_str_no_nul. Qed.

Lemma load_sent text {S' E} (s : S') (t : list E) :
  from_run (load_n (text ++ [0]) (Offset (buffer_of (text ++ [0]))) (Capacity (buffer_of (text ++ [0])))) s t
  = Done (text ++ [0], s, t).
Proof.
  unfold Offset, Capacity, buffer_of, from_run. cbn [rangeOffset_ capacity_].
  pose proof (zlen_nonneg (text ++ [0])). rewrite load_n_ok by lia. by rewrite slice_all by lia.
Qed.

Lemma reads_from_run {S' E A} (P : A -> Prop) (m : res A) :
  reads P m -> total (S := S') (E := E) (from_run m).
Proof. intros (r & -> & _). apply total_from_run. by eexists. Qed.

(** A received buffer: the whole of its array, which a [size_t] below 2^31 counts. *)
Definition received_ok (dataBuffer : option DataBuffer) : Prop :=
  match dataBuffer with
  | Some b => buffer_wf b /\ rangeOffset_ b = 0
  | None => True
  end.

Lemma received_text b d {S' E} :
  received_ok (Some b) -> data_ b = Some d ->
  exists text, (forall s t, from_run (S := S') (E := E) (load_n d (Offset b) (Capacity b)) s t = Done (text, s, t)) /\
    zlen text < 2 ^ 31 /\ text = d.
Proof.
  intros ((_ & _ & _ & Hd) & Ho) E1. rewrite E1 in Hd. destruct Hd as (Hz & Hmax).
  unfold DSCHED_MAX_BUFFER_SIZE in Hmax. exists d. unfold Offset, Capacity. rewrite Ho.
  split_and!; [|lia|done]. intros s t. unfold from_run. rewrite load_n_ok by lia.
  by rewrite slice_all by lia.
Qed.

End Reading.
