(* ===== verification/Continue.v ===== *)
(** * A continuation

    services/dtbschedmgr/src/continue/dsched_continue.cpp and the state classes of
    services/dtbschedmgr/src/continue/state/: one object per continuation on each
    device.  Other threads post events to it; its event thread takes them one at a
    time and gives them to the current state, whose table selects the handler.

    The object is [DSchedContinue], its handlers computations of [Effects.v] over
    it.  The event queue of the eventhandler library is the field [queue_]: events
    are sent without delay and with one priority, and delivered in the order sent.
    The services the code asks are the oracles of [Env]; the requests that change
    something outside are effects.  Reports to the statistics classes
    ([DmsContinueTime], [DmsRadar], [DmsUE]) are left out: nothing is read back
    from them but the text of the save-data duration. *)

From Stdlib Require Import ZArith Lia String.
From stdpp Require Import base list option.
From S2P Require Import Prelude ErrorCodes DataBuffer StdMap StdString Base64 Framework ContinueEvent Effects.

(** ** Data *)

Inductive DSchedContinueStateType :=
| DSCHED_CONTINUE_SOURCE_START_STATE
| DSCHED_CONTINUE_ABILITY_STATE
| DSCHED_CONTINUE_SOURCE_WAIT_END_STATE
| DSCHED_CONTINUE_SOURCE_END_STATE
| DSCHED_CONTINUE_SINK_START_STATE
| DSCHED_CONTINUE_DATA_STATE
| DSCHED_CONTINUE_SINK_WAIT_END_STATE
| DSCHED_CONTINUE_SINK_END_STATE.

#[export] Instance state_type_eq_dec : EqDecision DSchedContinueStateType.
Proof. solve_decision. Defined.

Definition CONTINUE_SOURCE : Z := 0.
Definition CONTINUE_SINK : Z := 1.
Definition CONTINUE_PULL : Z := 0.
Definition CONTINUE_PUSH : Z := 1.

Definition SERVICE_TYPE_CONTINUE : Z := 0.
Definition INVALID_SESSION_ID : Z := -1.
Definition INVALID_ACCOUNT_ID : Z := -1.
Definition DSCHED_CONTINUE_PROTOCOL_VERSION : Z := 1.
Definition MAX_MODULENAME_LEN : Z := 2048.
Definition DEFAULT_REQUEST_CODE : Z := -1.
Definition DMS_VERSION : Z := 6.
Definition START_PERMISSION : Z := 0.
Definition GET_ABILITY_STATE_RETRY_TIMES : nat := 40.
Definition GET_ABILITY_STATE_SLEEP_TIME : Z := 50.
Definition QUICK_START_SUCCESS : Z := 0.
Definition QUICK_START_FAILED : Z := 1.
Definition DMS_DSCHED_EVENT_START : Z := 1.
Definition DMS_DSCHED_EVENT_STOP : Z := 3.
Definition DMS_DSCHED_EVENT_FINISH : Z := 4.
Definition DMS_CONTINUE : Z := 0.

(** [FLAG_ABILITY_CONTINUATION] and [FLAG_ABILITY_PREPARE_CONTINUATION] of [Want]
    are library constants; the model takes them from the environment. *)
Definition VERSION_CODE_KEY : bytes := Eval vm_compute in str "version".
Definition SUPPORT_CONTINUE_PAGE_STACK_KEY : bytes :=
  Eval vm_compute in str "ohos.extra.param.key.supportContinuePageStack".
Definition SUPPORT_CONTINUE_SOURCE_EXIT_KEY : bytes :=
  Eval vm_compute in str "ohos.extra.param.key.supportContinueSourceExit".
Definition SUPPORT_CONTINUE_MODULE_NAME_UPDATE_KEY : bytes :=
  Eval vm_compute in str "ohos.extra.param.key.supportContinueModuleNameUpdate".
Definition DMSDURATION_SAVETIME : bytes := Eval vm_compute in str "ohos.dschedule.SaveDataTime".
Definition DMS_PERSISTENT_ID : bytes := Eval vm_compute in str "ohos.dms.persistentId".
Definition DMS_CONTINUE_SESSION_ID : bytes := Eval vm_compute in str "ohos.dms.continueSessionId".
Definition QUICK_START_CONFIGURATION : bytes := Eval vm_compute in str "_ContinueQuickStart".
Definition QUICK_START_SUCCESS_MESSAGE : bytes := Eval vm_compute in str "quickstart success.".

Record DSchedContinueInfo := mkContinueInfo {
  sourceDeviceId_ : bytes;
  sourceBundleName_ : bytes;
  sinkDeviceId_ : bytes;
  sinkBundleName_ : bytes;
  continueType_ : bytes;
  sinkAbilityName_ : bytes;
  missionId_ : Z;
  continueSessionId_ : bytes;
  sinkMissionId_ : Z
}.

Record EventNotify := mkEventNotify {
  eventResult_ : Z;
  ev_srcNetworkId_ : bytes;
  ev_dstNetworkId_ : bytes;
  ev_srcBundleName_ : bytes;
  ev_srcModuleName_ : bytes;
  ev_srcAbilityName_ : bytes;
  ev_destBundleName_ : bytes;
  ev_destModuleName_ : bytes;
  ev_destAbilityName_ : bytes;
  ev_developerId_ : bytes;
  dSchedEventType_ : Z;
  state_ : Z
}.

(** What [DmsBmStorage::GetContinueEventInfo] fills in. *)
Record ContinueEventInfo := mkContinueEventInfo {
  info_networkId : bytes;
  info_bundleName : bytes;
  info_moduleName : bytes;
  info_abilityName : bytes;
  info_developerId : bytes
}.

Record DmsAbilityInfo := mkDmsAbilityInfo {
  abilityName : bytes;
  ability_continueType : list bytes;
  moduleName : bytes;
  continueBundleName : list bytes
}.

Record DmsBundleInfo := mkDmsBundleInfo {
  appIdentifierVec : list bytes;
  dmsAbilityInfos : list DmsAbilityInfo
}.

Record StateCallbackInfo := mkStateCallbackInfo {
  cb_missionId : Z;
  cb_bundleName : bytes;
  cb_moduleName : bytes;
  cb_abilityName : bytes
}.

(** ** Continue types *)

(** [CheckQuickStartConfiguration] of [continueInfo_.continueType_]. *)
Definition has_quick_start_suffix (continueType : bytes) : bool :=
  let suffix := QUICK_START_CONFIGURATION in
  if zlen continueType <? zlen suffix then false
  else rfind continueType suffix =? zlen continueType - zlen suffix.

Definition ContinueTypeFormat (continueType : bytes) : bytes :=
  let suffix := QUICK_START_CONFIGURATION in
  if (zlen suffix <=? zlen continueType)
     && (rfind continueType suffix =? zlen continueType - zlen suffix)
  then substr0 continueType (rfind continueType QUICK_START_CONFIGURATION)
  else continueType.

(** The first continue type of an ability that matches. *)
Fixpoint has_continue_type (srcContinueType : bytes) (continueTypes : list bytes) : bool :=
  match continueTypes with
  | [] => false
  | t :: continueTypes =>
    if negb (bytes_eqb (ContinueTypeFormat t) srcContinueType)
    then has_continue_type srcContinueType continueTypes
    else true
  end.

(** [FindSinkContinueAbilityInfo]: the abilities found so far are [result]; the one
    in the source's module replaces them and ends the search. *)
Fixpoint FindSinkContinueAbilityInfo (srcModuleName srcContinueType : bytes)
    (dmsAbilityInfos result : list DmsAbilityInfo) : list DmsAbilityInfo :=
  match dmsAbilityInfos with
  | [] => result
  | a :: dmsAbilityInfos =>
    if has_continue_type srcContinueType (ability_continueType a) then
      if bytes_eqb srcModuleName (moduleName a) then [a]
      else FindSinkContinueAbilityInfo srcModuleName srcContinueType dmsAbilityInfos (result ++ [a])
    else FindSinkContinueAbilityInfo srcModuleName srcContinueType dmsAbilityInfos result
  end.

Definition QUICK_START_FAILED_MESSAGE : bytes :=
  Eval vm_compute in str "quickstart failed. error code: ".

Section Continue.
Context {J : CJson} {N : NJson} {W : WantLib} {PL : ParcelLib}.

Record ContinueAbilityData := mkContinueAbilityData {
  ability_want : Want;
  callerUid : Z;
  ability_accessToken : Z
}.

(** An [InnerEvent]: its identifier and the object it carries, which is always of the
    type the handlers of that identifier ask for.  The start events carry the result
    of [GetSharedObject<DistributedWantParams>] on the posted [AAFwk::WantParams]. *)
Inductive InnerEvent :=
| DSCHED_CONTINUE_REQ_PULL_EVENT (wantParams : option WantParams)
| DSHCED_CONTINUE_REQ_PUSH_EVENT (wantParams : option WantParams)
| DSHCED_CONTINUE_ABILITY_EVENT (appVersion : Z)
| DSHCED_CONTINUE_SEND_DATA_EVENT (data : option ContinueAbilityData)
| DSCHED_CONTINUE_DATA_EVENT (cmd : option DSchedContinueDataCmd)
| DSCHED_CONTINUE_COMPLETE_EVENT (result : Z)
| DSCHED_CONTINUE_END_EVENT (result : Z).

(** [currentState_] is the state machine's; [callback_] and [eventHandler_] say whether
    the pointers are set; [hasResult_] is the manager's. *)
Record DSchedContinue := mkContinue {
  version_ : Z;
  subServiceType_ : Z;
  continueByType_ : Z;
  direction_ : Z;
  continueInfo_ : DSchedContinueInfo;
  isSourceExit_ : bool;
  softbusSessionId_ : Z;
  callback_ : bool;
  eventData_ : EventNotify;
  accountId_ : Z;
  userId_ : Z;
  stateMachine_ : bool;
  currentState_ : option DSchedContinueStateType;
  eventHandler_ : bool;
  queue_ : list InnerEvent;
  hasResult_ : bool
}.

(** What the object and, in the last three, its manager do to the outside.  [Query] is a question that changes nothing;
    it is recorded so that later answers may differ. *)
Inductive Effect :=
| Query
| UpdateContinueSessionId (bundleName abilityName : bytes)
| ConnectDevice (peerDeviceId : bytes)
| DisconnectDevice (peerDeviceId : bytes)
| SendData (sessionId : Z) (data : bytes)
| ContinueAbility (deviceId : bytes) (missionId appVersion userId : Z)
| PermissionChecked (ret : Z)
| SleepMs (ms : Z)
| AmsStartAbility (want : Want) (requestCode accountId : Z)
| CleanMission (missionId : Z)
| NotifyCallback (code : Z)
| NotifyDSchedEvent (result : Z) (eventData : EventNotify)
| PublishContinueEvent (info : DSchedContinueInfo)
| ManagerOnContinueEnd (info : DSchedContinueInfo)
| NotifyQuickStartState (info : StateCallbackInfo) (state : Z) (message : bytes)
| ClearContinueSessionId
| AddDeathRecipient (callback : Z)
| SendStateCallback (callback state : Z) (message : bytes).

(** The services around the object.  [mission_manager] and [multi_accounts] are the
    build flags SUPPORT_DISTRIBUTED_MISSION_MANAGER and
    DMSFWK_ENABLE_MULTI_DISTRIBUTED_ACCOUNTS. *)
Class Env := {
  mission_manager : bool;
  multi_accounts : bool;
  FLAG_ABILITY_CONTINUATION : Z;
  FLAG_ABILITY_PREPARE_CONTINUATION : Z;
  PARAM_APP_CLONE_INDEX_KEY : bytes;
  PARAM_MODULE_NAME : bytes;
  hotspot_errors : list Z;
  busy_link_errors : list Z;
  SendEvent_ok : list Effect -> bool;
  GetForegroundUserId : list Effect -> Z;
  GetContinueEventInfo : list Effect -> bytes -> bytes -> bytes -> ContinueEventInfo;
  (** The result and the session id when it was assigned. *)
  ConnectDevice_ret : list Effect -> bytes -> Z * option Z;
  SendData_ret : list Effect -> Z -> bytes -> Z;
  (** [GetLocalBundleInfoV9]: the result and the version code. *)
  GetLocalBundleInfoV9 : list Effect -> bytes -> Z * Z;
  (** [GetLocalBundleInfo]: the result, the version code, the ability names. *)
  GetLocalBundleInfo : list Effect -> bytes -> Z * (Z * list bytes);
  GetAppProvisionInfo4CurrentUser : list Effect -> bytes -> bool * (bytes * bytes);
  GetAbilityName : list Effect -> bytes -> bytes -> bytes -> bytes;
  GetCallerAppIdFromBms : list Effect -> Z -> option bytes;
  GetBundleNameListFromBms : list Effect -> Z -> option (list bytes);
  IsSameDeveloperId : list Effect -> bytes -> bytes -> bool;
  GetAccountInfo : list Effect -> bytes -> CallerInfo -> Z * AccountInfo;
  GetDistributedBundleInfo : list Effect -> bytes -> bytes -> option DmsBundleInfo;
  GetLocalDeviceId_r : list Effect -> option bytes;
  VerifySourceDeviceConnected : list Effect -> CallerInfo -> bool;
  CheckTargetPermission : list Effect -> Want -> CallerInfo -> AccountInfo -> Z -> bool -> Z;
  CheckTargetPermission4DiffBundle :
    list Effect -> Want -> CallerInfo -> AccountInfo -> Z -> bool -> Z;
  (** [GetMissionInfo]: the result, whether the mission may be continued, its bundle. *)
  GetMissionInfo : list Effect -> Z -> Z * (bool * bytes);
  (** [DmsContinueConditionMgr::GetMissionIdByBundleName]: the result and the mission. *)
  GetMissionIdByBundleName_r : list Effect -> Z -> bytes -> Z -> Z * Z;
  ContinueAbility_ret : list Effect -> Z;
  AmsConnect : list Effect -> Z;
  AmsStartAbility_ret : list Effect -> Want -> Z;
  IsSceneBoardEnabled : list Effect -> bool;
  GetContinueSessionId : list Effect -> bytes;
  GetPersistentId : list Effect -> option bytes -> Z * Z;
  GetAbilityStateByPersistentId : list Effect -> Z -> Z * bool;
  SaveDataDuration : list Effect -> bytes;
  WriteCallbackParcel : list Effect -> bool;
  NotifyQuickStartState_ret : list Effect -> Z
}.

Context {Ev : Env}.

Definition C (A : Type) : Type := M DSchedContinue Effect A.

Definition ask {A} (oracle : list Effect -> A) : C A := call Query oracle.

(** ** Updates of single members *)

Definition set_continueInfo (i : DSchedContinueInfo) (s : DSchedContinue) : DSchedContinue :=
  mkContinue (version_ s) (subServiceType_ s) (continueByType_ s) (direction_ s) i
    (isSourceExit_ s) (softbusSessionId_ s) (callback_ s) (eventData_ s) (accountId_ s) (userId_ s)
    (stateMachine_ s) (currentState_ s) (eventHandler_ s) (queue_ s) (hasResult_ s).
Definition set_isSourceExit (b : bool) (s : DSchedContinue) : DSchedContinue :=
  mkContinue (version_ s) (subServiceType_ s) (continueByType_ s) (direction_ s) (continueInfo_ s)
    b (softbusSessionId_ s) (callback_ s) (eventData_ s) (accountId_ s) (userId_ s)
    (stateMachine_ s) (currentState_ s) (eventHandler_ s) (queue_ s) (hasResult_ s).
Definition set_softbusSessionId (z : Z) (s : DSchedContinue) : DSchedContinue :=
  mkContinue (version_ s) (subServiceType_ s) (continueByType_ s) (direction_ s) (continueInfo_ s)
    (isSourceExit_ s) z (callback_ s) (eventData_ s) (accountId_ s) (userId_ s)
    (stateMachine_ s) (currentState_ s) (eventHandler_ s) (queue_ s) (hasResult_ s).
Definition set_callback (b : bool) (s : DSchedContinue) : DSchedContinue :=
  mkContinue (version_ s) (subServiceType_ s) (continueByType_ s) (direction_ s) (continueInfo_ s)
    (isSourceExit_ s) (softbusSessionId_ s) b (eventData_ s) (accountId_ s) (userId_ s)
    (stateMachine_ s) (currentState_ s) (eventHandler_ s) (queue_ s) (hasResult_ s).
Definition set_eventData (e : EventNotify) (s : DSchedContinue) : DSchedContinue :=
  mkContinue (version_ s) (subServiceType_ s) (continueByType_ s) (direction_ s) (continueInfo_ s)
    (isSourceExit_ s) (softbusSessionId_ s) (callback_ s) e (accountId_ s) (userId_ s)
    (stateMachine_ s) (currentState_ s) (eventHandler_ s) (queue_ s) (hasResult_ s).
Definition set_currentState (c : option DSchedContinueStateType) (s : DSchedContinue) : DSchedContinue :=
  mkContinue (version_ s) (subServiceType_ s) (continueByType_ s) (direction_ s) (continueInfo_ s)
    (isSourceExit_ s) (softbusSessionId_ s) (callback_ s) (eventData_ s) (accountId_ s) (userId_ s)
    (stateMachine_ s) c (eventHandler_ s) (queue_ s) (hasResult_ s).
Definition set_queue (q : list InnerEvent) (s : DSchedContinue) : DSchedContinue :=
  mkContinue (version_ s) (subServiceType_ s) (continueByType_ s) (direction_ s) (continueInfo_ s)
    (isSourceExit_ s) (softbusSessionId_ s) (callback_ s) (eventData_ s) (accountId_ s) (userId_ s)
    (stateMachine_ s) (currentState_ s) (eventHandler_ s) q (hasResult_ s).

Definition set_hasResult (b : bool) (s : DSchedContinue) : DSchedContinue :=
  mkContinue (version_ s) (subServiceType_ s) (continueByType_ s) (direction_ s) (continueInfo_ s)
    (isSourceExit_ s) (softbusSessionId_ s) (callback_ s) (eventData_ s) (accountId_ s) (userId_ s)
    (stateMachine_ s) (currentState_ s) (eventHandler_ s) (queue_ s) b.

Definition set_missionId (z : Z) (s : DSchedContinue) : DSchedContinue :=
  let i := continueInfo_ s in
  set_continueInfo (mkContinueInfo (sourceDeviceId_ i) (sourceBundleName_ i) (sinkDeviceId_ i)
    (sinkBundleName_ i) (continueType_ i) (sinkAbilityName_ i) z (continueSessionId_ i)
    (sinkMissionId_ i)) s.
Definition set_sinkAbilityName (b : bytes) (s : DSchedContinue) : DSchedContinue :=
  let i := continueInfo_ s in
  set_continueInfo (mkContinueInfo (sourceDeviceId_ i) (sourceBundleName_ i) (sinkDeviceId_ i)
    (sinkBundleName_ i) (continueType_ i) b (missionId_ i) (continueSessionId_ i)
    (sinkMissionId_ i)) s.
Definition set_continueSessionId (b : bytes) (s : DSchedContinue) : DSchedContinue :=
  let i := continueInfo_ s in
  set_continueInfo (mkContinueInfo (sourceDeviceId_ i) (sourceBundleName_ i) (sinkDeviceId_ i)
    (sinkBundleName_ i) (continueType_ i) (sinkAbilityName_ i) (missionId_ i) b
    (sinkMissionId_ i)) s.
Definition set_sinkMissionId (z : Z) (s : DSchedContinue) : DSchedContinue :=
  let i := continueInfo_ s in
  set_continueInfo (mkContinueInfo (sourceDeviceId_ i) (sourceBundleName_ i) (sinkDeviceId_ i)
    (sinkBundleName_ i) (continueType_ i) (sinkAbilityName_ i) (missionId_ i) (continueSessionId_ i)
    z) s.
Definition set_state (z : Z) (e : EventNotify) : EventNotify :=
  mkEventNotify (eventResult_ e) (ev_srcNetworkId_ e) (ev_dstNetworkId_ e) (ev_srcBundleName_ e)
    (ev_srcModuleName_ e) (ev_srcAbilityName_ e) (ev_destBundleName_ e) (ev_destModuleName_ e)
    (ev_destAbilityName_ e) (ev_developerId_ e) (dSchedEventType_ e) z.

(** ** Posting events *)

(** [eventHandler_->SendEvent(event, 0, IMMEDIATE)]. *)
Definition SendEvent (event : InnerEvent) : C bool :=
  let! sent := ask SendEvent_ok in
  do! when sent do modify (fun s => set_queue (queue_ s ++ [event]) s) in
  mret sent.

(** The end every [Post...Task] shares. *)
Definition post_event (event : InnerEvent) : C Z :=
  let! s := get in
  if negb (eventHandler_ s) then mret Dms.INVALID_PARAMETERS_ERR
  else
    let! sent := SendEvent event in
    if negb sent then mret Dms.CONTINUE_SEND_EVENT_FAILED
    else mret ERR_OK.

Definition PostStartTask (wantParams : option WantParams) : C Z :=
  let! s := get in
  post_event (if subServiceType_ s =? CONTINUE_PULL
    then DSCHED_CONTINUE_REQ_PULL_EVENT wantParams else DSHCED_CONTINUE_REQ_PUSH_EVENT wantParams).
Definition OnContinueMission (wantParams : option WantParams) : C Z := PostStartTask wantParams.

Definition PostCotinueAbilityTask (appVersion : Z) : C Z :=
  post_event (DSHCED_CONTINUE_ABILITY_EVENT appVersion).
Definition OnStartCmd (appVersion : Z) : C Z := PostCotinueAbilityTask appVersion.

Definition PostReplyTask (cmd : option DSchedContinueReplyCmd) : C Z :=
  match cmd with
  | None => mret Dms.INVALID_PARAMETERS_ERR
  | Some cmd =>
    if replyCmd_ cmd =? DSCHED_CONTINUE_CMD_START then
      post_event (DSHCED_CONTINUE_ABILITY_EVENT (reply_appVersion_ cmd))
    else if replyCmd_ cmd =? DSCHED_CONTINUE_CMD_END then
      post_event (DSCHED_CONTINUE_END_EVENT (reply_result_ cmd))
    else mret ERR_OK
  end.
Definition OnReplyCmd (cmd : option DSchedContinueReplyCmd) : C Z := PostReplyTask cmd.

Definition PostContinueSendTask (want : Want) (callerUid status accessToken : Z) : C Z :=
  let! s := get in
  if negb (eventHandler_ s) then mret Dms.INVALID_PARAMETERS_ERR
  else if negb (status =? ERR_OK) then
    let! sent := SendEvent (DSCHED_CONTINUE_END_EVENT status) in
    if negb sent then mret Dms.CONTINUE_SEND_EVENT_FAILED else mret ERR_OK
  else
    let data := mkContinueAbilityData want callerUid accessToken in
    let! sent := SendEvent (DSHCED_CONTINUE_SEND_DATA_EVENT (Some data)) in
    if negb sent then mret Dms.CONTINUE_SEND_EVENT_FAILED else mret ERR_OK.
Definition OnStartContinuation (want : Want) (callerUid status accessToken : Z) : C Z :=
  PostContinueSendTask want callerUid status accessToken.

Definition PostContinueDataTask (cmd : option DSchedContinueDataCmd) : C Z :=
  post_event (DSCHED_CONTINUE_DATA_EVENT cmd).
Definition OnContinueDataCmd (cmd : option DSchedContinueDataCmd) : C Z := PostContinueDataTask cmd.

Definition PostNotifyCompleteTask (result : Z) : C Z :=
  post_event (DSCHED_CONTINUE_COMPLETE_EVENT result).

Definition OnNotifyComplete (missionId : Z) (isSuccess : bool) : C Z :=
  if negb isSuccess then
    do! PostNotifyCompleteTask Dms.CONTINUE_CALL_START_ABILITY_FAILED in mret ERR_OK
  else if missionId <=? 0 then
    do! PostNotifyCompleteTask Dms.INVALID_PARAMETERS_ERR in mret ERR_OK
  else
    do! PostNotifyCompleteTask ERR_OK in mret ERR_OK.

Definition OnContinueEndCmd (cmd : option DSchedContinueEndCmd) : C Z :=
  match cmd with
  | None => mret Dms.INVALID_PARAMETERS_ERR
  | Some cmd => PostNotifyCompleteTask (end_result_ cmd)
  end.

Definition PostContinueEndTask (result : Z) : C Z :=
  post_event (DSCHED_CONTINUE_END_EVENT result).
Definition OnContinueEnd (result : Z) : C Z := PostContinueEndTask result.

(** ** Construction *)

(** [DSchedContinueStateMachine::UpdateState]: nothing without a state machine. *)
Definition UpdateState (stateType : DSchedContinueStateType) : C unit :=
  let! s := get in
  when stateMachine_ s do modify (set_currentState (Some stateType)).

Definition SetEventData : C unit :=
  let! s := get in
  let i := continueInfo_ s in
  let! src := ask (fun t => GetContinueEventInfo t (sourceDeviceId_ i) (sourceBundleName_ i) (continueType_ i)) in
  let! dst := ask (fun t => GetContinueEventInfo t (sinkDeviceId_ i) (sinkBundleName_ i) (continueType_ i)) in
  modify (set_eventData (mkEventNotify 0 (info_networkId src) (info_networkId dst)
    (info_bundleName src) (info_moduleName src) (info_abilityName src) (info_bundleName dst)
    (info_moduleName dst) (info_abilityName dst) (info_developerId src) DMS_CONTINUE
    DMS_DSCHED_EVENT_START)).

Definition NotifyDSchedEventResult (result : Z) : C unit :=
  let result := if result =? ERR_OK then ERR_OK else Dms.NOTIFYCOMPLETECONTINUATION_FAILED in
  let! s := get in
  emit (NotifyDSchedEvent result (eventData_ s)).

Definition EventNotify_default : EventNotify :=
  mkEventNotify (-1) [] [] [] [] [] [] [] [] [] (-1) 0.
Definition ContinueInfo_default : DSchedContinueInfo := mkContinueInfo [] [] [] [] [] [] 0 [] 0.
Definition Continue_default : DSchedContinue :=
  mkContinue 0 0 0 0 ContinueInfo_default true INVALID_SESSION_ID false EventNotify_default
    INVALID_ACCOUNT_ID INVALID_ACCOUNT_ID false None false [] false.

Definition foreground_user (old : Z) : C Z :=
  if multi_accounts then ask GetForegroundUserId else mret old.

Definition set_accounts (account user : Z) (s : DSchedContinue) : DSchedContinue :=
  mkContinue (version_ s) (subServiceType_ s) (continueByType_ s) (direction_ s) (continueInfo_ s)
    (isSourceExit_ s) (softbusSessionId_ s) (callback_ s) (eventData_ s) account user
    (stateMachine_ s) (currentState_ s) (eventHandler_ s) (queue_ s) (hasResult_ s).

(** The constructor of the device where the continuation is requested. *)
Definition construct_request (subServiceType direction : Z) (callback : bool)
    (continueInfo : DSchedContinueInfo) (accountId : Z) : C unit :=
  do! modify (fun _ => mkContinue DSCHED_CONTINUE_PROTOCOL_VERSION subServiceType
    (if empty (continueType_ continueInfo) then 0 else 1) direction continueInfo true
    INVALID_SESSION_ID callback EventNotify_default accountId INVALID_ACCOUNT_ID
    false None false [] false) in
  let! user := foreground_user INVALID_ACCOUNT_ID in
  do! modify (set_accounts accountId user) in
  do! SetEventData in
  NotifyDSchedEventResult ERR_OK.

(** The constructor of the device that received a start command.  When it returns
    early the account is left at its default. *)
Definition construct_peer (startCmd : option DSchedContinueStartCmd) (sessionId accountId : Z)
    : C unit :=
  match startCmd with
  | None => modify (fun _ => Continue_default)
  | Some startCmd =>
    let b := start_base startCmd in
    let info := mkContinueInfo (srcDeviceId_ b) (srcBundleName_ b) (dstDeviceId_ b)
      (dstBundleName_ b) (ContinueEvent.continueType_ b) [] (sourceMissionId_ b) [] 0 in
    do! modify (fun _ => mkContinue DSCHED_CONTINUE_PROTOCOL_VERSION
      (ContinueEvent.subServiceType_ b) (ContinueEvent.continueByType_ b)
      (if start_direction_ startCmd =? CONTINUE_SOURCE then CONTINUE_SINK else CONTINUE_SOURCE)
      info true sessionId false EventNotify_default INVALID_ACCOUNT_ID INVALID_ACCOUNT_ID
      false None false [] false) in
    do! SetEventData in
    do! NotifyDSchedEventResult ERR_OK in
    let! early :=
      if empty (sourceBundleName_ info) && empty (sinkBundleName_ info) && negb (missionId_ info =? 0)
      then
        let! (ret, (_, bundle)) := ask (fun t => GetMissionInfo t (missionId_ info)) in
        if negb (ret =? ERR_OK) then mret true
        else
          do! modify (set_continueInfo (mkContinueInfo (sourceDeviceId_ info) bundle
            (sinkDeviceId_ info) bundle (continueType_ info) (sinkAbilityName_ info)
            (missionId_ info) (continueSessionId_ info) (sinkMissionId_ info))) in
          mret false
      else mret false in
    if (early : bool) then mret tt
    else
      let! user := foreground_user INVALID_ACCOUNT_ID in
      modify (set_accounts accountId user)
  end.

(** [Init]: the state machine in the first state of the direction, and the event thread. *)
Definition start_machine (s : DSchedContinue) : DSchedContinue :=
  mkContinue (version_ s) (subServiceType_ s) (continueByType_ s) (direction_ s) (continueInfo_ s)
    (isSourceExit_ s) (softbusSessionId_ s) (callback_ s) (eventData_ s) (accountId_ s) (userId_ s)
    true None (eventHandler_ s) (queue_ s) (hasResult_ s).
Definition start_handler (s : DSchedContinue) : DSchedContinue :=
  mkContinue (version_ s) (subServiceType_ s) (continueByType_ s) (direction_ s) (continueInfo_ s)
    (isSourceExit_ s) (softbusSessionId_ s) (callback_ s) (eventData_ s) (accountId_ s) (userId_ s)
    (stateMachine_ s) (currentState_ s) true (queue_ s) (hasResult_ s).

Definition Init : C Z :=
  let! s := get in
  if eventHandler_ s then mret ERR_OK
  else
    do! modify start_machine in
    do! (if direction_ s =? CONTINUE_SOURCE then UpdateState DSCHED_CONTINUE_SOURCE_START_STATE
         else UpdateState DSCHED_CONTINUE_SINK_START_STATE) in
    do! modify start_handler in
    mret ERR_OK.

(** ** Sending commands *)

Definition base_cmd (s : DSchedContinue) (command : Z) (srcDeveloperId : bytes)
    : DSchedContinueCmdBase :=
  let i := continueInfo_ s in
  mkCmdBase (version_ s) SERVICE_TYPE_CONTINUE (subServiceType_ s) command (sourceDeviceId_ i)
    (sourceBundleName_ i) srcDeveloperId (sinkDeviceId_ i) (sinkBundleName_ i) []
    (continueType_ i) (continueByType_ s) (missionId_ i) DMS_VERSION.

Definition PackReplyCmd (replyCmd appVersion result : Z) (reason : bytes) : C DSchedContinueReplyCmd :=
  let! s := get in
  mret (mkReplyCmd (base_cmd s DSCHED_CONTINUE_CMD_REPLY []) replyCmd appVersion result reason).

Definition PackEndCmd (result : Z) : C DSchedContinueEndCmd :=
  let! s := get in
  mret (mkEndCmd (base_cmd s DSCHED_CONTINUE_CMD_END []) result).

Definition PackStartCmd (wantParams : option WantParams) : C (Z + DSchedContinueStartCmd) :=
  match wantParams with
  | None => mret (inl Dms.INVALID_PARAMETERS_ERR)
  | Some wantParams =>
    let! s := get in
    let b := base_cmd s DSCHED_CONTINUE_CMD_START [] in
    if (subServiceType_ s =? CONTINUE_PULL) && (missionId_ (continueInfo_ s) =? 0) then
      let! (ret, versionCode) := ask (fun t => GetLocalBundleInfoV9 t (sinkBundleName_ (continueInfo_ s))) in
      if negb (ret =? ERR_OK) then mret (inl ret)
      else mret (inr (mkStartCmd b (direction_ s) (to_int32 versionCode) wantParams))
    else mret (inr (mkStartCmd b (direction_ s) 0 wantParams))
  end.

(** [marshal] is the virtual call [cmd->Marshal(jsonStr)]; the buffer keeps a null byte
    after the text. *)
Definition SendCommand (marshal : res bytes) : C Z :=
  let! marshalled := from_run marshal in
  match marshalled with
  | inl ret => mret ret
  | inr jsonStr =>
    let buffer := make_buffer (zlen jsonStr + 1) in
    let! (ret, data) :=
      from_run (memcpy_s (data_ buffer) 0 (Capacity buffer) (Some jsonStr) 0 (zlen jsonStr)) in
    if negb (ret =? ERR_OK) then mret ret
    else
      let! s := get in
      let buffer := set_data buffer data in
      let! ret := call (SendData (softbusSessionId_ s) (content buffer))
        (fun t => SendData_ret t (softbusSessionId_ s) (content buffer)) in
      if negb (ret =? ERR_OK) then mret ret else mret ERR_OK
  end.

(** ** Quick start *)

Definition CheckQuickStartConfiguration (s : DSchedContinue) : bool :=
  has_quick_start_suffix (continueType_ (continueInfo_ s)).

Definition GetAbilityNameByContinueType : C bytes :=
  let! s := get in
  let i := continueInfo_ s in
  let continueType :=
    if CheckQuickStartConfiguration s
    then substr0 (continueType_ i) (rfind (continueType_ i) QUICK_START_CONFIGURATION)
    else continueType_ i in
  let! abilityName :=
    ask (fun t => GetAbilityName t (sinkDeviceId_ i) (sinkBundleName_ i) continueType) in
  if negb (empty abilityName) then mret abilityName
  else
    ask (fun t => GetAbilityName t (sinkDeviceId_ i) (sinkBundleName_ i)
      (continueType ++ QUICK_START_CONFIGURATION)).

Definition QuerySinkAbilityName : C bytes :=
  let! abilityName := GetAbilityNameByContinueType in
  if negb (empty abilityName) then mret abilityName
  else
    let! s := get in
    let! (ret, (_, abilityInfos)) :=
      ask (fun t => GetLocalBundleInfo t (sinkBundleName_ (continueInfo_ s))) in
    if negb (ret =? ERR_OK) then mret abilityName
    else match abilityInfos with
    | [name] => mret name
    | _ => mret abilityName
    end.

Definition StartAbility (want : Want) (requestCode : Z) : C Z :=
  let want := SetParamInt want PARAM_APP_CLONE_INDEX_KEY 0 in
  let! ret := ask AmsConnect in
  if negb (ret =? ERR_OK) then mret ret
  else
    do! modify (set_sinkAbilityName (Framework.GetAbilityName want)) in
    let! s := get in
    let! ret := call (AmsStartAbility want DEFAULT_REQUEST_CODE (accountId_ s))
      (fun t => AmsStartAbility_ret t want) in
    if negb (ret =? ERR_OK) then mret ret else mret ret.

Definition QuickStartAbility : C Z :=
  let! enabled := ask IsSceneBoardEnabled in
  if negb enabled then mret Dms.INVALID_PARAMETERS_ERR
  else
    let! abilityName := QuerySinkAbilityName in
    if empty abilityName then mret Dms.INVALID_PARAMETERS_ERR
    else
      let! s := get in
      let bundle := sinkBundleName_ (continueInfo_ s) in
      do! emit (UpdateContinueSessionId bundle abilityName) in
      let! continueSessionId := ask GetContinueSessionId in
      do! modify (set_continueSessionId continueSessionId) in
      let want := SetElementName Want_empty [] bundle abilityName None in
      let want := SetParamString want DMS_CONTINUE_SESSION_ID continueSessionId in
      let want := SetFlags want FLAG_ABILITY_PREPARE_CONTINUATION in
      StartAbility want DEFAULT_REQUEST_CODE.

(** The mission of the sink: the one it started, or the one of its continue session. *)
Definition quick_start_mission : C (Z * Z) :=
  let! s := get in
  if negb (sinkMissionId_ (continueInfo_ s) =? 0)
  then mret (ERR_OK, sinkMissionId_ (continueInfo_ s))
  else ask (fun t => GetPersistentId t (Some (continueSessionId_ (continueInfo_ s)))).

Definition quick_start_state (state : Z) (message : bytes) : C Z :=
  let! (ret, missionId) := quick_start_mission in
  if negb (ret =? ERR_OK) then mret ret
  else
    let! s := get in
    let info := mkStateCallbackInfo missionId (sinkBundleName_ (continueInfo_ s))
      (ev_destModuleName_ (eventData_ s)) (sinkAbilityName_ (continueInfo_ s)) in
    call (NotifyQuickStartState info state message) NotifyQuickStartState_ret.

Definition ExecuteQuickStartSuccess : C Z :=
  quick_start_state QUICK_START_SUCCESS QUICK_START_SUCCESS_MESSAGE.

Definition ExecuteQuickStartFailed (result : Z) : C Z :=
  quick_start_state QUICK_START_FAILED (QUICK_START_FAILED_MESSAGE ++ to_string result).

(** ** Handlers *)

Definition peerDeviceId (s : DSchedContinue) : bytes :=
  if direction_ s =? CONTINUE_SOURCE then sinkDeviceId_ (continueInfo_ s)
  else sourceDeviceId_ (continueInfo_ s).

Definition connect_peer : C Z :=
  let! s := get in
  let! (ret, sessionId) := call (ConnectDevice (peerDeviceId s))
    (fun t => ConnectDevice_ret t (peerDeviceId s)) in
  do! match sessionId with
      | Some sessionId => modify (set_softbusSessionId sessionId)
      | None => mret tt
      end in
  mret ret.

Definition ExecuteContinueReq (wantParams : option WantParams) : C Z :=
  let! s := get in
  do! when (subServiceType_ s =? CONTINUE_PULL) && CheckQuickStartConfiguration s
      do (do! QuickStartAbility in mret tt) in
  let! ret := connect_peer in
  if negb (ret =? ERR_OK) then mret ret
  else
    let! packed := PackStartCmd wantParams in
    match packed with
    | inl ret => mret ret
    | inr startCmd =>
      let! ret := SendCommand (StartCmd.Marshal startCmd) in
      if negb (ret =? ERR_OK) then mret ret
      else
        do! when direction_ s =? CONTINUE_SINK do UpdateState DSCHED_CONTINUE_DATA_STATE in
        mret ERR_OK
    end.

Definition GetMissionIdByBundleName : C Z :=
  let! s := get in
  if mission_manager && (missionId_ (continueInfo_ s) =? 0) then
    let! (ret, missionId) := ask (fun t => GetMissionIdByBundleName_r t (accountId_ s)
      (sourceBundleName_ (continueInfo_ s)) (missionId_ (continueInfo_ s))) in
    do! modify (set_missionId missionId) in
    mret ret
  else mret ERR_OK.

Definition CheckContinueAbilityPermission : C Z :=
  let! s := get in
  let! (ret, (active, _)) := ask (fun t => GetMissionInfo t (missionId_ (continueInfo_ s))) in
  if negb (ret =? ERR_OK) then mret Dms.NO_MISSION_INFO_FOR_MISSION_ID
  else if negb active then mret Dms.MISSION_NOT_CONTINUE_ACTIVE
  else mret ERR_OK.

Definition ExecuteContinueAbility (appVersion : Z) : C Z :=
  let! result := GetMissionIdByBundleName in
  if negb (result =? ERR_OK) then mret result
  else
    let! result := CheckContinueAbilityPermission in
    if negb (result =? ERR_OK) then mret result
    else
      let! s := get in
      let i := continueInfo_ s in
      let! result := call (ContinueAbility (sinkDeviceId_ i) (missionId_ i) appVersion (userId_ s))
        ContinueAbility_ret in
      if negb (result =? ERR_OK) then mret Dms.CONTINUE_CALL_CONTINUE_ABILITY_FAILED
      else do! UpdateState DSCHED_CONTINUE_ABILITY_STATE in mret result.

Definition ExecuteContinueReply : C Z :=
  let! s := get in
  do! when (subServiceType_ s =? CONTINUE_PUSH) && CheckQuickStartConfiguration s
      do (do! QuickStartAbility in mret tt) in
  let! (ret, versionCode) :=
    ask (fun t => GetLocalBundleInfoV9 t (sinkBundleName_ (continueInfo_ s))) in
  if negb (ret =? ERR_OK) then mret Dms.INVALID_PARAMETERS_ERR
  else
    let! cmd := PackReplyCmd DSCHED_CONTINUE_CMD_START (to_int32 versionCode) ERR_OK
      (str "ExecuteContinueReply") in
    let! ret := SendCommand (ReplyCmd.Marshal cmd) in
    if negb (ret =? ERR_OK) then mret ret
    else do! UpdateState DSCHED_CONTINUE_DATA_STATE in mret ERR_OK.

Definition SetCleanMissionFlag (want : Want) : C unit :=
  match QueryBoolean want SUPPORT_CONTINUE_SOURCE_EXIT_KEY with
  | Some b => modify (set_isSourceExit b)
  | None => mret tt
  end.

Definition SetWantForContinuation (newWant : Want) : C (Z + Want) :=
  let! s := get in
  let newWant := SetParamInt newWant (str "sessionId") (missionId_ (continueInfo_ s)) in
  let newWant := SetParamString newWant (str "deviceId") (sourceDeviceId_ (continueInfo_ s)) in
  let! (ret, (versionCode, _)) := ask (fun t => GetLocalBundleInfo t (GetBundle newWant)) in
  if negb (ret =? ERR_OK) then mret (inl Dms.INVALID_PARAMETERS_ERR)
  else
    let newWant := SetParamInt newWant VERSION_CODE_KEY (to_int32 versionCode) in
    let isPageStackContinue := GetBoolParam newWant SUPPORT_CONTINUE_PAGE_STACK_KEY true in
    let moduleName := GetStringParam newWant SUPPORT_CONTINUE_MODULE_NAME_UPDATE_KEY in
    let newWant :=
      if negb isPageStackContinue && negb (empty moduleName) && (zlen moduleName <=? MAX_MODULENAME_LEN)
      then SetElementName newWant (GetDeviceID newWant) (GetBundle newWant)
        (Framework.GetAbilityName newWant) (Some moduleName)
      else newWant in
    let! saveDataTime := ask SaveDataDuration in
    mret (inr (SetParamString newWant DMSDURATION_SAVETIME saveDataTime)).

Definition PackDataCmd (want : Want) (abilityInfo : AbilityInfo) (callerInfo : CallerInfo)
    (accountInfo : AccountInfo) : C DSchedContinueDataCmd :=
  let! s := get in
  let! (_, (developerId, _)) :=
    ask (fun t => GetAppProvisionInfo4CurrentUser t (sourceBundleName_ (continueInfo_ s))) in
  mret (mkDataCmd (base_cmd s DSCHED_CONTINUE_CMD_DATA developerId) want abilityInfo
    DEFAULT_REQUEST_CODE callerInfo accountInfo).

Definition ExecuteContinueSend (data : option ContinueAbilityData) : C Z :=
  match data with
  | None => mret Dms.INVALID_PARAMETERS_ERR
  | Some data =>
    do! SetCleanMissionFlag (ability_want data) in
    if Z.land (GetFlags (ability_want data)) FLAG_ABILITY_CONTINUATION =? 0
    then mret Dms.INVALID_REMOTE_PARAMETERS_ERR
    else
      let! wanted := SetWantForContinuation (ability_want data) in
      match wanted with
      | inl _ => mret Dms.INVALID_PARAMETERS_ERR
      | inr newWant =>
        let! s := get in
        let uid := callerUid data in
        let! appId := ask (fun t => GetCallerAppIdFromBms t uid) in
        match appId with
        | None => mret Dms.INVALID_PARAMETERS_ERR
        | Some appId =>
          let! names := ask (fun t => GetBundleNameListFromBms t uid) in
          match names with
          | None => mret Dms.INVALID_PARAMETERS_ERR
          | Some names =>
            let callerInfo := mkCallerInfo uid (-1) 0 (sourceDeviceId_ (continueInfo_ s)) (-1) appId
              names (-1) (ability_accessToken data)
              (njson_set njson_null (str DMS_VERSION_ID) DMS_VERSION) in
            let! (ret, accountInfo) :=
              ask (fun t => GetAccountInfo t (sinkDeviceId_ (continueInfo_ s)) callerInfo) in
            if negb (ret =? ERR_OK) then mret ret
            else
              let! cmd := PackDataCmd newWant AbilityInfo_empty callerInfo accountInfo in
              let! ret := SendCommand (DataCmd.Marshal cmd) in
              if negb (ret =? ERR_OK) then mret ret
              else do! UpdateState DSCHED_CONTINUE_SOURCE_WAIT_END_STATE in mret ERR_OK
          end
        end
      end
  end.

(** ** The data command on the sink *)

Definition GetLocalDeviceId : C (option bytes) := ask GetLocalDeviceId_r.

Definition CheckDeviceIdFromRemote (s : DSchedContinue) (localDevId destDevId srcDevId : bytes)
    : bool :=
  if empty localDevId || empty destDevId || empty srcDevId then false
  else if negb (bytes_eqb localDevId destDevId) then false
  else if bytes_eqb srcDevId destDevId || bytes_eqb srcDevId localDevId then false
  else if negb (bytes_eqb srcDevId (sourceDeviceId_ (continueInfo_ s))) then false
  else true.

(** The answer of [CheckTargetPermission] or [CheckTargetPermission4DiffBundle]. *)
Definition check_target (diffBundle : bool) (cmd : DSchedContinueDataCmd) : C Z :=
  let check := if diffBundle then CheckTargetPermission4DiffBundle else CheckTargetPermission in
  let! t := trace in
  let ret := check t (want_ cmd) (callerInfo_ cmd) (accountInfo_ cmd) START_PERMISSION true in
  do! emit (PermissionChecked ret) in
  mret ret.

Definition CheckStartPermission (cmd : DSchedContinueDataCmd) : C Z :=
  let! s := get in
  let srcBundleName := srcBundleName_ (data_base cmd) in
  let dstBundleName := dstBundleName_ (data_base cmd) in
  let! bundleInfo :=
    ask (fun t => GetDistributedBundleInfo t (sourceDeviceId_ (continueInfo_ s)) srcBundleName) in
  let srcAppIdentifierVec :=
    match bundleInfo with Some b => appIdentifierVec b | None => [] end in
  let hasIdentifierFlag := negb (length srcAppIdentifierVec =? 0)%nat in
  let! (got, (_, appIdentifier)) := ask (fun t => GetAppProvisionInfo4CurrentUser t dstBundleName) in
  let! local :=
    if (got : bool) then
      let! (ret, _) := ask (fun t => GetLocalBundleInfo t dstBundleName) in mret (ret =? ERR_OK)
    else mret false in
  let appIdentifierSink := if (local : bool) then appIdentifier else [] in
  if hasIdentifierFlag then
    if negb (existsb (bytes_eqb appIdentifierSink) srcAppIdentifierVec)
    then mret Dms.INVALID_PARAMETERS_ERR
    else check_target true cmd
  else if bytes_eqb srcBundleName dstBundleName then check_target false cmd
  else
    let! same := ask (fun t => IsSameDeveloperId t dstBundleName (srcDeveloperId_ (data_base cmd))) in
    if negb same then mret Dms.INVALID_PARAMETERS_ERR
    else check_target true cmd.

Definition set_want (cmd : DSchedContinueDataCmd) (w : Want) : DSchedContinueDataCmd :=
  mkDataCmd (data_base cmd) w (abilityInfo_ cmd) (requestCode_ cmd) (callerInfo_ cmd) (accountInfo_ cmd).

(** The command with the element name of the ability that continues; unchanged on failure,
    which the caller only logs. *)
Definition UpdateElementInfo (cmd : DSchedContinueDataCmd) : C DSchedContinueDataCmd :=
  let srcModuleName :=
    let m := GetModuleName (want_ cmd) in
    if empty m then GetStringParam (want_ cmd) PARAM_MODULE_NAME else m in
  let srcContinueType := ContinueTypeFormat (ContinueEvent.continueType_ (data_base cmd)) in
  let! localDeviceId := GetLocalDeviceId in
  match localDeviceId with
  | None => mret cmd
  | Some localDeviceId =>
    let dstBundleName := dstBundleName_ (data_base cmd) in
    let! bundleInfo := ask (fun t => GetDistributedBundleInfo t localDeviceId dstBundleName) in
    match bundleInfo with
    | None => mret cmd
    | Some bundleInfo =>
      match FindSinkContinueAbilityInfo srcModuleName srcContinueType (dmsAbilityInfos bundleInfo) [] with
      | [] => mret cmd
      | finalAbility :: _ =>
        mret (set_want cmd (SetElementName (want_ cmd) (GetDeviceID (want_ cmd)) dstBundleName
          (abilityName finalAbility) (Some (moduleName finalAbility))))
      end
    end
  end.

Definition UpdateWantForContinueType (want : Want) : C Want :=
  let srcAbilityName := Framework.GetAbilityName want in
  let! sinkAbilityName := GetAbilityNameByContinueType in
  if negb (empty sinkAbilityName) && negb (bytes_eqb sinkAbilityName srcAbilityName) then
    let want := SetElementName want (GetDeviceID want) (GetBundle want) sinkAbilityName None in
    let want := RemoveParam want SUPPORT_CONTINUE_PAGE_STACK_KEY in
    mret (SetParamBool want SUPPORT_CONTINUE_PAGE_STACK_KEY false)
  else mret want.

(** The retry loop; [n] is [retryTimeout]. *)
Fixpoint wait_initial (persistentId : Z) (n : nat) : C bool :=
  match n with
  | O => mret false
  | S n =>
    let! (err, state) := ask (fun t => GetAbilityStateByPersistentId t persistentId) in
    if (err =? ERR_OK) && state then mret state
    else do! emit (SleepMs GET_ABILITY_STATE_SLEEP_TIME) in wait_initial persistentId n
  end.
Definition WaitAbilityStateInitial (persistentId : Z) : C bool :=
  wait_initial persistentId GET_ABILITY_STATE_RETRY_TIMES.

(** The persistent id of the window a quick start opened, in the want and the session. *)
Definition attach_window (want : Want) : C (option Want) :=
  let! (ret, persistentId) := ask (fun t => GetPersistentId t None) in
  if negb (ret =? ERR_OK) then mret None
  else
    do! WaitAbilityStateInitial persistentId in
    let want := SetParamInt want DMS_PERSISTENT_ID persistentId in
    let! (ret, persistentId) := ask (fun t => GetPersistentId t None) in
    if negb (ret =? ERR_OK) then mret None
    else
      do! modify (set_sinkMissionId persistentId) in
      mret (Some want).

Definition start_continued (want : Want) (requestCode : Z) : C Z :=
  let! ret := StartAbility want requestCode in
  do! when ret =? ERR_OK do UpdateState DSCHED_CONTINUE_SINK_WAIT_END_STATE in
  mret ret.

(** The sender's identity, its connection and its permissions. *)
Definition check_sender (cmd : DSchedContinueDataCmd) : C Z :=
  let! s := get in
  let! localDeviceId := GetLocalDeviceId in
  let deviceId := GetDeviceID (want_ cmd) in
  let! valid :=
    match localDeviceId with
    | None => mret false
    | Some localDeviceId =>
      if negb (CheckDeviceIdFromRemote s localDeviceId deviceId (sourceDeviceId (callerInfo_ cmd)))
      then mret false
      else ask (fun t => VerifySourceDeviceConnected t (callerInfo_ cmd))
    end in
  if negb valid then mret Dms.INVALID_REMOTE_PARAMETERS_ERR
  else CheckStartPermission cmd.

Definition ExecuteContinueData (cmd : option DSchedContinueDataCmd) : C Z :=
  match cmd with
  | None => mret Dms.INVALID_PARAMETERS_ERR
  | Some cmd =>
    let! cmd := UpdateElementInfo cmd in
    let! ret := check_sender cmd in
    if negb (ret =? ERR_OK) then mret ret
    else
      let! want := UpdateWantForContinueType (want_ cmd) in
      let! continueSessionId := ask GetContinueSessionId in
      if negb (empty continueSessionId) then
        let! attached := attach_window want in
        match attached with
        | None => OnContinueEnd Dms.DMS_GET_WINDOW_FAILED_FROM_SCB
        | Some want => start_continued want (requestCode_ cmd)
        end
      else start_continued want (requestCode_ cmd)
  end.

(** ** Ending *)

Definition ExecuteNotifyComplete (result : Z) : C Z :=
  let! s := get in
  if direction_ s =? CONTINUE_SINK then
    let! cmd := PackEndCmd result in
    let! ret := SendCommand (EndCmd.Marshal cmd) in
    if negb (ret =? ERR_OK) then mret ret
    else do! UpdateState DSCHED_CONTINUE_SINK_END_STATE in mret ERR_OK
  else
    let! cmd := PackReplyCmd DSCHED_CONTINUE_CMD_END 0 result (str "ExecuteNotifyComplete") in
    let! ret := SendCommand (ReplyCmd.Marshal cmd) in
    if negb (ret =? ERR_OK) then mret ret
    else
      do! UpdateState DSCHED_CONTINUE_SOURCE_END_STATE in
      do! PostContinueEndTask result in
      mret ERR_OK.

Definition ERROR_BASE_DSOFTBUS_WIFI : Z := -200000.
Definition ERROR_PEER_THREE_VAP_CONFLICT : Z := ERROR_BASE_DSOFTBUS_WIFI - 6604.

(** The initializer inserts its pairs in order; a repeated key is ignored. *)
Definition DMS_CONVERT_TO_SDK_ERR_MAP : std_map Z Z :=
  foldl (fun m p => map_emplace m p.1 p.2) []
    (List.map (fun e => (e, Dms.ERR_BIND_REMOTE_HOTSPOT_ENABLE_STATE)) hotspot_errors ++
     [(ERROR_PEER_THREE_VAP_CONFLICT, Dms.ERR_BIND_REMOTE_HOTSPOT_ENABLE_STATE)] ++
     List.map (fun e => (e, Dms.ERR_BIND_REMOTE_IN_BUSY_LINK)) busy_link_errors ++
     [(Dms.CONTINUE_ALREADY_IN_PROGRESS, Dms.ERR_CONTINUE_ALREADY_IN_PROGRESS)]).

Definition ConvertToDmsSdkErr (result : Z) : Z :=
  if result =? ERR_OK then result
  else match map_find DMS_CONVERT_TO_SDK_ERR_MAP result with
  | Some e => e
  | None => Dms.ERR_DMS_WORK_ABNORMALLY
  end.

Definition NotifyContinuationCallbackResult (result : Z) : C unit :=
  let! s := get in
  if negb (callback_ s) then mret tt
  else
    let! written := ask WriteCallbackParcel in
    if negb written then mret tt
    else
      do! emit (NotifyCallback (ConvertToDmsSdkErr result)) in
      modify (set_callback false).

(** The side that connected: the sink that pulls, the source that pushes. *)
Definition initiator (s : DSchedContinue) : bool :=
  ((subServiceType_ s =? CONTINUE_PULL) && (direction_ s =? CONTINUE_SINK))
  || ((subServiceType_ s =? CONTINUE_PUSH) && (direction_ s =? CONTINUE_SOURCE)).

Definition ExecuteContinueEnd (result : Z) : C Z :=
  let! s := get in
  do! when initiator s do emit (DisconnectDevice (peerDeviceId s)) in
  do! modify (fun s => set_eventData (set_state
    (if negb (result =? ERR_OK) then DMS_DSCHED_EVENT_STOP else DMS_DSCHED_EVENT_FINISH)
    (eventData_ s)) s) in
  do! when (result =? ERR_OK) && (direction_ s =? CONTINUE_SOURCE) && isSourceExit_ s
      do emit (CleanMission (missionId_ (continueInfo_ s))) in
  do! NotifyContinuationCallbackResult result in
  do! NotifyDSchedEventResult result in
  do! emit (PublishContinueEvent (continueInfo_ s)) in
  do! emit (ManagerOnContinueEnd (continueInfo_ s)) in
  mret ERR_OK.

Definition ExecuteContinueError (result : Z) : C Z :=
  let! cmd := PackEndCmd result in
  do! SendCommand (EndCmd.Marshal cmd) in
  let! s := get in
  do! (if direction_ s =? CONTINUE_SOURCE then UpdateState DSCHED_CONTINUE_SOURCE_END_STATE
       else UpdateState DSCHED_CONTINUE_SINK_END_STATE) in
  do! OnContinueEnd result in
  mret ERR_OK.

(** ** The states

    Each state's table of handlers is a function of the event; [None] is an event the
    table does not hold. *)

(** A handler followed by a notification of the quick start. *)
Definition then_quick_start (m : C Z) (notify : C Z) : C Z :=
  let! ret := m in
  do! notify in
  mret ret.

Definition SourceStartState_memberFuncMap_ (event : InnerEvent) : option (C Z) :=
  match event with
  | DSHCED_CONTINUE_REQ_PUSH_EVENT wantParams => Some (ExecuteContinueReq wantParams)
  | DSHCED_CONTINUE_ABILITY_EVENT appVersion => Some (ExecuteContinueAbility appVersion)
  | DSCHED_CONTINUE_COMPLETE_EVENT result => Some (ExecuteContinueEnd result)
  | DSCHED_CONTINUE_END_EVENT result => Some (ExecuteContinueError result)
  | _ => None
  end.

Definition AbilityState_memberFuncMap_ (event : InnerEvent) : option (C Z) :=
  match event with
  | DSHCED_CONTINUE_SEND_DATA_EVENT data => Some (ExecuteContinueSend data)
  | DSCHED_CONTINUE_COMPLETE_EVENT result => Some (ExecuteContinueEnd result)
  | DSCHED_CONTINUE_END_EVENT result => Some (ExecuteContinueError result)
  | _ => None
  end.

Definition WaitEndState_memberFuncMap_ (event : InnerEvent) : option (C Z) :=
  match event with
  | DSCHED_CONTINUE_COMPLETE_EVENT result => Some (ExecuteNotifyComplete result)
  | DSCHED_CONTINUE_END_EVENT result => Some (ExecuteContinueError result)
  | _ => None
  end.

Definition EndState_memberFuncMap_ (event : InnerEvent) : option (C Z) :=
  match event with
  | DSCHED_CONTINUE_END_EVENT result => Some (ExecuteContinueEnd result)
  | _ => None
  end.

Definition SinkStartState_memberFuncMap_ (event : InnerEvent) : option (C Z) :=
  match event with
  | DSCHED_CONTINUE_REQ_PULL_EVENT wantParams => Some (ExecuteContinueReq wantParams)
  | DSHCED_CONTINUE_ABILITY_EVENT _ => Some ExecuteContinueReply
  | DSCHED_CONTINUE_COMPLETE_EVENT result =>
    Some (then_quick_start (ExecuteContinueEnd result) (ExecuteQuickStartFailed result))
  | DSCHED_CONTINUE_END_EVENT result =>
    Some (then_quick_start (ExecuteContinueError result) (ExecuteQuickStartFailed result))
  | _ => None
  end.

Definition DataState_memberFuncMap_ (event : InnerEvent) : option (C Z) :=
  match event with
  | DSCHED_CONTINUE_DATA_EVENT cmd =>
    Some (then_quick_start (ExecuteContinueData cmd) ExecuteQuickStartSuccess)
  | DSCHED_CONTINUE_COMPLETE_EVENT result =>
    Some (then_quick_start (ExecuteContinueEnd result) (ExecuteQuickStartFailed result))
  | DSCHED_CONTINUE_END_EVENT result =>
    Some (then_quick_start (ExecuteContinueError result) (ExecuteQuickStartFailed result))
  | _ => None
  end.

Definition SinkWaitEndState_memberFuncMap_ (event : InnerEvent) : option (C Z) :=
  match event with
  | DSCHED_CONTINUE_COMPLETE_EVENT result => Some (ExecuteNotifyComplete result)
  | DSCHED_CONTINUE_END_EVENT result => Some (ExecuteContinueError result)
  | _ => None
  end.

Definition SinkEndState_memberFuncMap_ (event : InnerEvent) : option (C Z) :=
  match event with
  | DSCHED_CONTINUE_END_EVENT result => Some (ExecuteContinueEnd result)
  | _ => None
  end.

Definition memberFuncMap_ (state : DSchedContinueStateType) (event : InnerEvent) : option (C Z) :=
  match state with
  | DSCHED_CONTINUE_SOURCE_START_STATE => SourceStartState_memberFuncMap_ event
  | DSCHED_CONTINUE_ABILITY_STATE => AbilityState_memberFuncMap_ event
  | DSCHED_CONTINUE_SOURCE_WAIT_END_STATE => WaitEndState_memberFuncMap_ event
  | DSCHED_CONTINUE_SOURCE_END_STATE => EndState_memberFuncMap_ event
  | DSCHED_CONTINUE_SINK_START_STATE => SinkStartState_memberFuncMap_ event
  | DSCHED_CONTINUE_DATA_STATE => DataState_memberFuncMap_ event
  | DSCHED_CONTINUE_SINK_WAIT_END_STATE => SinkWaitEndState_memberFuncMap_ event
  | DSCHED_CONTINUE_SINK_END_STATE => SinkEndState_memberFuncMap_ event
  end.

(** [DSchedContinueState::Execute], the same in every state. *)
Definition state_Execute (state : DSchedContinueStateType) (event : InnerEvent) : C Z :=
  match memberFuncMap_ state event with
  | None => mret Dms.CONTINUE_STATE_MACHINE_INVALID_STATE
  | Some memberFunc => memberFunc
  end.

(** [DSchedContinueStateMachine::Execute]. *)
Definition Execute (event : InnerEvent) : C Z :=
  let! s := get in
  match currentState_ s with
  | None => mret Dms.INVALID_PARAMETERS_ERR
  | Some state => state_Execute state event
  end.

Definition ProcessEvent (event : InnerEvent) : C unit :=
  let! s := get in
  if negb (stateMachine_ s) then mret tt
  else
    let! ret := Execute event in
    do! when negb (ret =? ERR_OK) do (do! OnContinueEnd ret in mret tt) in
    mret tt.

(** One turn of the event thread: it takes the first event of the queue. *)
Definition event_turn : C unit :=
  let! s := get in
  match queue_ s with
  | [] => mret tt
  | event :: queue =>
    do! modify (set_queue queue) in
    ProcessEvent event
  end.

(** The event thread left alone until the queue is empty. *)
Fixpoint drain (fuel : nat) (s : DSchedContinue) (t : list Effect) : run (DSchedContinue * list Effect) :=
  match queue_ s with
  | [] => Done (s, t)
  | _ :: _ =>
    match fuel with
    | O => OutOfFuel
    | S fuel => let* (_, s, t) := event_turn s t in drain fuel s t
    end
  end.

(** ** Received data *)

(** [OnDataRecv]: the text is read from the window's start to the length of the whole
    array. *)
Definition OnDataRecv (command : Z) (dataBuffer : option DataBuffer) : C unit :=
  match dataBuffer with
  | None => mret tt
  | Some b =>
    match data_ b with
    | None => mret tt
    | Some d =>
      let! jsonStr := from_run (load_n d (Offset b) (Capacity b)) in
      if command =? DSCHED_CONTINUE_CMD_START then mret tt
      else if command =? DSCHED_CONTINUE_CMD_DATA then
        let! r := from_run (DataCmd.Unmarshal jsonStr) in
        match r with
        | inl _ => mret tt
        | inr dataCmd =>
          do! OnContinueDataCmd
            (Some (set_want dataCmd (SetBundle (want_ dataCmd) (dstBundleName_ (data_base dataCmd))))) in
          mret tt
        end
      else if command =? DSCHED_CONTINUE_CMD_REPLY then
        let! r := from_run (ReplyCmd.Unmarshal jsonStr) in
        match r with
        | inl _ => mret tt
        | inr replyCmd => do! OnReplyCmd (Some replyCmd) in mret tt
        end
      else if command =? DSCHED_CONTINUE_CMD_END then
        let! r := from_run (EndCmd.Unmarshal jsonStr) in
        match r with
        | inl _ => mret tt
        | inr endCmd => do! OnContinueEndCmd (Some endCmd) in mret tt
        end
      else mret tt
    end
  end.

Definition GetSessionId (s : DSchedContinue) : Z := softbusSessionId_ s.
Definition GetContinueInfo (s : DSchedContinue) : DSchedContinueInfo := continueInfo_ s.
End Continue.
