(* ===== verification/ContinueLemmas.v ===== *)
(** * How a continuation runs

    Lemmas about the handlers and the event thread of [Continue.v]: which effects a
    handler may have and which events it posts, that every handler ends, what a turn
    of the event thread does to a well-formed object, and what a run of turns and
    requests keeps. *)

From Stdlib Require Import ZArith Lia String.
From stdpp Require Import base list option.
From S2P Require Import Prelude ErrorCodes DataBuffer StdMap StdString Base64 Framework ContinueEvent Effects CommandTotality Continue.

Create HintDb quiet discriminated.
Create HintDb handled discriminated.

Section Continue.
Context {J : CJson} {N : NJson} {W : WantLib} {PL : ParcelLib} {Ev : Env}.
Implicit Types (s : DSchedContinue) (t l : list Effect).

(** ** Computations that neither connect, disconnect, post nor end *)

Definition quiet_effect (e : Effect) : bool :=
  match e with
  | ConnectDevice _ | DisconnectDevice _ | NotifyCallback _ | ManagerOnContinueEnd _
  | ClearContinueSessionId => false
  | _ => true
  end.

(** The members no handler changes. *)
Definition same_frame s s' : Prop :=
  direction_ s' = direction_ s /\ subServiceType_ s' = subServiceType_ s /\
  stateMachine_ s' = stateMachine_ s /\ eventHandler_ s' = eventHandler_ s /\
  sourceDeviceId_ (continueInfo_ s') = sourceDeviceId_ (continueInfo_ s) /\
  sinkDeviceId_ (continueInfo_ s') = sinkDeviceId_ (continueInfo_ s) /\
  sourceBundleName_ (continueInfo_ s') = sourceBundleName_ (continueInfo_ s) /\
  sinkBundleName_ (continueInfo_ s') = sinkBundleName_ (continueInfo_ s).

(** The state is kept or becomes one of [T]; new effects are quiet. *)
Definition quiet (T : list DSchedContinueStateType) s t s' t' : Prop :=
  same_frame s s' /\ queue_ s' = queue_ s /\ callback_ s' = callback_ s /\
  (currentState_ s' = currentState_ s \/ exists x, In x T /\ currentState_ s' = Some x) /\
  exists l, t' = t ++ l /\ forallb quiet_effect l = true.

Lemma same_frame_trans s1 s2 s3 : same_frame s1 s2 -> same_frame s2 s3 -> same_frame s1 s3.
Proof.
  intros (?&?&?&?&?&?&?&?) (?&?&?&?&?&?&?&?). unfold same_frame. split_and!; congruence.
Qed.

Lemma quiet_refl T s t : quiet T s t s t.
Proof. unfold quiet, same_frame. split_and!; auto. exists []. by rewrite app_nil_r. Qed.

Lemma quiet_trans T s1 t1 s2 t2 s3 t3 :
  quiet T s1 t1 s2 t2 -> quiet T s2 t2 s3 t3 -> quiet T s1 t1 s3 t3.
Proof.
  intros (F1 & Q1 & C1 & S1 & l1 & -> & L1) (F2 & Q2 & C2 & S2 & l2 & -> & L2).
  split_and!; [by eapply same_frame_trans|congruence..| |].
  - destruct S2 as [->|?]; auto.
  - exists (l1 ++ l2). rewrite app_assoc, forallb_app. by rewrite L1, L2.
Qed.

Lemma quiet_weaken T T' s t s' t' : incl T T' -> quiet T s t s' t' -> quiet T' s t s' t'.
Proof.
  intros Hi (F & Q & C & S & L). split_and!; [done..| |done].
  destruct S as [?|(x & ? & ?)]; [by left|]. right. exists x. auto.
Qed.

Lemma quiet_emit T e s t : quiet_effect e = true -> quiet T s t s (t ++ [e]).
Proof.
  intros He. unfold quiet, same_frame. split_and!; auto. exists [e]. split; [done|]. cbn. by rewrite He.
Qed.

Lemma quiet_UpdateState T x : In x T -> preserves (quiet T) (UpdateState x).
Proof.
  intros Hx s t a s' t'. unfold UpdateState, mbind, get; cbn.
  destruct (stateMachine_ s) eqn:E; intros [= <- <- <-]; [|apply quiet_refl].
  unfold quiet, same_frame; cbn. split_and!; auto.
  - right. eauto.
  - exists []. by rewrite app_nil_r.
Qed.

Lemma quiet_update T f :
  (forall s, same_frame s (f s) /\ queue_ (f s) = queue_ s /\ callback_ (f s) = callback_ s /\
    currentState_ (f s) = currentState_ s) ->
  preserves (quiet T) (modify f).
Proof.
  intros H. apply preserves_modify. intros s t. destruct (H s) as (? & ? & ? & ?).
  split_and!; auto. exists []. by rewrite app_nil_r.
Qed.

Ltac quiet_base :=
  idtac;
  match goal with
  | |- preserves _ (UpdateState _) => apply quiet_UpdateState; cbn; tauto
  | |- preserves _ (modify _) => apply quiet_update; intros ?; by split_and!
  | |- preserves _ (call _ _) => apply preserves_call; intros; by apply quiet_emit
  | |- preserves _ (ask _) => apply preserves_call; intros; by apply quiet_emit
  | |- preserves _ (emit _) => apply preserves_emit; intros; by apply quiet_emit
  | |- preserves (quiet ?T) _ => solve [eauto 1 with quiet]
  end.

Ltac quiet_code T := preserves_with (quiet_refl T) (quiet_trans T) quiet_base.

Lemma SendCommand_quiet T m : preserves (quiet T) (SendCommand m).
Proof. unfold SendCommand. quiet_code T. Qed.
#[local] Hint Resolve SendCommand_quiet : quiet.

Lemma GetAbilityNameByContinueType_quiet T : preserves (quiet T) GetAbilityNameByContinueType.
Proof. unfold GetAbilityNameByContinueType. quiet_code T. Qed.
#[local] Hint Resolve GetAbilityNameByContinueType_quiet : quiet.

Lemma QuerySinkAbilityName_quiet T : preserves (quiet T) QuerySinkAbilityName.
Proof. unfold QuerySinkAbilityName. quiet_code T. Qed.
#[local] Hint Resolve QuerySinkAbilityName_quiet : quiet.

Lemma StartAbility_quiet T w c : preserves (quiet T) (StartAbility w c).
Proof. unfold StartAbility. quiet_code T. Qed.
#[local] Hint Resolve StartAbility_quiet : quiet.

Lemma QuickStartAbility_quiet T : preserves (quiet T) QuickStartAbility.
Proof. unfold QuickStartAbility. quiet_code T. Qed.
#[local] Hint Resolve QuickStartAbility_quiet : quiet.

Lemma quick_start_state_quiet T st m : preserves (quiet T) (quick_start_state st m).
Proof. unfold quick_start_state, quick_start_mission. quiet_code T. Qed.
#[local] Hint Resolve quick_start_state_quiet : quiet.

Lemma PackStartCmd_quiet T w : preserves (quiet T) (PackStartCmd w).
Proof. unfold PackStartCmd. quiet_code T. Qed.
#[local] Hint Resolve PackStartCmd_quiet : quiet.

Lemma ExecuteContinueAbility_quiet T v :
  In DSCHED_CONTINUE_ABILITY_STATE T -> preserves (quiet T) (ExecuteContinueAbility v).
Proof.
  intros. unfold ExecuteContinueAbility, GetMissionIdByBundleName, CheckContinueAbilityPermission.
  quiet_code T.
Qed.

Lemma ExecuteContinueReply_quiet T :
  In DSCHED_CONTINUE_DATA_STATE T -> preserves (quiet T) ExecuteContinueReply.
Proof.
  intros. unfold ExecuteContinueReply, PackReplyCmd. quiet_code T.
Qed.

Lemma SetWantForContinuation_quiet T w : preserves (quiet T) (SetWantForContinuation w).
Proof. unfold SetWantForContinuation. quiet_code T. Qed.
#[local] Hint Resolve SetWantForContinuation_quiet : quiet.

Lemma ExecuteContinueSend_quiet T d :
  In DSCHED_CONTINUE_SOURCE_WAIT_END_STATE T -> preserves (quiet T) (ExecuteContinueSend d).
Proof.
  intros. unfold ExecuteContinueSend, SetCleanMissionFlag, PackDataCmd. quiet_code T.
Qed.

Lemma UpdateElementInfo_quiet T c : preserves (quiet T) (UpdateElementInfo c).
Proof. unfold UpdateElementInfo, GetLocalDeviceId. quiet_code T. Qed.
#[local] Hint Resolve UpdateElementInfo_quiet : quiet.

Lemma check_target_quiet T b c : preserves (quiet T) (check_target b c).
Proof. unfold check_target. quiet_code T. Qed.
#[local] Hint Resolve check_target_quiet : quiet.

Lemma check_sender_quiet T c : preserves (quiet T) (check_sender c).
Proof. unfold check_sender, CheckStartPermission, GetLocalDeviceId. quiet_code T. Qed.
#[local] Hint Resolve check_sender_quiet : quiet.

Lemma wait_initial_quiet T p n : preserves (quiet T) (wait_initial p n).
Proof.
  induction n as [|n IH]; cbn [wait_initial]; quiet_code T.
Qed.

Lemma attach_window_quiet T w : preserves (quiet T) (attach_window w).
Proof.
  unfold attach_window, WaitAbilityStateInitial. quiet_code T. apply wait_initial_quiet.
Qed.
#[local] Hint Resolve attach_window_quiet : quiet.

Lemma UpdateWantForContinueType_quiet T w : preserves (quiet T) (UpdateWantForContinueType w).
Proof. unfold UpdateWantForContinueType. quiet_code T. Qed.
#[local] Hint Resolve UpdateWantForContinueType_quiet : quiet.

Lemma start_continued_quiet T w c :
  In DSCHED_CONTINUE_SINK_WAIT_END_STATE T -> preserves (quiet T) (start_continued w c).
Proof. intros. unfold start_continued. quiet_code T. Qed.

(** ** Handlers *)

Definition is_end (event : InnerEvent) : bool :=
  match event with DSCHED_CONTINUE_END_EVENT _ => true | _ => false end.

(** The members that make up the key of the manager's table. *)
Definition same_key (i j : DSchedContinueInfo) : bool :=
  bytes_eqb (sourceDeviceId_ i) (sourceDeviceId_ j)
  && bytes_eqb (sourceBundleName_ i) (sourceBundleName_ j)
  && bytes_eqb (sinkDeviceId_ i) (sinkDeviceId_ j)
  && bytes_eqb (sinkBundleName_ i) (sinkBundleName_ j).

(** A connection is to the peer and, unless [c], only the initiator's; so is a release.
    The end is told under the object's own key. *)
Definition effect_ok s (c : bool) (e : Effect) : bool :=
  match e with
  | ConnectDevice p => bytes_eqb p (peerDeviceId s) && (initiator s || c)
  | DisconnectDevice p => bytes_eqb p (peerDeviceId s) && initiator s
  | ManagerOnContinueEnd i => same_key i (continueInfo_ s)
  | ClearContinueSessionId => false
  | _ => true
  end.

Definition is_callback (e : Effect) : bool :=
  match e with NotifyCallback _ => true | _ => false end.

Definition callbacks l : nat := length (List.filter is_callback l).

(** What every handler does: the state is kept or becomes one of [T], end events are
    appended to the queue, and the callback is used up at most once. *)
Definition handled (T : list DSchedContinueStateType) (c : bool) s t s' t' : Prop :=
  same_frame s s' /\
  (currentState_ s' = currentState_ s \/ exists x, In x T /\ currentState_ s' = Some x) /\
  exists l q, t' = t ++ l /\ queue_ s' = queue_ s ++ q /\ forallb is_end q = true /\
    forallb (effect_ok s c) l = true /\
    (callbacks l + Nat.b2n (callback_ s') <= Nat.b2n (callback_ s))%nat.

Lemma same_frame_ok s s' c : same_frame s s' -> effect_ok s' c = effect_ok s c.
Proof.
  intros (H1 & H2 & H3 & H4 & H5 & H6 & H7 & H8).
  unfold effect_ok, peerDeviceId, initiator, same_key. by rewrite H1, H2, H5, H6, H7, H8.
Qed.

Lemma callbacks_app l1 l2 : callbacks (l1 ++ l2) = (callbacks l1 + callbacks l2)%nat.
Proof. unfold callbacks. by rewrite List.filter_app, length_app. Qed.

Lemma handled_refl T c s t : handled T c s t s t.
Proof.
  unfold handled, same_frame. split_and!; auto. exists [], []. rewrite !app_nil_r. by split_and!.
Qed.

Lemma handled_trans T c s1 t1 s2 t2 s3 t3 :
  handled T c s1 t1 s2 t2 -> handled T c s2 t2 s3 t3 -> handled T c s1 t1 s3 t3.
Proof.
  intros (F1 & S1 & l1 & q1 & -> & Q1 & E1 & O1 & C1) (F2 & S2 & l2 & q2 & -> & Q2 & E2 & O2 & C2).
  split_and!; [by eapply same_frame_trans| |].
  - destruct S2 as [->|?]; auto.
  - exists (l1 ++ l2), (q1 ++ q2). rewrite (same_frame_ok s1 s2 c F1) in O2.
    rewrite Q2, Q1, !app_assoc, !forallb_app, callbacks_app, E1, E2, O1, O2.
    split_and!; [done..|lia].
Qed.

Lemma quiet_handled T c s t s' t' : quiet T s t s' t' -> handled T c s t s' t'.
Proof.
  intros (F & Q & C & S & l & -> & L). split_and!; [done..|]. exists l, [].
  rewrite Q, app_nil_r, C. split_and!; [done..| |].
  - apply forallb_forall. intros e He. rewrite forallb_forall in L. apply L in He.
    by destruct e.
  - assert (callbacks l = 0%nat) as ->; [|lia]. clear -L. induction l as [|e l IH]; [done|].
    cbn in L. apply andb_true_iff in L as (He & L). unfold callbacks in *. cbn.
    by destruct e; cbn; auto.
Qed.

Lemma handled_weaken T T' c c' s t s' t' :
  incl T T' -> Bool.le c c' -> handled T c s t s' t' -> handled T' c' s t s' t'.
Proof.
  intros Hi Hc (F & S & l & q & H1 & H2 & H3 & H4 & H5). split_and!; [done| |].
  - destruct S as [?|(x & ? & ?)]; [by left|]. right. exists x. auto.
  - exists l, q. split_and!; [done..| |done].
    rewrite forallb_forall in H4 |- *. intros e He. apply H4 in He.
    destruct e; cbn in *; try done. apply andb_true_iff in He as (-> & He).
    by destruct (initiator s), c, c'.
Qed.

Lemma handled_quiet_code T c {A} (m : C A) : preserves (quiet T) m -> preserves (handled T c) m.
Proof. intros H s t a s' t' Hm. by eapply quiet_handled, H. Qed.

Lemma SendEvent_run event s t b s' t' :
  SendEvent event s t = Done (b, s', t') ->
  b = SendEvent_ok t /\ t' = t ++ [Query] /\
  s' = if b then set_queue (queue_ s ++ [event]) s else s.
Proof.
  unfold SendEvent, ask, call, mbind, modify, mret. cbn [run_bind].
  destruct (SendEvent_ok t); cbn; by intros [= <- <- <-].
Qed.

Lemma post_event_run event s t r s' t' :
  post_event event s t = Done (r, s', t') ->
  (r <> ERR_OK /\ s' = s /\ exists l, t' = t ++ l /\ (l = [] \/ l = [Query])) \/
  (r = ERR_OK /\ s' = set_queue (queue_ s ++ [event]) s /\ t' = t ++ [Query]).
Proof.
  unfold post_event. intros (s0 & s1 & t1 & [= <- <- <-] & H)%mbind_Done.
  destruct (negb (eventHandler_ s)).
  - injection H as <- <- <-. left. split_and!; [done..|]. exists []. rewrite app_nil_r. auto.
  - apply mbind_Done in H as (b & s1 & t1 & (-> & -> & ->)%SendEvent_run & H).
    destruct (SendEvent_ok t); injection H as <- <- <-; [by right|]. left. split_and!; [done..|].
    exists [Query]. auto.
Qed.

Lemma post_end_handled T c r : preserves (handled T c) (PostContinueEndTask r).
Proof.
  intros s t a s' t' [(_ & -> & l & -> & Hl)|(_ & -> & ->)]%post_event_run.
  - split_and!; [done|by left|]. exists l, []. rewrite app_nil_r.
    destruct Hl as [-> | ->]; by split_and!.
  - split_and!; [done|by left|]. by exists [Query], [DSCHED_CONTINUE_END_EVENT r].
Qed.

(** The release of the connection, under the condition of [ExecuteContinueEnd]. *)
Lemma disconnect_handled T c s0 :
  forall s t a s' t', same_frame s0 s ->
  (when initiator s0 do emit (DisconnectDevice (peerDeviceId s0))) s t = Done (a, s', t') ->
  handled T c s t s' t'.
Proof.
  intros s t a s' t' F H. destruct (initiator s0) eqn:Hi.
  - injection H as <- <- <-. split_and!; [done|by left|].
    exists [DisconnectDevice (peerDeviceId s0)], []. rewrite app_nil_r. split_and!; try done.
    cbn [forallb]. rewrite (same_frame_ok s0 s c F). cbn. by rewrite bytes_eqb_refl, Hi.
  - injection H as <- <- <-. apply handled_refl.
Qed.

Lemma NotifyContinuationCallbackResult_handled T c r :
  preserves (handled T c) (NotifyContinuationCallbackResult r).
Proof.
  intros s t a s' t'. unfold NotifyContinuationCallbackResult, ask, call, emit, modify, mret.
  unfold mbind at 1. cbn [get run_bind].
  destruct (callback_ s) eqn:Hc; cbn [negb]; [|intros [= <- <- <-]; apply handled_refl].
  unfold mbind at 1. cbn [run_bind]. destruct (WriteCallbackParcel t); cbn.
  - intros [= <- <- <-]. split_and!; [done|by left|].
    exists [Query; NotifyCallback (ConvertToDmsSdkErr r)], []. rewrite <- app_assoc, app_nil_r.
    split_and!; try done; cbn; rewrite ?Hc; cbn; lia.
  - intros [= <- <- <-]. split_and!; [done|by left|].
    exists [Query], []. rewrite app_nil_r. split_and!; try done; cbn; lia.
Qed.

Ltac handled_base :=
  idtac;
  match goal with
  | |- preserves (handled ?T ?c) _ =>
    first
      [ solve [eauto 1 with handled]
      | match goal with
        | |- preserves _ (mbind _ _) => fail 1
        | |- _ => apply handled_quiet_code; first [quiet_base | solve [eauto 1 with quiet]]
        end ]
  end.

Ltac handled_code T c := preserves_with (handled_refl T c) (handled_trans T c) handled_base.

#[local] Hint Resolve NotifyContinuationCallbackResult_handled post_end_handled : handled.

Lemma same_key_refl i : same_key i i = true.
Proof. unfold same_key. by rewrite !bytes_eqb_refl. Qed.

(** The end is told under the key the object had before, which is its key still. *)
Lemma emit_manager_handled T c s t s1 t1 a s' t' :
  handled T c s t s1 t1 ->
  (do! emit (ManagerOnContinueEnd (continueInfo_ s)) in mret ERR_OK) s1 t1 = Done (a, s', t') ->
  handled T c s t s' t'.
Proof.
  intros H [= <- <- <-]. eapply handled_trans; [exact H|].
  destruct H as ((_ & _ & _ & _ & F1 & F2 & F3 & F4) & _). split_and!; [done|by left|].
  exists [ManagerOnContinueEnd (continueInfo_ s)], []. rewrite app_nil_r. split_and!; [done..| |done].
  cbn. rewrite andb_true_r. unfold same_key. by rewrite F1, F2, F3, F4, !bytes_eqb_refl.
Qed.

Lemma handled_step {A B} T c (m : C A) (k : A -> C B) s t s1 t1 b s' t' :
  handled T c s t s1 t1 -> preserves (handled T c) m -> mbind m k s1 t1 = Done (b, s', t') ->
  exists a s2 t2, handled T c s t s2 t2 /\ k a s2 t2 = Done (b, s', t').
Proof.
  intros H Hm (a & s2 & t2 & H2%Hm & H3)%mbind_Done. exists a, s2, t2.
  split; [by eapply handled_trans|done].
Qed.

Lemma ExecuteContinueEnd_handled T c r : preserves (handled T c) (ExecuteContinueEnd r).
Proof.
  intros s t a s' t' (s0 & s1 & t1 & [= <- <- <-] & H)%mbind_Done.
  apply mbind_Done in H as (u & s1 & t1 & H1%(disconnect_handled T c) & H); [|by split_and!].
  do 5 (eapply handled_step in H as (? & ? & ? & ? & H);
    [|eassumption|unfold NotifyDSchedEventResult; handled_code T c]; clear H1; rename H0 into H1).
  by eapply emit_manager_handled.
Qed.
#[local] Hint Resolve ExecuteContinueEnd_handled : handled.

Lemma UpdateState_handled T c x : In x T -> preserves (handled T c) (UpdateState x).
Proof. intros. by apply handled_quiet_code, quiet_UpdateState. Qed.

Lemma ExecuteContinueError_handled T c r s t a s' t' :
  In (if direction_ s =? CONTINUE_SOURCE then DSCHED_CONTINUE_SOURCE_END_STATE
      else DSCHED_CONTINUE_SINK_END_STATE) T ->
  ExecuteContinueError r s t = Done (a, s', t') -> handled T c s t s' t'.
Proof.
  intros HT H. unfold ExecuteContinueError, PackEndCmd, OnContinueEnd in H.
  apply mbind_Done in H as (cmd & s1 & t1 & H1 & H).
  injection H1 as <- <- <-.
  apply mbind_Done in H as (r1 & s1 & t1 & H1 & H).
  apply (SendCommand_quiet T) in H1. eapply handled_trans; [by eapply quiet_handled|].
  apply mbind_Done in H as (s2 & s3 & t2 & [= <- <- <-] & H).
  rewrite <- (proj1 (proj1 H1)) in HT. revert H. apply preserves_mbind.
  - apply handled_trans.
  - case_match; by apply UpdateState_handled.
  - intros _. handled_code T c.
Qed.

Lemma ExecuteNotifyComplete_handled T c r s t a s' t' :
  In (if direction_ s =? CONTINUE_SINK then DSCHED_CONTINUE_SINK_END_STATE
      else DSCHED_CONTINUE_SOURCE_END_STATE) T ->
  ExecuteNotifyComplete r s t = Done (a, s', t') -> handled T c s t s' t'.
Proof.
  intros HT. apply preserves_get_bind. unfold PackEndCmd, PackReplyCmd.
  case_match; handled_code T c; by apply UpdateState_handled.
Qed.

Lemma ExecuteContinueData_handled T c d :
  In DSCHED_CONTINUE_SINK_WAIT_END_STATE T -> preserves (handled T c) (ExecuteContinueData d).
Proof.
  intros. unfold ExecuteContinueData, OnContinueEnd. handled_code T c;
    by apply handled_quiet_code, start_continued_quiet.
Qed.

Lemma connect_peer_handled T : preserves (handled T true) connect_peer.
Proof.
  intros s t a s' t' (s0 & s1 & t1 & [= <- <- <-] & H)%mbind_Done.
  apply mbind_Done in H as ((ret & sid) & s1 & t1 & H1 & H).
  assert (preserves (handled T true) (do! match sid with
      | Some sessionId => modify (set_softbusSessionId sessionId)
      | None => mret tt
      end in mret ret)) as K by handled_code T true.
  apply K in H. eapply handled_trans; [|exact H].
  injection H1 as _ <- <-. split_and!; [done|by left|].
  exists [ConnectDevice (peerDeviceId s)], []. rewrite app_nil_r. split_and!; try done.
  cbn. rewrite bytes_eqb_refl. by destruct (initiator s).
Qed.
#[local] Hint Resolve connect_peer_handled : handled.

Lemma ExecuteContinueReq_handled T w s t a s' t' :
  (direction_ s = CONTINUE_SINK -> In DSCHED_CONTINUE_DATA_STATE T) ->
  ExecuteContinueReq w s t = Done (a, s', t') -> handled T true s t s' t'.
Proof.
  intros HT. apply preserves_get_bind. handled_code T true.
  apply UpdateState_handled, HT. by apply Z.eqb_eq.
Qed.

(** ** Every handler returns *)

Lemma SendCommand_total m : (exists r, m = Done r) -> total (SendCommand m).
Proof.
  intros Hm. unfold SendCommand. apply total_mbind; [by apply total_from_run|].
  intros [e|json]; [apply total_mret|]. cbv zeta. apply total_mbind.
  - apply total_from_run, buffer_copy_total.
  - intros (ret & data). total_with ltac:(fail).
Qed.

Ltac total_base :=
  idtac;
  match goal with
  | |- total (ask _) => apply total_call
  | |- total (UpdateState _) => unfold UpdateState
  | |- total (SendCommand _) => apply SendCommand_total
  | |- exists _, StartCmd.Marshal _ = Done _ => apply StartCmd_Marshal_total
  | |- exists _, ReplyCmd.Marshal _ = Done _ => apply ReplyCmd_Marshal_total
  | |- exists _, EndCmd.Marshal _ = Done _ => apply EndCmd_Marshal_total
  | |- exists _, DataCmd.Marshal _ = Done _ => apply DataCmd_Marshal_total
  end.

Ltac total_code := total_with total_base.

Lemma post_event_total e : total (post_event e).
Proof. unfold post_event, SendEvent. total_code. Qed.

Lemma wait_initial_total p n : total (wait_initial p n).
Proof. induction n as [|n IH]; cbn [wait_initial]; total_code. Qed.

Lemma GetAbilityNameByContinueType_total : total GetAbilityNameByContinueType.
Proof. unfold GetAbilityNameByContinueType. total_code. Qed.
#[local] Hint Resolve wait_initial_total GetAbilityNameByContinueType_total : dms.

Lemma StartAbility_total w c : total (StartAbility w c).
Proof. unfold StartAbility. total_code. Qed.
#[local] Hint Resolve StartAbility_total : dms.

Lemma QuickStartAbility_total : total QuickStartAbility.
Proof. unfold QuickStartAbility, QuerySinkAbilityName. total_code. Qed.
#[local] Hint Resolve QuickStartAbility_total : dms.

Lemma quick_start_state_total st m : total (quick_start_state st m).
Proof. unfold quick_start_state, quick_start_mission. total_code. Qed.
#[local] Hint Resolve quick_start_state_total post_event_total : dms.

Lemma state_Execute_total x event : total (state_Execute x event).
Proof.
  unfold state_Execute. destruct x, event;
    cbn [memberFuncMap_ SourceStartState_memberFuncMap_ AbilityState_memberFuncMap_
      WaitEndState_memberFuncMap_ EndState_memberFuncMap_ SinkStartState_memberFuncMap_
      DataState_memberFuncMap_ SinkWaitEndState_memberFuncMap_ SinkEndState_memberFuncMap_];
    unfold then_quick_start, ExecuteContinueReq, connect_peer, PackStartCmd,
      ExecuteContinueAbility, GetMissionIdByBundleName, CheckContinueAbilityPermission,
      ExecuteContinueEnd, NotifyContinuationCallbackResult, NotifyDSchedEventResult,
      ExecuteContinueError, OnContinueEnd, PostContinueEndTask,
      ExecuteContinueSend, SetCleanMissionFlag, SetWantForContinuation, PackDataCmd,
      ExecuteNotifyComplete, ExecuteContinueReply, ExecuteContinueData, PackEndCmd, PackReplyCmd,
      UpdateElementInfo, GetLocalDeviceId, check_sender, CheckStartPermission, check_target,
      UpdateWantForContinueType, attach_window, WaitAbilityStateInitial, start_continued,
      ExecuteQuickStartSuccess, ExecuteQuickStartFailed;
    total_code.
Qed.

Lemma event_turn_total : total event_turn.
Proof.
  unfold event_turn, ProcessEvent, Execute, OnContinueEnd, PostContinueEndTask.
  total_code. apply state_Execute_total.
Qed.

(** ** The queue *)

Definition keeps_queue s t s' t' : Prop := queue_ s' = queue_ s.

Lemma keeps_queue_refl s t : keeps_queue s t s t.
Proof. done. Qed.
Lemma keeps_queue_trans s1 t1 s2 t2 s3 t3 :
  keeps_queue s1 t1 s2 t2 -> keeps_queue s2 t2 s3 t3 -> keeps_queue s1 t1 s3 t3.
Proof. unfold keeps_queue. congruence. Qed.

Lemma quiet_keeps_queue T {A} (m : C A) : preserves (quiet T) m -> preserves keeps_queue m.
Proof. intros H s t a s' t' Hm. by apply H in Hm as (_ & ? & _). Qed.

Ltac keeps_base :=
  idtac;
  match goal with
  | |- preserves _ (modify _) => by apply preserves_modify
  | |- preserves _ (call _ _) => by apply preserves_call
  | |- preserves _ (ask _) => by apply preserves_call
  | |- preserves _ (emit _) => by apply preserves_emit
  | |- preserves _ (UpdateState ?x) => apply (quiet_keeps_queue [x]), quiet_UpdateState; by left
  | |- preserves _ _ => solve [apply (quiet_keeps_queue []); eauto 1 with quiet]
  end.

Ltac keeps_code := preserves_with keeps_queue_refl keeps_queue_trans keeps_base.

Lemma ExecuteContinueReq_keeps w : preserves keeps_queue (ExecuteContinueReq w).
Proof. unfold ExecuteContinueReq, connect_peer. keeps_code. Qed.

Lemma ExecuteContinueEnd_keeps r : preserves keeps_queue (ExecuteContinueEnd r).
Proof.
  unfold ExecuteContinueEnd, NotifyContinuationCallbackResult, NotifyDSchedEventResult. keeps_code.
Qed.

(** A handler posts one event at most, and none when it fails. *)
Definition posts_one (m : C Z) : Prop :=
  forall s t a s' t', m s t = Done (a, s', t') ->
  exists q, queue_ s' = queue_ s ++ q /\ (length q <= 1)%nat /\ (a <> ERR_OK -> q = []).

Lemma posts_keep m : preserves keeps_queue m -> posts_one m.
Proof.
  intros H s t a s' t' ->%H. exists []. rewrite app_nil_r. split_and!; [done|cbn; lia|done].
Qed.

Lemma posts_bind {A} (m : C A) (k : A -> C Z) :
  preserves keeps_queue m -> (forall a, posts_one (k a)) -> posts_one (mbind m k).
Proof.
  intros Hm Hk s t b s' t' (a & s1 & t1 & <-%Hm & H)%mbind_Done. by apply Hk in H.
Qed.

Lemma posts_post e : posts_one (post_event e).
Proof.
  intros s t a s' t' [(_ & -> & _)|(-> & -> & _)]%post_event_run.
  - exists []. rewrite app_nil_r. split_and!; [done|cbn; lia|done].
  - exists [e]. by split_and!.
Qed.

Lemma posts_post_ok e : posts_one (do! post_event e in mret ERR_OK).
Proof.
  intros s t a s' t' (r & s1 & t1 & H & [= <- <- <-])%mbind_Done.
  apply posts_post in H as (q & ? & ? & _). by exists q.
Qed.

Lemma posts_then m n : posts_one m -> preserves keeps_queue n -> posts_one (then_quick_start m n).
Proof.
  intros Hm Hn s t a s' t' (r & s1 & t1 & H1 & H)%mbind_Done.
  apply mbind_Done in H as (r2 & s2 & t2 & H2 & [= <- <- <-]).
  apply Hm in H1 as (q & H1 & ? & ?). exists q. split_and!; [|done..].
  rewrite <- H1. by apply Hn in H2.
Qed.

Lemma ExecuteContinueError_posts r : posts_one (ExecuteContinueError r).
Proof.
  unfold ExecuteContinueError, PackEndCmd, OnContinueEnd, PostContinueEndTask.
  apply posts_bind; [keeps_code|]. intros cmd. apply posts_bind; [keeps_code|]. intros u.
  apply posts_bind; [keeps_code|]. intros s0. apply posts_bind; [keeps_code|]. intros v.
  apply posts_post_ok.
Qed.

Lemma ExecuteNotifyComplete_posts r : posts_one (ExecuteNotifyComplete r).
Proof.
  unfold ExecuteNotifyComplete, PackReplyCmd, PackEndCmd, PostContinueEndTask.
  apply posts_bind; [keeps_code|]. intros s0. case_match; [apply posts_keep; keeps_code|].
  apply posts_bind; [keeps_code|]. intros cmd. apply posts_bind; [keeps_code|]. intros ret.
  case_match; [apply posts_keep; keeps_code|].
  apply posts_bind; [keeps_code|]. intros u. apply posts_post_ok.
Qed.

Lemma start_continued_keeps w c : preserves keeps_queue (start_continued w c).
Proof. apply (quiet_keeps_queue [DSCHED_CONTINUE_SINK_WAIT_END_STATE]), start_continued_quiet. by left. Qed.

Lemma ExecuteContinueData_posts d : posts_one (ExecuteContinueData d).
Proof.
  unfold ExecuteContinueData. destruct d as [cmd|]; [|apply posts_keep; keeps_code].
  apply posts_bind; [keeps_code|]. intros cmd'. apply posts_bind; [keeps_code|]. intros ret.
  case_match; [apply posts_keep; keeps_code|].
  apply posts_bind; [keeps_code|]. intros w. apply posts_bind; [keeps_code|]. intros sid.
  case_match; [|apply posts_keep, start_continued_keeps].
  apply posts_bind; [keeps_code|]. intros [w'|]; [apply posts_keep, start_continued_keeps|].
  apply posts_post.
Qed.

Lemma state_Execute_posts x event : posts_one (state_Execute x event).
Proof.
  unfold state_Execute. destruct x, event;
    cbn [memberFuncMap_ SourceStartState_memberFuncMap_ AbilityState_memberFuncMap_
      WaitEndState_memberFuncMap_ EndState_memberFuncMap_ SinkStartState_memberFuncMap_
      DataState_memberFuncMap_ SinkWaitEndState_memberFuncMap_ SinkEndState_memberFuncMap_];
    unfold ExecuteQuickStartSuccess, ExecuteQuickStartFailed;
    try (apply posts_then; [|keeps_code]);
    solve [ apply ExecuteContinueError_posts | apply ExecuteNotifyComplete_posts
          | apply ExecuteContinueData_posts
          | apply posts_keep; first [ apply ExecuteContinueReq_keeps | apply ExecuteContinueEnd_keeps
            | solve [keeps_code]
            | apply (quiet_keeps_queue [DSCHED_CONTINUE_ABILITY_STATE]), ExecuteContinueAbility_quiet; by left
            | apply (quiet_keeps_queue [DSCHED_CONTINUE_DATA_STATE]), ExecuteContinueReply_quiet; by left
            | apply (quiet_keeps_queue [DSCHED_CONTINUE_SOURCE_WAIT_END_STATE]), ExecuteContinueSend_quiet; by left ] ].
Qed.

(** ** One event *)

Definition source_state (x : DSchedContinueStateType) : bool :=
  match x with
  | DSCHED_CONTINUE_SOURCE_START_STATE | DSCHED_CONTINUE_ABILITY_STATE
  | DSCHED_CONTINUE_SOURCE_WAIT_END_STATE | DSCHED_CONTINUE_SOURCE_END_STATE => true
  | _ => false
  end.

Definition end_state (x : DSchedContinueStateType) : bool :=
  match x with
  | DSCHED_CONTINUE_SOURCE_END_STATE | DSCHED_CONTINUE_SINK_END_STATE => true
  | _ => false
  end.

(** The states that may follow a state. *)
Definition next (x : DSchedContinueStateType) : list DSchedContinueStateType :=
  match x with
  | DSCHED_CONTINUE_SOURCE_START_STATE =>
    [DSCHED_CONTINUE_ABILITY_STATE; DSCHED_CONTINUE_SOURCE_END_STATE]
  | DSCHED_CONTINUE_ABILITY_STATE =>
    [DSCHED_CONTINUE_SOURCE_WAIT_END_STATE; DSCHED_CONTINUE_SOURCE_END_STATE]
  | DSCHED_CONTINUE_SOURCE_WAIT_END_STATE => [DSCHED_CONTINUE_SOURCE_END_STATE]
  | DSCHED_CONTINUE_SINK_START_STATE => [DSCHED_CONTINUE_DATA_STATE; DSCHED_CONTINUE_SINK_END_STATE]
  | DSCHED_CONTINUE_DATA_STATE => [DSCHED_CONTINUE_SINK_WAIT_END_STATE; DSCHED_CONTINUE_SINK_END_STATE]
  | DSCHED_CONTINUE_SINK_WAIT_END_STATE => [DSCHED_CONTINUE_SINK_END_STATE]
  | DSCHED_CONTINUE_SOURCE_END_STATE | DSCHED_CONTINUE_SINK_END_STATE => []
  end.

(** A start event fits the sub service it was made for. *)
Definition event_ok (subServiceType : Z) (e : InnerEvent) : Prop :=
  match e with
  | DSCHED_CONTINUE_REQ_PULL_EVENT _ => subServiceType = CONTINUE_PULL
  | DSHCED_CONTINUE_REQ_PUSH_EVENT _ => subServiceType = CONTINUE_PUSH
  | _ => True
  end.

(** An initialised object of one of the two roles, in a state of that role. *)
Definition role_ok s (x : DSchedContinueStateType) : Prop :=
  (direction_ s = CONTINUE_SOURCE /\ source_state x = true) \/
  (direction_ s = CONTINUE_SINK /\ source_state x = false).

Definition wf s : Prop :=
  stateMachine_ s = true /\ eventHandler_ s = true /\
  (exists x, currentState_ s = Some x /\ role_ok s x) /\
  Forall (event_ok (subServiceType_ s)) (queue_ s).

Lemma then_quick_start_handled T c m n s t a s' t' :
  (forall a s1 t1, m s t = Done (a, s1, t1) -> handled T c s t s1 t1) ->
  preserves (quiet T) n ->
  then_quick_start m n s t = Done (a, s', t') -> handled T c s t s' t'.
Proof.
  intros Hm Hn (r & s1 & t1 & H1%Hm & H)%mbind_Done.
  apply mbind_Done in H as (r2 & s2 & t2 & H2%Hn & [= <- <- <-]).
  eapply handled_trans; [exact H1|]. by apply quiet_handled.
Qed.

(** The end events of a state that is not an end state. *)
Lemma end_goes_on s x T :
  role_ok s x -> incl (next x) T -> end_state x = false ->
  In (if direction_ s =? CONTINUE_SOURCE then DSCHED_CONTINUE_SOURCE_END_STATE
      else DSCHED_CONTINUE_SINK_END_STATE) T /\
  In (if direction_ s =? CONTINUE_SINK then DSCHED_CONTINUE_SINK_END_STATE
      else DSCHED_CONTINUE_SOURCE_END_STATE) T.
Proof.
  intros [(-> & Hx)|(-> & Hx)] HT He; change (CONTINUE_SOURCE =? CONTINUE_SOURCE) with true;
    change (CONTINUE_SINK =? CONTINUE_SOURCE) with false;
    change (CONTINUE_SINK =? CONTINUE_SINK) with true;
    change (CONTINUE_SOURCE =? CONTINUE_SINK) with false;
    split; apply HT; destruct x; try done; cbn; auto.
Qed.

Lemma handled_initiator T s t s' t' :
  initiator s = true -> handled T true s t s' t' -> handled T false s t s' t'.
Proof.
  intros Hi (F & S & l & q & H1 & H2 & H3 & H4 & H5). split_and!; [done..|]. exists l, q.
  split_and!; [done..| |done]. rewrite forallb_forall in H4 |- *. intros e He. apply H4 in He.
  destruct e; cbn in *; try done. by rewrite Hi in *.
Qed.

(** An event makes the state stay or take a step, and only the initiator connects. *)
Lemma state_Execute_handled s t a s' t' x event :
  wf s -> currentState_ s = Some x -> event_ok (subServiceType_ s) event ->
  state_Execute x event s t = Done (a, s', t') -> handled (next x) false s t s' t'.
Proof.
  intros (Hm & Hh & (x' & Hx' & Hrole) & _) Hx Hev. rewrite Hx in Hx'. injection Hx' as <-.
  unfold state_Execute. destruct (memberFuncMap_ x event) as [f|] eqn:E;
    [|intros [= <- <- <-]; apply handled_refl].
  pose proof (end_goes_on s x (next x) Hrole (incl_refl _)) as Hend.
  assert (forall T r, preserves (quiet T) (ExecuteQuickStartFailed r)) as Hq
    by (intros; apply quick_start_state_quiet).
  assert (forall T, preserves (quiet T) ExecuteQuickStartSuccess) as Hq'
    by (intros; apply quick_start_state_quiet).
  destruct x, event; try discriminate E; injection E as <-; cbn [next] in *;
    try (destruct (Hend eq_refl) as (Hend1 & Hend2));
    try (by apply ExecuteContinueEnd_handled);
    try (by apply ExecuteContinueError_handled);
    try (by apply ExecuteNotifyComplete_handled);
    try (apply then_quick_start_handled; [intros ? ? ?|done];
      first [ apply ExecuteContinueEnd_handled | by apply ExecuteContinueError_handled
            | apply ExecuteContinueData_handled; cbn; tauto ]).
  - intros H. apply handled_initiator; [|eapply ExecuteContinueReq_handled; [|exact H]].
    + destruct Hrole as [(Hd & _)|(_ & ?)]; [|done]. unfold initiator. cbn in Hev. by rewrite Hd, Hev.
    + intros Hd. destruct Hrole as [(Hd' & _)|(_ & ?)]; [|done].
      by rewrite Hd in Hd'.
  - apply handled_quiet_code, ExecuteContinueAbility_quiet. cbn; auto.
  - apply handled_quiet_code, ExecuteContinueSend_quiet. cbn; auto.
  - intros H. apply handled_initiator; [|eapply ExecuteContinueReq_handled; [|exact H]].
    + destruct Hrole as [(_ & ?)|(Hd & _)]; [done|]. unfold initiator. cbn in Hev. by rewrite Hd, Hev.
    + intros _. cbn; auto.
  - apply handled_quiet_code, ExecuteContinueReply_quiet. cbn; auto.
Qed.

(** One turn of the event thread. *)
Lemma event_turn_step s t s' t' x :
  wf s -> currentState_ s = Some x -> event_turn s t = Done (tt, s', t') ->
  match queue_ s with
  | [] => s' = s /\ t' = t
  | e :: queue =>
    exists l q,
      same_frame s s' /\
      (currentState_ s' = Some x \/ exists y, In y (next x) /\ currentState_ s' = Some y) /\
      t' = t ++ l /\ queue_ s' = queue ++ q /\ forallb is_end q = true /\ (length q <= 1)%nat /\
      forallb (effect_ok s false) l = true /\
      (callbacks l + Nat.b2n (callback_ s') <= Nat.b2n (callback_ s))%nat
  end.
Proof.
  intros Hwf Hx H. pose proof Hwf as (Hm & Hh & _ & Hq).
  apply mbind_Done in H as (s0 & s1 & t1 & [= <- <- <-] & H).
  destruct (queue_ s) as [|e queue] eqn:Hqueue; [by injection H as <- <-|].
  apply mbind_Done in H as (u & s1 & t1 & [= <- <- <-] & H).
  apply mbind_Done in H as (s1 & s1' & t1 & [= <- <- <-] & H). cbn [stateMachine_ set_queue] in H.
  rewrite Hm in H. cbn [negb] in H.
  apply mbind_Done in H as (ret & s1 & t1 & H1 & H).
  unfold Execute in H1. apply mbind_Done in H1 as (s2 & s2' & t2 & [= <- <- <-] & H1).
  cbn [currentState_ set_queue] in H1. rewrite Hx in H1. apply Forall_cons_1 in Hq as (He & Hq).
  assert (wf (set_queue queue s)) as Hwf'.
  { destruct Hwf as (? & ? & ? & _). by split_and!. }
  pose proof (state_Execute_posts _ _ _ _ _ _ _ H1) as (q & Hq1 & Hlen & Hfail).
  apply state_Execute_handled in H1 as H1'; [|done..].
  apply mbind_Done in H as (v & s2 & t2 & H2 & [= <- <-]).
  assert (handled (next x) false s1 t1 s2 t2 /\ exists q2, queue_ s2 = queue_ s1 ++ q2 /\
    (length (q ++ q2) <= 1)%nat) as (H2' & q2 & Hq2 & Hlen2).
  { destruct (negb (ret =? ERR_OK)) eqn:Hret; guards_to_prop.
    - apply mbind_Done in H2 as (r & s3 & t3 & H2 & [= <- <- <-]).
      rewrite (Hfail Hret). split; [by eapply post_end_handled|].
      apply posts_post in H2 as (q2 & ? & ? & _). by exists q2.
    - injection H2 as <- <- <-. split; [apply handled_refl|]. exists []. by rewrite !app_nil_r. }
  pose proof (handled_trans _ _ _ _ _ _ _ _ H1' H2') as (F & S & l & q3 & Ht & Hq3 & Hend & Hl & Hc).
  assert (q3 = q ++ q2) as ->.
  { apply (app_inv_head (queue_ (set_queue queue s))). by rewrite <- Hq3, Hq2, Hq1, app_assoc. }
  exists l, (q ++ q2). split_and!; try done.
  destruct S as [S|S]; [left; by rewrite S|by right].
Qed.

Lemma same_frame_initiator s s' : same_frame s s' -> initiator s' = initiator s.
Proof. intros (H1 & H2 & _). unfold initiator. by rewrite H1, H2. Qed.

Lemma next_role x y : In y (next x) -> source_state y = source_state x.
Proof. destruct x; cbn; intuition; by subst. Qed.

Lemma event_turn_wf s t s' t' : wf s -> event_turn s t = Done (tt, s', t') -> wf s'.
Proof.
  intros Hwf H. pose proof Hwf as (Hm & Hh & (x & Hx & Hrole) & Hq).
  apply (event_turn_step _ _ _ _ x) in H; [|done..].
  destruct (queue_ s) as [|e queue]; [by destruct H as (-> & _)|].
  destruct H as (l & q & (F1 & F2 & F3 & F4 & _) & HS & _ & Hq' & Hend & _).
  unfold wf. rewrite F2, F3, F4. split_and!; [done..| |].
  - destruct HS as [HS|(y & Hy & HS)]; [exists x|exists y]; (split; [done|]);
      unfold role_ok; rewrite F1; [done|]. by rewrite (next_role _ _ Hy).
  - rewrite Hq'. apply Forall_app_2; [by apply Forall_cons_1 in Hq as (_ & ?)|].
    apply List.Forall_forall. intros e' He'. rewrite forallb_forall in Hend.
    apply Hend in He'. by destruct e'.
Qed.

(** ** The event thread left alone *)

(** How many turns an event can cost: it is handled, it may post an end event, and
    outside the end state an end event posts another. *)
Definition weight (x : DSchedContinueStateType) (e : InnerEvent) : nat :=
  ((if end_state x then 1 else 2) + (if is_end e then 0 else 1))%nat.

Fixpoint queue_weight (x : DSchedContinueStateType) (q : list InnerEvent) : nat :=
  match q with
  | [] => 0
  | e :: q => weight x e + queue_weight x q
  end%nat.

Lemma queue_weight_app x q1 q2 :
  queue_weight x (q1 ++ q2) = (queue_weight x q1 + queue_weight x q2)%nat.
Proof. induction q1 as [|e q1 IH]; cbn; lia. Qed.

Lemma queue_weight_le x y q :
  (end_state x = true -> end_state y = true) -> (queue_weight y q <= queue_weight x q)%nat.
Proof.
  intros H. induction q as [|e q IH]; [done|]. cbn. unfold weight.
  destruct (end_state x), (end_state y); try (by specialize (H eq_refl)); destruct (is_end e); lia.
Qed.

Lemma queue_weight_bound x q : (queue_weight x q <= 3 * length q)%nat.
Proof.
  induction q as [|e q IH]; [done|]. cbn [queue_weight length]. unfold weight.
  destruct (end_state x), (is_end e); lia.
Qed.

Lemma next_end x y : In y (next x) -> end_state x = false.
Proof. by destruct x. Qed.

(** *** An end event *)

Definition extends s t s' t' : Prop := exists l, t' = t ++ l.

Lemma extends_refl s t : extends s t s t.
Proof. exists []. by rewrite app_nil_r. Qed.
Lemma extends_trans s1 t1 s2 t2 s3 t3 :
  extends s1 t1 s2 t2 -> extends s2 t2 s3 t3 -> extends s1 t1 s3 t3.
Proof. intros (l1 & ->) (l2 & ->). exists (l1 ++ l2). by rewrite app_assoc. Qed.

Ltac extends_base :=
  idtac;
  match goal with
  | |- preserves _ (modify _) => apply preserves_modify; intros; exists []; by rewrite app_nil_r
  | |- preserves _ (call _ _) => apply preserves_call; intros; by eexists
  | |- preserves _ (ask _) => apply preserves_call; intros; by eexists
  | |- preserves _ (emit _) => apply preserves_emit; intros; by eexists
  end.
Ltac extends_code := preserves_with extends_refl extends_trans extends_base.

(** The manager is told, and nothing follows in this handler. *)
Lemma ExecuteContinueEnd_ends r s t a s' t' :
  ExecuteContinueEnd r s t = Done (a, s', t') ->
  a = ERR_OK /\ queue_ s' = queue_ s /\ currentState_ s' = currentState_ s /\
  exists l i, t' = t ++ l ++ [ManagerOnContinueEnd i].
Proof.
  intros H. pose proof (ExecuteContinueEnd_keeps r _ _ _ _ _ H) as Hq.
  pose proof (ExecuteContinueEnd_handled [] false r _ _ _ _ _ H) as (_ & [Hs|(x & [] & _)] & _).
  assert (forall s, preserves extends (when initiator s do emit (DisconnectDevice (peerDeviceId s))))
    as E1 by (intros; extends_code).
  assert (forall s, preserves extends (when (r =? ERR_OK) && (direction_ s =? CONTINUE_SOURCE)
    && isSourceExit_ s do emit (CleanMission (missionId_ (continueInfo_ s))))) as E2
    by (intros; extends_code).
  assert (preserves extends (NotifyContinuationCallbackResult r)) as E3
    by (unfold NotifyContinuationCallbackResult; extends_code).
  assert (preserves extends (NotifyDSchedEventResult r)) as E4
    by (unfold NotifyDSchedEventResult; extends_code).
  apply mbind_Done in H as (s0 & ? & ? & [= <- <- <-] & H).
  apply mbind_Done in H as (u & s1 & t1 & (l1 & ->)%E1 & H).
  apply mbind_Done in H as (? & s2 & ? & [= _ <- <-] & H).
  apply mbind_Done in H as (? & s3 & ? & (l2 & ->)%E2 & H).
  apply mbind_Done in H as (? & s4 & ? & (l3 & ->)%E3 & H).
  apply mbind_Done in H as (? & s5 & ? & (l4 & ->)%E4 & H).
  apply mbind_Done in H as (? & ? & ? & [= _ <- <-] & H).
  apply mbind_Done in H as (? & ? & ? & [= _ <- <-] & H).
  injection H as <- <- <-. split_and!; [done..|].
  eexists (l1 ++ l2 ++ l3 ++ l4 ++ [_]), _. by rewrite <- !app_assoc.
Qed.

Lemma post_event_sent e s t r s' t' :
  eventHandler_ s = true -> (forall t, SendEvent_ok t = true) ->
  post_event e s t = Done (r, s', t') ->
  r = ERR_OK /\ s' = set_queue (queue_ s ++ [e]) s /\ t' = t ++ [Query].
Proof.
  intros Hh Hsend. unfold post_event. intros (s0 & ? & ? & [= <- <- <-] & H)%mbind_Done.
  rewrite Hh in H. cbn [negb] in H.
  apply mbind_Done in H as (b & s1 & t1 & (-> & -> & ->)%SendEvent_run & H).
  rewrite Hsend in H. by injection H as <- <- <-.
Qed.

Lemma UpdateState_run x s t :
  stateMachine_ s = true -> UpdateState x s t = Done (tt, set_currentState (Some x) s, t).
Proof. intros H. unfold UpdateState, mbind, get; cbn. by rewrite H. Qed.

Definition end_of (direction : Z) : DSchedContinueStateType :=
  if direction =? CONTINUE_SOURCE then DSCHED_CONTINUE_SOURCE_END_STATE
  else DSCHED_CONTINUE_SINK_END_STATE.

Lemma end_of_end d : end_state (end_of d) = true.
Proof. unfold end_of. by case_match. Qed.

Lemma ExecuteContinueError_ends r s t a s' t' :
  stateMachine_ s = true -> eventHandler_ s = true -> (forall t, SendEvent_ok t = true) ->
  ExecuteContinueError r s t = Done (a, s', t') ->
  a = ERR_OK /\ currentState_ s' = Some (end_of (direction_ s)) /\
  queue_ s' = queue_ s ++ [DSCHED_CONTINUE_END_EVENT r].
Proof.
  intros Hm Hh Hsend H. unfold ExecuteContinueError, PackEndCmd, OnContinueEnd in H.
  apply mbind_Done in H as (cmd & ? & ? & Hc & H). injection Hc as _ <- <-.
  apply mbind_Done in H as (r1 & s1 & t1 & ((D & _ & Hm1 & Hh1 & _) & Hq & _)%(SendCommand_quiet []) & H).
  apply mbind_Done in H as (s2 & ? & ? & [= <- <- <-] & H).
  apply mbind_Done in H as (u & s3 & t3 & Hu & H).
  assert (s3 = set_currentState (Some (end_of (direction_ s))) s1) as ->.
  { unfold end_of. rewrite <- D.
    destruct (direction_ s1 =? CONTINUE_SOURCE); rewrite UpdateState_run in Hu by congruence;
      by injection Hu as _ <- _. }
  apply mbind_Done in H as (r2 & s4 & t4 & Hp & [= <- <- <-]).
  apply post_event_sent in Hp as (_ & -> & _); [|cbn; congruence|done].
  split_and!; [done..|]. cbn. by rewrite Hq.
Qed.

Lemma then_quick_start_run m n s t a s' t' :
  preserves (quiet []) n -> then_quick_start m n s t = Done (a, s', t') ->
  exists s1 t1 l, m s t = Done (a, s1, t1) /\ currentState_ s' = currentState_ s1 /\
    queue_ s' = queue_ s1 /\ t' = t1 ++ l.
Proof.
  intros Hn (r & s1 & t1 & H1 & H)%mbind_Done.
  apply mbind_Done in H as (r2 & s2 & t2 & H2%Hn & [= <- <- <-]).
  destruct H2 as (_ & ? & _ & [?|(x & [] & _)] & l & -> & _). by exists s1, t1, l.
Qed.

Definition ended l : Prop := exists i, In (ManagerOnContinueEnd i) l.

(** An end event in the end state tells the manager; elsewhere it leads to the end
    state and posts another end event. *)
Lemma end_event_Execute s t a s' t' x r :
  wf s -> currentState_ s = Some x -> (forall t, SendEvent_ok t = true) ->
  state_Execute x (DSCHED_CONTINUE_END_EVENT r) s t = Done (a, s', t') ->
  a = ERR_OK /\
  if end_state x then
    currentState_ s' = Some x /\ queue_ s' = queue_ s /\ exists l, t' = t ++ l /\ ended l
  else
    (exists y, currentState_ s' = Some y /\ end_state y = true) /\
    queue_ s' = queue_ s ++ [DSCHED_CONTINUE_END_EVENT r].
Proof.
  intros (Hm & Hh & _) Hx Hsend.
  assert (forall r, preserves (quiet []) (ExecuteQuickStartFailed r)) as Hq
    by (intros; apply quick_start_state_quiet).
  assert (forall a s1 t1, ExecuteContinueEnd r s t = Done (a, s1, t1) -> a = ERR_OK /\
    currentState_ s1 = Some x /\ queue_ s1 = queue_ s /\ exists l, t1 = t ++ l /\ ended l) as Hend.
  { intros a1 s1 t1 (-> & -> & -> & l & i & ->)%ExecuteContinueEnd_ends. split_and!; [done..|].
    exists (l ++ [ManagerOnContinueEnd i]). split; [done|]. exists i.
    apply in_or_app. right. by left. }
  assert (forall a s1 t1, ExecuteContinueError r s t = Done (a, s1, t1) -> a = ERR_OK /\
    (exists y, currentState_ s1 = Some y /\ end_state y = true) /\
    queue_ s1 = queue_ s ++ [DSCHED_CONTINUE_END_EVENT r]) as Herr.
  { intros a1 s1 t1 (-> & H1 & ->)%ExecuteContinueError_ends; [|done..].
    split_and!; [done| |done]. eexists. split; [exact H1|]. apply end_of_end. }
  destruct x; cbn [end_state]; [apply Herr..|apply Hend| | |apply Herr|apply Hend];
    (intros (s1 & t1 & l & (-> & ? & ?)%Herr & E1 & E2 & _)%then_quick_start_run; [|done]);
    by rewrite E1, E2.
Qed.

(** A turn lowers the weight of the queue. *)
Lemma event_turn_weight s t s' t' x e q :
  wf s -> currentState_ s = Some x -> queue_ s = e :: q -> event_turn s t = Done (tt, s', t') ->
  (forall r, e = DSCHED_CONTINUE_END_EVENT r -> end_state x = true -> queue_ s' = q) ->
  (forall r, e = DSCHED_CONTINUE_END_EVENT r -> end_state x = false ->
    exists y, currentState_ s' = Some y /\ end_state y = true) ->
  exists y, currentState_ s' = Some y /\
    (queue_weight y (queue_ s') < queue_weight x (e :: q))%nat.
Proof.
  intros Hwf Hx Hq H Hend1 Hend2. apply (event_turn_step _ _ _ _ x) in H; [|done..].
  rewrite Hq in H. destruct H as (l & q' & _ & HS & _ & Hq' & Hends & Hlen & _).
  assert (exists y, currentState_ s' = Some y /\ (end_state x = true -> end_state y = true)) as (y & Hy & Hmono).
  { destruct HS as [?|(y & Hy%next_end & ?)]; [by exists x|]. exists y. split; [done|congruence]. }
  exists y. split; [done|]. pose proof (queue_weight_le x y q Hmono) as Hle.
  assert ((queue_weight y q' + 1 <= weight x e)%nat) as Hw; [|rewrite Hq', queue_weight_app; cbn; lia].
  destruct q' as [|e' [|]]; [cbn; unfold weight; destruct (end_state x), (is_end e); lia| |cbn in Hlen; lia].
  cbn in *. apply andb_true_iff in Hends as (He' & _). unfold weight. rewrite He'.
  destruct e as [| | | | | |r]; cbn [is_end];
    try (destruct (end_state x); [rewrite Hmono by done|destruct (end_state y)]; cbn; lia).
  destruct (end_state x) eqn:Ex.
  - specialize (Hend1 r eq_refl eq_refl). rewrite Hend1 in Hq'.
    apply (f_equal length) in Hq'. rewrite length_app in Hq'. cbn in Hq'. lia.
  - destruct (Hend2 r eq_refl eq_refl) as (y' & Hy' & Hend). rewrite Hy in Hy'. injection Hy' as <-.
    rewrite Hend. cbn. lia.
Qed.

(** The turn of an end event, whatever [SendEvent] answers. *)
Lemma end_event_turn s t s' t' x r q :
  wf s -> currentState_ s = Some x -> queue_ s = DSCHED_CONTINUE_END_EVENT r :: q ->
  event_turn s t = Done (tt, s', t') ->
  exists a s1 t1, state_Execute x (DSCHED_CONTINUE_END_EVENT r) (set_queue q s) t = Done (a, s1, t1) /\
    (a = ERR_OK -> s' = s1 /\ t' = t1).
Proof.
  intros (Hm & _) Hx Hq H. unfold event_turn, ProcessEvent, Execute in H.
  apply mbind_Done in H as (s0 & ? & ? & [= <- <- <-] & H). rewrite Hq in H.
  apply mbind_Done in H as (u & ? & ? & [= <- <- <-] & H).
  apply mbind_Done in H as (s1 & ? & ? & [= <- <- <-] & H). cbn [stateMachine_ set_queue] in H.
  rewrite Hm in H. cbn [negb] in H.
  apply mbind_Done in H as (ret & s1 & t1 & H1 & H).
  apply mbind_Done in H1 as (s2 & ? & ? & [= <- <- <-] & H1).
  cbn [currentState_ set_queue] in H1. rewrite Hx in H1. exists ret, s1, t1. split; [done|].
  intros ->. change (negb (ERR_OK =? ERR_OK)) with false in H. cbv iota in H.
  apply mbind_Done in H as (? & ? & ? & [= <- <- <-] & H). by injection H as <- <-.
Qed.

Lemma wf_set_queue s q :
  wf s -> Forall (event_ok (subServiceType_ s)) q -> wf (set_queue q s).
Proof. intros (? & ? & ? & _) ?. by split_and!. Qed.

Lemma wf_tail s e q : wf s -> queue_ s = e :: q -> wf (set_queue q s).
Proof.
  intros Hwf Hq. apply wf_set_queue; [done|]. destruct Hwf as (_ & _ & _ & H).
  rewrite Hq in H. by apply Forall_cons_1 in H as (_ & ?).
Qed.

(** Without assumptions on [SendEvent]: an end event leads to the end state, and posts
    nothing there. *)
Lemma end_event_effect s t a s' t' x r :
  wf s -> currentState_ s = Some x ->
  state_Execute x (DSCHED_CONTINUE_END_EVENT r) s t = Done (a, s', t') ->
  a = ERR_OK /\
  if end_state x then queue_ s' = queue_ s
  else exists y, currentState_ s' = Some y /\ end_state y = true.
Proof.
  intros (Hm & Hh & _) Hx.
  assert (forall a s1 t1, ExecuteContinueError r s t = Done (a, s1, t1) -> a = ERR_OK /\
    exists y, currentState_ s1 = Some y /\ end_state y = true) as Herr.
  { intros a1 s1 t1 H. unfold ExecuteContinueError, PackEndCmd, OnContinueEnd in H.
    apply mbind_Done in H as (cmd & ? & ? & Hc & H). injection Hc as _ <- <-.
    apply mbind_Done in H as (r1 & s2 & t2 & ((_ & _ & Hm1 & _) & _)%(SendCommand_quiet []) & H).
    apply mbind_Done in H as (s3 & ? & ? & [= <- <- <-] & H).
    apply mbind_Done in H as (u & s4 & t4 & Hu & H).
    apply mbind_Done in H as (r2 & s5 & t5 & Hp & [= <- <- <-]). split; [done|].
    exists (end_of (direction_ s2)). split; [|apply end_of_end].
    apply (post_end_handled [] false) in Hp as (_ & [->|(? & [] & _)] & _). unfold end_of.
    destruct (direction_ s2 =? CONTINUE_SOURCE); rewrite UpdateState_run in Hu by congruence;
      by injection Hu as _ <- _. }
  assert (forall r, preserves (quiet []) (ExecuteQuickStartFailed r)) as Hq
    by (intros; apply quick_start_state_quiet).
  destruct x; cbn [end_state]; [apply Herr..| | | |apply Herr|];
    try (intros (-> & -> & _)%ExecuteContinueEnd_ends; done);
    (intros (s1 & t1 & l & (-> & y & ? & ?)%Herr & E1 & _)%then_quick_start_run; [|done]);
    split; [done|exists y; by rewrite E1|done|exists y; by rewrite E1].
Qed.

(** *** Draining *)

Lemma next_of_end x y : end_state x = true -> In y (next x) -> False.
Proof. by destruct x. Qed.

Definition has_end s : Prop := exists r, In (DSCHED_CONTINUE_END_EVENT r) (queue_ s).

Lemma ended_app l1 l2 : ended l1 \/ ended l2 -> ended (l1 ++ l2).
Proof. intros [(i & H)|(i & H)]; exists i; apply in_or_app; auto. Qed.

(** A turn with an event to take ends; it makes the queue lighter, does not leave an end
    state, and a waiting end event is answered or still waits. *)
Lemma event_turn_progress s t x e q :
  wf s -> currentState_ s = Some x -> queue_ s = e :: q ->
  exists s1 l y, event_turn s t = Done (tt, s1, t ++ l) /\ wf s1 /\ currentState_ s1 = Some y /\
    (queue_weight y (queue_ s1) < queue_weight x (queue_ s))%nat /\
    (end_state x = true -> y = x) /\
    ((forall t, SendEvent_ok t = true) -> has_end s ->
     has_end s1 \/ (ended l /\ end_state y = true)).
Proof.
  intros Hwf Hx Hq. destruct (event_turn_total s t) as (((u & s1) & t1) & H1). destruct u.
  pose proof (event_turn_step _ _ _ _ x Hwf Hx H1) as Hstep. rewrite Hq in Hstep.
  destruct Hstep as (l & q' & _ & HS & -> & Hq' & _).
  assert (forall r, e = DSCHED_CONTINUE_END_EVENT r ->
    (if end_state x then queue_ s1 = q
     else exists y, currentState_ s1 = Some y /\ end_state y = true) /\
    ((forall t, SendEvent_ok t = true) -> has_end s1 \/ (end_state x = true /\ ended l))) as Hend.
  { intros r ->. destruct (end_event_turn _ _ _ _ x r q Hwf Hx Hq H1) as (a & s2 & t2 & H2 & H3).
    pose proof (end_event_effect _ _ _ _ _ x r (wf_tail _ _ _ Hwf Hq) Hx H2) as (-> & Heff).
    destruct (H3 eq_refl) as (<- & <-). split; [exact Heff|]. intros Hsend.
    apply end_event_Execute in H2 as (_ & H2); [|by eapply wf_tail|done|done].
    destruct (end_state x); [right|left].
    - destruct H2 as (_ & _ & l2 & Hl%app_inv_head & ?). by rewrite Hl.
    - exists r. destruct H2 as (_ & ->). apply in_or_app. right. by left. }
  destruct (event_turn_weight _ _ _ _ x e q Hwf Hx Hq H1) as (y & Hy & Hlt).
  - intros r Hr Hx'. destruct (Hend r Hr) as (H & _). by rewrite Hx' in H.
  - intros r Hr Hx'. destruct (Hend r Hr) as (H & _). by rewrite Hx' in H.
  - exists s1, l, y. rewrite Hq. split_and!; [done|by eapply event_turn_wf|done|done| |].
    + intros Hx'. destruct HS as [Hs|(z & Hz & _)]; [congruence|by destruct (next_of_end x z Hx')].
    + intros Hsend (r & Hr). rewrite Hq in Hr.
      destruct Hr as [->|Hr]; [|left; exists r; rewrite Hq'; apply in_or_app; by left].
      destruct (Hend r eq_refl) as (_ & Htold). destruct (Htold Hsend) as [?|(Hx' & ?)]; [by left|].
      right. split; [done|]. destruct HS as [Hs|(z & Hz & _)]; [congruence|by destruct (next_of_end x z Hx')].
Qed.

Lemma queue_weight_0 x q : queue_weight x q = 0%nat -> q = [].
Proof.
  destruct q as [|e q]; [done|]. cbn. unfold weight. destruct (end_state x); intros; exfalso; lia.
Qed.

Lemma drain_ends fuel : forall s t x,
  wf s -> currentState_ s = Some x -> (queue_weight x (queue_ s) <= fuel)%nat ->
  exists s' l y, drain fuel s t = Done (s', t ++ l) /\ queue_ s' = [] /\ wf s' /\
    currentState_ s' = Some y /\ (end_state x = true -> y = x) /\
    ((forall t, SendEvent_ok t = true) -> has_end s -> ended l /\ end_state y = true).
Proof.
  induction fuel as [|fuel IH]; intros s t x Hwf Hx Hfuel; cbn [drain];
    destruct (queue_ s) as [|e q] eqn:Hq.
  1,3: exists s, [], x; rewrite app_nil_r; split_and!; try done; intros _ (r & Hr); by rewrite Hq in Hr.
  { rewrite <- Hq in Hfuel. assert (queue_ s = []) by (apply (queue_weight_0 x); lia). congruence. }
  destruct (event_turn_progress s t x e q Hwf Hx Hq)
    as (s1 & l1 & y & -> & Hwf1 & Hy & Hlt & Hstay & Hend). cbn [run_bind].
  rewrite <- Hq in Hfuel.
  destruct (IH s1 (t ++ l1) y Hwf1 Hy ltac:(lia)) as (s' & l & z & -> & Hq' & Hwf' & Hz & Hstay' & Hend').
  exists s', (l1 ++ l), z. rewrite app_assoc. split_and!; [done..| |].
  - intros E. by rewrite Hstay', Hstay by (rewrite ?Hstay; done).
  - intros Hsend Hhas. destruct (Hend Hsend Hhas) as [Hhas1|(Hl & Hey)].
    + destruct (Hend' Hsend Hhas1) as (? & ?). split; [|done]. apply ended_app. by right.
    + split; [apply ended_app; by left|]. by rewrite Hstay'.
Qed.

Lemma event_turn_extends s t s' t' :
  wf s -> event_turn s t = Done (tt, s', t') -> extends s t s' t'.
Proof.
  intros Hwf H. pose proof Hwf as (_ & _ & (x & Hx & _) & _).
  apply (event_turn_step _ _ _ _ x) in H; [|done..].
  destruct (queue_ s) as [|e q]; [destruct H as (_ & ->); apply (extends_refl s)|].
  destruct H as (l & q' & _ & _ & -> & _). by exists l.
Qed.

(** ** Any run: turns of the event thread among requests *)

(** The entry points of the class, as the manager and the session call them. *)
Inductive request :=
| ContinueMission (wantParams : option WantParams)
| StartCmdReceived (appVersion : Z)
| ReplyReceived (cmd : option DSchedContinueReplyCmd)
| StartContinuation (want : Want) (callerUid status accessToken : Z)
| DataReceived (cmd : option DSchedContinueDataCmd)
| NotifyComplete (missionId : Z) (isSuccess : bool)
| EndReceived (cmd : option DSchedContinueEndCmd)
| ContinueEnd (result : Z)
| BytesReceived (command : Z) (dataBuffer : option DataBuffer).

Definition perform (r : request) : C unit :=
  let ignore (m : C Z) : C unit := do! m in mret tt in
  match r with
  | ContinueMission w => ignore (OnContinueMission w)
  | StartCmdReceived v => ignore (OnStartCmd v)
  | ReplyReceived c => ignore (OnReplyCmd c)
  | StartContinuation w u st tk => ignore (OnStartContinuation w u st tk)
  | DataReceived c => ignore (OnContinueDataCmd c)
  | NotifyComplete m b => ignore (OnNotifyComplete m b)
  | EndReceived c => ignore (OnContinueEndCmd c)
  | ContinueEnd res => ignore (OnContinueEnd res)
  | BytesReceived c b => OnDataRecv c b
  end.

(** Only an object made for one of the two sub services is asked to start. *)
Definition allowed (r : request) s : Prop :=
  match r with
  | ContinueMission _ => subServiceType_ s = CONTINUE_PULL \/ subServiceType_ s = CONTINUE_PUSH
  | _ => True
  end.

(** A run of an object: turns of its event thread and requests, in any order. *)
Inductive run_of : DSchedContinue -> list Effect -> DSchedContinue -> list Effect -> Prop :=
| run_stop s t : run_of s t s t
| run_turn s t s1 t1 s2 t2 :
    event_turn s t = Done (tt, s1, t1) -> run_of s1 t1 s2 t2 -> run_of s t s2 t2
| run_request r s t s1 t1 s2 t2 :
    allowed r s -> perform r s t = Done (tt, s1, t1) -> run_of s1 t1 s2 t2 -> run_of s t s2 t2.

(** A request only posts events that fit the object. *)
Definition only_posts s t s' t' : Prop :=
  exists q l, s' = set_queue (queue_ s ++ q) s /\ t' = t ++ l /\
    Forall (event_ok (subServiceType_ s)) q /\ forallb quiet_effect l = true.

Lemma set_queue_same s : set_queue (queue_ s) s = s.
Proof. by destruct s. Qed.

Lemma only_posts_refl s t : only_posts s t s t.
Proof. exists [], []. by rewrite !app_nil_r, set_queue_same. Qed.

Lemma only_posts_trans s1 t1 s2 t2 s3 t3 :
  only_posts s1 t1 s2 t2 -> only_posts s2 t2 s3 t3 -> only_posts s1 t1 s3 t3.
Proof.
  intros (q1 & l1 & -> & -> & H1 & L1) (q2 & l2 & -> & -> & H2 & L2).
  exists (q1 ++ q2), (l1 ++ l2). cbn [queue_ set_queue subServiceType_] in *.
  rewrite !app_assoc, forallb_app, L1, L2. split_and!; [done..|by apply Forall_app_2|done].
Qed.

Lemma post_only_posts e s t a s' t' :
  event_ok (subServiceType_ s) e -> post_event e s t = Done (a, s', t') -> only_posts s t s' t'.
Proof.
  intros He [(_ & -> & l & -> & Hl)|(_ & -> & ->)]%post_event_run.
  - exists [], l. rewrite app_nil_r, set_queue_same. split_and!; [done..|].
    by destruct Hl as [-> | ->].
  - exists [e], [Query]. split_and!; [done..|by constructor|done].
Qed.

Lemma send_only_posts e : (forall sub, event_ok sub e) -> preserves only_posts (SendEvent e).
Proof.
  intros He s t b s' t' (_ & -> & ->)%SendEvent_run. destruct b.
  - exists [e], [Query]. split_and!; [done..|by constructor|done].
  - exists [], [Query]. by rewrite app_nil_r, set_queue_same.
Qed.

Ltac posts_base :=
  idtac;
  match goal with
  | |- preserves _ (post_event _) => intros ? ? ? ? ? ?; eapply post_only_posts; [|eassumption]; exact I
  | |- preserves _ (SendEvent _) => apply send_only_posts; intros ?; exact I
  end.
Ltac posts_code := preserves_with only_posts_refl only_posts_trans posts_base.

Lemma perform_only_posts r :
  match r with ContinueMission _ => False | _ => True end -> preserves only_posts (perform r).
Proof.
  destruct r; cbn [perform]; [done|..]; intros _.
  all: unfold OnDataRecv, OnStartCmd, PostCotinueAbilityTask, OnReplyCmd, PostReplyTask,
    OnStartContinuation, PostContinueSendTask, OnContinueDataCmd, PostContinueDataTask,
    OnNotifyComplete, OnContinueEndCmd, PostNotifyCompleteTask, OnContinueEnd, PostContinueEndTask.
  all: posts_code.
Qed.

Lemma OnContinueMission_posts w s t a s' t' :
  subServiceType_ s = CONTINUE_PULL \/ subServiceType_ s = CONTINUE_PUSH ->
  OnContinueMission w s t = Done (a, s', t') -> only_posts s t s' t'.
Proof.
  intros Hsub (s0 & ? & ? & [= <- <- <-] & H)%mbind_Done.
  eapply post_only_posts; [|exact H]. case_match; cbn; guards_to_prop; tauto.
Qed.

Lemma perform_posts r s t u s' t' :
  allowed r s -> perform r s t = Done (u, s', t') -> only_posts s t s' t'.
Proof.
  intros Ha H. destruct r; try (eapply perform_only_posts; [|exact H]; exact I).
  apply mbind_Done in H as (a & s1 & t1 & H & [= <- <- <-]). by eapply OnContinueMission_posts.
Qed.

(** How far a state is along its role. *)
Definition rank (x : DSchedContinueStateType) : nat :=
  match x with
  | DSCHED_CONTINUE_SOURCE_START_STATE | DSCHED_CONTINUE_SINK_START_STATE => 0
  | DSCHED_CONTINUE_ABILITY_STATE | DSCHED_CONTINUE_DATA_STATE => 1
  | DSCHED_CONTINUE_SOURCE_WAIT_END_STATE | DSCHED_CONTINUE_SINK_WAIT_END_STATE => 2
  | DSCHED_CONTINUE_SOURCE_END_STATE | DSCHED_CONTINUE_SINK_END_STATE => 3
  end.

Definition later (x y : DSchedContinueStateType) : Prop :=
  source_state x = source_state y /\ (rank x <= rank y)%nat.

Lemma later_refl x : later x x.
Proof. by split. Qed.
Lemma later_trans x y z : later x y -> later y z -> later x z.
Proof. intros (? & ?) (? & ?). split; [congruence|lia]. Qed.
Lemma next_later x y : In y (next x) -> later x y.
Proof. destruct x; cbn; intuition; subst; split; cbn; lia || done. Qed.

(** What a run may do, from an object in state [x]. *)
Definition run_ok s t s' t' : Prop :=
  same_frame s s' /\
  (forall x, currentState_ s = Some x -> exists y, currentState_ s' = Some y /\ later x y) /\
  exists l, t' = t ++ l /\ forallb (effect_ok s false) l = true /\
    (callbacks l + Nat.b2n (callback_ s') <= Nat.b2n (callback_ s))%nat.

Lemma run_ok_refl s t : run_ok s t s t.
Proof.
  unfold run_ok, same_frame. split_and!; auto.
  - intros x Hx. exists x. split; [done|apply later_refl].
  - exists []. by rewrite app_nil_r.
Qed.

Lemma run_ok_trans s1 t1 s2 t2 s3 t3 :
  run_ok s1 t1 s2 t2 -> run_ok s2 t2 s3 t3 -> run_ok s1 t1 s3 t3.
Proof.
  intros (F1 & S1 & l1 & -> & L1 & C1) (F2 & S2 & l2 & -> & L2 & C2). split_and!.
  - by eapply same_frame_trans.
  - intros x Hx. destruct (S1 x Hx) as (y & Hy & ?). destruct (S2 y Hy) as (z & ? & ?).
    exists z. split; [done|by eapply later_trans].
  - exists (l1 ++ l2). rewrite (same_frame_ok s1 s2 _ F1) in L2.
    rewrite app_assoc, forallb_app, callbacks_app, L1, L2. split_and!; [done..|lia].
Qed.

Lemma quiet_effects_ok s l :
  forallb quiet_effect l = true -> forallb (effect_ok s false) l = true /\ callbacks l = 0%nat.
Proof.
  induction l as [|e l IH]; [done|]. cbn. rewrite andb_true_iff. intros (He & (-> & IHl)%IH).
  unfold callbacks in *. by destruct e.
Qed.

Lemma event_turn_run_ok s t s' t' :
  wf s -> event_turn s t = Done (tt, s', t') -> run_ok s t s' t'.
Proof.
  intros Hwf H. pose proof Hwf as (_ & _ & (x & Hx & _) & _).
  apply (event_turn_step _ _ _ _ x) in H; [|done..].
  destruct (queue_ s) as [|e q]; [destruct H as (-> & ->); apply run_ok_refl|].
  destruct H as (l & q' & F & HS & -> & _ & _ & _ & L & C). split_and!; [done| |by exists l].
  intros x' Hx'. rewrite Hx in Hx'. injection Hx' as <-. destruct HS as [?|(y & Hy & ?)].
  - exists x. split; [done|apply later_refl].
  - exists y. split; [done|by apply next_later].
Qed.

Lemma only_posts_run_ok s t s' t' : wf s -> only_posts s t s' t' -> run_ok s t s' t' /\ wf s'.
Proof.
  intros Hwf (q & l & -> & -> & Hq & Hl). split.
  - apply (quiet_effects_ok s) in Hl as (Hl & Hc). unfold run_ok, same_frame. cbn. split_and!; auto.
    + intros x Hx. exists x. split; [done|apply later_refl].
    + exists l. rewrite Hc. by split_and!.
  - apply wf_set_queue; [done|]. apply Forall_app_2; [|done]. by destruct Hwf as (_ & _ & _ & ?).
Qed.

Lemma run_of_ok s t s' t' : run_of s t s' t' -> wf s -> run_ok s t s' t' /\ wf s'.
Proof.
  induction 1 as [s t|s t s1 t1 s2 t2 H _ IH|r s t s1 t1 s2 t2 Ha H _ IH]; intros Hwf.
  - split; [apply run_ok_refl|done].
  - destruct (IH (event_turn_wf _ _ _ _ Hwf H)) as (H2 & ?). split; [|done].
    eapply run_ok_trans; [by eapply event_turn_run_ok|done].
  - apply perform_posts in H; [|done]. destruct (only_posts_run_ok _ _ _ _ Hwf H) as (H1 & Hwf1).
    destruct (IH Hwf1) as (H2 & ?). split; [|done]. by eapply run_ok_trans.
Qed.

(** ** Construction *)

Definition first_state (direction : Z) : DSchedContinueStateType :=
  if direction =? CONTINUE_SOURCE then DSCHED_CONTINUE_SOURCE_START_STATE
  else DSCHED_CONTINUE_SINK_START_STATE.

Definition opposite (direction : Z) : Z :=
  if direction =? CONTINUE_SOURCE then CONTINUE_SINK else CONTINUE_SOURCE.

Lemma opposite_cases d : opposite d = CONTINUE_SOURCE \/ opposite d = CONTINUE_SINK.
Proof. unfold opposite. destruct (d =? CONTINUE_SOURCE); auto. Qed.

(** What a new object is like; the trace grows by quiet effects. *)
Lemma request_initialised subServiceType direction callback info account s0 t0 :
  direction = CONTINUE_SOURCE \/ direction = CONTINUE_SINK ->
  exists s l,
    (do! construct_request subServiceType direction callback info account in Init) s0 t0
      = Done (ERR_OK, s, t0 ++ l) /\ forallb quiet_effect l = true /\
    wf s /\ currentState_ s = Some (first_state direction) /\ queue_ s = [] /\
    direction_ s = direction /\ subServiceType_ s = subServiceType /\
    continueInfo_ s = info /\ callback_ s = callback.
Proof.
  intros Hdir.
  unfold construct_request, Init, foreground_user, SetEventData, NotifyDSchedEventResult, ask,
    call, mbind, modify, emit, mret, get. cbn [run_bind].
  destruct multi_accounts; destruct Hdir as [-> | ->]; cbn; eexists _, _;
    rewrite <- ?app_assoc; (split; [done|]); (split; [done|]);
    (split; [|done]); (split_and!; [done..| |constructor]); eexists; (split; [done|]);
    unfold role_ok; auto.
Qed.

(** What a start command says about the continuation. *)
Definition peer_info (b : DSchedContinueCmdBase) : DSchedContinueInfo :=
  mkContinueInfo (srcDeviceId_ b) (srcBundleName_ b) (dstDeviceId_ b) (dstBundleName_ b)
    (ContinueEvent.continueType_ b) [] (sourceMissionId_ b) [] 0.

Lemma peer_initialised cmd session account s0 t0 :
  exists s l,
    (do! construct_peer (Some cmd) session account in Init) s0 t0 = Done (ERR_OK, s, t0 ++ l) /\
    forallb quiet_effect l = true /\
    wf s /\ currentState_ s = Some (first_state (opposite (start_direction_ cmd))) /\
    queue_ s = [] /\ direction_ s = opposite (start_direction_ cmd) /\
    softbusSessionId_ s = session /\
    sourceDeviceId_ (continueInfo_ s) = srcDeviceId_ (start_base cmd) /\ callback_ s = false /\
    (empty (srcBundleName_ (start_base cmd)) && empty (dstBundleName_ (start_base cmd)) = false ->
     continueInfo_ s = peer_info (start_base cmd)).
Proof.
  unfold construct_peer, Init, foreground_user, SetEventData, NotifyDSchedEventResult, ask,
    call, mbind, modify, emit, mret, get. cbn [run_bind sourceBundleName_ sinkBundleName_ missionId_].
  fold (opposite (start_direction_ cmd)).
  destruct (opposite_cases (start_direction_ cmd)) as [-> | ->]; destruct (empty _ && empty _ && _) eqn:Hb;
    [apply andb_true_iff in Hb as (Hb & _); cbn in Hb;
     destruct (GetMissionInfo _ _) as (ret & active & bundle); destruct (negb (ret =? ERR_OK))| |
     apply andb_true_iff in Hb as (Hb & _); cbn in Hb;
     destruct (GetMissionInfo _ _) as (ret & active & bundle); destruct (negb (ret =? ERR_OK))|];
    destruct multi_accounts; cbn; eexists _, _; rewrite <- ?app_assoc;
    (split; [done|]); (split; [done|]);
    (split; [|split_and!; [done..|]; first [done|cbn in *; congruence]]);
    (split_and!; [done..| |constructor]);
    eexists; (split; [done|]); unfold role_ok; auto.
Qed.
End Continue.

Section MoreLemmas.
Context {J : CJson} {N : NJson} {W : WantLib} {PL : ParcelLib} {Ev : Env}.
Implicit Types (s : DSchedContinue) (t l : list Effect).

(** The turn of an event whose handling fails. *)
Lemma failing_turn s t s' t' x e q ret s1 t1 :
  wf s -> currentState_ s = Some x -> queue_ s = e :: q -> (forall t, SendEvent_ok t = true) ->
  event_turn s t = Done (tt, s', t') ->
  state_Execute x e (set_queue q s) t = Done (ret, s1, t1) -> ret <> ERR_OK ->
  s' = set_queue (queue_ s1 ++ [DSCHED_CONTINUE_END_EVENT ret]) s1 /\ t' = t1 ++ [Query].
Proof.
  intros Hwf Hx Hq Hsend H H1 Hret. pose proof Hwf as (Hm & _).
  assert (eventHandler_ s1 = true) as Hh1.
  { apply state_Execute_handled in H1 as ((_ & _ & _ & -> & _) & _); [|by eapply wf_tail|done|].
    - by destruct Hwf as (_ & ? & _).
    - destruct Hwf as (_ & _ & _ & Hall). rewrite Hq in Hall. by apply Forall_cons_1 in Hall as (? & _). }
  unfold event_turn, ProcessEvent, Execute in H.
  apply mbind_Done in H as (s0 & ? & ? & [= <- <- <-] & H). rewrite Hq in H.
  apply mbind_Done in H as (u & ? & ? & [= <- <- <-] & H).
  apply mbind_Done in H as (s2 & ? & ? & [= <- <- <-] & H). cbn [stateMachine_ set_queue] in H.
  rewrite Hm in H. cbn [negb] in H.
  apply mbind_Done in H as (ret' & s2 & t2 & H2 & H).
  apply mbind_Done in H2 as (s3 & ? & ? & [= <- <- <-] & H2).
  cbn [currentState_ set_queue] in H2. rewrite Hx, H1 in H2. injection H2 as <- <- <-.
  rewrite (proj2 (Z.eqb_neq ret ERR_OK) Hret) in H. cbn [negb] in H.
  apply mbind_Done in H as (v & s4 & t4 & H2 & [= <- <-]).
  apply mbind_Done in H2 as (r & s5 & t5 & H2 & [= _ <- <-]).
  by apply post_event_sent in H2 as (_ & -> & ->).
Qed.

Definition disconnects l : nat :=
  length (List.filter (fun e => match e with DisconnectDevice _ => true | _ => false end) l).

Lemma disconnects_app l1 l2 : disconnects (l1 ++ l2) = (disconnects l1 + disconnects l2)%nat.
Proof. unfold disconnects. by rewrite List.filter_app, length_app. Qed.

(** New effects without a release. *)
Definition no_release s t s' t' : Prop := exists l, t' = t ++ l /\ disconnects l = 0%nat.

Lemma no_release_refl s t : no_release s t s t.
Proof. exists []. by rewrite app_nil_r. Qed.
Lemma no_release_trans s1 t1 s2 t2 s3 t3 :
  no_release s1 t1 s2 t2 -> no_release s2 t2 s3 t3 -> no_release s1 t1 s3 t3.
Proof.
  intros (l1 & -> & H1) (l2 & -> & H2). exists (l1 ++ l2). rewrite disconnects_app, H1, H2.
  by rewrite app_assoc.
Qed.

Ltac no_release_base :=
  idtac;
  match goal with
  | |- preserves _ (modify _) => apply preserves_modify; intros; exists []; by rewrite app_nil_r
  | |- preserves _ (call _ _) => apply preserves_call; intros; by eexists
  | |- preserves _ (ask _) => apply preserves_call; intros; by eexists
  | |- preserves _ (emit _) => apply preserves_emit; intros; by eexists
  end.
Ltac no_release_code := preserves_with no_release_refl no_release_trans no_release_base.

(** The initiator releases the connection once each time the end is executed. *)
Lemma ExecuteContinueEnd_disconnects r s t a s' t' :
  ExecuteContinueEnd r s t = Done (a, s', t') ->
  exists l, t' = t ++ l /\ disconnects l = Nat.b2n (initiator s).
Proof.
  intros (s0 & ? & ? & [= <- <- <-] & H)%mbind_Done.
  apply mbind_Done in H as (u & s1 & t1 & H1 & H).
  assert (no_release s1 t1 s' t') as (l & -> & Hl).
  { revert H. match goal with |- ?m s1 t1 = _ -> _ =>
      assert (preserves no_release m) as K; [|apply K] end.
    unfold NotifyContinuationCallbackResult, NotifyDSchedEventResult. no_release_code. }
  destruct (initiator s); injection H1 as _ <- <-.
  - eexists ([_] ++ l). rewrite app_assoc. split; [done|]. by rewrite disconnects_app, Hl.
  - by exists l.
Qed.

Lemma end_state_map x r :
  end_state x = true -> memberFuncMap_ x (DSCHED_CONTINUE_END_EVENT r) = Some (ExecuteContinueEnd r).
Proof. by destruct x. Qed.

Lemma end_state_refuses x e :
  end_state x = true -> is_end e = false -> memberFuncMap_ x e = None.
Proof. by destruct x, e. Qed.

(** ** What precedes the start of the ability *)

Definition starts_ability (e : Effect) : bool :=
  match e with AmsStartAbility _ _ _ => true | _ => false end.

Definition no_start s t s' t' : Prop :=
  continueInfo_ s' = continueInfo_ s /\
  exists l, t' = t ++ l /\ forallb (fun e => negb (starts_ability e)) l = true.

Lemma no_start_refl s t : no_start s t s t.
Proof. split; [done|]. exists []. by rewrite app_nil_r. Qed.
Lemma no_start_trans s1 t1 s2 t2 s3 t3 :
  no_start s1 t1 s2 t2 -> no_start s2 t2 s3 t3 -> no_start s1 t1 s3 t3.
Proof.
  intros (I1 & l1 & -> & H1) (I2 & l2 & -> & H2). split; [congruence|]. exists (l1 ++ l2).
  by rewrite forallb_app, H1, H2, app_assoc.
Qed.

Ltac no_start_base :=
  idtac;
  match goal with
  | |- preserves _ (call _ _) => apply preserves_call; intros; split; [done|]; by eexists
  | |- preserves _ (ask _) => apply preserves_call; intros; split; [done|]; by eexists
  | |- preserves _ (emit _) => apply preserves_emit; intros; split; [done|]; by eexists
  end.
Ltac no_start_code := preserves_with no_start_refl no_start_trans no_start_base.

Lemma UpdateElementInfo_no_start c : preserves no_start (UpdateElementInfo c).
Proof. unfold UpdateElementInfo, GetLocalDeviceId. no_start_code. Qed.

Lemma UpdateElementInfo_caller c s t c' s' t' :
  UpdateElementInfo c s t = Done (c', s', t') -> callerInfo_ c' = callerInfo_ c.
Proof.
  unfold UpdateElementInfo. intros (dev & s1 & t1 & _ & H)%mbind_Done.
  destruct dev as [dev|]; [|by injection H as <- _ _].
  apply mbind_Done in H as (b & s2 & t2 & _ & H).
  destruct b as [b|]; [|by injection H as <- _ _].
  destruct (FindSinkContinueAbilityInfo _ _ _ _); by injection H as <- _ _.
Qed.

(** The device that a want's element was given is the device it answers. *)
Definition keeps_element_device : Prop :=
  forall (w : Want) d b a m, GetDeviceID (SetElementName w d b a m) = d.

Lemma UpdateElementInfo_device c s t c' s' t' :
  keeps_element_device -> UpdateElementInfo c s t = Done (c', s', t') -> GetDeviceID (want_ c') = GetDeviceID (want_ c).
Proof.
  unfold UpdateElementInfo. intros Hw (dev & s1 & t1 & _ & H)%mbind_Done.
  destruct dev as [dev|]; [|by injection H as <- _ _].
  apply mbind_Done in H as (b & s2 & t2 & _ & H).
  destruct b as [b|]; [|by injection H as <- _ _].
  destruct (FindSinkContinueAbilityInfo _ _ _ _); injection H as <- _ _; [done|]. apply Hw.
Qed.

Lemma CheckStartPermission_ok c s t s' t' :
  CheckStartPermission c s t = Done (ERR_OK, s', t') ->
  no_start s t s' t' /\ exists l, t' = t ++ l /\ In (PermissionChecked ERR_OK) l.
Proof.
  intros H. assert (no_start s t s' t') as Hns.
  { revert H. assert (preserves no_start (CheckStartPermission c)) as K; [|apply K].
    unfold CheckStartPermission, check_target. no_start_code. }
  split; [done|].
  assert (forall b c s t s' t', check_target b c s t = Done (ERR_OK, s', t') ->
    exists t0, t' = t0 ++ [PermissionChecked ERR_OK] /\ exists l, t0 = t ++ l) as Hc.
  { intros b c0 s0 t0 s0' t0' H0. unfold check_target in H0.
    apply mbind_Done in H0 as (? & ? & ? & [= <- <- <-] & H0).
    apply mbind_Done in H0 as (? & ? & ? & [= _ <- <-] & [= H0 <- <-]). rewrite H0.
    exists t0. split; [done|]. exists []. by rewrite app_nil_r. }
  assert (exists s1 t1 b, no_start s t s1 t1 /\ check_target b c s1 t1 = Done (ERR_OK, s', t'))
    as (s1 & t1 & b & (_ & l1 & -> & _) & H1).
  { unfold CheckStartPermission in H. apply mbind_Done in H as (? & ? & ? & [= <- <- <-] & H).
    apply mbind_Done in H as (info & s1 & t1 & H1 & H).
    apply mbind_Done in H as ((got & dev & ident) & s2 & t2 & H2 & H).
    apply mbind_Done in H as (loc & s3 & t3 & H3 & H).
    assert (no_start s t s3 t3) as Hs3.
    { injection H1 as _ <- <-. injection H2 as _ <- <-.
      destruct got; [apply mbind_Done in H3 as ((? & ?) & ? & ? & [= _ <- <-] & [= _ <- <-])
        |injection H3 as _ <- <-]; (split; [done|]); rewrite <- !app_assoc; by eexists. }
    split_guard.
    - split_guard; [by injection H|]. by exists s3, t3, true.
    - split_guard; [by exists s3, t3, false|].
      apply mbind_Done in H as (same & s4 & t4 & H4 & H). split_guard; [by injection H|].
      exists s4, t4, true. split; [|done]. eapply no_start_trans; [exact Hs3|].
      injection H4 as _ <- <-. split; [done|]. by eexists. }
  apply Hc in H1 as (t0 & -> & l2 & ->). exists (l1 ++ l2 ++ [PermissionChecked ERR_OK]).
  rewrite <- !app_assoc. split; [done|]. apply in_or_app. right. apply in_or_app. right. by left.
Qed.

Lemma CheckDeviceIdFromRemote_ok s localDevId destDevId srcDevId :
  CheckDeviceIdFromRemote s localDevId destDevId srcDevId = true <->
  localDevId <> [] /\ srcDevId <> localDevId /\ destDevId = localDevId /\
  srcDevId = sourceDeviceId_ (continueInfo_ s) /\ srcDevId <> [].
Proof.
  assert (forall b : bytes, empty b = true <-> b = []) as He by (by intros []).
  unfold CheckDeviceIdFromRemote. split.
  - repeat (split_guard; [done|]). intros _. guards_to_prop.
    repeat match goal with
    | H : empty ?b = false |- _ => assert (b <> []) by (intros E%He; congruence); clear H
    | H : bytes_eqb _ _ = true |- _ => apply bytes_eqb_eq in H
    | H : bytes_eqb _ _ = false |- _ => apply bytes_eqb_neq in H
    end. by subst.
  - intros (H1 & H2 & -> & H3 & H4). subst srcDevId.
    assert (forall b : bytes, b <> [] -> empty b = false) as He' by (by intros []).
    rewrite !He', bytes_eqb_refl, bytes_eqb_refl by done. cbn.
    by rewrite (proj2 (bytes_eqb_neq _ _) H2).
Qed.

Lemma check_sender_no_start c : preserves no_start (check_sender c).
Proof.
  unfold check_sender, CheckStartPermission, check_target, GetLocalDeviceId. no_start_code.
Qed.

(** What [ExecuteContinueData] does once the sender is accepted. *)
Lemma accepted_extends (cmd : DSchedContinueDataCmd) :
  preserves extends
    (let! want := UpdateWantForContinueType (want_ cmd) in
     let! continueSessionId := ask GetContinueSessionId in
     if negb (empty continueSessionId) then
       let! attached := attach_window want in
       match attached with
       | None => OnContinueEnd Dms.DMS_GET_WINDOW_FAILED_FROM_SCB
       | Some want => start_continued want (requestCode_ cmd)
       end
     else start_continued want (requestCode_ cmd)).
Proof.
  assert (forall T A (m : C A), preserves (quiet T) m -> preserves extends m) as Hq.
  { intros T A m H s t a s' t' (_ & _ & _ & _ & l & -> & _)%H. by exists l. }
  assert (forall w c, preserves extends (start_continued w c)) as Hs.
  { intros. apply (Hq [DSCHED_CONTINUE_SINK_WAIT_END_STATE]), start_continued_quiet. by left. }
  apply preserves_mbind; [exact extends_trans|apply (Hq []), UpdateWantForContinueType_quiet|].
  intros w. apply preserves_mbind; [exact extends_trans|apply preserves_call; by eexists|].
  intros sid. case_match; [|apply Hs].
  apply preserves_mbind; [exact extends_trans|apply (Hq []), attach_window_quiet|].
  intros [w'|]; [apply Hs|]. intros s t a s' t' (_ & _ & l & q & -> & _)%(post_end_handled [] false).
  by exists l.
Qed.
End MoreLemmas.
