(* ===== verification/ContinueTotality.v ===== *)
(** * No received text stops a continuation

    Reading a command never fails to return, whatever text arrived, because cJSON
    answers items whose strings are no longer than the text; hence no request leaves an
    object in the middle of its work.  [ContinueLemmas] shows the same of the event
    thread. *)

From Stdlib Require Import ZArith Lia String.
From stdpp Require Import base list option.
From S2P Require Import Prelude ErrorCodes DataBuffer StdMap StdString Base64 Framework ContinueEvent Effects CommandTotality Continue ContinueLemmas.

Section Totality.
Context {J : CJson} {JR : CJsonReads J} {N : NJson} {W : WantLib} {PL : ParcelLib}
  {PB : ParcelLibBound PL} {Ev : Env}.

(** ** Requests *)

#[local] Hint Resolve post_event_total : dms.

Lemma OnDataRecv_total c b : received_ok b -> total (Continue.OnDataRecv c b).
Proof.
  intros Hb. unfold Continue.OnDataRecv. destruct b as [b|]; [|apply total_mret].
  destruct (data_ b) as [d|] eqn:Hd; [|apply total_mret].
  destruct (received_text (S' := DSchedContinue) (E := Effect) b d Hb Hd) as (text & Ht & Hlen & _).
  intros s t. unfold mbind at 1. rewrite Ht. cbn [run_bind]. revert s t.
  match goal with |- forall s t, exists r, ?m s t = _ => change (total m) end.
  unfold OnContinueDataCmd, OnReplyCmd, OnContinueEndCmd, PostContinueDataTask, PostReplyTask,
    PostNotifyCompleteTask.
  pose proof (DataCmd_reads text Hlen). pose proof (ReplyCmd_reads text). pose proof (EndCmd_reads text).
  total_with ltac:(idtac; match goal with |- total (from_run _) => by eapply reads_from_run end).
Qed.

Lemma OnContinueMission_total w : total (OnContinueMission w).
Proof. unfold OnContinueMission, PostStartTask. total_with ltac:(fail). Qed.
Lemma OnStartCmd_total v : total (OnStartCmd v).
Proof. unfold OnStartCmd, PostCotinueAbilityTask. total_with ltac:(fail). Qed.
Lemma OnStartContinuation_total w u st tk : total (OnStartContinuation w u st tk).
Proof. unfold OnStartContinuation, PostContinueSendTask, SendEvent. total_with ltac:(fail). Qed.
Lemma OnNotifyComplete_total m b : total (OnNotifyComplete m b).
Proof. unfold OnNotifyComplete, PostNotifyCompleteTask. total_with ltac:(fail). Qed.
Lemma OnContinueEnd_total r : total (Continue.OnContinueEnd r).
Proof. unfold Continue.OnContinueEnd, PostContinueEndTask. total_with ltac:(fail). Qed.
End Totality.
