(* ===== verification/ContinueProperties.v ===== *)
(** * Properties of a continuation

    The event thread of [Continue.v]: which states an object passes through, that an
    error or an end always leads to the end state and to the manager, how often the
    caller is told, who connects and disconnects, and what the sink checks before it
    starts the ability. *)

From Stdlib Require Import ZArith Lia String.
From stdpp Require Import base list option.
From S2P Require Import Prelude ErrorCodes DataBuffer StdMap StdString Base64 Framework ContinueEvent Effects Continue ContinueLemmas.

(** ** Properties *)

Section Properties.
Context {J : CJson} {N : NJson} {W : WantLib} {PL : ParcelLib} {Ev : Env}.
Implicit Types (s : DSchedContinue) (t l : list Effect).

(** C4 However requests and events interleave, an initialised continuation keeps its role,
    moves only forward through its states, connects to and releases no device but its peer
    and only when it is the initiating side, and tells the caller at most once. *)
Theorem continuation_run_safe s t s' t' x :
  wf s -> currentState_ s = Some x -> run_of s t s' t' ->
  wf s' /\ (exists y, currentState_ s' = Some y /\ later x y) /\
  exists l, t' = t ++ l /\
    (forall p, In (ConnectDevice p) l \/ In (DisconnectDevice p) l ->
      initiator s = true /\ p = peerDeviceId s) /\
    (length (List.filter is_callback l) <= 1)%nat.
Proof.
  intros Hwf Hx Hrun. destruct (run_of_ok _ _ _ _ Hrun Hwf) as ((_ & HS & l & -> & L & Hc) & Hwf').
  split_and!; [done|by apply HS|]. exists l. split_and!; [done| |].
  - rewrite forallb_forall in L. intros p [Hp|Hp]; apply L in Hp; cbn in Hp;
      rewrite ?orb_false_r in Hp; apply andb_true_iff in Hp as (?%bytes_eqb_eq & ?); done.
  - unfold callbacks in Hc. destruct (callback_ s), (callback_ s'); cbn in Hc; lia.
Qed.

(** C35 The event thread left alone empties its queue: it returns after at most three turns
    for every waiting event, whatever the environment answers. *)
Theorem event_thread_quiesces s t :
  wf s -> exists s' l,
    drain (3 * length (queue_ s)) s t = Done (s', t ++ l) /\ queue_ s' = [] /\ wf s'.
Proof.
  intros Hwf. pose proof Hwf as (_ & _ & (x & Hx & _) & _).
  destruct (drain_ends (3 * length (queue_ s)) s t x Hwf Hx (queue_weight_bound _ _))
    as (s' & l & y & ? & ? & ? & _). by exists s', l.
Qed.

(** C22 An error ends the continuation: when an end event waits, or the first event is
    refused or its handling fails, the event thread brings the object to the end state
    and tells the manager, provided the event handler takes the events sent to it. *)
Theorem failure_ends_continuation s t e q x :
  wf s -> queue_ s = e :: q -> currentState_ s = Some x -> (forall t, SendEvent_ok t = true) ->
  (exists r, In (DSCHED_CONTINUE_END_EVENT r) (e :: q)) \/
  (exists ret s1 t1, state_Execute x e (set_queue q s) t = Done (ret, s1, t1) /\ ret <> ERR_OK) ->
  exists s' l y,
    drain (3 * length (e :: q)) s t = Done (s', t ++ l) /\ queue_ s' = [] /\
    currentState_ s' = Some y /\ end_state y = true /\ exists i, In (ManagerOnContinueEnd i) l.
Proof.
  intros Hwf Hq Hx Hsend Hcase. pose proof (queue_weight_bound x (e :: q)) as Hbound.
  destruct Hcase as [Hend|(ret & s1 & t1 & H1 & Hret)].
  - rewrite <- Hq in *. destruct (drain_ends _ s t x Hwf Hx Hbound)
      as (s' & l & y & Hd & Hempty & _ & Hy & _ & Htold).
    destruct (Htold Hsend Hend) as (Hl & Hey). exists s', l, y. by split_and!.
  - destruct (event_turn_progress s t x e q Hwf Hx Hq)
      as (s2 & l0 & y & H2 & Hwf2 & Hy & Hlt & _).
    pose proof (failing_turn _ _ _ _ _ _ _ _ _ _ Hwf Hx Hq Hsend H2 H1 Hret) as (Hs2 & _).
    assert (has_end s2) as Hhas by (exists ret; rewrite Hs2; apply in_or_app; right; by left).
    destruct (drain_ends (2 + 3 * length q) s2 (t ++ l0) y Hwf2 Hy) as (s' & l & z & Hd & Hempty & _ & Hz & _ & Htold);
      [rewrite Hq in Hlt; cbn [length] in Hbound; lia|].
    destruct (Htold Hsend Hhas) as (Hl & Hez). exists s', (l0 ++ l), z.
    replace (3 * length (e :: q))%nat with (S (2 + 3 * length q)) by (cbn [length]; lia).
    cbn [drain]. rewrite Hq, H2. cbn [run_bind]. rewrite Hd, app_assoc.
    split_and!; [done..|]. apply ended_app. by right.
Qed.

(** The end is not executed only once: an event that still waits behind the end event
    is refused by the end state, which posts a second end event, so the initiating side
    releases the connection twice although it made one. *)
Theorem late_event_releases_twice s t x r e :
  wf s -> currentState_ s = Some x -> end_state x = true -> initiator s = true ->
  (forall t, SendEvent_ok t = true) -> queue_ s = [DSCHED_CONTINUE_END_EVENT r; e] ->
  is_end e = false ->
  exists s' l, drain 3 s t = Done (s', t ++ l) /\ queue_ s' = [] /\
    length (List.filter (fun e => match e with DisconnectDevice _ => true | _ => false end) l) = 2%nat.
Proof.
  intros Hwf Hx Hend Hi Hsend Hq He.
  destruct (event_turn_total s t) as (((u & s1) & t1) & H1). destruct u.
  pose proof (event_turn_wf _ _ _ _ Hwf H1) as Hwf1.
  destruct (end_event_turn _ _ _ _ x r [e] Hwf Hx Hq H1) as (a & s1' & t1' & E1 & F1).
  unfold state_Execute in E1. rewrite end_state_map in E1 by done.
  pose proof (ExecuteContinueEnd_disconnects _ _ _ _ _ _ E1) as (l1 & Ht1 & Hl1).
  pose proof (ExecuteContinueEnd_handled [] false r _ _ _ _ _ E1) as (Hf1 & _).
  apply ExecuteContinueEnd_ends in E1 as (-> & Hq1 & Hs1 & _).
  destruct (F1 eq_refl) as (<- & <-). cbn in Hs1, Hq1. rewrite Hx in Hs1.
  destruct (event_turn_total s1 t1) as (((u & s2) & t2) & H2). destruct u.
  pose proof (event_turn_wf _ _ _ _ Hwf1 H2) as Hwf2.
  assert (state_Execute x e (set_queue [] s1) t1
    = Done (Dms.CONTINUE_STATE_MACHINE_INVALID_STATE, set_queue [] s1, t1)) as E2
    by (unfold state_Execute; by rewrite end_state_refuses).
  destruct (failing_turn _ _ _ _ _ _ _ _ _ _ Hwf1 Hs1 Hq1 Hsend H2 E2 ltac:(done)) as (-> & ->).
  set (s2 := set_queue (queue_ (set_queue [] s1) ++ _) _) in *. set (r2 := Dms.CONTINUE_STATE_MACHINE_INVALID_STATE) in *.
  assert (queue_ s2 = [DSCHED_CONTINUE_END_EVENT r2]) as Hq2 by done.
  assert (currentState_ s2 = Some x) as Hs2 by done.
  destruct (event_turn_total s2 (t1 ++ [Query])) as (((u & s3) & t3) & H3). destruct u.
  destruct (end_event_turn _ _ _ _ x r2 [] Hwf2 Hs2 Hq2 H3) as (a & s3' & t3' & E3 & F3).
  unfold state_Execute in E3. rewrite end_state_map in E3 by done.
  pose proof (ExecuteContinueEnd_disconnects _ _ _ _ _ _ E3) as (l3 & Ht3 & Hl3).
  apply ExecuteContinueEnd_ends in E3 as (-> & Hq3 & _). destruct (F3 eq_refl) as (<- & <-).
  cbn in Hq3. exists s3, (l1 ++ [Query] ++ l3).
  cbn [drain]. rewrite Hq, H1. cbn [run_bind]. rewrite Hq1, H2. cbn [run_bind].
  rewrite Hq2, H3. cbn [run_bind drain]. rewrite Hq3, Ht3, Ht1, <- !app_assoc. split_and!; [done..|].
  fold (disconnects (l1 ++ [Query] ++ l3)). rewrite !disconnects_app, Hl1, Hl3.
  change (initiator (set_queue [] s2)) with (initiator s1).
  rewrite (same_frame_initiator _ _ Hf1). change (initiator (set_queue [e] s)) with (initiator s).
  by rewrite Hi.
Qed.

(** C34 On receiving the data of the continuation the sink starts the ability only after every
    check: the command comes from the source of this continuation, which is another device and
    connected, its want is addressed to this device, and the permission check answered ERR_OK
    before the start.  The quick start, which opens the ability before the data arrive
    ([QuickStartAbility]), makes none of these checks and is not meant here. *)
Theorem ability_started_only_if_allowed cmd s t ret s' t' l w rc acc :
  keeps_element_device ->
  ExecuteContinueData (Some cmd) s t = Done (ret, s', t') -> t' = t ++ l ->
  In (AmsStartAbility w rc acc) l ->
  sourceDeviceId (callerInfo_ cmd) = sourceDeviceId_ (continueInfo_ s) /\
  sourceDeviceId_ (continueInfo_ s) <> [] /\
  (exists t1 localDeviceId, GetLocalDeviceId_r t1 = Some localDeviceId /\ localDeviceId <> [] /\
    GetDeviceID (want_ cmd) = localDeviceId /\ sourceDeviceId_ (continueInfo_ s) <> localDeviceId) /\
  (exists t1, VerifySourceDeviceConnected t1 (callerInfo_ cmd) = true) /\
  exists l1 l2, l = l1 ++ l2 /\ In (PermissionChecked ERR_OK) l1 /\
    ~ In (AmsStartAbility w rc acc) l1.
Proof.
  intros Hw H -> Hin.
  assert (forall l', forallb (fun e => negb (starts_ability e)) l' = true ->
    ~ In (AmsStartAbility w rc acc) l') as Hno.
  { intros l' Hl' Hi. rewrite forallb_forall in Hl'. by apply Hl' in Hi. }
  cbn [ExecuteContinueData] in H.
  apply mbind_Done in H as (cmd' & s1 & t1 & H1 & H).
  pose proof (UpdateElementInfo_caller _ _ _ _ _ _ H1) as Hcaller.
  pose proof (UpdateElementInfo_device _ _ _ _ _ _ Hw H1) as Hdest.
  apply UpdateElementInfo_no_start in H1 as (I1 & l1 & -> & N1).
  apply mbind_Done in H as (ret1 & s2 & t2 & H2 & H).
  assert (no_start s1 (t ++ l1) s2 t2) as (I2 & l2 & -> & N2).
  { by eapply check_sender_no_start. }
  destruct (negb (ret1 =? ERR_OK)) eqn:Hret; guards_to_prop.
  { injection H as <- <- Heq. rewrite <- app_assoc in Heq. apply app_inv_head in Heq as <-.
    apply in_app_or in Hin as [Hin|Hin]; by apply Hno in Hin. }
  subst ret1. unfold check_sender in H2.
  apply mbind_Done in H2 as (s0 & ? & ? & [= <- <- <-] & H2).
  apply mbind_Done in H2 as (local & s3 & t3 & Hlocal & H2).
  apply mbind_Done in H2 as (valid & s4 & t4 & Hvalid & H2).
  destruct valid; [cbn [negb] in H2|by injection H2].
  destruct local as [local|]; [|by injection Hvalid].
  destruct (CheckDeviceIdFromRemote s1 local _ _) eqn:Hdev; [cbn [negb] in Hvalid|by injection Hvalid].
  apply CheckDeviceIdFromRemote_ok in Hdev as (D1 & D2 & D3 & D4 & D5).
  rewrite Hcaller, I1 in D4. rewrite Hcaller in *.
  injection Hlocal as Hlocal <- <-. injection Hvalid as Hvalid <- <-.
  apply CheckStartPermission_ok in H2 as (_ & l3 & Hl3 & Hperm).
  assert (l2 = [Query] ++ [Query] ++ l3) as ->.
  { rewrite <- !app_assoc in Hl3. by do 2 apply app_inv_head in Hl3. }
  split_and!; [done|congruence| | |].
  - exists (t ++ l1), local. split_and!; congruence.
  - by eexists.
  - assert (exists l4, l = (l1 ++ [Query] ++ [Query] ++ l3) ++ l4) as (l4 & ->).
    { assert (extends s2 ((t ++ l1) ++ [Query] ++ [Query] ++ l3) s' (t ++ l)) as (l4 & Hl4).
      { by eapply accepted_extends. }
      exists l4. rewrite <- !app_assoc in Hl4. apply app_inv_head in Hl4. by rewrite Hl4, <- !app_assoc. }
    eexists _, l4. split; [done|]. split.
    + do 2 (apply in_or_app; right). apply in_or_app. by right.
    + intros [Hi|Hi]%in_app_or; [by apply (Hno l1 N1)|by apply (Hno _ N2)].
Qed.

(** C40 Both constructors followed by [Init] give a well-formed object with an empty queue:
    the requester in the first state of its direction, the peer in the opposite role of
    the start command's sender, on the session the command came from. *)
Theorem initialised_well_formed subServiceType direction callback info account cmd session s0 t0 :
  direction = CONTINUE_SOURCE \/ direction = CONTINUE_SINK ->
  (exists s l,
    (do! construct_request subServiceType direction callback info account in Init) s0 t0
      = Done (ERR_OK, s, t0 ++ l) /\ forallb quiet_effect l = true /\
    wf s /\ currentState_ s = Some (first_state direction) /\ queue_ s = [] /\
    direction_ s = direction /\ subServiceType_ s = subServiceType /\
    continueInfo_ s = info /\ callback_ s = callback) /\
  (exists s l,
    (do! construct_peer (Some cmd) session account in Init) s0 t0 = Done (ERR_OK, s, t0 ++ l) /\
    forallb quiet_effect l = true /\
    wf s /\ currentState_ s = Some (first_state (opposite (start_direction_ cmd))) /\
    queue_ s = [] /\ direction_ s = opposite (start_direction_ cmd) /\
    softbusSessionId_ s = session /\ callback_ s = false).
Proof.
  intros Hdir. split.
  - destruct (request_initialised subServiceType direction callback info account s0 t0 Hdir)
      as (s & l & H). by exists s, l.
  - destruct (peer_initialised cmd session account s0 t0) as (s & l & H & Hl & Hwf & Hx & Hq & Hd & Hs & _ & Hc & _).
    exists s, l. by split_and!.
Qed.

(** Of the abilities registered for the bundle, the one chosen is the first in the
    source's module that supports the continue type, up to the quick start suffix, or else
    the first of any module. *)
Theorem FindSinkContinueAbilityInfo_spec srcModuleName srcContinueType abilities :
  let supports a := existsb (fun ty => bytes_eqb (ContinueTypeFormat ty) srcContinueType)
    (ability_continueType a) in
  let same a := supports a && bytes_eqb srcModuleName (moduleName a) in
  FindSinkContinueAbilityInfo srcModuleName srcContinueType abilities [] =
  match List.find same abilities with
  | Some a => [a]
  | None => List.filter supports abilities
  end.
Proof.
  intros supports same.
  assert (forall tys, has_continue_type srcContinueType tys
    = existsb (fun ty => bytes_eqb (ContinueTypeFormat ty) srcContinueType) tys) as Hhas.
  { induction tys as [|ty tys IH]; [done|]. cbn [has_continue_type existsb].
    by destruct (bytes_eqb (ContinueTypeFormat ty) srcContinueType). }
  assert (forall result, FindSinkContinueAbilityInfo srcModuleName srcContinueType abilities result =
    match List.find same abilities with
    | Some a => [a]
    | None => result ++ List.filter supports abilities
    end) as H; [|apply H].
  induction abilities as [|a l IH]; intros result; cbn [FindSinkContinueAbilityInfo List.find List.filter];
    [by rewrite app_nil_r|].
  rewrite Hhas. unfold same at 1. fold (supports a). destruct (supports a); cbn [andb]; [|apply IH].
  destruct (bytes_eqb srcModuleName (moduleName a)); [done|]. rewrite IH.
  destruct (List.find same l); [done|]. by rewrite <- app_assoc.
Qed.

(** A continue type is a quick start one exactly when it ends in "_ContinueQuickStart",
    and formatting it removes that suffix and nothing else. *)
Theorem ContinueTypeFormat_spec continueType :
  zlen continueType < 2 ^ 63 ->
  (forall base, continueType = base ++ QUICK_START_CONFIGURATION ->
    has_quick_start_suffix continueType = true /\ ContinueTypeFormat continueType = base) /\
  ((forall base, continueType <> base ++ QUICK_START_CONFIGURATION) ->
    has_quick_start_suffix continueType = false /\ ContinueTypeFormat continueType = continueType).
Proof.
  intros Hmax. unfold has_quick_start_suffix, ContinueTypeFormat, rfind. split.
  - intros base ->. rewrite rfind_opt_suffix, zlen_app by done.
    pose proof (zlen_nonneg base). bool_lia.  split; [done|]. apply slice_app_l. lia.
  - intros Hno.
    assert (((match rfind_opt QUICK_START_CONFIGURATION continueType with Some i => i | None => npos end)
      =? zlen continueType - zlen QUICK_START_CONFIGURATION) = false \/
      zlen continueType < zlen QUICK_START_CONFIGURATION) as [->|Hlt].
    { destruct (rfind_opt QUICK_START_CONFIGURATION continueType) as [i|] eqn:Hi.
      - apply rfind_opt_occurs in Hi as (b & u & -> & <-). left. rewrite !zlen_app. apply Z.eqb_neq.
        intros Hu. assert (u = []) as -> by (apply zlen_0_nil; lia).
        rewrite app_nil_r in Hno. by eapply Hno.
      - left. unfold npos. apply Z.eqb_neq. pose proof (zlen_nonneg QUICK_START_CONFIGURATION). lia. }
    + rewrite andb_false_r. by destruct (zlen continueType <? _).
    + by bool_lia.
Qed.

(** Waiting for the ability asks at most 40 times, 50 ms apart, and answers whether one
    of the answers was a success with the initial state. *)
Theorem WaitAbilityStateInitial_bounded persistentId s t :
  exists (answer : bool) n,
    WaitAbilityStateInitial persistentId s t =
      Done (answer, s, t ++ concat (replicate n [Query; SleepMs 50]) ++ (if answer then [Query] else [])) /\
    (n <= 40)%nat /\ (answer = false -> n = 40%nat) /\
    (answer = true -> exists t1, GetAbilityStateByPersistentId t1 persistentId = (ERR_OK, true)).
Proof.
  unfold WaitAbilityStateInitial. change 40%nat with GET_ABILITY_STATE_RETRY_TIMES.
  generalize GET_ABILITY_STATE_RETRY_TIMES as k. intros k. revert t.
  induction k as [|k IH]; intros t; cbn [wait_initial].
  - exists false, 0%nat. cbn. by rewrite !app_nil_r.
  - unfold ask, call, mbind, emit, mret. cbn [run_bind].
    destruct (GetAbilityStateByPersistentId t persistentId) as (err & state) eqn:Ht.
    destruct ((err =? ERR_OK) && state) eqn:E.
    + apply andb_true_iff in E as (->%Z.eqb_eq & ->). exists true, 0%nat. cbn.
      split_and!; [done|lia|done|by exists t].
    + destruct (IH ((t ++ [Query]) ++ [SleepMs GET_ABILITY_STATE_SLEEP_TIME]))
        as (a & n & -> & ? & Hn & Ha).
      exists a, (S n). cbn [replicate concat]. rewrite <- !app_assoc. split_and!; [done|lia| |done].
      intros Hf. by rewrite Hn.
Qed.

(** A script of requests and turns, played in order. *)
Fixpoint play (script : list (option request)) : C unit :=
  match script with
  | [] => mret tt
  | None :: script => do! event_turn in play script
  | Some r :: script => do! perform r in play script
  end.

Lemma play_run script s t s' t' :
  wf s -> subServiceType_ s = CONTINUE_PULL \/ subServiceType_ s = CONTINUE_PUSH ->
  play script s t = Done (tt, s', t') -> run_of s t s' t'.
Proof.
  revert s t. induction script as [|[r|] script IH]; intros s t Hwf Hsub H; cbn [play] in H.
  - injection H as <- <-. constructor.
  - apply mbind_Done in H as ([] & s1 & t1 & H1 & H2).
    assert (allowed r s) as Ha by (by destruct r).
    destruct (only_posts_run_ok s t s1 t1 Hwf (perform_posts _ _ _ _ _ _ Ha H1)) as ((F & _) & Hwf1).
    eapply run_request; [exact Ha|exact H1|]. apply IH; [done| |exact H2].
    destruct F as (_ & -> & _). exact Hsub.
  - apply mbind_Done in H as ([] & s1 & t1 & H1 & H2).
    destruct (event_turn_run_ok s t s1 t1 Hwf H1) as (F & _).
    eapply run_turn; [exact H1|]. apply IH; [by eapply event_turn_wf| |exact H2].
    destruct F as (_ & -> & _). exact Hsub.
Qed.
End Properties.

(** ** A concrete continuation *)

Module Demo.
#[export] Existing Instance DemoJson.demo.
#[export] Existing Instance DemoJson.extra.
#[export] Existing Instance DemoWant.demo.
#[export] Existing Instance demo_parcels.

Definition local_device : bytes := Eval vm_compute in str "sink".
Definition remote_device : bytes := Eval vm_compute in str "source".
Definition bundle : bytes := Eval vm_compute in str "com.demo".

(** A sink whose services all agree. *)
#[export] Instance env : Env := {|
  mission_manager := true;
  multi_accounts := false;
  FLAG_ABILITY_CONTINUATION := 8;
  FLAG_ABILITY_PREPARE_CONTINUATION := 1024;
  PARAM_APP_CLONE_INDEX_KEY := str "ohos.extra.param.key.appCloneIndex";
  PARAM_MODULE_NAME := str "moduleName";
  hotspot_errors := [-206616];
  busy_link_errors := [-206603];
  SendEvent_ok _ := true;
  GetForegroundUserId _ := 100;
  GetContinueEventInfo _ _ _ _ := mkContinueEventInfo [] [] [] [] [];
  ConnectDevice_ret _ _ := (ERR_OK, Some 5);
  SendData_ret _ _ _ := ERR_OK;
  GetLocalBundleInfoV9 _ _ := (ERR_OK, 1000);
  GetLocalBundleInfo _ _ := (ERR_OK, (1000, [str "EntryAbility"]));
  GetAppProvisionInfo4CurrentUser _ _ := (true, (str "dev", str "app"));
  Continue.GetAbilityName _ _ _ _ := str "EntryAbility";
  GetCallerAppIdFromBms _ _ := Some (str "app");
  GetBundleNameListFromBms _ _ := Some [bundle];
  IsSameDeveloperId _ _ _ := true;
  GetAccountInfo _ _ _ := (ERR_OK, AccountInfo_default);
  GetDistributedBundleInfo _ _ _ := None;
  GetLocalDeviceId_r _ := Some local_device;
  VerifySourceDeviceConnected _ _ := true;
  CheckTargetPermission _ _ _ _ _ _ := ERR_OK;
  CheckTargetPermission4DiffBundle _ _ _ _ _ _ := ERR_OK;
  GetMissionInfo _ _ := (ERR_OK, (true, bundle));
  GetMissionIdByBundleName_r _ _ _ m := (ERR_OK, m);
  ContinueAbility_ret _ := ERR_OK;
  AmsConnect _ := ERR_OK;
  AmsStartAbility_ret _ _ := ERR_OK;
  IsSceneBoardEnabled _ := true;
  GetContinueSessionId _ := [];
  GetPersistentId _ _ := (ERR_OK, 9);
  GetAbilityStateByPersistentId _ _ := (ERR_OK, true);
  SaveDataDuration _ := [];
  WriteCallbackParcel _ := true;
  NotifyQuickStartState_ret _ := ERR_OK
|}.

Definition info : DSchedContinueInfo :=
  mkContinueInfo remote_device bundle local_device bundle (str "type") [] 7 [] 0.

Definition object (sub direction : Z) (state : DSchedContinueStateType) (queue : list InnerEvent)
    : DSchedContinue :=
  mkContinue 1 sub 0 direction info true 5 true EventNotify_default 0 0 true (Some state) true queue false.

Lemma object_wf sub direction state queue :
  (direction = CONTINUE_SOURCE /\ source_state state = true) \/
  (direction = CONTINUE_SINK /\ source_state state = false) ->
  Forall (event_ok sub) queue -> wf (object sub direction state queue).
Proof. intros Hd Hq. split_and!; [done..| |done]. by exists state. Qed.

Definition data_cmd : DSchedContinueDataCmd :=
  mkDataCmd
    (mkCmdBase 1 0 0 2 remote_device bundle [] local_device bundle [] (str "type") 0 7 6)
    (8, (local_device, bundle, str "EntryAbility", []), []) [] (-1)
    (mkCallerInfo 20010 (-1) 1 remote_device (-1) (str "app") [bundle] (-1) 0 njson_null)
    AccountInfo_default.
End Demo.
Import Demo.

Lemma continuation_run_safe_witness :
  let s := object CONTINUE_PUSH CONTINUE_SOURCE DSCHED_CONTINUE_SOURCE_START_STATE [] in
  let script := [Some (ContinueMission (Some WantParams_empty)); None;
    Some (ContinueEnd Dms.CONTINUE_ABILITY_TIMEOUT_ERR); None; None] in
  exists s' t', play script s [] = Done (tt, s', t') /\ wf s' /\
    exists l, t' = [] ++ l /\ length (List.filter is_callback l) = 1%nat.
Proof.
  intros s script.
  assert (wf s) as Hs by (apply object_wf; [by left|constructor]).
  assert (ends_with (fun _ _ t' => Nat.eqb (length (List.filter is_callback t')) 1)
    (play script s []) = true) as Hrun by (vm_compute; reflexivity).
  apply ends_with_Done in Hrun as ([] & s' & t' & Hplay & Hone).
  exists s', t'. split; [exact Hplay|].
  apply (play_run _ _ _ _ _ Hs (or_intror eq_refl)) in Hplay as Hrun.
  destruct (continuation_run_safe s [] s' t' DSCHED_CONTINUE_SOURCE_START_STATE Hs eq_refl Hrun)
    as (Hwf & _ & l & Hl & _).
  split; [exact Hwf|]. exists l. split; [exact Hl|]. apply Nat.eqb_eq. rewrite Hl in Hone. exact Hone.
Defined.

Lemma event_thread_quiesces_witness :
  let s := object CONTINUE_PULL CONTINUE_SINK DSCHED_CONTINUE_DATA_STATE
    [DSCHED_CONTINUE_DATA_EVENT (Some data_cmd); DSCHED_CONTINUE_COMPLETE_EVENT ERR_OK] in
  wf s /\ exists s' l, drain 6 s [] = Done (s', l) /\ queue_ s' = [] /\ wf s'.
Proof.
  intros s.
  assert (wf s) as Hs.
  { apply object_wf; [by right|]. repeat constructor. }
  split; [exact Hs|]. exact (event_thread_quiesces s [] Hs).
Defined.

(** A sink told to start before its own request was sent: the start state refuses. *)
Lemma failure_ends_continuation_witness :
  let s := object CONTINUE_PULL CONTINUE_SINK DSCHED_CONTINUE_SINK_START_STATE
    [DSCHED_CONTINUE_DATA_EVENT None] in
  wf s /\ exists s' l y,
    drain 3 s [] = Done (s', l) /\ queue_ s' = [] /\
    currentState_ s' = Some y /\ end_state y = true /\ exists i, In (ManagerOnContinueEnd i) l.
Proof.
  intros s.
  assert (wf s) as Hs.
  { apply object_wf; [by right|]. repeat constructor. }
  assert (forall t, SendEvent_ok t = true) as Hsend by (intros t; reflexivity).
  split; [exact Hs|].
  apply (failure_ends_continuation s [] (DSCHED_CONTINUE_DATA_EVENT None) []
    DSCHED_CONTINUE_SINK_START_STATE Hs eq_refl eq_refl Hsend).
  right. exists Dms.CONTINUE_STATE_MACHINE_INVALID_STATE, (set_queue [] s), []. split; [reflexivity|discriminate].
Defined.

Lemma late_event_releases_twice_witness :
  let s := object CONTINUE_PULL CONTINUE_SINK DSCHED_CONTINUE_SINK_END_STATE
    [DSCHED_CONTINUE_END_EVENT ERR_OK; DSCHED_CONTINUE_COMPLETE_EVENT ERR_OK] in
  wf s /\ exists s' l, drain 3 s [] = Done (s', l) /\ queue_ s' = [] /\
    length (List.filter (fun e => match e with DisconnectDevice _ => true | _ => false end) l) = 2%nat.
Proof.
  intros s.
  assert (wf s) as Hs.
  { apply object_wf; [by right|]. repeat constructor. }
  assert (forall t, SendEvent_ok t = true) as Hsend by (intros t; reflexivity).
  split; [exact Hs|].
  exact (late_event_releases_twice s [] DSCHED_CONTINUE_SINK_END_STATE ERR_OK
    (DSCHED_CONTINUE_COMPLETE_EVENT ERR_OK) Hs eq_refl eq_refl eq_refl Hsend
    eq_refl eq_refl).
Defined.

(** The sink of the example does start the ability. *)
Lemma ability_started_only_if_allowed_witness :
  let s := object CONTINUE_PULL CONTINUE_SINK DSCHED_CONTINUE_DATA_STATE [] in
  exists ret s' l w rc acc, ExecuteContinueData (Some data_cmd) s [] = Done (ret, s', l) /\
    In (AmsStartAbility w rc acc) l /\
    sourceDeviceId (callerInfo_ data_cmd) = sourceDeviceId_ (continueInfo_ s) /\
    (exists t1, GetLocalDeviceId_r t1 = Some (GetDeviceID (want_ data_cmd))) /\
    exists l1 l2, l = l1 ++ l2 /\ In (PermissionChecked ERR_OK) l1.
Proof.
  intros s.
  assert (ends_with (fun _ _ l => existsb starts_ability l)
    (ExecuteContinueData (Some data_cmd) s []) = true) as Hrun by (vm_compute; reflexivity).
  apply ends_with_Done in Hrun as (ret & s' & l & Hrun & Hin).
  apply existsb_exists in Hin as (e & Hin & He). destruct e; try discriminate He.
  exists ret, s', l. eexists _, _, _. split; [exact Hrun|]. split; [exact Hin|].
  assert (keeps_element_device (W := DemoWant.demo)) as Hw by (intros [[f [[[d0 b0] a0] m0]] ps] d b a [m|]; reflexivity).
  destruct (ability_started_only_if_allowed _ _ _ _ _ _ l _ _ _ Hw Hrun eq_refl Hin)
    as (Hd & _ & (t1 & local & Hlocal & _ & Hdest & _) & _ & l1 & l2 & Hl & Hp & _).
  split; [exact Hd|]. split; [exists t1; rewrite Hdest; exact Hlocal|].
  exists l1, l2. split; [exact Hl|exact Hp].
Defined.

Lemma initialised_well_formed_witness :
  let cmd := mkStartCmd (data_base data_cmd) CONTINUE_SINK 1 WantParams_empty in
  exists s t,
    (do! construct_request CONTINUE_PULL CONTINUE_SINK true info 0 in Init)
      (object CONTINUE_PULL CONTINUE_SINK DSCHED_CONTINUE_SINK_START_STATE []) []
      = Done (ERR_OK, s, t) /\
    wf s /\ queue_ s = [] /\ direction_ (s : DSchedContinue) = CONTINUE_SINK.
Proof.
  intros cmd.
  destruct (initialised_well_formed CONTINUE_PULL CONTINUE_SINK true info 0 cmd 5
    (object CONTINUE_PULL CONTINUE_SINK DSCHED_CONTINUE_SINK_START_STATE []) []
    (or_intror eq_refl)) as ((s & l & Hrun & _ & Hwf & _ & Hq & Hd & _) & _).
  exists s, l. split; [exact Hrun|]. split; [exact Hwf|]. split; [exact Hq|exact Hd].
Defined.

Lemma ContinueTypeFormat_spec_witness :
  ContinueTypeFormat (str "page_ContinueQuickStart") = str "page" /\
  has_quick_start_suffix (str "page_ContinueQuickStart") = true.
Proof.
  destruct (ContinueTypeFormat_spec (str "page_ContinueQuickStart") ltac:(vm_compute; reflexivity))
    as (H & _).
  destruct (H (str "page") eq_refl) as (Hq & Hf). split; [exact Hf|exact Hq].
Defined.
