(* ===== verification/ContinueManager.v ===== *)
(** * The manager of the continuations

    services/dtbschedmgr/src/continue/dsched_continue_manager.cpp: the table of the
    running continuations, how many this device takes part in, and the callbacks that
    follow a quick start.  Requests, received data and ends are posted as tasks and
    run one at a time on the manager's thread; a continuation has a thread of its own
    ([Continue.event_turn]) and calls the manager back.

    The state is [DSchedContinueManager]; [tasks_] is the queue of the eventhandler
    library, a task per entry with its due time and name, and [now_] that library's
    clock in milliseconds.  The objects of the table are the [DSchedContinue] of
    [Continue.v]; [on_object] runs one of their functions.  An object of the table is
    never null.  The all-connect hooks (DMSFWK_ALL_CONNECT_MGR), which the default
    build leaves out, and the reports to [DmsRadar] are not modelled. *)

From Stdlib Require Import ZArith Lia String.
From stdpp Require Import base list option.
From S2P Require Import Prelude ErrorCodes DataBuffer StdMap StdString EventQueue Base64 Framework ContinueEvent Effects Continue.

(** ** Data *)

Definition MAX_CONCURRENT_SINK : Z := 1.
Definition MAX_CONCURRENT_SOURCE : Z := 1.
Definition CONTINUE_TIMEOUT : Z := 10000.
Definition TERMINATE_DELAY_TIME : Z := 200.

(** [DSchedContinueInfo::operator<] compares the concatenated members. *)
Definition compareInfo (i : DSchedContinueInfo) : bytes :=
  sourceDeviceId_ i ++ sourceBundleName_ i ++ sinkDeviceId_ i ++ sinkBundleName_ i.

#[export] Instance continue_info_order : KeyOrder DSchedContinueInfo :=
  fun a b => bytes_ltb (compareInfo a) (compareInfo b).

(** [operator<] of [StateCallbackInfo]. *)
#[export] Instance state_callback_order : KeyOrder StateCallbackInfo := fun lhs rhs =>
  if cb_missionId lhs <? cb_missionId rhs then true
  else if cb_missionId rhs <? cb_missionId lhs then false
  else if bytes_ltb (cb_bundleName lhs) (cb_bundleName rhs) then true
  else if bytes_ltb (cb_bundleName rhs) (cb_bundleName lhs) then false
  else if bytes_ltb (cb_moduleName lhs) (cb_moduleName rhs) then true
  else if bytes_ltb (cb_moduleName rhs) (cb_moduleName lhs) then false
  else bytes_ltb (cb_abilityName lhs) (cb_abilityName rhs).

(** The registered callback and the last state that could not be told to it. *)
Record StateCallbackData := mkStateCallbackData {
  remoteObject : option Z;
  diedListener : option StateCallbackInfo;
  data_state : Z;
  data_message : bytes
}.

(** The constructor of two devices and two bundles, and the one of a mission. *)
Definition info_of_bundles (src srcBundle dst dstBundle ty : bytes) : DSchedContinueInfo :=
  mkContinueInfo src srcBundle dst dstBundle ty [] 0 [] 0.
Definition info_of_mission (src dst : bytes) (missionId : Z) : DSchedContinueInfo :=
  mkContinueInfo src [] dst [] [] [] missionId [] 0.

Definition INT32_SHORT_ID_LEN : Z := 20.
Definition INT32_MIN_ID_LEN : Z := 6.
Definition INT32_PLAINTEXT_LEN : Z := 4.

Definition GetAnonymStr (value : bytes) : bytes :=
  let tmpStr := str "******" in
  let strLen := zlen value in
  if strLen <? INT32_MIN_ID_LEN then tmpStr
  else if strLen <=? INT32_SHORT_ID_LEN then
    slice value 0 1 ++ tmpStr ++ slice value (strLen - 1) 1
  else
    slice value 0 INT32_PLAINTEXT_LEN ++ tmpStr
      ++ slice value (strLen - INT32_PLAINTEXT_LEN) INT32_PLAINTEXT_LEN.

Definition ToStringIgnoreMissionId (i : DSchedContinueInfo) : bytes :=
  str "SrcDevId: " ++ GetAnonymStr (sourceDeviceId_ i) ++ str " " ++
  str "SrcBundle: " ++ sourceBundleName_ i ++ str " " ++
  str "DstDevId: " ++ GetAnonymStr (sinkDeviceId_ i) ++ str " " ++
  str "DstBundle: " ++ sinkBundleName_ i ++ str " " ++
  str "ContiType: " ++ continueType_ i.

Section Manager.
Context {J : CJson} {N : NJson} {W : WantLib} {PL : ParcelLib} {Ev : Env}.

(** The lambdas the manager posts to its thread; [callback] says whether it is set. *)
Inductive Task :=
| TaskContinueMission (srcDeviceId dstDeviceId : bytes) (missionId : Z) (callback : bool)
    (wantParams : WantParams)
| TaskContinueBundle (continueInfo : DSchedContinueInfo) (callback : bool) (wantParams : WantParams)
| TaskTimeOut (info : DSchedContinueInfo)
| TaskStartContinuation (want : Want) (missionId callerUid status accessToken : Z)
| TaskNotifyComplete (devId : list Z) (missionId : Z) (isSuccess : bool) (callerBundleName : bytes)
| TaskNotifyTerminate (missionId : Z)
| TaskContinueEnd (info : DSchedContinueInfo)
| TaskDataRecv (sessionId : Z) (dataBuffer : option DataBuffer)
| TaskShutdown (socket : Z).

Record DSchedContinueManager := mkManager {
  mgr_eventHandler_ : bool;
  hasInit_ : bool;
  now_ : Z;
  tasks_ : list (Posted Task);
  continues_ : std_map DSchedContinueInfo DSchedContinue;
  stateCallbackCache_ : std_map StateCallbackInfo StateCallbackData;
  cntSink_ : Z;
  cntSource_ : Z
}.

(** What the manager asks that a continuation does not. *)
Class ManagerEnv := {
  GetDeviceInfoById : list Effect -> bytes -> bool;
  CheckMDMCtrlRule : list Effect -> bytes -> bool;
  GetForegroundUser : list Effect -> Z;
  (** [GetBundleNameId] and [GetDistributedBundleInfo] of the device and that id. *)
  GetDistributedBundleInfoById : list Effect -> bytes -> bytes -> option DmsBundleInfo;
  (** The result, the launch flag, the bundle and the ability of a mission. *)
  GetMissionStatus : list Effect -> Z -> Z -> Z * (Z * bytes * bytes);
  WriteStateParcel : list Effect -> bool;
  Str16ToStr8 : list Z -> bytes;
  (** What [GetSharedObject<DistributedWantParams>] makes of the posted
      [AAFwk::WantParams]. *)
  start_params : WantParams -> option WantParams
}.

Context {ME : ManagerEnv}.

Definition Mg (A : Type) : Type := M DSchedContinueManager Effect A.

Definition query {A} (oracle : list Effect -> A) : Mg A := call Query oracle.

Definition set_tasks (l : list (Posted Task)) (g : DSchedContinueManager) : DSchedContinueManager :=
  mkManager (mgr_eventHandler_ g) (hasInit_ g) (now_ g) l (continues_ g) (stateCallbackCache_ g)
    (cntSink_ g) (cntSource_ g).
Definition set_continues (l : std_map DSchedContinueInfo DSchedContinue) (g : DSchedContinueManager)
    : DSchedContinueManager :=
  mkManager (mgr_eventHandler_ g) (hasInit_ g) (now_ g) (tasks_ g) l (stateCallbackCache_ g)
    (cntSink_ g) (cntSource_ g).
Definition set_cache (l : std_map StateCallbackInfo StateCallbackData) (g : DSchedContinueManager)
    : DSchedContinueManager :=
  mkManager (mgr_eventHandler_ g) (hasInit_ g) (now_ g) (tasks_ g) (continues_ g) l
    (cntSink_ g) (cntSource_ g).
Definition set_counts (sink source : Z) (g : DSchedContinueManager) : DSchedContinueManager :=
  mkManager (mgr_eventHandler_ g) (hasInit_ g) (now_ g) (tasks_ g) (continues_ g)
    (stateCallbackCache_ g) sink source.

(** ** Tasks *)

(** [eventHandler_->PostTask(func, name, delay)]. *)
Definition PostTask (task : Task) (name : bytes) (delay : Z) : Mg unit :=
  modify (fun g => set_tasks (insert_task (mkPosted (now_ g + delay) name task) (tasks_ g)) g).

(** The end of every function that posts a task and answers a code. *)
Definition post_task (task : Task) : Mg Z :=
  let! g := get in
  if negb (mgr_eventHandler_ g) then mret Dms.INVALID_PARAMETERS_ERR
  else do! PostTask task [] 0 in mret ERR_OK.

(** Runs a function of an object of the table and keeps what becomes of the object. *)
Definition on_object {A} (info : DSchedContinueInfo) (m : C A) : Mg (option A) := fun g t =>
  match map_find (continues_ g) info with
  | None => Done (None, g, t)
  | Some s =>
    let* (a, s, t) := m s t in
    Done (Some a, set_continues (map_assign (continues_ g) info s) g, t)
  end.

(** A new object, not yet in the table. *)
Definition make_shared (m : C unit) : Mg DSchedContinue := fun g t =>
  let* (_, s, t) := (do! m in Continue.Init) Continue_default t in
  Done (s, g, t).

(** The key and object of the first entry, in the order of the keys, that satisfies [p]. *)
Definition find_continue (p : DSchedContinue -> bool) (g : DSchedContinueManager)
    : option (DSchedContinueInfo * DSchedContinue) :=
  List.find (fun e => p e.2) (continues_ g).

Definition GetLocalDeviceId : Mg (option bytes) := query GetLocalDeviceId_r.

(** ** Starting *)

(** The checks both [ContinueMission] functions begin with; [inr] is the local device. *)
Definition check_devices (srcDeviceId dstDeviceId : bytes) (callback : bool) : Mg (Z + bytes) :=
  if empty srcDeviceId || empty dstDeviceId || negb callback then mret (inl Dms.INVALID_PARAMETERS_ERR)
  else
    let! local := GetLocalDeviceId in
    match local with
    | None => mret (inl Dms.INVALID_PARAMETERS_ERR)
    | Some localDevId =>
      if negb (bytes_eqb localDevId srcDeviceId) && negb (bytes_eqb localDevId dstDeviceId) then
        mret (inl Dms.OPERATION_DEVICE_NOT_INITIATOR_OR_TARGET)
      else
        let! known := query (fun t =>
          GetDeviceInfoById t (if bytes_eqb localDevId srcDeviceId then dstDeviceId else srcDeviceId)) in
        if negb known then mret (inl Dms.INVALID_REMOTE_PARAMETERS_ERR) else mret (inr localDevId)
    end.

Definition ContinueMission (srcDeviceId dstDeviceId : bytes) (missionId : Z) (callback : bool)
    (wantParams : WantParams) : Mg Z :=
  let! checked := check_devices srcDeviceId dstDeviceId callback in
  match checked with
  | inl ret => mret ret
  | inr _ => post_task (TaskContinueMission srcDeviceId dstDeviceId missionId callback wantParams)
  end.

Definition ContinueMissionByInfo (continueInfo : DSchedContinueInfo) (callback : bool)
    (wantParams : WantParams) : Mg Z :=
  let! checked := check_devices (sourceDeviceId_ continueInfo) (sinkDeviceId_ continueInfo) callback in
  match checked with
  | inl ret => mret ret
  | inr localDevId =>
    let! ret :=
      if mission_manager && bytes_eqb localDevId (sourceDeviceId_ continueInfo) then
        let! account := query GetForegroundUser in
        let! (ret, _) := query (fun t =>
          GetMissionIdByBundleName_r t account (sourceBundleName_ continueInfo) (-1)) in
        mret ret
      else mret ERR_OK in
    if negb (ret =? ERR_OK) then mret Dms.INVALID_PARAMETERS_ERR
    else post_task (TaskContinueBundle continueInfo callback wantParams)
  end.

(** The result and [direction]. *)
Definition CheckContinuationLimit (srcDeviceId dstDeviceId : bytes) (direction : Z) : Mg (Z * Z) :=
  let! local := GetLocalDeviceId in
  match local with
  | None => mret (Dms.GET_LOCAL_DEVICE_ERR, direction)
  | Some localDevId =>
    let! g := get in
    if bytes_eqb dstDeviceId localDevId then
      if MAX_CONCURRENT_SINK <=? cntSink_ g then
        mret (Dms.CONTINUE_ALREADY_IN_PROGRESS, CONTINUE_SINK)
      else
        let! known := query (fun t => GetDeviceInfoById t srcDeviceId) in
        if negb known then mret (Dms.INVALID_PARAMETERS_ERR, CONTINUE_SINK)
        else mret (ERR_OK, CONTINUE_SINK)
    else if bytes_eqb srcDeviceId localDevId then
      if MAX_CONCURRENT_SOURCE <=? cntSource_ g then
        mret (Dms.CONTINUE_ALREADY_IN_PROGRESS, CONTINUE_SINK)
      else
        let! known := query (fun t => GetDeviceInfoById t dstDeviceId) in
        if negb known then mret (Dms.INVALID_PARAMETERS_ERR, CONTINUE_SINK)
        else mret (ERR_OK, CONTINUE_SOURCE)
    else mret (Dms.OPERATION_DEVICE_NOT_INITIATOR_OR_TARGET, CONTINUE_SINK)
  end.

(** The first continue bundle of the first ability with the continue type and such bundles. *)
Definition first_bundle (continueType : bytes) (abilities : list DmsAbilityInfo) : option bytes :=
  match List.find (fun a => existsb (fun ty => bytes_eqb ty continueType) (ability_continueType a)
          && match continueBundleName a with [] => false | _ => true end) abilities with
  | Some a => List.hd_error (continueBundleName a)
  | None => None
  end.

Definition GetFirstBundleName (info : DSchedContinueInfo) (bundleName deviceId : bytes)
    : Mg (option bytes) :=
  let! found := query (fun t => GetDistributedBundleInfoById t deviceId bundleName) in
  match found with
  | None => mret None
  | Some distributedBundleInfo =>
    mret (first_bundle (continueType_ info) (dmsAbilityInfos distributedBundleInfo))
  end.

(** [timeout > 0 ? PostTask(func, name, timeout) : PostTask(func)]. *)
Definition SetTimeOut (info : DSchedContinueInfo) (timeout : Z) : Mg unit :=
  let! g := get in
  when mgr_eventHandler_ g do
    if 0 <? timeout then PostTask (TaskTimeOut info) (ToStringIgnoreMissionId info) timeout
    else PostTask (TaskTimeOut info) [] 0.

Definition WaitAllConnectDecision (direction : Z) (info : DSchedContinueInfo) (timeout : Z) : Mg unit :=
  SetTimeOut info timeout.

Definition set_sourceBundleName (b : bytes) (i : DSchedContinueInfo) : DSchedContinueInfo :=
  mkContinueInfo (sourceDeviceId_ i) b (sinkDeviceId_ i) (sinkBundleName_ i) (continueType_ i)
    (sinkAbilityName_ i) (missionId_ i) (continueSessionId_ i) (sinkMissionId_ i).

(** Counting the continuation in its direction, and the source bundle of a pull; [None]
    when the bundle is under control. *)
Definition count_direction (direction : Z) (control : bool) (info : DSchedContinueInfo)
    : Mg (option (Z * DSchedContinueInfo)) :=
  if direction =? CONTINUE_SOURCE then
    if control then mret None
    else
      do! modify (fun g => set_counts (cntSink_ g) (to_int32 (cntSource_ g + 1)) g) in
      mret (Some (CONTINUE_PUSH, info))
  else
    do! modify (fun g => set_counts (to_int32 (cntSink_ g + 1)) (cntSource_ g) g) in
    if empty (sourceBundleName_ info) then
      let! first := GetFirstBundleName info (sinkBundleName_ info) (sinkDeviceId_ info) in
      mret (Some (CONTINUE_PULL,
        match first with Some b => set_sourceBundleName b info | None => info end))
    else mret (Some (CONTINUE_PULL, info)).

Definition HandleContinueMissionWithBundleName (info : DSchedContinueInfo) (callback : bool)
    (wantParams : WantParams) : Mg unit :=
  let! control := query (fun t => CheckMDMCtrlRule t (sourceBundleName_ info)) in
  let! (ret, direction) :=
    CheckContinuationLimit (sourceDeviceId_ info) (sinkDeviceId_ info) CONTINUE_SINK in
  if negb (ret =? ERR_OK) then mret tt
  else
    let! counted := count_direction direction control info in
    match counted with
    | None => mret tt
    | Some (subType, info) =>
      let! g := get in
      if map_count (continues_ g) info then mret tt
      else
        let! currentAccountId := query GetForegroundUser in
        let! newContinue :=
          make_shared (construct_request subType direction callback info currentAccountId) in
        do! modify (fun g => set_continues (map_emplace (continues_ g) info newContinue) g) in
        do! on_object info (OnContinueMission (start_params wantParams)) in
        WaitAllConnectDecision direction info CONTINUE_TIMEOUT
    end.

Definition HandleContinueMission (srcDeviceId dstDeviceId : bytes) (missionId : Z) (callback : bool)
    (wantParams : WantParams) : Mg unit :=
  if empty srcDeviceId || empty dstDeviceId || negb callback then mret tt
  else
    let! local := GetLocalDeviceId in
    match local with
    | None => mret tt
    | Some localDevId =>
      let info := info_of_mission srcDeviceId dstDeviceId missionId in
      let! (ret, (_, bundle)) := query (fun t => GetMissionInfo t missionId) in
      let info :=
        if (ret =? ERR_OK) && bytes_eqb srcDeviceId localDevId
        then mkContinueInfo srcDeviceId bundle dstDeviceId bundle [] [] missionId [] 0 else info in
      HandleContinueMissionWithBundleName info callback wantParams
    end.

Definition HandleContinueMissionByInfo (continueInfo : DSchedContinueInfo) (callback : bool)
    (wantParams : WantParams) : Mg unit :=
  let srcBundleName := if empty (sourceBundleName_ continueInfo) then sinkBundleName_ continueInfo
    else sourceBundleName_ continueInfo in
  if empty (sourceDeviceId_ continueInfo) || empty (sinkDeviceId_ continueInfo) || negb callback
  then mret tt
  else HandleContinueMissionWithBundleName
    (info_of_bundles (sourceDeviceId_ continueInfo) srcBundleName (sinkDeviceId_ continueInfo)
      (sinkBundleName_ continueInfo) (continueType_ continueInfo)) callback wantParams.

(** The task [SetTimeOut] posts. *)
Definition HandleTimeOut (info : DSchedContinueInfo) : Mg unit :=
  do! on_object info (Continue.OnContinueEnd Dms.CONTINUE_ABILITY_TIMEOUT_ERR) in mret tt.

(** ** The ability's answers *)

Definition GetDSchedContinueByWant (want : Want) : Mg (option DSchedContinueInfo) :=
  let! local := GetLocalDeviceId in
  match local with
  | None => mret None
  | Some srcDeviceId =>
    let! g := get in
    mret (option_map fst (find_continue (fun s =>
      let continueInfo := GetContinueInfo s in
      bytes_eqb srcDeviceId (sourceDeviceId_ continueInfo)
      && bytes_eqb (GetBundle want) (sourceBundleName_ continueInfo)
      && bytes_eqb (GetDeviceID want) (sinkDeviceId_ continueInfo)) g))
  end.

Definition StartContinuation (want : Want) (missionId callerUid status accessToken : Z) : Mg Z :=
  let! known := query (fun t => GetDeviceInfoById t (GetDeviceID want)) in
  if negb known then mret Dms.INVALID_REMOTE_PARAMETERS_ERR
  else
    let! found := GetDSchedContinueByWant want in
    match found with
    | None => mret Dms.INVALID_REMOTE_PARAMETERS_ERR
    | Some _ => post_task (TaskStartContinuation want missionId callerUid status accessToken)
    end.

Definition HandleStartContinuation (want : Want) (missionId callerUid status accessToken : Z)
    : Mg unit :=
  let! found := GetDSchedContinueByWant want in
  match found with
  | None => mret tt
  | Some info => do! on_object info (OnStartContinuation want callerUid status accessToken) in mret tt
  end.

Definition NotifyCompleteContinuation (devId : list Z) (sessionId : Z) (isSuccess : bool)
    (callerBundleName : bytes) : Mg Z :=
  post_task (TaskNotifyComplete devId sessionId isSuccess callerBundleName).

Definition GetDSchedContinueByDevId (devId : list Z) : Mg (option (DSchedContinueInfo * DSchedContinue)) :=
  let! g := get in
  mret (find_continue (fun s =>
    bytes_eqb (Str16ToStr8 devId) (sourceDeviceId_ (GetContinueInfo s))) g).

Definition HandleNotifyCompleteContinuation (devId : list Z) (missionId : Z) (isSuccess : bool)
    (callerBundleName : bytes) : Mg unit :=
  let! found := GetDSchedContinueByDevId devId in
  match found with
  | None => mret tt
  | Some (info, dContinue) =>
    if negb (bytes_eqb (sinkBundleName_ (GetContinueInfo dContinue)) callerBundleName) then mret tt
    else
      do! on_object info (do! modify (set_hasResult true) in OnNotifyComplete missionId isSuccess) in
      mret tt
  end.

Definition NotifyTerminateContinuation (missionId : Z) : Mg unit :=
  let! g := get in
  when mgr_eventHandler_ g do PostTask (TaskNotifyTerminate missionId) [] TERMINATE_DELAY_TIME.

Definition has_flag (flag mask : Z) : bool := Z.land flag mask =? mask.

Definition HandleNotifyTerminateContinuation (missionId : Z) : Mg unit :=
  let! g := get in
  match continues_ g with
  | [] => mret tt
  | _ :: _ =>
    let! currentAccountId := query GetForegroundUser in
    let! (ret, (flag, bundle, ability)) := query (fun t => GetMissionStatus t currentAccountId missionId) in
    if negb (ret =? ERR_OK) then mret tt
    else if negb (has_flag flag FLAG_ABILITY_CONTINUATION)
         && negb (has_flag flag FLAG_ABILITY_PREPARE_CONTINUATION) then mret tt
    else
      match find_continue (fun s =>
        bytes_eqb bundle (sinkBundleName_ (GetContinueInfo s))
        && bytes_eqb ability (sinkAbilityName_ (GetContinueInfo s))) g with
      | None => mret tt
      | Some (info, s) =>
        if hasResult_ s then mret tt
        else do! on_object info (Continue.OnContinueEnd Dms.CONTINUE_SINK_ABILITY_TERMINATED) in mret tt
      end
  end.

(** ** Callbacks of a quick start *)

(** [FindStateCallbackData] answers a copy of the entry. *)
Definition FindStateCallbackData (info : StateCallbackInfo) : Mg (option StateCallbackData) :=
  let! g := get in mret (map_find (stateCallbackCache_ g) info).

(** [emplace] leaves a present entry alone. *)
Definition AddStateCallbackData (info : StateCallbackInfo) (data : StateCallbackData) : Mg unit :=
  modify (fun g => set_cache (map_emplace (stateCallbackCache_ g) info data) g).

Definition RemoveStateCallbackData (info : StateCallbackInfo) : Mg unit :=
  modify (fun g => set_cache (map_erase (stateCallbackCache_ g) info) g).

(** What is written to the copy after the request was sent is lost with it. *)
Definition NotifyQuickStartState (info : StateCallbackInfo) (state : Z) (message : bytes) : Mg Z :=
  let! existing := FindStateCallbackData info in
  match existing with
  | None =>
    do! AddStateCallbackData info (mkStateCallbackData None None state message) in
    mret ERR_OK
  | Some d =>
    match remoteObject d with
    | None =>
      do! AddStateCallbackData info (mkStateCallbackData None (diedListener d) state message) in
      mret ERR_OK
    | Some remote =>
      let! written := query WriteStateParcel in
      if negb written then mret Dms.IPC_CALL_NORESPONSE_ERR
      else do! emit (SendStateCallback remote state message) in mret ERR_OK
    end
  end.

(** The callback written to the copy of a present entry is lost with the copy. *)
Definition ContinueStateCallbackRegister (info : StateCallbackInfo) (callback : option Z) : Mg Z :=
  let! existing := FindStateCallbackData info in
  match existing with
  | None =>
    match callback with
    | None => mret Dms.NO_CONNECT_CALLBACK_ERR
    | Some remote =>
      do! emit (AddDeathRecipient remote) in
      do! AddStateCallbackData info (mkStateCallbackData (Some remote) (Some info) (-1) []) in
      mret ERR_OK
    end
  | Some d =>
    if negb (data_state d =? -1) then NotifyQuickStartState info (data_state d) (data_message d)
    else mret ERR_OK
  end.

Definition ContinueStateCallbackUnRegister (info : StateCallbackInfo) : Mg Z :=
  do! RemoveStateCallbackData info in mret ERR_OK.

(** [StateCallbackIpcDiedListener::OnRemoteDied]. *)
Definition OnRemoteDied (listener : StateCallbackInfo) : Mg unit :=
  do! ContinueStateCallbackUnRegister listener in mret tt.

(** ** Ends *)

Definition OnContinueEnd (info : DSchedContinueInfo) : Mg Z := post_task (TaskContinueEnd info).

(** [eventHandler_->RemoveTask(name)]. *)
Definition RemoveTimeout (info : DSchedContinueInfo) : Mg unit :=
  let! g := get in
  when mgr_eventHandler_ g do
    modify (fun g => set_tasks (remove_tasks (ToStringIgnoreMissionId info) (tasks_ g)) g).

Definition HandleContinueEnd (info : DSchedContinueInfo) : Mg unit :=
  let! g := get in
  if negb (map_count (continues_ g) info) then mret tt
  else
    do! RemoveTimeout info in
    do! modify (fun g => set_continues (map_erase (continues_ g) info) g) in
    do! emit ClearContinueSessionId in
    let! local := GetLocalDeviceId in
    match local with
    | None => mret tt
    | Some localDevId =>
      if bytes_eqb (sinkDeviceId_ info) localDevId then
        modify (fun g => set_counts (to_int32 (cntSink_ g - 1)) (cntSource_ g) g)
      else if bytes_eqb (sourceDeviceId_ info) localDevId then
        modify (fun g => set_counts (cntSink_ g) (to_int32 (cntSource_ g - 1)) g)
      else mret tt
    end.

(** The lambda of [OnShutdown]: every object of the session is told; no object is added
    or removed meanwhile. *)
Fixpoint end_sessions (socket : Z) (l : list (DSchedContinueInfo * DSchedContinue)) : Mg unit :=
  match l with
  | [] => mret tt
  | (info, s) :: l =>
    do! (if socket =? GetSessionId s
         then do! on_object info (Continue.OnContinueEnd Dms.CONTINUE_SESSION_SHUTDOWN) in mret tt
         else mret tt) in
    end_sessions socket l
  end.

Definition HandleShutdown (socket : Z) : Mg unit :=
  let! g := get in end_sessions socket (continues_ g).

Definition OnShutdown (socket : Z) (isSelfCalled : bool) : Mg unit :=
  if isSelfCalled then mret tt
  else do! post_task (TaskShutdown socket) in mret tt.

(** ** Received data *)

Definition OnDataRecv (sessionId : Z) (dataBuffer : option DataBuffer) : Mg unit :=
  do! post_task (TaskDataRecv sessionId dataBuffer) in mret tt.

(** The command number in the base part of a received text. *)
Definition command_of (jsonStr : bytes) : option Z :=
  match cJSON_Parse (c_str jsonStr) with
  | None => None
  | Some rootValue =>
    match cJSON_GetObjectItemCaseSensitive rootValue (str "BaseCmd") with
    | None => None
    | Some baseCmd =>
      match string_of baseCmd with
      | None => None
      | Some text =>
        match cJSON_Parse (c_str text) with
        | None => None
        | Some cmdValue =>
          match cJSON_GetObjectItemCaseSensitive cmdValue (str "Command") with
          | None => None
          | Some comvalue => if cJSON_IsNumber comvalue then Some (valueint comvalue) else None
          end
        end
      end
    end
  end.

(** A start command no running continuation of the session takes.  An object whose key
    is taken is destroyed with the event just posted to it. *)
Definition start_peer (sessionId : Z) (jsonStr : bytes) : Mg unit :=
  let! r := from_run (StartCmd.Unmarshal jsonStr) in
  match r with
  | inl _ => mret tt
  | inr startCmd =>
    let! (ret, _) := CheckContinuationLimit (srcDeviceId_ (start_base startCmd))
      (dstDeviceId_ (start_base startCmd)) CONTINUE_SINK in
    if negb (ret =? ERR_OK) then mret tt
    else
      let! currentAccountId := query GetForegroundUser in
      let! newContinue := make_shared (construct_peer (Some startCmd) sessionId currentAccountId) in
      let info := GetContinueInfo newContinue in
      let! g := get in
      let fresh := negb (map_count (continues_ g) info) in
      do! modify (fun g => set_continues (map_emplace (continues_ g) info newContinue) g) in
      let! control := query (fun t => CheckMDMCtrlRule t (sourceBundleName_ info)) in
      if control then mret tt
      else
        when fresh do
          (do! on_object info (OnStartCmd (start_appVersion_ startCmd)) in mret tt)
  end.

Definition NotifyContinueDataRecv (sessionId command : Z) (jsonStr : bytes)
    (dataBuffer : option DataBuffer) : Mg unit :=
  let! g := get in
  match find_continue (fun s => sessionId =? GetSessionId s) g with
  | Some (info, _) => do! on_object info (Continue.OnDataRecv command dataBuffer) in mret tt
  | None => if command =? DSCHED_CONTINUE_CMD_START then start_peer sessionId jsonStr else mret tt
  end.

Definition HandleDataRecv (sessionId : Z) (dataBuffer : option DataBuffer) : Mg unit :=
  match dataBuffer with
  | None => mret tt
  | Some b =>
    match data_ b with
    | None => mret tt
    | Some d =>
      let! jsonStr := from_run (load_n d (Offset b) (Capacity b)) in
      match command_of jsonStr with
      | None => mret tt
      | Some command => NotifyContinueDataRecv sessionId command jsonStr dataBuffer
      end
    end
  end.

(** The source and the sink of the first continuation; the caller's when there is none. *)
Definition GetFirstContinueInfo (srcDeviceId dstDeviceId : bytes) : Mg (Z * (bytes * bytes)) :=
  let! g := get in
  match continues_ g with
  | [] => mret (ERR_OK, (srcDeviceId, dstDeviceId))
  | (_, dsContinue) :: _ =>
    mret (ERR_OK, (sourceDeviceId_ (GetContinueInfo dsContinue), sinkDeviceId_ (GetContinueInfo dsContinue)))
  end.

(** ** The thread *)

Definition Manager_init : DSchedContinueManager := mkManager false false 0 [] [] [] 0 0.

(** [Init]; when an event handler is still there nothing more happens. *)
Definition Init : Mg unit := modify (fun g =>
  if hasInit_ g then g
  else mkManager true true (now_ g) (tasks_ g) (continues_ g) (stateCallbackCache_ g)
    (cntSink_ g) (cntSource_ g)).

(** [UnInit] destroys the objects and the queue of the thread. *)
Definition UnInit : Mg unit := modify (fun g =>
  if negb (hasInit_ g) then g
  else mkManager false false (now_ g) [] [] (stateCallbackCache_ g) 0 0).

Definition run_task (task : Task) : Mg unit :=
  match task with
  | TaskContinueMission src dst missionId callback wantParams =>
    HandleContinueMission src dst missionId callback wantParams
  | TaskContinueBundle info callback wantParams => HandleContinueMissionByInfo info callback wantParams
  | TaskTimeOut info => HandleTimeOut info
  | TaskStartContinuation want missionId callerUid status accessToken =>
    HandleStartContinuation want missionId callerUid status accessToken
  | TaskNotifyComplete devId missionId isSuccess callerBundleName =>
    HandleNotifyCompleteContinuation devId missionId isSuccess callerBundleName
  | TaskNotifyTerminate missionId => HandleNotifyTerminateContinuation missionId
  | TaskContinueEnd info => HandleContinueEnd info
  | TaskDataRecv sessionId dataBuffer => HandleDataRecv sessionId dataBuffer
  | TaskShutdown socket => HandleShutdown socket
  end.

(** One turn of the manager's thread: the first task, once it is due. *)
Definition task_turn : Mg unit :=
  let! g := get in
  match tasks_ g with
  | [] => mret tt
  | p :: l =>
    if due p <=? now_ g then do! modify (set_tasks l) in run_task (task p) else mret tt
  end.

Definition wait (ms : Z) : Mg unit := modify (fun g =>
  mkManager (mgr_eventHandler_ g) (hasInit_ g) (now_ g + Z.max 0 ms) (tasks_ g) (continues_ g)
    (stateCallbackCache_ g) (cntSink_ g) (cntSource_ g)).

(** The calls a turn of an object's thread made to the manager. *)
Definition call_back (e : Effect) : Mg unit :=
  match e with
  | ManagerOnContinueEnd info => do! OnContinueEnd info in mret tt
  | Continue.NotifyQuickStartState info state message =>
    do! NotifyQuickStartState info state message in mret tt
  | _ => mret tt
  end.

(** One turn of the thread of the object under [info]. *)
Definition object_turn (info : DSchedContinueInfo) : Mg unit :=
  let! before := trace in
  do! on_object info event_turn in
  let! after := trace in
  mfor (drop (length before) after) call_back.
(** ** Runs of the manager *)

(** The calls of other parts, the turns of the threads and the passing of time. *)
Inductive Move :=
| CallInit
| CallUnInit
| CallContinueMission (srcDeviceId dstDeviceId : bytes) (missionId : Z) (callback : bool)
    (wantParams : WantParams)
| CallContinueMissionByInfo (continueInfo : DSchedContinueInfo) (callback : bool)
    (wantParams : WantParams)
| CallStartContinuation (want : Want) (missionId callerUid status accessToken : Z)
| CallNotifyComplete (devId : list Z) (sessionId : Z) (isSuccess : bool) (callerBundleName : bytes)
| CallNotifyTerminate (missionId : Z)
| CallStateRegister (info : StateCallbackInfo) (callback : option Z)
| CallStateUnRegister (info : StateCallbackInfo)
| CallbackDied (info : StateCallbackInfo)
| BytesArrived (sessionId : Z) (dataBuffer : option DataBuffer)
| SessionShutdown (socket : Z) (isSelfCalled : bool)
| TaskTurn
| ObjectTurn (info : DSchedContinueInfo)
| Wait (ms : Z).

Definition make_move (m : Move) : Mg unit :=
  let ignore (m : Mg Z) : Mg unit := do! m in mret tt in
  match m with
  | CallInit => Init
  | CallUnInit => UnInit
  | CallContinueMission src dst missionId c w => ignore (ContinueMission src dst missionId c w)
  | CallContinueMissionByInfo i c w => ignore (ContinueMissionByInfo i c w)
  | CallStartContinuation w m u st tk => ignore (StartContinuation w m u st tk)
  | CallNotifyComplete d m b n => ignore (NotifyCompleteContinuation d m b n)
  | CallNotifyTerminate m => NotifyTerminateContinuation m
  | CallStateRegister i c => ignore (ContinueStateCallbackRegister i c)
  | CallStateUnRegister i => ignore (ContinueStateCallbackUnRegister i)
  | CallbackDied i => OnRemoteDied i
  | BytesArrived sessionId b => OnDataRecv sessionId b
  | SessionShutdown socket self => OnShutdown socket self
  | TaskTurn => task_turn
  | ObjectTurn i => object_turn i
  | Wait ms => wait ms
  end.
End Manager.
