(* ===== verification/ContinueManagerLemmas.v ===== *)
(** * Lemmas about the manager of the continuations

    What every task and every turn of an object's thread keeps, that each of them
    returns, and how the turns of an object whose end is posted take it out of the
    table. *)

From Stdlib Require Import ZArith Lia String.
From stdpp Require Import base list option.
From S2P Require Import Prelude ErrorCodes DataBuffer StdMap StdString EventQueue Base64 Framework ContinueEvent Effects CommandTotality Continue ContinueLemmas ContinueTotality ContinueManager.

#[export] Instance continue_info_strict : StrictWeakOrder DSchedContinueInfo := order_by compareInfo.

Lemma continue_key_eq i j : key_eq i j = true <-> compareInfo i = compareInfo j.
Proof. apply (key_eq_by compareInfo). Qed.

Lemma same_key_compare i j : same_key i j = true -> compareInfo i = compareInfo j.
Proof.
  unfold same_key, compareInfo. rewrite !andb_true_iff, !bytes_eqb_eq.
  by intros (((-> & ->) & ->) & ->).
Qed.

(** Infos are the same key exactly when they are equal. *)
Lemma state_callback_key_eq (a b : StateCallbackInfo) : key_eq a b = true <-> a = b.
Proof.
  unfold key_eq, key_lt, state_callback_order. destruct a as [m1 b1 o1 a1], b as [m2 b2 o2 a2].
  cbn [cb_missionId cb_bundleName cb_moduleName cb_abilityName].
  pose proof (bytes_ltb_total b1 b2). pose proof (bytes_ltb_total o1 o2). pose proof (bytes_ltb_total a1 a2).
  rewrite andb_true_iff, !negb_true_iff. split.
  - destruct (Z.ltb_spec m1 m2), (Z.ltb_spec m2 m1); try (by intros (? & ?)); try lia.
    assert (m1 = m2) as -> by lia.
    destruct (bytes_ltb b1 b2) eqn:?, (bytes_ltb b2 b1) eqn:?; try (by intros (? & ?)).
    destruct (bytes_ltb o1 o2) eqn:?, (bytes_ltb o2 o1) eqn:?; try (by intros (? & ?)).
    intros (? & ?). f_equal; auto.
  - intros [= -> -> -> ->]. by rewrite Z.ltb_irrefl, !bytes_ltb_irrefl.
Qed.

#[export] Instance state_callback_order_ok : KeyOrderOk StateCallbackInfo.
Proof.
  split.
  - intros a. by apply state_callback_key_eq.
  - intros a b. apply eq_true_iff_eq. rewrite !state_callback_key_eq. split; congruence.
  - intros a b c. rewrite !state_callback_key_eq. congruence.
Qed.

Section Manager.
Context {J : CJson} {N : NJson} {W : WantLib} {PL : ParcelLib} {Ev : Env} {ME : ManagerEnv}.
Implicit Types (g : DSchedContinueManager) (s : DSchedContinue) (t l : list Effect).

(** ** What the steps keep *)

Definition is_clear (e : Effect) : bool :=
  match e with ClearContinueSessionId => true | _ => false end.

(** How many continuations were taken out of the table. *)
Definition ends t : Z := Z.of_nat (length (List.filter is_clear t)).

Lemma ends_app t l : ends (t ++ l) = ends t + ends l.
Proof. unfold ends. rewrite List.filter_app, length_app. lia. Qed.
Lemma ends_nonneg t : 0 <= ends t.
Proof. unfold ends. lia. Qed.

Lemma ends_quiet s l : forallb (effect_ok s false) l = true -> ends l = 0.
Proof.
  unfold ends. induction l as [|e l IH]; [done|]. cbn [forallb List.filter].
  rewrite andb_true_iff. intros (He & Hl). by destruct e; auto.
Qed.

(** An object in the table is well formed and stored under its own key. *)
Definition entry_ok (e : DSchedContinueInfo * DSchedContinue) : Prop :=
  wf e.2 /\ compareInfo e.1 = compareInfo (continueInfo_ e.2).

Definition mgr_ok g : Prop := map_sorted (continues_ g) /\ Forall entry_ok (continues_ g).

(** Neither counter exceeds its maximum, nor falls by more than the ends so far. *)
Definition counts_ok (n : Z) g : Prop :=
  - n <= cntSink_ g <= MAX_CONCURRENT_SINK /\ - n <= cntSource_ g <= MAX_CONCURRENT_SOURCE.

(** The relation every step keeps; 2^31 ends would make a counter wrap around. *)
Definition kept g t g' t' : Prop :=
  mgr_ok g -> mgr_ok g' /\ (exists l, t' = t ++ l) /\
  (ends t' < 2 ^ 31 -> counts_ok (ends t) g -> counts_ok (ends t') g').

Lemma kept_refl g t : kept g t g t.
Proof. intros ?. split_and!; auto. exists []. by rewrite app_nil_r. Qed.

Lemma kept_trans g1 t1 g2 t2 g3 t3 : kept g1 t1 g2 t2 -> kept g2 t2 g3 t3 -> kept g1 t1 g3 t3.
Proof.
  intros H1 H2 Hok. destruct (H1 Hok) as (Hok2 & (l1 & ->) & C1).
  destruct (H2 Hok2) as (Hok3 & (l2 & ->) & C2). split_and!; auto.
  - exists (l1 ++ l2). by rewrite app_assoc.
  - intros Hn Hc. apply C2; [done|]. apply C1; [|done].
    rewrite ends_app in Hn. pose proof (ends_nonneg l2). lia.
Qed.

(** A step that counts nothing. *)
Lemma kept_uncounted g t g' l :
  (mgr_ok g -> mgr_ok g' /\ ends l = 0) -> cntSink_ g' = cntSink_ g -> cntSource_ g' = cntSource_ g ->
  kept g t g' (t ++ l).
Proof.
  intros H E2 E3 Hok. destruct (H Hok) as (? & Hl). unfold counts_ok.
  rewrite E2, E3, ends_app, Hl, Z.add_0_r. split_and!; auto. by exists l.
Qed.

Lemma kept_modify f :
  (forall g, continues_ (f g) = continues_ g /\ cntSink_ (f g) = cntSink_ g /\
    cntSource_ (f g) = cntSource_ g) -> preserves kept (modify f).
Proof.
  intros H. apply preserves_modify. intros g t. destruct (H g) as (E & ? & ?).
  rewrite <- (app_nil_r t) at 2. apply kept_uncounted; [|done..]. unfold mgr_ok. by rewrite E.
Qed.

Lemma kept_emit g t e : is_clear e = false -> kept g t g (t ++ [e]).
Proof. intros He. apply kept_uncounted; [|done..]. intros ?. unfold ends. cbn. by rewrite He. Qed.

(** A function of an object that the table may run. *)
Definition object_code {A} (m : C A) : Prop := forall s t a s' t',
  wf s -> m s t = Done (a, s', t') -> run_ok s t s' t' /\ wf s'.

Lemma run_ok_key s t s' t' : run_ok s t s' t' -> compareInfo (continueInfo_ s') = compareInfo (continueInfo_ s).
Proof.
  intros ((_ & _ & _ & _ & H1 & H2 & H3 & H4) & _). unfold compareInfo. by rewrite H1, H2, H3, H4.
Qed.

Lemma on_object_run {A} info (m : C A) g t a g' t' :
  (forall s, map_find (continues_ g) info = Some s -> wf s ->
    forall b s' t1, m s t = Done (b, s', t1) -> run_ok s t s' t1 /\ wf s') ->
  on_object info m g t = Done (a, g', t') -> kept g t g' t'.
Proof.
  intros Hm. unfold on_object. destruct (map_find (continues_ g) info) as [s|] eqn:Hf;
    [|intros [= <- <- <-]; apply kept_refl].
  destruct (m s t) as [[[b s'] t1]| |] eqn:Hs; [|done..]. cbn [run_bind]. intros [= <- <- <-] Hok.
  pose proof Hok as (Hsorted & Hall). apply map_find_Some in Hf as (k & Hin & Hk).
  eapply List.Forall_forall in Hall as He; [|exact Hin]. destruct He as (Hwf & Hkey). cbn in Hwf, Hkey.
  destruct (Hm _ eq_refl Hwf _ _ _ Hs) as (Hr & Hwf'). pose proof Hr as (_ & _ & l & -> & Hl & _).
  revert Hok. apply kept_uncounted; [|done..]. intros _. split; [|by eapply ends_quiet].
  split; [by apply map_sorted_assign|]. apply Forall_map_assign; [done|]. intros k' Hk'.
  split; [done|]. cbn. rewrite (run_ok_key _ _ _ _ Hr), <- Hkey.
  apply continue_key_eq in Hk, Hk'. congruence.
Qed.

Lemma on_object_kept {A} info (m : C A) : object_code m -> preserves kept (on_object info m).
Proof. intros Hm g t a g' t'. apply on_object_run. intros s _ Hwf b s' t1. by apply Hm. Qed.

(** The functions of an object that the manager calls. *)
Lemma posts_object_code {A} (m : C A) : preserves only_posts m -> object_code m.
Proof. intros Hm s t a s' t' Hwf H%Hm. by apply only_posts_run_ok. Qed.

Lemma ignored_posts {A} (m : C A) :
  preserves only_posts (do! m in mret tt) -> preserves only_posts m.
Proof. intros H s t a s' t' Hm. apply (H s t tt). unfold mbind. by rewrite Hm. Qed.

Lemma OnContinueEnd_code r : object_code (Continue.OnContinueEnd r).
Proof. apply posts_object_code, ignored_posts. exact (perform_only_posts (ContinueLemmas.ContinueEnd r) I). Qed.
Lemma OnStartCmd_code v : object_code (OnStartCmd v).
Proof. apply posts_object_code, ignored_posts. exact (perform_only_posts (StartCmdReceived v) I). Qed.
Lemma OnStartContinuation_code w u st tk : object_code (OnStartContinuation w u st tk).
Proof.
  apply posts_object_code, ignored_posts. exact (perform_only_posts (ContinueLemmas.StartContinuation w u st tk) I).
Qed.
Lemma OnDataRecv_code c b : object_code (Continue.OnDataRecv c b).
Proof. apply posts_object_code. exact (perform_only_posts (BytesReceived c b) I). Qed.
Lemma event_turn_code : object_code event_turn.
Proof.
  intros s t [] s' t' Hwf H. split; [by apply event_turn_run_ok|by eapply event_turn_wf].
Qed.

Lemma OnNotifyComplete_code m b :
  object_code (do! modify (set_hasResult true) in OnNotifyComplete m b).
Proof.
  intros s t a s' t' Hwf (u & s1 & t1 & [= <- <- <-] & H)%mbind_Done.
  assert (preserves only_posts (OnNotifyComplete m b)) as Hp
    by (apply ignored_posts; exact (perform_only_posts (NotifyComplete m b) I)).
  apply Hp in H. by apply (only_posts_run_ok (set_hasResult true s)) in H.
Qed.

Create HintDb kept discriminated.
#[local] Hint Resolve OnContinueEnd_code OnStartCmd_code OnStartContinuation_code
  OnDataRecv_code event_turn_code OnNotifyComplete_code : kept.

Ltac kept_base :=
  idtac;
  match goal with
  | |- preserves _ (query _) => apply preserves_call; intros; by apply kept_emit
  | |- preserves _ (emit _) => apply preserves_emit; intros; by apply kept_emit
  | |- preserves _ GetLocalDeviceId => unfold GetLocalDeviceId
  | |- preserves _ (PostTask _ _ _) => apply kept_modify; by intros
  | |- preserves _ (post_task _) => unfold post_task
  | |- preserves _ (SetTimeOut _ _) => unfold SetTimeOut
  | |- preserves _ (modify _) => apply kept_modify; by intros
  | |- preserves _ (on_object _ _) => apply on_object_kept; solve [eauto 1 with kept]
  | |- preserves kept _ => solve [eauto 1 with kept]
  end.
Ltac kept_code := preserves_with kept_refl kept_trans kept_base.

(** ** Starting *)

Lemma CheckContinuationLimit_kept src dst d : preserves kept (CheckContinuationLimit src dst d).
Proof. unfold CheckContinuationLimit. kept_code. Qed.
#[local] Hint Resolve CheckContinuationLimit_kept : kept.

(** An accepted direction still has room. *)
Lemma CheckContinuationLimit_room src dst d g t direction g' t' :
  CheckContinuationLimit src dst d g t = Done ((ERR_OK, direction), g', t') ->
  g' = g /\ (direction = CONTINUE_SOURCE /\ cntSource_ g < MAX_CONCURRENT_SOURCE \/
             direction = CONTINUE_SINK /\ cntSink_ g < MAX_CONCURRENT_SINK).
Proof.
  unfold CheckContinuationLimit, GetLocalDeviceId, query, call, mbind, get, mret. cbn [run_bind].
  destruct (GetLocalDeviceId_r t) as [local|]; [|by intros [=]]. cbn [run_bind].
  repeat (case_match; cbn [run_bind]; try (by intros [=])); guards_to_prop;
    intros [= <- <- <-]; (split; [done|]); [right|left]; done.
Qed.

(** Counting a continuation that has room stays within the bounds. *)
Lemma count_direction_kept direction control info g t r g' t' :
  direction = CONTINUE_SOURCE /\ cntSource_ g < MAX_CONCURRENT_SOURCE \/
  direction = CONTINUE_SINK /\ cntSink_ g < MAX_CONCURRENT_SINK ->
  count_direction direction control info g t = Done (r, g', t') ->
  kept g t g' t' /\ continues_ g' = continues_ g /\
  match r with
  | None => True
  | Some (subType, info') =>
    (direction = CONTINUE_SOURCE \/ direction = CONTINUE_SINK) /\
    (subType = CONTINUE_PULL \/ subType = CONTINUE_PUSH)
  end.
Proof.
  intros Hroom H. unfold count_direction in H.
  assert (forall g1, continues_ g1 = continues_ g ->
    (forall n, 0 <= n < 2 ^ 31 -> counts_ok n g -> counts_ok n g1) -> forall l, ends l = 0 -> kept g t g1 (t ++ l))
    as Hkept.
  { intros g1 E Hc l Hl Hok. unfold mgr_ok. rewrite E, ends_app, Hl, Z.add_0_r. split_and!; [apply Hok..|by exists l|].
    intros ?. apply Hc. split; [apply ends_nonneg|done]. }
  assert (to_int32 (cntSource_ g + 1) = cntSource_ g + 1 \/ ~ (- 2 ^ 31 <= cntSource_ g < 2 ^ 31 - 1)) as HS
    by (unfold to_int32; destruct (decide (- 2 ^ 31 <= cntSource_ g < 2 ^ 31 - 1)); [left|by right];
        rewrite Z.mod_small; lia).
  assert (to_int32 (cntSink_ g + 1) = cntSink_ g + 1 \/ ~ (- 2 ^ 31 <= cntSink_ g < 2 ^ 31 - 1)) as HK
    by (unfold to_int32; destruct (decide (- 2 ^ 31 <= cntSink_ g < 2 ^ 31 - 1)); [left|by right];
        rewrite Z.mod_small; lia).
  unfold MAX_CONCURRENT_SOURCE, MAX_CONCURRENT_SINK in *.
  destruct Hroom as [(-> & Hr)|(-> & Hr)]; cbn in H.
  - destruct control.
    + injection H as <- <- <-. split_and!; [apply kept_refl|done..].
    + injection H as <- <- <-. split_and!; [|done|by left|by right].
      rewrite <- (app_nil_r t) at 2. apply Hkept; [done| |done].
      unfold counts_ok, MAX_CONCURRENT_SOURCE, MAX_CONCURRENT_SINK; cbn. lia.
  - destruct (empty (sourceBundleName_ info)).
    + unfold GetFirstBundleName, query, call, mbind, modify, mret in H. cbn [run_bind] in H.
      case_match; injection H as <- <- <-; (split_and!; [|done|by right|by left]);
        (apply Hkept; [done| |done]); unfold counts_ok, MAX_CONCURRENT_SOURCE, MAX_CONCURRENT_SINK; cbn; lia.
    + injection H as <- <- <-. split_and!; [|done|by right|by left].
      rewrite <- (app_nil_r t) at 2. apply Hkept; [done| |done].
      unfold counts_ok, MAX_CONCURRENT_SOURCE, MAX_CONCURRENT_SINK; cbn. lia.
Qed.

(** A new object entered in the table under its own key. *)
Lemma emplace_kept g t s info :
  wf s -> compareInfo info = compareInfo (continueInfo_ s) ->
  kept g t (set_continues (map_emplace (continues_ g) info s) g) t.
Proof.
  intros Hwf Hkey. rewrite <- (app_nil_r t) at 2. apply kept_uncounted; [|done..].
  intros (Hsorted & Hall). split; [|done]. split; [by apply map_sorted_emplace|].
  apply Forall_map_emplace; [done|]. by split.
Qed.

Lemma make_shared_run m s t l :
  (do! m in Continue.Init) Continue_default t = Done (ERR_OK, s, t ++ l) ->
  forall g, make_shared m g t = Done (s, g, t ++ l).
Proof. intros H g. unfold make_shared. by rewrite H. Qed.

Lemma quiet_ends l : forallb quiet_effect l = true -> ends l = 0.
Proof. intros H. apply (quiet_effects_ok Continue_default) in H as (H & _). by eapply ends_quiet. Qed.

(** The object just entered is asked to start. *)
Lemma on_object_start_kept info w g t a g' t' :
  (forall s, map_find (continues_ g) info = Some s ->
    subServiceType_ s = CONTINUE_PULL \/ subServiceType_ s = CONTINUE_PUSH) ->
  on_object info (OnContinueMission w) g t = Done (a, g', t') -> kept g t g' t'.
Proof.
  intros Hsub. apply on_object_run. intros s Hf Hwf b s' t1 Hm%OnContinueMission_posts; [|by apply Hsub].
  by apply only_posts_run_ok.
Qed.

Lemma map_emplace_fresh (m : std_map DSchedContinueInfo DSchedContinue) info s :
  map_count m info = false -> map_find (map_emplace m info s) info = Some s.
Proof. intros E. unfold map_emplace. rewrite E. apply map_find_assign_eq. Qed.

Lemma SetTimeOut_kept info timeout : preserves kept (SetTimeOut info timeout).
Proof. unfold SetTimeOut. kept_code. Qed.

Lemma HandleContinueMissionWithBundleName_kept info callback w :
  preserves kept (HandleContinueMissionWithBundleName info callback w).
Proof.
  intros g t a g' t' H. unfold HandleContinueMissionWithBundleName in H.
  apply mbind_Done in H as (control & g1 & t1 & H1 & H). injection H1 as _ <- <-.
  eapply kept_trans; [by apply (kept_emit g t Query)|].
  apply mbind_Done in H as ((ret & direction) & g1 & t1 & H1 & H).
  destruct (ret =? ERR_OK) eqn:Hret; cbn [negb] in H;
    [|injection H as <- <- <-; by eapply CheckContinuationLimit_kept].
  guards_to_prop. subst ret. pose proof (CheckContinuationLimit_room _ _ _ _ _ _ _ _ H1) as (-> & Hroom).
  apply CheckContinuationLimit_kept in H1. eapply kept_trans; [exact H1|]. clear H1.
  apply mbind_Done in H as (r & g2 & t2 & H2 & H).
  apply count_direction_kept in H2 as (H2 & _ & Hr); [|done].
  eapply kept_trans; [exact H2|]. clear H2.
  destruct r as [(subType & info1)|]; [|injection H as <- <- <-; apply kept_refl].
  destruct Hr as (Hdir & Hsub). apply mbind_Done in H as (g3 & g3' & t3 & [= <- <- <-] & H).
  destruct (map_count (continues_ g2) info1) eqn:Hcount; [injection H as <- <- <-; apply kept_refl|].
  apply mbind_Done in H as (account & g3 & t3 & H3 & H). injection H3 as _ <- <-.
  eapply kept_trans; [by apply (kept_emit g2 t2 Query)|].
  apply mbind_Done in H as (s & g3 & t3 & H3 & H).
  destruct (request_initialised subType direction callback info1 account Continue_default (t2 ++ [Query]) Hdir)
    as (s1 & l & Hs1 & Hl & Hwf & _ & _ & _ & Hsub1 & Hinfo & _).
  rewrite (make_shared_run _ _ _ _ Hs1) in H3. injection H3 as <- <- <-.
  eapply kept_trans; [apply (kept_uncounted g2 _ g2 l); [|done..]; intros ?; split; [done|by apply quiet_ends]|].
  apply mbind_Done in H as (u & g3 & t3 & [= <- <- <-] & H).
  eapply kept_trans; [apply (emplace_kept _ _ s1 info1); [done|by rewrite Hinfo]|].
  apply mbind_Done in H as (r & g3 & t3 & H3 & H).
  eapply kept_trans; [eapply on_object_start_kept; [|exact H3]|].
  - intros s2. cbn [continues_ set_continues]. rewrite map_emplace_fresh; [|done].
    intros [= <-]. by rewrite Hsub1.
  - by eapply SetTimeOut_kept.
Qed.
#[local] Hint Resolve HandleContinueMissionWithBundleName_kept : kept.

Lemma HandleContinueMission_kept src dst m c w : preserves kept (HandleContinueMission src dst m c w).
Proof. unfold HandleContinueMission. kept_code. Qed.
Lemma HandleContinueMissionByInfo_kept i c w : preserves kept (HandleContinueMissionByInfo i c w).
Proof. unfold HandleContinueMissionByInfo. kept_code. Qed.
#[local] Hint Resolve HandleContinueMission_kept HandleContinueMissionByInfo_kept : kept.

(** ** Answers, ends and data *)

Lemma GetDSchedContinueByWant_kept w : preserves kept (GetDSchedContinueByWant w).
Proof. unfold GetDSchedContinueByWant. kept_code. Qed.
#[local] Hint Resolve GetDSchedContinueByWant_kept : kept.

Lemma NotifyQuickStartState_kept i st m : preserves kept (NotifyQuickStartState i st m).
Proof. unfold NotifyQuickStartState, FindStateCallbackData, AddStateCallbackData. kept_code. Qed.
#[local] Hint Resolve NotifyQuickStartState_kept : kept.

Lemma end_sessions_kept socket (objects : list (DSchedContinueInfo * DSchedContinue)) :
  preserves kept (end_sessions socket objects).
Proof. induction objects as [|[info s] objects IH]; cbn [end_sessions]; kept_code. Qed.
#[local] Hint Resolve end_sessions_kept : kept.

Lemma HandleContinueEnd_kept info : preserves kept (HandleContinueEnd info).
Proof.
  intros g t a g' t' H. unfold HandleContinueEnd in H.
  apply mbind_Done in H as (g1 & g1' & t1 & [= <- <- <-] & H).
  destruct (negb (map_count (continues_ g) info)); [injection H as <- <- <-; apply kept_refl|].
  apply mbind_Done in H as (u & g1 & t1 & H1 & H).
  assert (preserves kept (RemoveTimeout info)) as Hrm by (unfold RemoveTimeout; kept_code).
  eapply kept_trans; [by eapply Hrm|]. clear H1.
  apply mbind_Done in H as (v & g2 & t2 & [= <- <- <-] & H).
  apply mbind_Done in H as (v & g2 & t2 & [= <- <- <-] & H).
  apply mbind_Done in H as (local & g2 & t2 & H2 & H). injection H2 as <- <- <-.
  intros (Hsorted & Hall).
  assert (mgr_ok (set_continues (map_erase (continues_ g1) info) g1)) as Hok
    by (split; [by apply map_sorted_erase|by apply Forall_map_erase]).
  assert (ends [ClearContinueSessionId; Query] = 1) as He by done.
  destruct (GetLocalDeviceId_r _) as [local|];
    [destruct (bytes_eqb (sinkDeviceId_ info) local);
      [|destruct (bytes_eqb (sourceDeviceId_ info) local)]|];
    injection H as <- <- <-; rewrite <- app_assoc; (split; [exact Hok|]);
    (split; [by eexists|]); rewrite ends_app; change (ends ([_] ++ [Query])) with 1;
    intros Hn (H1 & H2); pose proof (ends_nonneg t1);
    unfold counts_ok, to_int32, MAX_CONCURRENT_SINK, MAX_CONCURRENT_SOURCE in *; cbn in *;
    rewrite ?Z.mod_small by lia; lia.
Qed.
#[local] Hint Resolve HandleContinueEnd_kept : kept.

Lemma start_peer_kept sessionId json : preserves kept (start_peer sessionId json).
Proof.
  unfold start_peer. apply preserves_mbind; [exact kept_trans|kept_code|]. intros [e|cmd]; [kept_code|].
  apply preserves_mbind; [exact kept_trans|kept_code|]. intros (ret & d).
  destruct (negb (ret =? ERR_OK)); [kept_code|].
  apply preserves_mbind; [exact kept_trans|kept_code|]. intros account.
  intros g t a g' t' H. apply mbind_Done in H as (s & g1 & t1 & H1 & H).
  destruct (peer_initialised cmd sessionId account Continue_default t)
    as (s1 & l & Hs1 & Hl & Hwf & _).
  rewrite (make_shared_run _ _ _ _ Hs1) in H1. injection H1 as <- <- <-.
  eapply kept_trans; [apply (kept_uncounted g _ g l); [|done..]; intros ?; split; [done|by apply quiet_ends]|].
  apply mbind_Done in H as (g1 & g1' & t1 & [= <- <- <-] & H).
  apply mbind_Done in H as (u & g2 & t2 & [= <- <- <-] & H).
  eapply kept_trans; [by apply (emplace_kept _ _ s1 (GetContinueInfo s1))|].
  revert H. apply preserves_mbind; [exact kept_trans|kept_code|]. intros control. kept_code.
Qed.
#[local] Hint Resolve start_peer_kept : kept.

Lemma run_task_kept task : preserves kept (run_task task).
Proof.
  destruct task; cbn [run_task]; unfold HandleTimeOut, HandleStartContinuation,
    HandleNotifyCompleteContinuation, GetDSchedContinueByDevId, HandleNotifyTerminateContinuation,
    HandleShutdown, HandleDataRecv, NotifyContinueDataRecv; kept_code.
Qed.
#[local] Hint Resolve run_task_kept : kept.

Lemma call_back_kept e : preserves kept (call_back e).
Proof. destruct e; cbn [call_back]; unfold OnContinueEnd; kept_code. Qed.

Lemma mfor_kept {A} (items : list A) f : (forall a, preserves kept (f a)) -> preserves kept (mfor items f).
Proof.
  intros Hf. induction items as [|a items IH]; cbn [mfor]; [apply preserves_mret; exact kept_refl|].
  apply preserves_mbind; [exact kept_trans|apply Hf|by intros].
Qed.

Lemma object_turn_kept info : preserves kept (object_turn info).
Proof.
  unfold object_turn. kept_code. apply mfor_kept, call_back_kept.
Qed.

(** ** A continuation that is told to end leaves the table *)

(** The manager's thread has been asked, and may now, take the continuation out. *)
Definition end_due g (info : DSchedContinueInfo) : Prop :=
  exists p i, In p (tasks_ g) /\ due p <= now_ g /\ task p = TaskContinueEnd i /\
    compareInfo i = compareInfo info.

(** What the callbacks of an object leave alone, and what they post. *)
Definition posted_only g g' : Prop :=
  continues_ g' = continues_ g /\ mgr_eventHandler_ g' = mgr_eventHandler_ g /\ now_ g' = now_ g /\
  forall p, In p (tasks_ g) -> In p (tasks_ g').

Lemma posted_only_trans g1 g2 g3 : posted_only g1 g2 -> posted_only g2 g3 -> posted_only g1 g3.
Proof.
  intros (H1 & H2 & H3 & H4) (E1 & E2 & E3 & E4). split_and!; [congruence..|auto].
Qed.

Lemma call_back_run e g t :
  mgr_eventHandler_ g = true ->
  exists g' l, call_back e g t = Done (tt, g', t ++ l) /\ posted_only g g' /\
    forall i, e = ManagerOnContinueEnd i -> In (mkPosted (now_ g) [] (TaskContinueEnd i)) (tasks_ g').
Proof.
  intros Hh.
  destruct e; cbn [call_back]; try (exists g, []; rewrite app_nil_r; by split_and!).
  - unfold OnContinueEnd, post_task, mbind, get, PostTask, modify, mret. cbn [run_bind].
    rewrite Hh. cbn [negb run_bind]. eexists _, []. rewrite app_nil_r. split; [done|].
    split.
    + split_and!; [done..|]. intros p Hp. apply In_insert_task. by right.
    + intros i [= ->]. apply In_insert_task. left. by rewrite Z.add_0_r.
  - unfold NotifyQuickStartState, FindStateCallbackData, AddStateCallbackData, query, call, mbind,
      get, modify, emit, mret. cbn [run_bind].
    repeat (case_match; cbn [run_bind] in *; simplify_eq); eexists _, _;
      rewrite <- ?app_assoc; (split; [first [done|by rewrite app_nil_r]|]); by split_and!.
Qed.

Lemma call_backs_run (effects : list Effect) : forall g t,
  mgr_eventHandler_ g = true ->
  exists g' l, mfor effects call_back g t = Done (tt, g', t ++ l) /\ posted_only g g' /\
    forall i, In (ManagerOnContinueEnd i) effects ->
      In (mkPosted (now_ g) [] (TaskContinueEnd i)) (tasks_ g').
Proof.
  induction effects as [|e effects IH]; intros g t Hh; cbn [mfor].
  - exists g, []. rewrite app_nil_r. by split_and!.
  - destruct (call_back_run e g t Hh) as (g1 & l1 & H1 & P1 & E1). unfold mbind. rewrite H1. cbn [run_bind].
    destruct (IH g1 (t ++ l1)) as (g2 & l2 & -> & P2 & E2); [by destruct P1 as (_ & -> & _)|].
    exists g2, (l1 ++ l2). rewrite app_assoc. split_and!; [done|by eapply posted_only_trans|].
    destruct P1 as (_ & _ & Hnow & _), P2 as (_ & _ & _ & Hin).
    intros i [->|Hi]; [by apply Hin, E1|]. rewrite <- Hnow. by apply E2.
Qed.

(** One turn of an object with an event to take, and what the manager learns of it. *)
Lemma object_turn_progress info g t s x e q :
  map_find (continues_ g) info = Some s -> compareInfo info = compareInfo (continueInfo_ s) ->
  mgr_eventHandler_ g = true -> (forall t, SendEvent_ok t = true) ->
  wf s -> currentState_ s = Some x -> queue_ s = e :: q ->
  exists g' t' s' y, object_turn info g t = Done (tt, g', t') /\
    map_find (continues_ g') info = Some s' /\ compareInfo info = compareInfo (continueInfo_ s') /\
    mgr_eventHandler_ g' = true /\ wf s' /\ currentState_ s' = Some y /\
    (queue_weight y (queue_ s') < queue_weight x (queue_ s))%nat /\
    (has_end s \/ end_due g info /\ end_state x = true ->
     has_end s' \/ end_due g' info /\ end_state y = true).
Proof.
  intros Hf Hkey Hh Hsend Hwf Hx Hq.
  destruct (event_turn_progress s t x e q Hwf Hx Hq)
    as (s1 & l & y & H1 & Hwf1 & Hy & Hlt & Hstay & Hend).
  pose proof (event_turn_run_ok _ _ _ _ Hwf H1) as Hr.
  set (g1 := set_continues (map_assign (continues_ g) info s1) g).
  destruct (call_backs_run l g1 (t ++ l) Hh) as (g2 & l2 & H2 & P2 & E2).
  exists g2, ((t ++ l) ++ l2), s1, y.
  assert (object_turn info g t = Done (tt, g2, (t ++ l) ++ l2)) as ->.
  { unfold object_turn, trace, on_object, mbind. cbn [run_bind]. rewrite Hf, H1. cbn [run_bind].
    by rewrite drop_app_length. }
  pose proof P2 as (Hc & Hh2 & Hnow & Hin).
  assert (end_due g info -> end_due g2 info) as Hdue.
  { intros (p & i & Hp & Hd & Ht). exists p, i. rewrite Hnow. split_and!; auto. all: by destruct Ht. }
  split_and!; [done|rewrite Hc; apply map_find_assign_eq|by rewrite (run_ok_key _ _ _ _ Hr)|by rewrite Hh2|
    done..|].
  intros [Hhas|(Hd & Hex)].
  - destruct (Hend Hsend Hhas) as [?|((i & Hi) & ?)]; [by left|right]. split; [|done].
    exists (mkPosted (now_ g) [] (TaskContinueEnd i)), i. split_and!; [by apply E2| |done|].
    + rewrite Hnow. cbn. lia.
    + destruct Hr as (_ & _ & l3 & Hl%app_inv_head & Hok & _). subst l3.
      rewrite forallb_forall in Hok. apply Hok in Hi. cbn in Hi.
      apply same_key_compare in Hi. congruence.
  - right. split; [by apply Hdue|]. by rewrite Hstay.
Qed.

(** [n] turns of the thread of an object. *)
Fixpoint object_turns (n : nat) (info : DSchedContinueInfo) : Mg unit :=
  match n with O => mret tt | S n => do! object_turn info in object_turns n info end.

Lemma object_turn_idle info g t s :
  map_find (continues_ g) info = Some s -> queue_ s = [] ->
  exists g', object_turn info g t = Done (tt, g', t) /\ posted_only (set_continues (map_assign (continues_ g) info s) g) g'.
Proof.
  intros Hf Hq. eexists. split.
  - unfold object_turn, trace, on_object, mbind. cbn [run_bind]. rewrite Hf.
    unfold event_turn, mbind, get. cbn [run_bind]. rewrite Hq. cbn [mret run_bind].
    by rewrite drop_all.
  - by split_and!.
Qed.

Lemma object_turns_end n : forall info g t s x,
  map_find (continues_ g) info = Some s -> compareInfo info = compareInfo (continueInfo_ s) ->
  mgr_eventHandler_ g = true -> (forall t, SendEvent_ok t = true) ->
  wf s -> currentState_ s = Some x -> (queue_weight x (queue_ s) <= n)%nat ->
  has_end s \/ end_due g info /\ end_state x = true ->
  exists g' t' s' y, object_turns n info g t = Done (tt, g', t') /\
    map_find (continues_ g') info = Some s' /\ queue_ s' = [] /\
    currentState_ s' = Some y /\ end_state y = true /\ end_due g' info.
Proof.
  induction n as [|n IH]; intros info g t s x Hf Hkey Hh Hsend Hwf Hx Hn Hcase; cbn [object_turns];
    destruct (queue_ s) as [|e q] eqn:Hq.
  - destruct Hcase as [(r & Hr)|(Hd & Hex)]; [by rewrite Hq in Hr|]. by exists g, t, s, x.
  - pose proof (queue_weight_0 x (e :: q) ltac:(lia)) as H. done.
  - destruct Hcase as [(r & Hr)|(Hd & Hex)]; [by rewrite Hq in Hr|].
    destruct (object_turn_idle info g t s Hf Hq) as (g1 & H1 & Hc & Hh1 & Hnow & Hin).
    unfold mbind. rewrite H1. cbn [run_bind]. apply (IH info g1 t s x); auto.
    + rewrite Hc. apply map_find_assign_eq.
    + by rewrite Hh1.
    + rewrite Hq. cbn. lia.
    + right. split; [|done]. destruct Hd as (p & i & Hp & Hdue & Ht & Hi). exists p, i.
      rewrite Hnow. split_and!; auto.
  - destruct (object_turn_progress info g t s x e q Hf Hkey Hh Hsend Hwf Hx Hq)
      as (g1 & t1 & s1 & y & H1 & Hf1 & Hkey1 & Hh1 & Hwf1 & Hy & Hlt & Hnext).
    unfold mbind. rewrite H1. cbn [run_bind]. rewrite Hq in Hlt.
    apply (IH info g1 t1 s1 y); auto. lia.
Qed.

(** The task that takes a continuation out. *)
Lemma HandleContinueEnd_erases i g t :
  exists g' t', HandleContinueEnd i g t = Done (tt, g', t') /\
    forall info, compareInfo info = compareInfo i -> map_find (continues_ g') info = None.
Proof.
  unfold HandleContinueEnd, RemoveTimeout, GetLocalDeviceId, query, call, mbind, get, modify, emit, mret.
  cbn [run_bind]. destruct (map_count (continues_ g) i) eqn:E; cbn [negb].
  - assert (forall m : std_map DSchedContinueInfo DSchedContinue, forall info,
      compareInfo info = compareInfo i -> map_find (map_erase m i) info = None) as Herase.
    { intros m info Hi. apply continue_key_eq in Hi. destruct (map_find (map_erase m i) info) as [s|] eqn:F; [|done].
      unfold map_find in F. destruct (List.find _ _) as [[k v]|] eqn:F2; [|done].
      apply List.find_some in F2 as (F2 & F3). apply List.filter_In in F2 as (_ & F2). cbn in F2, F3.
      by rewrite (key_eq_trans _ _ _ F3 Hi) in F2. }
    repeat (case_match; cbn [run_bind negb] in *; simplify_eq); eexists _, _; (split; [done|]);
      intros info Hi; cbn; by apply Herase.
  - exists g, t. split; [done|]. intros info Hi. unfold map_count in E.
    destruct (map_find (continues_ g) i) eqn:F; [done|]. unfold map_find in F |- *.
    destruct (List.find (fun e => key_eq e.1 i) (continues_ g)) as [[k v]|] eqn:F2; [done|].
    destruct (List.find (fun e => key_eq e.1 info) (continues_ g)) as [[k v]|] eqn:F3; [|done].
    apply List.find_some in F3 as (F3 & F4). apply (List.find_none _ _ F2) in F3. cbn in F3, F4.
    apply continue_key_eq in Hi. by rewrite (key_eq_trans _ _ _ F4 Hi) in F3.
Qed.

(** ** Every task returns *)

Section Total.
Context {JR : CJsonReads J} {PB : ParcelLibBound PL}.

Lemma on_object_total {A} info (m : C A) : total m -> total (on_object info m).
Proof.
  intros Hm g t. unfold on_object. destruct (map_find (continues_ g) info) as [s|]; [|by eexists].
  destruct (Hm s t) as (((a & s') & t') & ->). by eexists.
Qed.

Lemma make_shared_total m : total m -> total (make_shared m).
Proof.
  intros Hm g t. unfold make_shared.
  destruct (total_mbind m (fun _ => Continue.Init) Hm) with (s := Continue_default) (t := t) as (((a & s') & t') & ->);
    [|by eexists].
  intros _. unfold Continue.Init, UpdateState. total_with ltac:(idtac; match goal with |- total (ask _) => apply total_call end).
Qed.
#[local] Hint Resolve on_object_total make_shared_total : dms.

(** A task of received data carries a whole buffer. *)
Definition task_ok (task : Task) : Prop :=
  match task with TaskDataRecv _ b => received_ok b | _ => True end.

Lemma mfor_total {A} (items : list A) (f : A -> Mg unit) : (forall a, total (f a)) -> total (mfor items f).
Proof.
  intros Hf. induction items as [|a items IH]; cbn [mfor]; [apply total_mret|].
  apply total_mbind; [done|]. by intros _.
Qed.

Lemma construct_request_total sub d c i a : total (construct_request sub d c i a).
Proof.
  unfold construct_request, foreground_user, SetEventData, NotifyDSchedEventResult.
  total_with ltac:(idtac; match goal with |- total (ask _) => apply total_call end).
Qed.

Lemma construct_peer_total cmd session a : total (construct_peer cmd session a).
Proof.
  unfold construct_peer, foreground_user, SetEventData, NotifyDSchedEventResult.
  total_with ltac:(idtac; match goal with |- total (ask _) => apply total_call end).
Qed.

#[local] Hint Resolve OnDataRecv_total OnContinueMission_total OnStartCmd_total event_turn_total
  OnStartContinuation_total OnNotifyComplete_total OnContinueEnd_total : dms.

Ltac mgr_base :=
  idtac;
  match goal with
  | |- total (query _) => apply total_call
  | |- total GetLocalDeviceId => apply total_call
  | |- total (PostTask _ _ _) => apply total_modify
  | |- total (make_shared _) => apply make_shared_total
  | |- total (on_object _ _) => apply on_object_total
  | |- total (construct_request _ _ _ _ _) => apply construct_request_total
  | |- total (construct_peer _ _ _) => apply construct_peer_total
  | |- total (from_run (StartCmd.Unmarshal _)) => eapply reads_from_run, StartCmd_reads
  end.
Ltac mgr_total := total_with mgr_base.

Lemma HandleContinueMissionWithBundleName_total i c w :
  total (HandleContinueMissionWithBundleName i c w).
Proof.
  unfold HandleContinueMissionWithBundleName, CheckContinuationLimit, count_direction,
    GetFirstBundleName, WaitAllConnectDecision, SetTimeOut. mgr_total.
Qed.
#[local] Hint Resolve HandleContinueMissionWithBundleName_total : dms.

Lemma end_sessions_total socket (objects : list (DSchedContinueInfo * DSchedContinue)) :
  total (end_sessions socket objects).
Proof. induction objects as [|[i s] objects IH]; cbn [end_sessions]; mgr_total. Qed.
#[local] Hint Resolve end_sessions_total : dms.

Lemma HandleDataRecv_total sessionId b : received_ok b -> total (HandleDataRecv sessionId b).
Proof.
  intros Hb. unfold HandleDataRecv. destruct b as [b|]; [|apply total_mret].
  destruct (data_ b) as [d|] eqn:Hd; [|apply total_mret].
  destruct (received_text (S' := DSchedContinueManager) (E := Effect) b d Hb Hd) as (text & Ht & Hlen & _).
  intros g t. unfold mbind at 1. rewrite Ht. cbn [run_bind].
  destruct (command_of text) as [command|]; [|by eexists].
  assert (total (NotifyContinueDataRecv sessionId command text (Some b))) as H; [|apply H].
  pose proof (OnDataRecv_total command (Some b) Hb).
  unfold NotifyContinueDataRecv, start_peer, CheckContinuationLimit. mgr_total. all: done.
Qed.

Lemma run_task_total task : task_ok task -> total (run_task task).
Proof.
  intros Ht. destruct task; cbn [run_task]; [..|by apply HandleDataRecv_total|];
    unfold HandleContinueMission, HandleContinueMissionByInfo, HandleTimeOut,
      HandleStartContinuation, GetDSchedContinueByWant, HandleNotifyCompleteContinuation,
      GetDSchedContinueByDevId, HandleNotifyTerminateContinuation, HandleContinueEnd, RemoveTimeout,
      HandleShutdown; mgr_total.
Qed.

Lemma object_turn_total info : total (object_turn info).
Proof.
  unfold object_turn. mgr_total. apply mfor_total. intros e.
  destruct e; cbn [call_back]; unfold OnContinueEnd, NotifyQuickStartState,
    FindStateCallbackData, AddStateCallbackData, post_task; mgr_total.
Qed.
(** ** What waits in the queue *)

Definition tasks_ok g : Prop := Forall (fun p => task_ok (task p)) (tasks_ g).
Definition keeps_tasks g t g' t' : Prop := tasks_ok g -> tasks_ok g'.

Lemma keeps_tasks_refl g t : keeps_tasks g t g t.
Proof. by intros ?. Qed.
Lemma keeps_tasks_same g t g' t' : tasks_ g' = tasks_ g -> keeps_tasks g t g' t'.
Proof. unfold keeps_tasks, tasks_ok. by intros ->. Qed.
Lemma keeps_tasks_trans g1 t1 g2 t2 g3 t3 :
  keeps_tasks g1 t1 g2 t2 -> keeps_tasks g2 t2 g3 t3 -> keeps_tasks g1 t1 g3 t3.
Proof. unfold keeps_tasks. auto. Qed.

Lemma PostTask_tasks task name delay : task_ok task -> preserves keeps_tasks (PostTask task name delay).
Proof.
  intros Ht. apply preserves_modify. intros g t Hg. apply List.Forall_forall.
  intros p [->|Hp]%In_insert_task; [done|]. by eapply List.Forall_forall in Hg.
Qed.

Lemma on_object_tasks {A} info (m : C A) : preserves keeps_tasks (on_object info m).
Proof.
  intros g t a g' t'. unfold on_object. destruct (map_find (continues_ g) info) as [s|];
    [|intros [= ? <- ?]; by intros ?]. destruct (m s t) as [[[b s'] t1]| |]; [|done..]. cbn [run_bind].
  intros [= ? <- ?]; by intros ?.
Qed.

Lemma make_shared_tasks m : preserves keeps_tasks (make_shared m).
Proof.
  intros g t a g' t'. unfold make_shared.
  destruct ((do! m in Continue.Init) Continue_default t) as [[[b s'] t1]| |]; [|done..]. cbn [run_bind].
  intros [= ? <- ?]; by intros ?.
Qed.

Ltac tasks_base :=
  idtac;
  match goal with
  | |- preserves _ (query _) => apply preserves_call; intros; apply keeps_tasks_same; reflexivity
  | |- preserves _ (emit _) => apply preserves_emit; intros; apply keeps_tasks_same; reflexivity
  | |- preserves _ GetLocalDeviceId => unfold GetLocalDeviceId
  | |- preserves _ (PostTask _ _ _) => by apply PostTask_tasks
  | |- preserves _ (on_object _ _) => apply on_object_tasks
  | |- preserves _ (make_shared _) => apply make_shared_tasks
  | |- preserves _ (modify _) => apply preserves_modify; intros; apply keeps_tasks_same; reflexivity
  | |- preserves keeps_tasks _ => solve [eauto 1 with kept]
  end.
Ltac tasks_code := preserves_with keeps_tasks_refl keeps_tasks_trans tasks_base.

Lemma HandleContinueMissionWithBundleName_tasks i c w :
  preserves keeps_tasks (HandleContinueMissionWithBundleName i c w).
Proof.
  unfold HandleContinueMissionWithBundleName, CheckContinuationLimit, count_direction,
    GetFirstBundleName, WaitAllConnectDecision, SetTimeOut. tasks_code.
Qed.

Lemma end_sessions_tasks socket (objects : list (DSchedContinueInfo * DSchedContinue)) :
  preserves keeps_tasks (end_sessions socket objects).
Proof. induction objects as [|[i s] objects IH]; cbn [end_sessions]; tasks_code; exact IH. Qed.

Lemma RemoveTimeout_tasks info : preserves keeps_tasks (RemoveTimeout info).
Proof.
  unfold RemoveTimeout. apply preserves_mbind; [exact keeps_tasks_trans|tasks_code|]. intros g0.
  destruct (mgr_eventHandler_ g0); [|tasks_code]. apply preserves_modify. intros g t Hg.
  apply List.Forall_forall. intros p (Hp & _)%List.filter_In. by eapply List.Forall_forall in Hg.
Qed.
#[local] Hint Resolve HandleContinueMissionWithBundleName_tasks end_sessions_tasks RemoveTimeout_tasks : kept.

Lemma run_task_tasks task : preserves keeps_tasks (run_task task).
Proof.
  destruct task; cbn [run_task];
    unfold HandleContinueMission, HandleContinueMissionByInfo, HandleTimeOut,
      HandleStartContinuation, GetDSchedContinueByWant, HandleNotifyCompleteContinuation,
      GetDSchedContinueByDevId, HandleNotifyTerminateContinuation, HandleContinueEnd,
      HandleShutdown, HandleDataRecv, NotifyContinueDataRecv, start_peer, CheckContinuationLimit;
    tasks_code.
Qed.

Lemma mfor_tasks {A} (items : list A) (f : A -> Mg unit) :
  (forall a, preserves keeps_tasks (f a)) -> preserves keeps_tasks (mfor items f).
Proof.
  intros Hf. induction items as [|a items IH]; cbn [mfor]; [apply preserves_mret; exact keeps_tasks_refl|].
  apply preserves_mbind; [exact keeps_tasks_trans|apply Hf|by intros].
Qed.

Lemma object_turn_tasks info : preserves keeps_tasks (object_turn info).
Proof.
  unfold object_turn. tasks_code. apply mfor_tasks. intros e.
  destruct e; cbn [call_back]; unfold OnContinueEnd, NotifyQuickStartState,
    FindStateCallbackData, AddStateCallbackData, post_task; tasks_code.
Qed.
(** ** Moves *)

Lemma task_turn_kept : preserves kept task_turn.
Proof.
  unfold task_turn. apply preserves_mbind; [exact kept_trans|kept_code|].
  intros g0. destruct (tasks_ g0) as [|p l]; kept_code.
Qed.

Lemma UnInit_kept : preserves kept UnInit.
Proof.
  apply preserves_modify. intros g t. destruct (hasInit_ g); cbn [negb]; [|apply kept_refl].
  intros _. split_and!.
  - split; [by constructor|constructor].
  - exists []. by rewrite app_nil_r.
  - intros _ _. pose proof (ends_nonneg t). unfold counts_ok, MAX_CONCURRENT_SINK, MAX_CONCURRENT_SOURCE.
    cbn. lia.
Qed.

Lemma Init_kept : preserves kept Init.
Proof. apply kept_modify. intros g. by destruct (hasInit_ g). Qed.
#[local] Hint Resolve task_turn_kept UnInit_kept Init_kept object_turn_kept : kept.

Lemma make_move_kept m : preserves kept (make_move m).
Proof.
  destruct m; cbn [make_move];
    unfold ContinueMission, ContinueMissionByInfo, check_devices, StartContinuation,
      NotifyCompleteContinuation, NotifyTerminateContinuation, ContinueStateCallbackRegister,
      ContinueStateCallbackUnRegister, OnRemoteDied, OnDataRecv, OnShutdown, RemoveStateCallbackData,
      ContinueStateCallbackUnRegister, RemoveStateCallbackData, FindStateCallbackData,
      AddStateCallbackData, wait; kept_code.
Qed.

Definition move_ok (m : Move) : Prop :=
  match m with BytesArrived _ b => received_ok b | _ => True end.

Lemma task_turn_returns g t :
  tasks_ok g -> exists g' t', task_turn g t = Done (tt, g', t') /\ tasks_ok g'.
Proof.
  intros Hg. unfold task_turn, mbind, get. cbn [run_bind].
  unfold tasks_ok in Hg. destruct (tasks_ g) as [|p l] eqn:E.
  - exists g, t. split; [done|]. unfold tasks_ok. by rewrite E.
  - apply Forall_cons_1 in Hg as (Hp & Hl).
    destruct (due p <=? now_ g);
      [|exists g, t; split; [done|]; unfold tasks_ok; rewrite E; by constructor].
    cbn [modify run_bind].
    destruct (run_task_total (task p) Hp (set_tasks l g) t) as (([[] g'] & t') & H).
    exists g', t'. split; [done|]. by apply (run_task_tasks _ _ _ _ _ _ H).
Qed.

Lemma UnInit_tasks : preserves keeps_tasks UnInit.
Proof.
  apply preserves_modify. intros g t Hg. destruct (hasInit_ g); cbn [negb]; [constructor|done].
Qed.
Lemma Init_tasks : preserves keeps_tasks Init.
Proof. apply preserves_modify. intros g t Hg. by destruct (hasInit_ g). Qed.

Lemma make_move_returns m g t :
  move_ok m -> tasks_ok g -> exists g' t', make_move m g t = Done (tt, g', t') /\ tasks_ok g'.
Proof.
  intros Hm Hg. assert (m = TaskTurn \/ m <> TaskTurn) as [->|Hturn] by (destruct m; by (by left) || right);
    [by apply task_turn_returns|].
  assert (total (make_move m)) as Ht.
  { destruct m; cbn [make_move]; try done;
      unfold ContinueMission, ContinueMissionByInfo, check_devices, StartContinuation,
        NotifyCompleteContinuation, NotifyTerminateContinuation, ContinueStateCallbackRegister,
        ContinueStateCallbackUnRegister, OnRemoteDied, OnDataRecv, OnShutdown, RemoveStateCallbackData,
        FindStateCallbackData, AddStateCallbackData, NotifyQuickStartState, GetDSchedContinueByWant,
        ContinueStateCallbackUnRegister, RemoveStateCallbackData, FindStateCallbackData,
        AddStateCallbackData, post_task, Init, UnInit, wait; [mgr_total..|apply object_turn_total|mgr_total]. }
  destruct (Ht g t) as (([[] g'] & t') & H). exists g', t'. split; [done|].
  assert (preserves keeps_tasks (make_move m)) as Hk; [|by apply (Hk _ _ _ _ _ H)].
  destruct m; cbn [make_move]; try done;
    try (first [apply UnInit_tasks|apply Init_tasks|apply object_turn_tasks]);
    unfold ContinueMission, ContinueMissionByInfo, check_devices, StartContinuation,
      NotifyCompleteContinuation, NotifyTerminateContinuation, ContinueStateCallbackRegister,
      ContinueStateCallbackUnRegister, OnRemoteDied, OnDataRecv, OnShutdown, RemoveStateCallbackData,
      FindStateCallbackData, AddStateCallbackData, NotifyQuickStartState, GetDSchedContinueByWant,
      ContinueStateCallbackUnRegister, RemoveStateCallbackData, FindStateCallbackData,
      AddStateCallbackData, post_task, wait; tasks_code.
Qed.

Lemma moves_run moves : forall g t,
  Forall move_ok moves -> tasks_ok g ->
  exists g' t', mfor moves make_move g t = Done (tt, g', t') /\ tasks_ok g' /\ kept g t g' t'.
Proof.
  induction moves as [|m moves IH]; intros g t Hm Hg; cbn [mfor].
  - exists g, t. split_and!; [done..|apply kept_refl].
  - apply Forall_cons_1 in Hm as (H1 & Hm). destruct (make_move_returns m g t H1 Hg) as (g1 & t1 & E1 & Hg1).
    destruct (IH g1 t1 Hm Hg1) as (g2 & t2 & E2 & Hg2 & K2). exists g2, t2.
    unfold mbind. rewrite E1. cbn [run_bind]. split_and!; [done..|].
    eapply kept_trans; [by eapply make_move_kept|done].
Qed.
End Total.
End Manager.
