(* ===== verification/ContinueManagerProperties.v ===== *)
(** * Properties of the manager of the continuations

    What holds of every run of the manager, how a timeout takes a continuation out of
    the table, how received data reaches its continuation, and two ways in which the
    manager does not do what it means to. *)

From Stdlib Require Import ZArith Lia String.
From stdpp Require Import base list option.
From S2P Require Import Prelude ErrorCodes DataBuffer StdMap StdString EventQueue Base64 Framework ContinueEvent Effects CommandTotality Continue ContinueLemmas ContinueTotality ContinueProperties ContinueManager ContinueManagerLemmas.

Section Manager.
Context {J : CJson} {N : NJson} {W : WantLib} {PL : ParcelLib} {Ev : Env} {ME : ManagerEnv}.
Implicit Types (g : DSchedContinueManager) (s : DSchedContinue) (t l : list Effect).

(** C10 Whatever calls, received buffers, turns of the threads and pauses follow one
    another from the start, every one of them returns; the table stays in key order with
    every continuation well formed and under its own key, and at most one continuation
    is counted in each direction, the counters falling below zero by no more than the
    number of continuations that ended. *)
Theorem manager_run_safe {JR : CJsonReads J} {PB : ParcelLibBound PL} moves :
  Forall move_ok moves ->
  exists g t, mfor moves make_move Manager_init [] = Done (tt, g, t) /\
    map_sorted (continues_ g) /\
    (forall info s, In (info, s) (continues_ g) ->
      wf s /\ compareInfo info = compareInfo (continueInfo_ s)) /\
    (ends t < 2 ^ 31 -> - ends t <= cntSink_ g <= 1 /\ - ends t <= cntSource_ g <= 1).
Proof.
  intros Hm. destruct (moves_run moves Manager_init [] Hm ltac:(constructor)) as (g & t & H & _ & K).
  exists g, t. destruct K as ((Hs & Hall) & _ & Hc); [by split; constructor|].
  split_and!; [done..| |].
  - intros info s Hin. eapply List.Forall_forall in Hin; [|exact Hall]. exact Hin.
  - intros Hn. apply Hc; [done|]. pose proof (ends_nonneg []).
    unfold counts_ok, MAX_CONCURRENT_SINK, MAX_CONCURRENT_SOURCE. cbn [cntSink_ cntSource_ Manager_init]. lia.
Qed.

(** C23 A continuation that times out leaves the table: the timeout task tells the object to
    end, at most three turns of the object's thread for every waiting event bring it to
    an end state and post the end to the manager's thread, due at once, and that task
    leaves no object under the key. *)
Theorem timeout_removes_continuation info g t s :
  mgr_ok g -> map_find (continues_ g) info = Some s -> mgr_eventHandler_ g = true ->
  (forall t, SendEvent_ok t = true) ->
  exists g' t' s' y p,
    (do! run_task (TaskTimeOut info) in object_turns (3 * S (length (queue_ s))) info) g t
      = Done (tt, g', t') /\
    map_find (continues_ g') info = Some s' /\ currentState_ s' = Some y /\ end_state y = true /\
    In p (tasks_ g') /\ due p <= now_ g' /\
    forall g1 t1, exists g2 t2, run_task (task p) g1 t1 = Done (tt, g2, t2) /\
      map_find (continues_ g2) info = None.
Proof.
  intros (Hsorted & Hall) Hf Hh Hsend.
  apply map_find_Some in Hf as Hin. destruct Hin as (k & Hin & Hk%continue_key_eq).
  eapply List.Forall_forall in Hin; [|exact Hall]. destruct Hin as (Hwf & Hkey). cbn in Hwf, Hkey.
  pose proof Hwf as (_ & Heh & (x & Hx & _) & _).
  destruct (OnContinueEnd_total Dms.CONTINUE_ABILITY_TIMEOUT_ERR s t) as (((r & s1) & t1) & H1).
  pose proof (OnContinueEnd_code _ _ _ _ _ _ Hwf H1) as (Hr & Hwf1).
  apply (post_event_sent _ _ _ _ _ _ Heh Hsend) in H1 as H2. destruct H2 as (-> & Hs1 & ->).
  set (g1 := set_continues (map_assign (continues_ g) info s1) g).
  destruct (object_turns_end (3 * S (length (queue_ s))) info g1 (t ++ [Query]) s1 x)
    as (g' & t' & s' & y & Hrun & Hf' & _ & Hy & Hend & (p & i & Hp & Hd & Ht & Hi)).
  - apply map_find_assign_eq.
  - rewrite (run_ok_key _ _ _ _ Hr). congruence.
  - done.
  - done.
  - done.
  - by rewrite Hs1.
  - rewrite Hs1. cbn [queue_ set_queue]. etrans; [apply queue_weight_bound|]. rewrite length_app. cbn [length]. lia.
  - left. exists Dms.CONTINUE_ABILITY_TIMEOUT_ERR. rewrite Hs1. apply in_or_app. right. by left.
  - exists g', t', s', y, p. split_and!; [|done..|].
    + cbn [run_task]. unfold HandleTimeOut, on_object, mbind at 1 2. cbn [mbind run_bind].
      rewrite Hf, H1. cbn [run_bind]. exact Hrun.
    + intros g2 t2. rewrite Ht. cbn [run_task].
      destruct (HandleContinueEnd_erases i g2 t2) as (g3 & t3 & H3 & He). exists g3, t3. split; [done|].
      by apply He.
Qed.

(** ** Received commands *)

Lemma command_of_sent text n : no_nul text -> announces text n -> command_of (text ++ [0]) = Some n.
Proof.
  intros Ht (o & tb & b & H1 & H2 & H3 & H4). unfold parse in H1, H3. unfold command_of.
  rewrite c_str_app_nul by done. rewrite c_str_no_nul in H1 by done.
  destruct (cJSON_Parse text); [injection H1 as ->|done].
  unfold get_string in H2. destruct (cJSON_GetObjectItemCaseSensitive o _); [|done].
  destruct (string_of _); [injection H2 as ->|done].
  destruct (cJSON_Parse (c_str tb)); [injection H3 as ->|done].
  unfold get_number in H4. destruct (cJSON_GetObjectItemCaseSensitive b _); [|done].
  destruct (cJSON_IsNumber _); [by injection H4 as ->|done].
Qed.

(** The first continuation of the session takes the data. *)
Lemma HandleDataRecv_sent session text n g t info s r s' t' :
  no_nul text -> announces text n -> map_sorted (continues_ g) ->
  find_continue (fun s => session =? GetSessionId s) g = Some (info, s) ->
  Continue.OnDataRecv n (sent text) s t = Done (r, s', t') ->
  HandleDataRecv session (sent text) g t
    = Done (tt, set_continues (map_assign (continues_ g) info s') g, t').
Proof.
  intros Ht Hn Hsorted Hf Hrun. unfold HandleDataRecv, sent. cbn [data_ buffer_of].
  unfold mbind at 1. rewrite load_sent. cbn [run_bind]. rewrite (command_of_sent text n) by done.
  unfold NotifyContinueDataRecv, mbind, get. cbn [run_bind]. rewrite Hf.
  unfold find_continue in Hf. apply List.find_some in Hf as (Hin & _).
  unfold on_object. rewrite (map_find_In _ _ _ Hsorted Hin).
  change (Some (mkDataBuffer _ _ _ _)) with (sent text). fold (buffer_of (text ++ [0])).
  change (Some (buffer_of (text ++ [0]))) with (sent text). by rewrite Hrun.
Qed.

Lemma OnDataRecv_sent text n s t :
  Continue.OnDataRecv n (sent text) s t =
  (if n =? DSCHED_CONTINUE_CMD_START then mret tt
   else if n =? DSCHED_CONTINUE_CMD_DATA then
     let! r := from_run (DataCmd.Unmarshal (text ++ [0])) in
     match r with
     | inl _ => mret tt
     | inr dataCmd =>
       do! OnContinueDataCmd
         (Some (set_want dataCmd (SetBundle (want_ dataCmd) (dstBundleName_ (data_base dataCmd))))) in
       mret tt
     end
   else if n =? DSCHED_CONTINUE_CMD_REPLY then
     let! r := from_run (ReplyCmd.Unmarshal (text ++ [0])) in
     match r with inl _ => mret tt | inr c => do! OnReplyCmd (Some c) in mret tt end
   else if n =? DSCHED_CONTINUE_CMD_END then
     let! r := from_run (EndCmd.Unmarshal (text ++ [0])) in
     match r with inl _ => mret tt | inr c => do! OnContinueEndCmd (Some c) in mret tt end
   else mret tt) s t.
Proof.
  unfold Continue.OnDataRecv, sent. cbn [data_ buffer_of]. unfold mbind at 1.
  rewrite load_sent. cbn [run_bind]. reflexivity.
Qed.

Section Dispatch.
Context {Jok : CJsonOk J} {Nok : NJsonOk J N} {max : Z} {PLok : ParcelLibOk PL max} (Hmax : max < 2 ^ 30).
Context (Hsend : forall t, SendEvent_ok t = true).

Lemma unmarshal_sent text :
  no_nul text ->
  DataCmd.Unmarshal (text ++ [0]) = DataCmd.Unmarshal text /\
  ReplyCmd.Unmarshal (text ++ [0]) = ReplyCmd.Unmarshal text /\
  EndCmd.Unmarshal (text ++ [0]) = EndCmd.Unmarshal text /\
  StartCmd.Unmarshal (text ++ [0]) = StartCmd.Unmarshal text.
Proof.
  intros H. unfold DataCmd.Unmarshal, DataCmd.UnmarshalParcel, ReplyCmd.Unmarshal, EndCmd.Unmarshal,
    StartCmd.Unmarshal. by rewrite parse_sent.
Qed.

Lemma post_event_posts e s t :
  eventHandler_ s = true ->
  post_event e s t = Done (ERR_OK, set_queue (queue_ s ++ [e]) s, t ++ [Query]).
Proof.
  intros Hh. destruct (post_event_total e s t) as (((r & s') & t') & H). rewrite H.
  by apply (post_event_sent _ _ _ _ _ _ Hh Hsend) in H as (-> & -> & ->).
Qed.

(** C33 A data, reply or end command of the peer reaches the continuation of its session:
    what the sender marshals and sends is read back by the manager, recognised by its
    command number and posted to that object's queue as the event of the command, and
    nothing else changes. *)
Theorem received_commands_dispatched session g t info s :
  mgr_ok g -> find_continue (fun s => session =? GetSessionId s) g = Some (info, s) ->
  let posted text e :=
    HandleDataRecv session (sent text) g t = Done (tt,
      set_continues (map_assign (continues_ g) info (set_queue (queue_ s ++ [e]) s)) g, t ++ [Query]) in
  (forall c version, data_wf (max := max) c version ->
    command_ (data_base c) = DSCHED_CONTINUE_CMD_DATA ->
    exists text, DataCmd.Marshal c = ok text /\
      posted text (DSCHED_CONTINUE_DATA_EVENT (Some (set_want (data_received c)
        (SetBundle (want_received (want_ c)) (dstBundleName_ (data_base c))))))) /\
  (forall b v r reason, base_wf b -> command_ b = DSCHED_CONTINUE_CMD_REPLY ->
    is_int32 v -> is_int32 r -> no_nul reason ->
    (exists text, ReplyCmd.Marshal (mkReplyCmd b DSCHED_CONTINUE_CMD_START v r reason) = ok text /\
      posted text (DSHCED_CONTINUE_ABILITY_EVENT v)) /\
    (exists text, ReplyCmd.Marshal (mkReplyCmd b DSCHED_CONTINUE_CMD_END v r reason) = ok text /\
      posted text (DSCHED_CONTINUE_END_EVENT r))) /\
  (forall b r, base_wf b -> command_ b = DSCHED_CONTINUE_CMD_END -> is_int32 r ->
    exists text, EndCmd.Marshal (mkEndCmd b r) = ok text /\
      posted text (DSCHED_CONTINUE_COMPLETE_EVENT r)).
Proof.
  intros (Hsorted & Hall) Hf posted.
  assert (eventHandler_ s = true) as Hh.
  { unfold find_continue in Hf. apply List.find_some in Hf as (Hin & _).
    eapply List.Forall_forall in Hin; [|exact Hall]. destruct Hin as ((_ & H & _) & _). exact H. }
  assert (forall text n e, no_nul text -> announces text n ->
    Continue.OnDataRecv n (sent text) s t = mbind (post_event e) (fun _ => mret tt) s t -> posted text e) as Hpost.
  { intros text n e Ht Hn Hrun. apply (HandleDataRecv_sent _ _ _ _ _ _ _ tt _ _ Ht Hn Hsorted Hf).
    rewrite Hrun. unfold mbind. by rewrite post_event_posts. }
  split_and!.
  - intros c version Hwf Hc. destruct (data_roundtrip Hmax c version Hwf) as (text & H1 & H2 & H3 & H4).
    exists text. split; [done|]. eapply Hpost; [done..|]. rewrite OnDataRecv_sent, Hc.
    destruct (unmarshal_sent text H2) as (-> & _). by rewrite H4.
  - intros b v r reason Hb Hc Hv Hr Hreason. split.
    + destruct (reply_roundtrip (mkReplyCmd b DSCHED_CONTINUE_CMD_START v r reason)) as (text & H1 & H2 & H3 & H4);
        [done..|]. exists text. split; [done|]. eapply Hpost; [done..|]. cbn [reply_base]. rewrite OnDataRecv_sent, Hc.
      destruct (unmarshal_sent text H2) as (_ & -> & _). by rewrite H4.
    + destruct (reply_roundtrip (mkReplyCmd b DSCHED_CONTINUE_CMD_END v r reason)) as (text & H1 & H2 & H3 & H4);
        [done..|]. exists text. split; [done|]. eapply Hpost; [done..|]. cbn [reply_base]. rewrite OnDataRecv_sent, Hc.
      destruct (unmarshal_sent text H2) as (_ & -> & _). by rewrite H4.
  - intros b r Hb Hc Hr. destruct (end_roundtrip (mkEndCmd b r)) as (text & H1 & H2 & H3 & H4); [done..|].
    exists text. split; [done|]. eapply Hpost; [done..|]. cbn [end_base]. rewrite OnDataRecv_sent, Hc.
    destruct (unmarshal_sent text H2) as (_ & _ & -> & _). by rewrite H4.
Qed.

(** A start command of a peer on a session no continuation uses, with the limit, the
    control rule and the key in its favour, makes a continuation in the opposite role,
    in the first state of that role, on that session, with the ability event waiting; but
    neither counter counts it. *)
Theorem start_command_creates_peer session g t c direction g1 t1 :
  base_wf (start_base c) -> is_int32 (start_direction_ c) -> is_int32 (start_appVersion_ c) ->
  parcels_back max (wantParams_ c) -> command_ (start_base c) = DSCHED_CONTINUE_CMD_START ->
  empty (srcBundleName_ (start_base c)) && empty (dstBundleName_ (start_base c)) = false ->
  find_continue (fun s => session =? GetSessionId s) g = None ->
  CheckContinuationLimit (srcDeviceId_ (start_base c)) (dstDeviceId_ (start_base c)) CONTINUE_SINK g t
    = Done ((ERR_OK, direction), g1, t1) ->
  map_count (continues_ g) (peer_info (start_base c)) = false ->
  (forall t b, CheckMDMCtrlRule t b = false) ->
  exists text g' t' s,
    StartCmd.Marshal c = ok text /\ HandleDataRecv session (sent text) g t = Done (tt, g', t') /\
    map_find (continues_ g') (peer_info (start_base c)) = Some s /\
    continueInfo_ s = peer_info (start_base c) /\ softbusSessionId_ s = session /\
    direction_ s = opposite (start_direction_ c) /\
    currentState_ s = Some (first_state (opposite (start_direction_ c))) /\
    queue_ s = [DSHCED_CONTINUE_ABILITY_EVENT (start_appVersion_ c)] /\
    cntSink_ g' = cntSink_ g /\ cntSource_ g' = cntSource_ g.
Proof.
  intros Hb Hd Hv Hp Hc Hbundle Hnone Hlimit Hfresh Hmdm.
  destruct (start_roundtrip Hmax c Hb Hd Hv Hp) as (text & H1 & H2 & H3 & H4).
  set (c' := mkStartCmd _ _ _ _) in H4.
  apply CheckContinuationLimit_room in Hlimit as Hroom. destruct Hroom as (-> & _).
  destruct (peer_initialised c' session (GetForegroundUser t1) Continue_default (t1 ++ [Query]))
    as (s & l & Hs & _ & (_ & Hh & _) & Hx & Hq & Hdir & Hsess & _ & _ & Hi).
  specialize (Hi Hbundle). change (peer_info (start_base c')) with (peer_info (start_base c)) in Hi.
  set (s' := set_queue (queue_ s ++ [DSHCED_CONTINUE_ABILITY_EVENT (start_appVersion_ c)]) s).
  eexists text, _, _, s'. split; [done|]. split.
  - unfold HandleDataRecv, sent. cbn [data_ buffer_of]. unfold mbind at 1. rewrite load_sent. cbn [run_bind].
    rewrite (command_of_sent text _ H2 H3), Hc.
    unfold NotifyContinueDataRecv, mbind at 1, get. cbn [run_bind]. rewrite Hnone.
    change (DSCHED_CONTINUE_CMD_START =? DSCHED_CONTINUE_CMD_START) with true. cbn iota.
    unfold start_peer. destruct (unmarshal_sent text H2) as (_ & _ & _ & ->). rewrite H4.
    unfold mbind at 1, from_run at 1. cbn [run_bind ok]. fold c'.
    unfold mbind at 1. change (srcDeviceId_ (start_base c')) with (srcDeviceId_ (start_base c)).
    change (dstDeviceId_ (start_base c')) with (dstDeviceId_ (start_base c)).
    rewrite Hlimit. cbn [run_bind negb ERR_OK Z.eqb].
    unfold mbind at 1, query at 1, call at 1. cbn [run_bind].
    unfold mbind at 1. rewrite (make_shared_run _ _ _ _ Hs). cbn [run_bind]. cbv zeta.
    unfold mbind at 1. cbn [get run_bind]. unfold mbind at 1. cbn [modify run_bind].
    unfold GetContinueInfo at 1 2 3. rewrite Hi, Hfresh. cbn [negb].
    unfold mbind at 1, query, call. cbn [run_bind]. rewrite Hmdm.
    unfold GetContinueInfo. rewrite Hi. unfold mbind at 1, on_object. cbn [continues_ set_continues].
    rewrite (map_emplace_fresh _ _ _ Hfresh). unfold OnStartCmd, PostCotinueAbilityTask.
    rewrite (post_event_posts _ _ _ Hh). cbn [run_bind mret]. reflexivity.
  - cbn [continues_ set_continues cntSink_ cntSource_]. rewrite map_find_assign_eq. unfold s'. rewrite Hq.
    by split_and!.
Qed.
End Dispatch.

(** ** What goes wrong *)

Definition same_counts g t g' t' : Prop := cntSink_ g' = cntSink_ g /\ cntSource_ g' = cntSource_ g.

Lemma same_counts_refl g t : same_counts g t g t.
Proof. done. Qed.
Lemma same_counts_trans g1 t1 g2 t2 g3 t3 :
  same_counts g1 t1 g2 t2 -> same_counts g2 t2 g3 t3 -> same_counts g1 t1 g3 t3.
Proof. unfold same_counts. intros (? & ?) (? & ?). split; congruence. Qed.

Lemma on_object_counts {A} info (m : C A) : preserves same_counts (on_object info m).
Proof.
  intros g t a g' t'. unfold on_object. destruct (map_find (continues_ g) info) as [s|];
    [|by intros [= _ <- _]]. destruct (m s t) as [[[b s'] t1]| |]; [|done..]. cbn [run_bind].
  by intros [= _ <- _].
Qed.

Lemma make_shared_counts m : preserves same_counts (make_shared m).
Proof.
  intros g t a g' t'. unfold make_shared.
  destruct ((do! m in Continue.Init) Continue_default t) as [[[b s'] t1]| |]; [|done..]. cbn [run_bind].
  by intros [= _ <- _].
Qed.

Lemma HandleDataRecv_counts session b : preserves same_counts (HandleDataRecv session b).
Proof.
  unfold HandleDataRecv, NotifyContinueDataRecv, start_peer, CheckContinuationLimit, GetLocalDeviceId, query.
  preserves_with same_counts_refl same_counts_trans ltac:(idtac;
    match goal with
    | |- preserves _ (call _ _) => apply preserves_call; by intros
    | |- preserves _ (modify _) => apply preserves_modify; by intros
    | |- preserves _ (on_object _ _) => apply on_object_counts
    | |- preserves _ (make_shared _) => apply make_shared_counts
    end).
Qed.

(** A continuation that a peer started is not counted when it enters the table but is
    counted out when it ends: on an idle device the sink counter is then -1, so that the
    limit lets a local continuation start while another one, which raised the counter to
    0, is in progress. *)
Theorem peer_continuation_lowers_count session b g t g1 t1 info g2 t2 :
  cntSink_ g = 0 -> HandleDataRecv session b g t = Done (tt, g1, t1) ->
  map_count (continues_ g1) info = true ->
  (forall t, GetLocalDeviceId_r t = Some (sinkDeviceId_ info)) ->
  HandleContinueEnd info g1 t1 = Done (tt, g2, t2) ->
  cntSink_ g2 = -1 /\
  forall src d g3 t3, cntSink_ g3 = cntSink_ g2 + 1 -> (forall t, GetDeviceInfoById t src = true) ->
    exists t4, CheckContinuationLimit src (sinkDeviceId_ info) d g3 t3
      = Done ((ERR_OK, CONTINUE_SINK), g3, t4).
Proof.
  intros H0 (H1 & _)%HandleDataRecv_counts Hin Hlocal H2.
  assert (cntSink_ g2 = -1) as ->.
  { unfold HandleContinueEnd, RemoveTimeout, GetLocalDeviceId, query, call, mbind, get, modify, emit, mret in H2.
    cbn [run_bind] in H2. rewrite Hin in H2. cbn [negb] in H2.
    destruct (mgr_eventHandler_ g1); cbn [run_bind] in H2; rewrite Hlocal, bytes_eqb_refl in H2;
      injection H2 as <- _; cbn [cntSink_ set_counts set_continues set_tasks]; by rewrite H1, H0. }
  split; [done|]. intros src d g3 t3 Hg3 Hknown.
  unfold CheckContinuationLimit, GetLocalDeviceId, query, call, mbind, get, mret. cbn [run_bind].
  rewrite Hlocal. cbn [run_bind]. rewrite bytes_eqb_refl, Hg3.
  change (MAX_CONCURRENT_SINK <=? -1 + 1) with false. cbn [run_bind]. rewrite Hknown. by eexists.
Qed.

(** A state callback that is registered after a state was reported is lost: the report
    makes an entry without a callback, the registration answers success but only changes
    a copy of it, so neither the saved state nor any later one is told, and nobody
    watches for the death of the callback. *)
Theorem state_told_before_registration_lost info state message remote (later : list (Z * bytes)) g t :
  map_find (stateCallbackCache_ g) info = None ->
  exists g1 g2 g3,
    NotifyQuickStartState info state message g t = Done (ERR_OK, g1, t) /\
    ContinueStateCallbackRegister info (Some remote) g1 t = Done (ERR_OK, g2, t) /\
    mfor later (fun p => do! NotifyQuickStartState info p.1 p.2 in mret tt) g2 t = Done (tt, g3, t) /\
    map_find (stateCallbackCache_ g3) info = Some (mkStateCallbackData None None state message).
Proof.
  intros Hnone. set (d := mkStateCallbackData None None state message).
  set (g1 := set_cache (map_assign (stateCallbackCache_ g) info d) g).
  assert (map_find (stateCallbackCache_ g1) info = Some d) as Hf by apply map_find_assign_eq.
  assert (forall st m, NotifyQuickStartState info st m g1 t = Done (ERR_OK, g1, t)) as Hnotify.
  { intros st m. unfold NotifyQuickStartState, FindStateCallbackData, AddStateCallbackData, mbind, get,
      modify, mret. cbn [run_bind]. rewrite Hf. cbn [remoteObject run_bind d].
    unfold map_emplace, map_count. rewrite Hf. done. }
  exists g1, g1, g1. split_and!; [| | |done].
  - unfold NotifyQuickStartState, FindStateCallbackData, AddStateCallbackData, mbind, get, modify, mret.
    cbn [run_bind]. rewrite Hnone. cbn [run_bind]. unfold map_emplace, map_count. by rewrite Hnone.
  - unfold ContinueStateCallbackRegister, FindStateCallbackData. unfold mbind at 1 2, get, mret at 1.
    cbn [run_bind]. rewrite Hf. destruct (negb (data_state d =? -1)); [apply Hnotify|done].
  - induction later as [|[st m] later IH]; cbn [mfor]; [done|]. unfold mbind at 1 2. cbn [fst snd].
    rewrite Hnotify. exact IH.
Qed.
End Manager.

(** ** A concrete manager *)

Module DemoManager.
Export ContinueProperties.Demo.
#[export] Existing Instance DemoJson.demo_reads.
#[export] Existing Instance demo_parcels_bound.

(** The services around the sink of [Demo] all agree. *)
#[export] Instance manager_env : ManagerEnv := {|
  GetDeviceInfoById _ _ := true;
  CheckMDMCtrlRule _ _ := false;
  GetForegroundUser _ := 100;
  GetDistributedBundleInfoById _ _ _ := None;
  GetMissionStatus _ _ _ := (ERR_OK, (8, bundle, str "EntryAbility"));
  WriteStateParcel _ := true;
  Str16ToStr8 name := name;
  start_params := Some
|}.

(** One continuation, on session 5 or not, in a manager that runs. *)
Definition running (l : std_map DSchedContinueInfo DSchedContinue) : DSchedContinueManager :=
  mkManager true true 0 [] l [] 0 0.

Definition waiting : DSchedContinue :=
  object CONTINUE_PULL CONTINUE_SINK DSCHED_CONTINUE_DATA_STATE [].

Lemma waiting_ok : mgr_ok (running [(info, waiting)]).
Proof.
  split; [repeat constructor|]. constructor; [|constructor]. split; [|reflexivity].
  apply object_wf; [by right|constructor].
Qed.

Definition base (command : Z) : DSchedContinueCmdBase :=
  mkCmdBase 1 0 0 command remote_device bundle [] local_device bundle [] (str "type") 0 7 6.
End DemoManager.
Import DemoManager.

Lemma manager_run_safe_witness :
  let key := info_of_mission remote_device local_device 7 in
  let moves := [CallInit; CallContinueMission remote_device local_device 7 true WantParams_empty;
    TaskTurn; Wait CONTINUE_TIMEOUT; TaskTurn; ObjectTurn key; ObjectTurn key; ObjectTurn key;
    BytesArrived 5 (Some (buffer_of (str "not a command"))); Wait 1; TaskTurn; TaskTurn] in
  exists g t, mfor moves make_move Manager_init [] = Done (tt, g, t) /\
    map_sorted (continues_ g) /\ ends t = 1 /\ - ends t <= cntSink_ g <= 1.
Proof.
  intros key moves.
  assert (Forall move_ok moves) as Hm.
  { unfold moves. repeat apply Forall_cons_2; try exact I; [|apply Forall_nil_2].
    split; [apply buffer_of_wf; vm_compute; split; reflexivity|reflexivity]. }
  destruct (manager_run_safe (Ev := env) (ME := manager_env) moves Hm) as (g & t & H & Hs & _ & Hc).
  assert (ends_with (fun _ _ t => Z.eqb (ends t) 1) (mfor moves make_move Manager_init []) = true) as Hrun
    by (vm_compute; reflexivity).
  rewrite H in Hrun. cbn [ends_with] in Hrun. apply Z.eqb_eq in Hrun.
  exists g, t. split; [exact H|]. split; [exact Hs|]. split; [exact Hrun|].
  apply Hc. rewrite Hrun. reflexivity.
Defined.

Lemma timeout_removes_continuation_witness :
  let g := running [(info, waiting)] in
  map_find (continues_ g) info = Some waiting /\
  exists g' t' p,
    (do! run_task (TaskTimeOut info) in object_turns 3 info) g [] = Done (tt, g', t') /\
    In p (tasks_ g') /\
    forall g1 t1, exists g2 t2, run_task (task p) g1 t1 = Done (tt, g2, t2) /\
      map_find (continues_ g2) info = None.
Proof.
  intros g. split; [reflexivity|].
  destruct (timeout_removes_continuation (Ev := env) (ME := manager_env) info g [] waiting waiting_ok eq_refl eq_refl
    ltac:(intros; reflexivity)) as (g' & t' & s' & y & p & H & _ & _ & _ & Hp & _ & Ht).
  exists g', t', p. split; [exact H|]. split; [exact Hp|exact Ht].
Defined.

Lemma received_commands_dispatched_witness :
  let g := running [(info, waiting)] in
  exists text, EndCmd.Marshal (mkEndCmd (base DSCHED_CONTINUE_CMD_END) ERR_OK) = ok text /\
    exists g', HandleDataRecv 5 (sent text) g [] = Done (tt, g', [Query]) /\
      map_find (continues_ g') info
        = Some (set_queue [DSCHED_CONTINUE_COMPLETE_EVENT ERR_OK] waiting).
Proof.
  intros g.
  destruct (received_commands_dispatched (Ev := env) (ME := manager_env) (Jok := DemoJson.demo_ok) (Nok := DemoJson.extra_ok)
    (max := 204800) (PLok := demo_parcels_ok) ltac:(reflexivity) ltac:(intros; reflexivity) 5 g [] info waiting
    waiting_ok ltac:(vm_compute; reflexivity)) as (_ & _ & H).
  destruct (H (base DSCHED_CONTINUE_CMD_END) ERR_OK) as (text & H1 & H2);
    [unfold base_wf, base; wf_compute|reflexivity|wf_compute|].
  exists text. split; [exact H1|]. eexists. split; [exact H2|]. reflexivity.
Defined.

Definition demo_start : DSchedContinueStartCmd :=
  mkStartCmd (base DSCHED_CONTINUE_CMD_START) CONTINUE_SOURCE 1000 WantParams_empty.

Lemma start_command_creates_peer_witness :
  exists text g' t' s,
    StartCmd.Marshal demo_start = ok text /\
    HandleDataRecv 6 (sent text) (running []) [] = Done (tt, g', t') /\
    map_find (continues_ g') (peer_info (base DSCHED_CONTINUE_CMD_START)) = Some s /\
    direction_ s = CONTINUE_SINK /\ queue_ s = [DSHCED_CONTINUE_ABILITY_EVENT 1000].
Proof.
  destruct (start_command_creates_peer (Ev := env) (ME := manager_env) (Jok := DemoJson.demo_ok) (max := 204800) (PLok := demo_parcels_ok) ltac:(reflexivity) ltac:(intros; reflexivity) 6 (running []) []
    demo_start CONTINUE_SINK (running []) [Query; Query]) as (text & g' & t' & s & H1 & H2 & H3 & _ & _ & H4 & _ & H5 & _).
  - unfold base_wf, demo_start, base. wf_compute.
  - wf_compute.
  - wf_compute.
  - apply (DemoWant.code_parcels_back 204800 (A := list (bytes * DemoWant.value))); by_compute.
  - reflexivity.
  - vm_compute. reflexivity.
  - reflexivity.
  - vm_compute. reflexivity.
  - reflexivity.
  - intros t b. reflexivity.
  - exists text, g', t', s. split; [exact H1|]. split; [exact H2|]. split; [exact H3|].
    split; [exact H4|exact H5].
Defined.

(** After a peer's continuation has come and gone two local ones run at once. *)
Lemma peer_continuation_lowers_count_witness :
  let key := peer_info (base DSCHED_CONTINUE_CMD_START) in
  exists text g1 t1 g2 t2, StartCmd.Marshal demo_start = ok text /\
    HandleDataRecv 6 (sent text) (running []) [] = Done (tt, g1, t1) /\
    HandleContinueEnd key g1 t1 = Done (tt, g2, t2) /\ cntSink_ g2 = -1.
Proof.
  intros key.
  assert (match StartCmd.Marshal demo_start with
    | Done (inr text) =>
      ends_with (fun _ g _ => map_count (continues_ g) key) (HandleDataRecv 6 (sent text) (running []) [])
    | _ => false
    end = true) as H1 by (vm_compute; reflexivity).
  destruct (StartCmd.Marshal demo_start) as [[e|text]| |] eqn:E1; [discriminate H1| |discriminate H1..].
  apply ends_with_Done in H1 as ([] & g1 & t1 & H1 & Hin).
  destruct (HandleContinueEnd_erases key g1 t1) as (g2 & t2 & H2 & _).
  exists text, g1, t1, g2, t2. split; [reflexivity|]. split; [exact H1|]. split; [exact H2|].
  apply (peer_continuation_lowers_count (Ev := env) (ME := manager_env) 6 (sent text) (running []) [] g1 t1 key g2 t2
    eq_refl H1 Hin ltac:(intros; reflexivity) H2).
Defined.

Lemma state_told_before_registration_lost_witness :
  let info := mkStateCallbackInfo 7 bundle (str "entry") (str "EntryAbility") in
  map_find (stateCallbackCache_ (running [])) info = None /\
  exists g1 g2 g3,
    NotifyQuickStartState info 1 (str "ready") (running []) [] = Done (ERR_OK, g1, []) /\
    ContinueStateCallbackRegister info (Some 3) g1 [] = Done (ERR_OK, g2, []) /\
    mfor [(2, str "done")] (fun p => do! NotifyQuickStartState info p.1 p.2 in mret tt) g2 []
      = Done (tt, g3, []) /\
    map_find (stateCallbackCache_ g3) info = Some (mkStateCallbackData None None 1 (str "ready")).
Proof.
  intros info. split; [reflexivity|].
  exact (state_told_before_registration_lost (ME := manager_env) info 1 (str "ready") 3 [(2, str "done")] (running []) [] eq_refl).
Defined.
