(* ===== verification/Collab.v ===== *)
(** * A collaboration

    services/dtbschedmgr/src/collab/dsched_collab.cpp and the state classes of
    services/dtbschedmgr/src/collab/state/: the object each device keeps for a collaboration
    session.  The source asks the peer for its version, starts the ability there and waits
    for the result; the sink answers, starts the ability and reports; then either side ends
    the session.

    The object is [DSchedCollab].  Its event thread has a queue of events of the highest
    priority, delivered in order ([queue_]), and a task of low priority for every accepted
    [CollabMission] ([tasks_], each the information the task captured); the library lets a
    task of low priority pass waiting events from time to time, so a turn of the thread may
    take the first of either.  The operations other threads call are steps of their own: the
    object's accesses to its information are not locked in the code, and the model has no
    step in the middle of another.  The services the code asks are the oracles of
    [CollabEnv]; reports to the efficiency manager are left out. *)

From Stdlib Require Import ZArith Lia String.
From stdpp Require Import base list option.
From S2P Require Import Prelude ErrorCodes DataBuffer StdString Base64 Framework ContinueEvent CollabEvent Effects.

(** ** Data *)

Inductive CollabStateType :=
| SOURCE_GET_PEER_VERSION_STATE
| SOURCE_START_STATE
| SOURCE_WAIT_RESULT_STATE
| SOURCE_WAIT_END_STATE
| SINK_GET_VERSION_STATE
| SINK_START_STATE
| SINK_CONNECT_STATE
| SINK_WAIT_END_STATE.

#[export] Instance collab_state_eq_dec : EqDecision CollabStateType.
Proof. solve_decision. Defined.

Definition COLLAB_SOURCE : Z := 0.
Definition COLLAB_SINK : Z := 1.
Definition SERVICE_TYPE_COLLAB : Z := 1.
Definition INVALID_SESSION_ID : Z := -1.
Definition DSCHED_COLLAB_PROTOCOL_VERSION : Z := 1.
Definition DMS_VERSION : Z := 6.
Definition COLLABORATION_SERVICE : Z := 0.

Definition KEY_START_OPTION : bytes := Eval vm_compute in str "ohos.collabrate.key.start.option".
Definition VALUE_START_OPTION_BACKGROUND : bytes :=
  Eval vm_compute in str "ohos.collabrate.value.background".
Definition DMS_IS_CALLER_FOREGROUND : bytes := Eval vm_compute in str "dmsIsCallerForeGround".

Record CollabMessage := mkCollabMessage {
  pid_ : Z;
  uid_ : Z;
  accessToken_ : Z;
  deviceId_ : bytes;
  bundleName_ : bytes;
  abilityName_ : bytes;
  moduleName_ : bytes;
  serverId_ : bytes;
  socketName_ : bytes
}.

Definition CollabMessage_default : CollabMessage := mkCollabMessage (-1) (-1) (-1) [] [] [] [] [] [].

(** An [InnerEvent]: its identifier and the object it carries, which is always of the type
    the handlers of that identifier ask for. *)
Inductive InnerEvent :=
| SOURCE_GET_PEER_VERSION_EVENT
| SOURCE_GET_VERSION_EVENT
| SOURCE_START_EVENT
| NOTIFY_RESULT_EVENT (result : Z)
| GET_SINK_VERSION_EVENT
| START_ABILITY_EVENT (peerDeviceId : bytes)
| NOTIFY_PREPARE_RESULT_EVENT (result : Z)
| ERR_END_EVENT (result : Z)
| END_EVENT
| ABILITY_REJECT_EVENT (reason : bytes).

Section Collab.
Context {J : CJson} {N : NJson} {W : WantLib} {P : ParamsLib} {PL : ParcelLib}.

Record ConnectOpt := mkConnectOpt {
  needSendBigData_ : bool;
  needSendStream_ : bool;
  needRecvStream_ : bool;
  startParams_ : AWantParams;
  messageParams_ : AWantParams
}.

(** A client callback is the identity of its remote object. *)
Record DSchedCollabInfo := mkCollabInfo {
  srcCollabSessionId_ : Z;
  sinkCollabSessionId_ : Z;
  sinkUserId_ : Z;
  srcCollabVersion_ : Z;
  sinkCollabVersion_ : Z;
  srcAppVersion_ : Z;
  direction_ : Z;
  collabToken_ : bytes;
  srcUdid_ : bytes;
  sinkUdid_ : bytes;
  sinkAccountId_ : Z;
  callerInfo_ : CallerInfo;
  srcAccountInfo_ : AccountInfo;
  srcInfo_ : CollabMessage;
  sinkInfo_ : CollabMessage;
  srcOpt_ : ConnectOpt;
  srcClientCB_ : option Z;
  sinkClientCB_ : option Z
}.

Definition ConnectOpt_default : ConnectOpt :=
  mkConnectOpt false false false AWantParams_empty AWantParams_empty.

Definition CollabInfo_default : DSchedCollabInfo :=
  mkCollabInfo (-1) (-1) (-1) 0 0 0 COLLAB_SOURCE [] [] [] (-1) CallerInfo_default
    AccountInfo_default CollabMessage_default CollabMessage_default ConnectOpt_default None None.

(** [stateMachine_] and [eventHandler_] say whether the pointers are set, [appStateObserver_]
    whether an observer was made; [currentState_] is the state machine's. *)
Record DSchedCollab := mkCollab {
  collabInfo_ : DSchedCollabInfo;
  softbusSessionId_ : Z;
  appStateObserver_ : bool;
  isDisconnected_ : bool;
  stateMachine_ : bool;
  currentState_ : option CollabStateType;
  eventHandler_ : bool;
  queue_ : list InnerEvent;
  tasks_ : list DSchedCollabInfo
}.

(** What the object does to the outside; the last two are its manager's.  [Query] is a
    question that changes nothing; it is recorded so that later answers may differ. *)
Inductive Effect :=
| Query
| ConnectDevice (peerDeviceId : bytes)
| DisconnectDevice (peerDeviceId : bytes)
| SendData (sessionId : Z) (data : bytes)
| PermissionChecked (want : Want) (ret : Z)
| StartAbilityByCall (want : Want)
| NotifyPeerVersion (callback sessionId version : Z)
| NotifyPrepareResult (callback sessionId result : Z) (socketName token reason : bytes)
| NotifyDisconnect (callback sessionId : Z)
| NotifyWifi (callback sessionId : Z)
| RegisterObserver (bundleName : bytes)
| UnregisterObserver
| ManagerCleanUpSession (token : bytes)
| PrivilegeShutdown (tokenId pid : Z) (deviceId : bytes)
| SoftbusChannel (open : bool).

(** [os_account_part] and [check_screenlock] are the build flags OS_ACCOUNT_PART and
    DMS_CHECK_SCREENLOCK; the two codes are those of the IPC library. *)
Class CollabEnv := {
  os_account_part : bool;
  check_screenlock : bool;
  ERR_FLATTEN_OBJECT : Z;
  ERR_NULL_OBJECT : Z;
  SendEvent_ok : list Effect -> bool;
  (** The result and the session id when it was assigned. *)
  ConnectDevice_ret : list Effect -> bytes -> Z * option Z;
  SendData_ret : list Effect -> Z -> bytes -> Z;
  (** [GetLocalBundleInfoV9]: the result and the version code. *)
  GetLocalBundleInfoV9 : list Effect -> bytes -> Z * Z;
  GetCallerAppIdFromBms : list Effect -> Z -> option bytes;
  GetBundleNameListFromBms : list Effect -> Z -> option (list bytes);
  GetAccountInfo : list Effect -> bytes -> CallerInfo -> Z * AccountInfo;
  IsAbilityForeground : list Effect -> Z -> bool;
  CheckSrcBackgroundPermission : list Effect -> Z -> bool;
  CheckCollabStartPermission : list Effect -> Want -> CallerInfo -> AccountInfo -> bool -> Z;
  AmsConnect : list Effect -> Z;
  StartAbilityByCall_ret : list Effect -> Want -> Z;
  GetSecure : list Effect -> bool;
  IsLocked : list Effect -> bool;
  QueryActiveOsAccountIds : list Effect -> Z * list Z;
  GetUdidByNetworkId : list Effect -> bytes -> bytes;
  IsMDMControl : list Effect -> bool;
  GetActiveAccountId : list Effect -> Z;
  IsMDMControlWithExemption : list Effect -> bytes -> Z -> Z -> bool;
  WriteInterfaceToken : list Effect -> bool;
  WriteMembers : list Effect -> bool;
  SendRequest_ret : list Effect -> Z;
  GetAppManager : list Effect -> bool;
  RegisterObserver_ret : list Effect -> Z;
  (** The answer of [DSchedCollabManager::CleanUpSession]. *)
  CleanUpSession_ret : list Effect -> Z
}.

Context {Ev : CollabEnv}.

Definition C (A : Type) : Type := M DSchedCollab Effect A.

Definition ask {A} (oracle : list Effect -> A) : C A := call Query oracle.

(** ** Updates of single members *)

Definition set_sinkCollabSessionId (x : Z) (i : DSchedCollabInfo) : DSchedCollabInfo :=
  mkCollabInfo (srcCollabSessionId_ i) x (sinkUserId_ i) (srcCollabVersion_ i)
    (sinkCollabVersion_ i) (srcAppVersion_ i) (direction_ i) (collabToken_ i) (srcUdid_ i)
    (sinkUdid_ i) (sinkAccountId_ i) (callerInfo_ i) (srcAccountInfo_ i) (srcInfo_ i)
    (sinkInfo_ i) (srcOpt_ i) (srcClientCB_ i) (sinkClientCB_ i).
Definition set_sinkUserId (x : Z) (i : DSchedCollabInfo) : DSchedCollabInfo :=
  mkCollabInfo (srcCollabSessionId_ i) (sinkCollabSessionId_ i) x (srcCollabVersion_ i)
    (sinkCollabVersion_ i) (srcAppVersion_ i) (direction_ i) (collabToken_ i) (srcUdid_ i)
    (sinkUdid_ i) (sinkAccountId_ i) (callerInfo_ i) (srcAccountInfo_ i) (srcInfo_ i)
    (sinkInfo_ i) (srcOpt_ i) (srcClientCB_ i) (sinkClientCB_ i).
Definition set_sinkCollabVersion (x : Z) (i : DSchedCollabInfo) : DSchedCollabInfo :=
  mkCollabInfo (srcCollabSessionId_ i) (sinkCollabSessionId_ i) (sinkUserId_ i)
    (srcCollabVersion_ i) x (srcAppVersion_ i) (direction_ i) (collabToken_ i) (srcUdid_ i)
    (sinkUdid_ i) (sinkAccountId_ i) (callerInfo_ i) (srcAccountInfo_ i) (srcInfo_ i)
    (sinkInfo_ i) (srcOpt_ i) (srcClientCB_ i) (sinkClientCB_ i).
Definition set_srcUdid (x : bytes) (i : DSchedCollabInfo) : DSchedCollabInfo :=
  mkCollabInfo (srcCollabSessionId_ i) (sinkCollabSessionId_ i) (sinkUserId_ i)
    (srcCollabVersion_ i) (sinkCollabVersion_ i) (srcAppVersion_ i) (direction_ i)
    (collabToken_ i) x (sinkUdid_ i) (sinkAccountId_ i) (callerInfo_ i) (srcAccountInfo_ i)
    (srcInfo_ i) (sinkInfo_ i) (srcOpt_ i) (srcClientCB_ i) (sinkClientCB_ i).
Definition set_sinkUdid (x : bytes) (i : DSchedCollabInfo) : DSchedCollabInfo :=
  mkCollabInfo (srcCollabSessionId_ i) (sinkCollabSessionId_ i) (sinkUserId_ i)
    (srcCollabVersion_ i) (sinkCollabVersion_ i) (srcAppVersion_ i) (direction_ i)
    (collabToken_ i) (srcUdid_ i) x (sinkAccountId_ i) (callerInfo_ i) (srcAccountInfo_ i)
    (srcInfo_ i) (sinkInfo_ i) (srcOpt_ i) (srcClientCB_ i) (sinkClientCB_ i).
Definition set_sinkAccountId (x : Z) (i : DSchedCollabInfo) : DSchedCollabInfo :=
  mkCollabInfo (srcCollabSessionId_ i) (sinkCollabSessionId_ i) (sinkUserId_ i)
    (srcCollabVersion_ i) (sinkCollabVersion_ i) (srcAppVersion_ i) (direction_ i)
    (collabToken_ i) (srcUdid_ i) (sinkUdid_ i) x (callerInfo_ i) (srcAccountInfo_ i)
    (srcInfo_ i) (sinkInfo_ i) (srcOpt_ i) (srcClientCB_ i) (sinkClientCB_ i).
Definition set_callerInfo (x : CallerInfo) (i : DSchedCollabInfo) : DSchedCollabInfo :=
  mkCollabInfo (srcCollabSessionId_ i) (sinkCollabSessionId_ i) (sinkUserId_ i)
    (srcCollabVersion_ i) (sinkCollabVersion_ i) (srcAppVersion_ i) (direction_ i)
    (collabToken_ i) (srcUdid_ i) (sinkUdid_ i) (sinkAccountId_ i) x (srcAccountInfo_ i)
    (srcInfo_ i) (sinkInfo_ i) (srcOpt_ i) (srcClientCB_ i) (sinkClientCB_ i).
Definition set_srcAccountInfo (x : AccountInfo) (i : DSchedCollabInfo) : DSchedCollabInfo :=
  mkCollabInfo (srcCollabSessionId_ i) (sinkCollabSessionId_ i) (sinkUserId_ i)
    (srcCollabVersion_ i) (sinkCollabVersion_ i) (srcAppVersion_ i) (direction_ i)
    (collabToken_ i) (srcUdid_ i) (sinkUdid_ i) (sinkAccountId_ i) (callerInfo_ i) x (srcInfo_ i)
    (sinkInfo_ i) (srcOpt_ i) (srcClientCB_ i) (sinkClientCB_ i).
Definition set_sinkInfo (x : CollabMessage) (i : DSchedCollabInfo) : DSchedCollabInfo :=
  mkCollabInfo (srcCollabSessionId_ i) (sinkCollabSessionId_ i) (sinkUserId_ i)
    (srcCollabVersion_ i) (sinkCollabVersion_ i) (srcAppVersion_ i) (direction_ i)
    (collabToken_ i) (srcUdid_ i) (sinkUdid_ i) (sinkAccountId_ i) (callerInfo_ i)
    (srcAccountInfo_ i) (srcInfo_ i) x (srcOpt_ i) (srcClientCB_ i) (sinkClientCB_ i).
Definition set_srcClientCB (x : option Z) (i : DSchedCollabInfo) : DSchedCollabInfo :=
  mkCollabInfo (srcCollabSessionId_ i) (sinkCollabSessionId_ i) (sinkUserId_ i)
    (srcCollabVersion_ i) (sinkCollabVersion_ i) (srcAppVersion_ i) (direction_ i)
    (collabToken_ i) (srcUdid_ i) (sinkUdid_ i) (sinkAccountId_ i) (callerInfo_ i)
    (srcAccountInfo_ i) (srcInfo_ i) (sinkInfo_ i) (srcOpt_ i) x (sinkClientCB_ i).
Definition set_sinkClientCB (x : option Z) (i : DSchedCollabInfo) : DSchedCollabInfo :=
  mkCollabInfo (srcCollabSessionId_ i) (sinkCollabSessionId_ i) (sinkUserId_ i)
    (srcCollabVersion_ i) (sinkCollabVersion_ i) (srcAppVersion_ i) (direction_ i)
    (collabToken_ i) (srcUdid_ i) (sinkUdid_ i) (sinkAccountId_ i) (callerInfo_ i)
    (srcAccountInfo_ i) (srcInfo_ i) (sinkInfo_ i) (srcOpt_ i) (srcClientCB_ i) x.

Definition set_collabInfo (x : DSchedCollabInfo) (s : DSchedCollab) : DSchedCollab :=
  mkCollab x (softbusSessionId_ s) (appStateObserver_ s) (isDisconnected_ s) (stateMachine_ s)
    (currentState_ s) (eventHandler_ s) (queue_ s) (tasks_ s).
Definition set_softbusSessionId (x : Z) (s : DSchedCollab) : DSchedCollab :=
  mkCollab (collabInfo_ s) x (appStateObserver_ s) (isDisconnected_ s) (stateMachine_ s)
    (currentState_ s) (eventHandler_ s) (queue_ s) (tasks_ s).
Definition set_appStateObserver (x : bool) (s : DSchedCollab) : DSchedCollab :=
  mkCollab (collabInfo_ s) (softbusSessionId_ s) x (isDisconnected_ s) (stateMachine_ s)
    (currentState_ s) (eventHandler_ s) (queue_ s) (tasks_ s).
Definition set_isDisconnected (x : bool) (s : DSchedCollab) : DSchedCollab :=
  mkCollab (collabInfo_ s) (softbusSessionId_ s) (appStateObserver_ s) x (stateMachine_ s)
    (currentState_ s) (eventHandler_ s) (queue_ s) (tasks_ s).
Definition set_currentState (x : option CollabStateType) (s : DSchedCollab) : DSchedCollab :=
  mkCollab (collabInfo_ s) (softbusSessionId_ s) (appStateObserver_ s) (isDisconnected_ s)
    (stateMachine_ s) x (eventHandler_ s) (queue_ s) (tasks_ s).
Definition set_queue (x : list InnerEvent) (s : DSchedCollab) : DSchedCollab :=
  mkCollab (collabInfo_ s) (softbusSessionId_ s) (appStateObserver_ s) (isDisconnected_ s)
    (stateMachine_ s) (currentState_ s) (eventHandler_ s) x (tasks_ s).
Definition set_tasks (x : list DSchedCollabInfo) (s : DSchedCollab) : DSchedCollab :=
  mkCollab (collabInfo_ s) (softbusSessionId_ s) (appStateObserver_ s) (isDisconnected_ s)
    (stateMachine_ s) (currentState_ s) (eventHandler_ s) (queue_ s) x.

Definition set_socketName (x : bytes) (m : CollabMessage) : CollabMessage :=
  mkCollabMessage (pid_ m) (uid_ m) (accessToken_ m) (deviceId_ m) (bundleName_ m) (abilityName_ m)
    (moduleName_ m) (serverId_ m) x.
Definition set_process (pid uid accessToken : Z) (m : CollabMessage) : CollabMessage :=
  mkCollabMessage pid uid accessToken (deviceId_ m) (bundleName_ m) (abilityName_ m)
    (moduleName_ m) (serverId_ m) (socketName_ m).

(** An assignment to a member of [collabInfo_]. *)
Definition modify_info (f : DSchedCollabInfo -> DSchedCollabInfo) : C unit :=
  modify (fun s => set_collabInfo (f (collabInfo_ s)) s).

(** ** Posting events *)

(** [eventHandler_->SendEvent(event, 0, IMMEDIATE)]. *)
Definition SendEvent (event : InnerEvent) : C bool :=
  let! sent := ask SendEvent_ok in
  do! when sent do modify (fun s => set_queue (queue_ s ++ [event]) s) in
  mret sent.

(** The end every [Post...Task] shares. *)
Definition post_event (event : InnerEvent) : C Z :=
  let! s := get in
  if negb (eventHandler_ s) then mret Dms.INVALID_PARAMETERS_ERR
  else
    let! sent := SendEvent event in
    if negb sent then mret Dms.COLLAB_SEND_EVENT_FAILED
    else mret ERR_OK.

Definition PostSrcGetPeerVersionTask : C Z := post_event SOURCE_GET_PEER_VERSION_EVENT.
Definition PostSrcGetVersionTask : C Z := post_event SOURCE_GET_VERSION_EVENT.
Definition PostSrcStartTask : C Z := post_event SOURCE_START_EVENT.
Definition PostSinkGetVersionTask : C Z := post_event GET_SINK_VERSION_EVENT.
Definition PostSinkStartTask (peerDeviceId : bytes) : C Z :=
  post_event (START_ABILITY_EVENT peerDeviceId).
Definition PostAbilityRejectTask (reason : bytes) : C Z := post_event (ABILITY_REJECT_EVENT reason).
Definition PostEndTask : C Z := post_event END_EVENT.

Definition PostErrEndTask (result : Z) : C Z :=
  let! s := get in
  if isDisconnected_ s then mret ERR_OK else post_event (ERR_END_EVENT result).

(** What the client of the sink reports. *)
Definition take_sink_report (reported : DSchedCollabInfo) (i : DSchedCollabInfo) : DSchedCollabInfo :=
  let r := sinkInfo_ reported in
  set_sinkCollabSessionId (sinkCollabSessionId_ reported)
    (set_sinkClientCB (sinkClientCB_ reported)
      (set_sinkInfo (set_process (pid_ r) (uid_ r) (accessToken_ r)
        (set_socketName (socketName_ r) (sinkInfo_ i))) i)).

Definition PostSinkPrepareResultTask (result : Z) (dSchedCollabInfo : DSchedCollabInfo) : C Z :=
  let! s := get in
  if negb (eventHandler_ s) then mret Dms.INVALID_PARAMETERS_ERR
  else
    do! modify_info (take_sink_report dSchedCollabInfo) in
    let! sent := SendEvent (NOTIFY_PREPARE_RESULT_EVENT result) in
    if negb sent then mret Dms.COLLAB_SEND_EVENT_FAILED else mret ERR_OK.

(** The members of a result command the source keeps. *)
Definition take_result (cmd : NotifyResultCmd) (i : DSchedCollabInfo) : DSchedCollabInfo :=
  let m := sinkInfo_ i in
  set_sinkAccountId (CollabEvent.sinkAccountId_ cmd)
    (set_sinkUserId (CollabEvent.sinkUserId_ cmd)
      (set_sinkInfo (set_process (sinkPid_ cmd) (uid_ m) (sinkAccessToken_ cmd)
          (set_socketName (sinkSocketName_ cmd) m))
        (set_sinkCollabSessionId (CollabEvent.sinkCollabSessionId_ cmd) i))).

(** [srcUdid_] and [sinkUdid_] from the network ids of both devices. *)
Definition set_udids (sink_first : bool) : C unit :=
  let sink := (let! s := get in
    let! udid := ask (fun t => GetUdidByNetworkId t (deviceId_ (sinkInfo_ (collabInfo_ s)))) in
    modify_info (set_sinkUdid udid)) in
  let src := (let! s := get in
    let! udid := ask (fun t => GetUdidByNetworkId t (deviceId_ (srcInfo_ (collabInfo_ s)))) in
    modify_info (set_srcUdid udid)) in
  if sink_first then do! sink in src else do! src in sink.

Definition PostSrcResultTask (cmd : NotifyResultCmd) : C Z :=
  let! s := get in
  if negb (eventHandler_ s) then mret Dms.INVALID_PARAMETERS_ERR
  else if negb (empty (abilityRejectReason_ cmd)) then
    let! sent := SendEvent (ABILITY_REJECT_EVENT (abilityRejectReason_ cmd)) in
    if negb sent then mret Dms.COLLAB_SEND_EVENT_FAILED else mret ERR_OK
  else
    do! modify_info (take_result cmd) in
    do! set_udids true in
    let! sent := SendEvent (NOTIFY_RESULT_EVENT (result_ cmd)) in
    if negb sent then mret Dms.COLLAB_SEND_EVENT_FAILED else mret ERR_OK.

(** ** Construction *)

Definition UpdateState (stateType : CollabStateType) : C unit :=
  let! s := get in
  when stateMachine_ s do modify (set_currentState (Some stateType)).

Definition new_collab (info : DSchedCollabInfo) (sessionId : Z) : DSchedCollab :=
  mkCollab info sessionId false false false None false [] [].

Definition set_version_and_token (collabToken : bytes) (i : DSchedCollabInfo) : DSchedCollabInfo :=
  mkCollabInfo (srcCollabSessionId_ i) (sinkCollabSessionId_ i) (sinkUserId_ i)
    DSCHED_COLLAB_PROTOCOL_VERSION (sinkCollabVersion_ i) (srcAppVersion_ i) (direction_ i)
    collabToken (srcUdid_ i) (sinkUdid_ i) (sinkAccountId_ i) (callerInfo_ i) (srcAccountInfo_ i)
    (srcInfo_ i) (sinkInfo_ i) (srcOpt_ i) (srcClientCB_ i) (sinkClientCB_ i).

(** The constructor of the source. *)
Definition construct_source (collabToken : bytes) (info : DSchedCollabInfo) : DSchedCollab :=
  new_collab (set_version_and_token collabToken info) INVALID_SESSION_ID.

(** The constructor of the sink, for the command that asked for its version. *)
Definition construct_sink (startCmd : GetSinkCollabVersionCmd) (softbusSessionId : Z) : DSchedCollab :=
  let i := CollabInfo_default in
  new_collab (mkCollabInfo (CollabEvent.srcCollabSessionId_ (version_base startCmd))
      (sinkCollabSessionId_ i) (sinkUserId_ i) (srcCollabVersion_ i) (sinkCollabVersion_ i)
      (srcAppVersion_ i) COLLAB_SINK (CollabEvent.collabToken_ (version_base startCmd))
      (srcUdid_ i) (sinkUdid_ i) (sinkAccountId_ i) (callerInfo_ i) (srcAccountInfo_ i)
      (set_process (version_srcPid_ startCmd) (version_srcUid_ startCmd)
        (version_srcAccessToken_ startCmd) (srcInfo_ i))
      (sinkInfo_ i) (srcOpt_ i) (srcClientCB_ i) (sinkClientCB_ i))
    softbusSessionId.

(** [Init] makes the state machine, still without a state, and starts the event thread. *)
Definition start_thread (s : DSchedCollab) : DSchedCollab :=
  mkCollab (collabInfo_ s) (softbusSessionId_ s) (appStateObserver_ s) (isDisconnected_ s) true None
    true (queue_ s) (tasks_ s).

Definition Init : C Z :=
  let! s := get in
  if eventHandler_ s then mret ERR_OK
  else do! modify start_thread in mret ERR_OK.

(** [UnInit] stops the event thread; what still waits is not delivered. *)
Definition stop_thread (s : DSchedCollab) : DSchedCollab :=
  mkCollab (collabInfo_ s) (softbusSessionId_ s) (appStateObserver_ s) (isDisconnected_ s)
    (stateMachine_ s) (currentState_ s) false [] [].

Definition UnInit : C Z := do! modify stop_thread in mret ERR_OK.

Definition SetSrcCollabInfo (info : DSchedCollabInfo) : C unit :=
  modify_info (fun i => set_srcClientCB (srcClientCB_ i) info).

(** What the sink keeps of the start command. *)
Definition take_start (cmd : SinkStartCmd) (i : DSchedCollabInfo) : DSchedCollabInfo :=
  let b := start_base cmd in
  let token := CollabEvent.srcAccessToken_ cmd in
  let c := CollabEvent.callerInfo_ cmd in
  mkCollabInfo (srcCollabSessionId_ i) (sinkCollabSessionId_ i) (sinkUserId_ i)
    (CollabEvent.collabVersion_ b) (sinkCollabVersion_ i) (CollabEvent.appVersion_ cmd) (direction_ i)
    (collabToken_ i) (srcUdid_ i) (sinkUdid_ i) (sinkAccountId_ i)
    (mkCallerInfo (uid c) (pid c) (callerType c) (sourceDeviceId c) (duid c) (callerAppId c)
      (bundleNames c) (caller_dmsVersion c) (u32 token) (extraInfoJson c))
    (CollabEvent.accountInfo_ cmd)
    (mkCollabMessage (CollabEvent.srcPid_ cmd) (CollabEvent.srcUid_ cmd) token
      (CollabEvent.srcDeviceId_ b) (CollabEvent.srcBundleName_ b) (CollabEvent.srcAbilityName_ b)
      (CollabEvent.srcModuleName_ b) (CollabEvent.srcServerId_ b) (socketName_ (srcInfo_ i)))
    (mkCollabMessage (pid_ (sinkInfo_ i)) (uid_ (sinkInfo_ i)) (accessToken_ (sinkInfo_ i))
      (CollabEvent.sinkDeviceId_ b) (CollabEvent.sinkBundleName_ b) (CollabEvent.sinkAbilityName_ b)
      (moduleName_ (sinkInfo_ i)) (serverId_ (sinkInfo_ i)) (socketName_ (sinkInfo_ i)))
    (mkConnectOpt (CollabEvent.needSendBigData_ b) (CollabEvent.needSendStream_ b)
      (CollabEvent.needRecvStream_ b) (CollabEvent.startParams_ cmd) (CollabEvent.messageParams_ cmd))
    (srcClientCB_ i) (sinkClientCB_ i).

Definition SetSinkCollabInfo (startCmd : SinkStartCmd) : C unit :=
  do! modify_info (take_start startCmd) in
  if os_account_part then
    let! (ret, ids) := ask QueryActiveOsAccountIds in
    if negb (ret =? ERR_OK) then mret tt
    else match ids with
    | [] => mret tt
    | id :: _ => modify_info (set_sinkUserId id)
    end
  else mret tt.

Definition SaveSinkAbilityData (sinkPid sinkUid sinkAccessTokenId : Z) : C Z :=
  do! modify_info (fun i => set_sinkInfo (set_process sinkPid sinkUid sinkAccessTokenId (sinkInfo_ i)) i) in
  mret ERR_OK.

(** ** Commands *)

(** [std::make_shared<...Cmd>] and the assignments to the base class the version commands
    share. *)
Definition version_base_cmd (i : DSchedCollabInfo) (command sessionId : Z) : BaseCmd :=
  mkBaseCmd false false false (-1) (-1) command sessionId (collabToken_ i) (deviceId_ (srcInfo_ i))
    [] [] [] [] (deviceId_ (sinkInfo_ i)) [] [] [] [].

Definition PackGetPeerVersionCmd : C GetSinkCollabVersionCmd :=
  let! s := get in
  let i := collabInfo_ s in
  mret (mkGetSinkCollabVersionCmd (version_base_cmd i SINK_GET_VERSION_CMD (srcCollabSessionId_ i))
    (-1) (-1) (-1) (-1)).

Definition PackSinkCollabVersionCmd : C GetSinkCollabVersionCmd :=
  let! s := get in
  let i := collabInfo_ s in
  mret (mkGetSinkCollabVersionCmd (version_base_cmd i SOURCE_GET_VERSION_CMD (-1)) (-1) (-1) (-1)
    DSCHED_COLLAB_PROTOCOL_VERSION).

(** The caller and the account of the source, kept in its information as well. *)
Definition PackPartCmd (cmd : SinkStartCmd) : C (Z + SinkStartCmd) :=
  let! s := get in
  let i := collabInfo_ s in
  let! (ret, versionCode) :=
    ask (fun t => GetLocalBundleInfoV9 t (CollabEvent.srcBundleName_ (start_base cmd))) in
  if negb (ret =? ERR_OK) then mret (inl ret)
  else
    let uid := uid_ (srcInfo_ i) in
    let! appId := ask (fun t => GetCallerAppIdFromBms t uid) in
    match appId with
    | None => mret (inl Dms.GET_APPID_ERR)
    | Some appId =>
      let! names := ask (fun t => GetBundleNameListFromBms t uid) in
      match names with
      | None => mret (inl Dms.GET_BUNDLENAMELIST_ERR)
      | Some names =>
        let callerInfo := mkCallerInfo uid (-1) 0 (deviceId_ (srcInfo_ i)) (-1) appId names (-1)
          (u32 (accessToken_ (srcInfo_ i)))
          (njson_set njson_null (str DMS_VERSION_ID) DMS_VERSION) in
        let! (ret, accountInfo) :=
          ask (fun t => GetAccountInfo t (deviceId_ (sinkInfo_ i)) callerInfo) in
        if negb (ret =? ERR_OK) then mret (inl Dms.GET_ACCOUNT_INFO_ERR)
        else
          let! allowed := ask (fun t => CheckSrcBackgroundPermission t (accessToken_ (srcInfo_ i))) in
          if negb allowed then mret (inl Dms.DMS_START_CONTROL_PERMISSION_DENIED)
          else
            do! modify_info (fun i => set_srcAccountInfo accountInfo (set_callerInfo callerInfo i)) in
            mret (inr (mkSinkStartCmd (start_base cmd) (CollabEvent.srcPid_ cmd)
              (CollabEvent.srcUid_ cmd) (CollabEvent.srcAccessToken_ cmd) (to_int32 versionCode)
              callerInfo accountInfo (CollabEvent.startParams_ cmd) (CollabEvent.messageParams_ cmd)))
      end
    end.

Definition start_base_cmd (i : DSchedCollabInfo) : BaseCmd :=
  mkBaseCmd (needSendBigData_ (srcOpt_ i)) (needSendStream_ (srcOpt_ i)) (needRecvStream_ (srcOpt_ i))
    (srcCollabVersion_ i) DMS_VERSION SINK_START_CMD (srcCollabSessionId_ i) (collabToken_ i)
    (deviceId_ (srcInfo_ i)) (bundleName_ (srcInfo_ i)) (abilityName_ (srcInfo_ i))
    (moduleName_ (srcInfo_ i)) (serverId_ (srcInfo_ i)) (deviceId_ (sinkInfo_ i))
    (bundleName_ (sinkInfo_ i)) (abilityName_ (sinkInfo_ i)) (moduleName_ (sinkInfo_ i))
    (serverId_ (sinkInfo_ i)).

Definition PackStartCmd : C (Z + SinkStartCmd) :=
  let! s := get in
  let i := collabInfo_ s in
  let! foreground := ask (fun t => IsAbilityForeground t (accessToken_ (srcInfo_ i))) in
  PackPartCmd (mkSinkStartCmd (start_base_cmd i) (pid_ (srcInfo_ i)) (uid_ (srcInfo_ i))
    (accessToken_ (srcInfo_ i)) (-1) CallerInfo_default AccountInfo_default
    (SetParam_Boolean (startParams_ (srcOpt_ i)) DMS_IS_CALLER_FOREGROUND foreground)
    (messageParams_ (srcOpt_ i))).

(** A base class of which only the command and the token are set. *)
Definition plain_base_cmd (i : DSchedCollabInfo) (command : Z) : BaseCmd :=
  mkBaseCmd false false false (-1) (-1) command (-1) (collabToken_ i) [] [] [] [] [] [] [] [] [] [].

Definition PackNotifyResultCmd (result : Z) (abilityRejectReason : bytes) : C NotifyResultCmd :=
  let! s := get in
  let i := collabInfo_ s in
  mret (mkNotifyResultCmd (plain_base_cmd i NOTIFY_RESULT_CMD) result (sinkCollabSessionId_ i)
    (pid_ (sinkInfo_ i)) (accessToken_ (sinkInfo_ i)) (sinkUserId_ i) (sinkAccountId_ i)
    (socketName_ (sinkInfo_ i)) abilityRejectReason).

Definition PackDisconnectCmd : C DisconnectCmd :=
  let! s := get in
  mret (mkDisconnectCmd (plain_base_cmd (collabInfo_ s) DISCONNECT_CMD)).

(** [marshal] is the virtual call [cmd->Marshal(jsonStr)]; the buffer keeps a null byte
    after the text. *)
Definition SendCommand (marshal : res bytes) : C Z :=
  let! marshalled := from_run marshal in
  match marshalled with
  | inl ret => mret ret
  | inr jsonStr =>
    let buffer := make_buffer (zlen jsonStr + 1) in
    if Capacity buffer <? zlen jsonStr then mret Dms.INVALID_PARAMETERS_ERR
    else
      let! (ret, data) :=
        from_run (memcpy_s (data_ buffer) 0 (Capacity buffer) (Some jsonStr) 0 (zlen jsonStr)) in
      if negb (ret =? ERR_OK) then mret ret
      else
        let! s := get in
        let buffer := set_data buffer data in
        let! ret := call (SendData (softbusSessionId_ s) (content buffer))
          (fun t => SendData_ret t (softbusSessionId_ s) (content buffer)) in
        if negb (ret =? ERR_OK) then mret ret else mret ERR_OK
  end.

(** ** Requests to the client and the manager *)

(** Writing the interface token and the members of a request, then sending it. *)
Definition send_request (no_token : Z) (request : Effect) : C Z :=
  let! written := ask WriteInterfaceToken in
  if negb written then mret no_token
  else
    let! written := ask WriteMembers in
    if negb written then mret ERR_FLATTEN_OBJECT
    else call request SendRequest_ret.

(** [SrcPeerVersionNotify] uses the callback without asking whether it is null. *)
Definition SrcPeerVersionNotify : C Z :=
  let! s := get in
  let i := collabInfo_ s in
  let! written := ask WriteInterfaceToken in
  if negb written then mret Dms.INVALID_PARAMETERS_ERR
  else
    let! written := ask WriteMembers in
    if negb written then mret ERR_FLATTEN_OBJECT
    else match srcClientCB_ i with
    | None => undefined
    | Some callback =>
      call (NotifyPeerVersion callback (srcCollabSessionId_ i) (sinkCollabVersion_ i)) SendRequest_ret
    end.

Definition ExeSrcClientNotify (result : Z) (reason : bytes) : C Z :=
  let! s := get in
  let i := collabInfo_ s in
  match srcClientCB_ i with
  | None => mret Dms.INVALID_PARAMETERS_ERR
  | Some callback =>
    send_request Dms.INVALID_PARAMETERS_ERR
      (NotifyPrepareResult callback (srcCollabSessionId_ i) result (socketName_ (sinkInfo_ i))
        (collabToken_ i) reason)
  end.

(** The client of this side and its session. *)
Definition own_client (i : DSchedCollabInfo) : option (Z * Z) :=
  if direction_ i =? COLLAB_SOURCE
  then match srcClientCB_ i with Some c => Some (c, srcCollabSessionId_ i) | None => None end
  else match sinkClientCB_ i with Some c => Some (c, sinkCollabSessionId_ i) | None => None end.

Definition notify_client (request : Z -> Z -> Effect) : C Z :=
  let! s := get in
  match own_client (collabInfo_ s) with
  | None => mret ERR_NULL_OBJECT
  | Some (callback, collabSessionId) =>
    let! written := ask WriteInterfaceToken in
    if negb written then mret Dms.SEND_REQUEST_DEF_FAIL
    else
      let! written := ask WriteMembers in
      if negb written then mret ERR_FLATTEN_OBJECT
      else
        let! ret := call (request callback collabSessionId) SendRequest_ret in
        if negb (ret =? ERR_OK) then mret Dms.SEND_REQUEST_DEF_FAIL else mret ERR_OK
  end.

Definition ExeClientDisconnectNotify : C Z := notify_client NotifyDisconnect.
Definition NotifyWifiOpen : C Z := notify_client NotifyWifi.

(** The manager's [CleanUpSession] posts a task and answers whether it could. *)
Definition CleanUpSession : C Z :=
  let! s := get in
  let i := collabInfo_ s in
  do! when (direction_ i =? COLLAB_SOURCE) && negb (isDisconnected_ s) do
    (do! modify (set_isDisconnected true) in
     emit (DisconnectDevice (deviceId_ (sinkInfo_ i)))) in
  do! ExeClientDisconnectNotify in
  call (ManagerCleanUpSession (collabToken_ i)) CleanUpSession_ret.

Definition RegisterAbilityLifecycleObserver (bundleName : bytes) : C bool :=
  let! app := ask GetAppManager in
  if negb app then mret false
  else
    do! modify (set_appStateObserver true) in
    let! ret := call (RegisterObserver bundleName) RegisterObserver_ret in
    mret (ret =? ERR_OK).

Definition UnregisterAbilityLifecycleObserver : C unit :=
  let! s := get in
  if negb (appStateObserver_ s) then mret tt
  else
    let! app := ask GetAppManager in
    if negb app then mret tt else emit UnregisterObserver.

(** The destructor. *)
Definition destroy : C unit :=
  do! UnregisterAbilityLifecycleObserver in
  do! UnInit in
  mret tt.

(** ** Handlers of the source *)

Definition ExeSrcGetPeerVersion : C Z :=
  let! s := get in
  let sinkDeviceId := deviceId_ (sinkInfo_ (collabInfo_ s)) in
  let! (ret, sessionId) := call (ConnectDevice sinkDeviceId)
    (fun t => ConnectDevice_ret t sinkDeviceId) in
  do! match sessionId with
      | Some sessionId => modify (set_softbusSessionId sessionId)
      | None => mret tt
      end in
  if negb (ret =? ERR_OK) then mret ret
  else
    let! getPeerVersionCmd := PackGetPeerVersionCmd in
    let! ret := SendCommand (GetSinkCollabVersionCmdCodec.Marshal getPeerVersionCmd) in
    if negb (ret =? ERR_OK) then mret ret else mret ERR_OK.

Definition ExeSrcGetVersion : C Z :=
  let! ret := SrcPeerVersionNotify in
  if negb (ret =? ERR_OK) then PostErrEndTask ret else mret ERR_OK.

Definition ExeSrcStart : C Z :=
  let! packed := PackStartCmd in
  match packed with
  | inl ret => mret ret
  | inr startCmd =>
    let! ret := SendCommand (SinkStartCmdCodec.Marshal startCmd) in
    if negb (ret =? ERR_OK) then mret ret
    else
      do! UpdateState SOURCE_WAIT_RESULT_STATE in
      let! s := get in
      do! RegisterAbilityLifecycleObserver (bundleName_ (srcInfo_ (collabInfo_ s))) in
      mret ERR_OK
  end.

(** A failure to tell the client is reported with [result], not with its own code. *)
Definition ExeSrcCollabResult (result : Z) (reason : bytes) : C Z :=
  if negb (result =? ERR_OK) && negb (result =? Dms.COLLAB_ABILITY_REJECT_ERR)
  then PostErrEndTask result
  else
    let! ret := ExeSrcClientNotify result reason in
    if negb (empty reason) then CleanUpSession
    else if negb (ret =? ERR_OK) then PostErrEndTask result
    else do! UpdateState SOURCE_WAIT_END_STATE in mret ERR_OK.

Definition ExeSrcGetPeerVersionError (result : Z) : C Z :=
  do! ExeSrcClientNotify result [] in
  do! CleanUpSession in
  mret ERR_OK.

Definition ExeSrcStartError (result : Z) : C Z :=
  do! ExeSrcClientNotify result [] in
  do! CleanUpSession in
  mret ERR_OK.

Definition ExeSrcWaitResultError (result : Z) : C Z :=
  let! cmd := PackDisconnectCmd in
  do! SendCommand (DisconnectCmdCodec.Marshal cmd) in
  do! ExeSrcClientNotify result [] in
  do! CleanUpSession in
  mret ERR_OK.

(** ** Handlers of the sink *)

Definition ExeSinkGetVersion : C Z :=
  let! cmd := PackSinkCollabVersionCmd in
  do! SendCommand (GetSinkCollabVersionCmdCodec.Marshal cmd) in
  do! UpdateState SINK_START_STATE in
  mret ERR_OK.

Definition IsStartForeground (s : DSchedCollab) : bool :=
  match GetParam_String (startParams_ (srcOpt_ (collabInfo_ s))) KEY_START_OPTION with
  | Some startOpt => if bytes_eqb startOpt VALUE_START_OPTION_BACKGROUND then false else true
  | None => true
  end.

Definition SetScreenLockParameters (wantParams : AWantParams) : C AWantParams :=
  if check_screenlock then
    let! isSecureMode := ask GetSecure in
    let! isLocked := ask IsLocked in
    let wantParams := SetParam_Boolean wantParams (str "isSecureMode") isSecureMode in
    mret (SetParam_Boolean wantParams (str "isFromScreenLock") isLocked)
  else mret wantParams.

(** [isCallerForeground] is whether the parameter exists, and [SetParams] replaces it. *)
Definition GenerateCollabWant : C Want :=
  let! s := get in
  let i := collabInfo_ s in
  let want := AddFlags Want_empty FLAG_ABILITY_ON_COLLABORATE in
  let want := SetParamString want (str "deviceId") (deviceId_ (sinkInfo_ i)) in
  let want := SetElementName want (deviceId_ (sinkInfo_ i)) (bundleName_ (sinkInfo_ i))
    (abilityName_ (sinkInfo_ i)) None in
  let peerInfoParams := SetParam_String AWantParams_empty (str "deviceId") (deviceId_ (srcInfo_ i)) in
  let peerInfoParams := SetParam_String peerInfoParams (str "bundleName") (bundleName_ (srcInfo_ i)) in
  let peerInfoParams := SetParam_String peerInfoParams (str "moduleName") (moduleName_ (srcInfo_ i)) in
  let peerInfoParams := SetParam_String peerInfoParams (str "abilityName") (abilityName_ (srcInfo_ i)) in
  let peerInfoParams := SetParam_String peerInfoParams (str "serverId") (serverId_ (srcInfo_ i)) in
  let peerInfoParams := SetParam_String peerInfoParams (str "serviceName") (serverId_ (srcInfo_ i)) in
  let optParams := SetParam_Boolean AWantParams_empty (str "needSendData") (needSendBigData_ (srcOpt_ i)) in
  let optParams := SetParam_Boolean optParams (str "needSendStream") (needSendStream_ (srcOpt_ i)) in
  let optParams := SetParam_Boolean optParams (str "needReceiveStream") (needRecvStream_ (srcOpt_ i)) in
  let optParams := SetParam_Params optParams (str "parameters") (messageParams_ (srcOpt_ i)) in
  let collabParams := SetParam_Params AWantParams_empty (str "PeerInfo") peerInfoParams in
  let collabParams := SetParam_Params collabParams (str "ConnectOption") optParams in
  let collabParams := SetParam_String collabParams (str "ohos.dms.collabToken") (collabToken_ i) in
  let! wantParams := SetScreenLockParameters AWantParams_empty in
  let wantParams :=
    SetParam_Params wantParams (str "ohos.extra.param.key.supportCollaborateIndex") collabParams in
  let wantParams :=
    SetParam_Boolean wantParams (str "ohos.aafwk.param.callAbilityToForeground") (IsStartForeground s) in
  let isCallerForeground := GetParam (startParams_ (srcOpt_ i)) DMS_IS_CALLER_FOREGROUND in
  let want := SetParamBool want DMS_IS_CALLER_FOREGROUND isCallerForeground in
  mret (SetParams want wantParams).

(** The permission check of the service; its answer is recorded. *)
Definition check_permission (want : Want) : C Z :=
  let! s := get in
  let i := collabInfo_ s in
  let! t := trace in
  let ret := CheckCollabStartPermission t want (callerInfo_ i) (srcAccountInfo_ i) false in
  do! emit (PermissionChecked want ret) in
  mret ret.

Definition ExeStartAbility (peerDeviceId : bytes) : C Z :=
  let! s := get in
  if negb (bytes_eqb (sourceDeviceId (callerInfo_ (collabInfo_ s))) peerDeviceId)
  then mret Dms.INVALID_PARAMETERS_ERR
  else
    let! want := GenerateCollabWant in
    let! ret := check_permission want in
    let want := RemoveParam want DMS_IS_CALLER_FOREGROUND in
    if negb (ret =? ERR_OK) then mret ret
    else
      let! ret := ask AmsConnect in
      if negb (ret =? ERR_OK) then mret ret
      else
        let! ret := call (StartAbilityByCall want) (fun t => StartAbilityByCall_ret t want) in
        if negb (ret =? ERR_OK) then PostErrEndTask ret
        else
          do! UpdateState SINK_CONNECT_STATE in
          let! s := get in
          do! RegisterAbilityLifecycleObserver (bundleName_ (sinkInfo_ (collabInfo_ s))) in
          mret ERR_OK.

Definition ExeSinkPrepareResult (result : Z) : C Z :=
  if negb (result =? ERR_OK) && negb (result =? Dms.COLLAB_ABILITY_REJECT_ERR)
  then PostErrEndTask result
  else
    let! notifyResCmd := PackNotifyResultCmd result [] in
    let! ret := SendCommand (NotifyResultCmdCodec.Marshal notifyResCmd) in
    if negb (ret =? ERR_OK) then mret ret
    else
      do! UpdateState SINK_WAIT_END_STATE in
      do! set_udids false in
      mret ERR_OK.

(** The result, and the reason if the ability rejected, go to the source. *)
Definition report_and_clean_up (result : Z) (reason : bytes) : C Z :=
  let! cmd := PackNotifyResultCmd result reason in
  do! SendCommand (NotifyResultCmdCodec.Marshal cmd) in
  do! CleanUpSession in
  mret ERR_OK.

Definition ExeAbilityRejectError (reason : bytes) : C Z :=
  report_and_clean_up Dms.COLLAB_ABILITY_REJECT_ERR reason.
Definition ExeSinkError (result : Z) : C Z := report_and_clean_up result [].
Definition ExeSinkGetVersionError (result : Z) : C Z := report_and_clean_up result [].
Definition ExeSinkStartError (result : Z) : C Z := report_and_clean_up result [].
Definition ExeSinkConnectError (result : Z) : C Z := report_and_clean_up result [].

(** The end on either side. *)
Definition ExeDisconnect : C Z :=
  let! cmd := PackDisconnectCmd in
  do! SendCommand (DisconnectCmdCodec.Marshal cmd) in
  do! CleanUpSession in
  mret ERR_OK.

(** ** The states

    Each state's table of handlers is a function of the event; [None] is an event the
    table does not hold. *)

Definition SrcGetPeerVersionState_memberFuncMap_ (event : InnerEvent) : option (C Z) :=
  match event with
  | SOURCE_GET_PEER_VERSION_EVENT => Some ExeSrcGetPeerVersion
  | SOURCE_GET_VERSION_EVENT => Some ExeSrcGetVersion
  | ERR_END_EVENT result => Some (ExeSrcGetPeerVersionError result)
  | _ => None
  end.

Definition SrcStartState_memberFuncMap_ (event : InnerEvent) : option (C Z) :=
  match event with
  | SOURCE_START_EVENT => Some ExeSrcStart
  | ERR_END_EVENT result => Some (ExeSrcStartError result)
  | _ => None
  end.

Definition SrcWaitResultState_memberFuncMap_ (event : InnerEvent) : option (C Z) :=
  match event with
  | NOTIFY_RESULT_EVENT result => Some (ExeSrcCollabResult result [])
  | ABILITY_REJECT_EVENT reason => Some (ExeSrcCollabResult Dms.COLLAB_ABILITY_REJECT_ERR reason)
  | ERR_END_EVENT result => Some (ExeSrcWaitResultError result)
  | _ => None
  end.

Definition SrcWaitEndState_memberFuncMap_ (event : InnerEvent) : option (C Z) :=
  match event with
  | ERR_END_EVENT _ => Some ExeDisconnect
  | END_EVENT => Some ExeDisconnect
  | _ => None
  end.

Definition SinkGetVersionState_memberFuncMap_ (event : InnerEvent) : option (C Z) :=
  match event with
  | GET_SINK_VERSION_EVENT => Some ExeSinkGetVersion
  | ERR_END_EVENT result => Some (ExeSinkGetVersionError result)
  | _ => None
  end.

Definition SinkStartState_memberFuncMap_ (event : InnerEvent) : option (C Z) :=
  match event with
  | START_ABILITY_EVENT peerDeviceId => Some (ExeStartAbility peerDeviceId)
  | ERR_END_EVENT result => Some (ExeSinkStartError result)
  | _ => None
  end.

Definition SinkConnectState_memberFuncMap_ (event : InnerEvent) : option (C Z) :=
  match event with
  | NOTIFY_PREPARE_RESULT_EVENT result => Some (ExeSinkPrepareResult result)
  | ABILITY_REJECT_EVENT reason => Some (ExeAbilityRejectError reason)
  | ERR_END_EVENT result => Some (ExeSinkConnectError result)
  | _ => None
  end.

Definition SinkWaitEndState_memberFuncMap_ (event : InnerEvent) : option (C Z) :=
  match event with
  | ERR_END_EVENT _ => Some ExeDisconnect
  | END_EVENT => Some ExeDisconnect
  | _ => None
  end.

Definition memberFuncMap_ (state : CollabStateType) (event : InnerEvent) : option (C Z) :=
  match state with
  | SOURCE_GET_PEER_VERSION_STATE => SrcGetPeerVersionState_memberFuncMap_ event
  | SOURCE_START_STATE => SrcStartState_memberFuncMap_ event
  | SOURCE_WAIT_RESULT_STATE => SrcWaitResultState_memberFuncMap_ event
  | SOURCE_WAIT_END_STATE => SrcWaitEndState_memberFuncMap_ event
  | SINK_GET_VERSION_STATE => SinkGetVersionState_memberFuncMap_ event
  | SINK_START_STATE => SinkStartState_memberFuncMap_ event
  | SINK_CONNECT_STATE => SinkConnectState_memberFuncMap_ event
  | SINK_WAIT_END_STATE => SinkWaitEndState_memberFuncMap_ event
  end.

(** [DSchedCollabState::Execute], the same in every state. *)
Definition state_Execute (state : CollabStateType) (event : InnerEvent) : C Z :=
  match memberFuncMap_ state event with
  | None => mret Dms.COLLAB_STATE_MACHINE_INVALID_STATE
  | Some memberFunc => memberFunc
  end.

(** [DSchedCollabStateMachine::Execute]. *)
Definition Execute (event : InnerEvent) : C Z :=
  let! s := get in
  match currentState_ s with
  | None => mret Dms.INVALID_PARAMETERS_ERR
  | Some state => state_Execute state event
  end.

Definition ProcessEvent (event : InnerEvent) : C unit :=
  let! s := get in
  if negb (stateMachine_ s) then mret tt
  else
    let! ret := Execute event in
    when negb (ret =? ERR_OK) do (do! PostErrEndTask ret in mret tt).

(** One turn of the event thread on the first event. *)
Definition event_turn : C unit :=
  let! s := get in
  match queue_ s with
  | [] => mret tt
  | event :: queue =>
    do! modify (set_queue queue) in
    ProcessEvent event
  end.

(** The task of [DSchedCollabManager::DispatchCollabMission]. *)
Definition start_mission (srcInfo : DSchedCollabInfo) : C unit :=
  do! modify_info (fun i => set_srcClientCB (srcClientCB_ i) srcInfo) in
  do! UpdateState SOURCE_START_STATE in
  do! PostSrcStartTask in
  mret tt.

(** One turn of the event thread on the first task. *)
Definition task_turn : C unit :=
  let! s := get in
  match tasks_ s with
  | [] => mret tt
  | srcInfo :: tasks =>
    do! modify (set_tasks tasks) in
    start_mission srcInfo
  end.

(** The event thread left alone until no event waits. *)
Fixpoint drain (fuel : nat) (s : DSchedCollab) (t : list Effect) : run (DSchedCollab * list Effect) :=
  match queue_ s with
  | [] => Done (s, t)
  | _ :: _ =>
    match fuel with
    | O => OutOfFuel
    | S fuel => let* (_, s, t) := event_turn s t in drain fuel s t
    end
  end.

(** ** Received data *)

Definition CheckMDMControl : C bool :=
  let! control := ask IsMDMControl in
  if negb control then mret false
  else
    let! accountId := ask GetActiveAccountId in
    let! s := get in
    let bundle := bundleName_ (srcInfo_ (collabInfo_ s)) in
    let! exempt := ask (fun t => IsMDMControlWithExemption t bundle COLLABORATION_SERVICE accountId) in
    if exempt then mret true else mret false.

Definition HandleSourceGetVersionCmd (jsonStr : bytes) : C unit :=
  let! r := from_run (GetSinkCollabVersionCmdCodec.Unmarshal jsonStr) in
  match r with
  | inl ret => do! PostErrEndTask ret in mret tt
  | inr cmd =>
    do! modify_info (set_sinkCollabVersion (CollabEvent.sinkCollabVersion_ cmd)) in
    do! PostSrcGetVersionTask in
    mret tt
  end.

Definition HandleSinkStartCmd (jsonStr peerDeviceId : bytes) : C unit :=
  let! r := from_run (SinkStartCmdCodec.Unmarshal jsonStr) in
  match r with
  | inl ret => do! PostErrEndTask ret in mret tt
  | inr startCmd =>
    do! SetSinkCollabInfo startCmd in
    let! control := CheckMDMControl in
    if (control : bool)
    then do! PostErrEndTask Dms.ERR_CAPABILITY_NOT_SUPPORT in mret tt
    else do! PostSinkStartTask peerDeviceId in mret tt
  end.

Definition HandleNotifyResultCmd (jsonStr : bytes) : C unit :=
  let! r := from_run (NotifyResultCmdCodec.Unmarshal jsonStr) in
  match r with
  | inl ret => do! PostErrEndTask ret in mret tt
  | inr notifyResultCmd =>
    let! control := CheckMDMControl in
    if (control : bool)
    then do! PostErrEndTask Dms.ERR_CAPABILITY_NOT_SUPPORT in mret tt
    else do! PostSrcResultTask notifyResultCmd in mret tt
  end.

Definition HandleDisconnectCmd : C unit :=
  let! control := CheckMDMControl in
  if (control : bool)
  then do! PostErrEndTask Dms.ERR_CAPABILITY_NOT_SUPPORT in mret tt
  else do! CleanUpSession in mret tt.

(** [OnDataRecv]: the text is read from the window's start to the length of the whole
    array. *)
Definition OnDataRecv (peerDeviceId : bytes) (command : Z) (dataBuffer : option DataBuffer) : C unit :=
  match dataBuffer with
  | None => mret tt
  | Some b =>
    match data_ b with
    | None => mret tt
    | Some d =>
      let! jsonStr := from_run (load_n d (Offset b) (Capacity b)) in
      if command =? SOURCE_GET_VERSION_CMD then HandleSourceGetVersionCmd jsonStr
      else if command =? SINK_START_CMD then HandleSinkStartCmd jsonStr peerDeviceId
      else if command =? NOTIFY_RESULT_CMD then HandleNotifyResultCmd jsonStr
      else if command =? DISCONNECT_CMD then HandleDisconnectCmd
      else mret tt
    end
  end.

Definition GetSoftbusSessionId (s : DSchedCollab) : Z := softbusSessionId_ s.
Definition GetCollabInfo (s : DSchedCollab) : DSchedCollabInfo := collabInfo_ s.
End Collab.
