(* ===== verification/CollabLemmas.v ===== *)
(** * How a collaboration runs

    Lemmas about the handlers and the event thread of [Collab.v]: what a handler may change,
    post and do outside, that every step returns, and what a turn of the event thread does to
    a well-formed object. *)

From Stdlib Require Import ZArith Lia String.
From stdpp Require Import base list option.
From S2P Require Import Prelude ErrorCodes DataBuffer StdString Base64 Framework ContinueEvent CollabEvent Effects CommandTotality Collab.

Create HintDb collab discriminated.
Create HintDb keeps discriminated.

Section Lemmas.
Context {J : CJson} {N : NJson} {W : WantLib} {P : ParamsLib} {PL : ParcelLib} {Ev : CollabEnv}.
Implicit Types (s : DSchedCollab) (t l : list Effect) (i : DSchedCollabInfo).

(** ** What handlers keep *)

Definition is_disconnect (e : Effect) : bool := match e with DisconnectDevice _ => true | _ => false end.
Definition is_connect (e : Effect) : bool := match e with ConnectDevice _ => true | _ => false end.
Definition is_start (e : Effect) : bool := match e with StartAbilityByCall _ => true | _ => false end.

Definition count (p : Effect -> bool) l : nat := length (List.filter p l).

Lemma count_app p l1 l2 : count p (l1 ++ l2) = (count p l1 + count p l2)%nat.
Proof. unfold count. by rewrite filter_app, length_app. Qed.

Definition is_peer_version (e : InnerEvent) : bool :=
  match e with SOURCE_GET_PEER_VERSION_EVENT => true | _ => false end.

Definition is_err (e : InnerEvent) : bool := match e with ERR_END_EVENT _ => true | _ => false end.

(** How often the object will still ask its peer for the version. *)
Definition pending (q : list InnerEvent) : nat := length (List.filter is_peer_version q).

Lemma pending_app q1 q2 : pending (q1 ++ q2) = (pending q1 + pending q2)%nat.
Proof. unfold pending. by rewrite filter_app, length_app. Qed.

(** The members no handler changes. *)
Definition same_frame s s' : Prop :=
  direction_ (collabInfo_ s') = direction_ (collabInfo_ s) /\
  srcClientCB_ (collabInfo_ s') = srcClientCB_ (collabInfo_ s) /\
  collabToken_ (collabInfo_ s') = collabToken_ (collabInfo_ s) /\
  stateMachine_ s' = stateMachine_ s /\ eventHandler_ s' = eventHandler_ s /\ tasks_ s' = tasks_ s.

(** A started ability was permitted two effects before: the check of the want, still with the
    parameter that is taken out, and the connection to the ability manager. *)
Definition starts_permitted l : Prop :=
  forall l1 w l2, l = l1 ++ StartAbilityByCall w :: l2 ->
  exists l0 w', l1 = l0 ++ [PermissionChecked w' ERR_OK; Query] /\
    w = RemoveParam w' DMS_IS_CALLER_FOREGROUND.

(** The peer's session is released at most once, by a source, and the manager is asked to
    clean up with it. *)
Definition releases_once s s' l : Prop :=
  (count is_disconnect l + Nat.b2n (isDisconnected_ s) = Nat.b2n (isDisconnected_ s'))%nat /\
  (direction_ (collabInfo_ s) <> COLLAB_SOURCE -> count is_disconnect l = 0%nat) /\
  (isDisconnected_ s' = true -> isDisconnected_ s = true \/
    In (ManagerCleanUpSession (collabToken_ (collabInfo_ s))) l).

(** Handlers and requests do not post the event that connects, leave the state or make it one
    of [T], start permitted abilities only, and connect only if [c]. *)
Definition handled (c : bool) (T : list CollabStateType) s t s' t' : Prop :=
  same_frame s s' /\
  (exists q, queue_ s' = queue_ s ++ q /\ pending q = 0%nat) /\
  (currentState_ s' = currentState_ s \/ exists x, In x T /\ currentState_ s' = Some x) /\
  exists l, t' = t ++ l /\ releases_once s s' l /\ starts_permitted l /\
    (count is_connect l <= Nat.b2n c)%nat.

Lemma same_frame_refl s : same_frame s s.
Proof. by split_and!. Qed.

Lemma collab_same_frame_trans s1 s2 s3 : same_frame s1 s2 -> same_frame s2 s3 -> same_frame s1 s3.
Proof. intros (?&?&?&?&?&?) (?&?&?&?&?&?). unfold same_frame. split_and!; congruence. Qed.

Lemma starts_permitted_app l1 l2 :
  starts_permitted l1 -> starts_permitted l2 -> starts_permitted (l1 ++ l2).
Proof.
  intros H1 H2 p w q Heq. apply app_eq_inv in Heq as [(k & -> & Hk)|(k & -> & Hk)].
  - destruct k as [|x k]; cbn in Hk.
    + destruct (H2 [] w q) as (l0 & w' & Hl & _); [by rewrite Hk|].
      by destruct l0.
    + injection Hk as <- Hk. destruct (H1 p w k eq_refl) as (l0 & w' & -> & ->). eauto.
  - destruct (H2 k w q Hk) as (l0 & w' & -> & ->). exists (l1 ++ l0), w'. by rewrite <- app_assoc.
Qed.

Lemma starts_permitted_other l : count is_start l = 0%nat -> starts_permitted l.
Proof.
  intros H l1 w l2 ->. rewrite count_app in H. unfold count in H. cbn in H. lia.
Qed.

Lemma releases_none s s' l :
  isDisconnected_ s' = isDisconnected_ s -> count is_disconnect l = 0%nat -> releases_once s s' l.
Proof. intros Hd Hl. unfold releases_once. rewrite Hd, Hl. auto. Qed.

Lemma releases_once_trans s1 s2 s3 l1 l2 :
  same_frame s1 s2 -> releases_once s1 s2 l1 -> releases_once s2 s3 l2 ->
  releases_once s1 s3 (l1 ++ l2).
Proof.
  intros (Hd & _ & Ht & _) (A1 & B1 & K1) (A2 & B2 & K2). rewrite Hd in B2. rewrite Ht in K2.
  split_and!; [rewrite count_app; lia| |].
  - intros H. rewrite count_app, B1, B2; done.
  - intros H. destruct (K2 H) as [H2|H2]; [destruct (K1 H2) as [|]; [by left|]|];
      right; apply in_or_app; auto.
Qed.

Lemma collab_handled_refl c T s t : handled c T s t s t.
Proof.
  split_and!; [apply same_frame_refl|exists []; by rewrite app_nil_r|by left|].
  exists []. rewrite app_nil_r. split_and!; [done|by apply releases_none| |apply Nat.le_0_l].
  by apply starts_permitted_other.
Qed.

Lemma collab_handled_trans T s1 t1 s2 t2 s3 t3 :
  handled false T s1 t1 s2 t2 -> handled false T s2 t2 s3 t3 -> handled false T s1 t1 s3 t3.
Proof.
  intros (F1 & (q1 & Q1 & E1) & X1 & l1 & -> & R1 & P1 & C1)
    (F2 & (q2 & Q2 & E2) & X2 & l2 & -> & R2 & P2 & C2).
  split_and!; [by eapply collab_same_frame_trans| | |].
  - exists (q1 ++ q2). rewrite Q2, Q1, app_assoc, pending_app. by rewrite E1, E2.
  - destruct X2 as [->|?]; auto.
  - exists (l1 ++ l2). rewrite app_assoc, count_app. cbn in *.
    split_and!; [done|by eapply releases_once_trans|by apply starts_permitted_app|lia].
Qed.

Lemma collab_handled_weaken T T' s t s' t' :
  incl T T' -> handled false T s t s' t' -> handled true T' s t s' t'.
Proof.
  intros Hi (F & Q & X & l & -> & R & Hp & C). split_and!; [done..| |].
  - destruct X as [?|(x & ? & ?)]; [by left|]. right. exists x. auto.
  - exists l. cbn in *. split_and!; [done..|lia].
Qed.

Lemma handled_emit T e s t :
  is_disconnect e = false -> is_connect e = false -> is_start e = false ->
  handled false T s t s (t ++ [e]).
Proof.
  intros H1 H2 H3. split_and!; [apply same_frame_refl|exists []; by rewrite app_nil_r|by left|].
  exists [e]. assert (count is_disconnect [e] = 0%nat) by (unfold count; cbn; by rewrite H1).
  assert (count is_connect [e] = 0%nat) by (unfold count; cbn; by rewrite H2).
  split_and!; [done|by apply releases_none| |lia].
  apply starts_permitted_other. unfold count. cbn. by rewrite H3.
Qed.

Lemma handled_block T s t l :
  count is_disconnect l = 0%nat -> count is_connect l = 0%nat -> starts_permitted l ->
  handled false T s t s (t ++ l).
Proof.
  intros H1 H2 H3. split_and!; [apply same_frame_refl|exists []; by rewrite app_nil_r|by left|].
  exists l. split_and!; [done|by apply releases_none|done|lia].
Qed.

(** An assignment to members no invariant is about. *)
Lemma handled_update T f :
  (forall s, same_frame s (f s) /\ queue_ (f s) = queue_ s /\ currentState_ (f s) = currentState_ s /\
    isDisconnected_ (f s) = isDisconnected_ s) ->
  preserves (handled false T) (modify f).
Proof.
  intros H. apply preserves_modify. intros s t. destruct (H s) as (? & Hq & ? & Hd).
  split_and!; [done|exists []; by rewrite app_nil_r|by left|].
  exists []. rewrite app_nil_r. split_and!; [done|by apply releases_none| |apply Nat.le_0_l].
  by apply starts_permitted_other.
Qed.

Lemma Collab_UpdateState_handled T x : In x T -> preserves (handled false T) (UpdateState x).
Proof.
  intros Hx s t a s' t'. unfold UpdateState, mbind, get; cbn.
  destruct (stateMachine_ s) eqn:E; intros [= <- <- <-]; [|apply collab_handled_refl].
  split_and!; [by split_and!|exists []; by rewrite app_nil_r|right; by exists x|].
  exists []. rewrite app_nil_r. split_and!; [done|by apply releases_none| |apply Nat.le_0_l].
  by apply starts_permitted_other.
Qed.

Lemma SendEvent_handled T e : is_peer_version e = false -> preserves (handled false T) (SendEvent e).
Proof.
  intros He s t a s' t'. unfold SendEvent, ask, call, mbind, modify, mret. cbn.
  destruct (SendEvent_ok t); cbn; intros [= <- <- <-]; [|by apply handled_emit].
  split_and!; [by split_and!|exists [e]; unfold pending; cbn; by rewrite He|by left|].
  exists [Query]. split_and!; [done|by apply releases_none| |cbn; lia]. by apply starts_permitted_other.
Qed.

Ltac handled_base :=
  idtac;
  match goal with
  | |- preserves _ (UpdateState _) => apply Collab_UpdateState_handled; cbn; tauto
  | |- preserves _ (SendEvent _) => by apply SendEvent_handled
  | |- preserves _ (modify_info _) => apply handled_update; intros ?; by split_and!
  | |- preserves _ (modify _) => apply handled_update; intros ?; by split_and!
  | |- preserves _ (call _ _) => apply preserves_call; intros; by apply handled_emit
  | |- preserves _ (ask _) => apply preserves_call; intros; by apply handled_emit
  | |- preserves _ (emit _) => apply preserves_emit; intros; by apply handled_emit
  | |- preserves _ undefined => intros ? ? ? ? ?; discriminate
  | |- preserves (handled false ?T) _ => solve [eauto 1 with collab]
  end.

Ltac handled_code T := preserves_with (collab_handled_refl false T) (collab_handled_trans T) handled_base.

Lemma post_event_handled T e : is_peer_version e = false -> preserves (handled false T) (post_event e).
Proof. intros. unfold post_event. handled_code T. Qed.

Lemma PostErrEndTask_handled T r : preserves (handled false T) (PostErrEndTask r).
Proof.
  unfold PostErrEndTask. handled_code T. by apply post_event_handled.
Qed.
#[local] Hint Resolve PostErrEndTask_handled : collab.

Lemma SendCommand_handled T m : preserves (handled false T) (SendCommand m).
Proof. unfold SendCommand. handled_code T. Qed.
#[local] Hint Resolve SendCommand_handled : collab.

Lemma ExeSrcClientNotify_handled T r x : preserves (handled false T) (ExeSrcClientNotify r x).
Proof. unfold ExeSrcClientNotify, send_request. handled_code T. Qed.
#[local] Hint Resolve ExeSrcClientNotify_handled : collab.

Lemma notify_client_handled T request :
  (forall c n, is_disconnect (request c n) = false /\ is_connect (request c n) = false /\
    is_start (request c n) = false) ->
  preserves (handled false T) (notify_client request).
Proof.
  intros H. unfold notify_client. handled_code T.
  apply preserves_call. intros. by apply handled_emit; apply H.
Qed.

(** The peer's session is released when the object is a source that has not released it. *)
Definition release (direction : Z) (disconnected : bool) (d : bytes) : list Effect :=
  if (direction =? COLLAB_SOURCE) && negb disconnected then [DisconnectDevice d] else [].

Lemma Collab_CleanUpSession_run T s t a s' t' :
  CleanUpSession s t = Done (a, s', t') -> exists l,
    t' = t ++ release (direction_ (collabInfo_ s)) (isDisconnected_ s) (deviceId_ (sinkInfo_ (collabInfo_ s)))
      ++ l ++ [ManagerCleanUpSession (collabToken_ (collabInfo_ s))] /\
    isDisconnected_ s' = (direction_ (collabInfo_ s) =? COLLAB_SOURCE) || isDisconnected_ s /\
    handled false T s t (set_isDisconnected (isDisconnected_ s) s') (t ++ l).
Proof.
  intros H. unfold CleanUpSession in H. apply mbind_Done in H as (? & ? & ? & [= <- <- <-] & H).
  apply mbind_Done in H as ([] & s1 & t1 & H1 & H). apply mbind_Done in H as (r & s2 & t2 & H2 & H).
  injection H as _ <- <-.
  assert (s1 = set_isDisconnected ((direction_ (collabInfo_ s) =? COLLAB_SOURCE) || isDisconnected_ s) s /\
    t1 = t ++ release (direction_ (collabInfo_ s)) (isDisconnected_ s) (deviceId_ (sinkInfo_ (collabInfo_ s))))
    as (-> & ->).
  { unfold release. destruct ((direction_ (collabInfo_ s) =? COLLAB_SOURCE) && negb (isDisconnected_ s)) eqn:E.
    - injection H1 as <- <-. apply andb_true_iff in E as (-> & _). by cbn.
    - injection H1 as <- <-. rewrite app_nil_r. split; [|done].
      destruct s as [i b c d e f g h k]. cbn in *. destruct (direction_ i =? COLLAB_SOURCE), d; by cbn in *. }
  assert (s2 = set_isDisconnected ((direction_ (collabInfo_ s) =? COLLAB_SOURCE) || isDisconnected_ s) s) as Hs2.
  { revert H2. unfold ExeClientDisconnectNotify, notify_client, mbind, get, ask, call, mret. cbn.
    repeat case_match; by intros [= _ <- _]. }
  pose proof (notify_client_handled T NotifyDisconnect (fun c n => conj eq_refl (conj eq_refl eq_refl)) _ _ _ _ _ H2)
    as (_ & _ & _ & l & -> & R & S & C).
  exists l. rewrite <- !app_assoc. split_and!; [done|by rewrite Hs2|].
  rewrite Hs2 in R |- *. destruct R as (R & _). cbn in R, C.
  assert (set_isDisconnected (isDisconnected_ s) (set_isDisconnected
    ((direction_ (collabInfo_ s) =? COLLAB_SOURCE) || isDisconnected_ s) s) = s) as -> by (by destruct s).
  apply handled_block; [lia|lia|done].
Qed.

Lemma CleanUpSession_handled T : preserves (handled false T) CleanUpSession.
Proof.
  intros s t a s' t' H. apply (Collab_CleanUpSession_run T) in H as (l & -> & Hd & F & Q & X & k & Hk & R & S & C).
  apply app_inv_head in Hk as <-. split_and!; [exact F|exact Q|exact X|].
  eexists. split; [done|]. set (token := collabToken_ (collabInfo_ s)). split_and!.
  - destruct R as (R & _). cbn [isDisconnected_ set_isDisconnected] in R. unfold releases_once, release. rewrite !count_app, Hd.
    assert (count is_disconnect l = 0%nat) as -> by lia.
    destruct (Z.eqb_spec (direction_ (collabInfo_ s)) COLLAB_SOURCE), (isDisconnected_ s); cbn;
      (split_and!; [done|done|]); auto; intros _; right; rewrite ?in_app_iff; cbn; tauto.
  - apply starts_permitted_app; [|apply starts_permitted_app; [done|by apply starts_permitted_other]].
    apply starts_permitted_other. unfold release. by case_match.
  - rewrite !count_app. unfold release. case_match; cbn in *; lia.
Qed.
#[local] Hint Resolve CleanUpSession_handled : collab.

Lemma RegisterAbilityLifecycleObserver_handled T b :
  preserves (handled false T) (RegisterAbilityLifecycleObserver b).
Proof. unfold RegisterAbilityLifecycleObserver. handled_code T. Qed.
#[local] Hint Resolve RegisterAbilityLifecycleObserver_handled : collab.

Lemma PackStartCmd_handled T : preserves (handled false T) PackStartCmd.
Proof. unfold PackStartCmd, PackPartCmd. handled_code T. Qed.
#[local] Hint Resolve PackStartCmd_handled : collab.

Lemma set_udids_handled T b : preserves (handled false T) (set_udids b).
Proof. unfold set_udids. handled_code T. Qed.
#[local] Hint Resolve set_udids_handled : collab.

Lemma GenerateCollabWant_handled T : preserves (handled false T) GenerateCollabWant.
Proof. unfold GenerateCollabWant, SetScreenLockParameters. handled_code T. Qed.

Lemma ExeSrcGetVersion_handled T : preserves (handled false T) ExeSrcGetVersion.
Proof. unfold ExeSrcGetVersion, SrcPeerVersionNotify. handled_code T. Qed.

Lemma ExeSrcStart_handled T :
  In SOURCE_WAIT_RESULT_STATE T -> preserves (handled false T) ExeSrcStart.
Proof. intros. unfold ExeSrcStart. handled_code T. Qed.

Lemma ExeSrcCollabResult_handled T r x :
  In SOURCE_WAIT_END_STATE T -> preserves (handled false T) (ExeSrcCollabResult r x).
Proof. intros. unfold ExeSrcCollabResult. handled_code T. Qed.

Lemma ExeSinkGetVersion_handled T :
  In SINK_START_STATE T -> preserves (handled false T) ExeSinkGetVersion.
Proof. intros. unfold ExeSinkGetVersion, PackSinkCollabVersionCmd. handled_code T. Qed.

Lemma ExeSinkPrepareResult_handled T r :
  In SINK_WAIT_END_STATE T -> preserves (handled false T) (ExeSinkPrepareResult r).
Proof. intros. unfold ExeSinkPrepareResult, PackNotifyResultCmd. handled_code T. Qed.

Lemma report_and_clean_up_handled T r x : preserves (handled false T) (report_and_clean_up r x).
Proof. unfold report_and_clean_up, PackNotifyResultCmd. handled_code T. Qed.

Lemma ExeDisconnect_handled T : preserves (handled false T) ExeDisconnect.
Proof. unfold ExeDisconnect, PackDisconnectCmd. handled_code T. Qed.

Lemma ExeSrcWaitResultError_handled T r : preserves (handled false T) (ExeSrcWaitResultError r).
Proof. unfold ExeSrcWaitResultError, PackDisconnectCmd. handled_code T. Qed.

Lemma ExeSrcGetPeerVersionError_handled T r : preserves (handled false T) (ExeSrcGetPeerVersionError r).
Proof. unfold ExeSrcGetPeerVersionError. handled_code T. Qed.

Lemma ExeSrcStartError_handled T r : preserves (handled false T) (ExeSrcStartError r).
Proof. unfold ExeSrcStartError. handled_code T. Qed.

Lemma start_permitted_block w :
  starts_permitted [PermissionChecked w ERR_OK; Query;
    StartAbilityByCall (RemoveParam w DMS_IS_CALLER_FOREGROUND)].
Proof.
  intros l1 w' l2 H. destruct l1 as [|e1 [|e2 [|e3 l1]]]; try discriminate H.
  - injection H as <- <- <- <-. by exists [], w.
  - injection H as _ _ _ H. by destruct l1.
Qed.

Lemma check_permission_run w s t ret s' t' :
  check_permission w s t = Done (ret, s', t') -> s' = s /\ t' = t ++ [PermissionChecked w ret].
Proof. by intros [= <- <- <-]. Qed.

Lemma ExeStartAbility_handled T d :
  In SINK_CONNECT_STATE T -> preserves (handled false T) (ExeStartAbility d).
Proof.
  intros HT s t a s' t' H. unfold ExeStartAbility in H.
  apply mbind_Done in H as (? & ? & ? & [= <- <- <-] & H).
  case_match; [injection H as <- <- <-; apply collab_handled_refl|].
  apply mbind_Done in H as (w & s1 & t1 & H1 & H).
  eapply collab_handled_trans; [by eapply GenerateCollabWant_handled|]. clear H1.
  apply mbind_Done in H as (ret & s2 & t2 & (-> & ->)%check_permission_run & H). cbv zeta in H.
  destruct (ret =? ERR_OK) eqn:Hret; cbn [negb] in H;
    [|injection H as <- <- <-; by apply handled_emit]. apply Z.eqb_eq in Hret. subst ret.
  apply mbind_Done in H as (ret & s2 & t2 & [= <- <- <-] & H).
  destruct (AmsConnect _ =? ERR_OK); cbn [negb] in H; cycle 1.
  { injection H as <- <- <-. rewrite <- app_assoc. apply handled_block; [done..|].
    by apply starts_permitted_other. }
  apply mbind_Done in H as (ret & s2 & t2 & [= _ <- <-] & H).
  rewrite <- !app_assoc in H. cbn [app] in H.
  eapply collab_handled_trans; [apply handled_block; [| |apply (start_permitted_block w)]; done|].
  match type of H with ?m ?s ?t = _ => assert (preserves (handled false T) m) as Hp by handled_code T end.
  by eapply Hp.
Qed.

Lemma ExeSrcGetPeerVersion_handled T : preserves (handled true T) ExeSrcGetPeerVersion.
Proof.
  intros s t a s' t' H. unfold ExeSrcGetPeerVersion in H.
  apply mbind_Done in H as (? & ? & ? & [= <- <- <-] & H).
  apply mbind_Done in H as ((ret & session) & s1 & t1 & [= _ <- <-] & H).
  match type of H with ?m ?s ?t = _ => assert (preserves (handled false T) m) as Hp by
    (unfold PackGetPeerVersionCmd; handled_code T) end.
  apply Hp in H as (F & Q & X & l & -> & R & Hs & C).
  split_and!; [done..|]. eexists ([_] ++ l). rewrite app_assoc. split_and!; [done| | |].
  - by eapply releases_once_trans; [apply same_frame_refl|apply releases_none|].
  - apply (starts_permitted_app [_] l); [by apply starts_permitted_other|done].
  - unfold count in *. cbn in *. lia.
Qed.

(** The states an event handler may lead to. *)
Definition next (x : CollabStateType) : list CollabStateType :=
  match x with
  | SOURCE_START_STATE => [SOURCE_WAIT_RESULT_STATE]
  | SOURCE_WAIT_RESULT_STATE => [SOURCE_WAIT_END_STATE]
  | SINK_GET_VERSION_STATE => [SINK_START_STATE]
  | SINK_START_STATE => [SINK_CONNECT_STATE]
  | SINK_CONNECT_STATE => [SINK_WAIT_END_STATE]
  | SOURCE_GET_PEER_VERSION_STATE | SOURCE_WAIT_END_STATE | SINK_WAIT_END_STATE => []
  end.

Definition connects (x : CollabStateType) (e : InnerEvent) : bool :=
  match x, e with SOURCE_GET_PEER_VERSION_STATE, SOURCE_GET_PEER_VERSION_EVENT => true | _, _ => false end.

#[local] Hint Resolve ExeSrcGetVersion_handled report_and_clean_up_handled ExeDisconnect_handled
  ExeSrcWaitResultError_handled ExeSrcGetPeerVersionError_handled ExeSrcStartError_handled : collab.

Lemma collab_state_Execute_handled x e : preserves (handled (connects x e) (next x)) (state_Execute x e).
Proof.
  unfold state_Execute. destruct x, e; cbn [memberFuncMap_ connects next];
    unfold SrcGetPeerVersionState_memberFuncMap_, SrcStartState_memberFuncMap_,
      SrcWaitResultState_memberFuncMap_, SrcWaitEndState_memberFuncMap_,
      SinkGetVersionState_memberFuncMap_, SinkStartState_memberFuncMap_,
      SinkConnectState_memberFuncMap_, SinkWaitEndState_memberFuncMap_,
      ExeSinkGetVersionError, ExeSinkStartError, ExeSinkConnectError, ExeAbilityRejectError;
    try apply ExeSrcGetPeerVersion_handled;
    match goal with |- preserves (handled false ?T) _ =>
      first [ apply preserves_mret; apply collab_handled_refl
            | solve [eauto 1 with collab]
            | apply ExeSrcStart_handled; by left
            | apply ExeSrcCollabResult_handled; by left
            | apply ExeSinkGetVersion_handled; by left
            | apply ExeStartAbility_handled; by left
            | apply ExeSinkPrepareResult_handled; by left ] end.
Qed.

(** ** Every handler returns *)

Ltac total_base :=
  idtac;
  match goal with
  | |- total (ask _) => apply total_call
  | |- total (modify_info _) => apply total_modify
  | |- total (UpdateState _) => unfold UpdateState
  | |- exists _, GetSinkCollabVersionCmdCodec.Marshal _ = Done _ => apply version_Marshal_total
  | |- exists _, SinkStartCmdCodec.Marshal _ = Done _ => apply collab_start_Marshal_total
  | |- exists _, NotifyResultCmdCodec.Marshal _ = Done _ => apply notify_Marshal_total
  | |- exists _, DisconnectCmdCodec.Marshal _ = Done _ => apply disconnect_Marshal_total
  end.

Ltac total_code := total_with total_base.

Lemma Collab_SendCommand_total m : (exists r, m = Done r) -> total (SendCommand m).
Proof.
  intros Hm. unfold SendCommand. apply total_mbind; [by apply total_from_run|].
  intros [e|json]; [apply total_mret|]. cbv zeta. case_match; [apply total_mret|].
  apply total_mbind; [apply total_from_run, buffer_copy_total|].
  intros (ret & data). total_code.
Qed.

Ltac send_total := total_with ltac:(first [total_base | apply Collab_SendCommand_total]).

Lemma collab_post_event_total e : total (post_event e).
Proof. unfold post_event, SendEvent. total_code. Qed.
#[local] Hint Resolve collab_post_event_total : dms.

Lemma PostErrEndTask_total r : total (PostErrEndTask r).
Proof. unfold PostErrEndTask. total_code. Qed.
#[local] Hint Resolve PostErrEndTask_total : dms.

Lemma notify_client_total r : total (notify_client r).
Proof. unfold notify_client. total_code. Qed.
#[local] Hint Resolve notify_client_total : dms.

Lemma ExeSrcClientNotify_total r x : total (ExeSrcClientNotify r x).
Proof. unfold ExeSrcClientNotify, send_request. total_code. Qed.
#[local] Hint Resolve ExeSrcClientNotify_total : dms.

Lemma CleanUpSession_total : total CleanUpSession.
Proof. unfold CleanUpSession, ExeClientDisconnectNotify. total_code. Qed.
#[local] Hint Resolve CleanUpSession_total : dms.

Lemma set_udids_total b : total (set_udids b).
Proof. unfold set_udids. total_code. Qed.
#[local] Hint Resolve set_udids_total : dms.

Lemma SrcPeerVersionNotify_total s t :
  srcClientCB_ (collabInfo_ s) <> None -> exists r, SrcPeerVersionNotify s t = Done r.
Proof.
  intros H. unfold SrcPeerVersionNotify, mbind, get, ask, call, mret. cbn.
  destruct (srcClientCB_ (collabInfo_ s)); [clear H|done]. repeat case_match; by eexists.
Qed.

Lemma collab_state_Execute_total x e s t :
  (x = SOURCE_GET_PEER_VERSION_STATE -> srcClientCB_ (collabInfo_ s) <> None) ->
  exists r, state_Execute x e s t = Done r.
Proof.
  intros Hcb.
  assert (x = SOURCE_GET_PEER_VERSION_STATE /\ e = SOURCE_GET_VERSION_EVENT \/ total (state_Execute x e))
    as [(-> & ->)|H]; [|..|apply H].
  - unfold state_Execute. destruct x, e; auto; right;
      cbn [memberFuncMap_ SrcGetPeerVersionState_memberFuncMap_ SrcStartState_memberFuncMap_
        SrcWaitResultState_memberFuncMap_ SrcWaitEndState_memberFuncMap_
        SinkGetVersionState_memberFuncMap_ SinkStartState_memberFuncMap_
        SinkConnectState_memberFuncMap_ SinkWaitEndState_memberFuncMap_];
      unfold ExeSrcGetPeerVersion, ExeSrcGetPeerVersionError, ExeSrcStart, ExeSrcStartError,
        ExeSrcCollabResult, ExeSrcWaitResultError, ExeDisconnect, ExeSinkGetVersion,
        ExeSinkGetVersionError, ExeStartAbility, ExeSinkStartError, ExeSinkPrepareResult,
        ExeAbilityRejectError, ExeSinkConnectError, report_and_clean_up;
      unfold PackGetPeerVersionCmd, PackStartCmd, PackPartCmd, RegisterAbilityLifecycleObserver,
        PackDisconnectCmd, PackSinkCollabVersionCmd, GenerateCollabWant, SetScreenLockParameters,
        check_permission, PackNotifyResultCmd;
      send_total.
  - cbn. unfold ExeSrcGetVersion, mbind.
    destruct (SrcPeerVersionNotify_total s t (Hcb eq_refl)) as (((ret & s1) & t1) & ->). cbn.
    case_match; [apply PostErrEndTask_total|by eexists].
Qed.

(** ** The queue *)

Definition keeps_queue s t s' t' : Prop := queue_ s' = queue_ s.

Lemma collab_keeps_queue_refl s t : keeps_queue s t s t.
Proof. done. Qed.
Lemma collab_keeps_queue_trans s1 t1 s2 t2 s3 t3 :
  keeps_queue s1 t1 s2 t2 -> keeps_queue s2 t2 s3 t3 -> keeps_queue s1 t1 s3 t3.
Proof. unfold keeps_queue. congruence. Qed.

Ltac keeps_base :=
  idtac;
  match goal with
  | |- preserves _ (modify_info _) => by apply preserves_modify
  | |- preserves _ (modify _) => by apply preserves_modify
  | |- preserves _ (call _ _) => by apply preserves_call
  | |- preserves _ (ask _) => by apply preserves_call
  | |- preserves _ (emit _) => by apply preserves_emit
  | |- preserves _ (UpdateState _) => unfold UpdateState
  | |- preserves _ undefined => intros ? ? ? ? ?; discriminate
  | |- preserves keeps_queue _ => solve [eauto 1 with keeps]
  end.

Ltac keeps_code := preserves_with collab_keeps_queue_refl collab_keeps_queue_trans keeps_base.

Lemma SendCommand_keeps m : preserves keeps_queue (SendCommand m).
Proof. unfold SendCommand. keeps_code. Qed.
#[local] Hint Resolve SendCommand_keeps : keeps.

Lemma notify_client_keeps r : preserves keeps_queue (notify_client r).
Proof. unfold notify_client. keeps_code. Qed.
#[local] Hint Resolve notify_client_keeps : keeps.

Lemma CleanUpSession_keeps : preserves keeps_queue CleanUpSession.
Proof. unfold CleanUpSession, ExeClientDisconnectNotify. keeps_code. Qed.
#[local] Hint Resolve CleanUpSession_keeps : keeps.

Lemma ExeSrcClientNotify_keeps r x : preserves keeps_queue (ExeSrcClientNotify r x).
Proof. unfold ExeSrcClientNotify, send_request. keeps_code. Qed.
#[local] Hint Resolve ExeSrcClientNotify_keeps : keeps.

Lemma GenerateCollabWant_keeps : preserves keeps_queue GenerateCollabWant.
Proof. unfold GenerateCollabWant, SetScreenLockParameters. keeps_code. Qed.
#[local] Hint Resolve GenerateCollabWant_keeps : keeps.

(** A handler posts one event at most, an end after an error, and none when it fails. *)
Definition posts_one (m : C Z) : Prop :=
  forall s t a s' t', m s t = Done (a, s', t') ->
  queue_ s' = queue_ s \/ exists r, queue_ s' = queue_ s ++ [ERR_END_EVENT r] /\ a = ERR_OK.

Lemma collab_posts_keep m : preserves keeps_queue m -> posts_one m.
Proof. intros H s t a s' t' ?%H. by left. Qed.

Lemma collab_posts_bind {A} (m : C A) (k : A -> C Z) :
  preserves keeps_queue m -> (forall a, posts_one (k a)) -> posts_one (mbind m k).
Proof.
  intros Hm Hk s t b s' t' (a & s1 & t1 & H1%Hm & H2)%mbind_Done.
  unfold keeps_queue in H1. rewrite <- H1. exact (Hk _ _ _ _ _ _ H2).
Qed.

Lemma collab_post_event_run e s t r s' t' :
  post_event e s t = Done (r, s', t') ->
  (s' = s /\ r <> ERR_OK) \/ (s' = set_queue (queue_ s ++ [e]) s /\ r = ERR_OK /\ t' = t ++ [Query]).
Proof.
  unfold post_event, SendEvent, ask, call, mbind, get, modify, mret. cbn.
  destruct (eventHandler_ s); cbn; [|intros [= <- <- <-]; by left].
  destruct (SendEvent_ok t); cbn; intros [= <- <- <-]; [by right|by left].
Qed.

Lemma posts_err r : posts_one (PostErrEndTask r).
Proof.
  intros s t a s' t' H. unfold PostErrEndTask in H. apply mbind_Done in H as (? & ? & ? & [= <- <- <-] & H).
  destruct (isDisconnected_ s); [injection H as <- <- <-; by left|].
  apply collab_post_event_run in H as [(-> & _)|(-> & -> & _)]; [by left|]. right. by exists r.
Qed.

Ltac posts_code :=
  repeat first
    [ solve [apply collab_posts_keep; keeps_code]
    | apply posts_err
    | match goal with
      | |- posts_one (mbind _ _) => apply collab_posts_bind; [keeps_code|let a := fresh in intros a]
      | |- posts_one (match ?x with _ => _ end) => destruct x
      | |- posts_one (let _ := _ in _) => cbv zeta
      end ].

Lemma collab_state_Execute_posts x e : posts_one (state_Execute x e).
Proof.
  unfold state_Execute. destruct x, e;
    cbn [memberFuncMap_ SrcGetPeerVersionState_memberFuncMap_ SrcStartState_memberFuncMap_
      SrcWaitResultState_memberFuncMap_ SrcWaitEndState_memberFuncMap_
      SinkGetVersionState_memberFuncMap_ SinkStartState_memberFuncMap_
      SinkConnectState_memberFuncMap_ SinkWaitEndState_memberFuncMap_];
    unfold ExeSrcGetPeerVersion, ExeSrcGetPeerVersionError, ExeSrcStart, ExeSrcStartError,
      ExeSrcGetVersion, ExeSrcCollabResult, ExeSrcWaitResultError, ExeDisconnect, ExeSinkGetVersion,
      ExeSinkGetVersionError, ExeStartAbility, ExeSinkStartError, ExeSinkPrepareResult,
      ExeAbilityRejectError, ExeSinkConnectError, report_and_clean_up;
    unfold PackGetPeerVersionCmd, PackStartCmd, PackPartCmd, RegisterAbilityLifecycleObserver,
      PackDisconnectCmd, PackSinkCollabVersionCmd, SrcPeerVersionNotify, set_udids,
      check_permission, PackNotifyResultCmd;
    posts_code.
Qed.

(** The handlers of an end after an error post nothing and succeed. *)
Lemma err_Execute x r s t a s' t' :
  state_Execute x (ERR_END_EVENT r) s t = Done (a, s', t') ->
  queue_ s' = queue_ s /\ a = ERR_OK.
Proof.
  intros H.
  assert (preserves keeps_queue (state_Execute x (ERR_END_EVENT r))) as Hk.
  { unfold state_Execute. destruct x;
      cbn [memberFuncMap_ SrcGetPeerVersionState_memberFuncMap_ SrcStartState_memberFuncMap_
        SrcWaitResultState_memberFuncMap_ SrcWaitEndState_memberFuncMap_
        SinkGetVersionState_memberFuncMap_ SinkStartState_memberFuncMap_
        SinkConnectState_memberFuncMap_ SinkWaitEndState_memberFuncMap_];
      unfold ExeSrcGetPeerVersionError, ExeSrcStartError, ExeSrcWaitResultError, ExeDisconnect,
        ExeSinkGetVersionError, ExeSinkStartError, ExeSinkConnectError, report_and_clean_up,
        PackDisconnectCmd, PackNotifyResultCmd; keeps_code. }
  split; [by eapply Hk|]. revert H. unfold state_Execute.
  destruct x;
    cbn [memberFuncMap_ SrcGetPeerVersionState_memberFuncMap_ SrcStartState_memberFuncMap_
      SrcWaitResultState_memberFuncMap_ SrcWaitEndState_memberFuncMap_
      SinkGetVersionState_memberFuncMap_ SinkStartState_memberFuncMap_
      SinkConnectState_memberFuncMap_ SinkWaitEndState_memberFuncMap_];
    unfold ExeSrcGetPeerVersionError, ExeSrcStartError, ExeSrcWaitResultError, ExeDisconnect,
      ExeSinkGetVersionError, ExeSinkStartError, ExeSinkConnectError, report_and_clean_up; intros H;
    repeat apply mbind_Done in H as (? & ? & ? & ? & H); by injection H as <- _ _.
Qed.


(** ** Requests of other threads *)

#[local] Hint Resolve post_event_handled : collab.

Lemma PostSinkPrepareResultTask_handled T r i : preserves (handled false T) (PostSinkPrepareResultTask r i).
Proof. unfold PostSinkPrepareResultTask. handled_code T. Qed.

Lemma PostSrcResultTask_handled T c : preserves (handled false T) (PostSrcResultTask c).
Proof. unfold PostSrcResultTask. handled_code T. Qed.
#[local] Hint Resolve PostSrcResultTask_handled : collab.

Lemma CheckMDMControl_handled T : preserves (handled false T) CheckMDMControl.
Proof. unfold CheckMDMControl. handled_code T. Qed.
#[local] Hint Resolve CheckMDMControl_handled : collab.

Lemma SetSinkCollabInfo_handled T c : preserves (handled false T) (SetSinkCollabInfo c).
Proof. unfold SetSinkCollabInfo. handled_code T. Qed.
#[local] Hint Resolve SetSinkCollabInfo_handled : collab.

Lemma post_event_fresh T e : is_peer_version e = false -> preserves (handled false T) (post_event e).
Proof. apply post_event_handled. Qed.

Lemma OnDataRecv_handled T d c b : preserves (handled false T) (OnDataRecv d c b).
Proof.
  unfold OnDataRecv, HandleSourceGetVersionCmd, HandleSinkStartCmd, HandleNotifyResultCmd,
    HandleDisconnectCmd, PostSrcGetVersionTask, PostSinkStartTask.
  handled_code T; by apply post_event_handled.
Qed.

Lemma SaveSinkAbilityData_handled T x y z : preserves (handled false T) (SaveSinkAbilityData x y z).
Proof. unfold SaveSinkAbilityData. handled_code T. Qed.

Lemma NotifyWifiOpen_handled T : preserves (handled false T) NotifyWifiOpen.
Proof. unfold NotifyWifiOpen. by apply notify_client_handled. Qed.

(** What the other threads and the event thread may do to an object. *)
Inductive step :=
| Received (peerDeviceId : bytes) (command : Z) (dataBuffer : option DataBuffer)
| Prepared (result : Z) (info : DSchedCollabInfo)
| AbilitySaved (pid uid accessToken : Z)
| Failed (result : Z)
| Rejected (reason : bytes)
| Ended
| WifiOpened
| Mission (info : DSchedCollabInfo)
| EventTurn
| TaskTurn
| Stopped.

(** [DispatchCollabMission] posts the task when the object has its event thread. *)
Definition PostMission (info : DSchedCollabInfo) : C Z :=
  let! s := get in
  if negb (eventHandler_ s) then mret Dms.INVALID_PARAMETERS_ERR
  else do! modify (fun s => set_tasks (tasks_ s ++ [info]) s) in mret ERR_OK.

Definition ignore {A} (m : C A) : C unit := do! m in mret tt.

Definition perform (x : step) : C unit :=
  match x with
  | Received peerDeviceId command dataBuffer => OnDataRecv peerDeviceId command dataBuffer
  | Prepared result info => ignore (PostSinkPrepareResultTask result info)
  | AbilitySaved pid uid accessToken => ignore (SaveSinkAbilityData pid uid accessToken)
  | Failed result => ignore (PostErrEndTask result)
  | Rejected reason => ignore (PostAbilityRejectTask reason)
  | Ended => ignore PostEndTask
  | WifiOpened => ignore NotifyWifiOpen
  | Mission info => ignore (PostMission info)
  | EventTurn => event_turn
  | TaskTurn => task_turn
  | Stopped => ignore UnInit
  end.

Fixpoint perform_all (steps : list step) : C unit :=
  match steps with
  | [] => mret tt
  | x :: steps => do! perform x in perform_all steps
  end.

Definition step_ok (x : step) : Prop :=
  match x with Received _ _ b => received_ok b | _ => True end.

(** An initialised object; the state that uses the client's callback has one. *)
Definition wf s : Prop :=
  stateMachine_ s = true /\ exists x, currentState_ s = Some x /\
    (x = SOURCE_GET_PEER_VERSION_STATE -> srcClientCB_ (collabInfo_ s) <> None).

(** What a step does: the peer's session is released at most once, every ability start was
    permitted, and no connection is made but for an event that waited from the beginning. *)
Definition step_safe s t s' t' : Prop :=
  wf s' /\ exists l, t' = t ++ l /\
    (count is_disconnect l + Nat.b2n (isDisconnected_ s) = Nat.b2n (isDisconnected_ s'))%nat /\
    starts_permitted l /\ (count is_connect l + pending (queue_ s') <= pending (queue_ s))%nat.

Lemma step_safe_refl s t : wf s -> step_safe s t s t.
Proof.
  intros. split; [done|]. exists []. rewrite app_nil_r. split_and!; [done..| |cbn; lia].
  by apply starts_permitted_other.
Qed.

Lemma step_safe_trans s1 t1 s2 t2 s3 t3 :
  step_safe s1 t1 s2 t2 -> step_safe s2 t2 s3 t3 -> step_safe s1 t1 s3 t3.
Proof.
  intros (_ & l1 & -> & D1 & S1 & C1) (Hwf & l2 & -> & D2 & S2 & C2). split; [done|].
  exists (l1 ++ l2). rewrite app_assoc, !count_app.
  split_and!; [done|lia|by apply starts_permitted_app|lia].
Qed.

Lemma next_not_first x y : In y (next x) -> y <> SOURCE_GET_PEER_VERSION_STATE.
Proof. destruct x; cbn; intuition congruence. Qed.

Lemma handled_wf c T s t s' t' x :
  wf s -> (forall y, In y T -> In y (next x)) -> handled c T s t s' t' -> wf s'.
Proof.
  intros (Hm & y & Hy & Hcb) HT ((_ & Hcb' & _ & Hm' & _) & _ & X & _).
  split; [congruence|]. destruct X as [->|(z & Hz & ->)]; [exists y; by rewrite Hcb'|].
  exists z. split; [done|]. intros ->. by apply HT, next_not_first in Hz.
Qed.

Lemma handled_step_safe s t s' t' : wf s -> handled false [] s t s' t' -> step_safe s t s' t'.
Proof.
  intros Hwf H. pose proof (handled_wf _ _ _ _ _ _ SINK_WAIT_END_STATE Hwf (fun y (Hy : In y []) => match Hy with end) H).
  destruct H as (_ & (q & Hq & Hp) & _ & l & -> & (R & _ & _) & Hs & C). split; [done|].
  exists l. rewrite Hq, pending_app, Hp. cbn in C. split_and!; [done..|lia].
Qed.

(** The rest of a turn after the event was taken. *)
Lemma ProcessEvent_safe e s t s' t' x :
  wf s -> currentState_ s = Some x -> ProcessEvent e s t = Done (tt, s', t') ->
  wf s' /\ exists l, t' = t ++ l /\
    (count is_disconnect l + Nat.b2n (isDisconnected_ s) = Nat.b2n (isDisconnected_ s'))%nat /\
    starts_permitted l /\
    (count is_connect l + pending (queue_ s') <= Nat.b2n (connects x e) + pending (queue_ s))%nat.
Proof.
  intros Hwf Hx H. unfold ProcessEvent in H. apply mbind_Done in H as (? & ? & ? & [= <- <- <-] & H).
  pose proof Hwf as (Hm & _). rewrite Hm in H. cbn [negb] in H. apply mbind_Done in H as (ret & s1 & t1 & H1 & H2).
  unfold Execute in H1. apply mbind_Done in H1 as (? & ? & ? & [= <- <- <-] & H1). rewrite Hx in H1.
  apply collab_state_Execute_handled in H1 as H.
  pose proof (handled_wf _ _ _ _ _ _ x Hwf (fun y Hy => Hy) H) as Hwf1.
  assert (handled false [] s1 t1 s' t') as Hpost.
  { destruct (negb (ret =? ERR_OK)); [|injection H2 as <- <-; apply collab_handled_refl].
    apply mbind_Done in H2 as (? & ? & ? & H2 & [= <- <-]). by eapply PostErrEndTask_handled. }
  apply handled_step_safe in Hpost as (Hwf' & l2 & -> & D2 & S2 & C2); [|done].
  destruct H as (_ & (q & Hq & Hp) & _ & l & -> & (R & _) & Hs & C). split; [done|].
  exists (l ++ l2). rewrite app_assoc, !count_app. rewrite Hq, pending_app, Hp in C2.
  split_and!; [done|lia|by apply starts_permitted_app|lia].
Qed.

Lemma collab_wf_set_queue s q : wf s -> wf (set_queue q s).
Proof. done. Qed.

Lemma event_turn_safe s t s' t' : wf s -> event_turn s t = Done (tt, s', t') -> step_safe s t s' t'.
Proof.
  intros Hwf H. unfold event_turn in H. apply mbind_Done in H as (? & ? & ? & [= <- <- <-] & H).
  destruct (queue_ s) as [|e q] eqn:Hq; [injection H as <- <-; by apply step_safe_refl|].
  apply mbind_Done in H as (? & ? & ? & [= <- <- <-] & H).
  pose proof Hwf as (_ & x & Hx & _).
  destruct (ProcessEvent_safe e (set_queue q s) t s' t' x Hwf Hx H) as (Hwf' & l & -> & D & S & C).
  split; [done|]. exists l. rewrite Hq. split_and!; [done..|].
  assert (pending (e :: q) = (Nat.b2n (is_peer_version e) + pending q)%nat) as ->
    by (unfold pending; cbn; by destruct (is_peer_version e)).
  assert (Nat.b2n (connects x e) <= Nat.b2n (is_peer_version e))%nat by (destruct x, e; cbn; lia).
  cbn [queue_ set_queue] in C. lia.
Qed.

Lemma start_mission_safe i s t s' t' :
  wf s -> start_mission i s t = Done (tt, s', t') -> step_safe s t s' t'.
Proof.
  intros Hwf H. unfold start_mission, modify_info in H.
  apply mbind_Done in H as (? & ? & ? & [= <- <- <-] & H).
  apply mbind_Done in H as (? & s1 & t1 & H1 & H).
  unfold UpdateState, mbind, get in H1. cbn in H1. pose proof Hwf as (Hm & y & Hy & Hcb).
  rewrite Hm in H1. injection H1 as _ <- <-.
  apply mbind_Done in H as (? & s2 & t2 & H2 & [= <- <-]).
  apply (post_event_handled [] SOURCE_START_EVENT eq_refl) in H2. apply handled_step_safe in H2; [done|].
  split; [done|]. by exists SOURCE_START_STATE.
Qed.

Lemma task_turn_safe s t s' t' : wf s -> task_turn s t = Done (tt, s', t') -> step_safe s t s' t'.
Proof.
  intros Hwf H. unfold task_turn in H. apply mbind_Done in H as (? & ? & ? & [= <- <- <-] & H).
  destruct (tasks_ s) as [|i q]; [injection H as <- <-; by apply step_safe_refl|].
  apply mbind_Done in H as (? & ? & ? & [= <- <- <-] & H).
  by apply start_mission_safe in H.
Qed.

Lemma perform_safe x s t s' t' : wf s -> perform x s t = Done (tt, s', t') -> step_safe s t s' t'.
Proof.
  intros Hwf. destruct x; cbn [perform]; try (apply event_turn_safe; done);
    try (apply task_turn_safe; done); unfold ignore.
  - intros H. apply handled_step_safe; [done|]. by eapply OnDataRecv_handled.
  - intros (? & ? & ? & H & [= <- <-])%mbind_Done. apply handled_step_safe; [done|].
    by eapply PostSinkPrepareResultTask_handled.
  - intros (? & ? & ? & H & [= <- <-])%mbind_Done. apply handled_step_safe; [done|].
    by eapply SaveSinkAbilityData_handled.
  - intros (? & ? & ? & H & [= <- <-])%mbind_Done. apply handled_step_safe; [done|].
    by eapply PostErrEndTask_handled.
  - intros (? & ? & ? & H & [= <- <-])%mbind_Done. apply handled_step_safe; [done|].
    by eapply (post_event_handled _ (ABILITY_REJECT_EVENT reason)).
  - intros (? & ? & ? & H & [= <- <-])%mbind_Done. apply handled_step_safe; [done|].
    by eapply (post_event_handled _ END_EVENT).
  - intros (? & ? & ? & H & [= <- <-])%mbind_Done. apply handled_step_safe; [done|].
    by eapply NotifyWifiOpen_handled.
  - intros (? & ? & ? & H & [= <- <-])%mbind_Done. unfold PostMission in H.
    apply mbind_Done in H as (? & ? & ? & [= <- <- <-] & H).
    destruct (eventHandler_ s); cbn in H; injection H as <- <- <-; exact (step_safe_refl s t Hwf).
  - intros [= <- <-]. split; [done|]. exists []. rewrite app_nil_r.
    split_and!; [done..|by apply starts_permitted_other|apply Nat.le_0_l].
Qed.

Lemma perform_all_safe steps s t s' t' :
  wf s -> perform_all steps s t = Done (tt, s', t') -> step_safe s t s' t'.
Proof.
  revert s t. induction steps as [|x steps IH]; intros s t Hwf H; cbn [perform_all] in H.
  - injection H as <- <-. by apply step_safe_refl.
  - apply mbind_Done in H as ([] & s1 & t1 & H1 & H2). apply perform_safe in H1; [|done].
    eapply step_safe_trans; [exact H1|]. apply IH; [|done]. apply H1.
Qed.

(** ** No step gets stuck *)

Lemma ProcessEvent_total e s t : wf s -> exists r, ProcessEvent e s t = Done r.
Proof.
  intros (Hm & x & Hx & Hcb).
  destruct (collab_state_Execute_total x e s t) as (((ret & s1) & t1) & H); [by intros ->; apply Hcb|].
  unfold ProcessEvent, Execute. unfold mbind at 1 2 3, get. cbn [run_bind]. rewrite Hm. cbn [negb].
  rewrite Hx, H. cbn [run_bind].
  enough (total (when negb (ret =? ERR_OK) do (do! PostErrEndTask ret in mret tt))) as Ht by apply Ht.
  total_code.
Qed.

Lemma collab_event_turn_total s t : wf s -> exists r, event_turn s t = Done r.
Proof.
  intros Hwf. unfold event_turn, mbind, get. cbn. destruct (queue_ s) as [|e q]; [by eexists|].
  cbn. exact (ProcessEvent_total e (set_queue q s) t Hwf).
Qed.

Lemma task_turn_total : total task_turn.
Proof. unfold task_turn, start_mission, PostSrcStartTask. total_code. Qed.
#[local] Hint Resolve task_turn_total : dms.

(** ** Errors lead to the clean-up *)

Definition cleaned s l : Prop := In (ManagerCleanUpSession (collabToken_ (collabInfo_ s))) l.

Lemma cleaned_app s l1 l2 : cleaned s l1 \/ cleaned s l2 -> cleaned s (l1 ++ l2).
Proof. unfold cleaned. rewrite in_app_iff. done. Qed.

(** A handler that cleans up last. *)
Lemma cleans_last {A} (m : C A) s t a s' t' :
  preserves (handled false []) m ->
  (do! m in do! CleanUpSession in mret ERR_OK) s t = Done (a, s', t') ->
  exists l, t' = t ++ l /\ cleaned s l.
Proof.
  intros Hm H. apply mbind_Done in H as (? & s1 & t1 & H1 & H).
  apply Hm in H1 as ((_ & _ & Htok & _) & _ & _ & l1 & -> & _).
  apply mbind_Done in H as (? & s2 & t2 & H2 & [= _ <- <-]).
  apply (Collab_CleanUpSession_run []) in H2 as (l2 & -> & _).
  eexists. rewrite <- app_assoc. split; [done|].
  unfold cleaned. rewrite <- Htok, !in_app_iff. cbn. tauto.
Qed.

(** The handler of an end, as the states hold it. *)
Definition cleans_up (m : C Z) : Prop :=
  forall s t a s' t', m s t = Done (a, s', t') -> exists l, t' = t ++ l /\ cleaned s l.

Lemma clean_up_cleans {A} (m : C A) :
  preserves (handled false []) m -> cleans_up (do! m in do! CleanUpSession in mret ERR_OK).
Proof. intros Hm s t a s' t' H. by eapply cleans_last. Qed.

Lemma cleans_up_after {A} (m : C A) (k : A -> C Z) :
  preserves (handled false []) m -> (forall a, cleans_up (k a)) -> cleans_up (mbind m k).
Proof.
  intros Hm Hk s t a s' t' H. apply mbind_Done in H as (b & s1 & t1 & H1 & H2).
  apply Hm in H1 as ((_ & _ & Htok & _) & _ & _ & l & -> & _).
  apply Hk in H2 as (l2 & -> & Hc). exists (l ++ l2). rewrite app_assoc. split; [done|].
  apply cleaned_app. right. unfold cleaned in *. by rewrite <- Htok.
Qed.

Lemma PackNotifyResultCmd_handled T r x : preserves (handled false T) (PackNotifyResultCmd r x).
Proof. unfold PackNotifyResultCmd. handled_code T. Qed.

Lemma PackDisconnectCmd_handled T : preserves (handled false T) PackDisconnectCmd.
Proof. unfold PackDisconnectCmd. handled_code T. Qed.

Lemma report_cleans_up r y : cleans_up (report_and_clean_up r y).
Proof.
  apply cleans_up_after; [apply PackNotifyResultCmd_handled|]. intros cmd.
  apply clean_up_cleans, SendCommand_handled.
Qed.

Lemma ExeDisconnect_cleans_up : cleans_up ExeDisconnect.
Proof.
  apply cleans_up_after; [apply PackDisconnectCmd_handled|]. intros cmd.
  apply clean_up_cleans, SendCommand_handled.
Qed.

Lemma ExeSrcWaitResultError_cleans_up r : cleans_up (ExeSrcWaitResultError r).
Proof.
  apply cleans_up_after; [apply PackDisconnectCmd_handled|]. intros cmd.
  apply cleans_up_after; [apply SendCommand_handled|]. intros _.
  apply clean_up_cleans, ExeSrcClientNotify_handled.
Qed.

Lemma err_Execute_cleans x r : cleans_up (state_Execute x (ERR_END_EVENT r)).
Proof.
  destruct x.
  - apply (clean_up_cleans (ExeSrcClientNotify r [])), ExeSrcClientNotify_handled.
  - apply (clean_up_cleans (ExeSrcClientNotify r [])), ExeSrcClientNotify_handled.
  - apply ExeSrcWaitResultError_cleans_up.
  - apply ExeDisconnect_cleans_up.
  - apply (report_cleans_up r []).
  - apply (report_cleans_up r []).
  - apply (report_cleans_up r []).
  - apply ExeDisconnect_cleans_up.
Qed.

(** What an event in the queue may still cost: itself, and the end it may post. *)
Fixpoint weight (q : list InnerEvent) : nat :=
  match q with
  | [] => 0
  | e :: q => (if is_err e then 1 else 2) + weight q
  end.

Lemma weight_app q1 q2 : weight (q1 ++ q2) = (weight q1 + weight q2)%nat.
Proof. induction q1 as [|e q1 IH]; [done|]. cbn. rewrite IH. lia. Qed.

Lemma weight_bound q : (weight q <= 2 * length q)%nat.
Proof. induction q as [|e q IH]; cbn; [done|]. destruct (is_err e); lia. Qed.

Lemma PostErrEndTask_run r s t a s' t' :
  PostErrEndTask r s t = Done (a, s', t') ->
  queue_ s' = queue_ s /\ (isDisconnected_ s = true \/ eventHandler_ s = false \/ SendEvent_ok t = false)
  \/ queue_ s' = queue_ s ++ [ERR_END_EVENT r].
Proof.
  unfold PostErrEndTask, post_event, SendEvent, ask, call, mbind, get, modify, mret. cbn.
  destruct (isDisconnected_ s); [intros [= <- <- <-]; auto|].
  destruct (eventHandler_ s) eqn:E; cbn; [|intros [= <- <- <-]; auto].
  destruct (SendEvent_ok t) eqn:E2; cbn; intros [= <- <- <-]; auto.
Qed.

Definition willing s : Prop := eventHandler_ s = true /\ forall t, SendEvent_ok t = true.

Lemma PostErrEndTask_willing r s t :
  willing s -> isDisconnected_ s = false ->
  PostErrEndTask r s t = Done (ERR_OK, set_queue (queue_ s ++ [ERR_END_EVENT r]) s, t ++ [Query]).
Proof.
  intros (Hh & Hsend) Hnd. unfold PostErrEndTask, post_event, SendEvent, ask, call, mbind, get, modify.
  cbn [run_bind]. rewrite Hnd, Hh. cbn [negb run_bind]. by rewrite Hsend.
Qed.

(** One turn: at most an end is posted, none by the end itself, which cleans up; a handler
    that fails leaves an end behind or has cleaned up. *)
Lemma collab_event_turn_progress s t e q x :
  wf s -> currentState_ s = Some x -> queue_ s = e :: q ->
  exists s' l, event_turn s t = Done (tt, s', t ++ l) /\ wf s' /\ same_frame s s' /\
    (queue_ s' = q \/ is_err e = false /\ exists r, queue_ s' = q ++ [ERR_END_EVENT r]) /\
    (is_err e = true -> cleaned s l) /\
    (isDisconnected_ s' = true -> isDisconnected_ s = true \/ cleaned s l) /\
    (forall ret s1 t1, state_Execute x e (set_queue q s) t = Done (ret, s1, t1) -> ret <> ERR_OK ->
      willing s -> isDisconnected_ s = false ->
      cleaned s l \/ exists r, In (ERR_END_EVENT r) (queue_ s')).
Proof.
  intros Hwf Hx Hq. pose proof Hwf as (Hm & _ & _ & _).
  destruct (collab_event_turn_total s t Hwf) as ((([] & s') & t') & Hturn). exists s'.
  pose proof (event_turn_safe _ _ _ _ Hwf Hturn) as (Hwf' & _).
  pose proof Hturn as H. unfold event_turn in H. apply mbind_Done in H as (? & ? & ? & [= <- <- <-] & H).
  rewrite Hq in H. apply mbind_Done in H as (? & ? & ? & [= _ <- <-] & H).
  unfold ProcessEvent in H. apply mbind_Done in H as (? & ? & ? & [= <- <- <-] & H).
  cbn [stateMachine_ set_queue] in H. rewrite Hm in H. cbn [negb] in H.
  apply mbind_Done in H as (ret & s1 & t1 & H1 & H2).
  unfold Execute in H1. apply mbind_Done in H1 as (? & ? & ? & [= <- <- <-] & H1).
  cbn [currentState_ set_queue] in H1. rewrite Hx in H1.
  pose proof (collab_state_Execute_handled _ _ _ _ _ _ _ H1) as (F1 & _ & _ & l1 & -> & (_ & _ & K1) & _).
  assert (handled false [] s1 (t ++ l1) s' t') as (F2 & _ & _ & l2 & -> & (_ & _ & K2) & _).
  { destruct (negb (ret =? ERR_OK)); [|injection H2 as <- <-; apply collab_handled_refl].
    apply mbind_Done in H2 as (? & ? & ? & H2 & [= <- <-]). by eapply PostErrEndTask_handled. }
  pose proof F1 as (_ & _ & Htok & _ & Heh & _). cbn in Htok, Heh, K1. rewrite Htok in K2.
  exists (l1 ++ l2). rewrite app_assoc. split; [exact Hturn|].
  split_and!; [done|eapply collab_same_frame_trans; [exact F1|exact F2]|..].
  - destruct (collab_state_Execute_posts _ _ _ _ _ _ _ H1) as [Hk|(r & Hk & ->)]; cbn in Hk.
    + destruct (negb (ret =? ERR_OK)) eqn:Hret; [|injection H2 as <- _; by left].
      apply mbind_Done in H2 as (? & ? & ? & H2 & [= <- _]).
      apply PostErrEndTask_run in H2 as [(-> & _)|Hk2]; [by left|]. right. split.
      * destruct e; try done. apply err_Execute in H1 as (_ & ->). discriminate Hret.
      * exists ret. by rewrite Hk2, Hk.
    + injection H2 as <- _. right. split; [|by exists r]. destruct e; try done.
      apply err_Execute in H1 as (Hk2 & _). cbn in Hk2. rewrite Hk2 in Hk.
      by apply app_eq_self_l in Hk || (exfalso; apply (f_equal length) in Hk; rewrite length_app in Hk; cbn in Hk; lia).
  - intros He. destruct e; try discriminate He.
    apply err_Execute_cleans in H1 as (l & Hl & Hc). apply app_inv_head in Hl as ->.
    apply cleaned_app. by left.
  - intros Hd. destruct (K2 Hd) as [Hd1|Hc].
    + destruct (K1 Hd1) as [Hd2|Hc]; [by left|]. right. apply cleaned_app. by left.
    + right. apply cleaned_app. by right.
  - intros ret' s1' t1' H1' Hret (Hh & Hsend) Hnd. rewrite H1 in H1'. injection H1' as <- _ _.
    apply Z.eqb_neq in Hret. rewrite Hret in H2. cbn [negb] in H2.
    apply mbind_Done in H2 as (? & ? & ? & H2 & [= <- _]).
    apply PostErrEndTask_run in H2 as [(_ & [Hd|[Hd|Hd]])| ->].
    + left. apply cleaned_app. left. destruct (K1 Hd); [congruence|done].
    + congruence.
    + by rewrite Hsend in Hd.
    + right. exists ret. apply in_or_app. right. by left.
Qed.

(** The event thread left alone. *)
Lemma collab_drain_ends fuel : forall s t,
  wf s -> (weight (queue_ s) <= fuel)%nat ->
  exists s' l, drain fuel s t = Done (s', t ++ l) /\ queue_ s' = [] /\ wf s' /\ same_frame s s' /\
    ((exists r, In (ERR_END_EVENT r) (queue_ s)) -> cleaned s l).
Proof.
  induction fuel as [|fuel IH]; intros s t Hwf Hw; cbn [drain]; destruct (queue_ s) as [|e q] eqn:Hq.
  - exists s, []. rewrite app_nil_r. split_and!; [done..|apply same_frame_refl|]. by intros (? & []).
  - exfalso. cbn in Hw. destruct (is_err e); lia.
  - exists s, []. rewrite app_nil_r. split_and!; [done..|apply same_frame_refl|]. by intros (? & []).
  - pose proof Hwf as (_ & x & Hx & _).
    destruct (collab_event_turn_progress s t e q x Hwf Hx Hq) as (s1 & l1 & Ht & Hwf1 & F1 & Hq1 & Hc1 & _).
    rewrite Ht. cbn [run_bind].
    assert (weight (queue_ s1) <= fuel)%nat as Hw1.
    { cbn [weight] in Hw. destruct Hq1 as [->|(He & r & ->)]; [destruct (is_err e); lia|].
      rewrite He in Hw. rewrite weight_app. cbn. lia. }
    destruct (IH s1 (t ++ l1) Hwf1 Hw1) as (s' & l & Hd & Hempty & Hwf' & F2 & Hc2).
    exists s', (l1 ++ l). rewrite app_assoc. split_and!; [done..|by eapply collab_same_frame_trans|].
    intros (r & Hin). apply cleaned_app. pose proof F1 as (_ & _ & Htok & _).
    unfold cleaned in *. rewrite Htok in Hc2. destruct Hin as [->|Hin]; [by left; apply Hc1|]. right.
    apply Hc2. exists r. destruct Hq1 as [->|(_ & r' & ->)]; [done|]. apply in_or_app. by left.
Qed.

(** ** Sending *)

Lemma SendCommand_sends text s t :
  zlen text + 1 < DSCHED_MAX_BUFFER_SIZE -> exists ret,
    SendCommand (ok text) s t = Done (ret, s, t ++ [SendData (softbusSessionId_ s) (text ++ [0])]).
Proof.
  intros Hmax. destruct (buffer_copy_ok text Hmax) as (Hcap & Hcopy & Hcontent).
  unfold SendCommand, mbind, from_run. cbn [ok run_bind]. rewrite Hcap, Hcopy. cbn [run_bind].
  unfold get. cbn [run_bind negb ERR_OK Z.eqb]. unfold call. rewrite Hcontent. cbn [run_bind].
  by case_match; eexists.
Qed.

Lemma SendCommand_extends m s t r s' t' :
  SendCommand m s t = Done (r, s', t') -> s' = s /\ exists l, t' = t ++ l.
Proof.
  unfold SendCommand, mbind, from_run. destruct m as [[e|text]| |]; cbn [run_bind]; try discriminate.
  { intros [= _ <- <-]. split; [done|]. exists []. by rewrite app_nil_r. }
  case_match; [intros [= _ <- <-]; split; [done|]; exists []; by rewrite app_nil_r|].
  destruct (memcpy_s _ _ _ _ _ _) as [(ret & d)| |]; cbn [run_bind]; try discriminate.
  case_match; [intros [= _ <- <-]; split; [done|]; exists []; by rewrite app_nil_r|].
  unfold get, call. cbn [run_bind]. case_match; intros [= _ <- <-]; (split; [done|]); by eexists.
Qed.

Lemma ExeSrcClientNotify_run r x callback s t :
  srcClientCB_ (collabInfo_ s) = Some callback ->
  (forall t, WriteInterfaceToken t = true) -> (forall t, WriteMembers t = true) ->
  let i := collabInfo_ s in
  ExeSrcClientNotify r x s t = Done (SendRequest_ret ((t ++ [Query]) ++ [Query]), s,
    ((t ++ [Query]) ++ [Query]) ++ [NotifyPrepareResult callback (srcCollabSessionId_ i) r
      (socketName_ (sinkInfo_ i)) (collabToken_ i) x]).
Proof.
  intros Hcb H1 H2. cbv zeta. unfold ExeSrcClientNotify, send_request, ask, call, mbind, get.
  cbn [run_bind]. rewrite Hcb. cbn [run_bind]. rewrite H1. cbn [run_bind negb]. by rewrite H2.
Qed.

(** The end of a source that waits for the result: the client hears the code between the
    command to the peer and the clean-up. *)
Lemma ExeSrcWaitResultError_run r callback s t :
  srcClientCB_ (collabInfo_ s) = Some callback ->
  (forall t, WriteInterfaceToken t = true) -> (forall t, WriteMembers t = true) ->
  let i := collabInfo_ s in
  exists s' l1 l2, ExeSrcWaitResultError r s t = Done (ERR_OK, s',
      t ++ l1 ++ NotifyPrepareResult callback (srcCollabSessionId_ i) r
        (socketName_ (sinkInfo_ i)) (collabToken_ i) [] :: l2) /\
    queue_ s' = queue_ s /\ In (ManagerCleanUpSession (collabToken_ i)) l2.
Proof.
  intros Hcb Htok Hmem i. set (cmd := mkDisconnectCmd (plain_base_cmd i DISCONNECT_CMD)).
  destruct (Collab_SendCommand_total (DisconnectCmdCodec.Marshal cmd) (disconnect_Marshal_total cmd) s t)
    as (((r1 & s1) & t1) & Hsent).
  apply SendCommand_extends in Hsent as Hs1. destruct Hs1 as (-> & l1 & ->).
  pose proof (ExeSrcClientNotify_run r [] callback s (t ++ l1) Hcb Htok Hmem) as Hn. cbv zeta in Hn.
  set (t2 := ((((t ++ l1) ++ [Query]) ++ [Query]) ++ [_])) in Hn.
  destruct (CleanUpSession_total s t2) as (((r2 & s2) & t3) & Hclean).
  assert (queue_ s2 = queue_ s) as Hkeep by (by eapply CleanUpSession_keeps).
  pose proof Hclean as (l2 & -> & _)%(Collab_CleanUpSession_run []).
  eexists s2, (l1 ++ [Query; Query]), _. split_and!; [|done|].
  - unfold ExeSrcWaitResultError, PackDisconnectCmd, mbind, get, mret. cbn [run_bind].
    change (SendCommand _) with (SendCommand (DisconnectCmdCodec.Marshal cmd)).
    rewrite Hsent. cbn [run_bind]. rewrite Hn. cbn [run_bind].
    rewrite Hclean. cbn [run_bind]. unfold t2. rewrite <- !app_assoc. reflexivity.
  - apply in_or_app. right. apply in_or_app. right. by left.
Qed.

Lemma event_turn_ok x e q s t s1 t1 :
  wf s -> currentState_ s = Some x -> queue_ s = e :: q ->
  state_Execute x e (set_queue q s) t = Done (ERR_OK, s1, t1) -> event_turn s t = Done (tt, s1, t1).
Proof.
  intros (Hm & _) Hx Hq H. unfold event_turn, mbind, get, modify. cbn [run_bind]. rewrite Hq.
  cbn [run_bind]. unfold ProcessEvent, Execute, mbind, get. cbn [run_bind].
  change (stateMachine_ (set_queue q s)) with (stateMachine_ s). rewrite Hm. cbn [negb].
  change (currentState_ (set_queue q s)) with (currentState_ s). rewrite Hx. by rewrite H.
Qed.

(** The remaining requests return as well. *)
Lemma PostSinkPrepareResultTask_total r i : total (PostSinkPrepareResultTask r i).
Proof. unfold PostSinkPrepareResultTask, SendEvent. total_code. Qed.
Lemma SaveSinkAbilityData_total x y z : total (SaveSinkAbilityData x y z).
Proof. unfold SaveSinkAbilityData. total_code. Qed.
Lemma NotifyWifiOpen_total : total NotifyWifiOpen.
Proof. unfold NotifyWifiOpen. total_code. Qed.
Lemma UnregisterAbilityLifecycleObserver_total : total UnregisterAbilityLifecycleObserver.
Proof. unfold UnregisterAbilityLifecycleObserver. total_code. Qed.
Lemma UnregisterAbilityLifecycleObserver_handled T :
  preserves (handled false T) UnregisterAbilityLifecycleObserver.
Proof. unfold UnregisterAbilityLifecycleObserver. handled_code T. Qed.
#[local] Hint Resolve PostSinkPrepareResultTask_total SaveSinkAbilityData_total NotifyWifiOpen_total : dms.

Section Received.
Context {JR : CJsonReads J} {PB : ParcelLibBound PL}.

Lemma Collab_OnDataRecv_total d c b : received_ok b -> total (OnDataRecv d c b).
Proof.
  intros Hb. unfold OnDataRecv. destruct b as [b|]; [|apply total_mret].
  destruct (data_ b) as [x|] eqn:Hx; [|apply total_mret].
  destruct (received_text (S' := DSchedCollab) (E := Effect) b x Hb Hx) as (text & Ht & Hlen & _).
  intros s t. unfold mbind at 1. rewrite Ht. cbn [run_bind]. revert s t.
  match goal with |- forall s t, exists r, ?m s t = _ => change (total m) end.
  unfold HandleSourceGetVersionCmd, HandleSinkStartCmd, HandleNotifyResultCmd, HandleDisconnectCmd,
    SetSinkCollabInfo, CheckMDMControl, PostSrcGetVersionTask, PostSinkStartTask, PostSrcResultTask,
    SendEvent.
  pose proof (collab_start_reads text Hlen). pose proof (version_reads text). pose proof (notify_reads text).
  total_with ltac:(idtac; match goal with
    | |- total (from_run _) => by eapply reads_from_run
    | |- _ => total_base
    end).
Qed.

Lemma perform_total x s t : wf s -> step_ok x -> exists r, perform x s t = Done r.
Proof.
  intros Hwf Hx. destruct x; cbn [perform];
    try (by apply collab_event_turn_total); try (by apply Collab_OnDataRecv_total); try apply task_turn_total;
    match goal with |- exists r, ?m s t = _ => enough (total m) as Ht by apply Ht end;
    unfold ignore, PostAbilityRejectTask, PostEndTask, PostMission, UnInit; total_code.
Qed.

Lemma perform_all_total steps s t :
  wf s -> Forall step_ok steps -> exists s' t', perform_all steps s t = Done (tt, s', t').
Proof.
  intros Hwf Hok. revert s t Hwf. induction Hok as [|x steps Hx _ IH]; intros s t Hwf; cbn [perform_all];
    [by eexists _, _|].
  destruct (perform_total x s t Hwf Hx) as ((([] & s1) & t1) & H1). unfold mbind. rewrite H1. cbn [run_bind].
  apply IH. by apply perform_safe in H1 as (? & _).
Qed.
End Received.
End Lemmas.
