(* ===== verification/CollabRelease.v ===== *)
(** * Who releases the peer of a collaboration

    What one step of an object of [Collab.v] does to the session with its peer: a source that
    cleans up for the first time releases the device of the sink it has on record, before it asks
    the manager to clean up; every other step releases nothing.  The handlers are followed with
    [released], which keeps the direction and the device on record; a start command, which
    changes that device, and a mission, which changes the whole record, are silent instead. *)

From Stdlib Require Import ZArith Lia String.
From stdpp Require Import base list option.
From S2P Require Import Prelude ErrorCodes DataBuffer StdString Base64 Framework ContinueEvent CollabEvent Effects CommandTotality Collab CollabLemmas.

Create HintDb released discriminated.

Section Release.
Context {J : CJson} {N : NJson} {W : WantLib} {P : ParamsLib} {PL : ParcelLib} {Ev : CollabEnv}.
Implicit Types (s : DSchedCollab) (t l : list Effect) (i : DSchedCollabInfo).

Definition is_cleanup (e : Effect) : bool := match e with ManagerCleanUpSession _ => true | _ => false end.

(** The device of the sink on record. *)
Definition peer_on_record s : bytes := deviceId_ (sinkInfo_ (collabInfo_ s)).

Definition is_source s : bool := direction_ (collabInfo_ s) =? COLLAB_SOURCE.

(** What a step with the effects [l] does to the peer's session: nothing, and then it asked the
    manager to clean up only as a sink or after the session was released; or it released the
    device on record, once, as a source and before it asked the manager to clean up. *)
Definition release_step s s' l : Prop :=
  (isDisconnected_ s' = isDisconnected_ s /\ count is_disconnect l = 0%nat /\
    (is_source s = true -> isDisconnected_ s = false -> count is_cleanup l = 0%nat)) \/
  (is_source s = true /\ isDisconnected_ s = false /\ isDisconnected_ s' = true /\
    exists l1 l2, l = l1 ++ DisconnectDevice (peer_on_record s) :: l2 /\
      count is_disconnect (l1 ++ l2) = 0%nat /\ count is_cleanup l1 = 0%nat).

Definition released s t s' t' : Prop :=
  is_source s' = is_source s /\ peer_on_record s' = peer_on_record s /\
  exists l, t' = t ++ l /\ release_step s s' l.

(** Neither a release nor a clean-up; the record may change. *)
Definition silent s t s' t' : Prop :=
  isDisconnected_ s' = isDisconnected_ s /\
  exists l, t' = t ++ l /\ count is_disconnect l = 0%nat /\ count is_cleanup l = 0%nat.

Lemma released_refl s t : released s t s t.
Proof. split_and!; [done..|]. exists []. rewrite app_nil_r. split; [done|]. by left. Qed.

Lemma release_step_trans s1 s2 s3 l1 l2 :
  is_source s2 = is_source s1 -> peer_on_record s2 = peer_on_record s1 ->
  release_step s1 s2 l1 -> release_step s2 s3 l2 -> release_step s1 s3 (l1 ++ l2).
Proof.
  intros Hs Hp [(D1 & N1 & C1)|(S1 & D1 & E1 & p & q & -> & N1 & C1)]
    [(D2 & N2 & C2)|(S2 & D2 & E2 & p2 & q2 & -> & N2 & C2)].
  - left. rewrite !count_app. split_and!; [congruence|lia|]. intros Hsrc Hd.
    rewrite C1, C2; [done| |congruence..]. congruence.
  - right. rewrite Hs in S2. rewrite D1 in D2. split_and!; [done..|]. exists (l1 ++ p2), q2.
    rewrite Hp, <- !app_assoc. split; [done|]. rewrite !count_app in *. rewrite C1 by done. lia.
  - right. split_and!; [done..|congruence|]. exists p, (q ++ l2). rewrite <- app_assoc, app_comm_cons.
    split; [done|]. rewrite !count_app in *. lia.
  - congruence.
Qed.

Lemma released_trans s1 t1 s2 t2 s3 t3 :
  released s1 t1 s2 t2 -> released s2 t2 s3 t3 -> released s1 t1 s3 t3.
Proof.
  intros (Hs & Hp & l1 & -> & H1) (Hs2 & Hp2 & l2 & -> & H2). split_and!; [congruence..|].
  exists (l1 ++ l2). rewrite app_assoc. split; [done|]. by eapply release_step_trans.
Qed.

Lemma collab_silent_refl s t : silent s t s t.
Proof. split; [done|]. exists []. by rewrite app_nil_r. Qed.

Lemma collab_silent_trans s1 t1 s2 t2 s3 t3 : silent s1 t1 s2 t2 -> silent s2 t2 s3 t3 -> silent s1 t1 s3 t3.
Proof.
  intros (D1 & l1 & -> & N1 & C1) (D2 & l2 & -> & N2 & C2). split; [congruence|].
  exists (l1 ++ l2). rewrite app_assoc, !count_app. split_and!; [done|lia..].
Qed.

Lemma silent_step s t s' t' : silent s t s' t' -> exists l, t' = t ++ l /\ release_step s s' l.
Proof. intros (D & l & -> & N0 & C0). exists l. split; [done|]. by left. Qed.

Lemma silent_emit e s t : is_disconnect e = false -> is_cleanup e = false -> silent s t s (t ++ [e]).
Proof.
  intros H1 H2. split; [done|]. exists [e]. unfold count. cbn. by rewrite H1, H2.
Qed.

Lemma silent_released s t s' t' :
  is_source s' = is_source s -> peer_on_record s' = peer_on_record s -> silent s t s' t' -> released s t s' t'.
Proof. intros ? ? H%silent_step. by split_and!. Qed.

Ltac silent_base :=
  idtac;
  match goal with
  | |- preserves _ (modify_info _) => apply preserves_modify; intros ? ?; exact (collab_silent_refl _ _)
  | |- preserves _ (modify _) => apply preserves_modify; intros ? ?; exact (collab_silent_refl _ _)
  | |- preserves _ (call _ _) => apply preserves_call; intros; by apply silent_emit
  | |- preserves _ (ask _) => apply preserves_call; intros; by apply silent_emit
  | |- preserves _ (emit _) => apply preserves_emit; intros; by apply silent_emit
  | |- preserves _ undefined => intros ? ? ? ? ?; discriminate
  | |- preserves _ (UpdateState _) => unfold UpdateState
  end.
Ltac silent_code := preserves_with collab_silent_refl collab_silent_trans silent_base.

Ltac released_base :=
  idtac;
  match goal with
  | |- preserves _ (modify_info _) => apply preserves_modify; intros ? ?; exact (released_refl _ _)
  | |- preserves _ (modify _) => apply preserves_modify; intros ? ?; exact (released_refl _ _)
  | |- preserves _ (call _ _) => apply preserves_call; intros; by apply silent_released, silent_emit
  | |- preserves _ (ask _) => apply preserves_call; intros; by apply silent_released, silent_emit
  | |- preserves _ (emit _) => apply preserves_emit; intros; by apply silent_released, silent_emit
  | |- preserves _ undefined => intros ? ? ? ? ?; discriminate
  | |- preserves _ (UpdateState _) => unfold UpdateState
  | |- preserves released _ => solve [eauto 1 with released]
  end.
Ltac released_code := preserves_with released_refl released_trans released_base.

(** ** The clean-up *)

Lemma ExeClientDisconnectNotify_silent : preserves silent ExeClientDisconnectNotify.
Proof. unfold ExeClientDisconnectNotify, notify_client. silent_code. Qed.

Lemma notify_client_state r s t a s' t' : notify_client r s t = Done (a, s', t') -> s' = s.
Proof.
  unfold notify_client, mbind, get, ask, call, mret. cbn. repeat case_match; by intros [= _ <- _].
Qed.

Lemma CleanUpSession_released : preserves released CleanUpSession.
Proof.
  intros s t a s' t' H. unfold CleanUpSession in H. apply mbind_Done in H as (? & ? & ? & [= <- <- <-] & H).
  apply mbind_Done in H as ([] & s1 & t1 & H1 & H). apply mbind_Done in H as (r & s2 & t2 & H2 & H).
  injection H as _ <- <-. pose proof (notify_client_state _ _ _ _ _ _ H2) as ->.
  apply ExeClientDisconnectNotify_silent in H2 as (_ & l & -> & N0 & C0).
  assert (count is_disconnect [ManagerCleanUpSession (collabToken_ (collabInfo_ s))] = 0%nat) as N1 by done.
  destruct ((direction_ (collabInfo_ s) =? COLLAB_SOURCE) && negb (isDisconnected_ s)) eqn:E.
  - injection H1 as <- <-. apply andb_true_iff in E as (Hsrc & Hd%negb_true_iff). split_and!; [done..|].
    eexists. rewrite <- !app_assoc. split; [done|]. right. split_and!; [done..|].
    exists []. eexists. split; [reflexivity|]. cbn [app]. rewrite count_app. split; [lia|done].
  - injection H1 as <- <-. split_and!; [done..|]. eexists. rewrite <- !app_assoc. split; [done|]. left.
    rewrite count_app. split_and!; [done|lia|]. intros Hsrc Hd. unfold is_source in Hsrc.
    by rewrite Hsrc, Hd in E.
Qed.
#[local] Hint Resolve CleanUpSession_released : released.

(** ** The handlers *)

Lemma state_Execute_released x e : preserves released (state_Execute x e).
Proof.
  unfold state_Execute. destruct x, e;
    cbn [memberFuncMap_ SrcGetPeerVersionState_memberFuncMap_ SrcStartState_memberFuncMap_
      SrcWaitResultState_memberFuncMap_ SrcWaitEndState_memberFuncMap_
      SinkGetVersionState_memberFuncMap_ SinkStartState_memberFuncMap_
      SinkConnectState_memberFuncMap_ SinkWaitEndState_memberFuncMap_];
    unfold ExeSrcGetPeerVersion, ExeSrcGetPeerVersionError, ExeSrcStart, ExeSrcStartError,
      ExeSrcGetVersion, ExeSrcCollabResult, ExeSrcWaitResultError, ExeDisconnect, ExeSinkGetVersion,
      ExeSinkGetVersionError, ExeStartAbility, ExeSinkStartError, ExeSinkPrepareResult,
      ExeAbilityRejectError, ExeSinkConnectError, report_and_clean_up;
    unfold PackGetPeerVersionCmd, PackStartCmd, PackPartCmd, RegisterAbilityLifecycleObserver,
      PackDisconnectCmd, PackSinkCollabVersionCmd, SrcPeerVersionNotify, set_udids,
      check_permission, PackNotifyResultCmd, GenerateCollabWant, SetScreenLockParameters,
      SendCommand, ExeSrcClientNotify, send_request, PostErrEndTask, post_event, SendEvent;
    released_code.
Qed.

Lemma post_event_released e : preserves released (post_event e).
Proof. unfold post_event, SendEvent. released_code. Qed.
#[local] Hint Resolve post_event_released : released.

Lemma PostErrEndTask_released r : preserves released (PostErrEndTask r).
Proof. unfold PostErrEndTask. released_code. Qed.
#[local] Hint Resolve PostErrEndTask_released : released.

Lemma event_turn_released : preserves released event_turn.
Proof.
  pose proof state_Execute_released. unfold event_turn, ProcessEvent, Execute. released_code; eauto.
Qed.

Lemma HandleSinkStartCmd_silent data peer : preserves silent (HandleSinkStartCmd data peer).
Proof.
  unfold HandleSinkStartCmd, SetSinkCollabInfo, CheckMDMControl, PostSinkStartTask, PostErrEndTask,
    post_event, SendEvent.
  silent_code.
Qed.

Lemma start_mission_silent i : preserves silent (start_mission i).
Proof. unfold start_mission, PostSrcStartTask, post_event, SendEvent. silent_code. Qed.

Lemma OnDataRecv_releases d c b s t a s' t' :
  OnDataRecv d c b s t = Done (a, s', t') -> exists l, t' = t ++ l /\ release_step s s' l.
Proof.
  destruct (decide (c = SINK_START_CMD)) as [->|Hc].
  - intros H. apply silent_step. revert H. enough (preserves silent (OnDataRecv d SINK_START_CMD b)) as Hp by apply Hp.
    unfold OnDataRecv. change (SINK_START_CMD =? SOURCE_GET_VERSION_CMD) with false.
    change (SINK_START_CMD =? SINK_START_CMD) with true. cbn iota.
    pose proof HandleSinkStartCmd_silent. silent_code; eauto.
  - intros H. enough (preserves released (OnDataRecv d c b)) as Hp by (by apply Hp in H as (_ & _ & ?)).
    unfold OnDataRecv. apply Z.eqb_neq in Hc. rewrite Hc.
    unfold HandleSourceGetVersionCmd, HandleNotifyResultCmd, HandleDisconnectCmd, CheckMDMControl,
      PostSrcGetVersionTask, PostSrcResultTask, set_udids, SendEvent.
    released_code.
Qed.

Lemma task_turn_silent : preserves silent task_turn.
Proof. pose proof start_mission_silent. unfold task_turn. silent_code; eauto. Qed.

Lemma request_released x :
  match x with Received _ _ _ | EventTurn | TaskTurn => True | _ => preserves released (perform x) end.
Proof.
  destruct x; try done; cbn [perform]; unfold ignore, PostSinkPrepareResultTask, SaveSinkAbilityData,
    PostAbilityRejectTask, PostEndTask, NotifyWifiOpen, notify_client, PostMission, UnInit, SendEvent;
    released_code.
Qed.

Lemma perform_releases x s t a s' t' :
  perform x s t = Done (a, s', t') -> exists l, t' = t ++ l /\ release_step s s' l.
Proof.
  intros H. pose proof (request_released x) as Hx. destruct x; cbn [perform] in H;
    try (by apply OnDataRecv_releases in H); try (by apply task_turn_silent, silent_step in H);
    try (by apply event_turn_released in H as (_ & _ & ?)); by apply Hx in H as (_ & _ & ?).
Qed.

(** ** Runs *)

Lemma perform_all_app before after s t :
  perform_all (before ++ after) s t = (do! perform_all before in perform_all after) s t.
Proof.
  revert s t. induction before as [|x before IH]; intros s t; [done|].
  cbn [app perform_all]. unfold mbind in *. destruct (perform x s t) as [[[[] s1] t1]| |]; [|done..].
  cbn [run_bind]. apply IH.
Qed.

(** A source that cleaned up in a step has released the session at its end. *)
Lemma cleanup_released s s' l :
  release_step s s' l -> is_source s = true -> count is_cleanup l <> 0%nat -> isDisconnected_ s' = true.
Proof.
  intros [(-> & _ & C0)|(_ & _ & -> & _)]; [|done]. intros Hs Hc.
  destruct (isDisconnected_ s); [done|]. by destruct Hc; apply C0.
Qed.

End Release.
