(* ===== verification/CollabProperties.v ===== *)
(** * Properties of a collaboration

    The object of [Collab.v] under any sequence of steps: that every step returns, what is
    connected, released and started; that an error ends in the clean-up; that the peer's
    commands reach the object; and where the code does less than its names promise. *)

From Stdlib Require Import ZArith Lia String.
From stdpp Require Import base list option.
From S2P Require Import Prelude ErrorCodes DataBuffer StdString Base64 Framework ContinueEvent CollabEvent Effects CommandTotality Collab CollabLemmas CollabRelease.

Section Properties.
Context {J : CJson} {N : NJson} {W : WantLib} {P : ParamsLib} {PL : ParcelLib} {Ev : CollabEnv}.
Implicit Types (s : DSchedCollab) (t l : list Effect) (i : DSchedCollabInfo).

(** ** Runs *)

(** C5 Whatever the other threads and the event thread do to an initialised object, every
    step returns and leaves it initialised.  At every step of the run, a source that cleans up
    for the first time releases the device of the sink that is on record before the step, once,
    before it asks the manager to clean up; nothing else is released, never anything by a sink.
    So the session of a source is released exactly once in a run in which it cleans up, if no
    release was recorded before.  The object connects at most once for every version event that
    waited at the start, and every ability it starts was permitted just before, for the same
    want. *)
Theorem collab_run_safe {JR : CJsonReads J} {PB : ParcelLibBound PL} steps s t :
  wf s -> Forall step_ok steps -> exists s' l,
    perform_all steps s t = Done (tt, s', t ++ l) /\ wf s' /\
    (forall before x after, steps = before ++ x :: after -> exists s1 l1 s2 l2 l3,
      perform_all before s t = Done (tt, s1, t ++ l1) /\
      perform x s1 (t ++ l1) = Done (tt, s2, (t ++ l1) ++ l2) /\ l = l1 ++ l2 ++ l3 /\
      release_step s1 s2 l2 /\
      (is_source s1 = true -> count is_cleanup l2 <> 0%nat -> isDisconnected_ s' = true)) /\
    (count is_disconnect l + Nat.b2n (isDisconnected_ s) = Nat.b2n (isDisconnected_ s'))%nat /\
    (count is_connect l + pending (queue_ s') <= pending (queue_ s))%nat /\
    (forall l1 w l2, l = l1 ++ StartAbilityByCall w :: l2 ->
      exists l0 w', l1 = l0 ++ [PermissionChecked w' ERR_OK; Query] /\
        w = RemoveParam w' DMS_IS_CALLER_FOREGROUND).
Proof.
  intros Hwf Hok. destruct (perform_all_total steps s t Hwf Hok) as (s' & t' & H).
  pose proof (perform_all_safe _ _ _ _ _ Hwf H) as (Hwf' & l & -> & D & S & C).
  exists s', l. split_and!; try done. intros before x after ->.
  rewrite perform_all_app in H. apply mbind_Done in H as ([] & s1 & t1 & H1 & H).
  cbn [perform_all] in H. apply mbind_Done in H as ([] & s2 & t2 & H2 & H3).
  pose proof (perform_all_safe _ _ _ _ _ Hwf H1) as (Hwf1 & l1 & -> & _).
  pose proof (perform_safe _ _ _ _ _ Hwf1 H2) as (Hwf2 & _).
  apply perform_releases in H2 as Hr. destruct Hr as (l2 & -> & Hr).
  pose proof (perform_all_safe _ _ _ _ _ Hwf2 H3) as (_ & l3 & Hl & D3 & _).
  rewrite <- !app_assoc in Hl. apply app_inv_head in Hl as ->.
  exists s1, l1, s2, l2, l3. split_and!; [done..|]. intros Hs Hc.
  rewrite (cleanup_released _ _ _ Hr Hs Hc) in D3. by destruct (isDisconnected_ s'); [|cbn in D3; lia].
Qed.

(** An error ends the collaboration: when an end event waits, or the first event is
    refused by its state or its handler fails, the event thread, left alone, empties its
    queue within two turns for every waiting event and asks the manager to clean up, provided
    the object was not disconnected and its event handler takes the events sent to it. *)
Theorem collab_failure_cleans_up s t e q x :
  wf s -> willing s -> isDisconnected_ s = false -> queue_ s = e :: q -> currentState_ s = Some x ->
  (exists r, In (ERR_END_EVENT r) (e :: q)) \/
  (exists ret s1 t1, state_Execute x e (set_queue q s) t = Done (ret, s1, t1) /\ ret <> ERR_OK) ->
  exists s' l, drain (2 * length (e :: q)) s t = Done (s', t ++ l) /\ queue_ s' = [] /\ wf s' /\
    In (ManagerCleanUpSession (collabToken_ (collabInfo_ s))) l.
Proof.
  intros Hwf Hwill Hnd Hq Hx Hcase. pose proof (weight_bound (e :: q)) as Hbound. rewrite <- Hq in Hbound at 1.
  destruct Hcase as [Hend|(ret & s1 & t1 & H1 & Hret)].
  - destruct (collab_drain_ends _ s t Hwf Hbound) as (s' & l & Hd & Hempty & Hwf' & _ & Hc).
    exists s', l. split_and!; [done..|]. apply Hc. by rewrite Hq.
  - destruct (collab_event_turn_progress s t e q x Hwf Hx Hq)
      as (s2 & l0 & H2 & Hwf2 & (_ & _ & Htok & _) & Hq2 & _ & _ & Hfail).
    set (n := S (2 * length q)).
    assert (weight (queue_ s2) <= n)%nat as Hw2.
    { pose proof (weight_bound q). destruct Hq2 as [->|(_ & r & ->)]; [lia|]. rewrite weight_app. cbn. lia. }
    destruct (collab_drain_ends n s2 (t ++ l0) Hwf2 Hw2) as (s' & l & Hd & Hempty & Hwf' & _ & Hc).
    exists s', (l0 ++ l). replace (2 * length (e :: q))%nat with (S n) by (cbn [length]; lia).
    split_and!; [|done..|].
    + cbn [drain]. rewrite Hq, H2. cbn [run_bind]. by rewrite Hd, app_assoc.
    + apply in_or_app. unfold cleaned in *. rewrite Htok in Hc.
      destruct (Hfail ret s1 t1 H1 Hret Hwill Hnd) as [Hl|Hr]; [by left|right; by apply Hc].
Qed.

(** ** Commands of the peer *)

Section Dispatch.
Context {Jok : CJsonOk J} {Nok : NJsonOk J N} {max : Z} {PLok : ParcelLibOk PL max} (Hmax : max < 2 ^ 30).
Context (Hsend : forall t, SendEvent_ok t = true) (Hmdm : forall t, IsMDMControl t = false).

Lemma collab_unmarshal_sent text :
  no_nul text ->
  GetSinkCollabVersionCmdCodec.Unmarshal (text ++ [0]) = GetSinkCollabVersionCmdCodec.Unmarshal text /\
  SinkStartCmdCodec.Unmarshal (text ++ [0]) = SinkStartCmdCodec.Unmarshal text /\
  NotifyResultCmdCodec.Unmarshal (text ++ [0]) = NotifyResultCmdCodec.Unmarshal text.
Proof.
  intros H. unfold GetSinkCollabVersionCmdCodec.Unmarshal, SinkStartCmdCodec.Unmarshal,
    NotifyResultCmdCodec.Unmarshal. by rewrite parse_sent.
Qed.

Lemma Collab_OnDataRecv_sent peer n text s t :
  OnDataRecv peer n (sent text) s t =
  (if n =? SOURCE_GET_VERSION_CMD then HandleSourceGetVersionCmd (text ++ [0])
   else if n =? SINK_START_CMD then HandleSinkStartCmd (text ++ [0]) peer
   else if n =? NOTIFY_RESULT_CMD then HandleNotifyResultCmd (text ++ [0])
   else if n =? DISCONNECT_CMD then HandleDisconnectCmd
   else mret tt) s t.
Proof.
  unfold OnDataRecv, sent. cbn [data_ buffer_of]. unfold mbind at 1.
  rewrite load_sent. cbn [run_bind]. reflexivity.
Qed.

Lemma collab_post_event_posts e s t :
  eventHandler_ s = true ->
  post_event e s t = Done (ERR_OK, set_queue (queue_ s ++ [e]) s, t ++ [Query]).
Proof.
  intros Hh. unfold post_event, SendEvent, ask, call, mbind, get, modify. cbn [run_bind].
  rewrite Hh. cbn [negb run_bind]. by rewrite Hsend.
Qed.

Lemma CheckMDMControl_no s t : CheckMDMControl s t = Done (false, s, t ++ [Query]).
Proof. unfold CheckMDMControl, ask, call, mbind. cbn [run_bind]. by rewrite Hmdm. Qed.

Lemma SetSinkCollabInfo_run c s t : exists u l,
  SetSinkCollabInfo c s t = Done (tt,
    set_collabInfo (set_sinkUserId u (take_start c (collabInfo_ s))) s, t ++ l).
Proof.
  unfold SetSinkCollabInfo, modify_info, modify, mbind at 1. cbn [run_bind].
  assert (set_sinkUserId (sinkUserId_ (collabInfo_ s)) (take_start c (collabInfo_ s))
    = take_start c (collabInfo_ s)) as Hsame by done.
  destruct os_account_part; [|exists (sinkUserId_ (collabInfo_ s)), []; by rewrite Hsame, app_nil_r].
  unfold mbind, ask, call. cbn [run_bind]. destruct (QueryActiveOsAccountIds t) as (ret & ids).
  destruct (negb _), ids as [|u ids]; try (exists (sinkUserId_ (collabInfo_ s)), [Query]; by rewrite Hsame).
  by exists u, [Query].
Qed.

Lemma start_received_run c version peer s t :
  eventHandler_ s = true -> start_wf (max := max) c version -> exists text u l,
    SinkStartCmdCodec.Marshal c = ok text /\
    OnDataRecv peer SINK_START_CMD (sent text) s t = Done (tt,
      set_queue (queue_ s ++ [START_ABILITY_EVENT peer])
        (set_collabInfo (set_sinkUserId u (take_start (start_received c) (collabInfo_ s))) s), t ++ l).
Proof.
  intros Hh Hwf. destruct (start_cmd_roundtrip Hmax c version Hwf) as (text & H1 & H2 & _ & H4).
  destruct (SetSinkCollabInfo_run (start_received c) s t) as (u & l & Hset).
  exists text, u, (l ++ [Query; Query]). split; [done|].
  rewrite Collab_OnDataRecv_sent. change (if SINK_START_CMD =? SOURCE_GET_VERSION_CMD then _ else _)
    with (HandleSinkStartCmd (text ++ [0]) peer).
  unfold HandleSinkStartCmd. destruct (collab_unmarshal_sent text H2) as (_ & -> & _). rewrite H4.
  unfold mbind at 1, from_run at 1, ok. cbn [run_bind]. unfold mbind at 1. rewrite Hset. cbn [run_bind].
  unfold mbind at 1. rewrite CheckMDMControl_no. cbn [run_bind]. unfold PostSinkStartTask, mbind.
  rewrite collab_post_event_posts by done. cbn [run_bind]. by rewrite <- !app_assoc.
Qed.

(** The peer's commands reach the collaboration: what the sender marshals and sends is
    read back, kept and posted as the event of the command.  The version answer and the
    result leave the sink's part of the information, the start command the source's, the
    sink's and the options; a result with a reason leaves nothing but the rejection; the
    disconnect command runs the clean-up at once, on the receiving thread. *)
Theorem collab_commands_dispatched peer s t :
  eventHandler_ s = true ->
  let i := collabInfo_ s in
  (forall c, collab_base_wf (version_base c) -> is_int32 (version_srcPid_ c) ->
    is_int32 (version_srcUid_ c) -> is_int32 (version_srcAccessToken_ c) ->
    is_int32 (CollabEvent.sinkCollabVersion_ c) ->
    exists text, GetSinkCollabVersionCmdCodec.Marshal c = ok text /\
      OnDataRecv peer SOURCE_GET_VERSION_CMD (sent text) s t = Done (tt,
        set_queue (queue_ s ++ [SOURCE_GET_VERSION_EVENT])
          (set_collabInfo (set_sinkCollabVersion (CollabEvent.sinkCollabVersion_ c) i) s), t ++ [Query])) /\
  (forall c version, start_wf (max := max) c version ->
    exists text user l, SinkStartCmdCodec.Marshal c = ok text /\
      OnDataRecv peer SINK_START_CMD (sent text) s t = Done (tt,
        set_queue (queue_ s ++ [START_ABILITY_EVENT peer])
          (set_collabInfo (set_sinkUserId user (take_start (start_received c) i)) s), t ++ l)) /\
  (forall c, notify_wf c ->
    exists text s' l, NotifyResultCmdCodec.Marshal c = ok text /\
      OnDataRecv peer NOTIFY_RESULT_CMD (sent text) s t = Done (tt, s', t ++ l) /\
      if empty (abilityRejectReason_ c)
      then queue_ s' = queue_ s ++ [NOTIFY_RESULT_EVENT (result_ c)] /\
        exists a b, collabInfo_ s' = set_srcUdid a (set_sinkUdid b (take_result c i))
      else s' = set_queue (queue_ s ++ [ABILITY_REJECT_EVENT (abilityRejectReason_ c)]) s) /\
  (forall text, OnDataRecv peer DISCONNECT_CMD (sent text) s t =
    (do! CleanUpSession in mret tt) s (t ++ [Query])).
Proof.
  intros Hh i. split_and!.
  - intros c Hb H1 H2 H3 H4. destruct (version_cmd_roundtrip c Hb H1 H2 H3 H4) as (text & M1 & M2 & _ & M4).
    exists text. split; [done|]. rewrite Collab_OnDataRecv_sent.
    change (if SOURCE_GET_VERSION_CMD =? SOURCE_GET_VERSION_CMD then _ else _) with (HandleSourceGetVersionCmd (text ++ [0])).
    unfold HandleSourceGetVersionCmd. destruct (collab_unmarshal_sent text M2) as (-> & _). rewrite M4.
    unfold from_run, modify_info, modify, mbind, PostSrcGetVersionTask, ok. cbn [run_bind].
    by rewrite collab_post_event_posts.
  - intros c version Hwf. by eapply start_received_run.
  - intros c Hwf. destruct (notify_cmd_roundtrip c Hwf) as (text & M1 & M2 & _ & M4).
    exists text. rewrite Collab_OnDataRecv_sent.
    change (if NOTIFY_RESULT_CMD =? SOURCE_GET_VERSION_CMD then _ else _) with (HandleNotifyResultCmd (text ++ [0])).
    unfold HandleNotifyResultCmd. destruct (collab_unmarshal_sent text M2) as (_ & _ & ->). rewrite M4.
    unfold mbind at 1, from_run at 1, ok. cbn [run_bind].
    unfold mbind at 1. rewrite CheckMDMControl_no. cbn [run_bind]. unfold PostSrcResultTask, mbind, get.
    cbn [run_bind]. rewrite Hh. cbn [negb]. destruct (empty (abilityRejectReason_ c)); cbn [negb].
    + eexists _, [Query; Query; Query; Query]. split; [done|]. split.
      * unfold modify_info, modify, set_udids, SendEvent, ask, call, mbind, get, modify_info, modify. cbn [run_bind].
        rewrite Hsend. cbn [run_bind]. rewrite <- !app_assoc. reflexivity.
      * split; [done|]. by eexists _, _.
    + eexists _, [Query; Query]. split; [done|]. split.
      * unfold modify, SendEvent, ask, call, mbind. cbn [run_bind].
        rewrite Hsend. cbn [run_bind]. rewrite <- !app_assoc. reflexivity.
      * done.
  - intros text. rewrite Collab_OnDataRecv_sent. change (if DISCONNECT_CMD =? SOURCE_GET_VERSION_CMD then _ else _) with HandleDisconnectCmd.
    unfold HandleDisconnectCmd, mbind at 1. by rewrite CheckMDMControl_no.
Qed.

(** A start command is obeyed by either side in any state: a source that receives one
    takes its sink from the command, so that its clean-up releases the device the command
    names, not the one it connected to. *)
Theorem start_command_redirects_release c version peer s t :
  eventHandler_ s = true -> isDisconnected_ s = false -> direction_ (collabInfo_ s) = COLLAB_SOURCE ->
  start_wf (max := max) c version -> exists text s1 l1,
    SinkStartCmdCodec.Marshal c = ok text /\
    OnDataRecv peer SINK_START_CMD (sent text) s t = Done (tt, s1, t ++ l1) /\
    forall t1, exists ret s2 l2,
      CleanUpSession s1 t1 = Done (ret, s2, t1 ++ DisconnectDevice (CollabEvent.sinkDeviceId_ (start_base c)) :: l2).
Proof.
  intros Hh Hnd Hd Hwf. destruct (start_received_run c version peer s t Hh Hwf) as (text & u & l & H1 & H2).
  eexists text, _, l. split; [done|]. split; [exact H2|]. intros t1.
  set (s1 := set_queue _ _). destruct (CleanUpSession_total s1 t1) as (((ret & s2) & t2) & H).
  pose proof H as (l2 & Ht & _)%(Collab_CleanUpSession_run []). exists ret, s2.
  change (direction_ (collabInfo_ s1)) with (direction_ (collabInfo_ s)) in Ht.
  change (isDisconnected_ s1) with (isDisconnected_ s) in Ht. rewrite Hd, Hnd in Ht.
  eexists. rewrite H, Ht. reflexivity.
Qed.
End Dispatch.

(** When the client cannot be told of a success, the source ends the collaboration with
    the code of the success: the client is told once more that the result is ERR_OK, although
    the session is cleaned up. *)
Theorem failed_notification_reported_as_success s t callback :
  wf s -> willing s -> isDisconnected_ s = false -> currentState_ s = Some SOURCE_WAIT_RESULT_STATE ->
  queue_ s = [NOTIFY_RESULT_EVENT ERR_OK] -> srcClientCB_ (collabInfo_ s) = Some callback ->
  (forall t, WriteInterfaceToken t = true) -> (forall t, WriteMembers t = true) ->
  SendRequest_ret ((t ++ [Query]) ++ [Query]) <> ERR_OK ->
  let i := collabInfo_ s in
  let told := NotifyPrepareResult callback (srcCollabSessionId_ i) ERR_OK
    (socketName_ (sinkInfo_ i)) (collabToken_ i) [] in
  exists s' l1 l2, drain 2 s t = Done (s', t ++ [Query; Query; told] ++ l1 ++ told :: l2) /\ queue_ s' = [] /\
    In (ManagerCleanUpSession (collabToken_ i)) l2.
Proof.
  intros Hwf (Hh & Hsend) Hnd Hx Hq Hcb Htok Hmem Hret i told.
  set (s1 := set_queue [ERR_END_EVENT ERR_OK] s).
  assert (state_Execute SOURCE_WAIT_RESULT_STATE (NOTIFY_RESULT_EVENT ERR_OK) (set_queue [] s) t
    = Done (ERR_OK, s1, t ++ [Query; Query; told; Query])) as H1.
  { pose proof (ExeSrcClientNotify_run ERR_OK [] callback (set_queue [] s) t Hcb Htok Hmem) as Hn.
    cbv zeta in Hn. unfold state_Execute. cbn [memberFuncMap_ SrcWaitResultState_memberFuncMap_].
    unfold ExeSrcCollabResult. change (negb (ERR_OK =? ERR_OK) && _) with false. cbn iota.
    unfold mbind. rewrite Hn. cbn [run_bind empty negb].
    destruct (SendRequest_ret _ =? ERR_OK) eqn:E; [by apply Z.eqb_eq in E|]. cbn [negb].
    unfold PostErrEndTask, post_event, SendEvent, ask, call, mbind, get, modify. cbn [run_bind].
    change (isDisconnected_ (set_queue [] s)) with (isDisconnected_ s). rewrite Hnd.
    change (eventHandler_ (set_queue [] s)) with (eventHandler_ s). rewrite Hh. cbn [negb run_bind].
    rewrite Hsend. cbn [run_bind]. by rewrite <- !app_assoc. }
  destruct (ExeSrcWaitResultError_run ERR_OK callback (set_queue [] s1) (t ++ [Query; Query; told; Query]) Hcb Htok Hmem)
    as (s2 & l1 & l2 & H2 & Hempty & Hin). fold i told in H2, Hin.
  exists s2, (Query :: l1), l2. split_and!; [|done..]. cbn [drain]. rewrite Hq.
  rewrite (event_turn_ok _ _ _ _ _ _ _ Hwf Hx Hq H1). cbn [run_bind queue_ set_queue s1].
  rewrite (event_turn_ok SOURCE_WAIT_RESULT_STATE (ERR_END_EVENT ERR_OK) [] s1 _ _ _ Hwf Hx eq_refl H2).
  cbn [run_bind]. rewrite Hempty. cbn [queue_ set_queue]. by rewrite <- !app_assoc.
Qed.
End Properties.

(** ** Concrete collaborations *)

Module Demo.
#[export] Existing Instance DemoJson.demo.
#[export] Existing Instance DemoJson.extra.
#[export] Existing Instance DemoWant.demo.
#[export] Existing Instance DemoParams.demo.
#[export] Existing Instance demo_parcels.

(** Services that agree, except that clients answer requests with [request]. *)
Definition env_with (request : list Effect -> Z) : CollabEnv := {|
  os_account_part := true;
  check_screenlock := true;
  ERR_FLATTEN_OBJECT := 3;
  ERR_NULL_OBJECT := 7;
  SendEvent_ok _ := true;
  ConnectDevice_ret _ _ := (ERR_OK, Some 5);
  SendData_ret _ _ _ := ERR_OK;
  GetLocalBundleInfoV9 _ _ := (ERR_OK, 1000);
  GetCallerAppIdFromBms _ _ := Some (str "app");
  GetBundleNameListFromBms _ _ := Some [str "com.demo"];
  GetAccountInfo _ _ _ := (ERR_OK, AccountInfo_default);
  IsAbilityForeground _ _ := true;
  CheckSrcBackgroundPermission _ _ := true;
  CheckCollabStartPermission _ _ _ _ _ := ERR_OK;
  AmsConnect _ := ERR_OK;
  StartAbilityByCall_ret _ _ := ERR_OK;
  GetSecure _ := false;
  IsLocked _ := false;
  QueryActiveOsAccountIds _ := (ERR_OK, [100]);
  GetUdidByNetworkId _ d := d;
  IsMDMControl _ := false;
  GetActiveAccountId _ := 100;
  IsMDMControlWithExemption _ _ _ _ := false;
  WriteInterfaceToken _ := true;
  WriteMembers _ := true;
  SendRequest_ret := request;
  GetAppManager _ := true;
  RegisterObserver_ret _ := ERR_OK;
  CleanUpSession_ret _ := ERR_OK
|}.
Definition env : CollabEnv := env_with (fun _ => ERR_OK).

Definition src_message : CollabMessage :=
  mkCollabMessage 100 20010 5 (str "src") (str "com.demo") (str "Main") (str "entry") (str "s1") [].
Definition sink_message : CollabMessage :=
  mkCollabMessage (-1) (-1) (-1) (str "dst") (str "com.demo") (str "Main") (str "entry") (str "s1") [].

Definition info (direction : Z) : DSchedCollabInfo :=
  mkCollabInfo 7 9 (-1) 1 0 0 direction (str "token") [] [] (-1) CallerInfo_default AccountInfo_default
    src_message sink_message ConnectOpt_default (Some 1) None.

Definition object (direction : Z) (state : CollabStateType) (queue : list InnerEvent) : DSchedCollab :=
  mkCollab (info direction) 5 false false true (Some state) true queue [].

Lemma collab_object_wf direction state queue : wf (object direction state queue).
Proof. split; [done|]. by exists state. Qed.

(** A source from its first event to the end the peer asked for. *)
Definition script (version : bytes) : list step :=
  [EventTurn; Received (str "dst") SOURCE_GET_VERSION_CMD (sent version); EventTurn;
   Mission (info COLLAB_SOURCE); TaskTurn; EventTurn; Failed 5; Received (str "dst") DISCONNECT_CMD (sent []);
   EventTurn; Ended; EventTurn; Stopped].
End Demo.
Import Demo.

(** The version of the peer cannot be read: the event thread's turn on the error, the third
    step, releases the peer. *)
Lemma collab_run_safe_witness :
  let s := Demo.object COLLAB_SOURCE SOURCE_GET_PEER_VERSION_STATE [SOURCE_GET_PEER_VERSION_EVENT] in
  let steps := Demo.script (str "not a command") in
  exists s' t, perform_all (Ev := Demo.env) (PL := demo_parcels) steps s [] = Done (tt, s', t) /\
    wf s' /\ isDisconnected_ s' = true /\ count is_disconnect t = 1%nat /\ count is_connect t = 1%nat /\
    exists s1 s2 l2, release_step s1 s2 l2 /\
    In (DisconnectDevice (peer_on_record s1)) l2.
Proof.
  intros s steps.
  assert (Forall step_ok steps) as Hok.
  { repeat apply Forall_cons_2; try exact I; try apply Forall_nil_2;
      (split; [apply buffer_of_wf; vm_compute; split; reflexivity|reflexivity]). }
  destruct (collab_run_safe (J := DemoJson.demo) (PL := demo_parcels) (Ev := Demo.env)
    (JR := DemoJson.demo_reads) (PB := demo_parcels_bound)
    steps s [] (Demo.collab_object_wf _ _ _) Hok) as (s' & l & Hrun & Hwf & Hsplit & Hd & _).
  assert (ends_with (fun _ s' t => isDisconnected_ s' && Nat.eqb (count is_connect t) 1)
    (perform_all (Ev := Demo.env) (PL := demo_parcels) steps s []) = true) as Hend by (vm_compute; reflexivity).
  rewrite Hrun in Hend. apply andb_true_iff in Hend as (Hdis & Hc). apply Nat.eqb_eq in Hc.
  rewrite Hdis in Hd. cbn in Hd.
  exists s', l. split; [exact Hrun|]. split; [exact Hwf|]. split; [exact Hdis|].
  split; [rewrite <- Hd; symmetry; apply Nat.add_0_r|]. split; [exact Hc|].
  destruct (Hsplit (take 2 steps) EventTurn (drop 3 steps) eq_refl)
    as (s1 & l1 & s2 & l2 & l3 & H1 & H2 & _ & Hr & _).
  assert (ends_with (fun _ s1 t1 => ends_with (fun _ s2 t2 => negb (isDisconnected_ s1) && isDisconnected_ s2)
    (perform (Ev := Demo.env) (PL := demo_parcels) EventTurn s1 t1))
    (perform_all (Ev := Demo.env) (PL := demo_parcels) (take 2 steps) s []) = true) as Hstep by (vm_compute; reflexivity).
  rewrite H1 in Hstep. unfold ends_with at 1 in Hstep. rewrite H2 in Hstep.
  apply andb_true_iff in Hstep as (Hnd%negb_true_iff & Hd2).
  exists s1, s2, l2. split; [exact Hr|].
  destruct Hr as [(Heq & _)|(_ & _ & _ & p & q & Hl2 & _)]; [congruence|]. rewrite Hl2.
  apply in_elt.
Defined.

(** The version answer of an unexpected state. *)
Lemma collab_failure_cleans_up_witness :
  let s := Demo.object COLLAB_SOURCE SOURCE_START_STATE [SOURCE_GET_VERSION_EVENT; END_EVENT] in
  exists s' t, drain (Ev := Demo.env) 4 s [] = Done (s', t) /\ queue_ s' = [] /\
    In (ManagerCleanUpSession (str "token")) t.
Proof.
  intros s.
  destruct (collab_failure_cleans_up (J := DemoJson.demo) (Ev := Demo.env)
    s [] SOURCE_GET_VERSION_EVENT [END_EVENT] SOURCE_START_STATE (Demo.collab_object_wf _ _ _)
    (conj eq_refl (fun _ => eq_refl)) eq_refl eq_refl eq_refl) as (s' & l & Hd & Hq & _ & Hin).
  - right. exists Dms.COLLAB_STATE_MACHINE_INVALID_STATE, (set_queue [END_EVENT] s), [].
    split; [reflexivity|discriminate].
  - exists s', l. split; [exact Hd|]. split; [exact Hq|exact Hin].
Defined.

Lemma collab_commands_dispatched_witness :
  let s := Demo.object COLLAB_SINK SINK_START_STATE [] in
  exists text s' t, SinkStartCmdCodec.Marshal (J := DemoJson.demo) demo_start = ok text /\
    OnDataRecv (Ev := Demo.env) (PL := demo_parcels) (str "src") SINK_START_CMD (sent text) s [] = Done (tt, s', t) /\
    queue_ s' = [START_ABILITY_EVENT (str "src")] /\
    appVersion_ demo_start = srcAppVersion_ (collabInfo_ s').
Proof.
  intros s.
  destruct (collab_commands_dispatched (J := DemoJson.demo) (Jok := DemoJson.demo_ok) (Nok := DemoJson.extra_ok)
    (PL := demo_parcels) (PLok := demo_parcels_ok) (Ev := Demo.env) ltac:(reflexivity)
    (fun _ => eq_refl) (fun _ => eq_refl) (str "src") s [] eq_refl) as (_ & H & _).
  destruct (H demo_start 6 demo_start_wf) as (text & user & l & Hm & Hr).
  eexists text, _, l. split; [exact Hm|]. split; [exact Hr|]. split; reflexivity.
Defined.

Lemma start_command_redirects_release_witness :
  let s := Demo.object COLLAB_SOURCE SOURCE_WAIT_RESULT_STATE [] in
  exists text s1 t1, OnDataRecv (Ev := Demo.env) (PL := demo_parcels) (str "evil") SINK_START_CMD (sent text) s []
      = Done (tt, s1, t1) /\
    exists ret s2 l, CleanUpSession (Ev := Demo.env) s1 t1
      = Done (ret, s2, t1 ++ DisconnectDevice (sinkDeviceId_ demo_collab_base) :: l).
Proof.
  intros s.
  destruct (start_command_redirects_release (J := DemoJson.demo) (Jok := DemoJson.demo_ok) (Nok := DemoJson.extra_ok)
    (PL := demo_parcels) (PLok := demo_parcels_ok) (Ev := Demo.env) ltac:(reflexivity)
    (fun _ => eq_refl) (fun _ => eq_refl) demo_start 6 (str "evil") s [] eq_refl eq_refl eq_refl demo_start_wf)
    as (text & s1 & l1 & _ & Hr & Hc).
  exists text, s1, l1. split; [exact Hr|]. exact (Hc l1).
Defined.

Lemma failed_notification_reported_as_success_witness :
  let s := Demo.object COLLAB_SOURCE SOURCE_WAIT_RESULT_STATE [NOTIFY_RESULT_EVENT ERR_OK] in
  let told := NotifyPrepareResult 1 7 ERR_OK [] (str "token") [] in
  exists s' l1 l2, drain (Ev := Demo.env_with (fun _ => 32)) 2 s []
      = Done (s', [Query; Query; told] ++ l1 ++ told :: l2) /\
    queue_ s' = [] /\ In (ManagerCleanUpSession (str "token")) l2.
Proof.
  intros s told.
  exact (failed_notification_reported_as_success (J := DemoJson.demo)
    (Ev := Demo.env_with (fun _ => 32)) s [] 1 (Demo.collab_object_wf _ _ _) (conj eq_refl (fun _ => eq_refl))
    eq_refl eq_refl eq_refl eq_refl (fun _ => eq_refl) (fun _ => eq_refl) ltac:(discriminate)).
Defined.
