(* ===== verification/CollabManager.v ===== *)
(** * The manager of the collaborations

    services/dtbschedmgr/src/collab/dsched_collab_manager.cpp: the table of the running
    collaborations under their tokens.  Requests of clients, received data, timeouts and
    clean-ups are posted as tasks and run one at a time on the manager's thread; a
    collaboration has a thread of its own ([Collab.event_turn], [Collab.task_turn]) and asks
    the manager to clean up after it.

    The state is [DSchedCollabManager]; [mgr_tasks_] is the queue of [EventQueue.v] and
    [now_] its clock in milliseconds.  An object of the table is never null; [on_object]
    runs one of its functions and then what that function asked of the manager.  An object
    whose token is taken is not entered, yet told to begin, and destroyed when the pointer to
    it goes: how many turns its thread still made is an answer of the environment
    ([dropped_turns]).  The all-connect hooks (COLLAB_ALL_CONNECT_DECISIONS,
    DMSFWK_ALL_CONNECT_MGR), which the default build leaves out, and [GenerateCollabToken],
    which nothing calls, are not modelled. *)

From Stdlib Require Import ZArith Lia String.
From stdpp Require Import base list option.
From S2P Require Import Prelude ErrorCodes DataBuffer StdMap StdString EventQueue Base64 Framework ContinueEvent CollabEvent Effects Collab.

(** ** Data *)

Definition COLLAB_TIMEOUT : Z := 10000.
Definition BACKGROUND_TIMEOUT : Z := 5000.
Definition MAX_CONCURRENT_COLLABS : Z := 512.
Definition NO_NEED_TO_CHECK_ID : Z := -1.

Definition ACCEPT : Z := 0.
Definition REJECT : Z := 1.
Definition ON_COLLABORATE_ERR : Z := 10.

(** [std::string] as a key. *)
#[export] Instance token_order : KeyOrder bytes := bytes_ltb.

(** The device, process, token and user the relation checker of softbus asks about. *)
Record CollabInfo := mkCheckedInfo {
  checked_deviceId : bytes;
  checked_pid : Z;
  checked_tokenId : Z;
  checked_userId : Z
}.

Section Manager.
Context {J : CJson} {N : NJson} {W : WantLib} {P : ParamsLib} {PL : ParcelLib} {Ev : CollabEnv}.

(** The lambdas the manager posts to its thread. *)
Inductive Task :=
| TaskGetSinkCollabVersion (info : DSchedCollabInfo)
| TaskTimeOut (collabToken : bytes)
| TaskPrepareResult (dSchedCollabInfo : DSchedCollabInfo) (result : Z)
| TaskCloseSessions (bundleName : bytes) (pid : Z)
| TaskReleaseAbilityLink (bundleName : bytes) (pid : Z) (collabToken : bytes)
| TaskCleanUp (collabToken : bytes)
| TaskDataRecv (softbusSessionId : Z) (dataBuffer : option DataBuffer)
| TaskShutdown (socket : Z).

Record DSchedCollabManager := mkManager {
  mgr_eventHandler_ : bool;
  now_ : Z;
  mgr_tasks_ : list (Posted Task);
  collabs_ : std_map bytes DSchedCollab
}.

(** What the manager asks that a collaboration does not. *)
Class CollabManagerEnv := {
  RegisterRelationChecker : list Effect -> Z;
  GetLocalDeviceId : list Effect -> option bytes;
  GetDeviceInfoById : list Effect -> bytes -> bool;
  CheckNetworkIdByBundleName : list Effect -> bytes -> bytes -> bool;
  IsCallerForeground : list Effect -> Z -> bool;
  IsSystemAppByFullTokenID : list Effect -> bool;
  GetPeerDeviceIdBySocket : list Effect -> Z -> bytes;
  IsWifiActive : list Effect -> bool;
  dropped_turns : list Effect -> nat
}.

Context {ME : CollabManagerEnv}.

Definition Mg (A : Type) : Type := M DSchedCollabManager Effect A.

Definition query {A} (oracle : list Effect -> A) : Mg A := call Query oracle.

Definition set_mgr_tasks (l : list (Posted Task)) (g : DSchedCollabManager) : DSchedCollabManager :=
  mkManager (mgr_eventHandler_ g) (now_ g) l (collabs_ g).
Definition set_collabs (l : std_map bytes DSchedCollab) (g : DSchedCollabManager) : DSchedCollabManager :=
  mkManager (mgr_eventHandler_ g) (now_ g) (mgr_tasks_ g) l.

(** ** Tasks *)

(** [eventHandler_->PostTask(func, name, delay)]. *)
Definition PostTask (task : Task) (name : bytes) (delay : Z) : Mg unit :=
  modify (fun g => set_mgr_tasks (insert_task (mkPosted (now_ g + delay) name task) (mgr_tasks_ g)) g).

(** The end of every function that posts a task and answers a code. *)
Definition post_task (task : Task) : Mg Z :=
  let! g := get in
  if negb (mgr_eventHandler_ g) then mret Dms.INVALID_PARAMETERS_ERR
  else do! PostTask task [] 0 in mret ERR_OK.

(** [eventHandler_->RemoveTask(name)]; a task without a name is not found by name. *)
Definition RemoveTask (name : bytes) : Mg unit :=
  if empty name then mret tt else modify (fun g => set_mgr_tasks (remove_tasks name (mgr_tasks_ g)) g).

(** [timeout > 0 ? PostTask(func, collabToken, timeout) : PostTask(func)]. *)
Definition SetTimeOut (collabToken : bytes) (timeout : Z) : Mg unit :=
  let! g := get in
  when mgr_eventHandler_ g do
    if 0 <? timeout then PostTask (TaskTimeOut collabToken) collabToken timeout
    else PostTask (TaskTimeOut collabToken) [] 0.

Definition RemoveTimeout (collabToken : bytes) : Mg unit :=
  let! g := get in
  when mgr_eventHandler_ g do RemoveTask collabToken.

Definition CleanUpSession (collabToken : bytes) : Mg Z := post_task (TaskCleanUp collabToken).

(** What a function of an object asked of the manager. *)
Definition call_back (e : Effect) : Mg unit :=
  match e with
  | ManagerCleanUpSession collabToken => do! CleanUpSession collabToken in mret tt
  | _ => mret tt
  end.

(** Runs a function of an object and then its calls to the manager. *)
Definition with_object {A} (m : C A) (s : DSchedCollab) : Mg (A * DSchedCollab) := fun g t =>
  let* (a, s', t') := m s t in
  let* (_, g, t'') := mfor (drop (length t) t') call_back g t' in
  Done ((a, s'), g, t'').

(** The same for an object of the table, which keeps what becomes of it. *)
Definition on_object {A} (collabToken : bytes) (m : C A) : Mg (option A) :=
  let! g := get in
  match map_find (collabs_ g) collabToken with
  | None => mret None
  | Some s =>
    let! (a, s) := with_object m s in
    do! modify (fun g => set_collabs (map_assign (collabs_ g) collabToken s) g) in
    mret (Some a)
  end.

Definition GetDSchedCollabByTokenId (tokenId : bytes) : Mg (option DSchedCollab) :=
  let! g := get in
  if empty tokenId then mret None else mret (map_find (collabs_ g) tokenId).

(** A function of the object under a token that is not empty, with the answer when there is
    no such object. *)
Definition on_collab (collabToken : bytes) (none : Z) (m : C Z) : Mg Z :=
  let! found := GetDSchedCollabByTokenId collabToken in
  match found with
  | None => mret none
  | Some _ =>
    let! answer := on_object collabToken m in
    mret (match answer with Some ret => ret | None => none end)
  end.

(** ** Starting *)

Definition set_src_device (deviceId : bytes) (i : DSchedCollabInfo) : DSchedCollabInfo :=
  let m := srcInfo_ i in
  mkCollabInfo (srcCollabSessionId_ i) (sinkCollabSessionId_ i) (sinkUserId_ i)
    (srcCollabVersion_ i) (sinkCollabVersion_ i) (srcAppVersion_ i) (direction_ i)
    (collabToken_ i) (srcUdid_ i) (sinkUdid_ i) (sinkAccountId_ i) (callerInfo_ i)
    (srcAccountInfo_ i)
    (mkCollabMessage (pid_ m) (uid_ m) (accessToken_ m) deviceId (bundleName_ m) (abilityName_ m)
      (moduleName_ m) (serverId_ m) (socketName_ m))
    (sinkInfo_ i) (srcOpt_ i) (srcClientCB_ i) (sinkClientCB_ i).

Definition GetSinkCollabVersion (info : DSchedCollabInfo) : Mg Z :=
  if (srcCollabSessionId_ info <? 0) || empty (deviceId_ (sinkInfo_ info))
     || match srcClientCB_ info with None => true | Some _ => false end
  then mret Dms.INVALID_PARAMETERS_ERR
  else
    let! local := query GetLocalDeviceId in
    match local with
    | None => mret Dms.FIND_LOCAL_DEVICEID_ERR
    | Some localDeviceId =>
      let! _ := query (fun t => GetDeviceInfoById t (deviceId_ (sinkInfo_ info))) in
      post_task (TaskGetSinkCollabVersion (set_src_device localDeviceId info))
    end.

(** A new object after [Init] and [UpdateState]. *)
Definition initialised (state : CollabStateType) (s : DSchedCollab) : DSchedCollab :=
  set_currentState (Some state) (start_thread s).

(** The end of an object that no table entry keeps. *)
Definition drop_object (s : DSchedCollab) : Mg unit :=
  let! turns := query dropped_turns in
  let! (_, s) := with_object (mfor (replicate turns tt) (fun _ => event_turn)) s in
  do! with_object destroy s in
  mret tt.

(** The object enters the table, unless the table is full, and is told to begin; the
    timeout is set for the token. *)
Definition enter_collab (collabToken : bytes) (s : DSchedCollab) (begin : C Z) : Mg unit :=
  let! g := get in
  if MAX_CONCURRENT_COLLABS <=? Z.of_nat (length (collabs_ g)) then
    do! with_object destroy s in mret tt
  else if map_count (collabs_ g) collabToken then
    let! (_, s) := with_object begin s in
    do! SetTimeOut collabToken COLLAB_TIMEOUT in
    drop_object s
  else
    do! modify (fun g => set_collabs (map_assign (collabs_ g) collabToken s) g) in
    do! on_object collabToken begin in
    SetTimeOut collabToken COLLAB_TIMEOUT.

Definition HandleGetSinkCollabVersion (info : DSchedCollabInfo) : Mg unit :=
  let collabToken := collabToken_ info in
  enter_collab collabToken
    (initialised SOURCE_GET_PEER_VERSION_STATE (construct_source collabToken info))
    PostSrcGetPeerVersionTask.

(** [CHECK_MDM_CONTROL_BY_BUNDLENAME]. *)
Definition mdm_control (bundleName : bytes) : Mg bool :=
  let! control := query IsMDMControl in
  if negb control then mret false
  else
    let! accountId := query GetActiveAccountId in
    query (fun t => IsMDMControlWithExemption t bundleName COLLABORATION_SERVICE accountId).

(** [IsStartForeground] of the manager, on the information of a request. *)
Definition IsStartForeground (info : DSchedCollabInfo) : bool :=
  match GetParam_String (startParams_ (srcOpt_ info)) KEY_START_OPTION with
  | Some startOpt => if bytes_eqb startOpt VALUE_START_OPTION_BACKGROUND then false else true
  | None => true
  end.

(** The task captures the information; the object's thread runs it
    ([Collab.start_mission]). *)
Definition DispatchCollabMission (collabToken : bytes) (info : DSchedCollabInfo) : Mg Z :=
  let! answer := on_object collabToken (
    let! s := get in
    if negb (eventHandler_ s) then mret Dms.INVALID_PARAMETERS_ERR
    else do! modify (fun s => set_tasks (tasks_ s ++ [info]) s) in mret ERR_OK) in
  mret (match answer with Some ret => ret | None => Dms.INVALID_PARAMETERS_ERR end).

(** What the request of an application that is not a system application may not ask for. *)
Definition start_denied (info : DSchedCollabInfo) : bool :=
  negb (IsStartForeground info) || needSendStream_ (srcOpt_ info) || needRecvStream_ (srcOpt_ info).

Definition names_missing (info : DSchedCollabInfo) : bool :=
  empty (bundleName_ (srcInfo_ info)) || empty (bundleName_ (sinkInfo_ info))
  || empty (moduleName_ (srcInfo_ info)) || empty (moduleName_ (sinkInfo_ info))
  || empty (abilityName_ (srcInfo_ info)) || empty (abilityName_ (sinkInfo_ info)).

(** [GetDeviceInfoById] or, failing that, [CheckNetworkIdByBundleName]. *)
Definition sink_known (info : DSchedCollabInfo) : Mg bool :=
  let! known := query (fun t => GetDeviceInfoById t (deviceId_ (sinkInfo_ info))) in
  if (known : bool) then mret true
  else query (fun t => CheckNetworkIdByBundleName t (bundleName_ (sinkInfo_ info))
    (deviceId_ (sinkInfo_ info))).

Definition CollabMission (info : DSchedCollabInfo) : Mg Z :=
  let! control := mdm_control (bundleName_ (srcInfo_ info)) in
  if (control : bool) then mret Dms.ERR_CAPABILITY_NOT_SUPPORT
  else
    let! foreground := query (fun t => IsCallerForeground t (uid_ (srcInfo_ info))) in
    if negb foreground then mret Dms.DMS_NOT_FOREGROUND_USER
    else
      let! system := query IsSystemAppByFullTokenID in
      if negb system && start_denied info then mret Dms.DMS_START_CONTROL_PERMISSION_DENIED
      else if names_missing info then mret Dms.INVALID_PARAMETERS_ERR
      else
        let! local := query GetLocalDeviceId in
        match local with
        | None => mret Dms.FIND_LOCAL_DEVICEID_ERR
        | Some localDeviceId =>
          let info := set_src_device localDeviceId info in
          let! known := sink_known info in
          if negb known then mret Dms.FIND_REMOTE_DEVICEID_ERR
          else
            let! dCollab := GetDSchedCollabByTokenId (collabToken_ info) in
            match dCollab with
            | None => mret Dms.INVALID_PARAMETERS_ERR
            | Some _ => DispatchCollabMission (collabToken_ info) info
            end
        end.

(** Whether the same client runs the same session. *)
Definition IsSessionExists (info : DSchedCollabInfo) (g : DSchedCollabManager) : bool :=
  existsb (fun e =>
    let existCollabInfo := GetCollabInfo e.2 in
    (pid_ (srcInfo_ existCollabInfo) =? pid_ (srcInfo_ info))
    && (srcCollabSessionId_ existCollabInfo =? srcCollabSessionId_ info)) (collabs_ g).

(** The task of [SetTimeOut]. *)
Definition HandleTimeOut (collabToken : bytes) : Mg unit :=
  do! on_object collabToken (PostErrEndTask Dms.COLLAB_ABILITY_TIMEOUT_ERR) in mret tt.

(** ** Answers of the ability *)

Definition ConvertCollaborateResult (result : Z) : Z :=
  if result =? REJECT then ErrorCodes.DtbCollab.PEER_APP_REJECTED
  else if result =? ON_COLLABORATE_ERR then ErrorCodes.DtbCollab.PEER_ABILITY_NO_ONCOLLABORATE
  else Dms.INVALID_PARAMETERS_ERR.

Definition NotifyStartAbilityResult (collabToken : bytes) (result sinkPid sinkUid sinkAccessTokenId : Z)
    : Mg Z :=
  on_collab collabToken Dms.INVALID_PARAMETERS_ERR (
    if negb (result =? ACCEPT) then PostErrEndTask (ConvertCollaborateResult result)
    else do! SaveSinkAbilityData sinkPid sinkUid sinkAccessTokenId in mret ERR_OK).

Definition NotifySinkPrepareResult (dSchedCollabInfo : DSchedCollabInfo) (result : Z) : Mg Z :=
  let! found := GetDSchedCollabByTokenId (collabToken_ dSchedCollabInfo) in
  match found with
  | None => mret Dms.INVALID_PARAMETERS_ERR
  | Some _ => post_task (TaskPrepareResult dSchedCollabInfo result)
  end.

Definition HandleCollabPrepareResult (dSchedCollabInfo : DSchedCollabInfo) (result : Z) : Mg unit :=
  let collabToken := collabToken_ dSchedCollabInfo in
  let! found := GetDSchedCollabByTokenId collabToken in
  match found with
  | None => mret tt
  | Some _ =>
    do! on_object collabToken (PostSinkPrepareResultTask result dSchedCollabInfo) in
    RemoveTimeout collabToken
  end.

Definition NotifySinkRejectReason (collabToken reason : bytes) : Mg Z :=
  on_collab collabToken Dms.INVALID_PARAMETERS_ERR (PostAbilityRejectTask reason).

(** ** Ends *)

Definition NotifyAbilityDied (bundleName : bytes) (pid : Z) : Mg Z :=
  post_task (TaskCloseSessions bundleName pid).

(** The application takes part in the collaboration, on either side. *)
Definition takes_part (bundleName : bytes) (pid : Z) (i : DSchedCollabInfo) : bool :=
  (bytes_eqb bundleName (bundleName_ (srcInfo_ i)) && (pid =? pid_ (srcInfo_ i)))
  || (bytes_eqb bundleName (bundleName_ (sinkInfo_ i)) && (pid =? pid_ (sinkInfo_ i))).

(** The loop over the matches returns from its first iteration. *)
Definition HandleCloseSessions (bundleName : bytes) (pid : Z) : Mg Z :=
  let! g := get in
  match List.filter (fun e => takes_part bundleName pid (GetCollabInfo e.2)) (collabs_ g) with
  | [] => mret ERR_OK
  | (collabToken, _) :: _ =>
    let! answer := on_object collabToken PostEndTask in
    mret (match answer with Some ret => ret | None => ERR_OK end)
  end.

(** The token of the last match; both tests compare the bundle of the source. *)
Definition link_token (bundleName : bytes) (pid : Z) (l : std_map bytes DSchedCollab) : bytes :=
  fold_left (fun collabToken e =>
    let i := GetCollabInfo (e : bytes * DSchedCollab).2 in
    if bytes_eqb bundleName (bundleName_ (srcInfo_ i))
       && ((pid =? pid_ (srcInfo_ i)) || (pid =? pid_ (sinkInfo_ i)))
    then collabToken_ i else collabToken) l [].

Definition ReleaseAbilityLink (bundleName : bytes) (pid : Z) : Mg Z :=
  let! g := get in
  let collabToken := link_token bundleName pid (collabs_ g) in
  if empty collabToken then mret Dms.INVALID_PARAMETERS_ERR
  else if negb (mgr_eventHandler_ g) then mret Dms.INVALID_PARAMETERS_ERR
  else
    do! PostTask (TaskReleaseAbilityLink bundleName pid collabToken) (bundleName ++ to_string pid)
      BACKGROUND_TIMEOUT in
    mret ERR_OK.

Definition HandleReleaseAbilityLink (bundleName : bytes) (pid : Z) (collabToken : bytes) : Mg unit :=
  let! found := GetDSchedCollabByTokenId collabToken in
  match found with
  | None => mret tt
  | Some dCollab =>
    let i := GetCollabInfo dCollab in
    do! when pid =? pid_ (srcInfo_ i) do
      (do! emit (PrivilegeShutdown (u64 (accessToken_ (srcInfo_ i))) pid (deviceId_ (sinkInfo_ i))) in
       do! on_object collabToken PostEndTask in mret tt) in
    when pid =? pid_ (sinkInfo_ i) do (do! on_object collabToken PostEndTask in mret tt)
  end.

Definition CancleReleaseAbilityLink (bundleName : bytes) (pid : Z) : Mg Z :=
  let! g := get in
  if negb (mgr_eventHandler_ g) then mret Dms.INVALID_PARAMETERS_ERR
  else do! RemoveTask (bundleName ++ to_string pid) in mret ERR_OK.

Definition of_user (user : Z) (i : DSchedCollabInfo) : bool :=
  if direction_ i =? COLLAB_SOURCE then userId (srcAccountInfo_ i) =? user
  else sinkUserId_ i =? user.

Definition DisconnectAllSessionsForUser (user : Z) : Mg unit :=
  if user <? 0 then mret tt
  else
    let! g := get in
    mfor (List.filter (fun e => of_user user (collabInfo_ e.2)) (collabs_ g))
      (fun e => do! CleanUpSession e.1 in mret tt).

(** Every object is asked in the order of the tokens; none enters or leaves meanwhile. *)
Definition NotifyWifiOpen : Mg unit :=
  let! g := get in
  mfor (collabs_ g) (fun e => do! on_object e.1 Collab.NotifyWifiOpen in mret tt).

Definition GetWifiStatus : Mg bool := query IsWifiActive.

Definition NotifySessionClose (collabToken : bytes) : Mg Z :=
  on_collab collabToken Dms.INVALID_PARAMETERS_ERR (do! PostEndTask in mret ERR_OK).

(** The task of [CleanUpSession]: the object leaves the table and is destroyed after its
    thread was stopped. *)
Definition HandleCleanUp (collabToken : bytes) : Mg unit :=
  let! g := get in
  match map_find (collabs_ g) collabToken with
  | None => mret tt
  | Some dCollab =>
    do! modify (fun g => set_collabs (map_erase (collabs_ g) collabToken) g) in
    do! RemoveTimeout collabToken in
    do! with_object (do! UnInit in destroy) dCollab in
    mret tt
  end.

(** ** Received data *)

Definition OnDataRecv (softbusSessionId : Z) (dataBuffer : option DataBuffer) : Mg unit :=
  do! post_task (TaskDataRecv softbusSessionId dataBuffer) in mret tt.

(** The command number and the token in the base part of a received text.  The value of a
    token that is a string is not asked whether it is null. *)
Definition command_and_token (jsonStr : bytes) : run (option (Z * bytes)) :=
  match cJSON_Parse (c_str jsonStr) with
  | None => Done None
  | Some rootValue =>
    match cJSON_GetObjectItemCaseSensitive rootValue (str "BaseCmd") with
    | None => Done None
    | Some baseCmd =>
      match string_of baseCmd with
      | None => Done None
      | Some text =>
        match cJSON_Parse (c_str text) with
        | None => Done None
        | Some cmdValue =>
          match cJSON_GetObjectItemCaseSensitive cmdValue (str "Command") with
          | None => Done None
          | Some comvalue =>
            if negb (cJSON_IsNumber comvalue) then Done None
            else
              match cJSON_GetObjectItemCaseSensitive cmdValue (str "CollabToken") with
              | None => Done None
              | Some collabTokenvalue =>
                if negb (cJSON_IsString collabTokenvalue) then Done None
                else
                  match valuestring collabTokenvalue with
                  | None => Undefined
                  | Some token => Done (Some (valueint comvalue, c_str token))
                  end
              end
          end
        end
      end
    end
  end.

Definition CreateSinkCollab (softbusSessionId : Z) (jsonStr collabToken : bytes) : Mg unit :=
  let! r := from_run (GetSinkCollabVersionCmdCodec.Unmarshal jsonStr) in
  match r with
  | inl _ => mret tt
  | inr getVersionCmd =>
    let! local := query GetLocalDeviceId in
    match local with
    | None => mret tt
    | Some localDevId =>
      if negb (bytes_eqb (CollabEvent.sinkDeviceId_ (version_base getVersionCmd)) localDevId) then mret tt
      else
        enter_collab (CollabEvent.collabToken_ (version_base getVersionCmd))
          (initialised SINK_GET_VERSION_STATE (construct_sink getVersionCmd softbusSessionId))
          PostSinkGetVersionTask
    end
  end.

(** The first object on the session with the token of the text. *)
Definition matched_collab (softbusSessionId : Z) (collabToken : bytes) (g : DSchedCollabManager)
    : option (bytes * DSchedCollab) :=
  List.find (fun e => (softbusSessionId =? GetSoftbusSessionId e.2)
    && bytes_eqb collabToken (collabToken_ (GetCollabInfo e.2))) (collabs_ g).

Definition NotifyDataRecv (softbusSessionId command : Z) (jsonStr : bytes)
    (dataBuffer : option DataBuffer) (collabToken : bytes) : Mg unit :=
  let! g := get in
  match matched_collab softbusSessionId collabToken g with
  | Some (matchedToken, _) =>
    let! peerDeviceId := query (fun t => GetPeerDeviceIdBySocket t softbusSessionId) in
    do! on_object matchedToken (Collab.OnDataRecv peerDeviceId command dataBuffer) in
    when command =? NOTIFY_RESULT_CMD do RemoveTimeout matchedToken
  | None =>
    when command =? SINK_GET_VERSION_CMD do CreateSinkCollab softbusSessionId jsonStr collabToken
  end.

(** [HandleDataRecv]: the text is read from the window's start to the length of the whole
    array. *)
Definition HandleDataRecv (softbusSessionId : Z) (dataBuffer : option DataBuffer) : Mg unit :=
  match dataBuffer with
  | None => mret tt
  | Some b =>
    match data_ b with
    | None => mret tt
    | Some d =>
      let! jsonStr := from_run (load_n d (Offset b) (Capacity b)) in
      let! parsed := from_run (command_and_token jsonStr) in
      match parsed with
      | None => mret tt
      | Some (command, collabToken) =>
        NotifyDataRecv softbusSessionId command jsonStr dataBuffer collabToken
      end
    end
  end.

(** ** The session's end *)

Definition OnShutdown (socket : Z) (isSelfCalled : bool) : Mg unit :=
  if isSelfCalled then mret tt
  else do! post_task (TaskShutdown socket) in mret tt.

(** The lambda of [OnShutdown]: every object of the session is told. *)
Definition HandleShutdown (socket : Z) : Mg unit :=
  let! g := get in
  mfor (List.filter (fun e => socket =? GetSoftbusSessionId e.2) (collabs_ g))
    (fun e => do! on_object e.1 (PostErrEndTask Dms.COLLAB_SESSION_SHUTDOWN) in mret tt).

(** ** Who collaborates with whom *)

Definition same_source (c : CollabInfo) (i : DSchedCollabInfo) : bool :=
  bytes_eqb (c_str (checked_deviceId c)) (srcUdid_ i) && (checked_pid c =? pid_ (srcInfo_ i))
  && (to_int32 (checked_tokenId c) =? accessToken_ (srcInfo_ i))
  && (checked_userId c =? userId (srcAccountInfo_ i)).

Definition same_sink (c : CollabInfo) (i : DSchedCollabInfo) : bool :=
  bytes_eqb (c_str (checked_deviceId c)) (sinkUdid_ i) && (checked_pid c =? pid_ (sinkInfo_ i))
  && (to_int32 (checked_tokenId c) =? accessToken_ (sinkInfo_ i))
  && (checked_userId c =? sinkUserId_ i).

Definition CheckSrcCollabRelation (sourceInfo : CollabInfo) (collabInfo : DSchedCollabInfo) : Z :=
  if same_source sourceInfo collabInfo then ERR_OK
  else if same_sink sourceInfo collabInfo then ERR_OK
  else Dms.INVALID_PARAMETERS_ERR.

Definition CheckSinkCollabRelation (sinkInfo : CollabInfo) (collabInfo : DSchedCollabInfo) : Z :=
  if same_sink sinkInfo collabInfo then ERR_OK
  else if same_source sinkInfo collabInfo then ERR_OK
  else Dms.INVALID_PARAMETERS_ERR.

Fixpoint check_relations (sourceInfo sinkInfo : CollabInfo) (l : list DSchedCollabInfo) : Z :=
  match l with
  | [] => Dms.INVALID_PARAMETERS_ERR
  | collabInfo :: l =>
    if (CheckSrcCollabRelation sourceInfo collabInfo =? ERR_OK)
       && ((checked_pid sinkInfo =? NO_NEED_TO_CHECK_ID)
           || (CheckSinkCollabRelation sinkInfo collabInfo =? ERR_OK))
    then ERR_OK
    else check_relations sourceInfo sinkInfo l
  end.

Definition CheckCollabRelation (sourceInfo sinkInfo : CollabInfo) (g : DSchedCollabManager) : Z :=
  match collabs_ g with
  | [] => Dms.INVALID_PARAMETERS_ERR
  | _ :: _ => check_relations sourceInfo sinkInfo (map (fun e => GetCollabInfo e.2) (collabs_ g))
  end.

(** [CheckSynergisticRelation], which softbus calls. *)
Definition CheckSynergisticRelation (sourceInfo sinkInfo : option CollabInfo)
    (g : DSchedCollabManager) : Z :=
  match sourceInfo, sinkInfo with
  | Some sourceInfo, Some sinkInfo => CheckCollabRelation sourceInfo sinkInfo g
  | _, _ => Dms.INVALID_PARAMETERS_ERR
  end.

(** ** The thread *)

Definition Manager_init : DSchedCollabManager := mkManager false 0 [] [].

Definition set_thread (x : bool) (g : DSchedCollabManager) : DSchedCollabManager :=
  mkManager x (now_ g) (mgr_tasks_ g) (collabs_ g).

Definition Init : Mg unit :=
  let! g := get in
  if mgr_eventHandler_ g then mret tt
  else
    do! emit (SoftbusChannel true) in
    let! ret := query RegisterRelationChecker in
    if negb (ret =? ERR_OK) then mret tt else modify (set_thread true).

(** [UnInit] destroys the objects, in the order of the tokens, and the queue of the thread. *)
Definition UnInit : Mg unit :=
  do! emit (SoftbusChannel false) in
  let! g := get in
  do! modify (set_collabs []) in
  do! mfor (collabs_ g) (fun e => do! with_object destroy e.2 in mret tt) in
  modify (fun g => set_thread false (set_mgr_tasks [] g)).

Definition run_task (task : Task) : Mg unit :=
  match task with
  | TaskGetSinkCollabVersion info => HandleGetSinkCollabVersion info
  | TaskTimeOut collabToken => HandleTimeOut collabToken
  | TaskPrepareResult info result => HandleCollabPrepareResult info result
  | TaskCloseSessions bundleName pid => do! HandleCloseSessions bundleName pid in mret tt
  | TaskReleaseAbilityLink bundleName pid collabToken =>
    HandleReleaseAbilityLink bundleName pid collabToken
  | TaskCleanUp collabToken => HandleCleanUp collabToken
  | TaskDataRecv softbusSessionId dataBuffer => HandleDataRecv softbusSessionId dataBuffer
  | TaskShutdown socket => HandleShutdown socket
  end.

(** One turn of the manager's thread: the first task, once it is due. *)
Definition manager_turn : Mg unit :=
  let! g := get in
  match mgr_tasks_ g with
  | [] => mret tt
  | p :: l =>
    if due p <=? now_ g then do! modify (set_mgr_tasks l) in run_task (task p) else mret tt
  end.

Definition wait (ms : Z) : Mg unit := modify (fun g =>
  mkManager (mgr_eventHandler_ g) (now_ g + Z.max 0 ms) (mgr_tasks_ g) (collabs_ g)).

(** One turn of the thread of an object. *)
Definition object_turn (collabToken : bytes) : Mg unit :=
  do! on_object collabToken event_turn in mret tt.
Definition object_task_turn (collabToken : bytes) : Mg unit :=
  do! on_object collabToken task_turn in mret tt.

(** ** Runs of the manager *)

(** The calls of other parts, the turns of the threads and the passing of time. *)
Inductive Move :=
| CallInit
| CallUnInit
| CallGetSinkCollabVersion (info : DSchedCollabInfo)
| CallCollabMission (info : DSchedCollabInfo)
| CallStartAbilityResult (collabToken : bytes) (result sinkPid sinkUid sinkAccessTokenId : Z)
| CallPrepareResult (info : DSchedCollabInfo) (result : Z)
| CallRejectReason (collabToken reason : bytes)
| CallAbilityDied (bundleName : bytes) (pid : Z)
| CallReleaseLink (bundleName : bytes) (pid : Z)
| CallCancelRelease (bundleName : bytes) (pid : Z)
| CallDisconnectUser (user : Z)
| CallWifiOpen
| CallSessionClose (collabToken : bytes)
| BytesArrived (softbusSessionId : Z) (dataBuffer : option DataBuffer)
| SessionShutdown (socket : Z) (isSelfCalled : bool)
| ManagerTurn
| ObjectTurn (collabToken : bytes)
| ObjectTaskTurn (collabToken : bytes)
| Wait (ms : Z).

Definition make_move (m : Move) : Mg unit :=
  let ignore (m : Mg Z) : Mg unit := do! m in mret tt in
  match m with
  | CallInit => Init
  | CallUnInit => UnInit
  | CallGetSinkCollabVersion info => ignore (GetSinkCollabVersion info)
  | CallCollabMission info => ignore (CollabMission info)
  | CallStartAbilityResult token r p u a => ignore (NotifyStartAbilityResult token r p u a)
  | CallPrepareResult info r => ignore (NotifySinkPrepareResult info r)
  | CallRejectReason token reason => ignore (NotifySinkRejectReason token reason)
  | CallAbilityDied b p => ignore (NotifyAbilityDied b p)
  | CallReleaseLink b p => ignore (ReleaseAbilityLink b p)
  | CallCancelRelease b p => ignore (CancleReleaseAbilityLink b p)
  | CallDisconnectUser u => DisconnectAllSessionsForUser u
  | CallWifiOpen => NotifyWifiOpen
  | CallSessionClose token => ignore (NotifySessionClose token)
  | BytesArrived session b => OnDataRecv session b
  | SessionShutdown socket self => OnShutdown socket self
  | ManagerTurn => manager_turn
  | ObjectTurn token => object_turn token
  | ObjectTaskTurn token => object_task_turn token
  | Wait ms => wait ms
  end.
End Manager.
