(* ===== verification/CollabManagerLemmas.v ===== *)
(** * Lemmas about the manager of the collaborations

    What every task and every turn keeps and that each returns; how an object's thread,
    left alone, leads to its clean-up; which objects received data reaches. *)

From Stdlib Require Import ZArith Lia String.
From stdpp Require Import base list option.
From S2P Require Import Prelude ErrorCodes DataBuffer StdMap StdString EventQueue Base64 Framework ContinueEvent CollabEvent Effects CommandTotality Collab CollabLemmas CollabManager.

#[export] Instance token_strict : StrictWeakOrder bytes := order_by (fun x => x).

Lemma token_key_eq (a b : bytes) : key_eq a b = true <-> a = b.
Proof. apply (key_eq_by (fun x => x)). Qed.

Section Manager.
Context {J : CJson} {N : NJson} {W : WantLib} {P : ParamsLib} {PL : ParcelLib}.
Context {Ev : CollabEnv} {ME : CollabManagerEnv}.
Implicit Types (g : DSchedCollabManager) (s : DSchedCollab) (t l : list Effect) (token : bytes).

(** ** What the steps keep *)

(** An object of the table is well formed and stored under its own token, which the requests
    it still has to serve carry as well. *)
Definition entry_ok (e : bytes * DSchedCollab) : Prop :=
  wf e.2 /\ collabToken_ (collabInfo_ e.2) = e.1 /\
  Forall (fun i => collabToken_ i = e.1) (tasks_ e.2).

Definition task_ok (x : Task) : Prop :=
  match x with
  | TaskGetSinkCollabVersion info => srcClientCB_ info <> None
  | TaskDataRecv _ b => received_ok b
  | _ => True
  end.

Definition mgr_ok g : Prop :=
  map_sorted (collabs_ g) /\ Forall entry_ok (collabs_ g) /\
  Z.of_nat (length (collabs_ g)) <= MAX_CONCURRENT_COLLABS /\
  Forall (fun p => task_ok (task p)) (mgr_tasks_ g).

(** From [g] the computation returns, keeps the table in order and starts only abilities
    that were permitted. *)
Definition safe_from {A} g (m : Mg A) : Prop := mgr_ok g -> forall t, exists a g' l,
  m g t = Done (a, g', t ++ l) /\ mgr_ok g' /\ starts_permitted l.

Definition safe {A} (m : Mg A) : Prop := forall g, safe_from g m.

Lemma safe_mret {A} g (a : A) : safe_from g (mret a).
Proof.
  intros Hok t. exists a, g, []. rewrite app_nil_r. split_and!; [done..|].
  by apply starts_permitted_other.
Qed.

Lemma safe_mbind {A B} g (m : Mg A) (k : A -> Mg B) :
  safe_from g m -> (forall a, safe (k a)) -> safe_from g (mbind m k).
Proof.
  intros Hm Hk Hok t. destruct (Hm Hok t) as (a & g1 & l1 & E1 & Hok1 & S1).
  destruct (Hk a g1 Hok1 (t ++ l1)) as (b & g2 & l2 & E2 & Hok2 & S2).
  exists b, g2, (l1 ++ l2). unfold mbind. rewrite E1. cbn [run_bind]. rewrite E2, app_assoc.
  split_and!; [done..|]. by apply starts_permitted_app.
Qed.

Lemma safe_get {A} g (k : DSchedCollabManager -> Mg A) : safe_from g (k g) -> safe_from g (mbind get k).
Proof. intros H. exact H. Qed.

Lemma safe_modify g f : (mgr_ok g -> mgr_ok (f g)) -> safe_from g (modify f).
Proof.
  intros H Hok t. exists tt, (f g), []. rewrite app_nil_r. split_and!; [done|by apply H|].
  by apply starts_permitted_other.
Qed.

Lemma safe_effect {A} g e (m : Mg A) a :
  is_start e = false -> (forall t, m g t = Done (a t, g, t ++ [e])) -> safe_from g m.
Proof.
  intros He Hm Hok t. exists (a t), g, [e]. split_and!; [done..|]. apply starts_permitted_other.
  unfold count. cbn. by rewrite He.
Qed.

Lemma safe_query {A} g (oracle : list Effect -> A) : safe_from g (query oracle).
Proof. by apply (safe_effect g Query (query oracle) oracle). Qed.

Lemma safe_emit g e : is_start e = false -> safe_from g (emit e).
Proof. intros He. by apply (safe_effect g e (emit e) (fun _ => tt)). Qed.

Lemma safe_mfor {A} (l : list A) (f : A -> Mg unit) :
  (forall a, In a l -> safe (f a)) -> safe (mfor l f).
Proof.
  induction l as [|a l IH]; intros Hf g; cbn [mfor]; [apply safe_mret|].
  apply safe_mbind; [apply Hf; by left|]. intros _. apply IH. intros b Hb. apply Hf. by right.
Qed.

Lemma mgr_ok_tasks g posted :
  Forall (fun p => task_ok (task p)) posted -> mgr_ok g -> mgr_ok (set_mgr_tasks posted g).
Proof. intros Hp (? & ? & ? & _). by split_and!. Qed.

Lemma PostTask_safe x name delay : task_ok x -> safe (PostTask x name delay).
Proof.
  intros Hx g. apply safe_modify. intros Hok. apply mgr_ok_tasks; [|done].
  apply List.Forall_forall. intros p [->|Hp]%In_insert_task; [done|].
  destruct Hok as (_ & _ & _ & Hall). by eapply List.Forall_forall in Hall.
Qed.

Create HintDb collabs discriminated.
#[local] Hint Resolve PostTask_safe : collabs.
#[local] Hint Extern 1 (task_ok _) => first [exact I|assumption] : collabs.

Lemma remove_ok g name : mgr_ok g -> mgr_ok (set_mgr_tasks (remove_tasks name (mgr_tasks_ g)) g).
Proof.
  intros Hok. apply mgr_ok_tasks; [|done]. apply List.Forall_forall. intros p (Hp & _)%In_remove_tasks.
  destruct Hok as (_ & _ & _ & Hall). by eapply List.Forall_forall in Hall.
Qed.

(** Follow the code. *)
Ltac safe_code :=
  lazymatch goal with
  | |- safe _ => let g := fresh "g" in intros g; safe_code
  | |- safe_from _ (mret _) => apply safe_mret
  | |- safe_from _ (query _) => apply safe_query
  | |- safe_from _ (emit _) => apply safe_emit; reflexivity
  | |- safe_from _ (mbind get _) => apply safe_get; safe_code
  | |- safe_from _ (mbind (with_object _ _) _) => idtac
  | |- safe_from _ (mbind (from_run _) _) => idtac
  | |- safe_from _ (mbind _ _) =>
    refine (safe_mbind _ _ _ _ _); [safe_code|let a := fresh "a" in intros a; safe_code]
  | |- safe_from _ (match ?x with _ => _ end) => destruct x eqn:?; safe_code
  | |- safe_from ?g ?m => first [solve [eapply (fun H => (H : safe m) g); eauto with collabs] | idtac]
  | |- _ => idtac
  end.

Lemma post_task_safe x : task_ok x -> safe (post_task x).
Proof. intros Hx. unfold post_task. safe_code. Qed.
#[local] Hint Resolve post_task_safe : collabs.

Lemma RemoveTask_safe name : safe (RemoveTask name).
Proof. unfold RemoveTask. safe_code. apply safe_modify, remove_ok. Qed.
#[local] Hint Resolve RemoveTask_safe : collabs.

Lemma RemoveTimeout_safe token : safe (RemoveTimeout token).
Proof. unfold RemoveTimeout. safe_code. Qed.
Lemma SetTimeOut_safe token timeout : safe (SetTimeOut token timeout).
Proof. unfold SetTimeOut. safe_code. Qed.
Lemma CleanUpSession_safe token : safe (CleanUpSession token).
Proof. unfold CleanUpSession. safe_code. Qed.
#[local] Hint Resolve RemoveTimeout_safe SetTimeOut_safe CleanUpSession_safe : collabs.

Lemma call_back_safe e : safe (call_back e).
Proof. unfold call_back. destruct e; safe_code. Qed.
#[local] Hint Resolve call_back_safe : collabs.

(** ** Objects *)

(** Only tasks without a name were posted. *)
Definition only_posted g g' : Prop :=
  collabs_ g' = collabs_ g /\ mgr_eventHandler_ g' = mgr_eventHandler_ g /\ now_ g' = now_ g /\
  incl (mgr_tasks_ g) (mgr_tasks_ g') /\
  (forall p, In p (mgr_tasks_ g') -> In p (mgr_tasks_ g) \/ taskName p = []).

Lemma only_posted_refl g : only_posted g g.
Proof. do 3 (split; [done|]). split; [apply incl_refl|auto]. Qed.

Lemma only_posted_trans g1 g2 g3 : only_posted g1 g2 -> only_posted g2 g3 -> only_posted g1 g3.
Proof.
  intros (A1 & B1 & C1 & I1 & N1) (A2 & B2 & C2 & I2 & N2). do 3 (split; [congruence|]).
  split; [by eapply incl_tran|]. intros p [Hp|Hp]%N2; auto.
Qed.

Lemma CleanUpSession_run token g t : exists r g',
  CleanUpSession token g t = Done (r, g', t) /\ only_posted g g' /\ (mgr_ok g -> mgr_ok g') /\
  (mgr_eventHandler_ g = true -> In (mkPosted (now_ g) [] (TaskCleanUp token)) (mgr_tasks_ g')).
Proof.
  unfold CleanUpSession, post_task, PostTask, mbind, get, modify. cbn [run_bind].
  destruct (mgr_eventHandler_ g) eqn:Hh; cbn [negb run_bind].
  - eexists _, _. split; [reflexivity|]. split; [|split].
    + split; [done|]. split; [done|]. split; [done|]. split.
      * intros p Hp. apply In_insert_task. by right.
      * intros p [->|Hp]%In_insert_task; auto.
    + intros Hok. apply mgr_ok_tasks; [|done]. apply List.Forall_forall.
      intros p [->|Hp]%In_insert_task; [done|]. destruct Hok as (_ & _ & _ & Hall).
      by eapply List.Forall_forall in Hall.
    + intros _. apply In_insert_task. left. by rewrite Z.add_0_r.
  - eexists _, _. split; [reflexivity|]. split; [apply only_posted_refl|]. by split.
Qed.

(** The clean-ups an object asked for are posted. *)
Lemma collab_call_backs_run es : forall g t, exists g',
  mfor es call_back g t = Done (tt, g', t) /\ only_posted g g' /\ (mgr_ok g -> mgr_ok g') /\
  (forall token, mgr_eventHandler_ g = true -> In (ManagerCleanUpSession token) es ->
    In (mkPosted (now_ g) [] (TaskCleanUp token)) (mgr_tasks_ g')).
Proof.
  induction es as [|e es IH]; intros g t; cbn [mfor].
  - exists g. split_and!; [done|apply only_posted_refl|done|by intros ? ? []].
  - assert (exists g1, call_back e g t = Done (tt, g1, t) /\ only_posted g g1 /\ (mgr_ok g -> mgr_ok g1) /\
      (forall token, mgr_eventHandler_ g = true -> e = ManagerCleanUpSession token ->
        In (mkPosted (now_ g) [] (TaskCleanUp token)) (mgr_tasks_ g1))) as (g1 & E1 & O1 & K1 & P1).
    { destruct e; try (exists g; split_and!; [done|apply only_posted_refl|done|by intros ? ? [=]]).
      destruct (CleanUpSession_run token g t) as (r & g1 & E & O & K & Hp). exists g1.
      cbn [call_back]. unfold mbind. rewrite E. split_and!; [done..|]. by intros token' Hh [= <-]; apply Hp. }
    destruct (IH g1 t) as (g2 & E2 & O2 & K2 & P2). exists g2. unfold mbind. rewrite E1. cbn [run_bind].
    pose proof O1 as (_ & Hh1 & Hn1 & _). pose proof O2 as (_ & _ & _ & I2 & _).
    split_and!; [done|by eapply only_posted_trans|auto|].
    intros token Hh [He|Hin]; [by apply I2, P1|]. rewrite <- Hn1. apply P2; [congruence|done].
Qed.

(** A function that every object of the table under [token] may run. *)
Definition object_safe {A} token (m : C A) : Prop := forall s t, entry_ok (token, s) ->
  exists a s' l, m s t = Done (a, s', t ++ l) /\ entry_ok (token, s') /\ starts_permitted l.

Lemma with_object_run {A} (m : C A) s g t a s' l :
  m s t = Done (a, s', t ++ l) -> exists g',
    with_object m s g t = Done ((a, s'), g', t ++ l) /\ only_posted g g' /\ (mgr_ok g -> mgr_ok g') /\
    (forall token, mgr_eventHandler_ g = true -> In (ManagerCleanUpSession token) l ->
      In (mkPosted (now_ g) [] (TaskCleanUp token)) (mgr_tasks_ g')).
Proof.
  intros H. destruct (collab_call_backs_run l g (t ++ l)) as (g' & E & O & K & Hp). exists g'.
  unfold with_object. rewrite H. cbn [run_bind]. rewrite drop_app_length, E. by split_and!.
Qed.

Lemma assign_ok g token s v :
  mgr_ok g -> map_find (collabs_ g) token = Some v -> entry_ok (token, s) ->
  mgr_ok (set_collabs (map_assign (collabs_ g) token s) g).
Proof.
  intros (Hsorted & Hall & Hlen & Ht) Hf He. split_and!; cbn [collabs_ set_collabs]; [|  | |done].
  - by apply map_sorted_assign.
  - apply Forall_map_assign; [done|]. intros k ->%token_key_eq. done.
  - rewrite length_map_assign by done. unfold map_count. by rewrite Hf.
Qed.

Lemma entry_of_find g token s :
  mgr_ok g -> map_find (collabs_ g) token = Some s -> entry_ok (token, s).
Proof.
  intros (_ & Hall & _) (k & Hin & ->%token_key_eq)%map_find_Some.
  by eapply List.Forall_forall in Hall.
Qed.

Lemma entry_of_In g token s : mgr_ok g -> In (token, s) (collabs_ g) -> entry_ok (token, s).
Proof. intros (_ & Hall & _) Hin. by eapply List.Forall_forall in Hall. Qed.

(** What running a function of an object of the table leaves. *)
Lemma collab_on_object_run {A} token (m : C A) s g t a s' l :
  map_find (collabs_ g) token = Some s -> m s t = Done (a, s', t ++ l) -> exists g',
    on_object token m g t = Done (Some a, g', t ++ l) /\
    collabs_ g' = map_assign (collabs_ g) token s' /\
    mgr_eventHandler_ g' = mgr_eventHandler_ g /\ now_ g' = now_ g /\
    incl (mgr_tasks_ g) (mgr_tasks_ g') /\
    (mgr_ok g -> entry_ok (token, s') -> mgr_ok g') /\
    (forall token, mgr_eventHandler_ g = true -> In (ManagerCleanUpSession token) l ->
      In (mkPosted (now_ g) [] (TaskCleanUp token)) (mgr_tasks_ g')).
Proof.
  intros Hf Hm. destruct (with_object_run m s g t a s' l Hm) as (g1 & E & (Hc & Hh & Hn & Hi & _) & K & Hp).
  exists (set_collabs (map_assign (collabs_ g1) token s') g1).
  unfold on_object, mbind, get. cbn [run_bind]. rewrite Hf. cbn [run_bind]. rewrite E. cbn [run_bind].
  split; [reflexivity|]. cbn [collabs_ mgr_eventHandler_ now_ mgr_tasks_ set_collabs]. rewrite Hc. split; [done|]. split; [exact Hh|]. split; [exact Hn|]. split; [exact Hi|]. split; [|exact Hp].
  intros Hok He. rewrite <- Hc. apply (assign_ok g1 token s' s); [by apply K|by rewrite Hc|done].
Qed.

Lemma on_object_safe {A} token (m : C A) : object_safe token m -> safe (on_object token m).
Proof.
  intros Hm g Hok t. destruct (map_find (collabs_ g) token) as [s|] eqn:Hf.
  - destruct (Hm s t) as (a & s' & l & E & He & S); [by eapply entry_of_find|].
    destruct (collab_on_object_run token m s g t a s' l Hf E) as (g' & E' & _ & _ & _ & _ & K & _).
    exists (Some a), g', l. by split_and!; [|apply K|].
  - exists None, g, []. rewrite app_nil_r. unfold on_object, mbind, get. cbn [run_bind]. rewrite Hf.
    split_and!; [done..|]. by apply starts_permitted_other.
Qed.

(** The handled functions of an object, and its turns. *)
Lemma object_handled {A} token (m : C A) :
  preserves (handled false []) m -> total m -> object_safe token m.
Proof.
  intros Hh Hm s t (Hwf & Htok & Htasks). destruct (Hm s t) as (((a & s') & t') & E).
  pose proof (Hh _ _ _ _ _ E) as H. pose proof (handled_step_safe _ _ _ _ Hwf H) as (Hwf' & _).
  destruct H as ((_ & _ & Ht & _ & _ & Hts) & _ & _ & l & -> & _ & S & _). exists a, s', l.
  cbn [fst snd] in *. split; [done|]. split; [|done]. split; [done|]. cbn [fst snd]. by rewrite Ht, Hts.
Qed.

Lemma event_turn_object token : object_safe token event_turn.
Proof.
  intros s t (Hwf & Htok & Htasks). destruct (queue_ s) as [|e q] eqn:Hq.
  - exists tt, s, []. rewrite app_nil_r. unfold event_turn, mbind, get. cbn [run_bind]. rewrite Hq.
    split; [done|]. split; [done|]. by apply starts_permitted_other.
  - pose proof Hwf as (_ & x & Hx & _).
    destruct (collab_event_turn_progress s t e q x Hwf Hx Hq) as (s' & l & E & Hwf' & (_ & _ & Ht & _ & _ & Hts) & _).
    cbn [fst snd] in *. exists tt, s', l. split; [done|]. split.
    + split; [done|]. cbn [fst snd]. by rewrite Ht, Hts.
    + destruct (event_turn_safe _ _ _ _ Hwf E) as (_ & l' & Hl & _ & S & _).
      by apply app_inv_head in Hl as ->.
Qed.

Lemma task_turn_object token : object_safe token task_turn.
Proof.
  intros s t (Hwf & Htok & Htasks). destruct (task_turn_total s t) as ((([] & s') & t') & E).
  pose proof (task_turn_safe _ _ _ _ Hwf E) as (Hwf' & l & -> & _ & S & _).
  exists tt, s', l. split; [done|]. split; [|done]. split; [done|]. cbn [fst snd] in *.
  unfold task_turn in E. apply mbind_Done in E as (? & ? & ? & [= <- <- <-] & E).
  destruct (tasks_ s) as [|i q] eqn:Ht; [injection E as <- _; by rewrite Ht|].
  apply mbind_Done in E as (? & ? & ? & [= <- <- <-] & E).
  apply Forall_cons_1 in Htasks as (Hi & Hq). cbn in Hi, Hq.
  unfold start_mission, modify_info in E. apply mbind_Done in E as (? & ? & ? & [= <- <- <-] & E).
  apply mbind_Done in E as (? & s1 & t1 & E1 & E). apply mbind_Done in E as (? & s2 & t2 & E2 & [= <- _]).
  apply (post_event_handled [] SOURCE_START_EVENT eq_refl) in E2 as ((_ & _ & -> & _ & _ & ->) & _).
  unfold UpdateState, mbind, get in E1. cbn in E1. destruct (stateMachine_ s); by injection E1 as _ <- _.
Qed.

Lemma object_ret {A} token (a : A) : object_safe token (mret a).
Proof.
  intros s t He. exists a, s, []. rewrite app_nil_r. split; [done|]. split; [done|].
  by apply starts_permitted_other.
Qed.

Lemma object_bind {A B} token (m : C A) (k : A -> C B) :
  object_safe token m -> (forall a, object_safe token (k a)) -> object_safe token (mbind m k).
Proof.
  intros Hm Hk s t He. destruct (Hm s t He) as (a & s1 & l1 & E1 & He1 & S1).
  destruct (Hk a s1 (t ++ l1) He1) as (b & s2 & l2 & E2 & He2 & S2).
  exists b, s2, (l1 ++ l2). unfold mbind. rewrite E1. cbn [run_bind]. rewrite E2, app_assoc.
  split; [done|]. split; [done|]. by apply starts_permitted_app.
Qed.

Lemma post_event_object token e : object_safe token (post_event e).
Proof.
  intros s t He. destruct (collab_post_event_total e s t) as (((r & s') & t') & E).
  assert (exists q l, s' = set_queue q s /\ t' = t ++ l /\ starts_permitted l) as (q & l & -> & -> & Hl).
  { revert E. unfold post_event, SendEvent, ask, call, mbind, get, modify, mret. cbn [run_bind].
    destruct (eventHandler_ s); cbn [negb run_bind].
    - destruct (SendEvent_ok t); cbn [run_bind negb]; intros [= _ <- <-];
        [exists (queue_ s ++ [e])|exists (queue_ s)]; exists [Query];
        (split; [by destruct s|]); (split; [done|]); by apply starts_permitted_other.
    - intros [= _ <- <-]. exists (queue_ s), []. rewrite app_nil_r. split; [by destruct s|].
      split; [done|]. by apply starts_permitted_other. }
  by exists r, (set_queue q s), l.
Qed.

Lemma PostErrEndTask_object token r : object_safe token (PostErrEndTask r).
Proof. apply object_handled; [apply PostErrEndTask_handled|apply PostErrEndTask_total]. Qed.
Lemma PrepareResult_object token r i : object_safe token (PostSinkPrepareResultTask r i).
Proof. apply object_handled; [apply PostSinkPrepareResultTask_handled|apply PostSinkPrepareResultTask_total]. Qed.
Lemma SaveSinkAbilityData_object token x y z : object_safe token (SaveSinkAbilityData x y z).
Proof. apply object_handled; [apply SaveSinkAbilityData_handled|apply SaveSinkAbilityData_total]. Qed.
Lemma NotifyWifiOpen_object token : object_safe token Collab.NotifyWifiOpen.
Proof. apply object_handled; [apply NotifyWifiOpen_handled|apply NotifyWifiOpen_total]. Qed.

Lemma OnDataRecv_object {JR : CJsonReads J} {PB : ParcelLibBound PL} token d c b :
  received_ok b -> object_safe token (Collab.OnDataRecv d c b).
Proof. intros Hb. apply object_handled; [apply OnDataRecv_handled|by apply Collab_OnDataRecv_total]. Qed.

Lemma mission_object token info :
  collabToken_ info = token -> object_safe token (
    let! s := get in
    if negb (eventHandler_ s) then mret Dms.INVALID_PARAMETERS_ERR
    else do! modify (fun s => set_tasks (tasks_ s ++ [info]) s) in mret ERR_OK).
Proof.
  intros Hi s t (Hwf & Htok & Htasks). unfold mbind, get, modify, mret. cbn [run_bind].
  destruct (eventHandler_ s); cbn [negb].
  - exists ERR_OK, (set_tasks (tasks_ s ++ [info]) s), []. rewrite app_nil_r. split; [done|]. split.
    + split; [done|]. split; [done|]. apply Forall_app_2; [done|by constructor].
    + by apply starts_permitted_other.
  - exists Dms.INVALID_PARAMETERS_ERR, s, []. rewrite app_nil_r. split; [done|]. split; [done|].
    by apply starts_permitted_other.
Qed.

Lemma UnInit_object token : object_safe token Collab.UnInit.
Proof.
  intros s t (Hwf & Htok & Htasks). exists ERR_OK, (stop_thread s), []. rewrite app_nil_r.
  split; [done|]. split; [by split; [|split]|]. by apply starts_permitted_other.
Qed.

Lemma destroy_object token : object_safe token destroy.
Proof.
  apply object_bind; [|intros _; apply object_bind; [apply UnInit_object|intros _; apply object_ret]].
  apply object_handled; [apply UnregisterAbilityLifecycleObserver_handled|apply UnregisterAbilityLifecycleObserver_total].
Qed.

Lemma turns_object token n : object_safe token (mfor (replicate n tt) (fun _ => event_turn)).
Proof.
  induction n as [|n IH]; cbn [replicate mfor]; [apply object_ret|].
  apply object_bind; [apply event_turn_object|by intros _].
Qed.

#[local] Hint Resolve post_event_object PostErrEndTask_object PrepareResult_object
  SaveSinkAbilityData_object NotifyWifiOpen_object OnDataRecv_object mission_object
  event_turn_object task_turn_object object_ret object_bind on_object_safe : collabs.

(** ** Handlers *)

Lemma on_collab_safe token none (m : C Z) : object_safe token m -> safe (on_collab token none m).
Proof. intros Hm. unfold on_collab, GetDSchedCollabByTokenId. safe_code. Qed.

(** An object outside the table: what it asks of the manager is posted. *)
Lemma with_object_safe {A B} token (m : C A) s (k : A * DSchedCollab -> Mg B) g :
  entry_ok (token, s) -> object_safe token m ->
  (forall a s', entry_ok (token, s') -> safe (k (a, s'))) -> safe_from g (mbind (with_object m s) k).
Proof.
  intros He Hm Hk Hok t. destruct (Hm s t He) as (a & s' & l1 & E1 & He' & S1).
  destruct (with_object_run m s g t a s' l1 E1) as (g1 & E2 & _ & K & _).
  destruct (Hk a s' He' g1 (K Hok) (t ++ l1)) as (b & g2 & l2 & E3 & Hok2 & S2).
  exists b, g2, (l1 ++ l2). unfold mbind. rewrite E2. cbn [run_bind]. rewrite E3, app_assoc.
  split; [done|]. split; [done|]. by apply starts_permitted_app.
Qed.

Lemma destroyed_safe token s : entry_ok (token, s) -> safe (do! with_object destroy s in mret tt).
Proof. intros He g. eapply with_object_safe; [done|apply destroy_object|]. intros. safe_code. Qed.

Lemma drop_object_safe token s : entry_ok (token, s) -> safe (drop_object s).
Proof.
  intros He g. unfold drop_object. apply safe_mbind; [apply safe_query|]. intros turns g1.
  eapply with_object_safe; [done|apply turns_object|]. intros _ s' He'. by eapply destroyed_safe.
Qed.

Lemma initialised_entry token state s :
  collabToken_ (collabInfo_ s) = token -> tasks_ s = [] ->
  (state = SOURCE_GET_PEER_VERSION_STATE -> srcClientCB_ (collabInfo_ s) <> None) ->
  entry_ok (token, initialised state s).
Proof.
  intros Htok Htasks Hcb. split; [|split; [done|]].
  - split; [done|]. by exists state.
  - cbn. by rewrite Htasks.
Qed.

Lemma enter_ok g token s :
  mgr_ok g -> map_count (collabs_ g) token = false ->
  Z.of_nat (length (collabs_ g)) < MAX_CONCURRENT_COLLABS -> entry_ok (token, s) ->
  mgr_ok (set_collabs (map_assign (collabs_ g) token s) g).
Proof.
  intros (Hsorted & Hall & Hlen & Ht) Hc Hroom He. split; [|split; [|split; [|done]]]; cbn [collabs_ set_collabs].
  - by apply map_sorted_assign.
  - apply Forall_map_assign; [done|]. intros k ->%token_key_eq. done.
  - rewrite length_map_assign, Hc by done. lia.
Qed.

Lemma enter_collab_safe token s begin :
  entry_ok (token, s) -> object_safe token begin -> safe (enter_collab token s begin).
Proof.
  intros He Hb. unfold enter_collab. safe_code.
  - by eapply (destroyed_safe token s He g).
  - eapply with_object_safe; [done|done|]. intros _ s' He'. safe_code. by eapply drop_object_safe.
  - apply safe_modify. intros Hok. apply enter_ok; [done|done| |done]. by guards_to_prop.
Qed.

Lemma HandleGetSinkCollabVersion_safe info :
  srcClientCB_ info <> None -> safe (HandleGetSinkCollabVersion info).
Proof.
  intros Hcb. apply enter_collab_safe; [|apply post_event_object]. by apply initialised_entry.
Qed.

Lemma command_and_token_reads {JR : CJsonReads J} json : exists r, command_and_token json = Done r.
Proof.
  unfold command_and_token.
  destruct (cJSON_Parse (c_str json)) as [root|] eqn:E1; [|by eexists].
  destruct (cJSON_GetObjectItemCaseSensitive root _) as [base|] eqn:E2; [|by eexists].
  destruct (string_of base) as [text|] eqn:E3; [|by eexists].
  destruct (cJSON_Parse (c_str text)) as [cmd|] eqn:E4; [|by eexists].
  destruct (cJSON_GetObjectItemCaseSensitive cmd (str "Command")) as [n|] eqn:E5; [|by eexists].
  destruct (cJSON_IsNumber n); cbn [negb]; [|by eexists].
  destruct (cJSON_GetObjectItemCaseSensitive cmd (str "CollabToken")) as [i|] eqn:E6; [|by eexists].
  destruct (cJSON_IsString i) eqn:E7; cbn [negb]; [|by eexists].
  apply parse_fits in E4. pose proof (item_fits _ _ _ _ E4 E6) as Hi.
  destruct (string_fits _ _ Hi E7) as (s & -> & _). by eexists.
Qed.

Lemma safe_from_run {A B} g (m : run A) (k : A -> Mg B) :
  (exists a, m = Done a) -> (forall a, safe (k a)) -> safe_from g (mbind (from_run m) k).
Proof.
  intros (a & ->) Hk. apply safe_mbind; [|done]. intros Hok t. exists a, g, [].
  rewrite app_nil_r. split; [done|]. split; [done|]. by apply starts_permitted_other.
Qed.

Lemma safe_knowing {A} g (m : Mg A) : (mgr_ok g -> safe_from g m) -> safe_from g m.
Proof. intros H Hok. by apply H. Qed.

Lemma erase_ok g token : mgr_ok g -> mgr_ok (set_collabs (map_erase (collabs_ g) token) g).
Proof.
  intros (Hsorted & Hall & Hlen & Ht). split; [|split; [|split; [|done]]]; cbn [collabs_ set_collabs].
  - by apply map_sorted_erase.
  - by apply Forall_map_erase.
  - pose proof (length_map_erase (collabs_ g) token). lia.
Qed.

Lemma HandleCleanUp_safe token : safe (HandleCleanUp token).
Proof.
  intros g. apply safe_knowing. intros Hok. unfold HandleCleanUp. safe_code.
  - apply safe_modify. intros _. by apply erase_ok.
  - eapply with_object_safe; [by eapply entry_of_find| |intros; safe_code].
    apply object_bind; [apply UnInit_object|]. intros _. apply destroy_object.
Qed.

Lemma UnInit_safe : safe UnInit.
Proof.
  intros g. unfold UnInit. refine (safe_mbind _ _ _ (safe_emit g (SoftbusChannel false) eq_refl) _). intros _ g1.
  apply safe_knowing. intros (_ & Ha & _). apply safe_get. safe_code.
  - apply safe_modify. intros (_ & _ & _ & Ht). split; [constructor|]. split; [constructor|]. by split.
  - apply safe_mfor. intros [token s] Hin. eapply List.Forall_forall in Ha; [|exact Hin].
    by eapply destroyed_safe.
  - apply safe_modify. intros (? & ? & ? & _). split; [done|]. split; [done|]. split; [done|]. constructor.
Qed.

Section Received.
Context {JR : CJsonReads J} {PB : ParcelLibBound PL}.

Lemma CreateSinkCollab_safe session json token : safe (CreateSinkCollab session json token).
Proof.
  intros g. unfold CreateSinkCollab. destruct (version_reads json) as (r & Hr & _).
  apply safe_from_run; [by eexists|]. clear. intros [e|cmd]; safe_code.
  apply enter_collab_safe; [|apply post_event_object]. by apply initialised_entry.
Qed.
#[local] Hint Resolve CreateSinkCollab_safe : collabs.

Lemma NotifyDataRecv_safe session command json b token :
  received_ok b -> safe (NotifyDataRecv session command json b token).
Proof.
  intros Hb. unfold NotifyDataRecv. safe_code.
Qed.

Lemma HandleDataRecv_safe session b : received_ok b -> safe (HandleDataRecv session b).
Proof.
  intros Hb g. unfold HandleDataRecv. destruct b as [b|]; [|apply safe_mret].
  destruct (data_ b) as [d|] eqn:Hd; [|apply safe_mret].
  destruct (received_text (S' := DSchedCollabManager) (E := Effect) b d Hb Hd) as (text & Ht & _).
  specialize (Ht g []). unfold from_run in Ht.
  apply safe_from_run; [destruct (load_n _ _ _) as [x| |]; [by eexists|done..]|].
  intros json g1. apply safe_from_run; [apply command_and_token_reads|].
  intros [[command token]|]; [by apply NotifyDataRecv_safe|]. intros g2. apply safe_mret.
Qed.

Lemma run_task_safe x : task_ok x -> safe (run_task x).
Proof.
  intros Hx. destruct x; cbn [run_task]; cbn [task_ok] in Hx.
  - by apply HandleGetSinkCollabVersion_safe.
  - unfold HandleTimeOut. safe_code.
  - unfold HandleCollabPrepareResult, GetDSchedCollabByTokenId. safe_code.
  - unfold HandleCloseSessions. safe_code.
  - unfold HandleReleaseAbilityLink, GetDSchedCollabByTokenId. safe_code.
  - apply HandleCleanUp_safe.
  - by apply HandleDataRecv_safe.
  - unfold HandleShutdown. safe_code. apply safe_mfor. intros e _. safe_code.
Qed.

Lemma manager_turn_safe : safe manager_turn.
Proof.
  intros g. apply safe_knowing. intros (Hs & Ha & Hl & Ht). unfold manager_turn. apply safe_get.
  destruct (mgr_tasks_ g) as [|p posted] eqn:Hp; [apply safe_mret|].
  apply Forall_cons_1 in Ht as (Hx & Ht). safe_code.
  - apply safe_modify. by apply mgr_ok_tasks.
  - by apply run_task_safe.
Qed.

(** What is known of received buffers. *)
Definition move_ok (m : Move) : Prop :=
  match m with BytesArrived _ b => received_ok b | _ => True end.

Lemma CollabMission_safe info : safe (CollabMission info).
Proof.
  unfold CollabMission, mdm_control, sink_known, GetDSchedCollabByTokenId, DispatchCollabMission. safe_code.
Qed.

Lemma GetSinkCollabVersion_safe info : safe (GetSinkCollabVersion info).
Proof.
  unfold GetSinkCollabVersion. safe_code. apply post_task_safe. cbn. intros Hn. rewrite Hn in *.
  by rewrite orb_true_r in *.
Qed.

Lemma make_move_safe m : move_ok m -> safe (make_move m).
Proof.
  intros Hm. destruct m; cbn [make_move]; cbn [move_ok] in Hm.
  - unfold Init. safe_code. by apply safe_modify.
  - apply UnInit_safe.
  - safe_code. apply GetSinkCollabVersion_safe.
  - safe_code. apply CollabMission_safe.
  - unfold NotifyStartAbilityResult. safe_code. apply on_collab_safe. case_match; eauto with collabs.
  - unfold NotifySinkPrepareResult, GetDSchedCollabByTokenId. safe_code.
  - unfold NotifySinkRejectReason. safe_code. apply on_collab_safe; eauto with collabs.
  - unfold NotifyAbilityDied. safe_code.
  - unfold ReleaseAbilityLink. safe_code.
  - unfold CancleReleaseAbilityLink. safe_code.
  - unfold DisconnectAllSessionsForUser. safe_code. apply safe_mfor. intros e _. safe_code.
  - unfold NotifyWifiOpen. safe_code. apply safe_mfor. intros e _. safe_code.
  - unfold NotifySessionClose. safe_code. apply on_collab_safe; eauto with collabs.
  - unfold OnDataRecv. safe_code.
  - unfold OnShutdown. safe_code.
  - apply manager_turn_safe.
  - unfold object_turn. safe_code.
  - unfold object_task_turn. safe_code.
  - intros g. by apply safe_modify.
Qed.

Lemma make_moves_safe moves : Forall move_ok moves -> safe (mfor moves make_move).
Proof.
  intros Hm. apply safe_mfor. intros m Hin. apply make_move_safe. by eapply List.Forall_forall in Hm.
Qed.

Lemma Manager_init_ok : mgr_ok Manager_init.
Proof. split; [constructor|]. split; [constructor|]. by split. Qed.
End Received.

(** ** A collaboration whose end waits leaves the table *)

Definition object_turns (n : nat) token : Mg unit :=
  mfor (replicate n tt) (fun _ => object_turn token).

(** The state of the manager around the object under [token]. *)
Definition holds g token s g' s' : Prop :=
  mgr_ok g' /\ map_find (collabs_ g') token = Some s' /\
  mgr_eventHandler_ g' = mgr_eventHandler_ g /\ now_ g' = now_ g /\
  incl (mgr_tasks_ g) (mgr_tasks_ g') /\ collabToken_ (collabInfo_ s') = collabToken_ (collabInfo_ s).

Lemma holds_trans g1 token s1 g2 s2 g3 s3 :
  holds g1 token s1 g2 s2 -> holds g2 token s2 g3 s3 -> holds g1 token s1 g3 s3.
Proof.
  intros (_ & _ & A1 & B1 & C1 & D1) (? & ? & A2 & B2 & C2 & D2).
  do 2 (split; [done|]). do 2 (split; [congruence|]). split; [by eapply incl_tran|congruence].
Qed.

(** One turn of the thread of an object of the table. *)
Lemma object_turn_run g t token s s' l :
  mgr_ok g -> map_find (collabs_ g) token = Some s -> event_turn s t = Done (tt, s', t ++ l) ->
  exists g', object_turn token g t = Done (tt, g', t ++ l) /\ holds g token s g' s' /\
    (forall token, mgr_eventHandler_ g = true -> In (ManagerCleanUpSession token) l ->
      In (mkPosted (now_ g) [] (TaskCleanUp token)) (mgr_tasks_ g')).
Proof.
  intros Hok Hf Hturn. pose proof (entry_of_find _ _ _ Hok Hf) as He.
  destruct (event_turn_object token s t He) as ([] & s1 & l1 & E & He1 & _).
  rewrite Hturn in E. injection E as <- ->%app_inv_head.
  destruct (collab_on_object_run token event_turn s g t tt s' l1 Hf Hturn)
    as (g' & E & Hc & Hh & Hn & Hi & K & Hp).
  exists g'. split; [unfold object_turn, mbind; by rewrite E|]. split; [|exact Hp].
  split; [by apply K|]. split; [rewrite Hc; apply map_find_assign_eq|].
  do 2 (split; [done|]). split; [done|].
  destruct He as (_ & H1 & _), He1 as (_ & H2 & _). cbn [fst snd] in *. congruence.
Qed.

Lemma collab_object_turns_end n : forall g t token s,
  mgr_ok g -> mgr_eventHandler_ g = true -> map_find (collabs_ g) token = Some s ->
  (weight (queue_ s) <= n)%nat ->
  exists g' s' l, object_turns n token g t = Done (tt, g', t ++ l) /\ holds g token s g' s' /\
    queue_ s' = [] /\
    ((exists r, In (ERR_END_EVENT r) (queue_ s)) ->
      In (mkPosted (now_ g) [] (TaskCleanUp (collabToken_ (collabInfo_ s)))) (mgr_tasks_ g')).
Proof.
  induction n as [|n IH]; intros g t token s Hok Hh Hf Hw.
  - exists g, s, []. rewrite app_nil_r. destruct (queue_ s) as [|e q]; [|cbn in Hw; destruct (is_err e); lia].
    split; [done|]. split; [|split; [done|by intros (? & [])]].
    do 2 (split; [done|]). do 2 (split; [done|]). split; [apply incl_refl|done].
  - assert (exists s1 l1, event_turn s t = Done (tt, s1, t ++ l1) /\ (weight (queue_ s1) <= n)%nat /\
      ((exists r, In (ERR_END_EVENT r) (queue_ s)) ->
        cleaned s l1 \/ exists r, In (ERR_END_EVENT r) (queue_ s1))) as (s1 & l1 & Hturn & Hw1 & Hend).
    { pose proof (entry_of_find _ _ _ Hok Hf) as (Hwf & _). cbn in Hwf.
      destruct (queue_ s) as [|e q] eqn:Hq.
      - exists s, []. rewrite app_nil_r. unfold event_turn, mbind, get. cbn [run_bind]. rewrite Hq.
        split; [done|]. split; [cbn; lia|]. by intros (? & []).
      - pose proof Hwf as (_ & x & Hx & _).
        destruct (collab_event_turn_progress s t e q x Hwf Hx Hq) as (s1 & l1 & Ht & _ & _ & Hq1 & Hc1 & _).
        exists s1, l1. split; [done|]. split.
        + cbn [weight] in Hw. destruct Hq1 as [->|(He & r & ->)]; [destruct (is_err e); lia|].
          rewrite He in Hw. rewrite weight_app. cbn. lia.
        + intros (r & [->|Hin]); [left; by apply Hc1|]. right. exists r.
          destruct Hq1 as [->|(_ & r' & ->)]; [done|]. apply in_or_app. by left. }
    destruct (object_turn_run g t token s s1 l1 Hok Hf Hturn) as (g1 & E1 & H1 & P1).
    pose proof H1 as (Hok1 & Hf1 & Hh1 & Hn1 & _ & Htok1).
    destruct (IH g1 (t ++ l1) token s1 Hok1) as (g2 & s2 & l2 & E2 & H2 & Hempty & P2); [congruence|done|done|].
    exists g2, s2, (l1 ++ l2). unfold object_turns in *. cbn [replicate mfor]. unfold mbind at 1. rewrite E1.
    cbn [run_bind]. rewrite E2, app_assoc. split; [done|]. split; [by eapply holds_trans|].
    split; [done|]. intros [Hc|Hr]%Hend.
    + destruct H2 as (_ & _ & _ & _ & Hi2 & _). apply Hi2, P1; done.
    + rewrite <- Hn1, <- Htok1. by apply P2.
Qed.

Lemma RemoveTimeout_run token g t : mgr_eventHandler_ g = true -> exists g',
  RemoveTimeout token g t = Done (tt, g', t) /\ collabs_ g' = collabs_ g /\
  (token <> [] -> forall p, In p (mgr_tasks_ g') -> taskName p <> token).
Proof.
  intros Hh. unfold RemoveTimeout, RemoveTask, mbind, get, modify, mret. cbn [run_bind]. rewrite Hh.
  destruct token as [|b token]; cbn [empty]; [by exists g|].
  eexists. split; [reflexivity|]. split; [done|]. intros _ p Hp. by apply In_remove_tasks in Hp as (_ & ?).
Qed.

(** The task of the clean-up takes the object out, with its timeout. *)
Lemma HandleCleanUp_run token g t : mgr_ok g -> mgr_eventHandler_ g = true -> exists g' t',
  HandleCleanUp token g t = Done (tt, g', t') /\
  (map_find (collabs_ g) token <> None -> token <> [] ->
    forall p, In p (mgr_tasks_ g') -> taskName p <> token) /\
  map_find (collabs_ g') token = None /\
  (forall token', token' <> token -> map_find (collabs_ g') token' = map_find (collabs_ g) token').
Proof.
  intros Hok Hh. unfold HandleCleanUp, mbind at 1, get. cbn [run_bind].
  destruct (map_find (collabs_ g) token) as [s|] eqn:Hf; [|by eexists g, t].
  pose proof (entry_of_find _ _ _ Hok Hf) as He.
  set (g1 := set_collabs (map_erase (collabs_ g) token) g).
  destruct (RemoveTimeout_run token g1 t Hh) as (g2 & E2 & C2 & P2).
  assert (object_safe token (do! Collab.UnInit in destroy)) as Hdes
    by (apply object_bind; [apply UnInit_object|intros _; apply destroy_object]).
  destruct (Hdes s t He) as ([] & s' & l & E3 & _).
  destruct (with_object_run _ s g2 t tt s' l E3) as (g3 & E4 & (C3 & _ & _ & _ & N3) & _).
  exists g3, (t ++ l). split; [|split; [|split]].
  - unfold mbind at 1, modify. cbn [run_bind]. fold g1. unfold mbind at 1. rewrite E2. cbn [run_bind].
    unfold mbind at 1. by rewrite E4.
  - intros _ Hne p [Hp|Hp]%N3; [by apply P2|congruence].
  - rewrite C3, C2. apply map_find_erase_eq.
  - intros token' Hne. rewrite C3, C2. apply map_find_erase_ne.
    destruct (key_eq token token') eqn:E; [|done]. apply token_key_eq in E. congruence.
Qed.

Lemma token_key_ne token token' : token' <> token -> key_eq token token' = false.
Proof. intros Hne. destruct (key_eq token token') eqn:E; [|done]. apply token_key_eq in E. congruence. Qed.

(** ** Received commands *)

Lemma command_and_token_sent text n token :
  no_nul text -> no_nul token -> collab_announces text n token ->
  command_and_token (text ++ [0]) = Done (Some (n, token)).
Proof.
  intros Ht Hk (o & tb & b & H1 & H2 & H3 & H4 & H5). unfold parse in H1, H3. unfold command_and_token.
  rewrite c_str_app_nul by done. rewrite c_str_no_nul in H1 by done.
  destruct (cJSON_Parse text); [injection H1 as ->|done].
  unfold get_string in H2. destruct (cJSON_GetObjectItemCaseSensitive o _); [|done].
  destruct (string_of _); [injection H2 as ->|done].
  destruct (cJSON_Parse (c_str tb)); [injection H3 as ->|done].
  unfold get_number in H4. destruct (cJSON_GetObjectItemCaseSensitive b (str "Command")); [|done].
  destruct (cJSON_IsNumber _) eqn:E; [|done]. injection H4 as <-. cbn [negb].
  apply get_string_inv in H5 as (i & -> & -> & ->). cbn [negb]. by rewrite c_str_no_nul.
Qed.

(** The object of a token is the only one that carries it. *)
Lemma matched_by_token g token s session :
  mgr_ok g -> map_find (collabs_ g) token = Some s ->
  matched_collab session token g = if session =? softbusSessionId_ s then Some (token, s) else None.
Proof.
  intros Hok Hf. unfold matched_collab.
  destruct (List.find _ (collabs_ g)) as [[k s1]|] eqn:E.
  - apply List.find_some in E as (Hin & Hm). cbn [fst snd] in Hm.
    apply andb_true_iff in Hm as (Hs & Ht%bytes_eqb_eq).
    destruct (entry_of_In _ _ _ Hok Hin) as (_ & Hk & _). cbn [fst snd] in Hk. unfold GetCollabInfo in Ht.
    assert (k = token) as -> by congruence. pose proof Hok as (Hsorted & _).
    rewrite (map_find_In _ _ _ Hsorted Hin) in Hf. injection Hf as ->.
    unfold GetSoftbusSessionId in Hs. by rewrite Hs.
  - apply map_find_Some in Hf as Hin. destruct Hin as (k & Hin & ->%token_key_eq).
    pose proof (List.find_none _ _ E _ Hin) as Hn. cbn [fst snd] in Hn.
    destruct (entry_of_In _ _ _ Hok Hin) as (_ & Hk & _). cbn [fst snd] in Hk.
    unfold GetCollabInfo, GetSoftbusSessionId in Hn. rewrite Hk, bytes_eqb_refl, andb_true_r in Hn. by rewrite Hn.
Qed.

Lemma matched_none g token session :
  mgr_ok g -> map_find (collabs_ g) token = None -> matched_collab session token g = None.
Proof.
  intros Hok Hf. unfold matched_collab. destruct (List.find _ (collabs_ g)) as [[k s1]|] eqn:E; [|done].
  apply List.find_some in E as (Hin & Hm). cbn [fst snd] in Hm. apply andb_true_iff in Hm as (_ & Ht%bytes_eqb_eq).
  destruct (entry_of_In _ _ _ Hok Hin) as (_ & Hk & _). cbn [fst snd] in Hk. unfold GetCollabInfo in Ht.
  pose proof Hok as (Hsorted & _). pose proof (map_find_In _ _ _ Hsorted Hin) as Hs.
  congruence.
Qed.

Lemma Collab_HandleDataRecv_sent session text n token g t :
  no_nul text -> no_nul token -> collab_announces text n token ->
  HandleDataRecv session (sent text) g t
  = NotifyDataRecv session n (text ++ [0]) (sent text) token g t.
Proof.
  intros Ht Hk Ha. unfold HandleDataRecv, sent. cbn [data_ buffer_of]. unfold mbind at 1.
  rewrite load_sent. cbn [run_bind]. unfold mbind, from_run.
  by rewrite (command_and_token_sent text n token Ht Hk Ha).
Qed.

Lemma SetTimeOut_run token g t : mgr_eventHandler_ g = true -> exists g',
  SetTimeOut token COLLAB_TIMEOUT g t = Done (tt, g', t) /\ collabs_ g' = collabs_ g /\
  incl (mgr_tasks_ g) (mgr_tasks_ g') /\
  In (mkPosted (now_ g + COLLAB_TIMEOUT) token (TaskTimeOut token)) (mgr_tasks_ g').
Proof.
  intros Hh. unfold SetTimeOut, PostTask, mbind, get, modify. cbn [run_bind]. rewrite Hh.
  change (0 <? COLLAB_TIMEOUT) with true. cbn iota. eexists. split; [reflexivity|]. split; [done|].
  split; [intros p Hp; apply In_insert_task; by right|]. apply In_insert_task. by left.
Qed.

(** A token that is taken: nothing enters the table, the timeout is set all the same. *)
Lemma enter_collab_taken token s begin g t :
  mgr_eventHandler_ g = true -> map_count (collabs_ g) token = true ->
  Z.of_nat (length (collabs_ g)) < MAX_CONCURRENT_COLLABS ->
  entry_ok (token, s) -> object_safe token begin -> exists g' t',
    enter_collab token s begin g t = Done (tt, g', t') /\ collabs_ g' = collabs_ g /\
    In (mkPosted (now_ g + COLLAB_TIMEOUT) token (TaskTimeOut token)) (mgr_tasks_ g').
Proof.
  intros Hh Hc Hroom He Hb.
  destruct (Hb s t He) as (a & s1 & l1 & E1 & He1 & _).
  destruct (with_object_run begin s g t a s1 l1 E1) as (g1 & F1 & (C1 & H1 & N1 & _) & _).
  destruct (SetTimeOut_run token g1 (t ++ l1)) as (g2 & F2 & C2 & _ & T2); [congruence|].
  set (t2 := (t ++ l1) ++ [Query]). set (n := dropped_turns (t ++ l1)).
  destruct (turns_object token n s1 t2 He1) as (u & s3 & l3 & E3 & He3 & _).
  destruct (with_object_run _ s1 g2 t2 u s3 l3 E3) as (g3 & F3 & (C3 & _ & _ & I3 & _) & _).
  destruct (destroy_object token s3 (t2 ++ l3) He3) as (u4 & s4 & l4 & E4 & _).
  destruct (with_object_run _ s3 g3 (t2 ++ l3) u4 s4 l4 E4) as (g4 & F4 & (C4 & _ & _ & I4 & _) & _).
  exists g4, ((t2 ++ l3) ++ l4). split; [|split; [congruence|]].
  - unfold enter_collab, mbind at 1, get. cbn [run_bind].
    rewrite (proj2 (Z.leb_gt MAX_CONCURRENT_COLLABS _) Hroom), Hc.
    unfold mbind at 1. rewrite F1. cbn [run_bind]. unfold mbind at 1. rewrite F2. cbn [run_bind].
    unfold drop_object, mbind at 1, query, call. cbn [run_bind]. fold n t2.
    unfold mbind at 1. rewrite F3. cbn [run_bind]. unfold mbind. by rewrite F4.
  - apply I4, I3. by rewrite <- N1.
Qed.

Lemma enter_collab_fresh token s begin g t a s' l :
  mgr_eventHandler_ g = true -> map_count (collabs_ g) token = false ->
  Z.of_nat (length (collabs_ g)) < MAX_CONCURRENT_COLLABS ->
  begin s t = Done (a, s', t ++ l) -> exists g',
    enter_collab token s begin g t = Done (tt, g', t ++ l) /\
    map_find (collabs_ g') token = Some s' /\
    (forall token', token' <> token -> map_find (collabs_ g') token' = map_find (collabs_ g) token') /\
    In (mkPosted (now_ g + COLLAB_TIMEOUT) token (TaskTimeOut token)) (mgr_tasks_ g').
Proof.
  intros Hh Hc Hroom Hb. set (g1 := set_collabs (map_assign (collabs_ g) token s) g).
  destruct (collab_on_object_run token begin s g1 t a s' l (map_find_assign_eq _ _ _) Hb)
    as (g2 & F2 & C2 & H2 & N2 & _).
  destruct (SetTimeOut_run token g2 (t ++ l)) as (g3 & F3 & C3 & _ & T3); [by rewrite H2|].
  exists g3. split; [|split; [|split]].
  - unfold enter_collab, mbind at 1, get. cbn [run_bind].
    rewrite (proj2 (Z.leb_gt MAX_CONCURRENT_COLLABS _) Hroom), Hc.
    unfold mbind at 1, modify at 1. cbn [run_bind]. fold g1. unfold mbind at 1. by rewrite F2.
  - rewrite C3, C2. apply map_find_assign_eq.
  - intros token' Hne. rewrite C3, C2. cbn [collabs_ set_collabs g1].
    by rewrite !map_find_assign_ne by by apply token_key_ne.
  - rewrite N2 in T3. exact T3.
Qed.

(** A version request that is for this device and reaches no object. *)
Lemma version_request_run c session token text g t :
  matched_collab session token g = None ->
  GetSinkCollabVersionCmdCodec.Unmarshal (text ++ [0]) = ok c ->
  GetLocalDeviceId t = Some (CollabEvent.sinkDeviceId_ (version_base c)) ->
  NotifyDataRecv session SINK_GET_VERSION_CMD (text ++ [0]) (sent text) token g t
  = enter_collab (CollabEvent.collabToken_ (version_base c))
      (initialised SINK_GET_VERSION_STATE (construct_sink c session)) PostSinkGetVersionTask
      g (t ++ [Query]).
Proof.
  intros Hm Hu Hd. unfold NotifyDataRecv, mbind at 1, get. cbn [run_bind]. rewrite Hm.
  change (SINK_GET_VERSION_CMD =? SINK_GET_VERSION_CMD) with true. cbn iota.
  unfold CreateSinkCollab, mbind at 1, from_run. rewrite Hu. cbn [ok run_bind].
  unfold mbind at 1, query, call. cbn [run_bind]. rewrite Hd. by rewrite bytes_eqb_refl.
Qed.

(** A version command that survives its text. *)
Definition version_wf (c : GetSinkCollabVersionCmd) : Prop :=
  collab_base_wf (version_base c) /\ is_int32 (version_srcPid_ c) /\ is_int32 (version_srcUid_ c) /\
  is_int32 (version_srcAccessToken_ c) /\ is_int32 (CollabEvent.sinkCollabVersion_ c).

Lemma version_token_no_nul c : version_wf c -> no_nul (CollabEvent.collabToken_ (version_base c)).
Proof. by intros ((_ & ? & _) & _). Qed.

Lemma version_sent {Jok : CJsonOk J} c : version_wf c -> exists text,
  GetSinkCollabVersionCmdCodec.Marshal c = ok text /\ no_nul text /\
  collab_announces text (CollabEvent.command_ (version_base c)) (CollabEvent.collabToken_ (version_base c)) /\
  GetSinkCollabVersionCmdCodec.Unmarshal (text ++ [0]) = ok c.
Proof.
  intros (H1 & H2 & H3 & H4 & H5). destruct (version_cmd_roundtrip c H1 H2 H3 H4 H5) as (text & M1 & M2 & M3 & M4).
  exists text. split_and!; [done..|]. rewrite <- M4. unfold GetSinkCollabVersionCmdCodec.Unmarshal.
  by rewrite parse_sent.
Qed.

Lemma sink_entry token c session :
  CollabEvent.collabToken_ (version_base c) = token ->
  entry_ok (token, initialised SINK_GET_VERSION_STATE (construct_sink c session)).
Proof. intros H. by apply initialised_entry. Qed.
End Manager.
