(* ===== verification/CollabManagerProperties.v ===== *)
(** * Properties of the manager of the collaborations

    The manager of [CollabManager.v] under any sequence of calls, received data and turns;
    the timeout that ends a collaboration; who gets a received command; which collaborations
    softbus is told of; and where requests reach collaborations they should not. *)

From Stdlib Require Import ZArith Lia String.
From stdpp Require Import base list option.
From S2P Require Import Prelude ErrorCodes DataBuffer StdMap StdString EventQueue Base64 Framework ContinueEvent CollabEvent Effects CommandTotality Collab CollabLemmas CollabProperties CollabManager CollabManagerLemmas.

Section Properties.
Context {J : CJson} {N : NJson} {W : WantLib} {P : ParamsLib} {PL : ParcelLib}.
Context {Ev : CollabEnv} {ME : CollabManagerEnv}.
Implicit Types (g : DSchedCollabManager) (s : DSchedCollab) (t l : list Effect) (token : bytes).

(** C11 Whatever calls, received buffers, turns of the manager's and the objects' threads and
    pauses follow one another, every one returns; the table holds at most 512 initialised
    collaborations, in the order of their tokens and each under its own; and every ability
    any of them started was permitted just before, for the same want. *)
Theorem collab_manager_run_safe {JR : CJsonReads J} {PB : ParcelLibBound PL} moves :
  Forall move_ok moves -> exists g t,
    mfor moves make_move Manager_init [] = Done (tt, g, t) /\
    map_sorted (collabs_ g) /\ Z.of_nat (length (collabs_ g)) <= MAX_CONCURRENT_COLLABS /\
    (forall token s, In (token, s) (collabs_ g) -> wf s /\ collabToken_ (collabInfo_ s) = token) /\
    (forall l1 w l2, t = l1 ++ StartAbilityByCall w :: l2 ->
      exists l0 w', l1 = l0 ++ [PermissionChecked w' ERR_OK; Query] /\
        w = RemoveParam w' DMS_IS_CALLER_FOREGROUND).
Proof.
  intros Hm. destruct (make_moves_safe moves Hm Manager_init Manager_init_ok [])
    as ([] & g & l & E & Hok & Hs).
  exists g, l. pose proof Hok as (Hsorted & _ & Hlen & _). split; [exact E|]. split; [done|].
  split; [done|]. split; [|exact Hs]. intros token s Hin.
  destruct (entry_of_In _ _ _ Hok Hin) as (Hwf & Htok & _). by split.
Qed.

(** The timeout removes a collaboration: when its task runs, two turns of the object's
    thread for every waiting event and the end leave a task that is due at once, and that
    task, whenever it runs, takes the collaboration and its timeout out; others stay.  The
    object must not be disconnected yet and its event handler must take the end. *)
Theorem collab_timeout_removes g t token s :
  mgr_ok g -> mgr_eventHandler_ g = true -> map_find (collabs_ g) token = Some s ->
  willing s -> isDisconnected_ s = false ->
  exists g1 t1,
    (do! run_task (TaskTimeOut token) in object_turns (2 * S (length (queue_ s))) token) g t = Done (tt, g1, t1) /\
    In (mkPosted (now_ g) [] (TaskCleanUp token)) (mgr_tasks_ g1) /\
    forall g2 t2, mgr_ok g2 -> mgr_eventHandler_ g2 = true -> exists g3 t3,
      run_task (TaskCleanUp token) g2 t2 = Done (tt, g3, t3) /\ map_find (collabs_ g3) token = None /\
      (map_find (collabs_ g2) token <> None -> token <> [] ->
        forall p, In p (mgr_tasks_ g3) -> taskName p <> token) /\
      (forall token', token' <> token -> map_find (collabs_ g3) token' = map_find (collabs_ g2) token').
Proof.
  intros Hok Hh Hf Hwill Hnd. pose proof (entry_of_find _ _ _ Hok Hf) as He.
  set (s1 := set_queue (queue_ s ++ [ERR_END_EVENT Dms.COLLAB_ABILITY_TIMEOUT_ERR]) s).
  pose proof (PostErrEndTask_willing Dms.COLLAB_ABILITY_TIMEOUT_ERR s t Hwill Hnd) as Hpost. fold s1 in Hpost.
  destruct (collab_on_object_run token _ s g t ERR_OK s1 [Query] Hf Hpost) as (g0 & E0 & C0 & H0 & N0 & _ & K0 & _).
  assert (entry_ok (token, s1)) as He1 by exact He.
  assert (map_find (collabs_ g0) token = Some s1) as Hf0 by (rewrite C0; apply map_find_assign_eq).
  destruct (collab_object_turns_end (2 * S (length (queue_ s))) g0 (t ++ [Query]) token s1)
    as (g1 & s2 & l & E1 & _ & _ & Hp); [by apply K0|congruence|done| |].
  { etrans; [apply weight_bound|]. cbn [queue_ set_queue s1]. rewrite length_app. cbn. lia. }
  exists g1, ((t ++ [Query]) ++ l). split; [|split].
  - cbn [run_task]. unfold HandleTimeOut, mbind at 1. unfold mbind at 1. rewrite E0. exact E1.
  - destruct He as (_ & Htok & _). cbn [fst snd] in Htok. rewrite <- Htok, <- N0. apply Hp.
    exists Dms.COLLAB_ABILITY_TIMEOUT_ERR. apply in_or_app. right. by left.
  - intros g2 t2 Hok2 Hh2. destruct (HandleCleanUp_run token g2 t2 Hok2 Hh2) as (g3 & t3 & E & Hn & Hnone & Hoth).
    by exists g3, t3.
Qed.

(** A received command goes to the collaboration of its session and its token and to no
    other; and a result command ends the wait: no timeout of that token remains. *)
Theorem command_reaches_its_collab {JR : CJsonReads J} {PB : ParcelLibBound PL} text n token g t s :
  mgr_ok g -> mgr_eventHandler_ g = true -> map_find (collabs_ g) token = Some s -> token <> [] ->
  no_nul text -> no_nul token -> collab_announces text n token -> received_ok (sent text) ->
  let session := softbusSessionId_ s in
  exists s' l g',
    Collab.OnDataRecv (GetPeerDeviceIdBySocket t session) n (sent text) s (t ++ [Query])
      = Done (tt, s', (t ++ [Query]) ++ l) /\
    HandleDataRecv session (sent text) g t = Done (tt, g', (t ++ [Query]) ++ l) /\
    map_find (collabs_ g') token = Some s' /\
    (forall token', token' <> token -> map_find (collabs_ g') token' = map_find (collabs_ g) token') /\
    (n = NOTIFY_RESULT_CMD -> forall p, In p (mgr_tasks_ g') -> taskName p <> token).
Proof.
  intros Hok Hh Hf Hne Ht Hk Ha Hb session. pose proof (entry_of_find _ _ _ Hok Hf) as He.
  destruct (OnDataRecv_object token (GetPeerDeviceIdBySocket t session) n (sent text) Hb s (t ++ [Query]) He)
    as ([] & s' & l & E & _).
  destruct (collab_on_object_run token _ s g (t ++ [Query]) tt s' l Hf E) as (g1 & E1 & C1 & H1 & _).
  assert (exists g2, (when n =? NOTIFY_RESULT_CMD do RemoveTimeout token) g1 ((t ++ [Query]) ++ l)
      = Done (tt, g2, (t ++ [Query]) ++ l) /\ collabs_ g2 = collabs_ g1 /\
    (n = NOTIFY_RESULT_CMD -> forall p, In p (mgr_tasks_ g2) -> taskName p <> token)) as (g2 & E2 & C2 & P2).
  { destruct (Z.eqb_spec n NOTIFY_RESULT_CMD); [|by exists g1].
    destruct (RemoveTimeout_run token g1 ((t ++ [Query]) ++ l)) as (g2 & ? & ? & ?); [congruence|].
    exists g2. auto. }
  exists s', l, g2. split; [done|]. split; [|split; [|split; [|done]]].
  - rewrite (Collab_HandleDataRecv_sent session text n token) by done. unfold NotifyDataRecv, mbind at 1, get.
    cbn [run_bind]. rewrite (matched_by_token g token s session Hok Hf). unfold session at 1.
    rewrite Z.eqb_refl. unfold mbind at 1, query, call. cbn [run_bind]. unfold mbind at 1. by rewrite E1.
  - rewrite C2, C1. apply map_find_assign_eq.
  - intros token' Hne'. rewrite C2, C1. apply map_find_assign_ne. by apply token_key_ne.
Qed.

(** A version request for this device under a fresh token makes a sink: in its first
    state, on the session the request came from, with the version event waiting and the
    timeout set; nothing else enters or leaves. *)
Theorem version_request_creates_sink {Jok : CJsonOk J} c session g t :
  mgr_ok g -> mgr_eventHandler_ g = true -> Z.of_nat (length (collabs_ g)) < MAX_CONCURRENT_COLLABS ->
  (forall t, SendEvent_ok t = true) ->
  GetLocalDeviceId t = Some (CollabEvent.sinkDeviceId_ (version_base c)) ->
  version_wf c -> CollabEvent.command_ (version_base c) = SINK_GET_VERSION_CMD ->
  let token := CollabEvent.collabToken_ (version_base c) in
  map_find (collabs_ g) token = None ->
  exists text g' t' s, GetSinkCollabVersionCmdCodec.Marshal c = ok text /\
    HandleDataRecv session (sent text) g t = Done (tt, g', t') /\
    map_find (collabs_ g') token = Some s /\
    currentState_ s = Some SINK_GET_VERSION_STATE /\ queue_ s = [GET_SINK_VERSION_EVENT] /\
    direction_ (collabInfo_ s) = COLLAB_SINK /\ softbusSessionId_ s = session /\
    In (mkPosted (now_ g + COLLAB_TIMEOUT) token (TaskTimeOut token)) (mgr_tasks_ g') /\
    (forall token', token' <> token -> map_find (collabs_ g') token' = map_find (collabs_ g) token').
Proof.
  intros Hok Hh Hroom Hsend Hd Hwf Hc token Hf.
  destruct (version_sent c Hwf) as (text & H1 & H2 & H3 & H4).
  set (s := initialised SINK_GET_VERSION_STATE (construct_sink c session)).
  set (s1 := set_queue [GET_SINK_VERSION_EVENT] s).
  assert (PostSinkGetVersionTask s (t ++ [Query]) = Done (ERR_OK, s1, (t ++ [Query]) ++ [Query])) as Hpost.
  { unfold PostSinkGetVersionTask, post_event, SendEvent, ask, call, mbind, get, modify. cbn. by rewrite Hsend. }
  destruct (enter_collab_fresh token s PostSinkGetVersionTask g (t ++ [Query]) ERR_OK s1 [Query])
    as (g' & E & Hs & Hoth & Hp); [done|unfold map_count; by rewrite Hf|done|done|].
  exists text, g', ((t ++ [Query]) ++ [Query]), s1. split; [done|]. split; [|by split_and!].
  rewrite (Collab_HandleDataRecv_sent session text SINK_GET_VERSION_CMD token);
    [|done|by apply version_token_no_nul|by rewrite <- Hc].
  rewrite (version_request_run c session token text g t); [exact E|by apply matched_none|done|done].
Qed.
(** A version request under the token of a running collaboration makes no sink, but its
    timeout is set under that token and ends the collaboration that runs. *)
Theorem duplicate_token_times_out {Jok : CJsonOk J} c session g t s :
  mgr_ok g -> mgr_eventHandler_ g = true -> Z.of_nat (length (collabs_ g)) < MAX_CONCURRENT_COLLABS ->
  GetLocalDeviceId t = Some (CollabEvent.sinkDeviceId_ (version_base c)) ->
  version_wf c -> CollabEvent.command_ (version_base c) = SINK_GET_VERSION_CMD ->
  let token := CollabEvent.collabToken_ (version_base c) in
  map_find (collabs_ g) token = Some s -> softbusSessionId_ s <> session ->
  willing s -> isDisconnected_ s = false ->
  exists text g' t', GetSinkCollabVersionCmdCodec.Marshal c = ok text /\
    HandleDataRecv session (sent text) g t = Done (tt, g', t') /\ collabs_ g' = collabs_ g /\
    In (mkPosted (now_ g + COLLAB_TIMEOUT) token (TaskTimeOut token)) (mgr_tasks_ g') /\
    exists g2 t2, run_task (TaskTimeOut token) g' t' = Done (tt, g2, t2) /\
      map_find (collabs_ g2) token
        = Some (set_queue (queue_ s ++ [ERR_END_EVENT Dms.COLLAB_ABILITY_TIMEOUT_ERR]) s).
Proof.
  intros Hok Hh Hroom Hd Hwf Hc token Hf Hs Hwill Hnd.
  destruct (version_sent c Hwf) as (text & H1 & H2 & H3 & H4).
  destruct (enter_collab_taken token (initialised SINK_GET_VERSION_STATE (construct_sink c session))
    PostSinkGetVersionTask g (t ++ [Query])) as (g' & t' & E & C' & P'); [done| |done| | |].
  { unfold map_count. by rewrite Hf. }
  { by apply sink_entry. }
  { apply post_event_object. }
  pose proof Hf as Hf'. rewrite <- C' in Hf'.
  destruct (collab_on_object_run token _ s g' t' ERR_OK _ [Query] Hf' (PostErrEndTask_willing Dms.COLLAB_ABILITY_TIMEOUT_ERR s t' Hwill Hnd))
    as (g2 & E2 & C2 & _).
  exists text, g', t'. split; [done|]. split; [|split; [done|split; [done|]]].
  - rewrite (Collab_HandleDataRecv_sent session text SINK_GET_VERSION_CMD token);
      [|done|by apply version_token_no_nul|by rewrite <- Hc].
    rewrite (version_request_run c session token text g t); [exact E| |done|done].
    rewrite (matched_by_token g token s session Hok Hf). by rewrite (proj2 (Z.eqb_neq _ _) (not_eq_sym Hs)).
  - exists g2, (t' ++ [Query]). split; [|rewrite C2; apply map_find_assign_eq].
    cbn [run_task]. unfold HandleTimeOut, mbind. by rewrite E2.
Qed.

(** A side of a collaboration, whichever. *)
Definition either_side (c : CollabInfo) (i : DSchedCollabInfo) : bool :=
  same_source c i || same_sink c i.

(** Softbus is told that two processes collaborate exactly when some collaboration of the
    table has each of them as one of its sides; which side is not compared, so a process
    collaborates with itself whenever it collaborates. *)
Theorem collab_relation_spec source sink g :
  (CheckCollabRelation source sink g = ERR_OK <->
    exists token s, In (token, s) (collabs_ g) /\ either_side source (collabInfo_ s) = true /\
      (checked_pid sink = NO_NEED_TO_CHECK_ID \/ either_side sink (collabInfo_ s) = true)) /\
  (CheckCollabRelation source sink g = ERR_OK -> CheckCollabRelation source source g = ERR_OK).
Proof.
  assert (forall c i, (CheckSrcCollabRelation c i =? ERR_OK) = either_side c i) as Hsrc.
  { intros. unfold CheckSrcCollabRelation, either_side. by destruct (same_source c i), (same_sink c i). }
  assert (forall c i, (CheckSinkCollabRelation c i =? ERR_OK) = either_side c i) as Hsink.
  { intros. unfold CheckSinkCollabRelation, either_side. by destruct (same_source c i), (same_sink c i). }
  assert (forall sink, CheckCollabRelation source sink g = ERR_OK <->
    exists token s, In (token, s) (collabs_ g) /\ either_side source (collabInfo_ s) = true /\
      (checked_pid sink = NO_NEED_TO_CHECK_ID \/ either_side sink (collabInfo_ s) = true)) as Hspec.
  { clear sink. intros sink.
    transitivity (check_relations source sink (map (fun e => GetCollabInfo e.2) (collabs_ g)) = ERR_OK).
    { unfold CheckCollabRelation. by destruct (collabs_ g). }
    induction (collabs_ g) as [|[k s] l IH]; cbn [map check_relations snd].
    { split; [discriminate|]. by intros (? & ? & [] & _). }
    rewrite Hsrc, Hsink. unfold GetCollabInfo at 1 2. destruct (either_side source (collabInfo_ s)) eqn:Ha;
      [destruct ((checked_pid sink =? NO_NEED_TO_CHECK_ID) || either_side sink (collabInfo_ s)) eqn:Hb|];
      cbn [andb].
    - split; [|done]. intros _. exists k, s. split; [by left|]. split; [done|].
      apply orb_true_iff in Hb as [Hb%Z.eqb_eq|Hb]; auto.
    - rewrite IH. apply orb_false_iff in Hb as (Hb%Z.eqb_neq & Hb').
      split; intros (k' & s' & Hin & H1 & H2).
      + exists k', s'. split; [by right|done].
      + destruct Hin as [[= -> ->]|Hin]; [|by exists k', s']. destruct H2; [done|congruence].
    - rewrite IH. split; intros (k' & s' & Hin & H1 & H2).
      + exists k', s'. split; [by right|done].
      + destruct Hin as [[= -> ->]|Hin]; [congruence|by exists k', s']. }
  split; [apply Hspec|]. rewrite !Hspec. intros (k & s & Hin & H1 & _). exists k, s. auto.
Qed.

(** When an application dies only the first of the collaborations it takes part in gets the
    end event; every other one is left as it is. *)
Theorem died_process_closes_one bundle pid g t :
  mgr_ok g ->
  let mine e := takes_part bundle pid (collabInfo_ (e : bytes * DSchedCollab).2) in
  match List.filter mine (collabs_ g) with
  | [] => run_task (TaskCloseSessions bundle pid) g t = Done (tt, g, t)
  | (token, s) :: _ => willing s -> exists g' l,
      run_task (TaskCloseSessions bundle pid) g t = Done (tt, g', t ++ l) /\
      map_find (collabs_ g') token
        = Some (set_queue (queue_ s ++ [END_EVENT]) s) /\
      (forall token', token' <> token -> map_find (collabs_ g') token' = map_find (collabs_ g) token')
  end.
Proof.
  intros Hok mine. cbn [run_task]. unfold HandleCloseSessions, GetCollabInfo.
  destruct (List.filter mine (collabs_ g)) as [|[token s] l] eqn:E.
  - unfold mbind at 1, mbind, get. cbn [run_bind]. fold mine. by rewrite E.
  - intros (Hh & Hsend).
    assert (In (token, s) (collabs_ g)) as Hin.
    { apply (List.filter_In mine). rewrite E. by left. }
    pose proof Hok as (Hsorted & _). apply (map_find_In _ _ _ Hsorted) in Hin as Hf.
    pose proof (collab_post_event_posts Hsend END_EVENT s t Hh) as Hp.
    destruct (collab_on_object_run token PostEndTask s g t _ _ _ Hf Hp) as (g' & E' & C' & _).
    exists g'. eexists. split; [|split].
    + unfold mbind at 1, mbind, get. cbn [run_bind]. fold mine. rewrite E, E'. reflexivity.
    + rewrite C'. apply map_find_assign_eq.
    + intros token' Hne. rewrite C'. apply map_find_assign_ne. by apply token_key_ne.
Qed.
End Properties.

(** ** A concrete manager *)

Module DemoManager.
Export CollabProperties.Demo.
#[export] Existing Instance DemoJson.demo_reads.
#[export] Existing Instance demo_parcels_bound.

(** The services around the sink of [Demo] all agree. *)
#[export] Instance manager_env : CollabManagerEnv := {|
  RegisterRelationChecker _ := ERR_OK;
  GetLocalDeviceId _ := Some (str "dst");
  GetDeviceInfoById _ _ := true;
  CheckNetworkIdByBundleName _ _ _ := true;
  IsCallerForeground _ _ := true;
  IsSystemAppByFullTokenID _ := true;
  GetPeerDeviceIdBySocket _ _ := str "src";
  IsWifiActive _ := true;
  dropped_turns _ := 1%nat
|}.

(** The given collaborations in a manager that runs. *)
Definition running (l : std_map bytes DSchedCollab) : DSchedCollabManager := mkManager true 0 [] l.

Definition waiting : DSchedCollab := object COLLAB_SOURCE SOURCE_WAIT_RESULT_STATE [].

Lemma collab_waiting_ok : mgr_ok (running [(str "token", waiting)]).
Proof.
  split; [repeat constructor|]. split; [|split; [by vm_compute|constructor]].
  constructor; [|constructor]. split; [apply collab_object_wf|]. split; [reflexivity|constructor].
Qed.

(** A request of the peer for the version of this device. *)
Definition request : GetSinkCollabVersionCmd :=
  mkGetSinkCollabVersionCmd
    (mkBaseCmd true false true 1 6 SINK_GET_VERSION_CMD 7 (str "token") (str "src") (str "com.demo")
      (str "Main") (str "entry") (str "s1") (str "dst") (str "com.demo") (str "Main") (str "entry") (str "s1"))
    100 20010 5 1.

Lemma request_wf : version_wf request.
Proof. unfold version_wf, collab_base_wf, request. wf_compute. Qed.

Definition willing_env : forall s : DSchedCollab, eventHandler_ s = true -> willing (Ev := env) s :=
  fun s H => conj H (fun _ => eq_refl).
End DemoManager.
Import DemoManager.

(** A source from its request to its removal, with what reaches its session meanwhile. *)
Lemma collab_manager_run_safe_witness :
  let moves := [CallInit; CallGetSinkCollabVersion (Demo.info COLLAB_SOURCE); ManagerTurn;
    ObjectTurn []; BytesArrived 5 (sent (str "not a command")); ManagerTurn; Wait COLLAB_TIMEOUT;
    ManagerTurn; ObjectTurn (str "token"); ObjectTurn (str "token"); ManagerTurn] in
  exists g t, mfor moves (make_move (Ev := Demo.env)) Manager_init [] = Done (tt, g, t) /\
    map_sorted (collabs_ g) /\ collabs_ g = [] /\ In (DisconnectDevice (str "dst")) t.
Proof.
  intros moves.
  assert (Forall move_ok moves) as Hm.
  { unfold moves. repeat apply Forall_cons_2; try exact I; try discriminate; [|apply Forall_nil_2].
    split; [apply buffer_of_wf; vm_compute; split; reflexivity|reflexivity]. }
  destruct (collab_manager_run_safe (Ev := Demo.env) (ME := manager_env) moves Hm) as (g & t & H & Hs & _).
  assert (ends_with (fun _ g t => Nat.eqb (length (collabs_ g)) 0 &&
      existsb (fun e => match e with DisconnectDevice d => bytes_eqb d (str "dst") | _ => false end) t)
    (mfor moves (make_move (Ev := Demo.env)) Manager_init []) = true) as Hrun by (vm_compute; reflexivity).
  rewrite H in Hrun. cbn [ends_with] in Hrun. apply andb_true_iff in Hrun as (Hc & Hd).
  exists g, t. split; [exact H|]. split; [exact Hs|]. split; [apply length_zero_iff_nil, Nat.eqb_eq, Hc|].
  apply existsb_exists in Hd as (e & Hin & He). destruct e; try discriminate He.
  apply bytes_eqb_eq in He. rewrite He in Hin. exact Hin.
Defined.

Lemma collab_timeout_removes_witness :
  let g := running [(str "token", waiting)] in
  exists g1 t1,
    (do! run_task (Ev := Demo.env) (TaskTimeOut (str "token")) in object_turns (Ev := Demo.env) 2 (str "token")) g []
      = Done (tt, g1, t1) /\
    exists g2 t2, run_task (Ev := Demo.env) (TaskCleanUp (str "token")) g t1 = Done (tt, g2, t2) /\
      map_find (collabs_ g2) (str "token") = None.
Proof.
  intros g.
  destruct (collab_timeout_removes (Ev := Demo.env) (ME := manager_env) g [] (str "token") waiting
    collab_waiting_ok eq_refl eq_refl (willing_env waiting eq_refl) eq_refl) as (g1 & t1 & H & _ & Ht).
  exists g1, t1. split; [exact H|].
  destruct (Ht g t1 collab_waiting_ok eq_refl) as (g2 & t2 & H2 & Hn & _). exists g2, t2. by split.
Defined.


(** The result of the peer ends the wait of the source. *)
Definition demo_result : NotifyResultCmd :=
  mkNotifyResultCmd (mkBaseCmd true false true 1 6 NOTIFY_RESULT_CMD 7 (str "token") (str "src")
      (str "com.demo") (str "Main") (str "entry") (str "s1") (str "dst") (str "com.demo") (str "Main")
      (str "entry") (str "s1"))
    0 9 200 6 100 1 (str "socket") [].

Lemma command_reaches_its_collab_witness :
  let g := running [(str "token", waiting)] in
  exists text s' g' t', NotifyResultCmdCodec.Marshal demo_result = ok text /\
    HandleDataRecv (Ev := Demo.env) 5 (sent text) g [] = Done (tt, g', t') /\
    map_find (collabs_ g') (str "token") = Some s' /\ forall p, In p (mgr_tasks_ g') -> taskName p <> str "token".
Proof.
  intros g.
  assert (notify_wf demo_result) as Hwf by (unfold notify_wf, collab_base_wf, demo_result; wf_compute).
  destruct (notify_cmd_roundtrip (Jok := DemoJson.demo_ok) demo_result Hwf) as (text & Hm & Hn & Ha & _).
  destruct (command_reaches_its_collab (Ev := Demo.env) (ME := manager_env) text NOTIFY_RESULT_CMD (str "token")
    g [] waiting collab_waiting_ok eq_refl eq_refl ltac:(discriminate) Hn ltac:(vm_compute; repeat constructor; discriminate) Ha)
    as (s' & l & g' & _ & H & Hf & _ & Hp).
  { assert (match NotifyResultCmdCodec.Marshal demo_result with
      | Done (inr text) => (0 <? zlen (text ++ [0])) && (zlen (text ++ [0]) <? DSCHED_MAX_BUFFER_SIZE)
      | _ => false
      end = true) as Hb by (vm_compute; reflexivity).
    rewrite Hm in Hb. apply andb_true_iff in Hb as (H1 & H2).
    split; [apply buffer_of_wf; split; apply Z.ltb_lt; [exact H1|exact H2]|reflexivity]. }
  exists text, s', g', ([Query] ++ l). split; [exact Hm|]. split; [exact H|]. split; [exact Hf|].
  exact (Hp eq_refl).
Defined.

Lemma version_request_creates_sink_witness :
  exists text g' t' s, GetSinkCollabVersionCmdCodec.Marshal request = ok text /\
    HandleDataRecv (Ev := Demo.env) 6 (sent text) (running []) [] = Done (tt, g', t') /\
    map_find (collabs_ g') (str "token") = Some s /\ queue_ s = [GET_SINK_VERSION_EVENT] /\
    softbusSessionId_ s = 6.
Proof.
  destruct (version_request_creates_sink (Jok := DemoJson.demo_ok) (Ev := Demo.env) (ME := manager_env) request 6
    (running []) [] ltac:(split; [constructor|split; [constructor|split; [discriminate|constructor]]])
    eq_refl eq_refl (fun _ => eq_refl) eq_refl request_wf eq_refl eq_refl)
    as (text & g' & t' & s & Hm & H & Hf & _ & Hq & _ & Hs & _).
  exists text, g', t', s. split; [exact Hm|]. split; [exact H|]. split; [exact Hf|]. split; [exact Hq|exact Hs].
Defined.

Lemma duplicate_token_times_out_witness :
  let g := running [(str "token", waiting)] in
  exists text g' t', HandleDataRecv (Ev := Demo.env) 6 (sent text) g [] = Done (tt, g', t') /\
    collabs_ g' = collabs_ g /\
    exists g2 t2, run_task (Ev := Demo.env) (TaskTimeOut (str "token")) g' t' = Done (tt, g2, t2) /\
      map_find (collabs_ g2) (str "token")
        = Some (set_queue [ERR_END_EVENT Dms.COLLAB_ABILITY_TIMEOUT_ERR] waiting).
Proof.
  intros g.
  destruct (duplicate_token_times_out (Jok := DemoJson.demo_ok) (Ev := Demo.env) (ME := manager_env) request 6
    g [] waiting collab_waiting_ok eq_refl eq_refl eq_refl request_wf eq_refl eq_refl ltac:(discriminate)
    (willing_env waiting eq_refl) eq_refl) as (text & g' & t' & _ & H & Hc & _ & H2).
  exists text, g', t'. split; [exact H|]. split; [exact Hc|exact H2].
Defined.

(** Two collaborations of one application. *)
Lemma died_process_closes_one_witness :
  let other := set_collabInfo (set_version_and_token (str "zz") (Demo.info COLLAB_SOURCE)) waiting in
  let g := running [(str "token", waiting); (str "zz", other)] in
  takes_part (str "com.demo") 100 (collabInfo_ other) = true /\
  exists g' t', run_task (Ev := Demo.env) (TaskCloseSessions (str "com.demo") 100) g [] = Done (tt, g', t') /\
    map_find (collabs_ g') (str "token") = Some (set_queue [END_EVENT] waiting) /\
    map_find (collabs_ g') (str "zz") = Some other.
Proof.
  intros other g. split; [reflexivity|].
  assert (mgr_ok (running [(str "token", waiting); (str "zz", other)])) as Hok.
  { split; [repeat constructor; reflexivity|]. split; [|split; [by vm_compute|constructor]].
    apply Forall_cons_2; [|apply Forall_cons_2; [|apply Forall_nil_2]];
      (split; [split; [reflexivity|eexists; split; [reflexivity|intros [=]]]|split; [reflexivity|constructor]]). }
  destruct (died_process_closes_one (Ev := Demo.env) (ME := manager_env) (str "com.demo") 100 g [] Hok
    (willing_env waiting eq_refl)) as (g' & l & H & Hf & Ho).
  exists g', l. split; [exact H|]. split; [exact Hf|]. exact (Ho (str "zz") ltac:(discriminate)).
Defined.
