(* ===== verification/StreamData.v ===== *)
(** * The description that travels with a stream frame

    dtbcollabmgr channel_manager/av_trans_stream_data.cpp: the members of
    [AVTransStreamDataExt] are written as the members of a JSON object, which ones depends
    on the flag, and read back into an object with the default values.  Times are 64-bit
    and travel as decimal text.  Converting a number of the text to an unsigned member is
    undefined when its integer part does not fit. *)

From Stdlib Require Import ZArith Lia String.
From stdpp Require Import base list option countable.
From S2P Require Import Prelude ErrorCodes DataBuffer StdString Framework.
Import ErrorCodes.DtbCollab.

(** ** The library, as far as numbers beyond [int] and lengths are concerned *)

Class StreamJson (J : CJson) := {
  cJSON_IsObject : cJSON -> bool;
  (** The integer part of [cJSON_GetNumberValue], when it is finite. *)
  number_trunc : cJSON -> option Z;
  cJSON_PrintUnformatted : cJSON -> option bytes;
  cJSON_ParseWithLength : bytes -> option cJSON
}.

(** A 32-bit number keeps its value as a double and saturates as an [int]; the rest as for
    [CJsonOk]. *)
Class StreamJsonOk (J : CJson) (SJ : StreamJson J) : Prop := {
  add_u32_new o k n : is_u32 n -> cJSON_GetObjectItemCaseSensitive o k = None ->
    member (cJSON_AddNumberToObject o k n) k (fun i => cJSON_IsNumber i = true /\
      number_trunc i = Some n /\ valueint i = Z.min n (2 ^ 31 - 1));
  create_is_object o : cJSON_CreateObject = Some o -> cJSON_IsObject o = true;
  add_is_object o k n : cJSON_IsObject o = true -> cJSON_IsObject (cJSON_AddNumberToObject o k n) = true;
  unformatted_parse o : exists t, cJSON_PrintUnformatted o = Some t /\
    cJSON_ParseWithLength t = Some o /\ no_nul t /\ t <> []
}.

(** ** Data *)

(** [enum class AvCodecBufferFlag : uint32_t]; the reader may meet other values. *)
Definition AVCODEC_BUFFER_FLAG_CODEC_DATA : Z := 4.
Definition AVCODEC_BUFFER_FLAG_PIXEL_MAP : Z := 5.
Definition AVCODEC_BUFFER_FLAG_SURFACE_PARAM : Z := 6.

Record SurfaceParam := mkSurfaceParam { rotate : Z; filp : Z }.
Record PixelMapPackOption := mkPixelMapOption { quality : Z; width : Z; height : Z }.

Record AVTransStreamDataExt := mkStreamDataExt {
  flag_ : Z;
  index_ : Z;
  pts_ : Z;
  startEncodeT_ : Z;
  finishEncodeT_ : Z;
  sendEncodeT_ : Z;
  pixelMapOption_ : PixelMapPackOption;
  surfaceParam_ : SurfaceParam
}.

Definition PixelMapOption_default : PixelMapPackOption := mkPixelMapOption 100 0 0.
Definition SurfaceParam_default : SurfaceParam := mkSurfaceParam 0 0.
Definition StreamDataExt_default : AVTransStreamDataExt :=
  mkStreamDataExt AVCODEC_BUFFER_FLAG_CODEC_DATA 0 0 0 0 0 PixelMapOption_default SurfaceParam_default.

Record AVTransStreamData := mkStreamData {
  StreamData : option DataBuffer;
  GetStreamDataExt : AVTransStreamDataExt
}.

Definition set_flag (x : Z) (e : AVTransStreamDataExt) : AVTransStreamDataExt :=
  mkStreamDataExt x (index_ e) (pts_ e) (startEncodeT_ e) (finishEncodeT_ e) (sendEncodeT_ e)
    (pixelMapOption_ e) (surfaceParam_ e).
Definition set_index (x : Z) (e : AVTransStreamDataExt) : AVTransStreamDataExt :=
  mkStreamDataExt (flag_ e) x (pts_ e) (startEncodeT_ e) (finishEncodeT_ e) (sendEncodeT_ e)
    (pixelMapOption_ e) (surfaceParam_ e).
Definition set_pts (x : Z) (e : AVTransStreamDataExt) : AVTransStreamDataExt :=
  mkStreamDataExt (flag_ e) (index_ e) x (startEncodeT_ e) (finishEncodeT_ e) (sendEncodeT_ e)
    (pixelMapOption_ e) (surfaceParam_ e).
Definition set_startEncodeT (x : Z) (e : AVTransStreamDataExt) : AVTransStreamDataExt :=
  mkStreamDataExt (flag_ e) (index_ e) (pts_ e) x (finishEncodeT_ e) (sendEncodeT_ e)
    (pixelMapOption_ e) (surfaceParam_ e).
Definition set_finishEncodeT (x : Z) (e : AVTransStreamDataExt) : AVTransStreamDataExt :=
  mkStreamDataExt (flag_ e) (index_ e) (pts_ e) (startEncodeT_ e) x (sendEncodeT_ e)
    (pixelMapOption_ e) (surfaceParam_ e).
Definition set_sendEncodeT (x : Z) (e : AVTransStreamDataExt) : AVTransStreamDataExt :=
  mkStreamDataExt (flag_ e) (index_ e) (pts_ e) (startEncodeT_ e) (finishEncodeT_ e) x
    (pixelMapOption_ e) (surfaceParam_ e).
Definition set_pixelMapOption (x : PixelMapPackOption) (e : AVTransStreamDataExt) : AVTransStreamDataExt :=
  mkStreamDataExt (flag_ e) (index_ e) (pts_ e) (startEncodeT_ e) (finishEncodeT_ e) (sendEncodeT_ e)
    x (surfaceParam_ e).
Definition set_surfaceParam (x : SurfaceParam) (e : AVTransStreamDataExt) : AVTransStreamDataExt :=
  mkStreamDataExt (flag_ e) (index_ e) (pts_ e) (startEncodeT_ e) (finishEncodeT_ e) (sendEncodeT_ e)
    (pixelMapOption_ e) x.

Section Codec.
Context {J : CJson} {SJ : StreamJson J}.

(** ** Writing *)

Definition WriteExtFlagToJson (ext_ : AVTransStreamDataExt) (root : cJSON) : cJSON :=
  cJSON_AddNumberToObject root (str "flag") (flag_ ext_).
Definition WriteExtIndexToJson (ext_ : AVTransStreamDataExt) (root : cJSON) : cJSON :=
  cJSON_AddNumberToObject root (str "index") (index_ ext_).
Definition WriteExtPtsToJson (ext_ : AVTransStreamDataExt) (root : cJSON) : cJSON :=
  cJSON_AddStringToObject root (str "pts") (to_string (pts_ ext_)).
Definition WriteExtStartEncodeTToJson (ext_ : AVTransStreamDataExt) (root : cJSON) : cJSON :=
  cJSON_AddStringToObject root (str "startEncodeT") (to_string (startEncodeT_ ext_)).
Definition WriteExtFinishEncodeTToJson (ext_ : AVTransStreamDataExt) (root : cJSON) : cJSON :=
  cJSON_AddStringToObject root (str "finishEncodeT") (to_string (finishEncodeT_ ext_)).
Definition WriteExtSendEncodeTToJson (ext_ : AVTransStreamDataExt) (root : cJSON) : cJSON :=
  cJSON_AddStringToObject root (str "sendEncodeT") (to_string (sendEncodeT_ ext_)).

Definition WriteExtPixelMapPackOptionToJson (ext_ : AVTransStreamDataExt) (root : cJSON) : cJSON :=
  match cJSON_CreateObject with
  | None => root
  | Some pixelMapJson =>
    let pixelMapJson := cJSON_AddNumberToObject pixelMapJson (str "quality") (quality (pixelMapOption_ ext_)) in
    let pixelMapJson := cJSON_AddNumberToObject pixelMapJson (str "width") (width (pixelMapOption_ ext_)) in
    let pixelMapJson := cJSON_AddNumberToObject pixelMapJson (str "height") (height (pixelMapOption_ ext_)) in
    cJSON_AddItemToObject root (str "pixel_map") pixelMapJson
  end.

Definition WriteExtSurfaceParamToJson (ext_ : AVTransStreamDataExt) (root : cJSON) : cJSON :=
  match cJSON_CreateObject with
  | None => root
  | Some surfaceParamJson =>
    let surfaceParamJson := cJSON_AddNumberToObject surfaceParamJson (str "rotate") (rotate (surfaceParam_ ext_)) in
    let surfaceParamJson := cJSON_AddNumberToObject surfaceParamJson (str "filp") (filp (surfaceParam_ ext_)) in
    cJSON_AddItemToObject root (str "surface_param") surfaceParamJson
  end.

Definition SerializeStreamDataExt (ext_ : AVTransStreamDataExt) : option cJSON :=
  match cJSON_CreateObject with
  | None => None
  | Some root =>
    let root := WriteExtFlagToJson ext_ root in
    let root := WriteExtIndexToJson ext_ root in
    Some (if flag_ ext_ =? AVCODEC_BUFFER_FLAG_PIXEL_MAP then WriteExtPixelMapPackOptionToJson ext_ root
      else if flag_ ext_ =? AVCODEC_BUFFER_FLAG_SURFACE_PARAM then WriteExtSurfaceParamToJson ext_ root
      else
        let root := WriteExtPtsToJson ext_ root in
        let root := WriteExtStartEncodeTToJson ext_ root in
        let root := WriteExtFinishEncodeTToJson ext_ root in
        WriteExtSendEncodeTToJson ext_ root)
  end.

(** ** Reading *)

(** The member [k] of an object, when it is a number ([cJSON_IsNumber] of the null pointer is
    false) or a string with characters. *)
Definition number_at (root : cJSON) (k : bytes) : option cJSON :=
  match cJSON_GetObjectItemCaseSensitive root k with
  | Some i => if cJSON_IsNumber i then Some i else None
  | None => None
  end.

Definition text_at (root : cJSON) (k : bytes) : option bytes :=
  match cJSON_GetObjectItemCaseSensitive root k with
  | Some i => if cJSON_IsString i then valuestring i else None
  | None => None
  end.

Definition ReadExtFlagFromJson (dataExt : AVTransStreamDataExt) (root : cJSON) : AVTransStreamDataExt :=
  match number_at root (str "flag") with
  | Some flagItem => set_flag (u32 (valueint flagItem)) dataExt
  | None => dataExt
  end.

Definition ReadExtIndexFromJson (dataExt : AVTransStreamDataExt) (root : cJSON) : AVTransStreamDataExt :=
  match number_at root (str "index") with
  | Some indexItem => set_index (u32 (valueint indexItem)) dataExt
  | None => dataExt
  end.

Definition ReadExtPtsFromJson (dataExt : AVTransStreamDataExt) (root : cJSON) : AVTransStreamDataExt :=
  match text_at root (str "pts") with
  | Some s => set_pts (strtoull (c_str s)) dataExt
  | None => dataExt
  end.

Definition ReadExtStartEncodeTFromJson (dataExt : AVTransStreamDataExt) (root : cJSON) : AVTransStreamDataExt :=
  match text_at root (str "startEncodeT") with
  | Some s => set_startEncodeT (strtoull (c_str s)) dataExt
  | None => dataExt
  end.

Definition ReadExtFinishEncodeTFromJson (dataExt : AVTransStreamDataExt) (root : cJSON) : AVTransStreamDataExt :=
  match text_at root (str "finishEncodeT") with
  | Some s => set_finishEncodeT (strtoull (c_str s)) dataExt
  | None => dataExt
  end.

Definition ReadExtSendEncodeTFromJson (dataExt : AVTransStreamDataExt) (root : cJSON) : AVTransStreamDataExt :=
  match text_at root (str "sendEncodeT") with
  | Some s => set_sendEncodeT (strtoull (c_str s)) dataExt
  | None => dataExt
  end.

(** [static_cast<uintN_t>] of a [double]. *)
Definition to_unsigned (bits : Z) (i : cJSON) : run Z :=
  match number_trunc i with
  | Some n => if (0 <=? n) && (n <? 2 ^ bits) then Done n else Undefined
  | None => Undefined
  end.

Definition read_unsigned (bits : Z) (o : cJSON) (k : bytes) (old : Z) : run Z :=
  match number_at o k with
  | Some i => to_unsigned bits i
  | None => Done old
  end.

Definition ReadExtPixelMapPackOptionToJson (dataExt : AVTransStreamDataExt) (root : cJSON)
    : run AVTransStreamDataExt :=
  match cJSON_GetObjectItemCaseSensitive root (str "pixel_map") with
  | None => Done dataExt
  | Some pixelMapJson =>
    let old := pixelMapOption_ dataExt in
    let* quality := read_unsigned 8 pixelMapJson (str "quality") (quality old) in
    let* width := read_unsigned 32 pixelMapJson (str "width") (width old) in
    let* height := read_unsigned 32 pixelMapJson (str "height") (height old) in
    Done (set_pixelMapOption (mkPixelMapOption quality width height) dataExt)
  end.

Definition read_enum (o : cJSON) (k : bytes) (old : Z) : Z :=
  match number_at o k with
  | Some i => u32 (valueint i)
  | None => old
  end.

Definition ReadExtSurfaceParamToJson (dataExt : AVTransStreamDataExt) (root : cJSON) : AVTransStreamDataExt :=
  match cJSON_GetObjectItemCaseSensitive root (str "surface_param") with
  | None => dataExt
  | Some surfaceParamItem =>
    if cJSON_IsObject surfaceParamItem then
      let old := surfaceParam_ dataExt in
      set_surfaceParam (mkSurfaceParam (read_enum surfaceParamItem (str "rotate") (rotate old))
        (read_enum surfaceParamItem (str "filp") (filp old))) dataExt
    else dataExt
  end.

Definition DeserializeExtFromJson (dataExt : AVTransStreamDataExt) (root : cJSON)
    : run AVTransStreamDataExt :=
  let dataExt := ReadExtFlagFromJson dataExt root in
  let dataExt := ReadExtIndexFromJson dataExt root in
  if flag_ dataExt =? AVCODEC_BUFFER_FLAG_PIXEL_MAP then ReadExtPixelMapPackOptionToJson dataExt root
  else if flag_ dataExt =? AVCODEC_BUFFER_FLAG_SURFACE_PARAM then Done (ReadExtSurfaceParamToJson dataExt root)
  else
    let dataExt := ReadExtPtsFromJson dataExt root in
    let dataExt := ReadExtStartEncodeTFromJson dataExt root in
    let dataExt := ReadExtFinishEncodeTFromJson dataExt root in
    Done (ReadExtSendEncodeTFromJson dataExt root).

(** [data] is the text of [len] bytes. *)
Definition DeserializeStreamDataExt (data : option bytes) (dataExt : AVTransStreamDataExt)
    : run (Z * AVTransStreamDataExt) :=
  match data with
  | None => Done (NULL_POINTER_ERROR, dataExt)
  | Some data =>
    if zlen data =? 0 then Done (NULL_POINTER_ERROR, dataExt)
    else
      match cJSON_ParseWithLength data with
      | None => Done (PARSE_AV_TRANS_STREAM_EXT_FAILED, dataExt)
      | Some root => let* dataExt := DeserializeExtFromJson dataExt root in Done (ERR_OK, dataExt)
      end
  end.
End Codec.

(** ** Round trip *)

Section RoundTrip.
Context {J : CJson} {Jok : CJsonOk J} {SJ : StreamJson J} {SJok : StreamJsonOk J SJ}.

Lemma other_number o k n k' : bytes_eqb k k' = false ->
  cJSON_GetObjectItemCaseSensitive (cJSON_AddNumberToObject o k n) k' = cJSON_GetObjectItemCaseSensitive o k'.
Proof. intros H%bytes_eqb_neq. by apply add_number_other. Qed.
Lemma other_string o k s k' : bytes_eqb k k' = false ->
  cJSON_GetObjectItemCaseSensitive (cJSON_AddStringToObject o k s) k' = cJSON_GetObjectItemCaseSensitive o k'.
Proof. intros H%bytes_eqb_neq. by apply add_string_other. Qed.
Lemma other_item o k i k' : bytes_eqb k k' = false ->
  cJSON_GetObjectItemCaseSensitive (cJSON_AddItemToObject o k i) k' = cJSON_GetObjectItemCaseSensitive o k'.
Proof. intros H%bytes_eqb_neq. by apply add_item_other. Qed.

(** Step over the members added under other names. *)
Ltac others := repeat first [rewrite other_number by reflexivity
  | rewrite other_string by reflexivity | rewrite other_item by reflexivity].

Lemma number_at_other o o' k : cJSON_GetObjectItemCaseSensitive o k = cJSON_GetObjectItemCaseSensitive o' k ->
  number_at o k = number_at o' k.
Proof. intros H. unfold number_at. by rewrite H. Qed.

Lemma number_at_here o k n : is_u32 n -> cJSON_GetObjectItemCaseSensitive o k = None -> exists i,
  number_at (cJSON_AddNumberToObject o k n) k = Some i /\ number_trunc i = Some n /\
  valueint i = Z.min n (2 ^ 31 - 1).
Proof.
  intros Hn Hk. destruct (add_u32_new o k n Hn Hk) as (i & Hi & H1 & H2 & H3).
  exists i. unfold number_at. by rewrite Hi, H1.
Qed.

Lemma text_at_here o k s : no_nul s -> cJSON_GetObjectItemCaseSensitive o k = None ->
  text_at (cJSON_AddStringToObject o k s) k = Some s.
Proof.
  intros Hs Hk. destruct (add_string_new o k s Hs Hk) as (i & Hi & H1 & H2).
  unfold text_at. by rewrite Hi, H1.
Qed.

Lemma saturated n : 0 <= n -> u32 (Z.min n (2 ^ 31 - 1)) = Z.min n (2 ^ 31 - 1).
Proof. intros. apply u32_id. unfold_ints. lia. Qed.

Lemma read_unsigned_here bits o k n old : is_u32 n -> n < 2 ^ bits ->
  cJSON_GetObjectItemCaseSensitive o k = None ->
  read_unsigned bits (cJSON_AddNumberToObject o k n) k old = Done n.
Proof.
  intros Hn Hb Hk. destruct (number_at_here o k n Hn Hk) as (i & Hi & Ht & _).
  unfold read_unsigned, to_unsigned. rewrite Hi, Ht. unfold_ints. bool_lia. done.
Qed.

Lemma read_enum_here o k n old : is_u32 n -> n < 2 ^ 31 ->
  cJSON_GetObjectItemCaseSensitive o k = None ->
  read_enum (cJSON_AddNumberToObject o k n) k old = n.
Proof.
  intros Hn Hb Hk. destruct (number_at_here o k n Hn Hk) as (i & Hi & _ & Hv).
  unfold read_enum. rewrite Hi, Hv, saturated by (unfold_ints; lia). lia.
Qed.

Lemma read_unsigned_other bits o o' k old :
  cJSON_GetObjectItemCaseSensitive o k = cJSON_GetObjectItemCaseSensitive o' k ->
  read_unsigned bits o k old = read_unsigned bits o' k old.
Proof. intros H. unfold read_unsigned. by rewrite (number_at_other o o' k H). Qed.

Lemma text_at_other o o' k : cJSON_GetObjectItemCaseSensitive o k = cJSON_GetObjectItemCaseSensitive o' k ->
  text_at o k = text_at o' k.
Proof. intros H. unfold text_at. by rewrite H. Qed.

Lemma text_at_skip_string o k s k' : bytes_eqb k k' = false ->
  text_at (cJSON_AddStringToObject o k s) k' = text_at o k'.
Proof. intros H. apply text_at_other. by apply other_string. Qed.

Definition is_u64 (z : Z) : Prop := 0 <= z < 2 ^ 64.

(** The members have the widths of their types; enumerations keep to their constants. *)
Definition ext_wf (e : AVTransStreamDataExt) : Prop :=
  (0 <= flag_ e < 2 ^ 31 /\ is_u32 (index_ e) /\ is_u64 (pts_ e) /\ is_u64 (startEncodeT_ e) /\
   is_u64 (finishEncodeT_ e) /\ is_u64 (sendEncodeT_ e)) /\
  (is_u8 (quality (pixelMapOption_ e)) /\ is_u32 (width (pixelMapOption_ e)) /\
   is_u32 (height (pixelMapOption_ e))) /\
  0 <= rotate (surfaceParam_ e) < 2 ^ 31 /\ 0 <= filp (surfaceParam_ e) < 2 ^ 31.

(** What the other side has: the members that belong to the flag, the index saturated, the
    rest as constructed. *)
Definition ext_received (e : AVTransStreamDataExt) : AVTransStreamDataExt :=
  let index := Z.min (index_ e) (2 ^ 31 - 1) in
  if flag_ e =? AVCODEC_BUFFER_FLAG_PIXEL_MAP then
    mkStreamDataExt (flag_ e) index 0 0 0 0 (pixelMapOption_ e) SurfaceParam_default
  else if flag_ e =? AVCODEC_BUFFER_FLAG_SURFACE_PARAM then
    mkStreamDataExt (flag_ e) index 0 0 0 0 PixelMapOption_default (surfaceParam_ e)
  else mkStreamDataExt (flag_ e) index (pts_ e) (startEncodeT_ e) (finishEncodeT_ e)
    (sendEncodeT_ e) PixelMapOption_default SurfaceParam_default.

(** The flag and the index come first, whatever follows them. *)
Lemma flag_and_index_read e o root : ext_wf e ->
  (forall k, cJSON_GetObjectItemCaseSensitive o k = None) ->
  (forall k, k = str "flag" \/ k = str "index" -> cJSON_GetObjectItemCaseSensitive root k
    = cJSON_GetObjectItemCaseSensitive (WriteExtIndexToJson e (WriteExtFlagToJson e o)) k) ->
  ReadExtIndexFromJson (ReadExtFlagFromJson StreamDataExt_default root) root
  = mkStreamDataExt (flag_ e) (Z.min (index_ e) (2 ^ 31 - 1)) 0 0 0 0 PixelMapOption_default SurfaceParam_default.
Proof.
  intros ((Hf & Hi & _) & _) Ho Hroot. unfold ReadExtIndexFromJson, ReadExtFlagFromJson.
  rewrite !(number_at_other root _ _ (Hroot _ (or_introl eq_refl))).
  rewrite !(number_at_other root _ _ (Hroot _ (or_intror eq_refl))).
  unfold WriteExtIndexToJson, WriteExtFlagToJson.
  destruct (number_at_here (cJSON_AddNumberToObject o (str "flag") (flag_ e)) (str "index") (index_ e))
    as (i & E & _ & V); [done|by others|]. rewrite E, V.
  destruct (number_at_here o (str "flag") (flag_ e)) as (i2 & E2 & _ & V2); [unfold_ints; lia|done|].
  erewrite (number_at_other _ (cJSON_AddNumberToObject o (str "flag") (flag_ e))) by by others.
  rewrite E2, V2, !saturated by (unfold_ints; lia). rewrite (Z.min_l (flag_ e)) by lia. done.
Qed.

Lemma pixel_map_read e root o : ext_wf e -> cJSON_GetObjectItemCaseSensitive root (str "pixel_map") = None ->
  cJSON_CreateObject = Some o -> (forall k, cJSON_GetObjectItemCaseSensitive o k = None) ->
  forall d, ReadExtPixelMapPackOptionToJson d (WriteExtPixelMapPackOptionToJson e root)
    = Done (set_pixelMapOption (pixelMapOption_ e) d).
Proof.
  intros (_ & (Hq & Hw & Hh) & _) Hr Hc Ho d.
  unfold ReadExtPixelMapPackOptionToJson, WriteExtPixelMapPackOptionToJson. rewrite Hc.
  rewrite add_item_new by done.
  erewrite (read_unsigned_other 8) by by others.
  rewrite (read_unsigned_here 8) by (try done; unfold_ints; lia). cbn [run_bind].
  erewrite (read_unsigned_other 32 _ (cJSON_AddNumberToObject (cJSON_AddNumberToObject o _ _) _ _)) by by others.
  rewrite (read_unsigned_here 32) by (try done; unfold_ints; first [lia|by others]). cbn [run_bind].
  rewrite (read_unsigned_here 32) by (try done; unfold_ints; first [lia|by others]). cbn [run_bind].
  by destruct (pixelMapOption_ e).
Qed.

Lemma surface_param_read e root o : ext_wf e ->
  cJSON_GetObjectItemCaseSensitive root (str "surface_param") = None ->
  cJSON_CreateObject = Some o -> (forall k, cJSON_GetObjectItemCaseSensitive o k = None) ->
  forall d, ReadExtSurfaceParamToJson d (WriteExtSurfaceParamToJson e root)
    = set_surfaceParam (surfaceParam_ e) d.
Proof.
  intros (_ & _ & Hro & Hfi) Hr Hc Ho d.
  unfold ReadExtSurfaceParamToJson, WriteExtSurfaceParamToJson. rewrite Hc.
  rewrite add_item_new by done. rewrite !add_is_object by (try apply add_is_object; by apply create_is_object).
  unfold read_enum at 1. erewrite (number_at_other _ (cJSON_AddNumberToObject o _ _)) by by others.
  fold (read_enum (cJSON_AddNumberToObject o (str "rotate") (rotate (surfaceParam_ e))) (str "rotate")
    (rotate (surfaceParam_ d))).
  rewrite !read_enum_here by (try done; unfold_ints; first [lia|by others]).
  by destruct (surfaceParam_ e).
Qed.

Lemma time_text n : is_u64 n -> no_nul (to_string n) /\ strtoull (c_str (to_string n)) = n.
Proof.
  intros Hn. assert (no_nul (to_string n)) as H by apply to_string_no_nul, Hn.
  split; [done|]. rewrite c_str_no_nul by done. by apply strtoull_to_string.
Qed.

Lemma times_read e root : ext_wf e ->
  (forall k, In k [str "pts"; str "startEncodeT"; str "finishEncodeT"; str "sendEncodeT"] ->
    cJSON_GetObjectItemCaseSensitive root k = None) ->
  let root' := WriteExtSendEncodeTToJson e (WriteExtFinishEncodeTToJson e
    (WriteExtStartEncodeTToJson e (WriteExtPtsToJson e root))) in
  forall d, ReadExtSendEncodeTFromJson (ReadExtFinishEncodeTFromJson (ReadExtStartEncodeTFromJson
    (ReadExtPtsFromJson d root') root') root') root'
  = mkStreamDataExt (flag_ d) (index_ d) (pts_ e) (startEncodeT_ e) (finishEncodeT_ e) (sendEncodeT_ e)
      (pixelMapOption_ d) (surfaceParam_ d).
Proof.
  intros ((_ & _ & H1 & H2 & H3 & H4) & _) Hr root' d.
  unfold ReadExtSendEncodeTFromJson, ReadExtFinishEncodeTFromJson, ReadExtStartEncodeTFromJson, ReadExtPtsFromJson.
  apply time_text in H1 as (N1 & T1), H2 as (N2 & T2), H3 as (N3 & T3), H4 as (N4 & T4).
  unfold root', WriteExtSendEncodeTToJson, WriteExtFinishEncodeTToJson, WriteExtStartEncodeTToJson, WriteExtPtsToJson.
  repeat first [rewrite text_at_skip_string by reflexivity
    | rewrite text_at_here by first [assumption | others; apply Hr; cbn [In]; tauto]].
  by rewrite T1, T2, T3, T4.
Qed.

(** The description of a stream frame survives its JSON text: a reader that starts from the
    default values has the sender's members of the flag's kind, 64-bit times included; the
    index arrives saturated at the largest [int]. *)
Theorem stream_ext_roundtrip e : ext_wf e ->
  exists root text, SerializeStreamDataExt e = Some root /\ cJSON_PrintUnformatted root = Some text /\
    DeserializeStreamDataExt (Some text) StreamDataExt_default = Done (ERR_OK, ext_received e).
Proof.
  intros Hwf. destruct create_object as (o & Hc & Ho).
  unfold SerializeStreamDataExt. rewrite Hc. eexists.
  match goal with |- exists text, Some ?r = _ /\ _ => set (root := r) end.
  destruct (unformatted_parse root) as (text & Hp & Hu & _ & Hne).
  exists text. split; [done|]. split; [done|]. unfold DeserializeStreamDataExt.
  destruct (Z.eqb_spec (zlen text) 0) as [Hz|_]; [destruct text; [done|unfold zlen in Hz; cbn in Hz; lia]|].
  rewrite Hu. unfold DeserializeExtFromJson.
  assert (forall k, k = str "flag" \/ k = str "index" -> cJSON_GetObjectItemCaseSensitive root k
    = cJSON_GetObjectItemCaseSensitive (WriteExtIndexToJson e (WriteExtFlagToJson e o)) k) as Hroot.
  { unfold root, WriteExtPixelMapPackOptionToJson, WriteExtSurfaceParamToJson. rewrite Hc.
    intros k [-> | ->]; repeat case_match;
      unfold WriteExtSendEncodeTToJson, WriteExtFinishEncodeTToJson, WriteExtStartEncodeTToJson,
        WriteExtPtsToJson; by others. }
  rewrite (flag_and_index_read e o root Hwf Ho Hroot). cbn [flag_]. unfold ext_received, root.
  assert (forall k, bytes_eqb (str "flag") k = false -> bytes_eqb (str "index") k = false ->
    cJSON_GetObjectItemCaseSensitive (WriteExtIndexToJson e (WriteExtFlagToJson e o)) k = None) as Hnone.
  { intros k H1 H2. unfold WriteExtIndexToJson, WriteExtFlagToJson.
    rewrite other_number by done. rewrite other_number by done. apply Ho. }
  destruct (flag_ e =? AVCODEC_BUFFER_FLAG_PIXEL_MAP);
    [|destruct (flag_ e =? AVCODEC_BUFFER_FLAG_SURFACE_PARAM)].
  - rewrite (pixel_map_read e _ o) by (try done; by apply Hnone). done.
  - rewrite (surface_param_read e _ o) by (try done; by apply Hnone). done.
  - rewrite times_read; [done..|]. intros k Hk. cbn [In] in Hk.
    apply Hnone; by repeat (destruct Hk as [<-|Hk]; [reflexivity|]).
Qed.
End RoundTrip.

(** ** A library to evaluate *)

(** [DemoJson] with a blank in front of every text. *)
Module DemoStream.
#[export] Instance demo : StreamJson DemoJson.demo := Build_StreamJson DemoJson.demo
  (fun i : DemoJson.tree => match i with GenNode 1 _ => true | _ => false end)
  (fun i : DemoJson.tree => match i with GenLeaf (inl n) => Some n | _ => None end)
  (fun o => Some (32 :: DemoJson.text o))
  (fun s => match s with 32 :: s => DemoJson.read s | _ => None end).

Lemma demo_stream_ok : StreamJsonOk DemoJson.demo demo.
Proof.
  split; cbn [cJSON cJSON_CreateObject cJSON_GetObjectItemCaseSensitive DemoJson.demo].
  - intros o k n Hn _. exists (GenLeaf (inl n)). split; [apply DemoJson.get_add|].
    split; [done|]. split; [done|]. cbn. unfold_ints. lia.
  - by intros o [= <-].
  - intros [[n|s]|n l] k x; [done..|]. by destruct n as [|[|n]].
  - intros o. exists (32 :: DemoJson.text o). split; [done|]. split; [apply DemoJson.read_text|].
    split; [|done]. constructor; [done|apply DemoJson.text_no_nul].
Qed.

Definition frame : AVTransStreamDataExt :=
  mkStreamDataExt 4 (2 ^ 31 + 5) (2 ^ 64 - 1) 17 18 19 (mkPixelMapOption 7 8 9) SurfaceParam_default.
End DemoStream.
Import DemoStream.

Lemma stream_ext_roundtrip_witness :
  exists root text, SerializeStreamDataExt (J := DemoJson.demo) DemoStream.frame = Some root /\
    cJSON_PrintUnformatted (J := DemoJson.demo) root = Some text /\
    DeserializeStreamDataExt (J := DemoJson.demo) (Some text) StreamDataExt_default = Done (ERR_OK,
      mkStreamDataExt 4 (2 ^ 31 - 1) (2 ^ 64 - 1) 17 18 19 PixelMapOption_default SurfaceParam_default).
Proof.
  apply (stream_ext_roundtrip (J := DemoJson.demo) (Jok := DemoJson.demo_ok) (SJ := DemoStream.demo)
    (SJok := DemoStream.demo_stream_ok) DemoStream.frame).
  unfold ext_wf, is_u64. unfold_ints. by_compute.
Defined.
