(* ===== verification/ChannelManager.v ===== *)
(** * The channels of a collaboration

    dtbcollabmgr channel_manager/channel_manager.cpp and the parts of
    data_sender_receiver.cpp that send streams, messages and files: named channels of four
    kinds, the softbus sockets that carry them, the listeners that are told what arrives.

    The state is [ChannelManager].  Four threads run tasks: [eventHandler_] sends bytes,
    streams and files, [msgEventHandler_] messages, [callbackEventHandler_] updates channels
    and calls listeners, [callbackEventHandlerNew_] tells them of messages; every socket with
    messages has a thread of its own.  A thread takes the first task of one of the
    priorities, which one is not said.  The tasks that bind several sockets at once run one
    after the other here.  The receivers are those of [DataSenderReceiver.v], stored per
    socket; destroying one shuts its socket down.  An exception that nothing catches is
    [Undefined]. *)

From Stdlib Require Import ZArith Lia String.
From stdpp Require Import base list option.
From S2P Require Import Prelude ErrorCodes DataBuffer Tlv SessionHeader DataSenderReceiver StdMap StdString Effects Framework StreamData.
Import ErrorCodes.DtbCollab.

(** ** Data *)

Inductive ChannelDataType := MESSAGE | BYTES | VIDEO_STREAM | FILE.
Inductive ChannelStatus := CONNECTED | UNCONNECTED.
Inductive QosSpeedType := HIGH_SPEED | LOW_SPEED.

#[export] Instance ChannelDataType_eq_dec : EqDecision ChannelDataType.
Proof. solve_decision. Defined.
#[export] Instance ChannelStatus_eq_dec : EqDecision ChannelStatus.
Proof. solve_decision. Defined.

(** [static_cast<int32_t>(dataType)], the order of the enumeration. *)
Definition type_index (dataType : ChannelDataType) : Z :=
  match dataType with MESSAGE => 0 | BYTES => 1 | VIDEO_STREAM => 2 | FILE => 3 end.
#[export] Instance type_order : KeyOrder ChannelDataType := fun a b => type_index a <? type_index b.
#[export] Instance name_order : KeyOrder bytes := bytes_ltb.

Definition CHANNEL_DATATYPE_SPEED_MAP (dataType : ChannelDataType) : QosSpeedType :=
  match dataType with MESSAGE | BYTES => LOW_SPEED | VIDEO_STREAM | FILE => HIGH_SPEED end.

Definition CHANNEL_DATATYPE_PREFIX_MAP : std_map ChannelDataType bytes :=
  [(MESSAGE, str "M"); (BYTES, str "B"); (VIDEO_STREAM, str "V"); (FILE, str "F")].

Definition type_prefix (dataType : ChannelDataType) : bytes :=
  match map_find CHANNEL_DATATYPE_PREFIX_MAP dataType with Some p => p | None => [] end.

Definition BIND_RETRY_INTERVAL : Z := 500.
Definition MAX_BIND_RETRY_TIME : Z := 1500.
Definition MAX_RETRY_TIMES : Z := 3.
Definition SPLIT_FLAG : bytes := str "_".
Definition SESSION_NAME_PREFIX : bytes := str "ohos.dtbcollab.dms".
Definition MAX_LEN : Z := 10 * 1024.
Definition VERSION_ : Z := 0.
Definition CHANNEL_ID_GAP : Z := 1000.
Definition MESSAGE_START_ID : Z := 1001.
Definition BYTES_START_ID : Z := MESSAGE_START_ID + CHANNEL_ID_GAP.
Definition STREAM_START_ID : Z := BYTES_START_ID + CHANNEL_ID_GAP.
Definition FILE_START_ID : Z := STREAM_START_ID + CHANNEL_ID_GAP.
Definition MAX_CHANNEL_NAME_LENGTH : Z := 64.
Definition CHANNEL_NAME_PREFIX_LENGTH : Z := 64.
Definition MAX_FILE_COUNT : Z := 500.
Definition MAX_SEND_MESSAGE_SIZE : Z := 4 * 1024.

Record ChannelPeerInfo := mkPeerInfo { peerName : bytes; networkId : bytes }.

(** [DataSenderReceiver]: what its socket has received so far, and the messages its own
    thread, once started, has still to send. *)
Record SocketData := mkSocketData {
  receiver_ : Receiver;
  dsr_eventHandler_ : bool;
  dsr_tasks : list DataBuffer
}.

Record ChannelInfo := mkChannelInfo {
  channelId : Z;
  status : ChannelStatus;
  dataType : ChannelDataType;
  channelName : bytes;
  peerInfo : ChannelPeerInfo;
  clientSockets : list Z;
  dataSenderReceivers : std_map Z SocketData
}.

(** Events of a file transfer: the softbus ones, and what the listener is told. *)
Inductive FileEventType :=
| FILE_EVENT_SEND_PROCESS | FILE_EVENT_SEND_FINISH | FILE_EVENT_SEND_ERROR
| FILE_EVENT_RECV_START | FILE_EVENT_RECV_PROCESS | FILE_EVENT_RECV_FINISH | FILE_EVENT_RECV_ERROR
| FILE_EVENT_RECV_UPDATE_PATH | FILE_EVENT_BUTT | FILE_EVENT_OTHER.

#[export] Instance FileEventType_eq_dec : EqDecision FileEventType.
Proof. solve_decision. Defined.

Record FileEvent := mkFileEvent {
  type : FileEventType;
  files : list bytes;
  fileCnt : Z;
  bytesProcessed : Z;
  bytesTotal : Z;
  rate : Z;
  errorCode : Z
}.

Inductive ChannelFileEvent :=
  SEND_PROCESS | SEND_FINISH | SEND_ERROR | RECV_START | RECV_PROCESS | RECV_FINISH | RECV_ERROR.

(** [FileSendInfo] and [FileRecvInfo]. *)
Record FileProgress := mkFileProgress {
  processed : Z;
  total_ : Z;
  rate_ : option Z
}.

Record FileInfo := mkFileInfo {
  eventType : ChannelFileEvent;
  fileList : list bytes;
  commonFileCnt : Z;
  sendInfo : option FileProgress;
  recvInfo : option FileProgress;
  errorInfo : option Z
}.

(** The calls of [IChannelListener]. *)
Inductive ListenerCall :=
| OnConnect (id : Z)
| OnDisConnect (id reason : Z)
| OnBytes (id : Z) (buffer : DataBuffer)
| OnMessage (id : Z) (buffer : DataBuffer)
| OnStream (id : Z) (data : AVTransStreamData)
| OnErrorCall (id code : Z)
| OnSendFile (id : Z) (info : FileInfo)
| OnRecvFile (id : Z) (info : FileInfo).

Inductive Priority := IMMEDIATE | HIGH | LOW.

#[export] Instance Priority_eq_dec : EqDecision Priority.
Proof. solve_decision. Defined.

(** The tasks of [eventHandler_], of [msgEventHandler_] and of the callback threads. *)
Inductive SendTask :=
| TaskSendBytes (id : Z) (data : DataBuffer)
| TaskSendStream (id : Z) (data : AVTransStreamData)
| TaskSendFile (id : Z) (sFiles dFiles : list bytes).

Record MsgTask := TaskSendMessage { msg_id : Z; msg_data : DataBuffer }.

Inductive CallbackTask :=
| TaskUpdateChannelStatus (id : Z)
| TaskUpdateChannel (socketId id : Z)
| TaskClosed (id reason : Z)
| TaskCall (listener : Z) (c : ListenerCall).

(** A listener is known by the address of its object. *)
Record ChannelManager := mkChannelManager {
  initialized_ : bool;
  serverSocketId_ : Z;
  ownerName_ : bytes;
  channelIdMap_ : std_map bytes (list Z);
  channelInfoMap_ : std_map Z ChannelInfo;
  fileChannelId_ : Z;
  socketChannelMap_ : std_map Z Z;
  socketStatusMap_ : std_map Z ChannelStatus;
  listenersMap_ : std_map Z (list Z);
  nextIds_ : std_map ChannelDataType Z;
  eventHandler_ : option (list (bytes * SendTask));
  callbackEventHandler_ : option (list (Priority * CallbackTask));
  callbackEventHandlerNew_ : option (list (Z * ListenerCall));
  msgEventHandler_ : option (list MsgTask);
  dllHandle_ : bool;
  SetFileSchema : bool
}.

Definition nextIds_init : std_map ChannelDataType Z :=
  [(MESSAGE, MESSAGE_START_ID); (BYTES, BYTES_START_ID); (VIDEO_STREAM, STREAM_START_ID); (FILE, FILE_START_ID)].

Definition Channels_init : ChannelManager :=
  mkChannelManager false (-1) [] [] [] 0 [] [] [] nextIds_init None None None None false false.

(** What the manager does to its surroundings. *)
Inductive Effect :=
| Query
| SocketCreated (name peerSocketName peerNetworkId : bytes) (dataType : option ChannelDataType)
| ListenCalled (socket : Z)
| BindCalled (socket : Z) (speed : QosSpeedType)
| Slept (ms : Z)
| FileSchemaSet (socket : Z)
| ShutdownCalled (socket : Z)
| BytesSent (socket : Z) (packet : bytes)
| StreamSent (socket : Z) (data ext : bytes)
| MessageSent (socket : Z) (data : bytes)
| FilesSent (socket : Z) (sFiles dFiles : list bytes) (fileCnt : Z)
| ListenerCalled (listener : Z) (c : ListenerCall)
| RecvPathInstalled
| RecvPathAsked (listener id : Z)
| AdapterOpened
| AdapterClosed.

(** What softbus, the event handlers, the loader and the listeners answer. *)
Class ChannelEnv := {
  SOFTBUS_LANE_WIFI_NOT_ONLINE : Z;
  Socket_ret : list Effect -> Z;
  Listen_ret : list Effect -> Z;
  Bind_ret : list Effect -> Z;
  SetFileSchema_ret : list Effect -> Z;
  GetSessionOption_ret : list Effect -> Z -> Z * Z;
  SendBytes_ret : list Effect -> Z -> bytes -> Z;
  SendStream_ret : list Effect -> Z;
  SendFile_ret : list Effect -> Z;
  PostTask_ok : list Effect -> bool;
  expired : list Effect -> Z -> bool;
  GetRecvPath_ret : list Effect -> option bytes;
  dlopen_ok : list Effect -> bool;
  dlsym_ok : list Effect -> bool;
  (** The answer of [GetSoftbusFile] and whether it filled in [SetFileSchema]. *)
  GetSoftbusFile_ret : list Effect -> Z * bool;
  (** The order in which an [unordered_set] gives its members. *)
  unordered : list Z -> list Z;
  (** The uninitialised members of a header that is read. *)
  junk : list Effect -> SessionDataHeader
}.

Definition set_initialized (x : bool) (m : ChannelManager) : ChannelManager :=
  mkChannelManager x (serverSocketId_ m) (ownerName_ m) (channelIdMap_ m) (channelInfoMap_ m)
    (fileChannelId_ m) (socketChannelMap_ m) (socketStatusMap_ m) (listenersMap_ m) (nextIds_ m)
    (eventHandler_ m) (callbackEventHandler_ m) (callbackEventHandlerNew_ m) (msgEventHandler_ m)
    (dllHandle_ m) (SetFileSchema m).
Definition set_serverSocketId (x : Z) (m : ChannelManager) : ChannelManager :=
  mkChannelManager (initialized_ m) x (ownerName_ m) (channelIdMap_ m) (channelInfoMap_ m)
    (fileChannelId_ m) (socketChannelMap_ m) (socketStatusMap_ m) (listenersMap_ m) (nextIds_ m)
    (eventHandler_ m) (callbackEventHandler_ m) (callbackEventHandlerNew_ m) (msgEventHandler_ m)
    (dllHandle_ m) (SetFileSchema m).
Definition set_ownerName (x : bytes) (m : ChannelManager) : ChannelManager :=
  mkChannelManager (initialized_ m) (serverSocketId_ m) x (channelIdMap_ m) (channelInfoMap_ m)
    (fileChannelId_ m) (socketChannelMap_ m) (socketStatusMap_ m) (listenersMap_ m) (nextIds_ m)
    (eventHandler_ m) (callbackEventHandler_ m) (callbackEventHandlerNew_ m) (msgEventHandler_ m)
    (dllHandle_ m) (SetFileSchema m).
Definition set_channelIdMap (x : std_map bytes (list Z)) (m : ChannelManager) : ChannelManager :=
  mkChannelManager (initialized_ m) (serverSocketId_ m) (ownerName_ m) x (channelInfoMap_ m)
    (fileChannelId_ m) (socketChannelMap_ m) (socketStatusMap_ m) (listenersMap_ m) (nextIds_ m)
    (eventHandler_ m) (callbackEventHandler_ m) (callbackEventHandlerNew_ m) (msgEventHandler_ m)
    (dllHandle_ m) (SetFileSchema m).
Definition set_channelInfoMap (x : std_map Z ChannelInfo) (m : ChannelManager) : ChannelManager :=
  mkChannelManager (initialized_ m) (serverSocketId_ m) (ownerName_ m) (channelIdMap_ m) x
    (fileChannelId_ m) (socketChannelMap_ m) (socketStatusMap_ m) (listenersMap_ m) (nextIds_ m)
    (eventHandler_ m) (callbackEventHandler_ m) (callbackEventHandlerNew_ m) (msgEventHandler_ m)
    (dllHandle_ m) (SetFileSchema m).
Definition set_fileChannelId (x : Z) (m : ChannelManager) : ChannelManager :=
  mkChannelManager (initialized_ m) (serverSocketId_ m) (ownerName_ m) (channelIdMap_ m)
    (channelInfoMap_ m) x (socketChannelMap_ m) (socketStatusMap_ m) (listenersMap_ m)
    (nextIds_ m) (eventHandler_ m) (callbackEventHandler_ m) (callbackEventHandlerNew_ m)
    (msgEventHandler_ m) (dllHandle_ m) (SetFileSchema m).
Definition set_socketChannelMap (x : std_map Z Z) (m : ChannelManager) : ChannelManager :=
  mkChannelManager (initialized_ m) (serverSocketId_ m) (ownerName_ m) (channelIdMap_ m)
    (channelInfoMap_ m) (fileChannelId_ m) x (socketStatusMap_ m) (listenersMap_ m) (nextIds_ m)
    (eventHandler_ m) (callbackEventHandler_ m) (callbackEventHandlerNew_ m) (msgEventHandler_ m)
    (dllHandle_ m) (SetFileSchema m).
Definition set_socketStatusMap (x : std_map Z ChannelStatus) (m : ChannelManager) : ChannelManager :=
  mkChannelManager (initialized_ m) (serverSocketId_ m) (ownerName_ m) (channelIdMap_ m)
    (channelInfoMap_ m) (fileChannelId_ m) (socketChannelMap_ m) x (listenersMap_ m) (nextIds_ m)
    (eventHandler_ m) (callbackEventHandler_ m) (callbackEventHandlerNew_ m) (msgEventHandler_ m)
    (dllHandle_ m) (SetFileSchema m).
Definition set_listenersMap (x : std_map Z (list Z)) (m : ChannelManager) : ChannelManager :=
  mkChannelManager (initialized_ m) (serverSocketId_ m) (ownerName_ m) (channelIdMap_ m)
    (channelInfoMap_ m) (fileChannelId_ m) (socketChannelMap_ m) (socketStatusMap_ m) x
    (nextIds_ m) (eventHandler_ m) (callbackEventHandler_ m) (callbackEventHandlerNew_ m)
    (msgEventHandler_ m) (dllHandle_ m) (SetFileSchema m).
Definition set_nextIds (x : std_map ChannelDataType Z) (m : ChannelManager) : ChannelManager :=
  mkChannelManager (initialized_ m) (serverSocketId_ m) (ownerName_ m) (channelIdMap_ m)
    (channelInfoMap_ m) (fileChannelId_ m) (socketChannelMap_ m) (socketStatusMap_ m)
    (listenersMap_ m) x (eventHandler_ m) (callbackEventHandler_ m) (callbackEventHandlerNew_ m)
    (msgEventHandler_ m) (dllHandle_ m) (SetFileSchema m).
Definition set_eventHandler (x : option (list (bytes * SendTask))) (m : ChannelManager) : ChannelManager :=
  mkChannelManager (initialized_ m) (serverSocketId_ m) (ownerName_ m) (channelIdMap_ m)
    (channelInfoMap_ m) (fileChannelId_ m) (socketChannelMap_ m) (socketStatusMap_ m)
    (listenersMap_ m) (nextIds_ m) x (callbackEventHandler_ m) (callbackEventHandlerNew_ m)
    (msgEventHandler_ m) (dllHandle_ m) (SetFileSchema m).
Definition set_callbackEventHandler (x : option (list (Priority * CallbackTask))) (m : ChannelManager) : ChannelManager :=
  mkChannelManager (initialized_ m) (serverSocketId_ m) (ownerName_ m) (channelIdMap_ m)
    (channelInfoMap_ m) (fileChannelId_ m) (socketChannelMap_ m) (socketStatusMap_ m)
    (listenersMap_ m) (nextIds_ m) (eventHandler_ m) x (callbackEventHandlerNew_ m)
    (msgEventHandler_ m) (dllHandle_ m) (SetFileSchema m).
Definition set_callbackEventHandlerNew (x : option (list (Z * ListenerCall))) (m : ChannelManager) : ChannelManager :=
  mkChannelManager (initialized_ m) (serverSocketId_ m) (ownerName_ m) (channelIdMap_ m)
    (channelInfoMap_ m) (fileChannelId_ m) (socketChannelMap_ m) (socketStatusMap_ m)
    (listenersMap_ m) (nextIds_ m) (eventHandler_ m) (callbackEventHandler_ m) x
    (msgEventHandler_ m) (dllHandle_ m) (SetFileSchema m).
Definition set_msgEventHandler (x : option (list MsgTask)) (m : ChannelManager) : ChannelManager :=
  mkChannelManager (initialized_ m) (serverSocketId_ m) (ownerName_ m) (channelIdMap_ m)
    (channelInfoMap_ m) (fileChannelId_ m) (socketChannelMap_ m) (socketStatusMap_ m)
    (listenersMap_ m) (nextIds_ m) (eventHandler_ m) (callbackEventHandler_ m)
    (callbackEventHandlerNew_ m) x (dllHandle_ m) (SetFileSchema m).
Definition set_dllHandle (x : bool) (m : ChannelManager) : ChannelManager :=
  mkChannelManager (initialized_ m) (serverSocketId_ m) (ownerName_ m) (channelIdMap_ m)
    (channelInfoMap_ m) (fileChannelId_ m) (socketChannelMap_ m) (socketStatusMap_ m)
    (listenersMap_ m) (nextIds_ m) (eventHandler_ m) (callbackEventHandler_ m)
    (callbackEventHandlerNew_ m) (msgEventHandler_ m) x (SetFileSchema m).
Definition set_SetFileSchema (x : bool) (m : ChannelManager) : ChannelManager :=
  mkChannelManager (initialized_ m) (serverSocketId_ m) (ownerName_ m) (channelIdMap_ m)
    (channelInfoMap_ m) (fileChannelId_ m) (socketChannelMap_ m) (socketStatusMap_ m)
    (listenersMap_ m) (nextIds_ m) (eventHandler_ m) (callbackEventHandler_ m)
    (callbackEventHandlerNew_ m) (msgEventHandler_ m) (dllHandle_ m) x.
Definition set_status (x : ChannelStatus) (i : ChannelInfo) : ChannelInfo :=
  mkChannelInfo (channelId i) x (dataType i) (channelName i) (peerInfo i) (clientSockets i) (dataSenderReceivers i).
Definition set_clientSockets (x : list Z) (i : ChannelInfo) : ChannelInfo :=
  mkChannelInfo (channelId i) (status i) (dataType i) (channelName i) (peerInfo i) x (dataSenderReceivers i).
Definition set_dataSenderReceivers (x : std_map Z SocketData) (i : ChannelInfo) : ChannelInfo :=
  mkChannelInfo (channelId i) (status i) (dataType i) (channelName i) (peerInfo i) (clientSockets i) x.

Section Manager.
Context {J : CJson} {SJ : StreamJson J} {Ev : ChannelEnv}.

Definition Ch (A : Type) : Type := M ChannelManager Effect A.

Definition ask {A} (oracle : list Effect -> A) : Ch A := call Query oracle.

Definition isValidChannelId (id : Z) : bool := (CHANNEL_ID_GAP <? id) && (id <=? FILE_START_ID + CHANNEL_ID_GAP).

(** ** Tasks *)

Definition PostTask (task : SendTask) (name : bytes) : Ch Z :=
  let! m := get in
  match eventHandler_ m with
  | None => mret NULL_EVENT_HANDLER
  | Some q =>
    let! posted := ask PostTask_ok in
    if (posted : bool) then do! modify (set_eventHandler (Some (q ++ [(name, task)]))) in mret ERR_OK
    else mret POST_TASK_FAILED
  end.

Definition PostCallbackTask (task : CallbackTask) (priority : Priority) : Ch Z :=
  let! m := get in
  match callbackEventHandler_ m with
  | None => mret NULL_EVENT_HANDLER
  | Some q =>
    let! posted := ask PostTask_ok in
    if (posted : bool) then do! modify (set_callbackEventHandler (Some (q ++ [(priority, task)]))) in mret ERR_OK
    else mret POST_TASK_FAILED
  end.

(** Every task of the newer callback thread has the same priority. *)
Definition PostCallbackTaskNew (listener : Z) (c : ListenerCall) : Ch Z :=
  let! m := get in
  match callbackEventHandlerNew_ m with
  | None => mret NULL_EVENT_HANDLER
  | Some q =>
    let! posted := ask PostTask_ok in
    if (posted : bool) then do! modify (set_callbackEventHandlerNew (Some (q ++ [(listener, c)]))) in mret ERR_OK
    else mret POST_TASK_FAILED
  end.

Definition PostMsgTask (task : MsgTask) : Ch Z :=
  let! m := get in
  match msgEventHandler_ m with
  | None => mret NULL_EVENT_HANDLER
  | Some q =>
    let! posted := ask PostTask_ok in
    if (posted : bool) then do! modify (set_msgEventHandler (Some (q ++ [task]))) in mret ERR_OK
    else mret POST_TASK_FAILED
  end.

(** ** Listeners *)

Definition listeners_of (id : Z) : Ch (list Z) :=
  let! m := get in
  mret (match map_find (listenersMap_ m) id with Some l => l | None => [] end).

(** The call is posted for every listener that is still there. *)
Definition NotifyListeners (id : Z) (priority : Priority) (c : ListenerCall) : Ch unit :=
  let! listeners := listeners_of id in
  mfor listeners (fun listener =>
    let! gone := ask (fun t => expired t listener) in
    if (gone : bool) then mret tt else do! PostCallbackTask (TaskCall listener c) priority in mret tt).

Definition NotifyListenersNew (id : Z) (c : ListenerCall) : Ch unit :=
  let! listeners := listeners_of id in
  mfor listeners (fun listener =>
    let! gone := ask (fun t => expired t listener) in
    if (gone : bool) then mret tt else do! PostCallbackTaskNew listener c in mret tt).

Definition DoErrorCallback (id code : Z) : Ch unit := NotifyListeners id IMMEDIATE (OnErrorCall id code).
Definition DoConnectCallback (id : Z) : Ch unit := NotifyListeners id IMMEDIATE (OnConnect id).
Definition DoDisConnectCallback (id reason : Z) : Ch unit := NotifyListeners id IMMEDIATE (OnDisConnect id reason).
Definition DoBytesReceiveCallback (id : Z) (buffer : DataBuffer) : Ch unit := NotifyListeners id LOW (OnBytes id buffer).
Definition DoStreamReceiveCallback (id : Z) (data : AVTransStreamData) : Ch unit := NotifyListeners id LOW (OnStream id data).
Definition DoMessageReceiveCallback (id : Z) (buffer : DataBuffer) : Ch unit := NotifyListenersNew id (OnMessage id buffer).
Definition DoFileRecvCallback (id : Z) (info : FileInfo) : Ch unit := NotifyListeners id HIGH (OnRecvFile id info).
Definition DoFileSendCallback (id : Z) (info : FileInfo) : Ch unit := NotifyListeners id HIGH (OnSendFile id info).

(** [CleanInvalidListener]: every pointer is asked whether its object is gone. *)
Fixpoint CleanInvalidListener (listeners : list Z) : Ch (list Z) :=
  match listeners with
  | [] => mret []
  | listener :: listeners =>
    let! gone := ask (fun t => expired t listener) in
    let! rest := CleanInvalidListener listeners in
    mret (if (gone : bool) then rest else listener :: rest)
  end.

(** The search among the listeners locks each until it meets [listener], which is alive. *)
Definition RegisterChannelListener (id : Z) (listener : option Z) : Ch Z :=
  match listener with
  | None => mret INVALID_LISTENER
  | Some listener =>
    let! m := get in
    match map_find (listenersMap_ m) id with
    | None => do! modify (set_listenersMap (map_assign (listenersMap_ m) id [listener])) in mret ERR_OK
    | Some l =>
      let! l := CleanInvalidListener l in
      let l' := if existsb (Z.eqb listener) l then l else l ++ [listener] in
      do! modify (fun m => set_listenersMap (map_assign (listenersMap_ m) id l') m) in
      mret ERR_OK
    end
  end.

(** ** Sockets *)

Definition shutdown (socket : Z) : Ch unit := emit (ShutdownCalled socket).

(** [std::make_unique<DataSenderReceiver>(socketId)]. *)
Definition new_socket_data : SocketData := mkSocketData init_receiver false [].

(** [~DataSenderReceiver]: the socket is shut down and its thread stopped. *)
Definition destroy_senders (senders : std_map Z SocketData) : Ch unit :=
  mfor senders (fun e => shutdown e.1).

Definition GetSocketStatus (socketId : Z) (m : ChannelManager) : ChannelStatus :=
  match map_find (socketStatusMap_ m) socketId with Some s => s | None => CONNECTED end.

Definition socket_channel (socketId : Z) (m : ChannelManager) : Z :=
  match map_find (socketChannelMap_ m) socketId with Some id => id | None => INVALID_SOCKET_ID end.

Definition GetChannelStatus (id : Z) (m : ChannelManager) : ChannelStatus :=
  match map_find (channelInfoMap_ m) id with Some info => status info | None => UNCONNECTED end.

Definition CreateServerSocket : Ch Z :=
  let! m := get in
  call (SocketCreated (SESSION_NAME_PREFIX ++ ownerName_ m) [] [] None) Socket_ret.

(** The name of a client socket, ohos.dtbcollab.dms<owner>_F_<channel>. *)
Definition client_socket_name (owner : bytes) (dataType : ChannelDataType) (channelName : bytes) : bytes :=
  SESSION_NAME_PREFIX ++ owner ++ SPLIT_FLAG ++ type_prefix dataType ++ SPLIT_FLAG ++ channelName.

Definition CreateClientSocket (channelName peerName peerNetworkId : bytes) (dataType : ChannelDataType) : Ch Z :=
  let! m := get in
  if MAX_CHANNEL_NAME_LENGTH <? zlen channelName then mret (- INVALID_CHANNEL_NAME)
  else call (SocketCreated (client_socket_name (ownerName_ m) dataType channelName)
    (SESSION_NAME_PREFIX ++ peerName) peerNetworkId (Some dataType)) Socket_ret.

(** ** Creating a channel *)

Definition GenerateNextId (dataType : ChannelDataType) : Ch Z :=
  let! m := get in
  let channelId := match map_find (nextIds_ m) dataType with Some id => id | None => 0 end in
  if CHANNEL_ID_GAP <=? channelId - CHANNEL_ID_GAP * (type_index dataType + 1)
  then mret CHANNEL_NUM_EXCEED_LIMIT
  else
    do! modify (set_nextIds (map_assign (nextIds_ m) dataType (channelId + 1))) in
    mret channelId.

Definition CreateBaseChannel (channelName : bytes) (dataType : ChannelDataType) (peerInfo : ChannelPeerInfo)
    : Ch (option ChannelInfo) :=
  let! id := GenerateNextId dataType in
  mret (if isValidChannelId id then Some (mkChannelInfo id UNCONNECTED dataType channelName peerInfo [] [])
    else None).

(** [channelIdMap_[channelName].push_back(id)] and the entry of the channel. *)
Definition enter_channel (info : ChannelInfo) (m : ChannelManager) : ChannelManager :=
  let ids := match map_find (channelIdMap_ m) (channelName info) with Some l => l | None => [] end in
  set_channelInfoMap (map_emplace (channelInfoMap_ m) (channelId info) info)
    (set_channelIdMap (map_assign (channelIdMap_ m) (channelName info) (ids ++ [channelId info])) m).

Definition CreateServerChannel (channelName : bytes) (dataType : ChannelDataType) (peerInfo : ChannelPeerInfo)
    : Ch Z :=
  let! info := CreateBaseChannel channelName dataType peerInfo in
  match info with
  | None => mret CREATE_SERVER_CHANNEL_FAILED
  | Some info =>
    do! modify (enter_channel info) in
    do! modify (set_fileChannelId (channelId info)) in
    mret (channelId info)
  end.

(** [RegisterSocket(ChannelInfo&, dataType)]. *)
Definition register_client_socket (info : ChannelInfo) (dataType : ChannelDataType) : Ch Z :=
  let! clientSocketId := CreateClientSocket (channelName info) (peerName (peerInfo info))
    (networkId (peerInfo info)) dataType in
  if clientSocketId <=? 0 then mret CREATE_SOCKET_FAILED
  else
    do! modify (fun m =>
      set_socketStatusMap (map_emplace (socketStatusMap_ m) clientSocketId UNCONNECTED)
        (set_socketChannelMap (map_emplace (socketChannelMap_ m) clientSocketId (channelId info)) m)) in
    do! modify (enter_channel
      (set_dataSenderReceivers (map_assign (dataSenderReceivers info) clientSocketId new_socket_data)
        (set_clientSockets (clientSockets info ++ [clientSocketId]) info))) in
    mret ERR_OK.

Definition CreateClientChannel (channelName : bytes) (dataType : ChannelDataType) (peerInfo : ChannelPeerInfo)
    : Ch Z :=
  let! info := CreateBaseChannel channelName dataType peerInfo in
  match info with
  | None => mret CREATE_CLIENT_CHANNEL_FAILED
  | Some info =>
    let! ret := register_client_socket info dataType in
    mret (if ret =? ERR_OK then channelId info else ret)
  end.

(** ** Deleting a channel *)

Definition ClearRegisterListener (id : Z) : Ch unit :=
  modify (fun m => set_listenersMap (map_erase (listenersMap_ m) id) m).

(** [RemoveTask(std::to_string(channelId))]. *)
Definition ClearSendTask (id : Z) : Ch unit :=
  modify (fun m => set_eventHandler (match eventHandler_ m with
    | Some q => Some (List.filter (fun p => negb (bytes_eqb p.1 (to_string id))) q)
    | None => None
    end) m).

(** The senders of the erased channel are destroyed with it. *)
Definition ClearRegisterChannel (id : Z) : Ch unit :=
  let! m := get in
  let info := map_find (channelInfoMap_ m) id in
  let name := match info with Some i => channelName i | None => [] end in
  do! modify (fun m => set_channelInfoMap (map_erase (channelInfoMap_ m) id) m) in
  do! destroy_senders (match info with Some i => dataSenderReceivers i | None => [] end) in
  modify (fun m => match map_find (channelIdMap_ m) name with
    | Some ids => set_channelIdMap (map_assign (channelIdMap_ m) name
        (List.filter (fun i => negb (i =? id)) ids)) m
    | None => m
    end).

Definition ClearRegisterSocket (id : Z) : Ch unit :=
  let! m := get in
  let socketIds := map fst (List.filter (fun e => e.2 =? id) (socketChannelMap_ m)) in
  do! mfor socketIds (fun socketId => modify (fun m =>
    set_socketStatusMap (map_erase (socketStatusMap_ m) socketId)
      (set_socketChannelMap (map_erase (socketChannelMap_ m) socketId) m))) in
  mfor socketIds shutdown.

Definition DeleteChannel (id : Z) : Ch Z :=
  if negb (isValidChannelId id) then mret INVALID_CHANNEL_ID
  else
    do! ClearRegisterListener id in
    do! ClearSendTask id in
    do! ClearRegisterChannel id in
    do! ClearRegisterSocket id in
    mret id.

(** ** Status *)

Definition SetChannelStatus (id : Z) (st : ChannelStatus) : Ch Z :=
  let! m := get in
  match map_find (channelInfoMap_ m) id with
  | None => mret INVALID_CHANNEL_ID
  | Some info =>
    do! modify (set_channelInfoMap (map_assign (channelInfoMap_ m) id (set_status st info))) in
    mret ERR_OK
  end.

(** The channel is connected while one of its sockets is. *)
Definition UpdateChannelStatus (id : Z) : Ch Z :=
  let! m := get in
  match map_find (channelInfoMap_ m) id with
  | None => mret INVALID_CHANNEL_ID
  | Some info =>
    let newStatus := if existsb (fun s => bool_decide (GetSocketStatus s m = CONNECTED)) (clientSockets info)
      then CONNECTED else UNCONNECTED in
    if bool_decide (newStatus = status info) then mret ERR_OK else SetChannelStatus id newStatus
  end.

Definition SetSocketStatus (socketId : Z) (st : ChannelStatus) : Ch Z :=
  let! m := get in
  match map_find (socketStatusMap_ m) socketId with
  | None => mret INVALID_SOCKET_ID
  | Some _ =>
    do! modify (set_socketStatusMap (map_assign (socketStatusMap_ m) socketId st)) in
    match map_find (socketChannelMap_ m) socketId with
    | None => mret INVALID_SOCKET_ID
    | Some id => PostCallbackTask (TaskUpdateChannelStatus id) IMMEDIATE
    end
  end.

(** ** Connecting *)

(** The [do ... while] loop of [BindSocket] after [retryCount] attempts; the answer and
    whether it is returned at once. *)
Fixpoint bind_loop (attempts : nat) (socketId : Z) (speed : QosSpeedType) (retryCount : Z) : Ch (Z * bool) :=
  match attempts with
  | O => mret (SOFTBUS_LANE_WIFI_NOT_ONLINE, false)
  | S attempts =>
    let! ret := call (BindCalled socketId speed) Bind_ret in
    if ret =? ERR_OK then mret (ret, false)
    else if negb (ret =? SOFTBUS_LANE_WIFI_NOT_ONLINE) then mret (ret, true)
    else if MAX_BIND_RETRY_TIME <=? retryCount * BIND_RETRY_INTERVAL then mret (ret, true)
    else
      do! emit (Slept BIND_RETRY_INTERVAL) in
      bind_loop attempts socketId speed (retryCount + 1)
  end.

(** [dmsFileAdapetr_.SetFileSchema(socketId)]; a function of a library that is closed cannot
    be called. *)
Definition set_file_schema (socketId : Z) : Ch Z :=
  let! m := get in
  if dllHandle_ m then call (FileSchemaSet socketId) SetFileSchema_ret else undefined.

Definition BindSocket (socketId : Z) (dataType : ChannelDataType) : Ch Z :=
  let! (ret, at_once) := bind_loop (Z.to_nat MAX_RETRY_TIMES) socketId (CHANNEL_DATATYPE_SPEED_MAP dataType) 0 in
  if (at_once : bool) then mret ret
  else if negb (ret =? ERR_OK) then mret BIND_SOCKET_FAILED
  else
    let! m := get in
    let connected : Ch Z := do! SetSocketStatus socketId CONNECTED in mret ERR_OK in
    if negb (bool_decide (dataType = FILE)) then connected
    else if negb (SetFileSchema m) then mret INVALID_PARAMETERS_ERR
    else
      let! ret := set_file_schema socketId in
      if negb (ret =? ERR_OK) then mret REGISTER_FILE_SCHEMA_FAILED else connected.

(** Every task runs to its end; the answer is whether one of them succeeded. *)
Fixpoint run_binds (socketIds : list Z) (dataType : ChannelDataType) : Ch bool :=
  match socketIds with
  | [] => mret false
  | socketId :: socketIds =>
    let! ret := BindSocket socketId dataType in
    let! rest := run_binds socketIds dataType in
    mret ((ret =? ERR_OK) || rest)
  end.

Definition DoBindSockets (socketIds : list Z) (dataType : ChannelDataType) : Ch Z :=
  let! m := get in
  let unbound := List.filter (fun s => bool_decide (GetSocketStatus s m = UNCONNECTED)) socketIds in
  match unbound with
  | [] => mret ERR_OK
  | _ =>
    let! ok := run_binds unbound dataType in
    mret (if (ok : bool) then ERR_OK else CONNECT_CHANNEL_FAILED)
  end.

Definition ConnectChannel (id : Z) : Ch Z :=
  let! m := get in
  match map_find (channelInfoMap_ m) id with
  | None => mret INVALID_CHANNEL_ID
  | Some info =>
    if empty (clientSockets info) then mret INVALID_CHANNEL_ID
    else DoBindSockets (clientSockets info) (dataType info)
  end.

(** ** A socket of the peer *)

(** [socketName.find("_", 64)], what follows it. *)
Fixpoint after_split (s : bytes) : option bytes :=
  match s with
  | [] => None
  | c :: s => if c =? 95 then Some s else after_split s
  end.

Definition GetChannelNameFromSocket (socketName : bytes) : option bytes :=
  after_split (drop (Z.to_nat CHANNEL_NAME_PREFIX_LENGTH) socketName).

Definition GetChannelDataTypeFromName (channelName : bytes) : option ChannelDataType :=
  match List.find (fun e => bytes_eqb (substr0 channelName 1) e.2) CHANNEL_DATATYPE_PREFIX_MAP with
  | Some (dataType, _) => Some dataType
  | None => None
  end.

(** [GetChannelId(channelName, dataType)]. *)
Definition find_channel (channelName : bytes) (dataType : ChannelDataType) (m : ChannelManager) : Z :=
  match map_find (channelIdMap_ m) channelName with
  | None => INVALID_CHANNEL_NAME
  | Some ids =>
    (fix search (ids : list Z) : Z :=
      match ids with
      | [] => NO_SUCH_CHANNEL
      | id :: ids =>
        match map_find (channelInfoMap_ m) id with
        | None => INVALID_CHANNEL_ID
        | Some info => if bool_decide (ChannelManager.dataType info = dataType) then channelId info else search ids
        end
      end) ids
  end.

(** [name] is what [PeerSocketInfo] points to; [substr(2)] of a shorter string throws. *)
Definition OnSocketConnected (socketId : Z) (name : option bytes) : Ch unit :=
  if socketId <=? 0 then mret tt
  else
    match name with
    | None => mret tt
    | Some name =>
      match GetChannelNameFromSocket (c_str name) with
      | None => mret tt
      | Some channelName =>
        match GetChannelDataTypeFromName channelName with
        | None => mret tt
        | Some channelType =>
          if zlen channelName <? 2 then undefined
          else
            let channelName := drop 2 channelName in
            let! m := get in
            let id := find_channel channelName channelType m in
            if negb (isValidChannelId id) then mret tt
            else do! PostCallbackTask (TaskUpdateChannel socketId id) IMMEDIATE in mret tt
        end
      end
    end.

(** [RegisterSocket(socketId, channelId)]: a sender that the socket had already is
    destroyed. *)
Definition RegisterSocket (socketId id : Z) : Ch Z :=
  let! m := get in
  match map_find (channelInfoMap_ m) id with
  | None => mret INVALID_CHANNEL_ID
  | Some info =>
    let info' := set_dataSenderReceivers (map_assign (dataSenderReceivers info) socketId new_socket_data)
      (set_clientSockets (clientSockets info ++ [socketId]) info) in
    do! modify (set_channelInfoMap (map_assign (channelInfoMap_ m) id info')) in
    do! when map_count (dataSenderReceivers info) socketId do shutdown socketId in
    do! modify (fun m =>
      set_socketStatusMap (map_assign (socketStatusMap_ m) socketId CONNECTED)
        (set_socketChannelMap (map_assign (socketChannelMap_ m) socketId id) m)) in
    if negb (bool_decide (dataType info = FILE)) then mret ERR_OK
    else if negb (SetFileSchema m) then mret INVALID_PARAMETERS_ERR
    else
      let! ret := set_file_schema socketId in
      mret (if negb (ret =? ERR_OK) then REGISTER_FILE_SCHEMA_FAILED else ERR_OK)
  end.

Definition UpdateChannel (socketId id : Z) : Ch Z :=
  let! ret := RegisterSocket socketId id in
  if negb (ret =? ERR_OK) then do! DoErrorCallback id ret in mret ret
  else
    let! ret := SetSocketStatus socketId CONNECTED in
    if negb (ret =? ERR_OK) then do! DoErrorCallback id ret in mret ret
    else do! DoConnectCallback id in mret ret.

(** [CHECK_SOCKET_ID] and [CHECK_CHANNEL_ID] before the rest of a callback. *)
Definition with_channel (socketId : Z) (k : Z -> Ch unit) : Ch unit :=
  if socketId <=? 0 then mret tt
  else
    let! m := get in
    let id := socket_channel socketId m in
    if negb (isValidChannelId id) then mret tt else k id.

Definition OnSocketError (socketId code : Z) : Ch unit :=
  with_channel socketId (fun id => DoErrorCallback id code).

(** [CHECK_DATA_NULL(socketId, data, OnError)]: the handler is the static [OnError], which
    takes its first argument for a socket. *)
Definition with_data {A} (id : Z) (data : option A) (k : A -> Ch unit) : Ch unit :=
  match data with
  | None => OnSocketError id RECV_DATA_EMPTY
  | Some a => k a
  end.

Definition OnSocketClosed (socketId reason : Z) : Ch unit :=
  with_channel socketId (fun id =>
    let! ret := SetSocketStatus socketId UNCONNECTED in
    if negb (ret =? ERR_OK) then DoErrorCallback id ret
    else do! PostCallbackTask (TaskClosed id reason) IMMEDIATE in mret tt).

(** The task of [OnSocketClosed]. *)
Definition HandleClosed (id reason : Z) : Ch unit :=
  let! m := get in
  if bool_decide (GetChannelStatus id m = UNCONNECTED) then
    do! DoDisConnectCallback id reason in
    do! DeleteChannel id in
    mret tt
  else mret tt.

(** ** Sending *)

Definition GetValidSocket (id : Z) (m : ChannelManager) : Z :=
  match map_find (channelInfoMap_ m) id with
  | None => -1
  | Some info =>
    if bool_decide (status info = UNCONNECTED) then -1
    else
      match List.find (fun s => bool_decide (GetSocketStatus s m = CONNECTED)) (clientSockets info) with
      | Some s => s
      | None => -1
      end
  end.

(** Replaces the sender of a socket of a channel. *)
Definition put_sender (id socketId : Z) (d : SocketData) (m : ChannelManager) : ChannelManager :=
  match map_find (channelInfoMap_ m) id with
  | None => m
  | Some info => set_channelInfoMap (map_assign (channelInfoMap_ m) id
      (set_dataSenderReceivers (map_assign (dataSenderReceivers info) socketId d) info)) m
  end.

(** [DoSendData]: [send] runs on the sender of the first connected socket. *)
Definition DoSendData (id : Z) (send : Z -> SocketData -> Ch (Z * SocketData)) : Ch Z :=
  let! m := get in
  let socketId := GetValidSocket id m in
  if socketId <=? 0 then mret NO_CONNECTED_SOCKET_ID
  else
    match map_find (channelInfoMap_ m) id with
    | None => do! DoErrorCallback id INVALID_CHANNEL_ID in mret INVALID_CHANNEL_ID
    | Some info =>
      match map_find (dataSenderReceivers info) socketId with
      | None => do! DoErrorCallback id INVALID_SOCKET_ID in mret INVALID_SOCKET_ID
      | Some d =>
        let! (ret, d) := send socketId d in
        do! modify (put_sender id socketId d) in
        if negb (ret =? ERR_OK) then do! DoErrorCallback id ret in mret ret else mret ERR_OK
      end
    end.

(** [DataSenderReceiver::SendBytesData]: softbus sees the packets one by one. *)
Definition SendBytesData (data : DataBuffer) (socketId : Z) (d : SocketData) : Ch (Z * SocketData) := fun m t =>
  let seen sent := t ++ map (BytesSent socketId) sent in
  let* (ret, sent) := DataSenderReceiver.SendBytesData
    (fun sent => GetSessionOption_ret (seen sent) socketId)
    (fun sent packet => SendBytes_ret (seen sent) socketId packet)
    (Z.to_nat (Size data)) data [] in
  Done ((ret, d), m, seen sent).

Definition SendStreamData (sendData : AVTransStreamData) (socketId : Z) (d : SocketData) : Ch (Z * SocketData) :=
  match StreamData sendData with
  | None => undefined
  | Some buffer =>
    let printed := match SerializeStreamDataExt (GetStreamDataExt sendData) with
      | Some extInfo => cJSON_PrintUnformatted extInfo
      | None => None
      end in
    match printed with
    | None => mret (ERR_JSON_GENERATION_FAILED, d)
    | Some jsonString =>
      let! ret := call (StreamSent socketId (content buffer) jsonString) SendStream_ret in
      mret (if negb (ret =? SOFTBUS_OK) then ret else ERR_OK, d)
    end
  end.

(** The thread of the socket is started by its first message. *)
Definition SendMessageData (sendData : DataBuffer) (socketId : Z) (d : SocketData) : Ch (Z * SocketData) :=
  let d := mkSocketData (receiver_ d) true (dsr_tasks d) in
  if MAX_SEND_MESSAGE_SIZE <? Size sendData then mret (DATA_SIZE_EXCEED_LIMIT, d)
  else
    let! posted := ask PostTask_ok in
    if (posted : bool) then mret (ERR_OK, mkSocketData (receiver_ d) true (dsr_tasks d ++ [sendData]))
    else mret (POST_TASK_FAILED, d).

Definition SendFileData (sFiles dFiles : list bytes) (socketId : Z) (d : SocketData) : Ch (Z * SocketData) :=
  let! ret := call (FilesSent socketId (map c_str sFiles) (map c_str dFiles)
    (u32 (Z.of_nat (length sFiles)))) SendFile_ret in
  mret (ret, d).

Definition DoSendBytes (id : Z) (data : DataBuffer) : Ch Z := DoSendData id (SendBytesData data).
Definition DoSendStream (id : Z) (data : AVTransStreamData) : Ch Z := DoSendData id (SendStreamData data).
Definition DoSendMessage (id : Z) (data : DataBuffer) : Ch Z := DoSendData id (SendMessageData data).
Definition DoSendFile (id : Z) (sFiles dFiles : list bytes) : Ch Z := DoSendData id (SendFileData sFiles dFiles).

Definition SendBytes (id : Z) (data : option DataBuffer) : Ch Z :=
  match data with
  | Some data => if negb (isValidChannelId id) then mret INVALID_CHANNEL_ID
    else PostTask (TaskSendBytes id data) (to_string id)
  | None => mret INVALID_CHANNEL_ID
  end.

Definition SendStream (id : Z) (data : option AVTransStreamData) : Ch Z :=
  match isValidChannelId id, data with
  | true, Some data =>
    let! ret := PostTask (TaskSendStream id data) (to_string id) in
    mret (if negb (ret =? ERR_OK) then POST_TASK_FAILED else ERR_OK)
  | _, _ => do! DoErrorCallback id INVALID_CHANNEL_ID in mret INVALID_CHANNEL_ID
  end.

Definition SendMessage (id : Z) (data : option DataBuffer) : Ch Z :=
  match data with
  | Some data => if negb (isValidChannelId id) then mret INVALID_CHANNEL_ID
    else PostMsgTask (TaskSendMessage id data)
  | None => mret INVALID_CHANNEL_ID
  end.

Definition SendMessageSync (id : Z) (data : option DataBuffer) : Ch Z :=
  match data with
  | Some data => if negb (isValidChannelId id) then mret INVALID_CHANNEL_ID else DoSendMessage id data
  | None => mret INVALID_CHANNEL_ID
  end.

(** The task has no name, so that deleting the channel does not remove it. *)
Definition SendFile (id : Z) (sFiles dFiles : list bytes) : Ch Z :=
  let n := Z.of_nat (length sFiles) in
  if negb (isValidChannelId id) || (n =? 0) || (Z.of_nat (length dFiles) =? 0) then mret INVALID_PARAMETERS_ERR
  else if negb (n =? Z.of_nat (length dFiles)) || (MAX_FILE_COUNT <? n) then mret INVALID_PARAMETERS_ERR
  else PostTask (TaskSendFile id sFiles dFiles) [].

(** ** Receiving *)

(** [data] is the packet of [dataLen] bytes.  [dataSenderReceivers[socketId]] of a socket
    without a sender is a null pointer. *)
Definition ProcessRecvData (id socketId : Z) (data : bytes) : Ch (option DataBuffer) :=
  let! m := get in
  match map_find (channelInfoMap_ m) id with
  | None => do! DoErrorCallback id INVALID_CHANNEL_ID in mret None
  | Some info =>
    match map_find (dataSenderReceivers info) socketId with
    | None => undefined
    | Some d =>
      let! t := trace in
      let! (ret, st) := from_run (PackRecvPacketData (junk t) (receiver_ d) (Some data) (zlen data)) in
      if negb (ret =? ERR_OK) then
        do! modify (put_sender id socketId (mkSocketData st (dsr_eventHandler_ d) (dsr_tasks d))) in
        do! DoErrorCallback id ret in
        mret None
      else
        let (packed, st) := GetPacketedData st in
        do! modify (put_sender id socketId (mkSocketData st (dsr_eventHandler_ d) (dsr_tasks d))) in
        mret packed
    end
  end.

Definition OnBytesReceived (socketId : Z) (data : option bytes) : Ch unit :=
  with_channel socketId (fun id =>
    with_data id data (fun data =>
      let! packedData := ProcessRecvData id socketId data in
      match packedData with
      | None => mret tt
      | Some packedData => DoBytesReceiveCallback id packedData
      end)).

(** A copy of [n] bytes into a new buffer of that size: [memcpy_s] answers an error when the
    size leaves the buffer without an array. *)
Definition copy_to_buffer (data : option bytes) (n : Z) : run (option DataBuffer) :=
  let buffer := make_buffer (u64 n) in
  let* (ret, mem) := memcpy_s (data_ buffer) (rangeOffset_ buffer) (Size buffer) data 0 (u64 n) in
  Done (if ret =? EOK then Some (set_data buffer mem) else None).

Definition OnMessageReceived (socketId : Z) (data : option bytes) (dataLen : Z) : Ch unit :=
  if MAX_LEN <? dataLen then mret tt
  else
    with_channel socketId (fun id =>
      with_data id data (fun data =>
        let! buffer := from_run (copy_to_buffer (Some data) dataLen) in
        match buffer with
        | None => DoErrorCallback id COPY_DATA_TO_BUFFER_FAILED
        | Some buffer => DoMessageReceiveCallback id buffer
        end)).

(** [StreamData] of softbus: a pointer and the length it gives, an [int]. *)
Record SoftbusData := mkSoftbusData { buf : option bytes; bufLen : Z }.

Definition OnStreamReceived (socketId : Z) (data ext : option SoftbusData) : Ch unit :=
  with_channel socketId (fun id =>
    with_data id data (fun data =>
      with_data id ext (fun ext =>
        let! buffer := from_run (copy_to_buffer (buf data) (bufLen data)) in
        match buffer with
        | None => DoErrorCallback id COPY_DATA_TO_BUFFER_FAILED
        | Some buffer =>
          let! (ret, e) := from_run (DeserializeStreamDataExt (buf ext) StreamDataExt_default) in
          if negb (ret =? ERR_OK) then DoErrorCallback id PARSE_AV_TRANS_STREAM_EXT_FAILED
          else DoStreamReceiveCallback id (mkStreamData (Some buffer) e)
        end))).

(** ** File transfers *)

(** The loop over [event->files]. *)
Definition file_list (event : FileEvent) : run (list bytes) :=
  if (0 <=? fileCnt event) && (fileCnt event <=? Z.of_nat (length (files event)))
  then Done (map c_str (take (Z.to_nat (fileCnt event)) (files event)))
  else Undefined.

Definition progress (event : FileEvent) (with_rate : bool) : FileProgress :=
  mkFileProgress (bytesProcessed event) (bytesTotal event) (if with_rate then Some (rate event) else None).

Definition DealFileSendEvent (id : Z) (event : FileEvent) : Ch unit :=
  let in_process := bool_decide (type event = FILE_EVENT_SEND_PROCESS) in
  let! files := from_run (file_list event) in
  DoFileSendCallback id (mkFileInfo (if in_process then SEND_PROCESS else SEND_FINISH) files (fileCnt event)
    (Some (progress event in_process)) None None).

Definition DealFileRecvEvent (id : Z) (event : FileEvent) : Ch unit :=
  let in_process := bool_decide (type event = FILE_EVENT_RECV_PROCESS) in
  let eventType := if bool_decide (type event = FILE_EVENT_RECV_START) then RECV_START
    else if in_process then RECV_PROCESS else RECV_FINISH in
  let! files := from_run (file_list event) in
  DoFileRecvCallback id (mkFileInfo eventType files (fileCnt event) None (Some (progress event in_process)) None).

Definition DealFileErrorEvent (id : Z) (event : FileEvent) : Ch unit :=
  let sending := bool_decide (type event = FILE_EVENT_SEND_ERROR) in
  let! files := from_run (file_list event) in
  let info := mkFileInfo (if sending then SEND_ERROR else RECV_ERROR) files (fileCnt event) None None
    (Some (errorCode event)) in
  if sending then DoFileSendCallback id info else DoFileRecvCallback id info.

Definition DispatchProcessFileEvent (id : Z) (event : FileEvent) : Ch unit :=
  match type event with
  | FILE_EVENT_SEND_PROCESS | FILE_EVENT_SEND_FINISH => DealFileSendEvent id event
  | FILE_EVENT_RECV_START | FILE_EVENT_RECV_PROCESS | FILE_EVENT_RECV_FINISH => DealFileRecvEvent id event
  | FILE_EVENT_BUTT | FILE_EVENT_SEND_ERROR | FILE_EVENT_RECV_ERROR => DealFileErrorEvent id event
  | FILE_EVENT_RECV_UPDATE_PATH => emit RecvPathInstalled
  | FILE_EVENT_OTHER => mret tt
  end.

Definition OnFileEventReceived (socketId : Z) (event : option FileEvent) : Ch unit :=
  if socketId <=? 0 then mret tt
  else
    match event with
    | None => mret tt
    | Some event =>
      if bool_decide (type event = FILE_EVENT_RECV_UPDATE_PATH) then
        let! m := get in DispatchProcessFileEvent (fileChannelId_ m) event
      else
        let! m := get in
        let id := socket_channel socketId m in
        if negb (isValidChannelId id) then mret tt else DispatchProcessFileEvent id event
    end.

(** The first listener that is still there is asked. *)
Definition GetRecvPathFromUser : Ch (option bytes) :=
  let! m := get in
  let id := to_int32 (fileChannelId_ m) in
  let! listeners := listeners_of id in
  (fix first (listeners : list Z) : Ch (option bytes) :=
    match listeners with
    | [] => mret None
    | listener :: listeners =>
      let! gone := ask (fun t => expired t listener) in
      if (gone : bool) then first listeners else call (RecvPathAsked listener id) GetRecvPath_ret
    end) listeners.

(** ** Start and end *)

Definition GetDmsInteractiveAdapterProxy : Ch Z :=
  let! opened := call AdapterOpened dlopen_ok in
  if negb opened then mret NOT_FIND_SERVICE_REGISTRY
  else
    let! found := ask dlsym_ok in
    if negb found then do! emit AdapterClosed in mret NOT_FIND_SERVICE_REGISTRY
    else
      let! (ret, filled) := ask GetSoftbusFile_ret in
      do! when filled do modify (set_SetFileSchema true) in
      if negb (ret =? 0) then do! emit AdapterClosed in mret INVALID_PARAMETERS_ERR
      else do! modify (set_dllHandle true) in mret ERR_OK.

(** [thread = std::thread(...)] of a thread that runs ends the process. *)
Definition WaitForEventHandlerThread {A} (handler : ChannelManager -> option (list A))
    (start : option (list A) -> ChannelManager -> ChannelManager) : Ch unit :=
  let! m := get in
  match handler m with
  | Some _ => undefined
  | None => modify (start (Some []))
  end.

Definition has {A} (handler : option A) : bool := match handler with Some _ => true | None => false end.

Definition Init (ownerName : bytes) : Ch Z :=
  let! m := get in
  if initialized_ m then mret ERR_OK
  else if has (eventHandler_ m) && has (callbackEventHandler_ m) && has (msgEventHandler_ m)
      && has (callbackEventHandlerNew_ m) then
    do! modify (set_initialized true) in mret ERR_OK
  else if 0 <? serverSocketId_ m then
    do! modify (set_initialized true) in mret ERR_OK
  else
    do! modify (set_ownerName ownerName) in
    do! WaitForEventHandlerThread eventHandler_ set_eventHandler in
    do! WaitForEventHandlerThread callbackEventHandler_ set_callbackEventHandler in
    do! WaitForEventHandlerThread msgEventHandler_ set_msgEventHandler in
    do! WaitForEventHandlerThread callbackEventHandlerNew_ set_callbackEventHandlerNew in
    let! socketServerId := CreateServerSocket in
    if socketServerId <=? 0 then mret CREATE_SOCKET_FAILED
    else
      let! ret := call (ListenCalled socketServerId) Listen_ret in
      if negb (ret =? ERR_OK) then mret LISTEN_SOCKET_FAILED
      else
        do! modify (set_serverSocketId socketServerId) in
        do! GetDmsInteractiveAdapterProxy in
        do! modify (set_initialized true) in
        mret ERR_OK.

Definition Reset : Ch unit :=
  modify (fun m => set_initialized false (set_nextIds nextIds_init (set_ownerName [] (set_serverSocketId (-1) m)))).

(** The threads stop, with the tasks that wait; then the channels are deleted. *)
Definition DeInit : Ch unit :=
  do! modify (fun m => set_callbackEventHandlerNew None (set_msgEventHandler None
    (set_callbackEventHandler None (set_eventHandler None m)))) in
  let! m := get in
  let channelIds := unordered (nodup Z.eq_dec (List.concat (map snd (channelIdMap_ m)))) in
  do! mfor channelIds (fun id => do! DeleteChannel id in mret tt) in
  do! emit AdapterClosed in
  do! modify (fun m => set_SetFileSchema false (set_dllHandle false m)) in
  let! m := get in
  do! shutdown (serverSocketId_ m) in
  Reset.

(** ** Turns of the threads *)

Definition run_send_task (task : SendTask) : Ch unit :=
  match task with
  | TaskSendBytes id data => do! DoSendBytes id data in mret tt
  | TaskSendStream id data => do! DoSendStream id data in mret tt
  | TaskSendFile id sFiles dFiles => do! DoSendFile id sFiles dFiles in mret tt
  end.

Definition run_callback_task (task : CallbackTask) : Ch unit :=
  match task with
  | TaskUpdateChannelStatus id => do! UpdateChannelStatus id in mret tt
  | TaskUpdateChannel socketId id => do! UpdateChannel socketId id in mret tt
  | TaskClosed id reason => HandleClosed id reason
  | TaskCall listener c => emit (ListenerCalled listener c)
  end.

Definition send_turn : Ch unit :=
  let! m := get in
  match eventHandler_ m with
  | Some ((_, task) :: q) => do! modify (set_eventHandler (Some q)) in run_send_task task
  | _ => mret tt
  end.

Definition msg_turn : Ch unit :=
  let! m := get in
  match msgEventHandler_ m with
  | Some (task :: q) =>
    do! modify (set_msgEventHandler (Some q)) in
    do! DoSendMessage (msg_id task) (msg_data task) in mret tt
  | _ => mret tt
  end.

(** The first task of a priority, and the queue without it. *)
Fixpoint take_first {A} (priority : Priority) (q : list (Priority * A)) : option (A * list (Priority * A)) :=
  match q with
  | [] => None
  | (p, a) :: q =>
    if bool_decide (p = priority) then Some (a, q)
    else match take_first priority q with Some (b, q) => Some (b, (p, a) :: q) | None => None end
  end.

Definition callback_turn (priority : Priority) : Ch unit :=
  let! m := get in
  match callbackEventHandler_ m with
  | None => mret tt
  | Some q =>
    match take_first priority q with
    | None => mret tt
    | Some (task, q) => do! modify (set_callbackEventHandler (Some q)) in run_callback_task task
    end
  end.

Definition callback_new_turn : Ch unit :=
  let! m := get in
  match callbackEventHandlerNew_ m with
  | Some ((listener, c) :: q) =>
    do! modify (set_callbackEventHandlerNew (Some q)) in emit (ListenerCalled listener c)
  | _ => mret tt
  end.

(** One turn of the thread of a socket of a channel. *)
Definition socket_turn (id socketId : Z) : Ch unit :=
  let! m := get in
  match map_find (channelInfoMap_ m) id with
  | None => mret tt
  | Some info =>
    match map_find (dataSenderReceivers info) socketId with
    | Some (mkSocketData st started (sendData :: q)) =>
      do! modify (put_sender id socketId (mkSocketData st started q)) in
      emit (MessageSent socketId (content sendData))
    | _ => mret tt
    end
  end.

(** ** Runs *)

(** Calls of the collaboration's session, callbacks of softbus, turns of the threads. *)
Inductive Move :=
| CallInit (ownerName : bytes)
| CallDeInit
| CallCreateServerChannel (channelName : bytes) (dataType : ChannelDataType) (peerInfo : ChannelPeerInfo)
| CallCreateClientChannel (channelName : bytes) (dataType : ChannelDataType) (peerInfo : ChannelPeerInfo)
| CallDeleteChannel (id : Z)
| CallRegisterListener (id : Z) (listener : option Z)
| CallConnectChannel (id : Z)
| CallSendBytes (id : Z) (data : option DataBuffer)
| CallSendStream (id : Z) (data : option AVTransStreamData)
| CallSendMessage (id : Z) (data : option DataBuffer)
| CallSendMessageSync (id : Z) (data : option DataBuffer)
| CallSendFile (id : Z) (sFiles dFiles : list bytes)
| SocketConnected (socketId : Z) (name : option bytes)
| SocketClosed (socketId reason : Z)
| SocketError (socketId code : Z)
| BytesArrived (socketId : Z) (data : option bytes)
| MessageArrived (socketId : Z) (data : option bytes) (dataLen : Z)
| StreamArrived (socketId : Z) (data ext : option SoftbusData)
| FileEventArrived (socketId : Z) (event : option FileEvent)
| RecvPathWanted
| SendTurn
| MsgTurn
| CallbackTurn (priority : Priority)
| CallbackNewTurn
| SocketTurn (id socketId : Z).

Definition make_move (mv : Move) : Ch unit :=
  let ignore (m : Ch Z) : Ch unit := do! m in mret tt in
  match mv with
  | CallInit ownerName => ignore (Init ownerName)
  | CallDeInit => DeInit
  | CallCreateServerChannel n d p => ignore (CreateServerChannel n d p)
  | CallCreateClientChannel n d p => ignore (CreateClientChannel n d p)
  | CallDeleteChannel id => ignore (DeleteChannel id)
  | CallRegisterListener id l => ignore (RegisterChannelListener id l)
  | CallConnectChannel id => ignore (ConnectChannel id)
  | CallSendBytes id data => ignore (SendBytes id data)
  | CallSendStream id data => ignore (SendStream id data)
  | CallSendMessage id data => ignore (SendMessage id data)
  | CallSendMessageSync id data => ignore (SendMessageSync id data)
  | CallSendFile id sFiles dFiles => ignore (SendFile id sFiles dFiles)
  | SocketConnected socketId name => OnSocketConnected socketId name
  | SocketClosed socketId reason => OnSocketClosed socketId reason
  | SocketError socketId code => OnSocketError socketId code
  | BytesArrived socketId data => OnBytesReceived socketId data
  | MessageArrived socketId data dataLen => OnMessageReceived socketId data dataLen
  | StreamArrived socketId data ext => OnStreamReceived socketId data ext
  | FileEventArrived socketId event => OnFileEventReceived socketId event
  | RecvPathWanted => do! GetRecvPathFromUser in mret tt
  | SendTurn => send_turn
  | MsgTurn => msg_turn
  | CallbackTurn priority => callback_turn priority
  | CallbackNewTurn => callback_new_turn
  | SocketTurn id socketId => socket_turn id socketId
  end.
End Manager.
