(* ===== verification/ChannelManagerLemmas.v ===== *)
(** * Lemmas about the channels

    The invariant of the channel manager, [channels_ok], and that every operation keeps it
    and returns. *)

From Stdlib Require Import ZArith Lia String.
From stdpp Require Import base list option.
From S2P Require Import Prelude ErrorCodes DataBuffer Tlv SessionHeader DataSenderReceiver StdMap StdString Effects Framework StreamData ChannelManager.
Import ErrorCodes.DtbCollab.

#[export] Instance name_strict : StrictWeakOrder bytes := order_by (fun x => x).

Lemma name_key_eq (a b : bytes) : key_eq a b = true <-> a = b.
Proof. apply (key_eq_by (fun x => x)). Qed.

Lemma type_key_eq (a b : ChannelDataType) : key_eq a b = true <-> a = b.
Proof. by destruct a, b. Qed.

#[export] Instance type_order_ok : KeyOrderOk ChannelDataType.
Proof. split; intros; by repeat match goal with x : ChannelDataType |- _ => destruct x end. Qed.

(** ** The invariant *)

(** What a socket has received is well formed, and so are the messages it has to send. *)
Definition sender_ok (d : SocketData) : Prop :=
  receiver_wf (receiver_ d) /\ Forall buffer_wf (dsr_tasks d).

Definition held (infos : std_map Z ChannelInfo) (s id : Z) : Prop :=
  exists i d, map_find infos id = Some i /\ map_find (dataSenderReceivers i) s = Some d.

(** A channel is stored under its own id, which its type's counter has passed, and listed
    under its name; every socket of its list has a sender. *)
Record channel_ok (names : std_map bytes (list Z)) (next : std_map ChannelDataType Z)
    (id : Z) (i : ChannelInfo) : Prop := mkChannelOk {
  own_id : channelId i = id;
  id_given : exists n, map_find next (dataType i) = Some n /\
    CHANNEL_ID_GAP * (type_index (dataType i) + 1) < id < n;
  listed : exists l, map_find names (channelName i) = Some l /\ In id l;
  has_senders s : In s (clientSockets i) -> map_count (dataSenderReceivers i) s = true;
  senders_wf s d : map_find (dataSenderReceivers i) s = Some d -> sender_ok d
}.

Record tables_ok (names : std_map bytes (list Z)) (infos : std_map Z ChannelInfo)
    (sockets : std_map Z Z) (statuses : std_map Z ChannelStatus)
    (next : std_map ChannelDataType Z) : Prop := mkTablesOk {
  infos_ok id i : map_find infos id = Some i -> channel_ok names next id i;
  names_unique name l : map_find names name = Some l -> base.NoDup l;
  names_ok name l id : map_find names name = Some l -> In id l ->
    exists i, map_find infos id = Some i /\ channelName i = name;
  sockets_held s id : map_find sockets s = Some id -> held infos s id;
  statuses_ok s : map_count statuses s = map_count sockets s;
  next_ok ty : exists n, map_find next ty = Some n /\
    CHANNEL_ID_GAP * (type_index ty + 1) < n <= CHANNEL_ID_GAP * (type_index ty + 2)
}.

Arguments own_id {_ _ _ _}.
Arguments id_given {_ _ _ _}.
Arguments listed {_ _ _ _}.
Arguments has_senders {_ _ _ _}.
Arguments senders_wf {_ _ _ _}.
Arguments infos_ok {_ _ _ _ _}.
Arguments names_unique {_ _ _ _ _}.
Arguments names_ok {_ _ _ _ _}.
Arguments sockets_held {_ _ _ _ _}.
Arguments statuses_ok {_ _ _ _ _}.
Arguments next_ok {_ _ _ _ _}.

Definition task_ok (task : SendTask) : Prop :=
  match task with
  | TaskSendBytes _ data => buffer_wf data
  | TaskSendStream _ data => exists b, StreamData data = Some b /\ buffer_wf b
  | TaskSendFile _ _ _ => True
  end.

Definition queue_ok {A} (P : A -> Prop) (q : option (list A)) : Prop :=
  match q with Some q => Forall P q | None => True end.

Record channels_ok (m : ChannelManager) : Prop := mkChannelsOk {
  ok_tables : tables_ok (channelIdMap_ m) (channelInfoMap_ m) (socketChannelMap_ m)
    (socketStatusMap_ m) (nextIds_ m);
  ok_tasks : queue_ok (fun p => task_ok p.2) (eventHandler_ m);
  ok_messages : queue_ok (fun p => buffer_wf (msg_data p)) (msgEventHandler_ m);
  (** The function of the adapter's library is called only while the library is open. *)
  ok_library : SetFileSchema m = true -> dllHandle_ m = true;
  (** The four threads run together. *)
  ok_threads : has (callbackEventHandler_ m) = has (eventHandler_ m) /\
    has (msgEventHandler_ m) = has (eventHandler_ m) /\
    has (callbackEventHandlerNew_ m) = has (eventHandler_ m)
}.

(** What the operations rely on of softbus, the library of the adapter and the runtime. *)
Class ChannelEnvOk (Ev : ChannelEnv) : Prop := {
  session_sizes t s : (GetSessionOption_ret t s).1 = ERR_OK ->
    HEADER_LEN < (GetSessionOption_ret t s).2 < DSCHED_MAX_BUFFER_SIZE;
  adapter_filled t : (GetSoftbusFile_ret t).2 = true -> (GetSoftbusFile_ret t).1 = 0;
  unordered_members l id : In id (unordered l) <-> In id l;
  junk_wf t : header_wf (junk t)
}.

(** ** The tables *)

Lemma map_count_find {K V} `{KeyOrder K} (l : std_map K V) k :
  map_count l k = true <-> exists v, map_find l k = Some v.
Proof.
  unfold map_count. destruct (map_find l k) as [v|]; split; try done; [by eexists|by intros (? & ?)].
Qed.

Lemma in_filter_ne (l : list Z) id x :
  In x (List.filter (fun i => negb (i =? id)) l) <-> In x l /\ x <> id.
Proof. rewrite List.filter_In, negb_true_iff, Z.eqb_neq. done. Qed.

Lemma NoDup_filter_ne (l : list Z) id : base.NoDup l -> base.NoDup (List.filter (fun i => negb (i =? id)) l).
Proof. rewrite !NoDup_ListNoDup. apply List.NoDup_filter. Qed.

Section Tables.
Context {names : std_map bytes (list Z)} {infos : std_map Z ChannelInfo} {sockets : std_map Z Z}.
Context {statuses : std_map Z ChannelStatus} {next : std_map ChannelDataType Z}.
Context (Hok : tables_ok names infos sockets statuses next).

Lemma held_update id i i' s x :
  map_find infos id = Some i ->
  (forall s, map_count (dataSenderReceivers i) s = true -> map_count (dataSenderReceivers i') s = true) ->
  held infos s x -> held (map_assign infos id i') s x.
Proof.
  intros Hi Hkeep (j & d & Hj & Hd). unfold held. rewrite map_find_assign, Z_key_eq.
  destruct (Z.eqb_spec id x) as [<-|_]; [|by exists j, d].
  assert (j = i) as -> by congruence.
  destruct (proj1 (map_count_find (dataSenderReceivers i') s)) as (d' & Hd').
  { apply Hkeep. rewrite map_count_find. by exists d. }
  by exists i', d'.
Qed.

(** An entry is replaced by one of the same id, type and name that keeps its senders. *)
Lemma tables_update id i i' :
  map_find infos id = Some i ->
  channelId i' = channelId i -> dataType i' = dataType i -> channelName i' = channelName i ->
  (forall s, In s (clientSockets i') -> map_count (dataSenderReceivers i') s = true) ->
  (forall s d, map_find (dataSenderReceivers i') s = Some d -> sender_ok d) ->
  (forall s, map_count (dataSenderReceivers i) s = true -> map_count (dataSenderReceivers i') s = true) ->
  tables_ok names (map_assign infos id i') sockets statuses next.
Proof.
  intros Hi Eid Ety Ename Hs Hwf Hkeep. pose proof (infos_ok Hok _ _ Hi) as Hci.
  split; [|apply Hok| |intros s x Hx; eapply held_update; [done..|by apply Hok]|apply Hok|apply Hok].
  - intros x j. rewrite map_find_assign, Z_key_eq. destruct (Z.eqb_spec id x) as [<-|_].
    + intros [= <-]. destruct Hci. split; rewrite ?Eid, ?Ety, ?Ename; auto.
    + apply Hok.
  - intros name l x Hl Hx. destruct (names_ok Hok _ _ _ Hl Hx) as (j & Hj & Hn).
    rewrite map_find_assign, Z_key_eq. destruct (Z.eqb_spec id x) as [<-|_]; [|by exists j].
    exists i'. split; [done|]. congruence.
Qed.

(** A socket whose sender is in place is recorded. *)
Lemma tables_socket s id st :
  held infos s id ->
  tables_ok names infos (map_assign sockets s id) (map_assign statuses s st) next.
Proof.
  intros Hs. split; [apply Hok..| | |apply Hok].
  - intros s' x. rewrite map_find_assign, Z_key_eq. destruct (Z.eqb_spec s s') as [<-|_].
    + by intros [= <-].
    + apply Hok.
  - intros s'. unfold map_count. rewrite !map_find_assign, Z_key_eq. destruct (s =? s'); [done|].
    apply (statuses_ok Hok).
Qed.

Lemma tables_socket_emplace s id st :
  held infos s id ->
  tables_ok names infos (map_emplace sockets s id) (map_emplace statuses s st) next.
Proof.
  intros Hs. unfold map_emplace. rewrite (statuses_ok Hok). destruct (map_count sockets s); [done|].
  by apply tables_socket.
Qed.

Lemma tables_status s st :
  map_count statuses s = true -> tables_ok names infos sockets (map_assign statuses s st) next.
Proof.
  intros Hs. split; try apply Hok. intros x. rewrite <- (statuses_ok Hok). unfold map_count.
  rewrite map_find_assign, Z_key_eq. by destruct (Z.eqb_spec s x) as [<-|_].
Qed.
End Tables.

(** A channel that has its id but is not in the tables yet. *)
Record fresh_channel (infos : std_map Z ChannelInfo) (next : std_map ChannelDataType Z)
    (i : ChannelInfo) : Prop := mkFresh {
  fresh_id : map_find infos (channelId i) = None;
  fresh_given : exists n, map_find next (dataType i) = Some n /\
    CHANNEL_ID_GAP * (type_index (dataType i) + 1) < channelId i < n;
  fresh_senders s : In s (clientSockets i) -> map_count (dataSenderReceivers i) s = true;
  fresh_wf s d : map_find (dataSenderReceivers i) s = Some d -> sender_ok d
}.

Arguments fresh_id {_ _ _}.
Arguments fresh_given {_ _ _}.
Arguments fresh_senders {_ _ _}.
Arguments fresh_wf {_ _ _}.

Lemma type_index_range ty : 0 <= type_index ty <= 3.
Proof. destruct ty; cbn; lia. Qed.

Lemma type_index_inj ty ty' : type_index ty = type_index ty' -> ty = ty'.
Proof. by destruct ty, ty'. Qed.

Section MoreTables.
Context {names : std_map bytes (list Z)} {infos : std_map Z ChannelInfo} {sockets : std_map Z Z}.
Context {statuses : std_map Z ChannelStatus} {next : std_map ChannelDataType Z}.
Context (Hok : tables_ok names infos sockets statuses next).

Lemma find_next ty ty' n : map_find (map_assign next ty n) ty' = if decide (ty = ty') then Some n else map_find next ty'.
Proof.
  rewrite map_find_assign. destruct (decide (ty = ty')) as [<-|Hne]; [by rewrite key_eq_refl|].
  destruct (key_eq ty ty') eqn:E; [|done]. by apply type_key_eq in E.
Qed.

(** The id a counter gives is new. *)
Lemma tables_generate ty n :
  map_find next ty = Some n -> n < CHANNEL_ID_GAP * (type_index ty + 2) ->
  tables_ok names infos sockets statuses (map_assign next ty (n + 1)) /\ map_find infos n = None.
Proof.
  intros Hn Hlt. split.
  - split; try apply Hok.
    + intros id i Hi. pose proof (infos_ok Hok _ _ Hi) as [H1 (n' & Hn' & H2) H3 H4 H5].
      split; [done| |done..]. rewrite find_next. destruct (decide (ty = dataType i)) as [->|]; [|by exists n'].
      exists (n + 1). split; [done|]. assert (n' = n) by congruence. lia.
    + intros ty'. rewrite find_next. destruct (next_ok Hok ty') as (n' & Hn' & H2).
      destruct (decide (ty = ty')) as [<-|]; [|by exists n']. exists (n + 1). split; [done|].
      assert (n' = n) by congruence. lia.
  - destruct (map_find infos n) as [i|] eqn:Hi; [|done]. exfalso.
    destruct (id_given (infos_ok Hok _ _ Hi)) as (n' & Hn' & H2).
    destruct (next_ok Hok (dataType i)) as (n2 & Hn2 & H3).
    destruct (next_ok Hok ty) as (n3 & Hn3 & H4).
    assert (n' = n2) as -> by congruence. assert (n3 = n) as -> by congruence.
    unfold CHANNEL_ID_GAP in *.
    assert (type_index ty = type_index (dataType i)) as E%type_index_inj by lia. subst ty.
    assert (n2 = n) by congruence. lia.
Qed.

Lemma find_name name name' (l : list Z) :
  map_find (map_assign names name l) name' = if decide (name = name') then Some l else map_find names name'.
Proof.
  rewrite map_find_assign. destruct (decide (name = name')) as [<-|Hne].
  - by rewrite (proj2 (name_key_eq name name)).
  - destruct (key_eq name name') eqn:E; [|done]. by apply name_key_eq in E.
Qed.

Lemma tables_enter i :
  fresh_channel infos next i ->
  let l := match map_find names (channelName i) with Some l => l | None => [] end in
  tables_ok (map_assign names (channelName i) (l ++ [channelId i]))
    (map_emplace infos (channelId i) i) sockets statuses next.
Proof.
  intros Hf l. pose proof (fresh_id Hf) as Hnone.
  assert (forall x, map_find (map_emplace infos (channelId i) i) x =
    if channelId i =? x then Some i else map_find infos x) as Hfind.
  { intros x. rewrite map_find_emplace, Z_key_eq. unfold map_count. by rewrite Hnone. }
  assert (forall x, In x l -> exists j, map_find infos x = Some j /\ channelName j = channelName i) as Hl.
  { unfold l. intros x Hx. destruct (map_find names (channelName i)) as [l'|] eqn:E; [|done].
    by apply (names_ok Hok _ _ _ E Hx). }
  assert (~ In (channelId i) l) as Hnew by (intros (j & Hj & _)%Hl; congruence).
  split; [| | | |apply Hok..].
  - intros x j. rewrite Hfind. destruct (Z.eqb_spec (channelId i) x) as [<-|Hne].
    + intros [= <-]. destruct Hf as [_ Hg Hs Hw]. split; [done|done| |done|done].
      rewrite find_name. rewrite decide_True by done. eexists. split; [done|].
      rewrite in_app_iff. right. by left.
    + intros Hj. destruct (infos_ok Hok _ _ Hj) as [H1 H2 (l' & H3 & H3') H4 H5].
      split; [done..| |done|done]. rewrite find_name.
      destruct (decide (channelName i = channelName j)) as [E|]; [|by exists l'].
      eexists. split; [done|]. rewrite in_app_iff. left. unfold l. by rewrite E, H3.
  - intros name l'. rewrite find_name. destruct (decide (channelName i = name)) as [<-|]; [|apply Hok].
    intros [= <-]. apply list.NoDup_app. split_and!; [| |apply NoDup_singleton].
    + unfold l. destruct (map_find names (channelName i)) eqn:E; [by eapply Hok|constructor].
    + intros x Hx Hx2. apply list_elem_of_singleton in Hx2 as ->. by apply list_elem_of_In in Hx.
  - intros name l' x. rewrite find_name, Hfind.
    assert (forall x, In x l' -> map_find names name = Some l' ->
      exists j, (if channelId i =? x then Some i else map_find infos x) = Some j /\ channelName j = name) as Hold.
    { intros y Hy Hl'. destruct (names_ok Hok _ _ _ Hl' Hy) as (j & Hj & Hn).
      destruct (Z.eqb_spec (channelId i) y) as [<-|]; [congruence|by exists j]. }
    destruct (decide (channelName i = name)) as [<-|]; [|by eauto].
    intros [= <-] [Hx|[<-|[]]]%in_app_iff; [|rewrite Z.eqb_refl; by exists i].
    destruct (Hl x Hx) as (j & Hj & Hn). destruct (Z.eqb_spec (channelId i) x) as [<-|]; [congruence|by exists j].
  - intros s x Hs. destruct (sockets_held Hok _ _ Hs) as (j & d & Hj & Hd).
    exists j, d. rewrite Hfind. destruct (Z.eqb_spec (channelId i) x) as [<-|]; [congruence|done].
Qed.

(** [erase_all l m]: the entries of the keys in [l] are gone. *)
Definition erase_all {V} (l : list Z) (m : std_map Z V) : std_map Z V := fold_left map_erase l m.

Lemma map_find_erase_all {V} l (m : std_map Z V) k :
  map_find (erase_all l m) k = if existsb (Z.eqb k) l then None else map_find m k.
Proof.
  revert m. induction l as [|x l IH]; intros m; cbn; [done|]. unfold erase_all in IH. rewrite IH.
  rewrite map_find_erase, Z_key_eq, Z.eqb_sym. by destruct (k =? x), (existsb _ l).
Qed.

Lemma map_count_erase_all {V} l (m : std_map Z V) k :
  map_count (erase_all l m) k = negb (existsb (Z.eqb k) l) && map_count m k.
Proof. unfold map_count. rewrite map_find_erase_all. by destruct (existsb _ l). Qed.

(** The sockets that carry a channel. *)
Definition sockets_of (id : Z) (sockets : std_map Z Z) : list Z :=
  map fst (List.filter (fun e => e.2 =? id) sockets).

Lemma find_sockets_of s id : map_find sockets s = Some id -> existsb (Z.eqb s) (sockets_of id sockets) = true.
Proof.
  intros Hs. apply existsb_exists. exists s. split; [|apply Z.eqb_refl].
  unfold map_find in Hs. destruct (List.find _ _) as [[s' x]|] eqn:E; [|done]. injection Hs as <-.
  apply List.find_some in E as (Hin & E). rewrite Z_key_eq in E. apply Z.eqb_eq in E as <-.
  apply in_map_iff. eexists. split; [reflexivity|]. apply List.filter_In. split; [done|apply Z.eqb_refl].
Qed.

(** The list of a name without an id. *)
Definition unlist (id : Z) (name : bytes) (names : std_map bytes (list Z)) : std_map bytes (list Z) :=
  match map_find names name with
  | Some ids => map_assign names name (List.filter (fun i => negb (i =? id)) ids)
  | None => names
  end.

Definition name_of (id : Z) (infos : std_map Z ChannelInfo) : bytes :=
  match map_find infos id with Some i => channelName i | None => [] end.

Lemma find_unlist id name name' :
  map_find (unlist id name names) name' =
  if decide (name = name') then List.filter (fun i => negb (i =? id)) <$> map_find names name'
  else map_find names name'.
Proof.
  unfold unlist. destruct (decide (name = name')) as [<-|Hne].
  - destruct (map_find names name) eqn:E; cbn; [|done]. rewrite find_name. by rewrite decide_True.
  - destruct (map_find names name); [|done]. rewrite find_name. by rewrite decide_False.
Qed.

Lemma tables_delete id :
  tables_ok (unlist id (name_of id infos) names) (map_erase infos id)
    (erase_all (sockets_of id sockets) sockets) (erase_all (sockets_of id sockets) statuses) next.
Proof.
  set (name := name_of id infos).
  assert (forall n l l', map_find names n = Some l -> map_find (unlist id name names) n = Some l' ->
    (forall x, In x l' -> In x l) /\ (base.NoDup l') /\ (forall x, In x l -> x <> id -> In x l')) as Hsub.
  { intros n l l' Hl. rewrite find_unlist, Hl. pose proof (names_unique Hok _ _ Hl).
    destruct (decide (name = n)); cbn; intros [= <-].
    - split_and!; [intros x; by rewrite in_filter_ne; intros (?&?)|by apply NoDup_filter_ne|].
      intros x. by rewrite in_filter_ne.
    - split_and!; auto. }
  assert (forall n l', map_find (unlist id name names) n = Some l' -> exists l, map_find names n = Some l) as Hfrom.
  { intros n l'. rewrite find_unlist. destruct (decide (name = n)); [|by eauto].
    destruct (map_find names n); [by eauto|done]. }
  split.
  - intros x i. rewrite map_find_erase, Z_key_eq. destruct (Z.eqb_spec id x) as [|Hne]; [done|]. intros Hi.
    destruct (infos_ok Hok _ _ Hi) as [H1 H2 (l & H3 & H3') H4 H5]. split; [done..| |done|done].
    destruct (map_find (unlist id name names) (channelName i)) as [l'|] eqn:E.
    + exists l'. split; [done|]. destruct (Hsub _ _ _ H3 E) as (_ & _ & H6). auto.
    + rewrite find_unlist, H3 in E. by destruct (decide _).
  - intros n l' Hl'. destruct (Hfrom _ _ Hl') as (l & Hl). by apply (Hsub _ _ _ Hl Hl').
  - intros n l' x Hl' Hx. destruct (Hfrom _ _ Hl') as (l & Hl). destruct (Hsub _ _ _ Hl Hl') as (H1 & _ & _).
    destruct (names_ok Hok _ _ _ Hl (H1 _ Hx)) as (i & Hi & Hn). exists i. split; [|done].
    rewrite map_find_erase, Z_key_eq. destruct (Z.eqb_spec id x) as [<-|]; [|done]. exfalso.
    rewrite find_unlist in Hl'. unfold name, name_of in Hl'. rewrite Hi, Hn, decide_True, Hl in Hl' by done.
    cbn in Hl'. injection Hl' as <-. by apply in_filter_ne in Hx as (_ & ?).
  - intros s x. rewrite map_find_erase_all. destruct (existsb _ _) eqn:E; [done|]. intros Hs.
    destruct (sockets_held Hok _ _ Hs) as (i & d & Hi & Hd). exists i, d. split; [|done].
    rewrite map_find_erase, Z_key_eq. destruct (Z.eqb_spec id x) as [<-|]; [|done].
    by rewrite (find_sockets_of _ _ Hs) in E.
  - intros s. rewrite !map_count_erase_all. by rewrite (statuses_ok Hok).
  - apply Hok.
Qed.
End MoreTables.

(** ** The operations *)

Create HintDb channels discriminated.

Section Operations.
Context {J : CJson} {SJ : StreamJson J} {Ev : ChannelEnv} {EvOk : ChannelEnvOk Ev}.
Implicit Types (m : ChannelManager) (t : list Effect) (id s : Z).

(** The operation returns and keeps the invariant. *)
Definition keeps {A} (c : Ch A) : Prop :=
  forall m t, channels_ok m -> wp c (fun _ m' _ => channels_ok m') m t.

Lemma keeps_mret {A} (a : A) : keeps (mret a).
Proof. intros m t Hok. by apply wp_mret. Qed.

Lemma keeps_mbind {A B} (c : Ch A) (k : A -> Ch B) : keeps c -> (forall a, keeps (k a)) -> keeps (mbind c k).
Proof.
  intros Hc Hk m t Hok. apply wp_mbind. eapply wp_mono; [by apply Hc|]. cbn. intros. by apply Hk.
Qed.

Lemma keeps_get {A} (k : ChannelManager -> Ch A) :
  (forall m t, channels_ok m -> wp (k m) (fun _ m' _ => channels_ok m') m t) -> keeps (mbind get k).
Proof. intros Hk m t Hok. apply wp_mbind, wp_get. by apply Hk. Qed.

Lemma keeps_mfor {A} (l : list A) (f : A -> Ch unit) : (forall a, keeps (f a)) -> keeps (mfor l f).
Proof. intros Hf m t Hok. apply (wp_mfor (fun m _ => channels_ok m)); [done|]. intros. by apply Hf. Qed.

Lemma keeps_modify f : (forall m, channels_ok m -> channels_ok (f m)) -> keeps (modify f).
Proof. intros Hf m t Hok. apply wp_modify. by apply Hf. Qed.


(** Follow the code; a call that has a lemma is replaced by what the lemma says. *)
Ltac by_keeps :=
  match goal with
  | Hok : channels_ok ?m |- wp ?c _ ?m ?t =>
    eapply wp_mono; [solve [apply (fun H : keeps c => H m t Hok); eauto 2 with channels]|];
    cbn beta; let a := fresh "a" in let m' := fresh "m" in let t' := fresh "t" in let H := fresh "Hok" in
    intros a m' t' H
  end.

Ltac keep :=
  wp_with ltac:(first
    [ done
    | progress cbv beta
    | match goal with |- wp (ask _) _ _ _ => apply wp_call end
    | by_keeps ]).

(** ** Tasks and listeners *)

Lemma ok_set_callback m q :
  channels_ok m -> has (callbackEventHandler_ m) = true -> channels_ok (set_callbackEventHandler (Some q) m).
Proof. intros [H1 H2 H3 H4 H5] Hq. split; try done. cbn. rewrite <- Hq. tauto. Qed.

Lemma ok_set_callback_new m q :
  channels_ok m -> has (callbackEventHandlerNew_ m) = true -> channels_ok (set_callbackEventHandlerNew (Some q) m).
Proof. intros [H1 H2 H3 H4 H5] Hq. split; try done. cbn. rewrite <- Hq. tauto. Qed.

Lemma ok_set_messages m q :
  channels_ok m -> has (msgEventHandler_ m) = true -> Forall (fun p => buffer_wf (msg_data p)) q ->
  channels_ok (set_msgEventHandler (Some q) m).
Proof. intros [H1 H2 H3 H4 H5] Hq ?. split; try done. cbn. rewrite <- Hq. tauto. Qed.

Lemma ok_set_tasks m q :
  channels_ok m -> has (eventHandler_ m) = true -> Forall (fun p => task_ok p.2) q ->
  channels_ok (set_eventHandler (Some q) m).
Proof. intros [H1 H2 H3 H4 H5] Hq ?. split; try done. cbn. rewrite <- Hq. tauto. Qed.

Lemma PostTask_keeps task name : task_ok task -> keeps (PostTask task name).
Proof.
  intros Ht m t Hok. unfold PostTask. keep. apply ok_set_tasks; [done|by rewrite Heqo|].
  apply Forall_app_2; [|by apply list.Forall_singleton]. pose proof (ok_tasks _ Hok) as Hq. by rewrite Heqo in Hq.
Qed.

Lemma PostMsgTask_keeps task : buffer_wf (msg_data task) -> keeps (PostMsgTask task).
Proof.
  intros Ht m t Hok. unfold PostMsgTask. keep. apply ok_set_messages; [done|by rewrite Heqo|].
  apply Forall_app_2; [|by apply list.Forall_singleton]. pose proof (ok_messages _ Hok) as Hq. by rewrite Heqo in Hq.
Qed.

Lemma PostCallbackTask_keeps task p : keeps (PostCallbackTask task p).
Proof. intros m t Hok. unfold PostCallbackTask. keep. apply ok_set_callback; [done|by rewrite Heqo]. Qed.

Lemma PostCallbackTaskNew_keeps listener c : keeps (PostCallbackTaskNew listener c).
Proof. intros m t Hok. unfold PostCallbackTaskNew. keep. apply ok_set_callback_new; [done|by rewrite Heqo]. Qed.
Hint Resolve PostTask_keeps PostMsgTask_keeps PostCallbackTask_keeps PostCallbackTaskNew_keeps : channels.

Lemma NotifyListeners_keeps id p c : keeps (NotifyListeners id p c).
Proof.
  intros m t Hok. unfold NotifyListeners, listeners_of. keep. apply keeps_mfor; [|done].
  clear dependent m. intros listener m t' Hok. keep.
Qed.

Lemma NotifyListenersNew_keeps id c : keeps (NotifyListenersNew id c).
Proof.
  intros m t Hok. unfold NotifyListenersNew, listeners_of. keep. apply keeps_mfor; [|done].
  clear dependent m. intros listener m t' Hok. keep.
Qed.
Hint Resolve NotifyListeners_keeps NotifyListenersNew_keeps : channels.

Lemma DoErrorCallback_keeps id code : keeps (DoErrorCallback id code).
Proof. apply NotifyListeners_keeps. Qed.
Hint Resolve DoErrorCallback_keeps : channels.

Lemma ok_set_listeners m l : channels_ok m -> channels_ok (set_listenersMap l m).
Proof. intros [H1 H2 H3 H4 H5]. by split. Qed.

(** The search asks and changes nothing. *)
Lemma CleanInvalidListener_run l m t :
  exists l' t', CleanInvalidListener l m t = Done (l', m, t').
Proof.
  revert t. induction l as [|x l IH]; intros t; cbn; [by eexists _, _|].
  unfold mbind, ask, call. cbn. destruct (IH (t ++ [Query])) as (l' & t' & ->). cbn. by eexists _, _.
Qed.

Lemma RegisterChannelListener_keeps id listener : keeps (RegisterChannelListener id listener).
Proof.
  intros m t Hok. unfold RegisterChannelListener. keep; [|by apply ok_set_listeners].
  destruct (CleanInvalidListener_run l m t) as (l' & t' & Hrun). exists l', m, t'. split; [done|].
  keep. by apply ok_set_listeners.
Qed.

(** ** Creating a channel *)

Definition ids_left (m : ChannelManager) (i : ChannelInfo) : Prop :=
  fresh_channel (channelInfoMap_ m) (nextIds_ m) i.

Lemma ok_enter m i : channels_ok m -> ids_left m i -> channels_ok (enter_channel i m).
Proof. intros [H1 H2 H3 H4 H5] Hi. split; try done. by apply (tables_enter H1). Qed.

Lemma ok_set_file_channel m id : channels_ok m -> channels_ok (set_fileChannelId id m).
Proof. intros [H1 H2 H3 H4 H5]. by split. Qed.

Lemma CreateBaseChannel_spec name ty peer m t :
  channels_ok m ->
  wp (CreateBaseChannel name ty peer) (fun r m' _ => channels_ok m' /\
    socketChannelMap_ m' = socketChannelMap_ m /\
    match r with
    | Some i => ids_left m' i /\ clientSockets i = [] /\ dataSenderReceivers i = []
    | None => True
    end) m t.
Proof.
  intros Hok. pose proof (ok_tables _ Hok) as Htab. destruct (next_ok Htab ty) as (n & Hn & Hrange).
  unfold CreateBaseChannel, GenerateNextId. apply wp_mbind, wp_mbind, wp_get. rewrite Hn. cbv zeta. keep.
  guards_to_prop. assert (n < CHANNEL_ID_GAP * (type_index ty + 2)) as Hlt by (unfold CHANNEL_ID_GAP in *; lia).
  destruct (tables_generate Htab ty n Hn Hlt) as (Htab' & Hnone).
  split; [by destruct Hok; split|]. split; [done|]. destruct (isValidChannelId n); [|done]. split; [|done].
  split; cbn; [done| |done|done]. exists (n + 1). split; [|lia].
  rewrite find_next. by rewrite decide_True.
Qed.

Lemma CreateServerChannel_keeps name ty peer : keeps (CreateServerChannel name ty peer).
Proof.
  intros m t Hok. unfold CreateServerChannel. apply wp_mbind.
  eapply wp_mono; [by apply CreateBaseChannel_spec|]. cbn. intros [i|] m' t' (Hok' & _ & H); keep.
  apply ok_set_file_channel, ok_enter; [done|apply H].
Qed.

Lemma register_client_socket_keeps i ty m t :
  channels_ok m -> ids_left m i -> clientSockets i = [] -> dataSenderReceivers i = [] ->
  wp (register_client_socket i ty) (fun _ m' _ => channels_ok m') m t.
Proof.
  intros Hok Hi Hs Hd. unfold register_client_socket, CreateClientSocket. keep.
  set (s := Socket_ret _). set (i' := set_dataSenderReceivers _ _).
  assert (forall x, map_find (map_assign (dataSenderReceivers i) s new_socket_data) x =
    if s =? x then Some new_socket_data else None) as Hfind.
  { intros x. rewrite map_find_assign, Z_key_eq, Hd. done. }
  assert (ids_left m i') as Hi'.
  { destruct Hi as [H1 H2 H3 H4]. split; [done..| |].
    - intros x. unfold i', map_count. cbn -[map_find map_assign]. rewrite Hs, Hfind. intros [<-|[]].
      by rewrite Z.eqb_refl.
    - intros x d. unfold i'. cbn -[map_find map_assign]. rewrite Hfind. destruct (s =? x); [|done].
      intros [= <-]. by split; [left|]. }
  destruct (ok_enter _ _ Hok Hi') as [H1 H2 H3 H4 H5]. split; try done.
  apply (tables_socket_emplace H1). exists i', new_socket_data. split.
  - cbn -[map_find map_emplace]. rewrite map_find_emplace, Z_key_eq. unfold map_count. rewrite (fresh_id Hi).
    by rewrite Z.eqb_refl.
  - unfold i'. cbn -[map_find map_assign]. by rewrite Hfind, Z.eqb_refl.
Qed.

Lemma CreateClientChannel_keeps name ty peer : keeps (CreateClientChannel name ty peer).
Proof.
  intros m t Hok. unfold CreateClientChannel. apply wp_mbind.
  eapply wp_mono; [by apply CreateBaseChannel_spec|]. cbn. intros [i|] m' t' (Hok' & _ & H); keep.
  destruct H as (H1 & H2 & H3). eapply wp_mono; [by apply register_client_socket_keeps|].
  intros. by apply wp_mret.
Qed.

(** ** Deleting a channel *)

Lemma mfor_modify {A} (f : A -> ChannelManager -> ChannelManager) l m t :
  mfor (E := Effect) l (fun a => modify (f a)) m t = Done (tt, fold_left (fun m a => f a m) l m, t).
Proof. revert m. induction l as [|a l IH]; intros m; cbn; [done|]. apply IH. Qed.

Lemma mfor_emit {A} (e : A -> Effect) l m t :
  mfor (S := ChannelManager) l (fun a => emit (e a)) m t = Done (tt, m, t ++ map e l).
Proof.
  revert t. induction l as [|a l IH]; intros t; cbn; [by rewrite app_nil_r|].
  unfold mbind. cbn. rewrite IH. by rewrite <- app_assoc.
Qed.

Definition senders_of (id : Z) (infos : std_map Z ChannelInfo) : std_map Z SocketData :=
  match map_find infos id with Some i => dataSenderReceivers i | None => [] end.

Definition tasks_left (id : Z) (q : option (list (bytes * SendTask))) : option (list (bytes * SendTask)) :=
  match q with
  | Some q => Some (List.filter (fun p => negb (bytes_eqb p.1 (to_string id))) q)
  | None => None
  end.

Definition erase_sockets (l : list Z) (m : ChannelManager) : ChannelManager :=
  set_socketStatusMap (erase_all l (socketStatusMap_ m)) (set_socketChannelMap (erase_all l (socketChannelMap_ m)) m).

(** The manager without a channel. *)
Definition deleted (id : Z) (m : ChannelManager) : ChannelManager :=
  erase_sockets (sockets_of id (socketChannelMap_ m))
    (set_channelIdMap (unlist id (name_of id (channelInfoMap_ m)) (channelIdMap_ m))
    (set_channelInfoMap (map_erase (channelInfoMap_ m) id)
    (set_eventHandler (tasks_left id (eventHandler_ m))
    (set_listenersMap (map_erase (listenersMap_ m) id) m)))).

Definition shutdowns (id : Z) (m : ChannelManager) : list Effect :=
  map (fun e => ShutdownCalled e.1) (senders_of id (channelInfoMap_ m)) ++
  map ShutdownCalled (sockets_of id (socketChannelMap_ m)).

Lemma erase_sockets_fold l m :
  fold_left (fun m s => set_socketStatusMap (map_erase (socketStatusMap_ m) s)
    (set_socketChannelMap (map_erase (socketChannelMap_ m) s) m)) l m = erase_sockets l m.
Proof.
  revert m. induction l as [|s l IH]; intros m; cbn [fold_left]; [by destruct m|]. rewrite IH. by destruct m.
Qed.

Lemma unlist_eta id name m :
  match map_find (channelIdMap_ m) name with
  | Some ids => set_channelIdMap (map_assign (channelIdMap_ m) name (List.filter (fun i => negb (i =? id)) ids)) m
  | None => m
  end = set_channelIdMap (unlist id name (channelIdMap_ m)) m.
Proof. unfold unlist. destruct (map_find _ name); [done|]. by destruct m. Qed.

Lemma DeleteChannel_run id m t :
  isValidChannelId id = true -> DeleteChannel id m t = Done (id, deleted id m, t ++ shutdowns id m).
Proof.
  intros Hid. unfold DeleteChannel. rewrite Hid. cbn [negb].
  unfold ClearRegisterListener, ClearSendTask, ClearRegisterChannel, ClearRegisterSocket, destroy_senders, shutdown.
  unfold mbind, modify, get. cbn [run_bind channelInfoMap_ set_listenersMap set_eventHandler].
  rewrite (mfor_emit (fun e : Z * SocketData => ShutdownCalled e.1)). cbn [run_bind].
  rewrite unlist_eta.
  set (m1 := set_channelIdMap _ _).
  pose proof (mfor_modify (fun s m => set_socketStatusMap (map_erase (socketStatusMap_ m) s)
    (set_socketChannelMap (map_erase (socketChannelMap_ m) s) m))) as Hfor.
  unfold modify in Hfor. rewrite Hfor. cbn [run_bind]. rewrite erase_sockets_fold.
  rewrite (mfor_emit ShutdownCalled). cbn [run_bind]. unfold mret. rewrite <- app_assoc. done.
Qed.

Lemma ok_deleted id m : channels_ok m -> channels_ok (deleted id m).
Proof.
  intros [H1 H2 H3 H4 H5]. split; [apply (tables_delete H1)| |done|done|].
  - cbn. destruct (eventHandler_ m) as [q|]; [|done]. cbn in *. apply List.Forall_forall.
    intros p (Hp & _)%List.filter_In. by eapply List.Forall_forall in H2.
  - cbn. by destruct (eventHandler_ m).
Qed.

Lemma DeleteChannel_keeps id : keeps (DeleteChannel id).
Proof.
  intros m t Hok. destruct (isValidChannelId id) eqn:Hid.
  - eexists _, _, _. split; [by apply DeleteChannel_run|]. by apply ok_deleted.
  - unfold DeleteChannel. rewrite Hid. by apply wp_mret.
Qed.
Hint Resolve DeleteChannel_keeps : channels.

(** ** Status and connecting *)

Lemma ok_update m id i i' :
  channels_ok m -> map_find (channelInfoMap_ m) id = Some i ->
  channelId i' = channelId i -> dataType i' = dataType i -> channelName i' = channelName i ->
  (forall s, In s (clientSockets i') -> map_count (dataSenderReceivers i') s = true) ->
  (forall s d, map_find (dataSenderReceivers i') s = Some d -> sender_ok d) ->
  (forall s, map_count (dataSenderReceivers i) s = true -> map_count (dataSenderReceivers i') s = true) ->
  channels_ok (set_channelInfoMap (map_assign (channelInfoMap_ m) id i') m).
Proof. intros [H1 H2 H3 H4 H5] Hi **. split; try done. by eapply (tables_update H1). Qed.

Lemma ok_info m id i : channels_ok m -> map_find (channelInfoMap_ m) id = Some i ->
  channel_ok (channelIdMap_ m) (nextIds_ m) id i.
Proof. intros Hok. apply (infos_ok (ok_tables _ Hok)). Qed.

Lemma SetChannelStatus_keeps id st : keeps (SetChannelStatus id st).
Proof.
  intros m t Hok. unfold SetChannelStatus. keep. pose proof (ok_info _ _ _ Hok Heqo) as Hi.
  eapply ok_update; [done..| | |done]; by apply Hi.
Qed.
Hint Resolve SetChannelStatus_keeps : channels.

Lemma UpdateChannelStatus_keeps id : keeps (UpdateChannelStatus id).
Proof. intros m t Hok. unfold UpdateChannelStatus. keep. Qed.

Lemma ok_status m s st :
  channels_ok m -> map_count (socketStatusMap_ m) s = true ->
  channels_ok (set_socketStatusMap (map_assign (socketStatusMap_ m) s st) m).
Proof. intros [H1 H2 H3 H4 H5] Hs. split; try done. by apply (tables_status H1). Qed.

Lemma SetSocketStatus_keeps s st : keeps (SetSocketStatus s st).
Proof.
  intros m t Hok. unfold SetSocketStatus. apply wp_mbind, wp_get.
  destruct (map_find (socketStatusMap_ m) s) eqn:E; [|by apply wp_mret].
  apply wp_mbind, wp_modify. assert (map_count (socketStatusMap_ m) s = true) as Hs by (unfold map_count; by rewrite E).
  pose proof (ok_status _ _ st Hok Hs) as Hok'. keep.
Qed.
Hint Resolve UpdateChannelStatus_keeps SetSocketStatus_keeps : channels.

Lemma bind_loop_keeps n s speed k : keeps (bind_loop n s speed k).
Proof.
  revert k. induction n as [|n IH]; intros k m t Hok; cbn [bind_loop]; [by apply wp_mret|].
  keep.
Qed.
Hint Resolve bind_loop_keeps : channels.

Lemma BindSocket_keeps s ty : keeps (BindSocket s ty).
Proof.
  intros m t Hok. unfold BindSocket, set_file_schema. keep.
  rewrite (ok_library _ Hok0) in *; [done|]. by guards_to_prop.
Qed.
Hint Resolve BindSocket_keeps : channels.

Lemma run_binds_keeps l ty : keeps (run_binds l ty).
Proof.
  induction l as [|s l IH]; intros m t Hok; cbn [run_binds]; [by apply wp_mret|]. keep.
Qed.
Hint Resolve run_binds_keeps : channels.

Lemma ConnectChannel_keeps id : keeps (ConnectChannel id).
Proof. intros m t Hok. unfold ConnectChannel, DoBindSockets. keep. Qed.

(** ** A socket of the peer *)

(** What follows the owner in the peer's name is not a single letter of a type. *)
Definition peer_name_ok (name : option bytes) : Prop :=
  forall n rest, name = Some n -> GetChannelNameFromSocket (c_str n) = Some rest ->
    GetChannelDataTypeFromName rest = None \/ 2 <= zlen rest.

Lemma OnSocketConnected_keeps s name : peer_name_ok name -> keeps (OnSocketConnected s name).
Proof.
  intros Hname m t Hok. unfold OnSocketConnected. keep. guards_to_prop.
  destruct (Hname _ _ eq_refl Heqo0); [congruence|lia].
Qed.

Lemma map_count_assign {V} (l : std_map Z V) s v x :
  map_count (map_assign l s v) x = (s =? x) || map_count l x.
Proof. unfold map_count. rewrite map_find_assign, Z_key_eq. by destruct (s =? x). Qed.

Lemma ok_new_sender m id i s d l :
  channels_ok m -> map_find (channelInfoMap_ m) id = Some i -> sender_ok d ->
  (forall x, In x l -> x = s \/ In x (clientSockets i)) ->
  channels_ok (set_channelInfoMap (map_assign (channelInfoMap_ m) id
    (set_dataSenderReceivers (map_assign (dataSenderReceivers i) s d) (set_clientSockets l i))) m).
Proof.
  intros Hok Hi Hd Hl. pose proof (ok_info _ _ _ Hok Hi) as Hci.
  eapply ok_update; try done; cbn -[map_find map_assign].
  - intros x Hx. rewrite map_count_assign. destruct (Hl x Hx) as [->|Hx']; [by rewrite Z.eqb_refl|].
    by rewrite (has_senders Hci _ Hx'), orb_true_r.
  - intros x d'. rewrite map_find_assign, Z_key_eq. destruct (s =? x); [by intros [= <-]|]. apply Hci.
  - intros x Hx. by rewrite map_count_assign, Hx, orb_true_r.
Qed.

Lemma ok_put_sender m id s d : channels_ok m -> sender_ok d -> channels_ok (put_sender id s d m).
Proof.
  intros Hok Hd. unfold put_sender. destruct (map_find (channelInfoMap_ m) id) as [i|] eqn:Hi; [|done].
  replace (set_dataSenderReceivers (map_assign (dataSenderReceivers i) s d) i) with
    (set_dataSenderReceivers (map_assign (dataSenderReceivers i) s d) (set_clientSockets (clientSockets i) i))
    by done.
  apply ok_new_sender; auto.
Qed.

Lemma RegisterSocket_keeps s id : keeps (RegisterSocket s id).
Proof.
  intros m t Hok. unfold RegisterSocket, set_file_schema, shutdown. apply wp_mbind, wp_get.
  destruct (map_find (channelInfoMap_ m) id) as [i|] eqn:Hi; [|by apply wp_mret]. cbv zeta.
  set (i' := set_dataSenderReceivers _ _). apply wp_mbind, wp_modify.
  assert (channels_ok (set_channelInfoMap (map_assign (channelInfoMap_ m) id i') m)) as Hok1.
  { apply ok_new_sender; [done..| |]; [by split; [left|]|]. intros x [Hx|[<-|[]]]%in_app_iff; auto. }
  set (m1 := set_channelInfoMap _ _) in *.
  assert (channels_ok (set_socketStatusMap (map_assign (socketStatusMap_ m1) s CONNECTED)
    (set_socketChannelMap (map_assign (socketChannelMap_ m1) s id) m1))) as Hok2.
  { destruct Hok1 as [H1 H2 H3 H4 H5]. split; try done. apply (tables_socket H1).
    exists i', new_socket_data. split; cbn -[map_find map_assign].
    - by rewrite map_find_assign, Z_key_eq, Z.eqb_refl.
    - by rewrite map_find_assign, Z_key_eq, Z.eqb_refl. }
  keep; by rewrite (ok_library _ Hok2) in * by (cbn; by guards_to_prop).
Qed.
Hint Resolve RegisterSocket_keeps : channels.

Lemma UpdateChannel_keeps s id : keeps (UpdateChannel s id).
Proof. intros m t Hok. unfold UpdateChannel, DoConnectCallback. keep. Qed.
Hint Resolve UpdateChannel_keeps : channels.

(** A callback of a socket runs for the channel that the socket carries. *)
Lemma with_channel_keeps s k :
  (forall id m t, channels_ok m -> map_find (socketChannelMap_ m) s = Some id ->
    wp (k id) (fun _ m' _ => channels_ok m') m t) ->
  keeps (with_channel s k).
Proof.
  intros Hk m t Hok. unfold with_channel. destruct (s <=? 0); [by apply wp_mret|].
  apply wp_mbind, wp_get. cbv zeta. unfold socket_channel.
  destruct (map_find (socketChannelMap_ m) s) as [id|] eqn:E.
  - destruct (negb _); [by apply wp_mret|by apply Hk].
  - by apply wp_mret.
Qed.

Lemma OnSocketError_keeps s code : keeps (OnSocketError s code).
Proof. apply with_channel_keeps. intros. by apply DoErrorCallback_keeps. Qed.
Hint Resolve OnSocketError_keeps : channels.

Lemma OnSocketClosed_keeps s reason : keeps (OnSocketClosed s reason).
Proof. apply with_channel_keeps. intros id m t Hok _. keep. Qed.

Lemma HandleClosed_keeps id reason : keeps (HandleClosed id reason).
Proof. intros m t Hok. unfold HandleClosed, DoDisConnectCallback. keep. Qed.
Hint Resolve HandleClosed_keeps : channels.

(** ** Sending *)

Definition sends_ok (send : Z -> SocketData -> Ch (Z * SocketData)) : Prop :=
  forall s d m t, sender_ok d -> wp (send s d) (fun r m' _ => m' = m /\ sender_ok r.2) m t.

Lemma DoSendData_keeps id send : sends_ok send -> keeps (DoSendData id send).
Proof.
  intros Hsend m t Hok. unfold DoSendData. apply wp_mbind, wp_get. cbv zeta.
  destruct (_ <=? 0); [by apply wp_mret|].
  destruct (map_find (channelInfoMap_ m) id) as [i|] eqn:Hi; [|keep].
  destruct (map_find (dataSenderReceivers i) _) as [d|] eqn:Hd; [|keep].
  apply wp_mbind. eapply wp_mono; [apply Hsend; by eapply (ok_info _ _ _ Hok Hi)|]. cbn.
  intros [ret d'] m' t' (-> & Hd'). apply wp_mbind, wp_modify.
  pose proof (ok_put_sender _ id (GetValidSocket id m) _ Hok Hd') as Hok'. keep.
Qed.

Lemma SendBytesData_ok data : buffer_wf data -> sends_ok (SendBytesData data).
Proof.
  intros Hdata s d m t Hd.
  destruct (SendBytesData_ends (fun sent => GetSessionOption_ret (t ++ map (BytesSent s) sent) s)
    (fun sent packet => SendBytes_ret (t ++ map (BytesSent s) sent) s packet) data) as ((ret & sent) & Hrun); [|done|].
  { intros sent. apply session_sizes. }
  unfold wp, SendBytesData. rewrite Hrun. cbn [run_bind]. by eexists _, _, _.
Qed.

Lemma SendStreamData_ok data b : StreamData data = Some b -> sends_ok (SendStreamData data).
Proof. intros Hb s d m t Hd. unfold SendStreamData. rewrite Hb. keep. Qed.

Lemma SendMessageData_ok data : buffer_wf data -> sends_ok (SendMessageData data).
Proof.
  intros Hdata s d m t (H1 & H2). unfold SendMessageData. cbv zeta. keep.
  split; [done|]. split; [done|]. apply Forall_app_2; [done|by apply list.Forall_singleton].
Qed.

Lemma SendFileData_ok sFiles dFiles : sends_ok (SendFileData sFiles dFiles).
Proof. intros s d m t Hd. unfold SendFileData. keep. Qed.

Definition given {A} (P : A -> Prop) (o : option A) : Prop := match o with Some a => P a | None => True end.

Definition stream_ok (data : AVTransStreamData) : Prop := exists b, StreamData data = Some b /\ buffer_wf b.

Lemma DoSendBytes_keeps id data : buffer_wf data -> keeps (DoSendBytes id data).
Proof. intros. by apply DoSendData_keeps, SendBytesData_ok. Qed.

Lemma DoSendStream_keeps id data : stream_ok data -> keeps (DoSendStream id data).
Proof. intros (b & Hb & _). by eapply DoSendData_keeps, SendStreamData_ok. Qed.

Lemma DoSendMessage_keeps id data : buffer_wf data -> keeps (DoSendMessage id data).
Proof. intros. by apply DoSendData_keeps, SendMessageData_ok. Qed.

Lemma DoSendFile_keeps id sFiles dFiles : keeps (DoSendFile id sFiles dFiles).
Proof. apply DoSendData_keeps, SendFileData_ok. Qed.
Hint Resolve DoSendBytes_keeps DoSendStream_keeps DoSendMessage_keeps DoSendFile_keeps : channels.

Lemma SendBytes_keeps id data : given buffer_wf data -> keeps (SendBytes id data).
Proof. intros Hd m t Hok. unfold SendBytes. destruct data; keep. Qed.

Lemma SendStream_keeps id data : given stream_ok data -> keeps (SendStream id data).
Proof. intros Hd m t Hok. unfold SendStream. destruct data; keep. Qed.

Lemma SendMessage_keeps id data : given buffer_wf data -> keeps (SendMessage id data).
Proof. intros Hd m t Hok. unfold SendMessage. destruct data; keep. Qed.

Lemma SendMessageSync_keeps id data : given buffer_wf data -> keeps (SendMessageSync id data).
Proof. intros Hd m t Hok. unfold SendMessageSync. destruct data; keep. Qed.

Lemma SendFile_keeps id sFiles dFiles : keeps (SendFile id sFiles dFiles).
Proof. intros m t Hok. unfold SendFile. keep. by apply PostTask_keeps. Qed.

(** ** Receiving *)

Lemma GetPacketedData_wf st b st' : receiver_wf st -> GetPacketedData st = (b, st') -> receiver_wf st'.
Proof. intros Hst Hget. eapply receiver_step_wf; [apply (junk_wf [])|exact Hst|by apply step_take with b]. Qed.

Lemma ProcessRecvData_keeps id s data m t :
  Forall is_u8 data -> channels_ok m -> map_find (socketChannelMap_ m) s = Some id ->
  wp (ProcessRecvData id s data) (fun _ m' _ => channels_ok m') m t.
Proof.
  intros Hdata Hok Hs. destruct (sockets_held (ok_tables _ Hok) _ _ Hs) as (i & d & Hi & Hd).
  unfold ProcessRecvData. apply wp_mbind, wp_get. rewrite Hi, Hd. apply wp_mbind, wp_trace.
  destruct (senders_wf (ok_info _ _ _ Hok Hi) _ _ Hd) as (Hwf & Htasks).
  destruct (PackRecv_step (junk t) (receiver_ d) data (junk_wf t) Hdata Hwf) as (l & (ret & st & Hrun & Hst & _) & _).
  apply wp_mbind. eapply wp_from_run; [exact Hrun|]. cbv beta iota. destruct (negb (ret =? ERR_OK)).
  - apply wp_mbind, wp_modify.
    assert (channels_ok (put_sender id s (mkSocketData st (dsr_eventHandler_ d) (dsr_tasks d)) m)) as Hok'
      by (by apply ok_put_sender).
    keep.
  - destruct (GetPacketedData st) as [packed st'] eqn:E. apply wp_mbind, wp_modify, wp_mret.
    apply ok_put_sender; [done|]. split; [by eapply GetPacketedData_wf|done].
Qed.

Lemma with_data_keeps {A} id (data : option A) k m t :
  channels_ok m -> (forall a, data = Some a -> wp (k a) (fun _ m' _ => channels_ok m') m t) ->
  wp (with_data id data k) (fun _ m' _ => channels_ok m') m t.
Proof. intros Hok Hk. destruct data as [a|]; [by apply Hk|by apply OnSocketError_keeps]. Qed.

Lemma OnBytesReceived_keeps s data : given (Forall is_u8) data -> keeps (OnBytesReceived s data).
Proof.
  intros Hdata. apply with_channel_keeps. intros id m t Hok Hs. apply with_data_keeps; [done|].
  intros l ->. apply wp_mbind. eapply wp_mono; [by apply ProcessRecvData_keeps|]. cbn.
  intros packed m' t' Hok'. unfold DoBytesReceiveCallback. keep.
Qed.

(** A length that an [int] gives, within the memory it is a length of. *)
Definition readable (data : option bytes) (n : Z) : Prop :=
  - 2 ^ 31 <= n < 2 ^ 31 /\ match data with Some l => n <= zlen l | None => True end.

Lemma copy_to_buffer_ends data n : readable data n -> exists r, copy_to_buffer data n = Done r.
Proof.
  intros (Hn & Hdata). unfold copy_to_buffer. cbv zeta.
  destruct (Z_lt_dec n 0) as [Hneg|Hpos]; [|destruct (Z.eq_dec n 0) as [->|Hnz]].
  - rewrite make_buffer_null; [by eexists|]. right. unfold u64. rewrite <- (Z.mod_add n 1) by done.
    rewrite Z.mod_small by lia. unfold DSCHED_MAX_BUFFER_SIZE. lia.
  - rewrite make_buffer_null by (by left). by eexists.
  - rewrite u64_id by lia. destruct (Z_lt_dec n DSCHED_MAX_BUFFER_SIZE) as [Hlt|Hge].
    + rewrite make_buffer_ok by lia. cbn [data_ rangeOffset_ buffer_of]. unfold Size; cbn [rangeLength_ buffer_of].
      rewrite zlen_zeros by lia. destruct data as [l|].
      * destruct (memcpy_s_safe (zeros n) 0 n l 0 n) as (ret & d & -> & _ & _);
          [lia|lia|rewrite zlen_zeros; lia|lia|lia|lia|]. by eexists.
      * unfold memcpy_s. assert ((RSIZE_MAX <? n) = false) as -> by (apply Z.ltb_ge; unfold RSIZE_MAX; lia).
        destruct (store_n_ok (zeros n) 0 (zeros n)) as (d & -> & _); [lia|rewrite zlen_zeros; lia|]. by eexists.
    + rewrite make_buffer_null by lia. by eexists.
Qed.

Lemma OnMessageReceived_keeps s data dataLen :
  (dataLen <= MAX_LEN -> readable data dataLen) -> keeps (OnMessageReceived s data dataLen).
Proof.
  intros Hdata m t Hok. unfold OnMessageReceived. destruct (MAX_LEN <? dataLen) eqn:E; [by apply wp_mret|].
  guards_to_prop. apply with_channel_keeps; [|done]. clear dependent m. intros id m t' Hok _.
  apply with_data_keeps; [done|]. intros l ->. destruct (copy_to_buffer_ends (Some l) dataLen) as (r & Hr); [by apply Hdata|].
  apply wp_mbind. eapply wp_from_run; [exact Hr|]. unfold DoMessageReceiveCallback. keep.
Qed.

(** The number under [k], if there is one, fits an unsigned type of [bits] bits. *)
Definition member_fits (bits : Z) (o : cJSON) (k : bytes) : Prop :=
  forall i, number_at o k = Some i -> exists n, number_trunc i = Some n /\ 0 <= n < 2 ^ bits.

(** The text of a stream's description: the three numbers of a pixel map, if it has one, fit
    the members they are converted to.  Nothing else is asked of the text. *)
Definition ext_readable (ext : SoftbusData) : Prop :=
  forall text root o, buf ext = Some text -> cJSON_ParseWithLength text = Some root ->
    cJSON_GetObjectItemCaseSensitive root (str "pixel_map") = Some o ->
    member_fits 8 o (str "quality") /\ member_fits 32 o (str "width") /\ member_fits 32 o (str "height").

Lemma read_unsigned_ends bits o k old : member_fits bits o k -> exists n, read_unsigned bits o k old = Done n.
Proof.
  intros H. unfold read_unsigned. destruct (number_at o k) as [i|] eqn:Hi; [|by eexists].
  destruct (H i Hi) as (n & Hn & Hrange). unfold to_unsigned. rewrite Hn. bool_lia. by eexists.
Qed.

Lemma ReadExtPixelMap_ends e root :
  (forall o, cJSON_GetObjectItemCaseSensitive root (str "pixel_map") = Some o ->
    member_fits 8 o (str "quality") /\ member_fits 32 o (str "width") /\ member_fits 32 o (str "height")) ->
  exists e', ReadExtPixelMapPackOptionToJson e root = Done e'.
Proof.
  intros H. unfold ReadExtPixelMapPackOptionToJson.
  destruct (cJSON_GetObjectItemCaseSensitive root _) as [o|]; [|by eexists].
  destruct (H o eq_refl) as (Hq & Hw & Hh). cbv zeta.
  destruct (read_unsigned_ends _ _ _ (quality (pixelMapOption_ e)) Hq) as (q & ->). cbn [run_bind].
  destruct (read_unsigned_ends _ _ _ (width (pixelMapOption_ e)) Hw) as (w & ->). cbn [run_bind].
  destruct (read_unsigned_ends _ _ _ (height (pixelMapOption_ e)) Hh) as (h & ->). by eexists.
Qed.

Lemma DeserializeStreamDataExt_ends ext e :
  ext_readable ext -> exists r, DeserializeStreamDataExt (buf ext) e = Done r.
Proof.
  intros H. unfold DeserializeStreamDataExt. destruct (buf ext) as [text|] eqn:Hb; [|by eexists].
  destruct (zlen text =? 0); [by eexists|]. destruct (cJSON_ParseWithLength text) as [root|] eqn:Hp; [|by eexists].
  unfold DeserializeExtFromJson. cbv zeta. case_match; cbn [run_bind].
  - destruct (ReadExtPixelMap_ends (ReadExtIndexFromJson (ReadExtFlagFromJson e root) root) root) as (e' & ->);
      [|by eexists]. intros o Ho. by apply (H text root o).
  - case_match; by eexists.
Qed.

Lemma OnStreamReceived_keeps s data ext :
  given (fun d => readable (buf d) (bufLen d)) data -> given ext_readable ext ->
  keeps (OnStreamReceived s data ext).
Proof.
  intros Hdata Hext. apply with_channel_keeps. intros id m t Hok _. apply with_data_keeps; [done|].
  intros d ->. apply with_data_keeps; [done|]. intros e ->.
  destruct (copy_to_buffer_ends (buf d) (bufLen d) Hdata) as (r & Hr). destruct (DeserializeStreamDataExt_ends e StreamDataExt_default Hext) as ((ret & e') & He).
  apply wp_mbind. eapply wp_from_run; [exact Hr|]. destruct r as [b|]; [|keep].
  apply wp_mbind. eapply wp_from_run; [exact He|]. unfold DoStreamReceiveCallback. keep.
Qed.

(** The files of an event are all there. *)
Definition event_ok (event : FileEvent) : Prop := 0 <= fileCnt event <= Z.of_nat (length (files event)).

Lemma file_list_ends event : event_ok event -> exists l, file_list event = Done l.
Proof. intros (H1 & H2). unfold file_list. bool_lia. by eexists. Qed.

Lemma DispatchProcessFileEvent_keeps id event : event_ok event -> keeps (DispatchProcessFileEvent id event).
Proof.
  intros Hev m t Hok. destruct (file_list_ends _ Hev) as (l & Hl).
  unfold DispatchProcessFileEvent, DealFileSendEvent, DealFileRecvEvent, DealFileErrorEvent,
    DoFileSendCallback, DoFileRecvCallback.
  destruct (type event); cbv zeta;
    first [ apply wp_mbind; eapply wp_from_run; [exact Hl|]; keep | keep ].
Qed.

Lemma OnFileEventReceived_keeps s event : given event_ok event -> keeps (OnFileEventReceived s event).
Proof.
  intros Hev m t Hok. unfold OnFileEventReceived. destruct event as [event|]; keep;
    by apply DispatchProcessFileEvent_keeps.
Qed.

Lemma GetRecvPathFromUser_keeps : keeps GetRecvPathFromUser.
Proof.
  intros m t Hok. unfold GetRecvPathFromUser, listeners_of. keep.
  all: set (first := fix first (listeners : list Z) := _).
  induction (match map_find _ _ with Some l => l | None => [] end) as [|x l IH] in t |- *; cbn; [by apply wp_mret|].
  keep.
Qed.

(** ** Start and end *)

Lemma GetDmsInteractiveAdapterProxy_keeps : keeps GetDmsInteractiveAdapterProxy.
Proof.
  intros m t Hok. unfold GetDmsInteractiveAdapterProxy. keep.
  - pose proof (adapter_filled ((t ++ [AdapterOpened]) ++ [Query])) as Hf. rewrite Heqp in Hf. cbn in Hf.
    guards_to_prop. by rewrite Hf in Heqb2 by done.
  - destruct Hok as [H1 H2 H3 H4 H5]. by split.
  - destruct Hok as [H1 H2 H3 H4 H5]. by split.
Qed.
Hint Resolve GetDmsInteractiveAdapterProxy_keeps : channels.

Lemma ok_set_initialized m b : channels_ok m -> channels_ok (set_initialized b m).
Proof. intros [H1 H2 H3 H4 H5]. by split. Qed.

Lemma ok_set_server m s : channels_ok m -> channels_ok (set_serverSocketId s m).
Proof. intros [H1 H2 H3 H4 H5]. by split. Qed.

Definition start_threads (m : ChannelManager) : ChannelManager :=
  set_callbackEventHandlerNew (Some []) (set_msgEventHandler (Some [])
    (set_callbackEventHandler (Some []) (set_eventHandler (Some []) m))).

Lemma ok_start_threads m : channels_ok m -> channels_ok (start_threads m).
Proof. intros [H1 H2 H3 H4 H5]. split; [done|by constructor|by constructor|done|done]. Qed.

Lemma Init_keeps name : keeps (Init name).
Proof.
  intros m t Hok. unfold Init. apply wp_mbind, wp_get. destruct (initialized_ m); [by apply wp_mret|].
  destruct (_ && _ && _ && _) eqn:E; [keep; by apply ok_set_initialized|].
  destruct (0 <? _); [keep; by apply ok_set_initialized|]. apply wp_mbind, wp_modify.
  assert (eventHandler_ m = None /\ callbackEventHandler_ m = None /\ msgEventHandler_ m = None /\
    callbackEventHandlerNew_ m = None) as (E1 & E2 & E3 & E4).
  { destruct (ok_threads _ Hok) as (H1 & H2 & H3). rewrite H1, H2, H3 in E.
    destruct (eventHandler_ m), (callbackEventHandler_ m), (msgEventHandler_ m), (callbackEventHandlerNew_ m);
      try done. }
  unfold WaitForEventHandlerThread. do 4 (apply wp_mbind; apply wp_mbind, wp_get;
    cbn [eventHandler_ callbackEventHandler_ msgEventHandler_ callbackEventHandlerNew_ set_ownerName
      set_eventHandler set_callbackEventHandler set_msgEventHandler];
    rewrite ?E1, ?E2, ?E3, ?E4; apply wp_modify).
  assert (channels_ok (start_threads (set_ownerName name m))) as Hok'.
  { apply ok_start_threads. destruct Hok as [H1 H2 H3 H4 H5]. by split. }
  fold (start_threads (set_ownerName name m)). unfold CreateServerSocket. keep.
  eapply wp_mono; [by apply GetDmsInteractiveAdapterProxy_keeps, ok_set_server|].
  cbn. intros _ m' t' Hok1. keep. by apply ok_set_initialized.
Qed.

Lemma given_valid m id i :
  channels_ok m -> map_find (channelInfoMap_ m) id = Some i -> isValidChannelId id = true.
Proof.
  intros Hok Hi. destruct (id_given (ok_info _ _ _ Hok Hi)) as (n & Hn & Hid).
  destruct (next_ok (ok_tables _ Hok) (dataType i)) as (n' & Hn' & Hle). assert (n' = n) as -> by congruence.
  pose proof (type_index_range (dataType i)). unfold isValidChannelId, FILE_START_ID, STREAM_START_ID,
    BYTES_START_ID, MESSAGE_START_ID, CHANNEL_ID_GAP in *. bool_lia. done.
Qed.

(** The loop of [DeInit] leaves no channel that it was told of. *)
Lemma delete_all l m t :
  channels_ok m ->
  wp (mfor l (fun id => do! DeleteChannel id in mret tt)) (fun _ m' _ => channels_ok m' /\ forall x, map_find (channelInfoMap_ m') x =
      if existsb (Z.eqb x) l then None else map_find (channelInfoMap_ m) x) m t.
Proof.
  revert m t. induction l as [|id l IH]; intros m t Hok; cbn [mfor existsb]; [by apply wp_mret|].
  apply wp_mbind, wp_mbind.
  apply (wp_mono _ (fun _ m' _ => channels_ok m' /\ forall x, map_find (channelInfoMap_ m') x =
    if x =? id then None else map_find (channelInfoMap_ m) x)).
  - destruct (isValidChannelId id) eqn:Hid.
    + eexists _, _, _. split; [by apply DeleteChannel_run|]. split; [by apply ok_deleted|].
      intros x. cbn -[map_find map_erase]. by rewrite map_find_erase, Z_key_eq, Z.eqb_sym.
    + unfold DeleteChannel. rewrite Hid. apply wp_mret. split; [done|]. intros x.
      destruct (Z.eqb_spec x id) as [->|]; [|done].
      destruct (map_find (channelInfoMap_ m) id) as [i|] eqn:Hi; [|done].
      by rewrite (given_valid _ _ _ Hok Hi) in Hid.
  - intros _ m1 t1 (Hok1 & H1). apply wp_mret. eapply wp_mono; [by apply IH|]. cbn. intros _ m2 t2 (Hok2 & H2).
    split; [done|]. intros x. rewrite H2, H1. by destruct (x =? id), (existsb _ l).
Qed.

Lemma ok_stop_threads m :
  channels_ok m -> channels_ok (set_callbackEventHandlerNew None (set_msgEventHandler None
    (set_callbackEventHandler None (set_eventHandler None m)))).
Proof. intros [H1 H2 H3 H4 H5]. by split. Qed.

Lemma ok_no_channels m :
  channels_ok m -> (forall id, map_find (channelInfoMap_ m) id = None) ->
  channels_ok (set_initialized false (set_nextIds nextIds_init (set_ownerName [] (set_serverSocketId (-1)
    (set_SetFileSchema false (set_dllHandle false m)))))).
Proof.
  intros [[H1 H2 H3 H4 H5 H6] H7 H8 _ H9] Hnone. split; try done. split; try done; cbn.
  - intros id i Hi. by rewrite Hnone in Hi.
  - intros ty. unfold nextIds_init. destruct ty; eexists; (split; [reflexivity|]); by_compute.
Qed.

Lemma DeInit_keeps : keeps DeInit.
Proof.
  intros m t Hok. unfold DeInit, Reset, shutdown. apply wp_mbind, wp_modify. apply ok_stop_threads in Hok.
  set (m1 := set_callbackEventHandlerNew _ _) in *. apply wp_mbind, wp_get. cbv zeta. apply wp_mbind.
  eapply wp_mono; [by apply delete_all|]. cbn beta. intros _ m2 t2 (Hok2 & Hfind). keep.
  apply ok_no_channels; [done|]. intros id. rewrite Hfind. destruct (existsb _ _) eqn:E; [done|].
  destruct (map_find (channelInfoMap_ m1) id) as [i|] eqn:Hi; [exfalso|done].
  assert (existsb (Z.eqb id) (unordered (nodup Z.eq_dec (List.concat (map snd (channelIdMap_ m1))))) = true)
    as E2; [|congruence].
  apply existsb_exists. exists id. split; [|apply Z.eqb_refl]. apply unordered_members, nodup_In.
  destruct (listed (ok_info _ _ _ Hok Hi)) as (l & Hl & Hin). apply in_concat. exists l. split; [|done].
  apply map_find_Some in Hl as (name & Hname & _). apply in_map_iff. by exists (name, l).
Qed.

(** ** Turns and runs *)

Lemma send_turn_keeps : keeps send_turn.
Proof.
  intros m t Hok. unfold send_turn. apply wp_mbind, wp_get.
  destruct (eventHandler_ m) as [[|(name, task) q]|] eqn:E; [by apply wp_mret| |by apply wp_mret].
  pose proof (ok_tasks _ Hok) as Hq. rewrite E in Hq. apply Forall_cons_1 in Hq as (Htask & Hq).
  apply wp_mbind, wp_modify. assert (channels_ok (set_eventHandler (Some q) m)) as Hok'.
  { apply ok_set_tasks; [done| |done]. by rewrite E. }
  unfold run_send_task. destruct task; keep.
Qed.

Lemma msg_turn_keeps : keeps msg_turn.
Proof.
  intros m t Hok. unfold msg_turn. apply wp_mbind, wp_get.
  destruct (msgEventHandler_ m) as [[|task q]|] eqn:E; [by apply wp_mret| |by apply wp_mret].
  pose proof (ok_messages _ Hok) as Hq. rewrite E in Hq. apply Forall_cons_1 in Hq as (Htask & Hq).
  apply wp_mbind, wp_modify. assert (channels_ok (set_msgEventHandler (Some q) m)) as Hok'.
  { apply ok_set_messages; [done| |done]. by rewrite E. }
  keep.
Qed.

Lemma run_callback_task_keeps task : keeps (run_callback_task task).
Proof. intros m t Hok. unfold run_callback_task. keep. Qed.

Lemma callback_turn_keeps p : keeps (callback_turn p).
Proof.
  intros m t Hok. unfold callback_turn. apply wp_mbind, wp_get.
  destruct (callbackEventHandler_ m) as [q|] eqn:E; [|by apply wp_mret].
  destruct (take_first p q) as [(task, q')|]; [|by apply wp_mret]. apply wp_mbind, wp_modify.
  apply run_callback_task_keeps, ok_set_callback; [done|]. by rewrite E.
Qed.

Lemma callback_new_turn_keeps : keeps callback_new_turn.
Proof.
  intros m t Hok. unfold callback_new_turn. apply wp_mbind, wp_get.
  destruct (callbackEventHandlerNew_ m) as [[|(listener, c) q]|] eqn:E; keep.
  apply ok_set_callback_new; [done|]. by rewrite E.
Qed.

Lemma socket_turn_keeps id s : keeps (socket_turn id s).
Proof.
  intros m t Hok. unfold socket_turn. apply wp_mbind, wp_get.
  destruct (map_find (channelInfoMap_ m) id) as [i|] eqn:Hi; [|by apply wp_mret].
  destruct (map_find (dataSenderReceivers i) s) as [[st started [|d q]]|] eqn:Hd; keep.
  destruct (senders_wf (ok_info _ _ _ Hok Hi) _ _ Hd) as (H1 & H2). apply ok_put_sender; [done|].
  split; [done|]. by apply Forall_cons_1 in H2 as (_ & ?).
Qed.

(** What the callers of the manager and its peers see to. *)
Definition move_ok (mv : Move) : Prop :=
  match mv with
  | CallSendBytes _ data | CallSendMessage _ data | CallSendMessageSync _ data => given buffer_wf data
  | CallSendStream _ data => given stream_ok data
  | SocketConnected _ name => peer_name_ok name
  | BytesArrived _ data => given (Forall is_u8) data
  | MessageArrived _ data dataLen => dataLen <= MAX_LEN -> readable data dataLen
  | StreamArrived _ data ext => given (fun d => readable (buf d) (bufLen d)) data /\ given ext_readable ext
  | FileEventArrived _ event => given event_ok event
  | _ => True
  end.

Lemma make_move_keeps mv : move_ok mv -> keeps (make_move mv).
Proof.
  assert (forall c : Ch Z, keeps c -> keeps (do! c in mret tt)) as Hignore.
  { intros c Hc. apply keeps_mbind; [done|]. intros _. apply keeps_mret. }
  intros Hmv. destruct mv; cbn [make_move]; cbn in Hmv;
    try (apply Hignore); auto using Init_keeps, DeInit_keeps, CreateServerChannel_keeps,
      CreateClientChannel_keeps, DeleteChannel_keeps, RegisterChannelListener_keeps, ConnectChannel_keeps,
      SendBytes_keeps, SendStream_keeps, SendMessage_keeps, SendMessageSync_keeps, SendFile_keeps,
      OnSocketConnected_keeps, OnSocketClosed_keeps, OnSocketError_keeps, OnBytesReceived_keeps,
      OnMessageReceived_keeps, OnFileEventReceived_keeps, send_turn_keeps, msg_turn_keeps,
      callback_turn_keeps, callback_new_turn_keeps, socket_turn_keeps.
  - destruct Hmv. by apply OnStreamReceived_keeps.
  - apply keeps_mbind; [apply GetRecvPathFromUser_keeps|]. intros _. apply keeps_mret.
Qed.

Lemma ok_init : channels_ok Channels_init.
Proof.
  split; try done. split; try done.
  intros ty. destruct ty; eexists; (split; [reflexivity|]); by_compute.
Qed.

(** Any sequence of calls, callbacks and turns. *)
Lemma run_keeps l : Forall move_ok l -> keeps (mfor l make_move).
Proof.
  intros Hl m t Hok. apply (wp_mfor (fun m _ => channels_ok m)); [done|]. intros mv m' t' Hin Hok'.
  apply make_move_keeps; [|done]. by eapply List.Forall_forall in Hl.
Qed.
End Operations.
