(* ===== verification/ChannelManagerProperties.v ===== *)
(** * Properties of the channels

    Whatever happens the manager keeps its tables consistent and every call returns; ids,
    names and the end of a channel; the ways its error handling fails. *)

From Stdlib Require Import ZArith Lia String.
From stdpp Require Import base list option.
From S2P Require Import Prelude ErrorCodes DataBuffer Tlv SessionHeader DataSenderReceiver StdMap StdString Effects Framework StreamData ChannelManager ChannelManagerLemmas.
Import ErrorCodes.DtbCollab.

Section Properties.
Context {J : CJson} {SJ : StreamJson J} {Ev : ChannelEnv}.
Implicit Types (m : ChannelManager) (t : list Effect) (id s : Z).

(** The states the manager gets to by calls, callbacks and turns. *)
Inductive reachable : ChannelManager -> list Effect -> Prop :=
| reach_init : reachable Channels_init []
| reach_move m t mv m' t' :
  reachable m t -> move_ok mv -> make_move mv m t = Done (tt, m', t') -> reachable m' t'.

Lemma reachable_ok {EvOk : ChannelEnvOk Ev} m t : reachable m t -> channels_ok m.
Proof.
  induction 1 as [|m t mv m' t' _ IH Hmv Hrun]; [apply ok_init|].
  destruct (make_move_keeps mv Hmv m t IH) as (u & m2 & t2 & Hrun2 & Hok2). congruence.
Qed.

Lemma reachable_run l m t m' t' :
  reachable m t -> Forall move_ok l -> mfor l make_move m t = Done (tt, m', t') -> reachable m' t'.
Proof.
  revert m t. induction l as [|mv l IH]; intros m t Hr Hl; cbn [mfor].
  { intros [= <- <-]. done. }
  apply Forall_cons_1 in Hl as (Hmv & Hl). intros ([] & m1 & t1 & Hrun & Hrest)%mbind_Done.
  eapply IH; [|exact Hl|exact Hrest]. by eapply reach_move.
Qed.

(** *** Facts about single operations *)

Lemma PostCallbackTask_run task p m t q :
  callbackEventHandler_ m = Some q -> PostTask_ok t = true ->
  PostCallbackTask task p m t = Done (ERR_OK, set_callbackEventHandler (Some (q ++ [(p, task)])) m, t ++ [Query]).
Proof. intros Hq Hpost. unfold PostCallbackTask, ask, mbind, get, call. cbn. rewrite Hq. cbn. by rewrite Hpost. Qed.

(** Where no '_' comes, the search goes on behind it. *)
Lemma after_split_app a b : Forall (fun c => c <> 95) a -> after_split (a ++ 95 :: b) = Some b.
Proof.
  induction 1 as [|c a Hc _ IH]; cbn [app after_split]; [done|]. destruct (Z.eqb_spec c 95); [congruence|done].
Qed.

Lemma type_prefix_spec ty : exists c, type_prefix ty = [c] /\ c <> 0 /\
  forall rest, GetChannelDataTypeFromName (c :: rest) = Some ty.
Proof. destruct ty; eexists; (split; [reflexivity|]; split; [done|]); intros rest; vm_compute; reflexivity. Qed.

Lemma GetChannelName_client owner ty name :
  46 <= zlen owner -> Forall (fun c => c <> 95) (drop 46 owner) ->
  GetChannelNameFromSocket (client_socket_name owner ty name) = Some (type_prefix ty ++ SPLIT_FLAG ++ name).
Proof.
  intros Hlen Hsplit. unfold GetChannelNameFromSocket, client_socket_name.
  change (Z.to_nat CHANNEL_NAME_PREFIX_LENGTH) with (length SESSION_NAME_PREFIX + 46)%nat.
  rewrite <- drop_drop, drop_app_length.
  assert (length owner >= 46)%nat as Hle by (unfold zlen in Hlen; lia).
  rewrite drop_app_le by lia. by apply after_split_app.
Qed.

(** Listeners that are alive, and a callback thread that takes every task. *)
Definition obliging : Prop := (forall t, PostTask_ok t = true) /\ forall t l, expired t l = false.

Definition listeners (id : Z) (m : ChannelManager) : list Z :=
  match map_find (listenersMap_ m) id with Some l => l | None => [] end.

Lemma NotifyListeners_run id p c m t q :
  obliging -> callbackEventHandler_ m = Some q ->
  exists t', NotifyListeners id p c m t = Done (tt,
    set_callbackEventHandler (Some (q ++ map (fun l => (p, TaskCall l c)) (listeners id m))) m, t ++ t').
Proof.
  intros (Hpost & Hlive) Hq. unfold NotifyListeners, listeners_of, listeners.
  unfold mbind at 1 2, get, mret at 1. cbn [run_bind].
  generalize (match map_find (listenersMap_ m) id with Some l => l | None => [] end) as l. intros l.
  revert m t q Hq. induction l as [|x l IH]; intros m t q Hq; cbn [mfor map].
  { exists []. rewrite !app_nil_r, <- Hq. by destruct m. }
  unfold mbind at 1 2, ask at 1, call. cbn [run_bind]. rewrite Hlive. unfold mbind at 1.
  rewrite (PostCallbackTask_run _ _ _ _ q) by done. cbn [run_bind].
  unfold mret at 1. cbn [run_bind].
  destruct (IH (set_callbackEventHandler (Some (q ++ [(p, TaskCall x c)])) m) ((t ++ [Query]) ++ [Query])
    (q ++ [(p, TaskCall x c)]) eq_refl) as (t' & ->).
  exists ([Query] ++ [Query] ++ t'). by rewrite <- !app_assoc.
Qed.

Lemma SetSocketStatus_run s st id m t q :
  map_count (socketStatusMap_ m) s = true -> map_find (socketChannelMap_ m) s = Some id ->
  callbackEventHandler_ m = Some q -> PostTask_ok t = true ->
  SetSocketStatus s st m t = Done (ERR_OK,
    set_callbackEventHandler (Some (q ++ [(IMMEDIATE, TaskUpdateChannelStatus id)]))
      (set_socketStatusMap (map_assign (socketStatusMap_ m) s st) m), t ++ [Query]).
Proof.
  intros Hs Hid Hq Hpost. unfold SetSocketStatus, mbind, get, modify. cbn [run_bind].
  unfold map_count in Hs. destruct (map_find (socketStatusMap_ m) s); [|done]. cbn [run_bind]. rewrite Hid.
  by rewrite (PostCallbackTask_run _ _ _ _ q).
Qed.

(** A closed socket is marked, its channel's status due for an update and then for its end. *)
Definition socket_closed (s id reason : Z) (m : ChannelManager) : ChannelManager :=
  set_callbackEventHandler (Some [(IMMEDIATE, TaskUpdateChannelStatus id); (IMMEDIATE, TaskClosed id reason)])
    (set_socketStatusMap (map_assign (socketStatusMap_ m) s UNCONNECTED) m).

Lemma OnSocketClosed_run {EvOk : ChannelEnvOk Ev} s id reason m t :
  obliging -> channels_ok m -> 0 < s -> map_find (socketChannelMap_ m) s = Some id ->
  callbackEventHandler_ m = Some [] ->
  exists t', OnSocketClosed s reason m t = Done (tt, socket_closed s id reason m, t ++ t').
Proof.
  intros (Hpost & _) Hok Hs Hid Hq. unfold OnSocketClosed, with_channel, socket_channel.
  bool_lia. unfold mbind at 1, get. cbn [run_bind]. rewrite Hid. cbv zeta.
  destruct (sockets_held (ok_tables _ Hok) _ _ Hid) as (i & d & Hi & _).
  rewrite (given_valid _ _ _ Hok Hi). cbn [negb]. unfold mbind at 1.
  rewrite (SetSocketStatus_run s UNCONNECTED id m t []); try done.
  2:{ rewrite (statuses_ok (ok_tables _ Hok)). unfold map_count. by rewrite Hid. }
  cbn [run_bind]. change (negb (ERR_OK =? ERR_OK)) with false. cbv iota. unfold mbind.
  rewrite (PostCallbackTask_run _ _ _ _ [(IMMEDIATE, TaskUpdateChannelStatus id)]) by done.
  exists ([Query] ++ [Query]). by rewrite app_assoc.
Qed.

Lemma UpdateChannelStatus_down id i m t :
  map_find (channelInfoMap_ m) id = Some i -> status i = CONNECTED ->
  (forall s, In s (clientSockets i) -> GetSocketStatus s m = UNCONNECTED) ->
  UpdateChannelStatus id m t = Done (ERR_OK,
    set_channelInfoMap (map_assign (channelInfoMap_ m) id (set_status UNCONNECTED i)) m, t).
Proof.
  intros Hi Hst Hs. unfold UpdateChannelStatus, mbind, get. cbn [run_bind]. rewrite Hi.
  assert (existsb (fun s => bool_decide (GetSocketStatus s m = CONNECTED)) (clientSockets i) = false) as ->.
  { apply not_true_is_false. intros (s & Hin & H)%existsb_exists. apply bool_decide_eq_true in H.
    by rewrite (Hs s Hin) in H. }
  cbv zeta. rewrite Hst. rewrite bool_decide_false by done. unfold SetChannelStatus, mbind, get, modify.
  cbn [run_bind]. by rewrite Hi.
Qed.

Definition disconnect_calls (id reason : Z) (m : ChannelManager) : list (Priority * CallbackTask) :=
  map (fun l => (IMMEDIATE, TaskCall l (OnDisConnect id reason))) (listeners id m).

Lemma HandleClosed_run id reason m t q :
  obliging -> isValidChannelId id = true -> GetChannelStatus id m = UNCONNECTED ->
  callbackEventHandler_ m = Some q ->
  exists t', HandleClosed id reason m t = Done (tt,
    deleted id (set_callbackEventHandler (Some (q ++ disconnect_calls id reason m)) m), t ++ t' ++ shutdowns id m).
Proof.
  intros Hob Hid Hst Hq. unfold HandleClosed, DoDisConnectCallback, mbind at 1, get. cbn [run_bind].
  rewrite bool_decide_true by done.
  destruct (NotifyListeners_run id IMMEDIATE (OnDisConnect id reason) m t q Hob Hq) as (t' & Hn).
  unfold mbind. rewrite Hn. cbn [run_bind]. rewrite DeleteChannel_run by done. cbn [run_bind].
  exists t'. by rewrite app_assoc.
Qed.

(** *** Receiving bytes *)

Lemma map_assign_twice {V} (l : std_map Z V) (k : Z) v v' :
  map_assign (map_assign l k v) k v' = map_assign l k v'.
Proof.
  assert (key_lt k k = false) as Hirr by apply Z.ltb_irrefl.
  induction l as [|[k' v0] l IH]; cbn; [by rewrite Hirr|].
  destruct (key_lt k k') eqn:E1; cbn; [by rewrite Hirr|].
  destruct (key_lt k' k) eqn:E2; cbn; rewrite E1, E2; [by rewrite IH|done].
Qed.

(** The sender of a socket of a channel. *)
Definition sender_at (m : ChannelManager) (id s : Z) : option SocketData :=
  match map_find (channelInfoMap_ m) id with
  | Some i => map_find (dataSenderReceivers i) s
  | None => None
  end.

Lemma sender_at_put m id s d d' : sender_at m id s = Some d -> sender_at (put_sender id s d' m) id s = Some d'.
Proof.
  unfold sender_at, put_sender. destruct (map_find (channelInfoMap_ m) id) as [i|] eqn:Hi; [|done]. intros _.
  cbn -[map_find map_assign]. rewrite map_find_assign, Z_key_eq, Z.eqb_refl. cbn -[map_find map_assign].
  by rewrite map_find_assign, Z_key_eq, Z.eqb_refl.
Qed.

Definition with_receiver (st : Receiver) (d : SocketData) : SocketData :=
  mkSocketData st (dsr_eventHandler_ d) (dsr_tasks d).

(** A packet that is accepted, and the message that may be complete with it. *)
Lemma ProcessRecvData_accepted id s p d st packed st' m t :
  sender_at m id s = Some d ->
  (forall junk, PackRecvPacketData junk (receiver_ d) (Some p) (zlen p) = Done (ERR_OK, st)) ->
  GetPacketedData st = (packed, st') ->
  ProcessRecvData id s p m t = Done (packed, put_sender id s (with_receiver st' d) m, t).
Proof.
  unfold sender_at. intros Hd Hp Hget. unfold ProcessRecvData, mbind at 1, get. cbn [run_bind].
  destruct (map_find (channelInfoMap_ m) id) as [i|]; [|done]. rewrite Hd.
  unfold mbind at 1, trace. cbn [run_bind]. unfold mbind at 1, from_run. rewrite Hp. cbn [run_bind].
  change (negb (ERR_OK =? ERR_OK)) with false. cbv iota. rewrite Hget.
  unfold mbind, modify, mret. done.
Qed.

(** A socket that carries a channel and has a sender. *)
Record carries (m : ChannelManager) (s id : Z) (d : SocketData) : Prop := mkCarries {
  carries_pos : 0 < s;
  carries_id : map_find (socketChannelMap_ m) s = Some id;
  carries_valid : isValidChannelId id = true;
  carries_sender : sender_at m id s = Some d
}.

Lemma OnBytesReceived_accepted s id p d st packed st' m t :
  carries m s id d ->
  (forall junk, PackRecvPacketData junk (receiver_ d) (Some p) (zlen p) = Done (ERR_OK, st)) ->
  GetPacketedData st = (packed, st') ->
  OnBytesReceived s (Some p) m t =
    (match packed with Some b => DoBytesReceiveCallback id b | None => mret tt end)
    (put_sender id s (with_receiver st' d) m) t.
Proof.
  intros [Hs Hid Hvalid Hd] Hp Hget. unfold OnBytesReceived, with_channel, socket_channel. bool_lia.
  unfold mbind at 1, get. cbn [run_bind]. rewrite Hid. cbv zeta. rewrite Hvalid. cbn [negb with_data].
  unfold mbind. by rewrite (ProcessRecvData_accepted _ _ _ d st packed st').
Qed.

Lemma carries_put m s id d d' : carries m s id d -> carries (put_sender id s d' m) s id d'.
Proof.
  intros [H1 H2 H3 H4]. split; [done| |done|by eapply sender_at_put].
  unfold put_sender. by destruct (map_find (channelInfoMap_ m) id).
Qed.

(** What receiving bytes leaves alone. *)
Lemma put_sender_frame m s id d :
  callbackEventHandler_ (put_sender id s d m) = callbackEventHandler_ m /\
  listenersMap_ (put_sender id s d m) = listenersMap_ m.
Proof. unfold put_sender. by destruct (map_find (channelInfoMap_ m) id). Qed.

(** Packets that assemble to a message make the listeners hear of it once. *)
Lemma packets_received s id d packets data q m t :
  obliging -> carries m s id d -> assembles (receiver_ d) packets data -> callbackEventHandler_ m = Some q ->
  exists b m' t', mfor packets (fun p => OnBytesReceived s (Some p)) m t = Done (tt, m', t') /\
    content b = data /\ carries m' s id (with_receiver init_receiver d) /\
    callbackEventHandler_ m' = Some (q ++ map (fun l => (LOW, TaskCall l (OnBytes id b))) (listeners id m)).
Proof.
  intros Hob Hc Has Hq. remember (receiver_ d) as st eqn:Est. revert d Est m t Hc Hq.
  induction Has as [st p st' b data Hp Hget Hb|st p st' ps data Hp Hget _ IH]; intros d -> m t Hc Hq;
    cbn [mfor]; unfold mbind at 1; rewrite (OnBytesReceived_accepted _ _ _ _ _ _ _ _ _ Hc Hp Hget).
  - pose proof (carries_put _ _ _ _ (with_receiver init_receiver d) Hc) as Hc'.
    set (m1 := put_sender _ _ _ m) in *. destruct (put_sender_frame m s id (with_receiver init_receiver d)) as (F1 & F2).
    fold m1 in F1, F2. unfold DoBytesReceiveCallback.
    destruct (NotifyListeners_run id LOW (OnBytes id b) m1 t q Hob) as (t' & ->); [congruence|].
    cbn [run_bind]. exists b. eexists _, _. split; [reflexivity|]. split; [done|]. split.
    + by destruct Hc'; split.
    + cbn. unfold listeners. by rewrite F2.
  - unfold mret at 1. cbn [run_bind].
    pose proof (carries_put _ _ _ _ (with_receiver st' d) Hc) as Hc'.
    destruct (put_sender_frame m s id (with_receiver st' d)) as (F1 & F2).
    set (m1 := put_sender _ _ _ m) in *.
    destruct (IH (with_receiver st' d) eq_refl m1 t Hc') as (b & m' & t' & H1 & H2 & H3 & H4); [congruence|].
    exists b, m', t'. split; [done|]. split; [done|]. split; [done|]. rewrite H4. unfold listeners. by rewrite F2.
Qed.

(** ** Properties *)

(** C12 Whatever calls, callbacks of softbus and turns of the threads follow one another,
    the tables stay consistent: every channel is stored under its own id, which lies in the
    range of its type below the next id, and listed once under its name, every socket it
    lists has a sender, every socket that carries a channel is held by a channel that
    exists; and every further step returns.  [move_ok] leaves out what a caller or softbus
    does not do (buffers shorter than the length they are handed over with) and two things a
    peer can do: give its socket a name that has nothing behind the letter of the type, at
    which the callback throws ([short_peer_name_throws]), and describe a pixel map with a
    number that does not fit its member, whose conversion is undefined. *)
Theorem channel_run_safe {EvOk : ChannelEnvOk Ev} m t mv :
  reachable m t -> move_ok mv ->
  channels_ok m /\ exists m' t', make_move mv m t = Done (tt, m', t') /\ reachable m' t'.
Proof.
  intros Hr Hmv. pose proof (reachable_ok _ _ Hr) as Hok. split; [done|].
  destruct (make_move_keeps mv Hmv m t Hok) as ([] & m' & t' & Hrun & _).
  exists m', t'. split; [done|]. by eapply reach_move.
Qed.

(** C31 A server channel gets the next id of its type, which no channel has, and is entered
    unconnected; when the type has given out its 999 ids every creation fails and changes
    nothing, for ids are not used again. *)
Theorem channel_ids_given {EvOk : ChannelEnvOk Ev} name ty peer m t :
  reachable m t ->
  exists n, map_find (nextIds_ m) ty = Some n /\
    CHANNEL_ID_GAP * (type_index ty + 1) < n <= CHANNEL_ID_GAP * (type_index ty + 2) /\
    (n < CHANNEL_ID_GAP * (type_index ty + 2) -> exists m',
      CreateServerChannel name ty peer m t = Done (n, m', t) /\
      map_find (channelInfoMap_ m) n = None /\
      map_find (channelInfoMap_ m') n = Some (mkChannelInfo n UNCONNECTED ty name peer [] []) /\
      (forall id, id <> n -> map_find (channelInfoMap_ m') id = map_find (channelInfoMap_ m) id) /\
      map_find (nextIds_ m') ty = Some (n + 1)) /\
    (n = CHANNEL_ID_GAP * (type_index ty + 2) ->
      CreateServerChannel name ty peer m t = Done (CREATE_SERVER_CHANNEL_FAILED, m, t)).
Proof.
  intros Hr%reachable_ok. pose proof (ok_tables _ Hr) as Htab.
  destruct (next_ok Htab ty) as (n & Hn & Hrange). exists n. split; [done|]. split; [done|].
  pose proof (type_index_range ty) as Hty.
  unfold CreateServerChannel, CreateBaseChannel, GenerateNextId, mbind, get. cbn [run_bind]. rewrite Hn.
  cbv zeta. unfold CHANNEL_ID_GAP in *. split.
  - intros Hlt. destruct (tables_generate Htab ty n Hn) as (_ & Hnone); [done|]. bool_lia.
    unfold modify, mret. cbn [run_bind].
    assert (isValidChannelId n = true) as ->
      by (unfold isValidChannelId, FILE_START_ID, STREAM_START_ID, BYTES_START_ID, MESSAGE_START_ID, CHANNEL_ID_GAP;
          bool_lia; done).
    cbn [run_bind]. eexists. split; [reflexivity|]. split; [done|].
    cbn -[map_find map_emplace map_assign]. split; [|split].
    + rewrite map_find_emplace, Z_key_eq, Z.eqb_refl. unfold map_count. by rewrite Hnone.
    + intros id Hid. rewrite map_find_emplace, Z_key_eq. unfold map_count. rewrite Hnone.
      by destruct (Z.eqb_spec n id); [congruence|].
    + rewrite find_next. by rewrite decide_True.
  - intros ->. bool_lia. done.
Qed.

(** The name a client gives its socket leads the server back to the channel: from the
    socket's full name it recovers type and name and posts the registration of the socket
    with the channel it has of that type and name. *)
Theorem client_name_finds_channel owner ty name s m t q :
  46 <= zlen owner -> Forall (fun c => c <> 95) (drop 46 owner) -> no_nul owner -> no_nul name ->
  0 < s -> isValidChannelId (find_channel name ty m) = true ->
  callbackEventHandler_ m = Some q -> PostTask_ok t = true ->
  OnSocketConnected s (Some (client_socket_name owner ty name)) m t = Done (tt,
    set_callbackEventHandler (Some (q ++ [(IMMEDIATE, TaskUpdateChannel s (find_channel name ty m))])) m,
    t ++ [Query]).
Proof.
  intros Hlen Hsplit Hn1 Hn2 Hs Hid Hq Hpost. destruct (type_prefix_spec ty) as (c & Hc & Hnz & Hty).
  unfold OnSocketConnected. bool_lia. rewrite c_str_no_nul.
  2:{ unfold client_socket_name, no_nul. rewrite Hc. repeat apply Forall_app_2; try done; by repeat constructor. }
  rewrite GetChannelName_client by done. rewrite Hc. cbn [app SPLIT_FLAG]. rewrite Hty.
  change (SPLIT_FLAG ++ name) with (95 :: name). rewrite !zlen_cons. pose proof (zlen_nonneg name). bool_lia.
  change (drop 2 (c :: 95 :: name)) with name. unfold mbind, get. cbn [run_bind]. rewrite Hid. cbn [negb].
  by rewrite (PostCallbackTask_run _ _ _ _ q).
Qed.

(** A peer ends the process by its choice of a name: when what follows the separator is
    a single letter of a type, [substr(2)] throws in the callback of softbus, in every
    state of the manager. *)
Theorem short_peer_name_throws owner ty s m t :
  46 <= zlen owner -> Forall (fun c => c <> 95) (drop 46 owner) -> no_nul owner -> 0 < s ->
  OnSocketConnected s (Some (SESSION_NAME_PREFIX ++ owner ++ SPLIT_FLAG ++ type_prefix ty)) m t = Undefined.
Proof.
  intros Hlen Hsplit Hn Hs. destruct (type_prefix_spec ty) as (c & Hc & Hnz & Hty).
  unfold OnSocketConnected. bool_lia. rewrite c_str_no_nul.
  2:{ unfold no_nul. rewrite Hc. repeat apply Forall_app_2; try done; by repeat constructor. }
  assert (GetChannelNameFromSocket (SESSION_NAME_PREFIX ++ owner ++ SPLIT_FLAG ++ type_prefix ty) = Some [c]) as ->.
  { unfold GetChannelNameFromSocket.
    change (Z.to_nat CHANNEL_NAME_PREFIX_LENGTH) with (length SESSION_NAME_PREFIX + 46)%nat.
    rewrite <- drop_drop, drop_app_length, Hc. assert (length owner >= 46)%nat by (unfold zlen in Hlen; lia).
    rewrite drop_app_le by lia. by apply after_split_app. }
  by rewrite Hty.
Qed.

(** When the first start fails to make or to listen on the server socket, the caller
    gets the error; but the threads run, so every later start answers that all is well
    although there is no server socket. *)
Theorem second_init_hides_failure name name' t :
  Socket_ret t <= 0 \/
    Listen_ret (t ++ [SocketCreated (SESSION_NAME_PREFIX ++ name) [] [] None]) <> ERR_OK ->
  exists ret m1 t1 m2,
    Init name Channels_init t = Done (ret, m1, t1) /\ ret <> ERR_OK /\
    Init name' m1 t1 = Done (ERR_OK, m2, t1) /\ initialized_ m2 = true /\ serverSocketId_ m2 = -1.
Proof.
  intros Hfail. unfold Init at 1, CreateServerSocket, call, mbind, get, modify.
  cbn -[Init CREATE_SOCKET_FAILED LISTEN_SOCKET_FAILED app SESSION_NAME_PREFIX Z.leb].
  destruct (Socket_ret t <=? 0) eqn:E1.
  - eexists _, _, _, _. split; [reflexivity|]. split; [done|]. by split.
  - guards_to_prop. destruct Hfail as [|Hl%Z.eqb_neq]; [lia|]. rewrite Hl. cbn [negb].
    eexists _, _, _, _. split; [reflexivity|]. split; [done|]. by split.
Qed.

(** A callback without data reports its error to the wrong socket: the id of the
    channel is taken for a socket, so the listeners of the channel learn nothing, and when
    a socket has that number the listeners of the channel it carries are told instead. *)
Theorem null_data_reported_to_wrong_socket s id m t :
  0 < s -> map_find (socketChannelMap_ m) s = Some id -> isValidChannelId id = true ->
  (map_find (socketChannelMap_ m) id = None -> OnBytesReceived s None m t = Done (tt, m, t)) /\
  (forall other, map_find (socketChannelMap_ m) id = Some other -> isValidChannelId other = true ->
    OnBytesReceived s None m t = DoErrorCallback other RECV_DATA_EMPTY m t).
Proof.
  intros Hs Hid Hvalid.
  assert (0 < id) as Hpos by (unfold isValidChannelId, CHANNEL_ID_GAP in Hvalid; guards_to_prop; lia).
  assert (OnBytesReceived s None m t = OnSocketError id RECV_DATA_EMPTY m t) as ->.
  { unfold OnBytesReceived, with_channel at 1, mbind at 1, get, socket_channel.
    assert ((s <=? 0) = false) as -> by (apply Z.leb_gt; lia). cbn [run_bind]. rewrite Hid. cbv zeta.
    by rewrite Hvalid. }
  unfold OnSocketError, with_channel, mbind at 1, get, socket_channel.
  assert ((id <=? 0) = false) as -> by (apply Z.leb_gt; lia). cbn [run_bind]. split.
  - by intros ->.
  - unfold mbind at 1. cbn [run_bind]. intros other -> Ho. by rewrite Ho.
Qed.

(** A connection on a socket number that the channel has used before is shut down by
    its own registration: the sender of the old connection is replaced and its destructor
    closes the number, while the tables show the new connection as connected. *)
Theorem reused_socket_shut_down s id i m t :
  map_find (channelInfoMap_ m) id = Some i -> map_count (dataSenderReceivers i) s = true ->
  dataType i <> FILE ->
  exists m', RegisterSocket s id m t = Done (ERR_OK, m', t ++ [ShutdownCalled s]) /\
    GetSocketStatus s m' = CONNECTED /\ map_find (socketChannelMap_ m') s = Some id.
Proof.
  intros Hi Hs Hty. unfold RegisterSocket, mbind, get, modify, shutdown, emit. cbn [run_bind]. rewrite Hi, Hs.
  cbn [run_bind]. rewrite bool_decide_false by done. cbn [negb]. eexists. split; [reflexivity|].
  unfold GetSocketStatus. cbn -[map_find map_assign].
  by rewrite !map_find_assign, Z_key_eq, Z.eqb_refl.
Qed.

(** C24 When the last connected socket of a channel closes, two turns of the callback thread
    end the channel: its listeners are due to be told, the channel, its listeners and every
    socket it carried are out of the tables, and each of its sockets is shut down. *)
Theorem closed_channel_removed {EvOk : ChannelEnvOk Ev} s id reason i m t :
  reachable m t -> obliging -> 0 < s -> map_find (socketChannelMap_ m) s = Some id ->
  map_find (channelInfoMap_ m) id = Some i -> status i = CONNECTED ->
  (forall s', In s' (clientSockets i) -> s' <> s -> GetSocketStatus s' m = UNCONNECTED) ->
  callbackEventHandler_ m = Some [] ->
  exists m' t',
    mfor [SocketClosed s reason; CallbackTurn IMMEDIATE; CallbackTurn IMMEDIATE] make_move m t = Done (tt, m', t') /\
    callbackEventHandler_ m' = Some (disconnect_calls id reason m) /\
    map_find (channelInfoMap_ m') id = None /\ map_find (listenersMap_ m') id = None /\
    (forall s', map_find (socketChannelMap_ m') s' <> Some id) /\
    (forall s', In s' (clientSockets i) -> In (ShutdownCalled s') t').
Proof.
  intros Hr Hob Hs Hid Hi Hst Hother Hq. pose proof (reachable_ok _ _ Hr) as Hok.
  pose proof (given_valid _ _ _ Hok Hi) as Hvalid.
  destruct (OnSocketClosed_run s id reason m t Hob Hok Hs Hid Hq) as (t1 & H1).
  cbn [mfor make_move]. unfold mbind at 1. rewrite H1. cbn [run_bind]. clear H1.
  set (m1 := set_callbackEventHandler (Some [(IMMEDIATE, TaskClosed id reason)]) (socket_closed s id reason m)).
  set (m2 := set_channelInfoMap (map_assign (channelInfoMap_ m1) id (set_status UNCONNECTED i)) m1).
  set (m3 := set_callbackEventHandler (Some []) m2).
  assert (callback_turn IMMEDIATE (socket_closed s id reason m) (t ++ t1) = Done (tt, m2, t ++ t1)) as H2.
  { unfold callback_turn, mbind at 1, get. cbn [run_bind callbackEventHandler_ socket_closed set_callbackEventHandler take_first].
    rewrite bool_decide_true by done. unfold mbind at 1, modify. cbn [run_bind].
    fold m1. cbn [run_callback_task]. unfold mbind. rewrite (UpdateChannelStatus_down id i m1 (t ++ t1)); [done..|].
    intros s' Hs'. unfold GetSocketStatus. cbn -[map_find map_assign]. rewrite map_find_assign, Z_key_eq.
    destruct (Z.eqb_spec s s') as [<-|Hne]; [done|]. by apply Hother. }
  unfold mbind at 1. rewrite H2. cbn [run_bind]. clear H2.
  assert (GetChannelStatus id m3 = UNCONNECTED) as Hdown.
  { unfold GetChannelStatus. cbn -[map_find map_assign]. by rewrite map_find_assign, Z_key_eq, Z.eqb_refl. }
  destruct (HandleClosed_run id reason m3 (t ++ t1) [] Hob Hvalid Hdown eq_refl) as (t2 & H3).
  assert (callback_turn IMMEDIATE m2 (t ++ t1) = HandleClosed id reason m3 (t ++ t1)) as H4.
  { unfold callback_turn, mbind at 1, get.
    cbn [run_bind callbackEventHandler_ m2 m1 set_callbackEventHandler set_channelInfoMap take_first].
    rewrite bool_decide_true by done. done. }
  unfold mbind at 1. rewrite H4, H3. cbn [run_bind]. eexists _, _. split; [reflexivity|].
  split; [done|]. cbn -[map_find map_assign map_erase erase_all sockets_of shutdowns].
  split; [by rewrite map_find_erase, Z_key_eq, Z.eqb_refl|].
  split; [by rewrite map_find_erase, Z_key_eq, Z.eqb_refl|]. split.
  - intros s'. rewrite map_find_erase_all. destruct (existsb _ _) eqn:E; [done|]. intros Hs'.
    by rewrite (find_sockets_of s' id Hs') in E.
  - intros s' Hs'. rewrite !in_app_iff. right. right. unfold shutdowns. rewrite in_app_iff. left. unfold senders_of. cbn -[map_find map_assign].
    rewrite map_find_assign, Z_key_eq, Z.eqb_refl. cbn [dataSenderReceivers set_status].
    pose proof (has_senders (ok_info _ _ _ Hok Hi) _ Hs') as (d & Hd)%map_count_find.
    apply map_find_Some in Hd as (k & Hk & Hkey). rewrite Z_key_eq in Hkey. apply Z.eqb_eq in Hkey as <-.
    apply in_map_iff. by exists (k, d).
Qed.
End Properties.

(** ** From one device to another *)

Section EndToEnd.
Context {J : CJson} {SJ : StreamJson J} {Here There : ChannelEnv}.

(** C1 Bytes sent on a channel reach the listeners of the peer's channel: where softbus
    keeps granting one size and takes every packet, sending reports success, and the other
    device, fed the packets in their order, posts for each of its listeners one [OnBytes]
    with exactly the bytes sent and is ready for the next message; for messages of one
    packet and for messages of several full ones. *)
Theorem sent_bytes_reach_listeners max data id s d m t id' s' d' q m' t' :
  (forall t, GetSessionOption_ret (ChannelEnv := Here) t s = (ERR_OK, max)) ->
  (forall t p, SendBytes_ret (ChannelEnv := Here) t s p = SOFTBUS_OK) ->
  fits_one_packet max data \/ (exists k, fills_packets max data k) ->
  GetValidSocket id m = s -> 0 < s -> sender_at m id s = Some d ->
  obliging (Ev := There) -> carries m' s' id' d' -> receiver_ d' = init_receiver ->
  callbackEventHandler_ m' = Some q ->
  exists packets m1 b m2 t2,
    DoSendBytes (Ev := Here) id (buffer_of data) m t = Done (ERR_OK, m1, t ++ map (BytesSent s) packets) /\
    mfor packets (fun p => OnBytesReceived (Ev := There) s' (Some p)) m' t' = Done (tt, m2, t2) /\
    content b = data /\ carries m2 s' id' (with_receiver init_receiver d') /\
    callbackEventHandler_ m2 = Some (q ++ map (fun l => (LOW, TaskCall l (OnBytes id' b))) (listeners id' m')).
Proof.
  intros Hopt Hsend Hfit Hs Hpos Hd Hob Hc Hr Hq.
  destruct (sent_assembles max data (length data) ltac:(lia) Hfit) as (packets & Hrun & Has).
  rewrite <- Hr in Has. destruct (packets_received s' id' d' packets data q m' t' Hob Hc Has Hq)
    as (b & m2 & t2 & H1 & H2 & H3 & H4).
  exists packets, (put_sender id s d m), b, m2, t2. split; [|by split].
  unfold sender_at in Hd. unfold DoSendBytes, DoSendData, mbind at 1, get. cbn [run_bind]. rewrite Hs. cbv zeta.
  bool_lia. destruct (map_find (channelInfoMap_ m) id) as [i|]; [|done]. rewrite Hd.
  unfold mbind at 1, SendBytesData.
  rewrite (SendBytesData_steady _ _ max) by done.
  unfold Size. cbn [buffer_of rangeLength_]. unfold zlen at 1. rewrite Nat2Z.id. fold (buffer_of data).
  change (mkDataBuffer (zlen data) 0 (zlen data) (Some data)) with (buffer_of data).
  rewrite Hrun. cbn [run_bind]. unfold mbind, modify. cbn [run_bind]. done.
Qed.
End EndToEnd.

(** ** Runs to evaluate *)

Module DemoChannels.
(** Softbus grants packets of 100 bytes; sockets are numbered by what happened before. *)
Definition demo_env (first : Z) : ChannelEnv := {|
  SOFTBUS_LANE_WIFI_NOT_ONLINE := -7;
  Socket_ret t := first + Z.of_nat (length t);
  Listen_ret _ := 0;
  Bind_ret _ := 0;
  SetFileSchema_ret _ := 0;
  GetSessionOption_ret _ _ := (ERR_OK, 100);
  SendBytes_ret _ _ _ := SOFTBUS_OK;
  SendStream_ret _ := 0;
  SendFile_ret _ := 0;
  PostTask_ok _ := true;
  expired _ _ := false;
  GetRecvPath_ret _ := None;
  dlopen_ok _ := true;
  dlsym_ok _ := true;
  GetSoftbusFile_ret _ := (0, true);
  unordered l := l;
  junk _ := zero_header
|}.
#[export] Instance env : ChannelEnv := demo_env 7.

#[export] Instance env_ok : ChannelEnvOk env.
Proof.
  split; cbn; [intros; by_compute|done|done|]. intros _. unfold header_wf, is_u8, is_u16, is_u32. by_compute.
Qed.

#[export] Instance json : CJson := DemoJson.demo.
#[export] Instance stream_json : StreamJson json := DemoStream.demo.

Definition owner : bytes := replicate 64 97.
Definition peer : ChannelPeerInfo := mkPeerInfo owner (str "peer").

(** A bytes channel that a client's socket has joined, and one that has joined a server. *)
Definition server_moves : list Move :=
  [CallInit owner; CallCreateServerChannel (str "chat") BYTES peer; CallRegisterListener 2001 (Some 5);
   SocketConnected 9 (Some (client_socket_name owner BYTES (str "chat")));
   CallbackTurn IMMEDIATE; CallbackTurn IMMEDIATE; CallbackTurn IMMEDIATE].
Definition client_moves : list Move :=
  [CallInit owner; CallCreateClientChannel (str "chat") BYTES peer; CallConnectChannel 2001; CallbackTurn IMMEDIATE].

Definition run_of (l : list Move) : ChannelManager * list Effect :=
  match mfor l make_move Channels_init [] with Done (_, m, t) => (m, t) | _ => (Channels_init, []) end.

Definition server : ChannelManager := (run_of server_moves).1.
Definition client : ChannelManager := (run_of client_moves).1.

Lemma server_reachable : reachable server (run_of server_moves).2.
Proof.
  apply (reachable_run server_moves Channels_init []); [constructor| |vm_compute; reflexivity].
  repeat (apply Forall_cons_2; [first [exact I|idtac]|]); [|apply Forall_nil_2].
  intros n rest [= <-] Hrest. vm_compute in Hrest. injection Hrest as <-. right. by_compute.
Qed.

Lemma client_reachable : reachable client (run_of client_moves).2.
Proof.
  apply (reachable_run client_moves Channels_init []); [constructor| |vm_compute; reflexivity].
  repeat (apply Forall_cons_2; [exact I|]). apply Forall_nil_2.
Qed.

Lemma demo_obliging : obliging.
Proof. by split. Qed.
End DemoChannels.
Import DemoChannels.

(** Bytes, and a stream whose description is a pixel map. *)
Definition pixel_map_ext : AVTransStreamDataExt :=
  mkStreamDataExt AVCODEC_BUFFER_FLAG_PIXEL_MAP 1 0 0 0 0 (mkPixelMapOption 7 8 9) SurfaceParam_default.
Definition pixel_map_text : bytes :=
  match SerializeStreamDataExt pixel_map_ext with
  | Some root => match cJSON_PrintUnformatted root with Some text => text | None => [] end
  | None => []
  end.

Lemma pixel_map_readable : ext_readable (mkSoftbusData (Some pixel_map_text) (zlen pixel_map_text)).
Proof.
  intros text root o [= <-] Hp Ho. vm_compute in Hp. injection Hp as <-. vm_compute in Ho. injection Ho as <-.
  split_and!; intros i Hi; vm_compute in Hi; injection Hi as <-; eexists; (split; [reflexivity|]); by_compute.
Qed.

Lemma channel_run_safe_witness :
  (channels_ok server /\ exists m' t',
    make_move (BytesArrived 9 (Some [1; 2; 3])) server (run_of server_moves).2 = Done (tt, m', t') /\ reachable m' t') /\
  exists m' t', make_move (StreamArrived 9 (Some (mkSoftbusData (Some [1; 2]) 2))
    (Some (mkSoftbusData (Some pixel_map_text) (zlen pixel_map_text)))) server (run_of server_moves).2
    = Done (tt, m', t') /\ reachable m' t'.
Proof.
  split.
  - apply (channel_run_safe server (run_of server_moves).2); [exact server_reachable|].
    unfold move_ok, given, is_u8. by_compute.
  - apply (channel_run_safe server (run_of server_moves).2); [exact server_reachable|].
    split; [|exact pixel_map_readable]. split; by_compute.
Defined.

(** The id after the one of the first channel. *)
Lemma channel_ids_given_witness :
  exists n, map_find (nextIds_ server) BYTES = Some n /\
    CHANNEL_ID_GAP * (type_index BYTES + 1) < n <= CHANNEL_ID_GAP * (type_index BYTES + 2) /\
    (n < CHANNEL_ID_GAP * (type_index BYTES + 2) -> exists m',
      CreateServerChannel (str "more") BYTES peer server (run_of server_moves).2 = Done (n, m', (run_of server_moves).2) /\
      map_find (channelInfoMap_ server) n = None /\
      map_find (channelInfoMap_ m') n = Some (mkChannelInfo n UNCONNECTED BYTES (str "more") peer [] []) /\
      (forall id, id <> n -> map_find (channelInfoMap_ m') id = map_find (channelInfoMap_ server) id) /\
      map_find (nextIds_ m') BYTES = Some (n + 1)) /\
    (n = CHANNEL_ID_GAP * (type_index BYTES + 2) ->
      CreateServerChannel (str "more") BYTES peer server (run_of server_moves).2
        = Done (CREATE_SERVER_CHANNEL_FAILED, server, (run_of server_moves).2)).
Proof. apply (channel_ids_given (str "more") BYTES peer server (run_of server_moves).2). exact server_reachable. Defined.

Lemma client_name_finds_channel_witness :
  OnSocketConnected 11 (Some (client_socket_name owner BYTES (str "chat"))) server [] = Done (tt,
    set_callbackEventHandler (Some ([] ++ [(IMMEDIATE, TaskUpdateChannel 11 2001)])) server, [] ++ [Query]).
Proof.
  apply (client_name_finds_channel owner BYTES (str "chat") 11 server [] []); try by_compute.
  - vm_compute. repeat (apply Forall_cons_2; [discriminate|]). apply Forall_nil_2.
  - vm_compute. repeat (apply Forall_cons_2; [discriminate|]). apply Forall_nil_2.
  - vm_compute. repeat (apply Forall_cons_2; [discriminate|]). apply Forall_nil_2.
Defined.

Lemma short_peer_name_throws_witness :
  OnSocketConnected 11 (Some (SESSION_NAME_PREFIX ++ owner ++ SPLIT_FLAG ++ type_prefix FILE)) server [] = Undefined.
Proof.
  apply (short_peer_name_throws owner FILE 11 server []); try by_compute.
  - vm_compute. repeat (apply Forall_cons_2; [discriminate|]). apply Forall_nil_2.
  - vm_compute. repeat (apply Forall_cons_2; [discriminate|]). apply Forall_nil_2.
Defined.

(** Softbus gives no socket. *)
Lemma second_init_hides_failure_witness :
  exists ret m1 t1 m2,
    Init (Ev := demo_env (-1)) owner Channels_init [] = Done (ret, m1, t1) /\ ret <> ERR_OK /\
    Init (Ev := demo_env (-1)) owner m1 t1 = Done (ERR_OK, m2, t1) /\ initialized_ m2 = true /\ serverSocketId_ m2 = -1.
Proof. apply (second_init_hides_failure (Ev := demo_env (-1)) owner owner []). left. by_compute. Defined.

Lemma null_data_reported_to_wrong_socket_witness :
  (map_find (socketChannelMap_ server) 2001 = None -> OnBytesReceived 9 None server [] = Done (tt, server, [])) /\
  (forall other, map_find (socketChannelMap_ server) 2001 = Some other -> isValidChannelId other = true ->
    OnBytesReceived 9 None server [] = DoErrorCallback other RECV_DATA_EMPTY server []).
Proof. apply (null_data_reported_to_wrong_socket 9 2001 server []); by_compute. Defined.

Lemma reused_socket_shut_down_witness :
  exists m', RegisterSocket 9 2001 server [] = Done (ERR_OK, m', [] ++ [ShutdownCalled 9]) /\
    GetSocketStatus 9 m' = CONNECTED /\ map_find (socketChannelMap_ m') 9 = Some 2001.
Proof.
  eapply (reused_socket_shut_down 9 2001 _ server []); [vm_compute; reflexivity|vm_compute; reflexivity|discriminate].
Defined.

Lemma closed_channel_removed_witness :
  exists m' t',
    mfor [SocketClosed 9 4; CallbackTurn IMMEDIATE; CallbackTurn IMMEDIATE] make_move server (run_of server_moves).2
      = Done (tt, m', t') /\
    callbackEventHandler_ m' = Some [(IMMEDIATE, TaskCall 5 (OnDisConnect 2001 4))] /\
    map_find (channelInfoMap_ m') 2001 = None /\ map_find (listenersMap_ m') 2001 = None /\
    (forall s', map_find (socketChannelMap_ m') s' <> Some 2001) /\
    (forall s', In s' [9] -> In (ShutdownCalled s') t').
Proof.
  pose proof (closed_channel_removed 9 2001 4 (mkChannelInfo 2001 CONNECTED BYTES (str "chat") peer [9]
    [(9, new_socket_data)]) server (run_of server_moves).2 server_reachable demo_obliging) as H.
  apply H; try (vm_compute; reflexivity). intros s' [<-|[]] Hne. by destruct Hne.
Defined.

Lemma sent_bytes_reach_listeners_witness :
  exists packets m1 b m2 t2,
    DoSendBytes 2001 (buffer_of [7; 8; 9]) client [] = Done (ERR_OK, m1, [] ++ map (BytesSent (GetValidSocket 2001 client)) packets) /\
    mfor packets (fun p => OnBytesReceived 9 (Some p)) server [] = Done (tt, m2, t2) /\
    content b = [7; 8; 9] /\ carries m2 9 2001 (with_receiver init_receiver new_socket_data) /\
    callbackEventHandler_ m2 = Some ([] ++ [(LOW, TaskCall 5 (OnBytes 2001 b))]).
Proof.
  pose proof (sent_bytes_reach_listeners (Here := env) (There := env) 100 [7; 8; 9] 2001
    (GetValidSocket 2001 client) new_socket_data client [] 2001 9 new_socket_data [] server []
    (fun _ => eq_refl) (fun _ _ => eq_refl)) as H.
  apply H.
  - left. unfold fits_one_packet. by_compute.
  - reflexivity.
  - vm_compute. reflexivity.
  - vm_compute. reflexivity.
  - exact demo_obliging.
  - split; vm_compute; reflexivity.
  - reflexivity.
  - vm_compute. reflexivity.
Defined.
