(* ===== verification/ChannelService.v ===== *)
(** * The channels as their users see them

    A session of two abilities knows the channel manager by the calls it makes: an
    interface, with what the calls promise about the channels that exist, and the channel
    manager of [ChannelManager.v] as an instance.  The manager works between the calls: its
    threads take turns and softbus calls it back ([serve_move]); that may close channels but
    opens none. *)

From Stdlib Require Import ZArith Lia.
From stdpp Require Import base list option.
From S2P Require Import Prelude ErrorCodes DataBuffer StdMap StdString Effects Framework StreamData ChannelManager ChannelManagerLemmas.
Import ErrorCodes.DtbCollab.

(** The calls of the channel manager that sessions make. *)
Inductive ChannelRequest :=
| ReqInit (ownerName : bytes)
| ReqCreate (isClientChannel : bool) (channelName : bytes) (dataType : ChannelDataType) (peer : ChannelPeerInfo)
| ReqListen (id : Z) (listener : option Z)
| ReqConnect (id : Z)
| ReqDelete (id : Z)
| ReqBytes (id : Z) (data : option DataBuffer)
| ReqMessage (sync : bool) (id : Z) (data : option DataBuffer)
| ReqFile (id : Z) (sFiles dFiles : list bytes)
| ReqClear (id : Z).

Class ChannelService := {
  service : Type;
  serve : ChannelRequest -> service -> run (Z * service);
  service_move : Type;
  serve_move : service_move -> service -> run service;
  (** Whether a channel is there. *)
  live : service -> Z -> bool
}.

Definition request_ok (r : ChannelRequest) : Prop :=
  match r with
  | ReqBytes _ data | ReqMessage _ _ data => given buffer_wf data
  | _ => True
  end.

(** What a request answers and does to the channels.  An id is given to one channel only. *)
Definition channels_after (used_before used_after : Z -> Prop) (live_before live_after : Z -> bool)
    (r : ChannelRequest) (ret : Z) : Prop :=
  match r with
  | ReqCreate _ _ _ _ =>
    if isValidChannelId ret
    then ~ used_before ret /\ used_after ret /\ forall id, live_after id = (id =? ret) || live_before id
    else forall id, live_after id = live_before id
  | ReqDelete id' => forall id, live_after id = negb (id =? id') && live_before id
  | _ => forall id, live_after id = live_before id
  end.

Class ChannelServiceOk (C : ChannelService) := {
  service_ok : service -> Prop;
  (** The ids given so far. *)
  used : service -> Z -> Prop;
  service_move_ok : service_move -> Prop;
  live_used s id : service_ok s -> live s id = true -> used s id;
  serve_ok r s : request_ok r -> service_ok s ->
    exists ret s', serve r s = Done (ret, s') /\ service_ok s' /\
      (forall id, used s id -> used s' id) /\
      channels_after (used s) (used s') (live s) (live s') r ret;
  serve_move_ok mv s : service_move_ok mv -> service_ok s ->
    exists s', serve_move mv s = Done s' /\ service_ok s' /\
      (forall id, used s id -> used s' id) /\
      (forall id, live s' id = true -> live s id = true)
}.

(** ** The channel manager *)

Section Implementation.
Context {J : CJson} {SJ : StreamJson J} {Ev : ChannelEnv}.

Definition request (r : ChannelRequest) : Ch Z :=
  match r with
  | ReqInit ownerName => Init ownerName
  | ReqCreate isClientChannel channelName dataType peer =>
    if isClientChannel then CreateClientChannel channelName dataType peer
    else CreateServerChannel channelName dataType peer
  | ReqListen id listener => RegisterChannelListener id listener
  | ReqConnect id => ConnectChannel id
  | ReqDelete id => DeleteChannel id
  | ReqBytes id data => SendBytes id data
  | ReqMessage sync id data => if sync then SendMessageSync id data else SendMessage id data
  | ReqFile id sFiles dFiles => SendFile id sFiles dFiles
  | ReqClear id => do! ClearSendTask id in mret ERR_OK
  end.

(** What happens between the requests. *)
Definition internal (mv : Move) : bool :=
  match mv with
  | CallInit _ | CallDeInit | CallCreateServerChannel _ _ _ | CallCreateClientChannel _ _ _
  | CallDeleteChannel _ | CallRegisterListener _ _ | CallConnectChannel _ | CallSendBytes _ _
  | CallSendStream _ _ | CallSendMessage _ _ | CallSendMessageSync _ _ | CallSendFile _ _ _ => false
  | _ => true
  end.

#[export] Instance channel_manager_service : ChannelService := {|
  service := ChannelManager * list Effect;
  serve r '(m, t) := let* (ret, m, t) := request r m t in Done (ret, (m, t));
  service_move := Move;
  serve_move mv '(m, t) := let* (_, m, t) := make_move mv m t in Done (m, t);
  live '(m, _) id := map_count (channelInfoMap_ m) id
|}.

(** ** Which channels an operation leaves *)

(** Neither the channels nor the next ids change. *)
Definition same_channels (m : ChannelManager) (_ : list Effect) (m' : ChannelManager) (_ : list Effect) : Prop :=
  nextIds_ m' = nextIds_ m /\
  forall id, map_count (channelInfoMap_ m') id = map_count (channelInfoMap_ m) id.

(** Channels go and none come. *)
Definition fewer_channels (m : ChannelManager) (_ : list Effect) (m' : ChannelManager) (_ : list Effect) : Prop :=
  nextIds_ m' = nextIds_ m /\
  forall id, map_count (channelInfoMap_ m') id = true -> map_count (channelInfoMap_ m) id = true.

Lemma same_channels_refl m t : same_channels m t m t.
Proof. done. Qed.
Lemma same_channels_trans m1 t1 m2 t2 m3 t3 :
  same_channels m1 t1 m2 t2 -> same_channels m2 t2 m3 t3 -> same_channels m1 t1 m3 t3.
Proof. intros (E1 & H1) (E2 & H2). split; [congruence|]. intros id. by rewrite H2. Qed.
Lemma fewer_channels_refl m t : fewer_channels m t m t.
Proof. done. Qed.
Lemma fewer_channels_trans m1 t1 m2 t2 m3 t3 :
  fewer_channels m1 t1 m2 t2 -> fewer_channels m2 t2 m3 t3 -> fewer_channels m1 t1 m3 t3.
Proof. intros (E1 & H1) (E2 & H2). split; [congruence|]. auto. Qed.
Lemma same_fewer {A} (c : Ch A) : preserves same_channels c -> preserves fewer_channels c.
Proof. intros H m t a m' t' Hrun. apply H in Hrun as (E & Hc). split; [done|]. intros id. by rewrite Hc. Qed.

(** An entry that is there already is replaced. *)
Lemma count_replaced {V} (l : std_map Z V) k v id :
  map_count l k = true -> map_count (map_assign l k v) id = map_count l id.
Proof. intros Hk. rewrite map_count_assign. by destruct (Z.eqb_spec k id) as [->|]. Qed.

Create HintDb same_channels.

Ltac same :=
  preserves_with same_channels_refl same_channels_trans ltac:(first
    [ solve [eauto 2 with same_channels]
    | match goal with
      | |- preserves _ (ask _) => apply preserves_call; done
      | |- preserves _ (call _ _) => apply preserves_call; done
      | |- preserves _ (emit _) => apply preserves_emit; done
      | |- preserves _ (modify _) => apply preserves_modify; intros ? ?
      | |- same_channels _ _ _ _ => solve [done]
      end ]).

Lemma same_mfor {A} (l : list A) (f : A -> Ch unit) :
  (forall a, preserves same_channels (f a)) -> preserves same_channels (mfor l f).
Proof. intros Hf. induction l as [|a l IH]; cbn [mfor]; same. Qed.

Hint Resolve same_mfor : same_channels.

Lemma PostTask_same task name : preserves same_channels (PostTask task name).
Proof. unfold PostTask. same. Qed.
Lemma PostMsgTask_same task : preserves same_channels (PostMsgTask task).
Proof. unfold PostMsgTask. same. Qed.
Lemma PostCallbackTask_same task p : preserves same_channels (PostCallbackTask task p).
Proof. unfold PostCallbackTask. same. Qed.
Lemma PostCallbackTaskNew_same listener c : preserves same_channels (PostCallbackTaskNew listener c).
Proof. unfold PostCallbackTaskNew. same. Qed.
Hint Resolve PostTask_same PostMsgTask_same PostCallbackTask_same PostCallbackTaskNew_same : same_channels.

Lemma NotifyListeners_same id p c : preserves same_channels (NotifyListeners id p c).
Proof. unfold NotifyListeners, listeners_of. same. apply same_mfor. intros. same. Qed.
Lemma NotifyListenersNew_same id c : preserves same_channels (NotifyListenersNew id c).
Proof. unfold NotifyListenersNew, listeners_of. same. apply same_mfor. intros. same. Qed.
Hint Resolve NotifyListeners_same NotifyListenersNew_same : same_channels.
Lemma DoErrorCallback_same id code : preserves same_channels (DoErrorCallback id code).
Proof. apply NotifyListeners_same. Qed.
Hint Resolve DoErrorCallback_same : same_channels.

Lemma CleanInvalidListener_same l : preserves same_channels (CleanInvalidListener l).
Proof. induction l as [|x l IH]; cbn [CleanInvalidListener]; same. Qed.
Hint Resolve CleanInvalidListener_same : same_channels.
Lemma RegisterChannelListener_same id l : preserves same_channels (RegisterChannelListener id l).
Proof. unfold RegisterChannelListener. same. Qed.

Lemma SetChannelStatus_same id st : preserves same_channels (SetChannelStatus id st).
Proof.
  intros m t a m' t'. unfold SetChannelStatus. unfold mbind, get, modify. cbn [run_bind].
  destruct (map_find (channelInfoMap_ m) id) as [i|] eqn:Hi; intros [= <- <- <-]; [|done].
  split; [done|]. intros x. apply count_replaced. unfold map_count. by rewrite Hi.
Qed.
Hint Resolve SetChannelStatus_same : same_channels.
Lemma UpdateChannelStatus_same id : preserves same_channels (UpdateChannelStatus id).
Proof. unfold UpdateChannelStatus. same. Qed.
Lemma SetSocketStatus_same s st : preserves same_channels (SetSocketStatus s st).
Proof. unfold SetSocketStatus. same. Qed.
Hint Resolve UpdateChannelStatus_same SetSocketStatus_same : same_channels.

Lemma bind_loop_same n s speed k : preserves same_channels (bind_loop n s speed k).
Proof. revert k. induction n as [|n IH]; intros k; cbn [bind_loop]; same. Qed.
Hint Resolve bind_loop_same : same_channels.
Lemma undefined_same {A} : preserves same_channels (undefined (A := A)).
Proof. done. Qed.
Hint Resolve undefined_same : same_channels.
Lemma BindSocket_same s ty : preserves same_channels (BindSocket s ty).
Proof. unfold BindSocket, set_file_schema. same. Qed.
Hint Resolve BindSocket_same : same_channels.
Lemma run_binds_same l ty : preserves same_channels (run_binds l ty).
Proof. induction l as [|s l IH]; cbn [run_binds]; same. Qed.
Hint Resolve run_binds_same : same_channels.
Lemma ConnectChannel_same id : preserves same_channels (ConnectChannel id).
Proof. unfold ConnectChannel, DoBindSockets. same. Qed.

Lemma put_sender_same id s d m t t' : same_channels m t (put_sender id s d m) t'.
Proof.
  unfold put_sender. destruct (map_find (channelInfoMap_ m) id) as [i|] eqn:Hi; [|done].
  split; [done|]. intros x. apply count_replaced. unfold map_count. by rewrite Hi.
Qed.
Hint Resolve put_sender_same : same_channels.

Lemma DoSendData_same id send :
  (forall s d, preserves same_channels (send s d)) -> preserves same_channels (DoSendData id send).
Proof. intros Hs. unfold DoSendData. same. Qed.
Lemma SendBytesData_same data s d : preserves same_channels (SendBytesData data s d).
Proof.
  intros m t a m' t'. unfold SendBytesData. destruct (DataSenderReceiver.SendBytesData _ _ _ _ _) as [[r l]| |];
    [|done..]. by intros [= <- <- <-].
Qed.
Lemma SendStreamData_same data s d : preserves same_channels (SendStreamData data s d).
Proof. unfold SendStreamData. same. Qed.
Lemma SendMessageData_same data s d : preserves same_channels (SendMessageData data s d).
Proof. unfold SendMessageData. same. Qed.
Lemma SendFileData_same f g s d : preserves same_channels (SendFileData f g s d).
Proof. unfold SendFileData. same. Qed.
Hint Resolve DoSendData_same SendBytesData_same SendStreamData_same SendMessageData_same SendFileData_same : same_channels.

Lemma SendBytes_same id data : preserves same_channels (SendBytes id data).
Proof. unfold SendBytes. same. Qed.
Lemma SendMessage_same id data : preserves same_channels (SendMessage id data).
Proof. unfold SendMessage. same. Qed.
Lemma SendMessageSync_same id data : preserves same_channels (SendMessageSync id data).
Proof. unfold SendMessageSync, DoSendMessage. same. Qed.
Lemma SendFile_same id f g : preserves same_channels (SendFile id f g).
Proof. unfold SendFile. same. Qed.

Lemma GetDmsInteractiveAdapterProxy_same : preserves same_channels GetDmsInteractiveAdapterProxy.
Proof. unfold GetDmsInteractiveAdapterProxy. same. Qed.
Hint Resolve GetDmsInteractiveAdapterProxy_same : same_channels.
Lemma Init_same name : preserves same_channels (Init name).
Proof. unfold Init, WaitForEventHandlerThread, CreateServerSocket. same. Qed.

(** ** Creating and deleting *)

(** A counter of ids has passed [id]. *)
Definition id_used (m : ChannelManager) (id : Z) : Prop :=
  exists ty n, map_find (nextIds_ m) ty = Some n /\ CHANNEL_ID_GAP * (type_index ty + 1) < id < n.

Lemma count_used m id : channels_ok m -> map_count (channelInfoMap_ m) id = true -> id_used m id.
Proof.
  intros Hok (i & Hi)%map_count_find. destruct (id_given (ok_info _ _ _ Hok Hi)) as (n & Hn & Hid).
  by exists (dataType i), n.
Qed.

Lemma same_used m t m' t' id : same_channels m t m' t' -> id_used m id -> id_used m' id.
Proof. intros (E & _). unfold id_used. by rewrite E. Qed.

Lemma fewer_used m t m' t' id : fewer_channels m t m' t' -> id_used m id -> id_used m' id.
Proof. intros (E & _). unfold id_used. by rewrite E. Qed.

Lemma GenerateNextId_new ty m t :
  channels_ok m -> exists ret m', GenerateNextId ty m t = Done (ret, m', t) /\
    channelInfoMap_ m' = channelInfoMap_ m /\ (forall id, id_used m id -> id_used m' id) /\
    (isValidChannelId ret = true -> ~ id_used m ret /\ id_used m' ret).
Proof.
  intros Hok. destruct (next_ok (ok_tables _ Hok) ty) as (n & Hn & Hrange).
  unfold GenerateNextId, mbind, get, modify. cbn [run_bind]. rewrite Hn.
  destruct (CHANNEL_ID_GAP <=? _) eqn:E; [by eexists _, _|]. eexists _, _. split; [done|]. split; [done|].
  assert (forall ty', map_find (map_assign (nextIds_ m) ty (n + 1)) ty' =
    if decide (ty = ty') then Some (n + 1) else map_find (nextIds_ m) ty') as Hfind.
  { intros ty'. apply find_next. }
  split; [|intros _; split].
  - intros id (ty' & n' & Hn' & Hid). exists ty'. cbn -[map_find map_assign]. rewrite Hfind.
    destruct (decide (ty = ty')) as [<-|]; [|by exists n']. exists (n + 1). split; [done|].
    assert (n' = n) as -> by congruence. lia.
  - intros (ty' & n' & Hn' & Hid). destruct (next_ok (ok_tables _ Hok) ty') as (n2 & Hn2 & Hrange2).
    assert (n2 = n') as -> by congruence. unfold CHANNEL_ID_GAP in *.
    assert (type_index ty = type_index ty') as <-%type_index_inj by lia.
    assert (n' = n) by congruence. lia.
  - exists ty, (n + 1). cbn -[map_find map_assign]. rewrite Hfind, decide_True by done. split; [done|]. lia.
Qed.

(** The channel that [enter_channel] adds. *)
Lemma count_entered i m id :
  map_count (channelInfoMap_ m) (channelId i) = false ->
  map_count (channelInfoMap_ (enter_channel i m)) id = (id =? channelId i) || map_count (channelInfoMap_ m) id.
Proof.
  intros Hnone. unfold enter_channel. cbn -[map_count map_emplace]. unfold map_emplace. rewrite Hnone.
  by rewrite map_count_assign, Z.eqb_sym.
Qed.

Lemma not_used_count m id : channels_ok m -> ~ id_used m id -> map_count (channelInfoMap_ m) id = false.
Proof. intros Hok Hid. destruct (map_count _ id) eqn:E; [|done]. by apply count_used in E. Qed.

(** What a call does to the channels of the manager. *)
Definition changes_channels (r : ChannelRequest) (c : Ch Z) : Prop :=
  forall m t ret m' t', channels_ok m -> c m t = Done (ret, m', t') ->
    (forall id, id_used m id -> id_used m' id) /\
    channels_after (id_used m) (id_used m') (map_count (channelInfoMap_ m)) (map_count (channelInfoMap_ m')) r ret.

Lemma CreateServerChannel_changes b name ty peer :
  changes_channels (ReqCreate b name ty peer) (CreateServerChannel name ty peer).
Proof.
  intros m t ret m' t' Hok. destruct (GenerateNextId_new ty m t Hok) as (id & m1 & Hrun & Hinfos & Hused & Hnew).
  unfold CreateServerChannel, CreateBaseChannel, mbind. rewrite Hrun. cbn [run_bind mret].
  destruct (isValidChannelId id) eqn:Hid; intros [= <- <- <-]; cbn [channels_after]; (split; [done|]).
  - cbn [channelId]. rewrite Hid. destruct (Hnew eq_refl) as (H1 & H2). split; [done|]. split; [done|].
    intros x. cbn [channelInfoMap_ set_fileChannelId]. rewrite count_entered; cbn [channelId]; rewrite Hinfos; [done|].
    by apply not_used_count.
  - intros x. by rewrite Hinfos.
Qed.

Lemma CreateClientChannel_changes b name ty peer :
  changes_channels (ReqCreate b name ty peer) (CreateClientChannel name ty peer).
Proof.
  intros m t ret m' t' Hok. destruct (GenerateNextId_new ty m t Hok) as (id & m1 & Hrun & Hinfos & Hused & Hnew).
  unfold CreateClientChannel, CreateBaseChannel, register_client_socket, CreateClientSocket, mbind.
  rewrite Hrun. cbn [run_bind mret get]. destruct (isValidChannelId id) eqn:Hid; cbn [channelName peerInfo].
  2:{ intros [= <- <- <-]. split; [done|]. intros x. by rewrite Hinfos. }
  set (s := if MAX_CHANNEL_NAME_LENGTH <? zlen name then _ else _).
  destruct (Hnew eq_refl) as (H1 & H2).
  assert (exists r t1, s m1 t = Done (r, m1, t1)) as (r & t1 & ->).
  { unfold s. destruct (_ <? _); [by eexists _, _|]. by eexists _, _. }
  cbn [run_bind mret]. destruct (r <=? 0); unfold modify; cbn [run_bind mret].
  - intros [= <- <- <-]. split; [done|]. intros x. by rewrite Hinfos.
  - intros [= <- <- <-]. split; [done|]. cbn [channels_after channelId Z.eqb ERR_OK]. rewrite Hid.
    split; [done|]. split; [done|]. intros x. rewrite count_entered; cbn -[map_count]; rewrite Hinfos; [done|].
    by apply not_used_count.
Qed.

Lemma count_erased {V} (l : std_map Z V) k x :
  map_count (map_erase l k) x = negb (x =? k) && map_count l x.
Proof. unfold map_count. rewrite map_find_erase, Z_key_eq, Z.eqb_sym. by destruct (x =? k). Qed.

Lemma DeleteChannel_changes id : changes_channels (ReqDelete id) (DeleteChannel id).
Proof.
  intros m t ret m' t' Hok. destruct (isValidChannelId id) eqn:Hid.
  - rewrite DeleteChannel_run by done. intros [= <- <- <-]. split; [done|]. intros x. cbn -[map_count map_erase].
    apply count_erased.
  - unfold DeleteChannel. rewrite Hid. intros [= <- <- <-]. split; [done|]. intros x.
    destruct (Z.eqb_spec x id) as [->|]; [|done]. destruct (map_count _ id) eqn:E; [|done].
    apply map_count_find in E as (i & Hi). by rewrite (given_valid _ _ _ Hok Hi) in Hid.
Qed.

Lemma same_changes r c :
  (forall used used' live live' ret, channels_after used used' live live' r ret = forall id, live' id = live id) ->
  preserves same_channels c -> changes_channels r c.
Proof.
  intros Hr Hc m t ret m' t' _ Hrun. apply Hc in Hrun as H. split; [intros id; by eapply same_used|].
  rewrite Hr. apply H.
Qed.

Lemma request_changes r : changes_channels r (request r).
Proof.
  destruct r as [| [] | | | | |[]| |]; cbn [request];
    try (apply same_changes; [done|]; auto using Init_same, RegisterChannelListener_same, ConnectChannel_same,
      SendBytes_same, SendMessageSync_same, SendMessage_same, SendFile_same; fail).
  - apply CreateClientChannel_changes.
  - apply CreateServerChannel_changes.
  - apply DeleteChannel_changes.
  - apply same_changes; [done|]. unfold ClearSendTask. same.
Qed.

(** ** Between the requests *)

Ltac fewer :=
  preserves_with fewer_channels_refl fewer_channels_trans ltac:(first
    [ solve [apply same_fewer; eauto 2 with same_channels]
    | solve [eauto 2 with fewer_channels]
    | match goal with
      | |- preserves _ (ask _) => apply preserves_call; done
      | |- preserves _ (call _ _) => apply preserves_call; done
      | |- preserves _ (emit _) => apply preserves_emit; done
      | |- preserves _ (modify _) => apply preserves_modify; intros ? ?
      | |- fewer_channels _ _ _ _ => solve [done]
      end ]).

Create HintDb fewer_channels.

Lemma DeleteChannel_fewer id : preserves fewer_channels (DeleteChannel id).
Proof.
  intros m t a m' t'. destruct (isValidChannelId id) eqn:Hid.
  - rewrite DeleteChannel_run by done. intros [= <- <- <-]. split; [done|]. intros x. cbn -[map_count map_erase].
    rewrite count_erased. by intros (_ & ?)%andb_prop.
  - unfold DeleteChannel. rewrite Hid. by intros [= <- <- <-].
Qed.
Hint Resolve DeleteChannel_fewer : fewer_channels.

Lemma HandleClosed_fewer id reason : preserves fewer_channels (HandleClosed id reason).
Proof. unfold HandleClosed, DoDisConnectCallback. fewer. Qed.
Hint Resolve HandleClosed_fewer : fewer_channels.

Lemma with_channel_same s k :
  (forall id, preserves same_channels (k id)) -> preserves same_channels (with_channel s k).
Proof. intros Hk. unfold with_channel. same. Qed.
Lemma OnSocketError_same s code : preserves same_channels (OnSocketError s code).
Proof. apply with_channel_same. intros id. same. Qed.
Hint Resolve OnSocketError_same : same_channels.
Lemma with_data_same {A} id (data : option A) k :
  (forall a, preserves same_channels (k a)) -> preserves same_channels (with_data id data k).
Proof. intros Hk. unfold with_data. same. Qed.

Lemma OnSocketConnected_same s name : preserves same_channels (OnSocketConnected s name).
Proof. unfold OnSocketConnected. same. Qed.

Lemma set_file_schema_same s : preserves same_channels (set_file_schema s).
Proof. unfold set_file_schema. same. Qed.
Hint Resolve set_file_schema_same : same_channels.

Lemma RegisterSocket_same s id : preserves same_channels (RegisterSocket s id).
Proof.
  intros m t a m' t'. unfold RegisterSocket. unfold mbind at 1, get at 1. cbn [run_bind].
  destruct (map_find (channelInfoMap_ m) id) as [i|] eqn:Hi; [|by intros [= <- <- <-]]. cbv zeta.
  unfold mbind at 1, modify at 1. cbn [run_bind]. intros Hrun.
  match type of Hrun with ?c _ _ = _ => assert (preserves same_channels c) as Hrest by (unfold shutdown; same) end.
  apply Hrest in Hrun as (E & Hc). split; [done|]. intros x. rewrite Hc. cbn -[map_count map_assign].
  apply count_replaced. unfold map_count. by rewrite Hi.
Qed.
Hint Resolve RegisterSocket_same : same_channels.
Lemma UpdateChannel_same s id : preserves same_channels (UpdateChannel s id).
Proof. unfold UpdateChannel, DoConnectCallback. same. Qed.
Hint Resolve UpdateChannel_same : same_channels.
Lemma OnSocketClosed_same s reason : preserves same_channels (OnSocketClosed s reason).
Proof. apply with_channel_same. intros id. same. Qed.

Lemma ProcessRecvData_same id s data : preserves same_channels (ProcessRecvData id s data).
Proof. unfold ProcessRecvData. same. Qed.
Hint Resolve ProcessRecvData_same : same_channels.
Lemma OnBytesReceived_same s data : preserves same_channels (OnBytesReceived s data).
Proof.
  apply with_channel_same. intros id. apply with_data_same. intros l. unfold DoBytesReceiveCallback. same.
Qed.
Lemma OnMessageReceived_same s data n : preserves same_channels (OnMessageReceived s data n).
Proof.
  unfold OnMessageReceived. destruct (_ <? _); [same|]. apply with_channel_same. intros id. apply with_data_same.
  intros l. unfold DoMessageReceiveCallback. same.
Qed.
Lemma OnStreamReceived_same s data ext : preserves same_channels (OnStreamReceived s data ext).
Proof.
  apply with_channel_same. intros id. apply with_data_same. intros l. apply with_data_same. intros e.
  unfold DoStreamReceiveCallback. same.
Qed.
Lemma DispatchProcessFileEvent_same id e : preserves same_channels (DispatchProcessFileEvent id e).
Proof.
  unfold DispatchProcessFileEvent, DealFileSendEvent, DealFileRecvEvent, DealFileErrorEvent,
    DoFileSendCallback, DoFileRecvCallback. same.
Qed.
Hint Resolve DispatchProcessFileEvent_same : same_channels.
Lemma OnFileEventReceived_same s e : preserves same_channels (OnFileEventReceived s e).
Proof. unfold OnFileEventReceived. same. Qed.
Lemma GetRecvPathFromUser_same : preserves same_channels GetRecvPathFromUser.
Proof.
  unfold GetRecvPathFromUser. apply preserves_mbind; [exact same_channels_trans|same|]. intros m. cbv zeta.
  apply preserves_mbind; [exact same_channels_trans|unfold listeners_of; same|].
  intros l. induction l as [|x l IH]; same.
Qed.

Lemma run_send_task_same task : preserves same_channels (run_send_task task).
Proof. unfold run_send_task, DoSendBytes, DoSendStream, DoSendFile. same. Qed.
Lemma send_turn_same : preserves same_channels send_turn.
Proof. unfold send_turn. pose proof run_send_task_same. same. Qed.
Lemma msg_turn_same : preserves same_channels msg_turn.
Proof. unfold msg_turn, DoSendMessage. same. Qed.
Lemma run_callback_task_fewer task : preserves fewer_channels (run_callback_task task).
Proof. unfold run_callback_task. fewer. Qed.
Hint Resolve run_callback_task_fewer : fewer_channels.
Lemma callback_turn_fewer p : preserves fewer_channels (callback_turn p).
Proof. unfold callback_turn. fewer. Qed.
Lemma callback_new_turn_same : preserves same_channels callback_new_turn.
Proof. unfold callback_new_turn. same. Qed.
Lemma socket_turn_same id s : preserves same_channels (socket_turn id s).
Proof. unfold socket_turn. same. Qed.

Lemma internal_fewer mv : internal mv = true -> preserves fewer_channels (make_move mv).
Proof.
  destruct mv; intros Hmv; try done; cbn [make_move]; try (by apply callback_turn_fewer); apply same_fewer;
    auto using OnSocketConnected_same, OnSocketClosed_same, OnSocketError_same, OnBytesReceived_same,
      OnMessageReceived_same, OnStreamReceived_same, OnFileEventReceived_same, send_turn_same, msg_turn_same,
      callback_new_turn_same, socket_turn_same.
  apply preserves_mbind; [exact same_channels_trans|apply GetRecvPathFromUser_same|]. intros _. same.
Qed.

(** ** The instance keeps its promises *)

Context {EvOk : ChannelEnvOk Ev}.

Lemma request_keeps r : request_ok r -> keeps (request r).
Proof.
  destruct r as [| [] | | | | |[]| |]; cbn [request request_ok]; intros Hr;
    auto using Init_keeps, CreateClientChannel_keeps, CreateServerChannel_keeps, RegisterChannelListener_keeps,
      ConnectChannel_keeps, DeleteChannel_keeps, SendBytes_keeps, SendMessage_keeps, SendMessageSync_keeps,
      SendFile_keeps.
  apply keeps_mbind; [|intros _; apply keeps_mret]. apply keeps_modify. intros m [H1 H2 H3 H4 H5].
  split; [done| |done|done|]; cbn; destruct (eventHandler_ m) as [q|]; try done.
  cbn in *. apply List.Forall_forall. intros p (Hp & _)%List.filter_In. by eapply List.Forall_forall in H2.
Qed.

#[export, refine] Instance channel_manager_service_ok : ChannelServiceOk channel_manager_service := {|
  service_ok (s : service) := channels_ok s.1;
  used (s : service) := id_used s.1;
  service_move_ok mv := internal mv = true /\ move_ok mv;
  live_used := _;
  serve_ok := _;
  serve_move_ok := _
|}.
Proof.
  - intros [m t] id Hok. by apply count_used.
  - intros r [m t] Hr Hok. destruct (request_keeps r Hr m t Hok) as (ret & m' & t' & Hrun & Hok').
    exists ret, (m', t'). cbn. rewrite Hrun. split; [done|]. split; [done|]. by eapply request_changes.
  - intros mv [m t] (Hint & Hmv) Hok. destruct (make_move_keeps mv Hmv m t Hok) as (u & m' & t' & Hrun & Hok').
    exists (m', t'). cbn. rewrite Hrun. split; [done|]. split; [done|].
    apply internal_fewer in Hrun as H; [|done]. split; [|apply H]. intros id. by eapply fewer_used.
Defined.
End Implementation.
