(* ===== verification/AbilityConnection.v ===== *)
(** * Sessions of connected abilities

    dtbcollabmgr ability_connection_manager/ability_connection_manager.cpp and
    ability_connection_session.cpp: an application creates a session with a peer, connects
    or accepts, and exchanges messages, data, files and streams over the channels of
    [ChannelService.v]; messages are framed by [MessageHeader.v].

    The state is [Connections]: the manager's tables, the session objects, and what waits.
    An object lives while the manager's map or a waiting call holds it; the tasks of its
    event thread and the detached threads have its bare address, so that using it after its
    end is [Undefined].  A call from the application, from the distributed scheduler, from a
    channel or of a thread is a [Move]; [ConnectChannels] binds its channels one after the
    other.  A message or data that arrives while the session is connecting waits, at most
    eleven seconds ([waiters]).  The engines of streams, the distributed scheduler, the
    digest and the listeners are asked through [ConnectionEnv]. *)

From Stdlib Require Import ZArith Lia String.
From stdpp Require Import base list option.
From S2P Require Import Prelude ErrorCodes DataBuffer StdMap StdString Effects Framework ChannelManager ChannelService MessageHeader.
Import ErrorCodes.DtbCollab.

(** ** Data *)

Definition EVENT_CONNECT : bytes := str "connect".
Definition EVENT_DISCONNECT : bytes := str "disconnect".
Definition EVENT_RECEIVE_MESSAGE : bytes := str "receiveMessage".
Definition EVENT_RECEIVE_DATA : bytes := str "receiveData".
Definition EVENT_RECEIVE_IMAGE : bytes := str "receiveImage".
Definition EVENT_COLLABORATE : bytes := str "collaborateEvent".
Definition CHANNEL_NAME_LENGTH : Z := 48.
Definition VIDEO_FRAME_RATE : Z := 30.
Definition BIND_RETRY_INTERVAL : Z := 100.
Definition MAX_BIND_RETRY_TIME : Z := 1000.
Definition MAX_RETRY_TIMES : Z := 10.
Definition SERVER_SOCKET_NAME_LENGTH : Z := 64.
Definition REQUIRED_PERMISSIONS : list bytes :=
  [str "ohos.permission.INTERNET"; str "ohos.permission.GET_NETWORK_INFO";
   str "ohos.permission.SET_NETWORK_INFO"; str "ohos.permission.DISTRIBUTED_DATASYNC"].

Inductive SessionStatus := UNCONNECTED | CONNECTING | CONNECTED.
Inductive CollabrateDirection := UNKNOWN | COLLABRATE_SOURCE | COLLABRATE_SINK.
Inductive EngineState := EMPTY | START.
Inductive DisconnectReason := UNKNOW | PEER_APP_CLOSE_COLLABORATION | PEER_APP_EXIT | NETWORK_DISCONNECTED.
Inductive ConnectErrorCode :=
| INVALID_SESSION_ID | CONNECTED_SESSION_EXISTS | PEER_APP_REJECTED | LOCAL_WIFI_NOT_OPEN
| PEER_WIFI_NOT_OPEN | PEER_ABILITY_NO_ONCOLLABORATE | SYSTEM_INTERNAL_ERROR.

#[export] Instance SessionStatus_eq_dec : EqDecision SessionStatus.
Proof. solve_decision. Defined.
#[export] Instance CollabrateDirection_eq_dec : EqDecision CollabrateDirection.
Proof. solve_decision. Defined.
#[export] Instance EngineState_eq_dec : EqDecision EngineState.
Proof. solve_decision. Defined.

Record PeerInfo := mkPeerInfo {
  deviceId : bytes;
  bundleName : bytes;
  moduleName : bytes;
  abilityName : bytes;
  serverId : bytes;
  serviceName : bytes
}.

(** What the comparisons of [PeerInfo] look at. *)
Definition compareInfo (p : PeerInfo) : bytes :=
  deviceId p ++ bundleName p ++ moduleName p ++ abilityName p ++ serverId p.

Definition PeerInfo_eqb (a b : PeerInfo) : bool := bytes_eqb (compareInfo a) (compareInfo b).
Definition PeerInfo_ltb (a b : PeerInfo) : bool := bytes_ltb (compareInfo a) (compareInfo b).

Record SessionInfo := mkSessionInfo { serverId_ : bytes; localInfo_ : PeerInfo; peerInfo_ : PeerInfo }.

(** [AbilityConnectionSessionInfo::operator<]. *)
#[export] Instance SessionInfo_order : KeyOrder SessionInfo := fun a b =>
  if negb (bytes_eqb (serverId_ a) (serverId_ b)) then bytes_ltb (serverId_ a) (serverId_ b)
  else if PeerInfo_eqb (localInfo_ a) (localInfo_ b) then PeerInfo_ltb (peerInfo_ a) (peerInfo_ b)
  else PeerInfo_ltb (localInfo_ a) (localInfo_ b).

Record StreamParams := mkStreamParams { name : bytes; role : Z; bitrate : Z; colorSpace : Z }.

Definition StreamParams_default : StreamParams := mkStreamParams [] 0 80000 0.
Definition SOURCE : Z := 0.
Definition SINK : Z := 1.

Record SurfaceParams := mkSurfaceParams { width : Z; height : Z; format : Z; rotation : Z; flip : Z }.

(** [SurfaceParam] of the engines: what is drawn turned or mirrored. *)
Inductive SurfaceRotate := ROTATE_NONE | ROTATE_90 | ROTATE_180 | ROTATE_270.
Inductive SurfaceFilp := FLIP_NONE | FLIP_H | FLIP_V.
Record SurfaceParam := mkSurfaceParam { rotate : SurfaceRotate; filp : SurfaceFilp }.

Record ConnectResult := mkConnectResult {
  result_isConnected : bool;
  errorCode : ConnectErrorCode;
  result_sessionId : Z;
  reason : bytes
}.

Record EventCallbackInfo := mkEventCallbackInfo {
  info_sessionId : Z;
  eventType : bytes;
  disconnectReason : DisconnectReason;
  msg : bytes;
  data : option DataBuffer;
  image : option Z
}.

(** [CollaborateEventInfo] of the only type that is made here, [SEND_FAILURE]. *)
Definition SEND_FAILURE : Z := 0.
Record CollaborateEventInfo := mkCollaborateEventInfo { collab_sessionId : Z; collab_eventType : Z }.

(** The keys of [transChannels_] in their order. *)
Definition trans_index (ty : TransChannelType) : Z :=
  match ty with
  | MESSAGE => 0 | DATA => 1 | STREAM_BYTES => 2 | STREAM => 3 | SEND_FILE => 4 | RECEIVE_FILE => 5
  end.
#[export] Instance trans_order : KeyOrder TransChannelType := fun a b => trans_index a <? trans_index b.

(** The calls of a stream's engines, a sender and a receiver. *)
Inductive VideoParam :=
| VidEnc | VidRectangle (w h : Z) | VidBitRate (br : Z) | VidFrameRate (r : Z) | VidIsHdr (b : bool)
| VidEnableTemporalScale (b : bool) | VidSurfaceParam (p : SurfaceParam).
Inductive EngineCall :=
| EngineCreated (bundle : bytes) (colorSpace : Z)
| SetVideoSource (format : Z)
| Configure (p : VideoParam)
| Prepare | StartCall | StopCall
| GetSurface
| SetVideoSurface (surface : Z)
| SetTransChannel (id channelType : Z)
| SetChannelListener (id : Z)
| SetEngineListener
| SetSurfaceParam (p : SurfaceParam)
| OnRecvSurfaceParam (p : SurfaceParam)
| SendPixelMap (image imageQuality : Z).
Inductive EngineKind := Sender | Receiver.

(** The calls of an application's [IAbilityConnectionSessionListener]. *)
Inductive SessionCall :=
| CallConnect (sessionId : Z)
| CallDisConnect (sessionId : Z)
| CallMessage (sessionId : Z) (msg : bytes)
| CallData (sessionId : Z) (data : DataBuffer)
| CallError (sessionId code : Z)
| CallSendFile (sessionId : Z) (info : FileInfo)
| CallRecvFile (sessionId : Z) (info : FileInfo)
| CallRecvPath (sessionId : Z).

(** The tasks of a session's event thread. *)
Inductive Task :=
| TaskConnectResult (r : ConnectResult)
| TaskMessage (listener : Z) (msg : bytes)
| TaskEvent (eventType : bytes) (info : EventCallbackInfo).

(** Calls that hold a session until it is connected or eleven seconds are over. *)
Inductive Waiter :=
| WaitMessage (session : Z) (listener : option Z) (msg : bytes)
| WaitBytes (session : Z) (data : DataBuffer).

Definition waiter_session (x : Waiter) : Z :=
  match x with WaitMessage session _ _ | WaitBytes session _ => session end.

(** Detached threads; both have the address of the session. *)
Inductive Thread :=
| ThreadConnectStream (session id : Z)
| ThreadHandler (session dataType : Z) (msg : bytes).

Section Params.
Context {W : WantLib} {PL : ParamsLib}.

Record ConnectOption := mkConnectOption {
  needSendData : bool;
  needSendStream : bool;
  needReceiveStream : bool;
  needSendFile : bool;
  needReceiveFile : bool;
  options : AWantParams;
  parameters : AWantParams
}.

Definition HasFileTransfer (opt : ConnectOption) : bool := needSendFile opt || needReceiveFile opt.

(** An [AbilityConnectionSession]; its number in the manager stands for its address. *)
Record Session := mkSession {
  streamId_ : Z;
  dmsServerToken_ : bytes;
  localSocketName_ : bytes;
  peerSocketName_ : bytes;
  channelName_ : bytes;
  sessionInfo_ : SessionInfo;
  connectOption_ : ConnectOption;
  direction_ : CollabrateDirection;
  streamParam_ : StreamParams;
  channelListener_ : option Z;
  transChannels_ : TransChannels;
  sessionStatus_ : SessionStatus;
  connectCallback_ : option Z;
  eventHandler_ : option (list (Priority * Task));
  listeners_ : std_map bytes (option Z);
  senderEngine_ : bool;
  recvEngine_ : bool;
  pixelMapListener : bool;
  recvEngineState_ : EngineState;
  sessionListener_ : option Z
}.

Definition set_streamId (x : Z) (s : Session) : Session :=
  mkSession x (dmsServerToken_ s) (localSocketName_ s) (peerSocketName_ s) (channelName_ s)
    (sessionInfo_ s) (connectOption_ s) (direction_ s) (streamParam_ s) (channelListener_ s)
    (transChannels_ s) (sessionStatus_ s) (connectCallback_ s) (eventHandler_ s) (listeners_ s)
    (senderEngine_ s) (recvEngine_ s) (pixelMapListener s) (recvEngineState_ s) (sessionListener_ s).
Definition set_dmsServerToken (x : bytes) (s : Session) : Session :=
  mkSession (streamId_ s) x (localSocketName_ s) (peerSocketName_ s) (channelName_ s) (sessionInfo_ s)
    (connectOption_ s) (direction_ s) (streamParam_ s) (channelListener_ s) (transChannels_ s)
    (sessionStatus_ s) (connectCallback_ s) (eventHandler_ s) (listeners_ s) (senderEngine_ s)
    (recvEngine_ s) (pixelMapListener s) (recvEngineState_ s) (sessionListener_ s).
Definition set_peerSocketName (x : bytes) (s : Session) : Session :=
  mkSession (streamId_ s) (dmsServerToken_ s) (localSocketName_ s) x (channelName_ s) (sessionInfo_ s)
    (connectOption_ s) (direction_ s) (streamParam_ s) (channelListener_ s) (transChannels_ s)
    (sessionStatus_ s) (connectCallback_ s) (eventHandler_ s) (listeners_ s) (senderEngine_ s)
    (recvEngine_ s) (pixelMapListener s) (recvEngineState_ s) (sessionListener_ s).
Definition set_channelName (x : bytes) (s : Session) : Session :=
  mkSession (streamId_ s) (dmsServerToken_ s) (localSocketName_ s) (peerSocketName_ s) x (sessionInfo_
    s) (connectOption_ s) (direction_ s) (streamParam_ s) (channelListener_ s) (transChannels_ s)
    (sessionStatus_ s) (connectCallback_ s) (eventHandler_ s) (listeners_ s) (senderEngine_ s)
    (recvEngine_ s) (pixelMapListener s) (recvEngineState_ s) (sessionListener_ s).
Definition set_direction (x : CollabrateDirection) (s : Session) : Session :=
  mkSession (streamId_ s) (dmsServerToken_ s) (localSocketName_ s) (peerSocketName_ s) (channelName_ s)
    (sessionInfo_ s) (connectOption_ s) x (streamParam_ s) (channelListener_ s) (transChannels_ s)
    (sessionStatus_ s) (connectCallback_ s) (eventHandler_ s) (listeners_ s) (senderEngine_ s)
    (recvEngine_ s) (pixelMapListener s) (recvEngineState_ s) (sessionListener_ s).
Definition set_streamParam (x : StreamParams) (s : Session) : Session :=
  mkSession (streamId_ s) (dmsServerToken_ s) (localSocketName_ s) (peerSocketName_ s) (channelName_ s)
    (sessionInfo_ s) (connectOption_ s) (direction_ s) x (channelListener_ s) (transChannels_ s)
    (sessionStatus_ s) (connectCallback_ s) (eventHandler_ s) (listeners_ s) (senderEngine_ s)
    (recvEngine_ s) (pixelMapListener s) (recvEngineState_ s) (sessionListener_ s).
Definition set_channelListener (x : option Z) (s : Session) : Session :=
  mkSession (streamId_ s) (dmsServerToken_ s) (localSocketName_ s) (peerSocketName_ s) (channelName_ s)
    (sessionInfo_ s) (connectOption_ s) (direction_ s) (streamParam_ s) x (transChannels_ s)
    (sessionStatus_ s) (connectCallback_ s) (eventHandler_ s) (listeners_ s) (senderEngine_ s)
    (recvEngine_ s) (pixelMapListener s) (recvEngineState_ s) (sessionListener_ s).
Definition set_transChannels (x : TransChannels) (s : Session) : Session :=
  mkSession (streamId_ s) (dmsServerToken_ s) (localSocketName_ s) (peerSocketName_ s) (channelName_ s)
    (sessionInfo_ s) (connectOption_ s) (direction_ s) (streamParam_ s) (channelListener_ s) x
    (sessionStatus_ s) (connectCallback_ s) (eventHandler_ s) (listeners_ s) (senderEngine_ s)
    (recvEngine_ s) (pixelMapListener s) (recvEngineState_ s) (sessionListener_ s).
Definition set_sessionStatus (x : SessionStatus) (s : Session) : Session :=
  mkSession (streamId_ s) (dmsServerToken_ s) (localSocketName_ s) (peerSocketName_ s) (channelName_ s)
    (sessionInfo_ s) (connectOption_ s) (direction_ s) (streamParam_ s) (channelListener_ s)
    (transChannels_ s) x (connectCallback_ s) (eventHandler_ s) (listeners_ s) (senderEngine_ s)
    (recvEngine_ s) (pixelMapListener s) (recvEngineState_ s) (sessionListener_ s).
Definition set_connectCallback (x : option Z) (s : Session) : Session :=
  mkSession (streamId_ s) (dmsServerToken_ s) (localSocketName_ s) (peerSocketName_ s) (channelName_ s)
    (sessionInfo_ s) (connectOption_ s) (direction_ s) (streamParam_ s) (channelListener_ s)
    (transChannels_ s) (sessionStatus_ s) x (eventHandler_ s) (listeners_ s) (senderEngine_ s)
    (recvEngine_ s) (pixelMapListener s) (recvEngineState_ s) (sessionListener_ s).
Definition set_eventHandler (x : option (list (Priority * Task))) (s : Session) : Session :=
  mkSession (streamId_ s) (dmsServerToken_ s) (localSocketName_ s) (peerSocketName_ s) (channelName_ s)
    (sessionInfo_ s) (connectOption_ s) (direction_ s) (streamParam_ s) (channelListener_ s)
    (transChannels_ s) (sessionStatus_ s) (connectCallback_ s) x (listeners_ s) (senderEngine_ s)
    (recvEngine_ s) (pixelMapListener s) (recvEngineState_ s) (sessionListener_ s).
Definition set_listeners (x : std_map bytes (option Z)) (s : Session) : Session :=
  mkSession (streamId_ s) (dmsServerToken_ s) (localSocketName_ s) (peerSocketName_ s) (channelName_ s)
    (sessionInfo_ s) (connectOption_ s) (direction_ s) (streamParam_ s) (channelListener_ s)
    (transChannels_ s) (sessionStatus_ s) (connectCallback_ s) (eventHandler_ s) x (senderEngine_ s)
    (recvEngine_ s) (pixelMapListener s) (recvEngineState_ s) (sessionListener_ s).
Definition set_senderEngine (x : bool) (s : Session) : Session :=
  mkSession (streamId_ s) (dmsServerToken_ s) (localSocketName_ s) (peerSocketName_ s) (channelName_ s)
    (sessionInfo_ s) (connectOption_ s) (direction_ s) (streamParam_ s) (channelListener_ s)
    (transChannels_ s) (sessionStatus_ s) (connectCallback_ s) (eventHandler_ s) (listeners_ s) x
    (recvEngine_ s) (pixelMapListener s) (recvEngineState_ s) (sessionListener_ s).
Definition set_recvEngine (x : bool) (s : Session) : Session :=
  mkSession (streamId_ s) (dmsServerToken_ s) (localSocketName_ s) (peerSocketName_ s) (channelName_ s)
    (sessionInfo_ s) (connectOption_ s) (direction_ s) (streamParam_ s) (channelListener_ s)
    (transChannels_ s) (sessionStatus_ s) (connectCallback_ s) (eventHandler_ s) (listeners_ s)
    (senderEngine_ s) x (pixelMapListener s) (recvEngineState_ s) (sessionListener_ s).
Definition set_pixelMapListener (x : bool) (s : Session) : Session :=
  mkSession (streamId_ s) (dmsServerToken_ s) (localSocketName_ s) (peerSocketName_ s) (channelName_ s)
    (sessionInfo_ s) (connectOption_ s) (direction_ s) (streamParam_ s) (channelListener_ s)
    (transChannels_ s) (sessionStatus_ s) (connectCallback_ s) (eventHandler_ s) (listeners_ s)
    (senderEngine_ s) (recvEngine_ s) x (recvEngineState_ s) (sessionListener_ s).
Definition set_recvEngineState (x : EngineState) (s : Session) : Session :=
  mkSession (streamId_ s) (dmsServerToken_ s) (localSocketName_ s) (peerSocketName_ s) (channelName_ s)
    (sessionInfo_ s) (connectOption_ s) (direction_ s) (streamParam_ s) (channelListener_ s)
    (transChannels_ s) (sessionStatus_ s) (connectCallback_ s) (eventHandler_ s) (listeners_ s)
    (senderEngine_ s) (recvEngine_ s) (pixelMapListener s) x (sessionListener_ s).
Definition set_sessionListener (x : option Z) (s : Session) : Session :=
  mkSession (streamId_ s) (dmsServerToken_ s) (localSocketName_ s) (peerSocketName_ s) (channelName_ s)
    (sessionInfo_ s) (connectOption_ s) (direction_ s) (streamParam_ s) (channelListener_ s)
    (transChannels_ s) (sessionStatus_ s) (connectCallback_ s) (eventHandler_ s) (listeners_ s)
    (senderEngine_ s) (recvEngine_ s) (pixelMapListener s) (recvEngineState_ s) x.

Definition Session_new (serverSocketName : bytes) (sessionInfo : SessionInfo) (opt : ConnectOption) : Session :=
  mkSession 0 [] serverSocketName [] [] sessionInfo opt UNKNOWN StreamParams_default None [] UNCONNECTED
    None None [] false false false EMPTY None.

(** What the sessions do to their surroundings; a [Channel] call comes with its answer. *)
Inductive Effect :=
| Query
| Channel (r : ChannelRequest) (ret : Z)
| PermissionVerified (permission : bytes)
| WifiAsked
| PeerVersionAsked (sessionId : Z) (peerDeviceId token : bytes)
| CollabMissionSent (sessionId : Z) (serverSocketName : bytes) (info : SessionInfo) (opt : ConnectOption) (token : bytes)
| PrepareResultSent (token : bytes) (result sessionId : Z) (serverSocketName : bytes)
| CloseCollabSessionSent (token : bytes)
| RejectReasonSent (token reason : bytes)
| ConnectCallbackCalled (callback : Z) (r : ConnectResult)
| SessionListenerCalled (listener : Z) (c : SessionCall)
| JsListenerCalled (listener : Z) (eventType : bytes) (info : EventCallbackInfo)
| JsCollaborateCalled (listener : Z) (info : CollaborateEventInfo)
| Engine (session : Z) (kind : EngineKind) (c : EngineCall)
| Slept (ms : Z).

Section Service.
Context {CS : ChannelService}.

(** What the platform, the distributed scheduler, the engines and the listeners answer. *)
Class ConnectionEnv := {
  IsSystemApp : list Effect -> bool;
  VerifyAccessToken : list Effect -> bytes -> bool;
  GetWifiStatus : list Effect -> bool;
  GetPeerVersion_ret : list Effect -> Z;
  CollabMission_ret : list Effect -> Z;
  NotifyPrepareResult_ret : list Effect -> Z;
  NotifyCloseCollabSession_ret : list Effect -> Z;
  NotifyRejectReason_ret : list Effect -> Z;
  GetRecvPath_ret : list Effect -> option bytes;
  PostTask_ok : list Effect -> bool;
  Engine_ret : list Effect -> Z;
  GetSurface_ret : list Effect -> Z;
  SHA256 : bytes -> list Z;
  getprocpid : Z;
  system_clock_ms : list Effect -> Z;
  new_listener : list Effect -> Z;
  (** One of the five conflicts of chips that softbus reports. *)
  passive_chip_conflict : Z -> bool;
  SHUTDOWN_REASON_PEER : Z;
  (** The members of an uninitialised channel description and message header. *)
  junk_channelId : list Effect -> Z;
  junk_header : list Effect -> MessageDataHeader;
  (** What the channel manager does while a caller sleeps. *)
  while_asleep : list Effect -> list service_move
}.

(** [AbilityConnectionManager] with the objects it and others refer to. *)
Record Connections := mkConnections {
  objects : std_map Z Session;
  sessionMap_ : std_map Z unit;
  nextSessionId_ : Z;
  nextStreamId_ : Z;
  streamMap_ : std_map Z Z;
  clientSessionMap_ : std_map SessionInfo Z;
  serverSessionMap_ : std_map SessionInfo Z;
  waiters : list Waiter;
  threads : list Thread;
  channels : service
}.

Definition set_objects (x : std_map Z Session) (w : Connections) : Connections :=
  mkConnections x (sessionMap_ w) (nextSessionId_ w) (nextStreamId_ w) (streamMap_ w) (clientSessionMap_
    w) (serverSessionMap_ w) (waiters w) (threads w) (channels w).
Definition set_sessionMap (x : std_map Z unit) (w : Connections) : Connections :=
  mkConnections (objects w) x (nextSessionId_ w) (nextStreamId_ w) (streamMap_ w) (clientSessionMap_ w)
    (serverSessionMap_ w) (waiters w) (threads w) (channels w).
Definition set_nextSessionId (x : Z) (w : Connections) : Connections :=
  mkConnections (objects w) (sessionMap_ w) x (nextStreamId_ w) (streamMap_ w) (clientSessionMap_ w)
    (serverSessionMap_ w) (waiters w) (threads w) (channels w).
Definition set_nextStreamId (x : Z) (w : Connections) : Connections :=
  mkConnections (objects w) (sessionMap_ w) (nextSessionId_ w) x (streamMap_ w) (clientSessionMap_ w)
    (serverSessionMap_ w) (waiters w) (threads w) (channels w).
Definition set_streamMap (x : std_map Z Z) (w : Connections) : Connections :=
  mkConnections (objects w) (sessionMap_ w) (nextSessionId_ w) (nextStreamId_ w) x (clientSessionMap_ w)
    (serverSessionMap_ w) (waiters w) (threads w) (channels w).
Definition set_clientSessionMap (x : std_map SessionInfo Z) (w : Connections) : Connections :=
  mkConnections (objects w) (sessionMap_ w) (nextSessionId_ w) (nextStreamId_ w) (streamMap_ w) x
    (serverSessionMap_ w) (waiters w) (threads w) (channels w).
Definition set_serverSessionMap (x : std_map SessionInfo Z) (w : Connections) : Connections :=
  mkConnections (objects w) (sessionMap_ w) (nextSessionId_ w) (nextStreamId_ w) (streamMap_ w)
    (clientSessionMap_ w) x (waiters w) (threads w) (channels w).
Definition set_waiters (x : list Waiter) (w : Connections) : Connections :=
  mkConnections (objects w) (sessionMap_ w) (nextSessionId_ w) (nextStreamId_ w) (streamMap_ w)
    (clientSessionMap_ w) (serverSessionMap_ w) x (threads w) (channels w).
Definition set_threads (x : list Thread) (w : Connections) : Connections :=
  mkConnections (objects w) (sessionMap_ w) (nextSessionId_ w) (nextStreamId_ w) (streamMap_ w)
    (clientSessionMap_ w) (serverSessionMap_ w) (waiters w) x (channels w).
Definition set_channels (x : service) (w : Connections) : Connections :=
  mkConnections (objects w) (sessionMap_ w) (nextSessionId_ w) (nextStreamId_ w) (streamMap_ w)
    (clientSessionMap_ w) (serverSessionMap_ w) (waiters w) (threads w) x.

Definition Connections_init (s : service) : Connections := mkConnections [] [] 100 1000 [] [] [] [] [] s.

Section Operations.
Context {Ev : ConnectionEnv}.

Definition AC (A : Type) : Type := M Connections Effect A.

Definition ask {A} (oracle : list Effect -> A) : AC A := call Query oracle.

(** A call of [ChannelManager::GetInstance()]. *)
Definition channel (r : ChannelRequest) : AC Z := fun w t =>
  let* (ret, s) := serve r (channels w) in Done (ret, set_channels s w, t ++ [Channel r ret]).

(** The object at an address. *)
Definition self (this : Z) : AC Session :=
  let! w := get in
  match map_find (objects w) this with Some s => mret s | None => undefined end.

Definition update (this : Z) (f : Session -> Session) : AC unit :=
  modify (fun w => match map_find (objects w) this with
    | Some s => set_objects (map_assign (objects w) this (f s)) w
    | None => w
    end).

Definition session_channel (s : Session) (ty : TransChannelType) : Z * option TransChannelInfo :=
  GetTransChannelInfo (transChannels_ s) ty.

(** ** The manager's tables *)

Definition GetAbilityConnectionSession (sessionId : Z) : AC (option Z) :=
  let! w := get in
  mret (if sessionId <=? 0 then None
    else if map_count (sessionMap_ w) sessionId then Some sessionId else None).

Definition GetSessionToken (sessionId : Z) : AC bytes :=
  let! found := GetAbilityConnectionSession sessionId in
  match found with
  | None => mret []
  | Some this => let! s := self this in mret (dmsServerToken_ s)
  end.

Definition UpdateClientSession (sessionInfo : SessionInfo) (sessionId : Z) : AC Z :=
  let! w := get in
  if map_count (clientSessionMap_ w) sessionInfo || map_count (serverSessionMap_ w) sessionInfo
  then mret SAME_SESSION_IS_CONNECTING
  else
    do! modify (set_clientSessionMap (map_assign (clientSessionMap_ w) sessionInfo sessionId)) in
    mret ERR_OK.

(** When the same two abilities connect to each other at once, the greater token gives way. *)
Definition UpdateServerSession (sessionInfo : SessionInfo) (sessionId : Z) : AC Z :=
  let! w := get in
  let enter : AC Z :=
    do! modify (set_serverSessionMap (map_assign (serverSessionMap_ w) sessionInfo sessionId)) in
    mret ERR_OK in
  if map_count (serverSessionMap_ w) sessionInfo then mret SAME_SESSION_IS_CONNECTING
  else
    match map_find (clientSessionMap_ w) sessionInfo with
    | None => enter
    | Some client =>
      let! token := GetSessionToken sessionId in
      let! client_token := GetSessionToken client in
      if bytes_ltb client_token token then mret SAME_SESSION_IS_CONNECTING else enter
    end.

Definition DeleteConnectSession (sessionInfo : SessionInfo) (sessionId : Z) : AC unit :=
  let! w := get in
  if bool_decide (map_find (clientSessionMap_ w) sessionInfo = Some sessionId) then
    modify (set_clientSessionMap (map_erase (clientSessionMap_ w) sessionInfo))
  else if bool_decide (map_find (serverSessionMap_ w) sessionInfo = Some sessionId) then
    modify (set_serverSessionMap (map_erase (serverSessionMap_ w) sessionInfo))
  else mret tt.

(** ** Listeners *)

(** The script listener of an event, when there is one. *)
Definition js_listener (this : Z) (eventType : bytes) : AC (option Z) :=
  let! s := self this in
  mret (match map_find (listeners_ s) eventType with Some (Some l) => Some l | _ => None end).

Definition ExeuteEventCallback (this : Z) (eventType : bytes) (info : EventCallbackInfo) : AC Z :=
  let! l := js_listener this eventType in
  match l with
  | None => mret INVALID_PARAMETERS_ERR
  | Some l =>
    do! emit (JsListenerCalled l eventType (mkEventCallbackInfo (info_sessionId info) eventType
      (disconnectReason info) (msg info) (data info) (image info))) in
    mret ERR_OK
  end.

Definition ExeuteCollaborateCallback (this : Z) (eventType : bytes) (info : CollaborateEventInfo) : AC Z :=
  let! l := js_listener this eventType in
  match l with
  | None => mret INVALID_PARAMETERS_ERR
  | Some l => do! emit (JsCollaborateCalled l info) in mret ERR_OK
  end.

(** The session's own listener is called; without one the script listener of the event. *)
Definition tell (this : Z) (c : SessionCall) (eventType : bytes) (info : EventCallbackInfo) : AC unit :=
  let! s := self this in
  match sessionListener_ s with
  | Some l => emit (SessionListenerCalled l c)
  | None => do! ExeuteEventCallback this eventType info in mret tt
  end.

Definition tell_disconnected (this : Z) (reason : DisconnectReason) : AC unit :=
  tell this (CallDisConnect this) EVENT_DISCONNECT (mkEventCallbackInfo this [] reason [] None None).

Definition post (this : Z) (priority : Priority) (task : Task) : AC unit :=
  let! s := self this in
  match eventHandler_ s with
  | None => mret tt
  | Some q =>
    let! posted := ask PostTask_ok in
    if (posted : bool) then update this (set_eventHandler (Some (q ++ [(priority, task)]))) else mret tt
  end.

Definition ExeuteConnectCallback (this : Z) (result : ConnectResult) : AC unit :=
  post this IMMEDIATE (TaskConnectResult result).

(** ** Ending a session *)

(** A description that no channel fills in is not initialised. *)
Definition DestroyStream (this : Z) : AC Z :=
  do! update this (fun s => set_recvEngineState EMPTY (set_recvEngine false (set_senderEngine false s))) in
  let! s := self this in
  let! junk := ask junk_channelId in
  let connected ty (otherwise : Z) := match session_channel s ty with
    | (_, Some info) => if isConnected info then channelId info else otherwise
    | (_, None) => otherwise
    end in
  let info := connected STREAM junk in
  do! channel (ReqClear info) in
  let info := connected STREAM_BYTES info in
  do! channel (ReqClear info) in
  mret ERR_OK.

Definition Release (this : Z) : AC unit :=
  let! s := self this in
  if bool_decide (sessionStatus_ s = UNCONNECTED) then mret tt
  else
    do! update this (set_sessionStatus UNCONNECTED) in
    do! DeleteConnectSession (sessionInfo_ s) this in
    do! DestroyStream this in
    let! s := self this in
    do! mfor (transChannels_ s) (fun e => do! channel (ReqDelete (channelId e.2)) in mret tt) in
    update this (set_transChannels []).

Definition NotifyCloseCollabSession (token : bytes) : AC Z :=
  call (CloseCollabSessionSent token) NotifyCloseCollabSession_ret.

Definition Disconnect (this : Z) : AC Z :=
  do! Release this in
  let! s := self this in
  do! NotifyCloseCollabSession (dmsServerToken_ s) in
  mret ERR_OK.

Definition HandleDisconnect (this : Z) : AC Z :=
  let! s := self this in
  if bool_decide (sessionStatus_ s = UNCONNECTED) then mret ERR_OK
  else
    do! Release this in
    do! tell_disconnected this PEER_APP_EXIT in
    mret ERR_OK.

(** The defaults are [SYSTEM_INTERNAL_ERROR] and no reason; no caller gives others. *)
Definition NotifyAppConnectResult (this : Z) (isConnected : bool) : AC unit :=
  if isConnected then ExeuteConnectCallback this (mkConnectResult true SYSTEM_INTERNAL_ERROR this [])
  else
    do! Release this in
    let! s := self this in
    do! NotifyCloseCollabSession (dmsServerToken_ s) in
    ExeuteConnectCallback this (mkConnectResult false SYSTEM_INTERNAL_ERROR (-1) []).

Definition NotifyCollabErrorResultFromSa (this : Z) (errorCode : ConnectErrorCode) (reason : bytes) : AC unit :=
  do! Release this in
  ExeuteConnectCallback this (mkConnectResult false errorCode this reason).

(** The task of [ExeuteConnectCallback]. *)
Definition run_connect_result (this : Z) (result : ConnectResult) : AC unit :=
  let! s := self this in
  match connectCallback_ s with
  | None => mret tt
  | Some callback =>
    do! update this (set_connectCallback None) in
    do! emit (ConnectCallbackCalled callback result) in
    if negb (result_isConnected result) then Release this else mret tt
  end.

(** ** Sending *)

Definition send (sync : bool) (this : Z) (msg : bytes) (messageType : Z) : AC Z :=
  let! s := self this in
  let! (ret, prepared) := from_run (PrepareSendMessage (transChannels_ s) msg messageType) in
  match prepared with
  | None => mret ret
  | Some (id, sendBuffer) => channel (ReqMessage sync id (Some sendBuffer))
  end.

Definition SendMessage (this : Z) (msg : bytes) (messageType : Z) : AC Z := send false this msg messageType.
Definition SendMessageSync (this : Z) (msg : bytes) (messageType : Z) : AC Z := send true this msg messageType.

Definition SendData (this : Z) (buffer : option DataBuffer) : AC Z :=
  let! s := self this in
  match session_channel s DATA with
  | (ret, None) => mret ret
  | (_, Some info) => channel (ReqBytes (channelId info) buffer)
  end.

Definition SendFile (this : Z) (sFiles dFiles : list bytes) : AC Z :=
  let! s := self this in
  match session_channel s SEND_FILE with
  | (ret, None) => mret ret
  | (_, Some info) => channel (ReqFile (channelId info) sFiles dFiles)
  end.

Definition engine (this : Z) (kind : EngineKind) (c : EngineCall) : AC Z := call (Engine this kind c) Engine_ret.

Definition SendImage (this image imageQuality : Z) : AC Z :=
  let! s := self this in
  if negb (senderEngine_ s) then mret INVALID_PARAMETERS_ERR
  else engine this Sender (SendPixelMap image imageQuality).

(** ** Channels of a session *)

(** Two lower-case digits for every byte. *)
Definition hex_digit (d : Z) : Z := if d <? 10 then 48 + d else 87 + d.
Definition hex (hash : list Z) : bytes := List.concat (map (fun b => [hex_digit (b / 16); hex_digit (b mod 16)]) hash).

Definition GetChannelName (s : Session) : bytes :=
  let localInfo := localInfo_ (sessionInfo_ s) in
  let peerInfo := peerInfo_ (sessionInfo_ s) in
  let isClientChannel := bool_decide (direction_ s = COLLABRATE_SOURCE) in
  let input := if isClientChannel
    then moduleName localInfo ++ abilityName localInfo ++ moduleName peerInfo ++ abilityName peerInfo
    else moduleName peerInfo ++ abilityName peerInfo ++ moduleName localInfo ++ abilityName localInfo in
  substr0 (hex (SHA256 input)) CHANNEL_NAME_LENGTH.

(** A channel of a type that the session has already is made all the same and not kept. *)
Definition CreateChannel (this : Z) (channelName : bytes) (dataType : ChannelDataType)
    (channelType : TransChannelType) (isClientChannel : bool) : AC Z :=
  let! s := self this in
  let channelPeerInfo := ChannelManager.mkPeerInfo (peerSocketName_ s) (deviceId (peerInfo_ (sessionInfo_ s))) in
  let! id := channel (ReqCreate isClientChannel channelName dataType channelPeerInfo) in
  if negb (isValidChannelId id) then mret INVALID_PARAMETERS_ERR
  else
    let! ret := channel (ReqListen id (channelListener_ s)) in
    if negb (ret =? ERR_OK) then mret INVALID_PARAMETERS_ERR
    else
      let channelInfo := mkTransChannelInfo id (type_index dataType) channelType false in
      do! update this (fun s => set_transChannels (map_emplace (transChannels_ s) channelType channelInfo) s) in
      mret ERR_OK.

Definition CreateStreamChannel (this : Z) (channelName : bytes) (isClientChannel : bool) : AC Z :=
  let streamChannelName := channelName ++ str "stream" in
  let! ret := CreateChannel this streamChannelName BYTES STREAM_BYTES isClientChannel in
  if negb (ret =? ERR_OK) then mret INVALID_PARAMETERS_ERR
  else
    let! ret := CreateChannel this streamChannelName VIDEO_STREAM STREAM isClientChannel in
    mret (if negb (ret =? ERR_OK) then INVALID_PARAMETERS_ERR else ERR_OK).

(** A step that is taken on a condition. *)
Definition step_if (b : bool) (m : AC Z) : AC Z := if b then m else mret ERR_OK.

Definition InitChannels (this : Z) : AC Z :=
  do! update this (fun s => set_channelName (GetChannelName s) s) in
  let! l := ask new_listener in
  do! update this (set_channelListener (Some l)) in
  let! s := self this in
  let name := channelName_ s in
  let opt := connectOption_ s in
  let isClientChannel := bool_decide (direction_ s = COLLABRATE_SOURCE) in
  let! ret := CreateChannel this name ChannelManager.MESSAGE MESSAGE isClientChannel in
  if negb (ret =? ERR_OK) then mret FAILED_TO_CREATE_MESSAGE_CHANNEL else
  let! ret := step_if (needSendData opt) (CreateChannel this name BYTES DATA isClientChannel) in
  if negb (ret =? ERR_OK) then mret FAILED_TO_CREATE_DATA_CHANNEL else
  let! ret := step_if (needSendStream opt || needReceiveStream opt) (CreateStreamChannel this name isClientChannel) in
  if negb (ret =? ERR_OK) then mret FAILED_TO_CREATE_STREAM_CHANNEL else
  let! ret := step_if (needSendFile opt && isClientChannel) (CreateChannel this name FILE SEND_FILE true) in
  if negb (ret =? ERR_OK) then mret FAILED_TO_CREATE_SEND_FILE_CHANNEL else
  let! ret := step_if (needReceiveFile opt) (CreateChannel this name FILE RECEIVE_FILE false) in
  if negb (ret =? ERR_OK) then mret FAILED_TO_CREATE_RECEIVE_FILE_CHANNEL else
  mret ERR_OK.

Definition connect_info (id : Z) (b : bool) (info : TransChannelInfo) : TransChannelInfo :=
  if channelId info =? id then mkTransChannelInfo (channelId info) (channelType info) (transType info) b else info.

Definition UpdateTransChannelStatus (this id : Z) (isConnected : bool) : AC unit :=
  update this (fun s => set_transChannels
    (map (fun e => (e.1, connect_info id isConnected e.2)) (transChannels_ s)) s).

Definition ConnectTransChannel (this : Z) (channelType : TransChannelType) : AC Z :=
  let! s := self this in
  match session_channel s channelType with
  | (_, None) => mret STREAM_CHANNEL_NOT_EXITS
  | (_, Some info) =>
    let! ret := channel (ReqConnect (channelId info)) in
    if negb (ret =? ERR_OK) then mret ret
    else do! UpdateTransChannelStatus this (channelId info) true in mret ERR_OK
  end.

Definition ConnectStreamChannel (this : Z) : AC Z :=
  let! s := self this in
  if negb (needSendStream (connectOption_ s)) && negb (needReceiveStream (connectOption_ s)) then mret ERR_OK
  else
    match session_channel s STREAM with
    | (_, None) => mret INVALID_PARAMETERS_ERR
    | (_, Some info) =>
      if isConnected info then mret ERR_OK
      else if negb (bool_decide (direction_ s = COLLABRATE_SOURCE)) then
        do! SendMessage this (str "WIFI_OPEN") WIFI_OPEN in mret ERR_OK
      else
        do! modify (fun w => set_threads (threads w ++ [ThreadConnectStream this (channelId info)]) w) in
        mret ERR_OK
    end.

(** The answer of one of the futures. *)
Definition connect_task (this : Z) (ty : TransChannelType) (failed : Z) : AC Z :=
  let! ret := ConnectTransChannel this ty in
  mret (if negb (ret =? ERR_OK) then failed else ERR_OK).

(** Every future runs to its end, even when the channel for files fails. *)
Definition ConnectChannels (this : Z) : AC Z :=
  let! s := self this in
  let opt := connectOption_ s in
  let stream := needSendStream opt || needReceiveStream opt in
  let! message := connect_task this MESSAGE CONNECT_MESSAGE_CHANNEL_FAILED in
  let! data := step_if (needSendData opt) (connect_task this DATA CONNECT_DATA_CHANNEL_FAILED) in
  do! step_if stream (ConnectStreamChannel this) in
  let! bytes := step_if stream (connect_task this STREAM_BYTES CONNECT_STREAM_CHANNEL_FAILED) in
  let! file := step_if (needSendFile opt) (ConnectTransChannel this SEND_FILE) in
  mret (if negb (file =? ERR_OK) then CONNECT_SEND_FILE_CHANNEL_FAILED
    else if negb (message =? ERR_OK) then message
    else if negb (data =? ERR_OK) then data
    else bytes).

Definition IsAllChannelConnected (s : Session) : bool :=
  forallb (fun e => isConnected e.2 || bool_decide (transType e.2 = STREAM)) (transChannels_ s).

Definition HandleSessionConnect (this : Z) : AC unit :=
  let! s := self this in
  if bool_decide (sessionStatus_ s = CONNECTED) then mret tt
  else
    do! update this (set_sessionStatus CONNECTED) in
    tell this (CallConnect this) EVENT_CONNECT (mkEventCallbackInfo this [] UNKNOW [] None None).

Definition OnChannelConnect (this id : Z) : AC unit :=
  let! s := self this in
  if negb (IsVaildChannel (transChannels_ s) id) then mret tt
  else
    do! UpdateTransChannelStatus this id true in
    let! s := self this in
    if IsAllChannelConnected s && negb (HasFileTransfer (connectOption_ s)) then HandleSessionConnect this
    else mret tt.

Definition ConvertToDisconnectReason (reason : Z) : DisconnectReason :=
  if reason =? SHUTDOWN_REASON_PEER then PEER_APP_EXIT else NETWORK_DISCONNECTED.

Definition OnChannelClosed (this id reason : Z) : AC unit :=
  let! s := self this in
  if negb (IsVaildChannel (transChannels_ s) id) then mret tt
  else if negb (bool_decide (sessionStatus_ s = CONNECTED)) then mret tt
  else
    do! Disconnect this in
    tell_disconnected this (ConvertToDisconnectReason reason).

(** ** Streams *)

Definition ConvertToSurfaceParam (param : SurfaceParams) : SurfaceParam :=
  mkSurfaceParam
    (if rotation param =? 90 then ROTATE_90 else if rotation param =? 180 then ROTATE_180
     else if rotation param =? 270 then ROTATE_270 else ROTATE_NONE)
    (if flip param =? 0 then FLIP_H else if flip param =? 1 then FLIP_V else FLIP_NONE).

(** Steps up to the first that fails. *)
Fixpoint configure (this : Z) (kind : EngineKind) (params : list VideoParam) : AC Z :=
  match params with
  | [] => mret ERR_OK
  | p :: params =>
    let! ret := engine this kind (Configure p) in
    if negb (ret =? ERR_OK) then mret ret else configure this kind params
  end.

Definition ConfigEngineParam (this : Z) (kind : EngineKind) (param : SurfaceParams) : AC Z :=
  do! engine this kind (SetVideoSource (format param)) in
  let! s := self this in
  configure this kind
    [VidEnc; VidRectangle (width param) (height param); VidBitRate (bitrate (streamParam_ s));
     VidFrameRate VIDEO_FRAME_RATE; VidIsHdr false; VidEnableTemporalScale false;
     VidSurfaceParam (ConvertToSurfaceParam param)].

Definition InitSenderEngine (this : Z) : AC Z :=
  let! s := self this in
  if negb (needSendStream (connectOption_ s)) then mret INVALID_PARAMETERS_ERR
  else if senderEngine_ s then mret ONLY_SUPPORT_ONE_STREAM
  else
    do! update this (set_senderEngine true) in
    do! engine this Sender (EngineCreated (bundleName (localInfo_ (sessionInfo_ s))) (colorSpace (streamParam_ s))) in
    mret ERR_OK.

Definition InitRecvEngine (this : Z) : AC Z :=
  let! s := self this in
  if negb (needReceiveStream (connectOption_ s)) then mret INVALID_PARAMETERS_ERR
  else if recvEngine_ s then mret ONLY_SUPPORT_ONE_STREAM
  else
    do! update this (set_recvEngine true) in
    do! engine this Receiver (EngineCreated [] 0) in
    mret ERR_OK.

Definition CreateStream (this streamId : Z) (param : StreamParams) : AC Z :=
  do! update this (set_streamParam param) in
  if role param =? SOURCE then do! update this (set_streamId streamId) in InitSenderEngine this
  else if role param =? SINK then do! update this (set_streamId streamId) in InitRecvEngine this
  else mret INVALID_PARAMETERS_ERR.

(** The channel of the stream if it is connected, else the one of its bytes. *)
Definition GetStreamTransChannel (s : Session) : option TransChannelInfo :=
  match session_channel s STREAM with
  | (_, Some info) => if isConnected info then Some info else
    match session_channel s STREAM_BYTES with
    | (_, Some info) => if isConnected info then Some info else None
    | (_, None) => None
    end
  | (_, None) =>
    match session_channel s STREAM_BYTES with
    | (_, Some info) => if isConnected info then Some info else None
    | (_, None) => None
    end
  end.

Definition GetSurfaceId (this : Z) (param : SurfaceParams) : AC (Z * bytes) :=
  let! s := self this in
  if negb (senderEngine_ s) then mret (INVALID_PARAMETERS_ERR, []) else
  let! ret := ConfigEngineParam this Sender param in
  if negb (ret =? ERR_OK) then mret (ret, []) else
  let! ret := engine this Sender Prepare in
  if negb (ret =? ERR_OK) then mret (ret, []) else
  match GetStreamTransChannel s with
  | None => mret (INVALID_PARAMETERS_ERR, [])
  | Some info =>
    do! engine this Sender (SetTransChannel (channelId info) (channelType info)) in
    let! surface := call (Engine this Sender GetSurface) GetSurface_ret in
    mret (ERR_OK, to_string surface)
  end.

(** [std::from_chars] of a [uint64_t]: digits, and a value that fits. *)
Definition from_chars (s : bytes) : option Z :=
  match s with
  | c :: _ => if is_digit c then
      let v := digits_value s 0 in if v <? 2 ^ 64 then Some v else None
    else None
  | [] => None
  end.

Definition SetSurfaceId (this : Z) (surfaceId : bytes) (param : SurfaceParams) : AC Z :=
  let! s := self this in
  if negb (recvEngine_ s) then mret INVALID_PARAMETERS_ERR else
  let! ret := ConfigEngineParam this Receiver param in
  if negb (ret =? ERR_OK) then mret ret else
  match from_chars surfaceId with
  | None => mret INVALID_PARAMETERS_ERR
  | Some value =>
    let! ret := engine this Receiver (SetVideoSurface value) in
    if negb (ret =? ERR_OK) then mret ret else
    let! ret := engine this Receiver Prepare in
    if negb (ret =? ERR_OK) then mret ret else
    match GetStreamTransChannel s with
    | None => mret INVALID_PARAMETERS_ERR
    | Some info =>
      do! engine this Receiver (SetChannelListener (channelId info)) in
      do! update this (set_pixelMapListener true) in
      do! engine this Receiver SetEngineListener in
      mret ERR_OK
    end
  end.

Definition UpdateSurfaceParam (this : Z) (param : SurfaceParams) : AC Z :=
  let! s := self this in
  if senderEngine_ s then do! engine this Sender (SetSurfaceParam (ConvertToSurfaceParam param)) in mret ERR_OK
  else if recvEngine_ s then do! engine this Receiver (OnRecvSurfaceParam (ConvertToSurfaceParam param)) in mret ERR_OK
  else mret INVALID_PARAMETERS_ERR.

Definition StartRecvEngine (this : Z) : AC Z :=
  let! ret := engine this Receiver StartCall in
  if negb (ret =? ERR_OK) then mret ret
  else SendMessage this (str "recvEngineStart") RECEIVE_STREAM_START.

Definition StartSenderEngine (this : Z) : AC Z :=
  let! s := self this in
  if negb (bool_decide (recvEngineState_ s = START)) then mret RECEIVE_STREAM_NOT_START
  else engine this Sender StartCall.

Definition StartStream (this : Z) : AC Z :=
  let! s := self this in
  if needSendStream (connectOption_ s) && senderEngine_ s then StartSenderEngine this
  else if needReceiveStream (connectOption_ s) && recvEngine_ s then StartRecvEngine this
  else mret INVALID_PARAMETERS_ERR.

Definition StopStream (this : Z) : AC Z :=
  let! s := self this in
  if needSendStream (connectOption_ s) && senderEngine_ s then engine this Sender StopCall
  else if needReceiveStream (connectOption_ s) && recvEngine_ s then engine this Receiver StopCall
  else mret ERR_OK.

Definition UpdateRecvEngineStatus (this : Z) : AC unit := update this (set_recvEngineState START).

Definition UpdateRecvEngineTransChannel (this : Z) : AC unit :=
  let! s := self this in
  if negb (recvEngine_ s) then mret tt
  else
    match session_channel s STREAM with
    | (_, None) => mret tt
    | (_, Some info) =>
      do! engine this Receiver (SetChannelListener (channelId info)) in
      do! SendMessage this (str "updateSenderEngineTransChannel") UPDATE_SENDER_ENGINE_CHANNEL in
      mret tt
    end.

Definition UpdateSenderEngineTransChannel (this : Z) : AC unit :=
  let! s := self this in
  if negb (senderEngine_ s) then mret tt
  else
    match session_channel s STREAM with
    | (_, None) => mret tt
    | (_, Some info) =>
      do! engine this Sender (SetTransChannel (channelId info) (channelType info)) in mret tt
    end.

(** The body of the detached thread; the session is first used when the channel is bound. *)
Definition DoConnectStreamChannel (this id : Z) : AC Z :=
  let! ret := channel (ReqConnect id) in
  if negb (ret =? ERR_OK) then mret ret
  else
    let! _ := self this in
    do! UpdateTransChannelStatus this id true in
    let! s := self this in
    if negb (recvEngine_ s) then
      do! SendMessage this (str "updateRecvEngineTransChannel") UPDATE_RECV_ENGINE_CHANNEL in mret ERR_OK
    else do! UpdateRecvEngineTransChannel this in mret ERR_OK.

(** ** Connecting *)

Definition CheckConnectedSession (this : Z) : AC bool :=
  let exists_already : AC bool :=
    do! ExeuteConnectCallback this (mkConnectResult false CONNECTED_SESSION_EXISTS (-1) []) in mret true in
  let! s := self this in
  if bool_decide (sessionStatus_ s = CONNECTED) then exists_already
  else
    let! ret := UpdateClientSession (sessionInfo_ s) this in
    if negb (ret =? ERR_OK) then exists_already else mret false.

Definition CheckWifiStatus : AC bool :=
  let! system := ask IsSystemApp in
  if (system : bool) then mret true else call WifiAsked GetWifiStatus.

Definition CreateDmsServerToken (this : Z) : AC bytes :=
  let! timestamp := ask system_clock_ms in
  let input := to_string getprocpid ++ to_string this ++ to_string timestamp in
  mret (substr0 (hex (SHA256 input)) CHANNEL_NAME_LENGTH).

Definition Connect (this callback : Z) : AC Z :=
  do! update this (set_connectCallback (Some callback)) in
  let! exists_already := CheckConnectedSession this in
  if (exists_already : bool) then mret DtbCollab.CONNECTED_SESSION_EXISTS else
  let! wifi := CheckWifiStatus in
  if negb wifi then
    do! ExeuteConnectCallback this (mkConnectResult false LOCAL_WIFI_NOT_OPEN (-1) []) in
    mret DtbCollab.LOCAL_WIFI_NOT_OPEN
  else
    let! s := self this in
    if negb (bool_decide (sessionStatus_ s = UNCONNECTED)) then
      do! ExeuteConnectCallback this (mkConnectResult false CONNECTED_SESSION_EXISTS (-1) []) in
      mret DtbCollab.CONNECTED_SESSION_EXISTS
    else
      do! update this (fun s => set_direction COLLABRATE_SOURCE (set_sessionStatus CONNECTING s)) in
      let! token := CreateDmsServerToken this in
      do! update this (set_dmsServerToken token) in
      let! ret := call (PeerVersionAsked this (deviceId (peerInfo_ (sessionInfo_ s))) token) GetPeerVersion_ret in
      do! when negb (ret =? ERR_OK) do
        ExeuteConnectCallback this (mkConnectResult false SYSTEM_INTERNAL_ERROR (-1) []) in
      mret ret.

Definition HandlePeerVersion (this : Z) : AC Z :=
  let! s := self this in
  let! ret := call (CollabMissionSent this (localSocketName_ s) (sessionInfo_ s) (connectOption_ s)
    (dmsServerToken_ s)) CollabMission_ret in
  do! when negb (ret =? ERR_OK) do
    ExeuteConnectCallback this (mkConnectResult false SYSTEM_INTERNAL_ERROR (-1) []) in
  mret ret.

Definition NotifyPrepareResult (token : bytes) (result this : Z) (serverSocketName : bytes) : AC Z :=
  call (PrepareResultSent token result this serverSocketName) NotifyPrepareResult_ret.

Definition AcceptConnect (this : Z) (token : bytes) : AC Z :=
  let! s := self this in
  let socket := localSocketName_ s in
  let! wifi := CheckWifiStatus in
  if negb wifi then
    do! NotifyPrepareResult token DtbCollab.PEER_WIFI_NOT_OPEN this socket in mret DtbCollab.PEER_WIFI_NOT_OPEN
  else if negb (bool_decide (sessionStatus_ s = UNCONNECTED)) then mret INVALID_PARAMETERS_ERR
  else
    do! update this (fun s => set_dmsServerToken token (set_sessionStatus CONNECTING s)) in
    let! ret := UpdateServerSession (sessionInfo_ s) this in
    if negb (ret =? ERR_OK) then
      do! NotifyPrepareResult token ret this socket in
      do! Release this in
      mret INVALID_PARAMETERS_ERR
    else
      do! update this (set_direction COLLABRATE_SINK) in
      let! ret := InitChannels this in
      if negb (ret =? ERR_OK) then
        do! NotifyPrepareResult token ret this socket in
        do! Release this in
        mret ret
      else
        let! ret := NotifyPrepareResult token ERR_OK this socket in
        if negb (ret =? ERR_OK) then do! Release this in mret ret else mret ERR_OK.

Definition ConvertToConnectErrorCode (collabResult : Z) : ConnectErrorCode :=
  if (collabResult =? DtbCollab.CONNECTED_SESSION_EXISTS) || (collabResult =? SAME_SESSION_IS_CONNECTING)
  then CONNECTED_SESSION_EXISTS
  else if passive_chip_conflict collabResult || (collabResult =? DtbCollab.PEER_WIFI_NOT_OPEN) then PEER_WIFI_NOT_OPEN
  else if collabResult =? Dms.COLLAB_ABILITY_REJECT_ERR then PEER_APP_REJECTED
  else if collabResult =? DtbCollab.PEER_ABILITY_NO_ONCOLLABORATE then PEER_ABILITY_NO_ONCOLLABORATE
  else SYSTEM_INTERNAL_ERROR.

(** The channel manager goes on while its caller sleeps. *)
Fixpoint serve_moves (moves : list service_move) (s : service) : run service :=
  match moves with
  | [] => Done s
  | mv :: moves => let* s := serve_move mv s in serve_moves moves s
  end.

Definition usleep (ms : Z) : AC unit :=
  let! moves := call (Slept ms) while_asleep in
  let! w := get in
  let! s := from_run (serve_moves moves (channels w)) in
  modify (set_channels s).

(** The [do ... while] loop after [retryCount] attempts; [ret] is the last answer. *)
Fixpoint request_loop (attempts : nat) (this : Z) (socket : bytes) (retryCount ret : Z) : AC Z :=
  match attempts with
  | O => do! NotifyAppConnectResult this false in mret ret
  | S attempts =>
    let! ret := SendMessageSync this socket CONNECT_FILE_CHANNEL in
    if ret =? ERR_OK then mret ret
    else if negb (ret =? NO_CONNECTED_SOCKET_ID) then do! NotifyAppConnectResult this false in mret ret
    else if MAX_BIND_RETRY_TIME <=? retryCount * BIND_RETRY_INTERVAL then
      do! NotifyAppConnectResult this false in mret ret
    else
      do! usleep BIND_RETRY_INTERVAL in
      request_loop attempts this socket (retryCount + 1) ret
  end.

Definition RequestReceiveFileChannelConnection (this : Z) : AC Z :=
  let! s := self this in
  request_loop (Z.to_nat MAX_RETRY_TIMES) this (localSocketName_ s) 0 ERR_OK.

Definition NotifyPeerSessionConnected (this : Z) : AC unit :=
  let! s := self this in
  if negb (HasFileTransfer (connectOption_ s)) then mret tt
  else do! SendMessage this (str "SESSION_CONNECT_SUCCESS") SESSION_CONNECT_SUCCESS in mret tt.

Definition HandleCollabResult (this result : Z) (peerSocketName dmsServerToken reason : bytes) : AC Z :=
  do! update this (fun s => set_peerSocketName peerSocketName (set_dmsServerToken dmsServerToken s)) in
  if negb (result =? ERR_OK) then
    do! NotifyCollabErrorResultFromSa this (ConvertToConnectErrorCode result) reason in
    mret INVALID_PARAMETERS_ERR
  else
    let! ret := InitChannels this in
    let! ret := if negb (ret =? ERR_OK) then mret ret else ConnectChannels this in
    if negb (ret =? ERR_OK) then
      do! NotifyAppConnectResult this false in mret INVALID_PARAMETERS_ERR
    else
      let! s := self this in
      if needReceiveFile (connectOption_ s) then RequestReceiveFileChannelConnection this
      else
        do! NotifyPeerSessionConnected this in
        do! NotifyAppConnectResult this true in
        mret ERR_OK.

Definition FinishSessionConnect (this : Z) : AC unit := update this (set_sessionStatus CONNECTED).

(** ** What arrives *)

Definition message_info (this : Z) (text : bytes) : EventCallbackInfo :=
  mkEventCallbackInfo this [] UNKNOW text None None.

(** The rest of [ExeuteMessageEventCallback] once the session is connected. *)
Definition deliver_message (this : Z) (listener : option Z) (text : bytes) : AC unit :=
  let! s := self this in
  match eventHandler_ s with
  | None => mret tt
  | Some _ =>
    match listener with
    | Some l =>
      do! emit (SessionListenerCalled l (CallMessage this text)) in
      post this LOW (TaskMessage l text)
    | None => post this LOW (TaskEvent EVENT_RECEIVE_MESSAGE (message_info this text))
    end
  end.

(** A call that needs a connected session goes on, waits or ends. *)
Definition when_connected (this : Z) (waiter : Waiter) (k : AC unit) : AC unit :=
  let! s := self this in
  match sessionStatus_ s with
  | UNCONNECTED => mret tt
  | CONNECTED => k
  | CONNECTING => modify (fun w => set_waiters (waiters w ++ [waiter]) w)
  end.

Definition ExeuteMessageEventCallback (this : Z) (text : bytes) : AC unit :=
  let! s := self this in
  let listener := sessionListener_ s in
  when_connected this (WaitMessage this listener text) (deliver_message this listener text).

Definition ConnectFileChannel (this : Z) (peerSocketName : bytes) : AC unit :=
  do! update this (set_peerSocketName peerSocketName) in
  let! s := self this in
  let! ret := CreateChannel this (channelName_ s) FILE SEND_FILE true in
  if negb (ret =? ERR_OK) then mret tt
  else
    let! ret := ConnectTransChannel this SEND_FILE in
    if negb (ret =? ERR_OK) then
      do! SendMessage this (str "FILE_CHANNEL_CONNECT_FAILED") FILE_CHANNEL_CONNECT_FAILED in mret tt
    else
      do! SendMessage this (str "FILE_CHANNEL_CONNECT_SUCCESS") FILE_CHANNEL_CONNECT_SUCCESS in
      HandleSessionConnect this.

(** [messageHandlerMap_[dataType](msg)]. *)
Definition handle_message (this dataType : Z) (text : bytes) : AC unit :=
  if dataType =? NORMAL then ExeuteMessageEventCallback this text
  else if dataType =? WIFI_OPEN then do! ConnectStreamChannel this in mret tt
  else if dataType =? UPDATE_RECV_ENGINE_CHANNEL then UpdateRecvEngineTransChannel this
  else if dataType =? UPDATE_SENDER_ENGINE_CHANNEL then UpdateSenderEngineTransChannel this
  else if dataType =? CONNECT_FILE_CHANNEL then ConnectFileChannel this text
  else if dataType =? FILE_CHANNEL_CONNECT_SUCCESS then NotifyAppConnectResult this true
  else if dataType =? FILE_CHANNEL_CONNECT_FAILED then NotifyAppConnectResult this false
  else if dataType =? SESSION_CONNECT_SUCCESS then HandleSessionConnect this
  else if dataType =? RECEIVE_STREAM_START then UpdateRecvEngineStatus this
  else mret tt.

Definition OnMessageReceived (this id : Z) (dataBuffer : DataBuffer) : AC unit :=
  let! s := self this in
  let! junk := ask junk_header in
  let! action := from_run (MessageHeader.OnMessageReceived junk (transChannels_ s) id dataBuffer) in
  match action with
  | Ignored => mret tt
  | Handled dataType text => handle_message this dataType text
  | HandledAsync dataType text => modify (fun w => set_threads (threads w ++ [ThreadHandler this dataType text]) w)
  end.

Definition IsStreamBytesChannel (s : Session) (id : Z) : bool :=
  match session_channel s STREAM_BYTES with (_, Some info) => channelId info =? id | (_, None) => false end.

(** The rest of [OnBytesReceived] once the session is connected. *)
Definition deliver_bytes (this : Z) (dataBuffer : DataBuffer) : AC unit :=
  tell this (CallData this dataBuffer) EVENT_RECEIVE_DATA
    (mkEventCallbackInfo this [] UNKNOW [] (Some dataBuffer) None).

Definition OnBytesReceived (this id : Z) (dataBuffer : DataBuffer) : AC unit :=
  let! s := self this in
  if negb (IsVaildChannel (transChannels_ s) id) then mret tt
  else if IsStreamBytesChannel s id then mret tt
  else when_connected this (WaitBytes this dataBuffer) (deliver_bytes this dataBuffer).

Definition OnRecvPixelMap (this : Z) (pixelMap : option Z) : AC unit :=
  do! ExeuteEventCallback this EVENT_RECEIVE_IMAGE (mkEventCallbackInfo this [] UNKNOW [] None pixelMap) in mret tt.

Definition OnError (this id errorCode : Z) : AC unit :=
  let! s := self this in
  if negb (IsVaildChannel (transChannels_ s) id) then mret tt
  else
    match sessionListener_ s with
    | Some l => emit (SessionListenerCalled l (CallError this errorCode))
    | None =>
      do! ExeuteCollaborateCallback this EVENT_COLLABORATE (mkCollaborateEventInfo this SEND_FAILURE) in mret tt
    end.

(** [OnSendFile] and [OnRecvFile]: only the session's own listener is told. *)
Definition tell_listener (this id : Z) (c : SessionCall) : AC unit :=
  let! s := self this in
  if negb (IsVaildChannel (transChannels_ s) id) then mret tt
  else
    match sessionListener_ s with
    | None => mret tt
    | Some l => emit (SessionListenerCalled l c)
    end.

Definition OnSendFile (this id : Z) (info : FileInfo) : AC unit := tell_listener this id (CallSendFile this info).
Definition OnRecvFile (this id : Z) (info : FileInfo) : AC unit := tell_listener this id (CallRecvFile this info).

Definition GetRecvPath (this id : Z) : AC (option bytes) :=
  let! s := self this in
  if negb (IsVaildChannel (transChannels_ s) id) then mret None
  else
    match sessionListener_ s with
    | None => mret None
    | Some l => call (SessionListenerCalled l (CallRecvPath this)) GetRecvPath_ret
    end.

(** [CollabChannelListener]: the session is locked first. *)
Definition locked (this : Z) (k : AC unit) : AC unit :=
  let! w := get in if map_count (objects w) this then k else mret tt.

Definition on_channel (this : Z) (c : ListenerCall) : AC unit :=
  locked this (match c with
    | OnConnect id => OnChannelConnect this id
    | OnDisConnect id reason => OnChannelClosed this id reason
    | OnMessage id buffer => OnMessageReceived this id buffer
    | OnBytes id buffer => OnBytesReceived this id buffer
    | OnStream _ _ => mret tt
    | OnErrorCall id code => OnError this id code
    | ChannelManager.OnSendFile id info => OnSendFile this id info
    | ChannelManager.OnRecvFile id info => OnRecvFile this id info
    end).

(** ** Threads *)

Definition run_task (this : Z) (task : Task) : AC unit :=
  match task with
  | TaskConnectResult result => run_connect_result this result
  | TaskMessage l text => emit (SessionListenerCalled l (CallMessage this text))
  | TaskEvent eventType info => do! ExeuteEventCallback this eventType info in mret tt
  end.

(** A turn of a session's event thread: the first task of a priority. *)
Definition event_turn (this : Z) (priority : Priority) : AC unit :=
  locked this (
    let! s := self this in
    match eventHandler_ s with
    | None => mret tt
    | Some q =>
      match take_first priority q with
      | None => mret tt
      | Some (task, q) => do! update this (set_eventHandler (Some q)) in run_task this task
      end
    end).

Definition run_thread (x : Thread) : AC unit :=
  match x with
  | ThreadConnectStream this id => do! DoConnectStreamChannel this id in mret tt
  | ThreadHandler this dataType text => let! _ := self this in handle_message this dataType text
  end.

Definition thread_turn (n : nat) : AC unit :=
  let! w := get in
  match nth_error (threads w) n with
  | None => mret tt
  | Some x => do! modify (fun w => set_threads (base.delete n (threads w)) w) in run_thread x
  end.

(** A session that neither the manager nor a waiting call holds is destroyed. *)
Definition let_go (this : Z) : AC unit :=
  modify (fun w =>
    if map_count (sessionMap_ w) this || existsb (fun x => waiter_session x =? this) (waiters w) then w
    else set_objects (map_erase (objects w) this) w).

(** A waiting call is woken or its time is over; it goes on when the session is connected. *)
Definition wake (n : nat) : AC unit :=
  let! w := get in
  match nth_error (waiters w) n with
  | None => mret tt
  | Some x =>
    let this := waiter_session x in
    do! modify (fun w => set_waiters (base.delete n (waiters w)) w) in
    let! s := self this in
    do! when bool_decide (sessionStatus_ s = CONNECTED) do
      match x with
      | WaitMessage this listener text => deliver_message this listener text
      | WaitBytes this buffer => deliver_bytes this buffer
      end in
    let_go this
  end.

(** ** The manager *)

Definition IsVaildPeerInfo (p : PeerInfo) : bool :=
  negb (empty (deviceId p) || empty (bundleName p) || empty (moduleName p) || empty (abilityName p)
    || empty (serverId p)).

Definition IsVaildConnectOption (opt : ConnectOption) : bool := negb (needSendStream opt && needReceiveStream opt).

Fixpoint verify_permissions (permissions : list bytes) : AC bool :=
  match permissions with
  | [] => mret true
  | permission :: permissions =>
    let! granted := call (PermissionVerified permission) (fun t => VerifyAccessToken t permission) in
    if negb granted then mret false else verify_permissions permissions
  end.

Definition CheckSessionPermission : AC bool :=
  let! system := ask IsSystemApp in
  if (system : bool) then mret true else verify_permissions REQUIRED_PERMISSIONS.

Definition GetServerSocketName (userId pid : Z) (bundle : bytes) : bytes :=
  substr0 (hex (SHA256 (to_string userId ++ to_string pid ++ bundle))) SERVER_SOCKET_NAME_LENGTH.

(** The ability that creates a session: its bundle, module, name and user. *)
Record LocalAbility := mkLocalAbility {
  local_bundleName : bytes;
  local_moduleName : bytes;
  local_name : bytes;
  local_uid : Z
}.

(** [AbilityConnectionSession::Init]. *)
Definition Init (s : Session) : Session := set_eventHandler (Some []) s.

(** A second object of a number that is in use would be destroyed with its thread running. *)
Definition new_session (sessionId : Z) (s : Session) : AC unit :=
  let! w := get in
  if map_count (objects w) sessionId then undefined
  else modify (fun w => set_sessionMap (map_emplace (sessionMap_ w) sessionId tt)
    (set_objects (map_assign (objects w) sessionId s) w)).

Definition CreateSession (serverId' : bytes) (abilityInfo : LocalAbility) (peerInfo : PeerInfo)
    (opt : ConnectOption) : AC (Z * option Z) :=
  if negb (IsVaildPeerInfo peerInfo) then mret (INVALID_PARAMETERS_ERR, None)
  else if negb (IsVaildConnectOption opt) then mret (INVALID_PARAMETERS_ERR, None)
  else
    let! allowed := CheckSessionPermission in
    if negb allowed then mret (COLLAB_PERMISSION_DENIED, None)
    else
      let localInfo := mkPeerInfo [] (local_bundleName abilityInfo) (local_moduleName abilityInfo)
        (local_name abilityInfo) (serverId peerInfo) (serverId peerInfo) in
      let serverSocketName := GetServerSocketName getprocpid (local_uid abilityInfo) (local_bundleName abilityInfo) in
      let! ret := channel (ReqInit serverSocketName) in
      if negb (ret =? ERR_OK) then mret (INVALID_PARAMETERS_ERR, None)
      else
        let! w := get in
        let sessionId := nextSessionId_ w in
        do! modify (set_nextSessionId (to_int32 (sessionId + 1))) in
        do! new_session sessionId (Init (Session_new serverSocketName
          (mkSessionInfo serverId' localInfo peerInfo) opt)) in
        mret (ERR_OK, Some sessionId).

(** [FindExistingSession]: the first session between the two. *)
Definition FindExistingSession (peerInfo localInfo : PeerInfo) : AC (option Z) :=
  let! w := get in
  mret (List.find (fun sessionId => match map_find (objects w) sessionId with
      | Some s => PeerInfo_eqb (peerInfo_ (sessionInfo_ s)) peerInfo && PeerInfo_eqb (localInfo_ (sessionInfo_ s)) localInfo
      | None => false
      end) (map fst (sessionMap_ w))).

(** A call for a session that the manager has. *)
Definition for_session {A} (sessionId : Z) (none : A) (k : Z -> AC A) : AC A :=
  let! found := GetAbilityConnectionSession sessionId in
  match found with None => mret none | Some this => k this end.

Definition UnInit (this : Z) : AC unit := update this (set_eventHandler None).

Definition DestroySession (sessionId : Z) : AC Z :=
  for_session sessionId INVALID_PARAMETERS_ERR (fun this =>
    do! Disconnect this in
    do! UnInit this in
    do! modify (fun w => set_sessionMap (map_erase (sessionMap_ w) sessionId) w) in
    do! let_go this in
    mret ERR_OK).

Definition getPeerInfoBySessionId (sessionId : Z) : AC (option PeerInfo) :=
  for_session sessionId None (fun this => let! s := self this in mret (Some (peerInfo_ (sessionInfo_ s)))).

Definition ConnectSession (sessionId callback : Z) : AC Z :=
  let! found := GetAbilityConnectionSession sessionId in
  match found with
  | None =>
    do! emit (ConnectCallbackCalled callback (mkConnectResult false INVALID_SESSION_ID (-1) [])) in
    mret DtbCollab.INVALID_SESSION_ID
  | Some this => Connect this callback
  end.

Definition manager_FinishSessionConnect (sessionId : Z) : AC unit := for_session sessionId tt FinishSessionConnect.
Definition DisconnectSession (sessionId : Z) : AC Z := for_session sessionId INVALID_PARAMETERS_ERR Disconnect.
Definition manager_AcceptConnect (sessionId : Z) (token : bytes) : AC Z :=
  for_session sessionId INVALID_PARAMETERS_ERR (fun this => AcceptConnect this token).
Definition Reject (token reason : bytes) : AC Z := call (RejectReasonSent token reason) NotifyRejectReason_ret.
Definition NotifyCollabResult (sessionId result : Z) (peerServerName dmsServerToken reason : bytes) : AC Z :=
  for_session sessionId INVALID_PARAMETERS_ERR (fun this =>
    HandleCollabResult this result peerServerName dmsServerToken reason).
Definition NotifyDisconnect (sessionId : Z) : AC Z :=
  for_session sessionId INVALID_PARAMETERS_ERR (fun this => do! HandleDisconnect this in mret ERR_OK).
Definition NotifyWifiOpen (sessionId : Z) : AC Z := for_session sessionId INVALID_PARAMETERS_ERR ConnectStreamChannel.
Definition NotifyPeerVersion (sessionId : Z) : AC Z := for_session sessionId INVALID_PARAMETERS_ERR HandlePeerVersion.
Definition manager_SendMessage (sessionId : Z) (text : bytes) : AC Z :=
  for_session sessionId INVALID_PARAMETERS_ERR (fun this => SendMessage this text NORMAL).
Definition manager_SendData (sessionId : Z) (buffer : option DataBuffer) : AC Z :=
  for_session sessionId INVALID_PARAMETERS_ERR (fun this => SendData this buffer).
Definition manager_SendImage (sessionId image imageQuality : Z) : AC Z :=
  for_session sessionId INVALID_PARAMETERS_ERR (fun this => SendImage this image imageQuality).
Definition manager_SendFile (sessionId : Z) (sFiles dFiles : list bytes) : AC Z :=
  for_session sessionId INVALID_PARAMETERS_ERR (fun this => SendFile this sFiles dFiles).

Definition manager_CreateStream (sessionId : Z) (param : StreamParams) : AC (Z * option Z) :=
  for_session sessionId (INVALID_PARAMETERS_ERR, None) (fun this =>
    let! w := get in
    let streamId := nextStreamId_ w in
    let! ret := CreateStream this streamId param in
    if negb (ret =? ERR_OK) then mret (ret, None)
    else
      do! modify (fun w => set_streamMap (map_assign (streamMap_ w) streamId sessionId)
        (set_nextStreamId (to_int32 (streamId + 1)) w)) in
      mret (ERR_OK, Some streamId)).

Definition CheckStreamIsRegistered (sessionId : Z) : AC bool :=
  let! w := get in mret (existsb (fun e => e.2 =? sessionId) (streamMap_ w)).

Definition GetAbilityConnectionSessionByStreamId (streamId : Z) : AC (option Z) :=
  let! w := get in
  match map_find (streamMap_ w) streamId with
  | None => mret None
  | Some sessionId => GetAbilityConnectionSession sessionId
  end.

Definition for_stream {A} (streamId : Z) (none : A) (k : Z -> AC A) : AC A :=
  let! found := GetAbilityConnectionSessionByStreamId streamId in
  match found with None => mret none | Some this => k this end.

Definition manager_SetSurfaceId (streamId : Z) (surfaceId : bytes) (param : SurfaceParams) : AC Z :=
  for_stream streamId INVALID_PARAMETERS_ERR (fun this => SetSurfaceId this surfaceId param).
Definition manager_GetSurfaceId (streamId : Z) (param : SurfaceParams) : AC (Z * bytes) :=
  for_stream streamId (INVALID_PARAMETERS_ERR, []) (fun this => GetSurfaceId this param).
Definition manager_UpdateSurfaceParam (streamId : Z) (param : SurfaceParams) : AC Z :=
  for_stream streamId INVALID_PARAMETERS_ERR (fun this => UpdateSurfaceParam this param).
Definition manager_DestroyStream (streamId : Z) : AC Z :=
  for_stream streamId INVALID_PARAMETERS_ERR (fun this =>
    let! ret := DestroyStream this in
    if negb (ret =? ERR_OK) then mret INVALID_PARAMETERS_ERR
    else do! modify (fun w => set_streamMap (map_erase (streamMap_ w) streamId) w) in mret ERR_OK).
Definition manager_StartStream (streamId : Z) : AC Z := for_stream streamId INVALID_PARAMETERS_ERR StartStream.
Definition manager_StopStream (streamId : Z) : AC Z := for_stream streamId INVALID_PARAMETERS_ERR StopStream.

Definition RegisterEventCallback (sessionId : Z) (eventType : bytes) (listener : option Z) : AC Z :=
  for_session sessionId INVALID_PARAMETERS_ERR (fun this =>
    do! update this (fun s => set_listeners (map_assign (listeners_ s) eventType listener) s) in mret ERR_OK).
Definition UnregisterEventCallback (sessionId : Z) (eventType : bytes) : AC Z :=
  for_session sessionId INVALID_PARAMETERS_ERR (fun this =>
    do! update this (fun s => set_listeners (map_erase (listeners_ s) eventType) s) in mret ERR_OK).
(** The overloads for an [IAbilityConnectionSessionListener]. *)
Definition RegisterSessionListener (sessionId : Z) (listener : option Z) : AC Z :=
  for_session sessionId INVALID_PARAMETERS_ERR (fun this =>
    match listener with
    | None => mret INVALID_LISTENER
    | Some l => do! update this (set_sessionListener (Some l)) in mret ERR_OK
    end).
Definition UnregisterSessionListener (sessionId : Z) : AC Z :=
  for_session sessionId INVALID_PARAMETERS_ERR (fun this =>
    do! update this (set_sessionListener None) in mret ERR_OK).

(** ** Runs *)

(** Calls of the application, of the distributed scheduler and of the channels, and turns of
    the threads. *)
Inductive Move :=
| AppCreateSession (serverId' : bytes) (abilityInfo : LocalAbility) (peerInfo : PeerInfo) (opt : ConnectOption)
| AppDestroySession (sessionId : Z)
| AppConnect (sessionId callback : Z)
| AppFinishConnect (sessionId : Z)
| AppDisconnect (sessionId : Z)
| AppAccept (sessionId : Z) (token : bytes)
| AppReject (token reason : bytes)
| AppSendMessage (sessionId : Z) (text : bytes)
| AppSendData (sessionId : Z) (buffer : option DataBuffer)
| AppSendImage (sessionId image imageQuality : Z)
| AppSendFile (sessionId : Z) (sFiles dFiles : list bytes)
| AppCreateStream (sessionId : Z) (param : StreamParams)
| AppSetSurfaceId (streamId : Z) (surfaceId : bytes) (param : SurfaceParams)
| AppGetSurfaceId (streamId : Z) (param : SurfaceParams)
| AppUpdateSurfaceParam (streamId : Z) (param : SurfaceParams)
| AppDestroyStream (streamId : Z)
| AppStartStream (streamId : Z)
| AppStopStream (streamId : Z)
| AppRegister (sessionId : Z) (eventType : bytes) (listener : option Z)
| AppUnregister (sessionId : Z) (eventType : bytes)
| AppRegisterListener (sessionId : Z) (listener : option Z)
| AppUnregisterListener (sessionId : Z)
| DmsCollabResult (sessionId result : Z) (peerServerName dmsServerToken reason : bytes)
| DmsDisconnect (sessionId : Z)
| DmsWifiOpen (sessionId : Z)
| DmsPeerVersion (sessionId : Z)
| ChannelCalls (session : Z) (c : ListenerCall)
| ChannelAsksPath (session id : Z)
| EngineShows (session : Z) (pixelMap : option Z)
| EventTurn (session : Z) (priority : Priority)
| ThreadTurn (n : nat)
| Wake (n : nat)
| ServiceMoves (moves : list service_move).

Definition make_move (mv : Move) : AC unit :=
  let ignore {A} (m : AC A) : AC unit := do! m in mret tt in
  match mv with
  | AppCreateSession i a p o => ignore (CreateSession i a p o)
  | AppDestroySession i => ignore (DestroySession i)
  | AppConnect i c => ignore (ConnectSession i c)
  | AppFinishConnect i => manager_FinishSessionConnect i
  | AppDisconnect i => ignore (DisconnectSession i)
  | AppAccept i token => ignore (manager_AcceptConnect i token)
  | AppReject token reason => ignore (Reject token reason)
  | AppSendMessage i text => ignore (manager_SendMessage i text)
  | AppSendData i buffer => ignore (manager_SendData i buffer)
  | AppSendImage i image q => ignore (manager_SendImage i image q)
  | AppSendFile i f g => ignore (manager_SendFile i f g)
  | AppCreateStream i p => ignore (manager_CreateStream i p)
  | AppSetSurfaceId i x p => ignore (manager_SetSurfaceId i x p)
  | AppGetSurfaceId i p => ignore (manager_GetSurfaceId i p)
  | AppUpdateSurfaceParam i p => ignore (manager_UpdateSurfaceParam i p)
  | AppDestroyStream i => ignore (manager_DestroyStream i)
  | AppStartStream i => ignore (manager_StartStream i)
  | AppStopStream i => ignore (manager_StopStream i)
  | AppRegister i e l => ignore (RegisterEventCallback i e l)
  | AppUnregister i e => ignore (UnregisterEventCallback i e)
  | AppRegisterListener i l => ignore (RegisterSessionListener i l)
  | AppUnregisterListener i => ignore (UnregisterSessionListener i)
  | DmsCollabResult i r n t x => ignore (NotifyCollabResult i r n t x)
  | DmsDisconnect i => ignore (NotifyDisconnect i)
  | DmsWifiOpen i => ignore (NotifyWifiOpen i)
  | DmsPeerVersion i => ignore (NotifyPeerVersion i)
  | ChannelCalls this c => on_channel this c
  | ChannelAsksPath this id => locked this (ignore (GetRecvPath this id))
  | EngineShows this p => locked this (OnRecvPixelMap this p)
  | EventTurn this priority => event_turn this priority
  | ThreadTurn n => thread_turn n
  | Wake n => wake n
  | ServiceMoves moves =>
    let! w := get in
    let! s := from_run (serve_moves moves (channels w)) in
    modify (set_channels s)
  end.
End Operations.
End Service.
End Params.
