(* ===== verification/AbilityConnectionLemmas.v ===== *)
(** * The invariant of the sessions

    Every operation of [AbilityConnection.v] returns and keeps the manager's tables, the
    objects and the channels in order, for any channel service that keeps its promises; a
    detached thread returns while its session is there. *)

From Stdlib Require Import ZArith Lia.
From stdpp Require Import base list option.
From S2P Require Import Prelude ErrorCodes DataBuffer StdMap StdString Effects Framework ChannelManager ChannelManagerLemmas ChannelService MessageHeader AbilityConnection.

(** The types of channels are compared by their places in the enumeration. *)
#[export] Instance trans_order_ok : KeyOrderOk TransChannelType.
Proof. split; [by intros []|by intros [] []|by intros [] [] []]. Qed.

Lemma trans_key_eq (a b : TransChannelType) : key_eq a b = true <-> a = b.
Proof. split; [by destruct a, b|intros ->; apply key_eq_refl]. Qed.

(** Two descriptions of a session are one key when the strings that are compared agree. *)
Lemma info_key_eq (a b : SessionInfo) :
  key_eq a b = true <-> serverId_ a = serverId_ b /\ compareInfo (localInfo_ a) = compareInfo (localInfo_ b) /\
    compareInfo (peerInfo_ a) = compareInfo (peerInfo_ b).
Proof.
  unfold key_eq, key_lt, SessionInfo_order, PeerInfo_eqb, PeerInfo_ltb.
  rewrite (bytes_eqb_sym (serverId_ b)), (bytes_eqb_sym (compareInfo (localInfo_ b))), andb_true_iff, !negb_true_iff.
  destruct (bytes_eqb (serverId_ a) (serverId_ b)) eqn:E1; cbn [negb].
  2:{ apply bytes_eqb_neq in E1. split; [|naive_solver]. intros (H1 & H2). destruct E1. by apply bytes_ltb_total. }
  apply bytes_eqb_eq in E1. destruct (bytes_eqb (compareInfo (localInfo_ a)) (compareInfo (localInfo_ b))) eqn:E2.
  - apply bytes_eqb_eq in E2. split; [|by intros (_ & _ & ->); rewrite bytes_ltb_irrefl].
    intros (H1 & H2). split; [done|]. split; [done|]. by apply bytes_ltb_total.
  - apply bytes_eqb_neq in E2. split; [|naive_solver]. intros (H1 & H2). destruct E2. by apply bytes_ltb_total.
Qed.

#[export] Instance info_order_ok : KeyOrderOk SessionInfo.
Proof.
  split.
  - intros a. by apply info_key_eq.
  - intros a b. apply eq_true_iff_eq. rewrite !info_key_eq. naive_solver.
  - intros a b c. rewrite !info_key_eq. naive_solver congruence.
Qed.

Section Lemmas.
Context {W : WantLib} {PL : ParamsLib} {CS : ChannelService} {CSOk : ChannelServiceOk CS} {Ev : ConnectionEnv}.

(** What the channel manager does while a session sleeps is what softbus may make it do. *)
Class ConnectionEnvOk : Prop := {
  asleep_ok t : Forall service_move_ok (while_asleep t)
}.
Context {EvOk : ConnectionEnvOk}.

(** ** The invariant *)

Definition socket_short (s : Session) : Prop := zlen (localSocketName_ s) <= SERVER_SOCKET_NAME_LENGTH.

(** The channels the sessions have were given to them, each to one session as one type. *)
Definition owned (w : Connections) : Prop := exists owner : Z -> option (Z * TransChannelType),
  forall a s ty info, map_find (objects w) a = Some s -> In (ty, info) (transChannels_ s) ->
    used (channels w) (channelId info) /\ owner (channelId info) = Some (a, ty).

Record connections_ok (w : Connections) : Prop := mkConnectionsOk {
  ok_service : service_ok (channels w);
  ok_numbers a : map_count (objects w) a = true -> a < nextSessionId_ w;
  ok_sessions a : map_count (sessionMap_ w) a = true -> map_count (objects w) a = true;
  ok_waiters : Forall (fun x => map_count (objects w) (waiter_session x) = true) (waiters w);
  ok_sockets a s : map_find (objects w) a = Some s -> socket_short s;
  ok_owned : owned w
}.

(** ** Operations that neither make nor destroy a session *)
Section Frame.
Context (D : Z -> bool) (N : Z) (SM : std_map Z unit).

Record framed (w : Connections) : Prop := mkFramed {
  fr_ok : connections_ok w;
  fr_objects a : map_count (objects w) a = D a;
  fr_map : sessionMap_ w = SM;
  fr_next : nextSessionId_ w = N
}.

(** The operation returns and keeps the invariant and the set of sessions. *)
Definition keeps {A} (c : AC A) : Prop := forall w t, framed w -> wp c (fun _ w' _ => framed w') w t.

Lemma ac_keeps_mret {A} (a : A) : keeps (mret a).
Proof. intros w t Hw. by apply wp_mret. Qed.

Lemma ac_keeps_mbind {A B} (c : AC A) (k : A -> AC B) : keeps c -> (forall a, keeps (k a)) -> keeps (mbind c k).
Proof.
  intros Hc Hk w t Hw. apply wp_mbind. eapply wp_mono; [by apply Hc|]. cbn. intros. by apply Hk.
Qed.

Lemma ac_keeps_get : keeps get.
Proof. intros w t Hw. by apply wp_get. Qed.
Lemma keeps_emit e : keeps (emit e).
Proof. intros w t Hw. by apply wp_emit. Qed.
Lemma keeps_call {A} e (oracle : list Effect -> A) : keeps (call e oracle).
Proof. intros w t Hw. by apply wp_call. Qed.
Lemma keeps_ask {A} (oracle : list Effect -> A) : keeps (ask oracle).
Proof. apply keeps_call. Qed.
Lemma ac_keeps_modify f : (forall w, framed w -> framed (f w)) -> keeps (modify f).
Proof. intros Hf w t Hw. apply wp_modify. by apply Hf. Qed.
Lemma keeps_from_run {A} (c : run A) : (exists a, c = Done a) -> keeps (from_run c).
Proof. intros (a & ->) w t Hw. by eapply wp_from_run. Qed.
Lemma keeps_if {A} (b : bool) (c d : AC A) : keeps c -> keeps d -> keeps (if b then c else d).
Proof. by destruct b. Qed.

Lemma ac_keeps_mfor {A} (l : list A) (f : A -> AC unit) : (forall a, keeps (f a)) -> keeps (mfor l f).
Proof. intros Hf w t Hw. apply (wp_mfor (fun w _ => framed w)); [done|]. intros. by apply Hf. Qed.

Lemma self_run this w t : framed w -> D this = true ->
  wp (self this) (fun s w' t' => w' = w /\ t' = t /\ map_find (objects w) this = Some s) w t.
Proof.
  intros Hw Hthis. unfold self. apply wp_mbind, wp_get.
  pose proof (fr_objects _ Hw this) as Hc. rewrite Hthis in Hc. unfold map_count in Hc.
  destruct (map_find (objects w) this) as [s|] eqn:Hs; [|done]. by apply wp_mret.
Qed.

(** Code that looks a session up goes on with an object of the invariant. *)
Lemma keeps_self {A} this (k : Session -> AC A) :
  D this = true -> (forall s, socket_short s -> keeps (k s)) -> keeps (mbind (self this) k).
Proof.
  intros Hthis Hk w t Hw. apply wp_mbind. eapply wp_mono; [by apply self_run|]. cbn beta.
  intros s w' t' (-> & -> & Hs). apply Hk; [|done]. by apply (ok_sockets _ (fr_ok _ Hw) this).
Qed.

(** A change of a session that adds no channel. *)
Definition adds_no_channel (f : Session -> Session) : Prop := forall s,
  localSocketName_ (f s) = localSocketName_ s /\
  forall ty info, In (ty, info) (transChannels_ (f s)) -> exists info', In (ty, info') (transChannels_ s) /\
    channelId info' = channelId info.

Lemma count_assigned {V} (l : std_map Z V) k v id :
  map_count l k = true -> map_count (map_assign l k v) id = map_count l id.
Proof.
  intros Hk. unfold map_count in *. rewrite map_find_assign, Z_key_eq.
  destruct (Z.eqb_spec k id) as [->|]; [|done]. by destruct (map_find l id).
Qed.

Lemma keeps_update this f : adds_no_channel f -> keeps (update this f).
Proof.
  intros Hf. apply ac_keeps_modify. intros w [[H1 H2 H3 H4 H5 (owner & H6)] H7 H8 H9].
  destruct (map_find (objects w) this) as [s|] eqn:Hs; [|split; [split|..]; try done; by exists owner].
  assert (forall a, map_count (map_assign (objects w) this (f s)) a = map_count (objects w) a) as Hcount.
  { intros a. apply count_assigned. unfold map_count. by rewrite Hs. }
  assert (forall a s', map_find (map_assign (objects w) this (f s)) a = Some s' ->
    (a = this /\ s' = f s) \/ map_find (objects w) a = Some s') as Hfind.
  { intros a s'. rewrite map_find_assign, Z_key_eq. destruct (Z.eqb_spec this a) as [<-|]; [|auto].
    intros [= <-]. auto. }
  split; [split| |done|done]; cbn -[map_find map_count map_assign]; try done.
  - intros a. rewrite Hcount. apply H2.
  - intros a. rewrite Hcount. apply H3.
  - eapply List.Forall_impl; [|exact H4]. intros x. cbn. by rewrite Hcount.
  - intros a s' [(-> & ->)|Ha]%Hfind; [|by eapply H5]. unfold socket_short.
    rewrite (proj1 (Hf s)). by eapply H5.
  - exists owner. intros a s' ty info [(-> & ->)|Ha]%Hfind; [|by apply H6].
    intros (info' & Hin & <-)%(proj2 (Hf s)). by eapply H6.
  - intros a. rewrite Hcount. apply H7.
Qed.

(** A request to the channel manager changes nothing else. *)
Lemma framed_service w s :
  framed w -> service_ok s -> (forall id, used (channels w) id -> used s id) -> framed (set_channels s w).
Proof.
  intros [[H1 H2 H3 H4 H5 (owner & H6)] H7 H8 H9] Hs Hused. split; [split|..]; try done.
  exists owner. intros a s' ty info Ha Hin. destruct (H6 _ _ _ _ Ha Hin). auto.
Qed.

Lemma channel_keeps r : request_ok r -> keeps (channel r).
Proof.
  intros Hr w t Hw. destruct (serve_ok r (channels w) Hr (ok_service _ (fr_ok _ Hw))) as (ret & s & Hrun & Hs & Hused & _).
  unfold wp, channel. rewrite Hrun. cbn [run_bind]. eexists _, _, _. split; [done|]. by apply framed_service.
Qed.

Lemma serve_moves_ok moves s :
  Forall service_move_ok moves -> service_ok s ->
  exists s', serve_moves moves s = Done s' /\ service_ok s' /\ forall id, used s id -> used s' id.
Proof.
  revert s. induction moves as [|mv moves IH]; intros s Hmoves Hs; cbn [serve_moves]; [by exists s|].
  apply Forall_cons_1 in Hmoves as (Hmv & Hmoves).
  destruct (serve_move_ok mv s Hmv Hs) as (s1 & -> & Hs1 & H1 & _). cbn [run_bind].
  destruct (IH s1 Hmoves Hs1) as (s2 & Hrun & Hs2 & H2). exists s2. split; [done|]. split; [done|]. auto.
Qed.

Lemma serve_moves_keeps moves : Forall service_move_ok moves ->
  keeps (let! w := get in let! s := from_run (serve_moves moves (channels w)) in modify (set_channels s)).
Proof.
  intros Hmoves w t Hw. apply wp_mbind, wp_get, wp_mbind.
  destruct (serve_moves_ok moves (channels w) Hmoves (ok_service _ (fr_ok _ Hw))) as (s & Hrun & Hs & Hused).
  eapply wp_from_run; [exact Hrun|]. apply wp_modify. by apply framed_service.
Qed.

Create HintDb sessions.
Hint Resolve ac_keeps_mret ac_keeps_get keeps_emit keeps_call keeps_ask ac_keeps_mfor : sessions.

(** A change of a field other than the channels and the socket. *)
Ltac other_field := apply keeps_update; intros ?; split; [reflexivity|]; cbn; intros ? ? ?; eexists; split; [eassumption|done].

Ltac keep := repeat first
  [ solve [eauto 2 with sessions]
  | match goal with
    | |- keeps (mbind (self _) _) => apply keeps_self; [solve [eauto 2]|let s := fresh "s" in let H := fresh "Hs" in intros s H]
    | |- keeps (mbind _ _) => apply ac_keeps_mbind; [|let a := fresh "a" in intros a]
    | |- keeps (mfor _ _) => apply ac_keeps_mfor; let a := fresh "a" in intros a
    | |- keeps (update _ _) => solve [other_field]
    | |- keeps (channel _) => apply channel_keeps; solve [done]
    | |- keeps (match ?x with _ => _ end) => destruct x eqn:?
    | |- keeps (let _ := _ in _) => cbv zeta
    | |- keeps ((fun _ => _) _) => cbv beta
    end ].

(** A modification of what the invariant does not speak of. *)
Definition same_state (w w' : Connections) : Prop :=
  objects w' = objects w /\ sessionMap_ w' = sessionMap_ w /\ nextSessionId_ w' = nextSessionId_ w /\
  waiters w' = waiters w /\ channels w' = channels w.

Lemma framed_same w w' : same_state w w' -> framed w -> framed w'.
Proof.
  intros (E1 & E2 & E3 & E4 & E5) [[H1 H2 H3 H4 H5 (owner & H6)] H7 H8 H9].
  split; [split|..]; rewrite ?E1, ?E2, ?E3, ?E4, ?E5; try done. exists owner. by rewrite E1, E5.
Qed.

Lemma keeps_tables f : (forall w, same_state w (f w)) -> keeps (modify f).
Proof. intros Hf. apply ac_keeps_modify. intros w. by apply framed_same. Qed.

Lemma GetAbilityConnectionSession_keeps i : keeps (GetAbilityConnectionSession i).
Proof. unfold GetAbilityConnectionSession. keep. Qed.
Hint Resolve GetAbilityConnectionSession_keeps : sessions.

(** A number that the manager knows belongs to an object. *)
Lemma found_session w i this t :
  framed w -> exists r, GetAbilityConnectionSession i w t = Done (r, w, t) /\ (r = Some this -> D this = true).
Proof.
  intros Hw. eexists. split; [reflexivity|]. destruct (i <=? 0); [done|].
  destruct (map_count (sessionMap_ w) i) eqn:E; [|done]. intros [= <-].
  rewrite <- (fr_objects _ Hw). by apply (ok_sessions _ (fr_ok _ Hw)).
Qed.

Lemma keeps_found {A} i (k : option Z -> AC A) :
  (forall this, D this = true -> keeps (k (Some this))) -> keeps (k None) ->
  keeps (mbind (GetAbilityConnectionSession i) k).
Proof.
  intros Hsome Hnone w t Hw. apply wp_mbind. destruct (found_session w i i t Hw) as (r & Hrun & _).
  eexists _, _, _. split; [exact Hrun|]. destruct r as [this|]; [|by apply Hnone].
  destruct (found_session w i this t Hw) as (r & Hrun' & Hr). rewrite Hrun in Hrun'. injection Hrun' as <-.
  apply Hsome; auto.
Qed.

Lemma GetSessionToken_keeps i : keeps (GetSessionToken i).
Proof. apply keeps_found; intros; keep. Qed.
Hint Resolve GetSessionToken_keeps : sessions.

Lemma UpdateClientSession_keeps info i : keeps (UpdateClientSession info i).
Proof. unfold UpdateClientSession. keep. by apply keeps_tables. Qed.
Lemma UpdateServerSession_keeps info i : keeps (UpdateServerSession info i).
Proof.
  unfold UpdateServerSession. keep; by apply keeps_tables.
Qed.
Lemma DeleteConnectSession_keeps info i : keeps (DeleteConnectSession info i).
Proof. unfold DeleteConnectSession. keep; by apply keeps_tables. Qed.
Hint Resolve UpdateClientSession_keeps UpdateServerSession_keeps DeleteConnectSession_keeps : sessions.

Section Session.
Context (this : Z) (Hthis : D this = true).

Lemma js_listener_keeps e : keeps (js_listener this e).
Proof. unfold js_listener. keep. Qed.
Hint Resolve js_listener_keeps : sessions.
Lemma ExeuteEventCallback_keeps e info : keeps (ExeuteEventCallback this e info).
Proof. unfold ExeuteEventCallback. keep. Qed.
Lemma ExeuteCollaborateCallback_keeps e info : keeps (ExeuteCollaborateCallback this e info).
Proof. unfold ExeuteCollaborateCallback. keep. Qed.
Hint Resolve ExeuteEventCallback_keeps ExeuteCollaborateCallback_keeps : sessions.
Lemma tell_keeps c e info : keeps (tell this c e info).
Proof. unfold tell. keep. Qed.
Lemma post_keeps p task : keeps (post this p task).
Proof. unfold post. keep. Qed.
Hint Resolve tell_keeps post_keeps : sessions.
Lemma ExeuteConnectCallback_keeps r : keeps (ExeuteConnectCallback this r).
Proof. apply post_keeps. Qed.
Hint Resolve ExeuteConnectCallback_keeps : sessions.

Lemma no_channels_keeps : keeps (update this (set_transChannels [])).
Proof. apply keeps_update. by intros s. Qed.
Hint Resolve no_channels_keeps : sessions.
Lemma DestroyStream_keeps : keeps (DestroyStream this).
Proof. unfold DestroyStream. keep. Qed.
Hint Resolve DestroyStream_keeps : sessions.
Lemma Release_keeps : keeps (Release this).
Proof. unfold Release. keep. Qed.
Hint Resolve Release_keeps : sessions.
Lemma NotifyCloseCollabSession_keeps token : keeps (NotifyCloseCollabSession token).
Proof. apply keeps_call. Qed.
Hint Resolve NotifyCloseCollabSession_keeps : sessions.
Lemma Disconnect_keeps : keeps (Disconnect this).
Proof. unfold Disconnect. keep. Qed.
Hint Resolve Disconnect_keeps : sessions.
Lemma tell_disconnected_keeps r : keeps (tell_disconnected this r).
Proof. apply tell_keeps. Qed.
Hint Resolve tell_disconnected_keeps : sessions.
Lemma HandleDisconnect_keeps : keeps (HandleDisconnect this).
Proof. unfold HandleDisconnect. keep. Qed.
Lemma NotifyAppConnectResult_keeps b : keeps (NotifyAppConnectResult this b).
Proof. unfold NotifyAppConnectResult. keep. Qed.
Lemma NotifyCollabErrorResultFromSa_keeps c r : keeps (NotifyCollabErrorResultFromSa this c r).
Proof. unfold NotifyCollabErrorResultFromSa. keep. Qed.
Lemma run_connect_result_keeps r : keeps (run_connect_result this r).
Proof. unfold run_connect_result. keep. Qed.
Hint Resolve HandleDisconnect_keeps NotifyAppConnectResult_keeps NotifyCollabErrorResultFromSa_keeps
  run_connect_result_keeps : sessions.

(** ** Sending *)

Lemma send_keeps sync msg ty : zlen msg + 1 < 2 ^ 64 -> keeps (send sync this msg ty).
Proof.
  intros Hmsg. unfold send. apply keeps_self; [done|]. intros s _.
  destruct (PrepareSendMessage_ends (transChannels_ s) msg ty Hmsg) as (ret & r & Hrun & Hr).
  intros w t Hw. apply wp_mbind. eapply wp_from_run; [exact Hrun|]. destruct r as [(id, b)|]; [|by apply wp_mret].
  apply channel_keeps; [apply Hr|done].
Qed.

Lemma ac_SendMessage_keeps msg ty : zlen msg + 1 < 2 ^ 64 -> keeps (SendMessage this msg ty).
Proof. apply send_keeps. Qed.
Lemma ac_SendMessageSync_keeps msg ty : zlen msg + 1 < 2 ^ 64 -> keeps (SendMessageSync this msg ty).
Proof. apply send_keeps. Qed.
(** A message of the program. *)
Lemma SendMessage_str_keeps msg ty : zlen (str msg) <=? 64 = true -> keeps (SendMessage this (str msg) ty).
Proof. intros ?%Z.leb_le. apply ac_SendMessage_keeps. lia. Qed.
Hint Extern 1 (keeps (SendMessage _ (str _) _)) => apply SendMessage_str_keeps; reflexivity : sessions.

Lemma SendData_keeps buffer : given buffer_wf buffer -> keeps (SendData this buffer).
Proof. intros Hb. unfold SendData. keep. Qed.
Lemma ac_SendFile_keeps f g : keeps (SendFile this f g).
Proof. unfold SendFile. keep. Qed.
Lemma SendImage_keeps i q : keeps (SendImage this i q).
Proof. unfold SendImage. keep. Qed.
Lemma engine_keeps k c : keeps (engine this k c).
Proof. apply keeps_call. Qed.
Hint Resolve engine_keeps : sessions.

(** ** Channels *)

Lemma serve_channel r w t : framed w -> request_ok r ->
  wp (channel r) (fun ret w' _ => framed w' /\ objects w' = objects w /\
    channels_after (used (channels w)) (used (channels w')) (live (channels w)) (live (channels w')) r ret /\
    (forall id, used (channels w) id -> used (channels w') id)) w t.
Proof.
  intros Hw Hr.
  destruct (serve_ok r (channels w) Hr (ok_service _ (fr_ok _ Hw))) as (ret & s & Hrun & Hs & Hused & Hafter).
  unfold wp, channel. rewrite Hrun. cbn [run_bind]. eexists _, _, _. split; [done|].
  split; [by apply framed_service|]. by split.
Qed.

Lemma in_emplace (l : TransChannels) ty info e :
  In e (map_emplace l ty info) -> In e l \/ e = (ty, info).
Proof.
  unfold map_emplace. destruct (map_count l ty); [auto|]. intros [H|(H1 & H2)]%in_assign; [by left|].
  destruct e as (k, v). cbn in *. apply trans_key_eq in H2. subst. by right.
Qed.

(** A channel that no session has enters the list of this one. *)
Lemma add_channel_keeps w t ty info :
  framed w -> used (channels w) (channelId info) ->
  (forall a s ty' info', map_find (objects w) a = Some s -> In (ty', info') (transChannels_ s) ->
    channelId info' <> channelId info) ->
  wp (update this (fun s => set_transChannels (map_emplace (transChannels_ s) ty info) s))
    (fun _ w' _ => framed w') w t.
Proof.
  intros Hw Hused Hfresh. unfold update. apply wp_modify.
  destruct (map_find (objects w) this) as [s|] eqn:Hs; [|done].
  set (f s := set_transChannels (map_emplace (transChannels_ s) ty info) s).
  assert (forall a, map_count (map_assign (objects w) this (f s)) a = map_count (objects w) a) as Hcount.
  { intros a. apply count_assigned. unfold map_count. by rewrite Hs. }
  assert (forall a s', map_find (map_assign (objects w) this (f s)) a = Some s' ->
    (a = this /\ s' = f s) \/ map_find (objects w) a = Some s') as Hfind.
  { intros a s'. rewrite map_find_assign, Z_key_eq. destruct (Z.eqb_spec this a) as [<-|]; [|auto].
    intros [= <-]. auto. }
  destruct Hw as [[H1 H2 H3 H4 H5 (owner & H6)] H7 H8 H9].
  split; [split| |done|done]; cbn -[map_find map_count map_assign f]; try done.
  - intros a. rewrite Hcount. apply H2.
  - intros a. rewrite Hcount. apply H3.
  - eapply List.Forall_impl; [|exact H4]. intros x. cbn. by rewrite Hcount.
  - intros a s' [(-> & ->)|Ha]%Hfind; [|by eapply H5]. by apply (H5 this s).
  - exists (fun id => if id =? channelId info then Some (this, ty) else owner id).
    intros a s' ty' info' Ha Hin.
    assert (In (ty', info') (transChannels_ s) /\ a = this \/ (ty', info') = (ty, info) /\ a = this \/
      map_find (objects w) a = Some s') as [(Hin' & ->)|[([= -> ->] & ->)|Ha']].
    { apply Hfind in Ha as [(-> & ->)|Ha]; [|auto]. apply in_emplace in Hin as [?|?]; auto. }
    + rewrite (proj2 (Z.eqb_neq _ _)) by by eapply Hfresh. by eapply H6.
    + by rewrite Z.eqb_refl.
    + rewrite (proj2 (Z.eqb_neq _ _)) by by eapply Hfresh. by eapply H6.
  - intros a. rewrite Hcount. apply H7.
Qed.

Lemma CreateChannel_keeps name ty tr b : keeps (CreateChannel this name ty tr b).
Proof.
  unfold CreateChannel. apply keeps_self; [done|]. intros s _ w t Hw. cbv zeta.
  apply wp_mbind. eapply wp_mono; [by apply serve_channel|]. cbn beta. intros id w1 t1 (Hw1 & Hobj1 & Hafter & Hmono).
  destruct (isValidChannelId id) eqn:Hid; cbn [negb]; [|by apply wp_mret].
  cbn [channels_after] in Hafter. rewrite Hid in Hafter. destruct Hafter as (Hnew & Hgiven & _).
  assert (forall a s' ty' info, map_find (objects w1) a = Some s' -> In (ty', info) (transChannels_ s') ->
    channelId info <> id) as Hfresh.
  { rewrite Hobj1. intros a s' ty' info Ha Hin <-. destruct (ok_owned _ (fr_ok _ Hw)) as (owner & Ho).
    apply Hnew. by eapply Ho. }
  apply wp_mbind. eapply wp_mono; [by apply serve_channel|]. cbn beta. intros ret w2 t2 (Hw2 & Hobj2 & _ & Hmono2).
  destruct (negb _); [by apply wp_mret|]. apply wp_mbind.
  rewrite <- Hobj2 in Hfresh. apply Hmono2 in Hgiven.
  eapply wp_mono; [by apply add_channel_keeps|]. intros u w3 t3 Hw3. by apply wp_mret.
Qed.
Hint Resolve CreateChannel_keeps : sessions.
Lemma CreateStreamChannel_keeps name b : keeps (CreateStreamChannel this name b).
Proof. unfold CreateStreamChannel. keep. Qed.
Hint Resolve CreateStreamChannel_keeps : sessions.
Lemma step_if_keeps b (c : AC Z) : keeps c -> keeps (step_if b c).
Proof. intros Hc. unfold step_if. keep. Qed.
Hint Resolve step_if_keeps : sessions.
Lemma InitChannels_keeps : keeps (InitChannels this).
Proof. unfold InitChannels. keep. Qed.
Hint Resolve InitChannels_keeps : sessions.

Lemma UpdateTransChannelStatus_keeps id b : keeps (UpdateTransChannelStatus this id b).
Proof.
  unfold UpdateTransChannelStatus. apply keeps_update. intros s. split; [done|]. cbn.
  intros ty info ((ty', info') & [= <- <-] & Hin)%in_map_iff. exists info'. split; [done|]. cbn.
  unfold connect_info. by destruct (_ =? _).
Qed.
Hint Resolve UpdateTransChannelStatus_keeps : sessions.
Lemma ConnectTransChannel_keeps ty : keeps (ConnectTransChannel this ty).
Proof. unfold ConnectTransChannel. keep. Qed.
Lemma keeps_threads f : keeps (modify (fun w => set_threads (f w) w)).
Proof. by apply keeps_tables. Qed.
Hint Resolve ConnectTransChannel_keeps keeps_threads : sessions.
Lemma ConnectStreamChannel_keeps : keeps (ConnectStreamChannel this).
Proof. unfold ConnectStreamChannel. keep. Qed.
Lemma connect_task_keeps ty failed : keeps (connect_task this ty failed).
Proof. unfold connect_task. keep. Qed.
Hint Resolve ConnectStreamChannel_keeps connect_task_keeps : sessions.
Lemma ConnectChannels_keeps : keeps (ConnectChannels this).
Proof. unfold ConnectChannels. keep. Qed.
Lemma HandleSessionConnect_keeps : keeps (HandleSessionConnect this).
Proof. unfold HandleSessionConnect. keep. Qed.
Hint Resolve ConnectChannels_keeps HandleSessionConnect_keeps : sessions.
Lemma OnChannelConnect_keeps id : keeps (OnChannelConnect this id).
Proof. unfold OnChannelConnect. keep. Qed.
Lemma OnChannelClosed_keeps id r : keeps (OnChannelClosed this id r).
Proof. unfold OnChannelClosed. keep. Qed.
Hint Resolve OnChannelConnect_keeps OnChannelClosed_keeps : sessions.

(** ** Streams *)

Lemma configure_keeps k l : keeps (configure this k l).
Proof. induction l as [|p l IH]; cbn [configure]; keep. Qed.
Hint Resolve configure_keeps : sessions.
Lemma ConfigEngineParam_keeps k p : keeps (ConfigEngineParam this k p).
Proof. unfold ConfigEngineParam. keep. Qed.
Hint Resolve ConfigEngineParam_keeps : sessions.
Lemma InitSenderEngine_keeps : keeps (InitSenderEngine this).
Proof. unfold InitSenderEngine. keep. Qed.
Lemma InitRecvEngine_keeps : keeps (InitRecvEngine this).
Proof. unfold InitRecvEngine. keep. Qed.
Hint Resolve InitSenderEngine_keeps InitRecvEngine_keeps : sessions.
Lemma CreateStream_keeps i p : keeps (CreateStream this i p).
Proof. unfold CreateStream. keep. Qed.
Lemma GetSurfaceId_keeps p : keeps (GetSurfaceId this p).
Proof. unfold GetSurfaceId. keep. Qed.
Lemma SetSurfaceId_keeps i p : keeps (SetSurfaceId this i p).
Proof. unfold SetSurfaceId. keep. Qed.
Lemma UpdateSurfaceParam_keeps p : keeps (UpdateSurfaceParam this p).
Proof. unfold UpdateSurfaceParam. keep. Qed.
Lemma StartRecvEngine_keeps : keeps (StartRecvEngine this).
Proof. unfold StartRecvEngine. keep. Qed.
Lemma StartSenderEngine_keeps : keeps (StartSenderEngine this).
Proof. unfold StartSenderEngine. keep. Qed.
Hint Resolve StartRecvEngine_keeps StartSenderEngine_keeps : sessions.
Lemma StartStream_keeps : keeps (StartStream this).
Proof. unfold StartStream. keep. Qed.
Lemma StopStream_keeps : keeps (StopStream this).
Proof. unfold StopStream. keep. Qed.
Lemma UpdateRecvEngineTransChannel_keeps : keeps (UpdateRecvEngineTransChannel this).
Proof. unfold UpdateRecvEngineTransChannel. keep. Qed.
Lemma UpdateSenderEngineTransChannel_keeps : keeps (UpdateSenderEngineTransChannel this).
Proof. unfold UpdateSenderEngineTransChannel. keep. Qed.
Hint Resolve UpdateRecvEngineTransChannel_keeps UpdateSenderEngineTransChannel_keeps : sessions.
Lemma DoConnectStreamChannel_keeps id : keeps (DoConnectStreamChannel this id).
Proof. unfold DoConnectStreamChannel. keep. Qed.

(** ** Connecting *)

Lemma CheckConnectedSession_keeps : keeps (CheckConnectedSession this).
Proof. unfold CheckConnectedSession. keep. Qed.
Lemma CheckWifiStatus_keeps : keeps CheckWifiStatus.
Proof. unfold CheckWifiStatus. keep. Qed.
Lemma CreateDmsServerToken_keeps : keeps (CreateDmsServerToken this).
Proof. unfold CreateDmsServerToken. keep. Qed.
Hint Resolve CheckConnectedSession_keeps CheckWifiStatus_keeps CreateDmsServerToken_keeps : sessions.
Lemma Connect_keeps callback : keeps (Connect this callback).
Proof. unfold Connect. keep. Qed.
Lemma HandlePeerVersion_keeps : keeps (HandlePeerVersion this).
Proof. unfold HandlePeerVersion. keep. Qed.
Lemma NotifyPrepareResult_keeps token r i s : keeps (NotifyPrepareResult token r i s).
Proof. apply keeps_call. Qed.
Hint Resolve NotifyPrepareResult_keeps : sessions.
Lemma AcceptConnect_keeps token : keeps (AcceptConnect this token).
Proof. unfold AcceptConnect. keep. Qed.
Lemma usleep_keeps ms : keeps (usleep ms).
Proof.
  intros w t Hw. apply wp_mbind, wp_call. by apply serve_moves_keeps, Hw; apply asleep_ok.
Qed.
Hint Resolve usleep_keeps : sessions.
Lemma request_loop_keeps n socket k ret :
  zlen socket <= SERVER_SOCKET_NAME_LENGTH -> keeps (request_loop n this socket k ret).
Proof.
  intros Hsocket. revert k ret. induction n as [|n IH]; intros k ret; cbn [request_loop]; [keep|].
  apply ac_keeps_mbind; [apply ac_SendMessageSync_keeps; unfold SERVER_SOCKET_NAME_LENGTH in *; lia|]. intros a. keep.
Qed.
Lemma RequestReceiveFileChannelConnection_keeps : keeps (RequestReceiveFileChannelConnection this).
Proof. unfold RequestReceiveFileChannelConnection. keep. by apply request_loop_keeps. Qed.
Lemma NotifyPeerSessionConnected_keeps : keeps (NotifyPeerSessionConnected this).
Proof. unfold NotifyPeerSessionConnected. keep. Qed.
Hint Resolve RequestReceiveFileChannelConnection_keeps NotifyPeerSessionConnected_keeps : sessions.
Lemma HandleCollabResult_keeps r n token reason : keeps (HandleCollabResult this r n token reason).
Proof. unfold HandleCollabResult. keep. Qed.
Lemma FinishSessionConnect_keeps : keeps (FinishSessionConnect this).
Proof. unfold FinishSessionConnect. keep. Qed.

(** ** What arrives *)

Lemma deliver_message_keeps l text : keeps (deliver_message this l text).
Proof. unfold deliver_message. keep. Qed.
Lemma deliver_bytes_keeps b : keeps (deliver_bytes this b).
Proof. apply tell_keeps. Qed.
Hint Resolve deliver_message_keeps deliver_bytes_keeps : sessions.

Lemma when_connected_keeps x k : waiter_session x = this -> keeps k -> keeps (when_connected this x k).
Proof.
  intros Hx Hk. unfold when_connected. keep. apply ac_keeps_modify.
  intros w [[H1 H2 H3 H4 H5 H6] H7 H8 H9]. split; [split|..]; try done.
  apply Forall_app_2; [done|]. apply list.Forall_singleton. cbn -[map_count]. by rewrite Hx, H7.
Qed.

Lemma ExeuteMessageEventCallback_keeps text : keeps (ExeuteMessageEventCallback this text).
Proof. unfold ExeuteMessageEventCallback. keep. apply when_connected_keeps; [done|]. keep. Qed.
Hint Resolve ExeuteMessageEventCallback_keeps : sessions.
Lemma ConnectFileChannel_keeps n : keeps (ConnectFileChannel this n).
Proof. unfold ConnectFileChannel. keep. Qed.
Lemma UpdateRecvEngineStatus_keeps : keeps (UpdateRecvEngineStatus this).
Proof. unfold UpdateRecvEngineStatus. keep. Qed.
Hint Resolve ConnectFileChannel_keeps UpdateRecvEngineStatus_keeps : sessions.
Lemma handle_message_keeps ty text : keeps (handle_message this ty text).
Proof. unfold handle_message. keep. Qed.
Hint Resolve handle_message_keeps : sessions.

Lemma ac_OnMessageReceived_keeps id b : buffer_wf b -> keeps (OnMessageReceived this id b).
Proof.
  intros Hb. unfold OnMessageReceived. keep. apply keeps_from_run.
  edestruct OnMessageReceived_safe as (act & Hact & _); [exact Hb|]. by exists act.
Qed.
Lemma ac_OnBytesReceived_keeps id b : keeps (OnBytesReceived this id b).
Proof. unfold OnBytesReceived. keep. apply when_connected_keeps; [done|]. keep. Qed.
Lemma OnRecvPixelMap_keeps p : keeps (OnRecvPixelMap this p).
Proof. unfold OnRecvPixelMap. keep. Qed.
Lemma OnError_keeps id c : keeps (OnError this id c).
Proof. unfold OnError. keep. Qed.
Lemma tell_listener_keeps id c : keeps (tell_listener this id c).
Proof. unfold tell_listener. keep. Qed.
Lemma GetRecvPath_keeps id : keeps (GetRecvPath this id).
Proof. unfold GetRecvPath. keep. Qed.
Hint Resolve ac_OnBytesReceived_keeps OnRecvPixelMap_keeps OnError_keeps tell_listener_keeps GetRecvPath_keeps : sessions.

Lemma run_task_keeps task : keeps (run_task this task).
Proof. unfold run_task. keep. Qed.
Hint Resolve run_task_keeps : sessions.
End Session.

(** The session is locked: without it nothing is done. *)
Lemma locked_keeps this k : (D this = true -> keeps k) -> keeps (locked this k).
Proof.
  intros Hk w t Hw. unfold locked. apply wp_mbind, wp_get.
  destruct (map_count (objects w) this) eqn:E; [|by apply wp_mret].
  apply Hk; [|done]. by rewrite <- (fr_objects _ Hw).
Qed.

(** What a channel's caller gives the session. *)
Definition call_ok (c : ListenerCall) : Prop :=
  match c with OnMessage _ b => buffer_wf b | _ => True end.

Lemma on_channel_keeps this c : call_ok c -> keeps (on_channel this c).
Proof.
  intros Hc. apply locked_keeps. intros Hthis. destruct c; cbn in Hc;
    unfold OnSendFile, OnRecvFile; auto using OnChannelConnect_keeps, OnChannelClosed_keeps, ac_OnBytesReceived_keeps,
      ac_OnMessageReceived_keeps, OnError_keeps, tell_listener_keeps, ac_keeps_mret.
Qed.

Lemma event_turn_keeps this p : keeps (event_turn this p).
Proof. apply locked_keeps. intros Hthis. keep. by apply run_task_keeps. Qed.

(** A detached thread runs while its session is there. *)
Definition thread_session (x : Thread) : Z :=
  match x with ThreadConnectStream this _ | ThreadHandler this _ _ => this end.

Lemma run_thread_keeps x : D (thread_session x) = true -> keeps (run_thread x).
Proof.
  destruct x as [this id|this ty text]; cbn; intros Hthis.
  - apply ac_keeps_mbind; [by apply DoConnectStreamChannel_keeps|]. intros _. apply ac_keeps_mret.
  - keep. by apply handle_message_keeps.
Qed.

(** ** The manager *)

Lemma for_session_keeps {A} i (none : A) k : (forall this, D this = true -> keeps (k this)) -> keeps (for_session i none k).
Proof. intros Hk. apply keeps_found; [done|]. keep. Qed.

Lemma for_stream_keeps {A} i (none : A) k : (forall this, D this = true -> keeps (k this)) -> keeps (for_stream i none k).
Proof.
  intros Hk w t Hw. unfold for_stream, GetAbilityConnectionSessionByStreamId. apply wp_mbind, wp_mbind, wp_get.
  destruct (map_find (streamMap_ w) i) as [j|]; [|apply wp_mret; by apply wp_mret].
  destruct (found_session w j j t Hw) as (r & Hrun & _). eexists _, _, _. split; [exact Hrun|].
  destruct r as [this|]; [|by apply wp_mret]. destruct (found_session w j this t Hw) as (r & Hrun' & Hr).
  rewrite Hrun in Hrun'. injection Hrun' as <-. apply Hk; auto.
Qed.
End Frame.

(** ** Runs *)

(** The operation returns and keeps the invariant; it uses at most one number. *)
Definition sound {A} (c : AC A) : Prop := forall w t,
  connections_ok w -> 0 <= nextSessionId_ w < 2 ^ 31 - 1 ->
  wp c (fun _ w' _ => connections_ok w' /\ nextSessionId_ w <= nextSessionId_ w' <= nextSessionId_ w + 1) w t.

Lemma framed_self w : connections_ok w -> framed (map_count (objects w)) (nextSessionId_ w) (sessionMap_ w) w.
Proof. by intros Hok. Qed.

Lemma keeps_sound {A} (c : AC A) : (forall D N SM, keeps D N SM c) -> sound c.
Proof.
  intros Hc w t Hok _. eapply wp_mono; [apply Hc; by apply framed_self|]. cbn. intros _ w' _ Hw'.
  split; [apply Hw'|]. rewrite (fr_next _ _ _ _ Hw'). lia.
Qed.

(** A call whose answer is not looked at. *)
Lemma sound_ignore {A} (c : AC A) : sound c -> sound (do! c in mret tt).
Proof.
  intros Hc w t Hok Hn. apply wp_mbind. eapply wp_mono; [by apply Hc|]. cbn. intros. by apply wp_mret.
Qed.

Lemma owned_fewer w w' :
  channels w' = channels w -> (forall a s, map_find (objects w') a = Some s -> map_find (objects w) a = Some s) ->
  owned w -> owned w'.
Proof. intros E Hf (owner & H). exists owner. rewrite E. intros a s ty info Ha. apply H. auto. Qed.

Lemma let_go_ok this w t :
  connections_ok w -> wp (let_go this) (fun _ w' _ => connections_ok w' /\ nextSessionId_ w' = nextSessionId_ w) w t.
Proof.
  intros [H1 H2 H3 H4 H5 H6]. unfold let_go. apply wp_modify.
  destruct (_ || _) eqn:E; [done|]. apply orb_false_elim in E as (E1 & E2).
  assert (forall a, a <> this -> map_count (map_erase (objects w) this) a = map_count (objects w) a) as Hcount.
  { intros a Ha. unfold map_count. by rewrite map_find_erase, Z_key_eq, (proj2 (Z.eqb_neq _ _)) by done. }
  assert (forall a s, map_find (map_erase (objects w) this) a = Some s -> map_find (objects w) a = Some s) as Hfind.
  { intros a s. rewrite map_find_erase, Z_key_eq. by destruct (this =? a). }
  split; [|done]. split; cbn -[map_find map_count map_erase]; try done.
  - intros a Ha. apply H2. revert Ha. unfold map_count. rewrite map_find_erase. by destruct (key_eq this a).
  - intros a Ha. rewrite Hcount; [by apply H3|]. intros ->. congruence.
  - apply List.Forall_forall. intros x Hx. rewrite Hcount; [by eapply List.Forall_forall in H4|].
    intros Hthis. enough (existsb (fun x => waiter_session x =? this) (waiters w) = true) by congruence.
    apply existsb_exists. exists x. split; [done|]. by apply Z.eqb_eq.
  - intros a s Ha%Hfind. by eapply H5.
  - by eapply owned_fewer; [..|exact H6].
Qed.

Lemma DestroySession_sound i : sound (DestroySession i).
Proof.
  intros w t Hok _. unfold DestroySession, for_session. pose proof (framed_self w Hok) as Hw.
  apply wp_mbind. destruct (found_session _ _ _ w i i t Hw) as (r & Hrun & _). eexists _, _, _. split; [exact Hrun|].
  destruct r as [this|]; [|apply wp_mret; split; [done|lia]].
  destruct (found_session _ _ _ w i this t Hw) as (r & Hrun' & Hthis). rewrite Hrun in Hrun'. injection Hrun' as <-.
  specialize (Hthis eq_refl).
  apply wp_mbind. eapply wp_mono; [by apply Disconnect_keeps|]. cbn beta. intros _ w1 t1 Hw1.
  apply wp_mbind. eapply wp_mono; [unfold UnInit; apply keeps_update; [|exact Hw1]|].
  { intros s. split; [done|]. cbn. eauto. }
  cbn beta. intros _ w2 t2 Hw2. apply wp_mbind, wp_modify.
  assert (connections_ok (set_sessionMap (map_erase (sessionMap_ w2) i) w2)) as Hok2.
  { destruct Hw2 as [[H1 H2 H3 H4 H5 H6] _ _ _]. split; cbn -[map_count map_erase]; try done.
    intros a Ha. apply H3. revert Ha. unfold map_count. rewrite map_find_erase. by destruct (key_eq i a). }
  apply wp_mbind. eapply wp_mono; [by apply let_go_ok|]. cbn beta. intros _ w3 t3 (Hok3 & Hn3).
  apply wp_mret. split; [done|]. rewrite Hn3. cbn. rewrite (fr_next _ _ _ _ Hw2). lia.
Qed.

Lemma in_delete {A} n (l : list A) x : In x (base.delete n l) -> In x l.
Proof.
  revert n. induction l as [|y l IH]; intros [|n]; cbn; try done; [by right|].
  intros [->|H]; [by left|]. right. by eapply IH.
Qed.

Lemma wake_sound n : sound (wake n).
Proof.
  intros w t Hok _. unfold wake. apply wp_mbind, wp_get.
  destruct (nth_error (waiters w) n) as [x|] eqn:Hx; [|apply wp_mret; split; [done|lia]]. cbv zeta.
  apply nth_error_In in Hx. apply wp_mbind, wp_modify.
  set (w1 := set_waiters _ w). assert (connections_ok w1) as Hok1.
  { destruct Hok as [H1 H2 H3 H4 H5 H6]. split; try done. apply List.Forall_forall.
    intros y Hy%in_delete. by eapply List.Forall_forall in H4. }
  assert (map_count (objects w1) (waiter_session x) = true) as Hthis.
  { pose proof (ok_waiters _ Hok) as H. by eapply List.Forall_forall in H. }
  pose proof (framed_self w1 Hok1) as Hw1. apply wp_mbind.
  eapply wp_mono; [by eapply self_run|]. cbn beta. intros s w2 t2 (-> & -> & _). apply wp_mbind. eapply wp_mono; [|].
  { apply (fun H : keeps (map_count (objects w1)) (nextSessionId_ w1) (sessionMap_ w1) _ => H w1 t Hw1).
    apply keeps_if; [|apply ac_keeps_mret]. destruct x; [by apply deliver_message_keeps|by apply deliver_bytes_keeps]. }
  cbn beta. intros _ w3 t3 Hw3. eapply wp_mono; [apply let_go_ok, Hw3|]. cbn beta. intros _ w4 _ (Hok4 & Hn4).
  split; [done|]. rewrite Hn4, (fr_next _ _ _ _ Hw3). cbn. lia.
Qed.

Lemma zlen_substr0 (l : bytes) n : 0 <= n -> zlen (substr0 l n) <= n.
Proof.
  intros Hn. unfold substr0, slice, zlen. rewrite length_take, length_drop. lia.
Qed.

(** A new number gets a new object. *)
Lemma new_session_ok i s w t :
  connections_ok w -> nextSessionId_ w = i + 1 -> map_count (objects w) i = false ->
  socket_short s -> transChannels_ s = [] ->
  wp (new_session i s) (fun _ w' _ => connections_ok w' /\ nextSessionId_ w' = nextSessionId_ w) w t.
Proof.
  intros [H1 H2 H3 H4 H5 H6] Hn Hnone Hs Hch. unfold new_session. apply wp_mbind, wp_get. rewrite Hnone.
  apply wp_modify. split; [|done].
  assert (forall a, map_count (map_assign (objects w) i s) a = (i =? a) || map_count (objects w) a) as Hcount
    by (intros a; apply map_count_assign).
  split; cbn -[map_find map_count map_assign map_emplace]; try done.
  - intros a. rewrite Hcount. intros [->%Z.eqb_eq|Ha]%orb_prop; [lia|by apply H2].
  - intros a. rewrite Hcount. unfold map_emplace. destruct (map_count (sessionMap_ w) i).
    + intros Ha. rewrite (H3 _ Ha). apply orb_true_r.
    + rewrite map_count_assign. intros [->|Ha]%orb_prop; [done|]. rewrite (H3 _ Ha). apply orb_true_r.
  - eapply List.Forall_impl; [|exact H4]. intros x Hx. cbn. rewrite Hcount, Hx. apply orb_true_r.
  - intros a s'. rewrite map_find_assign, Z_key_eq. destruct (i =? a); [by intros [= <-]|]. apply H5.
  - destruct H6 as (owner & H6). exists owner. intros a s' ty info. cbn -[map_find map_assign].
    rewrite map_find_assign, Z_key_eq. destruct (i =? a); [intros [= <-]; by rewrite Hch|]. apply H6.
Qed.

Lemma CheckSessionPermission_keeps D N SM : keeps D N SM CheckSessionPermission.
Proof.
  unfold CheckSessionPermission. apply ac_keeps_mbind; [apply keeps_ask|]. intros [|]; [apply ac_keeps_mret|].
  induction REQUIRED_PERMISSIONS as [|p l IH]; cbn [verify_permissions]; [apply ac_keeps_mret|].
  apply ac_keeps_mbind; [apply keeps_call|]. intros [|]; [done|apply ac_keeps_mret].
Qed.

Lemma CreateSession_sound i a p o : sound (CreateSession i a p o).
Proof.
  intros w t Hok Hn. pose proof (framed_self w Hok) as Hw. unfold CreateSession.
  destruct (IsVaildPeerInfo p); cbn [negb]; [|apply wp_mret; split; [done|lia]].
  destruct (IsVaildConnectOption o); cbn [negb]; [|apply wp_mret; split; [done|lia]].
  apply wp_mbind. eapply wp_mono; [by apply CheckSessionPermission_keeps|]. cbn beta. intros allowed w1 t1 Hw1.
  pose proof (fr_next _ _ _ _ Hw1) as Hn1. destruct allowed; cbn [negb]; [|apply wp_mret; split; [apply Hw1|lia]].
  cbv zeta. set (socket := GetServerSocketName _ _ _). apply wp_mbind.
  eapply wp_mono; [eapply channel_keeps; [done|exact Hw1]|]. cbn beta. intros ret w2 t2 Hw2.
  pose proof (fr_next _ _ _ _ Hw2) as Hn2. destruct (negb _); [apply wp_mret; split; [apply Hw2|lia]|].
  apply wp_mbind, wp_get, wp_mbind, wp_modify.
  assert (to_int32 (nextSessionId_ w2 + 1) = nextSessionId_ w2 + 1) as -> by
    (unfold to_int32; rewrite Z.mod_small by lia; lia).
  destruct (fr_ok _ _ _ _ Hw2) as [H1 H2 H3 H4 H5 H6].
  apply wp_mbind. eapply wp_mono; [apply new_session_ok|].
  - split; try done. intros x Hx. specialize (H2 x Hx). cbn. lia.
  - done.
  - destruct (map_count _ _) eqn:E; [|done]. apply H2 in E. lia.
  - unfold socket_short. cbn. apply zlen_substr0. by unfold SERVER_SOCKET_NAME_LENGTH.
  - done.
  - cbn beta. intros _ w3 t3 (Hok3 & Hn3). apply wp_mret. split; [done|]. rewrite Hn3. cbn. lia.
Qed.

(** What the callers see to: a text shorter than a [size_t], buffers as their class makes
    them, softbus as [ChannelService.v] describes it. *)
Definition move_ok (mv : Move) : Prop :=
  match mv with
  | AppSendMessage _ text => zlen text + 1 < 2 ^ 64
  | AppSendData _ buffer => given buffer_wf buffer
  | ChannelCalls _ c => call_ok c
  | ServiceMoves moves => Forall service_move_ok moves
  | _ => True
  end.

(** Every detached thread has its session. *)
Definition threads_alive (w : Connections) : Prop :=
  Forall (fun x => map_count (objects w) (thread_session x) = true) (threads w).

Lemma thread_turn_sound n w t :
  connections_ok w -> threads_alive w ->
  wp (thread_turn n) (fun _ w' _ => connections_ok w' /\ nextSessionId_ w' = nextSessionId_ w) w t.
Proof.
  intros Hok Halive. unfold thread_turn. apply wp_mbind, wp_get.
  destruct (nth_error (threads w) n) as [x|] eqn:Hx; [|by apply wp_mret].
  apply nth_error_In in Hx. apply wp_mbind, wp_modify. pose proof (framed_self w Hok) as Hw.
  apply (framed_same _ _ _ _ (set_threads (base.delete n (threads w)) w)) in Hw; [|done].
  eapply wp_mono; [eapply (run_thread_keeps _ _ _ x); [|exact Hw]|].
  - unfold threads_alive in Halive. by eapply List.Forall_forall in Halive.
  - cbn beta. intros _ w' _ Hw'. split; [apply Hw'|apply Hw'].
Qed.

Ltac session_call lemma := apply keeps_sound; intros; apply for_session_keeps; intros; by apply lemma.
Ltac stream_call lemma := apply keeps_sound; intros; apply for_stream_keeps; intros; by apply lemma.

Lemma manager_CreateStream_sound i p : sound (manager_CreateStream i p).
Proof.
  apply keeps_sound. intros. apply for_session_keeps. intros this Hthis. apply ac_keeps_mbind; [apply ac_keeps_get|].
  intros w. cbv zeta. apply ac_keeps_mbind; [by apply CreateStream_keeps|]. intros ret.
  apply keeps_if; [apply ac_keeps_mret|]. apply ac_keeps_mbind; [by apply keeps_tables|]. intros _. apply ac_keeps_mret.
Qed.

Lemma manager_DestroyStream_sound i : sound (manager_DestroyStream i).
Proof.
  apply keeps_sound. intros. apply for_stream_keeps. intros this Hthis. apply ac_keeps_mbind; [by apply DestroyStream_keeps|].
  intros ret. apply keeps_if; [apply ac_keeps_mret|]. apply ac_keeps_mbind; [by apply keeps_tables|]. intros _. apply ac_keeps_mret.
Qed.

Lemma ConnectSession_sound i c : sound (ConnectSession i c).
Proof.
  apply keeps_sound. intros. apply keeps_found; [intros; by apply Connect_keeps|].
  apply ac_keeps_mbind; [apply keeps_emit|]. intros. apply ac_keeps_mret.
Qed.

Lemma NotifyDisconnect_sound i : sound (NotifyDisconnect i).
Proof.
  apply keeps_sound. intros. apply for_session_keeps. intros. apply ac_keeps_mbind; [by apply HandleDisconnect_keeps|].
  intros. apply ac_keeps_mret.
Qed.

(** A change of a listener. *)
Lemma register_sound i none f : (forall s, localSocketName_ (f s) = localSocketName_ s /\ transChannels_ (f s) = transChannels_ s) ->
  sound (for_session i none (fun this => do! update this f in mret ERR_OK)).
Proof.
  intros Hf. apply keeps_sound. intros. apply for_session_keeps. intros. apply ac_keeps_mbind; [|intros; apply ac_keeps_mret].
  apply keeps_update. intros s. destruct (Hf s) as (E1 & E2). split; [done|]. rewrite E2. eauto.
Qed.

Lemma RegisterSessionListener_sound i l : sound (RegisterSessionListener i l).
Proof.
  destruct l as [l|]; [by apply register_sound|]. apply keeps_sound. intros. apply for_session_keeps. intros. apply ac_keeps_mret.
Qed.

Lemma make_move_sound mv w t :
  move_ok mv -> threads_alive w -> connections_ok w -> 0 <= nextSessionId_ w < 2 ^ 31 - 1 ->
  wp (make_move mv) (fun _ w' _ => connections_ok w' /\ nextSessionId_ w <= nextSessionId_ w' <= nextSessionId_ w + 1) w t.
Proof.
  intros Hmv Halive Hok Hn.
  assert (forall c : AC unit, sound c -> wp c (fun _ w' _ =>
    connections_ok w' /\ nextSessionId_ w <= nextSessionId_ w' <= nextSessionId_ w + 1) w t) as Hsound by auto.
  assert (forall n, wp (thread_turn n) (fun _ w' _ =>
    connections_ok w' /\ nextSessionId_ w <= nextSessionId_ w' <= nextSessionId_ w + 1) w t) as Hthread.
  { intros n. eapply wp_mono; [by apply thread_turn_sound|]. cbn. intros _ w' _ (Hok' & ->). split; [done|lia]. }
  destruct mv; cbn [make_move]; cbn in Hmv; try (by apply Hthread); try (apply Hsound); try (apply sound_ignore);
    first
    [ apply CreateSession_sound | apply DestroySession_sound | apply ConnectSession_sound | apply NotifyDisconnect_sound
    | apply manager_CreateStream_sound | apply manager_DestroyStream_sound | apply RegisterSessionListener_sound
    | apply wake_sound
    | by apply register_sound
    | session_call FinishSessionConnect_keeps | session_call Disconnect_keeps | session_call AcceptConnect_keeps
    | session_call ac_SendMessage_keeps | session_call SendData_keeps | session_call SendImage_keeps
    | session_call ac_SendFile_keeps | session_call HandleCollabResult_keeps | session_call ConnectStreamChannel_keeps
    | session_call HandlePeerVersion_keeps
    | stream_call SetSurfaceId_keeps | stream_call GetSurfaceId_keeps | stream_call UpdateSurfaceParam_keeps
    | stream_call StartStream_keeps | stream_call StopStream_keeps
    | apply keeps_sound; intros; by apply on_channel_keeps
    | apply keeps_sound; intros; by apply event_turn_keeps
    | apply keeps_sound; intros; by apply serve_moves_keeps
    | apply keeps_sound; intros; apply keeps_call
    | apply keeps_sound; intros; apply locked_keeps; intros; by apply OnRecvPixelMap_keeps
    | apply keeps_sound; intros; apply locked_keeps; intros; apply ac_keeps_mbind;
        [by apply GetRecvPath_keeps|intros; apply ac_keeps_mret] ].
Qed.

(** No session ends while a detached thread has its address. *)
Fixpoint threads_in_time (moves : list Move) (w : Connections) (t : list Effect) : Prop :=
  threads_alive w /\
  match moves with
  | [] => True
  | mv :: moves => match make_move mv w t with Done (_, w, t) => threads_in_time moves w t | _ => True end
  end.

Lemma run_sound moves w t :
  Forall move_ok moves -> threads_in_time moves w t -> connections_ok w ->
  0 <= nextSessionId_ w -> nextSessionId_ w + Z.of_nat (length moves) < 2 ^ 31 ->
  wp (mfor moves make_move) (fun _ w' _ => connections_ok w') w t.
Proof.
  revert w t. induction moves as [|mv moves IH]; intros w t Hmoves Htime Hok Hlow Hhigh; cbn [mfor]; [by apply wp_mret|].
  apply Forall_cons_1 in Hmoves as (Hmv & Hmoves). cbn [threads_in_time] in Htime. destruct Htime as (Halive & Htime).
  cbn [length] in Hhigh. apply wp_mbind.
  destruct (make_move_sound mv w t Hmv Halive Hok) as (u & w1 & t1 & Hrun & Hok1 & Hn); [lia|].
  rewrite Hrun in Htime. eexists _, _, _. split; [exact Hrun|]. apply IH; [done|done|done|lia|lia].
Qed.

Lemma connections_ok_init s : service_ok s -> connections_ok (Connections_init s).
Proof. intros Hs. split; try done. by exists (fun _ => None). Qed.
End Lemmas.
