(* ===== verification/AbilityConnectionProperties.v ===== *)
(** * Properties of the sessions of connected abilities

    What the sessions of [AbilityConnection.v] promise the application for any channel
    service that keeps its promises, and where they do not do what they mean to. *)

From Stdlib Require Import ZArith Lia String.
From stdpp Require Import base list option.
From S2P Require Import Prelude ErrorCodes DataBuffer StdMap StdString Effects Framework StreamData ChannelManager ChannelManagerLemmas ChannelManagerProperties ChannelService MessageHeader AbilityConnection AbilityConnectionLemmas.

Section Specs.
Context {W : WantLib} {PL : ParamsLib} {CS : ChannelService} {CSOk : ChannelServiceOk CS} {Ev : ConnectionEnv}.

(** ** One step at a time *)

Definition put (this : Z) (s : Session) (w : Connections) : Connections :=
  set_objects (map_assign (objects w) this s) w.

Lemma find_put this s w a :
  map_find (objects (put this s w)) a = if this =? a then Some s else map_find (objects w) a.
Proof. cbn -[map_find map_assign]. by rewrite map_find_assign, Z_key_eq. Qed.

Lemma find_put_same this s w : map_find (objects (put this s w)) this = Some s.
Proof. by rewrite find_put, Z.eqb_refl. Qed.

Lemma self_eq this s w t : map_find (objects w) this = Some s -> self this w t = Done (s, w, t).
Proof. intros Hs. unfold self, mbind, get. cbn [run_bind]. by rewrite Hs. Qed.

Lemma update_eq this f s w t :
  map_find (objects w) this = Some s -> update this f w t = Done (tt, put this (f s) w, t).
Proof. intros Hs. unfold update, modify. by rewrite Hs. Qed.

Lemma wp_self this s Q w t : map_find (objects w) this = Some s -> Q s w t -> wp (self this) Q w t.
Proof. intros Hs HQ. unfold self. apply wp_mbind, wp_get. rewrite Hs. by apply wp_mret. Qed.

Lemma wp_update this f s (Q : unit -> Connections -> list Effect -> Prop) w t :
  map_find (objects w) this = Some s -> Q tt (put this (f s) w) t -> wp (update this f) Q w t.
Proof. intros Hs HQ. unfold update. apply wp_modify. by rewrite Hs. Qed.

Lemma wp_channel r (Q : Z -> Connections -> list Effect -> Prop) w t :
  request_ok r -> service_ok (channels w) ->
  (forall ret s, service_ok s -> (forall id, used (channels w) id -> used s id) ->
    channels_after (used (channels w)) (used s) (live (channels w)) (live s) r ret ->
    serve r (channels w) = Done (ret, s) ->
    Q ret (set_channels s w) (t ++ [Channel r ret])) ->
  wp (channel r) Q w t.
Proof.
  intros Hr Hok HQ. destruct (serve_ok r (channels w) Hr Hok) as (ret & s & Hrun & Hs & Hused & Hafter).
  unfold wp, channel. rewrite Hrun. cbn [run_bind]. eexists _, _, _. split; [done|]. by apply HQ.
Qed.

(** Everything but the session [this], the tables of who connects and the channels stays. *)
Record touches (this : Z) (w w' : Connections) : Prop := mkTouches {
  other_objects a : a <> this -> map_find (objects w') a = map_find (objects w) a;
  same_sessions : sessionMap_ w' = sessionMap_ w;
  same_waiters : waiters w' = waiters w;
  same_threads : threads w' = threads w;
  same_next : nextSessionId_ w' = nextSessionId_ w
}.

Lemma touches_refl this w : touches this w w.
Proof. by split. Qed.
Lemma touches_trans this w1 w2 w3 : touches this w1 w2 -> touches this w2 w3 -> touches this w1 w3.
Proof. intros [H1 H2 H3 H4 H5] [K1 K2 K3 K4 K5]. split; try congruence. intros a Ha. by rewrite K1, H1. Qed.
Lemma touches_put this s w : touches this w (put this s w).
Proof. split; try done. intros a Ha. rewrite find_put. by rewrite (proj2 (Z.eqb_neq _ _)). Qed.
Lemma touches_channels this s w : touches this w (set_channels s w).
Proof. by split. Qed.

(** ** Ending a session *)

Definition released (s : Session) : Session :=
  set_transChannels [] (set_recvEngineState EMPTY (set_recvEngine false (set_senderEngine false
    (set_sessionStatus UNCONNECTED s)))).

(** Deleting the channels of a list. *)
Lemma delete_channels (l : TransChannels) w t :
  service_ok (channels w) ->
  wp (mfor l (fun e => do! channel (ReqDelete (channelId e.2)) in mret tt)) (fun _ w' t' => exists s,
    w' = set_channels s w /\ service_ok s /\ (forall id, used (channels w) id -> used s id) /\
    (forall id, live s id = live (channels w) id && negb (existsb (fun e => channelId e.2 =? id) l)) /\
    exists l', t' = t ++ l' /\ Forall (fun e => match e with Channel _ _ => True | _ => False end) l') w t.
Proof.
  revert w t. induction l as [|e l IH]; intros w t Hok; cbn [mfor existsb].
  - apply wp_mret. exists (channels w). split; [by destruct w|]. split; [done|]. split; [done|].
    split; [intros id; by rewrite andb_true_r|]. exists []. by rewrite app_nil_r.
  - apply wp_mbind, wp_mbind, wp_channel; [done..|]. intros ret s Hs Hused Hafter _. apply wp_mret.
    eapply wp_mono; [by apply IH|]. cbn beta. intros _ w' t' (s' & -> & Hs' & Hused' & Hlive & l' & -> & Hl').
    exists s'. split; [done|]. split; [done|]. split; [auto|]. split.
    + intros id. rewrite Hlive. cbn -[live]. rewrite (Hafter id), (Z.eqb_sym id).
      by destruct (_ =? id), (live (channels w) id), (existsb _ l).
    + eexists. rewrite <- app_assoc. split; [done|]. by constructor.
Qed.

(** The tables without the entry of a session; one entry is removed at most. *)
Definition forget (info : SessionInfo) (this : Z) (w : Connections) : Connections :=
  if bool_decide (map_find (clientSessionMap_ w) info = Some this)
  then set_clientSessionMap (map_erase (clientSessionMap_ w) info) w
  else if bool_decide (map_find (serverSessionMap_ w) info = Some this)
  then set_serverSessionMap (map_erase (serverSessionMap_ w) info) w
  else w.

Lemma DeleteConnectSession_run info this w t : DeleteConnectSession info this w t = Done (tt, forget info this w, t).
Proof.
  unfold DeleteConnectSession, forget, mbind, get. cbn [run_bind].
  by destruct (bool_decide _); [|destruct (bool_decide _)].
Qed.

Lemma forget_objects info this w : objects (forget info this w) = objects w.
Proof. unfold forget. by destruct (bool_decide _); [|destruct (bool_decide _)]. Qed.
Lemma forget_channels info this w : channels (forget info this w) = channels w.
Proof. unfold forget. by destruct (bool_decide _); [|destruct (bool_decide _)]. Qed.
Lemma touches_forget this info i w : touches this w (forget info i w).
Proof. unfold forget. by destruct (bool_decide _); [|destruct (bool_decide _)]. Qed.

(** Calls that nobody outside the process hears of. *)
Definition quiet (e : Effect) : Prop := match e with Query | Channel _ _ => True | _ => False end.

(** What a call of the channel manager that deletes nothing leaves. *)
Lemma clear_channels id w t :
  service_ok (channels w) ->
  wp (channel (ReqClear id)) (fun _ w' t' => exists s ret, w' = set_channels s w /\ t' = t ++ [Channel (ReqClear id) ret] /\
    service_ok s /\ (forall id, used (channels w) id -> used s id) /\ forall id, live s id = live (channels w) id) w t.
Proof. intros Hok. apply wp_channel; [done..|]. intros ret s Hs Hused Hafter _. by exists s, ret. Qed.

Lemma DestroyStream_spec this s w t :
  map_find (objects w) this = Some s -> service_ok (channels w) ->
  wp (DestroyStream this) (fun _ w' t' => exists sv,
    w' = set_channels sv (put this (set_recvEngineState EMPTY (set_recvEngine false (set_senderEngine false s))) w) /\
    service_ok sv /\ (forall id, used (channels w) id -> used sv id) /\
    (forall id, live sv id = live (channels w) id) /\ exists l', t' = t ++ l' /\ Forall quiet l') w t.
Proof.
  intros Hs Hok. unfold DestroyStream. apply wp_mbind, (wp_update this _ s); [done|].
  apply wp_mbind. eapply wp_self; [apply find_put_same|]. apply wp_mbind, wp_call. cbv zeta.
  apply wp_mbind. eapply wp_mono; [by apply clear_channels|]. cbn beta.
  intros r1 w1 t1 (s1 & ret1 & -> & -> & Hs1 & Hu1 & Hl1). apply wp_mbind.
  eapply wp_mono; [by apply clear_channels|]. cbn beta. intros r2 w2 t2 (s2 & ret2 & -> & -> & Hs2 & Hu2 & Hl2).
  apply wp_mret. exists s2. split; [done|]. split; [done|]. split; [intros id H; by apply Hu2, Hu1|].
  split; [intros id; rewrite Hl2; apply Hl1|]. eexists. rewrite <- !app_assoc. split; [done|]. by repeat constructor.
Qed.

Lemma Release_spec this s w t :
  map_find (objects w) this = Some s -> sessionStatus_ s <> UNCONNECTED -> service_ok (channels w) ->
  wp (Release this) (fun _ w' t' =>
    map_find (objects w') this = Some (released s) /\ touches this w w' /\
    clientSessionMap_ w' = clientSessionMap_ (forget (sessionInfo_ s) this w) /\
    serverSessionMap_ w' = serverSessionMap_ (forget (sessionInfo_ s) this w) /\
    service_ok (channels w') /\ (forall id, used (channels w) id -> used (channels w') id) /\
    (forall id, live (channels w') id =
      live (channels w) id && negb (existsb (fun e => channelId e.2 =? id) (transChannels_ s))) /\
    exists l', t' = t ++ l' /\ Forall quiet l') w t.
Proof.
  intros Hs Hst Hok. unfold Release. apply wp_mbind, (wp_self this s); [done|].
  rewrite bool_decide_eq_false_2 by done. apply wp_mbind, (wp_update this _ s); [done|]. apply wp_mbind.
  set (w1 := put this _ w). exists tt, (forget (sessionInfo_ s) this w1), t.
  split; [apply DeleteConnectSession_run|]. set (w2 := forget _ _ w1).
  assert (map_find (objects w2) this = Some (set_sessionStatus UNCONNECTED s)) as Hs2.
  { unfold w2. rewrite forget_objects. apply find_put_same. }
  assert (channels w2 = channels w) as Hch by (unfold w2; by rewrite forget_channels).
  apply wp_mbind. eapply wp_mono; [apply DestroyStream_spec; [exact Hs2|by rewrite Hch]|]. cbn beta.
  intros _ w3 t3 (sv & -> & Hsv & Hu & Hl & l1 & -> & Hl1). apply wp_mbind.
  eapply wp_self; [apply find_put_same|]. apply wp_mbind. eapply wp_mono; [by apply delete_channels|]. cbn beta.
  intros _ w4 t4 (sv' & -> & Hsv' & Hu' & Hl' & l2 & -> & Hl2).
  eapply wp_update; [apply find_put_same|].
  assert (touches this w w2) as Ht2 by (eapply touches_trans; [apply touches_put|apply touches_forget]).
  split; [apply find_put_same|]. split.
  { eapply touches_trans; [|apply touches_put]. eapply touches_trans; [|apply touches_channels].
    eapply touches_trans; [|apply touches_channels]. by eapply touches_trans; [|apply touches_put]. }
  assert (clientSessionMap_ w2 = clientSessionMap_ (forget (sessionInfo_ s) this w) /\
    serverSessionMap_ w2 = serverSessionMap_ (forget (sessionInfo_ s) this w)) as (Ec & Es).
  { unfold w2, forget. cbn -[map_find map_erase map_assign bool_decide].
    by destruct (bool_decide _); [|destruct (bool_decide _)]. }
  split; [done|]. split; [done|]. split; [done|]. rewrite <- Hch in *. split; [intros id H; by apply Hu', Hu|]. split.
  - intros id. cbn -[live]. rewrite Hl'. cbn -[live]. by rewrite Hl.
  - exists (l1 ++ l2). rewrite app_assoc. split; [done|]. apply Forall_app_2; [done|].
    eapply List.Forall_impl; [|exact Hl2]. by intros [].
Qed.

(** A session that is not connected is left alone. *)
Lemma Release_idle this s w t :
  map_find (objects w) this = Some s -> sessionStatus_ s = UNCONNECTED -> Release this w t = Done (tt, w, t).
Proof.
  intros Hs Hst. unfold Release, self, mbind, get. cbn [run_bind]. rewrite Hs. cbn [run_bind mret].
  by rewrite bool_decide_eq_true_2.
Qed.

(** ** Threads and calls by number *)

Lemma event_turn_run this p s task q q' w t :
  map_find (objects w) this = Some s -> eventHandler_ s = Some q -> take_first p q = Some (task, q') ->
  event_turn this p w t = run_task this task (put this (set_eventHandler (Some q') s) w) t.
Proof.
  intros Hs Hq Htake. unfold event_turn, locked. unfold mbind at 1, get at 1. cbn [run_bind].
  unfold map_count. rewrite Hs. unfold mbind at 1. rewrite (self_eq this s) by done. cbn [run_bind].
  rewrite Hq, Htake. unfold mbind at 1. by rewrite (update_eq this _ s).
Qed.

(** The manager finds a session of its map. *)
Definition known (i : Z) (s : Session) (w : Connections) : Prop :=
  0 < i /\ map_count (sessionMap_ w) i = true /\ map_find (objects w) i = Some s.

Lemma found_run i s w t : known i s w -> GetAbilityConnectionSession i w t = Done (Some i, w, t).
Proof.
  intros (Hi & Hm & _). unfold GetAbilityConnectionSession, mbind, get. cbn [run_bind mret].
  by rewrite (proj2 (Z.leb_gt i 0)), Hm by done.
Qed.

Lemma wp_for_session {A} i s (none : A) k Q w t : known i s w -> wp (k i) Q w t -> wp (for_session i none k) Q w t.
Proof.
  intros Hi Hk. unfold for_session. apply wp_mbind. eexists _, _, _. split; [by eapply found_run|]. done.
Qed.

(** The queue takes a task. *)
Lemma post_run this s q p task w t :
  map_find (objects w) this = Some s -> eventHandler_ s = Some q -> PostTask_ok t = true ->
  post this p task w t = Done (tt, put this (set_eventHandler (Some (q ++ [(p, task)])) s) w, t ++ [Query]).
Proof.
  intros Hs Hq Hp. unfold post. unfold mbind at 1. rewrite (self_eq this s) by done. cbn [run_bind]. rewrite Hq.
  unfold mbind, ask, call. cbn [run_bind]. rewrite Hp. by rewrite (update_eq this _ s).
Qed.

(** ** Properties *)

(** C2 Whatever the application, the scheduler, the channels and the threads do, one after
    the other, every call returns, as long as no session is destroyed under a detached
    thread; the manager's sessions exist, and no channel is held by two sessions or twice by
    one. *)
Theorem connection_run_safe {EvOk : ConnectionEnvOk} moves s :
  service_ok s -> Forall move_ok moves -> threads_in_time moves (Connections_init s) [] ->
  Z.of_nat (length moves) < 2 ^ 31 - 100 ->
  exists w t, mfor moves make_move (Connections_init s) [] = Done (tt, w, t) /\ service_ok (channels w) /\
    (forall i, map_count (sessionMap_ w) i = true -> exists s, map_find (objects w) i = Some s) /\
    forall a b sa sb ea eb, map_find (objects w) a = Some sa -> map_find (objects w) b = Some sb ->
      In ea (transChannels_ sa) -> In eb (transChannels_ sb) -> channelId ea.2 = channelId eb.2 ->
      a = b /\ ea.1 = eb.1.
Proof.
  intros Hs Hmoves Htime Hlen.
  destruct (run_sound moves (Connections_init s) [] Hmoves Htime) as ([] & w & t & Hrun & Hok);
    [by apply connections_ok_init|done|cbn; lia|]. exists w, t. split; [done|]. split; [apply Hok|]. split.
  - intros i Hi%(ok_sessions _ Hok)%map_count_find. done.
  - destruct (ok_owned _ Hok) as (owner & Ho). intros a b sa sb [tya ia] [tyb ib] Ha Hb Hina Hinb E. cbn in E.
    destruct (Ho _ _ _ _ Ha Hina) as (_ & H1). destruct (Ho _ _ _ _ Hb Hinb) as (_ & H2).
    rewrite E in H1. rewrite H1 in H2. by injection H2 as -> ->.
Qed.

(** C29 Disconnecting a session that connects or is connected ends it: it has no channel any
    more and each of its channels is closed, no other channel is, no other session is
    touched, and the scheduler is told last. *)
Theorem disconnect_closes_channels i s w t :
  known i s w -> sessionStatus_ s <> UNCONNECTED -> service_ok (channels w) ->
  exists w' l, DisconnectSession i w t = Done (ERR_OK, w', t ++ l ++ [CloseCollabSessionSent (dmsServerToken_ s)]) /\
    map_find (objects w') i = Some (released s) /\
    (forall id, live (channels w') id =
      live (channels w) id && negb (existsb (fun e => channelId e.2 =? id) (transChannels_ s))) /\
    (forall a, a <> i -> map_find (objects w') a = map_find (objects w) a) /\
    Forall quiet l.
Proof.
  intros Hi Hst Hok. pose proof Hi as (_ & _ & Hs).
  assert (wp (DisconnectSession i) (fun ret w' t' => ret = ERR_OK /\ exists l,
    t' = t ++ l ++ [CloseCollabSessionSent (dmsServerToken_ s)] /\ map_find (objects w') i = Some (released s) /\
    (forall id, live (channels w') id =
      live (channels w) id && negb (existsb (fun e => channelId e.2 =? id) (transChannels_ s))) /\
    (forall a, a <> i -> map_find (objects w') a = map_find (objects w) a) /\ Forall quiet l) w t)
    as (ret & w' & t' & Hrun & -> & l & -> & H).
  { eapply wp_for_session; [done|]. unfold Disconnect. apply wp_mbind.
    eapply wp_mono; [by apply (Release_spec i s)|]. cbn beta.
    intros _ w1 t1 (Hs1 & Ht1 & _ & _ & _ & _ & Hl & l & -> & Hq). apply wp_mbind. eapply wp_self; [exact Hs1|].
    apply wp_mbind, wp_call, wp_mret. split; [done|]. exists l. rewrite <- app_assoc. split; [done|].
    split; [done|]. split; [done|]. split; [apply Ht1|done]. }
  exists w', l. by rewrite Hrun.
Qed.

(** Connecting a session that is connected already is refused, and the refusal ends the
    session: the task that reports the failure to the application releases the session
    behind it, closes its channels and tells neither the peer nor the scheduler. *)
Theorem connect_again_ends_session i s callback w t :
  known i s w -> sessionStatus_ s = CONNECTED -> eventHandler_ s = Some [] -> PostTask_ok t = true ->
  service_ok (channels w) ->
  exists w' l, (let! ret := ConnectSession i callback in do! event_turn i IMMEDIATE in mret ret) w t
      = Done (DtbCollab.CONNECTED_SESSION_EXISTS, w', t ++ l) /\
    (exists s', map_find (objects w') i = Some s' /\ sessionStatus_ s' = UNCONNECTED /\ transChannels_ s' = []) /\
    (forall e, In e (transChannels_ s) -> live (channels w') (channelId e.2) = false) /\
    forall e, In e l -> match e with CloseCollabSessionSent _ | SessionListenerCalled _ _ => False | _ => True end.
Proof.
  intros Hi Hst Hq Hp Hok. pose proof Hi as (_ & _ & Hs).
  set (r := mkConnectResult false CONNECTED_SESSION_EXISTS (-1) []).
  set (s1 := set_eventHandler (Some [(IMMEDIATE, TaskConnectResult r)]) (set_connectCallback (Some callback) s)).
  assert (ConnectSession i callback w t = Done (DtbCollab.CONNECTED_SESSION_EXISTS, put i s1 (put i (set_connectCallback (Some callback) s) w), t ++ [Query])) as Hrun.
  { unfold ConnectSession. unfold mbind at 1. rewrite (found_run i s) by done. cbn [run_bind].
    unfold Connect, CheckConnectedSession, ExeuteConnectCallback. unfold mbind at 1.
    rewrite (update_eq i _ s) by done. cbn [run_bind]. unfold mbind at 1. unfold mbind at 1.
    rewrite (self_eq i (set_connectCallback (Some callback) s)) by apply find_put_same. cbn [run_bind sessionStatus_ set_connectCallback].
    rewrite bool_decide_eq_true_2 by done. unfold mbind at 1.
    rewrite (post_run i (set_connectCallback (Some callback) s) []) by (done || apply find_put_same). done. }
  unfold mbind at 1. rewrite Hrun. cbn [run_bind].
  set (w1 := put i s1 _). assert (map_find (objects w1) i = Some s1) as Hs1 by apply find_put_same.
  unfold mbind at 1. rewrite (event_turn_run i IMMEDIATE s1 (TaskConnectResult r) [(IMMEDIATE, TaskConnectResult r)] [] w1) by done.
  cbn [run_task]. set (s2 := set_eventHandler (Some []) s1).
  assert (wp (run_connect_result i r) (fun _ w' t' => exists l, t' = (t ++ [Query]) ++ l /\
    (exists s', map_find (objects w') i = Some s' /\ sessionStatus_ s' = UNCONNECTED /\ transChannels_ s' = []) /\
    (forall e, In e (transChannels_ s) -> live (channels w') (channelId e.2) = false) /\
    forall e, In e l -> match e with CloseCollabSessionSent _ | SessionListenerCalled _ _ => False | _ => True end)
    (put i s2 w1) (t ++ [Query])) as ([] & w' & t' & Hturn & l & -> & H1 & H2 & H3).
  { unfold run_connect_result. apply wp_mbind. eapply wp_self; [apply find_put_same|]. cbn [connectCallback_ s2 s1 set_eventHandler set_connectCallback].
    apply wp_mbind. eapply wp_update; [apply find_put_same|]. apply wp_mbind, wp_emit. cbn [negb result_isConnected r].
    eapply wp_mono; [eapply Release_spec; [apply find_put_same|cbn; by rewrite Hst|done]|]. cbn beta.
    intros _ w2 t2 (Hs2 & _ & _ & _ & _ & _ & Hl & l & -> & Hquiet). eexists. rewrite <- app_assoc. split; [done|].
    split; [by eexists|]. split.
    - intros e He. rewrite Hl. apply andb_false_intro2, negb_false_iff, existsb_exists. exists e. cbn. by rewrite Z.eqb_refl.
    - intros e [<-|He]; [done|]. eapply List.Forall_forall in Hquiet; [|exact He]. by destruct e. }
  rewrite Hturn. cbn [run_bind mret]. exists w', ([Query] ++ l). rewrite app_assoc. split; [done|]. split; [done|].
  split; [done|]. intros e [<-|He]; [done|]. by apply H3.
Qed.

(** The report of a result returns. *)
Lemma post_ends this s p task w t : map_find (objects w) this = Some s ->
  wp (post this p task) (fun _ w' t' => exists q, w' = put this (set_eventHandler q s) w \/ w' = w) w t.
Proof.
  intros Hs. unfold post. apply wp_mbind, (wp_self this s); [done|].
  destruct (eventHandler_ s) as [q|]; [|apply wp_mret; exists None; by right].
  apply wp_mbind, wp_call. destruct (PostTask_ok t); [|apply wp_mret; exists None; by right].
  apply (wp_update this _ s); [done|]. eexists. by left.
Qed.

(** An entry of the clients' table refuses every session of the same two abilities. *)
Lemma entry_refuses j s cb c w t :
  known j s w -> map_find (clientSessionMap_ w) (sessionInfo_ s) = Some c ->
  exists w' t', ConnectSession j cb w t = Done (DtbCollab.CONNECTED_SESSION_EXISTS, w', t').
Proof.
  intros Hj Hc. pose proof Hj as (_ & _ & Hs).
  assert (wp (ConnectSession j cb) (fun ret _ _ => ret = DtbCollab.CONNECTED_SESSION_EXISTS) w t)
    as (ret & w' & t' & Hrun & ->); [|by exists w', t'].
  unfold ConnectSession. apply wp_mbind. eexists _, _, _. split; [by eapply found_run|].
  unfold Connect, CheckConnectedSession, ExeuteConnectCallback. apply wp_mbind, (wp_update j _ s); [done|].
  set (s1 := set_connectCallback (Some cb) s). set (w1 := put j s1 w).
  assert (map_find (objects w1) j = Some s1) as Hs1 by apply find_put_same.
  assert (forall Q : bool -> Connections -> list Effect -> Prop, (forall w t, Q true w t) ->
    wp (do! post j IMMEDIATE (TaskConnectResult (mkConnectResult false CONNECTED_SESSION_EXISTS (-1) [])) in mret true) Q w1 t)
    as Hpost.
  { intros Q HQ. apply wp_mbind. eapply wp_mono; [by apply (post_ends j s1)|]. cbn. intros _ w2 t2 _. by apply wp_mret. }
  apply wp_mbind, wp_mbind, (wp_self j s1); [done|]. destruct (bool_decide _).
  - apply Hpost. intros. by apply wp_mret.
  - apply wp_mbind. unfold UpdateClientSession. apply wp_mbind, wp_get.
    assert (map_count (clientSessionMap_ w1) (sessionInfo_ s1) = true) as ->.
    { unfold map_count. cbn -[map_find]. by rewrite Hc. }
    apply wp_mret, Hpost. intros. by apply wp_mret.
Qed.

(** A connection that is refused because the device's wifi is off closes the way for good:
    the two abilities stay entered as connecting, the task that reports the failure and even
    destroying the session leave the entry, and every later session between them is refused
    as connected already. *)
Theorem refused_connect_blocks_pair i s callback w t :
  known i s w -> sessionStatus_ s = UNCONNECTED -> eventHandler_ s = Some [] ->
  map_find (clientSessionMap_ w) (sessionInfo_ s) = None -> map_find (serverSessionMap_ w) (sessionInfo_ s) = None ->
  IsSystemApp t = false -> GetWifiStatus (t ++ [Query]) = false -> PostTask_ok (t ++ [Query; WifiAsked]) = true ->
  exists w1 t1 w2 t2, ConnectSession i callback w t = Done (DtbCollab.LOCAL_WIFI_NOT_OPEN, w1, t1) /\
    mfor [EventTurn i IMMEDIATE; AppDestroySession i] make_move w1 t1 = Done (tt, w2, t2) /\
    forall w3 j s3 cb t3, clientSessionMap_ w3 = clientSessionMap_ w2 -> known j s3 w3 ->
      key_eq (sessionInfo_ s) (sessionInfo_ s3) = true ->
      exists w4 t4, ConnectSession j cb w3 t3 = Done (DtbCollab.CONNECTED_SESSION_EXISTS, w4, t4).
Proof.
  intros Hi Hst Hq Hc Hsv Hsys Hwifi Hp. pose proof Hi as (Hpos & Hm & Hs).
  set (r := mkConnectResult false LOCAL_WIFI_NOT_OPEN (-1) []).
  set (s1 := set_connectCallback (Some callback) s).
  set (wa := set_clientSessionMap (map_assign (clientSessionMap_ w) (sessionInfo_ s) i) (put i s1 w)).
  set (w1 := put i (set_eventHandler (Some [(IMMEDIATE, TaskConnectResult r)]) s1) wa).
  assert (ConnectSession i callback w t = Done (DtbCollab.LOCAL_WIFI_NOT_OPEN, w1, (t ++ [Query; WifiAsked]) ++ [Query])) as Hrun.
  { assert (wp (ConnectSession i callback) (fun ret w' t' => ret = DtbCollab.LOCAL_WIFI_NOT_OPEN /\ w' = w1 /\
      t' = (t ++ [Query; WifiAsked]) ++ [Query]) w t) as (ret & w' & t' & Hrun & -> & -> & ->); [|done].
    unfold ConnectSession. apply wp_mbind. eexists _, _, _. split; [by eapply found_run|].
    unfold Connect, CheckConnectedSession. apply wp_mbind, (wp_update i _ s); [done|].
    apply wp_mbind, wp_mbind. eapply wp_self; [apply find_put_same|]. cbn [sessionStatus_ set_connectCallback].
    rewrite bool_decide_eq_false_2 by (rewrite Hst; done). apply wp_mbind. unfold UpdateClientSession.
    apply wp_mbind, wp_get. cbn -[map_count map_assign wp].
    assert (map_count (clientSessionMap_ w) (sessionInfo_ s) = false) as -> by (unfold map_count; by rewrite Hc).
    assert (map_count (serverSessionMap_ w) (sessionInfo_ s) = false) as -> by (unfold map_count; by rewrite Hsv).
    cbn [orb]. apply wp_mbind, wp_modify, wp_mret. cbn [Z.eqb ERR_OK negb]. apply wp_mret. unfold CheckWifiStatus.
    apply wp_mbind, wp_mbind, wp_call. rewrite Hsys. apply wp_call. rewrite Hwifi. cbn [negb]. apply wp_mbind.
    assert (map_find (objects wa) i = Some s1) as Hwa by apply find_put_same.
    replace ((t ++ [Query]) ++ [WifiAsked]) with (t ++ [Query; WifiAsked]) by by rewrite <- app_assoc.
    unfold ExeuteConnectCallback. eexists _, _, _. split; [by apply (post_run i s1 [])|]. by apply wp_mret. }
  set (t1 := (t ++ [Query; WifiAsked]) ++ [Query]) in *.
  assert (wp (mfor [EventTurn i IMMEDIATE; AppDestroySession i] make_move) (fun _ w' _ =>
    clientSessionMap_ w' = map_assign (clientSessionMap_ w) (sessionInfo_ s) i) w1 t1)
    as ([] & w2 & t2 & Hmoves & Hmap).
  { cbn [mfor make_move]. apply wp_mbind. unfold wp at 1.
    rewrite (event_turn_run i IMMEDIATE (set_eventHandler (Some [(IMMEDIATE, TaskConnectResult r)]) s1)
      (TaskConnectResult r) [(IMMEDIATE, TaskConnectResult r)] [] w1) by (done || apply find_put_same).
    set (w2 := put i _ w1). cbn [run_task]. fold (wp (run_connect_result i r) (fun _ w' t' => wp (mfor [AppDestroySession i] make_move)
      (fun _ w' _ => clientSessionMap_ w' = map_assign (clientSessionMap_ w) (sessionInfo_ s) i) w' t') w2 t1).
    unfold run_connect_result. apply wp_mbind. eapply wp_self; [apply find_put_same|].
    cbn [connectCallback_ set_eventHandler set_connectCallback s1]. apply wp_mbind. eapply wp_update; [apply find_put_same|].
    apply wp_mbind, wp_emit. cbn [negb result_isConnected r]. unfold wp at 1.
    set (s3 := set_connectCallback None _). set (w3 := put i s3 w2).
    assert (map_find (objects w3) i = Some s3) as Hs3 by apply find_put_same.
    rewrite (Release_idle i s3 w3) by done. eexists _, _, _. split; [done|].
    cbn [mfor make_move]. apply wp_mbind, wp_mbind. eapply wp_for_session; [by split; [|split; [|exact Hs3]]|].
    unfold Disconnect. apply wp_mbind, wp_mbind. unfold wp at 1. rewrite (Release_idle i s3 w3) by done.
    eexists _, _, _. split; [done|]. apply wp_mbind, (wp_self i s3); [done|]. apply wp_mbind, wp_call, wp_mret.
    unfold UnInit, let_go. apply wp_mbind, (wp_update i _ s3); [done|]. apply wp_mbind, wp_modify, wp_mbind, wp_modify.
    do 3 apply wp_mret. by destruct (_ || _). }
  exists w1, t1, w2, t2. split; [done|]. split; [done|]. intros w3 j s3 cb t3 E Hj Hkey.
  apply (entry_refuses j s3 cb i); [done|]. by rewrite E, Hmap, map_find_assign, Hkey.
Qed.

(** ** Two abilities that connect to each other at once *)

(** The device connects as session [c] and is asked to accept as session [a]. *)
Definition crossing (c a : Z) (sc sa : Session) (w : Connections) : Prop :=
  known c sc w /\ known a sa w /\
  map_find (clientSessionMap_ w) (sessionInfo_ sa) = Some c /\ map_find (serverSessionMap_ w) (sessionInfo_ sa) = None.

Lemma UpdateServerSession_crossing c a sc sa w t :
  crossing c a sc sa w ->
  exists w', UpdateServerSession (sessionInfo_ sa) a w t =
    Done (if bytes_ltb (dmsServerToken_ sc) (dmsServerToken_ sa) then DtbCollab.SAME_SESSION_IS_CONNECTING else ERR_OK, w', t).
Proof.
  intros (Hc & Ha & Hclient & Hserver). pose proof Hc as (_ & _ & Hsc). pose proof Ha as (_ & _ & Hsa).
  unfold UpdateServerSession. unfold mbind at 1, get at 1. cbn [run_bind]. unfold map_count. rewrite Hserver, Hclient.
  unfold mbind at 1, GetSessionToken at 1, mbind at 1. rewrite (found_run a sa) by done. cbn [run_bind].
  unfold mbind at 1. rewrite (self_eq a sa) by done. cbn [run_bind mret].
  unfold mbind at 1, GetSessionToken at 1, mbind at 1. rewrite (found_run c sc) by done. cbn [run_bind].
  unfold mbind at 1. rewrite (self_eq c sc) by done. cbn [run_bind mret].
  destruct (bytes_ltb _ _); by eexists.
Qed.

(** C30 When two devices connect to each other at once, each holds its own token as a client
    and the other's as the one to accept; if the tokens differ, exactly one of them accepts,
    so that one connection is left. *)
Theorem crossing_connections_keep_one c1 a1 sc1 sa1 w1 t1 c2 a2 sc2 sa2 w2 t2 :
  crossing c1 a1 sc1 sa1 w1 -> crossing c2 a2 sc2 sa2 w2 ->
  dmsServerToken_ sa1 = dmsServerToken_ sc2 -> dmsServerToken_ sa2 = dmsServerToken_ sc1 ->
  dmsServerToken_ sc1 <> dmsServerToken_ sc2 ->
  exists r1 r2 w1' w2', UpdateServerSession (sessionInfo_ sa1) a1 w1 t1 = Done (r1, w1', t1) /\
    UpdateServerSession (sessionInfo_ sa2) a2 w2 t2 = Done (r2, w2', t2) /\
    ((r1 = ERR_OK /\ r2 = DtbCollab.SAME_SESSION_IS_CONNECTING) \/ (r1 = DtbCollab.SAME_SESSION_IS_CONNECTING /\ r2 = ERR_OK)).
Proof.
  intros H1 H2 E1 E2 Hne. destruct (UpdateServerSession_crossing _ _ _ _ _ t1 H1) as (w1' & ->).
  destruct (UpdateServerSession_crossing _ _ _ _ _ t2 H2) as (w2' & ->). rewrite E1, E2.
  eexists _, _, _, _. split; [done|]. split; [done|].
  destruct (bytes_ltb (dmsServerToken_ sc1) (dmsServerToken_ sc2)) eqn:L1,
    (bytes_ltb (dmsServerToken_ sc2) (dmsServerToken_ sc1)) eqn:L2; [|by right|by left|].
  - pose proof (bytes_ltb_trans _ _ _ L1 L2) as H. by rewrite bytes_ltb_irrefl in H.
  - destruct Hne. by apply bytes_ltb_total.
Qed.

(** ** Messages *)

(** A message of the application, framed, on its channel. *)
Lemma SendMessage_sends i s text info w t :
  known i s w -> GetTransChannelInfo (transChannels_ s) MESSAGE = (ERR_OK, Some info) ->
  zlen text + 1 + HEADER_LEN < DSCHED_MAX_BUFFER_SIZE -> service_ok (channels w) ->
  exists ret w', manager_SendMessage i text w t = Done (ret, w', t ++ [Channel (ReqMessage false (channelId info)
    (Some (buffer_of (wire (mkMessageHeader PROTOCOL_VERSION NORMAL (zlen text + 1 + HEADER_LEN)) ++ text ++ [0])))) ret]).
Proof.
  intros Hi Hinfo Hlen Hok. pose proof Hi as (_ & _ & Hs). pose proof (zlen_nonneg text).
  assert (zlen (text ++ [0]) = zlen text + 1) as Hz by (by zlen_simpl).
  set (b := buffer_of _). assert (buffer_wf b) as Hb.
  { apply buffer_of_wf. rewrite zlen_app, msg_zlen_wire, Hz. change HEADER_LEN with 22 in *. lia. }
  assert (wp (manager_SendMessage i text) (fun ret _ t' =>
    t' = t ++ [Channel (ReqMessage false (channelId info) (Some b)) ret]) w t)
    as (ret & w' & t' & Hrun & ->); [|by exists ret, w'].
  eapply wp_for_session; [done|]. unfold SendMessage, send. apply wp_mbind, (wp_self i s); [done|].
  apply wp_mbind. eapply wp_from_run; [by apply PrepareSendMessage_ok|]. by apply wp_channel.
Qed.

(** The handler of ordinary messages gets the text with its zero. *)
Lemma message_handled i s id text w t :
  map_find (objects w) i = Some s -> IsVaildChannel (transChannels_ s) id = true ->
  zlen text + 1 + HEADER_LEN < DSCHED_MAX_BUFFER_SIZE ->
  on_channel i (OnMessage id (buffer_of (wire (mkMessageHeader PROTOCOL_VERSION NORMAL (zlen text + 1 + HEADER_LEN))
    ++ text ++ [0]))) w t = handle_message i NORMAL (text ++ [0]) w (t ++ [Query]).
Proof.
  intros Hs Hid Hlen. unfold on_channel, locked. unfold mbind at 1, get at 1. cbn [run_bind]. unfold map_count. rewrite Hs.
  unfold OnMessageReceived. unfold mbind at 1. rewrite (self_eq i s) by done. cbn [run_bind].
  unfold mbind at 1, ask, call. cbn [run_bind]. unfold mbind at 1, from_run.
  by rewrite OnMessageReceived_framed by (done || by left).
Qed.

(** C3 A message that one ability sends reaches the script of the other: what is given to
    the channel on one side, delivered on a channel of a connected session of the other
    side, calls the listener of messages once, with the text and its terminating zero. *)
Theorem message_reaches_script i si text info wi ti j sj id l wj tj :
  known i si wi -> GetTransChannelInfo (transChannels_ si) MESSAGE = (ERR_OK, Some info) ->
  zlen text + 1 + HEADER_LEN < DSCHED_MAX_BUFFER_SIZE -> service_ok (channels wi) ->
  map_find (objects wj) j = Some sj -> IsVaildChannel (transChannels_ sj) id = true ->
  sessionStatus_ sj = CONNECTED -> eventHandler_ sj = Some [] -> sessionListener_ sj = None ->
  map_find (listeners_ sj) EVENT_RECEIVE_MESSAGE = Some (Some l) -> PostTask_ok (tj ++ [Query]) = true ->
  exists b ret wi' wj',
    manager_SendMessage i text wi ti = Done (ret, wi', ti ++ [Channel (ReqMessage false (channelId info) (Some b)) ret]) /\
    mfor [ChannelCalls j (OnMessage id (buffer_of (content b))); EventTurn j LOW] make_move wj tj = Done (tt, wj',
      tj ++ [Query; Query; JsListenerCalled l EVENT_RECEIVE_MESSAGE
        (mkEventCallbackInfo j EVENT_RECEIVE_MESSAGE UNKNOW (text ++ [0]) None None)]).
Proof.
  intros Hi Hinfo Hlen Hok Hj Hid Hst Hq Hnone Hl Hp.
  destruct (SendMessage_sends i si text info wi ti Hi Hinfo Hlen Hok) as (ret & wi' & Hsend).
  eexists _, ret, wi'. rewrite content_buffer_of.
  set (task := (LOW, TaskEvent EVENT_RECEIVE_MESSAGE (message_info j (text ++ [0])))).
  set (s1 := set_eventHandler (Some [task]) sj). eexists. split; [exact Hsend|].
  cbn [mfor make_move]. unfold mbind at 1. rewrite (message_handled j sj id text wj tj) by done.
  assert (handle_message j NORMAL (text ++ [0]) wj (tj ++ [Query]) = Done (tt, put j s1 wj, (tj ++ [Query]) ++ [Query])) as ->.
  { unfold handle_message. cbn [Z.eqb NORMAL]. unfold ExeuteMessageEventCallback, when_connected, deliver_message.
    unfold mbind at 1. rewrite (self_eq j sj) by done. cbn [run_bind].
    unfold mbind at 1. rewrite (self_eq j sj) by done. cbn [run_bind]. rewrite Hst, Hnone.
    unfold mbind at 1. rewrite (self_eq j sj) by done. cbn [run_bind]. rewrite Hq.
    by rewrite (post_run j sj []) by done. }
  cbn [run_bind]. unfold mbind at 1.
  rewrite (event_turn_run j LOW s1 task.2 [task] [] (put j s1 wj)) by (done || apply find_put_same).
  set (w2 := put j _ (put j s1 wj)). cbn [run_task task snd]. unfold mbind at 1, ExeuteEventCallback, mbind at 1, js_listener, mbind at 1.
  rewrite (self_eq j (set_eventHandler (Some []) s1)) by apply find_put_same. cbn [run_bind mret listeners_ set_eventHandler s1].
  rewrite Hl. unfold mbind, emit, mret. cbn [run_bind]. rewrite <- !app_assoc. done.
Qed.

(** A listener of the application that is not a script is told of every message twice:
    on the thread that received it, and again by a task of the session's thread. *)
Theorem native_listener_told_twice j sj id text l w t :
  map_find (objects w) j = Some sj -> IsVaildChannel (transChannels_ sj) id = true ->
  sessionStatus_ sj = CONNECTED -> eventHandler_ sj = Some [] -> sessionListener_ sj = Some l ->
  zlen text + 1 + HEADER_LEN < DSCHED_MAX_BUFFER_SIZE ->
  let told := SessionListenerCalled l (CallMessage j (text ++ [0])) in
  PostTask_ok (t ++ [Query; told]) = true ->
  exists w', mfor [ChannelCalls j (OnMessage id (buffer_of
      (wire (mkMessageHeader PROTOCOL_VERSION NORMAL (zlen text + 1 + HEADER_LEN)) ++ text ++ [0]))); EventTurn j LOW]
    make_move w t = Done (tt, w', t ++ [Query; told; Query; told]).
Proof.
  intros Hj Hid Hst Hq Hl Hlen told Hp. set (task := (LOW, TaskMessage l (text ++ [0]))).
  set (s1 := set_eventHandler (Some [task]) sj). eexists.
  cbn [mfor make_move]. unfold mbind at 1. rewrite (message_handled j sj id text w t) by done.
  assert (handle_message j NORMAL (text ++ [0]) w (t ++ [Query]) = Done (tt, put j s1 w, (t ++ [Query; told]) ++ [Query])) as ->.
  { unfold handle_message. cbn [Z.eqb NORMAL]. unfold ExeuteMessageEventCallback, when_connected, deliver_message.
    unfold mbind at 1. rewrite (self_eq j sj) by done. cbn [run_bind].
    unfold mbind at 1. rewrite (self_eq j sj) by done. cbn [run_bind]. rewrite Hst, Hl.
    unfold mbind at 1. rewrite (self_eq j sj) by done. cbn [run_bind]. rewrite Hq.
    unfold mbind at 1, emit. cbn [run_bind]. fold told.
    replace ((t ++ [Query]) ++ [told]) with (t ++ [Query; told]) by by rewrite <- app_assoc.
    by rewrite (post_run j sj []) by done. }
  cbn [run_bind]. unfold mbind at 1.
  rewrite (event_turn_run j LOW s1 task.2 [task] [] (put j s1 w)) by (done || apply find_put_same).
  cbn [run_task task snd]. unfold emit. cbn [run_bind mret]. rewrite <- !app_assoc. done.
Qed.

(** ** A session and what is left behind it *)

(** Whatever its state, a released session is idle and its surroundings stay. *)
Lemma Release_leaves this s w t :
  map_find (objects w) this = Some s -> service_ok (channels w) ->
  wp (Release this) (fun _ w' _ => exists s', map_find (objects w') this = Some s' /\ sessionStatus_ s' = UNCONNECTED /\
    touches this w w' /\ (sessionStatus_ s = UNCONNECTED -> channels w' = channels w)) w t.
Proof.
  intros Hs Hok. destruct (decide (sessionStatus_ s = UNCONNECTED)) as [Hst|Hst].
  - eexists _, _, _. split; [by eapply Release_idle|]. exists s. split; [done|]. split; [done|]. by split; [apply touches_refl|].
  - eapply wp_mono; [by apply (Release_spec this s)|]. cbn beta. intros _ w' t' (Hs' & Ht & _). by exists (released s).
Qed.

Lemma DestroySession_leaves i s w t :
  known i s w -> service_ok (channels w) ->
  existsb (fun x => waiter_session x =? i) (waiters w) = false ->
  wp (DestroySession i) (fun ret w' _ => ret = ERR_OK /\ map_find (objects w') i = None /\
    map_count (sessionMap_ w') i = false /\ threads w' = threads w /\
    (sessionStatus_ s = UNCONNECTED -> channels w' = channels w)) w t.
Proof.
  intros Hi Hok Hw. pose proof Hi as (_ & _ & Hs). eapply wp_for_session; [done|]. unfold Disconnect.
  apply wp_mbind, wp_mbind. eapply wp_mono; [by apply (Release_leaves i s)|]. cbn beta.
  intros _ w1 t1 (s1 & Hs1 & Hst1 & Ht & Hch). apply wp_mbind, (wp_self i s1); [done|]. apply wp_mbind, wp_call, wp_mret.
  unfold UnInit, let_go. apply wp_mbind, (wp_update i _ s1); [done|].
  apply wp_mbind, wp_modify, wp_mbind, wp_modify, wp_mret.
  assert (map_count (map_erase (sessionMap_ w1) i) i = false) as Hgone by (unfold map_count; by rewrite map_find_erase_eq).
  cbn -[map_find map_count map_erase map_assign]. rewrite (same_waiters _ _ _ Ht), Hw, Hgone. cbn [orb].
  cbn -[map_find map_count map_erase map_assign]. rewrite map_find_erase_eq, Hgone, (same_threads _ _ _ Ht). done.
Qed.

(** A session can be destroyed while a thread that it started still uses it: a request of
    the peer for a channel for files is handled on a detached thread, and when the
    application destroys the session before that thread runs, the thread uses an object that
    is no more. *)
Theorem handler_outlives_session i s id socket w t :
  known i s w -> IsVaildChannel (transChannels_ s) id = true ->
  GetTransChannelInfo (transChannels_ s) SEND_FILE = (DtbCollab.INVALID_PARAMETERS_ERR, None) ->
  zlen socket + 1 + HEADER_LEN < DSCHED_MAX_BUFFER_SIZE -> service_ok (channels w) ->
  threads w = [] -> existsb (fun x => waiter_session x =? i) (waiters w) = false ->
  mfor [ChannelCalls i (OnMessage id (buffer_of
      (wire (mkMessageHeader PROTOCOL_VERSION CONNECT_FILE_CHANNEL (zlen socket + 1 + HEADER_LEN)) ++ socket ++ [0])));
    AppDestroySession i; ThreadTurn 0] make_move w t = Undefined.
Proof.
  intros Hi Hid Hfile Hlen Hok Hth Hw. pose proof Hi as (_ & _ & Hs). cbn [mfor make_move]. unfold mbind at 1.
  set (w1 := set_threads (threads w ++ [ThreadHandler i CONNECT_FILE_CHANNEL (socket ++ [0])]) w).
  assert (on_channel i (OnMessage id (buffer_of (wire (mkMessageHeader PROTOCOL_VERSION CONNECT_FILE_CHANNEL
    (zlen socket + 1 + HEADER_LEN)) ++ socket ++ [0]))) w t = Done (tt, w1, t ++ [Query])) as ->.
  { unfold on_channel, locked. unfold mbind at 1, get at 1. cbn [run_bind]. unfold map_count. rewrite Hs.
    unfold OnMessageReceived. unfold mbind at 1. rewrite (self_eq i s) by done. cbn [run_bind].
    unfold mbind at 1, ask, call. cbn [run_bind]. unfold mbind at 1, from_run.
    assert (CONNECT_FILE_CHANNEL ∈ messageHandlerMap_) as Hin by (apply list_elem_of_In; cbn; tauto).
    rewrite OnMessageReceived_framed by done.
    by rewrite Hfile. }
  cbn [run_bind]. destruct (DestroySession_leaves i s w1 (t ++ [Query])) as (ret & w2 & t2 & Hrun & _ & Hgone & _ & Hth2 & _);
    [exact Hi|exact Hok|exact Hw|].
  unfold mbind at 1. unfold mbind at 1. rewrite Hrun. cbn [run_bind mret].
  unfold mbind at 1, thread_turn, mbind at 1, get at 1. cbn [run_bind]. rewrite Hth2. cbn -[map_find]. rewrite Hth. cbn -[map_find].
  unfold mbind, modify, self, get. cbn -[map_find]. by rewrite Hgone.
Qed.

(** A session that is idle, and a channel that is open. *)
Definition left_open (i id : Z) (w' w : Connections) : Prop :=
  service_ok (channels w) /\ live (channels w) id = true /\ waiters w = waiters w' /\
  exists s, known i s w /\ sessionStatus_ s = UNCONNECTED.

Lemma left_open_put i id w0 s w :
  left_open i id w0 w -> sessionStatus_ s = UNCONNECTED -> left_open i id w0 (put i s w).
Proof.
  intros (Hok & Hl & Hw & s' & (Hi & Hm & _) & _) Hst. split; [done|]. split; [done|]. split; [done|].
  exists s. split; [|done]. split; [done|]. split; [done|]. apply find_put_same.
Qed.

(** The result is reported, whatever it is, and the channel stays open. *)
Lemma left_open_report i id w0 b w t :
  left_open i id w0 w -> wp (NotifyAppConnectResult i b) (fun _ w' _ => left_open i id w0 w') w t.
Proof.
  intros H. pose proof H as (_ & _ & _ & s & (_ & _ & Hs) & Hst). unfold NotifyAppConnectResult, ExeuteConnectCallback.
  assert (forall r t, wp (post i IMMEDIATE (TaskConnectResult r)) (fun _ w' _ => left_open i id w0 w') w t) as Hpost.
  { intros r t'. eapply wp_mono; [by apply (post_ends i s)|]. cbn beta. intros _ w' _ (q & [->| ->]); [|done].
    by apply left_open_put. }
  destruct b; [apply Hpost|]. apply wp_mbind. unfold wp at 1. rewrite (Release_idle i s) by done. eexists _, _, _.
  split; [done|]. apply wp_mbind, (wp_self i s); [done|]. apply wp_mbind. unfold NotifyCloseCollabSession.
  apply wp_call, Hpost.
Qed.

(** The channel for messages of a session that has none. *)
Lemma CreateChannel_opens i s name id sv sv' w t :
  known i s w -> sessionStatus_ s = UNCONNECTED -> transChannels_ s = [] -> service_ok (channels w) ->
  serve (ReqCreate true name ChannelManager.MESSAGE
    (ChannelManager.mkPeerInfo (peerSocketName_ s) (deviceId (peerInfo_ (sessionInfo_ s))))) (channels w) = Done (id, sv) ->
  isValidChannelId id = true -> serve (ReqListen id (channelListener_ s)) sv = Done (ERR_OK, sv') ->
  wp (CreateChannel i name ChannelManager.MESSAGE MESSAGE true) (fun ret w' _ => ret = ERR_OK /\
    left_open i id w w' /\ map_find (objects w') i
      = Some (set_transChannels [(MESSAGE, mkTransChannelInfo id (type_index ChannelManager.MESSAGE) MESSAGE false)] s)) w t.
Proof.
  intros Hi Hst Hnone Hok Hcreate Hid Hlisten. pose proof Hi as (Hpos & Hm & Hs). unfold CreateChannel.
  apply wp_mbind, (wp_self i s); [done|]. apply wp_mbind, wp_channel; [done..|].
  intros ret sv1 Hok1 _ Hafter Hrun. rewrite Hcreate in Hrun. injection Hrun as <- <-.
  cbn -[live isValidChannelId] in Hafter. rewrite Hid in Hafter |- *. cbn [negb]. destruct Hafter as (_ & _ & Hlive).
  apply wp_mbind, wp_channel; [done..|]. intros ret sv1 Hok2 _ Hafter Hrun. cbn [channels set_channels] in Hrun.
  rewrite Hlisten in Hrun. injection Hrun as <- <-. cbn [negb Z.eqb ERR_OK].
  set (s' := set_transChannels _ s). set (w2 := set_channels sv' _).
  apply wp_mbind. eapply (wp_update i _ s); [done|]. apply wp_mret. rewrite Hnone.
  split; [done|]. split; [|apply find_put_same]. split; [done|]. split.
  { cbn -[live]. rewrite Hafter. cbn -[live]. by rewrite Hlive, Z.eqb_refl. }
  split; [done|]. exists s'. split; [|done]. split; [done|]. split; [done|]. apply find_put_same.
Qed.

(** Only messages are exchanged. *)
Definition messages_only (opt : ConnectOption) : Prop :=
  needSendData opt = false /\ needSendStream opt = false /\ needReceiveStream opt = false /\
  needSendFile opt = false /\ needReceiveFile opt = false.

Lemma InitChannels_opens i s id sv sv' w t :
  known i s w -> sessionStatus_ s = UNCONNECTED -> transChannels_ s = [] -> direction_ s = COLLABRATE_SOURCE ->
  messages_only (connectOption_ s) -> service_ok (channels w) ->
  serve (ReqCreate true (GetChannelName s) ChannelManager.MESSAGE
    (ChannelManager.mkPeerInfo (peerSocketName_ s) (deviceId (peerInfo_ (sessionInfo_ s))))) (channels w) = Done (id, sv) ->
  isValidChannelId id = true -> serve (ReqListen id (Some (new_listener t))) sv = Done (ERR_OK, sv') ->
  wp (InitChannels i) (fun ret w' _ => ret = ERR_OK /\ left_open i id w w' /\ exists s', map_find (objects w') i = Some s' /\
    sessionStatus_ s' = UNCONNECTED /\ connectOption_ s' = connectOption_ s /\
    transChannels_ s' = [(MESSAGE, mkTransChannelInfo id (type_index ChannelManager.MESSAGE) MESSAGE false)]) w t.
Proof.
  intros Hi Hst Hnone Hdir (Hd & Hss & Hrs & Hsf & Hrf) Hok Hcreate Hid Hlisten. pose proof Hi as (Hpos & Hm & Hs).
  unfold InitChannels. apply wp_mbind, (wp_update i _ s); [done|]. apply wp_mbind, wp_call.
  apply wp_mbind. eapply wp_update; [apply find_put_same|]. apply wp_mbind. eapply wp_self; [apply find_put_same|].
  set (sb := set_channelListener _ _). set (wb := put i sb _).
  change (direction_ sb) with (direction_ s). change (connectOption_ sb) with (connectOption_ s).
  rewrite (bool_decide_eq_true_2 (direction_ s = COLLABRATE_SOURCE)) by done. apply wp_mbind.
  eapply wp_mono; [eapply (CreateChannel_opens i sb _ id sv sv' wb)|].
  - split; [done|]. split; [done|]. apply find_put_same.
  - exact Hst.
  - exact Hnone.
  - exact Hok.
  - exact Hcreate.
  - exact Hid.
  - exact Hlisten.
  - cbn beta. intros ret w' t' (-> & Hopen & Hs'). rewrite Hd, Hss, Hrs, Hsf, Hrf.
    cbn [negb Z.eqb ERR_OK step_if orb andb]. do 4 apply wp_mbind, wp_mret.
    apply wp_mret. split; [done|]. split; [exact Hopen|]. eexists. split; [exact Hs'|]. by split.
Qed.

Lemma ConnectChannels_open i s id w0 w t :
  map_find (objects w) i = Some s -> sessionStatus_ s = UNCONNECTED -> messages_only (connectOption_ s) ->
  transChannels_ s = [(MESSAGE, mkTransChannelInfo id (type_index ChannelManager.MESSAGE) MESSAGE false)] ->
  left_open i id w0 w ->
  wp (ConnectChannels i) (fun _ w' _ => left_open i id w0 w' /\ exists s', map_find (objects w') i = Some s' /\
    connectOption_ s' = connectOption_ s) w t.
Proof.
  intros Hs Hst (Hd & Hss & Hrs & Hsf & Hrf) Htrans Hopen.
  unfold ConnectChannels. apply wp_mbind, (wp_self i s); [done|]. rewrite Hd, Hss, Hrs, Hsf. cbn [orb step_if].
  apply wp_mbind. unfold connect_task. apply wp_mbind. unfold ConnectTransChannel. apply wp_mbind, (wp_self i s); [done|].
  unfold session_channel. rewrite Htrans. cbn -[wp live isValidChannelId].
  apply wp_mbind, wp_channel; [done|apply Hopen|]. intros ret sv Hsv _ Hafter _.
  set (w2 := set_channels sv w). assert (left_open i id w0 w2) as Hopen2.
  { destruct Hopen as (_ & Hl & Hws & s2 & Hk & Hst2). split; [done|]. split; [by cbn -[live]; rewrite (Hafter id)|].
    split; [done|]. by exists s2. }
  destruct (negb (ret =? ERR_OK)).
  - apply wp_mret, wp_mret. do 4 apply wp_mbind, wp_mret. apply wp_mret. split; [done|]. by exists s.
  - apply wp_mbind. unfold UpdateTransChannelStatus. eapply (wp_update i _ s); [done|]. apply wp_mret, wp_mret.
    do 4 apply wp_mbind, wp_mret. apply wp_mret. split; [by apply left_open_put|]. eexists. by split; [apply find_put_same|].
Qed.

(** The whole of a late answer. *)
Lemma HandleCollabResult_open i s peer token reason id sv sv' w t :
  known i s w -> sessionStatus_ s = UNCONNECTED -> transChannels_ s = [] -> direction_ s = COLLABRATE_SOURCE ->
  messages_only (connectOption_ s) -> service_ok (channels w) ->
  serve (ReqCreate true (GetChannelName s) ChannelManager.MESSAGE
    (ChannelManager.mkPeerInfo peer (deviceId (peerInfo_ (sessionInfo_ s))))) (channels w) = Done (id, sv) ->
  isValidChannelId id = true -> serve (ReqListen id (Some (new_listener t))) sv = Done (ERR_OK, sv') ->
  wp (HandleCollabResult i ERR_OK peer token reason) (fun _ w' _ => left_open i id w w') w t.
Proof.
  intros Hi Hst Hnone Hdir Hopt Hok Hcreate Hid Hlisten. pose proof Hi as (Hpos & Hm & Hs).
  unfold HandleCollabResult. apply wp_mbind, (wp_update i _ s); [done|].
  cbn [negb Z.eqb ERR_OK]. set (sa := set_peerSocketName _ _). apply wp_mbind.
  eapply wp_mono; [apply (InitChannels_opens i sa id sv sv')|]; [|done..|].
  { split; [done|]. split; [done|]. apply find_put_same. }
  cbn beta. intros ret w' t' (-> & Hopen & s' & Hs' & Hst' & Hsame & Htrans). cbn [negb Z.eqb ERR_OK]. apply wp_mbind.
  eapply wp_mono; [apply (ConnectChannels_open i s' id w); [done|done| |done|exact Hopen]|]; [by rewrite Hsame|].
  cbn beta. intros ret w2 t2 (Hopen2 & s2 & Hs2 & Hsame2). rewrite Hsame in Hsame2. destruct (negb (ret =? ERR_OK)).
  - apply wp_mbind. eapply wp_mono; [by apply left_open_report|]. cbn beta. intros _ w3 t3 H3. by apply wp_mret.
  - destruct Hopt as (_ & _ & _ & Hsf & Hrf). change (connectOption_ sa) with (connectOption_ s) in Hsame2.
    apply wp_mbind, (wp_self i s2); [done|]. rewrite Hsame2, Hrf. unfold NotifyPeerSessionConnected.
    apply wp_mbind, wp_mbind, (wp_self i s2); [done|]. unfold HasFileTransfer. rewrite Hsame2, Hsf, Hrf. apply wp_mret.
    apply wp_mbind. eapply wp_mono; [by apply left_open_report|]. cbn beta. intros _ w3 t3 H3. by apply wp_mret.
Qed.

(** The answer of the peer may come when the application has given the connection up: the
    session makes its channels all the same, and nothing deletes them any more.  When the
    session is destroyed then, its channel stays open without an owner. *)
Theorem late_result_leaks_channel i s peer token reason id sv sv' w t :
  known i s w -> sessionStatus_ s = UNCONNECTED -> transChannels_ s = [] -> direction_ s = COLLABRATE_SOURCE ->
  messages_only (connectOption_ s) -> existsb (fun x => waiter_session x =? i) (waiters w) = false ->
  service_ok (channels w) ->
  serve (ReqCreate true (GetChannelName s) ChannelManager.MESSAGE
    (ChannelManager.mkPeerInfo peer (deviceId (peerInfo_ (sessionInfo_ s))))) (channels w) = Done (id, sv) ->
  isValidChannelId id = true -> serve (ReqListen id (Some (new_listener t))) sv = Done (ERR_OK, sv') ->
  exists w' t', mfor [DmsCollabResult i ERR_OK peer token reason; AppDestroySession i] make_move w t = Done (tt, w', t') /\
    map_find (objects w') i = None /\ map_count (sessionMap_ w') i = false /\
    live (channels w) id = false /\ live (channels w') id = true.
Proof.
  intros Hi Hst Hnone Hdir Hopt Hw Hok Hcreate Hid Hlisten.
  assert (live (channels w) id = false) as Hnew.
  { destruct (live (channels w) id) eqn:E; [|done]. apply live_used in E; [|done].
    destruct (serve_ok (ReqCreate true (GetChannelName s) ChannelManager.MESSAGE
      (ChannelManager.mkPeerInfo peer (deviceId (peerInfo_ (sessionInfo_ s))))) (channels w)) as (ret & s' & Hrun & _ & _ & Hafter); [done..|].
    rewrite Hcreate in Hrun. injection Hrun as <- <-. cbn -[isValidChannelId] in Hafter. rewrite Hid in Hafter. by destruct Hafter. }
  assert (wp (NotifyCollabResult i ERR_OK peer token reason) (fun _ w' _ => left_open i id w w') w t)
    as (ret & w1 & t1 & Hrun1 & Hok1 & Hl1 & Hw1 & s1 & Hk1 & Hst1).
  { eapply wp_for_session; [done|]. by eapply HandleCollabResult_open. }
  destruct (DestroySession_leaves i s1 w1 t1 Hk1 Hok1) as (ret2 & w2 & t2 & Hrun2 & _ & Ho & Hm2 & _ & Hch); [by rewrite Hw1|].
  exists w2, t2. split; [|split; [done|]; split; [done|]; split; [done|]; by rewrite Hch].
  cbn [mfor make_move]. unfold mbind at 1. unfold mbind at 1. rewrite Hrun1. cbn [run_bind mret]. unfold mbind at 1.
  unfold mbind at 1. rewrite Hrun2. done.
Qed.

(** ** Accepting a connection *)

(** The session is in a state; the channels are in order and the trace goes on. *)
Definition stays (st : SessionStatus) (i : Z) (t0 : list Effect) (w : Connections) (t : list Effect) : Prop :=
  service_ok (channels w) /\ (exists s, map_find (objects w) i = Some s /\ sessionStatus_ s = st) /\ exists l, t = t0 ++ l.

Lemma stays_update st i t0 f w t (Q : unit -> Connections -> list Effect -> Prop) :
  stays st i t0 w t -> (forall s, sessionStatus_ (f s) = sessionStatus_ s) ->
  (forall w', stays st i t0 w' t -> Q tt w' t) -> wp (update i f) Q w t.
Proof.
  intros (Hok & (s & Hs & Hst) & Ht) Hf HQ. apply (wp_update i f s); [done|]. apply HQ.
  split; [done|]. split; [|done]. exists (f s). by rewrite find_put_same, Hf.
Qed.

Lemma stays_channel st i t0 r w t (Q : Z -> Connections -> list Effect -> Prop) :
  stays st i t0 w t -> request_ok r -> (forall ret w' t', stays st i t0 w' t' -> Q ret w' t') -> wp (channel r) Q w t.
Proof.
  intros (Hok & Hs & l & ->) Hr HQ. apply wp_channel; [done..|]. intros ret sv Hsv _ _ _. apply HQ.
  split; [done|]. split; [done|]. rewrite <- app_assoc. by eexists.
Qed.

Lemma stays_self st i t0 w t (Q : Session -> Connections -> list Effect -> Prop) :
  stays st i t0 w t -> (forall s, sessionStatus_ s = st -> map_find (objects w) i = Some s -> Q s w t) -> wp (self i) Q w t.
Proof. intros (_ & (s & Hs & Hst) & _) HQ. apply (wp_self i s); [done|]. by apply HQ. Qed.

Lemma CreateChannel_stays st i t0 name dt ct c w t (Q : Z -> Connections -> list Effect -> Prop) :
  stays st i t0 w t -> (forall ret w' t', stays st i t0 w' t' -> Q ret w' t') -> wp (CreateChannel i name dt ct c) Q w t.
Proof.
  intros H HQ. unfold CreateChannel. apply wp_mbind. eapply stays_self; [done|]. intros s _ _.
  apply wp_mbind. eapply stays_channel; [done..|]. intros ret w1 t1 H1.
  destruct (negb (isValidChannelId ret)); [by apply wp_mret, HQ|].
  apply wp_mbind. eapply stays_channel; [done..|]. intros ret2 w2 t2 H2.
  destruct (negb (ret2 =? ERR_OK)); [by apply wp_mret, HQ|].
  apply wp_mbind. eapply stays_update; [done..|]. intros w3 H3. by apply wp_mret, HQ.
Qed.

Lemma step_stays st i t0 b m w t (Q : Z -> Connections -> list Effect -> Prop) :
  stays st i t0 w t ->
  (forall Q0 : Z -> Connections -> list Effect -> Prop, (forall ret w' t', stays st i t0 w' t' -> Q0 ret w' t') -> wp m Q0 w t) ->
  (forall ret w' t', stays st i t0 w' t' -> Q ret w' t') -> wp (step_if b m) Q w t.
Proof. intros H Hm HQ. destruct b; [by apply Hm|]. by apply wp_mret, HQ. Qed.

Lemma CreateStreamChannel_stays st i t0 name c w t (Q : Z -> Connections -> list Effect -> Prop) :
  stays st i t0 w t -> (forall ret w' t', stays st i t0 w' t' -> Q ret w' t') -> wp (CreateStreamChannel i name c) Q w t.
Proof.
  intros H HQ. unfold CreateStreamChannel. apply wp_mbind. eapply CreateChannel_stays; [done|]. intros ret w1 t1 H1.
  destruct (negb _); [by apply wp_mret, HQ|]. apply wp_mbind. eapply CreateChannel_stays; [done|]. intros. by apply wp_mret, HQ.
Qed.

Lemma InitChannels_stays st i t0 w t (Q : Z -> Connections -> list Effect -> Prop) :
  stays st i t0 w t -> (forall ret w' t', stays st i t0 w' t' -> Q ret w' t') -> wp (InitChannels i) Q w t.
Proof.
  intros H HQ. unfold InitChannels. apply wp_mbind. eapply stays_update; [done..|]. intros w1 (Hok1 & Hs1 & l & ->).
  apply wp_mbind, wp_call. apply wp_mbind. eapply stays_update; [split; [exact Hok1|split; [exact Hs1|]]|done|].
  { rewrite <- app_assoc. by eexists. }
  intros w2 H2. apply wp_mbind. eapply stays_self; [done|]. intros s _ _. cbv zeta.
  apply wp_mbind. eapply CreateChannel_stays; [done|]. intros r1 w3 t3 H3. destruct (negb (r1 =? ERR_OK)); [by apply wp_mret, HQ|].
  apply wp_mbind. eapply step_stays; [done|intros; by eapply CreateChannel_stays|]. intros r4 w4 t4 H4.
  destruct (negb (r4 =? ERR_OK)); [by apply wp_mret, HQ|].
  apply wp_mbind. eapply step_stays; [done|intros; by eapply CreateStreamChannel_stays|]. intros r5 w5 t5 H5.
  destruct (negb (r5 =? ERR_OK)); [by apply wp_mret, HQ|].
  apply wp_mbind. eapply step_stays; [done|intros; by eapply CreateChannel_stays|]. intros r6 w6 t6 H6.
  destruct (negb (r6 =? ERR_OK)); [by apply wp_mret, HQ|].
  apply wp_mbind. eapply step_stays; [done|intros; by eapply CreateChannel_stays|]. intros r7 w7 t7 H7.
  by destruct (negb (r7 =? ERR_OK)); apply wp_mret, HQ.
Qed.

(** The peer has its answer, and a session that did not accept is idle and has no channel. *)
Definition answered (i : Z) (token : bytes) (t0 : list Effect) (ret : Z) (w : Connections) (t : list Effect) : Prop :=
  (exists l r socket, t = t0 ++ l /\ In (PrepareResultSent token r i socket) l) /\
  exists s, map_find (objects w) i = Some s /\
    if ret =? ERR_OK then sessionStatus_ s = CONNECTING else sessionStatus_ s = UNCONNECTED /\ transChannels_ s = [].

(** The answer is sent, and a session that fails is released. *)
Lemma refuse_answered i token t0 r socket ret w t :
  stays CONNECTING i t0 w t -> ret <> ERR_OK ->
  wp (do! NotifyPrepareResult token r i socket in do! Release i in mret ret)
    (fun ret w' t' => answered i token t0 ret w' t') w t.
Proof.
  intros (Hok & (s & Hs & Hst) & l & ->) Hne. apply wp_mbind. unfold NotifyPrepareResult. apply wp_call.
  apply wp_mbind. eapply wp_mono; [apply (Release_spec i s); [done|by rewrite Hst|done]|]. cbn beta.
  intros _ w' t' (Hs' & _ & _ & _ & _ & _ & _ & l' & -> & _). apply wp_mret. split.
  - exists (l ++ [PrepareResultSent token r i socket] ++ l'), r, socket. rewrite !app_assoc. split; [done|].
    apply in_app_iff. left. apply in_app_iff. by right; left.
  - exists (released s). by rewrite (proj2 (Z.eqb_neq _ _)).
Qed.

Lemma UpdateServerSession_stays i t0 info w t (Q : Z -> Connections -> list Effect -> Prop) :
  stays CONNECTING i t0 w t -> (forall c, map_count (sessionMap_ w) c = true -> map_count (objects w) c = true) ->
  (forall ret w', stays CONNECTING i t0 w' t -> Q ret w' t) -> wp (UpdateServerSession info i) Q w t.
Proof.
  intros H Hok HQ.
  assert (forall c (Q0 : bytes -> Connections -> list Effect -> Prop), (forall x, Q0 x w t) -> wp (GetSessionToken c) Q0 w t) as Htoken.
  { intros c Q0 HQ0. unfold GetSessionToken. apply wp_mbind. unfold GetAbilityConnectionSession.
    apply wp_mbind, wp_get, wp_mret. destruct (c <=? 0); [by apply wp_mret|]. destruct (map_count (sessionMap_ w) c) eqn:Hc; [|by apply wp_mret].
    apply Hok in Hc as (s & Hs)%map_count_find. apply wp_mbind, (wp_self c s); [done|]. by apply wp_mret. }
  assert (stays CONNECTING i t0 (set_serverSessionMap (map_assign (serverSessionMap_ w) info i) w) t) as Henter by exact H.
  unfold UpdateServerSession. apply wp_mbind, wp_get. destruct (map_count (serverSessionMap_ w) info); [by apply wp_mret, HQ|].
  destruct (map_find (clientSessionMap_ w) info) as [c|].
  - apply wp_mbind, Htoken. intros x. apply wp_mbind, Htoken. intros y. destruct (bytes_ltb y x); [by apply wp_mret, HQ|].
    apply wp_mbind, wp_modify, wp_mret. by apply HQ.
  - apply wp_mbind, wp_modify, wp_mret. by apply HQ.
Qed.

(** Whoever asks an idle session to connect has its answer, however the session fails:
    no wifi, a connection between the same two under way, a channel that cannot be made, an
    answer that cannot be sent.  A session that did not accept is idle again and has no
    channel, one that did waits for the peer. *)
Theorem accept_answers i s token w t :
  known i s w -> sessionStatus_ s = UNCONNECTED -> transChannels_ s = [] -> connections_ok w ->
  exists ret w' t', manager_AcceptConnect i token w t = Done (ret, w', t') /\ answered i token t ret w' t'.
Proof.
  intros Hi Hst Hnone Hok. pose proof Hi as (Hpos & Hm & Hs). pose proof (ok_service _ Hok) as Hsv.
  assert (wp (manager_AcceptConnect i token) (fun ret w' t' => answered i token t ret w' t') w t)
    as (ret & w' & t' & Hrun & H); [|by exists ret, w', t'].
  eapply wp_for_session; [done|]. unfold AcceptConnect. apply wp_mbind, (wp_self i s); [done|]. cbv zeta.
  apply wp_mbind. eapply wp_mono with (P := fun _ w' t' => w' = w /\ exists l, t' = t ++ l).
  { unfold CheckWifiStatus. apply wp_mbind, wp_call. destruct (IsSystemApp t); [apply wp_mret; by eauto|].
    apply wp_call. rewrite <- app_assoc. by eauto. }
  cbn beta. intros wifi ? ? (-> & l & ->). destruct wifi; cbn [negb].
  2:{ apply wp_mbind. unfold NotifyPrepareResult. apply wp_call, wp_mret. split; [|by exists s].
      eexists (l ++ [_]), _, _. rewrite app_assoc. split; [done|]. apply in_app_iff. right. by left. }
  rewrite Hst. cbn [negb]. rewrite bool_decide_eq_true_2 by done. cbn [negb].
  apply wp_mbind, (wp_update i _ s); [done|]. set (s1 := set_dmsServerToken _ _). apply wp_mbind.
  assert (stays CONNECTING i t (put i s1 w) (t ++ l)) as H1.
  { split; [done|]. split; [|by eexists]. exists s1. split; [apply find_put_same|done]. }
  eapply UpdateServerSession_stays; [exact H1| |].
  { intros c Hc%(ok_sessions _ Hok). unfold map_count in *. rewrite find_put. by destruct (i =? c). }
  intros r w1 H2. destruct (r =? ERR_OK); cbn [negb].
  2:{ by apply (refuse_answered i token t). }
  apply wp_mbind. eapply stays_update; [done..|]. intros w2 H3. apply wp_mbind. eapply InitChannels_stays; [done|].
  intros r2 w3 t3 H4. destruct (Z.eqb_spec r2 ERR_OK) as [->|Hr2]; cbn [negb]; [|by apply (refuse_answered i token t)].
  unfold NotifyPrepareResult. apply wp_mbind, wp_call. set (r3 := NotifyPrepareResult_ret t3).
  destruct H4 as (Hok3 & (s3 & Hs3 & Hst3) & l3 & ->).
  assert (forall l', In (PrepareResultSent token ERR_OK i (localSocketName_ s)) (l3 ++ [PrepareResultSent token ERR_OK i (localSocketName_ s)] ++ l')) as Hsent.
  { intros l'. apply in_app_iff. right. by left. }
  destruct (Z.eqb_spec r3 ERR_OK) as [E|E]; cbn [negb].
  - apply wp_mret. split; [|by exists s3]. eexists _, _, _. rewrite <- app_assoc. split; [done|]. apply (Hsent []).
  - apply wp_mbind. eapply wp_mono; [apply (Release_spec i s3); [done|by rewrite Hst3|done]|]. cbn beta.
    intros _ w' t' (Hs' & _ & _ & _ & _ & _ & _ & l' & -> & _). apply wp_mret. split.
    + eexists _, _, _. rewrite <- !app_assoc. split; [done|]. apply Hsent.
    + exists (released s3). by rewrite (proj2 (Z.eqb_neq _ _)).
Qed.
End Specs.

(** ** The sessions over the channel manager *)

Module DemoConnections.
Import DemoChannels.

#[export] Instance want : WantLib := DemoWant.demo.
#[export] Instance params : ParamsLib := DemoParams.demo.

(** Every call succeeds; the device's wifi is on or off. *)
Definition demo_connections (wifi : bool) : ConnectionEnv := {|
  IsSystemApp _ := false;
  VerifyAccessToken _ _ := true;
  GetWifiStatus _ := wifi;
  GetPeerVersion_ret _ := 0;
  CollabMission_ret _ := 0;
  NotifyPrepareResult_ret _ := 0;
  NotifyCloseCollabSession_ret _ := 0;
  NotifyRejectReason_ret _ := 0;
  GetRecvPath_ret _ := None;
  PostTask_ok _ := true;
  Engine_ret _ := 0;
  GetSurface_ret _ := 1;
  SHA256 input := replicate 32 (fold_right Z.add 0 input mod 256);
  getprocpid := 4321;
  system_clock_ms t := 1000 + Z.of_nat (length t);
  new_listener t := 50 + Z.of_nat (length t);
  passive_chip_conflict _ := false;
  SHUTDOWN_REASON_PEER := 1;
  junk_channelId _ := 0;
  junk_header _ := mkMessageHeader 0 0 0;
  while_asleep _ := []
|}.
#[export] Instance connections : ConnectionEnv := demo_connections true.
#[export] Instance connections_env_ok : ConnectionEnvOk.
Proof. by split. Qed.

Definition ability : LocalAbility := mkLocalAbility (str "com.demo") (str "entry") (str "Main") 100.
Definition remote : PeerInfo := mkPeerInfo (str "peerdevice") (str "com.demo") (str "entry") (str "Main") (str "chat") [].
Definition only_messages : ConnectOption := mkConnectOption false false false false false AWantParams_empty AWantParams_empty.
Definition remote_socket : bytes := replicate 64 98.

Definition start : service := (Channels_init, []).
Definition run_moves (l : list AbilityConnection.Move) : Connections * list AbilityConnection.Effect :=
  match mfor l AbilityConnection.make_move (Connections_init start) [] with
  | Done (_, w, t) => (w, t)
  | _ => (Connections_init start, [])
  end.
Definition session_of (w : Connections) (i : Z) : Session :=
  match map_find (objects w) i with Some s => s | None => Session_new [] (mkSessionInfo [] remote remote) only_messages end.

(** A run that starts no thread. *)
Fixpoint starts_no_thread (moves : list AbilityConnection.Move) (w : Connections) (t : list AbilityConnection.Effect) : bool :=
  match threads w with
  | [] =>
    match moves with
    | [] => true
    | mv :: moves =>
      match AbilityConnection.make_move mv w t with Done (_, w, t) => starts_no_thread moves w t | _ => false end
    end
  | _ => false
  end.

Lemma no_thread_in_time moves w t : starts_no_thread moves w t = true -> threads_in_time moves w t.
Proof.
  revert w t. induction moves as [|mv moves IH]; intros w t; cbn [starts_no_thread threads_in_time]; unfold threads_alive;
    destruct (threads w); try done. intros H. split; [by apply Forall_nil|].
  destruct (AbilityConnection.make_move mv w t) as [[[[] w'] t']| |]; [by apply IH|done|done].
Qed.

Lemma run_moves_ok moves :
  Forall AbilityConnectionLemmas.move_ok moves -> starts_no_thread moves (Connections_init start) [] = true ->
  Z.of_nat (length moves) < 1000 -> connections_ok (run_moves moves).1.
Proof.
  intros Hmoves Hno Hlen.
  destruct (run_sound moves (Connections_init start) []) as ([] & w & t & Hrun & Hok); [done|by apply no_thread_in_time| | |cbn; lia|].
  - apply connections_ok_init. exact ok_init.
  - done.
  - unfold run_moves. by rewrite Hrun.
Qed.

Definition create : AbilityConnection.Move := AppCreateSession (str "chat") ability remote only_messages.
(** The application connects, the peer accepts, the channel is joined and the result reported. *)
Definition connected_moves : list AbilityConnection.Move :=
  [create; AppConnect 100 7; DmsPeerVersion 100;
   DmsCollabResult 100 0 remote_socket (str "token") [];
   ServiceMoves [CallbackTurn IMMEDIATE]; EventTurn 100 IMMEDIATE; AppFinishConnect 100].
Definition connected : Connections := (run_moves connected_moves).1.
(** A connected session that the application listens to. *)
Definition heard (l : list AbilityConnection.Move) : Connections := (run_moves (connected_moves ++ l)).1.
Definition script : Connections := heard [AppRegister 100 EVENT_RECEIVE_MESSAGE (Some 9)].
Definition native : Connections := heard [AppRegisterListener 100 (Some 8)].
(** The application gives up while the peer is asked. *)
Definition given_up_moves : list AbilityConnection.Move := [create; AppConnect 100 7; AppDisconnect 100].
Definition given_up : Connections := (run_moves given_up_moves).1.
Definition fresh : Connections := (run_moves [create]).1.
(** The ability connects as session 100 and is asked to accept as session 101, on two devices. *)
Definition both (mine theirs : string) : Connections :=
  let w := (run_moves [create; create; AppConnect 100 7]).1 in
  put 101 (set_dmsServerToken (str theirs) (session_of w 101))
    (put 100 (set_dmsServerToken (str mine) (session_of w 100)) w).

Lemma run_ok moves :
  Forall AbilityConnectionLemmas.move_ok moves -> starts_no_thread moves (Connections_init start) [] = true ->
  Z.of_nat (length moves) < 1000 -> service_ok (channels (run_moves moves).1).
Proof. intros H1 H2 H3. by apply ok_service, run_moves_ok. Qed.

Lemma connected_moves_ok : Forall AbilityConnectionLemmas.move_ok connected_moves.
Proof. do 4 (apply Forall_cons_2; [exact I|]). apply Forall_cons_2; [|do 2 (apply Forall_cons_2; [exact I|]); apply Forall_nil_2]. apply Forall_cons_2; [by split|apply Forall_nil_2]. Qed.

Lemma connected_ok : service_ok (channels connected).
Proof. apply run_ok; [exact connected_moves_ok|vm_compute; reflexivity|by_compute]. Qed.

Lemma known_connected i w : 0 < i -> map_count (sessionMap_ w) i = true -> map_count (objects w) i = true ->
  known i (session_of w i) w.
Proof.
  intros Hi Hm Ho. split; [done|]. split; [done|]. unfold session_of. apply map_count_find in Ho as (s & Hs). by rewrite Hs.
Qed.

Ltac known := apply known_connected; [by_compute|vm_compute; reflexivity|vm_compute; reflexivity].
End DemoConnections.
Import DemoChannels DemoConnections.

Lemma connection_run_safe_witness :
  exists w t, mfor connected_moves AbilityConnection.make_move (Connections_init start) [] = Done (tt, w, t) /\
    service_ok (channels w) /\
    (forall i, map_count (sessionMap_ w) i = true -> exists s, map_find (objects w) i = Some s) /\
    forall a b sa sb ea eb, map_find (objects w) a = Some sa -> map_find (objects w) b = Some sb ->
      In ea (transChannels_ sa) -> In eb (transChannels_ sb) -> MessageHeader.channelId ea.2 = MessageHeader.channelId eb.2 ->
      a = b /\ ea.1 = eb.1.
Proof.
  apply (connection_run_safe connected_moves start).
  - exact ok_init.
  - exact connected_moves_ok.
  - apply no_thread_in_time. vm_compute. reflexivity.
  - by_compute.
Defined.

Lemma disconnect_closes_channels_witness :
  let s := session_of connected 100 in
  exists w' l, DisconnectSession 100 connected [] = Done (ERR_OK, w', [] ++ l ++ [CloseCollabSessionSent (dmsServerToken_ s)]) /\
    map_find (objects w') 100 = Some (released s) /\
    (forall id, live (channels w') id =
      live (channels connected) id && negb (existsb (fun e => MessageHeader.channelId e.2 =? id) (transChannels_ s))) /\
    (forall a, a <> 100 -> map_find (objects w') a = map_find (objects connected) a) /\
    Forall quiet l.
Proof.
  apply (disconnect_closes_channels 100 (session_of connected 100) connected []).
  - known.
  - vm_compute. discriminate.
  - exact connected_ok.
Defined.

Lemma connect_again_ends_session_witness :
  let s := session_of connected 100 in
  exists w' l, (let! ret := ConnectSession 100 8 in do! event_turn 100 IMMEDIATE in mret ret) connected []
      = Done (DtbCollab.CONNECTED_SESSION_EXISTS, w', [] ++ l) /\
    (exists s', map_find (objects w') 100 = Some s' /\ sessionStatus_ s' = UNCONNECTED /\ transChannels_ s' = []) /\
    (forall e, In e (transChannels_ s) -> live (channels w') (MessageHeader.channelId e.2) = false) /\
    forall e, In e l -> match e with CloseCollabSessionSent _ | SessionListenerCalled _ _ => False | _ => True end.
Proof.
  apply (connect_again_ends_session 100 (session_of connected 100) 8 connected []).
  - known.
  - vm_compute. reflexivity.
  - vm_compute. reflexivity.
  - reflexivity.
  - exact connected_ok.
Defined.

(** The wifi is off. *)
Lemma refused_connect_blocks_pair_witness :
  let s := session_of fresh 100 in let Off := demo_connections false in
  exists w1 t1 w2 t2, ConnectSession (Ev := Off) 100 7 fresh [] = Done (DtbCollab.LOCAL_WIFI_NOT_OPEN, w1, t1) /\
    mfor [EventTurn 100 IMMEDIATE; AppDestroySession 100] (AbilityConnection.make_move (Ev := Off)) w1 t1 = Done (tt, w2, t2) /\
    forall w3 j s3 cb t3, clientSessionMap_ w3 = clientSessionMap_ w2 -> known j s3 w3 ->
      key_eq (sessionInfo_ s) (sessionInfo_ s3) = true ->
      exists w4 t4, ConnectSession (Ev := Off) j cb w3 t3 = Done (DtbCollab.CONNECTED_SESSION_EXISTS, w4, t4).
Proof.
  apply (refused_connect_blocks_pair (Ev := demo_connections false) 100 (session_of fresh 100) 7 fresh []);
    [known|vm_compute; reflexivity..].
Defined.

Lemma crossing_connections_keep_one_witness :
  let info w := sessionInfo_ (session_of w 101) in let w1 := both "aa" "ab" in let w2 := both "ab" "aa" in
  exists r1 r2 w1' w2', UpdateServerSession (info w1) 101 w1 [] = Done (r1, w1', []) /\
    UpdateServerSession (info w2) 101 w2 [] = Done (r2, w2', []) /\
    ((r1 = ERR_OK /\ r2 = DtbCollab.SAME_SESSION_IS_CONNECTING) \/ (r1 = DtbCollab.SAME_SESSION_IS_CONNECTING /\ r2 = ERR_OK)).
Proof.
  apply (crossing_connections_keep_one 100 101 (session_of (both "aa" "ab") 100) (session_of (both "aa" "ab") 101)
    (both "aa" "ab") [] 100 101 (session_of (both "ab" "aa") 100) (session_of (both "ab" "aa") 101) (both "ab" "aa") []).
  - split; [known|]. split; [known|]. by split; vm_compute.
  - split; [known|]. split; [known|]. by split; vm_compute.
  - vm_compute. reflexivity.
  - vm_compute. reflexivity.
  - vm_compute. discriminate.
Defined.

Lemma message_reaches_script_witness :
  exists b ret wi' wj',
    manager_SendMessage 100 (str "hi") connected [] = Done (ret, wi', [] ++ [Channel (ReqMessage false 1001 (Some b)) ret]) /\
    mfor [ChannelCalls 100 (OnMessage 1001 (buffer_of (content b))); EventTurn 100 LOW] AbilityConnection.make_move script []
      = Done (tt, wj', [] ++ [Query; Query; JsListenerCalled 9 EVENT_RECEIVE_MESSAGE
        (mkEventCallbackInfo 100 EVENT_RECEIVE_MESSAGE UNKNOW (str "hi" ++ [0]) None None)]).
Proof.
  apply (message_reaches_script 100 (session_of connected 100) (str "hi") (mkTransChannelInfo 1001 0 MESSAGE true) connected []
    100 (session_of script 100) 1001 9 script []).
  - known.
  - vm_compute. reflexivity.
  - by_compute.
  - exact connected_ok.
  - vm_compute. reflexivity.
  - vm_compute. reflexivity.
  - vm_compute. reflexivity.
  - vm_compute. reflexivity.
  - vm_compute. reflexivity.
  - vm_compute. reflexivity.
  - reflexivity.
Defined.

Lemma native_listener_told_twice_witness :
  let told := SessionListenerCalled 8 (CallMessage 100 (str "hi" ++ [0])) in
  exists w', mfor [ChannelCalls 100 (OnMessage 1001 (buffer_of
      (wire (mkMessageHeader PROTOCOL_VERSION NORMAL (zlen (str "hi") + 1 + HEADER_LEN)) ++ str "hi" ++ [0]))); EventTurn 100 LOW]
    AbilityConnection.make_move native [] = Done (tt, w', [] ++ [Query; told; Query; told]).
Proof.
  apply (native_listener_told_twice 100 (session_of native 100) 1001 (str "hi") 8 native []);
    [vm_compute; reflexivity..|by_compute|reflexivity].
Defined.

Lemma handler_outlives_session_witness :
  mfor [ChannelCalls 100 (OnMessage 1001 (buffer_of
      (wire (mkMessageHeader PROTOCOL_VERSION CONNECT_FILE_CHANNEL (zlen remote_socket + 1 + HEADER_LEN)) ++ remote_socket ++ [0])));
    AppDestroySession 100; ThreadTurn 0] AbilityConnection.make_move connected [] = Undefined.
Proof.
  apply (handler_outlives_session 100 (session_of connected 100) 1001 remote_socket connected []).
  - known.
  - vm_compute. reflexivity.
  - vm_compute. reflexivity.
  - by_compute.
  - exact connected_ok.
  - vm_compute. reflexivity.
  - vm_compute. reflexivity.
Defined.

Lemma late_result_leaks_channel_witness :
  exists w' t', mfor [DmsCollabResult 100 ERR_OK remote_socket (str "token") []; AppDestroySession 100]
      AbilityConnection.make_move given_up [] = Done (tt, w', t') /\
    map_find (objects w') 100 = None /\ map_count (sessionMap_ w') 100 = false /\
    live (channels given_up) 1001 = false /\ live (channels w') 1001 = true.
Proof.
  eapply (late_result_leaks_channel 100 (session_of given_up 100) remote_socket (str "token") [] 1001).
  - known.
  - vm_compute. reflexivity.
  - vm_compute. reflexivity.
  - vm_compute. reflexivity.
  - vm_compute. repeat split.
  - vm_compute. reflexivity.
  - apply run_ok; [repeat (apply Forall_cons_2; [exact I|]); apply Forall_nil_2|vm_compute; reflexivity|by_compute].
  - vm_compute. reflexivity.
  - vm_compute. reflexivity.
  - vm_compute. reflexivity.
Defined.

Lemma accept_answers_witness :
  exists ret w' t', manager_AcceptConnect 100 (str "token") fresh [] = Done (ret, w', t') /\
    answered 100 (str "token") [] ret w' t'.
Proof.
  apply (accept_answers 100 (session_of fresh 100) (str "token") fresh []).
  - known.
  - vm_compute. reflexivity.
  - vm_compute. reflexivity.
  - apply run_moves_ok; [repeat (apply Forall_cons_2; [exact I|]); apply Forall_nil_2|vm_compute; reflexivity|by_compute].
Defined.
