(* ===== verification/SoftbusSession.v ===== *)
(** * A softbus session of the distributed scheduler

    [DSchedSoftbusSession] of services/dtbschedmgr (softbus_adapter/transport):
    data of the continuation and collaboration services cut into packets behind
    a TLV header of 49 bytes, reassembly of the packets that arrive, and the
    reference count of the session.  Softbus itself is a parameter of the sender:
    [GetSessionOption] and [SendBytes] see the packets handed over so far.
    [OnDataReady] calls are the output of the receiver.  [junk] is what the
    storage of an uninitialised header holds and [ERR_NULL_OBJECT] the code of
    the base library. *)

From Stdlib Require Import ZArith Lia.
From stdpp Require Import base list option strings.
From S2P Require Import Prelude ErrorCodes DataBuffer Tlv.
Import ErrorCodes.Dms DataBuffer.DSched.

(** ** Data *)

Definition INVALID_SESSION_ID : Z := -1.

Definition FRAG_NULL : Z := 0.
Definition FRAG_START : Z := 1.
Definition FRAG_MID : Z := 2.
Definition FRAG_END : Z := 3.
Definition FRAG_START_END : Z := 4.

Definition TLV_TYPE_VERSION : Z := 1001.
Definition TLV_TYPE_FRAG_FLAG : Z := 1002.
Definition TLV_TYPE_DATA_TYPE : Z := 1003.
Definition TLV_TYPE_SEQ_NUM : Z := 1004.
Definition TLV_TYPE_TOTAL_LEN : Z := 1005.
Definition TLV_TYPE_SUB_SEQ : Z := 1006.
Definition TLV_TYPE_DATA_LEN : Z := 1007.

Definition BINARY_DATA_MAX_TOTAL_LEN : Z := 100 * 1024 * 1024.
Definition BINARY_DATA_MAX_LEN : Z := 4 * 1024 * 1024.
Definition BINARY_DATA_PACKET_RESERVED_BUFFER : Z := 512.
Definition PROTOCOL_VERSION : Z := 1.
Definition HEADER_UINT8_NUM : Z := 1.
Definition HEADER_UINT16_NUM : Z := 2.
Definition HEADER_UINT32_NUM : Z := 4.
Definition HEADER_TLV_NUM : Z := 7.
Definition BINARY_HEADER_FRAG_LEN : Z := 49.
Definition COUNT_INIT_NUM : Z := 1.

(** [struct SessionDataHeader]. *)
Record SessionDataHeader : Type := mkHeader {
  version : Z;
  fragFlag : Z;
  dataType : Z;
  seqNum : Z;
  totalLen : Z;
  subSeq : Z;
  dataLen : Z
}.

Record SessionInfo : Type := mkSessionInfo {
  info_sessionId : Z;
  info_myDeviceId : string;
  info_peerDeviceId : string;
  info_sessionName : string;
  info_isServer : bool
}.

(** The members of the session: those of the assembly, then the others. *)
Record Assembly : Type := mkAssembly {
  packBuffer_ : option DataBuffer;
  isWaiting_ : bool;
  nowSeq_ : Z;
  nowSubSeq_ : Z;
  offset_ : Z;
  totalLen_ : Z
}.

Record Session : Type := mkSession {
  asm : Assembly;
  sessionId_ : Z;
  myDeviceId_ : string;
  peerDeviceId_ : string;
  sessionName_ : string;
  refCount_ : Z;
  isServer_ : bool
}.

Definition ResetAssembleFrag : Assembly := mkAssembly None false 0 0 0 0.

Definition new_session (info : SessionInfo) : Session :=
  mkSession ResetAssembleFrag (info_sessionId info) (info_myDeviceId info)
    (info_peerDeviceId info) (info_sessionName info) COUNT_INIT_NUM (info_isServer info).

Definition set_refCount (s : Session) (n : Z) : Session :=
  mkSession (asm s) (sessionId_ s) (myDeviceId_ s) (peerDeviceId_ s) (sessionName_ s) n (isServer_ s).

Definition set_asm (s : Session) (a : Assembly) : Session :=
  mkSession a (sessionId_ s) (myDeviceId_ s) (peerDeviceId_ s) (sessionName_ s) (refCount_ s)
    (isServer_ s).

Definition OnConnect (s : Session) : Session := set_refCount s (refCount_ s + 1).

Definition OnDisconnect (s : Session) : bool * Session :=
  let s := set_refCount s (refCount_ s - 1) in
  if refCount_ s <=? 0 then (true, s) else (false, s).

Definition GetPeerDeviceId (s : Session) : string := peerDeviceId_ s.
Definition GetRefCount (s : Session) : Z := refCount_ s.

(** ** Writer of the header *)

(** The size passed to [memcpy_s] is [bufLen - 2 + 2]. *)
Definition WriteTlvToBuffer (tlvItem : TlvItem) (mem : bytes) (header bufLen : Z) : run bytes :=
  let tlvLen := u32 (HEADER_TYPE_BYTES + HEADER_LEN_BYTES + len tlvItem) in
  if bufLen <? tlvLen then Done mem
  else
    let* (_, mem) := put_tlv tlvItem mem header
                       (u32 (bufLen - HEADER_TYPE_BYTES + HEADER_LEN_BYTES)) in
    Done mem.

Definition MakeFragDataHeader (headPara : SessionDataHeader) (mem : option bytes) (header len : Z)
    : run (option bytes) :=
  match mem with
  | None => Done None
  | Some mem =>
    let headerLen := (2 + 2) * HEADER_TLV_NUM + 1 * HEADER_UINT8_NUM + 2 * HEADER_UINT16_NUM
                     + 4 * HEADER_UINT32_NUM in
    if len <? headerLen then Done (Some mem)
    else
      let i := 0 in
      let capacity := len in
      let offset := HEADER_TYPE_BYTES + HEADER_LEN_BYTES in
      let item := mkTlvItem TLV_TYPE_VERSION 2 (version headPara) in
      let* mem := WriteTlvToBuffer item mem (header + i) capacity in
      let capacity := u32 (capacity - (offset + 2)) in
      let i := u32 (i + (offset + 2)) in
      let item := mkTlvItem TLV_TYPE_FRAG_FLAG 1 (fragFlag headPara) in
      let* mem := WriteTlvToBuffer item mem (header + i) capacity in
      let capacity := u32 (capacity - (offset + 1)) in
      let i := u32 (i + (offset + 1)) in
      let item := mkTlvItem TLV_TYPE_DATA_TYPE 4 (dataType headPara) in
      let* mem := WriteTlvToBuffer item mem (header + i) capacity in
      let capacity := u32 (capacity - (offset + 4)) in
      let i := u32 (i + (offset + 4)) in
      let item := mkTlvItem TLV_TYPE_SEQ_NUM 4 (seqNum headPara) in
      let* mem := WriteTlvToBuffer item mem (header + i) capacity in
      let capacity := u32 (capacity - (offset + 4)) in
      let i := u32 (i + (offset + 4)) in
      let item := mkTlvItem TLV_TYPE_TOTAL_LEN 4 (totalLen headPara) in
      let* mem := WriteTlvToBuffer item mem (header + i) capacity in
      let capacity := u32 (capacity - (offset + 4)) in
      let i := u32 (i + (offset + 4)) in
      let item := mkTlvItem TLV_TYPE_SUB_SEQ 2 (subSeq headPara) in
      let* mem := WriteTlvToBuffer item mem (header + i) capacity in
      let capacity := u32 (capacity - (offset + 2)) in
      let i := u32 (i + (offset + 2)) in
      let item := mkTlvItem TLV_TYPE_DATA_LEN 4 (dataLen headPara) in
      let* mem := WriteTlvToBuffer item mem (header + i) capacity in
      Done (Some mem)
  end.

(** ** Reader of the header *)

Definition U16Get (mem : bytes) (ptr : Z) : run Z := ReadUint16 mem ptr.

Definition set_version h v := mkHeader v (fragFlag h) (dataType h) (seqNum h) (totalLen h) (subSeq h) (dataLen h).
Definition set_fragFlag h v := mkHeader (version h) v (dataType h) (seqNum h) (totalLen h) (subSeq h) (dataLen h).
Definition set_dataType h v := mkHeader (version h) (fragFlag h) v (seqNum h) (totalLen h) (subSeq h) (dataLen h).
Definition set_seqNum h v := mkHeader (version h) (fragFlag h) (dataType h) v (totalLen h) (subSeq h) (dataLen h).
Definition set_totalLen h v := mkHeader (version h) (fragFlag h) (dataType h) (seqNum h) v (subSeq h) (dataLen h).
Definition set_subSeq h v := mkHeader (version h) (fragFlag h) (dataType h) (seqNum h) (totalLen h) v (dataLen h).
Definition set_dataLen h v := mkHeader (version h) (fragFlag h) (dataType h) (seqNum h) (totalLen h) (subSeq h) v.

(** One case of the switch: fill a member of [w] bytes. *)
Definition read_field (w : nat) (get : SessionDataHeader -> Z)
    (set : SessionDataHeader -> Z -> SessionDataHeader) (headerPara : SessionDataHeader)
    (mem : bytes) (ptr len : Z) : run (Z * SessionDataHeader) :=
  let* (ret, v) := memcpy_field w (get headerPara) (Some mem) ptr len in
  Done (ret, set headerPara v).

Definition ReadTlvToHeader (mem : bytes) (ptrPacket : Z) (headerPara : SessionDataHeader)
    (index byteLeft : Z) : run (Z * SessionDataHeader * Z) :=
  let ptr := ptrPacket in
  if byteLeft <? HEADER_UINT16_NUM then Done (INVALID_PARAMETERS_ERR, headerPara, index)
  else
    let* type := U16Get mem ptr in
    let ptr := ptr + 2 in
    let byteLeft := u16 (byteLeft - HEADER_UINT16_NUM) in
    if byteLeft <? HEADER_UINT16_NUM then Done (INVALID_PARAMETERS_ERR, headerPara, index)
    else
      let* len := U16Get mem ptr in
      let ptr := ptr + 2 in
      let byteLeft := u16 (byteLeft - HEADER_UINT16_NUM) in
      if byteLeft <? len then Done (INVALID_PARAMETERS_ERR, headerPara, index)
      else
        let index := u16 (2 + 2 + len) in
        let* (ret, headerPara) :=
          if type =? TLV_TYPE_VERSION then read_field 2 version set_version headerPara mem ptr len
          else if type =? TLV_TYPE_FRAG_FLAG then read_field 1 fragFlag set_fragFlag headerPara mem ptr len
          else if type =? TLV_TYPE_DATA_TYPE then read_field 4 dataType set_dataType headerPara mem ptr len
          else if type =? TLV_TYPE_SEQ_NUM then read_field 4 seqNum set_seqNum headerPara mem ptr len
          else if type =? TLV_TYPE_TOTAL_LEN then read_field 4 totalLen set_totalLen headerPara mem ptr len
          else if type =? TLV_TYPE_SUB_SEQ then read_field 2 subSeq set_subSeq headerPara mem ptr len
          else if type =? TLV_TYPE_DATA_LEN then read_field 4 dataLen set_dataLen headerPara mem ptr len
          else Done (INVALID_PARAMETERS_ERR, headerPara) in
        Done (ret, headerPara, index).

(** The [while] loop of [GetFragDataHeader]; a round consumes at least 4 bytes. *)
Fixpoint read_header (ERR_NULL_OBJECT : Z) (fuel : nat) (mem : option bytes) (ptrPacket : Z)
    (headerPara : SessionDataHeader) (i : Z) : run (Z * SessionDataHeader) :=
  if i <? BINARY_HEADER_FRAG_LEN then
    match fuel with
    | O => OutOfFuel
    | S fuel =>
      let byteLeft := u16 (BINARY_HEADER_FRAG_LEN - i) in
      match mem with
      | None => Done (ERR_NULL_OBJECT, headerPara)
      | Some m =>
        let* (ret, headerPara, index) := ReadTlvToHeader m (ptrPacket + i) headerPara 0 byteLeft in
        if negb (ret =? ERR_OK) then Done (ret, headerPara)
        else read_header ERR_NULL_OBJECT fuel mem ptrPacket headerPara (u32 (i + index))
      end
    end
  else Done (ERR_OK, headerPara).

Definition GetFragDataHeader (ERR_NULL_OBJECT : Z) (mem : option bytes) (ptrPacket : Z)
    (headerPara : SessionDataHeader) : run (Z * SessionDataHeader) :=
  read_header ERR_NULL_OBJECT (Z.to_nat BINARY_HEADER_FRAG_LEN) mem ptrPacket headerPara 0.

(** ** Receiver *)

(** [memcpy_s] to [base + off]; a null base admits no offset. *)
Definition memcpy_to (mem : option bytes) (base off dmax : Z) (src : option bytes) (soff n : Z)
    : run (Z * option bytes) :=
  match mem with
  | None => if off =? 0 then memcpy_s None 0 dmax src soff n else Undefined
  | Some _ => memcpy_s mem (base + off) dmax src soff n
  end.

(** [OnDataReady(sessionId_, data, dataType)]. *)
Record Ready : Type := mkReady { ready_sessionId : Z; ready_data : DataBuffer; ready_dataType : Z }.

Definition AssembleNoFrag (sessionId : Z) (buffer : DataBuffer) (headerPara : SessionDataHeader)
    : run (list Ready) :=
  if negb (dataLen headerPara =? totalLen headerPara) then Done []
  else
    let postData := make_buffer (dataLen headerPara) in
    if Size buffer <? BINARY_HEADER_FRAG_LEN then Done []
    else
      let dataSize := u32 (Size buffer - BINARY_HEADER_FRAG_LEN) in
      let* (ret, mem) := memcpy_s (data_ postData) (rangeOffset_ postData) (Size postData)
        (data_ buffer) (rangeOffset_ buffer + BINARY_HEADER_FRAG_LEN) dataSize in
      if negb (ret =? ERR_OK) then Done []
      else Done [mkReady sessionId (set_data postData mem) (dataType headerPara)].

Definition CheckUnPackBuffer (a : Assembly) (headerPara : SessionDataHeader) : Z :=
  if negb (isWaiting_ a) then INVALID_PARAMETERS_ERR
  else if negb (nowSeq_ a =? seqNum headerPara) then INVALID_PARAMETERS_ERR
  else if negb (u32 (nowSubSeq_ a + 1) =? subSeq headerPara) then INVALID_PARAMETERS_ERR
  else if totalLen_ a <? u32 (dataLen headerPara + offset_ a) then INVALID_PARAMETERS_ERR
  else ERR_OK.

(** The three [if] statements of [AssembleFrag]; [None] is an early return. *)
Definition assemble_start (a : Assembly) (buffer : DataBuffer) (headerPara : SessionDataHeader)
    : run (bool * Assembly) :=
  if fragFlag headerPara =? FRAG_START then
    let pack := make_buffer (totalLen headerPara) in
    let started b off := mkAssembly (Some b) true (seqNum headerPara) (subSeq headerPara) off
                           (totalLen headerPara) in
    if Size buffer <? BINARY_HEADER_FRAG_LEN then Done (false, started pack 0)
    else
      let dataSize := u32 (Size buffer - BINARY_HEADER_FRAG_LEN) in
      let* (ret, mem) := memcpy_s (data_ pack) (rangeOffset_ pack) (Size pack)
        (data_ buffer) (rangeOffset_ buffer + BINARY_HEADER_FRAG_LEN) dataSize in
      if negb (ret =? ERR_OK) then Done (false, ResetAssembleFrag)
      else Done (true, started (set_data pack mem) (u32 (0 + dataLen headerPara)))
  else Done (true, a).

Definition assemble_next (a : Assembly) (buffer : DataBuffer) (headerPara : SessionDataHeader)
    : run (bool * Assembly) :=
  if (fragFlag headerPara =? FRAG_MID) || (fragFlag headerPara =? FRAG_END) then
    let ret := CheckUnPackBuffer a headerPara in
    if negb (ret =? ERR_OK) then Done (false, ResetAssembleFrag)
    else
      match packBuffer_ a with
      | None => Undefined
      | Some pack =>
        let* (ret, mem) := memcpy_to (data_ pack) (rangeOffset_ pack) (offset_ a)
          (u64 (Size pack - offset_ a)) (data_ buffer)
          (rangeOffset_ buffer + BINARY_HEADER_FRAG_LEN)
          (u64 (Size buffer - BINARY_HEADER_FRAG_LEN)) in
        if negb (ret =? ERR_OK) then Done (false, ResetAssembleFrag)
        else Done (true, mkAssembly (Some (set_data pack mem)) (isWaiting_ a) (nowSeq_ a)
                           (subSeq headerPara) (u32 (offset_ a + dataLen headerPara)) (totalLen_ a))
      end
  else Done (true, a).

Definition AssembleFrag (sessionId : Z) (a : Assembly) (buffer : DataBuffer)
    (headerPara : SessionDataHeader) : run (Assembly * list Ready) :=
  let* (continue, a) := assemble_start a buffer headerPara in
  if negb continue then Done (a, [])
  else
    let* (continue, a) := assemble_next a buffer headerPara in
    if negb continue then Done (a, [])
    else if fragFlag headerPara =? FRAG_END then
      match packBuffer_ a with
      | None => Undefined
      | Some pack => Done (ResetAssembleFrag, [mkReady sessionId pack (dataType headerPara)])
      end
    else Done (a, []).

Section Receiver.
Context (ERR_NULL_OBJECT : Z) (junk : SessionDataHeader).

Definition PackRecvData (s : Session) (buffer : DataBuffer) : run (Session * list Ready) :=
  if Size buffer <? BINARY_HEADER_FRAG_LEN then Done (s, [])
  else
    let* (ret, headerPara) :=
      GetFragDataHeader ERR_NULL_OBJECT (data_ buffer) (rangeOffset_ buffer) junk in
    if negb (ret =? ERR_OK) then Done (s, [])
    else if negb (Size buffer =? u32 (dataLen headerPara + BINARY_HEADER_FRAG_LEN))
            || (totalLen headerPara <? dataLen headerPara)
            || (BINARY_DATA_MAX_LEN <? dataLen headerPara)
            || (BINARY_DATA_MAX_TOTAL_LEN <? totalLen headerPara) then Done (s, [])
    else if fragFlag headerPara =? FRAG_START_END then
      let* out := AssembleNoFrag (sessionId_ s) buffer headerPara in
      Done (s, out)
    else
      let* (a, out) := AssembleFrag (sessionId_ s) (asm s) buffer headerPara in
      Done (set_asm s a, out).

Definition OnBytesReceived (s : Session) (buffer : option DataBuffer)
    : run (Z * Session * list Ready) :=
  match buffer with
  | None => Done (INVALID_PARAMETERS_ERR, s, [])
  | Some buffer =>
    let* (s, out) := PackRecvData s buffer in
    Done (ERR_OK, s, out)
  end.

(** Packets as softbus delivers them, one after the other. *)
Fixpoint receive_all (s : Session) (packets : list bytes) : run (Session * list Ready) :=
  match packets with
  | [] => Done (s, [])
  | p :: ps =>
    let* (_, s, out) := OnBytesReceived s (Some (buffer_of p)) in
    let* (s, outs) := receive_all s ps in
    Done (s, out ++ outs)
  end.
End Receiver.

(** ** Sender *)

Section Sender.
Context (GetSessionOption : list bytes -> Z * Z).
Context (SendBytes : list bytes -> bytes -> Z).

(** [DSchedTransportSoftbusAdapter::SendBytesBySoftbus]. *)
Definition SendBytesBySoftbus (dataBuffer : option DataBuffer) (sent : list bytes) : Z * list bytes :=
  match dataBuffer with
  | Some b => (SendBytes sent (content b), sent ++ [content b])
  | None => (INVALID_PARAMETERS_ERR, sent)
  end.

Definition UnPackStartEndData (buffer : DataBuffer) (type : Z) (sent : list bytes)
    : run (Z * list bytes) :=
  let headPara := mkHeader PROTOCOL_VERSION FRAG_START_END (u32 type) 0 (u32 (Size buffer)) 0
                    (u32 (Size buffer)) in
  let unpackData := make_buffer (u64 (Size buffer + BINARY_HEADER_FRAG_LEN)) in
  if Size unpackData <? BINARY_HEADER_FRAG_LEN then Done (INVALID_SESSION_ID, sent)
  else
    let* mem := MakeFragDataHeader headPara (data_ unpackData) (rangeOffset_ unpackData)
                  BINARY_HEADER_FRAG_LEN in
    let* (ret, mem) := memcpy_to mem (rangeOffset_ unpackData) BINARY_HEADER_FRAG_LEN
      (u64 (Size unpackData - BINARY_HEADER_FRAG_LEN))
      (data_ buffer) (rangeOffset_ buffer) (Size buffer) in
    if negb (ret =? ERR_OK) then Done (ret, sent)
    else Done (SendBytesBySoftbus (Some (set_data unpackData mem)) sent).

Definition SetHeadParaDataLen (headPara : SessionDataHeader) (totalLen offset maxSendSize : Z)
    : SessionDataHeader :=
  if maxSendSize <? u32 (totalLen - offset) then
    set_dataLen headPara (u32 (maxSendSize - BINARY_DATA_PACKET_RESERVED_BUFFER))
  else set_dataLen (set_fragFlag headPara FRAG_END) (u32 (totalLen - offset)).

(** The [while (totalLen > offset)] loop of [UnPackSendData]. *)
Fixpoint send_loop (fuel : nat) (buffer : DataBuffer) (headPara : SessionDataHeader)
    (total offset maxSendSize : Z) (sent : list bytes) : run (Z * list bytes) :=
  if offset <? total then
    match fuel with
    | O => OutOfFuel
    | S fuel =>
      if maxSendSize <=? BINARY_DATA_PACKET_RESERVED_BUFFER then Done (SOFTBUS_SERVICE_ERR, sent)
      else
        let headPara := SetHeadParaDataLen headPara total offset maxSendSize in
        let unpackData := make_buffer (u32 (dataLen headPara + BINARY_HEADER_FRAG_LEN)) in
        let* mem := MakeFragDataHeader headPara (data_ unpackData) (rangeOffset_ unpackData)
                      BINARY_HEADER_FRAG_LEN in
        let* (ret, mem) := memcpy_to mem (rangeOffset_ unpackData) BINARY_HEADER_FRAG_LEN
          (u64 (Size unpackData - BINARY_HEADER_FRAG_LEN))
          (data_ buffer) (rangeOffset_ buffer + offset) (dataLen headPara) in
        if negb (ret =? ERR_OK) then Done (ret, sent)
        else
          let '(ret, sent) := SendBytesBySoftbus (Some (set_data unpackData mem)) sent in
          if negb (ret =? ERR_OK) then Done (ret, sent)
          else
            let headPara := set_subSeq headPara (u16 (subSeq headPara + 1)) in
            let headPara := set_fragFlag headPara FRAG_MID in
            let offset := u32 (offset + dataLen headPara) in
            let '(ret, maxSendSize) := GetSessionOption sent in
            if negb (ret =? ERR_OK) then Done (ret, sent)
            else send_loop fuel buffer headPara total offset maxSendSize sent
    end
  else Done (ERR_OK, sent).

Definition UnPackSendData (fuel : nat) (buffer : DataBuffer) (type : Z) (sent : list bytes)
    : run (Z * list bytes) :=
  let '(ret, maxSendSize) := GetSessionOption sent in
  if negb (ret =? ERR_OK) then Done (ret, sent)
  else if Size buffer <=? maxSendSize then UnPackStartEndData buffer type sent
  else
    let subSeq := 0 in
    let total := u32 (Size buffer) in
    let headPara := mkHeader PROTOCOL_VERSION FRAG_START (u32 type) 0 total subSeq 0 in
    send_loop fuel buffer headPara total 0 maxSendSize sent.

(** The result of [UnPackSendData] is dropped. *)
Definition SendData (fuel : nat) (buffer : option DataBuffer) (type : Z) (sent : list bytes)
    : run (Z * list bytes) :=
  match buffer with
  | None => Done (INVALID_PARAMETERS_ERR, sent)
  | Some buffer =>
    let* (_, sent) := UnPackSendData fuel buffer type sent in
    Done (ERR_OK, sent)
  end.
End Sender.

(** ** Header lemmas *)

Definition header_wf (h : SessionDataHeader) : Prop :=
  is_u16 (version h) /\ is_u8 (fragFlag h) /\ is_u32 (dataType h) /\ is_u32 (seqNum h) /\
  is_u32 (totalLen h) /\ is_u16 (subSeq h) /\ is_u32 (dataLen h).

(** The seven items in the order of the writer. *)
Definition wire (h : SessionDataHeader) : bytes :=
  tlv_bytes TLV_TYPE_VERSION 2 (version h) ++
  tlv_bytes TLV_TYPE_FRAG_FLAG 1 (fragFlag h) ++
  tlv_bytes TLV_TYPE_DATA_TYPE 4 (dataType h) ++
  tlv_bytes TLV_TYPE_SEQ_NUM 4 (seqNum h) ++
  tlv_bytes TLV_TYPE_TOTAL_LEN 4 (totalLen h) ++
  tlv_bytes TLV_TYPE_SUB_SEQ 2 (subSeq h) ++
  tlv_bytes TLV_TYPE_DATA_LEN 4 (dataLen h).

Lemma ss_zlen_wire h : zlen (wire h) = BINARY_HEADER_FRAG_LEN.
Proof. unfold wire. zlen_simpl. done. Qed.
#[export] Hint Rewrite ss_zlen_wire : dms_len.

Lemma ss_wire_u8 h : Forall is_u8 (wire h).
Proof. unfold wire. repeat (apply Forall_app_2; [by apply tlv_bytes_u8|]). by apply tlv_bytes_u8. Qed.

Lemma ss_write_step pre n ty w v header bufLen :
  (w <= 4)%nat -> header = zlen pre -> 4 + Z.of_nat w <= n ->
  4 + Z.of_nat w <= bufLen < 2 ^ 32 ->
  WriteTlvToBuffer (mkTlvItem ty (Z.of_nat w) v) (pre ++ zeros n) header bufLen
  = Done ((pre ++ tlv_bytes ty w v) ++ zeros (n - (4 + Z.of_nat w))).
Proof.
  intros. unfold WriteTlvToBuffer, HEADER_TYPE_BYTES, HEADER_LEN_BYTES. cbn [len].
  rewrite (u32_id (2 + 2 + _)) by (unfold_ints; lia). bool_lia.
  rewrite u32_id by (unfold_ints; lia). by rewrite put_tlv_zeros by (unfold_ints; lia).
Qed.

Ltac write_item w :=
  match goal with
  | |- context [WriteTlvToBuffer (mkTlvItem ?ty _ ?v) (?pre ++ zeros ?n) ?hd ?bl] =>
    let hd' := eval vm_compute in hd in
    let bl' := eval vm_compute in bl in
    let w' := eval vm_compute in (Z.of_nat w) in
    change hd with hd'; change bl with bl';
    let H := fresh in
    pose proof (ss_write_step pre n ty w v hd' bl' ltac:(lia) ltac:(zlen_simpl; lia)
               ltac:(lia) ltac:(lia)) as H;
    change (Z.of_nat w) with w' in H; rewrite H; clear H; cbn [run_bind]
  end.

Lemma MakeFragDataHeader_wire h n :
  0 <= n ->
  MakeFragDataHeader h (Some (zeros (49 + n))) 0 BINARY_HEADER_FRAG_LEN
  = Done (Some (wire h ++ zeros n)).
Proof.
  intros. unfold MakeFragDataHeader. change (_ <? _) with false. cbv iota.
  change (zeros (49 + n)) with ([] ++ zeros (49 + n)).
  write_item 2%nat. write_item 1%nat. write_item 4%nat. write_item 4%nat.
  write_item 4%nat. write_item 2%nat. write_item 4%nat.
  unfold wire. rewrite <- !app_assoc. cbn [app]. do 10 f_equal. lia.
Qed.

(** Width and setter of the member each item type fills. *)
Definition field_of (ty : Z) : option (nat * (SessionDataHeader -> Z -> SessionDataHeader)) :=
  if ty =? TLV_TYPE_VERSION then Some (2%nat, set_version)
  else if ty =? TLV_TYPE_FRAG_FLAG then Some (1%nat, set_fragFlag)
  else if ty =? TLV_TYPE_DATA_TYPE then Some (4%nat, set_dataType)
  else if ty =? TLV_TYPE_SEQ_NUM then Some (4%nat, set_seqNum)
  else if ty =? TLV_TYPE_TOTAL_LEN then Some (4%nat, set_totalLen)
  else if ty =? TLV_TYPE_SUB_SEQ then Some (2%nat, set_subSeq)
  else if ty =? TLV_TYPE_DATA_LEN then Some (4%nat, set_dataLen)
  else None.

Lemma read_field_full w get set h mem ptr v :
  (w <= 8)%nat -> 0 <= v < 2 ^ (8 * Z.of_nat w) ->
  load_n mem ptr (Z.of_nat w) = Done (le_bytes w v) ->
  read_field w get set h mem ptr (Z.of_nat w) = Done (ERR_OK, set h v).
Proof.
  intros. unfold read_field. rewrite memcpy_field_full with (v := v) by (done || unfold_ints; lia).
  cbn [run_bind]. by rewrite Z.mod_small.
Qed.

Lemma read_header_step e fuel h pre post ty w set v i :
  field_of ty = Some (w, set) -> is_u16 ty -> 0 <= v < 2 ^ (8 * Z.of_nat w) ->
  i = zlen pre -> i + 4 + Z.of_nat w <= 49 ->
  read_header e (S fuel) (Some (pre ++ tlv_bytes ty w v ++ post)) 0 h i
  = read_header e fuel (Some ((pre ++ tlv_bytes ty w v) ++ post)) 0 (set h v)
      (i + 4 + Z.of_nat w).
Proof.
  intros Hf Hty Hv Hi Hend. pose proof (zlen_nonneg pre). cbn [read_header].
  change BINARY_HEADER_FRAG_LEN with 49. bool_lia. rewrite (u16_id (49 - i)) by (unfold_ints; lia).
  unfold ReadTlvToHeader, U16Get. change HEADER_UINT16_NUM with 2. cbn [Z.add]. bool_lia.
  rewrite tlv_read_type by done. cbn [run_bind].
  rewrite (u16_id (49 - i - 2)) by (unfold_ints; lia). bool_lia.
  rewrite tlv_read_len by lia. cbn [run_bind].
  rewrite (u16_id (49 - i - 2 - 2)) by (unfold_ints; lia). bool_lia.
  match goal with |- context [run_bind (if ty =? _ then _ else _) ?k] =>
    assert ((let* r := if ty =? TLV_TYPE_VERSION then _ else _ in k r) = k (ERR_OK, set h v)) as -> end.
  { unfold field_of in Hf.
    repeat match goal with
    | H : context [if ty =? ?c then _ else _] |- _ => destruct (ty =? c)
    end; try discriminate Hf; injection Hf as <- <-;
    (rewrite read_field_full with (v := v); [done|lia|done|apply tlv_read_value; lia]). }
  cbn [run_bind]. change (negb (ERR_OK =? ERR_OK)) with false. cbv iota.
  rewrite (u16_id (2 + 2 + _)), u32_id by (unfold_ints; lia). rewrite <- app_assoc.
  f_equal. lia.
Qed.

Ltac read_item :=
  match goal with
  | |- context [read_header ?e (S ?f) (Some (?pre ++ tlv_bytes ?ty ?w ?v ++ ?post)) 0 ?h ?i] =>
    rewrite (read_header_step e f h pre post ty w _ v i eq_refl);
    [ | unfold_ints; done | done | zlen_simpl; lia | lia ]
  end.

Lemma GetFragDataHeader_wire e junk h tail :
  header_wf h -> GetFragDataHeader e (Some (wire h ++ tail)) 0 junk = Done (ERR_OK, h).
Proof.
  intros (?&?&?&?&?&?&?). unfold GetFragDataHeader, wire. rewrite <- !app_assoc.
  change (Z.to_nat BINARY_HEADER_FRAG_LEN) with 49%nat.
  match goal with |- context [tlv_bytes TLV_TYPE_VERSION 2 ?v ++ ?rest] =>
    change (tlv_bytes TLV_TYPE_VERSION 2 v ++ rest) with ([] ++ tlv_bytes TLV_TYPE_VERSION 2 v ++ rest)
  end.
  do 7 read_item. cbn [read_header]. by destruct h.
Qed.

Lemma read_field_safe w get set h mem ptr n :
  0 <= ptr -> 0 <= n -> ptr + n <= zlen mem ->
  exists ret v, read_field w get set h mem ptr n = Done (ret, set h v) /\
    (Forall is_u8 mem -> 0 <= v < 2 ^ (8 * Z.of_nat w)).
Proof.
  intros. unfold read_field.
  destruct (memcpy_field_safe w (get h) mem ptr n) as (ret & v & Hrun); [lia..|].
  rewrite Hrun. exists ret, v. split; [done|]. intros Hm. by eapply memcpy_field_range.
Qed.

(** Reading an item stays inside the [byteLeft] bytes and keeps the members in range. *)
Lemma ReadTlvToHeader_safe mem ptr h byteLeft :
  0 <= ptr -> 0 <= byteLeft < 65536 -> ptr + byteLeft <= zlen mem ->
  exists ret h' index, ReadTlvToHeader mem ptr h 0 byteLeft = Done (ret, h', index) /\
    (ret = ERR_OK -> 4 <= index <= byteLeft) /\
    (Forall is_u8 mem -> header_wf h -> header_wf h').
Proof.
  intros. unfold ReadTlvToHeader, U16Get. change HEADER_UINT16_NUM with 2.
  assert (forall i, exists ret h' index, Done (INVALID_PARAMETERS_ERR, h, i) = Done (ret, h', index)
    /\ (ret = ERR_OK -> 4 <= index <= byteLeft) /\ (Forall is_u8 mem -> header_wf h -> header_wf h'))
    as Herr by (intros; by eexists _, _, _).
  split_guard; guards_to_prop; [apply Herr|].
  destruct (ReadUint16_safe mem ptr) as (ty & -> & _); [lia..|]. cbn [run_bind].
  rewrite (u16_id (byteLeft - 2)) by (unfold_ints; lia). split_guard; guards_to_prop; [apply Herr|].
  destruct (ReadUint16_safe mem (ptr + 2)) as (ln & -> & Hln); [lia..|]. cbn [run_bind].
  rewrite (u16_id (byteLeft - 2 - 2)) by (unfold_ints; lia).
  split_guard; guards_to_prop; [apply Herr|]. unfold is_u16 in Hln.
  rewrite (u16_id (2 + 2 + ln)) by (unfold_ints; lia).
  repeat match goal with |- context [if ty =? ?c then _ else _] => destruct (ty =? c) end;
    try (cbn [run_bind]; apply Herr);
  match goal with |- context [read_field ?w ?g ?s _ _ _ _] =>
    destruct (read_field_safe w g s h mem (ptr + 2 + 2) ln) as (ret & v & -> & Hv); [lia..|]
  end; cbn [run_bind]; eexists _, _, _; (split; [done|]); (split; [lia|]);
  intros Hm (?&?&?&?&?&?&?); specialize (Hv Hm); unfold header_wf; cbn; by split_and!.
Qed.

Lemma read_header_safe e fuel mem h i :
  0 <= i <= 49 -> 49 <= zlen mem -> 49 - i <= Z.of_nat fuel ->
  exists ret h', read_header e fuel (Some mem) 0 h i = Done (ret, h') /\
    (Forall is_u8 mem -> header_wf h -> header_wf h').
Proof.
  revert h i. induction fuel as [|fuel IH]; intros h i Hi Hm Hf; cbn [read_header];
    change BINARY_HEADER_FRAG_LEN with 49; (split_guard; guards_to_prop; [|by eexists _, _]); [lia|].
  rewrite (u16_id (49 - i)) by (unfold_ints; lia). rewrite Z.add_0_l.
  destruct (ReadTlvToHeader_safe mem i h (49 - i)) as (ret & h' & index & -> & Hidx & Hwf); [lia..|].
  cbn [run_bind]. split_guard; guards_to_prop; [by eexists _, _|].
  specialize (Hidx Guard0). rewrite u32_id by (unfold_ints; lia).
  destruct (IH h' (i + index)) as (r & h'' & Hrun & Hwf'); [lia..|]. eexists _, _. split; [done|]. auto.
Qed.

(** ** Sender lemmas *)

(** The packet with header [h] in front of [n] bytes of the buffer. *)
Lemma build_packet h d off n :
  0 <= off -> 0 <= n -> off + n <= zlen d -> 49 + n < DSCHED_MAX_BUFFER_SIZE ->
  let unpackData := make_buffer (49 + n) in
  exists mem mem',
    MakeFragDataHeader h (data_ unpackData) (rangeOffset_ unpackData) BINARY_HEADER_FRAG_LEN
      = Done mem /\
    memcpy_to mem (rangeOffset_ unpackData) BINARY_HEADER_FRAG_LEN
      (u64 (Size unpackData - BINARY_HEADER_FRAG_LEN)) (Some d) off n = Done (ERR_OK, mem') /\
    set_data unpackData mem' = buffer_of (wire h ++ slice d off n).
Proof.
  intros ??? Hmax. unfold make_buffer, Size. rewrite make_buffer_ok by lia.
  unfold DSCHED_MAX_BUFFER_SIZE in Hmax. unfold DataBuffer.Size.
  cbn [data_ rangeOffset_ rangeLength_ buffer_of]. rewrite zlen_zeros by lia.
  eexists _, _. rewrite MakeFragDataHeader_wire by lia. split; [done|]. cbn [memcpy_to].
  change BINARY_HEADER_FRAG_LEN with 49. rewrite u64_id by lia.
  pose proof (memcpy_s_copy (wire h) (zeros n) [] d (0 + 49) (49 + n - 49) off n (slice d off n)) as Hc.
  rewrite !app_nil_r in Hc. rewrite Hc;
    [|by apply load_n_ok|by zlen_simpl|by rewrite zlen_zeros by lia|unfold_ints; lia].
  split; [done|]. apply set_data_buffer_of. zlen_simpl.
  rewrite zlen_slice, zlen_zeros by lia. change BINARY_HEADER_FRAG_LEN with 49. lia.
Qed.

(** A session that always grants [m] bytes and takes every packet. *)
Definition steady_option (m : Z) (_ : list bytes) : Z * Z := (ERR_OK, m).
Definition steady_send (_ : list bytes) (_ : bytes) : Z := SOFTBUS_OK.

(** The packets softbus took, of those handed over. *)
Fixpoint taken (answer : list bytes -> bytes -> Z) (before packets : list bytes) : list bytes :=
  match packets with
  | p :: packets =>
    if answer before p =? ERR_OK then p :: taken answer (before ++ [p]) packets
    else taken answer (before ++ [p]) packets
  | [] => []
  end.

Section Fragments.
Context (m : Z) (data : bytes) (type : Z).

Definition chunk : Z := m - BINARY_DATA_PACKET_RESERVED_BUFFER.

Definition frag_len (off : Z) : Z :=
  if m <? zlen data - off then chunk else zlen data - off.

Definition frag_header (i off : Z) : SessionDataHeader :=
  mkHeader PROTOCOL_VERSION
    (if m <? zlen data - off then (if off =? 0 then FRAG_START else FRAG_MID) else FRAG_END)
    (u32 type) 0 (zlen data) (u16 i) (frag_len off).

Definition fragment (i off : Z) : bytes :=
  wire (frag_header i off) ++ slice data off (frag_len off).

(** The packets from offset [off] on; [i] numbers the first of them. *)
Fixpoint fragments (fuel : nat) (i off : Z) : list bytes :=
  if off <? zlen data then
    match fuel with
    | O => []
    | S fuel => fragment i off :: fragments fuel (i + 1) (off + frag_len off)
    end
  else [].

Context (Hm : BINARY_DATA_PACKET_RESERVED_BUFFER < m < DSCHED_MAX_BUFFER_SIZE - 49).
Context (Hdata : zlen data < DSCHED_MAX_BUFFER_SIZE).

Lemma frag_len_bounds off :
  0 <= off < zlen data -> 0 < frag_len off <= m /\ off + frag_len off <= zlen data.
Proof.
  intros. unfold frag_len, chunk, BINARY_DATA_PACKET_RESERVED_BUFFER in *.
  split_guard; guards_to_prop; lia.
Qed.

Context (sb : list bytes -> bytes -> Z) (go : list bytes -> Z).

Definition good_answers : Prop :=
  (forall sent p, sb sent p = ERR_OK) /\ (forall sent, go sent = ERR_OK).

(** One round: the packet is handed over, and the loop goes on while both answers are good. *)
Lemma send_loop_step fuel fl i off dl sent :
  0 <= off < zlen data -> fl = (if off =? 0 then FRAG_START else FRAG_MID) ->
  send_loop (fun sent => (go sent, m)) sb (S fuel) (buffer_of data)
    (mkHeader PROTOCOL_VERSION fl (u32 type) 0 (zlen data) (u16 i) dl) (zlen data) off m sent
  = let ret := sb sent (fragment i off) in
    let sent := sent ++ [fragment i off] in
    if negb (ret =? ERR_OK) then Done (ret, sent)
    else if negb (go sent =? ERR_OK) then Done (go sent, sent)
    else send_loop (fun sent => (go sent, m)) sb fuel (buffer_of data)
           (mkHeader PROTOCOL_VERSION FRAG_MID (u32 type) 0 (zlen data) (u16 (i + 1)) (frag_len off))
           (zlen data) (off + frag_len off) m sent.
Proof.
  intros Hoff ->. cbn [send_loop].
  pose proof (frag_len_bounds off ltac:(lia)) as [Hlen Hend].
  unfold DSCHED_MAX_BUFFER_SIZE, BINARY_DATA_PACKET_RESERVED_BUFFER in *. bool_lia.
  assert (forall fl, SetHeadParaDataLen (mkHeader PROTOCOL_VERSION
    (if off =? 0 then FRAG_START else FRAG_MID) (u32 type) 0 (zlen data) fl dl) (zlen data) off m
    = set_subSeq (frag_header i off) fl) as Hhdr.
  { intros. unfold SetHeadParaDataLen, frag_header, frag_len, chunk,
      BINARY_DATA_PACKET_RESERVED_BUFFER. rewrite (u32_id (zlen data - off)), (u32_id (m - 512)) by (unfold_ints; lia).
    repeat split_guard; done. }
  rewrite Hhdr. clear Hhdr. change (set_subSeq (frag_header i off) (u16 i)) with (frag_header i off).
  cbn [dataLen frag_header]. rewrite (u32_id (frag_len off + _))
    by (change BINARY_HEADER_FRAG_LEN with 49; unfold_ints; lia).
  replace (frag_len off + BINARY_HEADER_FRAG_LEN) with (49 + frag_len off)
    by (change BINARY_HEADER_FRAG_LEN with 49; lia).
  destruct (build_packet (frag_header i off) data (0 + off) (frag_len off))
    as (mem & mem' & Hmk & Hcp & Hset); [lia..|unfold DSCHED_MAX_BUFFER_SIZE; lia|].
  cbn [data_ rangeOffset_ buffer_of]. rewrite Hmk. cbn [run_bind]. rewrite Hcp. cbn [run_bind].
  rewrite Hset. change (negb (ERR_OK =? ERR_OK)) with false. cbv iota.
  cbn [SendBytesBySoftbus]. rewrite content_buffer_of. change (wire _ ++ _) with (fragment i off).
  cbv zeta.
  cbn [frag_header set_subSeq set_fragFlag subSeq version dataType seqNum totalLen dataLen].
  assert (u16 (u16 i + 1) = u16 (i + 1)) as -> by (unfold u16; by rewrite Zplus_mod_idemp_l).
  rewrite (u32_id (off + frag_len off)) by (unfold_ints; lia). done.
Qed.

(** Whatever softbus answers, it takes a prefix of the fragments. *)
Lemma send_loop_prefix fuel fl i off dl sent :
  0 <= off <= zlen data -> zlen data - off <= Z.of_nat fuel ->
  (off < zlen data -> fl = if off =? 0 then FRAG_START else FRAG_MID) ->
  exists ret packets n,
    send_loop (fun sent => (go sent, m)) sb fuel (buffer_of data)
      (mkHeader PROTOCOL_VERSION fl (u32 type) 0 (zlen data) (u16 i) dl) (zlen data) off m sent
    = Done (ret, sent ++ packets) /\
    taken sb sent packets = take n (fragments fuel i off) /\
    (good_answers -> packets = fragments fuel i off /\ n = length packets).
Proof.
  revert fl i off dl sent.
  induction fuel as [|fuel IH]; intros fl i off dl sent Hoff Hf Hfl.
  { cbn [send_loop fragments]. bool_lia. exists ERR_OK, [], 0%nat. by rewrite app_nil_r. }
  destruct (Z.ltb_spec off (zlen data)); cycle 1.
  { cbn [send_loop fragments]. bool_lia. exists ERR_OK, [], 0%nat. by rewrite app_nil_r. }
  pose proof (frag_len_bounds off ltac:(lia)) as [Hlen Hend].
  rewrite send_loop_step by (lia || auto). cbn [fragments]. bool_lia. cbv zeta.
  destruct (sb sent (fragment i off) =? ERR_OK) eqn:Hsb; cbn [negb]; cycle 1.
  { eexists _, _, 0%nat. split; [done|]. cbn [taken]. rewrite Hsb. split; [done|].
    intros [Hok _]. by rewrite Hok in Hsb. }
  destruct (go (sent ++ [fragment i off]) =? ERR_OK) eqn:Hgo; cbn [negb]; cycle 1.
  { eexists _, _, 1%nat. split; [done|]. cbn [taken]. rewrite Hsb. split; [done|].
    intros [_ Hok]. by rewrite Hok in Hgo. }
  destruct (IH FRAG_MID (i + 1) (off + frag_len off) (frag_len off) (sent ++ [fragment i off]))
    as (ret & packets & n & -> & Htaken & Hall); [lia..|intros; by bool_lia|].
  exists ret, (fragment i off :: packets), (S n). rewrite <- app_assoc. split; [done|].
  cbn [taken take]. rewrite Hsb, Htaken. split; [done|]. intros Hg. by destruct (Hall Hg) as [<- ->].
Qed.

(** A message longer than the packet size leaves as its fragments, in order. *)
Lemma SendData_fragments_prefix fuel :
  m < zlen data -> zlen data <= Z.of_nat fuel ->
  exists packets n,
    SendData (fun sent => (go sent, m)) sb fuel (Some (buffer_of data)) type []
    = Done (ERR_OK, packets) /\
    taken sb [] packets = take n (fragments fuel 0 0) /\
    (good_answers -> packets = fragments fuel 0 0 /\ n = length packets).
Proof.
  intros Hlong Hfuel. unfold DSCHED_MAX_BUFFER_SIZE in *. pose proof (zlen_nonneg data).
  unfold SendData, UnPackSendData.
  destruct (go [] =? ERR_OK) eqn:Hgo; cbn [negb run_bind]; cycle 1.
  { exists [], 0%nat. split; [done|]. split; [done|]. intros [_ Hok]. by rewrite Hok in Hgo. }
  change (Size (buffer_of data)) with (zlen data).
  cbv iota beta zeta. bool_lia. rewrite (u32_id (zlen data)) by (unfold_ints; lia).
  destruct (send_loop_prefix fuel FRAG_START 0 0 0 []) as (ret & packets & n & Hl & Hall);
    [lia..|done|]. change (u16 0) with 0 in Hl. rewrite Hl. cbn [run_bind app].
  by exists packets, n.
Qed.

(** A message of at most [m] bytes leaves as one packet, 49 bytes longer. *)
Lemma UnPackSendData_single fuel :
  0 < zlen data <= m -> go [] = ERR_OK ->
  let p := wire (mkHeader PROTOCOL_VERSION FRAG_START_END (u32 type) 0 (zlen data) 0 (zlen data))
             ++ data in
  UnPackSendData (fun sent => (go sent, m)) sb fuel (buffer_of data) type [] = Done (sb [] p, [p]).
Proof.
  intros Hn Hgo. unfold DSCHED_MAX_BUFFER_SIZE in *. set (h := mkHeader _ _ _ _ _ _ _).
  destruct (build_packet h data 0 (zlen data)) as (mem & mem' & Hmk & Hcp & Hset);
    [lia..|unfold DSCHED_MAX_BUFFER_SIZE; lia|].
  rewrite slice_all in Hset by done. unfold UnPackSendData, UnPackStartEndData.
  rewrite Hgo. change (negb (ERR_OK =? ERR_OK)) with false.
  change (Size (buffer_of data)) with (zlen data). cbv iota beta zeta. bool_lia.
  rewrite (u32_id (zlen data)) by (unfold_ints; lia). fold h.
  replace (zlen data + BINARY_HEADER_FRAG_LEN) with (49 + zlen data)
    by (change BINARY_HEADER_FRAG_LEN with 49; lia).
  rewrite (u64_id (49 + _)) by lia.
  assert ((Size (make_buffer (49 + zlen data)) <? BINARY_HEADER_FRAG_LEN) = false) as ->.
  { unfold make_buffer. rewrite make_buffer_ok by (unfold DSCHED_MAX_BUFFER_SIZE; lia).
    apply Z.ltb_ge. change (49 <= zlen (zeros (49 + zlen data))). rewrite zlen_zeros; lia. }
  rewrite Hmk. cbn [run_bind data_ rangeOffset_ buffer_of]. rewrite Hcp. cbn [run_bind].
  rewrite Hset. change (negb (ERR_OK =? ERR_OK)) with false. cbv iota.
  cbn [SendBytesBySoftbus]. by rewrite content_buffer_of.
Qed.

Lemma SendData_single_prefix fuel :
  0 < zlen data <= m ->
  let p := wire (mkHeader PROTOCOL_VERSION FRAG_START_END (u32 type) 0 (zlen data) 0 (zlen data))
             ++ data in
  exists packets n,
    SendData (fun sent => (go sent, m)) sb fuel (Some (buffer_of data)) type []
    = Done (ERR_OK, packets) /\
    taken sb [] packets = take n [p] /\
    (good_answers -> packets = [p] /\ n = length packets).
Proof.
  intros Hn p. unfold SendData. destruct (go [] =? ERR_OK) eqn:Hgo.
  - rewrite UnPackSendData_single by (done || by apply Z.eqb_eq). fold p. cbn [run_bind].
    exists [p], (if sb [] p =? ERR_OK then 1%nat else 0%nat). split; [done|].
    clearbody p. cbn [taken]. split; [by destruct (sb [] p =? ERR_OK)|]. intros [Hok _]. by rewrite Hok.
  - exists [], 0%nat. unfold UnPackSendData. rewrite Hgo. split; [done|]. split; [done|].
    intros [_ Hok]. by rewrite Hok in Hgo.
Qed.
End Fragments.

Lemma SendData_fragments m data type fuel :
  BINARY_DATA_PACKET_RESERVED_BUFFER < m < DSCHED_MAX_BUFFER_SIZE - 49 ->
  zlen data < DSCHED_MAX_BUFFER_SIZE -> m < zlen data -> zlen data <= Z.of_nat fuel ->
  SendData (steady_option m) steady_send fuel (Some (buffer_of data)) type []
  = Done (ERR_OK, fragments m data type fuel 0 0).
Proof.
  intros. destruct (SendData_fragments_prefix m data type ltac:(done) ltac:(done) steady_send
    (fun _ => ERR_OK) fuel) as (packets & n & Hs & _ & Hall); [done..|].
  by destruct Hall as [-> _].
Qed.

Lemma SendData_single m data type fuel :
  BINARY_DATA_PACKET_RESERVED_BUFFER < m < DSCHED_MAX_BUFFER_SIZE - 49 ->
  zlen data < DSCHED_MAX_BUFFER_SIZE -> 0 < zlen data <= m ->
  SendData (steady_option m) steady_send fuel (Some (buffer_of data)) type []
  = Done (ERR_OK, [wire (mkHeader PROTOCOL_VERSION FRAG_START_END (u32 type) 0 (zlen data) 0
                           (zlen data)) ++ data]).
Proof.
  intros. destruct (SendData_single_prefix m data type ltac:(done) ltac:(done) steady_send
    (fun _ => ERR_OK) fuel) as (packets & n & Hs & _ & Hall); [done..|].
  by destruct Hall as [-> _].
Qed.

(** ** Receiver lemmas *)

(** What the receiver checks before it looks at the flag. *)
Definition accepted (h : SessionDataHeader) (l : bytes) : Prop :=
  header_wf h /\ dataLen h = zlen l /\ zlen l <= totalLen h /\ zlen l <= BINARY_DATA_MAX_LEN /\
  totalLen h <= BINARY_DATA_MAX_TOTAL_LEN.

Lemma PackRecvData_wire e junk s h l :
  accepted h l ->
  PackRecvData e junk s (buffer_of (wire h ++ l))
  = if fragFlag h =? FRAG_START_END then
      let* out := AssembleNoFrag (sessionId_ s) (buffer_of (wire h ++ l)) h in Done (s, out)
    else
      let* (a, out) := AssembleFrag (sessionId_ s) (asm s) (buffer_of (wire h ++ l)) h in
      Done (set_asm s a, out).
Proof.
  intros (Hwf & Hlen & Ht & Hd & Hm). pose proof (zlen_nonneg l).
  unfold PackRecvData, BINARY_DATA_MAX_LEN, BINARY_DATA_MAX_TOTAL_LEN in *.
  assert (zlen (wire h ++ l) = 49 + zlen l) as Hz by (zlen_simpl; done).
  change (Size (buffer_of (wire h ++ l))) with (zlen (wire h ++ l)). rewrite Hz.
  change BINARY_HEADER_FRAG_LEN with 49. bool_lia. cbn [data_ rangeOffset_ buffer_of].
  rewrite GetFragDataHeader_wire by done. cbn [run_bind].
  change (negb (ERR_OK =? ERR_OK)) with false. cbv iota.
  rewrite u32_id by (unfold_ints; lia). bool_lia. done.
Qed.

Lemma copy_from_packet pre n post h l doff dmax :
  zlen l = n -> doff = zlen pre -> n <= dmax <= RSIZE_MAX ->
  memcpy_s (Some (pre ++ zeros n ++ post)) doff dmax (Some (wire h ++ l)) (0 + 49) n
  = Done (ERR_OK, Some (pre ++ l ++ post)).
Proof.
  intros <- -> ?. pose proof (zlen_nonneg l). apply memcpy_s_copy; [|done| |done].
  - pose proof (load_n_app (wire h) l []) as Hl. rewrite !app_nil_r in Hl. apply Hl; by zlen_simpl.
  - by rewrite zlen_zeros.
Qed.

Section Receive.
Context (h : SessionDataHeader) (l : bytes) (sid : Z).
Context (Hdl : dataLen h = zlen l) (Hl4 : zlen l <= BINARY_DATA_MAX_LEN) (Hle : zlen l <= totalLen h).
Context (Htotal : 0 < totalLen h < DSCHED_MAX_BUFFER_SIZE).

Lemma zlen_packet : zlen (wire h ++ l) = 49 + zlen l.
Proof. by zlen_simpl. Qed.

Lemma AssembleNoFrag_ok :
  totalLen h = zlen l ->
  AssembleNoFrag sid (buffer_of (wire h ++ l)) h = Done [mkReady sid (buffer_of l) (dataType h)].
Proof.
  intros Ht. unfold DSCHED_MAX_BUFFER_SIZE, BINARY_DATA_MAX_LEN in *. unfold AssembleNoFrag.
  rewrite Hdl, Ht, Z.eqb_refl. cbn [negb]. cbv iota.
  change (Size (buffer_of (wire h ++ l))) with (zlen (wire h ++ l)). rewrite zlen_packet.
  change BINARY_HEADER_FRAG_LEN with 49. bool_lia.
  rewrite u32_id by (unfold_ints; lia). replace (49 + zlen l - 49) with (zlen l) by lia.
  unfold make_buffer. rewrite make_buffer_ok by (unfold DSCHED_MAX_BUFFER_SIZE; lia).
  cbn [data_ rangeOffset_ buffer_of].
  change (Size (buffer_of (zeros (zlen l)))) with (zlen (zeros (zlen l))).
  rewrite zlen_zeros by lia.
  pose proof (copy_from_packet [] (zlen l) [] h l 0 (zlen l) ltac:(done) ltac:(done)
    ltac:(unfold_ints; lia)) as Hc. rewrite !app_nil_r in Hc. cbn [app] in Hc. rewrite Hc.
  cbn [run_bind]. change (negb (ERR_OK =? ERR_OK)) with false. cbv iota.
  rewrite set_data_buffer_of; [done|]. by rewrite zlen_zeros by lia.
Qed.

(** A message of which [a] has arrived, in packets up to number [sub]. *)
Definition pending (a : bytes) (sub : Z) : Assembly :=
  mkAssembly (Some (buffer_of (a ++ zeros (totalLen h - zlen a)))) true (seqNum h) sub (zlen a)
    (totalLen h).

Lemma assemble_start_ok a0 :
  fragFlag h = FRAG_START ->
  assemble_start a0 (buffer_of (wire h ++ l)) h = Done (true, pending l (subSeq h)).
Proof.
  intros Hflag. pose proof (zlen_nonneg l). unfold DSCHED_MAX_BUFFER_SIZE, BINARY_DATA_MAX_LEN in *.
  unfold assemble_start, pending. rewrite Hflag, Z.eqb_refl. cbv iota zeta.
  change (Size (buffer_of (wire h ++ l))) with (zlen (wire h ++ l)). rewrite zlen_packet.
  change BINARY_HEADER_FRAG_LEN with 49. bool_lia.
  rewrite (u32_id (_ - 49)) by (unfold_ints; lia). replace (49 + zlen l - 49) with (zlen l) by lia.
  unfold make_buffer. rewrite make_buffer_ok by (unfold DSCHED_MAX_BUFFER_SIZE; lia).
  cbn [data_ rangeOffset_ buffer_of].
  change (Size (buffer_of (zeros (totalLen h)))) with (zlen (zeros (totalLen h))).
  rewrite zlen_zeros by lia.
  pose proof (copy_from_packet [] (zlen l) (zeros (totalLen h - zlen l)) h l 0 (totalLen h)
    ltac:(done) ltac:(done) ltac:(unfold_ints; lia)) as Hc.
  cbn [app] in Hc. rewrite <- zeros_app in Hc by lia.
  replace (zlen l + (totalLen h - zlen l)) with (totalLen h) in Hc by lia. rewrite Hc.
  cbn [run_bind]. change (negb (ERR_OK =? ERR_OK)) with false. cbv iota.
  rewrite set_data_buffer_of; [|zlen_simpl; rewrite !zlen_zeros by lia; lia].
  rewrite Hdl, Z.add_0_l, u32_id by (unfold_ints; lia). done.
Qed.

Lemma assemble_next_ok a sub :
  fragFlag h = FRAG_MID \/ fragFlag h = FRAG_END -> subSeq h = u32 (sub + 1) ->
  zlen a + zlen l <= totalLen h ->
  assemble_next (pending a sub) (buffer_of (wire h ++ l)) h = Done (true, pending (a ++ l) (subSeq h)).
Proof.
  intros Hflag Hsub Hfit. pose proof (zlen_nonneg l). pose proof (zlen_nonneg a).
  unfold DSCHED_MAX_BUFFER_SIZE, BINARY_DATA_MAX_LEN in *.
  unfold assemble_next, pending. cbn [packBuffer_ offset_ isWaiting_ nowSeq_ totalLen_].
  assert ((fragFlag h =? FRAG_MID) || (fragFlag h =? FRAG_END) = true) as ->
    by (by destruct Hflag as [->| ->]).
  unfold CheckUnPackBuffer. cbn [isWaiting_ nowSeq_ nowSubSeq_ totalLen_ offset_ negb].
  rewrite Z.eqb_refl, <- Hsub, Z.eqb_refl, Hdl. cbn [negb].
  rewrite (u32_id (zlen l + zlen a)), (u32_id (zlen a + zlen l)) by (unfold_ints; lia). bool_lia.
  change (negb (ERR_OK =? ERR_OK)) with false. cbv iota.
  set (d := a ++ zeros (totalLen h - zlen a)).
  assert (zlen d = totalLen h) as Hd by (unfold d; zlen_simpl; rewrite zlen_zeros; lia).
  change (Size (buffer_of (wire h ++ l))) with (zlen (wire h ++ l)). rewrite zlen_packet.
  change (Size (buffer_of d)) with (zlen d). rewrite Hd.
  change BINARY_HEADER_FRAG_LEN with 49. rewrite (u64_id (49 + _ - 49)) by lia.
  replace (49 + zlen l - 49) with (zlen l) by lia. rewrite u64_id by lia.
  cbn [memcpy_to data_ rangeOffset_ buffer_of].
  unfold d. replace (totalLen h - zlen a) with (zlen l + (totalLen h - (zlen a + zlen l))) at 1 by lia.
  rewrite zeros_app by lia.
  rewrite copy_from_packet by first [done | lia | unfold_ints; lia].
  cbn [run_bind]. change (negb (ERR_OK =? ERR_OK)) with false. cbv iota.
  rewrite set_data_buffer_of; [|zlen_simpl; rewrite !zlen_zeros by lia; lia].
  rewrite app_assoc, zlen_app. done.
Qed.
End Receive.

(** ** Reassembly of the fragments of a message *)

Section Reassembly.
Context (ERR_NULL_OBJECT : Z) (junk : SessionDataHeader).
Context (m : Z) (data : bytes) (type : Z).
Context (Hm : BINARY_DATA_PACKET_RESERVED_BUFFER < m <= BINARY_DATA_MAX_LEN).
Context (Hdata : m < zlen data < DSCHED_MAX_BUFFER_SIZE).
Context (Hcount : zlen data <= 65536 * chunk m).

Lemma chunk_pos : 0 < chunk m < m.
Proof. unfold chunk, BINARY_DATA_PACKET_RESERVED_BUFFER in *. lia. Qed.

Lemma frag_split off :
  0 <= off < zlen data -> 0 < frag_len m data off <= m /\ off + frag_len m data off <= zlen data.
Proof.
  apply frag_len_bounds. unfold BINARY_DATA_MAX_LEN, DSCHED_MAX_BUFFER_SIZE in *. lia.
Qed.

Lemma frag_accepted i off :
  0 <= off < zlen data ->
  accepted (frag_header m data type i off) (slice data off (frag_len m data off)).
Proof.
  intros Hoff. pose proof (frag_split off Hoff) as [Hl Hend]. unfold accepted.
  rewrite zlen_slice by lia.
  unfold BINARY_DATA_MAX_LEN, BINARY_DATA_MAX_TOTAL_LEN, DSCHED_MAX_BUFFER_SIZE in *.
  split; [|cbn [frag_header dataLen totalLen]; lia].
  unfold header_wf, frag_header; cbn [version fragFlag dataType seqNum totalLen subSeq dataLen].
  split_and!; [by_compute| |apply u32_range|by_compute|unfold is_u32; lia|apply u16_range
    |unfold is_u32; lia].
  unfold is_u8. repeat case_match; by_compute.
Qed.

(** The session when the bytes before [off] have arrived, in [i] packets. *)
Definition waiting (s : Session) (i off : Z) : Session :=
  set_asm s (pending (frag_header m data type 0 0) (slice data 0 off) (i - 1)).

Definition delivered (s : Session) : Session * list Ready :=
  (set_asm s ResetAssembleFrag, [mkReady (sessionId_ s) (buffer_of data) (u32 type)]).

Lemma recv_first s :
  OnBytesReceived ERR_NULL_OBJECT junk s (Some (buffer_of (fragment m data type 0 0)))
  = Done (ERR_OK, waiting s 1 (chunk m), []).
Proof.
  pose proof (zlen_nonneg data). unfold DSCHED_MAX_BUFFER_SIZE, BINARY_DATA_MAX_LEN in *.
  pose proof chunk_pos. pose proof (frag_accepted 0 0 ltac:(lia)) as Hacc.
  assert (frag_len m data 0 = chunk m) as Hl by (unfold frag_len; by bool_lia).
  unfold OnBytesReceived, fragment. rewrite PackRecvData_wire by done. rewrite Hl in *.
  set (h := frag_header m data type 0 0) in *.
  assert (fragFlag h = FRAG_START) as Hflag by (cbn [h frag_header fragFlag]; by bool_lia).
  rewrite Hflag. change (FRAG_START =? FRAG_START_END) with false. cbv iota.
  destruct Hacc as (_ & ? & ? & ? & ?). unfold AssembleFrag.
  rewrite assemble_start_ok by (done || (unfold DSCHED_MAX_BUFFER_SIZE; cbn [h frag_header totalLen]; lia)).
  cbn [run_bind negb]. unfold assemble_next. rewrite Hflag. done.
Qed.

Lemma recv_next s i off :
  0 < off < zlen data -> off = i * chunk m ->
  OnBytesReceived ERR_NULL_OBJECT junk (waiting s i off) (Some (buffer_of (fragment m data type i off)))
  = if m <? zlen data - off then Done (ERR_OK, waiting s (i + 1) (off + chunk m), [])
    else Done (ERR_OK, (delivered s).1, (delivered s).2).
Proof.
  intros Hoff Hi. pose proof (zlen_nonneg data).
  unfold DSCHED_MAX_BUFFER_SIZE, BINARY_DATA_MAX_LEN in *. pose proof chunk_pos.
  pose proof (frag_accepted i off ltac:(lia)) as Hacc.
  pose proof (frag_split off ltac:(lia)) as [Hlen Hend].
  assert (0 < i < 65536) as Hib by nia.
  unfold OnBytesReceived, fragment. rewrite PackRecvData_wire by done.
  set (h := frag_header m data type i off) in *. set (l := slice data off _) in *.
  assert (fragFlag h = if m <? zlen data - off then FRAG_MID else FRAG_END) as Hflag
    by (cbn [h frag_header fragFlag]; rewrite (proj2 (Z.eqb_neq off 0)) by lia; done).
  assert (slice data 0 off ++ l = slice data 0 (off + frag_len m data off)) as Happ
    by (apply (slice_slice data 0 off); lia).
  assert (subSeq h = u32 (i - 1 + 1)) as Hsub.
  { cbn [h frag_header subSeq]. replace (i - 1 + 1) with i by lia.
    rewrite u16_id, u32_id by (unfold_ints; lia). done. }
  assert (zlen l = frag_len m data off) as Hl by (unfold l; rewrite zlen_slice; lia).
  destruct Hacc as (_ & Ha1 & Ha2 & Ha3 & Ha4).
  pose proof (assemble_next_ok h l Ha1 Ha3
    ltac:(unfold DSCHED_MAX_BUFFER_SIZE; cbn [h frag_header totalLen]; lia)
    (slice data 0 off) (i - 1)) as Hnext.
  rewrite Hflag in Hnext |- *. cbn [h frag_header totalLen] in Hnext.
  rewrite zlen_slice, Hl, Happ, Hsub, u32_id in Hnext by (unfold_ints; lia).
  specialize (Hnext ltac:(split_guard; auto) eq_refl ltac:(lia)).
  unfold AssembleFrag, assemble_start. rewrite Hflag.
  unfold frag_len in Hnext. destruct (m <? zlen data - off) eqn:Hlong.
  - change (FRAG_MID =? FRAG_START_END) with false. change (FRAG_MID =? FRAG_START) with false.
    cbv iota. cbn [run_bind negb]. fold h in Hnext. change (asm (waiting s i off)) with
      (pending h (slice data 0 off) (i - 1)). rewrite Hnext. cbn [run_bind negb].
    change (FRAG_MID =? FRAG_END) with false. cbv iota. cbn [run_bind].
    unfold waiting. replace (i - 1 + 1) with (i + 1 - 1) by lia. done.
  - change (FRAG_END =? FRAG_START_END) with false. change (FRAG_END =? FRAG_START) with false.
    cbv iota. cbn [run_bind negb]. fold h in Hnext. change (asm (waiting s i off)) with
      (pending h (slice data 0 off) (i - 1)). rewrite Hnext. cbn [run_bind negb].
    change (FRAG_END =? FRAG_END) with true. cbv iota. cbn [run_bind pending packBuffer_].
    replace (off + (zlen data - off)) with (zlen data) by lia. rewrite slice_all by done.
    cbn [h frag_header totalLen dataType]. rewrite Z.sub_diag, zeros_0, app_nil_r. done.
Qed.

Lemma ss_recv_fragments s fuel i off :
  0 < off < zlen data -> off = i * chunk m -> zlen data - off <= Z.of_nat fuel ->
  receive_all ERR_NULL_OBJECT junk (waiting s i off) (fragments m data type fuel i off)
  = Done (delivered s).
Proof.
  revert i off. induction fuel as [|fuel IH]; intros i off Hoff Hi Hf; [lia|].
  pose proof chunk_pos. cbn [fragments]. bool_lia. cbn [receive_all]. rewrite recv_next by done.
  pose proof (frag_split off ltac:(lia)) as [Hlen Hend]. unfold frag_len in *.
  destruct (Z.ltb_spec m (zlen data - off)); cbn [run_bind].
  - rewrite IH by lia. done.
  - replace (off + (zlen data - off)) with (zlen data) by lia.
    destruct fuel; cbn [fragments]; bool_lia; done.
Qed.
End Reassembly.

Definition single_header (data : bytes) (type : Z) : SessionDataHeader :=
  mkHeader PROTOCOL_VERSION FRAG_START_END (u32 type) 0 (zlen data) 0 (zlen data).

(** A message in one packet is announced at once and disturbs nothing. *)
Lemma recv_single e junk s data type :
  0 < zlen data <= BINARY_DATA_MAX_LEN ->
  OnBytesReceived e junk s (Some (buffer_of (wire (single_header data type) ++ data)))
  = Done (ERR_OK, s, [mkReady (sessionId_ s) (buffer_of data) (u32 type)]).
Proof.
  unfold BINARY_DATA_MAX_LEN. intros Hd. unfold OnBytesReceived.
  assert (accepted (single_header data type) data) as Hacc.
  { unfold accepted, header_wf, single_header, BINARY_DATA_MAX_LEN, BINARY_DATA_MAX_TOTAL_LEN;
      cbn [version fragFlag dataType seqNum totalLen subSeq dataLen].
    split; [|lia]. split_and!; [by_compute|by_compute|apply u32_range|by_compute|unfold is_u32; lia
      |by_compute|unfold is_u32; lia]. }
  rewrite PackRecvData_wire by done.
  change (fragFlag (single_header data type) =? FRAG_START_END) with true. cbv iota.
  rewrite AssembleNoFrag_ok by (done || (unfold DSCHED_MAX_BUFFER_SIZE, BINARY_DATA_MAX_LEN;
    cbn [single_header totalLen]; lia)).
  done.
Qed.

(** ** Safety lemmas *)

(** Either nothing is pending, or the buffer is as long as announced and the
    write offset lies in it. *)
Definition assembly_wf (a : Assembly) : Prop :=
  a = ResetAssembleFrag \/
  exists d, packBuffer_ a = Some (buffer_of d) /\ isWaiting_ a = true /\ zlen d = totalLen_ a /\
    0 < totalLen_ a < DSCHED_MAX_BUFFER_SIZE /\ 0 <= offset_ a <= totalLen_ a.

(** A packet as [OnBytes] hands it on, with a header that passed the checks. *)
Definition checked (h : SessionDataHeader) (p : bytes) : Prop :=
  header_wf h /\ zlen p = dataLen h + 49 /\ dataLen h <= totalLen h /\
  dataLen h <= BINARY_DATA_MAX_LEN /\ totalLen h <= BINARY_DATA_MAX_TOTAL_LEN.

(** Copying the payload into a buffer of the right size succeeds or reports. *)
Lemma memcpy_payload_safe d off p n :
  0 <= off <= zlen d -> zlen d < DSCHED_MAX_BUFFER_SIZE -> 0 <= n -> 49 + n <= zlen p ->
  exists ret d', memcpy_s (Some d) off (zlen d - off) (Some p) (0 + 49) n = Done (ret, Some d') /\
    zlen d' = zlen d.
Proof.
  intros ? Hd ??. unfold DSCHED_MAX_BUFFER_SIZE in *.
  destruct (memcpy_s_safe d off (zlen d - off) p 49 n) as (ret & d' & Hrun & Hz & _); try lia.
  by exists ret, d'.
Qed.

Lemma assemble_start_wf a p h :
  assembly_wf a -> checked h p ->
  exists c a', assemble_start a (buffer_of p) h = Done (c, a') /\ assembly_wf a' /\
    (fragFlag h <> FRAG_START -> a' = a).
Proof.
  intros Ha ((_&_&_&_&Ht&_&Hd) & Hz & ? & ? & ?). unfold is_u32, BINARY_DATA_MAX_LEN in *.
  unfold assemble_start. split_guard; guards_to_prop; [|by eexists _, _].
  change (Size (buffer_of p)) with (zlen p). change BINARY_HEADER_FRAG_LEN with 49. bool_lia.
  rewrite (u32_id (zlen p - 49)) by (unfold_ints; lia).
  assert (exists c' a', Done (false, ResetAssembleFrag) = Done (c', a') /\ assembly_wf a' /\
    (fragFlag h <> FRAG_START -> a' = a)) as Hreset
    by (eexists _, _; split; [done|]; split; [by left|done]).
  unfold make_buffer. destruct (Z.eq_dec (totalLen h) 0) as [Hn0|Hn0].
  { rewrite make_buffer_null by auto. cbn [data_ rangeOffset_]. rewrite memcpy_s_null. apply Hreset. }
  destruct (Z.lt_ge_cases (totalLen h) DSCHED_MAX_BUFFER_SIZE).
  2:{ rewrite make_buffer_null by auto. cbn [data_ rangeOffset_]. rewrite memcpy_s_null. apply Hreset. }
  rewrite make_buffer_ok by lia. cbn [data_ rangeOffset_ buffer_of].
  change (Size (buffer_of (zeros (totalLen h)))) with (zlen (zeros (totalLen h))).
  destruct (memcpy_payload_safe (zeros (totalLen h)) 0 p (zlen p - 49)) as (ret & d' & Hrun & Hz');
    rewrite ?zlen_zeros in * by lia; try lia.
  rewrite Z.sub_0_r in Hrun. rewrite Hrun. cbn [run_bind]. split_guard; [apply Hreset|].
  eexists _, _. split; [done|]. split; [|done]. right. exists d'.
  rewrite set_data_buffer_of by (rewrite zlen_zeros; lia).
  cbn [packBuffer_ isWaiting_ totalLen_ offset_]. rewrite Z.add_0_l, u32_id by (unfold_ints; lia).
  split_and!; (done || lia).
Qed.

Lemma assemble_next_wf a p h :
  assembly_wf a -> checked h p ->
  exists c a', assemble_next a (buffer_of p) h = Done (c, a') /\ assembly_wf a' /\
    (c = true -> fragFlag h = FRAG_END -> packBuffer_ a' <> None).
Proof.
  intros Ha ((_&_&_&_&Ht&_&Hd) & Hz & ? & ? & ?). unfold is_u32, BINARY_DATA_MAX_LEN in *.
  unfold assemble_next. split_guard.
  2:{ eexists _, _. split; [done|]. split; [done|]. intros _ Hend. by rewrite Hend in Guard. }
  assert (exists c' a', Done (false, ResetAssembleFrag) = Done (c', a') /\ assembly_wf a' /\
    (c' = true -> fragFlag h = FRAG_END -> packBuffer_ a' <> None)) as Hreset
    by (eexists _, _; split; [done|]; split; [by left|done]).
  destruct (CheckUnPackBuffer a h =? ERR_OK) eqn:Hchk; cbn [negb]; [|apply Hreset].
  unfold CheckUnPackBuffer in Hchk. destruct Ha as [->|(d & Hp & Hw & Hdl & Htl & Hoff)]; [done|].
  rewrite Hp. cbn [data_ rangeOffset_ buffer_of memcpy_to]. unfold DSCHED_MAX_BUFFER_SIZE in *.
  change (Size (buffer_of d)) with (zlen d). change (Size (buffer_of p)) with (zlen p).
  change BINARY_HEADER_FRAG_LEN with 49. rewrite (u64_id (zlen d - _)), (u64_id (zlen p - 49)) by lia.
  rewrite (Z.add_0_l (offset_ a)).
  destruct (memcpy_payload_safe d (offset_ a) p (zlen p - 49)) as (ret & d' & Hrun & Hz');
    try (unfold DSCHED_MAX_BUFFER_SIZE; lia).
  rewrite Hrun. cbn [run_bind]. split_guard; [apply Hreset|].
  eexists _, _. split; [done|]. split; [|done]. right. exists d'.
  rewrite set_data_buffer_of by done. cbn [packBuffer_ isWaiting_ totalLen_ offset_].
  repeat (destruct (negb _) in Hchk; [done|]). destruct (_ <? _) eqn:Hfit in Hchk; [done|].
  guards_to_prop. rewrite u32_id in Hfit by (unfold_ints; lia). rewrite u32_id by (unfold_ints; lia).
  split_and!; (done || (unfold DSCHED_MAX_BUFFER_SIZE; lia)).
Qed.

Lemma AssembleFrag_wf sid a p h :
  assembly_wf a -> checked h p ->
  exists a' out, AssembleFrag sid a (buffer_of p) h = Done (a', out) /\ assembly_wf a' /\
    (length out <= 1)%nat.
Proof.
  intros Ha Hc. unfold AssembleFrag.
  destruct (assemble_start_wf a p h Ha Hc) as (c & a1 & -> & Ha1 & _). cbn [run_bind].
  destruct c; cbn [negb]; [|eexists _, _; cbn; eauto with lia].
  destruct (assemble_next_wf a1 p h Ha1 Hc) as (c & a2 & -> & Ha2 & Hend). cbn [run_bind].
  destruct c; cbn [negb]; [|eexists _, _; cbn; eauto with lia].
  split_guard; guards_to_prop; [|eexists _, _; cbn; eauto with lia].
  destruct (packBuffer_ a2); [|by destruct (Hend eq_refl Guard)].
  eexists _, _. split; [done|]. split; [by left|done].
Qed.

Lemma AssembleNoFrag_safe sid p h :
  checked h p ->
  exists out, AssembleNoFrag sid (buffer_of p) h = Done out /\ (length out <= 1)%nat.
Proof.
  intros ((_&_&_&_&Ht&_&Hd) & Hz & ? & ? & ?). unfold is_u32, BINARY_DATA_MAX_LEN in *.
  unfold AssembleNoFrag. split_guard; [eexists; cbn; eauto with lia|].
  change (Size (buffer_of p)) with (zlen p). change BINARY_HEADER_FRAG_LEN with 49. bool_lia.
  rewrite (u32_id (zlen p - 49)) by (unfold_ints; lia).
  unfold make_buffer. destruct (Z.eq_dec (dataLen h) 0) as [Hn0|Hn0].
  { rewrite make_buffer_null by auto. cbn [data_ rangeOffset_]. rewrite memcpy_s_null.
    eexists; cbn; eauto with lia. }
  rewrite make_buffer_ok by (unfold DSCHED_MAX_BUFFER_SIZE; lia). cbn [data_ rangeOffset_ buffer_of].
  change (Size (buffer_of (zeros (dataLen h)))) with (zlen (zeros (dataLen h))).
  destruct (memcpy_payload_safe (zeros (dataLen h)) 0 p (zlen p - 49)) as (ret & d' & Hrun & Hz');
    rewrite ?zlen_zeros in * by lia; try (unfold DSCHED_MAX_BUFFER_SIZE; lia).
  rewrite Z.sub_0_r in Hrun. rewrite Hrun. cbn [run_bind].
  split_guard; eexists; cbn; eauto with lia.
Qed.

Lemma OnBytesReceived_wf e junk s p :
  header_wf junk -> Forall is_u8 p -> assembly_wf (asm s) ->
  exists s' out, OnBytesReceived e junk s (Some (buffer_of p)) = Done (ERR_OK, s', out) /\
    assembly_wf (asm s') /\ s' = set_asm s (asm s') /\ (length out <= 1)%nat.
Proof.
  intros Hj Hp Hs. unfold OnBytesReceived, PackRecvData.
  assert (exists s' out, Done (ERR_OK, s, []) = Done (ERR_OK, s', out) /\
    assembly_wf (asm s') /\ s' = set_asm s (asm s') /\ (length (out : list Ready) <= 1)%nat) as Hdrop
    by (eexists _, _; split; [done|]; split; [done|]; split; [by destruct s|cbn; lia]).
  change (Size (buffer_of p)) with (zlen p). change BINARY_HEADER_FRAG_LEN with 49.
  split_guard; guards_to_prop; [apply Hdrop|]. cbn [data_ rangeOffset_ buffer_of].
  destruct (read_header_safe e 49 p junk 0) as (ret & h & Hrun & Hwf); [lia..|].
  unfold GetFragDataHeader. change (Z.to_nat BINARY_HEADER_FRAG_LEN) with 49%nat.
  rewrite Hrun. cbn [run_bind]. split_guard; [apply Hdrop|]. split_guard; [apply Hdrop|].
  guards_to_prop. specialize (Hwf Hp Hj).
  assert (checked h p) as Hc.
  { pose proof Hwf as (_&_&_&_&?&_&?). unfold is_u32, BINARY_DATA_MAX_LEN in *.
    rewrite u32_id in * by (unfold_ints; lia). split; [done|]. unfold BINARY_DATA_MAX_LEN. lia. }
  split_guard.
  - destruct (AssembleNoFrag_safe (sessionId_ s) p h Hc) as (out & -> & ?). cbn [run_bind].
    eexists _, _. split; [done|]. split; [done|]. split; [by destruct s|done].
  - destruct (AssembleFrag_wf (sessionId_ s) (asm s) p h Hs Hc) as (a & out & -> & ? & ?).
    cbn [run_bind]. eexists _, _. split; [done|]. split; [done|]. split; [by destruct s|done].
Qed.

(** ** Properties *)

(** C38 A long message arrives, whatever was pending on the receiving session: the
    fragments that [SendData] hands to softbus, received in order, make the session
    announce exactly one message with the bytes and the type that were sent, and
    leave no assembly behind. *)
Theorem fragmented_data_delivered (ERR_NULL_OBJECT : Z) (junk : SessionDataHeader) (s : Session)
    (m type : Z) (data : bytes) (fuel : nat) :
  BINARY_DATA_PACKET_RESERVED_BUFFER < m <= BINARY_DATA_MAX_LEN ->
  m < zlen data < DSCHED_MAX_BUFFER_SIZE -> zlen data <= 65536 * chunk m ->
  zlen data <= Z.of_nat fuel ->
  exists packets,
    SendData (steady_option m) steady_send fuel (Some (buffer_of data)) type []
      = Done (ERR_OK, packets) /\
    receive_all ERR_NULL_OBJECT junk s packets
    = Done (set_asm s ResetAssembleFrag, [mkReady (sessionId_ s) (buffer_of data) (u32 type)]).
Proof.
  intros Hm Hdata Hcount Hfuel. pose proof (chunk_pos m Hm) as Hc.
  unfold BINARY_DATA_MAX_LEN, DSCHED_MAX_BUFFER_SIZE in *.
  exists (fragments m data type fuel 0 0). split.
  - apply SendData_fragments; unfold DSCHED_MAX_BUFFER_SIZE; lia.
  - destruct fuel as [|fuel]; [lia|]. cbn [fragments]. bool_lia. cbn [receive_all].
    rewrite recv_first by (unfold BINARY_DATA_MAX_LEN, DSCHED_MAX_BUFFER_SIZE; lia). cbn [run_bind].
    unfold frag_len. bool_lia. change (0 + chunk m) with (chunk m). change (0 + 1) with 1.
    rewrite ss_recv_fragments by (unfold BINARY_DATA_MAX_LEN, DSCHED_MAX_BUFFER_SIZE; lia). done.
Qed.

Definition zero_header : SessionDataHeader := mkHeader 0 0 0 0 0 0 0.

Definition sample_session : Session :=
  new_session (mkSessionInfo 5 "local" "peer" "ohos.distributedschedule.dms.connect" false).

(** [count] packets of 64 bytes payload and a rest that fills the last packet. *)
Lemma fragmented_data_delivered_witness :
  exists packets,
    SendData (steady_option 576) steady_send 1000 (Some (buffer_of (zeros 700))) 1 []
      = Done (ERR_OK, packets) /\
    receive_all 7 zero_header sample_session packets
    = Done (set_asm sample_session ResetAssembleFrag, [mkReady 5 (buffer_of (zeros 700)) 1]).
Proof.
  apply (fragmented_data_delivered 7 zero_header sample_session 576 1 (zeros 700) 1000);
    unfold chunk, BINARY_DATA_PACKET_RESERVED_BUFFER, BINARY_DATA_MAX_LEN, DSCHED_MAX_BUFFER_SIZE;
    by_compute.
Defined.

(** A message of at most the packet size goes out as one packet, is announced
    once with its bytes and type, and does not disturb a pending assembly.  The
    packet is 49 bytes longer than the message, so it exceeds the size softbus
    granted when the message is longer than that size less the header. *)
Theorem unfragmented_data_delivered (ERR_NULL_OBJECT : Z) (junk : SessionDataHeader) (s : Session)
    (m type : Z) (data : bytes) (fuel : nat) :
  BINARY_DATA_PACKET_RESERVED_BUFFER < m < DSCHED_MAX_BUFFER_SIZE - 49 ->
  0 < zlen data <= m -> zlen data <= BINARY_DATA_MAX_LEN ->
  exists packet,
    SendData (steady_option m) steady_send fuel (Some (buffer_of data)) type []
      = Done (ERR_OK, [packet]) /\
    receive_all ERR_NULL_OBJECT junk s [packet]
    = Done (s, [mkReady (sessionId_ s) (buffer_of data) (u32 type)]) /\
    zlen packet = zlen data + BINARY_HEADER_FRAG_LEN /\
    (m < zlen packet <-> m - BINARY_HEADER_FRAG_LEN < zlen data).
Proof.
  intros Hm Hn Hmax. eexists. split; [apply SendData_single; [done| |done]|].
  { unfold BINARY_DATA_MAX_LEN, DSCHED_MAX_BUFFER_SIZE in *. lia. }
  change (mkHeader _ _ _ _ _ _ _) with (single_header data type). split; [|zlen_simpl; lia].
  cbn [receive_all]. by rewrite recv_single by lia.
Qed.

Lemma unfragmented_data_delivered_witness :
  exists packet,
    SendData (steady_option 600) steady_send 0 (Some (buffer_of (zeros 580))) 1 []
      = Done (ERR_OK, [packet]) /\
    receive_all 7 zero_header sample_session [packet]
    = Done (sample_session, [mkReady 5 (buffer_of (zeros 580)) 1]) /\
    zlen packet = 580 + BINARY_HEADER_FRAG_LEN /\
    (600 < zlen packet <-> 600 - BINARY_HEADER_FRAG_LEN < 580).
Proof.
  apply (unfragmented_data_delivered 7 zero_header sample_session 600 1 (zeros 580) 0);
    unfold BINARY_DATA_PACKET_RESERVED_BUFFER, BINARY_DATA_MAX_LEN, DSCHED_MAX_BUFFER_SIZE;
    by_compute.
Defined.

(** Whatever packets a session has received since it was made, the next one is
    handled within the bounds of the packet and of the assembly buffer, announces
    at most one message and changes nothing but the assembly. *)
Theorem session_receives_safely (ERR_NULL_OBJECT : Z) (junk : SessionDataHeader) (info : SessionInfo)
    (packets : list bytes) (p : bytes) :
  header_wf junk -> Forall (Forall is_u8) packets -> Forall is_u8 p ->
  exists s outs,
    receive_all ERR_NULL_OBJECT junk (new_session info) packets = Done (s, outs) /\
    exists s' out,
      OnBytesReceived ERR_NULL_OBJECT junk s (Some (buffer_of p)) = Done (ERR_OK, s', out) /\
      s' = set_asm s (asm s') /\ (length out <= 1)%nat /\ assembly_wf (asm s').
Proof.
  intros Hj Hps Hp.
  assert (forall s, assembly_wf (asm s) -> exists s' outs,
    receive_all ERR_NULL_OBJECT junk s packets = Done (s', outs) /\ assembly_wf (asm s')) as Hall.
  { induction Hps as [|q qs Hq _ IH]; intros s Hs; [by eexists _, _|]. cbn [receive_all].
    destruct (OnBytesReceived_wf ERR_NULL_OBJECT junk s q) as (s1 & out & -> & Hs1 & _); [done..|].
    cbn [run_bind]. destruct (IH s1 Hs1) as (s2 & outs & -> & Hs2). by eexists _, _. }
  destruct (Hall (new_session info)) as (s & outs & -> & Hs); [by left|]. eexists _, _.
  split; [done|].
  destruct (OnBytesReceived_wf ERR_NULL_OBJECT junk s p) as (s1 & out & -> & ? & ? & ?); [done..|].
  by eexists _, _.
Qed.

Lemma session_receives_safely_witness :
  exists s outs,
    receive_all 7 zero_header sample_session [replicate 60 3] = Done (s, outs) /\
    exists s' out,
      OnBytesReceived 7 zero_header s (Some (buffer_of (replicate 10 0))) = Done (ERR_OK, s', out) /\
      s' = set_asm s (asm s') /\ (length out <= 1)%nat /\ assembly_wf (asm s').
Proof.
  apply (session_receives_safely 7 zero_header _ [replicate 60 3] (replicate 10 0)).
  - unfold header_wf, is_u8, is_u16, is_u32; by_compute.
  - constructor; [|constructor]. apply Forall_replicate. by_compute.
  - apply Forall_replicate. by_compute.
Defined.

(** The caller of [SendData] never learns that sending failed: whatever error
    softbus gives for the first packet, the call reports success. *)
Theorem SendData_hides_failure (m type err : Z) (data : bytes) (fuel : nat) :
  BINARY_DATA_PACKET_RESERVED_BUFFER < m < DSCHED_MAX_BUFFER_SIZE - 49 -> 0 < zlen data <= m ->
  err <> ERR_OK ->
  exists packet,
    UnPackSendData (steady_option m) (fun _ _ => err) fuel (buffer_of data) type []
      = Done (err, [packet]) /\
    SendData (steady_option m) (fun _ _ => err) fuel (Some (buffer_of data)) type []
      = Done (ERR_OK, [packet]).
Proof.
  intros Hm Hn Herr. eexists.
  assert (forall r, UnPackSendData (steady_option m) (fun _ _ => err) fuel (buffer_of data) type []
    = Done r -> SendData (steady_option m) (fun _ _ => err) fuel (Some (buffer_of data)) type []
    = Done (ERR_OK, r.2)) as Hsend by (intros [ret sent] Hr; unfold SendData; by rewrite Hr).
  assert (UnPackSendData (steady_option m) (fun _ _ => err) fuel (buffer_of data) type [] =
    Done (err, [wire (mkHeader PROTOCOL_VERSION FRAG_START_END (u32 type) 0 (zlen data) 0
                           (zlen data)) ++ data])) as Hun; [|split; [done|apply (Hsend _ Hun)]].
  apply UnPackSendData_single; unfold DSCHED_MAX_BUFFER_SIZE in *; lia.
Qed.

Lemma SendData_hides_failure_witness :
  exists packet,
    UnPackSendData (steady_option 600) (fun _ _ => -5) 0 (buffer_of (zeros 20)) 1 []
      = Done (-5, [packet]) /\
    SendData (steady_option 600) (fun _ _ => -5) 0 (Some (buffer_of (zeros 20))) 1 []
      = Done (ERR_OK, [packet]).
Proof.
  apply (SendData_hides_failure 600 1 (-5) (zeros 20) 0);
    unfold BINARY_DATA_PACKET_RESERVED_BUFFER, DSCHED_MAX_BUFFER_SIZE, ERR_OK; by_compute.
Defined.
