(* ===== verification/SoftbusLink.v ===== *)
(** * One direction of a softbus session as a channel of messages

    The sender of [SoftbusSession] on one device, softbus, and the receiver on the
    other.  Softbus keeps the order of the packets it accepted and loses none of
    them, which is what a session of bytes promises; it may refuse a packet or a
    question at any time.  [DSchedTransportSoftbusAdapter::SendData] holds
    [sessionMutex_] while a message is cut and sent, so messages do not mix.

    The specification is a first-in first-out queue of whole messages ([Channel]).
    The refinement relates it to the packets on the way and the half-assembled
    message of the receiver. *)

From Stdlib Require Import ZArith Lia.
From stdpp Require Import base list option strings.
From S2P Require Import Prelude ErrorCodes DataBuffer Tlv SoftbusSession.
Import ErrorCodes.Dms DataBuffer.DSched.

(** ** The link *)

(** Packets on the way, the receiving session, and what it announced. *)
Record Link : Type := mkLink {
  on_the_way : list bytes;
  receiver : Session;
  announced : list Ready
}.

(** How softbus answers while one message is sent: the size it grants, its answers to
    [GetSessionOption] and to [SendBytes]. *)
Record Softbus : Type := mkSoftbus {
  granted : Z;
  option_answer : list bytes -> Z;
  send_answer : list bytes -> bytes -> Z
}.

Inductive LinkOp : Type :=
  | SendMessage (softbus : Softbus) (data : bytes) (type : Z)
  | DeliverPacket.

Section Link.
Context (ERR_NULL_OBJECT : Z) (junk : SessionDataHeader).

Definition link_step (l : Link) (op : LinkOp) : run Link :=
  match op with
  | SendMessage b data type =>
    let* (_, sent) := SendData (fun sent => (option_answer b sent, granted b)) (send_answer b)
                        (length data) (Some (buffer_of data)) type [] in
    Done (mkLink (on_the_way l ++ taken (send_answer b) [] sent) (receiver l) (announced l))
  | DeliverPacket =>
    match on_the_way l with
    | [] => Done l
    | p :: ps =>
      let* (_, s, out) := OnBytesReceived ERR_NULL_OBJECT junk (receiver l) (Some (buffer_of p)) in
      Done (mkLink ps s (announced l ++ out))
    end
  end.

Fixpoint link_run (l : Link) (ops : list LinkOp) : run Link :=
  match ops with
  | [] => Done l
  | op :: ops => let* l := link_step l op in link_run l ops
  end.
End Link.

(** ** The specification *)

Record Channel : Type := mkChannel {
  queue : list (bytes * Z);
  handed_out : list (bytes * Z)
}.

(** Softbus takes every packet and answers every question. *)
Definition obliging (b : Softbus) : Prop := good_answers (send_answer b) (option_answer b).

(** A message enters the channel, unless softbus refused something while it was
    sent; the channel hands out its oldest message, or nothing yet. *)
Inductive channel_step : Channel -> LinkOp -> Channel -> Prop :=
  | channel_send q d b data type :
      channel_step (mkChannel q d) (SendMessage b data type) (mkChannel (q ++ [(data, u32 type)]) d)
  | channel_refuse c b data type :
      ~ obliging b -> channel_step c (SendMessage b data type) c
  | channel_hand_out m q d :
      channel_step (mkChannel (m :: q) d) DeliverPacket (mkChannel q (d ++ [m]))
  | channel_wait c : channel_step c DeliverPacket c.

Inductive channel_run : Channel -> list LinkOp -> Channel -> Prop :=
  | channel_done c : channel_run c [] c
  | channel_more c op c1 ops c2 :
      channel_step c op c1 -> channel_run c1 ops c2 -> channel_run c (op :: ops) c2.

(** Messages the protocol can carry: the size granted leaves room for data, and the
    16-bit number of a fragment does not wrap. *)
Definition sendable (op : LinkOp) : Prop :=
  match op with
  | SendMessage b data _ =>
    BINARY_DATA_PACKET_RESERVED_BUFFER < granted b <= BINARY_DATA_MAX_LEN /\
    0 < zlen data < DSCHED_MAX_BUFFER_SIZE /\
    (granted b < zlen data -> zlen data <= 65536 * chunk (granted b))
  | DeliverPacket => True
  end.

(** ** What is on the way *)

(** All packets of a message. *)
Definition packets_of (m : Z) (data : bytes) (type : Z) : list bytes :=
  if m <? zlen data then fragments m data type (length data) 0 0
  else [SoftbusSession.wire (single_header data type) ++ data].

(** A message and how many of its packets softbus took. *)
Record Block : Type := mkBlock {
  block_granted : Z;
  block_data : bytes;
  block_type : Z;
  block_count : nat
}.

Definition block_packets (b : Block) : list bytes :=
  take (block_count b) (packets_of (block_granted b) (block_data b) (block_type b)).

Definition block_wf (b : Block) : Prop :=
  BINARY_DATA_PACKET_RESERVED_BUFFER < block_granted b <= BINARY_DATA_MAX_LEN /\
  0 < zlen (block_data b) < DSCHED_MAX_BUFFER_SIZE /\
  (block_granted b < zlen (block_data b) ->
   zlen (block_data b) <= 65536 * chunk (block_granted b)).

(** The message of a block if it is whole. *)
Definition whole (data : bytes) (type : Z) (packets : list bytes) (n : nat) : list (bytes * Z) :=
  if (length packets <=? n)%nat then [(data, u32 type)] else [].

Definition block_messages (b : Block) : list (bytes * Z) :=
  whole (block_data b) (block_type b) (packets_of (block_granted b) (block_data b) (block_type b))
    (block_count b).

Definition ready_of (sid : Z) (m : bytes * Z) : Ready := mkReady sid (buffer_of m.1) m.2.

(** The rest of a message whose first packets have arrived, or nothing. *)
Inductive arriving : Session -> list bytes -> list (bytes * Z) -> Prop :=
  | arriving_nothing s : arriving s [] []
  | arriving_rest m data type s i off n :
      BINARY_DATA_PACKET_RESERVED_BUFFER < m <= BINARY_DATA_MAX_LEN ->
      m < zlen data < DSCHED_MAX_BUFFER_SIZE -> zlen data <= 65536 * chunk m ->
      0 < off < zlen data -> off = i * chunk m ->
      let rest := fragments m data type (length data) i off in
      arriving (waiting m data type s i off) (take n rest) (whole data type rest n).

Definition link_rel (sid : Z) (l : Link) (c : Channel) : Prop :=
  exists first messages blocks,
    sessionId_ (receiver l) = sid /\
    arriving (receiver l) first messages /\ Forall block_wf blocks /\
    on_the_way l = first ++ concat (List.map block_packets blocks) /\
    queue c = messages ++ concat (List.map block_messages blocks) /\
    announced l = List.map (ready_of sid) (handed_out c).

(** ** Sending *)

Lemma zlen_pos_length data : 0 < zlen data -> exists n, length data = S n.
Proof. destruct data as [|x data]; [done|]. intros _. by eexists. Qed.

Lemma fragments_fuel m data type fuel fuel' i off :
  BINARY_DATA_PACKET_RESERVED_BUFFER < m < DSCHED_MAX_BUFFER_SIZE - 49 ->
  zlen data < DSCHED_MAX_BUFFER_SIZE -> 0 <= off ->
  zlen data - off <= Z.of_nat fuel -> zlen data - off <= Z.of_nat fuel' ->
  fragments m data type fuel i off = fragments m data type fuel' i off.
Proof.
  intros Hm Hd. revert fuel' i off.
  induction fuel as [|fuel IH]; intros [|fuel'] i off Ho Hf Hf'; cbn [fragments]; try done;
    (split_guard; guards_to_prop; [|done]); try lia.
  pose proof (frag_len_bounds m data Hm off ltac:(lia)) as [? ?].
  f_equal. apply IH; lia.
Qed.

Lemma SendData_taken b data type :
  sendable (SendMessage b data type) ->
  exists packets n,
    SendData (fun sent => (option_answer b sent, granted b)) (send_answer b)
      (length data) (Some (buffer_of data)) type [] = Done (ERR_OK, packets) /\
    taken (send_answer b) [] packets = take n (packets_of (granted b) data type) /\
    (obliging b -> n = length (packets_of (granted b) data type)).
Proof.
  intros (Hm & Hd & _). unfold packets_of.
  assert (BINARY_DATA_PACKET_RESERVED_BUFFER < granted b < DSCHED_MAX_BUFFER_SIZE - 49) as Hm'
    by (unfold BINARY_DATA_MAX_LEN, DSCHED_MAX_BUFFER_SIZE in *; lia).
  destruct (Z.ltb_spec (granted b) (zlen data)).
  - destruct (SendData_fragments_prefix (granted b) data type Hm' (proj2 Hd) (send_answer b)
      (option_answer b) (length data)) as (packets & n & Hs & Ht & Hall); [done|unfold zlen; lia|].
    exists packets, n. split_and!; [done..|]. intros Hg. by destruct (Hall Hg) as [<- ->].
  - destruct (SendData_single_prefix (granted b) data type Hm' (proj2 Hd) (send_answer b)
      (option_answer b) (length data)) as (packets & n & Hs & Ht & Hall); [lia|].
    exists packets, n. split_and!; [done..|]. intros Hg. by destruct (Hall Hg) as [-> ->].
Qed.

Lemma packets_of_nonempty m data type :
  0 < zlen data -> exists p ps, packets_of m data type = p :: ps.
Proof.
  intros Hd. unfold packets_of. split_guard; [|by eexists _, _].
  destruct data as [|x data]; [done|]. cbn [length fragments]. bool_lia. by eexists _, _.
Qed.

(** ** Receiving *)

Section Receiving.
Context (ERR_NULL_OBJECT : Z) (junk : SessionDataHeader).

(** Blocks of which softbus took nothing can be left out. *)
Lemma blocks_normalise blocks :
  Forall block_wf blocks ->
  exists blocks', Forall block_wf blocks' /\
    concat (List.map block_packets blocks') = concat (List.map block_packets blocks) /\
    concat (List.map block_messages blocks') = concat (List.map block_messages blocks) /\
    match blocks' with [] => True | b :: _ => block_count b <> 0%nat end.
Proof.
  induction 1 as [|[m data type n] blocks Hb Hbs IH]; [by exists []|].
  destruct n as [|n]; [|by exists (mkBlock m data type (S n) :: blocks); auto].
  destruct IH as (blocks' & ? & Hp & Hq & ?). exists blocks'. cbn [List.map concat].
  rewrite <- Hp, <- Hq. split_and!; [done| |..|done]; [done|].
  destruct (packets_of_nonempty m data type (proj1 (proj1 (proj2 Hb)))) as (p & ps & Hps).
  unfold block_messages. cbn [block_granted block_data block_type block_count].
  by rewrite Hps.
Qed.

(** The first packet of a message. *)
Lemma recv_block s b n :
  block_wf b -> block_count b = S n ->
  exists p ps s' out messages,
    block_packets b = p :: ps /\
    OnBytesReceived ERR_NULL_OBJECT junk s (Some (buffer_of p)) = Done (ERR_OK, s', out) /\
    sessionId_ s' = sessionId_ s /\ arriving s' ps messages /\
    exists told, block_messages b = told ++ messages /\ (told = [] \/ messages = []) /\
      (length told <= 1)%nat /\ out = List.map (ready_of (sessionId_ s)) told.
Proof.
  destruct b as [m data type k]. cbn [block_count]. intros (Hm & Hd & Hc) ->.
  cbn [block_granted block_data block_type] in *.
  unfold block_packets, block_messages, packets_of. cbn [block_granted block_data block_type block_count].
  destruct (Z.ltb_spec m (zlen data)); cycle 1.
  - eexists _, _, s, _, []. cbn [take]. rewrite take_nil. split; [done|].
    rewrite recv_single by lia. split; [done|]. split; [done|]. split; [constructor|].
    exists [(data, u32 type)]. cbn. auto.
  - destruct (zlen_pos_length data ltac:(lia)) as [fuel Hfuel].
    pose proof (chunk_pos m Hm) as Hch. specialize (Hc ltac:(done)).
    assert (frag_len m data 0 = chunk m) as Hfl by (unfold frag_len; by bool_lia).
    rewrite Hfuel. cbn [fragments]. bool_lia. rewrite firstn_cons, Hfl.
    assert (fragments m data type fuel (0 + 1) (0 + chunk m)
      = fragments m data type (length data) 1 (chunk m)) as Hrest.
    { apply fragments_fuel; unfold BINARY_DATA_MAX_LEN, DSCHED_MAX_BUFFER_SIZE, zlen in *; lia. }
    eexists _, _, (waiting m data type s 1 (chunk m)), [], _. split; [done|].
    rewrite recv_first by (done || lia). split; [done|]. split; [done|].
    rewrite Hrest. split; [by apply (arriving_rest m data type s 1 (chunk m) n); lia|].
    exists []. cbn. auto.
Qed.

(** A later packet of a message. *)
Lemma recv_rest m data type s i off n :
  BINARY_DATA_PACKET_RESERVED_BUFFER < m <= BINARY_DATA_MAX_LEN ->
  m < zlen data < DSCHED_MAX_BUFFER_SIZE -> zlen data <= 65536 * chunk m ->
  0 < off < zlen data -> off = i * chunk m ->
  let rest := fragments m data type (length data) i off in
  exists p ps s' out messages,
    take (S n) rest = p :: ps /\
    OnBytesReceived ERR_NULL_OBJECT junk (waiting m data type s i off) (Some (buffer_of p))
      = Done (ERR_OK, s', out) /\
    sessionId_ s' = sessionId_ s /\ arriving s' ps messages /\
    exists told, whole data type rest (S n) = told ++ messages /\ (told = [] \/ messages = []) /\
      (length told <= 1)%nat /\ out = List.map (ready_of (sessionId_ s)) told.
Proof.
  intros Hm Hd Hc Hoff Hi rest. pose proof (chunk_pos m Hm) as Hch.
  destruct (zlen_pos_length data ltac:(lia)) as [fuel Hfuel].
  subst rest. rewrite Hfuel. unfold whole. cbn [fragments]. bool_lia. rewrite firstn_cons. cbn [length Nat.leb].
  pose proof (recv_next ERR_NULL_OBJECT junk m data type Hm Hd Hc s i off Hoff Hi) as Hrecv.
  unfold frag_len at 1 2. destruct (Z.ltb_spec m (zlen data - off)).
  - assert (fragments m data type fuel (i + 1) (off + chunk m)
      = fragments m data type (length data) (i + 1) (off + chunk m)) as ->.
    { apply fragments_fuel; unfold BINARY_DATA_MAX_LEN, DSCHED_MAX_BUFFER_SIZE, zlen in *; lia. }
    eexists _, _, (waiting m data type s (i + 1) (off + chunk m)), [], _.
    split; [done|]. split; [exact Hrecv|]. split; [done|].
    split; [by apply (arriving_rest m data type s (i + 1) (off + chunk m) n); lia|].
    exists []. cbn. auto.
  - replace (off + (zlen data - off)) with (zlen data) by lia.
    assert (fragments m data type fuel (i + 1) (zlen data) = []) as ->
      by (destruct fuel; cbn [fragments]; by bool_lia).
    rewrite take_nil. eexists _, _, _, _, []. split; [done|]. split; [exact Hrecv|].
    split; [done|]. split; [constructor|]. exists [(data, u32 type)]. cbn. auto.
Qed.
End Receiving.

(** ** Simulation *)

Section Simulation.
Context (ERR_NULL_OBJECT : Z) (junk : SessionDataHeader) (sid : Z).

Lemma link_send_simulated l c b data type :
  sendable (SendMessage b data type) -> link_rel sid l c ->
  exists l' c', link_step ERR_NULL_OBJECT junk l (SendMessage b data type) = Done l' /\
    channel_step c (SendMessage b data type) c' /\ link_rel sid l' c'.
Proof.
  intros Hs (first & messages & blocks & Hsid & Harr & Hwf & Hway & Hq & Hout).
  destruct (SendData_taken b data type Hs) as (packets & n & Hrun & Htaken & Hall).
  cbn [link_step]. rewrite Hrun. cbn [run_bind]. rewrite Htaken.
  set (block := mkBlock (granted b) data type n).
  assert (block_wf block) as Hb by exact Hs.
  assert (block_messages block = [(data, u32 type)] \/ block_messages block = [] /\ ~ obliging b)
    as Hmsg.
  { unfold block_messages, whole. cbn [block block_granted block_data block_type block_count].
    destruct (Nat.leb_spec (length (packets_of (granted b) data type)) n); [by left|].
    right. split; [done|]. intros Hg. specialize (Hall Hg). lia. }
  assert (forall c', queue c' = queue c ++ block_messages block -> handed_out c' = handed_out c ->
    link_rel sid (mkLink (on_the_way l ++ block_packets block) (receiver l) (announced l)) c') as Hrel.
  { intros c' Hq' Hh'. exists first, messages, (blocks ++ [block]). cbn [receiver on_the_way announced].
    rewrite !List.map_app, !List.concat_app. cbn [List.map concat]. rewrite !app_nil_r.
    split_and!; [done|done|apply Forall_app_2; auto| | |by rewrite Hh'].
    - by rewrite Hway, app_assoc.
    - by rewrite Hq', Hq, app_assoc. }
  destruct c as [q d], Hmsg as [Hm|[Hm Hno]]; eexists.
  - exists (mkChannel (q ++ [(data, u32 type)]) d). split; [done|].
    split; [apply channel_send|]. apply Hrel; [by rewrite Hm|done].
  - exists (mkChannel q d). split; [done|]. split; [by apply channel_refuse|].
    apply Hrel; [by rewrite Hm, app_nil_r|done].
Qed.

(** What the next packet does, given how the message it belongs to goes on. *)
Lemma link_deliver_packet l p ps s' out told messages rest blocks c :
  on_the_way l = p :: ps ++ concat (List.map block_packets blocks) -> sessionId_ (receiver l) = sid ->
  OnBytesReceived ERR_NULL_OBJECT junk (receiver l) (Some (buffer_of p)) = Done (ERR_OK, s', out) ->
  sessionId_ s' = sid -> arriving s' ps messages -> Forall block_wf blocks ->
  rest = told ++ messages -> told = [] \/ messages = [] -> (length told <= 1)%nat ->
  out = List.map (ready_of sid) told ->
  queue c = rest ++ concat (List.map block_messages blocks) ->
  announced l = List.map (ready_of sid) (handed_out c) ->
  exists l' c', link_step ERR_NULL_OBJECT junk l DeliverPacket = Done l' /\
    channel_step c DeliverPacket c' /\ link_rel sid l' c'.
Proof.
  intros Hway Hsid Hrecv Hsid' Harr Hwf -> Htold Hlen -> Hq Hout.
  cbn [link_step]. rewrite Hway, Hrecv. cbn [run_bind]. destruct c as [q d]. cbn [queue] in Hq. subst q.
  eexists. exists (mkChannel (messages ++ concat (List.map block_messages blocks)) (d ++ told)).
  split; [done|]. split.
  - destruct told as [|x [|? ?]]; [rewrite app_nil_r; apply channel_wait| |cbn in Hlen; lia].
    destruct Htold as [?| ->]; [done|]. apply channel_hand_out.
  - exists ps, messages, blocks. cbn [receiver on_the_way announced queue handed_out] in *.
    split_and!; [done..|]. by rewrite Hout, List.map_app.
Qed.

Lemma link_deliver_simulated l c :
  link_rel sid l c ->
  exists l' c', link_step ERR_NULL_OBJECT junk l DeliverPacket = Done l' /\
    channel_step c DeliverPacket c' /\ link_rel sid l' c'.
Proof.
  intros (first & messages & blocks & Hsid & Harr & Hwf & Hway & Hq & Hout).
  assert (first = [] /\ messages = [] \/ exists p ps s' out messages' told,
    first = p :: ps /\
    OnBytesReceived ERR_NULL_OBJECT junk (receiver l) (Some (buffer_of p)) = Done (ERR_OK, s', out) /\
    sessionId_ s' = sid /\ arriving s' ps messages' /\ messages = told ++ messages' /\
    (told = [] \/ messages' = []) /\ (length told <= 1)%nat /\ out = List.map (ready_of sid) told)
    as [[-> ->]|(p & ps & s' & out & messages' & told & -> & Hr & Hs' & Ha & Hm & Ht & Hl & Ho)].
  { destruct Harr as [s|m data type s i off [|n] Hm Hd Hc Hoff Hi rest]; [by left|left|right].
    - split; [done|]. unfold whole, rest. destruct (zlen_pos_length data ltac:(lia)) as [k Hk].
      rewrite Hk. cbn [fragments]. by bool_lia.
    - destruct (recv_rest ERR_NULL_OBJECT junk m data type s i off n Hm Hd Hc Hoff Hi)
        as (p & ps & s' & out & ms & Hp & Hr & Hs' & Ha & told & Hw & Ht & Hl & Ho).
      change (sessionId_ (waiting m data type s i off)) with (sessionId_ s) in Hsid.
      rewrite <- Hsid. by exists p, ps, s', out, ms, told. }
  - destruct (blocks_normalise blocks Hwf) as (bs & Hwf' & Hp & Hms & Hhead).
    rewrite <- Hp in Hway. rewrite <- Hms in Hq. cbn [app] in Hway, Hq.
    destruct bs as [|b bs]; cbn [List.map concat] in Hway, Hq.
    { exists l, c. cbn [link_step]. rewrite Hway. split; [done|]. split; [apply channel_wait|].
      exists [], [], []. split_and!; (done || constructor). }
    destruct (block_count b) as [|n] eqn:Hn; [done|]. inversion_clear Hwf' as [|? ? Hb Hbs].
    destruct (recv_block ERR_NULL_OBJECT junk (receiver l) b n Hb Hn)
      as (p & ps & s' & out & ms & Hpk & Hr & Hs' & Ha & told & Hw & Ht & Hl & Ho).
    rewrite Hpk in Hway. rewrite Hsid in *.
    by apply (link_deliver_packet l p ps s' out told ms (block_messages b) bs c).
  - by apply (link_deliver_packet l p ps s' out told messages' messages blocks c).
Qed.

Lemma link_run_simulated ops l c :
  Forall sendable ops -> link_rel sid l c ->
  exists l' c', link_run ERR_NULL_OBJECT junk l ops = Done l' /\ channel_run c ops c' /\
    link_rel sid l' c'.
Proof.
  intros Hops. revert l c. induction Hops as [|op ops Hop _ IH]; intros l c Hrel.
  { exists l, c. split; [done|]. split; [constructor|done]. }
  assert (exists l1 c1, link_step ERR_NULL_OBJECT junk l op = Done l1 /\ channel_step c op c1 /\
    link_rel sid l1 c1) as (l1 & c1 & Hstep & Hc & Hrel1).
  { destruct op; [by apply link_send_simulated|by apply link_deliver_simulated]. }
  cbn [link_run]. rewrite Hstep. cbn [run_bind].
  destruct (IH l1 c1 Hrel1) as (l2 & c2 & ? & ? & ?). exists l2, c2.
  split; [done|]. split; [by econstructor|done].
Qed.
End Simulation.

(** With nothing on the way every message has been handed out. *)
Lemma link_rel_drained sid l c : link_rel sid l c -> on_the_way l = [] -> queue c = [].
Proof.
  intros (first & messages & blocks & _ & Harr & Hwf & Hway & Hq & _) Hnil.
  rewrite Hnil in Hway. symmetry in Hway. apply app_eq_nil in Hway as [Hf Hb].
  destruct (blocks_normalise blocks Hwf) as (bs & Hwf' & Hp & Hms & Hhead).
  rewrite Hq, <- Hms. rewrite <- Hp in Hb. replace messages with (@nil (bytes * Z)).
  - destruct bs as [|b bs]; [done|]. cbn [List.map concat] in Hb. apply app_eq_nil in Hb as [Hb _].
    inversion_clear Hwf' as [|? ? (_ & [Hpos _] & _) _].
    destruct (packets_of_nonempty (block_granted b) (block_data b) (block_type b) Hpos) as (p & ps & Hps).
    unfold block_packets in Hb. rewrite Hps in Hb. by destruct (block_count b).
  - destruct Harr as [|m data type s i off n Hm Hd Hc Hoff Hi rest]; [done|].
    destruct (zlen_pos_length data ltac:(lia)) as [k Hk]. unfold whole, rest in *.
    rewrite Hk in *. cbn [fragments] in *. destruct (Z.ltb_spec off (zlen data)); [|lia].
    by destruct n.
Qed.

(** ** Properties *)

(** C9 A session is a first-in first-out channel of messages.  However sending and
    the arrival of packets interleave, and whatever packets softbus refuses on the way,
    every step returns, and what the receiver announced is what a queue of whole
    messages hands out: in order, each once, with its bytes and type; only a message of
    which softbus refused a part is missing, and with nothing on the way nothing else
    is. *)
Theorem session_refines_channel (ERR_NULL_OBJECT : Z) (junk : SessionDataHeader) (info : SessionInfo)
    (ops : list LinkOp) :
  Forall sendable ops ->
  exists l c,
    link_run ERR_NULL_OBJECT junk (mkLink [] (new_session info) []) ops = Done l /\
    channel_run (mkChannel [] []) ops c /\
    announced l = List.map (ready_of (info_sessionId info)) (handed_out c) /\
    (on_the_way l = [] -> queue c = []).
Proof.
  intros Hops.
  destruct (link_run_simulated ERR_NULL_OBJECT junk (info_sessionId info) ops
    (mkLink [] (new_session info) []) (mkChannel [] []) Hops) as (l & c & Hrun & Hc & Hrel).
  { exists [], [], []. split_and!; (done || constructor). }
  exists l, c. split_and!; [done..| |by apply (link_rel_drained (info_sessionId info) l)].
  by destruct Hrel as (first & messages & blocks & _ & _ & _ & _ & _ & Hout).
Qed.

(** Softbus that refuses the second packet of each message. *)
Definition second_refused : Softbus :=
  mkSoftbus 600 (fun _ => ERR_OK) (fun sent _ => match sent with [] => ERR_OK | _ => -5 end).

Definition steady_softbus : Softbus := mkSoftbus 600 (fun _ => ERR_OK) (fun _ _ => ERR_OK).

Definition sample_ops : list LinkOp :=
  [SendMessage second_refused (replicate 700 1) 2; SendMessage steady_softbus (replicate 3 5) 1;
   DeliverPacket; SendMessage steady_softbus (replicate 650 6) 2;
   DeliverPacket; DeliverPacket; DeliverPacket].

Lemma session_refines_channel_witness :
  exists l c,
    link_run 7 zero_header (mkLink [] (new_session (mkSessionInfo 5 "a" "b" "c" false)) []) sample_ops
      = Done l /\
    channel_run (mkChannel [] []) sample_ops c /\
    announced l = List.map (ready_of 5) (handed_out c) /\
    (on_the_way l = [] -> queue c = []).
Proof.
  apply (session_refines_channel 7 zero_header (mkSessionInfo 5 "a" "b" "c" false) sample_ops).
  unfold sample_ops, sendable, chunk, BINARY_DATA_PACKET_RESERVED_BUFFER, BINARY_DATA_MAX_LEN,
    DSCHED_MAX_BUFFER_SIZE.
  repeat constructor; by_compute.
Defined.
