(* ===== verification/SoftbusAdapter.v ===== *)
(** * The table of softbus sessions

    [DSchedTransportSoftbusAdapter] of services/dtbschedmgr (softbus_adapter/
    transport): opening a session to a device or sharing the one that is there,
    the reference counts both ends keep of a shared session, and the dispatch of
    what arrives to the listeners of a service.  Softbus and the other services
    of the system are the record [Env]; the macros DMSFWK_ALL_CONNECT_MGR,
    DMSFWK_INTERACTIVE_ADAPTER, SOFTBUS_QUERY_VALID_QOS and DMS_CHECK_BLUETOOTH are
    undefined, as in the default build.  The mutexes serialise the operations, so
    each of them is one transition. *)

From Stdlib Require Import ZArith Lia.
From stdpp Require Import base list option strings relations.
From S2P Require Import Prelude ErrorCodes DataBuffer StdMap Effects SoftbusSession.
Import ErrorCodes.Dms.

(** ** Constants *)

Definition BIND_RETRY_INTERVAL : Z := 500.
Definition MAX_BIND_RETRY_TIME : Z := 4000.
Definition MAX_RETRY_TIMES : Z := 8.
Definition MS_TO_US : Z := 1000.
Definition SESSION_REUSE_CMD : Z := 10.
Definition SESSION_RELEASE_CMD : Z := 11.
Definition DATA_TYPE_SESSION_REUSE : Z := 100.
Definition DATA_TYPE_SESSION_RELEASE : Z := 101.
Definition SOFTBUS_QOS_CASE_HIGH : Z := 0.
Definition SOFTBUS_QOS_CASE_MIDDLE_HIGH : Z := 1.
Definition SOFTBUS_QOS_CASE_MIDDLE_LOW : Z := 2.
Definition SOFTBUS_QOS_CASE_LOW : Z := 3.
Definition SOFTBUS_MAX_VALID_QOS_CASE : Z := 3.
Definition DSCHED_MAX_RECV_DATA_LEN : Z := 104857600.
Definition SOCKET_DMS_SESSION_NAME : string := "ohos.distributedschedule.dms.connect".

(** [DSchedServiceType]. *)
Inductive ServiceType : Type := SERVICE_TYPE_INVALID | SERVICE_TYPE_CONTINUE | SERVICE_TYPE_COLLAB.

(** The two quality-of-service tables [Bind] is called with. *)
Inductive QosInfo : Type := g_qosInfo | g_watch_collab_qosInfo.

(** ** State and environment *)

(** [std::map<int32_t, std::shared_ptr<DSchedSoftbusSession>>]: no entry is null. *)
Record Adapter : Type := mkAdapter {
  sessions_ : std_map Z Session;
  listeners_ : std_map Z (list Z);
  serverSocket_ : Z;
  localSessionName_ : string;
  callingTokenId_ : Z;
  isAllConnectExist_ : bool
}.

Definition set_sessions (a : Adapter) (m : std_map Z Session) : Adapter :=
  mkAdapter m (listeners_ a) (serverSocket_ a) (localSessionName_ a) (callingTokenId_ a)
    (isAllConnectExist_ a).
Definition set_listeners (a : Adapter) (m : std_map Z (list Z)) : Adapter :=
  mkAdapter (sessions_ a) m (serverSocket_ a) (localSessionName_ a) (callingTokenId_ a)
    (isAllConnectExist_ a).
Definition set_serverSocket (a : Adapter) (s : Z) (name : string) : Adapter :=
  mkAdapter (sessions_ a) (listeners_ a) s name (callingTokenId_ a) (isAllConnectExist_ a).
Definition set_callingTokenId (a : Adapter) (t : Z) : Adapter :=
  mkAdapter (sessions_ a) (listeners_ a) (serverSocket_ a) (localSessionName_ a) t
    (isAllConnectExist_ a).

Definition init_adapter : Adapter := mkAdapter [] [] 0 "" 0 true.

(** The calls that leave the adapter. *)
Inductive Effect : Type :=
  | ESocket (peer : option string)
  | EListen (socket : Z)
  | EBind (socket : Z) (qos : QosInfo)
  | EUsleep (us : Z)
  | EShutdown (socket : Z)
  | ESend (socket : Z) (packet : bytes)
  | ELocalDeviceId
  | EIsWifiActive
  | ESetFirstCallerTokenID (token : Z)
  | EListenerShutdown (listener sessionId : Z) (isSelfcalled : bool)
  | EListenerData (listener sessionId : Z) (data : DataBuffer).

Class Env : Type := {
  env_Socket : list Effect -> Z;
  env_Listen : list Effect -> Z;
  env_Bind : list Effect -> Z;
  env_SendBytes : list Effect -> Z;
  env_GetSessionOption : list Effect -> Z -> Z * Z;
  env_LocalDeviceId : list Effect -> option string;
  env_IsWifiActive : list Effect -> bool;
  env_junk : list Effect -> SessionDataHeader;
  SOFTBUS_TRANS_PEER_SESSION_NOT_CREATED : Z;
  ERR_NULL_OBJECT : Z
}.

Section WithEnv.
Context `{Env}.

Abbreviation act := (M Adapter Effect).

Definition find_session (sessionId : Z) : act (option Session) :=
  let! a := get in mret (map_find (sessions_ a) sessionId).

Definition store_session (sessionId : Z) (s : Session) : act unit :=
  modify (fun a => set_sessions a (map_assign (sessions_ a) sessionId s)).

Definition erase_session (sessionId : Z) : act unit :=
  modify (fun a => set_sessions a (map_erase (sessions_ a) sessionId)).

(** The first session, in the order of the map, to a device. *)
Definition session_of (a : Adapter) (peerDeviceId : string) : option (Z * Session) :=
  List.find (fun e => bool_decide (peerDeviceId = GetPeerDeviceId e.2)) (sessions_ a).

(** ** Opening and closing *)

Definition CreateServerSocket : act Z :=
  do! modify (fun a => set_serverSocket a (serverSocket_ a) SOCKET_DMS_SESSION_NAME) in
  call (ESocket None) env_Socket.

Definition InitChannel : act Z :=
  let! socket := CreateServerSocket in
  do! modify (fun a => set_serverSocket a socket (localSessionName_ a)) in
  if socket <=? 0 then mret socket
  else
    let! ret := call (EListen socket) env_Listen in
    if negb (ret =? ERR_OK) then mret ret else mret ERR_OK.

Definition CreateClientSocket (peerDeviceId : string) : act Z :=
  call (ESocket (Some peerDeviceId)) env_Socket.

Definition ShutdownSession (peerDeviceId : string) (sessionId : Z) : act unit :=
  emit (EShutdown sessionId).

Definition CreateSessionRecord (sessionId : Z) (peerDeviceId : string) (isServer : bool)
    (type : ServiceType) : act Z :=
  let! localDeviceId := call ELocalDeviceId env_LocalDeviceId in
  match localDeviceId with
  | None =>
    do! ShutdownSession peerDeviceId sessionId in
    mret GET_LOCAL_DEVICE_ERR
  | Some localDeviceId =>
    let info := mkSessionInfo sessionId localDeviceId peerDeviceId SOCKET_DMS_SESSION_NAME isServer in
    do! store_session sessionId (new_session info) in
    mret ERR_OK
  end.

(** Without SOFTBUS_QUERY_VALID_QOS the case that was passed in is left alone. *)
Definition QueryValidQos (validQosCase : Z) : Z * Z := (SOFTBUS_QUERY_VALID_QOS_ERR, validQosCase).

(** The retries of [ServiceBind]. *)
Fixpoint bind_loop (fuel : nat) (sessionId retryCount : Z) : act Z :=
  match fuel with
  | O => fun _ _ => OutOfFuel
  | S fuel =>
    let '(_, validQosCase) := QueryValidQos SOFTBUS_MAX_VALID_QOS_CASE in
    let qos := if (validQosCase =? SOFTBUS_QOS_CASE_HIGH)
                  || (validQosCase =? SOFTBUS_QOS_CASE_MIDDLE_HIGH)
               then g_watch_collab_qosInfo else g_qosInfo in
    let! ret := call (EBind sessionId qos) env_Bind in
    if ret =? ERR_OK then mret ret
    else if negb (ret =? SOFTBUS_TRANS_PEER_SESSION_NOT_CREATED) then mret ret
    else if MAX_BIND_RETRY_TIME <=? retryCount * BIND_RETRY_INTERVAL then mret ret
    else
      do! emit (EUsleep (BIND_RETRY_INTERVAL * MS_TO_US)) in
      let retryCount := retryCount + 1 in
      if retryCount <? MAX_RETRY_TIMES then bind_loop fuel sessionId retryCount else mret ret
  end.

Definition ServiceBind (sessionId : Z) : act Z := bind_loop (Z.to_nat MAX_RETRY_TIMES) sessionId 0.

(** The result and the session id the caller sees. *)
Definition AddNewPeerSession (peerDeviceId : string) (type : ServiceType) : act (Z * Z) :=
  let! sessionId := CreateClientSocket peerDeviceId in
  if sessionId <=? 0 then mret (REMOTE_DEVICE_BIND_ABILITY_ERR, sessionId)
  else
    let! a := get in
    do! emit (ESetFirstCallerTokenID (callingTokenId_ a)) in
    do! modify (fun a => set_callingTokenId a 0) in
    let! ret := ServiceBind sessionId in
    let! ret := if negb (ret =? ERR_OK) then mret ret
                else CreateSessionRecord sessionId peerDeviceId false type in
    if negb (ret =? ERR_OK) then
      do! ShutdownSession peerDeviceId sessionId in
      mret (ret, INVALID_SESSION_ID)
    else mret (ret, sessionId).

Definition IsNeedAllConnect (type : ServiceType) : act bool :=
  match type with
  | SERVICE_TYPE_COLLAB | SERVICE_TYPE_INVALID => mret false
  | SERVICE_TYPE_CONTINUE =>
    let! a := get in
    if isAllConnectExist_ a then call EIsWifiActive env_IsWifiActive else mret false
  end.

(** Without DMSFWK_ALL_CONNECT_MGR. *)
Definition DecisionByAllConnect : Z := ERR_OK.

(** ** Sending *)

(** The session calls softbus: the packets it hands over join the trace. *)
Definition session_send (sessionId : Z) (dataBuffer : DataBuffer) (dataType : Z) : act Z :=
  fun a t =>
    let after sent := t ++ map (ESend sessionId) sent in
    let* (ret, sent) := SendData (fun sent => env_GetSessionOption (after sent) sessionId)
                          (fun sent packet => env_SendBytes (after sent ++ [ESend sessionId packet]))
                          (Z.to_nat (Size dataBuffer)) (Some dataBuffer) dataType [] in
    Done (ret, a, after sent).

Definition SendDataLocked (sessionId dataType : Z) (dataBuffer : DataBuffer) : act Z :=
  let! s := find_session sessionId in
  match s with
  | None => mret INVALID_SESSION_ID
  | Some _ => session_send sessionId dataBuffer dataType
  end.

(** [SendData] of the adapter. *)
Definition SendDataToSession (sessionId dataType : Z) (dataBuffer : DataBuffer) : act Z :=
  SendDataLocked sessionId dataType dataBuffer.

(** A command is a buffer of the four bytes of its number. *)
Definition command_buffer (cmd : Z) : run (Z * DataBuffer) :=
  let msg := make_buffer 4 in
  let* (ret, mem) := memcpy_s (data_ msg) (rangeOffset_ msg) (Size msg) (Some (le_bytes 4 cmd)) 0 4 in
  Done (ret, set_data msg mem).

Definition send_command (sessionId dataType cmd : Z) : act unit :=
  fun a t =>
    let* (ret, msg) := command_buffer cmd in
    if negb (ret =? 0) then Done (tt, a, t)
    else (let! _ := SendDataLocked sessionId dataType msg in mret tt) a t.

Definition SendSessionReuseMessage (sessionId : Z) : act unit :=
  send_command sessionId DATA_TYPE_SESSION_REUSE SESSION_REUSE_CMD.

Definition SendSessionReleaseMessage (sessionId : Z) : act unit :=
  send_command sessionId DATA_TYPE_SESSION_RELEASE SESSION_RELEASE_CMD.

(** ** Connecting and disconnecting *)

Definition ConnectDevice (peerDeviceId : string) (type : ServiceType) : act (Z * Z) :=
  let! a := get in
  match session_of a peerDeviceId with
  | Some (sessionId, s) =>
    do! store_session sessionId (OnConnect s) in
    do! SendSessionReuseMessage sessionId in
    mret (ERR_OK, sessionId)
  | None =>
    let! need := IsNeedAllConnect type in
    let ret := if need then DecisionByAllConnect else ERR_OK in
    if negb (ret =? ERR_OK) then mret (ret, 0)
    else AddNewPeerSession peerDeviceId type
  end.

Definition NotifyListenersSessionShutdown (sessionId : Z) (isSelfcalled : bool) : act unit :=
  let! a := get in
  mfor (listeners_ a) (fun iterItem =>
    mfor iterItem.2 (fun iter => emit (EListenerShutdown iter sessionId isSelfcalled))).

Definition DisconnectDevice (peerDeviceId : string) : act unit :=
  let! a := get in
  match session_of a peerDeviceId with
  | None => mret tt
  | Some (sessionId, s) =>
    if sessionId =? 0 then mret tt
    else
      let '(last, s) := OnDisconnect s in
      do! store_session sessionId s in
      if last then
        do! ShutdownSession peerDeviceId sessionId in
        do! erase_session sessionId in
        NotifyListenersSessionShutdown sessionId true
      else SendSessionReleaseMessage sessionId
  end.

Definition GetSessionIdByDeviceId (peerDeviceId : string) : act (option Z) :=
  let! a := get in
  mret (option_map fst (session_of a peerDeviceId)).

Definition OnBind (sessionId : Z) (peerDeviceId : string) : act unit :=
  let! _ := CreateSessionRecord sessionId peerDeviceId true SERVICE_TYPE_INVALID in mret tt.

Definition GetPeerDeviceIdBySocket (sessionId : Z) : act string :=
  let! s := find_session sessionId in
  mret (match s with Some s => GetPeerDeviceId s | None => "" end).

Definition IsDeviceConnected (peerDeviceId : string) : act bool :=
  let! a := get in
  mret (match session_of a peerDeviceId with Some _ => true | None => false end).

Definition OnShutdown (sessionId : Z) (isSelfcalled : bool) : act unit :=
  let! s := find_session sessionId in
  match s with
  | None => mret tt
  | Some s =>
    do! ShutdownSession (GetPeerDeviceId s) sessionId in
    do! erase_session sessionId in
    NotifyListenersSessionShutdown sessionId isSelfcalled
  end.

Definition ReleaseChannel : act Z :=
  let! a := get in
  do! mfor (sessions_ a) (fun iter => ShutdownSession (GetPeerDeviceId iter.2) iter.1) in
  do! modify (fun a => set_sessions a []) in
  do! emit (EShutdown (serverSocket_ a)) in
  do! modify (fun a => set_serverSocket a 0 (localSessionName_ a)) in
  mret ERR_OK.

(** ** Receiving *)

Definition OnDataReady (ready : Ready) : act unit :=
  let sessionId := ready_sessionId ready in
  if ready_dataType ready =? DATA_TYPE_SESSION_REUSE then
    let! s := find_session sessionId in
    match s with
    | Some s => store_session sessionId (OnConnect s)
    | None => mret tt
    end
  else if ready_dataType ready =? DATA_TYPE_SESSION_RELEASE then
    let! s := find_session sessionId in
    match s with
    | Some s =>
      let '(_, s) := OnDisconnect s in
      do! store_session sessionId s in
      if GetRefCount s <=? 0 then
        do! ShutdownSession (GetPeerDeviceId s) sessionId in
        do! erase_session sessionId in
        NotifyListenersSessionShutdown sessionId true
      else mret tt
    | None => mret tt
    end
  else
    let! a := get in
    match map_find (listeners_ a) (ready_dataType ready) with
    | None => mret tt
    | Some objs => mfor objs (fun iter => emit (EListenerData iter sessionId (ready_data ready)))
    end.

(** [AssembleFrag] resets the assembly of the session after [OnDataReady]; the
    session it belongs to must still be there. *)
Definition after_ready (sessionId : Z) (fragmented : bool) : act unit :=
  let! s := find_session sessionId in
  match s with
  | None => if fragmented then undefined else mret tt
  | Some _ => mret tt
  end.

(** Whether the last packet of a reassembled message was a fragment. *)
Definition is_fragment (before after : Session) : bool :=
  isWaiting_ (asm before) && negb (isWaiting_ (asm after)).

Definition OnBytes (sessionId : Z) (data : option bytes) (dataLen : Z) : act unit :=
  match data with
  | None => mret tt
  | Some data =>
    if (dataLen =? 0) || (DSCHED_MAX_RECV_DATA_LEN <? dataLen) then mret tt
    else
      let! s := find_session sessionId in
      match s with
      | None => mret tt
      | Some s => fun a t =>
        let buffer := make_buffer dataLen in
        let* (ret, mem) := memcpy_s (data_ buffer) (rangeOffset_ buffer) (Capacity buffer)
                             (Some data) 0 dataLen in
        if negb (ret =? ERR_OK) then Done (tt, a, t)
        else
          let* (_, s', out) := OnBytesReceived ERR_NULL_OBJECT (env_junk t) s
                                 (Some (set_data buffer mem)) in
          (do! store_session sessionId s' in
           mfor out (fun ready =>
             do! OnDataReady ready in after_ready sessionId (is_fragment s s'))) a t
      end
  end.

(** ** Listeners and the caller token *)

Definition RegisterListener (serviceType : Z) (listener : option Z) : act unit :=
  match listener with
  | None => mret tt
  | Some listener =>
    modify (fun a =>
      match map_find (listeners_ a) serviceType with
      | None => set_listeners a (map_assign (listeners_ a) serviceType [listener])
      | Some ls =>
        if existsb (Z.eqb listener) ls then a
        else set_listeners a (map_assign (listeners_ a) serviceType (ls ++ [listener]))
      end)
  end.

(** Erase the first occurrence of the listener. *)
Fixpoint erase_first (listener : Z) (ls : list Z) : list Z :=
  match ls with
  | [] => []
  | l :: ls => if l =? listener then ls else l :: erase_first listener ls
  end.

Definition UnregisterListener (serviceType : Z) (listener : option Z) : act unit :=
  match listener with
  | None => mret tt
  | Some listener =>
    modify (fun a =>
      match map_find (listeners_ a) serviceType with
      | None => a
      | Some ls =>
        if existsb (Z.eqb listener) ls then
          match erase_first listener ls with
          | [] => set_listeners a (map_erase (listeners_ a) serviceType)
          | ls => set_listeners a (map_assign (listeners_ a) serviceType ls)
          end
        else a
      end)
  end.

Definition SetCallingTokenId (callingTokenId : Z) : act unit :=
  modify (fun a => set_callingTokenId a callingTokenId).
End WithEnv.

(** ** Lemmas *)

Section Lemmas.
Context `{Env}.

Lemma command_buffer_ok cmd : command_buffer cmd = Done (0, buffer_of (le_bytes 4 cmd)).
Proof. by unfold command_buffer. Qed.

(** Notifying the listeners changes nothing but the trace. *)
Lemma mfor_emit_state {A} (l : list A) (f : A -> M Adapter Effect unit) a t :
  (forall x a t, exists t', f x a t = Done (tt, a, t ++ t')) ->
  exists t', mfor l f a t = Done (tt, a, t ++ t').
Proof.
  intros Hf. revert t. induction l as [|x l IH]; intros t; cbn [mfor].
  - exists []. by rewrite app_nil_r.
  - unfold mbind. destruct (Hf x a t) as (t1 & ->). cbn [run_bind].
    destruct (IH (t ++ t1)) as (t2 & ->). exists (t1 ++ t2). by rewrite app_assoc.
Qed.

Definition no_packets (t : list Effect) : Prop := forall sid p, ~ ESend sid p ∈ t.

Lemma NotifyListeners_spec sessionId self a t :
  exists t', NotifyListenersSessionShutdown sessionId self a t = Done (tt, a, t ++ t') /\
    no_packets t' /\ (forall sid, ~ EShutdown sid ∈ t').
Proof.
  unfold NotifyListenersSessionShutdown, mbind at 1, get. cbn [run_bind].
  generalize (listeners_ a) as ls. intros ls. revert t.
  assert (forall ids t, exists t', mfor ids (fun iter => emit (EListenerShutdown iter sessionId self)) a t
    = Done (tt, a, t ++ t') /\ no_packets t' /\ (forall sid, ~ EShutdown sid ∈ t')) as Hin.
  { intros ids. induction ids as [|id ids IH]; intros t; cbn [mfor].
    - exists []. rewrite app_nil_r. split_and!; [done|by intros ? ? ?%elem_of_nil|by intros ? ?%elem_of_nil].
    - unfold mbind at 1, emit at 1. cbn [run_bind]. destruct (IH (t ++ [EListenerShutdown id sessionId self]))
        as (t' & -> & Hn & Hs). exists (EListenerShutdown id sessionId self :: t').
      rewrite <- app_assoc. split_and!; [done| |].
      + by intros sid p [|?%Hn]%elem_of_cons.
      + by intros sid [|?%Hs]%elem_of_cons. }
  induction ls as [|[k ids] ls IH]; intros t; cbn [mfor].
  - exists []. rewrite app_nil_r. split_and!; [done|by intros ? ? ?%elem_of_nil|by intros ? ?%elem_of_nil].
  - unfold mbind at 1. cbn [snd]. destruct (Hin ids t) as (t1 & -> & Hn1 & Hs1). cbn [run_bind].
    destruct (IH (t ++ t1)) as (t2 & -> & Hn2 & Hs2). exists (t1 ++ t2). rewrite app_assoc.
    split_and!; [done| |].
    + by intros sid p [?%Hn1|?%Hn2]%elem_of_app.
    + by intros sid [?%Hs1|?%Hs2]%elem_of_app.
Qed.
End Lemmas.

(** ** Two ends of a session *)

(** Softbus grants packets of [m] bytes and takes them all; nothing else answers. *)
Definition quiet_env (m : Z) (junk : SessionDataHeader) : Env := {|
  env_Socket := fun _ => 0;
  env_Listen := fun _ => 0;
  env_Bind := fun _ => 0;
  env_SendBytes := fun _ => SOFTBUS_OK;
  env_GetSessionOption := fun _ _ => (ERR_OK, m);
  env_LocalDeviceId := fun _ => None;
  env_IsWifiActive := fun _ => false;
  env_junk := fun _ => junk;
  SOFTBUS_TRANS_PEER_SESSION_NOT_CREATED := -1;
  ERR_NULL_OBJECT := 7
|}.

(** The packet of a command: sharing ([true]) or releasing the session. *)
Definition command_packet (reuse : bool) : bytes :=
  let type := if reuse then DATA_TYPE_SESSION_REUSE else DATA_TYPE_SESSION_RELEASE in
  let cmd := if reuse then SESSION_REUSE_CMD else SESSION_RELEASE_CMD in
  wire (mkHeader PROTOCOL_VERSION FRAG_START_END type 0 4 0 4) ++ le_bytes 4 cmd.

Section TwoEnds.
Context (m : Z) (junk : SessionDataHeader).
Context (Hm : BINARY_DATA_PACKET_RESERVED_BUFFER < m < DSCHED_MAX_BUFFER_SIZE - 49).
#[local] Instance env : Env := quiet_env m junk.

Lemma send_command_ok (reuse : bool) sid s a t :
  map_find (sessions_ a) sid = Some s ->
  (if reuse then SendSessionReuseMessage sid else SendSessionReleaseMessage sid) a t
  = Done (tt, a, t ++ [ESend sid (command_packet reuse)]).
Proof.
  intros Hs. assert (forall type cmd, send_command sid type cmd a t
    = Done (tt, a, t ++ [ESend sid (wire (mkHeader PROTOCOL_VERSION FRAG_START_END (u32 type) 0 4 0 4)
                                    ++ le_bytes 4 cmd)])) as Hcmd.
  { intros type cmd. unfold send_command. rewrite command_buffer_ok. cbn [run_bind].
    change (negb (0 =? 0)) with false. cbv iota.
    unfold SendDataLocked, find_session, mbind, get. cbn [run_bind mret]. rewrite Hs.
    unfold session_send. unfold env_GetSessionOption, env_SendBytes, env, quiet_env.
    pose proof (SendData_single m (le_bytes 4 cmd) type (Z.to_nat (Size (buffer_of (le_bytes 4 cmd))))
      Hm ltac:(by rewrite zlen_le_bytes)) as Hsend.
    rewrite zlen_le_bytes in Hsend. unfold BINARY_DATA_PACKET_RESERVED_BUFFER in Hm.
    change (Z.of_nat 4) with 4 in Hsend. specialize (Hsend ltac:(lia)).
    change (SendData (fun _ : list bytes => (ERR_OK, m)) (fun (_ : list bytes) (_ : bytes) => SOFTBUS_OK)) with
      (SendData (steady_option m) steady_send).
    rewrite Hsend. cbn [run_bind map]. done. }
  destruct reuse; apply Hcmd.
Qed.

(** Receiving a command leaves the session alone and is reported once. *)
Lemma receive_command (reuse : bool) s :
  OnBytesReceived 7 junk s (Some (buffer_of (command_packet reuse)))
  = Done (ERR_OK, s, [mkReady (sessionId_ s)
      (buffer_of (le_bytes 4 (if reuse then SESSION_REUSE_CMD else SESSION_RELEASE_CMD)))
      (if reuse then DATA_TYPE_SESSION_REUSE else DATA_TYPE_SESSION_RELEASE)]).
Proof.
  unfold command_packet. set (h := mkHeader _ _ _ _ _ _ _). set (l := le_bytes 4 _).
  assert (zlen l = 4) as Hl by apply zlen_le_bytes.
  assert (accepted h l) as Hacc.
  { unfold accepted. rewrite Hl.
    unfold header_wf, is_u8, is_u16, is_u32. by destruct reuse; by_compute. }
  unfold OnBytesReceived. rewrite PackRecvData_wire by done.
  change (fragFlag h =? FRAG_START_END) with true. cbv iota.
  rewrite AssembleNoFrag_ok by (rewrite ?Hl; by_compute).
  done.
Qed.

(** One end: its adapter, its id of the session, the device at the other end, and
    the packets on their way to it. *)
Record Endpoint : Type := mkEndpoint {
  ep_adapter : Adapter;
  ep_sid : Z;
  ep_peer : string;
  ep_inbox : list bytes
}.

Definition sent_on (sid : Z) (t : list Effect) : list bytes :=
  omap (fun e => match e with ESend s p => if s =? sid then Some p else None | _ => None end) t.

(** What an end can do, and the packets it sends doing so.  It shares the session
    only while it has it; a new one is another link. *)
Inductive end_op (e : Endpoint) : Endpoint -> list bytes -> Prop :=
  | op_connect type r a t :
    session_of (ep_adapter e) (ep_peer e) <> None ->
    ConnectDevice (ep_peer e) type (ep_adapter e) [] = Done (r, a, t) ->
    end_op e (mkEndpoint a (ep_sid e) (ep_peer e) (ep_inbox e)) (sent_on (ep_sid e) t)
  | op_disconnect a t :
    DisconnectDevice (ep_peer e) (ep_adapter e) [] = Done (tt, a, t) ->
    end_op e (mkEndpoint a (ep_sid e) (ep_peer e) (ep_inbox e)) (sent_on (ep_sid e) t)
  | op_deliver p rest a t :
    ep_inbox e = p :: rest ->
    OnBytes (ep_sid e) (Some p) (zlen p) (ep_adapter e) [] = Done (tt, a, t) ->
    end_op e (mkEndpoint a (ep_sid e) (ep_peer e) rest) (sent_on (ep_sid e) t).

Definition add_inbox (e : Endpoint) (ps : list bytes) : Endpoint :=
  mkEndpoint (ep_adapter e) (ep_sid e) (ep_peer e) (ep_inbox e ++ ps).

(** Either end acts; what it sends is queued for the other. *)
Inductive link_step : Endpoint * Endpoint -> Endpoint * Endpoint -> Prop :=
  | near_step e1 e2 e1' ps : end_op e1 e1' ps -> link_step (e1, e2) (e1', add_inbox e2 ps)
  | far_step e1 e2 e2' ps : end_op e2 e2' ps -> link_step (e1, e2) (add_inbox e1 ps, e2').

Definition net (cmds : list bool) : Z :=
  foldr (fun (reuse : bool) n => (if reuse then 1 else -1) + n) 0 cmds.

Lemma net_app c1 c2 : net (c1 ++ c2) = net c1 + net c2.
Proof. induction c1 as [|b c1 IH]; cbn [net foldr app]; [done|]. fold (net (c1 ++ c2)) (net c1). lia. Qed.

(** An end that holds the session with count [n] and has [cmds] coming. *)
Definition holds (e : Endpoint) (n : Z) (cmds : list bool) : Prop :=
  exists s, sessions_ (ep_adapter e) = [(ep_sid e, s)] /\ peerDeviceId_ s = ep_peer e /\
    sessionId_ s = ep_sid e /\ refCount_ s = n /\ 1 <= n /\ ep_sid e <> 0 /\
    ep_inbox e = map command_packet cmds.

Definition closed (e : Endpoint) : Prop := sessions_ (ep_adapter e) = [].

Lemma find_self k (s : Session) : map_find [(k, s)] k = Some s.
Proof. unfold map_find. cbn [List.find fst]. by rewrite key_eq_refl. Qed.

Lemma assign_self k (s s' : Session) : map_assign [(k, s)] k s' = [(k, s')].
Proof. cbn. unfold key_lt, Z_key_order. by rewrite Z.ltb_irrefl. Qed.

Lemma erase_self k (s : Session) : map_erase [(k, s)] k = [].
Proof. unfold map_erase. cbn [List.filter fst]. by rewrite key_eq_refl. Qed.

Lemma session_of_self a k s peer :
  sessions_ a = [(k, s)] -> peerDeviceId_ s = peer -> session_of a peer = Some (k, s).
Proof.
  intros Hs Hp. unfold session_of. rewrite Hs. cbn [List.find snd]. unfold GetPeerDeviceId.
  by rewrite bool_decide_true.
Qed.

(** Closing an end: the socket is shut down, the session goes, nothing is sent. *)
Lemma close_session a sid s peer t :
  sessions_ a = [(sid, s)] ->
  exists t', (do! ShutdownSession peer sid in do! erase_session sid in
    NotifyListenersSessionShutdown sid true) a t
  = Done (tt, set_sessions a [], t ++ t') /\ no_packets t'.
Proof.
  intros Hs. unfold mbind at 1 2, ShutdownSession, emit, erase_session, modify. cbn [run_bind].
  rewrite Hs, erase_self.
  destruct (NotifyListeners_spec sid true (set_sessions a []) (t ++ [EShutdown sid]))
    as (t' & -> & Hn & _). exists (EShutdown sid :: t'). rewrite <- app_assoc. split; [done|].
  by intros ? ? [|?%Hn]%elem_of_cons.
Qed.

Lemma sent_on_none sid t : no_packets t -> sent_on sid t = [].
Proof.
  intros Hn. unfold sent_on. induction t as [|e t IH]; [done|]. cbn.
  rewrite IH by (intros ? ? ?; eapply Hn; by right).
  destruct e; try done. exfalso. eapply Hn. by left.
Qed.

Lemma sent_on_own sid p : sent_on sid [ESend sid p] = [p].
Proof. unfold sent_on. cbn. by rewrite Z.eqb_refl. Qed.

Lemma zlen_command reuse : zlen (command_packet reuse) = 53.
Proof. unfold command_packet. by rewrite zlen_app, ss_zlen_wire, zlen_le_bytes. Qed.

(** [OnBytes] hands the packet to the session and its report to [OnDataReady]. *)
Lemma OnBytes_command (reuse : bool) a sid s :
  sessions_ a = [(sid, s)] -> sessionId_ s = sid ->
  OnBytes sid (Some (command_packet reuse)) (zlen (command_packet reuse)) a []
  = mfor [mkReady sid (buffer_of (le_bytes 4 (if reuse then SESSION_REUSE_CMD else SESSION_RELEASE_CMD)))
            (if reuse then DATA_TYPE_SESSION_REUSE else DATA_TYPE_SESSION_RELEASE)]
      (fun ready => do! OnDataReady ready in after_ready sid false) a [].
Proof.
  intros Hs Hid. unfold OnBytes. rewrite zlen_command. change (_ || _) with false. cbv iota.
  unfold find_session, mbind at 1 2, get. cbn [run_bind mret]. rewrite Hs, find_self.
  rewrite make_buffer_ok by done. cbn [data_ rangeOffset_ buffer_of].
  change (Capacity _) with (zlen (zeros 53)). rewrite zlen_zeros by lia.
  pose proof (memcpy_s_copy [] (zeros 53) [] (command_packet reuse) 0 53 0 53 (command_packet reuse)) as Hc.
  rewrite !app_nil_r in Hc. cbn [app] in Hc.
  rewrite Hc; [|by rewrite load_n_ok, slice_all by (rewrite ?zlen_command; lia)|done|done|by_compute].
  cbn [run_bind]. change (negb (EOK =? ERR_OK)) with false. cbv iota.
  rewrite set_data_buffer_of by (rewrite zlen_command; done).
  change ERR_NULL_OBJECT with 7. change (env_junk []) with junk.
  rewrite receive_command, Hid. cbn [run_bind].
  unfold mbind at 1, store_session, modify. cbn [run_bind]. rewrite Hs, assign_self.
  assert (is_fragment s s = false) as -> by (unfold is_fragment; by destruct (isWaiting_ (asm s))).
  assert (set_sessions a [(sid, s)] = a) as -> by (rewrite <- Hs; by destruct a). done.
Qed.

Lemma OnDataReady_reuse a sid s data t :
  sessions_ a = [(sid, s)] ->
  OnDataReady (mkReady sid data DATA_TYPE_SESSION_REUSE) a t
  = Done (tt, set_sessions a [(sid, OnConnect s)], t).
Proof.
  intros Hs. unfold OnDataReady, find_session, mbind, get, mret, store_session, modify.
  cbn [ready_dataType ready_sessionId]. change (DATA_TYPE_SESSION_REUSE =? DATA_TYPE_SESSION_REUSE) with true. cbv iota. cbn [run_bind].
  rewrite Hs, find_self. cbn [run_bind]. by rewrite Hs, assign_self.
Qed.

Lemma OnDataReady_release a sid s data t :
  sessions_ a = [(sid, s)] ->
  exists t', OnDataReady (mkReady sid data DATA_TYPE_SESSION_RELEASE) a t
  = Done (tt, set_sessions a (if refCount_ s - 1 <=? 0 then []
                              else [(sid, set_refCount s (refCount_ s - 1))]), t ++ t') /\
    no_packets t'.
Proof.
  intros Hs. unfold OnDataReady. cbn [ready_dataType ready_sessionId].
  change (DATA_TYPE_SESSION_RELEASE =? DATA_TYPE_SESSION_REUSE) with false.
  change (DATA_TYPE_SESSION_RELEASE =? DATA_TYPE_SESSION_RELEASE) with true. cbv iota.
  unfold find_session, mbind at 1 2, get. cbn [run_bind mret]. rewrite Hs, find_self.
  unfold OnDisconnect, GetRefCount. cbn [refCount_ set_refCount].
  set (s' := set_refCount s (refCount_ s - 1)).
  assert (forall b : bool, (let '(_, s1) := if b then (true, s') else (false, s') in s1) = s') as _ by by intros [].
  destruct (refCount_ s - 1 <=? 0) eqn:E.
  - unfold mbind at 1, store_session, modify. cbn [run_bind]. rewrite Hs, assign_self.
    change (refCount_ s') with (refCount_ s - 1). rewrite E.
    destruct (close_session (set_sessions a [(sid, s')]) sid s' (GetPeerDeviceId s') t) as (t' & -> & Hn);
      [done|]. by exists t'.
  - unfold mbind at 1, store_session, modify. cbn [run_bind]. rewrite Hs, assign_self.
    change (refCount_ s') with (refCount_ s - 1). rewrite E. exists []. rewrite app_nil_r.
    split; [done|by intros ? ? ?%elem_of_nil].
Qed.

Lemma DisconnectDevice_holds a sid s peer :
  sessions_ a = [(sid, s)] -> peerDeviceId_ s = peer -> sid <> 0 ->
  exists t, DisconnectDevice peer a []
  = Done (tt, set_sessions a (if refCount_ s - 1 <=? 0 then []
                              else [(sid, set_refCount s (refCount_ s - 1))]), t) /\
    sent_on sid t = if refCount_ s - 1 <=? 0 then [] else [command_packet false].
Proof.
  intros Hs Hp Hsid. unfold DisconnectDevice, mbind at 1, get. cbn [run_bind].
  rewrite (session_of_self a sid s) by done. rewrite (proj2 (Z.eqb_neq _ _) Hsid).
  unfold OnDisconnect. cbn [refCount_ set_refCount]. set (s' := set_refCount s _).
  destruct (refCount_ s - 1 <=? 0); unfold mbind at 1, store_session, modify; cbn [run_bind];
    rewrite Hs, assign_self.
  - destruct (close_session (set_sessions a [(sid, s')]) sid s' peer []) as (t' & -> & Hn); [done|].
    eexists. split; [done|]. by apply sent_on_none.
  - pose proof (send_command_ok false sid s' (set_sessions a [(sid, s')]) []) as Hsend.
    cbn [app] in Hsend. rewrite Hsend by apply find_self. eexists. split; [done|].
    apply sent_on_own.
Qed.

Lemma ConnectDevice_holds a sid s peer type :
  sessions_ a = [(sid, s)] -> peerDeviceId_ s = peer ->
  ConnectDevice peer type a []
  = Done ((ERR_OK, sid), set_sessions a [(sid, OnConnect s)], [ESend sid (command_packet true)]).
Proof.
  intros Hs Hp. unfold ConnectDevice, mbind at 1, get. cbn [run_bind].
  rewrite (session_of_self a sid s) by done.
  unfold mbind at 1, store_session, modify. cbn [run_bind]. rewrite Hs, assign_self.
  unfold mbind at 1.
  pose proof (send_command_ok true sid (OnConnect s) (set_sessions a [(sid, OnConnect s)]) []) as Hsend.
  cbn [app] in Hsend. by rewrite Hsend by apply find_self.
Qed.

(** What an operation does to the count and to the commands under way. *)
Lemma holds_op e e' ps n cmds :
  holds e n cmds -> end_op e e' ps ->
  closed e' \/ exists n' cmds' out, holds e' n' cmds' /\ ps = map command_packet out /\
    n' + net cmds' - net out = n + net cmds.
Proof.
  intros (s & Hs & Hp & Hid & Hn & Hpos & Hsid & Hin) Hop.
  destruct Hop as [type r a t _ Hrun|a t Hrun|p rest a t Hbox Hrun].
  - rewrite (ConnectDevice_holds _ _ s) in Hrun by done. injection Hrun as <- <- <-.
    right. exists (n + 1), cmds, [true]. rewrite sent_on_own. split_and!; [|done|unfold net; cbn [foldr]; lia].
    exists (OnConnect s). cbn. split_and!; try done; lia.
  - destruct (DisconnectDevice_holds _ _ s (ep_peer e) Hs Hp Hsid) as (t' & Hrun' & Hsent).
    rewrite Hrun in Hrun'. injection Hrun' as -> ->. rewrite Hsent. unfold closed; cbn [ep_adapter].
    destruct (Z.leb_spec (refCount_ s - 1) 0); [by left|].
    right. exists (n - 1), cmds, [false]. split_and!; [|done|unfold net; cbn [foldr]; lia].
    exists (set_refCount s (refCount_ s - 1)). cbn. split_and!; try done; lia.
  - rewrite Hin in Hbox. destruct cmds as [|b cmds]; [done|]. injection Hbox as <- <-.
    rewrite (OnBytes_command b _ _ s) in Hrun by done. cbn [mfor] in Hrun.
    unfold mbind at 1 2 in Hrun. destruct b.
    + rewrite (OnDataReady_reuse _ _ s) in Hrun by done. cbn [run_bind] in Hrun.
      unfold after_ready, find_session, mbind, get, mret in Hrun. cbn [run_bind sessions_ set_sessions] in Hrun.
      rewrite find_self in Hrun. cbn [run_bind] in Hrun. injection Hrun as <- <-. right.
      exists (n + 1), cmds, []. split_and!; [|done|unfold net; cbn [foldr]; lia].
      exists (OnConnect s). cbn. split_and!; try done; lia.
    + destruct (OnDataReady_release (ep_adapter e) (ep_sid e) s
        (buffer_of (le_bytes 4 SESSION_RELEASE_CMD)) [] Hs) as (t' & Hready & Hnp).
      rewrite Hready in Hrun. cbn [run_bind] in Hrun. unfold closed.
      unfold after_ready, find_session, mbind, get, mret in Hrun. cbn [run_bind sessions_ set_sessions] in Hrun.
      destruct (Z.leb_spec (refCount_ s - 1) 0).
      * cbn in Hrun. injection Hrun as <- <-. by left.
      * rewrite find_self in Hrun. cbn [run_bind] in Hrun. injection Hrun as <- <-. right.
        rewrite (sent_on_none _ _ Hnp). exists (n - 1), cmds, []. split_and!; [|done|unfold net; cbn [foldr]; lia].
        exists (set_refCount s (refCount_ s - 1)). cbn. split_and!; try done; lia.
Qed.

Lemma closed_op e e' ps : closed e -> end_op e e' ps -> closed e'.
Proof.
  unfold closed. intros Hc Hop. assert (session_of (ep_adapter e) (ep_peer e) = None) as Hno
    by (unfold session_of; by rewrite Hc).
  destruct Hop as [type r a t Hsome Hrun|a t Hrun|p rest a t Hbox Hrun]; [done| |]; cbn [ep_adapter].
  - unfold DisconnectDevice, mbind, get in Hrun. cbn [run_bind] in Hrun. rewrite Hno in Hrun.
    by injection Hrun as <- _.
  - unfold OnBytes in Hrun. destruct (_ || _); [by injection Hrun as <- _|].
    unfold find_session, mbind, get in Hrun. cbn [run_bind mret] in Hrun. rewrite Hc in Hrun.
    by injection Hrun as <- _.
Qed.

Definition counts_agree (l : Endpoint * Endpoint) : Prop :=
  closed l.1 \/ closed l.2 \/ exists n1 n2 c1 c2,
    holds l.1 n1 c1 /\ holds l.2 n2 c2 /\ n1 + net c1 = n2 + net c2.

Lemma holds_inbox e n c out : holds e n c -> holds (add_inbox e (map command_packet out)) n (c ++ out).
Proof.
  intros (s & ? & ? & ? & ? & ? & ? & Hin). exists s. cbn. rewrite Hin, map_app. by split_and!.
Qed.

Lemma counts_agree_step l l' : counts_agree l -> link_step l l' -> counts_agree l'.
Proof.
  intros Hinv Hstep. destruct Hstep as [e1 e2 e1' ps Hop|e1 e2 e2' ps Hop];
    unfold counts_agree in *; cbn [fst snd] in *;
    destruct Hinv as [Hc|[Hc|(n1 & n2 & c1 & c2 & H1 & H2 & Heq)]].
  - left. by eapply closed_op.
  - right. by left.
  - destruct (holds_op _ _ _ _ _ H1 Hop) as [?|(n1' & c1' & out & H1' & -> & Hn)]; [by left|].
    right. right. exists n1', n2, c1', (c2 ++ out). split_and!; [done|by apply holds_inbox|].
    rewrite net_app. lia.
  - by left.
  - right. left. by eapply closed_op.
  - destruct (holds_op _ _ _ _ _ H2 Hop) as [?|(n2' & c2' & out & H2' & -> & Hn)]; [by right; left|].
    right. right. exists n1, n2', (c1 ++ out), c2'. split_and!; [by apply holds_inbox|done|].
    rewrite net_app. lia.
Qed.
End TwoEnds.

(** *** Opening a session *)

Section Opening.
Context `{Env}.

(** The bind attempts of a trace. *)
Definition binds (t : list Effect) : nat :=
  length (List.filter (fun e => match e with EBind _ _ => true | _ => false end) t).

Lemma binds_app t1 t2 : binds (t1 ++ t2) = (binds t1 + binds t2)%nat.
Proof. unfold binds. by rewrite List.filter_app, length_app. Qed.

Lemma bind_loop_spec fuel sessionId retry a t :
  0 <= retry -> MAX_RETRY_TIMES - retry = Z.of_nat fuel -> (0 < fuel)%nat ->
  exists ret t', bind_loop fuel sessionId retry a t = Done (ret, a, t ++ t') /\
    (1 <= binds t' <= fuel)%nat /\
    (ret = ERR_OK \/ ret <> SOFTBUS_TRANS_PEER_SESSION_NOT_CREATED \/ binds t' = fuel) /\
    (forall s q, EBind s q ∈ t' -> s = sessionId).
Proof.
  change MAX_RETRY_TIMES with 8. revert retry t.
  induction fuel as [|fuel IH]; intros retry t Hr Hf Hpos; [lia|]. cbn [bind_loop QueryValidQos].
  unfold mbind at 1, call. cbn [run_bind].
  match goal with |- context [EBind sessionId ?q] => set (qos := q) end.
  assert (forall s q, EBind s q ∈ [EBind sessionId qos] -> s = sessionId) as Hno
    by by intros s q [= -> ->]%list_elem_of_singleton.
  destruct (Z.eqb_spec (env_Bind t) ERR_OK) as [E|E].
  { eexists _, _. split; [done|]. cbn. split_and!; auto; lia. }
  destruct (Z.eqb_spec (env_Bind t) SOFTBUS_TRANS_PEER_SESSION_NOT_CREATED) as [E'|E']; cbn [negb].
  2:{ eexists _, _. split; [done|]. cbn. split_and!; auto; lia. }
  unfold MAX_BIND_RETRY_TIME, BIND_RETRY_INTERVAL. bool_lia. unfold mbind, emit. cbn [run_bind].
  set (u := EUsleep _). change MAX_RETRY_TIMES with 8. split_guard; guards_to_prop.
  - destruct (IH (retry + 1) ((t ++ [EBind sessionId qos]) ++ [u])) as (ret & t' & -> & Hb & Hret & Hs);
      [lia..|]. exists ret, (EBind sessionId qos :: u :: t'). rewrite <- !app_assoc.
    assert (binds (EBind sessionId qos :: u :: t') = S (binds t')) as -> by done.
    split_and!; [done|lia|lia|destruct Hret as [?|[?|?]]; auto|].
    intros s q [[= -> ->]|[|?%Hs]%elem_of_cons]%elem_of_cons; done.
  - eexists _, [EBind sessionId qos; u]. rewrite <- app_assoc. cbn [app].
    assert (binds [EBind sessionId qos; u] = 1%nat) as -> by done.
    split_and!; [done|lia|lia|right; right; lia|].
    intros s q [[= -> ->]|[|?%elem_of_nil]%elem_of_cons]%elem_of_cons; done.
Qed.

Lemma CreateSessionRecord_spec sid peer srv type a t :
  exists ret a' t', CreateSessionRecord sid peer srv type a t = Done (ret, a', t ++ t') /\
    (ret <> ERR_OK -> a' = a) /\ (forall s q, ~ EBind s q ∈ t') /\
    (ret = ERR_OK -> exists dev, env_LocalDeviceId t = Some dev /\
       a' = set_sessions a (map_assign (sessions_ a) sid
              (new_session (mkSessionInfo sid dev peer SOCKET_DMS_SESSION_NAME srv)))).
Proof.
  unfold CreateSessionRecord, mbind at 1, call. cbn [run_bind].
  destruct (env_LocalDeviceId t) as [dev|] eqn:E.
  - unfold mbind, store_session, modify, mret. cbn [run_bind].
    eexists _, _, _. split; [done|]. split; [done|]. split; [|by intros _; exists dev].
    by intros s q ?%list_elem_of_singleton.
  - unfold mbind, ShutdownSession, emit, mret. cbn [run_bind]. rewrite <- app_assoc.
    eexists _, _, _. split; [done|]. split; [done|]. split; [|done]. cbn [app].
    by intros s q [|[|?%elem_of_nil]%elem_of_cons]%elem_of_cons.
Qed.
End Opening.

(** ** Properties *)

(** A new session, as both ends make it when a socket is bound. *)
Definition fresh_end (a : Adapter) (info : SessionInfo) : Endpoint :=
  mkEndpoint (set_sessions a [(info_sessionId info, new_session info)]) (info_sessionId info)
    (info_peerDeviceId info) [].

(** C39 Both ends of a shared session count its users alike.  However connects and
    disconnects on the two devices and the delivery of their messages interleave,
    whenever nothing is under way and both ends still have the session, their
    reference counts are equal and positive. *)
Theorem session_counts_agree (m : Z) (junk : SessionDataHeader) (a1 a2 : Adapter)
    (i1 i2 : SessionInfo) (e1 e2 : Endpoint) (s1 s2 : Session) :
  BINARY_DATA_PACKET_RESERVED_BUFFER < m < DSCHED_MAX_BUFFER_SIZE - 49 ->
  info_sessionId i1 <> 0 -> info_sessionId i2 <> 0 ->
  rtc (link_step m junk) (fresh_end a1 i1, fresh_end a2 i2) (e1, e2) ->
  ep_inbox e1 = [] -> ep_inbox e2 = [] ->
  map_find (sessions_ (ep_adapter e1)) (ep_sid e1) = Some s1 ->
  map_find (sessions_ (ep_adapter e2)) (ep_sid e2) = Some s2 ->
  GetRefCount s1 = GetRefCount s2 /\ 1 <= GetRefCount s1.
Proof.
  intros Hm Hi1 Hi2 Hrtc Hin1 Hin2 Hf1 Hf2.
  assert (counts_agree (e1, e2)) as Hinv.
  { revert Hrtc. apply (rtc_ind_r (fun l => counts_agree l)).
    - right. right. exists 1, 1, [], []. split_and!; [| |done]; by eexists.
    - intros l l' _ Hstep ?. by eapply counts_agree_step. }
  destruct Hinv as [Hc|[Hc|(n1 & n2 & c1 & c2 & H1 & H2 & Heq)]]; unfold closed in *; cbn [fst snd] in *;
    [by rewrite Hc in Hf1|by rewrite Hc in Hf2|].
  destruct H1 as (s & Hs & _ & _ & Hn & Hpos & _ & Hbox). rewrite Hs, find_self in Hf1.
  injection Hf1 as <-. rewrite Hin1 in Hbox. destruct c1; [|done].
  destruct H2 as (s' & Hs' & _ & _ & Hn' & _ & _ & Hbox'). rewrite Hs', find_self in Hf2.
  injection Hf2 as <-. rewrite Hin2 in Hbox'. destruct c2; [|done].
  unfold GetRefCount, net in *. cbn [foldr] in *. lia.
Qed.

Definition near_info : SessionInfo := mkSessionInfo 3 "A" "B" SOCKET_DMS_SESSION_NAME false.
Definition far_info : SessionInfo := mkSessionInfo 8 "B" "A" SOCKET_DMS_SESSION_NAME true.

(** A second user on the near device; its message reaches the far one. *)
Definition shared_end (info : SessionInfo) : Endpoint :=
  mkEndpoint (set_sessions init_adapter [(info_sessionId info, OnConnect (new_session info))])
    (info_sessionId info) (info_peerDeviceId info) [].

Lemma shared_reachable :
  rtc (link_step 1000 zero_header) (fresh_end init_adapter near_info, fresh_end init_adapter far_info)
    (shared_end near_info, shared_end far_info).
Proof.
  eapply rtc_l; [|eapply rtc_l; [|apply rtc_refl]].
  - apply near_step. apply (op_connect 1000 zero_header _ SERVICE_TYPE_CONTINUE
      (ERR_OK, 3) (ep_adapter (shared_end near_info)) [ESend 3 (command_packet true)]).
    + vm_compute. discriminate.
    + vm_compute. reflexivity.
  - change (shared_end near_info) with (add_inbox (shared_end near_info) (sent_on 8 [])) at 2.
    apply far_step. apply (op_deliver 1000 zero_header
      (add_inbox (fresh_end init_adapter far_info) [command_packet true]) (command_packet true) []
      (ep_adapter (shared_end far_info)) []).
    + vm_compute. reflexivity.
    + vm_compute. reflexivity.
Qed.

Lemma session_counts_agree_witness :
  exists s1 s2, GetRefCount s1 = 2 /\ GetRefCount s1 = GetRefCount s2 /\ 1 <= GetRefCount s1.
Proof.
  exists (OnConnect (new_session near_info)), (OnConnect (new_session far_info)). split; [done|].
  apply (session_counts_agree 1000 zero_header init_adapter init_adapter near_info far_info
    (shared_end near_info) (shared_end far_info)); try reflexivity; try discriminate.
  - unfold BINARY_DATA_PACKET_RESERVED_BUFFER, DSCHED_MAX_BUFFER_SIZE; by_compute.
  - apply shared_reachable.
Defined.

(** Binding a socket always comes to an end: one to eight attempts are made, and
    the loop stops early only on success or on an error other than a missing peer. *)
Theorem ServiceBind_terminates `{Env} (sessionId : Z) (a : Adapter) (t : list Effect) :
  exists ret t', ServiceBind sessionId a t = Done (ret, a, t ++ t') /\
    (1 <= binds t' <= 8)%nat /\
    (ret = ERR_OK \/ ret <> SOFTBUS_TRANS_PEER_SESSION_NOT_CREATED \/ binds t' = 8%nat).
Proof.
  unfold ServiceBind. change (Z.to_nat MAX_RETRY_TIMES) with 8%nat.
  destruct (bind_loop_spec 8 sessionId 0 a t) as (ret & t' & Hrun & Hb & Hret & _); [lia|done|lia|].
  by exists ret, t'.
Qed.

(** A connection that fails leaves no session behind and no socket open: the
    table is as it was, the socket that was made is shut down, and the caller gets
    no session id; one that succeeds enters exactly one session for the device. *)
Theorem ConnectDevice_fails_clean `{Env} (peer : string) (type : ServiceType) (a : Adapter) (t : list Effect) :
  session_of a peer = None ->
  exists ret sid a' t', ConnectDevice peer type a t = Done ((ret, sid), a', t ++ t') /\
    (ret <> ERR_OK -> sessions_ a' = sessions_ a /\ sid <= 0 /\
       (forall s q, EBind s q ∈ t' -> EShutdown s ∈ t')) /\
    (ret = ERR_OK -> 0 < sid /\ exists dev, sessions_ a' = map_assign (sessions_ a) sid
       (new_session (mkSessionInfo sid dev peer SOCKET_DMS_SESSION_NAME false))).
Proof.
  intros Hno. unfold ConnectDevice, mbind at 1, get. cbn [run_bind]. rewrite Hno.
  unfold mbind at 1.
  assert (exists need t0, IsNeedAllConnect type a t = Done (need, a, t ++ t0) /\
    (forall s q, ~ EBind s q ∈ t0)) as (need & t0 & -> & Ht0).
  { destruct type; unfold IsNeedAllConnect, mret; try (exists false, []; rewrite app_nil_r;
      split; [done|by intros ? ? ?%elem_of_nil]).
    unfold mbind, get. cbn [run_bind]. destruct (isAllConnectExist_ a); unfold call, mret.
    - eexists _, _. split; [done|]. by intros s q ?%list_elem_of_singleton.
    - eexists _, []. rewrite app_nil_r. split; [done|by intros ? ? ?%elem_of_nil]. }
  cbn [run_bind]. assert (negb ((if need then DecisionByAllConnect else ERR_OK) =? ERR_OK) = false) as ->
    by by destruct need.
  unfold AddNewPeerSession, CreateClientSocket, mbind at 1, call. cbn [run_bind].
  set (sid := env_Socket (t ++ t0)). set (t1 := (t ++ t0) ++ [ESocket (Some peer)]).
  destruct (Z.leb_spec sid 0) as [Hsid|Hsid].
  { unfold mret. eexists _, _, _, _. split; [unfold t1; by rewrite <- app_assoc|].
    split; [|done]. intros _. split_and!; [done|done|].
    by intros s q [?%Ht0|?%list_elem_of_singleton]%elem_of_app. }
  unfold mbind at 1 2 3, get, emit, modify. cbn [run_bind].
  set (a1 := set_callingTokenId a 0). set (t2 := t1 ++ [ESetFirstCallerTokenID (callingTokenId_ a)]).
  unfold ServiceBind, mbind at 1. change (Z.to_nat MAX_RETRY_TIMES) with 8%nat.
  destruct (bind_loop_spec 8 sid 0 a1 t2) as (ret & t3 & -> & _ & _ & Hb); [lia|done|lia|].
  cbn [run_bind]. unfold mbind at 1.
  assert (exists ret' a' t4, (if negb (ret =? ERR_OK) then mret ret
      else CreateSessionRecord sid peer false type) a1 (t2 ++ t3) = Done (ret', a', (t2 ++ t3) ++ t4) /\
    (ret' <> ERR_OK -> a' = a1) /\ (forall s q, ~ EBind s q ∈ t4) /\
    (ret' = ERR_OK -> exists dev, a' = set_sessions a1 (map_assign (sessions_ a1) sid
       (new_session (mkSessionInfo sid dev peer SOCKET_DMS_SESSION_NAME false)))))
    as (ret' & a' & t4 & -> & Hfail & Hb4 & Hok).
  { destruct (Z.eqb_spec ret ERR_OK) as [->|]; cbn [negb].
    - destruct (CreateSessionRecord_spec sid peer false type a1 (t2 ++ t3))
        as (r & a' & t4 & -> & ? & ? & Hdev). eexists _, _, _. split_and!; try done.
      intros Hr. destruct (Hdev Hr) as (dev & _ & ?). by exists dev.
    - unfold mret. eexists _, _, []. rewrite app_nil_r. split_and!; try done.
      by intros s q ?%elem_of_nil. }
  cbn [run_bind]. destruct (Z.eqb_spec ret' ERR_OK) as [E|E]; cbn [negb]; unfold mret.
  - eexists _, _, _, (t0 ++ [ESocket (Some peer)] ++ [ESetFirstCallerTokenID (callingTokenId_ a)]
      ++ t3 ++ t4). split; [unfold t2, t1; by rewrite <- !app_assoc|]. split; [done|].
    intros _. split; [done|]. destruct (Hok E) as (dev & ->). by exists dev.
  - unfold mbind, ShutdownSession, emit. cbn [run_bind].
    eexists _, _, _, (t0 ++ [ESocket (Some peer)] ++ [ESetFirstCallerTokenID (callingTokenId_ a)]
      ++ t3 ++ t4 ++ [EShutdown sid]). split; [unfold t2, t1; by rewrite <- !app_assoc|].
    split; [|done]. intros _. rewrite (Hfail E). split_and!; [done|done|].
    intros s q Hin. rewrite !elem_of_app in Hin. assert (s = sid) as ->;
      [|by rewrite !elem_of_app; do 5 right; left].
    destruct Hin as [?%Ht0|[?%list_elem_of_singleton|[?%list_elem_of_singleton|[?%Hb|[?%Hb4|?%list_elem_of_singleton]]]]];
      done.
Qed.

(** An environment in which the second bind attempt is refused. *)
Definition refusing_env : Env := {|
  env_Socket := fun _ => 9;
  env_Listen := fun _ => 0;
  env_Bind := fun t => if (binds t =? 0)%nat then -3 else -4;
  env_SendBytes := fun _ => SOFTBUS_OK;
  env_GetSessionOption := fun _ _ => (ERR_OK, 1000);
  env_LocalDeviceId := fun _ => None;
  env_IsWifiActive := fun _ => true;
  env_junk := fun _ => zero_header;
  SOFTBUS_TRANS_PEER_SESSION_NOT_CREATED := -3;
  ERR_NULL_OBJECT := 7
|}.

Lemma ConnectDevice_fails_clean_witness :
  exists ret sid a' t',
    @ConnectDevice refusing_env "B" SERVICE_TYPE_CONTINUE init_adapter [] = Done ((ret, sid), a', [] ++ t') /\
    (ret <> ERR_OK -> sessions_ a' = sessions_ init_adapter /\ sid <= 0 /\
       (forall s q, EBind s q ∈ t' -> EShutdown s ∈ t')) /\
    (ret = ERR_OK -> 0 < sid /\ exists dev, sessions_ a' = map_assign (sessions_ init_adapter) sid
       (new_session (mkSessionInfo sid dev "B" SOCKET_DMS_SESSION_NAME false))).
Proof. apply (@ConnectDevice_fails_clean refusing_env "B" SERVICE_TYPE_CONTINUE init_adapter []). reflexivity. Defined.

(** The two fragments of a release message. *)
Definition release_start : bytes :=
  wire (mkHeader PROTOCOL_VERSION FRAG_START DATA_TYPE_SESSION_RELEASE 0 4 0 2) ++ [11; 0].
Definition release_end : bytes :=
  wire (mkHeader PROTOCOL_VERSION FRAG_END DATA_TYPE_SESSION_RELEASE 0 4 1 2) ++ [0; 0].

(** A peer can make the adapter use a session it has freed: when the last
    reference is released by a message that arrives in fragments, [OnDataReady]
    erases the session whose [AssembleFrag] is still running and then resets it. *)
Theorem fragmented_release_uses_freed_session :
  let e := fresh_end init_adapter far_info in
  let run := @OnBytes (quiet_env 1000 zero_header) in
  exists a t, run 8 (Some release_start) (zlen release_start) (ep_adapter e) [] = Done (tt, a, t) /\
    run 8 (Some release_end) (zlen release_end) a t = Undefined.
Proof.
  exists (set_sessions init_adapter [(8, set_asm (new_session far_info)
    (mkAssembly (Some (buffer_of [11; 0; 0; 0])) true 0 0 2 4))]), [].
  split; vm_compute; reflexivity.
Qed.
