(* ===== verification/MissionConditions.v ===== *)
(** * When a mission is offered to other devices

    services/dtbschedmgr/src/mission/dms_continue_condition_manager.cpp: the missions of
    every user with the focus and the continue state of each, the switches of the system,
    and the conditions under which an event of a mission is told to other devices.

    The state is [Conditions]; [initialised_] says whether Init has filled the tables of
    functions, which are empty before.  The ability manager, the bundle store, the rules of
    the device's owner and the switches are answers of the environment ([ConditionEnv]).
    The build's default is modelled: DMS_CHECK_WIFI is set, DMS_CHECK_BLUETOOTH is not.
    [TypeEnumToString], which only names events in logs, is not modelled. *)

From Stdlib Require Import ZArith Lia String.
From stdpp Require Import base list option.
From S2P Require Import Prelude ErrorCodes DataBuffer StdMap StdString Effects.
Import ErrorCodes.Dms.

(** ** Data *)

Definition CONDITION_INVALID_MISSION_ID : Z := -1.
Definition VIRTUAL_SCREEN_ID_THRESHOLD : Z := 1000.
Definition SUPER_LAUNCHER_SERVICE_NAME : bytes := str "SuperLauncher".
Definition SUPER_LAUNCHER_DUAL_SERVICE_NAME : bytes := str "SuperLauncher-Dual".

(** [AAFwk::ContinueState]. *)
Inductive ContinueState := CONTINUESTATE_UNKNOWN | CONTINUESTATE_ACTIVE | CONTINUESTATE_INACTIVE.

Inductive MissionEventType :=
| MISSION_EVENT_INVALID | MISSION_EVENT_FOCUSED | MISSION_EVENT_UNFOCUSED | MISSION_EVENT_DESTORYED
| MISSION_EVENT_BACKGROUND | MISSION_EVENT_ACTIVE | MISSION_EVENT_INACTIVE | MISSION_EVENT_TIMEOUT
| MISSION_EVENT_MMI | MISSION_EVENT_CONTINUE_SWITCH_OFF | MISSION_EVENT_MAX.

Inductive SysEventType :=
| SYS_EVENT_INVALID | SYS_EVENT_CONTINUE_SWITCH | SYS_EVENT_WIFI | SYS_EVENT_BLUETOOTH | SYS_EVENT_SCREEN_LOCK
| SYS_EVENT_MAX.

#[export] Instance ContinueState_eq_dec : EqDecision ContinueState.
Proof. solve_decision. Defined.
#[export] Instance MissionEventType_eq_dec : EqDecision MissionEventType.
Proof. solve_decision. Defined.

Record MissionStatus := mkMissionStatus {
  accountId : Z;
  missionId : Z;
  bundleName : bytes;
  moduleName : bytes;
  abilityName : bytes;
  isContinuable : bool;
  launchFlag : Z;
  isFocused : bool;
  continueState : ContinueState
}.

Definition set_isFocused (x : bool) (s : MissionStatus) : MissionStatus :=
  mkMissionStatus (accountId s) (missionId s) (bundleName s) (moduleName s) (abilityName s) (isContinuable s)
    (launchFlag s) x (continueState s).
Definition set_continueState (x : ContinueState) (s : MissionStatus) : MissionStatus :=
  mkMissionStatus (accountId s) (missionId s) (bundleName s) (moduleName s) (abilityName s) (isContinuable s)
    (launchFlag s) (isFocused s) x.

(** What the code reads of an [AAFwk::MissionInfo]. *)
Record MissionInfo := mkMissionInfo {
  info_id : Z;
  info_bundleName : bytes;
  info_moduleName : bytes;
  info_abilityName : bytes;
  info_continuable : bool;
  info_flags : Z;
  info_continueState : ContinueState
}.

(** What [SetMissionStatus] writes. *)
Definition no_mission : MissionStatus := mkMissionStatus 0 0 [] [] [] false 0 false CONTINUESTATE_UNKNOWN.

(** [ContinueRecommendInfo]: a candidate is a device and a bundle on it. *)
Record RecommendInfo := mkRecommendInfo {
  state_ : Z;
  srcBundleName_ : bytes;
  continueType_ : bytes;
  userId_ : Z;
  candidates_ : list (bytes * bytes)
}.

(** What conditions and notifications ask of their surroundings and do there. *)
Inductive Effect :=
| Query
| EventSubscribed
| EventUnSubscribed
| BlacklistUpdated
| MMIListenerAdded
| MMIListenerRemoved (monitorId : Z)
| SoftbusEventSent (buffer : DataBuffer) (accountId : bytes)
| RecommendPublished (info : RecommendInfo)
| TerminateContinuation (missionId : Z)
| AccidentalContinuation (bundleName : bytes)
| ContinuationsStarted
| ContinuationsStopped
| RecvContinueSwitchOff.

Class ConditionEnv := {
  IsCurrentContinueSwitchOn : list Effect -> bool;
  IsWifiActive : list Effect -> bool;
  GetForegroundUser : list Effect -> Z;
  GetCurrentMissionId : list Effect -> Z;
  (** The ability manager's missions, or one of them. *)
  GetMissionInfos : list Effect -> Z * list MissionInfo;
  GetMissionInfo : list Effect -> Z -> Z * MissionInfo;
  (** The display of a mission. *)
  GetMissionDisplay : list Effect -> Z -> option Z;
  QueryAllServiceStateContext : list Effect -> list bytes;
  (** The version code of a bundle that the store knows. *)
  GetBundleVersionCode : list Effect -> bytes -> option Z;
  IsBlacklisted : list Effect -> bytes -> Z -> bool;
  CheckMDMCtrlRule : list Effect -> bytes -> bool;
  (** An [isFocused] that nothing has written, and the enumerator with value 0. *)
  junk_isFocused : list Effect -> Z -> bool;
  zero_continueState : ContinueState
}.

Record Conditions := mkConditions {
  initialised_ : bool;
  isSwitchOn_ : bool;
  isWifiActive_ : bool;
  isBtActive_ : bool;
  isScreenLocked_ : bool;
  isOnBlacklist_ : bool;
  missionMap_ : std_map Z (std_map Z MissionStatus);
  lastContinuableMissionStatus_ : MissionStatus
}.

Definition set_initialised (c : Conditions) : Conditions :=
  mkConditions true (isSwitchOn_ c) (isWifiActive_ c) (isBtActive_ c) (isScreenLocked_ c) (isOnBlacklist_ c)
    (missionMap_ c) (lastContinuableMissionStatus_ c).
Definition set_isSwitchOn (x : bool) (c : Conditions) : Conditions :=
  mkConditions (initialised_ c) x (isWifiActive_ c) (isBtActive_ c) (isScreenLocked_ c) (isOnBlacklist_ c)
    (missionMap_ c) (lastContinuableMissionStatus_ c).
Definition set_isWifiActive (x : bool) (c : Conditions) : Conditions :=
  mkConditions (initialised_ c) (isSwitchOn_ c) x (isBtActive_ c) (isScreenLocked_ c) (isOnBlacklist_ c)
    (missionMap_ c) (lastContinuableMissionStatus_ c).
Definition set_isBtActive (x : bool) (c : Conditions) : Conditions :=
  mkConditions (initialised_ c) (isSwitchOn_ c) (isWifiActive_ c) x (isScreenLocked_ c) (isOnBlacklist_ c)
    (missionMap_ c) (lastContinuableMissionStatus_ c).
Definition set_isScreenLocked (x : bool) (c : Conditions) : Conditions :=
  mkConditions (initialised_ c) (isSwitchOn_ c) (isWifiActive_ c) (isBtActive_ c) x (isOnBlacklist_ c)
    (missionMap_ c) (lastContinuableMissionStatus_ c).
Definition set_isOnBlacklist (x : bool) (c : Conditions) : Conditions :=
  mkConditions (initialised_ c) (isSwitchOn_ c) (isWifiActive_ c) (isBtActive_ c) (isScreenLocked_ c) x
    (missionMap_ c) (lastContinuableMissionStatus_ c).
Definition set_missionMap (x : std_map Z (std_map Z MissionStatus)) (c : Conditions) : Conditions :=
  mkConditions (initialised_ c) (isSwitchOn_ c) (isWifiActive_ c) (isBtActive_ c) (isScreenLocked_ c)
    (isOnBlacklist_ c) x (lastContinuableMissionStatus_ c).
Definition set_lastContinuable (x : MissionStatus) (c : Conditions) : Conditions :=
  mkConditions (initialised_ c) (isSwitchOn_ c) (isWifiActive_ c) (isBtActive_ c) (isScreenLocked_ c)
    (isOnBlacklist_ c) (missionMap_ c) x.

Section Operations.
Context {Ev : ConditionEnv}.

(** A status of zeros, as [operator[]] of a map makes it. *)
Definition zero_status : MissionStatus := mkMissionStatus 0 0 [] [] [] false 0 false zero_continueState.

Definition Conditions_new : Conditions := mkConditions false false false false false false [] zero_status.

Definition Cn (A : Type) : Type := M Conditions Effect A.

Definition ask {A} (oracle : list Effect -> A) : Cn A := call Query oracle.

(** ** The missions *)

(** [missionMap_[accountId]], empty when the user has no entry. *)
Definition missions (c : Conditions) (account : Z) : std_map Z MissionStatus :=
  match map_find (missionMap_ c) account with Some l => l | None => [] end.

Definition set_missions (account : Z) (l : std_map Z MissionStatus) (c : Conditions) : Conditions :=
  set_missionMap (map_assign (missionMap_ c) account l) c.

Definition IsMissionStatusExistLocked (c : Conditions) (account mission : Z) : bool :=
  map_count (missionMap_ c) account && map_count (missions c account) mission.

(** [missionMap_[accountId][missionId]] is changed. *)
Definition on_status (account mission : Z) (f : MissionStatus -> MissionStatus) (c : Conditions) : Conditions :=
  match map_find (missions c account) mission with
  | Some s => set_missions account (map_assign (missions c account) mission (f s)) c
  | None => c
  end.

(** [focused] stands for the member that the function leaves alone. *)
Definition ConvertToMissionStatus (missionInfo : MissionInfo) (account : Z) (focused : bool) : MissionStatus :=
  mkMissionStatus account (info_id missionInfo) (info_bundleName missionInfo) (info_moduleName missionInfo)
    (info_abilityName missionInfo) (info_continuable missionInfo) (info_flags missionInfo) focused
    (info_continueState missionInfo).

Definition clean_focus (mission : Z) (e : Z * MissionStatus) : Z * MissionStatus :=
  if negb (e.1 =? mission) && isFocused e.2 then (e.1, set_isFocused false e.2) else e.

Definition CleanLastFocusedFlagLocked (account mission : Z) (c : Conditions) : Conditions :=
  set_missions account (map (clean_focus mission) (missions c account)) c.

(** The list of a user's missions; the flag of focus is set for one mission only. *)
Definition mission_list (junk : Z -> bool) (account focused : Z) (infos : list MissionInfo) : std_map Z MissionStatus :=
  let l := fold_left (fun l i => map_assign l (info_id i) (ConvertToMissionStatus i account (junk (info_id i)))) infos [] in
  match map_find l focused with
  | Some s => if 0 <? focused then map_assign l focused (set_isFocused true s) else l
  | None => l
  end.

Definition InitMissionStatus (account : Z) : Cn unit :=
  let! (_, infos) := ask GetMissionInfos in
  let! focused := ask GetCurrentMissionId in
  let! c := get in
  if map_count (missionMap_ c) account then mret tt
  else
    let! junk := ask junk_isFocused in
    modify (fun c => set_lastContinuable no_mission (set_missions account (mission_list junk account focused infos) c)).

Definition OnMissionFocused (account mission : Z) : Cn Z :=
  let! (ret, info) := ask (fun t => GetMissionInfo t mission) in
  if negb (ret =? ERR_OK) then mret ret
  else
    do! modify (fun c =>
      let c := CleanLastFocusedFlagLocked account mission c in
      set_missions account (map_assign (missions c account) mission (ConvertToMissionStatus info account true)) c) in
    mret ERR_OK.

Definition OnMissionUnfocused (account mission : Z) : Cn Z :=
  let! c := get in
  if negb (IsMissionStatusExistLocked c account mission) then mret CONDITION_INVALID_MISSION_ID
  else do! modify (on_status account mission (set_isFocused false)) in mret ERR_OK.

Definition OnMissionBackground (account mission : Z) : Cn Z := OnMissionUnfocused account mission.

Definition OnMissionDestory (account mission : Z) : Cn Z :=
  let! c := get in
  if negb (IsMissionStatusExistLocked c account mission) then mret ERR_OK
  else do! modify (fun c => set_missions account (map_erase (missions c account) mission) c) in mret ERR_OK.

Definition set_state_if_known (x : ContinueState) (account mission : Z) : Cn Z :=
  let! c := get in
  if negb (IsMissionStatusExistLocked c account mission) then mret ERR_OK
  else do! modify (on_status account mission (set_continueState x)) in mret ERR_OK.

Definition OnMissionActive (account mission : Z) : Cn Z := set_state_if_known CONTINUESTATE_ACTIVE account mission.
Definition OnMissionInactive (account mission : Z) : Cn Z := set_state_if_known CONTINUESTATE_INACTIVE account mission.

(** [missionFuncMap_]. *)
Definition missionFuncMap_ (type : MissionEventType) : option (Z -> Z -> Cn Z) :=
  match type with
  | MISSION_EVENT_FOCUSED => Some OnMissionFocused
  | MISSION_EVENT_UNFOCUSED => Some OnMissionUnfocused
  | MISSION_EVENT_DESTORYED => Some OnMissionDestory
  | MISSION_EVENT_BACKGROUND => Some OnMissionBackground
  | MISSION_EVENT_ACTIVE => Some OnMissionActive
  | MISSION_EVENT_INACTIVE => Some OnMissionInactive
  | _ => None
  end.

Definition UpdateMissionStatus (account mission : Z) (type : MissionEventType) : Cn Z :=
  let! c := get in
  if negb (map_count (missionMap_ c) account) then mret INVALID_PARAMETERS_ERR
  else
    match missionFuncMap_ type with
    | Some f => if initialised_ c then f account mission else mret INVALID_PARAMETERS_ERR
    | None => mret INVALID_PARAMETERS_ERR
    end.

Definition OnUserSwitched (account : Z) : Cn unit := InitMissionStatus account.

Definition OnUserRemoved (account : Z) : Cn unit :=
  let! c := get in
  match missionMap_ c with
  | [] => mret tt
  | _ => modify (fun c => set_lastContinuable no_mission (set_missionMap (map_erase (missionMap_ c) account) c))
  end.

(** ** The system *)

(** [sysFuncMap_]. *)
Definition sysFuncMap_ (type : SysEventType) : option (bool -> Conditions -> Conditions) :=
  match type with
  | SYS_EVENT_CONTINUE_SWITCH => Some set_isSwitchOn
  | SYS_EVENT_WIFI => Some set_isWifiActive
  | SYS_EVENT_BLUETOOTH => Some set_isBtActive
  | SYS_EVENT_SCREEN_LOCK => Some set_isScreenLocked
  | _ => None
  end.

Definition UpdateSystemStatus (type : SysEventType) (value : bool) : Cn Z :=
  let! c := get in
  match sysFuncMap_ type with
  | Some f => if initialised_ c then do! modify (f value) in mret ERR_OK else mret INVALID_PARAMETERS_ERR
  | None => mret INVALID_PARAMETERS_ERR
  end.

Definition InitSystemCondition : Cn unit :=
  do! emit EventSubscribed in
  do! emit BlacklistUpdated in
  let! on := ask IsCurrentContinueSwitchOn in
  do! modify (set_isSwitchOn on) in
  let! wifi := ask IsWifiActive in
  modify (set_isWifiActive wifi).

Definition InitMissionCondition : Cn unit :=
  let! account := ask GetForegroundUser in
  InitMissionStatus account.

Definition Init : Cn unit :=
  do! modify set_initialised in
  do! InitSystemCondition in
  InitMissionCondition.

Definition UnInit : Cn unit :=
  do! emit EventUnSubscribed in
  modify (set_missionMap []).

(** ** Conditions *)

Definition CheckBlacklist (status : MissionStatus) : Cn bool :=
  let! version := ask (fun t => GetBundleVersionCode t (bundleName status)) in
  match version with
  | None => mret false
  | Some v => ask (fun t => IsBlacklisted t (bundleName status) v)
  end.

Definition CheckVirtualScreenScenario (status : MissionStatus) : Cn bool :=
  let! display := ask (fun t => GetMissionDisplay t (missionId status)) in
  match display with
  | None => mret false
  | Some id =>
    if VIRTUAL_SCREEN_ID_THRESHOLD <=? id then
      let! services := ask QueryAllServiceStateContext in
      mret (existsb (fun s => bytes_eqb s SUPER_LAUNCHER_SERVICE_NAME || bytes_eqb s SUPER_LAUNCHER_DUAL_SERVICE_NAME)
        services)
    else mret false
  end.

Definition CheckSystemSendCondition (status : MissionStatus) : Cn bool :=
  let! listed := CheckBlacklist status in
  do! modify (set_isOnBlacklist listed) in
  let! c := get in
  if negb (isSwitchOn_ c) then mret false
  else if negb (isWifiActive_ c) then mret false
  else if isOnBlacklist_ c then mret false
  else
    let! virtual_screen := CheckVirtualScreenScenario status in
    mret (negb virtual_screen).

(** The rules of the device's owner, the last condition of every event. *)
Definition not_controlled (status : MissionStatus) : Cn bool :=
  let! controlled := ask (fun t => CheckMDMCtrlRule t (bundleName status)) in
  mret (negb controlled).

Definition is_active (status : MissionStatus) : bool := bool_decide (continueState status = CONTINUESTATE_ACTIVE).

Definition CheckSendBackgroundCondition (status : MissionStatus) : Cn bool :=
  if negb (isContinuable status) then mret false
  else if negb (is_active status) then mret false
  else not_controlled status.

Definition CheckSendFocusedCondition (status : MissionStatus) : Cn bool :=
  let! ok := CheckSendBackgroundCondition status in
  if (ok : bool) then do! modify (set_lastContinuable status) in mret true else mret false.

Definition CheckSendUnfocusedCondition (status : MissionStatus) : Cn bool :=
  if negb (isFocused status) then mret false else CheckSendBackgroundCondition status.

Definition CheckSendActiveCondition (status : MissionStatus) : Cn bool :=
  if negb (isFocused status) then mret false
  else if negb (isContinuable status) then mret false
  else
    let! ok := not_controlled status in
    if (ok : bool) then do! modify (set_lastContinuable status) in mret true else mret false.

(** The first focused mission of a user. *)
Definition focused_entry (c : Conditions) (account : Z) : option (Z * MissionStatus) :=
  List.find (fun e => isFocused e.2) (missions c account).

Definition GetCurrentFocusedMission (account : Z) : Cn Z :=
  let! c := get in
  mret (match focused_entry c account with Some e => e.1 | None => CONDITION_INVALID_MISSION_ID end).

(** The overload that gives the status too; without one only [missionId] is written. *)
Definition GetFocusedMissionStatus (account : Z) : Cn (Z * option MissionStatus) :=
  let! c := get in
  mret (match focused_entry c account with
    | Some e => (e.1, Some e.2)
    | None => (CONDITION_INVALID_MISSION_ID, None)
    end).

Definition CheckSendInactiveCondition (status : MissionStatus) : Cn bool :=
  let! (_, current) := GetFocusedMissionStatus (accountId status) in
  let other := match current with
    | Some f => negb (missionId f =? CONDITION_INVALID_MISSION_ID) && isContinuable f && negb (missionId f =? missionId status)
    | None => false
    end in
  if other then mret false
  else if negb (isContinuable status) then mret false
  else not_controlled status.

Definition CheckSendContinueSwitchOffCondition (status : MissionStatus) : Cn bool := CheckSendBackgroundCondition status.

(** [conditionFuncMap_]. *)
Definition conditionFuncMap_ (type : MissionEventType) : option (MissionStatus -> Cn bool) :=
  match type with
  | MISSION_EVENT_FOCUSED => Some CheckSendFocusedCondition
  | MISSION_EVENT_UNFOCUSED => Some CheckSendUnfocusedCondition
  | MISSION_EVENT_DESTORYED => Some CheckSendBackgroundCondition
  | MISSION_EVENT_BACKGROUND => Some CheckSendBackgroundCondition
  | MISSION_EVENT_ACTIVE => Some CheckSendActiveCondition
  | MISSION_EVENT_INACTIVE => Some CheckSendInactiveCondition
  | MISSION_EVENT_TIMEOUT => Some CheckSendBackgroundCondition
  | MISSION_EVENT_MMI => Some CheckSendFocusedCondition
  | MISSION_EVENT_CONTINUE_SWITCH_OFF => Some CheckSendContinueSwitchOffCondition
  | _ => None
  end.

Definition CheckMissionSendCondition (status : MissionStatus) (type : MissionEventType) : Cn bool :=
  let! c := get in
  match conditionFuncMap_ type with
  | Some f => if initialised_ c then f status else mret false
  | None => mret false
  end.

(** ** Queries *)

Definition GetMissionStatus (account mission : Z) : Cn (Z * option MissionStatus) :=
  let! c := get in
  if negb (IsMissionStatusExistLocked c account mission) then mret (INVALID_PARAMETERS_ERR, None)
  else mret (ERR_OK, map_find (missions c account) mission).

Definition IsScreenLocked : Cn bool := let! c := get in mret (isScreenLocked_ c).
Definition GetLastContinuableMissionStatus : Cn MissionStatus :=
  let! c := get in mret (lastContinuableMissionStatus_ c).

(** The result and the mission; [mission] is the number the caller passed.  The look-up by
    [operator[]] enters a status of zeros for a number that has none. *)
Definition GetMissionIdByBundleName (account : Z) (bundle : bytes) (mission : Z) : Cn (Z * Z) :=
  let! c := get in
  if negb (map_count (missionMap_ c) account) then mret (MISSION_NOT_FOCUSED, mission)
  else
    let mission := match focused_entry c account with Some e => e.1 | None => mission end in
    do! modify (fun c => set_missions account (map_emplace (missions c account) mission zero_status) c) in
    let! c := get in
    let status := match map_find (missions c account) mission with Some s => s | None => zero_status end in
    if bytes_eqb (bundleName status) bundle && isContinuable status then mret (ERR_OK, mission)
    else
      let last := missionId (lastContinuableMissionStatus_ c) in
      match map_find (missions c account) last with
      | Some s =>
        if negb (last =? 0) && bytes_eqb (bundleName s) bundle then mret (ERR_OK, last)
        else mret (MISSION_NOT_FOCUSED, mission)
      | None => mret (MISSION_NOT_FOCUSED, mission)
      end.
End Operations.
