(* ===== verification/MissionConditionsProperties.v ===== *)
(** * What the conditions of missions promise

    The invariant of the missions ([focus_ok]: a user has at most one focused mission), that
    every operation returns and keeps it, and what the conditions let through. *)

From Stdlib Require Import ZArith Lia String.
From stdpp Require Import base list option.
From S2P Require Import Prelude ErrorCodes DataBuffer StdMap StdString Effects MissionConditions.
Import ErrorCodes.Dms.

(** ** The invariant *)

(** Two focused missions of a list are one. *)
Definition focus_unique (l : std_map Z MissionStatus) : Prop :=
  forall e1 e2, In e1 l -> In e2 l -> isFocused e1.2 = true -> isFocused e2.2 = true -> e1.1 = e2.1.

Definition focus_ok (c : Conditions) : Prop := forall account, focus_unique (missions c account).

(** Flags that nothing has written happen to be false. *)
Definition clean_junk {Ev : ConditionEnv} : Prop := forall t mission, junk_isFocused t mission = false.

(** No broadcast is among the effects [t'] has more than [t]. *)
Definition is_broadcast (e : Effect) : bool := match e with SoftbusEventSent _ _ => true | _ => false end.
Definition quiet (t t' : list Effect) : Prop := exists l, t' = t ++ l /\ forallb (fun e => negb (is_broadcast e)) l = true.

Lemma silent_refl t : quiet t t.
Proof. exists []. by rewrite app_nil_r. Qed.
Lemma silent_trans t1 t2 t3 : quiet t1 t2 -> quiet t2 t3 -> quiet t1 t3.
Proof.
  intros (l1 & -> & H1) (l2 & -> & H2). exists (l1 ++ l2). split; [by rewrite app_assoc|].
  by rewrite forallb_app, H1, H2.
Qed.
Lemma quiet_one t e : is_broadcast e = false -> quiet t (t ++ [e]).
Proof. intros H. exists [e]. split; [done|]. cbn. by rewrite H. Qed.
#[export] Hint Resolve silent_refl quiet_one : dms.

(** ** Lists of missions *)

Lemma missions_set account l c b :
  missions (set_missions account l c) b = if account =? b then l else missions c b.
Proof.
  unfold missions, set_missions. cbn. rewrite map_find_assign, Z_key_eq. by destruct (account =? b).
Qed.

Lemma focus_set account l c : focus_ok c -> focus_unique l -> focus_ok (set_missions account l c).
Proof. intros Hc Hl b. rewrite missions_set. by destruct (account =? b). Qed.

(** Every focused mission of the list has the number [m]. *)
Definition only_focus (m : Z) (l : std_map Z MissionStatus) : Prop := forall e, In e l -> isFocused e.2 = true -> e.1 = m.

Lemma only_focus_unique m l : only_focus m l -> focus_unique l.
Proof. intros H e1 e2 H1 H2 F1 F2. by rewrite (H e1), (H e2). Qed.

Lemma only_focus_clean m l : only_focus m (map (clean_focus m) l).
Proof.
  intros e He Hf. apply in_map_iff in He as ([k s] & <- & _). unfold clean_focus in *. cbn in *.
  destruct (k =? m) eqn:E; [by apply Z.eqb_eq in E|]. cbn in Hf. by destruct (isFocused s) eqn:Fs; cbn in Hf; [|rewrite Fs in Hf].
Qed.

Lemma only_focus_assign m l s : only_focus m l -> only_focus m (map_assign l m s).
Proof.
  intros H e [He|[_ Hk]]%in_assign Hf; [by apply H|]. rewrite Z_key_eq in Hk. by apply Z.eqb_eq.
Qed.

Lemma focus_assign_off l m s : isFocused s = false -> focus_unique l -> focus_unique (map_assign l m s).
Proof.
  intros Hs Hl e1 e2 [H1|[E1 _]]%in_assign [H2|[E2 _]]%in_assign F1 F2; [by apply Hl|..];
    by rewrite ?E1, ?E2, Hs in *.
Qed.

Lemma focus_assign_same l m s s' :
  map_find l m = Some s -> isFocused s' = isFocused s -> focus_unique l -> focus_unique (map_assign l m s').
Proof.
  intros Hm Hs Hl. apply map_find_Some in Hm as (k & Hin & Hk). rewrite Z_key_eq in Hk. apply Z.eqb_eq in Hk. subst k.
  intros e1 e2 [H1|[E1 K1]]%in_assign [H2|[E2 K2]]%in_assign F1 F2; [by apply Hl|..].
  all: rewrite ?Z_key_eq, ?Z.eqb_eq in *.
  - rewrite K2. apply (Hl e1 (m, s)); auto. cbn. by rewrite <- Hs, <- E2.
  - rewrite K1. symmetry. apply (Hl e2 (m, s)); auto. cbn. by rewrite <- Hs, <- E1.
  - by rewrite K1, K2.
Qed.

Lemma focus_erase l m : focus_unique l -> focus_unique (map_erase l m).
Proof. intros Hl e1 e2 H1 H2. apply List.filter_In in H1 as [H1 _], H2 as [H2 _]. by apply Hl. Qed.

Lemma focus_emplace_off l m s : isFocused s = false -> focus_unique l -> focus_unique (map_emplace l m s).
Proof. intros. unfold map_emplace. destruct (map_count l m); [done|]. by apply focus_assign_off. Qed.

Lemma focus_on_status account mission f c :
  (forall s, isFocused (f s) = false) \/ (forall s, isFocused (f s) = isFocused s) ->
  focus_ok c -> focus_ok (on_status account mission f c).
Proof.
  intros Hf Hc. unfold on_status. destruct (map_find _ mission) as [s|] eqn:E; [|done].
  apply focus_set; [done|]. destruct Hf as [Hf|Hf]; [by apply focus_assign_off|].
  by eapply focus_assign_same.
Qed.

Lemma mission_list_focus junk account focused infos :
  (forall m, junk m = false) -> focus_unique (mission_list junk account focused infos).
Proof.
  intros Hj. unfold mission_list.
  assert (forall l, (forall e, In e l -> isFocused e.2 = false) -> forall e,
    In e (fold_left (fun l i => map_assign l (info_id i) (ConvertToMissionStatus i account (junk (info_id i)))) infos l) ->
    isFocused e.2 = false) as Hoff.
  { induction infos as [|i infos IH]; intros l Hl e; cbn; [apply Hl|]. apply IH. intros e' [He|[-> _]]%in_assign; [by apply Hl|].
    cbn. apply Hj. }
  specialize (Hoff []). cbn in Hoff. specialize (Hoff ltac:(done)).
  remember (fold_left (fun l i => map_assign l (info_id i) (ConvertToMissionStatus i account (junk (info_id i)))) infos []) as l eqn:El; clear El.
  assert (only_focus focused l) as Ho by (intros e He F; by rewrite Hoff in F).
  destruct (map_find l focused); [|by eapply only_focus_unique]. destruct (0 <? focused);
    apply (only_focus_unique focused); [by apply only_focus_assign|done].
Qed.

(** ** Every operation returns and keeps the invariant *)

Section Keeps.
Context {Ev : ConditionEnv}.

Definition cond_inv (c : Conditions) : Prop := clean_junk -> focus_ok c.

(** What an operation promises: it returns, keeps the invariant and broadcasts nothing. *)
Definition keeps_cond {A} (m : Cn A) : Prop :=
  forall c t, cond_inv c -> wp m (fun _ c' t' => cond_inv c' /\ quiet t t') c t.

Lemma keeps_cond_mret {A} (a : A) : keeps_cond (mret a).
Proof. intros c t H. apply wp_mret. eauto with dms. Qed.
Lemma keeps_cond_get : keeps_cond get.
Proof. intros c t H. apply wp_get. eauto with dms. Qed.
Lemma keeps_cond_emit e : is_broadcast e = false -> keeps_cond (emit e).
Proof. intros He c t H. apply wp_emit. eauto with dms. Qed.
Lemma keeps_cond_ask {A} (oracle : list Effect -> A) : keeps_cond (ask oracle).
Proof. intros c t H. apply wp_call. eauto with dms. Qed.
Lemma keeps_cond_modify f : (forall c, cond_inv c -> cond_inv (f c)) -> keeps_cond (modify f).
Proof. intros Hf c t H. apply wp_modify. eauto with dms. Qed.
Lemma keeps_cond_mbind {A B} (m : Cn A) (k : A -> Cn B) :
  keeps_cond m -> (forall a, keeps_cond (k a)) -> keeps_cond (mbind m k).
Proof.
  intros Hm Hk c t H. apply wp_mbind. eapply wp_mono; [by apply Hm|]. cbn. intros a c1 t1 (H1 & Q1).
  eapply wp_mono; [by apply Hk|]. cbn. intros b c2 t2 (H2 & Q2). split; [done|]. by eapply silent_trans.
Qed.

(** A change that leaves the missions alone. *)
Lemma cond_inv_same f : (forall c, missionMap_ (f c) = missionMap_ c) -> forall c, cond_inv c -> cond_inv (f c).
Proof. intros Hf c H J a. unfold missions. rewrite Hf. by apply H. Qed.

Ltac keeps_cond_step :=
  repeat match goal with
  | |- keeps_cond (mret _) => apply keeps_cond_mret
  | |- keeps_cond get => apply keeps_cond_get
  | |- keeps_cond (ask _) => apply keeps_cond_ask
  | |- keeps_cond (emit _) => apply keeps_cond_emit; reflexivity
  | |- keeps_cond (mbind _ _) => apply keeps_cond_mbind; [|let a := fresh in intros a]
  | |- keeps_cond (modify _) => apply keeps_cond_modify, cond_inv_same; reflexivity
  | |- keeps_cond (match ?x with _ => _ end) => destruct x eqn:?
  | |- keeps_cond (let _ := _ in _) => cbv zeta
  end.

Lemma InitMissionStatus_keeps account : keeps_cond (InitMissionStatus account).
Proof.
  unfold InitMissionStatus. intros c t H. unfold ask.
  repeat (apply wp_mbind; first [apply wp_call|apply wp_get]; cbv beta iota).
  destruct (GetMissionInfos t) as [r infos]. apply wp_mbind, wp_call.
  apply wp_mbind, wp_get. destruct (map_count _ _).
  - apply wp_mret. split; [done|]. rewrite <- !app_assoc. by eexists.
  - apply wp_mbind, wp_call, wp_modify. split; [|rewrite <- !app_assoc; by eexists].
    intros J. apply focus_set; [by apply H|]. apply mission_list_focus, J.
Qed.

Lemma OnMissionFocused_keeps account mission : keeps_cond (OnMissionFocused account mission).
Proof.
  unfold OnMissionFocused. keeps_cond_step.
  apply keeps_cond_modify. intros c Hc J. unfold CleanLastFocusedFlagLocked.
  apply focus_set; [apply focus_set; [by apply Hc|]|]; eapply only_focus_unique;
    [apply only_focus_clean|apply only_focus_assign].
  rewrite missions_set, Z.eqb_refl. apply only_focus_clean.
Qed.

Lemma OnMissionUnfocused_keeps account mission : keeps_cond (OnMissionUnfocused account mission).
Proof.
  unfold OnMissionUnfocused. keeps_cond_step.
  apply keeps_cond_modify. intros c Hc J. apply focus_on_status; [by left|by apply Hc].
Qed.

Lemma OnMissionDestory_keeps account mission : keeps_cond (OnMissionDestory account mission).
Proof.
  unfold OnMissionDestory. keeps_cond_step.
  apply keeps_cond_modify. intros c Hc J. apply focus_set; [by apply Hc|]. apply focus_erase. by apply Hc.
Qed.

Lemma set_state_if_known_keeps x account mission : keeps_cond (set_state_if_known x account mission).
Proof.
  unfold set_state_if_known. keeps_cond_step.
  apply keeps_cond_modify. intros c Hc J. apply focus_on_status; [by right|by apply Hc].
Qed.

Lemma UpdateMissionStatus_keeps account mission type : keeps_cond (UpdateMissionStatus account mission type).
Proof.
  unfold UpdateMissionStatus. keeps_cond_step.
  destruct type; try discriminate; injection Heqo as <-;
    first [apply OnMissionFocused_keeps|apply OnMissionUnfocused_keeps|apply OnMissionDestory_keeps
      |apply set_state_if_known_keeps].
Qed.

Lemma OnUserRemoved_keeps account : keeps_cond (OnUserRemoved account).
Proof.
  unfold OnUserRemoved. keeps_cond_step.
  apply keeps_cond_modify. intros c Hc J b. unfold missions. cbn. rewrite map_find_erase, Z_key_eq.
  destruct (account =? b); [by intros ? ? []|by apply Hc].
Qed.

Lemma UpdateSystemStatus_keeps type value : keeps_cond (UpdateSystemStatus type value).
Proof.
  unfold UpdateSystemStatus. keeps_cond_step. apply keeps_cond_modify, cond_inv_same. by destruct type; try discriminate; injection Heqo as <-.
Qed.

Lemma conditions_Init_keeps : keeps_cond Init.
Proof.
  unfold Init, InitSystemCondition, InitMissionCondition. keeps_cond_step. apply InitMissionStatus_keeps.
Qed.

Lemma UnInit_keeps : keeps_cond UnInit.
Proof.
  unfold UnInit. keeps_cond_step. apply keeps_cond_modify. intros c _ _ a e1 e2 [].
Qed.

Lemma not_controlled_keeps status : keeps_cond (not_controlled status).
Proof. unfold not_controlled. keeps_cond_step. Qed.

Lemma CheckSystemSendCondition_keeps status : keeps_cond (CheckSystemSendCondition status).
Proof. unfold CheckSystemSendCondition, CheckBlacklist, CheckVirtualScreenScenario. keeps_cond_step. Qed.

Lemma CheckMissionSendCondition_keeps status type : keeps_cond (CheckMissionSendCondition status type).
Proof.
  unfold CheckMissionSendCondition. keeps_cond_step.
  destruct type; try discriminate; injection Heqo as <-; unfold CheckSendFocusedCondition, CheckSendUnfocusedCondition,
    CheckSendBackgroundCondition, CheckSendActiveCondition, CheckSendInactiveCondition, GetFocusedMissionStatus,
    CheckSendContinueSwitchOffCondition, CheckSendBackgroundCondition;
    keeps_cond_step; apply not_controlled_keeps.
Qed.

Lemma GetMissionStatus_keeps account mission : keeps_cond (GetMissionStatus account mission).
Proof. unfold GetMissionStatus. keeps_cond_step. Qed.
Lemma GetCurrentFocusedMission_keeps account : keeps_cond (GetCurrentFocusedMission account).
Proof. unfold GetCurrentFocusedMission. keeps_cond_step. Qed.
Lemma GetFocusedMissionStatus_keeps account : keeps_cond (GetFocusedMissionStatus account).
Proof. unfold GetFocusedMissionStatus. keeps_cond_step. Qed.
Lemma IsScreenLocked_keeps : keeps_cond IsScreenLocked.
Proof. unfold IsScreenLocked. keeps_cond_step. Qed.
Lemma GetLastContinuableMissionStatus_keeps : keeps_cond GetLastContinuableMissionStatus.
Proof. unfold GetLastContinuableMissionStatus. keeps_cond_step. Qed.

Lemma GetMissionIdByBundleName_keeps account bundle mission :
  keeps_cond (GetMissionIdByBundleName account bundle mission).
Proof.
  unfold GetMissionIdByBundleName. keeps_cond_step.
  apply keeps_cond_modify. intros c Hc J. apply focus_set; [by apply Hc|]. apply focus_emplace_off; [done|by apply Hc].
Qed.

Lemma Conditions_new_inv : cond_inv Conditions_new.
Proof. intros _ a e1 e2 []. Qed.
End Keeps.

#[export] Hint Resolve InitMissionStatus_keeps UpdateMissionStatus_keeps OnUserRemoved_keeps UpdateSystemStatus_keeps
  conditions_Init_keeps UnInit_keeps CheckSystemSendCondition_keeps CheckMissionSendCondition_keeps GetMissionStatus_keeps
  GetCurrentFocusedMission_keeps GetFocusedMissionStatus_keeps IsScreenLocked_keeps
  GetLastContinuableMissionStatus_keeps GetMissionIdByBundleName_keeps : dms.

(** ** Theorems *)

Section Properties.
Context {Ev : ConditionEnv}.

Lemma focused_entry_find c account mission s :
  map_find (missions c account) mission = Some s -> isFocused s = true ->
  only_focus mission (missions c account) -> exists e, focused_entry c account = Some e /\ e.1 = mission.
Proof.
  intros Hm Hs Ho. unfold focused_entry. destruct (List.find _ _) as [e|] eqn:E.
  - apply List.find_some in E as [He Fe]. exists e. split; [done|]. by apply Ho.
  - apply map_find_Some in Hm as (k & Hin & _). pose proof (List.find_none _ _ E _ Hin) as Hn. cbn in Hn. congruence.
Qed.

(** A mission that the ability manager reports focused becomes the one focused mission of
    its user, with what the ability manager says of it; without an answer nothing changes. *)
Theorem focus_is_exclusive account mission c t ret info :
  GetMissionInfo t mission = (ret, info) ->
  exists c', OnMissionFocused account mission c t = Done (ret, c', t ++ [Query]) /\
    (ret <> ERR_OK -> c' = c) /\
    (ret = ERR_OK ->
      only_focus mission (missions c' account) /\
      map_find (missions c' account) mission = Some (ConvertToMissionStatus info account true) /\
      (forall t', GetCurrentFocusedMission account c' t' = Done (mission, c', t')) /\
      forall other, other <> account -> missions c' other = missions c other).
Proof.
  intros Hinfo. unfold OnMissionFocused, ask, call, mbind. cbn. rewrite Hinfo.
  destruct (ret =? ERR_OK) eqn:E; cbn; apply Z.eqb_eq in E || apply Z.eqb_neq in E; [subst|by exists c].
  eexists. split; [done|]. split; [done|]. intros _. set (c' := set_missions _ _ _).
  assert (missions c' account = map_assign (map (clean_focus mission) (missions c account)) mission
    (ConvertToMissionStatus info account true)) as Hl.
  { unfold c', CleanLastFocusedFlagLocked. by rewrite !missions_set, Z.eqb_refl. }
  assert (only_focus mission (missions c' account)) as Ho.
  { rewrite Hl. apply only_focus_assign, only_focus_clean. }
  assert (map_find (missions c' account) mission = Some (ConvertToMissionStatus info account true)) as Hf.
  { rewrite Hl. apply map_find_assign_eq. }
  split_and!; [done|done|..].
  - intros t'. unfold GetCurrentFocusedMission, mbind, get. cbn.
    destruct (focused_entry_find c' account mission _ Hf eq_refl Ho) as ([m s] & -> & <-). done.
  - intros other Hne. unfold c', CleanLastFocusedFlagLocked. rewrite !missions_set.
    by destruct (Z.eqb_spec account other).
Qed.

(** The mission that a bundle's name is looked up to is of that bundle, and it is the
    focused one, the one the caller had named, or the last that was offered.  A look-up that
    finds none may enter a mission that does not exist. *)
Theorem mission_of_bundle account bundle mission c t :
  exists ret m c', GetMissionIdByBundleName account bundle mission c t = Done (ret, m, c', t) /\
    (ret = ERR_OK \/ ret = MISSION_NOT_FOCUSED) /\
    (ret = ERR_OK -> exists s, map_find (missions c' account) m = Some s /\ bundleName s = bundle /\
      ((exists e, focused_entry c account = Some e /\ e.1 = m) \/
       (focused_entry c account = None /\ m = mission) \/
       m = missionId (lastContinuableMissionStatus_ c))) /\
    (map_count (missionMap_ c) account = true -> focused_entry c account = None ->
      IsMissionStatusExistLocked c' account mission = true).
Proof.
  unfold GetMissionIdByBundleName, mbind, get, modify, mret. cbn -[map_find map_count missions].
  destruct (map_count (missionMap_ c) account) eqn:Ea; cbn -[map_find map_count missions]; cycle 1.
  { exists MISSION_NOT_FOCUSED, mission, c. split; [done|]. split; [by right|]. split; [done|]. congruence. }
  set (m := match focused_entry c account with Some e => e.1 | None => mission end).
  set (c' := set_missions account (map_emplace (missions c account) m zero_status) c).
  assert (focused_entry c account = None -> IsMissionStatusExistLocked c' account mission = true) as Hb.
  { intros Hf. unfold IsMissionStatusExistLocked. apply andb_true_iff. split.
    - unfold c', map_count. cbn. by rewrite map_find_assign_eq.
    - unfold c'. rewrite missions_set, Z.eqb_refl. unfold m. rewrite Hf. unfold map_count. rewrite map_find_emplace.
      rewrite Z_key_eq, Z.eqb_refl. unfold map_count. by destruct (map_find (missions c account) mission). }
  assert (exists s, map_find (missions c' account) m = Some s) as (s & Hs).
  { unfold c'. rewrite missions_set, Z.eqb_refl, map_find_emplace, Z_key_eq, Z.eqb_refl. unfold map_count.
    destruct (map_find (missions c account) m) as [s|]; cbn; by eexists. }
  rewrite Hs. destruct (bytes_eqb (bundleName s) bundle && isContinuable s) eqn:E; cbn -[map_find map_count missions].
  - apply andb_true_iff in E as [E _]. apply bytes_eqb_eq in E.
    exists ERR_OK, m, c'. split; [done|]. split; [by left|]. split; [|done]. intros _. exists s. split_and!; [done..|].
    unfold m. destruct (focused_entry c account) as [e|]; [left; by exists e|right; by left].
  - change (lastContinuableMissionStatus_ c') with (lastContinuableMissionStatus_ c).
    destruct (map_find (missions c' account) (missionId (lastContinuableMissionStatus_ c))) as [s2|] eqn:E2;
      [destruct (negb _ && _) eqn:E3|]; eexists _, _, c'; (split; [done|]);
      (split; [by (left; done) || by right|]); (split; [|done]); try done.
    intros _. exists s2. split; [done|]. apply andb_true_iff in E3 as [_ E3]. apply bytes_eqb_eq in E3. split; [done|].
    by right; right.
Qed.

(** ** What lets a broadcast through *)

(** The state of the system allows broadcasts. *)
Definition system_allows (c : Conditions) : Prop :=
  isSwitchOn_ c = true /\ isWifiActive_ c = true /\ isOnBlacklist_ c = false.

Lemma CheckSystemSendCondition_allows status c t :
  wp (CheckSystemSendCondition status) (fun (ok : bool) c' _ => ok = true -> system_allows c') c t.
Proof.
  unfold CheckSystemSendCondition, CheckBlacklist, CheckVirtualScreenScenario, ask. wp_with fail; try done.
  all: intros _; unfold system_allows; cbn in *; rewrite ?negb_false_iff in *; split_and!; congruence.
Qed.

(** The conditions of an event: the mission can be continued, its state is active unless the
    event tells the state, and it has the focus for the events that say so. *)
Definition mission_allows (status : MissionStatus) (type : MissionEventType) : Prop :=
  isContinuable status = true /\
  (type <> MISSION_EVENT_ACTIVE -> type <> MISSION_EVENT_INACTIVE -> continueState status = CONTINUESTATE_ACTIVE) /\
  (type = MISSION_EVENT_UNFOCUSED \/ type = MISSION_EVENT_ACTIVE -> isFocused status = true).

Lemma CheckMissionSendCondition_allows status type c t :
  wp (CheckMissionSendCondition status type) (fun (ok : bool) c' _ =>
    (system_allows c -> system_allows c') /\ (ok = true -> mission_allows status type)) c t.
Proof.
  unfold CheckMissionSendCondition. wp_with fail; try done.
  destruct type; try discriminate; injection Heqo as <-; unfold CheckSendFocusedCondition,
    CheckSendUnfocusedCondition, CheckSendContinueSwitchOffCondition, CheckSendBackgroundCondition,
    CheckSendActiveCondition, CheckSendInactiveCondition, GetFocusedMissionStatus, not_controlled, ask; wp_with fail;
    (split; [done|]); intros Hok; try done; unfold mission_allows, is_active in *;
    rewrite ?negb_false_iff, ?bool_decide_eq_true in *; split_and!; try done; by intros [|].
Qed.
End Properties.
