(* ===== verification/ContinueRecommend.v ===== *)
(** * Recommendations

    services/dtbschedmgr/src/mission/notification/dms_continue_recommend_manager.cpp: for an
    event of a mission, the devices that could continue it and the bundle each would use,
    published to the analytics service.

    [Recommender] is the manager's own state; its thread works on the shared conditions
    ([Cn]).  The bundle manager, the store of bundles and the list of devices are answers of
    the environment ([RecommendEnv]).  The text of the candidates
    (dms_continue_recommend_info.cpp) is not modelled. *)

From Stdlib Require Import ZArith Lia String.
From stdpp Require Import base list option.
From S2P Require Import Prelude ErrorCodes StdMap StdString EventQueue Effects MissionConditions.
Import ErrorCodes.Dms.

Definition STATE_ACTIVE : Z := 0.
Definition STATE_INACTIVE : Z := 1.
Definition DEFAULT_USER_ID : Z := 100.

(** What the code reads of the store's [DmsBundleInfo]: [continueBundleNames] are those of its
    abilities. *)
Record StoredBundle := mkStoredBundle {
  stored_bundleName : bytes;
  stored_developerId : bytes;
  stored_appIdentifier : bytes;
  continueBundleNames : list (list bytes)
}.

(** [AppProvisionInfo]; [srcAppIdentifiers] is what [GetSrcAppIdentifierVec] finds in its
    capabilities. *)
Record Provision := mkProvision {
  provision_developerId : bytes;
  srcAppIdentifiers : option (list bytes)
}.

Class RecommendEnv := {
  (** The continue types of an ability that is installed. *)
  GetLocalAbilityInfo : list Effect -> bytes -> bytes -> bytes -> option (list bytes);
  GetAppProvisionInfo : list Effect -> bytes -> option Provision;
  GetNetworkIdList : list Effect -> list bytes;
  GetStoredBundle : list Effect -> bytes -> bytes -> option StoredBundle;
  GetDistributeInfosByNetworkId : list Effect -> bytes -> option (list StoredBundle)
}.

Record Recommender := mkRecommender {
  recom_accountId_ : Z;
  hasInit_ : bool;
  recom_tasks_ : option (list (Posted (MissionStatus * MissionEventType)))
}.

Definition Recommender_new : Recommender := mkRecommender DEFAULT_USER_ID false None.

Definition recom_Init (account : Z) (r : Recommender) : Recommender :=
  if hasInit_ r then r
  else match recom_tasks_ r with
    | Some _ => mkRecommender (recom_accountId_ r) true (recom_tasks_ r)
    | None => mkRecommender account true (Some [])
    end.

Definition recom_UnInit (r : Recommender) : Recommender :=
  if hasInit_ r then mkRecommender (recom_accountId_ r) false None else r.

(** [eventHandler_->PostTask(feedfunc)]. *)
Definition recom_post (now : Z) (status : MissionStatus) (type : MissionEventType) (r : Recommender) : Recommender :=
  match recom_tasks_ r with
  | Some l => mkRecommender (recom_accountId_ r) (hasInit_ r) (Some (insert_task (mkPosted now [] (status, type)) l))
  | None => r
  end.

(** [std::string] as a key. *)
#[export] Instance network_order : KeyOrder bytes := bytes_ltb.

Definition IsContinuableWithDiffBundle (bundle : bytes) (info : StoredBundle) : bool :=
  existsb (fun names => existsb (bytes_eqb bundle) names) (continueBundleNames info).

Section Operations.
Context {Ev : ConditionEnv} {RcE : RecommendEnv}.

Definition Available : Type := std_map bytes StoredBundle.

(** The loop over the devices, for a bundle whose provision names no identifiers. *)
Fixpoint available_internal (bundle developer : bytes) (networks : list bytes) (m : Available) : Cn Available :=
  match networks with
  | [] => mret m
  | networkId :: networks =>
    let! same := ask (fun t => GetStoredBundle t networkId bundle) in
    match (match same with Some b => if bytes_eqb (stored_bundleName b) bundle then Some b else None | None => None end) with
    | Some b => available_internal bundle developer networks (map_assign m networkId b)
    | None =>
      let! infos := ask (fun t => GetDistributeInfosByNetworkId t networkId) in
      match infos with
      | None => available_internal bundle developer networks m
      | Some l =>
        match List.find (fun b => bytes_eqb (stored_developerId b) developer && IsContinuableWithDiffBundle bundle b) l with
        | Some b => available_internal bundle developer networks (map_assign m networkId b)
        | None => available_internal bundle developer networks m
        end
      end
    end
  end.

Definition GetAvailableRecommendListInternal (bundle : bytes) (provision : Provision) : Cn (bool * Available) :=
  let! networks := ask GetNetworkIdList in
  let! m := available_internal bundle (provision_developerId provision) networks [] in
  mret (true, m).

(** [identToBmMap]: the first bundle of an identifier stays. *)
Definition ident_to_stored (l : list StoredBundle) : Available :=
  fold_left (fun m b => map_emplace m (stored_appIdentifier b) b) l [].

(** The first identifier of the source whose bundle could continue. *)
Definition first_continuable (bundle : bytes) (identifiers : list bytes) (m : Available) : option StoredBundle :=
  fold_right (fun ident found =>
    match map_find m ident with
    | Some b => if bytes_eqb bundle (stored_bundleName b) || IsContinuableWithDiffBundle bundle b then Some b else found
    | None => found
    end) None identifiers.

(** The loop over the devices, for a bundle whose provision names identifiers. *)
Fixpoint available_identifiers (bundle : bytes) (identifiers networks : list bytes) (m : Available) : Cn Available :=
  match networks with
  | [] => mret m
  | networkId :: networks =>
    let! infos := ask (fun t => GetDistributeInfosByNetworkId t networkId) in
    match infos with
    | None => available_identifiers bundle identifiers networks m
    | Some l =>
      let! same := ask (fun t => GetStoredBundle t networkId bundle) in
      match first_continuable bundle identifiers (ident_to_stored (l ++ match same with Some b => [b] | None => [] end)) with
      | Some b => available_identifiers bundle identifiers networks (map_assign m networkId b)
      | None => available_identifiers bundle identifiers networks m
      end
    end
  end.

Definition GetAvailableRecommendList (bundle : bytes) : Cn (bool * Available) :=
  let! provision := ask (fun t => GetAppProvisionInfo t bundle) in
  match provision with
  | None => mret (false, [])
  | Some p =>
    match srcAppIdentifiers p with
    | None => GetAvailableRecommendListInternal bundle p
    | Some identifiers =>
      let! networks := ask GetNetworkIdList in
      let! m := available_identifiers bundle identifiers networks [] in
      mret (true, m)
    end
  end.

(** [ContinueRecommendInfo]: a candidate is a device and its bundle. *)
Definition GetRecommendInfo (account : Z) (status : MissionStatus) (type : MissionEventType) : Cn (option RecommendInfo) :=
  let state := if bool_decide (type = MISSION_EVENT_FOCUSED) || bool_decide (type = MISSION_EVENT_ACTIVE)
    then STATE_ACTIVE else STATE_INACTIVE in
  let! ability := ask (fun t => GetLocalAbilityInfo t (bundleName status) (moduleName status) (abilityName status)) in
  match ability with
  | None => mret None
  | Some types =>
    let! (ret, available) := GetAvailableRecommendList (bundleName status) in
    let candidates := if ret && (state =? STATE_ACTIVE)
      then map (fun e => (e.1, stored_bundleName e.2)) available else [] in
    mret (Some (mkRecommendInfo state (bundleName status) (match types with c :: _ => c | [] => [] end) account candidates))
  end.

Definition PublishContinueRecommend (account : Z) (status : MissionStatus) (type : MissionEventType) : Cn unit :=
  let! system := CheckSystemSendCondition status in
  let! mission := if (system : bool) then CheckMissionSendCondition status type else mret false in
  if negb mission then mret tt
  else
    let! info := GetRecommendInfo account status type in
    match info with
    | None => mret tt
    | Some info => emit (RecommendPublished info)
    end.
End Operations.
