(* ===== verification/ContinueRecommendProperties.v ===== *)
(** * What recommendations promise

    Publishing returns, keeps the missions in order and broadcasts nothing; what is published
    names only devices whose bundle could take the mission over. *)

From Stdlib Require Import ZArith Lia String.
From stdpp Require Import base list option.
From S2P Require Import Prelude ErrorCodes StdMap StdString EventQueue Effects MissionConditions MissionConditionsProperties ContinueRecommend.
Import ErrorCodes.Dms.

#[export] Instance network_strict : StrictWeakOrder bytes := order_by (fun x => x).

Lemma network_key_eq (a b : bytes) : key_eq a b = true <-> a = b.
Proof. apply (key_eq_by (fun x => x)). Qed.

Section Recommend.
Context {Ev : ConditionEnv} {RcE : RecommendEnv}.

(** ** Only the conditions of the mission are changed *)

(** The state is the same and nothing has been done but to ask. *)
Definition only_asked (c : Conditions) (t : list Effect) (c' : Conditions) (t' : list Effect) : Prop :=
  c' = c /\ exists l, t' = t ++ l /\ Forall (eq Query) l.

Lemma only_asked_refl c t : only_asked c t c t.
Proof. split; [done|]. exists []. by rewrite app_nil_r. Qed.
Lemma only_asked_trans c1 t1 c2 t2 c3 t3 : only_asked c1 t1 c2 t2 -> only_asked c2 t2 c3 t3 -> only_asked c1 t1 c3 t3.
Proof.
  intros [-> (l1 & -> & H1)] [-> (l2 & -> & H2)]. split; [done|]. exists (l1 ++ l2). split; [by rewrite app_assoc|].
  by apply Forall_app.
Qed.
Lemma only_asked_ask {A} (oracle : list Effect -> A) : preserves only_asked (ask oracle).
Proof. apply preserves_call. intros c t. split; [done|]. exists [Query]. by repeat constructor. Qed.

Ltac asks_with base := preserves_with only_asked_refl only_asked_trans ltac:(first [apply only_asked_ask|base]).

Lemma available_internal_asks bundle developer networks m : preserves only_asked (available_internal bundle developer networks m).
Proof. revert m. induction networks as [|n networks IH]; intros m; cbn [available_internal]; asks_with ltac:(apply IH). Qed.
Lemma available_identifiers_asks bundle identifiers networks m :
  preserves only_asked (available_identifiers bundle identifiers networks m).
Proof. revert m. induction networks as [|n networks IH]; intros m; cbn [available_identifiers]; asks_with ltac:(apply IH). Qed.

Lemma GetRecommendInfo_asks account status type : preserves only_asked (GetRecommendInfo account status type).
Proof.
  unfold GetRecommendInfo, GetAvailableRecommendList, GetAvailableRecommendListInternal.
  asks_with ltac:(first [apply available_internal_asks|apply available_identifiers_asks]).
Qed.

Lemma GetRecommendInfo_total account status type : total (GetRecommendInfo account status type).
Proof.
  unfold GetRecommendInfo, GetAvailableRecommendList, GetAvailableRecommendListInternal.
  assert (forall bundle developer networks m, total (available_internal bundle developer networks m)) as H1.
  { intros bundle developer networks. induction networks as [|n networks IH]; intros m; cbn [available_internal]; unfold ask;
      total_with ltac:(apply IH). }
  assert (forall bundle identifiers networks m, total (available_identifiers bundle identifiers networks m)) as H2.
  { intros bundle identifiers networks. induction networks as [|n networks IH]; intros m; cbn [available_identifiers]; unfold ask;
      total_with ltac:(apply IH). }
  unfold ask. total_with ltac:(first [apply H1|apply H2]).
Qed.

(** ** Candidates *)

Definition is_stored (networkId : bytes) (b : StoredBundle) : Prop :=
  (exists t bundle, Some b = GetStoredBundle t networkId bundle) \/
  (exists t l, Some l = GetDistributeInfosByNetworkId t networkId /\ In b l).

(** A bundle of the device stands for the source's: it has its name, or one of its abilities
    names the source's bundle and it comes from the source's developer or has an identifier
    that the source names. *)
Definition could_continue (bundle : bytes) (b : StoredBundle) : Prop :=
  stored_bundleName b = bundle \/
  (IsContinuableWithDiffBundle bundle b = true /\ exists t p, Some p = GetAppProvisionInfo t bundle /\
    match srcAppIdentifiers p with
    | None => stored_developerId b = provision_developerId p
    | Some l => In (stored_appIdentifier b) l
    end).

Definition candidate_ok (bundle : bytes) (e : bytes * StoredBundle) : Prop :=
  (exists t, In e.1 (GetNetworkIdList t)) /\ is_stored e.1 e.2 /\ could_continue bundle e.2.

Lemma assign_candidate bundle (m : Available) networkId b :
  Forall (candidate_ok bundle) m -> candidate_ok bundle (networkId, b) -> Forall (candidate_ok bundle) (map_assign m networkId b).
Proof. intros Hm Hb. apply Forall_map_assign; [done|]. intros k Hk%network_key_eq. by subst k. Qed.

Lemma available_internal_yields bundle p networks m :
  (exists t, Some p = GetAppProvisionInfo t bundle) -> srcAppIdentifiers p = None ->
  (forall n, In n networks -> exists t, In n (GetNetworkIdList t)) -> Forall (candidate_ok bundle) m ->
  yields (Forall (candidate_ok bundle)) (available_internal bundle (provision_developerId p) networks m).
Proof.
  intros [tp Hp] Hnone Hn. revert m. induction networks as [|n networks IH]; intros m Hm; cbn [available_internal]; [by apply yields_mret|].
  assert (forall m, Forall (candidate_ok bundle) m ->
    yields (Forall (candidate_ok bundle)) (available_internal bundle (provision_developerId p) networks m)) as IH2
    by (intros; apply IH; [intros; apply Hn; by right|done]).
  assert (exists t, In n (GetNetworkIdList t)) as Hnet by (apply Hn; by left).
  eapply yields_then; [apply yields_call|]. intros same [t Hsame].
  destruct (match same with Some b => _ | None => None end) as [b|] eqn:E.
  - destruct same as [b'|]; [|done]. destruct (bytes_eqb (stored_bundleName b') bundle) eqn:Eb; [|done]. injection E as ->.
    apply bytes_eqb_eq in Eb. apply IH2, assign_candidate; [done|]. split_and!; [done|left; by exists t, bundle|by left].
  - eapply yields_then; [apply yields_call|]. intros [l|] [t2 Hl]; [|by apply IH2].
    destruct (List.find _ l) as [b|] eqn:Ef; [|by apply IH2]. apply List.find_some in Ef as [Hin Hb].
    apply andb_true_iff in Hb as [Hd Hc]. apply bytes_eqb_eq in Hd. apply IH2, assign_candidate; [done|].
    split_and!; [done|right; by exists t2, l|right]. split; [done|]. exists tp, p. by rewrite Hnone.
Qed.

Lemma ident_to_stored_ok l : Forall (fun e => In e.2 l /\ e.1 = stored_appIdentifier e.2) (ident_to_stored l).
Proof.
  unfold ident_to_stored.
  assert (forall l' (m : Available), incl l' l -> Forall (fun e => In e.2 l /\ e.1 = stored_appIdentifier e.2) m ->
    Forall (fun e => In e.2 l /\ e.1 = stored_appIdentifier e.2)
      (fold_left (fun m b => map_emplace m (stored_appIdentifier b) b) l' m)) as H; [|apply H; [apply incl_refl|constructor]].
  induction l' as [|b l' IH]; intros m Hl Hm; cbn [fold_left]; [done|]. apply IH; [intros x Hx; apply Hl; by right|].
  apply Forall_map_emplace; [done|]. split; [apply Hl; by left|done].
Qed.

Lemma first_continuable_ok bundle identifiers l b :
  first_continuable bundle identifiers (ident_to_stored l) = Some b ->
  In b l /\ In (stored_appIdentifier b) identifiers /\
  (stored_bundleName b = bundle \/ IsContinuableWithDiffBundle bundle b = true).
Proof.
  induction identifiers as [|ident identifiers IH]; cbn [first_continuable fold_right]; [done|].
  fold (first_continuable bundle identifiers (ident_to_stored l)). intros H.
  assert (first_continuable bundle identifiers (ident_to_stored l) = Some b -> In b l /\ In (stored_appIdentifier b) (ident :: identifiers) /\
    (stored_bundleName b = bundle \/ IsContinuableWithDiffBundle bundle b = true)) as Hrest.
  { intros (H1 & H2 & H3)%IH. split_and!; [done|by right|done]. }
  destruct (map_find (ident_to_stored l) ident) as [b'|] eqn:E; [|by apply Hrest].
  destruct (_ || _) eqn:Ec; [|by apply Hrest]. injection H as ->.
  apply map_find_Some in E as (k & Hin & Hk%network_key_eq). subst k.
  pose proof (ident_to_stored_ok l) as Hok. eapply List.Forall_forall in Hok as [H1 H2]; [|exact Hin]. cbn in H1, H2.
  split_and!; [done|by left|]. apply orb_true_iff in Ec as [Ec|Ec]; [left|by right]. by apply bytes_eqb_eq in Ec.
Qed.

Lemma available_identifiers_yields bundle p identifiers networks m :
  (exists t, Some p = GetAppProvisionInfo t bundle) -> srcAppIdentifiers p = Some identifiers ->
  (forall n, In n networks -> exists t, In n (GetNetworkIdList t)) -> Forall (candidate_ok bundle) m ->
  yields (Forall (candidate_ok bundle)) (available_identifiers bundle identifiers networks m).
Proof.
  intros [tp Hp] Hsome Hn. revert m. induction networks as [|n networks IH]; intros m Hm; cbn [available_identifiers]; [by apply yields_mret|].
  assert (forall m, Forall (candidate_ok bundle) m ->
    yields (Forall (candidate_ok bundle)) (available_identifiers bundle identifiers networks m)) as IH2
    by (intros; apply IH; [intros; apply Hn; by right|done]).
  assert (exists t, In n (GetNetworkIdList t)) as Hnet by (apply Hn; by left).
  eapply yields_then; [apply yields_call|]. intros [l|] [t Hl]; [|by apply IH2].
  eapply yields_then; [apply yields_call|]. intros same [t2 Hsame].
  destruct (first_continuable _ _ _) as [b|] eqn:Ef; [|by apply IH2]. apply first_continuable_ok in Ef as (Hin & Hid & Hb).
  apply IH2, assign_candidate; [done|]. split_and!; [done| |].
  - apply in_app_iff in Hin as [Hin|Hin]; [right; by exists t, l|]. destruct same as [b'|]; [|done].
    destruct Hin as [->|[]]. left. by exists t2, bundle.
  - destruct Hb as [Hb|Hb]; [by left|right]. split; [done|]. exists tp, p. by rewrite Hsome.
Qed.

(** What is published about a mission. *)
Definition info_ok (account : Z) (status : MissionStatus) (info : RecommendInfo) : Prop :=
  srcBundleName_ info = bundleName status /\ userId_ info = account /\
  Forall (fun c => exists b, stored_bundleName b = c.2 /\ candidate_ok (bundleName status) (c.1, b)) (candidates_ info) /\
  (state_ info = STATE_INACTIVE -> candidates_ info = []).

Lemma GetAvailableRecommendList_yields bundle :
  yields (fun r => Forall (candidate_ok bundle) r.2) (GetAvailableRecommendList bundle).
Proof.
  unfold GetAvailableRecommendList. eapply yields_then; [apply yields_call|]. intros [p|] [t Hp]; [|by apply yields_mret].
  destruct (srcAppIdentifiers p) as [identifiers|] eqn:E.
  - eapply yields_then; [apply yields_call|]. intros networks [t2 ->].
    eapply yields_then; [by eapply available_identifiers_yields; eauto|]. intros m Hm. by apply yields_mret.
  - unfold GetAvailableRecommendListInternal. eapply yields_then; [apply yields_call|]. intros networks [t2 ->].
    eapply yields_then; [by eapply available_internal_yields; eauto|]. intros m Hm. by apply yields_mret.
Qed.

Lemma GetRecommendInfo_yields account status type :
  yields (fun info => match info with Some i => info_ok account status i | None => True end) (GetRecommendInfo account status type).
Proof.
  unfold GetRecommendInfo. cbv zeta. eapply yields_then; [apply yields_call|]. intros [types|] _; [|by apply yields_mret].
  eapply yields_then; [apply GetAvailableRecommendList_yields|]. intros [ret available] Hav. apply yields_mret. cbn in Hav.
  set (state := if bool_decide (type = MISSION_EVENT_FOCUSED) || bool_decide (type = MISSION_EVENT_ACTIVE)
    then STATE_ACTIVE else STATE_INACTIVE).
  split_and!; cbn; [done..| |].
  - destruct (ret && (state =? STATE_ACTIVE)); [|constructor]. apply List.Forall_forall. intros c Hc.
    apply in_map_iff in Hc as ([n b] & <- & Hin). exists b. split; [done|]. by eapply List.Forall_forall in Hav.
  - intros ->. by rewrite andb_false_r.
Qed.

(** *** Nobody is forgotten *)

(** A device whose store has the source's bundle is listed, when the provision of the bundle
    names no identifiers. *)
Lemma available_internal_complete bundle developer networks m c t n b :
  (forall t', GetStoredBundle t' n bundle = Some b) -> stored_bundleName b = bundle ->
  In n networks \/ map_find m n = Some b ->
  wp (available_internal bundle developer networks m) (fun m' c' _ => c' = c /\ map_find m' n = Some b) c t.
Proof.
  intros Hst Hb. assert (bytes_eqb (stored_bundleName b) bundle = true) as Hname by (by apply bytes_eqb_eq).
  revert m t. induction networks as [|n0 networks IH]; intros m t Hin; cbn [available_internal].
  { apply wp_mret. split; [done|]. by destruct Hin. }
  assert (forall b0 t', (n0 = n -> b0 = b) ->
    wp (available_internal bundle developer networks (map_assign m n0 b0)) (fun m' c' _ => c' = c /\ map_find m' n = Some b) c t')
    as Hassign.
  { intros b0 t' Hb0. apply IH. destruct (key_eq n0 n) eqn:E.
    - apply network_key_eq in E as ->. rewrite (Hb0 eq_refl). right. apply map_find_assign_eq.
    - destruct Hin as [[->|Hin]|Hin]; [by rewrite key_eq_refl in E|by left|right].
      by rewrite map_find_assign, E. }
  destruct (decide (n0 = n)) as [->|Hne].
  - apply wp_mbind. unfold ask. apply wp_call. rewrite Hst, Hname. by apply Hassign.
  - assert (forall t', wp (available_internal bundle developer networks m) (fun m' c' _ => c' = c /\ map_find m' n = Some b) c t') as Hskip.
    { intros t'. apply IH. destruct Hin as [[->|Hin]|Hin]; [done|by left|by right]. }
    apply wp_mbind. unfold ask at 1. apply wp_call. destruct (match GetStoredBundle t n0 bundle with Some _ => _ | None => None end).
    + by apply Hassign.
    + apply wp_mbind. unfold ask. apply wp_call. destruct (GetDistributeInfosByNetworkId _ n0) as [l|]; [|apply Hskip].
      destruct (List.find _ l); [by apply Hassign|apply Hskip].
Qed.

(** The devices of the list that have the source's bundle, which no identifier replaces. *)
Definition has_same_bundle (bundle n : bytes) : Prop :=
  (forall t, exists p, GetAppProvisionInfo t bundle = Some p /\ srcAppIdentifiers p = None) /\
  (forall t, In n (GetNetworkIdList t)) /\
  exists b, stored_bundleName b = bundle /\ forall t, GetStoredBundle t n bundle = Some b.

Lemma network_find_In {V} (m : std_map bytes V) k v : map_find m k = Some v -> In (k, v) m.
Proof. intros (k' & Hin & Hk%network_key_eq)%map_find_Some. by subst k'. Qed.

(** What a focused mission's ability recommends. *)
Lemma GetRecommendInfo_complete account status c t :
  (forall t', GetLocalAbilityInfo t' (bundleName status) (moduleName status) (abilityName status) <> None) ->
  wp (GetRecommendInfo account status MISSION_EVENT_FOCUSED) (fun info _ _ => exists i, info = Some i /\
    state_ i = STATE_ACTIVE /\
    forall n, has_same_bundle (bundleName status) n -> In (n, bundleName status) (candidates_ i)) c t.
Proof.
  intros Hab. destruct (GetRecommendInfo_total account status MISSION_EVENT_FOCUSED c t) as (((info & c') & t') & Hrun).
  exists info, c', t'. split; [done|]. unfold GetRecommendInfo, ask in Hrun.
  apply mbind_Done in Hrun as (types & c1 & t1 & [= Htypes <- <-] & Hrun).
  destruct types as [types|]; [|by apply Hab in Htypes]. apply mbind_Done in Hrun as ([ret available] & c2 & t2 & Hav & Hrun).
  injection Hrun as <- _ _. eexists. split; [done|]. split; [done|]. intros n (Hp & Hn & b & Hb & Hst). cbn [candidates_].
  unfold GetAvailableRecommendList, ask in Hav. apply mbind_Done in Hav as (p & c3 & t3 & [= Hpt <- <-] & Hav).
  destruct (Hp (t ++ [Query])) as (p0 & Hp0 & Hno). rewrite Hp0 in Hpt. subst p. rewrite Hno in Hav.
  unfold GetAvailableRecommendListInternal, ask in Hav.
  apply mbind_Done in Hav as (networks & c4 & t4 & [= Hnet <- <-] & Hav).
  apply mbind_Done in Hav as (m & c5 & t5 & Hm & [= <- <- _ _]).
  destruct (available_internal_complete (bundleName status) (provision_developerId p0) networks [] c ((t ++ [Query]) ++ [Query] ++ [Query])
    n b Hst Hb) as (m' & c6 & t6 & Hm' & _ & Hf); [left; rewrite <- Hnet; apply Hn|].
  rewrite <- !app_assoc in Hm. rewrite <- app_assoc in Hm'. cbn [app] in Hm, Hm'. rewrite Hm in Hm'. injection Hm' as <- _ _.
  cbn. change true with (STATE_ACTIVE =? STATE_ACTIVE). cbn. apply in_map_iff. exists (n, b). cbn. rewrite Hb.
  split; [done|]. by apply network_find_In.
Qed.

(** ** Publishing *)

(** Nothing has been done but to ask, and the missions are the same. *)
Definition asked (c : Conditions) (t : list Effect) (c' : Conditions) (t' : list Effect) : Prop :=
  missionMap_ c' = missionMap_ c /\ exists q, t' = t ++ q /\ Forall (eq Query) q.

Lemma asked_refl c t : asked c t c t.
Proof. split; [done|]. exists []. by rewrite app_nil_r. Qed.
Lemma asked_trans c1 t1 c2 t2 c3 t3 : asked c1 t1 c2 t2 -> asked c2 t2 c3 t3 -> asked c1 t1 c3 t3.
Proof.
  intros [H1 (q1 & -> & Q1)] [H2 (q2 & -> & Q2)]. split; [congruence|]. exists (q1 ++ q2).
  split; [by rewrite app_assoc|]. by apply Forall_app.
Qed.
Lemma asked_ask {A} (oracle : list Effect -> A) : preserves asked (ask oracle).
Proof. apply preserves_call. intros c t. split; [done|]. exists [Query]. by repeat constructor. Qed.
Lemma only_asked_asked c t c' t' : only_asked c t c' t' -> asked c t c' t'.
Proof. by intros (-> & H). Qed.

Ltac asked_code := preserves_with asked_refl asked_trans
  ltac:(first [apply asked_ask|apply preserves_modify; intros ? ?; exact (asked_refl _ _)]).

Lemma CheckSystemSendCondition_asked status : preserves asked (CheckSystemSendCondition status).
Proof. unfold CheckSystemSendCondition, CheckBlacklist, CheckVirtualScreenScenario. asked_code. Qed.

Lemma CheckMissionSendCondition_asked status type : preserves asked (CheckMissionSendCondition status type).
Proof.
  unfold CheckMissionSendCondition. asked_code.
  destruct type; try discriminate; injection Heqo as <-; unfold CheckSendFocusedCondition, CheckSendUnfocusedCondition,
    CheckSendActiveCondition, CheckSendInactiveCondition, GetFocusedMissionStatus, CheckSendContinueSwitchOffCondition,
    CheckSendBackgroundCondition, not_controlled; asked_code.
Qed.

Lemma asked_quiet c t c' t' : asked c t c' t' -> quiet t t'.
Proof.
  intros (_ & q & -> & Hq). exists q. split; [done|]. apply forallb_forall. intros e He.
  by eapply List.Forall_forall in Hq as <-.
Qed.

(** Everything but at most one publication, the last effect, is a question. *)
Lemma PublishContinueRecommend_wp account status type c t :
  cond_inv c ->
  wp (PublishContinueRecommend account status type) (fun _ c' t' => cond_inv c' /\ missionMap_ c' = missionMap_ c /\
    exists q, Forall (eq Query) q /\ (t' = t ++ q \/ exists info, t' = t ++ q ++ [RecommendPublished info] /\
      info_ok account status info /\ system_allows c' /\ mission_allows status type)) c t.
Proof.
  intros Hc. unfold PublishContinueRecommend. apply wp_mbind.
  eapply wp_mono; [apply wp_preserves; [|apply CheckSystemSendCondition_asked];
    apply wp_and; [by apply CheckSystemSendCondition_keeps|apply CheckSystemSendCondition_allows]|].
  cbn beta. intros ok c1 t1 (((H1 & _) & Hsys) & A1). apply wp_mbind.
  destruct ok; [|apply wp_mret; cbn; apply wp_mret; destruct A1 as (M1 & q & -> & Q1); eauto 6].
  specialize (Hsys eq_refl).
  eapply wp_mono; [apply wp_preserves; [|apply CheckMissionSendCondition_asked];
    apply wp_and; [by apply CheckMissionSendCondition_keeps|apply CheckMissionSendCondition_allows]|].
  cbn beta. intros ok c2 t2 (((H2 & _) & Hkeep & Hmis) & A2). pose proof (asked_trans _ _ _ _ _ _ A1 A2) as A.
  destruct ok; cbn [negb]; [|apply wp_mret; destruct A as (M1 & q & -> & Q1); eauto 6].
  apply Hkeep in Hsys. specialize (Hmis eq_refl). apply wp_mbind.
  destruct (GetRecommendInfo_total account status type c2 t2) as ([[info c3] t3] & Hrun).
  exists info, c3, t3. split; [done|]. pose proof (GetRecommendInfo_asks _ _ _ _ _ _ _ _ Hrun) as A3.
  pose proof A3 as (-> & _). pose proof (asked_trans _ _ _ _ _ _ A (only_asked_asked _ _ _ _ A3)) as (M & q & -> & Q).
  apply GetRecommendInfo_yields in Hrun.
  destruct info as [info|]; [apply wp_emit|apply wp_mret; eauto 6].
  split_and!; [done..|]. exists q. split; [done|]. right. exists info. by rewrite <- app_assoc.
Qed.

Lemma PublishContinueRecommend_keeps account status type : keeps_cond (PublishContinueRecommend account status type).
Proof.
  intros c t Hc. eapply wp_mono; [by apply PublishContinueRecommend_wp|]. cbn. intros _ c' t' (Hc' & _ & q & Q & H).
  split; [done|]. assert (forallb (fun e => negb (is_broadcast e)) q = true) as Hq.
  { apply forallb_forall. intros e He. by eapply List.Forall_forall in Q as <-. }
  destruct H as [->|(info & -> & _)]; eexists; (split; [done|]); by rewrite ?forallb_app, ?Hq.
Qed.

(** The user's mission may be recommended: the conditions know it as active and continuable,
    the system is ready, no list or rule holds the bundle back, the mission is not shown on a
    virtual display, and its ability is installed. *)
Record recommendable (c : Conditions) (status : MissionStatus) : Prop := {
  recom_ready : initialised_ c = true;
  recom_on : isSwitchOn_ c = true;
  recom_wireless : isWifiActive_ c = true;
  recom_continuable : isContinuable status = true;
  recom_active : continueState status = CONTINUESTATE_ACTIVE;
  recom_listed t v : IsBlacklisted t (bundleName status) v = false;
  recom_display t m : match GetMissionDisplay t m with Some d => d < VIRTUAL_SCREEN_ID_THRESHOLD | None => True end;
  recom_ruled t : CheckMDMCtrlRule t (bundleName status) = false;
  recom_ability t : GetLocalAbilityInfo t (bundleName status) (moduleName status) (abilityName status) <> None
}.

Lemma recommendable_published account status c t :
  recommendable c status ->
  wp (PublishContinueRecommend account status MISSION_EVENT_FOCUSED) (fun _ _ t' =>
    exists q info, t' = t ++ q ++ [RecommendPublished info] /\ state_ info = STATE_ACTIVE /\
      forall n, has_same_bundle (bundleName status) n -> In (n, bundleName status) (candidates_ info)) c t.
Proof.
  intros [Hi Hon Hw Hc Ha Hl Hd Hr Hab]. unfold PublishContinueRecommend. apply wp_mbind.
  eapply wp_mono; [apply (wp_preserves asked _ (fun ok c' _ => ok = true /\ initialised_ c' = true)); [|apply CheckSystemSendCondition_asked]|].
  { unfold CheckSystemSendCondition, CheckBlacklist, ask. do 2 apply wp_mbind. apply wp_call. cbn.
    destruct (GetBundleVersionCode t (bundleName status)) as [v|].
    1: apply wp_call; rewrite Hl. 2: apply wp_mret.
    all: apply wp_mbind, wp_modify, wp_mbind, wp_get; cbn; rewrite Hon, Hw; cbn.
    all: unfold CheckVirtualScreenScenario, ask; do 2 apply wp_mbind; apply wp_call; cbn.
    all: match goal with |- context [GetMissionDisplay ?t' ?m] => specialize (Hd t' m); destruct (GetMissionDisplay t' m) as [d|] end.
    all: try (assert (VIRTUAL_SCREEN_ID_THRESHOLD <=? d = false) as -> by (by apply Z.leb_gt)).
    all: by apply wp_mret, wp_mret. }
  cbn beta. intros ok c1 t1 ((-> & Hi1) & A1). apply wp_mbind.
  eapply wp_mono; [apply (wp_preserves asked _ (fun ok _ _ => ok = true)); [|apply CheckMissionSendCondition_asked]|].
  { unfold CheckMissionSendCondition. apply wp_mbind, wp_get. cbn [conditionFuncMap_]. rewrite Hi1.
    unfold CheckSendFocusedCondition, CheckSendBackgroundCondition, is_active, not_controlled, ask. rewrite Hc, Ha. cbn.
    do 2 apply wp_mbind. apply wp_call, wp_mret. rewrite Hr. cbn. by apply wp_mbind, wp_modify, wp_mret. }
  cbn beta. intros ok c2 t2 (-> & A2). cbn [negb]. apply wp_mbind.
  eapply wp_mono; [apply wp_preserves; [by apply GetRecommendInfo_complete|apply GetRecommendInfo_asks]|].
  cbn beta. intros info c3 t3 ((i & -> & Hst & Hall) & A3%only_asked_asked). apply wp_emit.
  pose proof (asked_trans _ _ _ _ _ _ (asked_trans _ _ _ _ _ _ A1 A2) A3) as (_ & q & -> & _).
  exists q, i. by rewrite <- app_assoc.
Qed.

(** C21 Publishing for an event of a mission returns, leaves the missions as they are and does
    nothing outside but to ask and to publish at most once, last; it publishes only while the
    system and the mission allow the event.  Every candidate is a device of the list with a
    bundle in the store that has the source's name or, naming the source, its developer or an
    identifier the source names; the end of a mission has no candidates.  And when a mission that
    may be recommended gets the focus, a recommendation is published that names every device of
    the list that has the source's bundle, if the bundle's provision names no identifiers. *)
Theorem recommendation_trusted account status type c t :
  cond_inv c ->
  exists c' l, PublishContinueRecommend account status type c t = Done (tt, c', t ++ l) /\ missionMap_ c' = missionMap_ c /\
    (Forall (eq Query) l \/ exists q info, l = q ++ [RecommendPublished info] /\ Forall (eq Query) q /\
      info_ok account status info /\ system_allows c' /\ mission_allows status type) /\
    (type = MISSION_EVENT_FOCUSED -> recommendable c status -> exists q info, l = q ++ [RecommendPublished info] /\
      state_ info = STATE_ACTIVE /\
      forall n, has_same_bundle (bundleName status) n -> In (n, bundleName status) (candidates_ info)).
Proof.
  intros Hc. destruct (PublishContinueRecommend_wp account status type c t Hc) as ([] & c' & t' & Hrun & _ & M & q & Q & H).
  assert (exists l, t' = t ++ l /\ (l = q \/ exists info, l = q ++ [RecommendPublished info] /\
    info_ok account status info /\ system_allows c' /\ mission_allows status type)) as (l & -> & Hl).
  { destruct H as [->|(info & -> & H)]; eexists; (split; [done|]); [by left|right; by exists info]. }
  exists c', l. split_and!; [done..| |].
  - destruct Hl as [->|(info & -> & ?)]; [by left|right; by exists q, info].
  - intros -> (? & c2 & t2 & Hrun2 & q2 & info & -> & Hst & Hall)%(recommendable_published account status c t).
    rewrite Hrun in Hrun2. injection Hrun2 as _ _ Heq. apply app_inv_head in Heq as ->. by exists q2, info.
Qed.
End Recommend.

#[export] Hint Resolve PublishContinueRecommend_keeps : dms.
