(* ===== verification/ContinueSender.v ===== *)
(** * Notifications of a mission to other devices

    services/dtbschedmgr/src/mission/notification/dms_continue_send_manager.cpp and
    dms_continue_send_strategy.cpp: which event of a mission is broadcast to other devices,
    with the timeouts that take an offer back.  With them the parts that feed the manager:
    mission/distributed_mission_focused_listener.cpp (the events of the ability manager),
    adapter/mmi_adapter.cpp (the input of the user), and the handlers of
    distributed_sched_service.cpp and common_event_listener.cpp that tell the manager of the
    continue state, the switch and the lock of the screen.

    The state is [Notifier]: the manager of one user, the conditions all users share
    ([MissionConditions]), the adapter of input, the manager of recommendations
    ([ContinueRecommend]) and the listener.  Each of the four threads has its queue; a null handler is [None].  [now_] is the clock in milliseconds since the
    device was started, which both the event handlers and [GetTickCount] read.  A task runs
    without interruption; [Move] lists what may happen in between. *)

From Stdlib Require Import ZArith Lia String.
From stdpp Require Import base list option.
From S2P Require Import Prelude ErrorCodes DataBuffer StdMap StdString EventQueue Effects MissionConditions ContinueRecommend.
Import ErrorCodes.Dms.

(** ** Data *)

Definition FOCUS_TIMEOUT_DELAY_TIME : Z := 60000.
Definition SCREEN_LOCK_DELAY_TIME : Z := 10000.
Definition SCREEN_LOCK_EVENT_INTERVAL : Z := 500.
Definition TIMEOUT_UNFOCUSED_TASK : bytes := str "timeout_unfocused_task".
Definition BROADCAST_TYPE_APPEAR : Z := 0.
Definition BROADCAST_TYPE_DISAPPEAR : Z := 1.
Definition DEFAULT_USER : Z := 100.
Definition DMS_DATA_LEN : Z := 3.
Definition DMS_SEND_LEN : Z := 4.
Definition DMS_0XF0 : Z := 240.
Definition DMS_0X0F : Z := 15.
Definition DMS_0XFF : Z := 255.
Definition DMS_FOCUSED_TYPE : Z := 0.
Definition DMS_UNFOCUSED_TYPE : Z := 1.
Definition CONTINUE_SHIFT_08 : Z := 8.
Definition CONTINUE_SHIFT_04 : Z := 4.
Definition INVALID_ID : Z := -1.
Definition INVALID_MISSION_ID : Z := -1.
Definition SKIP_UNFOCUSED_TYPE : Z := -1.
Definition FREEZE_MMI_EVENT_TASK : bytes := str "task_freeze_mmi_event".
Definition FREEZE_MMI_EVENT_INTERVAL : Z := 5000.
Definition ACCIDENTAL_TOUCH_THRESHOLD_MS : Z := 2000.

(** The name of the timeout of a mission. *)
Definition timeoutTaskName (mission : Z) : bytes := TIMEOUT_UNFOCUSED_TASK ++ to_string mission.

(** The lambdas the manager posts to its thread. *)
Inductive SendTask :=
| TaskStatusChanged (status : MissionStatus) (type : MissionEventType)
| TaskMMIEvent
| TaskScreenLocked
| TaskUserSwitched
| TaskTimeout (missionId : Z)
| TaskScreenLockedEvent (type : Z).

(** Those of the adapter of input and of the listener of missions. *)
Inductive MmiTask := TaskRawMMIEvent | TaskUnfreezeMMIEvent.

Inductive ListenerTask :=
| TaskMissionDestroyed (missionId callingUid : Z)
| TaskMissionFocused (missionId callingUid : Z)
| TaskMissionUnfocused (missionId callingUid : Z)
| TaskMissionBackground (missionId callingUid : Z)
| TaskMissionClosed (missionId callingUid : Z).

Record LastUnfoInfo := mkLastUnfoInfo {
  unfo_missionId : Z;
  unfoTime : Z;
  unfo_status : MissionStatus
}.

Record Notifier := mkNotifier {
  conditions_ : Conditions;
  accountId_ : Z;
  mmiMonitorId_ : Z;
  send_tasks_ : option (list (Posted SendTask));
  screenLockedHandler_ : option LastUnfoInfo;
  initFlag_ : bool;
  mmi_tasks_ : option (list (Posted MmiTask));
  isMMIFreezed_ : bool;
  listener_tasks_ : option (list (Posted ListenerTask));
  recommender_ : Recommender;
  now_ : Z
}.

Definition set_conditions (x : Conditions) (n : Notifier) : Notifier :=
  mkNotifier x (accountId_ n) (mmiMonitorId_ n) (send_tasks_ n) (screenLockedHandler_ n) (initFlag_ n)
    (mmi_tasks_ n) (isMMIFreezed_ n) (listener_tasks_ n) (recommender_ n) (now_ n).
Definition set_accountId (x : Z) (n : Notifier) : Notifier :=
  mkNotifier (conditions_ n) x (mmiMonitorId_ n) (send_tasks_ n) (screenLockedHandler_ n) (initFlag_ n)
    (mmi_tasks_ n) (isMMIFreezed_ n) (listener_tasks_ n) (recommender_ n) (now_ n).
Definition set_mmiMonitorId (x : Z) (n : Notifier) : Notifier :=
  mkNotifier (conditions_ n) (accountId_ n) x (send_tasks_ n) (screenLockedHandler_ n) (initFlag_ n)
    (mmi_tasks_ n) (isMMIFreezed_ n) (listener_tasks_ n) (recommender_ n) (now_ n).
Definition set_send_tasks (x : option (list (Posted SendTask))) (n : Notifier) : Notifier :=
  mkNotifier (conditions_ n) (accountId_ n) (mmiMonitorId_ n) x (screenLockedHandler_ n) (initFlag_ n)
    (mmi_tasks_ n) (isMMIFreezed_ n) (listener_tasks_ n) (recommender_ n) (now_ n).
Definition set_screenLocked (x : option LastUnfoInfo) (n : Notifier) : Notifier :=
  mkNotifier (conditions_ n) (accountId_ n) (mmiMonitorId_ n) (send_tasks_ n) x (initFlag_ n)
    (mmi_tasks_ n) (isMMIFreezed_ n) (listener_tasks_ n) (recommender_ n) (now_ n).
Definition set_initFlag (x : bool) (n : Notifier) : Notifier :=
  mkNotifier (conditions_ n) (accountId_ n) (mmiMonitorId_ n) (send_tasks_ n) (screenLockedHandler_ n) x
    (mmi_tasks_ n) (isMMIFreezed_ n) (listener_tasks_ n) (recommender_ n) (now_ n).
Definition set_mmi_tasks (x : option (list (Posted MmiTask))) (n : Notifier) : Notifier :=
  mkNotifier (conditions_ n) (accountId_ n) (mmiMonitorId_ n) (send_tasks_ n) (screenLockedHandler_ n) (initFlag_ n)
    x (isMMIFreezed_ n) (listener_tasks_ n) (recommender_ n) (now_ n).
Definition set_freezed (x : bool) (n : Notifier) : Notifier :=
  mkNotifier (conditions_ n) (accountId_ n) (mmiMonitorId_ n) (send_tasks_ n) (screenLockedHandler_ n) (initFlag_ n)
    (mmi_tasks_ n) x (listener_tasks_ n) (recommender_ n) (now_ n).
Definition set_listener_tasks (x : option (list (Posted ListenerTask))) (n : Notifier) : Notifier :=
  mkNotifier (conditions_ n) (accountId_ n) (mmiMonitorId_ n) (send_tasks_ n) (screenLockedHandler_ n) (initFlag_ n)
    (mmi_tasks_ n) (isMMIFreezed_ n) x (recommender_ n) (now_ n).
Definition set_recommender (x : Recommender) (n : Notifier) : Notifier :=
  mkNotifier (conditions_ n) (accountId_ n) (mmiMonitorId_ n) (send_tasks_ n) (screenLockedHandler_ n) (initFlag_ n)
    (mmi_tasks_ n) (isMMIFreezed_ n) (listener_tasks_ n) x (now_ n).
Definition set_now (x : Z) (n : Notifier) : Notifier :=
  mkNotifier (conditions_ n) (accountId_ n) (mmiMonitorId_ n) (send_tasks_ n) (screenLockedHandler_ n) (initFlag_ n)
    (mmi_tasks_ n) (isMMIFreezed_ n) (listener_tasks_ n) (recommender_ n) x.

(** What is asked besides the conditions' questions.  The managers of a user are looked up
    by the caller or as those of the current user; the modelled one is found or none is. *)
Class SenderEnv := {
  AddMonitor : list Effect -> Z;
  GetForegroundAccountUid : list Effect -> option bytes;
  GetBundleNameId : list Effect -> bytes -> Z * Z;
  GetContinueTypeId : list Effect -> bytes -> bytes -> Z * Z;
  IsCallerForeground : list Effect -> Z -> bool;
  HasSendMgrByCallingUid : list Effect -> Z -> bool;
  HasCurrentSendMgr : list Effect -> bool;
  HasRecomMgrByCallingUid : list Effect -> Z -> bool;
  HasCurrentRecomMgr : list Effect -> bool;
  HasCurrentRecvMgr : list Effect -> bool;
  IsContinueSwitchOn : list Effect -> bool;
  GetAppLaunchTime : list Effect -> bytes -> Z
}.

Section Operations.
Context {Ev : ConditionEnv} {SE : SenderEnv} {RcE : RecommendEnv}.

Definition Nt (A : Type) : Type := M Notifier Effect A.

Definition query {A} (oracle : list Effect -> A) : Nt A := call Query oracle.

(** A function of the conditions. *)
Definition on_conditions {A} (m : Cn A) : Nt A :=
  fun n t => let* (a, c, t') := m (conditions_ n) t in Done (a, set_conditions c n, t').

Definition Notifier_new : Notifier :=
  mkNotifier Conditions_new DEFAULT_USER INVALID_ID None None false None false None Recommender_new 0.

(** ** The thread of the manager *)

(** [eventHandler_->PostTask(func, name, delay)]; without a handler nothing is posted. *)
Definition PostTask (task : SendTask) (name : bytes) (delay : Z) : Nt unit :=
  modify (fun n => match send_tasks_ n with
    | Some l => set_send_tasks (Some (insert_task (mkPosted (now_ n + delay) name task) l)) n
    | None => n
    end).

Definition RemoveTask (name : bytes) : Nt unit :=
  modify (fun n => match send_tasks_ n with
    | Some l => set_send_tasks (Some (remove_tasks name l)) n
    | None => n
    end).

(** [CHECK_POINTER_RETURN(eventHandler_)]. *)
Definition with_handler (m : Nt unit) : Nt unit :=
  let! n := get in
  match send_tasks_ n with Some _ => m | None => mret tt end.

(** ** The screen lock *)

Definition no_status : MissionStatus := zero_status.

Definition ResetScreenLockedInfo : Nt unit :=
  modify (fun n => match screenLockedHandler_ n with
    | Some _ => set_screenLocked (Some (mkLastUnfoInfo INVALID_MISSION_ID 0 no_status)) n
    | None => n
    end).

(** The time goes to an [int32_t]. *)
Definition SetScreenLockedInfo (info : LastUnfoInfo) : Nt unit :=
  modify (fun n => match screenLockedHandler_ n with
    | Some _ =>
      set_screenLocked (Some (mkLastUnfoInfo (unfo_missionId info) (to_int32 (now_ n)) (unfo_status info))) n
    | None => n
    end).

Definition SetMissionContinueStateInfo (status : MissionStatus) : Nt unit :=
  modify (fun n => match screenLockedHandler_ n with
    | Some i =>
      set_screenLocked (Some (mkLastUnfoInfo (unfo_missionId i) (unfoTime i)
        (set_continueState (continueState status) (unfo_status i)))) n
    | None => n
    end).

(** A call through [screenLockedHandler_->], which must not be null. *)
Definition deref_screenLocked : Nt LastUnfoInfo :=
  let! n := get in
  match screenLockedHandler_ n with Some i => mret i | None => undefined end.

(** ** Input *)

Definition AddMMIListener : Nt unit :=
  let! n := get in
  if 0 <=? mmiMonitorId_ n then mret tt
  else
    let! id := call MMIListenerAdded AddMonitor in
    do! modify (set_freezed false) in
    modify (set_mmiMonitorId id).

Definition RemoveMMIListener : Nt unit :=
  let! n := get in
  if mmiMonitorId_ n <? 0 then mret tt
  else
    let! (mission, status) := on_conditions (GetFocusedMissionStatus (accountId_ n)) in
    let offered := match status with Some s => isContinuable s && is_active s | None => false end in
    if (0 <=? mission) && offered then mret tt
    else
      do! emit (MMIListenerRemoved (mmiMonitorId_ n)) in
      modify (set_mmiMonitorId INVALID_MISSION_ID).

(** ** Strategies *)

Definition SendContinueBroadcastAfterDelay (mission : Z) : Nt unit :=
  with_handler (
    do! RemoveTask (timeoutTaskName mission) in
    PostTask (TaskTimeout mission) (timeoutTaskName mission) FOCUS_TIMEOUT_DELAY_TIME).

Definition SendStrategyFocused (status : MissionStatus) : Nt (Z * Z) :=
  do! AddMMIListener in
  do! SendContinueBroadcastAfterDelay (missionId status) in
  let! n := get in
  match screenLockedHandler_ n with
  | None => mret (ERR_OK, 0)
  | Some _ => do! ResetScreenLockedInfo in mret (ERR_OK, BROADCAST_TYPE_APPEAR)
  end.

Definition SendStrategyUnfocused (status : MissionStatus) : Nt (Z * Z) :=
  do! RemoveMMIListener in mret (SKIP_UNFOCUSED_TYPE, 0).

Definition SendStrategyBackground (status : MissionStatus) : Nt (Z * Z) :=
  let! n := get in
  match screenLockedHandler_ n with
  | None => mret (ERR_OK, BROADCAST_TYPE_DISAPPEAR)
  | Some _ =>
    do! SetScreenLockedInfo (mkLastUnfoInfo (missionId status) (to_int32 (now_ n)) status) in
    let! locked := on_conditions IsScreenLocked in
    mret (if (locked : bool) then DMS_PERMISSION_DENIED else ERR_OK, BROADCAST_TYPE_DISAPPEAR)
  end.

Definition SendStrategyDestoryed (status : MissionStatus) : Nt (Z * Z) :=
  do! RemoveMMIListener in mret (ERR_OK, BROADCAST_TYPE_DISAPPEAR).

Definition SendStrategyActive (status : MissionStatus) : Nt (Z * Z) :=
  do! AddMMIListener in
  do! SendContinueBroadcastAfterDelay (missionId status) in
  mret (ERR_OK, BROADCAST_TYPE_APPEAR).

Definition SendStrategyInactive (status : MissionStatus) : Nt (Z * Z) :=
  do! RemoveMMIListener in
  let! i := deref_screenLocked in
  do! when missionId status =? unfo_missionId i do SetMissionContinueStateInfo status in
  mret (ERR_OK, BROADCAST_TYPE_DISAPPEAR).

Definition SendStrategyTimeout (status : MissionStatus) : Nt (Z * Z) := mret (ERR_OK, BROADCAST_TYPE_DISAPPEAR).

Definition SendStrategyMMI (status : MissionStatus) : Nt (Z * Z) :=
  do! SendContinueBroadcastAfterDelay (missionId status) in mret (ERR_OK, BROADCAST_TYPE_APPEAR).

Definition SendStrategyContinueSwitchOff (status : MissionStatus) : Nt (Z * Z) :=
  mret (ERR_OK, BROADCAST_TYPE_DISAPPEAR).

(** [strategyMap_], which Init fills with the handler of the screen lock. *)
Definition strategyMap_ (type : MissionEventType) : option (MissionStatus -> Nt (Z * Z)) :=
  match type with
  | MISSION_EVENT_FOCUSED => Some SendStrategyFocused
  | MISSION_EVENT_UNFOCUSED => Some SendStrategyUnfocused
  | MISSION_EVENT_DESTORYED => Some SendStrategyDestoryed
  | MISSION_EVENT_BACKGROUND => Some SendStrategyBackground
  | MISSION_EVENT_ACTIVE => Some SendStrategyActive
  | MISSION_EVENT_INACTIVE => Some SendStrategyInactive
  | MISSION_EVENT_TIMEOUT => Some SendStrategyTimeout
  | MISSION_EVENT_MMI => Some SendStrategyMMI
  | MISSION_EVENT_CONTINUE_SWITCH_OFF => Some SendStrategyContinueSwitchOff
  | _ => None
  end.

(** The result and the type to send. *)
Definition ExecuteSendStrategy (type : MissionEventType) (status : MissionStatus) : Nt (Z * Z) :=
  let! n := get in
  match screenLockedHandler_ n, strategyMap_ type with
  | Some _, Some strategy => strategy status
  | _, _ => mret (INVALID_PARAMETERS_ERR, 0)
  end.

(** ** Broadcasts *)

(** The result and the two numbers of the bundle and the continue type. *)
Definition QueryBroadcastInfo (status : MissionStatus) : Nt (Z * Z * Z) :=
  if empty (bundleName status) || empty (abilityName status) then mret (INVALID_PARAMETERS_ERR, 0, 0)
  else
    let! (ret, bundleNameId) := query (fun t => GetBundleNameId t (bundleName status)) in
    if negb (ret =? ERR_OK) then mret (ret, u16 bundleNameId, 0)
    else
      let! (ret, continueTypeId) :=
        query (fun t => GetContinueTypeId t (bundleName status) (abilityName status)) in
      mret (ret, u16 bundleNameId, Z.land continueTypeId DMS_0XFF).

(** The four bytes are written through the pointer of the buffer; each is a [uint8_t]. *)
Definition event_buffer (bundleNameId continueTypeId type : Z) : run (option DataBuffer) :=
  let b := DSched.make_buffer DMS_SEND_LEN in
  match DSched.Data b, data_ b with
  | Some p, Some d =>
    if DSched.Size b <? DMS_SEND_LEN then Done None
    else
      let* d := store8 d p (Z.land (Z.lor (Z.shiftl type CONTINUE_SHIFT_04) DMS_DATA_LEN) DMS_0XFF) in
      let* d := store8 d (p + 1) (Z.land (Z.shiftr bundleNameId CONTINUE_SHIFT_08) DMS_0XFF) in
      let* d := store8 d (p + 2) (Z.land bundleNameId DMS_0XFF) in
      let* d := store8 d (p + 3) (Z.land continueTypeId DMS_0XFF) in
      Done (Some (set_data b (Some d)))
  | _, _ => Done None
  end.

Definition SendSoftbusEvent (bundleNameId continueTypeId type : Z) (uid : bytes) : Nt unit :=
  let! b := from_run (event_buffer bundleNameId continueTypeId type) in
  match b with
  | Some b => emit (SoftbusEventSent b uid)
  | None => mret tt
  end.

(** The account of the foreground user, "0" when it is not known. *)
Definition foreground_uid : Nt bytes :=
  let! uid := query GetForegroundAccountUid in
  mret (match uid with Some u => u | None => str "0" end).

Definition SendContinueBroadcast (status : MissionStatus) (type : MissionEventType) : Nt unit :=
  do! when bool_decide (type = MISSION_EVENT_DESTORYED) do
    (do! deref_screenLocked in ResetScreenLockedInfo) in
  let! uid := foreground_uid in
  let! system := on_conditions (CheckSystemSendCondition status) in
  let! mission := if (system : bool) then on_conditions (CheckMissionSendCondition status type) else mret false in
  if negb mission then mret tt
  else
    let! (ret, sendType) := ExecuteSendStrategy type status in
    if negb (ret =? ERR_OK) then mret tt
    else
      let! (ret, bundleNameId, continueTypeId) := QueryBroadcastInfo status in
      if negb (ret =? ERR_OK) then mret tt
      else SendSoftbusEvent bundleNameId continueTypeId sendType uid.

(** The overload for a mission's number. *)
Definition SendContinueBroadcast_mission (mission : Z) (type : MissionEventType) : Nt unit :=
  let! n := get in
  let! (_, status) := on_conditions (GetMissionStatus (accountId_ n) mission) in
  match status with
  | None => mret tt
  | Some status => SendContinueBroadcast status type
  end.

Definition CheckContinueState (mission : Z) : Nt Z :=
  let! (ret, info) := query (fun t => GetMissionInfo t mission) in
  if negb (ret =? ERR_OK) then mret INVALID_PARAMETERS_ERR
  else if negb (bool_decide (info_continueState info = CONTINUESTATE_ACTIVE)) then mret INVALID_PARAMETERS_ERR
  else mret ERR_OK.

(** Without the handler ERR_NULL_OBJECT of another component is answered; no caller reads the
    result, so a number outside the codes stands for it. *)
Definition SendScreenLockedEvent (type : Z) : Nt Z :=
  let! n := get in
  match screenLockedHandler_ n with
  | None => mret (-1)
  | Some _ =>
    let! status := on_conditions GetLastContinuableMissionStatus in
    let! ret := CheckContinueState (missionId status) in
    if negb (ret =? ERR_OK) then mret ret
    else
      let! (ret, bundleNameId, continueTypeId) := QueryBroadcastInfo status in
      if negb (ret =? ERR_OK) then mret ret
      else
        let! system := on_conditions (CheckSystemSendCondition status) in
        if negb system then mret DMS_PERMISSION_DENIED
        else if negb (is_active status) then mret DMS_PERMISSION_DENIED
        else
          let! uid := foreground_uid in
          do! SendSoftbusEvent bundleNameId continueTypeId type uid in
          mret ERR_OK
  end.

Definition PostScreenLockedEventAfterDelay (mission type timeout : Z) : Nt unit :=
  with_handler (
    do! RemoveTask (timeoutTaskName mission) in
    if timeout =? 0 then PostTask (TaskScreenLockedEvent type) [] 0
    else PostTask (TaskScreenLockedEvent type) (timeoutTaskName mission) timeout).

(** [ScreenLockedHandler::OnDeviceScreenLocked], after the null check of the task. *)
Definition ScreenLocked_OnDeviceScreenLocked : Nt unit :=
  let! n := get in
  match screenLockedHandler_ n with
  | None => mret tt
  | Some i =>
    let! last := on_conditions GetLastContinuableMissionStatus in
    do! when negb (missionId last =? INVALID_MISSION_ID) && (now_ n - unfoTime i <? SCREEN_LOCK_EVENT_INTERVAL) do
      PostScreenLockedEventAfterDelay (missionId last) DMS_FOCUSED_TYPE 0 in
    PostScreenLockedEventAfterDelay (missionId last) DMS_UNFOCUSED_TYPE SCREEN_LOCK_DELAY_TIME
  end.

(** ** What other parts call *)

Definition Init (currentUserId : Z) : Nt unit :=
  modify (fun n => match send_tasks_ n with
    | Some _ => n
    | None =>
      set_initFlag true (set_send_tasks (Some []) (set_accountId currentUserId
        (set_screenLocked (Some (mkLastUnfoInfo INVALID_MISSION_ID 0 no_status)) n)))
    end).

Definition UnInit : Nt unit :=
  modify (fun n => set_send_tasks None (set_initFlag false n)).

Definition OnMissionStatusChanged (mission : Z) (type : MissionEventType) : Nt unit :=
  let! n := get in
  let! (_, status) := on_conditions (GetMissionStatus (accountId_ n) mission) in
  match status with
  | None => mret tt
  | Some status =>
    with_handler (
      if negb (initFlag_ n) then mret tt
      else
        do! when negb (bool_decide (type = MISSION_EVENT_UNFOCUSED)) do RemoveTask (timeoutTaskName mission) in
        PostTask (TaskStatusChanged status type) [] 0)
  end.

Definition OnMMIEvent : Nt unit := with_handler (PostTask TaskMMIEvent [] 0).

Definition OnDeviceOnline : Nt Z :=
  let! mission := query GetCurrentMissionId in
  if mission <=? 0 then mret INVALID_MISSION_ID
  else do! OnMissionStatusChanged mission MISSION_EVENT_FOCUSED in mret ERR_OK.

Definition OnDeviceScreenLocked : Nt unit := with_handler (PostTask TaskScreenLocked [] 0).

Definition OnUserSwitched : Nt unit :=
  with_handler (
    do! PostTask TaskUserSwitched [] 0 in
    let! n := get in
    match screenLockedHandler_ n with
    | None => mret tt
    | Some i => RemoveTask (timeoutTaskName (unfo_missionId i))
    end).

Definition run_send_task (task : SendTask) : Nt unit :=
  match task with
  | TaskStatusChanged status type => SendContinueBroadcast status type
  | TaskMMIEvent =>
    let! n := get in
    let! mission := on_conditions (GetCurrentFocusedMission (accountId_ n)) in
    do! RemoveTask (timeoutTaskName mission) in
    SendContinueBroadcast_mission mission MISSION_EVENT_MMI
  | TaskScreenLocked => ScreenLocked_OnDeviceScreenLocked
  | TaskUserSwitched =>
    do! RemoveMMIListener in
    do! SendScreenLockedEvent DMS_UNFOCUSED_TYPE in mret tt
  | TaskTimeout mission => SendContinueBroadcast_mission mission MISSION_EVENT_TIMEOUT
  | TaskScreenLockedEvent type => do! SendScreenLockedEvent type in mret tt
  end.

(** One turn of the manager's thread: the first task, once it is due. *)
Definition send_turn : Nt unit :=
  let! n := get in
  match send_tasks_ n with
  | Some (p :: l) =>
    if due p <=? now_ n then do! modify (set_send_tasks (Some l)) in run_send_task (task p) else mret tt
  | _ => mret tt
  end.

(** ** The adapter of input *)

(** [eventHandler_->PostTask(func, name, delay)] of the adapter. *)
Definition PostMmiTask (task : MmiTask) (name : bytes) (delay : Z) : Nt unit :=
  modify (fun n => match mmi_tasks_ n with
    | Some l => set_mmi_tasks (Some (insert_task (mkPosted (now_ n + delay) name task) l)) n
    | None => n
    end).

Definition MMIAdapter_Init : Nt unit :=
  modify (fun n => match mmi_tasks_ n with Some _ => n | None => set_mmi_tasks (Some []) n end).
Definition MMIAdapter_UnInit : Nt unit := modify (set_mmi_tasks None).

(** An event of a key, a pointer or an axis. *)
Definition OnInputEvent : Nt unit := PostMmiTask TaskRawMMIEvent [] 0.

Definition PostUnfreezeMMIEvent : Nt unit :=
  PostMmiTask TaskUnfreezeMMIEvent FREEZE_MMI_EVENT_TASK FREEZE_MMI_EVENT_INTERVAL.

Definition HandleRawMMIEvent : Nt unit :=
  let! n := get in
  if isMMIFreezed_ n then mret tt
  else
    do! modify (set_freezed true) in
    let! found := query HasCurrentSendMgr in
    if negb found then mret tt
    else do! OnMMIEvent in PostUnfreezeMMIEvent.

Definition HandleUnfreezeMMIEvent : Nt unit := modify (set_freezed false).

Definition mmi_turn : Nt unit :=
  let! n := get in
  match mmi_tasks_ n with
  | Some (p :: l) =>
    if due p <=? now_ n then
      do! modify (set_mmi_tasks (Some l)) in
      match task p with
      | TaskRawMMIEvent => HandleRawMMIEvent
      | TaskUnfreezeMMIEvent => HandleUnfreezeMMIEvent
      end
    else mret tt
  | _ => mret tt
  end.

(** ** The manager of recommendations *)

(** [DMSContinueRecomMgr::OnMissionStatusChanged]. *)
Definition Recommend_OnMissionStatusChanged (mission : Z) (type : MissionEventType) : Nt unit :=
  let! n := get in
  let! (_, status) := on_conditions (GetMissionStatus (recom_accountId_ (recommender_ n)) mission) in
  match status with
  | None => mret tt
  | Some status => modify (fun n => set_recommender (recom_post (now_ n) status type (recommender_ n)) n)
  end.

Definition OnDeviceChanged : Nt unit :=
  let! mission := query GetCurrentMissionId in
  if mission <=? 0 then mret tt else Recommend_OnMissionStatusChanged mission MISSION_EVENT_FOCUSED.

Definition recommend_turn : Nt unit :=
  let! n := get in
  let r := recommender_ n in
  match recom_tasks_ r with
  | Some (p :: l) =>
    if due p <=? now_ n then
      do! modify (set_recommender (mkRecommender (recom_accountId_ r) (hasInit_ r) (Some l))) in
      on_conditions (PublishContinueRecommend (recom_accountId_ r) (task p).1 (task p).2)
    else mret tt
  | _ => mret tt
  end.

(** ** The listener of missions *)

Definition Listener_Init : Nt unit :=
  modify (fun n => match listener_tasks_ n with Some _ => n | None => set_listener_tasks (Some []) n end).
Definition Listener_UnInit : Nt unit := modify (set_listener_tasks None).

(** An event of the ability manager: of the caller in the foreground only, a task is posted. *)
Definition on_mission_event (task : ListenerTask) (callingUid : Z) : Nt unit :=
  let! foreground := query (fun t => IsCallerForeground t callingUid) in
  if negb foreground then mret tt
  else modify (fun n => match listener_tasks_ n with
    | Some l => set_listener_tasks (Some (insert_task (mkPosted (now_ n) [] task) l)) n
    | None => n
    end).

Definition OnMissionDestroyed (mission uid : Z) : Nt unit := on_mission_event (TaskMissionDestroyed mission uid) uid.
Definition Listener_OnMissionFocused (mission uid : Z) : Nt unit :=
  on_mission_event (TaskMissionFocused mission uid) uid.
Definition Listener_OnMissionUnfocused (mission uid : Z) : Nt unit :=
  on_mission_event (TaskMissionUnfocused mission uid) uid.
Definition OnMissionMovedToBackground (mission uid : Z) : Nt unit :=
  on_mission_event (TaskMissionBackground mission uid) uid.
Definition OnMissionClosed (mission uid : Z) : Nt unit := on_mission_event (TaskMissionClosed mission uid) uid.

Definition update_status (account mission : Z) (type : MissionEventType) : Nt unit :=
  do! on_conditions (UpdateMissionStatus account mission type) in mret tt.

(** [recomMgr->OnMissionStatusChanged]; without the manager the task ends. *)
Definition with_recommend (found : list Effect -> bool) (mission : Z) (type : MissionEventType) (m : Nt unit) : Nt unit :=
  let! found := query found in
  if negb found then mret tt else do! Recommend_OnMissionStatusChanged mission type in m.

(** The bundle of a mission was just started and is left again. *)
Definition report_accident (account mission : Z) (short : Z -> bool) : Nt unit :=
  let! (_, status) := on_conditions (GetMissionStatus account mission) in
  let bundle := match status with Some s => bundleName s | None => [] end in
  let! appLaunchTime := query (fun t => GetAppLaunchTime t bundle) in
  when (0 <? appLaunchTime) && short appLaunchTime do emit (AccidentalContinuation bundle).

Definition run_listener_task (task : ListenerTask) : Nt unit :=
  match task with
  | TaskMissionDestroyed mission uid =>
    let! account := query GetForegroundUser in
    do! report_accident account mission (fun ms => ms <=? ACCIDENTAL_TOUCH_THRESHOLD_MS) in
    do! emit (TerminateContinuation mission) in
    let! found := query (fun t => HasSendMgrByCallingUid t uid) in
    if negb found then mret tt
    else
      do! OnMissionStatusChanged mission MISSION_EVENT_DESTORYED in
      with_recommend (fun t => HasRecomMgrByCallingUid t uid) mission MISSION_EVENT_DESTORYED
        (update_status account mission MISSION_EVENT_DESTORYED)
  | TaskMissionFocused mission uid =>
    let! account := query GetForegroundUser in
    do! update_status account mission MISSION_EVENT_FOCUSED in
    let! found := query (fun t => HasSendMgrByCallingUid t uid) in
    if negb found then mret tt
    else
      do! OnMissionStatusChanged mission MISSION_EVENT_FOCUSED in
      with_recommend (fun t => HasRecomMgrByCallingUid t uid) mission MISSION_EVENT_FOCUSED (mret tt)
  | TaskMissionUnfocused mission uid =>
    let! found := query (fun t => HasSendMgrByCallingUid t uid) in
    if negb found then mret tt
    else
      do! OnMissionStatusChanged mission MISSION_EVENT_UNFOCUSED in
      with_recommend (fun t => HasRecomMgrByCallingUid t uid) mission MISSION_EVENT_UNFOCUSED (
        let! account := query GetForegroundUser in
        update_status account mission MISSION_EVENT_UNFOCUSED)
  | TaskMissionBackground mission uid =>
    let! account := query GetForegroundUser in
    do! report_accident account mission (fun ms => ms <? ACCIDENTAL_TOUCH_THRESHOLD_MS) in
    let! found := query (fun t => HasSendMgrByCallingUid t uid) in
    if negb found then mret tt
    else
      do! OnMissionStatusChanged mission MISSION_EVENT_BACKGROUND in
      update_status account mission MISSION_EVENT_BACKGROUND
  | TaskMissionClosed mission uid =>
    let! found := query HasCurrentSendMgr in
    if negb found then mret tt
    else
      do! OnMissionStatusChanged mission MISSION_EVENT_DESTORYED in
      with_recommend (fun t => HasRecomMgrByCallingUid t uid) mission MISSION_EVENT_DESTORYED (
        let! account := query GetForegroundUser in
        update_status account mission MISSION_EVENT_DESTORYED)
  end.

Definition listener_turn : Nt unit :=
  let! n := get in
  match listener_tasks_ n with
  | Some (p :: l) =>
    if due p <=? now_ n then do! modify (set_listener_tasks (Some l)) in run_listener_task (task p) else mret tt
  | _ => mret tt
  end.

(** ** The handlers of the service *)

(** [DistributedSchedService::SetMissionContinueState]. *)
Definition SetMissionContinueState (mission : Z) (state : ContinueState) (callingUid : Z) : Nt Z :=
  let! foreground := query (fun t => IsCallerForeground t callingUid) in
  if negb foreground then mret DMS_NOT_FOREGROUND_USER
  else
    let event := if bool_decide (state = CONTINUESTATE_ACTIVE) then MISSION_EVENT_ACTIVE else MISSION_EVENT_INACTIVE in
    let! account := query GetForegroundUser in
    do! update_status account mission event in
    let! found := query HasCurrentSendMgr in
    if negb found then mret DMS_NOT_GET_MANAGER
    else
      do! OnMissionStatusChanged mission event in
      let! found := query HasCurrentRecomMgr in
      if negb found then mret DMS_NOT_GET_MANAGER
      else do! Recommend_OnMissionStatusChanged mission event in mret ERR_OK.

(** The callback of [RegisterDataShareObserver]: the user has turned the switch.  The flag
    that [SetCurrentContinueSwitch] stores is read back at once. *)
Definition OnContinueSwitchChanged : Nt unit :=
  let! found := query HasCurrentSendMgr in
  if negb found then mret tt
  else
    let! continueSwitch := query IsContinueSwitchOn in
    let! last := on_conditions GetLastContinuableMissionStatus in
    do! when negb continueSwitch do OnMissionStatusChanged (missionId last) MISSION_EVENT_CONTINUE_SWITCH_OFF in
    let! status := query IsContinueSwitchOn in
    do! on_conditions (UpdateSystemStatus SYS_EVENT_CONTINUE_SWITCH status) in
    let! mission := query GetCurrentMissionId in
    if (status : bool) then
      do! OnMissionStatusChanged mission MISSION_EVENT_FOCUSED in
      emit ContinuationsStarted
    else
      do! OnMissionStatusChanged mission MISSION_EVENT_UNFOCUSED in
      let! found := query HasCurrentRecvMgr in
      if negb found then mret tt
      else do! emit RecvContinueSwitchOff in emit ContinuationsStopped.

(** [CommonEventListener]; DMS_ICON_HOLD_ON is not set. *)
Definition HandleScreenLocked : Nt unit :=
  do! on_conditions (UpdateSystemStatus SYS_EVENT_SCREEN_LOCK true) in
  let! found := query HasCurrentSendMgr in
  if negb found then mret tt else OnDeviceScreenLocked.
Definition HandleScreenUnLocked : Nt unit :=
  do! on_conditions (UpdateSystemStatus SYS_EVENT_SCREEN_LOCK false) in mret tt.

(** [WifiStateAdapter::UpdateWifiState]. *)
Definition UpdateWifiState (active : bool) : Nt unit :=
  do! on_conditions (UpdateSystemStatus SYS_EVENT_WIFI active) in mret tt.

(** ** Runs *)

Inductive Move :=
| CallInit (currentUserId : Z)
| CallUnInit
| CallConditionsInit
| CallConditionsUnInit
| CallUserSwitched (accountId : Z)
| CallSenderUserSwitched
| CallUserRemoved (accountId : Z)
| CallAdapterInit
| CallAdapterUnInit
| CallListenerInit
| CallListenerUnInit
| MissionEvent (task : ListenerTask) (callingUid : Z)
| InputEvent
| CallDeviceOnline
| CallSetMissionContinueState (missionId : Z) (state : ContinueState) (callingUid : Z)
| SwitchChanged
| ScreenLocked
| ScreenUnLocked
| WifiChanged (active : bool)
| CallRecommendInit (currentAccountId : Z)
| CallRecommendUnInit
| CallDeviceChanged
| RecommendTurn
| SendTurn
| MmiTurn
| ListenerTurn
| Wait (ms : Z).

Definition make_move (m : Move) : Nt unit :=
  match m with
  | CallInit user => Init user
  | CallUnInit => UnInit
  | CallConditionsInit => on_conditions MissionConditions.Init
  | CallConditionsUnInit => on_conditions MissionConditions.UnInit
  | CallUserSwitched account => on_conditions (MissionConditions.OnUserSwitched account)
  | CallSenderUserSwitched => OnUserSwitched
  | CallUserRemoved account => on_conditions (OnUserRemoved account)
  | CallAdapterInit => MMIAdapter_Init
  | CallAdapterUnInit => MMIAdapter_UnInit
  | CallListenerInit => Listener_Init
  | CallListenerUnInit => Listener_UnInit
  | MissionEvent task uid => on_mission_event task uid
  | InputEvent => OnInputEvent
  | CallDeviceOnline => do! OnDeviceOnline in mret tt
  | CallSetMissionContinueState mission state uid => do! SetMissionContinueState mission state uid in mret tt
  | SwitchChanged => OnContinueSwitchChanged
  | ScreenLocked => HandleScreenLocked
  | ScreenUnLocked => HandleScreenUnLocked
  | WifiChanged active => UpdateWifiState active
  | CallRecommendInit account => modify (fun n => set_recommender (recom_Init account (recommender_ n)) n)
  | CallRecommendUnInit => modify (fun n => set_recommender (recom_UnInit (recommender_ n)) n)
  | CallDeviceChanged => OnDeviceChanged
  | RecommendTurn => recommend_turn
  | SendTurn => send_turn
  | MmiTurn => mmi_turn
  | ListenerTurn => listener_turn
  | Wait ms => modify (fun n => set_now (now_ n + Z.max 0 ms) n)
  end.

Fixpoint make_moves (l : list Move) : Nt unit :=
  match l with
  | [] => mret tt
  | m :: l => do! make_move m in make_moves l
  end.
End Operations.
