(* ===== verification/ContinueSenderLemmas.v ===== *)
(** * Lemmas about the notifications of a mission

    The invariant of the notifier, [notifier_ok], and that every operation returns and keeps
    it; which operations broadcast; what a broadcast holds. *)

From Stdlib Require Import ZArith Lia String Permutation.
From stdpp Require Import base list option.
From S2P Require Import Prelude ErrorCodes DataBuffer StdMap StdString EventQueue Effects MissionConditions MissionConditionsProperties ContinueRecommend ContinueRecommendProperties ContinueSender.
Import ErrorCodes.Dms.

(** ** The queue of the manager *)

Definition named (l : list (Posted SendTask)) : list bytes :=
  List.filter (fun name => negb (empty name)) (map taskName l).

(** A task with a name is the timeout of the mission of that name; there is at most one. *)
Definition task_ok (p : Posted SendTask) : Prop :=
  taskName p = [] \/ exists mission, taskName p = timeoutTaskName mission /\
    (task p = TaskTimeout mission \/ exists type, task p = TaskScreenLockedEvent type).

Definition queue_ok (l : list (Posted SendTask)) : Prop := base.NoDup (named l) /\ Forall task_ok l.

Lemma named_insert p l : Permutation (named (insert_task p l)) (named (p :: l)).
Proof. apply Permutation_List_filter, Permutation_map, insert_task_Permutation. Qed.

Lemma In_named name l : In name (named l) <-> name <> [] /\ exists p, In p l /\ taskName p = name.
Proof.
  unfold named. rewrite List.filter_In, in_map_iff. split.
  - intros ((p & <- & Hp) & Hn). split; [by destruct (taskName p)|]. by exists p.
  - intros (Hn & p & Hp & <-). split; [by exists p|]. by destruct (taskName p).
Qed.

Lemma queue_ok_insert p l :
  queue_ok l -> task_ok p -> (forall q, In q l -> taskName q = taskName p -> taskName p = []) -> queue_ok (insert_task p l).
Proof.
  intros [Hn Hf] Hp Hq. split.
  - rewrite named_insert. unfold named in *. cbn. destruct (empty (taskName p)) eqn:E; cbn; [done|].
    constructor; [|done]. rewrite list_elem_of_In. intros Hin. apply (In_named (taskName p) l) in Hin as (Hne & q & Hq2 & E2).
    by apply Hne, (Hq q).
  - rewrite List.Forall_forall in Hf |- *. intros q [->|Hin]%In_insert_task; [done|by apply Hf].
Qed.

Lemma queue_ok_remove name l : queue_ok l -> queue_ok (remove_tasks name l).
Proof.
  intros [Hn Hf]. split.
  - unfold named, remove_tasks in *. clear Hf. induction l as [|p l IH]; [done|]. cbn in Hn |- *.
    assert (base.NoDup (List.filter (fun n => negb (empty n)) (map taskName l))) as Hn2.
    { destruct (negb (empty (taskName p))); [by inversion_clear Hn|done]. }
    destruct (negb (bytes_eqb (taskName p) name)) eqn:E; [|by apply IH]. cbn.
    destruct (empty (taskName p)) eqn:E2; cbn in *; [by apply IH|]. constructor; [|by apply IH].
    inversion_clear Hn as [|? ? Hni _]. rewrite list_elem_of_In in Hni |- *. intros Hin. apply Hni.
    apply (In_named (taskName p)) in Hin as (Hne & q & Hq & Eq). apply List.filter_In in Hq as [Hq _].
    apply (In_named (taskName p)). eauto.
  - rewrite List.Forall_forall in Hf |- *. intros q [Hq _]%In_remove_tasks. by apply Hf.
Qed.

Lemma queue_ok_tail p l : queue_ok (p :: l) -> queue_ok l.
Proof.
  intros [Hn Hf]. inversion_clear Hf as [|? ? Hp Ht]. split; [|done]. unfold named in *. cbn in Hn.
  destruct (negb (empty (taskName p))); [by inversion_clear Hn|done].
Qed.

(** ** The invariant *)

Section Keeps.
Context {Ev : ConditionEnv} {SE : SenderEnv} {RcE : RecommendEnv}.

Record notifier_ok (n : Notifier) : Prop := mkNotifierOk {
  ok_conditions : cond_inv (conditions_ n);
  ok_handler : is_Some (send_tasks_ n) -> is_Some (screenLockedHandler_ n);
  ok_queue l : send_tasks_ n = Some l -> queue_ok l
}.

(** In a task of the manager the handler is there. *)
Definition state_ok (in_task : bool) (n : Notifier) : Prop :=
  notifier_ok n /\ (in_task = true -> is_Some (send_tasks_ n)).

(** What an operation promises: it returns, keeps the invariant and broadcasts nothing. *)
Definition keeps (b : bool) {A} (m : Nt A) : Prop :=
  forall n t, state_ok b n -> wp m (fun _ n' t' => state_ok b n' /\ quiet t t') n t.

Context {b : bool}.

Lemma sender_keeps_mret {A} (a : A) : keeps b (mret a).
Proof. intros n t H. apply wp_mret. eauto with dms. Qed.
Lemma sender_keeps_get : keeps b get.
Proof. intros n t H. apply wp_get. eauto with dms. Qed.
Lemma sender_keeps_emit e : is_broadcast e = false -> keeps b (emit e).
Proof. intros He n t H. apply wp_emit. eauto with dms. Qed.
Lemma sender_keeps_call {A} e (oracle : list Effect -> A) : is_broadcast e = false -> keeps b (call e oracle).
Proof. intros He n t H. apply wp_call. eauto with dms. Qed.
Lemma sender_keeps_modify f : (forall n, state_ok b n -> state_ok b (f n)) -> keeps b (modify f).
Proof. intros Hf n t H. apply wp_modify. eauto with dms. Qed.
Lemma sender_keeps_mbind {A B} (m : Nt A) (k : A -> Nt B) : keeps b m -> (forall a, keeps b (k a)) -> keeps b (mbind m k).
Proof.
  intros Hm Hk n t H. apply wp_mbind. eapply wp_mono; [by apply Hm|]. cbn. intros a n1 t1 (H1 & Q1).
  eapply wp_mono; [by apply Hk|]. cbn. intros r n2 t2 (H2 & Q2). split; [done|]. by eapply silent_trans.
Qed.

Lemma keeps_conditions {A} (m : Cn A) : keeps_cond m -> keeps b (on_conditions m).
Proof.
  intros Hm n t [[Hc Hh Hq] Hb]. destruct (Hm _ t Hc) as (a & c & t' & Hrun & Hc' & Q). unfold wp, on_conditions.
  rewrite Hrun. eexists _, _, _. split; [done|]. split; [|done]. split; [by split|done].
Qed.

(** A change that leaves the conditions, the queue and the handler of the lock alone. *)
Lemma state_ok_same f :
  (forall n, conditions_ (f n) = conditions_ n /\ send_tasks_ (f n) = send_tasks_ n /\
    screenLockedHandler_ (f n) = screenLockedHandler_ n) ->
  forall n, state_ok b n -> state_ok b (f n).
Proof.
  intros Hf n [[Hc Hh Hq] Hb]. destruct (Hf n) as (E1 & E2 & E3).
  split; [split|]; rewrite ?E1, ?E2, ?E3; auto.
Qed.

Ltac keeps_with base :=
  repeat match goal with
  | |- keeps _ _ => base
  | |- keeps _ (mret _) => apply sender_keeps_mret
  | |- keeps _ get => apply sender_keeps_get
  | |- keeps _ (query _) => apply sender_keeps_call; reflexivity
  | |- keeps _ (emit _) => apply sender_keeps_emit; reflexivity
  | |- keeps _ (call _ _) => apply sender_keeps_call; reflexivity
  | |- keeps _ (on_conditions _) => apply keeps_conditions; solve [auto with dms]
  | |- keeps _ (modify _) => apply sender_keeps_modify, state_ok_same; intros; split_and!; reflexivity
  | |- keeps _ (mbind _ _) => apply sender_keeps_mbind; [|let a := fresh in intros a]
  | |- keeps _ (with_handler _) => unfold with_handler
  | |- keeps _ (match ?x with _ => _ end) => destruct x eqn:?
  | |- keeps _ (let _ := _ in _) => cbv zeta
  end.

(** ** The queue *)

Lemma RemoveTask_keeps name : keeps b (RemoveTask name).
Proof.
  apply sender_keeps_modify. intros n [[Hc Hh Hq] Hb]. destruct (send_tasks_ n) as [l|] eqn:E; [|by split; [split|]; rewrite ?E].
  split; [split|]; cbn; auto. intros l' [= <-]. by apply queue_ok_remove, Hq.
Qed.

Lemma PostTask_keeps_queue task delay : keeps b (PostTask task [] delay).
Proof.
  apply sender_keeps_modify. intros n [[Hc Hh Hq] Hb]. destruct (send_tasks_ n) as [l|] eqn:E; [|by split; [split|]; rewrite ?E].
  split; [split|]; cbn; auto. intros l' [= <-]. apply queue_ok_insert; [by apply Hq|by left|done].
Qed.

(** The timeout of a mission is removed and posted again. *)
Lemma repost_keeps mission task delay :
  task = TaskTimeout mission \/ (exists type, task = TaskScreenLockedEvent type) ->
  keeps b (do! RemoveTask (timeoutTaskName mission) in PostTask task (timeoutTaskName mission) delay).
Proof.
  intros Ht n t [[Hc Hh Hq] Hb]. apply wp_mbind, wp_modify, wp_modify. split; [|eauto with dms].
  destruct (send_tasks_ n) as [l|] eqn:E; [|by rewrite E; split; [split|]; rewrite ?E].
  cbn. split; [split|]; cbn; auto. intros l' [= <-]. apply queue_ok_insert.
  - by apply queue_ok_remove, Hq.
  - right. by exists mission.
  - intros q [_ Hne]%In_remove_tasks Eq. by destruct Hne.
Qed.

Ltac keeps_code := keeps_with ltac:(first [apply RemoveTask_keeps|apply PostTask_keeps_queue
  |apply repost_keeps; first [by left|by right; eexists]]).

Lemma SendContinueBroadcastAfterDelay_keeps mission : keeps b (SendContinueBroadcastAfterDelay mission).
Proof. unfold SendContinueBroadcastAfterDelay. keeps_code. Qed.

Lemma PostScreenLockedEventAfterDelay_keeps mission type timeout :
  keeps b (PostScreenLockedEventAfterDelay mission type timeout).
Proof. unfold PostScreenLockedEventAfterDelay. destruct (timeout =? 0); keeps_code. Qed.

(** ** The lock of the screen and the input *)

Lemma set_locked_keeps f :
  keeps b (modify (fun n => match screenLockedHandler_ n with Some i => set_screenLocked (Some (f n i)) n | None => n end)).
Proof.
  apply sender_keeps_modify. intros n [[Hc Hh Hq] Hb]. destruct (screenLockedHandler_ n) as [i|] eqn:E;
    (split; [split|]; rewrite ?E in *; cbn; auto).
Qed.

Lemma ResetScreenLockedInfo_keeps : keeps b ResetScreenLockedInfo.
Proof. apply (set_locked_keeps (fun _ _ => _)). Qed.
Lemma SetScreenLockedInfo_keeps info : keeps b (SetScreenLockedInfo info).
Proof. apply (set_locked_keeps (fun n _ => _)). Qed.
Lemma SetMissionContinueStateInfo_keeps status : keeps b (SetMissionContinueStateInfo status).
Proof. apply (set_locked_keeps (fun _ i => _)). Qed.

Lemma AddMMIListener_keeps : keeps b AddMMIListener.
Proof. unfold AddMMIListener. keeps_code. Qed.
Lemma RemoveMMIListener_keeps : keeps b RemoveMMIListener.
Proof. unfold RemoveMMIListener. keeps_code. Qed.

(** ** What other parts call *)

Ltac keeps_more := keeps_with ltac:(first [apply RemoveTask_keeps|apply PostTask_keeps_queue
  |apply SendContinueBroadcastAfterDelay_keeps|apply PostScreenLockedEventAfterDelay_keeps
  |apply ResetScreenLockedInfo_keeps|apply SetScreenLockedInfo_keeps|apply SetMissionContinueStateInfo_keeps
  |apply AddMMIListener_keeps|apply RemoveMMIListener_keeps]).

Lemma OnMissionStatusChanged_keeps mission type : keeps b (OnMissionStatusChanged mission type).
Proof. unfold OnMissionStatusChanged. keeps_more. Qed.
Lemma OnMMIEvent_keeps : keeps b OnMMIEvent.
Proof. unfold OnMMIEvent. keeps_more. Qed.
Lemma OnDeviceOnline_keeps : keeps b OnDeviceOnline.
Proof. unfold OnDeviceOnline. keeps_with ltac:(apply OnMissionStatusChanged_keeps). Qed.
Lemma OnDeviceScreenLocked_keeps : keeps b OnDeviceScreenLocked.
Proof. unfold OnDeviceScreenLocked. keeps_more. Qed.
Lemma OnUserSwitched_keeps : keeps b OnUserSwitched.
Proof. unfold OnUserSwitched. keeps_more. Qed.

Lemma PostMmiTask_keeps task name delay : keeps b (PostMmiTask task name delay).
Proof. apply sender_keeps_modify, state_ok_same. intros n. by destruct (mmi_tasks_ n). Qed.

Ltac keeps_calls := keeps_with ltac:(first [apply OnMissionStatusChanged_keeps|apply OnMMIEvent_keeps
  |apply OnDeviceOnline_keeps|apply OnDeviceScreenLocked_keeps|apply PostMmiTask_keeps]).

Lemma mmi_turn_keeps : keeps b mmi_turn.
Proof. unfold mmi_turn, HandleRawMMIEvent, HandleUnfreezeMMIEvent, PostUnfreezeMMIEvent. keeps_calls. Qed.

Lemma Recommend_OnMissionStatusChanged_keeps mission type : keeps b (Recommend_OnMissionStatusChanged mission type).
Proof. unfold Recommend_OnMissionStatusChanged. keeps_calls. Qed.
Lemma OnDeviceChanged_keeps : keeps b OnDeviceChanged.
Proof. unfold OnDeviceChanged. keeps_with ltac:(apply Recommend_OnMissionStatusChanged_keeps). Qed.
Lemma recommend_turn_keeps : keeps b recommend_turn.
Proof. unfold recommend_turn. keeps_calls. Qed.

Lemma on_mission_event_keeps task uid : keeps b (on_mission_event task uid).
Proof.
  unfold on_mission_event. keeps_calls. apply sender_keeps_modify, state_ok_same. intros n. by destruct (listener_tasks_ n).
Qed.

Lemma listener_turn_keeps : keeps b listener_turn.
Proof.
  unfold listener_turn. keeps_calls. unfold run_listener_task, report_accident, update_status, with_recommend.
  keeps_with ltac:(first [apply Recommend_OnMissionStatusChanged_keeps|apply OnMissionStatusChanged_keeps]).
Qed.

Lemma SetMissionContinueState_keeps mission state uid : keeps b (SetMissionContinueState mission state uid).
Proof. 
  unfold SetMissionContinueState, update_status.
  keeps_with ltac:(first [apply Recommend_OnMissionStatusChanged_keeps|apply OnMissionStatusChanged_keeps]). Qed.
Lemma OnContinueSwitchChanged_keeps : keeps b OnContinueSwitchChanged.
Proof. unfold OnContinueSwitchChanged. keeps_calls. Qed.
Lemma HandleScreenLocked_keeps : keeps b HandleScreenLocked.
Proof. unfold HandleScreenLocked. keeps_calls. Qed.

Lemma QueryBroadcastInfo_keeps status : keeps b (QueryBroadcastInfo status).
Proof. unfold QueryBroadcastInfo. keeps_calls. Qed.
Lemma foreground_uid_keeps : keeps b foreground_uid.
Proof. unfold foreground_uid. keeps_calls. Qed.
Lemma CheckContinueState_keeps mission : keeps b (CheckContinueState mission).
Proof. unfold CheckContinueState. keeps_calls. Qed.
End Keeps.

(** ** Broadcasts *)

(** The type that is sent for an event. *)
Definition sent_type (type : MissionEventType) : Z :=
  match type with
  | MISSION_EVENT_FOCUSED | MISSION_EVENT_ACTIVE | MISSION_EVENT_MMI => BROADCAST_TYPE_APPEAR
  | _ => BROADCAST_TYPE_DISAPPEAR
  end.

(** The four bytes of an event. *)
Definition event_bytes (bundleNameId continueTypeId type : Z) : bytes :=
  [Z.land (Z.lor (Z.shiftl type CONTINUE_SHIFT_04) DMS_DATA_LEN) DMS_0XFF;
   Z.land (Z.shiftr bundleNameId CONTINUE_SHIFT_08) DMS_0XFF; Z.land bundleNameId DMS_0XFF;
   Z.land continueTypeId DMS_0XFF].

Lemma event_buffer_bytes bundleNameId continueTypeId type :
  event_buffer bundleNameId continueTypeId type = Done (Some (buffer_of (event_bytes bundleNameId continueTypeId type))).
Proof. reflexivity. Qed.

(** The effects after [t] end with one broadcast, or there is none. *)
Definition broadcasts_once (t t' : list Effect) (bundleNameId continueTypeId type : Z) (uid : bytes) : Prop :=
  exists t1, quiet t t1 /\ t' = t1 ++ [SoftbusEventSent (buffer_of (event_bytes bundleNameId continueTypeId type)) uid].

Section Sends.
Context {Ev : ConditionEnv} {SE : SenderEnv} {RcE : RecommendEnv}.

(** The conditions are left alone. *)
Definition same_conditions (n : Notifier) (t : list Effect) (n' : Notifier) (t' : list Effect) : Prop :=
  conditions_ n' = conditions_ n.

Lemma on_conditions_same {A} (m : Cn A) :
  (forall c t, exists a, m c t = Done (a, c, t)) -> preserves same_conditions (on_conditions m).
Proof.
  intros Hm n t a n' t'. unfold on_conditions. destruct (Hm (conditions_ n) t) as (a' & ->). by intros [= <- <- <-].
Qed.

Lemma same_conditions_refl n t : same_conditions n t n t.
Proof. done. Qed.
Lemma same_conditions_trans n1 t1 n2 t2 n3 t3 :
  same_conditions n1 t1 n2 t2 -> same_conditions n2 t2 n3 t3 -> same_conditions n1 t1 n3 t3.
Proof. unfold same_conditions. congruence. Qed.

Ltac same_base :=
  idtac; match goal with
  | |- preserves _ (modify _) => apply preserves_modify; intros ? ?; unfold same_conditions;
      repeat match goal with |- context [match ?x with _ => _ end] => destruct x end; reflexivity
  | |- preserves _ (emit _) => apply preserves_emit; reflexivity
  | |- preserves _ (call _ _) => apply preserves_call; reflexivity
  | |- preserves _ (query _) => apply preserves_call; reflexivity
  | |- preserves _ undefined => intros ? ? ? ? ?; discriminate
  | |- preserves _ (on_conditions _) => apply on_conditions_same; intros; by eexists
  end.
Ltac same_code := preserves_with same_conditions_refl same_conditions_trans same_base.

Lemma ExecuteSendStrategy_same type status : preserves same_conditions (ExecuteSendStrategy type status).
Proof.
  unfold ExecuteSendStrategy. same_code. destruct type; try discriminate; injection Heqo0 as <-;
    unfold SendStrategyFocused, SendStrategyUnfocused, SendStrategyDestoryed, SendStrategyBackground,
      SendStrategyActive, SendStrategyInactive, SendStrategyTimeout, SendStrategyMMI, SendStrategyContinueSwitchOff,
      AddMMIListener, RemoveMMIListener, SendContinueBroadcastAfterDelay, with_handler, RemoveTask, PostTask,
      ResetScreenLockedInfo, SetScreenLockedInfo, SetMissionContinueStateInfo, deref_screenLocked; same_code.
Qed.

Lemma QueryBroadcastInfo_same status : preserves same_conditions (QueryBroadcastInfo status).
Proof. unfold QueryBroadcastInfo. same_code. Qed.

Lemma ExecuteSendStrategy_yields type status :
  yields (fun r => r.1 = ERR_OK -> type <> MISSION_EVENT_UNFOCUSED /\ r.2 = sent_type type) (ExecuteSendStrategy type status).
Proof.
  unfold ExecuteSendStrategy. yields_code; [|done..]. destruct type; try discriminate; injection Heqo0 as <-;
    unfold SendStrategyFocused, SendStrategyUnfocused, SendStrategyDestoryed, SendStrategyBackground,
      SendStrategyActive, SendStrategyInactive, SendStrategyTimeout, SendStrategyMMI, SendStrategyContinueSwitchOff;
    yields_code; done.
Qed.

Lemma land_255_u8 z : is_u8 (Z.land z DMS_0XFF).
Proof. unfold is_u8, DMS_0XFF. change 255 with (Z.ones 8). rewrite Z.land_ones by lia. apply Z.mod_pos_bound. lia. Qed.

Lemma QueryBroadcastInfo_yields status :
  yields (fun r => r.1.1 = ERR_OK -> is_u16 r.1.2 /\ is_u8 r.2) (QueryBroadcastInfo status).
Proof.
  unfold QueryBroadcastInfo. yields_code; [done|..]; intros Hret; cbn in *.
  - apply negb_true_iff, Z.eqb_neq in Heqb0. done.
  - split; [apply u16_range|apply land_255_u8].
Qed.
End Sends.

(** ** What the manager's thread broadcasts *)

Section Turns.
Context {Ev : ConditionEnv} {SE : SenderEnv} {RcE : RecommendEnv}.

Lemma deref_screenLocked_keeps : keeps true deref_screenLocked.
Proof.
  intros n t [[Hc Hh Hq] Hb]. unfold deref_screenLocked. apply wp_mbind, wp_get.
  destruct (Hh (Hb eq_refl)) as (i & E). rewrite E. apply wp_mret. split; [|apply silent_refl].
  split; [|done]. split; auto.
Qed.

Lemma ExecuteSendStrategy_keeps type status : keeps true (ExecuteSendStrategy type status).
Proof.
  unfold ExecuteSendStrategy. apply sender_keeps_mbind; [apply sender_keeps_get|]. intros n.
  destruct (screenLockedHandler_ n), (strategyMap_ type) eqn:E; try apply sender_keeps_mret.
  destruct type; try discriminate; injection E as <-;
    unfold SendStrategyFocused, SendStrategyUnfocused, SendStrategyDestoryed, SendStrategyBackground,
      SendStrategyActive, SendStrategyInactive, SendStrategyTimeout, SendStrategyMMI, SendStrategyContinueSwitchOff;
    repeat first
      [ apply sender_keeps_mret | apply sender_keeps_get | apply AddMMIListener_keeps | apply RemoveMMIListener_keeps
      | apply SendContinueBroadcastAfterDelay_keeps | apply ResetScreenLockedInfo_keeps | apply SetScreenLockedInfo_keeps
      | apply SetMissionContinueStateInfo_keeps | apply deref_screenLocked_keeps
      | apply keeps_conditions, IsScreenLocked_keeps
      | apply sender_keeps_mbind; [|let a := fresh in intros a]
      | match goal with |- keeps _ (match ?x with _ => _ end) => destruct x eqn:? end ].
Qed.

(** The computation broadcasts at most once, at its end, a type that satisfies [P]. *)
Definition sends {A} (P : Z -> Notifier -> Prop) (m : Nt A) : Prop :=
  forall n t, state_ok true n -> wp m (fun _ n' t' => state_ok true n' /\
    (quiet t t' \/ exists id ct type uid, broadcasts_once t t' id ct type uid /\ is_u16 id /\ is_u8 ct /\ P type n')) n t.

Lemma keeps_sends {A} (P : Z -> Notifier -> Prop) (m : Nt A) : keeps true m -> sends P m.
Proof. intros Hm n t H. eapply wp_mono; [by apply Hm|]. cbn. intros a n' t' (H' & Q). auto. Qed.

Lemma broadcasts_once_trans t t1 t2 id ct type uid :
  quiet t t1 -> broadcasts_once t1 t2 id ct type uid -> broadcasts_once t t2 id ct type uid.
Proof. intros Q1 (t3 & Q2 & ->). exists t3. split; [by eapply silent_trans|done]. Qed.

Lemma sends_mbind {A B} (P : Z -> Notifier -> Prop) (m : Nt A) (k : A -> Nt B) :
  keeps true m -> (forall a, sends P (k a)) -> sends P (mbind m k).
Proof.
  intros Hm Hk n t H. apply wp_mbind. eapply wp_mono; [by apply Hm|]. cbn. intros a n1 t1 (H1 & Q1).
  eapply wp_mono; [by apply Hk|]. cbn. intros r n2 t2 (H2 & [Q2|(id & ct & type & uid & B2 & Hp)]); (split; [done|]).
  - left. by eapply silent_trans.
  - right. exists id, ct, type, uid. split; [by eapply broadcasts_once_trans|done].
Qed.

Lemma sends_mono {A} (P P' : Z -> Notifier -> Prop) (m : Nt A) : (forall type n, P type n -> P' type n) -> sends P m -> sends P' m.
Proof.
  intros HP Hm n t H. eapply wp_mono; [by apply Hm|]. cbn. intros a n' t' (H' & [Q|(id & ct & type & uid & B & ? & ? & ?)]);
    (split; [done|]); [by left|]. right. exists id, ct, type, uid. auto.
Qed.

(** A computation without a result to give ends with a broadcast's. *)
Lemma sends_ignore {A} (P : Z -> Notifier -> Prop) (m : Nt A) : sends P m -> sends P (do! m in mret tt).
Proof. intros Hm n t H. apply wp_mbind. eapply wp_mono; [by apply Hm|]. cbn. intros a n' t' HQ. by apply wp_mret. Qed.

(** Bytes are queried and sent in a state that satisfies [P]. *)
Lemma query_and_send_sends status type uid n t (P : Z -> Notifier -> Prop) :
  state_ok true n -> (forall n', conditions_ n' = conditions_ n -> P type n') ->
  wp (let! (ret, id, ct) := QueryBroadcastInfo status in
      if negb (ret =? ERR_OK) then mret tt else SendSoftbusEvent id ct type uid)
    (fun _ n' t' => state_ok true n' /\
      (quiet t t' \/ exists id ct type uid, broadcasts_once t t' id ct type uid /\ is_u16 id /\ is_u8 ct /\ P type n')) n t.
Proof.
  intros H HP. apply wp_mbind. eapply wp_mono.
  { apply wp_yields; [apply wp_preserves; [exact (QueryBroadcastInfo_keeps (b := true) status n t H)|apply QueryBroadcastInfo_same]|].
    apply QueryBroadcastInfo_yields. }
  cbn. intros [[ret id] ct] n1 t1 (((H1 & Q1) & Hs) & Hy). cbn in Hy.
  destruct (ret =? ERR_OK) eqn:E; cbn; [|apply wp_mret; auto]. apply Z.eqb_eq in E. destruct (Hy E) as [Hid Hct].
  unfold SendSoftbusEvent. rewrite event_buffer_bytes. apply wp_mbind. eapply wp_from_run; [done|]. cbn.
  apply wp_emit. split; [done|]. right. exists id, ct, type, uid. split_and!; [by exists t1|done..|by apply HP].
Qed.

(** A function of the conditions, by what it does to them. *)
Lemma wp_conditions {A} (m : Cn A) (R : A -> Conditions -> Prop) n t :
  state_ok true n -> keeps_cond m -> wp m (fun a c _ => R a c) (conditions_ n) t ->
  wp (on_conditions m) (fun a n' t' => state_ok true n' /\ quiet t t' /\ R a (conditions_ n')) n t.
Proof.
  intros [[Hc Hh Hq] Hb] Hm Hr. destruct (wp_and _ _ _ _ _ (Hm _ t Hc) Hr) as (a & c & t' & Hrun & (Hc' & Q) & HR).
  unfold wp, on_conditions. rewrite Hrun. eexists _, _, _. split; [done|]. split; [|by split].
  split; [split|]; auto.
Qed.

Lemma SendContinueBroadcast_sends status type :
  sends (fun ty n' => system_allows (conditions_ n') /\ mission_allows status type /\
    type <> MISSION_EVENT_UNFOCUSED /\ ty = sent_type type) (SendContinueBroadcast status type).
Proof.
  unfold SendContinueBroadcast. apply sends_mbind.
  { destruct (bool_decide _); [|apply sender_keeps_mret]. apply sender_keeps_mbind; [apply deref_screenLocked_keeps|].
    intros _. apply ResetScreenLockedInfo_keeps. }
  intros _. apply sends_mbind; [apply foreground_uid_keeps|]. intros uid n t Hn. apply wp_mbind.
  eapply wp_mono; [apply wp_conditions; [done|apply CheckSystemSendCondition_keeps|apply CheckSystemSendCondition_allows]|].
  cbn. intros ok n1 t1 (H1 & Q1 & Hsys). apply wp_mbind.
  destruct ok; [|apply wp_mret; cbn; apply wp_mret; auto]. specialize (Hsys eq_refl).
  eapply wp_mono; [apply wp_conditions; [done|apply CheckMissionSendCondition_keeps|apply CheckMissionSendCondition_allows]|].
  cbn. intros ok n2 t2 (H2 & Q2 & Hkeep & Hmis). assert (quiet t t2) as Qt2 by (by eapply silent_trans).
  destruct ok; cbn; [|apply wp_mret; auto]. apply Hkeep in Hsys. specialize (Hmis eq_refl). apply wp_mbind.
  eapply wp_mono.
  { apply wp_yields; [apply wp_preserves; [by apply ExecuteSendStrategy_keeps|apply ExecuteSendStrategy_same]|].
    apply ExecuteSendStrategy_yields. }
  cbn. intros [ret ty] n3 t3 (((H3 & Q3) & Hs3) & Hy). cbn in Hy. assert (quiet t t3) as Qt3 by (by eapply silent_trans).
  destruct (ret =? ERR_OK) eqn:E; cbn; [|apply wp_mret; auto]. apply Z.eqb_eq in E. destruct (Hy E) as [Hne ->].
  eapply wp_mono; [apply (query_and_send_sends status (sent_type type) uid n3 t3 (fun ty n' => system_allows (conditions_ n') /\
    mission_allows status type /\ type <> MISSION_EVENT_UNFOCUSED /\ ty = sent_type type)); [done|]|].
  - intros n' ->. rewrite Hs3. done.
  - cbn. intros _ n4 t4 (H4 & [Q4|(id & ct & ty2 & u & B & Hp)]); (split; [done|]); [left; by eapply silent_trans|].
    right. exists id, ct, ty2, u. split; [by eapply broadcasts_once_trans|done].
Qed.

Lemma SendScreenLockedEvent_sends type :
  sends (fun ty n' => system_allows (conditions_ n') /\ ty = type) (SendScreenLockedEvent type).
Proof.
  unfold SendScreenLockedEvent. apply sends_mbind; [apply sender_keeps_get|]. intros n0.
  destruct (screenLockedHandler_ n0); [|apply keeps_sends, sender_keeps_mret].
  apply sends_mbind; [apply keeps_conditions; auto with dms|]. intros status.
  apply sends_mbind; [apply CheckContinueState_keeps|]. intros r. destruct (negb (r =? ERR_OK)); [apply keeps_sends, sender_keeps_mret|].
  intros n t Hn. apply wp_mbind. eapply wp_mono.
  { apply wp_yields; [exact (QueryBroadcastInfo_keeps (b := true) status n t Hn)|apply QueryBroadcastInfo_yields]. }
  cbn. intros [[ret id] ct] n1 t1 ((H1 & Q1) & Hy). cbn in Hy.
  destruct (ret =? ERR_OK) eqn:E; cbn; [|apply wp_mret; auto]. apply Z.eqb_eq in E. destruct (Hy E) as [Hid Hct].
  apply wp_mbind. eapply wp_mono; [apply wp_conditions; [done|apply CheckSystemSendCondition_keeps|apply CheckSystemSendCondition_allows]|].
  cbn. intros ok n2 t2 (H2 & Q2 & Hsys). assert (quiet t t2) as Qt2 by (by eapply silent_trans).
  destruct ok; cbn; [|apply wp_mret; auto]. specialize (Hsys eq_refl).
  destruct (is_active status); cbn; [|apply wp_mret; auto].
  unfold foreground_uid. apply wp_mbind, wp_mbind, wp_call, wp_mret, wp_mbind.
  unfold SendSoftbusEvent. rewrite event_buffer_bytes. apply wp_mbind. eapply wp_from_run; [done|]. cbn.
  apply wp_emit, wp_mret. split; [done|]. right. eexists id, ct, type, _. split_and!; [|done..].
  exists (t2 ++ [Query]). split; [eapply silent_trans; [done|by apply quiet_one]|done].
Qed.

Lemma SendContinueBroadcast_mission_sends mission type :
  sends (fun ty n' => system_allows (conditions_ n') /\ ty = sent_type type) (SendContinueBroadcast_mission mission type).
Proof.
  unfold SendContinueBroadcast_mission. apply sends_mbind; [apply sender_keeps_get|]. intros n0.
  apply sends_mbind; [apply keeps_conditions; auto with dms|]. intros [ret [status|]]; [|apply keeps_sends, sender_keeps_mret].
  eapply sends_mono; [|apply SendContinueBroadcast_sends]. cbn. tauto.
Qed.

Lemma run_send_task_sends task :
  sends (fun _ n' => system_allows (conditions_ n')) (run_send_task task).
Proof.
  destruct task; cbn [run_send_task].
  - eapply sends_mono; [|apply SendContinueBroadcast_sends]. cbn. tauto.
  - apply sends_mbind; [apply sender_keeps_get|]. intros n0.
    apply sends_mbind; [apply keeps_conditions; auto with dms|]. intros mission.
    apply sends_mbind; [apply RemoveTask_keeps|]. intros _.
    eapply sends_mono; [|apply SendContinueBroadcast_mission_sends]. cbn. tauto.
  - apply keeps_sends. unfold ScreenLocked_OnDeviceScreenLocked. apply sender_keeps_mbind; [apply sender_keeps_get|]. intros n0.
    destruct (screenLockedHandler_ n0); [|apply sender_keeps_mret].
    apply sender_keeps_mbind; [apply keeps_conditions; auto with dms|]. intros status.
    apply sender_keeps_mbind; [|intros _; apply PostScreenLockedEventAfterDelay_keeps].
    destruct (_ && _); [apply PostScreenLockedEventAfterDelay_keeps|apply sender_keeps_mret].
  - apply sends_mbind; [apply RemoveMMIListener_keeps|]. intros _. apply sends_ignore.
    eapply sends_mono; [|apply SendScreenLockedEvent_sends]. cbn. tauto.
  - eapply sends_mono; [|apply SendContinueBroadcast_mission_sends]. cbn. tauto.
  - apply sends_ignore. eapply sends_mono; [|apply SendScreenLockedEvent_sends]. cbn. tauto.
Qed.

(** One turn of the manager's thread. *)
Lemma send_turn_sends n t :
  notifier_ok n ->
  wp send_turn (fun _ n' t' => notifier_ok n' /\ (quiet t t' \/
    exists id ct type uid, broadcasts_once t t' id ct type uid /\ is_u16 id /\ is_u8 ct /\ system_allows (conditions_ n'))) n t.
Proof.
  intros [Hc Hh Hq]. unfold send_turn. apply wp_mbind, wp_get.
  destruct (send_tasks_ n) as [[|p l]|] eqn:E.
  1, 3: apply wp_mret; split; [by split; rewrite ?E|left; apply silent_refl].
  destruct (due p <=? now_ n); [|apply wp_mret; split; [by split; rewrite ?E|left; apply silent_refl]].
  apply wp_mbind, wp_modify. eapply wp_mono; [apply run_send_task_sends|].
  - split; [split|]; cbn; auto. intros l' [= <-]. by eapply queue_ok_tail, Hq.
  - cbn. intros _ n' t' ((H & _) & H2). by split.
Qed.
End Turns.
