(* ===== verification/ContinueSenderProperties.v ===== *)
(** * What the notifications of a mission promise

    Runs of the notifier keep their invariant and always go on; what is broadcast, when it is
    taken back, and what stays silent. *)

From Stdlib Require Import ZArith Lia String.
From stdpp Require Import base list option.
From S2P Require Import Prelude ErrorCodes DataBuffer StdMap StdString EventQueue Effects MissionConditions MissionConditionsProperties ContinueRecommend ContinueRecommendProperties ContinueSender ContinueSenderLemmas.
Import ErrorCodes.Dms.

Section Runs.
Context {Ev : ConditionEnv} {SE : SenderEnv} {RcE : RecommendEnv}.

(** What a move promises of a state that is well formed. *)
Definition move_ok {A} (m : Nt A) : Prop :=
  forall n t, notifier_ok n -> wp m (fun _ n' t' => notifier_ok n' /\ (quiet t t' \/
    exists id ct type uid, broadcasts_once t t' id ct type uid /\ is_u16 id /\ is_u8 ct /\ system_allows (conditions_ n'))) n t.

Lemma keeps_move {A} (m : Nt A) : keeps false m -> move_ok m.
Proof. intros Hm n t H. eapply wp_mono; [by apply Hm|]. cbn. intros a n' t' ((H' & _) & Q). auto. Qed.

Lemma keeps_ignore {A} (m : Nt A) : keeps false m -> keeps false (do! m in mret tt).
Proof. intros Hm. apply sender_keeps_mbind; [done|]. intros _. apply sender_keeps_mret. Qed.

Lemma Init_keeps_notifier user : keeps false (Init user).
Proof.
  apply sender_keeps_modify. intros n [[Hc Hh Hq] Hb]. destruct (send_tasks_ n) as [l|] eqn:E;
    [by split; [split|]; rewrite ?E|]. split; [split|]; cbn; auto. intros l [= <-]. split; [constructor|done].
Qed.

Lemma UnInit_keeps_notifier : keeps false UnInit.
Proof. apply sender_keeps_modify. intros n [[Hc Hh Hq] Hb]. split; [split|]; cbn; [done|by intros [? ?]|done..]. Qed.

Lemma make_move_keeps_notifier m : m <> SendTurn -> keeps false (make_move m).
Proof.
  destruct m; intros Hm; cbn [make_move]; try (apply keeps_ignore);
    try (apply keeps_conditions; solve [auto with dms]).
  - apply Init_keeps_notifier.
  - apply UnInit_keeps_notifier.
  - apply OnUserSwitched_keeps.
  - apply sender_keeps_modify, state_ok_same. intros n. unfold MMIAdapter_Init. by destruct (mmi_tasks_ n).
  - apply sender_keeps_modify, state_ok_same. done.
  - apply sender_keeps_modify, state_ok_same. intros n. by destruct (listener_tasks_ n).
  - apply sender_keeps_modify, state_ok_same. done.
  - apply on_mission_event_keeps.
  - apply PostMmiTask_keeps.
  - apply OnDeviceOnline_keeps.
  - apply SetMissionContinueState_keeps.
  - apply OnContinueSwitchChanged_keeps.
  - apply HandleScreenLocked_keeps.
  - apply sender_keeps_modify, state_ok_same. done.
  - apply sender_keeps_modify, state_ok_same. done.
  - apply OnDeviceChanged_keeps.
  - apply recommend_turn_keeps.
  - done.
  - apply mmi_turn_keeps.
  - apply listener_turn_keeps.
  - apply sender_keeps_modify, state_ok_same. done.
Qed.

Lemma make_move_ok m : move_ok (make_move m).
Proof.
  assert (m = SendTurn \/ m <> SendTurn) as [->|H] by (destruct m; auto).
  - intros n t H. by apply send_turn_sends.
  - by apply keeps_move, make_move_keeps_notifier.
Qed.

Lemma make_moves_ok moves n t : notifier_ok n -> wp (make_moves moves) (fun _ n' _ => notifier_ok n') n t.
Proof.
  revert n t. induction moves as [|m moves IH]; intros n t Hn; cbn [make_moves]; [by apply wp_mret|].
  apply wp_mbind. eapply wp_mono; [by apply make_move_ok|]. cbn. intros _ n' t' (Hn' & _). by apply IH.
Qed.

Lemma Notifier_new_ok : notifier_ok Notifier_new.
Proof. split; [apply Conditions_new_inv|by intros [? ?]|done]. Qed.

(** C7 Whatever calls, events, turns of the four threads and pauses follow one another, every
    one of them returns; no null handler is used, at most one timeout of a mission waits, and
    when flags nobody wrote are false a user has at most one focused mission. *)
Theorem notifier_run_safe moves :
  exists n t, make_moves moves Notifier_new [] = Done (tt, n, t) /\ notifier_ok n /\
    (clean_junk -> focus_ok (conditions_ n)).
Proof.
  destruct (make_moves_ok moves Notifier_new [] Notifier_new_ok) as ([] & n & t & Hrun & Hn). exists n, t.
  split_and!; [done..|]. apply ok_conditions, Hn.
Qed.

(** C16 Only a turn of the manager's thread broadcasts, at most once, and only while the switch
    and the wireless network are on and the bundle is not listed as forbidden. *)
Theorem broadcast_needs_conditions m n t :
  notifier_ok n ->
  exists n' t', make_move m n t = Done (tt, n', t') /\
    (quiet t t' \/ (m = SendTurn /\ exists id ct type uid, broadcasts_once t t' id ct type uid /\
      is_u16 id /\ is_u8 ct /\ system_allows (conditions_ n'))).
Proof.
  intros Hn. assert (m = SendTurn \/ m <> SendTurn) as [->|H] by (destruct m; auto).
  - destruct (send_turn_sends n t Hn) as ([] & n' & t' & Hrun & _ & HQ). exists n', t'. split; [done|].
    destruct HQ; [by left|by right].
  - assert (state_ok false n) as Hs by (split; [done|discriminate]).
    destruct (make_move_keeps_notifier m H n t Hs) as ([] & n' & t' & Hrun & _ & HQ). exists n', t'. auto.
Qed.
End Runs.

(** ** An offer and its end *)

(** The surroundings let a bundle's ability be offered, under two numbers and an account. *)
Record offered_here {Ev : ConditionEnv} {SE : SenderEnv} {RcE : RecommendEnv} (bundle ability : bytes) (id ct : Z) (uid : bytes) : Prop := {
  not_listed t v : IsBlacklisted t bundle v = false;
  real_display t m : match GetMissionDisplay t m with Some d => d < VIRTUAL_SCREEN_ID_THRESHOLD | None => True end;
  not_ruled t : CheckMDMCtrlRule t bundle = false;
  bundle_number t : GetBundleNameId t bundle = (ERR_OK, id);
  type_number t : GetContinueTypeId t bundle ability = (ERR_OK, ct);
  account_uid t : GetForegroundAccountUid t = Some uid
}.

(** The conditions of a user's mission that is offered. *)
Record can_offer {Ev : ConditionEnv} (c : Conditions) (s : MissionStatus) : Prop := {
  ready : initialised_ c = true;
  switched_on : isSwitchOn_ c = true;
  wireless : isWifiActive_ c = true;
  continuable : isContinuable s = true;
  active : continueState s = CONTINUESTATE_ACTIVE;
  bundle_known : bundleName s <> [];
  ability_known : abilityName s <> []
}.

Ltac quiet_app := rewrite <- ?app_assoc; eexists; split; reflexivity.

Section Offer.
Context {Ev : ConditionEnv} {SE : SenderEnv} {RcE : RecommendEnv}.
Context (s : MissionStatus) (id ct : Z) (uid : bytes) (Henv : offered_here (bundleName s) (abilityName s) id ct uid).

Lemma system_offers c t :
  can_offer c s ->
  wp (CheckSystemSendCondition s) (fun ok c' t' => ok = true /\ c' = set_isOnBlacklist false c /\ quiet t t') c t.
Proof.
  intros [_ Hon Hw _ _ _ _]. unfold CheckSystemSendCondition, CheckBlacklist, ask.
  do 2 apply wp_mbind. apply wp_call. cbn. destruct (GetBundleVersionCode t (bundleName s)) as [v|].
  1: apply wp_call; rewrite (not_listed _ _ _ _ _ Henv). 2: apply wp_mret.
  all: apply wp_mbind, wp_modify, wp_mbind, wp_get; cbn; rewrite Hon, Hw; cbn.
  all: unfold CheckVirtualScreenScenario, ask; do 2 apply wp_mbind; apply wp_call; cbn.
  all: match goal with |- context [GetMissionDisplay ?t' ?m] => pose proof (real_display _ _ _ _ _ Henv t' m) as Hd;
    destruct (GetMissionDisplay t' m) as [d|] end.
  all: try (assert (VIRTUAL_SCREEN_ID_THRESHOLD <=? d = false) as -> by (by apply Z.leb_gt)).
  all: apply wp_mret, wp_mret; split_and!; [done|by destruct c|quiet_app].
Qed.

Lemma mission_offers type c t :
  can_offer c s -> type = MISSION_EVENT_FOCUSED \/ type = MISSION_EVENT_TIMEOUT ->
  wp (CheckMissionSendCondition s type) (fun ok c' t' => ok = true /\ quiet t t' /\
    c' = if bool_decide (type = MISSION_EVENT_FOCUSED) then set_lastContinuable s c else c) c t.
Proof.
  intros [Hi _ _ Hc Ha _ _] Ht. unfold CheckMissionSendCondition. apply wp_mbind, wp_get.
  assert (wp (CheckSendBackgroundCondition s) (fun ok c' t' => ok = true /\ quiet t t' /\ c' = c) c t) as Hb.
  { unfold CheckSendBackgroundCondition, is_active, not_controlled, ask. rewrite Hc, Ha. cbn.
    apply wp_mbind, wp_call, wp_mret. rewrite (not_ruled _ _ _ _ _ Henv). split_and!; [done|quiet_app|done]. }
  destruct Ht as [-> | ->]; cbn; rewrite Hi; [|by eapply wp_mono; [exact Hb|]].
  unfold CheckSendFocusedCondition. apply wp_mbind. eapply wp_mono; [exact Hb|]. cbn. intros ok c' t' (-> & Q & ->).
  by apply wp_mbind, wp_modify, wp_mret.
Qed.

Lemma can_offer_list c x : can_offer c s -> can_offer (set_isOnBlacklist x c) s.
Proof. intros []. by split. Qed.

(** The bytes go out in the state that the strategy leaves. *)
Lemma offer_sent c type n t :
  can_offer c s ->
  wp (let! (ret, i, c) := QueryBroadcastInfo s in
      if negb (ret =? ERR_OK) then mret tt else SendSoftbusEvent i c type uid)
    (fun _ n' t' => n' = n /\ broadcasts_once t t' (u16 id) (Z.land ct DMS_0XFF) type uid) n t.
Proof.
  intros Hc. unfold QueryBroadcastInfo, query.
  assert (empty (bundleName s) = false) as -> by (pose proof (bundle_known _ _ Hc); by destruct (bundleName s)).
  assert (empty (abilityName s) = false) as -> by (pose proof (ability_known _ _ Hc); by destruct (abilityName s)).
  cbn [orb]. do 2 apply wp_mbind. apply wp_call. rewrite (bundle_number _ _ _ _ _ Henv). cbn -[wp].
  apply wp_mbind, wp_call. rewrite (type_number _ _ _ _ _ Henv). cbn -[wp]. apply wp_mret. cbn -[wp].
  unfold SendSoftbusEvent. rewrite event_buffer_bytes. apply wp_mbind. eapply wp_from_run; [done|]. apply wp_emit.
  split; [done|]. eexists. split; [|done]. quiet_app.
Qed.

(** The broadcast of an event whose strategy lets it pass. *)
Lemma broadcast_offer type n t (P : Notifier -> Prop) :
  can_offer (conditions_ n) s -> type = MISSION_EVENT_FOCUSED \/ type = MISSION_EVENT_TIMEOUT ->
  (forall c t2, missionMap_ c = missionMap_ (conditions_ n) -> can_offer c s ->
    wp (ExecuteSendStrategy type s)
      (fun r n' t' => r = (ERR_OK, sent_type type) /\ quiet t2 t' /\ P n') (set_conditions c n) t2) ->
  wp (SendContinueBroadcast s type) (fun _ n' t' => P n' /\
    broadcasts_once t t' (u16 id) (Z.land ct DMS_0XFF) (sent_type type) uid) n t.
Proof.
  intros Hc Ht Hstrategy. unfold SendContinueBroadcast.
  assert (bool_decide (type = MISSION_EVENT_DESTORYED) = false) as -> by (by destruct Ht as [-> | ->]).
  apply wp_mbind, wp_mret. unfold foreground_uid, query. do 2 apply wp_mbind. apply wp_call, wp_mret.
  rewrite (account_uid _ _ _ _ _ Henv). apply wp_mbind.
  destruct (system_offers (conditions_ n) (t ++ [Query]) Hc) as (ok & c1 & t1 & R1 & -> & -> & Q1).
  assert (on_conditions (CheckSystemSendCondition s) n (t ++ [Query]) = Done (true, set_conditions (set_isOnBlacklist false (conditions_ n)) n, t1))
    as E1 by (unfold on_conditions; by rewrite R1).
  eexists _, _, _. split; [exact E1|]. cbn -[wp]. apply (can_offer_list _ false) in Hc. apply wp_mbind.
  destruct (mission_offers type _ t1 Hc Ht) as (ok & c2 & t2 & R2 & -> & Q2 & E2).
  assert (on_conditions (CheckMissionSendCondition s type) (set_conditions (set_isOnBlacklist false (conditions_ n)) n) t1
    = Done (true, set_conditions c2 n, t2)) as E3.
  { unfold on_conditions. change (conditions_ (set_conditions (set_isOnBlacklist false (conditions_ n)) n))
      with (set_isOnBlacklist false (conditions_ n)). by rewrite R2. }
  eexists _, _, _. split; [exact E3|]. cbn -[wp]. apply wp_mbind.
  assert (can_offer c2 s) as Hc2 by (subst c2; destruct Hc; by destruct (bool_decide _); split).
  eapply wp_mono; [apply (Hstrategy c2 t2); [|done]|].
  - subst c2. by destruct (bool_decide _).
  - intros r n3 t3 (-> & Q3 & HP). cbn -[wp]. eapply wp_mono; [apply (offer_sent c2); done|].
    intros _ n4 t4 (-> & B). split; [done|]. eapply broadcasts_once_trans; [|done].
    eapply silent_trans; [by apply (quiet_one t Query)|]. eapply silent_trans; [done|]. by eapply silent_trans.
Qed.
(** The status of a mission that is known. *)
Lemma GetMissionStatus_found account mission c t :
  map_find (missions c account) mission = Some s -> GetMissionStatus account mission c t = Done (ERR_OK, Some s, c, t).
Proof.
  intros Hs. unfold GetMissionStatus, mbind, get, IsMissionStatusExistLocked. cbn -[map_find map_count missions].
  assert (map_count (missionMap_ c) account = true) as ->.
  { unfold missions, map_count in *. by destruct (map_find (missionMap_ c) account). }
  unfold map_count. by rewrite Hs.
Qed.

Lemma broadcast_known type mission n t (Q : unit -> Notifier -> list Effect -> Prop) :
  map_find (missions (conditions_ n) (accountId_ n)) mission = Some s ->
  wp (SendContinueBroadcast s type) Q n t -> wp (SendContinueBroadcast_mission mission type) Q n t.
Proof.
  intros Hs Hw. unfold SendContinueBroadcast_mission. apply wp_mbind, wp_get, wp_mbind.
  eexists _, _, _. split; [unfold on_conditions; by rewrite (GetMissionStatus_found _ _ _ _ Hs)|]. cbn -[wp].
  by destruct n.
Qed.

Lemma remove_own mission d task : remove_tasks (timeoutTaskName mission) [mkPosted d (timeoutTaskName mission) task] = @nil (Posted SendTask).
Proof. unfold remove_tasks. cbn [List.filter taskName]. by rewrite bytes_eqb_refl. Qed.

(** The strategy of a focused mission sets its timeout. *)
Lemma focused_strategy n t i :
  send_tasks_ n = Some [] -> screenLockedHandler_ n = Some i ->
  wp (ExecuteSendStrategy MISSION_EVENT_FOCUSED s) (fun r n' t' => r = (ERR_OK, BROADCAST_TYPE_APPEAR) /\ quiet t t' /\
    send_tasks_ n' = Some [mkPosted (now_ n + FOCUS_TIMEOUT_DELAY_TIME) (timeoutTaskName (missionId s)) (TaskTimeout (missionId s))] /\
    is_Some (screenLockedHandler_ n') /\ now_ n' = now_ n /\ accountId_ n' = accountId_ n /\ conditions_ n' = conditions_ n) n t.
Proof.
  intros Hq Hl. unfold ExecuteSendStrategy. apply wp_mbind, wp_get. rewrite Hl. cbn -[wp timeoutTaskName SendStrategyFocused].
  unfold SendStrategyFocused. apply wp_mbind.
  apply (wp_mono _ (fun _ n' t' => quiet t t' /\ send_tasks_ n' = Some [] /\ screenLockedHandler_ n' = Some i /\
    now_ n' = now_ n /\ accountId_ n' = accountId_ n /\ conditions_ n' = conditions_ n)).
  - unfold AddMMIListener. apply wp_mbind, wp_get. destruct (0 <=? mmiMonitorId_ n); [apply wp_mret; split_and!; auto with dms|].
    apply wp_mbind, wp_call, wp_mbind, wp_modify, wp_modify. split_and!; [quiet_app|done..].
  - intros _ n1 t1 (Q & Hq1 & Hl1 & Hn1 & Ha1 & Hc1). unfold SendContinueBroadcastAfterDelay, with_handler.
    apply wp_mbind, wp_mbind, wp_get. rewrite Hq1. apply wp_mbind, wp_modify. rewrite Hq1. apply wp_modify.
    cbn -[wp timeoutTaskName]. apply wp_mbind, wp_get. cbn -[wp timeoutTaskName]. rewrite Hl1. apply wp_mbind, wp_modify.
    cbn -[wp timeoutTaskName]. rewrite Hl1. apply wp_mret. cbn -[timeoutTaskName]. rewrite Hn1. split_and!; [done..|by eexists|done|done|done].
Qed.

(** C18 A mission that gets the focus is offered to other devices at once, with the numbers of
    its bundle and its continue type, and a minute later the offer is taken back, unless
    something happens in between. *)
Theorem focus_offers_then_withdraws mission n t i ms :
  can_offer (conditions_ n) s -> map_find (missions (conditions_ n) (accountId_ n)) mission = Some s ->
  missionId s = mission -> send_tasks_ n = Some [] -> initFlag_ n = true -> screenLockedHandler_ n = Some i ->
  FOCUS_TIMEOUT_DELAY_TIME <= ms ->
  exists n1 t1 n2 t2,
    (do! OnMissionStatusChanged mission MISSION_EVENT_FOCUSED in send_turn) n t = Done (tt, n1, t1) /\
    broadcasts_once t t1 (u16 id) (Z.land ct DMS_0XFF) BROADCAST_TYPE_APPEAR uid /\
    send_tasks_ n1 = Some [mkPosted (now_ n + FOCUS_TIMEOUT_DELAY_TIME) (timeoutTaskName mission) (TaskTimeout mission)] /\
    (do! make_move (Wait ms) in send_turn) n1 t1 = Done (tt, n2, t2) /\
    broadcasts_once t1 t2 (u16 id) (Z.land ct DMS_0XFF) BROADCAST_TYPE_DISAPPEAR uid /\
    send_tasks_ n2 = Some [].
Proof.
  intros Hoffer Hs Hm Hq Hinit Hl Hms.
  pose (later n' := send_tasks_ n' = Some [mkPosted (now_ n + FOCUS_TIMEOUT_DELAY_TIME) (timeoutTaskName mission)
      (TaskTimeout mission)] /\ is_Some (screenLockedHandler_ n') /\ now_ n' = now_ n /\ accountId_ n' = accountId_ n /\
      map_find (missions (conditions_ n') (accountId_ n)) mission = Some s /\ can_offer (conditions_ n') s).
  assert (wp (do! OnMissionStatusChanged mission MISSION_EVENT_FOCUSED in send_turn) (fun _ n' t' => later n' /\
    broadcasts_once t t' (u16 id) (Z.land ct DMS_0XFF) BROADCAST_TYPE_APPEAR uid) n t) as H1.
  { apply wp_mbind. unfold OnMissionStatusChanged. apply wp_mbind, wp_get, wp_mbind.
    eexists _, _, _. split; [unfold on_conditions; by rewrite (GetMissionStatus_found _ _ _ _ Hs)|].
    replace (set_conditions (conditions_ n) n) with n by (by destruct n). cbn -[wp timeoutTaskName].
    unfold with_handler. apply wp_mbind, wp_get. rewrite Hq, Hinit. cbn -[wp timeoutTaskName]. apply wp_mbind, wp_modify.
    rewrite Hq. apply wp_modify. cbn -[wp timeoutTaskName]. unfold send_turn. apply wp_mbind, wp_get.
    cbn -[wp timeoutTaskName]. rewrite Z.add_0_r, Z.leb_refl. apply wp_mbind, wp_modify.
    cbn -[wp timeoutTaskName]. apply (broadcast_offer MISSION_EVENT_FOCUSED); [done|by left|]. cbn -[wp timeoutTaskName].
    intros c t2 Hc Hc2. eapply wp_mono; [by eapply focused_strategy|]. cbn -[timeoutTaskName].
    intros r n' t' (-> & Q & Hq' & Hl' & Hn' & Ha' & Hc'). split; [done|]. split; [done|]. unfold later. rewrite <- Hm.
    rewrite Hc'. unfold missions in *. cbn -[timeoutTaskName map_find]. rewrite Hc. rewrite <- Hm in Hs. by split_and!. }
  destruct H1 as ([] & n1 & t1 & Hrun1 & (Hq1 & (j & Hj) & Hn1 & Ha1 & Hs1 & Hc1) & Hb1).
  assert (wp (do! make_move (Wait ms) in send_turn) (fun _ n' t' => send_tasks_ n' = Some [] /\
    broadcasts_once t1 t' (u16 id) (Z.land ct DMS_0XFF) BROADCAST_TYPE_DISAPPEAR uid) n1 t1) as H2.
  { apply wp_mbind. cbn [make_move]. apply wp_modify. unfold send_turn. apply wp_mbind, wp_get. cbn -[wp timeoutTaskName Z.max].
    rewrite Hq1. cbn [due]. unfold FOCUS_TIMEOUT_DELAY_TIME in *.
    assert (now_ n + 60000 <=? now_ n1 + Z.max 0 ms = true) as -> by (apply Z.leb_le; lia).
    apply wp_mbind, wp_modify. cbn [run_send_task task]. eapply (broadcast_known MISSION_EVENT_TIMEOUT);
      [cbn -[missions]; by rewrite Ha1|].
    apply (broadcast_offer MISSION_EVENT_TIMEOUT); [done|by right|]. intros c t2 Hc Hc2. unfold ExecuteSendStrategy.
    apply wp_mbind, wp_get. cbn -[wp timeoutTaskName Z.max]. rewrite Hj. apply wp_mret. split_and!; auto with dms. }
  destruct H2 as ([] & n2 & t2 & Hrun2 & Hq2 & Hb2). by exists n1, t1, n2, t2.
Qed.
End Offer.

(** ** The switch *)

Section Switch.
Context {Ev : ConditionEnv} {SE : SenderEnv} {RcE : RecommendEnv}.

Definition switch_same (c : Conditions) (t : list Effect) (c' : Conditions) (t' : list Effect) : Prop :=
  isSwitchOn_ c' = isSwitchOn_ c.
Definition switch_kept (n : Notifier) (t : list Effect) (n' : Notifier) (t' : list Effect) : Prop :=
  isSwitchOn_ (conditions_ n') = isSwitchOn_ (conditions_ n).

Lemma switch_same_refl c t : switch_same c t c t.
Proof. done. Qed.
Lemma switch_same_trans c1 t1 c2 t2 c3 t3 : switch_same c1 t1 c2 t2 -> switch_same c2 t2 c3 t3 -> switch_same c1 t1 c3 t3.
Proof. unfold switch_same. congruence. Qed.
Lemma switch_kept_refl n t : switch_kept n t n t.
Proof. done. Qed.
Lemma switch_kept_trans n1 t1 n2 t2 n3 t3 : switch_kept n1 t1 n2 t2 -> switch_kept n2 t2 n3 t3 -> switch_kept n1 t1 n3 t3.
Proof. unfold switch_kept. congruence. Qed.

Lemma switch_lift {A} (m : Cn A) : preserves switch_same m -> preserves switch_kept (on_conditions m).
Proof.
  intros Hm n t a n' t'. unfold on_conditions. destruct (m (conditions_ n) t) as [[[a' c] t2]| |] eqn:E; [|done..].
  intros [= <- <- <-]. by apply Hm in E.
Qed.

(** A change of a state that leaves the switch alone. *)
Ltac kept_base :=
  idtac; match goal with
  | |- preserves _ (modify _) => apply preserves_modify; intros ? ?; unfold switch_same, switch_kept, on_status, set_missions;
      repeat match goal with |- context [match ?x with _ => _ end] => destruct x end; reflexivity
  | |- preserves _ (emit _) => apply preserves_emit; reflexivity
  | |- preserves _ (call _ _) => apply preserves_call; reflexivity
  | |- preserves _ (ask _) => apply preserves_call; reflexivity
  | |- preserves _ (query _) => apply preserves_call; reflexivity
  | |- preserves _ undefined => intros ? ? ? ? ?; discriminate
  end.
Ltac same_cond := preserves_with switch_same_refl switch_same_trans kept_base.

Lemma UpdateMissionStatus_switch account mission type : preserves switch_same (UpdateMissionStatus account mission type).
Proof.
  unfold UpdateMissionStatus. same_cond. destruct type; try discriminate; injection Heqo as <-;
    unfold OnMissionFocused, OnMissionUnfocused, OnMissionBackground, OnMissionDestory, OnMissionActive, OnMissionInactive,
      OnMissionUnfocused, set_state_if_known; same_cond.
Qed.

Lemma CheckMissionSendCondition_switch status type : preserves switch_same (CheckMissionSendCondition status type).
Proof.
  unfold CheckMissionSendCondition. same_cond. destruct type; try discriminate; injection Heqo as <-;
    unfold CheckSendFocusedCondition, CheckSendUnfocusedCondition, CheckSendContinueSwitchOffCondition,
      CheckSendActiveCondition, CheckSendInactiveCondition, CheckSendBackgroundCondition, GetFocusedMissionStatus,
      not_controlled; same_cond.
Qed.

Lemma CheckSystemSendCondition_switch status : preserves switch_same (CheckSystemSendCondition status).
Proof. unfold CheckSystemSendCondition, CheckBlacklist, CheckVirtualScreenScenario. same_cond. Qed.

Lemma UpdateSystemStatus_switch type value : type <> SYS_EVENT_CONTINUE_SWITCH -> preserves switch_same (UpdateSystemStatus type value).
Proof. intros Ht. unfold UpdateSystemStatus. same_cond. by destruct type; try discriminate; injection Heqo as <-; apply preserves_modify. Qed.

Ltac kept_more :=
  idtac; first
    [ apply switch_lift, UpdateMissionStatus_switch | apply switch_lift, CheckMissionSendCondition_switch
    | apply switch_lift, CheckSystemSendCondition_switch | apply switch_lift, UpdateSystemStatus_switch; discriminate
    | match goal with |- preserves switch_kept (on_conditions _) => apply switch_lift; unfold GetMissionStatus,
        GetCurrentFocusedMission, GetFocusedMissionStatus, IsScreenLocked, GetLastContinuableMissionStatus; solve [same_cond] end
    | kept_base ].
Ltac kept_code := preserves_with switch_kept_refl switch_kept_trans kept_more.

Lemma OnMissionStatusChanged_switch mission type : preserves switch_kept (OnMissionStatusChanged mission type).
Proof. unfold OnMissionStatusChanged, with_handler, RemoveTask, PostTask. kept_code. Qed.

Lemma ExecuteSendStrategy_switch type status : preserves switch_kept (ExecuteSendStrategy type status).
Proof. intros n t a n' t' H. apply ExecuteSendStrategy_same in H. unfold same_conditions, switch_kept in *. by rewrite H. Qed.
Lemma QueryBroadcastInfo_switch status : preserves switch_kept (QueryBroadcastInfo status).
Proof. intros n t a n' t' H. apply QueryBroadcastInfo_same in H. unfold same_conditions, switch_kept in *. by rewrite H. Qed.

Lemma Recommend_OnMissionStatusChanged_switch mission type : preserves switch_kept (Recommend_OnMissionStatusChanged mission type).
Proof. unfold Recommend_OnMissionStatusChanged. kept_code. Qed.

Lemma PublishContinueRecommend_switch account status type : preserves switch_same (PublishContinueRecommend account status type).
Proof.
  unfold PublishContinueRecommend. apply preserves_mbind; [apply switch_same_trans|apply CheckSystemSendCondition_switch|]. intros ok.
  apply preserves_mbind; [apply switch_same_trans|destruct ok; [apply CheckMissionSendCondition_switch|same_cond]|]. intros ok2.
  destruct (negb ok2); [same_cond|]. apply preserves_mbind; [apply switch_same_trans| |intros [info|]; same_cond].
  intros c t a c' t' Hrun. apply GetRecommendInfo_asks in Hrun as [-> _]. done.
Qed.

Ltac kept_send :=
  idtac; first [ apply Recommend_OnMissionStatusChanged_switch | apply switch_lift, PublishContinueRecommend_switch |  apply ExecuteSendStrategy_switch | apply QueryBroadcastInfo_switch | apply OnMissionStatusChanged_switch | kept_more ].
Ltac kept_turn := preserves_with switch_kept_refl switch_kept_trans kept_send.

Lemma SendContinueBroadcast_switch status type : preserves switch_kept (SendContinueBroadcast status type).
Proof. unfold SendContinueBroadcast, foreground_uid, deref_screenLocked, ResetScreenLockedInfo, SendSoftbusEvent. kept_turn. Qed.

Lemma SendContinueBroadcast_mission_switch mission type : preserves switch_kept (SendContinueBroadcast_mission mission type).
Proof. unfold SendContinueBroadcast_mission. kept_turn. apply SendContinueBroadcast_switch. Qed.

Lemma SendScreenLockedEvent_switch type : preserves switch_kept (SendScreenLockedEvent type).
Proof. unfold SendScreenLockedEvent, CheckContinueState, foreground_uid, SendSoftbusEvent. kept_turn. Qed.

Lemma send_turn_switch : preserves switch_kept send_turn.
Proof.
  unfold send_turn. kept_turn. destruct (task p); cbn [run_send_task].
  - apply SendContinueBroadcast_switch.
  - unfold RemoveTask. kept_turn. apply SendContinueBroadcast_mission_switch.
  - unfold ScreenLocked_OnDeviceScreenLocked, PostScreenLockedEventAfterDelay, with_handler, RemoveTask, PostTask. kept_turn.
  - unfold RemoveMMIListener. kept_turn. apply SendScreenLockedEvent_switch.
  - apply SendContinueBroadcast_mission_switch.
  - kept_turn. apply SendScreenLockedEvent_switch.
Qed.
Lemma OnUserRemoved_switch account : preserves switch_same (OnUserRemoved account).
Proof. unfold OnUserRemoved. same_cond. Qed.
Lemma InitMissionStatus_switch account : preserves switch_same (InitMissionStatus account).
Proof. unfold InitMissionStatus. same_cond. Qed.

(** The moves that do not set the switch. *)
Definition leaves_switch (m : Move) : Prop := m <> SwitchChanged /\ m <> CallConditionsInit.

Lemma make_move_switch m : leaves_switch m -> preserves switch_kept (make_move m).
Proof.
  intros [Hm1 Hm2]. destruct m; try done; cbn [make_move].
  - unfold Init. kept_turn.
  - unfold UnInit. kept_turn.
  - apply switch_lift. unfold MissionConditions.UnInit. same_cond.
  - apply switch_lift, InitMissionStatus_switch.
  - unfold OnUserSwitched, with_handler, PostTask, RemoveTask. kept_turn.
  - apply switch_lift, OnUserRemoved_switch.
  - unfold MMIAdapter_Init. kept_turn.
  - unfold MMIAdapter_UnInit. kept_turn.
  - unfold Listener_Init. kept_turn.
  - unfold Listener_UnInit. kept_turn.
  - unfold on_mission_event. kept_turn.
  - unfold OnInputEvent, PostMmiTask. kept_turn.
  - unfold OnDeviceOnline. kept_turn.
  - unfold SetMissionContinueState, update_status. kept_turn.
  - unfold HandleScreenLocked, OnDeviceScreenLocked, with_handler, PostTask. kept_turn.
  - unfold HandleScreenUnLocked. kept_turn.
  - unfold UpdateWifiState. kept_turn.
  - kept_turn.
  - kept_turn.
  - unfold OnDeviceChanged. kept_turn.
  - unfold recommend_turn. kept_turn.
  - apply send_turn_switch.
  - unfold mmi_turn, HandleRawMMIEvent, HandleUnfreezeMMIEvent, OnMMIEvent, PostUnfreezeMMIEvent, PostMmiTask, with_handler,
      PostTask. kept_turn.
  - unfold listener_turn. kept_turn.
    unfold run_listener_task, report_accident, update_status, with_recommend. kept_turn.
  - kept_turn.
Qed.

Lemma UpdateSystemStatus_off c t :
  initialised_ c = true -> exists c', UpdateSystemStatus SYS_EVENT_CONTINUE_SWITCH false c t = Done (ERR_OK, c', t) /\ isSwitchOn_ c' = false.
Proof. intros Hi. unfold UpdateSystemStatus, mbind, get. cbn. rewrite Hi. by eexists. Qed.

Lemma GetMissionStatus_reads account mission c t :
  exists ret status, GetMissionStatus account mission c t = Done (ret, status, c, t).
Proof. unfold GetMissionStatus, mbind, get. cbn. destruct (negb _); by eexists _, _. Qed.

Lemma OnMissionStatusChanged_conditions mission type n t :
  wp (OnMissionStatusChanged mission type) (fun _ n' _ => conditions_ n' = conditions_ n) n t.
Proof.
  unfold OnMissionStatusChanged. apply wp_mbind, wp_get, wp_mbind.
  destruct (GetMissionStatus_reads (accountId_ n) mission (conditions_ n) t) as (ret & status & E).
  eexists _, _, _. split; [unfold on_conditions; by rewrite E|]. cbn -[wp]. destruct status as [status|]; [|by apply wp_mret].
  unfold with_handler. apply wp_mbind, wp_get. cbn -[wp].
  destruct (send_tasks_ n) as [l|] eqn:El; [|by apply wp_mret]. destruct (negb (initFlag_ n)); [by apply wp_mret|].
  apply wp_mbind. destruct (negb _); [apply wp_modify|apply wp_mret]; unfold PostTask; apply wp_modify; cbn; rewrite El; done.
Qed.

(** While the switch is off nothing is broadcast. *)
Lemma off_is_quiet moves n t :
  notifier_ok n -> isSwitchOn_ (conditions_ n) = false -> Forall leaves_switch moves ->
  exists n' t', make_moves moves n t = Done (tt, n', t') /\ quiet t t'.
Proof.
  revert n t. induction moves as [|m moves IH]; intros n t Hn Hoff Hm; cbn [make_moves].
  { exists n, t. split; [done|apply silent_refl]. }
  inversion_clear Hm as [|? ? Hm1 Hm2]. destruct (make_move_ok m n t Hn) as ([] & n1 & t1 & Hrun & Hn1 & HQ).
  pose proof (make_move_switch m Hm1 _ _ _ _ _ Hrun) as Hk. unfold switch_kept in Hk.
  destruct HQ as [HQ|(id & ct & type & uid & _ & _ & _ & (Hon & _))]; [|congruence].
  destruct (IH n1 t1 Hn1) as (n2 & t2 & Hrun2 & HQ2); [congruence|done|]. exists n2, t2.
  split; [|by eapply silent_trans]. unfold mbind. by rewrite Hrun.
Qed.

(** When the user turns the switch off, the manager is told while the switch is still on,
    but its thread runs after the switch is off: then the end of the offer is never broadcast,
    whatever happens until the switch is set again. *)
Theorem switch_off_unannounced n t moves :
  notifier_ok n -> initialised_ (conditions_ n) = true ->
  (forall t', HasCurrentSendMgr t' = true) -> (forall t', IsContinueSwitchOn t' = false) ->
  Forall leaves_switch moves ->
  exists n' t', (do! OnContinueSwitchChanged in make_moves moves) n t = Done (tt, n', t') /\ quiet t t'.
Proof.
  intros Hn Hi Hmgr Hsw Hm.
  assert (wp OnContinueSwitchChanged (fun _ n' _ => isSwitchOn_ (conditions_ n') = false) n t) as Hoff.
  { unfold OnContinueSwitchChanged, query. apply wp_mbind, wp_call. rewrite Hmgr. cbn [negb].
    apply wp_mbind, wp_call, wp_mbind. rewrite Hsw. cbn [negb].
    eexists _, _, _. split; [reflexivity|]. apply wp_mbind. eapply wp_mono; [apply OnMissionStatusChanged_conditions|].
    cbn -[wp]. intros _ n1 t1 Hc1. apply wp_mbind, wp_call, wp_mbind. rewrite Hsw.
    destruct (UpdateSystemStatus_off (conditions_ n1) (t1 ++ [Query])) as (c2 & Hrun & Hoff); [by rewrite Hc1|].
    eexists _, _, _. split; [unfold on_conditions; by rewrite Hrun|]. apply wp_mbind, wp_call, wp_mbind.
    eapply wp_mono; [apply OnMissionStatusChanged_conditions|]. cbn -[wp]. intros _ n2 t2 Hc2. apply wp_mbind, wp_call.
    destruct (HasCurrentRecvMgr t2); cbn -[wp]; [apply wp_mbind, wp_emit, wp_emit|apply wp_mret]; congruence. }
  assert (state_ok false n) as Hs by (split; [done|discriminate]).
  destruct (wp_and _ _ _ _ _ Hoff (OnContinueSwitchChanged_keeps n t Hs)) as ([] & n1 & t1 & Hrun & Hoff1 & (Hn1 & _) & Q1).
  destruct (off_is_quiet moves n1 t1 Hn1 Hoff1 Hm) as (n2 & t2 & Hrun2 & Q2). exists n2, t2.
  split; [|by eapply silent_trans]. unfold mbind at 1. rewrite Hrun. exact Hrun2.
Qed.
End Switch.

(** ** Input and the lock of the screen *)

Section Sleep.
Context {Ev : ConditionEnv} {SE : SenderEnv} {RcE : RecommendEnv}.

(** Input is frozen and nothing waits that would unfreeze it. *)
Definition stuck (n : Notifier) : Prop :=
  isMMIFreezed_ n = true /\ exists l, mmi_tasks_ n = Some l /\ Forall (fun p => task p = TaskRawMMIEvent) l.

Definition input_only (m : Move) : Prop := match m with InputEvent | MmiTurn | Wait _ => True | _ => False end.

Lemma stuck_stays m n t :
  stuck n -> input_only m -> exists n', make_move m n t = Done (tt, n', t) /\ stuck n' /\ send_tasks_ n' = send_tasks_ n.
Proof.
  intros Hs Hm. pose proof Hs as (Hf & l & Hl & Hraw). destruct m; try done; cbn [make_move].
  - unfold OnInputEvent, PostMmiTask, modify. rewrite Hl. eexists. split; [done|]. split; [|done]. split; [done|].
    eexists. split; [done|]. apply List.Forall_forall. intros p [->|Hp]%In_insert_task; [done|].
    by eapply List.Forall_forall in Hraw.
  - unfold mmi_turn, mbind, get. cbn. rewrite Hl. destruct l as [|p l]; [by exists n|].
    destruct (due p <=? now_ n); [|by exists n]. inversion_clear Hraw as [|? ? Hp Ht]. cbn. rewrite Hp.
    unfold HandleRawMMIEvent, mbind, get. cbn. rewrite Hf. eexists. split; [done|]. split; [|done].
    split; [done|]. by exists l.
  - eexists. split; [done|]. split; [|done]. split; [done|]. by exists l.
Qed.

(** An input that comes while no manager is there freezes the input for good: nothing
    waits to unfreeze it, and until the listener of input is added anew every further input
    is dropped, though the manager may be back. *)
Theorem input_lost_without_manager p l n t moves :
  mmi_tasks_ n = Some (p :: l) -> task p = TaskRawMMIEvent -> due p <= now_ n -> isMMIFreezed_ n = false ->
  Forall (fun q => task q = TaskRawMMIEvent) l -> HasCurrentSendMgr t = false -> Forall input_only moves ->
  exists n', (do! mmi_turn in make_moves moves) n t = Done (tt, n', t ++ [Query]) /\
    isMMIFreezed_ n' = true /\ send_tasks_ n' = send_tasks_ n.
Proof.
  intros Hl Hp Hd Hf Hraw Hmgr Hm.
  assert (mmi_turn n t = Done (tt, set_freezed true (set_mmi_tasks (Some l) n), t ++ [Query])) as E.
  { unfold mmi_turn, mbind, get. cbn. rewrite Hl. apply Z.leb_le in Hd. rewrite Hd. cbn. rewrite Hp.
    unfold HandleRawMMIEvent, mbind, get, query, call, modify. cbn. by rewrite Hf, Hmgr. }
  unfold mbind. rewrite E. cbn [run_bind].
  set (n1 := set_freezed true (set_mmi_tasks (Some l) n)). assert (stuck n1) as Hs by (split; [done|]; by exists l).
  assert (send_tasks_ n1 = send_tasks_ n) as <- by done. clearbody n1. clear E. generalize (t ++ [Query]) as t1. intros t1.
  revert n1 Hs. induction Hm as [|m moves Hm1 Hm2 IH]; intros n1 Hs; cbn [make_moves].
  - exists n1. split; [done|]. by split; [apply Hs|].
  - destruct (stuck_stays m n1 t1 Hs Hm1) as (n2 & Hrun & Hs2 & E2). destruct (IH n2 Hs2) as (n3 & Hrun3 & Hf3 & E3).
    exists n3. split; [unfold mbind; by rewrite Hrun|]. by rewrite E3, E2.
Qed.

Lemma post_screen_locked mission type timeout n t l :
  send_tasks_ n = Some l ->
  PostScreenLockedEventAfterDelay mission type timeout n t = Done (tt, set_send_tasks (Some (insert_task
    (mkPosted (now_ n + timeout) (if timeout =? 0 then [] else timeoutTaskName mission) (TaskScreenLockedEvent type))
    (remove_tasks (timeoutTaskName mission) l))) n, t).
Proof.
  intros Hq. unfold PostScreenLockedEventAfterDelay, with_handler, mbind, get, RemoveTask, PostTask, modify.
  cbn -[timeoutTaskName]. rewrite Hq. cbn -[timeoutTaskName]. rewrite Hq.
  destruct (timeout =? 0) eqn:E; [apply Z.eqb_eq in E as ->|]; done.
Qed.

(** A mission that went to the background less than half a second before the screen is
    locked is offered again, because the lock and not the user took its focus; but the time is
    kept in 32 bits, and from 2^31 milliseconds after the start of the device, 24 days, the
    offer is not made. *)
Theorem screen_lock_offers_again n t info i d :
  send_tasks_ n = Some [] -> screenLockedHandler_ n = Some i -> 0 <= now_ n < 2 ^ 63 -> 0 <= d < SCREEN_LOCK_EVENT_INTERVAL ->
  missionId (lastContinuableMissionStatus_ (conditions_ n)) <> INVALID_MISSION_ID ->
  exists n' l,
    (do! SetScreenLockedInfo info in do! make_move (Wait d) in ScreenLocked_OnDeviceScreenLocked) n t = Done (tt, n', t) /\
    send_tasks_ n' = Some l /\
    ((exists p, In p l /\ task p = TaskScreenLockedEvent DMS_FOCUSED_TYPE) <-> now_ n < 2 ^ 31).
Proof.
  intros Hq Hl Hn Hd Hlast. unfold SCREEN_LOCK_EVENT_INTERVAL in Hd.
  assert (now_ n + Z.max 0 d - to_int32 (now_ n) <? SCREEN_LOCK_EVENT_INTERVAL = (now_ n <? 2 ^ 31)) as Ht.
  { unfold to_int32, SCREEN_LOCK_EVENT_INTERVAL. rewrite Z.max_r by lia.
    destruct (now_ n <? 2 ^ 31) eqn:E; [apply Z.ltb_lt in E|apply Z.ltb_ge in E].
    - apply Z.ltb_lt. rewrite Z.mod_small; lia.
    - apply Z.ltb_ge. pose proof (Z.mod_eq (now_ n + 2 ^ 31) (2 ^ 32) ltac:(done)) as Hmod.
      assert (1 <= (now_ n + 2 ^ 31) / 2 ^ 32) by (apply Z.div_le_lower_bound; lia). lia. }
  set (n1 := set_now (now_ n + Z.max 0 d)
    (set_screenLocked (Some (mkLastUnfoInfo (unfo_missionId info) (to_int32 (now_ n)) (unfo_status info))) n)).
  set (m := missionId (lastContinuableMissionStatus_ (conditions_ n))) in *.
  assert ((do! SetScreenLockedInfo info in do! make_move (Wait d) in ScreenLocked_OnDeviceScreenLocked) n t
    = ScreenLocked_OnDeviceScreenLocked n1 t) as ->.
  { unfold mbind, SetScreenLockedInfo, make_move, modify. rewrite Hl. done. }
  assert (ScreenLocked_OnDeviceScreenLocked n1 t =
    (do! when negb (m =? INVALID_MISSION_ID) && (now_ n + Z.max 0 d - to_int32 (now_ n) <? SCREEN_LOCK_EVENT_INTERVAL) do
       PostScreenLockedEventAfterDelay m DMS_FOCUSED_TYPE 0 in
     PostScreenLockedEventAfterDelay m DMS_UNFOCUSED_TYPE SCREEN_LOCK_DELAY_TIME) n1 t) as -> by reflexivity.
  assert (m =? INVALID_MISSION_ID = false) as -> by (by apply Z.eqb_neq). rewrite Ht. cbn [negb andb].
  assert (send_tasks_ n1 = Some []) as Hq1 by done. unfold mbind. destruct (now_ n <? 2 ^ 31) eqn:E.
  - cbv iota. rewrite (post_screen_locked _ _ _ _ _ _ Hq1). cbn [run_bind]. erewrite post_screen_locked by done.
    eexists _, _. split; [done|]. split; [done|]. split; [intros _; by apply Z.ltb_lt|]. intros _.
    eexists. split; [|cycle 1]. 1: apply In_insert_task; right; apply In_remove_tasks; split; [by left|done]. done.
  - cbv iota. cbn [mret run_bind]. erewrite post_screen_locked by done. eexists _, _. split; [done|]. split; [done|].
    split; [|intros Hlt; apply Z.ltb_ge in E; lia]. intros (p & [->|[]]%In_insert_task & Hp). done.
Qed.
End Sleep.

(** ** A concrete run *)

Module DemoNotifier.
Definition app : bytes := str "com.example.notes".
Definition main : bytes := str "MainAbility".
Definition note : MissionInfo := mkMissionInfo 7 app (str "entry") main true 0 CONTINUESTATE_ACTIVE.

#[export] Instance Surroundings : ConditionEnv := {|
  MissionConditions.IsCurrentContinueSwitchOn _ := true;
  MissionConditions.IsWifiActive _ := true;
  GetForegroundUser _ := 100;
  GetCurrentMissionId _ := 7;
  GetMissionInfos _ := (ERR_OK, [note]);
  GetMissionInfo _ _ := (ERR_OK, note);
  GetMissionDisplay _ _ := None;
  QueryAllServiceStateContext _ := [];
  GetBundleVersionCode _ _ := Some 1;
  IsBlacklisted _ _ _ := false;
  CheckMDMCtrlRule _ _ := false;
  junk_isFocused _ _ := false;
  zero_continueState := CONTINUESTATE_INACTIVE
|}.

(** The tablet has the same bundle. *)
#[export] Instance Devices : RecommendEnv := {|
  GetLocalAbilityInfo _ _ _ _ := Some [str "edit"];
  GetAppProvisionInfo _ _ := Some (mkProvision (str "dev") None);
  GetNetworkIdList _ := [str "tablet"];
  GetStoredBundle _ _ b := if bytes_eqb b app then Some (mkStoredBundle app (str "dev") [] []) else None;
  GetDistributeInfosByNetworkId _ _ := None
|}.

Definition surroundings (on manager : bool) : SenderEnv := {|
  AddMonitor _ := 3;
  GetForegroundAccountUid _ := Some (str "A1B2");
  GetBundleNameId _ _ := (ERR_OK, 258);
  GetContinueTypeId _ _ _ := (ERR_OK, 4);
  IsCallerForeground _ _ := true;
  HasSendMgrByCallingUid _ _ := true;
  HasCurrentSendMgr _ := manager;
  HasRecomMgrByCallingUid _ _ := true;
  HasCurrentRecomMgr _ := true;
  HasCurrentRecvMgr _ := true;
  IsContinueSwitchOn _ := on;
  GetAppLaunchTime _ _ := 0
|}.
#[export] Instance Services : SenderEnv := surroundings true true.
Definition SwitchedOff : SenderEnv := surroundings false true.
Definition NoManager : SenderEnv := surroundings true false.

(** What a run broadcasts. *)
Definition sent (r : run (unit * Notifier * list Effect)) : list bytes :=
  match r with
  | Done (_, _, t) => flat_map (fun e => match e with SoftbusEventSent b _ => [content b] | _ => [] end) t
  | _ => []
  end.

Definition start : list Move := [CallInit 100; CallConditionsInit; CallAdapterInit; CallListenerInit].

(** The mission gets the focus, then its minute passes; the user leaves it just before the
    screen is locked. *)
Example a_minute : sent (make_moves (start ++ [MissionEvent (TaskMissionFocused 7 1) 1; ListenerTurn; SendTurn;
    Wait 60000; SendTurn]) Notifier_new []) = [[3; 1; 2; 4]; [19; 1; 2; 4]].
Proof. vm_compute. reflexivity. Qed.

Example screen_locked_soon : sent (make_moves (start ++ [MissionEvent (TaskMissionFocused 7 1) 1; ListenerTurn; SendTurn;
    MissionEvent (TaskMissionBackground 7 1) 1; ListenerTurn; Wait 300; SendTurn; ScreenLocked; SendTurn; SendTurn;
    Wait 10000; SendTurn]) Notifier_new []) = [[3; 1; 2; 4]; [19; 1; 2; 4]; [3; 1; 2; 4]; [19; 1; 2; 4]].
Proof. vm_compute. reflexivity. Qed.

(** The manager of recommendations names the tablet. *)
Example tablet_recommended :
  match make_moves (start ++ [CallRecommendInit 100; MissionEvent (TaskMissionFocused 7 1) 1; ListenerTurn; RecommendTurn]) Notifier_new [] with
  | Done (_, _, t) => flat_map (fun e => match e with RecommendPublished i => [(state_ i, candidates_ i)] | _ => [] end) t
  | _ => []
  end = [(STATE_ACTIVE, [(str "tablet", app)])].
Proof. vm_compute. reflexivity. Qed.

(** The state in which the mission is known. *)
Definition known : Notifier :=
  match make_moves start Notifier_new [] with Done (_, n, _) => n | _ => Notifier_new end.

Lemma known_ok : notifier_ok known.
Proof.
  destruct (make_moves_ok start Notifier_new [] Notifier_new_ok) as (? & n & t & Hrun & Hn). unfold known. by rewrite Hrun.
Qed.

Lemma focus_is_exclusive_witness :
  GetMissionInfo [] 7 = (ERR_OK, note) /\
  exists c', OnMissionFocused 100 7 (conditions_ known) [] = Done (ERR_OK, c', [] ++ [Query]) /\
    (ERR_OK <> ERR_OK -> c' = conditions_ known) /\
    (ERR_OK = ERR_OK ->
      only_focus 7 (missions c' 100) /\ map_find (missions c' 100) 7 = Some (ConvertToMissionStatus note 100 true) /\
      (forall t', GetCurrentFocusedMission 100 c' t' = Done (7, c', t')) /\
      forall other, other <> 100 -> missions c' other = missions (conditions_ known) other).
Proof. split; [reflexivity|]. apply (focus_is_exclusive 100 7 (conditions_ known) [] ERR_OK note). reflexivity. Defined.

Lemma note_recommendable : recommendable (conditions_ known) (ConvertToMissionStatus note 100 true).
Proof. by split. Qed.

(** The tablet is recommended. *)
Lemma recommendation_trusted_witness :
  let status := ConvertToMissionStatus note 100 true in
  exists c' q info,
    PublishContinueRecommend 100 status MISSION_EVENT_FOCUSED (conditions_ known) [] =
      Done (tt, c', [] ++ q ++ [RecommendPublished info]) /\
    missionMap_ c' = missionMap_ (conditions_ known) /\ Forall (eq Query) q /\
    info_ok 100 status info /\ system_allows c' /\ mission_allows status MISSION_EVENT_FOCUSED /\
    In (str "tablet", app) (candidates_ info).
Proof.
  intros status.
  destruct (recommendation_trusted 100 status MISSION_EVENT_FOCUSED (conditions_ known) []
    (ok_conditions _ known_ok)) as (c' & l & Hrun & Hm & Hl & Hpos).
  destruct (Hpos eq_refl note_recommendable) as (q & info & -> & _ & Hall).
  destruct Hl as [Hq|(q2 & info2 & Heq & Hq2 & H1 & H2 & H3)].
  { exfalso. apply Forall_app in Hq as (_ & Hq). apply Forall_cons_1 in Hq as (Hq & _). discriminate Hq. }
  apply app_inj_tail in Heq as (-> & Heq). injection Heq as ->. exists c', q2, info2.
  split; [exact Hrun|]. split_and!; [done..|]. apply Hall. split; [|split].
  - intros t. eexists. split; reflexivity.
  - intros t. by left.
  - eexists. split; [|intros t; reflexivity]. reflexivity.
Defined.

Lemma broadcast_needs_conditions_witness :
  notifier_ok known /\
  exists n' t', make_move SendTurn known [] = Done (tt, n', t') /\
    (quiet [] t' \/ (SendTurn = SendTurn /\ exists id ct type uid, broadcasts_once [] t' id ct type uid /\
      is_u16 id /\ is_u8 ct /\ system_allows (conditions_ n'))).
Proof. split; [exact known_ok|]. apply (broadcast_needs_conditions SendTurn known [] known_ok). Defined.

(** What is known of the mission, and of its surroundings. *)
Definition status : MissionStatus := ConvertToMissionStatus note 100 true.

Lemma offered : offered_here app main 258 4 (str "A1B2").
Proof. by split. Qed.
Lemma can_offer_known : can_offer (conditions_ known) status.
Proof. by split; vm_compute. Qed.

Lemma focus_offers_then_withdraws_witness :
  can_offer (conditions_ known) status /\
  exists n1 t1 n2 t2,
    (do! OnMissionStatusChanged 7 MISSION_EVENT_FOCUSED in send_turn) known [] = Done (tt, n1, t1) /\
    broadcasts_once [] t1 (u16 258) (Z.land 4 DMS_0XFF) BROADCAST_TYPE_APPEAR (str "A1B2") /\
    send_tasks_ n1 = Some [mkPosted (now_ known + FOCUS_TIMEOUT_DELAY_TIME) (timeoutTaskName 7) (TaskTimeout 7)] /\
    (do! make_move (Wait 60000) in send_turn) n1 t1 = Done (tt, n2, t2) /\
    broadcasts_once t1 t2 (u16 258) (Z.land 4 DMS_0XFF) BROADCAST_TYPE_DISAPPEAR (str "A1B2") /\
    send_tasks_ n2 = Some [].
Proof.
  split; [exact can_offer_known|].
  eapply (focus_offers_then_withdraws status 258 4 (str "A1B2") offered 7 known []); [exact can_offer_known|..];
    vm_compute; reflexivity || discriminate.
Defined.

Lemma switch_off_unannounced_witness :
  notifier_ok known /\
  exists n' t', (do! OnContinueSwitchChanged (SE := SwitchedOff) in
    make_moves (SE := SwitchedOff) [SendTurn; SendTurn; Wait 60000; SendTurn]) known [] = Done (tt, n', t') /\ quiet [] t'.
Proof.
  split; [exact known_ok|].
  apply (switch_off_unannounced (SE := SwitchedOff) known [] [SendTurn; SendTurn; Wait 60000; SendTurn]).
  - exact known_ok.
  - vm_compute. reflexivity.
  - reflexivity.
  - reflexivity.
  - repeat constructor; discriminate.
Defined.

Definition touched : Notifier := set_mmi_tasks (Some [mkPosted 0 [] TaskRawMMIEvent]) known.

Lemma input_lost_without_manager_witness :
  HasCurrentSendMgr (SenderEnv := NoManager) [] = false /\
  exists n', (do! mmi_turn (SE := NoManager) in make_moves (SE := NoManager) [InputEvent; Wait 5000; MmiTurn; InputEvent; MmiTurn])
      touched [] = Done (tt, n', [] ++ [Query]) /\
    isMMIFreezed_ n' = true /\ send_tasks_ n' = send_tasks_ touched.
Proof.
  split; [reflexivity|].
  apply (input_lost_without_manager (SE := NoManager) (mkPosted 0 [] TaskRawMMIEvent) [] touched []);
    try (vm_compute; reflexivity || discriminate); repeat constructor.
Defined.

Lemma screen_lock_offers_again_witness :
  missionId (lastContinuableMissionStatus_ (conditions_ known)) <> INVALID_MISSION_ID /\
  exists n' l,
    (do! SetScreenLockedInfo (mkLastUnfoInfo 7 0 status) in do! make_move (Wait 300) in ScreenLocked_OnDeviceScreenLocked)
      (set_now (2 ^ 31) known) [] = Done (tt, n', []) /\
    send_tasks_ n' = Some l /\
    ((exists p, In p l /\ task p = TaskScreenLockedEvent DMS_FOCUSED_TYPE) <-> now_ (set_now (2 ^ 31) known) < 2 ^ 31).
Proof.
  split; [vm_compute; discriminate|].
  eapply (screen_lock_offers_again (set_now (2 ^ 31) known) [] (mkLastUnfoInfo 7 0 status)); vm_compute;
    try reflexivity; try discriminate; split; try reflexivity; discriminate.
Defined.
End DemoNotifier.
