(* ===== verification/SoftbusBroadcast.v ===== *)
(** * Broadcasts over softbus

    services/dtbschedmgr/src/softbus_adapter/softbus_adapter.cpp: the events of continuations
    that go out over softbus, with their retries, and those that come in.  The state is
    [SoftbusAdapter]; [dmsAdapetr_] holds functions of another library, each of which may be
    null, and their results are answers of the environment.  The default build has one
    account. *)

From Stdlib Require Import ZArith Lia String.
From stdpp Require Import base list option.
From S2P Require Import Prelude ErrorCodes DataBuffer StdString EventQueue Effects.
Import ErrorCodes.Dms.

Definition RETRY_SENT_EVENT_TASK : bytes := str "retry_on_sent_event_task".
Definition RETRY_SENT_EVENT_DELAY : Z := 50.
Definition RETRY_SENT_EVENT_MAX_TIME : Z := 3.

(** [DealSendSoftbusEvent] in the lambdas; the buffer is shared and never changes. *)
Inductive AdapterTask := TaskSend (buffer : option DataBuffer) (accountId : bytes) (retry : Z).

(** [IDmsBroadcastAdapter]: which functions are there. *)
Record DmsAdapter := mkDmsAdapter {
  has_SendSoftbusEvent : bool;
  has_StopSoftbusEvent : bool;
  has_RegisterSoftbusEventListener : bool;
  has_UnregisterSoftbusEventListener : bool
}.

(** A listener is a number. *)
Record SoftbusAdapter := mkSoftbusAdapter {
  adapter_tasks_ : option (list (Posted AdapterTask));
  softbusAdapterListener_ : option Z;
  dmsAdapetr_ : DmsAdapter;
  adapter_now_ : Z
}.

Inductive AdapterEffect :=
| EventBroadcast (data : bytes) (accountId : bytes)
| EventStopped
| ListenerRegistered
| ListenerUnregistered
| DataDelivered (listener : Z) (networkId data accountIdTrunc : bytes).

(** [SOFTBUS_INVALID_PARAM] is softbus' own, and [NewMissionListener] the number of a
    [DistributedMissionBroadcastListener] that is made. *)
Class AdapterEnv := {
  SendSoftbusEvent_result : list AdapterEffect -> Z;
  StopSoftbusEvent_result : list AdapterEffect -> Z;
  RegisterSoftbusEventListener_result : list AdapterEffect -> Z;
  UnregisterSoftbusEventListener_result : list AdapterEffect -> Z;
  SOFTBUS_INVALID_PARAM : Z;
  NewMissionListener : list AdapterEffect -> Z
}.

Definition set_adapter_tasks (x : option (list (Posted AdapterTask))) (a : SoftbusAdapter) : SoftbusAdapter :=
  mkSoftbusAdapter x (softbusAdapterListener_ a) (dmsAdapetr_ a) (adapter_now_ a).
Definition set_listener (x : option Z) (a : SoftbusAdapter) : SoftbusAdapter :=
  mkSoftbusAdapter (adapter_tasks_ a) x (dmsAdapetr_ a) (adapter_now_ a).
Definition set_functions (x : DmsAdapter) (a : SoftbusAdapter) : SoftbusAdapter :=
  mkSoftbusAdapter (adapter_tasks_ a) (softbusAdapterListener_ a) x (adapter_now_ a).
Definition set_adapter_now (x : Z) (a : SoftbusAdapter) : SoftbusAdapter :=
  mkSoftbusAdapter (adapter_tasks_ a) (softbusAdapterListener_ a) (dmsAdapetr_ a) x.

Definition SoftbusAdapter_new : SoftbusAdapter :=
  mkSoftbusAdapter None None (mkDmsAdapter false false false false) 0.

Section Operations.
Context {AE : AdapterEnv}.

Definition Ad (A : Type) : Type := M SoftbusAdapter AdapterEffect A.

Definition PostTask (task : AdapterTask) (name : bytes) (delay : Z) : Ad unit :=
  modify (fun a => match adapter_tasks_ a with
    | Some l => set_adapter_tasks (Some (insert_task (mkPosted (adapter_now_ a + delay) name task) l)) a
    | None => a
    end).

Definition RemoveTask (name : bytes) : Ad unit :=
  modify (fun a => match adapter_tasks_ a with
    | Some l => set_adapter_tasks (Some (remove_tasks name l)) a
    | None => a
    end).

Definition Init : Ad unit :=
  modify (fun a => match adapter_tasks_ a with Some _ => a | None => set_adapter_tasks (Some []) a end).
Definition UnInit : Ad unit := modify (set_adapter_tasks None).

Definition SendSoftbusEvent (buffer : option DataBuffer) (accountId : bytes) : Ad Z :=
  do! PostTask (TaskSend buffer accountId 0) [] 0 in mret SOFTBUS_OK.

Definition RetrySendSoftbusEvent (buffer : option DataBuffer) (accountId : bytes) (retry : Z) : Ad Z :=
  if retry =? RETRY_SENT_EVENT_MAX_TIME then mret INVALID_PARAMETERS_ERR
  else
    let! a := get in
    match adapter_tasks_ a with
    | None => mret INVALID_PARAMETERS_ERR
    | Some _ =>
      do! RemoveTask RETRY_SENT_EVENT_TASK in
      do! PostTask (TaskSend buffer accountId (retry + 1)) RETRY_SENT_EVENT_TASK RETRY_SENT_EVENT_DELAY in
      mret ERR_OK
    end.

(** [Data()] and [Capacity()]: the whole array is sent. *)
Definition DealSendSoftbusEvent (buffer : option DataBuffer) (accountId : bytes) (retry : Z) : Ad Z :=
  let! a := get in
  match adapter_tasks_ a with
  | None => mret INVALID_PARAMETERS_ERR
  | Some _ =>
    do! RemoveTask RETRY_SENT_EVENT_TASK in
    match buffer with
    | None => mret INVALID_PARAMETERS_ERR
    | Some b =>
      if negb (has_SendSoftbusEvent (dmsAdapetr_ a)) then mret INVALID_PARAMETERS_ERR
      else
        let! data := from_run (match data_ b, DataBuffer.Data b with
          | Some d, Some p => load_n d p (Capacity b)
          | _, _ => Done []
          end) in
        let! ret := call (EventBroadcast data accountId) SendSoftbusEvent_result in
        if negb (ret =? SOFTBUS_OK) then RetrySendSoftbusEvent buffer accountId retry else mret ret
    end
  end.

Definition StopSoftbusEvent : Ad Z :=
  let! a := get in
  if negb (has_StopSoftbusEvent (dmsAdapetr_ a)) then mret INVALID_PARAMETERS_ERR
  else call EventStopped StopSoftbusEvent_result.

Definition OnBroadCastRecv (networkId data accountIdTrunc : bytes) : Ad unit :=
  let! a := get in
  match softbusAdapterListener_ a with
  | None => mret tt
  | Some l => emit (DataDelivered l networkId data accountIdTrunc)
  end.

Definition RegisterSoftbusEventListener (listener : option Z) : Ad Z :=
  match listener with
  | None => mret SOFTBUS_INVALID_PARAM
  | Some l =>
    do! modify (set_listener (Some l)) in
    let! a := get in
    if negb (has_RegisterSoftbusEventListener (dmsAdapetr_ a)) then mret INVALID_PARAMETERS_ERR
    else call ListenerRegistered RegisterSoftbusEventListener_result
  end.

Definition UnregisterSoftbusEventListener (listener : option Z) : Ad Z :=
  match listener with
  | None => mret SOFTBUS_INVALID_PARAM
  | Some l =>
    do! modify (set_listener (Some l)) in
    let! a := get in
    if negb (has_UnregisterSoftbusEventListener (dmsAdapetr_ a)) then mret INVALID_PARAMETERS_ERR
    else call ListenerUnregistered UnregisterSoftbusEventListener_result
  end.

Definition ReRegister : Ad unit :=
  do! StopSoftbusEvent in
  let! a := get in
  let! ret := UnregisterSoftbusEventListener (softbusAdapterListener_ a) in
  if negb (ret =? ERR_OK) then mret tt
  else
    let! t := trace in
    do! RegisterSoftbusEventListener (Some (NewMissionListener t)) in mret tt.

Definition run_adapter_task (task : AdapterTask) : Ad unit :=
  match task with TaskSend buffer account retry => do! DealSendSoftbusEvent buffer account retry in mret tt end.

Definition adapter_turn : Ad unit :=
  let! a := get in
  match adapter_tasks_ a with
  | Some (p :: l) =>
    if due p <=? adapter_now_ a then do! modify (set_adapter_tasks (Some l)) in run_adapter_task (task p) else mret tt
  | _ => mret tt
  end.

(** Time passes and the thread takes a turn. *)
Definition adapter_turn_after (ms : Z) : Ad unit :=
  do! modify (fun a => set_adapter_now (adapter_now_ a + Z.max 0 ms) a) in adapter_turn.
End Operations.
