(* ===== verification/SoftbusBroadcastProperties.v ===== *)
(** * What the broadcasts of softbus promise

    How often an event goes out, and who is told of those that come in. *)

From Stdlib Require Import ZArith Lia String.
From stdpp Require Import base list option.
From S2P Require Import Prelude ErrorCodes DataBuffer StdString EventQueue Effects SoftbusBroadcast.
Import ErrorCodes.Dms.

Section Sending.
Context {AE : AdapterEnv}.

(** The bytes of a buffer, all that it holds. *)
Definition holds (b : DataBuffer) (data : bytes) : Prop :=
  exists d p, data_ b = Some d /\ DataBuffer.Data b = Some p /\ load_n d p (Capacity b) = Done data.

(** The thread takes a turn after each of these times. *)
Definition turns (ws : list Z) : Ad unit := mfor ws adapter_turn_after.

(** Attempt [retry] waits for its time, alone, and the service can make it. *)
Record waits_to_send (b : DataBuffer) (account : bytes) (retry : Z) (at_ : Z) (a : SoftbusAdapter) : Prop := mkWaits {
  sender_there : has_SendSoftbusEvent (dmsAdapetr_ a) = true;
  sending_task : exists name, adapter_tasks_ a = Some [mkPosted at_ name (TaskSend (Some b) account retry)]
}.

(** A turn before its time leaves it waiting. *)
Lemma turn_too_early b account retry at_ w a t :
  waits_to_send b account retry at_ a -> adapter_now_ a + Z.max 0 w < at_ ->
  wp (adapter_turn_after w) (fun _ a' t' => t' = t /\ adapter_now_ a' = adapter_now_ a + Z.max 0 w /\
    waits_to_send b account retry at_ a') a t.
Proof.
  intros [Hsend (name & Hq)] Hlt. unfold adapter_turn_after. apply wp_mbind, wp_modify. unfold adapter_turn.
  apply wp_mbind, wp_get. cbn [adapter_tasks_ set_adapter_now adapter_now_]. rewrite Hq. cbn [due].
  apply Z.leb_gt in Hlt. rewrite Hlt. apply wp_mret. split_and!; try done. split; [done|]. by exists name.
Qed.

(** One attempt: the event goes out; when it was refused, the next attempt is due fifty
    milliseconds later. *)
Lemma attempt_once b data account retry at_ w a t :
  holds b data -> waits_to_send b account retry at_ a -> at_ <= adapter_now_ a + Z.max 0 w ->
  let e := EventBroadcast data account in
  wp (adapter_turn_after w) (fun _ a' t' => t' = t ++ [e] /\ adapter_now_ a' = adapter_now_ a + Z.max 0 w /\
    if (SendSoftbusEvent_result t =? SOFTBUS_OK) || (retry =? RETRY_SENT_EVENT_MAX_TIME)
    then adapter_tasks_ a' = Some [] else waits_to_send b account (retry + 1) (adapter_now_ a' + 50) a') a t.
Proof.
  intros (d & p0 & Hd & Hp & Hload) [Hsend (name & Hq)] Hdue e. unfold adapter_turn_after.
  apply wp_mbind, wp_modify. unfold adapter_turn. apply wp_mbind, wp_get. cbn [adapter_tasks_ set_adapter_now adapter_now_].
  rewrite Hq. cbn [due]. apply Z.leb_le in Hdue. rewrite Hdue. apply wp_mbind, wp_modify.
  cbn [run_adapter_task task]. unfold DealSendSoftbusEvent. apply wp_mbind, wp_mbind, wp_get. cbn -[wp load_n Z.add Z.max].
  apply wp_mbind, wp_modify. cbn -[wp load_n Z.add Z.max]. rewrite Hsend. cbn -[wp load_n Z.add Z.max].
  apply wp_mbind. rewrite Hd, Hp. eapply wp_from_run; [exact Hload|]. apply wp_mbind, wp_call. fold e.
  destruct (SendSoftbusEvent_result t =? SOFTBUS_OK) eqn:Er; cbn [negb orb]; [by do 2 apply wp_mret|].
  unfold RetrySendSoftbusEvent. destruct (retry =? RETRY_SENT_EVENT_MAX_TIME) eqn:E; [by do 2 apply wp_mret|].
  apply wp_mbind, wp_get. cbn -[wp Z.add Z.max]. apply wp_mbind, wp_modify, wp_mbind, wp_modify, wp_mret, wp_mret.
  split_and!; [done..|]. split; [done|]. by eexists.
Qed.

(** Nothing waits. *)
Lemma turns_idle ws a t : adapter_tasks_ a = Some [] ->
  wp (turns ws) (fun _ a' t' => t' = t /\ adapter_tasks_ a' = Some []) a t.
Proof.
  intros Hq. apply (wp_mfor (fun a' t' => t' = t /\ adapter_tasks_ a' = Some [])); [done|].
  intros w a1 t1 _ (-> & H). apply wp_mbind, wp_modify, wp_mbind, wp_get. cbn -[wp]. rewrite H. by apply wp_mret.
Qed.

(** Softbus takes the event at the attempt after [i] that it refused. *)
Definition taken (t : list AdapterEffect) (e : AdapterEffect) (i : nat) : bool :=
  SendSoftbusEvent_result (t ++ repeat e i) =? SOFTBUS_OK.

Lemma repeat_snoc {A} (x : A) n : repeat x n ++ [x] = repeat x (S n).
Proof. change [x] with (repeat x 1). rewrite <- repeat_app. f_equal. lia. Qed.

Lemma turns_until_sent b data account : holds b data -> forall ws n left at_ a t0,
  let e := EventBroadcast data account in
  (n + S left = 4)%nat -> waits_to_send b account (Z.of_nat n) at_ a ->
  wp (turns ws) (fun _ a' t' =>
    let k := paced 50 (taken t0 e) n (S left) (at_ - adapter_now_ a) ws in
    t' = t0 ++ repeat e k /\
    (adapter_tasks_ a' = Some [] <-> k = 4%nat \/ (n < k)%nat /\ taken t0 e (k - 1) = true)) a (t0 ++ repeat e n).
Proof.
  intros Hb ws. induction ws as [|w ws IH]; intros n left at_ a t0 e Hn Hw.
  { apply wp_mret. cbv zeta. cbn [paced]. split; [done|]. destruct Hw as [_ (name & ->)]. split; [done|]. lia. }
  unfold turns. cbn [mfor]. apply wp_mbind. cbn [paced]. destruct (Z.leb_spec (at_ - adapter_now_ a - Z.max 0 w) 0) as [Hle|Hlt].
  - eapply wp_mono; [eapply attempt_once; [done..|lia]|]. cbv zeta. fold e. intros _ a1 t1 (-> & Hnow & H).
    rewrite <- app_assoc, repeat_snoc. change (SendSoftbusEvent_result (t0 ++ repeat e n) =? SOFTBUS_OK) with (taken t0 e n) in H.
    destruct (taken t0 e n) eqn:Et.
    + eapply wp_mono; [by apply turns_idle|]. intros _ a2 t2 (-> & Hq). split; [done|]. split; [|done].
      intros _. right. split; [lia|]. by replace (S n - 1)%nat with n by lia.
    + cbn [orb] in H. unfold RETRY_SENT_EVENT_MAX_TIME in H. destruct (Z.eqb_spec (Z.of_nat n) 3) as [Hn3|Hn3].
      * eapply wp_mono; [by apply turns_idle|]. intros _ a2 t2 (-> & Hq). assert (left = O) as -> by lia.
        assert (paced 50 (taken t0 e) (S n) 0 50 ws = S n) as -> by (by destruct ws). split; [done|]. split; [|done]. lia.
      * destruct left as [|left]; [lia|]. replace (Z.of_nat n + 1) with (Z.of_nat (S n)) in H by lia.
        eapply wp_mono; [eapply (IH (S n) left); [lia|exact H]|]. cbv zeta. fold e.
        replace (adapter_now_ a1 + 50 - adapter_now_ a1) with 50 by lia. intros _ a2 t2 (-> & Hiff). split; [done|].
        rewrite Hiff. pose proof (paced_bounds 50 (taken t0 e) (S n) (S left) 50 ws) as Hk.
        split; [intuition lia|]. intros [?|(_ & Ht)]; [by left|].
        destruct (Nat.eq_dec (paced 50 (taken t0 e) (S n) (S left) 50 ws) (S n)) as [Heq|]; [|right; split; [lia|done]].
        rewrite Heq in Ht. replace (S n - 1)%nat with n in Ht by lia. congruence.
  - eapply wp_mono; [eapply turn_too_early; [done|lia]|]. intros _ a1 t1 (-> & Hnow & H).
    eapply wp_mono; [by eapply IH|]. cbv zeta. rewrite Hnow.
    replace (at_ - (adapter_now_ a + Z.max 0 w)) with (at_ - adapter_now_ a - Z.max 0 w) by lia. done.
Qed.

(** C26 An event that waits alone is broadcast, unchanged, at the first turn of the thread at
    which it is due; while softbus refuses it, again at the first turn that comes fifty
    milliseconds or more after the last attempt and at no earlier one, whatever turns there are.
    It waits until softbus has taken it or refused it four times, which four turns that are
    fifty milliseconds apart bring about. *)
Theorem event_tried_until_sent b data account at_ a t ws :
  holds b data -> waits_to_send b account 0 at_ a ->
  let e := EventBroadcast data account in
  let n := paced 50 (taken t e) 0 4 (at_ - adapter_now_ a) ws in
  exists a', turns ws a t = Done (tt, a', t ++ repeat e n) /\
    (adapter_tasks_ a' = Some [] <-> n = 4%nat \/ (0 < n)%nat /\ taken t e (n - 1) = true) /\
    (at_ <= adapter_now_ a + 50 -> Forall (fun w => 50 <= w) ws -> (4 <= length ws)%nat -> adapter_tasks_ a' = Some []).
Proof.
  intros Hb Hw e n.
  destruct (turns_until_sent b data account Hb ws 0 3 at_ a t eq_refl Hw) as ([] & a' & t' & Hrun & -> & Hiff).
  fold e n in Hrun, Hiff. cbn [repeat] in Hrun. rewrite app_nil_r in Hrun. exists a'. split_and!; [done..|].
  intros Hat Hws Hlen. apply Hiff. apply (paced_enough 50 (taken t e) 0 4); [lia|done|done].
Qed.

(** An event that is sent while another waits to be sent again takes the other's place: the
    turn that sends it removes the other, which is not tried again although softbus refused it
    only once. *)
Theorem newer_event_drops_retry b b2 data2 account account2 retry at_ a t :
  adapter_tasks_ a = Some [mkPosted at_ RETRY_SENT_EVENT_TASK (TaskSend (Some b) account retry)] ->
  has_SendSoftbusEvent (dmsAdapetr_ a) = true -> holds b2 data2 -> adapter_now_ a < at_ ->
  SendSoftbusEvent_result t = SOFTBUS_OK ->
  exists a', (do! SendSoftbusEvent (Some b2) account2 in adapter_turn) a t
    = Done (tt, a', t ++ [EventBroadcast data2 account2]) /\ adapter_tasks_ a' = Some [].
Proof.
  intros Hq Hsend (d & p0 & Hd & Hp & Hload) Hlt Hok.
  enough (wp (do! SendSoftbusEvent (Some b2) account2 in adapter_turn) (fun _ a' t' =>
    t' = t ++ [EventBroadcast data2 account2] /\ adapter_tasks_ a' = Some []) a t) as ([] & a' & t' & Hrun & -> & H)
    by by exists a'.
  apply wp_mbind. unfold SendSoftbusEvent. apply wp_mbind. unfold PostTask. apply wp_modify, wp_mret. rewrite Hq.
  cbn [insert_task due]. rewrite Z.add_0_r. assert (adapter_now_ a <? at_ = true) as -> by (by apply Z.ltb_lt).
  unfold adapter_turn. apply wp_mbind, wp_get. cbn [adapter_tasks_ set_adapter_tasks adapter_now_ due].
  rewrite Z.leb_refl. apply wp_mbind, wp_modify. cbn [run_adapter_task task]. unfold DealSendSoftbusEvent.
  apply wp_mbind, wp_mbind, wp_get. cbn -[wp load_n]. apply wp_mbind, wp_modify. cbn -[wp load_n]. rewrite Hsend. cbn -[wp load_n].
  apply wp_mbind. rewrite Hd, Hp. eapply wp_from_run; [exact Hload|]. apply wp_mbind, wp_call. rewrite Hok. cbn -[wp].
  by do 2 apply wp_mret.
Qed.
End Sending.

Section Listening.
Context {AE : AdapterEnv}.

(** Taking a listener away stores it: whatever softbus answers, the next event that comes
    in is delivered to the listener that was taken away. *)
Theorem unregistered_listener_still_told listener networkId data account a t :
  exists ret a' t', UnregisterSoftbusEventListener (Some listener) a t = Done (ret, a', t') /\
    OnBroadCastRecv networkId data account a' t' = Done (tt, a', t' ++ [DataDelivered listener networkId data account]).
Proof.
  assert (wp (UnregisterSoftbusEventListener (Some listener)) (fun _ a' _ => softbusAdapterListener_ a' = Some listener) a t)
    as (ret & a' & t' & Hrun & Hl).
  { unfold UnregisterSoftbusEventListener. apply wp_mbind, wp_modify, wp_mbind, wp_get.
    destruct (negb _); [by apply wp_mret|by apply wp_call]. }
  exists ret, a', t'. split; [done|]. unfold OnBroadCastRecv, mbind. cbn. by rewrite Hl.
Qed.
End Listening.

Module DemoBroadcast.
(** Softbus refuses the first event it is given. *)
#[export] Instance Softbus : AdapterEnv := {|
  SendSoftbusEvent_result t := if (length t =? 0)%nat then -1 else SOFTBUS_OK;
  StopSoftbusEvent_result _ := 0;
  RegisterSoftbusEventListener_result _ := 0;
  UnregisterSoftbusEventListener_result _ := 0;
  SOFTBUS_INVALID_PARAM := -1;
  NewMissionListener _ := 1
|}.

Definition offer : DataBuffer := buffer_of [3; 1; 2; 4].
Definition adapter : SoftbusAdapter :=
  mkSoftbusAdapter (Some [mkPosted 0 [] (TaskSend (Some offer) (str "A1B2") 0)]) None (mkDmsAdapter true true true true) 0.

Definition event : AdapterEffect := EventBroadcast [3; 1; 2; 4] (str "A1B2").

Lemma offer_holds : holds offer [3; 1; 2; 4].
Proof. exists [3; 1; 2; 4], 0. repeat split; reflexivity. Qed.

(** The second attempt is made fifty milliseconds after the first, not at the turn one
    millisecond earlier, and succeeds. *)
Lemma event_tried_until_sent_witness :
  waits_to_send offer (str "A1B2") 0 0 adapter /\
  (exists a', turns [0; 49] adapter [] = Done (tt, a', [] ++ [event]) /\
    (adapter_tasks_ a' = Some [] <-> 1%nat = 4%nat \/ (0 < 1)%nat /\ taken [] event 0 = true) /\
    (0 <= 0 + 50 -> Forall (fun w => 50 <= w) [0; 49] -> (4 <= 2)%nat -> adapter_tasks_ a' = Some [])) /\
  (exists a', turns [0; 49; 1] adapter [] = Done (tt, a', [] ++ [event; event]) /\
    (adapter_tasks_ a' = Some [] <-> 2%nat = 4%nat \/ (0 < 2)%nat /\ taken [] event 1 = true) /\
    (0 <= 0 + 50 -> Forall (fun w => 50 <= w) [0; 49; 1] -> (4 <= 3)%nat -> adapter_tasks_ a' = Some [])).
Proof.
  assert (waits_to_send offer (str "A1B2") 0 0 adapter) as Hw.
  { split; [reflexivity|]. eexists. reflexivity. }
  split; [exact Hw|]. split.
  - exact (event_tried_until_sent offer [3; 1; 2; 4] (str "A1B2") 0 adapter [] [0; 49] offer_holds Hw).
  - exact (event_tried_until_sent offer [3; 1; 2; 4] (str "A1B2") 0 adapter [] [0; 49; 1] offer_holds Hw).
Defined.

(** The refused event and the one that takes its place. *)
Lemma newer_event_drops_retry_witness :
  let waiting := mkSoftbusAdapter (Some [mkPosted 50 RETRY_SENT_EVENT_TASK (TaskSend (Some offer) (str "A1B2") 1)]) None
    (mkDmsAdapter true true true true) 0 in
  exists a', (do! SendSoftbusEvent (Some (buffer_of [19; 1; 2; 4])) (str "A1B2") in adapter_turn) waiting [event]
    = Done (tt, a', [event] ++ [EventBroadcast [19; 1; 2; 4] (str "A1B2")]) /\ adapter_tasks_ a' = Some [].
Proof.
  intros waiting.
  apply (newer_event_drops_retry offer (buffer_of [19; 1; 2; 4]) [19; 1; 2; 4] (str "A1B2") (str "A1B2") 1 50 waiting [event]);
    [reflexivity|reflexivity| |reflexivity|reflexivity].
  exists [19; 1; 2; 4], 0. repeat split; reflexivity.
Defined.
End DemoBroadcast.
