(* ===== verification/ContinueReceiver.v ===== *)
(** * Offers of other devices' missions

    services/dtbschedmgr/src/mission/notification/dms_continue_recv_manager.cpp: the
    broadcasts of other devices, which bundle of this device could continue the mission, the
    icon the dock is told to show and when it is told to hide it, and the listeners of the
    dock.

    The state is [Receiver]; a null event handler is [None].  [now_] is the clock of the event
    handler in milliseconds.  A remote object is a number; [None] is the null pointer.  The
    store of bundles, the bundle manager and the parcels are answers of the environment
    ([ReceiverEnv]).  The default build is modelled: neither
    SUPPORT_CONTINUATION_RECOMMEND_INSTALLATION nor DMSFWK_ENABLE_MULTI_DISTRIBUTED_ACCOUNTS
    is set, so the listeners of several accounts and the recommended bundles are left out.
    [SetAccountInfo] stores what nothing in this build reads. *)

From Stdlib Require Import ZArith Lia String.
From stdpp Require Import base list option.
From S2P Require Import Prelude ErrorCodes StdMap StdString EventQueue Effects.
Import ErrorCodes.Dms.

(** ** Data *)

Definition ACTIVE : Z := 0.
Definition INACTIVE : Z := 1.
Definition DBMS_RETRY_MAX_TIME : Z := 5.
Definition DBMS_RETRY_DELAY : Z := 2000.
Definition REGIST_MAX_SIZE : Z := 1000.
Definition MAX_TYPE_SIZE : Z := 50.
Definition DBMS_RETRY_TASK : bytes := str "retry_on_boradcast_task".
Definition QUICK_START_CONFIGURATION : bytes := str "_ContinueQuickStart".
Definition ICON_TIMEOUT_TASK : bytes := str "icon_timeout_task".
Definition TIMEOUT_SENT_EVENT_DELAY : Z := 60000.
Definition DMS_DATA_LEN : Z := 3.
Definition DMS_SEND_LEN : Z := 4.
Definition DMS_0XF0 : Z := 240.
Definition DMS_0X0F : Z := 15.
Definition DMS_UNFOCUSED_TYPE : Z := 1.
Definition CONTINUE_SHIFT_08 : Z := 8.
Definition CONTINUE_SHIFT_04 : Z := 4.

Record currentIconInfo := mkIconInfo {
  senderNetworkId : bytes;
  bundleName : bytes;
  continueType : bytes;
  sourceBundleName : bytes;
  appIdentifiers : list bytes
}.

Definition no_icon : currentIconInfo := mkIconInfo [] [] [] [] [].

Definition isEmpty (i : currentIconInfo) : bool :=
  empty (senderNetworkId i) && empty (bundleName i) && empty (continueType i).

(** What the code reads of the store's [DmsAbilityInfo] and [DmsBundleInfo]. *)
Record DmsAbilityInfo := mkDmsAbilityInfo {
  dms_abilityName : bytes;
  dms_moduleName : bytes;
  dms_continueType : list bytes
}.
Record DmsBundleInfo := mkDmsBundleInfo {
  dms_bundleName : bytes;
  dms_developerId : bytes;
  dms_appIdentifierVec : list bytes;
  dmsAbilityInfos : list DmsAbilityInfo
}.

(** What the code reads of the bundle manager's [AbilityInfo], [BundleInfo] and
    [AppProvisionInfo]; [isApp] is [bundleType == BundleType::APP]. *)
Record AbilityInfo := mkAbilityInfo {
  name : bytes;
  moduleName : bytes;
  continuable : bool;
  ability_continueType : list bytes
}.
Record BundleInfo := mkBundleInfo {
  isApp : bool;
  abilityInfos : list AbilityInfo
}.
Record AppProvisionInfo := mkAppProvisionInfo {
  appIdentifier : bytes;
  developerId : bytes
}.

(** [BundleValidationContext], once it is filled. *)
Record BundleValidationContext := mkContext {
  finalBundleName : bytes;
  localBundleInfo : BundleInfo;
  ctx_continueType : bytes;
  ctx_ability : DmsAbilityInfo
}.

(** The lambdas the manager posts to its thread. *)
Inductive RecvTask :=
| TaskBroadcast (senderNetworkId : bytes) (bundleNameId continueTypeId : Z) (accountIdTrunc : bytes) (state retry : Z)
| TaskIconTimeout (bundleNameId : Z) (info : currentIconInfo)
| TaskScreenOff
| TaskSwitchOff.

Inductive RecvEffect :=
| Ask
| DeathRecipientAdded (obj : Z)
| DeathRecipientRemoved (obj : Z)
| DataPulled (networkId : bytes)
| DockNotified (obj : Z) (state : Z) (networkId sinkBundleName continueType srcBundleName : bytes)
    (appIdentifiers : list bytes)
| DockShowIconReported (bundleName networkId : bytes).

Record Receiver := mkReceiver {
  iconInfo_ : currentIconInfo;
  onType_ : bytes;
  registerOnListener_ : std_map bytes (list Z);
  recv_tasks_ : option (list (Posted RecvTask));
  recv_accountId_ : Z;
  now_ : Z
}.

Definition set_iconInfo (x : currentIconInfo) (r : Receiver) : Receiver :=
  mkReceiver x (onType_ r) (registerOnListener_ r) (recv_tasks_ r) (recv_accountId_ r) (now_ r).
Definition set_onType (x : bytes) (r : Receiver) : Receiver :=
  mkReceiver (iconInfo_ r) x (registerOnListener_ r) (recv_tasks_ r) (recv_accountId_ r) (now_ r).
Definition set_listeners (x : std_map bytes (list Z)) (r : Receiver) : Receiver :=
  mkReceiver (iconInfo_ r) (onType_ r) x (recv_tasks_ r) (recv_accountId_ r) (now_ r).
Definition set_recv_tasks (x : option (list (Posted RecvTask))) (r : Receiver) : Receiver :=
  mkReceiver (iconInfo_ r) (onType_ r) (registerOnListener_ r) x (recv_accountId_ r) (now_ r).
Definition set_recv_account (x : Z) (r : Receiver) : Receiver :=
  mkReceiver (iconInfo_ r) (onType_ r) (registerOnListener_ r) (recv_tasks_ r) x (now_ r).
Definition set_recv_now (x : Z) (r : Receiver) : Receiver :=
  mkReceiver (iconInfo_ r) (onType_ r) (registerOnListener_ r) (recv_tasks_ r) (recv_accountId_ r) x.

Definition Receiver_new : Receiver := mkReceiver no_icon [] [] None (-1) 0.

Class ReceiverEnv := {
  IsCurrentContinueSwitchOn : list RecvEffect -> bool;
  IsWifiActive : list RecvEffect -> bool;
  (** The store's entry of a device's bundle. *)
  GetDistributedBundleInfo : list RecvEffect -> bytes -> Z -> option DmsBundleInfo;
  GetLocalBundleInfo : list RecvEffect -> bytes -> option BundleInfo;
  GetContinueBundle4Src : list RecvEffect -> bytes -> list bytes;
  GetAppProvisionInfo4CurrentUser : list RecvEffect -> bytes -> option AppProvisionInfo;
  GetLocalDeviceId : list RecvEffect -> option bytes;
  (** The parcel takes the token and the values. *)
  parcel_written : list RecvEffect -> bool
}.

(** [std::string] as a key. *)
#[export] Instance type_order : KeyOrder bytes := bytes_ltb.

(** ** Continue types *)

(** The suffix of a quick start is taken off, or put on. *)
Definition ContinueTypeFormat (continueType : bytes) : bytes :=
  let suffix := QUICK_START_CONFIGURATION in
  if (zlen suffix <=? zlen continueType) && (rfind continueType suffix =? zlen continueType - zlen suffix)
  then substr0 continueType (rfind continueType QUICK_START_CONFIGURATION)
  else continueType ++ suffix.

(** The loop over the continue types of all abilities, which counts [pos] up. *)
Fixpoint find_position (pos continueTypeId : Z) (l : list (bytes * DmsAbilityInfo)) : option (bytes * DmsAbilityInfo) :=
  match l with
  | [] => None
  | e :: l => if pos =? continueTypeId then Some e else find_position (pos + 1) continueTypeId l
  end.

Definition continue_types (info : DmsBundleInfo) : list (bytes * DmsAbilityInfo) :=
  flat_map (fun a => map (fun c => (c, a)) (dms_continueType a)) (dmsAbilityInfos info).

Definition FindContinueType (info : DmsBundleInfo) (continueTypeId : Z) : bytes * DmsAbilityInfo :=
  match find_position 0 continueTypeId (continue_types info) with
  | Some found => found
  | None => ([], mkDmsAbilityInfo [] [] [])
  end.

Definition IsBundleContinuable (bundleInfo : BundleInfo) (srcAbilityName srcModuleName srcContinueType : bytes) : bool :=
  existsb (fun a =>
    continuable a &&
    existsb (fun item =>
      bytes_eqb item srcContinueType || bytes_eqb item (ContinueTypeFormat srcContinueType)
      || (bytes_eqb (moduleName a) srcModuleName && bytes_eqb (name a) srcAbilityName))
      (ability_continueType a))
    (abilityInfos bundleInfo).

Section Operations.
Context {RE : ReceiverEnv}.

Definition Rv (A : Type) : Type := M Receiver RecvEffect A.

Definition ask {A} (oracle : list RecvEffect -> A) : Rv A := call Ask oracle.

(** ** The thread *)

Definition PostTask (task : RecvTask) (name : bytes) (delay : Z) : Rv unit :=
  modify (fun r => match recv_tasks_ r with
    | Some l => set_recv_tasks (Some (insert_task (mkPosted (now_ r + delay) name task) l)) r
    | None => r
    end).

Definition RemoveTask (name : bytes) : Rv unit :=
  modify (fun r => match recv_tasks_ r with
    | Some l => set_recv_tasks (Some (remove_tasks name l)) r
    | None => r
    end).

Definition Init (accountId : Z) : Rv unit :=
  do! modify (set_recv_account accountId) in
  modify (fun r => match recv_tasks_ r with Some _ => r | None => set_recv_tasks (Some []) r end).

Definition UnInit : Rv unit := modify (set_recv_tasks None).

(** ** The dock *)

Definition NotifyRecvBroadcast (obj : Z) (info : currentIconInfo) (state : Z) : Rv unit :=
  let! written := ask parcel_written in
  if negb written then mret tt
  else
    do! emit (DockNotified obj state (senderNetworkId info) (bundleName info) (continueType info)
      (sourceBundleName info) (appIdentifiers info)) in
    when negb (state =? INACTIVE) do emit (DockShowIconReported (bundleName info) (senderNetworkId info)).

(** The listeners of the type that was registered last.  The reports, and the result of the
    request, which only a log tells, are left out. *)
Definition NotifyDockDisplay (info : currentIconInfo) (state : Z) : Rv Z :=
  let! r := get in
  match map_find (registerOnListener_ r) (onType_ r) with
  | None => mret INVALID_PARAMETERS_ERR
  | Some objs => do! mfor objs (fun obj => NotifyRecvBroadcast obj info state) in mret ERR_OK
  end.

Definition NotifyIconDisappear (sender : bytes) (state : Z) : Rv unit :=
  let! r := get in
  when (state =? ACTIVE) && bytes_eqb sender (senderNetworkId (iconInfo_ r)) do
    (do! NotifyDockDisplay (iconInfo_ r) INACTIVE in mret tt).

(** An offer becomes the icon; the end of an offer must be of the icon. *)
Definition VerifyBroadcastSource (sender srcBundleName sinkBundleName continueType : bytes) (state : Z) : Rv Z :=
  let! r := get in
  let i := iconInfo_ r in
  if state =? ACTIVE then
    do! modify (set_iconInfo (mkIconInfo sender sinkBundleName continueType srcBundleName (appIdentifiers i))) in
    mret ERR_OK
  else if negb (bytes_eqb sender (senderNetworkId i)) then mret INVALID_PARAMETERS_ERR
  else if negb (bytes_eqb sinkBundleName (bundleName i)) then mret INVALID_PARAMETERS_ERR
  else
    do! modify (set_iconInfo (mkIconInfo [] [] [] (sourceBundleName i) (appIdentifiers i))) in
    mret ERR_OK.

Definition DealDockDisplayBusiness (bundleNameId : Z) (info : currentIconInfo) (state : Z) : Rv Z :=
  let! ret := VerifyBroadcastSource (senderNetworkId info) (sourceBundleName info) (bundleName info)
    (continueType info) state in
  if negb (ret =? ERR_OK) then mret ret
  else
    let! r := get in
    match recv_tasks_ r with
    | None => mret INVALID_PARAMETERS_ERR
    | Some _ =>
      do! RemoveTask ICON_TIMEOUT_TASK in
      let! ret := NotifyDockDisplay info state in
      if negb (ret =? ERR_OK) then mret ret
      else
        do! when state =? ACTIVE do
          PostTask (TaskIconTimeout bundleNameId info) ICON_TIMEOUT_TASK TIMEOUT_SENT_EVENT_DELAY in
        mret ERR_OK
    end.

(** ** The bundle that could continue *)

(** The first bundle of the list of the same developer. *)
Fixpoint same_developer (info : DmsBundleInfo) (l : list bytes) : Rv (option (bytes * BundleInfo)) :=
  match l with
  | [] => mret None
  | item :: l =>
    let! provision := ask (fun t => GetAppProvisionInfo4CurrentUser t item) in
    match provision with
    | Some p =>
      if bytes_eqb (developerId p) (dms_developerId info) then
        let! local := ask (fun t => GetLocalBundleInfo t item) in
        match local with
        | Some b => mret (Some (item, b))
        | None => same_developer info l
        end
      else same_developer info l
    | None => same_developer info l
    end
  end.

Definition GetFinalBundleNameInternal (info : DmsBundleInfo) : Rv (option (bytes * BundleInfo)) :=
  let source := dms_bundleName info in
  let! local := ask (fun t => GetLocalBundleInfo t source) in
  match local with
  | Some b => mret (Some (source, b))
  | None =>
    let! bundleNameList := ask (fun t => GetContinueBundle4Src t source) in
    let! local := ask (fun t => GetLocalBundleInfo t source) in
    same_developer info (bundleNameList ++ match local with Some _ => [source] | None => [] end)
  end.

(** [identToBmMap]: the first bundle of an identifier stays. *)
Fixpoint ident_to_bundle (l : list bytes) (m : std_map bytes bytes) : Rv (std_map bytes bytes) :=
  match l with
  | [] => mret m
  | item :: l =>
    let! provision := ask (fun t => GetAppProvisionInfo4CurrentUser t item) in
    match provision with
    | Some p =>
      let! local := ask (fun t => GetLocalBundleInfo t item) in
      ident_to_bundle l (match local with Some _ => map_emplace m (appIdentifier p) item | None => m end)
    | None => ident_to_bundle l m
    end
  end.

(** The first identifier of the source that a bundle here has. *)
Fixpoint find_identifier (l : list bytes) (m : std_map bytes bytes) : Rv (option (bytes * BundleInfo)) :=
  match l with
  | [] => mret None
  | ident :: l =>
    match map_find m ident with
    | Some item =>
      let! local := ask (fun t => GetLocalBundleInfo t item) in
      match local with
      | Some b => mret (Some (item, b))
      | None => find_identifier l m
      end
    | None => find_identifier l m
    end
  end.

Definition GetFinalBundleName (info : DmsBundleInfo) : Rv (option (bytes * BundleInfo)) :=
  match dms_appIdentifierVec info with
  | [] => GetFinalBundleNameInternal info
  | identifiers =>
    let source := dms_bundleName info in
    let! sinkBundleNameVec := ask (fun t => GetContinueBundle4Src t source) in
    let! local := ask (fun t => GetLocalBundleInfo t source) in
    match sinkBundleNameVec ++ match local with Some _ => [source] | None => [] end with
    | [] => mret None
    | l =>
      let! m := ident_to_bundle l [] in
      find_identifier identifiers m
    end
  end.

Definition ValidateAndPrepareBundleInfo (info : DmsBundleInfo) (continueTypeId state : Z)
    : Rv (option BundleValidationContext) :=
  let '(continueType, ability) := FindContinueType info continueTypeId in
  let! found := GetFinalBundleName info in
  match found with
  | None => mret None
  | Some (final, local) =>
    if negb (isApp local) then mret None
    else if (state =? ACTIVE)
      && negb (IsBundleContinuable local (dms_abilityName ability) (dms_moduleName ability) continueType)
    then mret None
    else mret (Some (mkContext final local continueType ability))
  end.

(** ** Broadcasts *)

Definition PostOnBroadcastBusiness (sender : bytes) (bundleNameId continueTypeId : Z) (accountIdTrunc : bytes)
    (state delay retry : Z) : Rv unit :=
  do! RemoveTask DBMS_RETRY_TASK in
  PostTask (TaskBroadcast sender bundleNameId continueTypeId accountIdTrunc state retry) DBMS_RETRY_TASK delay.

Definition RetryPostBroadcast (sender : bytes) (bundleNameId continueTypeId : Z) (accountIdTrunc : bytes)
    (state retry : Z) : Rv Z :=
  if retry =? DBMS_RETRY_MAX_TIME then mret INVALID_PARAMETERS_ERR
  else
    do! PostOnBroadcastBusiness sender bundleNameId continueTypeId accountIdTrunc state DBMS_RETRY_DELAY (retry + 1) in
    mret ERR_OK.

Definition DealOnBroadcastBusiness (sender : bytes) (bundleNameId continueTypeId : Z) (accountIdTrunc : bytes)
    (state retry : Z) : Rv Z :=
  let! stored := ask (fun t => GetDistributedBundleInfo t sender bundleNameId) in
  match stored with
  | None =>
    do! emit (DataPulled sender) in
    RetryPostBroadcast sender bundleNameId continueTypeId accountIdTrunc state retry
  | Some info =>
    let! context := ValidateAndPrepareBundleInfo info continueTypeId state in
    match context with
    | None => do! NotifyIconDisappear sender state in mret INVALID_PARAMETERS_ERR
    | Some c =>
      DealDockDisplayBusiness bundleNameId
        (mkIconInfo sender (finalBundleName c) (ctx_continueType c) (dms_bundleName info) []) state
    end
  end.

(** The payload is a pointer to [dataLen] bytes. *)
Definition NotifyDataRecv (sender payload : bytes) (accountIdTrunc : bytes) : Rv unit :=
  let dataLen := zlen payload in
  let! on := ask IsCurrentContinueSwitchOn in
  if negb on then mret tt
  else
    let! wifi := ask IsWifiActive in
    if negb wifi then mret tt
    else if dataLen <? DMS_SEND_LEN then mret tt
    else
      let! b0 := from_run (load8 payload 0) in
      let type := Z.shiftr (Z.land b0 DMS_0XF0) CONTINUE_SHIFT_04 in
      let len := Z.land b0 DMS_0X0F in
      if (len <? DMS_DATA_LEN) || (DMS_0X0F <? type) then mret tt
      else
        let! b1 := from_run (load8 payload 1) in
        let! b2 := from_run (load8 payload 2) in
        let! b3 := from_run (load8 payload 3) in
        let bundleNameId := u16 (Z.lor (Z.shiftl b1 CONTINUE_SHIFT_08) b2) in
        let state := if type =? DMS_UNFOCUSED_TYPE then INACTIVE else ACTIVE in
        PostOnBroadcastBusiness sender bundleNameId b3 accountIdTrunc state 0 0.

(** ** Listeners *)

Definition RegisterOnListener (type : bytes) (obj : option Z) : Rv Z :=
  match obj with
  | None => mret INVALID_PARAMETERS_ERR
  | Some obj =>
    if MAX_TYPE_SIZE <? zlen type then mret INVALID_PARAMETERS_ERR
    else
      do! modify (set_onType type) in
      let! r := get in
      let add (objs : list Z) : Rv Z :=
        do! emit (DeathRecipientAdded obj) in
        do! modify (fun r => set_listeners (map_assign (registerOnListener_ r) type (objs ++ [obj])) r) in
        mret ERR_OK in
      match map_find (registerOnListener_ r) type with
      | None =>
        if REGIST_MAX_SIZE <=? Z.of_nat (length (registerOnListener_ r)) then mret INVALID_PARAMETERS_ERR
        else add []
      | Some objs => if existsb (Z.eqb obj) objs then mret NO_MISSION_INFO_FOR_MISSION_ID else add objs
      end
  end.

(** The first of an object in a list; every one of them. *)
Fixpoint erase_first (obj : Z) (l : list Z) : list Z :=
  match l with
  | [] => []
  | o :: l => if o =? obj then l else o :: erase_first obj l
  end.
Definition erase_all (obj : Z) (l : list Z) : list Z := List.filter (fun o => negb (o =? obj)) l.

(** Every type loses the object, and those without an object are erased. *)
Definition drop_object (erase : Z -> list Z -> list Z) (obj : Z) (m : std_map bytes (list Z)) : std_map bytes (list Z) :=
  List.filter (fun e => match e.2 with [] => false | _ => true end) (map (fun e => (e.1, erase obj e.2)) m).

Definition occurrences (count : list Z -> nat) (m : std_map bytes (list Z)) : nat :=
  fold_right (fun e n => (count e.2 + n)%nat) O m.

Definition RegisterOffListener (type : bytes) (obj : option Z) : Rv Z :=
  match obj with
  | None => mret INVALID_PARAMETERS_ERR
  | Some obj =>
    let! r := get in
    let found := occurrences (fun l => if existsb (Z.eqb obj) l then 1%nat else O) (registerOnListener_ r) in
    do! mfor (repeat obj found) (fun o => emit (DeathRecipientRemoved o)) in
    do! modify (fun r => set_listeners (drop_object erase_first obj (registerOnListener_ r)) r) in
    mret ERR_OK
  end.

Definition NotifyDied (obj : option Z) : Rv unit :=
  match obj with
  | None => mret tt
  | Some obj =>
    let! r := get in
    let found := occurrences (fun l => length (List.filter (Z.eqb obj) l)) (registerOnListener_ r) in
    do! mfor (repeat obj found) (fun o => emit (DeathRecipientRemoved o)) in
    modify (fun r => set_listeners (drop_object erase_all obj (registerOnListener_ r)) r)
  end.

(** ** The icon goes away *)

(** Sender, bundle and continue type are taken out of [iconInfo_]. *)
Definition take_icon : Rv currentIconInfo :=
  let! r := get in
  let i := iconInfo_ r in
  do! modify (set_iconInfo (mkIconInfo [] [] [] (sourceBundleName i) (appIdentifiers i))) in
  mret i.

Definition FindToNotifyRecvBroadcast (sender bundle type : bytes) : Rv unit :=
  let! r := get in
  do! NotifyDockDisplay (mkIconInfo sender bundle type (sourceBundleName (iconInfo_ r)) []) INACTIVE in mret tt.

Definition hide_icon : Rv unit :=
  let! i := take_icon in
  FindToNotifyRecvBroadcast (senderNetworkId i) (bundleName i) (continueType i).

(** The lambda of a screen that goes off and of the switch, and [OnUserSwitch]. *)
Definition hide_icon_if_any : Rv unit :=
  let! r := get in
  if isEmpty (iconInfo_ r) then mret tt else hide_icon.

Definition OnDeviceScreenOff : Rv unit := PostTask TaskScreenOff [] 0.
Definition OnContinueSwitchOff : Rv unit := PostTask TaskSwitchOff [] 0.
Definition OnUserSwitch : Rv unit := hide_icon_if_any.

Definition NotifyDeviceOffline (networkId : bytes) : Rv unit :=
  if empty networkId then mret tt
  else
    let! local := ask GetLocalDeviceId in
    match local with
    | None => mret tt
    | Some localNetworkId =>
      let! r := get in
      if negb (bytes_eqb networkId (senderNetworkId (iconInfo_ r))) && negb (bytes_eqb networkId localNetworkId)
      then mret tt
      else hide_icon
    end.

Definition NotifyPackageRemoved (sinkBundleName : bytes) : Rv unit :=
  if empty sinkBundleName then mret tt
  else
    let! r := get in
    if negb (bytes_eqb (bundleName (iconInfo_ r)) sinkBundleName) then mret tt else hide_icon.

(** ** Queries *)

Definition GetContinueType (bundle : bytes) : Rv bytes :=
  let! r := get in
  if isEmpty (iconInfo_ r) then mret []
  else if negb (bytes_eqb (bundleName (iconInfo_ r)) bundle) then mret []
  else mret (continueType (iconInfo_ r)).

Definition GetSenderNetworkId : Rv bytes := let! r := get in mret (senderNetworkId (iconInfo_ r)).

(** ** Runs *)

Definition run_recv_task (task : RecvTask) : Rv unit :=
  match task with
  | TaskBroadcast sender bundleNameId continueTypeId account state retry =>
    do! DealOnBroadcastBusiness sender bundleNameId continueTypeId account state retry in mret tt
  | TaskIconTimeout bundleNameId info => do! NotifyDockDisplay info INACTIVE in mret tt
  | TaskScreenOff => hide_icon_if_any
  | TaskSwitchOff => hide_icon_if_any
  end.

Definition recv_turn : Rv unit :=
  let! r := get in
  match recv_tasks_ r with
  | Some (p :: l) =>
    if due p <=? now_ r then do! modify (set_recv_tasks (Some l)) in run_recv_task (task p) else mret tt
  | _ => mret tt
  end.

Inductive RecvMove :=
| RecvInit (accountId : Z)
| RecvUnInit
| BroadcastArrived (senderNetworkId payload accountIdTrunc : bytes)
| CallRegisterOn (type : bytes) (obj : option Z)
| CallRegisterOff (type : bytes) (obj : option Z)
| ListenerDied (obj : option Z)
| ScreenOff
| SwitchOff
| UserSwitch
| DeviceOffline (networkId : bytes)
| PackageRemoved (sinkBundleName : bytes)
| RecvTurn
| RecvWait (ms : Z).

Definition make_recv_move (m : RecvMove) : Rv unit :=
  match m with
  | RecvInit account => Init account
  | RecvUnInit => UnInit
  | BroadcastArrived sender payload account => NotifyDataRecv sender payload account
  | CallRegisterOn type obj => do! RegisterOnListener type obj in mret tt
  | CallRegisterOff type obj => do! RegisterOffListener type obj in mret tt
  | ListenerDied obj => NotifyDied obj
  | ScreenOff => OnDeviceScreenOff
  | SwitchOff => OnContinueSwitchOff
  | UserSwitch => OnUserSwitch
  | DeviceOffline networkId => NotifyDeviceOffline networkId
  | PackageRemoved bundle => NotifyPackageRemoved bundle
  | RecvTurn => recv_turn
  | RecvWait ms => modify (fun r => set_recv_now (now_ r + Z.max 0 ms) r)
  end.

Fixpoint make_recv_moves (l : list RecvMove) : Rv unit :=
  match l with
  | [] => mret tt
  | m :: l => do! make_recv_move m in make_recv_moves l
  end.
End Operations.
