(* ===== verification/ContinueReceiverProperties.v ===== *)
(** * What the offers of other devices promise

    The invariant of the receiver, [receiver_ok], which every run keeps; the broadcasts that
    come in, the icon they show, and the bundle that may continue. *)

From Stdlib Require Import ZArith Lia String.
From stdpp Require Import base list option.
From S2P Require Import Prelude ErrorCodes DataBuffer StdMap StdString EventQueue Effects MissionConditions MissionConditionsProperties ContinueSender ContinueSenderLemmas ContinueReceiver.
Import ErrorCodes.Dms.

#[export] Instance type_strict : StrictWeakOrder bytes := order_by (fun x => x).

Lemma on_type_key_eq (a b : bytes) : key_eq a b = true <-> a = b.
Proof. apply (key_eq_by (fun x => x)). Qed.

(** ** Continue types *)

(** The continue type of a number is the one at that place in the list of all abilities'
    types. *)
Theorem find_position_is_lookup (l : list (bytes * DmsAbilityInfo)) continueTypeId :
  0 <= continueTypeId -> find_position 0 continueTypeId l = l !! Z.to_nat continueTypeId.
Proof.
  intros Hid. rewrite <- (Z.sub_0_r continueTypeId) at 2.
  assert (forall pos, pos <= continueTypeId -> find_position pos continueTypeId l = l !! Z.to_nat (continueTypeId - pos)) as H.
  { induction l as [|e l IH]; intros pos Hpos; cbn [find_position]; [done|].
    destruct (Z.eqb_spec pos continueTypeId) as [->|Hne]; [by rewrite Z.sub_diag|]. rewrite IH by lia.
    replace (Z.to_nat (continueTypeId - pos)) with (S (Z.to_nat (continueTypeId - (pos + 1)))) by lia. done. }
  by apply H.
Qed.

(** A name that ends with the suffix of a quick start. *)
Definition quick_start (s : bytes) : Prop := exists p, s = p ++ QUICK_START_CONFIGURATION.

Lemma quick_start_dec s : quick_start s \/ ~ quick_start s.
Proof. destruct (decide (QUICK_START_CONFIGURATION `suffix_of` s)) as [H|H]; [by left|by right]. Qed.

Lemma format_suffix p : ContinueTypeFormat (p ++ QUICK_START_CONFIGURATION) = p.
Proof.
  unfold ContinueTypeFormat, rfind. rewrite rfind_opt_suffix by done. rewrite zlen_app.
  pose proof (zlen_nonneg p). bool_lia. unfold substr0. by rewrite slice_app_l.
Qed.

Lemma format_other s : ~ quick_start s -> zlen s < 2 ^ 63 -> ContinueTypeFormat s = s ++ QUICK_START_CONFIGURATION.
Proof.
  intros Hs Hmax. unfold ContinueTypeFormat.
  destruct (zlen QUICK_START_CONFIGURATION <=? zlen s) eqn:E1; cbn [andb]; [|done].
  destruct (rfind s QUICK_START_CONFIGURATION =? _) eqn:E2; [|done]. exfalso. apply Hs.
  apply Z.eqb_eq in E2. unfold rfind in E2. destruct (rfind_opt QUICK_START_CONFIGURATION s) as [i|] eqn:E3.
  - apply rfind_opt_occurs in E3 as (t & u & -> & <-). rewrite !zlen_app in E2.
    assert (u = []) as -> by (apply zlen_0_nil; lia). rewrite app_nil_r. by exists t.
  - unfold npos in E2. change (zlen QUICK_START_CONFIGURATION) with 19 in E2. lia.
Qed.

(** Formatting a continue type twice gives the type back, unless it carries the suffix of a
    quick start twice. *)
Theorem ContinueTypeFormat_involutive s :
  zlen s < 2 ^ 62 -> ~ (exists p, s = (p ++ QUICK_START_CONFIGURATION) ++ QUICK_START_CONFIGURATION) ->
  ContinueTypeFormat (ContinueTypeFormat s) = s.
Proof.
  intros Hmax Hd. destruct (quick_start_dec s) as [(p & ->)|Hs].
  - rewrite format_suffix. apply format_other.
    + intros (q & ->). apply Hd. by exists q.
    + rewrite zlen_app in Hmax. change (zlen QUICK_START_CONFIGURATION) with 19 in Hmax. lia.
  - rewrite (format_other s) by (done || lia). apply format_suffix.
Qed.

(** ** The invariant *)

(** A broadcast waits under one name, the end of an icon under another, and of either there is
    at most one; no broadcast has been tried more often than five times again. *)
Definition recv_task_ok (p : Posted RecvTask) : Prop :=
  match task p with
  | TaskBroadcast _ _ _ _ state retry =>
    taskName p = DBMS_RETRY_TASK /\ (state = ACTIVE \/ state = INACTIVE) /\ 0 <= retry <= DBMS_RETRY_MAX_TIME
  | TaskIconTimeout _ _ => taskName p = ICON_TIMEOUT_TASK
  | _ => taskName p = []
  end.

Definition is_named (name : bytes) (p : Posted RecvTask) : bool := bytes_eqb (taskName p) name.
Definition at_most_one (name : bytes) (l : list (Posted RecvTask)) : Prop := (length (List.filter (is_named name) l) <= 1)%nat.

Record recv_queue_ok (l : list (Posted RecvTask)) : Prop := mkRecvQueueOk {
  recv_tasks_ok : Forall recv_task_ok l;
  one_broadcast : at_most_one DBMS_RETRY_TASK l;
  one_timeout : at_most_one ICON_TIMEOUT_TASK l
}.

Definition objects_ok (objs : list Z) : Prop := objs <> [] /\ base.NoDup objs.

(** A type of the table has a listener at least, none of them twice. *)
Record receiver_ok (r : Receiver) : Prop := mkReceiverOk {
  ok_recv_queue l : recv_tasks_ r = Some l -> recv_queue_ok l;
  ok_listeners : Forall (fun e => zlen e.1 <= MAX_TYPE_SIZE /\ objects_ok e.2) (registerOnListener_ r);
  ok_types : Z.of_nat (length (registerOnListener_ r)) <= REGIST_MAX_SIZE;
  ok_sorted : map_sorted (registerOnListener_ r)
}.

Lemma count_insert name p (l : list (Posted RecvTask)) :
  length (List.filter (is_named name) (insert_task p l)) = length (List.filter (is_named name) (p :: l)).
Proof. apply Permutation_length, Permutation_List_filter, insert_task_Permutation. Qed.

Lemma count_remove name p (l : list (Posted RecvTask)) :
  (length (List.filter (is_named name) (remove_tasks p l)) <= length (List.filter (is_named name) l))%nat.
Proof.
  unfold remove_tasks. induction l as [|q l IH]; cbn; [done|].
  destruct (negb _); cbn; destruct (is_named name q); cbn; lia.
Qed.

Lemma count_removed name (l : list (Posted RecvTask)) : List.filter (is_named name) (remove_tasks name l) = [].
Proof.
  unfold remove_tasks, is_named. induction l as [|q l IH]; cbn; [done|].
  destruct (bytes_eqb (taskName q) name) eqn:E; cbn; [done|]. by rewrite E.
Qed.

Lemma recv_queue_ok_remove name l : recv_queue_ok l -> recv_queue_ok (remove_tasks name l).
Proof.
  intros [Ht Hb Hi]. split.
  - rewrite List.Forall_forall in Ht |- *. intros p [Hp _]%In_remove_tasks. by apply Ht.
  - unfold at_most_one in *. pose proof (count_remove DBMS_RETRY_TASK name l). lia.
  - unfold at_most_one in *. pose proof (count_remove ICON_TIMEOUT_TASK name l). lia.
Qed.

Lemma recv_queue_ok_tail p l : recv_queue_ok (p :: l) -> recv_queue_ok l.
Proof.
  intros [Ht Hb Hi]. inversion_clear Ht as [|? ? _ Ht2]. unfold at_most_one in *. cbn [List.filter] in Hb, Hi.
  split; [done|..]; unfold at_most_one; [destruct (is_named DBMS_RETRY_TASK p)|destruct (is_named ICON_TIMEOUT_TASK p)]; cbn in *; lia.
Qed.

(** A task is posted under a name that none has. *)
Lemma recv_queue_ok_insert p l :
  recv_queue_ok l -> recv_task_ok p -> List.filter (is_named (taskName p)) l = [] \/ taskName p = [] -> recv_queue_ok (insert_task p l).
Proof.
  intros [Ht Hb Hi] Hp Hn.
  assert (forall name, name <> [] -> at_most_one name l -> at_most_one name (insert_task p l)) as H.
  { intros name Hne Hl. unfold at_most_one in *. rewrite count_insert. cbn. destruct (is_named name p) eqn:E; [|done].
    apply bytes_eqb_eq in E. destruct Hn as [Hn|Hn]; [|congruence]. rewrite <- E, Hn. done. }
  split; [|by apply H..]. rewrite List.Forall_forall in Ht |- *. intros q [->|Hq]%In_insert_task; [done|by apply Ht].
Qed.

(** ** Every operation returns and keeps the invariant *)

Section Keeps.
Context {RE : ReceiverEnv}.

Definition recv_keeps {A} (m : Rv A) : Prop := forall r t, receiver_ok r -> wp m (fun _ r' _ => receiver_ok r') r t.

Lemma recv_keeps_mret {A} (a : A) : recv_keeps (mret a).
Proof. intros r t H. by apply wp_mret. Qed.
Lemma recv_keeps_get : recv_keeps get.
Proof. intros r t H. by apply wp_get. Qed.
Lemma recv_keeps_emit e : recv_keeps (emit e).
Proof. intros r t H. by apply wp_emit. Qed.
Lemma recv_keeps_ask {A} (oracle : list RecvEffect -> A) : recv_keeps (ask oracle).
Proof. intros r t H. by apply wp_call. Qed.
Lemma recv_keeps_modify f : (forall r, receiver_ok r -> receiver_ok (f r)) -> recv_keeps (modify f).
Proof. intros Hf r t H. apply wp_modify. auto. Qed.
Lemma recv_keeps_mbind {A B} (m : Rv A) (k : A -> Rv B) : recv_keeps m -> (forall a, recv_keeps (k a)) -> recv_keeps (mbind m k).
Proof.
  intros Hm Hk r t H. apply wp_mbind. eapply wp_mono; [by apply Hm|]. cbn. intros a r1 t1 H1. by apply Hk.
Qed.
Lemma recv_keeps_mfor {A} (l : list A) (f : A -> Rv unit) : (forall a, recv_keeps (f a)) -> recv_keeps (mfor l f).
Proof. intros Hf r t H. apply (wp_mfor (fun r _ => receiver_ok r)); [done|]. intros a r1 t1 _ H1. by apply Hf. Qed.

(** A change that leaves the queue and the listeners alone. *)
Lemma receiver_ok_same f :
  (forall r, recv_tasks_ (f r) = recv_tasks_ r /\ registerOnListener_ (f r) = registerOnListener_ r) ->
  forall r, receiver_ok r -> receiver_ok (f r).
Proof. intros Hf r [Hq Hl Ht Hs]. destruct (Hf r) as (E1 & E2). split; rewrite ?E1, ?E2; auto. Qed.

Ltac recv_with base :=
  repeat match goal with
  | |- recv_keeps _ => base
  | |- recv_keeps (mret _) => apply recv_keeps_mret
  | |- recv_keeps get => apply recv_keeps_get
  | |- recv_keeps (ask _) => apply recv_keeps_ask
  | |- recv_keeps (emit _) => apply recv_keeps_emit
  | |- recv_keeps (mfor _ _) => apply recv_keeps_mfor; let a := fresh in intros a
  | |- recv_keeps (modify _) => apply recv_keeps_modify, receiver_ok_same; intros; split; reflexivity
  | |- recv_keeps (mbind _ _) => apply recv_keeps_mbind; [|let a := fresh in intros a]
  | |- recv_keeps (match ?x with _ => _ end) => destruct x eqn:?
  | |- recv_keeps (let _ := _ in _) => cbv zeta
  end.

Lemma RemoveTask_recv name : recv_keeps (RemoveTask name).
Proof.
  apply recv_keeps_modify. intros r [Hq Hl Ht Hs]. destruct (recv_tasks_ r) as [l|] eqn:E; [|by split; rewrite ?E].
  split; cbn; auto. intros l' [= <-]. by apply recv_queue_ok_remove, Hq.
Qed.

Lemma PostTask_unnamed task delay : recv_task_ok (mkPosted 0 [] task) -> recv_keeps (PostTask task [] delay).
Proof.
  intros Hok. apply recv_keeps_modify. intros r [Hq Hl Ht Hs]. destruct (recv_tasks_ r) as [l|] eqn:E; [|by split; rewrite ?E].
  split; cbn; auto. intros l' [= <-]. apply recv_queue_ok_insert; [by apply Hq|done|by right].
Qed.

(** A task is removed by its name and posted again. *)
Lemma repost_recv task name delay :
  recv_task_ok (mkPosted 0 name task) -> recv_keeps (do! RemoveTask name in PostTask task name delay).
Proof.
  intros Hok r t [Hq Hl Ht Hs]. apply wp_mbind, wp_modify, wp_modify.
  destruct (recv_tasks_ r) as [l|] eqn:E; [|rewrite E; by split; rewrite ?E].
  split; cbn; auto. intros l' [= <-]. apply recv_queue_ok_insert; [by apply recv_queue_ok_remove, Hq|done|].
  left. apply count_removed.
Qed.

Lemma NotifyDockDisplay_recv info state : recv_keeps (NotifyDockDisplay info state).
Proof. unfold NotifyDockDisplay, NotifyRecvBroadcast. recv_with fail. Qed.

Lemma hide_icon_recv : recv_keeps hide_icon.
Proof. unfold hide_icon, take_icon, FindToNotifyRecvBroadcast. recv_with ltac:(apply NotifyDockDisplay_recv). Qed.
Lemma hide_icon_if_any_recv : recv_keeps hide_icon_if_any.
Proof. unfold hide_icon_if_any. recv_with ltac:(apply hide_icon_recv). Qed.

Lemma PostOnBroadcastBusiness_recv sender id ct account state delay retry :
  state = ACTIVE \/ state = INACTIVE -> 0 <= retry <= DBMS_RETRY_MAX_TIME ->
  recv_keeps (PostOnBroadcastBusiness sender id ct account state delay retry).
Proof. intros. by apply repost_recv. Qed.

(** The end of an icon is posted when the earlier one was removed. *)
Lemma DealDockDisplayBusiness_recv id info state : recv_keeps (DealDockDisplayBusiness id info state).
Proof.
  unfold DealDockDisplayBusiness. apply recv_keeps_mbind.
  { unfold VerifyBroadcastSource. recv_with fail. }
  intros ret. destruct (negb (ret =? ERR_OK)); [apply recv_keeps_mret|]. intros r t Hr. apply wp_mbind, wp_get.
  destruct (recv_tasks_ r) as [l|] eqn:E; [|by apply wp_mret]. apply wp_mbind, wp_modify. rewrite E.
  pose proof (RemoveTask_recv ICON_TIMEOUT_TASK r t Hr) as (? & r1 & ? & Hrun & Hr1). unfold RemoveTask, modify in Hrun.
  rewrite E in Hrun. injection Hrun as <- <- <-. apply wp_mbind.
  set (r1 := set_recv_tasks (Some (remove_tasks ICON_TIMEOUT_TASK l)) r) in *.
  apply (wp_mono _ (fun _ r2 _ => recv_tasks_ r2 = recv_tasks_ r1 /\ receiver_ok r2)).
  { destruct (NotifyDockDisplay_recv info state r1 t Hr1) as (a & r2 & t2 & Hrun & Hr2). exists a, r2, t2. split; [done|].
    split; [|done]. revert Hrun.
    assert (preserves (fun r _ r' _ => recv_tasks_ r' = recv_tasks_ r) (NotifyDockDisplay info state)) as Hp.
    { unfold NotifyDockDisplay. apply preserves_mbind; [congruence|by apply preserves_get|]. intros r0.
      destruct (map_find _ _) as [objs|]; [|by apply preserves_mret]. apply preserves_mbind; [congruence| |by intros; apply preserves_mret].
      induction objs as [|o objs IH]; cbn [mfor]; [by apply preserves_mret|]. apply preserves_mbind; [congruence| |by intros].
      unfold NotifyRecvBroadcast. apply preserves_mbind; [congruence|by apply preserves_call|]. intros [|]; [|by apply preserves_mret].
      apply preserves_mbind; [congruence|by apply preserves_emit|]. intros _. destruct (negb _); [by apply preserves_emit|by apply preserves_mret]. }
    apply Hp. }
  intros ret2 r2 t2 (E2 & Hr2). destruct (negb (ret2 =? ERR_OK)); [by apply wp_mret|]. apply wp_mbind.
  destruct (state =? ACTIVE); [|by do 2 apply wp_mret]. unfold PostTask. apply wp_modify, wp_mret. rewrite E2. cbn [recv_tasks_ r1 set_recv_tasks].
  destruct Hr2 as [Hq Hl Ht Hs]. split; cbn; auto. intros l' [= <-]. apply recv_queue_ok_insert; [by apply Hq|done|].
  left. apply count_removed.
Qed.
Lemma same_developer_recv info l : recv_keeps (same_developer info l).
Proof. induction l as [|item l IH]; cbn [same_developer]; recv_with ltac:(exact IH). Qed.
Lemma ident_to_bundle_recv l m : recv_keeps (ident_to_bundle l m).
Proof. revert m. induction l as [|item l IH]; intros m; cbn [ident_to_bundle]; recv_with ltac:(apply IH). Qed.
Lemma find_identifier_recv l m : recv_keeps (find_identifier l m).
Proof. induction l as [|item l IH]; cbn [find_identifier]; recv_with ltac:(exact IH). Qed.

Lemma GetFinalBundleName_recv info : recv_keeps (GetFinalBundleName info).
Proof.
  unfold GetFinalBundleName, GetFinalBundleNameInternal.
  recv_with ltac:(first [apply same_developer_recv|apply ident_to_bundle_recv|apply find_identifier_recv]).
Qed.

Lemma ValidateAndPrepareBundleInfo_recv info ct state : recv_keeps (ValidateAndPrepareBundleInfo info ct state).
Proof. unfold ValidateAndPrepareBundleInfo. recv_with ltac:(apply GetFinalBundleName_recv). Qed.

Lemma DealOnBroadcastBusiness_recv sender id ct account state retry :
  state = ACTIVE \/ state = INACTIVE -> 0 <= retry <= DBMS_RETRY_MAX_TIME ->
  recv_keeps (DealOnBroadcastBusiness sender id ct account state retry).
Proof.
  intros Hs Hr. unfold DealOnBroadcastBusiness, RetryPostBroadcast, NotifyIconDisappear.
  recv_with ltac:(first [apply ValidateAndPrepareBundleInfo_recv|apply DealDockDisplayBusiness_recv|apply NotifyDockDisplay_recv]).
  apply PostOnBroadcastBusiness_recv; [done|]. apply Z.eqb_neq in Heqb. lia.
Qed.

Lemma load8_recv payload i : 0 <= i < zlen payload -> recv_keeps (from_run (load8 payload i)).
Proof. intros Hi r t H. destruct (load8_ok payload i Hi) as (b & Hb & _). by eapply wp_from_run. Qed.

Lemma NotifyDataRecv_recv sender payload account : recv_keeps (NotifyDataRecv sender payload account).
Proof.
  unfold NotifyDataRecv. recv_with fail; try (apply Z.ltb_ge in Heqb1; unfold DMS_SEND_LEN in Heqb1; apply load8_recv; lia).
  apply PostOnBroadcastBusiness_recv; [destruct (_ =? _); [by right|by left]|done].
Qed.

(** ** Listeners *)

Lemma drop_object_ok erase obj (m : std_map bytes (list Z)) :
  (forall l, base.NoDup l -> base.NoDup (erase obj l)) ->
  Forall (fun e => zlen e.1 <= MAX_TYPE_SIZE /\ objects_ok e.2) m -> map_sorted m ->
  Forall (fun e => zlen e.1 <= MAX_TYPE_SIZE /\ objects_ok e.2) (drop_object erase obj m) /\
  (length (drop_object erase obj m) <= length m)%nat /\ map_sorted (drop_object erase obj m).
Proof.
  intros He Hm Hs. unfold drop_object. split_and!.
  - apply List.Forall_forall. intros e [Hin Hne]%List.filter_In. apply in_map_iff in Hin as (e' & <- & Hin).
    eapply List.Forall_forall in Hm as (Hz & _ & Hn); [|done]. cbn in *. split; [done|]. split; [by destruct (erase obj e'.2)|by apply He].
  - etrans; [apply List.filter_length_le|]. by rewrite length_map.
  - clear Hm. unfold map_sorted in *. induction Hs as [|e m Hs IH Hlt]; cbn; [constructor|].
    assert (map_sorted ((e.1, erase obj e.2) ::
      List.filter (fun e => match e.2 with [] => false | _ => true end) (map (fun e => (e.1, erase obj e.2)) m))) as H2.
    { unfold map_sorted. constructor; [done|]. apply List.Forall_forall. intros e2 [Hin _]%List.filter_In.
      apply in_map_iff in Hin as (e3 & <- & Hin). cbn. by eapply List.Forall_forall in Hlt. }
    destruct (erase obj e.2); [by inversion H2|done].
Qed.

Lemma erase_first_NoDup obj l : base.NoDup l -> base.NoDup (erase_first obj l).
Proof.
  induction 1 as [|o l Ho Hl IH]; cbn; [constructor|]. destruct (o =? obj); [done|]. constructor; [|done].
  rewrite list_elem_of_In in Ho |- *. intros Hin. apply Ho. clear -Hin. induction l as [|x l IH]; cbn in *; [done|].
  destruct (x =? obj); [by right|]. destruct Hin; [by left|right; auto].
Qed.
Lemma erase_all_NoDup obj l : base.NoDup l -> base.NoDup (erase_all obj l).
Proof. unfold erase_all. rewrite !NoDup_ListNoDup. apply List.NoDup_filter. Qed.

Lemma drop_recv erase obj :
  (forall l, base.NoDup l -> base.NoDup (erase obj l)) ->
  recv_keeps (modify (fun r => set_listeners (drop_object erase obj (registerOnListener_ r)) r)).
Proof.
  intros He. apply recv_keeps_modify. intros r [Hq Hl Ht Hs].
  destruct (drop_object_ok erase obj _ He Hl Hs) as (H1 & H2 & H3). split; cbn; auto. lia.
Qed.

Lemma RegisterOnListener_recv type obj : recv_keeps (RegisterOnListener type obj).
Proof.
  unfold RegisterOnListener. destruct obj as [obj|]; [|apply recv_keeps_mret].
  destruct (MAX_TYPE_SIZE <? zlen type) eqn:Hz; [apply recv_keeps_mret|]. apply Z.ltb_ge in Hz.
  apply recv_keeps_mbind; [recv_with fail|]. intros _ r t [Hq Hl Ht Hs]. apply wp_mbind, wp_get. cbv zeta.
  assert (forall objs, base.NoDup (objs ++ [obj]) -> (map_count (registerOnListener_ r) type = true \/
      Z.of_nat (length (registerOnListener_ r)) < REGIST_MAX_SIZE) ->
    receiver_ok (set_listeners (map_assign (registerOnListener_ r) type (objs ++ [obj])) r)) as Hadd.
  { intros objs Hn Hsize. split; cbn -[Z.of_nat]; auto.
    - apply Forall_map_assign; [done|]. intros k Hk%on_type_key_eq. subst k. split; [done|]. split; [by destruct objs|done].
    - rewrite length_map_assign by done. destruct (map_count _ _); destruct Hsize; try done; lia.
    - by apply map_sorted_assign. }
  destruct (map_find (registerOnListener_ r) type) as [objs|] eqn:E.
  - destruct (existsb (Z.eqb obj) objs) eqn:E2; [by apply wp_mret|]. apply wp_mbind, wp_emit, wp_mbind, wp_modify, wp_mret.
    apply Hadd; [|left; unfold map_count; by rewrite E]. apply map_find_Some in E as (k & Hin & _).
    eapply List.Forall_forall in Hl as (_ & _ & Hn); [|exact Hin].
    rewrite NoDup_ListNoDup in Hn |- *. apply List.NoDup_app; [done|by constructor; [intros []|constructor]|].
    intros o Ho [<-|[]].
    assert (existsb (Z.eqb obj) objs = true) by (apply existsb_exists; exists obj; split; [done|apply Z.eqb_refl]). congruence.
  - destruct (REGIST_MAX_SIZE <=? _) eqn:E2; [by apply wp_mret|]. apply Z.leb_gt in E2.
    apply wp_mbind, wp_emit, wp_mbind, wp_modify, wp_mret. apply Hadd; [constructor; [by intros ?%list_elem_of_In|constructor]|by right].
Qed.

Lemma RegisterOffListener_recv type obj : recv_keeps (RegisterOffListener type obj).
Proof.
  unfold RegisterOffListener. destruct obj as [obj|]; [|apply recv_keeps_mret].
  recv_with ltac:(apply drop_recv; apply erase_first_NoDup).
Qed.
Lemma NotifyDied_recv obj : recv_keeps (NotifyDied obj).
Proof.
  unfold NotifyDied. destruct obj as [obj|]; [|apply recv_keeps_mret].
  recv_with ltac:(apply drop_recv; apply erase_all_NoDup).
Qed.

(** ** Runs *)

Lemma recv_turn_recv : recv_keeps recv_turn.
Proof.
  intros r t Hr. unfold recv_turn. apply wp_mbind, wp_get. destruct (recv_tasks_ r) as [[|p l]|] eqn:E; [by apply wp_mret| |by apply wp_mret].
  destruct (due p <=? now_ r); [|by apply wp_mret]. apply wp_mbind, wp_modify. destruct Hr as [Hq Hl Ht Hs].
  pose proof (Hq _ E) as Hpl. assert (recv_task_ok p) as Hp by (destruct Hpl as [Hf _ _]; by inversion Hf).
  assert (receiver_ok (set_recv_tasks (Some l) r)) as Hr1.
  { split; cbn; auto. intros l' [= <-]. by eapply recv_queue_ok_tail. }
  unfold recv_task_ok in Hp. destruct (task p) as [sender id ct account state retry|id info| |]; cbn [run_recv_task].
  - destruct Hp as (_ & Hst & Hre). apply wp_mbind. eapply wp_mono; [by apply DealOnBroadcastBusiness_recv|].
    intros; by apply wp_mret.
  - apply wp_mbind. eapply wp_mono; [by apply NotifyDockDisplay_recv|]. intros; by apply wp_mret.
  - by apply hide_icon_if_any_recv.
  - by apply hide_icon_if_any_recv.
Qed.

Lemma make_recv_move_ok m : recv_keeps (make_recv_move m).
Proof.
  destruct m; cbn [make_recv_move].
  - unfold Init. recv_with fail. apply recv_keeps_modify. intros r [Hq Hl Ht Hs].
    destruct (recv_tasks_ r) as [l|] eqn:E; [by split; rewrite ?E|]. split; cbn; auto. intros l' [= <-]. by split; unfold at_most_one; cbn; [constructor|lia..].
  - apply recv_keeps_modify. intros r [Hq Hl Ht Hs]. by split.
  - apply NotifyDataRecv_recv.
  - recv_with ltac:(apply RegisterOnListener_recv).
  - recv_with ltac:(apply RegisterOffListener_recv).
  - apply NotifyDied_recv.
  - by apply PostTask_unnamed.
  - by apply PostTask_unnamed.
  - apply hide_icon_if_any_recv.
  - unfold NotifyDeviceOffline. recv_with ltac:(apply hide_icon_recv).
  - unfold NotifyPackageRemoved. recv_with ltac:(apply hide_icon_recv).
  - apply recv_turn_recv.
  - recv_with fail.
Qed.

Lemma Receiver_new_ok : receiver_ok Receiver_new.
Proof. split; cbn; [done|constructor|unfold REGIST_MAX_SIZE; lia|apply map_sorted_nil]. Qed.

Lemma make_recv_moves_ok moves : recv_keeps (make_recv_moves moves).
Proof.
  induction moves as [|m moves IH]; intros r t Hr; cbn [make_recv_moves]; [by apply wp_mret|].
  apply wp_mbind. eapply wp_mono; [by apply make_recv_move_ok|]. cbn. intros _ r' t' Hr'. by apply IH.
Qed.

(** C8 Whatever broadcasts, registrations, events and turns of the thread follow one another,
    every one of them returns and no byte outside a broadcast is read; at most one broadcast
    and one end of an icon wait, no broadcast is tried more than six times, and the table has
    at most a thousand types, each with listeners that are all different. *)
Theorem receiver_run_safe moves :
  exists r t, make_recv_moves moves Receiver_new [] = Done (tt, r, t) /\ receiver_ok r.
Proof.
  destruct (make_recv_moves_ok moves Receiver_new [] Receiver_new_ok) as ([] & r & t & Hrun & Hr). by exists r, t.
Qed.
End Keeps.

(** ** Broadcasts that come in *)

Section Broadcasts.
Context {RE : ReceiverEnv}.

Lemma byte_high id : is_u16 id -> Z.land (Z.shiftr id 8) 255 = Z.shiftr id 8.
Proof.
  intros [H1 H2]. change 255 with (Z.ones 8). rewrite Z.land_ones by lia. rewrite Z.shiftr_div_pow2 by lia.
  apply Z.mod_small. split; [apply Z.div_pos; lia|apply Z.div_lt_upper_bound; lia].
Qed.

(** C17 The four bytes that a device broadcasts are read as the bundle, the continue type and
    the state that it meant; the task that waits for them takes the place of every broadcast
    that still waited, of this or of another device. *)
Theorem broadcast_arrives sender id ct type account r t l :
  is_u16 id -> is_u8 ct -> type = BROADCAST_TYPE_APPEAR \/ type = BROADCAST_TYPE_DISAPPEAR ->
  (forall t', IsCurrentContinueSwitchOn t' = true) -> (forall t', IsWifiActive t' = true) ->
  receiver_ok r -> recv_tasks_ r = Some l ->
  let p := mkPosted (now_ r) DBMS_RETRY_TASK
    (TaskBroadcast sender id ct account (if type =? BROADCAST_TYPE_APPEAR then ACTIVE else INACTIVE) 0) in
  exists l', NotifyDataRecv sender (event_bytes id ct type) account r t = Done (tt, set_recv_tasks (Some l') r, t ++ [Ask; Ask]) /\
    In p l' /\ forall q s2 id2 ct2 a2 st2 n2, In q l' -> task q = TaskBroadcast s2 id2 ct2 a2 st2 n2 -> q = p.
Proof.
  intros Hid Hct Hty Hon Hwifi Hok Hl p.
  exists (insert_task p (remove_tasks DBMS_RETRY_TASK l)). split_and!; cycle 1.
  { apply In_insert_task. by left. }
  { intros q s2 id2 ct2 a2 st2 n2 [->|[Hq Hne]%In_remove_tasks]%In_insert_task Et; [done|].
    pose proof (ok_recv_queue _ Hok _ Hl) as [Ht _ _]. eapply List.Forall_forall in Ht; [|exact Hq].
    unfold recv_task_ok in Ht. rewrite Et in Ht. by destruct Ht as (Hn & _). }
  assert (Z.land ct 255 = ct) as Hct2.
  { change 255 with (Z.ones 8). rewrite Z.land_ones by lia. by apply Z.mod_small. }
  assert (u16 (Z.lor (Z.shiftl (Z.land (Z.shiftr id CONTINUE_SHIFT_08) DMS_0XFF) CONTINUE_SHIFT_08) (Z.land id DMS_0XFF)) = id) as Hid2.
  { unfold CONTINUE_SHIFT_08, DMS_0XFF. rewrite byte_high by done. rewrite be16_read by done. by apply u16_id. }
  assert (load8 (event_bytes id ct type) 0 = Done (if type =? BROADCAST_TYPE_APPEAR then 3 else 19)) as E0
    by (by destruct Hty as [-> | ->]).
  assert (load8 (event_bytes id ct type) 1 = Done (Z.land (Z.shiftr id CONTINUE_SHIFT_08) DMS_0XFF)) as E1 by done.
  assert (load8 (event_bytes id ct type) 2 = Done (Z.land id DMS_0XFF)) as E2 by done.
  assert (load8 (event_bytes id ct type) 3 = Done (Z.land ct 255)) as E3 by done. rewrite Hct2 in E3.
  assert (wp (NotifyDataRecv sender (event_bytes id ct type) account) (fun _ r' t' =>
    r' = set_recv_tasks (Some (insert_task p (remove_tasks DBMS_RETRY_TASK l))) r /\ t' = t ++ [Ask; Ask]) r t) as H.
  { unfold NotifyDataRecv, ask. apply wp_mbind, wp_call. rewrite Hon. apply wp_mbind, wp_call. rewrite Hwifi. cbn [negb].
    change (zlen (event_bytes id ct type) <? DMS_SEND_LEN) with false. cbv iota.
    apply wp_mbind. eapply wp_from_run; [exact E0|].
    replace (_ || _) with false by (by destruct Hty as [-> | ->]).
    apply wp_mbind. eapply wp_from_run; [exact E1|]. apply wp_mbind. eapply wp_from_run; [exact E2|].
    apply wp_mbind. eapply wp_from_run; [exact E3|]. rewrite Hid2. unfold PostOnBroadcastBusiness.
    apply wp_mbind, wp_modify, wp_modify. rewrite Hl. cbn [recv_tasks_ set_recv_tasks now_]. rewrite Z.add_0_r.
    split; [|by rewrite <- app_assoc]. unfold p. by destruct Hty as [-> | ->]. }
  destruct H as ([] & r' & t' & Hrun & -> & ->). exact Hrun.
Qed.
End Broadcasts.

(** ** The icon *)

Section Icon.
Context {RE : ReceiverEnv}.

(** What the dock was told. *)
Definition is_notice (e : RecvEffect) : bool := match e with DockNotified _ _ _ _ _ _ _ => true | _ => false end.
Definition notices (l : list RecvEffect) : list RecvEffect := List.filter is_notice l.
Definition notice (info : currentIconInfo) (state obj : Z) : RecvEffect :=
  DockNotified obj state (senderNetworkId info) (bundleName info) (continueType info) (sourceBundleName info) (appIdentifiers info).

(** The effects after [t] hold these notices. *)
Definition tells (t t' : list RecvEffect) (l : list RecvEffect) : Prop := exists e, t' = t ++ e /\ notices e = l.

Lemma tells_refl t : tells t t [].
Proof. exists []. by rewrite app_nil_r. Qed.
Lemma tells_trans t1 t2 t3 l1 l2 : tells t1 t2 l1 -> tells t2 t3 l2 -> tells t1 t3 (l1 ++ l2).
Proof.
  intros (e1 & -> & <-) (e2 & -> & <-). exists (e1 ++ e2). split; [by rewrite app_assoc|]. apply List.filter_app.
Qed.
Lemma tells_ask t : tells t (t ++ [Ask]) [].
Proof. by exists [Ask]. Qed.

Lemma NotifyDockDisplay_tells info state objs r t :
  (forall t', parcel_written t' = true) -> map_find (registerOnListener_ r) (onType_ r) = Some objs ->
  wp (NotifyDockDisplay info state) (fun ret r' t' => ret = ERR_OK /\ r' = r /\ tells t t' (map (notice info state) objs)) r t.
Proof.
  intros Hw Hf. unfold NotifyDockDisplay. apply wp_mbind, wp_get. rewrite Hf. apply wp_mbind.
  apply (wp_mono _ (fun _ r' t' => r' = r /\ tells t t' (map (notice info state) objs))).
  - clear Hf. revert t. induction objs as [|o objs IH]; intros t; cbn [mfor map]; [apply wp_mret; split; [done|apply tells_refl]|].
    apply wp_mbind. unfold NotifyRecvBroadcast, ask. apply wp_mbind, wp_call. rewrite Hw. cbn [negb]. apply wp_mbind, wp_emit.
    assert (wp (when negb (state =? INACTIVE) do emit (DockShowIconReported (bundleName info) (senderNetworkId info)))
      (fun _ r' t' => r' = r /\ tells ((t ++ [Ask]) ++ [notice info state o]) t' []) r ((t ++ [Ask]) ++ [notice info state o])) as H.
    { destruct (negb _); [apply wp_emit; split; [done|by eexists]|apply wp_mret; split; [done|apply tells_refl]]. }
    eapply wp_mono; [exact H|]. cbn. intros _ r' t' (-> & T1). eapply wp_mono; [apply IH|]. cbn. intros _ r' t2 (-> & T2).
    split; [done|]. apply (tells_trans t t' t2 [notice info state o]); [|done].
    apply (tells_trans _ _ _ [notice info state o] [] ) with (2 := T1). exists [Ask; notice info state o]. split; [by rewrite <- app_assoc|done].
  - cbn. intros _ r' t' (-> & T). by apply wp_mret.
Qed.

End Icon.

(** ** Broadcasts of bundles that are not in the store *)

Section Retries.
Context {RE : ReceiverEnv}.

(** The thread takes a turn after each of these times. *)
Definition turn_after (ms : Z) : Rv unit := do! make_recv_move (RecvWait ms) in recv_turn.
Definition turns (ws : list Z) : Rv unit := mfor ws turn_after.

Definition pulls (sender : bytes) (n : nat) : list RecvEffect := concat (repeat [Ask; DataPulled sender] n).

Lemma pulls_snoc sender n : pulls sender n ++ [Ask; DataPulled sender] = pulls sender (S n).
Proof. unfold pulls. induction n as [|n IH]; [done|]. cbn [repeat concat]. rewrite <- app_assoc. by rewrite IH. Qed.

(** A turn before its time leaves a task waiting. *)
Lemma recv_turn_too_early p w r t :
  recv_tasks_ r = Some [p] -> now_ r + Z.max 0 w < due p ->
  wp (turn_after w) (fun _ r' t' => t' = t /\ iconInfo_ r' = iconInfo_ r /\ now_ r' = now_ r + Z.max 0 w /\
    recv_tasks_ r' = Some [p]) r t.
Proof.
  intros Hq Hlt%Z.leb_gt. unfold turn_after. apply wp_mbind. cbn [make_recv_move]. apply wp_modify. unfold recv_turn.
  apply wp_mbind, wp_get. cbn [recv_tasks_ set_recv_now now_]. rewrite Hq, Hlt. by apply wp_mret.
Qed.

(** One turn, for a broadcast that has been tried [retry] times already. *)
Lemma failed_attempt sender id ct account state retry p w r t :
  (forall t', GetDistributedBundleInfo t' sender id = None) ->
  recv_tasks_ r = Some [p] -> due p <= now_ r + Z.max 0 w -> task p = TaskBroadcast sender id ct account state retry ->
  wp (turn_after w) (fun _ r' t' => t' = t ++ [Ask; DataPulled sender] /\ iconInfo_ r' = iconInfo_ r /\
    now_ r' = now_ r + Z.max 0 w /\
    recv_tasks_ r' = Some (if retry =? DBMS_RETRY_MAX_TIME then [] else
      [mkPosted (now_ r' + 2000) DBMS_RETRY_TASK (TaskBroadcast sender id ct account state (retry + 1))])) r t.
Proof.
  intros Hst Hq Hd Ht. unfold turn_after. apply wp_mbind. cbn [make_recv_move]. apply wp_modify. unfold recv_turn.
  apply wp_mbind, wp_get. cbn [recv_tasks_ set_recv_now now_]. rewrite Hq. apply Z.leb_le in Hd. rewrite Hd.
  apply wp_mbind, wp_modify. rewrite Ht. cbn [run_recv_task]. unfold DealOnBroadcastBusiness, ask.
  apply wp_mbind, wp_mbind, wp_call. rewrite Hst. apply wp_mbind, wp_emit. rewrite <- app_assoc. unfold RetryPostBroadcast.
  destruct (retry =? DBMS_RETRY_MAX_TIME); [by do 2 apply wp_mret|].
  unfold PostOnBroadcastBusiness. apply wp_mbind, wp_mbind, wp_modify, wp_modify, wp_mret, wp_mret. done.
Qed.

Lemma recv_turns_idle ws r t : recv_tasks_ r = Some [] ->
  wp (turns ws) (fun _ r' t' => t' = t /\ iconInfo_ r' = iconInfo_ r /\ recv_tasks_ r' = Some []) r t.
Proof.
  intros Hq. apply (wp_mfor (fun r' t' => t' = t /\ iconInfo_ r' = iconInfo_ r /\ recv_tasks_ r' = Some [])); [done|].
  intros w r1 t1 _ (-> & Hi & H). unfold turn_after. apply wp_mbind. cbn [make_recv_move]. apply wp_modify, wp_mbind, wp_get.
  cbn -[wp]. rewrite H. by apply wp_mret.
Qed.

Definition never (_ : nat) : bool := false.

Lemma turns_pull sender id ct account state : (forall t', GetDistributedBundleInfo t' sender id = None) ->
  forall ws n left p r t0, (n + S left = 6)%nat ->
  recv_tasks_ r = Some [p] -> task p = TaskBroadcast sender id ct account state (Z.of_nat n) ->
  wp (turns ws) (fun _ r' t' => let k := paced 2000 never n (S left) (due p - now_ r) ws in
    t' = t0 ++ pulls sender k /\ iconInfo_ r' = iconInfo_ r /\ (recv_tasks_ r' = Some [] <-> k = 6%nat))
    r (t0 ++ pulls sender n).
Proof.
  intros Hst ws. induction ws as [|w ws IH]; intros n left p r t0 Hn Hq Ht.
  { apply wp_mret. cbn. rewrite Hq. split_and!; [done..|]. split; [done|lia]. }
  unfold turns. cbn [mfor]. apply wp_mbind. cbn [paced]. destruct (Z.leb_spec (due p - now_ r - Z.max 0 w) 0) as [Hle|Hlt].
  - eapply wp_mono; [eapply failed_attempt; [done..|lia|done]|]. cbv beta. intros _ r1 t1 (-> & Hi & Hnow & Hq1).
    rewrite <- app_assoc, pulls_snoc. cbn [never]. unfold DBMS_RETRY_MAX_TIME in Hq1.
    destruct (Z.eqb_spec (Z.of_nat n) 5) as [Hn5|Hn5].
    + eapply wp_mono; [by apply recv_turns_idle|]. intros _ r2 t2 (-> & Hi2 & Hq2). assert (left = O) as -> by lia.
      assert (paced 2000 never (S n) 0 2000 ws = S n) as -> by (by destruct ws). split_and!; [done|congruence|]. split; [lia|done].
    + destruct left as [|left]; [lia|]. eapply wp_mono; [eapply (IH (S n) left); [lia|exact Hq1|]|].
      * cbn [task]. by replace (Z.of_nat n + 1) with (Z.of_nat (S n)) by lia.
      * cbn [due]. replace (now_ r1 + 2000 - now_ r1) with 2000 by lia. cbv zeta beta. intros _ r2 t2 (-> & Hi2 & Hiff).
        split_and!; [done|congruence|done].
  - eapply wp_mono; [eapply recv_turn_too_early; [done|lia]|]. cbv beta. intros _ r1 t1 (-> & Hi & Hnow & Hq1).
    eapply wp_mono; [by eapply (IH n left p)|]. cbv zeta beta. rewrite Hnow, Hi.
    by replace (due p - (now_ r + Z.max 0 w)) with (due p - now_ r - Z.max 0 w) by lia.
Qed.

(** C25 A broadcast that waits alone and whose bundle the store does not have makes the store
    pull the data of its device at the first turn at which the broadcast is due, and again at
    the first turn that comes two seconds or more after the last time and at no earlier one,
    whatever turns there are; the sixth time is the last, and only then the broadcast is dropped.
    Six turns that are two seconds apart get there.  The icon never changes. *)
Theorem unknown_bundle_dropped sender id ct account state p r t ws :
  (forall t', GetDistributedBundleInfo t' sender id = None) ->
  recv_tasks_ r = Some [p] -> task p = TaskBroadcast sender id ct account state 0 ->
  let n := paced 2000 never 0 6 (due p - now_ r) ws in
  exists r', turns ws r t = Done (tt, r', t ++ pulls sender n) /\ iconInfo_ r' = iconInfo_ r /\
    (recv_tasks_ r' = Some [] <-> n = 6%nat) /\
    (due p <= now_ r + 2000 -> Forall (fun w => 2000 <= w) ws -> (6 <= length ws)%nat -> n = 6%nat).
Proof.
  intros Hst Hq Ht n.
  destruct (turns_pull sender id ct account state Hst ws 0 5 p r t eq_refl Hq Ht) as ([] & r' & t' & Hrun & -> & Hi & Hiff).
  fold n in Hrun, Hiff. cbn [pulls repeat concat] in Hrun. rewrite app_nil_r in Hrun. exists r'. split_and!; [done..|].
  intros Hd Hws Hlen. by destruct (paced_enough 2000 never 0 6 (due p - now_ r) ws ltac:(lia) Hws Hlen) as [|(_ & ?)].
Qed.
End Retries.

(** ** The bundle that may continue *)

Section Trust.
Context {RE : ReceiverEnv}.

(** The bundle manager has said that the bundle is here, and what it is. *)
Definition is_installed (b : bytes) (local : BundleInfo) : Prop := exists t, Some local = GetLocalBundleInfo t b.
Definition is_provided (b : bytes) (p : AppProvisionInfo) : Prop := exists t, Some p = GetAppProvisionInfo4CurrentUser t b.

(** A bundle stands for the source's when it is the same, comes from the same developer, or
    has an identifier that the source names. *)
Definition stands_for (info : DmsBundleInfo) (b : bytes) : Prop :=
  match dms_appIdentifierVec info with
  | [] => b = dms_bundleName info \/ exists p, is_provided b p /\ developerId p = dms_developerId info
  | l => exists p, is_provided b p /\ In (appIdentifier p) l
  end.

Definition found_ok (P : bytes -> Prop) (found : option (bytes * BundleInfo)) : Prop :=
  match found with None => True | Some (b, local) => is_installed b local /\ P b end.

Lemma same_developer_yields info l :
  yields (found_ok (fun b => exists p, is_provided b p /\ developerId p = dms_developerId info)) (same_developer info l).
Proof.
  induction l as [|item l IH]; cbn [same_developer]; [by apply yields_mret|].
  eapply yields_then; [apply yields_call|]. intros [p|] [t Hp]; [|exact IH].
  destruct (bytes_eqb (developerId p) _) eqn:E; [|exact IH]. apply bytes_eqb_eq in E.
  eapply yields_then; [apply yields_call|]. intros [local|] [t' Hl]; [|exact IH]. apply yields_mret.
  split; [by exists t'|]. exists p. split; [by exists t|done].
Qed.

(** The table of identifiers. *)
Definition idents_ok (m : std_map bytes bytes) : Prop :=
  Forall (fun e => exists p, is_provided e.2 p /\ appIdentifier p = e.1) m.

Lemma ident_to_bundle_yields l m : idents_ok m -> yields idents_ok (ident_to_bundle l m).
Proof.
  revert m. induction l as [|item l IH]; intros m Hm; cbn [ident_to_bundle]; [by apply yields_mret|].
  eapply yields_then; [apply yields_call|]. intros [p|] [t Hp]; [|by apply IH].
  eapply yields_then; [apply yields_call|]. intros [local|] [t' _]; apply IH; [|done].
  apply Forall_map_emplace; [done|]. exists p. cbn. split; [by exists t|done].
Qed.

Lemma find_identifier_yields l m : idents_ok m ->
  yields (found_ok (fun b => exists p, is_provided b p /\ In (appIdentifier p) l)) (find_identifier l m).
Proof.
  intros Hm. assert (forall l', incl l' l ->
    yields (found_ok (fun b => exists p, is_provided b p /\ In (appIdentifier p) l)) (find_identifier l' m)) as H.
  { induction l' as [|ident l' IH]; intros Hl; cbn [find_identifier]; [by apply yields_mret|].
    assert (incl l' l) as Hl' by (intros x Hx; apply Hl; by right).
    destruct (map_find m ident) as [item|] eqn:E; [|by apply IH].
    eapply yields_then; [apply yields_call|]. intros [local|] [t Ht]; [|by apply IH]. apply yields_mret.
    split; [by exists t|]. apply map_find_Some in E as (k & Hin & Hk%on_type_key_eq). unfold idents_ok in Hm.
    eapply List.Forall_forall in Hm as (p & Hp & Hid); [|exact Hin]. exists p. split; [done|]. cbn in Hid. rewrite Hid, Hk.
    apply Hl. by left. }
  apply H, incl_refl.
Qed.

Lemma GetFinalBundleName_yields info : yields (found_ok (stands_for info)) (GetFinalBundleName info).
Proof.
  unfold GetFinalBundleName, GetFinalBundleNameInternal, stands_for. destruct (dms_appIdentifierVec info) as [|i l].
  - eapply yields_then; [apply yields_call|]. intros [local|] [t Hl].
    + apply yields_mret. split; [by exists t|by left].
    + do 2 (apply yields_mbind; intros ?). intros s t' found s' t2 Hrun. apply same_developer_yields in Hrun.
      destruct found as [[b local]|]; [|done]. destruct Hrun as [H1 H2]. split; [done|by right].
  - do 2 (apply yields_mbind; intros ?). destruct (_ ++ _) as [|b bs]; [by apply yields_mret|].
    eapply yields_then; [apply ident_to_bundle_yields; constructor|]. intros m Hm. by apply find_identifier_yields.
Qed.

(** A bundle can take over an ability of a type when it has a continuable ability that has the
    type, or the type with the suffix of a quick start put on or taken off; the ability of the
    same module and name will do with any type at all. *)
Definition takes_over (local : BundleInfo) (ability : DmsAbilityInfo) (type : bytes) : Prop :=
  exists a item, In a (abilityInfos local) /\ continuable a = true /\ In item (ability_continueType a) /\
    (item = type \/ item = ContinueTypeFormat type \/
      moduleName a = dms_moduleName ability /\ name a = dms_abilityName ability).

Lemma IsBundleContinuable_spec local ability type :
  IsBundleContinuable local (dms_abilityName ability) (dms_moduleName ability) type = true <->
  takes_over local ability type.
Proof.
  unfold IsBundleContinuable, takes_over. rewrite existsb_exists. split.
  - intros (a & Ha & (Hc & (item & Hi & H)%existsb_exists)%andb_true_iff). exists a, item. split_and!; [done..|].
    apply orb_true_iff in H as [[H|H]%orb_true_iff|(H1 & H2)%andb_true_iff];
      [left|right; left|right; right; split]; by apply bytes_eqb_eq.
  - intros (a & item & Ha & Hc & Hi & H). exists a. split; [done|]. rewrite Hc. apply existsb_exists. exists item.
    split; [done|]. rewrite !orb_true_iff, andb_true_iff, !bytes_eqb_eq. tauto.
Qed.

(** C20 A broadcast is only ever taken for a bundle that the bundle manager says is installed
    as an application, and that is the source's own, of its developer, or of an identifier the
    source names.  An offer moreover is only taken for one that has a continuable ability with
    the type that is offered, with the type that differs from it in the suffix of a quick start,
    or with the module and name of the source's ability, which then may have any other type. *)
Theorem offered_bundle_trusted info ct state r t c r' t' :
  ValidateAndPrepareBundleInfo info ct state r t = Done (Some c, r', t') ->
  is_installed (finalBundleName c) (localBundleInfo c) /\ stands_for info (finalBundleName c) /\
  isApp (localBundleInfo c) = true /\ FindContinueType info ct = (ctx_continueType c, ctx_ability c) /\
  (state = ACTIVE -> takes_over (localBundleInfo c) (ctx_ability c) (ctx_continueType c)).
Proof.
  set (P := fun c : option BundleValidationContext => match c with None => True | Some c =>
    is_installed (finalBundleName c) (localBundleInfo c) /\ stands_for info (finalBundleName c) /\
    isApp (localBundleInfo c) = true /\ FindContinueType info ct = (ctx_continueType c, ctx_ability c) /\
    (state = ACTIVE -> takes_over (localBundleInfo c) (ctx_ability c) (ctx_continueType c)) end).
  assert (yields P (ValidateAndPrepareBundleInfo info ct state)) as H; [|intros Hrun; exact (H _ _ _ _ _ Hrun)].
  unfold ValidateAndPrepareBundleInfo. destruct (FindContinueType info ct) as [type ability].
  eapply yields_then; [apply GetFinalBundleName_yields|]. intros [[b local]|]; [|by intros; apply yields_mret].
  intros [H1 H2]. destruct (isApp local) eqn:Ha; cbn [negb]; [|by apply yields_mret].
  destruct (state =? ACTIVE) eqn:Es; cbn [andb]; [destruct (IsBundleContinuable _ _ _ _) eqn:Ec; cbn [negb]|];
    apply yields_mret; [|done|]; cbn; split_and!; try done; intros ->; [by apply IsBundleContinuable_spec|discriminate].
Qed.
End Trust.

(** ** Whose icon it is *)

Section Whose.
Context {RE : ReceiverEnv}.

(** The state is the same and the dock has not been told anything. *)
Definition unheard (r : Receiver) (t : list RecvEffect) (r' : Receiver) (t' : list RecvEffect) : Prop := r' = r /\ tells t t' [].

Lemma unheard_refl r t : unheard r t r t.
Proof. split; [done|apply tells_refl]. Qed.
Lemma unheard_trans r1 t1 r2 t2 r3 t3 : unheard r1 t1 r2 t2 -> unheard r2 t2 r3 t3 -> unheard r1 t1 r3 t3.
Proof. intros [-> T1] [-> T2]. split; [done|]. by apply (tells_trans _ _ _ [] []) with (2 := T2). Qed.
Lemma unheard_ask {A} (oracle : list RecvEffect -> A) : preserves unheard (ask oracle).
Proof. apply preserves_call. intros r t. split; [done|apply tells_ask]. Qed.

Ltac unheard_code := preserves_with unheard_refl unheard_trans ltac:(apply unheard_ask).

Lemma same_developer_unheard info l : preserves unheard (same_developer info l).
Proof. induction l as [|item l IH]; cbn [same_developer]; preserves_with unheard_refl unheard_trans ltac:(first [apply unheard_ask|exact IH]). Qed.
Lemma ident_to_bundle_unheard l m : preserves unheard (ident_to_bundle l m).
Proof. revert m. induction l as [|item l IH]; intros m; cbn [ident_to_bundle]; preserves_with unheard_refl unheard_trans ltac:(first [apply unheard_ask|apply IH]). Qed.
Lemma find_identifier_unheard l m : preserves unheard (find_identifier l m).
Proof. induction l as [|item l IH]; cbn [find_identifier]; preserves_with unheard_refl unheard_trans ltac:(first [apply unheard_ask|exact IH]). Qed.
Lemma ValidateAndPrepareBundleInfo_unheard info ct state : preserves unheard (ValidateAndPrepareBundleInfo info ct state).
Proof.
  unfold ValidateAndPrepareBundleInfo, GetFinalBundleName, GetFinalBundleNameInternal.
  preserves_with unheard_refl unheard_trans
    ltac:(first [apply unheard_ask|apply same_developer_unheard|apply ident_to_bundle_unheard|apply find_identifier_unheard]).
Qed.

(** An offer of the bundle [info] that passes the checks, with what they find; [C20] says what
    they ask for. *)
Definition validated (info : DmsBundleInfo) (ct : Z) (c : BundleValidationContext) : Prop :=
  forall r t, exists r' t', ValidateAndPrepareBundleInfo info ct ACTIVE r t = Done (Some c, r', t').

Lemma validated_wp info ct c r t : validated info ct c ->
  wp (ValidateAndPrepareBundleInfo info ct ACTIVE) (fun found r' t' => found = Some c /\ r' = r /\ tells t t' []) r t.
Proof.
  intros H. destruct (H r t) as (r' & t' & Hrun). pose proof (ValidateAndPrepareBundleInfo_unheard _ _ _ _ _ _ _ _ Hrun) as (-> & T).
  by exists (Some c), r, t'.
Qed.

(** C19 An offer whose bundle the store knows and that passes the checks is shown to every
    listener that is registered under the type that was registered last, in the name of the
    bundle the checks found, and if nothing follows and no other task waits it is hidden from
    the same listeners at the first turn that comes a minute later.  The icon stays on record
    after that. *)
Theorem offer_shown_then_hidden sender id ct account retry info c p r t objs ms :
  (forall t', GetDistributedBundleInfo t' sender id = Some info) -> validated info ct c ->
  (forall t', parcel_written t' = true) ->
  recv_tasks_ r = Some [p] -> due p <= now_ r -> task p = TaskBroadcast sender id ct account ACTIVE retry ->
  map_find (registerOnListener_ r) (onType_ r) = Some objs -> TIMEOUT_SENT_EVENT_DELAY <= ms ->
  let icon := mkIconInfo sender (finalBundleName c) (ctx_continueType c) (dms_bundleName info) [] in
  exists r1 t1 r2 t2,
    recv_turn r t = Done (tt, r1, t1) /\ tells t t1 (map (notice icon ACTIVE) objs) /\
    recv_tasks_ r1 = Some [mkPosted (now_ r + TIMEOUT_SENT_EVENT_DELAY) ICON_TIMEOUT_TASK (TaskIconTimeout id icon)] /\
    (do! make_recv_move (RecvWait ms) in recv_turn) r1 t1 = Done (tt, r2, t2) /\ tells t1 t2 (map (notice icon INACTIVE) objs) /\
    recv_tasks_ r2 = Some [] /\ iconInfo_ r2 = iconInfo_ r1 /\
    senderNetworkId (iconInfo_ r2) = sender /\ bundleName (iconInfo_ r2) = finalBundleName c /\
    continueType (iconInfo_ r2) = ctx_continueType c.
Proof.
  intros Hst Hval Hw Hq Hd Htask Hobjs Hms icon.
  pose (later r' := recv_tasks_ r' = Some [mkPosted (now_ r + TIMEOUT_SENT_EVENT_DELAY) ICON_TIMEOUT_TASK (TaskIconTimeout id icon)] /\
    now_ r' = now_ r /\ onType_ r' = onType_ r /\ registerOnListener_ r' = registerOnListener_ r /\
    senderNetworkId (iconInfo_ r') = sender /\ bundleName (iconInfo_ r') = finalBundleName c /\
    continueType (iconInfo_ r') = ctx_continueType c).
  assert (wp recv_turn (fun _ r' t' => later r' /\ tells t t' (map (notice icon ACTIVE) objs)) r t) as H1.
  { unfold recv_turn. apply wp_mbind, wp_get. rewrite Hq. apply Z.leb_le in Hd. rewrite Hd. apply wp_mbind, wp_modify.
    rewrite Htask. cbn [run_recv_task]. apply wp_mbind. unfold DealOnBroadcastBusiness, ask. apply wp_mbind, wp_call. rewrite Hst.
    apply wp_mbind. eapply wp_mono; [by apply validated_wp|]. cbv beta. intros found r0 t0 (-> & -> & T0). fold icon.
    unfold DealDockDisplayBusiness. apply wp_mbind.
    unfold VerifyBroadcastSource. apply wp_mbind, wp_get. cbn [Z.eqb]. change (ACTIVE =? ACTIVE) with true. cbv iota.
    apply wp_mbind, wp_modify, wp_mret. cbn -[wp NotifyDockDisplay]. apply wp_mbind, wp_get. cbn -[wp NotifyDockDisplay].
    apply wp_mbind, wp_modify. cbn -[wp NotifyDockDisplay]. apply wp_mbind.
    eapply wp_mono; [apply (NotifyDockDisplay_tells _ _ objs); [done|exact Hobjs]|]. intros ret r1 t1 (-> & -> & T).
    cbn -[wp]. apply wp_mbind. unfold PostTask. apply wp_modify, wp_mret, wp_mret. cbn. split; [by split_and!|].
    apply (tells_trans t _ _ [] _ ) with (2 := T). by apply (tells_trans _ _ _ [] [] (tells_ask t)). }
  destruct H1 as ([] & r1 & t1 & Hrun1 & (Hq1 & Hn1 & Ho1 & Hl1 & Hs1 & Hb1 & Hc1) & T1).
  assert (wp (do! make_recv_move (RecvWait ms) in recv_turn) (fun _ r' t' => recv_tasks_ r' = Some [] /\
    iconInfo_ r' = iconInfo_ r1 /\ tells t1 t' (map (notice icon INACTIVE) objs)) r1 t1) as H2.
  { apply wp_mbind. cbn [make_recv_move]. apply wp_modify. unfold recv_turn. apply wp_mbind, wp_get. cbn -[wp Z.max NotifyDockDisplay].
    rewrite Hq1. cbn [due]. unfold TIMEOUT_SENT_EVENT_DELAY in *.
    assert ((now_ r + 60000 <=? now_ r1 + Z.max 0 ms) = true) as -> by (apply Z.leb_le; lia).
    apply wp_mbind, wp_modify. cbn [run_recv_task task]. apply wp_mbind.
    eapply wp_mono; [apply (NotifyDockDisplay_tells _ _ objs); [done|cbn; by rewrite Hl1, Ho1]|].
    cbn. intros ret r2 t2 (-> & -> & T). by apply wp_mret. }
  destruct H2 as ([] & r2 & t2 & Hrun2 & Hq2 & Hi2 & T2). exists r1, t1, r2, t2. rewrite Hi2. by split_and!.
Qed.

(** C27 The end of an offer, broadcast by a device whose mission is not the icon, leaves the
    icon, the listeners and the time at which the icon goes away as they are, and the dock is
    told nothing. *)
Theorem other_device_cannot_hide sender id ct account retry r t :
  receiver_ok r -> sender <> senderNetworkId (iconInfo_ r) -> 0 <= retry <= DBMS_RETRY_MAX_TIME ->
  exists ret r' t', DealOnBroadcastBusiness sender id ct account INACTIVE retry r t = Done (ret, r', t') /\
    tells t t' [] /\ iconInfo_ r' = iconInfo_ r /\ registerOnListener_ r' = registerOnListener_ r /\
    forall l q, recv_tasks_ r = Some l -> taskName q = ICON_TIMEOUT_TASK ->
      (In q l <-> exists l', recv_tasks_ r' = Some l' /\ In q l').
Proof.
  intros Hok Hne Hre.
  pose (Q := fun (_ : Z) (r' : Receiver) (t' : list RecvEffect) =>
    tells t t' [] /\ iconInfo_ r' = iconInfo_ r /\ registerOnListener_ r' = registerOnListener_ r /\
    forall l q, recv_tasks_ r = Some l -> taskName q = ICON_TIMEOUT_TASK ->
      (In q l <-> exists l', recv_tasks_ r' = Some l' /\ In q l')).
  assert (forall ret t1, tells t t1 [] -> Q ret r t1) as HQ.
  { intros ret t1 T. split_and!; try done. intros l q Hl _. rewrite Hl. split; [by exists l|]. by intros (? & [= <-] & ?). }
  enough (wp (DealOnBroadcastBusiness sender id ct account INACTIVE retry) Q r t) as (ret & r' & t' & H & H1)
    by (exists ret, r', t'; split; [done|exact H1]).
  unfold DealOnBroadcastBusiness, ask. apply wp_mbind, wp_call. destruct (GetDistributedBundleInfo t sender id) as [info|].
  - apply wp_mbind. eapply wp_mono; [apply wp_preserves; [by apply ValidateAndPrepareBundleInfo_recv|apply ValidateAndPrepareBundleInfo_unheard]|].
    cbn beta. intros [c|] r1 t1 (_ & -> & T).
    + unfold DealDockDisplayBusiness, VerifyBroadcastSource. apply wp_mbind, wp_mbind, wp_get. cbn [senderNetworkId].
      change (INACTIVE =? ACTIVE) with false. cbv iota.
      assert (bytes_eqb sender (senderNetworkId (iconInfo_ r)) = false) as -> by (by apply not_true_is_false; intros E%bytes_eqb_eq).
      apply wp_mret. cbn -[wp]. apply wp_mret, HQ. by apply (tells_trans _ _ _ [] [] (tells_ask t)).
    + unfold NotifyIconDisappear. apply wp_mbind, wp_mbind, wp_get. cbn -[wp]. apply wp_mret, wp_mret, HQ.
      by apply (tells_trans _ _ _ [] [] (tells_ask t)).
  - apply wp_mbind, wp_emit. unfold RetryPostBroadcast.
    assert (tells t ((t ++ [Ask]) ++ [DataPulled sender]) []) as T by (exists [Ask; DataPulled sender]; split; [by rewrite <- app_assoc|done]).
    destruct (retry =? DBMS_RETRY_MAX_TIME); [by apply wp_mret, HQ|].
    unfold PostOnBroadcastBusiness. apply wp_mbind, wp_mbind, wp_modify, wp_modify, wp_mret. destruct (recv_tasks_ r) as [l|] eqn:E; cbn.
    + split_and!; try done. intros l0 q [= <-] Hq. cbn. split.
      * intros Hin. eexists. split; [done|]. apply In_insert_task. right. apply In_remove_tasks. split; [done|]. by rewrite Hq.
      * intros (l' & [= <-] & [->|[Hin _]%In_remove_tasks]%In_insert_task); [discriminate Hq|done].
    + rewrite E. split_and!; done.
Qed.

(** ** Whom the dock's news reach *)

Lemma map_assign_two (A B : bytes) (a b : list Z) : A <> B ->
  map_assign (map_assign [] A a) B b = [(A, a); (B, b)] \/ map_assign (map_assign [] A a) B b = [(B, b); (A, a)].
Proof.
  intros Hne. cbn. destruct (key_lt B A) eqn:E1; [by right|]. destruct (key_lt A B) eqn:E2; [by left|].
  exfalso. apply Hne. apply on_type_key_eq. unfold key_eq. by rewrite E1, E2.
Qed.

Lemma type_key_ne (A B : bytes) : A <> B -> key_eq A B = false.
Proof. intros Hne. apply not_true_is_false. by intros E%on_type_key_eq. Qed.

(** The dock's news reach the listeners of the type that was registered last and no
    others: a listener of another type hears nothing, and when the last type's listener is
    gone nobody hears anything although the first one is still registered. *)
Theorem only_last_type_told A B a b info state r t :
  A <> B -> a <> b -> zlen A <= MAX_TYPE_SIZE -> zlen B <= MAX_TYPE_SIZE -> (forall t', parcel_written t' = true) ->
  registerOnListener_ r = [] ->
  exists r1 t1 t2 r3 t3,
    (do! RegisterOnListener A (Some a) in RegisterOnListener B (Some b)) r t = Done (ERR_OK, r1, t1) /\
    NotifyDockDisplay info state r1 t1 = Done (ERR_OK, r1, t2) /\ tells t1 t2 [notice info state b] /\
    (do! RegisterOffListener B (Some b) in NotifyDockDisplay info state) r1 t2 = Done (INVALID_PARAMETERS_ERR, r3, t3) /\
    tells t2 t3 [] /\ map_find (registerOnListener_ r3) A = Some [a].
Proof.
  intros Hne Hab HA HB Hw Hl. apply Z.ltb_ge in HA, HB. pose proof (type_key_ne A B Hne) as HAB.
  set (m := map_assign (map_assign [] A [a]) B [b]).
  assert (map_find m B = Some [b]) as HmB by apply map_find_assign_eq.
  assert (drop_object erase_first b m = [(A, [a])] /\
    occurrences (fun l => if existsb (Z.eqb b) l then 1%nat else O) m = 1%nat) as [Hdrop Hocc].
  { unfold m. destruct (map_assign_two A B [a] [b] Hne) as [-> | ->]; unfold drop_object, occurrences; cbn;
      assert (a =? b = false) as -> by (by apply Z.eqb_neq); assert (b =? a = false) as -> by (apply Z.eqb_neq; congruence);
      by rewrite Z.eqb_refl. }
  assert (wp (do! RegisterOnListener A (Some a) in RegisterOnListener B (Some b)) (fun ret r1 _ =>
    ret = ERR_OK /\ registerOnListener_ r1 = m /\ onType_ r1 = B) r t) as (ret & r1 & t1 & Hrun1 & -> & Hm1 & Ho1).
  { apply wp_mbind. unfold RegisterOnListener. rewrite HA, HB. apply wp_mbind, wp_modify, wp_mbind, wp_get. cbn -[wp].
    rewrite Hl. cbn -[wp]. apply wp_mbind, wp_emit, wp_mbind, wp_modify, wp_mret. apply wp_mbind, wp_modify, wp_mbind, wp_get. cbn -[wp map_assign map_find].
    rewrite Hl. assert (map_find (map_assign [] A [a]) B = None) as -> by (rewrite map_find_assign, HAB; done).
    cbn -[wp map_assign]. apply wp_mbind, wp_emit, wp_mbind, wp_modify, wp_mret. cbn -[map_assign]. by rewrite ?Hl. }
  destruct (NotifyDockDisplay_tells info state [b] r1 t1 Hw) as (ret2 & ? & t2 & Hrun2 & -> & -> & T2); [by rewrite Hm1, Ho1|].
  assert (wp (do! RegisterOffListener B (Some b) in NotifyDockDisplay info state) (fun ret r3 t3 =>
    ret = INVALID_PARAMETERS_ERR /\ tells t2 t3 [] /\ registerOnListener_ r3 = [(A, [a])]) r1 t2) as (ret3 & r3 & t3 & Hrun3 & -> & T3 & H3).
  { apply wp_mbind. unfold RegisterOffListener. apply wp_mbind, wp_get. rewrite Hm1. cbv zeta. rewrite Hocc. cbn [repeat mfor].
    apply wp_mbind, wp_mbind, wp_emit, wp_mret, wp_mbind, wp_modify, wp_mret. unfold NotifyDockDisplay.
    apply wp_mbind, wp_get. cbn [registerOnListener_ set_listeners onType_]. rewrite Hm1, Hdrop, Ho1. unfold map_find. cbn [List.find fst].
    rewrite HAB. apply wp_mret. split_and!; try done. by eexists. }
  exists r1, t1, t2, r3, t3. split_and!; try done. rewrite H3. unfold map_find. cbn. by rewrite key_eq_refl.
Qed.
End Whose.

(** ** A device that is offered a note *)

Module DemoReceiver.
Definition phone : bytes := str "phone".
Definition app : bytes := str "com.example.notes".
Definition type : bytes := str "edit".
Definition dock : Z := 1.

(** The ability of the phone and the bundle that is installed here; the type is the fifth. *)
Definition ability : DmsAbilityInfo := mkDmsAbilityInfo (str "MainAbility") (str "entry") [str "a"; str "b"; str "c"; str "d"; type].
Definition source : DmsBundleInfo := mkDmsBundleInfo app (str "dev") [] [ability].
Definition local : BundleInfo := mkBundleInfo true [mkAbilityInfo (str "MainAbility") (str "entry") true [type]].

Definition surroundings (stored : bool) : ReceiverEnv := {|
  IsCurrentContinueSwitchOn _ := true;
  IsWifiActive _ := true;
  GetDistributedBundleInfo _ _ id := if stored && (id =? 258) then Some source else None;
  GetLocalBundleInfo _ b := if bytes_eqb b app then Some local else None;
  GetContinueBundle4Src _ _ := [];
  GetAppProvisionInfo4CurrentUser _ _ := None;
  GetLocalDeviceId _ := Some (str "tablet");
  parcel_written _ := true
|}.
#[export] Instance Surroundings : ReceiverEnv := surroundings true.
Definition Unsynced : ReceiverEnv := surroundings false.

Definition start : list RecvMove := [RecvInit 100; CallRegisterOn (str "dock") (Some dock)].
Definition ready : Receiver :=
  match make_recv_moves start Receiver_new [] with Done (_, r, _) => r | _ => Receiver_new end.

Lemma ready_ok : receiver_ok ready.
Proof.
  destruct (make_recv_moves_ok start Receiver_new [] Receiver_new_ok) as (? & r & t & Hrun & Hr). unfold ready. by rewrite Hrun.
Qed.

(** What the dock hears: shown, or hidden, and whose. *)
Definition heard (r : run (unit * Receiver * list RecvEffect)) : list (Z * bytes) :=
  match r with
  | Done (_, _, t) => flat_map (fun e => match e with DockNotified _ state n _ _ _ _ => [(state, n)] | _ => [] end) t
  | _ => []
  end.

(** The bytes that a device broadcasts when a mission gets the focus and when its minute is
    over. *)
Example offered_for_a_minute : heard (make_recv_moves (start ++ [BroadcastArrived phone [3; 1; 2; 4] (str "A1B2"); RecvTurn;
    RecvWait 60000; BroadcastArrived phone [19; 1; 2; 4] (str "A1B2"); RecvTurn; RecvTurn]) Receiver_new []) =
  [(ACTIVE, phone); (INACTIVE, phone); (INACTIVE, phone)].
Proof. vm_compute. reflexivity. Qed.

(** An offer that was received. *)
Definition waiting (id : Z) : Posted RecvTask :=
  mkPosted 0 DBMS_RETRY_TASK (TaskBroadcast phone id 4 (str "A1B2") ACTIVE 0).
Definition received (id : Z) : Receiver := set_recv_tasks (Some [waiting id]) ready.

Definition accepted : BundleValidationContext := mkContext app local type ability.

Lemma here : validated source 4 accepted.
Proof. intros r t. eexists _, _. reflexivity. Qed.

(** The source names identifiers; another bundle of the developer here has the second. *)
Definition reader : bytes := str "com.example.reader".
Definition named : DmsBundleInfo := mkDmsBundleInfo app (str "dev") [str "id1"; str "id2"] [ability].
Definition Relative : ReceiverEnv := {|
  IsCurrentContinueSwitchOn _ := true;
  IsWifiActive _ := true;
  GetDistributedBundleInfo _ _ _ := Some named;
  GetLocalBundleInfo _ b := if bytes_eqb b reader then Some local else None;
  GetContinueBundle4Src _ _ := [reader];
  GetAppProvisionInfo4CurrentUser _ _ := Some (mkAppProvisionInfo (str "id2") (str "dev"));
  GetLocalDeviceId _ := Some (str "tablet");
  parcel_written _ := true
|}.

Lemma relative_here : validated (RE := Relative) named 4 (mkContext reader local type ability).
Proof. intros r t. eexists _, _. reflexivity. Qed.

Lemma find_position_is_lookup_witness :
  0 <= 4 /\ find_position 0 4 (continue_types source) = continue_types source !! Z.to_nat 4.
Proof. split; [lia|]. apply find_position_is_lookup. lia. Defined.

Lemma ContinueTypeFormat_involutive_witness :
  zlen type < 2 ^ 62 /\ ContinueTypeFormat (ContinueTypeFormat type) = type.
Proof.
  split; [vm_compute; reflexivity|]. apply ContinueTypeFormat_involutive; [vm_compute; reflexivity|].
  intros (p & Hp). apply (f_equal length) in Hp. rewrite !length_app in Hp. change (length type) with 4%nat in Hp.
  change (length QUICK_START_CONFIGURATION) with 19%nat in Hp. lia.
Defined.

Lemma broadcast_arrives_witness :
  is_u16 258 /\ exists l', NotifyDataRecv phone (event_bytes 258 4 BROADCAST_TYPE_APPEAR) (str "A1B2") ready [] =
      Done (tt, set_recv_tasks (Some l') ready, [] ++ [Ask; Ask]) /\ In (waiting 258) l' /\
    forall q s2 id2 ct2 a2 st2 n2, In q l' -> task q = TaskBroadcast s2 id2 ct2 a2 st2 n2 -> q = waiting 258.
Proof.
  split; [by vm_compute|].
  apply (broadcast_arrives phone 258 4 BROADCAST_TYPE_APPEAR (str "A1B2") ready [] []); try by vm_compute.
  - by left.
  - exact ready_ok.
Defined.

(** The bundle of the source, and a relative with one of its identifiers. *)
Lemma offer_shown_then_hidden_witness :
  (exists r1 t1 r2 t2,
    let icon := mkIconInfo phone app type app [] in
    recv_turn (received 258) [] = Done (tt, r1, t1) /\ tells [] t1 [notice icon ACTIVE dock] /\
    recv_tasks_ r1 = Some [mkPosted (0 + TIMEOUT_SENT_EVENT_DELAY) ICON_TIMEOUT_TASK (TaskIconTimeout 258 icon)] /\
    (do! make_recv_move (RecvWait 60000) in recv_turn) r1 t1 = Done (tt, r2, t2) /\
    tells t1 t2 [notice icon INACTIVE dock] /\ recv_tasks_ r2 = Some [] /\ iconInfo_ r2 = iconInfo_ r1 /\
    senderNetworkId (iconInfo_ r2) = phone /\ bundleName (iconInfo_ r2) = app /\ continueType (iconInfo_ r2) = type) /\
  (exists r1 t1 r2 t2,
    let icon := mkIconInfo phone reader type app [] in
    recv_turn (RE := Relative) (received 258) [] = Done (tt, r1, t1) /\ tells [] t1 [notice icon ACTIVE dock] /\
    recv_tasks_ r1 = Some [mkPosted (0 + TIMEOUT_SENT_EVENT_DELAY) ICON_TIMEOUT_TASK (TaskIconTimeout 258 icon)] /\
    (do! make_recv_move (RE := Relative) (RecvWait 60000) in recv_turn (RE := Relative)) r1 t1 = Done (tt, r2, t2) /\
    tells t1 t2 [notice icon INACTIVE dock] /\ recv_tasks_ r2 = Some [] /\ iconInfo_ r2 = iconInfo_ r1 /\
    senderNetworkId (iconInfo_ r2) = phone /\ bundleName (iconInfo_ r2) = reader /\ continueType (iconInfo_ r2) = type).
Proof.
  split.
  - apply (offer_shown_then_hidden phone 258 4 (str "A1B2") 0 source accepted (waiting 258) (received 258) [] [dock] 60000);
      first [exact here|vm_compute; reflexivity|vm_compute; discriminate].
  - apply (offer_shown_then_hidden (RE := Relative) phone 258 4 (str "A1B2") 0 named (mkContext reader local type ability)
      (waiting 258) (received 258) [] [dock] 60000);
      first [exact relative_here|vm_compute; reflexivity|vm_compute; discriminate].
Defined.

(** The second attempt is made two seconds after the first and not a millisecond earlier. *)
Lemma unknown_bundle_dropped_witness :
  (exists r', turns (RE := Unsynced) [0; 1999] (received 258) [] = Done (tt, r', [] ++ pulls phone 1) /\
    iconInfo_ r' = iconInfo_ (received 258) /\ (recv_tasks_ r' = Some [] <-> 1%nat = 6%nat) /\
    (0 <= 0 + 2000 -> Forall (fun w => 2000 <= w) [0; 1999] -> (6 <= 2)%nat -> 1%nat = 6%nat)) /\
  (exists r', turns (RE := Unsynced) (replicate 6 2000) (received 258) [] = Done (tt, r', [] ++ pulls phone 6) /\
    iconInfo_ r' = iconInfo_ (received 258) /\ (recv_tasks_ r' = Some [] <-> 6%nat = 6%nat) /\
    (0 <= 0 + 2000 -> Forall (fun w => 2000 <= w) (replicate 6 2000) -> (6 <= 6)%nat -> 6%nat = 6%nat)).
Proof.
  split.
  - exact (unknown_bundle_dropped (RE := Unsynced) phone 258 4 (str "A1B2") ACTIVE (waiting 258) (received 258) []
      [0; 1999] (fun _ => eq_refl) eq_refl eq_refl).
  - exact (unknown_bundle_dropped (RE := Unsynced) phone 258 4 (str "A1B2") ACTIVE (waiting 258) (received 258) []
      (replicate 6 2000) (fun _ => eq_refl) eq_refl eq_refl).
Defined.

Lemma offered_bundle_trusted_witness :
  let c := mkContext app local type ability in
  ValidateAndPrepareBundleInfo source 4 ACTIVE ready [] = Done (Some c, ready, [Ask]) /\
  is_installed app local /\ stands_for source app /\ isApp local = true /\ FindContinueType source 4 = (type, ability) /\
  (ACTIVE = ACTIVE -> takes_over local ability type).
Proof.
  intros c. split; [vm_compute; reflexivity|].
  apply (offered_bundle_trusted source 4 ACTIVE ready [] c ready [Ask]). vm_compute. reflexivity.
Defined.

Lemma other_device_cannot_hide_witness :
  receiver_ok ready /\
  exists ret r' t', DealOnBroadcastBusiness phone 258 4 (str "A1B2") INACTIVE 0 ready [] = Done (ret, r', t') /\
    tells [] t' [] /\ iconInfo_ r' = iconInfo_ ready /\ registerOnListener_ r' = registerOnListener_ ready /\
    forall l q, recv_tasks_ ready = Some l -> taskName q = ICON_TIMEOUT_TASK ->
      (In q l <-> exists l', recv_tasks_ r' = Some l' /\ In q l').
Proof.
  split; [exact ready_ok|]. apply (other_device_cannot_hide phone 258 4 (str "A1B2") 0 ready []);
    [exact ready_ok|vm_compute; discriminate|by vm_compute].
Defined.

Lemma only_last_type_told_witness :
  str "dock" <> str "launcher" /\
  exists r1 t1 t2 r3 t3,
    (do! RegisterOnListener (str "dock") (Some 1) in RegisterOnListener (str "launcher") (Some 2)) Receiver_new [] =
      Done (ERR_OK, r1, t1) /\
    NotifyDockDisplay (mkIconInfo phone app type app []) ACTIVE r1 t1 = Done (ERR_OK, r1, t2) /\
    tells t1 t2 [notice (mkIconInfo phone app type app []) ACTIVE 2] /\
    (do! RegisterOffListener (str "launcher") (Some 2) in NotifyDockDisplay (mkIconInfo phone app type app []) ACTIVE) r1 t2 =
      Done (INVALID_PARAMETERS_ERR, r3, t3) /\
    tells t2 t3 [] /\ map_find (registerOnListener_ r3) (str "dock") = Some [1].
Proof.
  split; [vm_compute; discriminate|].
  apply (only_last_type_told (str "dock") (str "launcher") 1 2 (mkIconInfo phone app type app []) ACTIVE Receiver_new []);
    try reflexivity; vm_compute; discriminate.
Defined.
End DemoReceiver.
