(* ===== verification/Interleaving.v ===== *)
(** * Threads that share state

    Code that takes a lock, works and releases it again, several times in one call.  A
    [thread] is such a call: a critical section runs without interruption on the shared
    state and leaves the rest of the call, and between two sections any other thread may
    run.  [alone] runs a thread from start to end without interruption.

    [guaranteed] is the reasoning: a thread owns a ghost value, may assume [Pre] of the
    state whenever it enters a section, and must make a [Step] of state and ghost.  As
    other threads only make steps as well, what all steps keep holds of every schedule. *)

From Stdlib Require Import ZArith Lia.
From stdpp Require Import base list.
From S2P Require Import Prelude Effects.

Section Threads.
Context {S E : Type}.

Inductive thread (A : Type) : Type :=
| Finished (a : A)
| Critical (section : M S E (thread A)).
Arguments Finished {A}.
Arguments Critical {A}.

(** The code [k] that follows the call [c]. *)
Fixpoint after {A B} (c : thread A) (k : A -> thread B) : thread B :=
  match c with
  | Finished a => k a
  | Critical body => Critical (fun s t => let* (c', s', t') := body s t in Done (after c' k, s', t'))
  end.

(** One critical section. *)
Definition atomically {A} (m : M S E A) : thread A := Critical (mbind m (fun a => mret (Finished a))).

Fixpoint alone {A} (c : thread A) : M S E A :=
  match c with
  | Finished a => mret a
  | Critical body => fun s t => let* (c', s', t') := body s t in alone c' s' t'
  end.

(** The rest of a call after any of its sections, whatever the state was. *)
Lemma thread_rest_ind {A} (P : thread A -> Prop) :
  (forall a, P (Finished a)) ->
  (forall body, (forall s t c s' t', body s t = Done (c, s', t') -> P c) -> P (Critical body)) ->
  forall c, P c.
Proof.
  intros Hf Hc. fix IH 1. intros [a|body]; [apply Hf|]. apply Hc. intros s t c s' t'.
  destruct (body s t) as [[[c1 s1] t1]| |]; [|clear IH; discriminate..].
  intros H. assert (c1 = c) as <- by (clear IH; congruence). apply IH.
Qed.

Lemma alone_after {A B} (c : thread A) (k : A -> thread B) s t :
  alone (after c k) s t = mbind (alone c) (fun a => alone (k a)) s t.
Proof.
  revert s t. induction c as [a|body IH] using thread_rest_ind; intros s t; [done|].
  cbn [after alone]. unfold mbind. destruct (body s t) as [[[c s'] t']| |] eqn:E1; [|done..].
  cbn [run_bind]. by rewrite (IH _ _ _ _ _ E1).
Qed.

Lemma alone_atomically {A} (m : M S E A) s t : alone (atomically m) s t = m s t.
Proof. cbn. unfold mbind. destruct (m s t) as [[[a s'] t']| |]; done. Qed.

Lemma wp_after {A B} (c : thread A) (k : A -> thread B) Q s t :
  wp (alone c) (fun a s' t' => wp (alone (k a)) Q s' t') s t -> wp (alone (after c k)) Q s t.
Proof. intros H. unfold wp at 1. setoid_rewrite alone_after. by apply wp_mbind. Qed.

Lemma wp_atomically {A} (m : M S E A) Q s t : wp m Q s t -> wp (alone (atomically m)) Q s t.
Proof. intros H. unfold wp at 1. by setoid_rewrite alone_atomically. Qed.
End Threads.
Arguments thread : clear implicits.
Arguments Finished {S E A}.
Arguments Critical {S E A}.

Notation "'step!' x ':=' c 'in' k" := (after c (fun x => k))
  (at level 10, x pattern, c at level 100, k at level 200) : dms_scope.

(** Follow a call that runs alone. *)
Ltac wp_alone base :=
  repeat first
    [ progress wp_with base
    | match goal with
      | |- wp (alone (after _ _)) _ _ _ => apply wp_after
      | |- wp (alone (atomically _)) _ _ _ => apply wp_atomically
      | |- wp (alone (Finished _)) _ _ _ => apply wp_mret
      | |- wp (alone (match ?x with _ => _ end)) _ _ _ => destruct x eqn:?
      | |- wp (alone (let _ := _ in _)) _ _ _ => cbv zeta
      | |- wp (alone ((fun _ => _) _)) _ _ _ => cbv beta
      end ].

(** ** Guarantees of a thread *)
Section Guarantees.
Context {S E G : Type} (Pre : G -> S -> list E -> Prop) (Step : G -> S -> list E -> G -> S -> list E -> Prop).

Fixpoint guaranteed {A} (Post : A -> G -> Prop) (g : G) (c : thread S E A) : Prop :=
  match c with
  | Finished a => Post a g
  | Critical body => forall s t, Pre g s t ->
      match body s t with
      | Done (c', s', t') => exists g', Step g s t g' s' t' /\ guaranteed Post g' c'
      | _ => False
      end
  end.

Lemma guaranteed_after {A B} (Post : A -> G -> Prop) (Post' : B -> G -> Prop) g (c : thread S E A) k :
  guaranteed Post g c -> (forall a g', Post a g' -> guaranteed Post' g' (k a)) ->
  guaranteed Post' g (after c k).
Proof.
  intros Hc Hk. revert g Hc.
  induction c as [a|body IH] using thread_rest_ind; intros g; cbn [guaranteed after]; [apply Hk|].
  intros Hc s t Hpre. specialize (Hc s t Hpre).
  destruct (body s t) as [[[c s'] t']| |] eqn:E1; [|done..]. destruct Hc as (g' & Hstep & Hc).
  exists g'. split; [done|]. by eapply IH.
Qed.

Lemma guaranteed_atomically {A} (Post : A -> G -> Prop) g (m : M S E A) :
  (forall s t, Pre g s t -> wp m (fun a s' t' => exists g', Step g s t g' s' t' /\ Post a g') s t) ->
  guaranteed Post g (atomically m).
Proof.
  intros H s t Hpre. destruct (H s t Hpre) as (a & s' & t' & Hrun & Hpost). unfold mbind.
  by rewrite Hrun.
Qed.

Lemma guaranteed_mono {A} (P Q : A -> G -> Prop) g (c : thread S E A) :
  guaranteed P g c -> (forall a g', P a g' -> Q a g') -> guaranteed Q g c.
Proof.
  intros Hc HPQ. revert g Hc.
  induction c as [a|body IH] using thread_rest_ind; intros g; cbn [guaranteed]; [apply HPQ|].
  intros Hc s t Hpre. specialize (Hc s t Hpre).
  destruct (body s t) as [[[c s'] t']| |] eqn:E1; [|done..]. destruct Hc as (g' & Hstep & Hc).
  exists g'. split; [done|]. by eapply IH.
Qed.

(** A thread that runs alone keeps what its steps keep. *)
Lemma guaranteed_alone {A} (I : G -> S -> list E -> Prop) (Post : A -> G -> Prop) g (c : thread S E A) s t :
  (forall g s t, I g s t -> Pre g s t) ->
  (forall g s t g' s' t', I g s t -> Step g s t g' s' t' -> I g' s' t') ->
  guaranteed Post g c -> I g s t ->
  wp (alone c) (fun a s' t' => exists g', I g' s' t' /\ Post a g') s t.
Proof.
  intros Hpre Hstep. revert g s t.
  induction c as [a|body IH] using thread_rest_ind; intros g s t; cbn [guaranteed alone].
  - intros HP HI. apply wp_mret. by exists g.
  - intros Hc HI. specialize (Hc s t (Hpre _ _ _ HI)). unfold wp.
    destruct (body s t) as [[[c s'] t']| |] eqn:E1; [|done..]. destruct Hc as (g' & Hs & Hc).
    cbn [run_bind]. apply (IH _ _ _ _ _ E1 g'); [done|]. by eapply Hstep.
Qed.
End Guarantees.

(** ** A service with its calls and its worker

    Calls arrive at any time, and each has a thread of its own; a worker takes the tasks of
    a queue one after the other.  A schedule is a list of moves. *)
Section System.
Context {S E R A : Type} (serve : R -> thread S E A) (take_task : S -> option (thread S E unit * S)).

Record System := mkSystem { shared : S; calls : list (thread S E A); worker : thread S E unit }.

Inductive Move := Arrive (r : R) | Proceed (i : nat) | Work.

(** A section of a thread, on the shared state. *)
Definition enter_section {B} (body : M S E B) : M System E B :=
  fun w t => let* (b, s, t) := body (shared w) t in Done (b, mkSystem s (calls w) (worker w), t).

Definition make_move (m : Move) : M System E unit :=
  let! w := get in
  match m with
  | Arrive r => modify (fun w => mkSystem (shared w) (calls w ++ [serve r]) (worker w))
  | Proceed i =>
    match calls w !! i with
    | Some (Critical body) =>
      let! c := enter_section body in
      modify (fun w => mkSystem (shared w) (<[i := c]> (calls w)) (worker w))
    | _ => mret tt
    end
  | Work =>
    match worker w with
    | Critical body =>
      let! c := enter_section body in modify (fun w => mkSystem (shared w) (calls w) c)
    | Finished _ =>
      match take_task (shared w) with
      | Some (c, s) => modify (fun w => mkSystem s (calls w) c)
      | None => mret tt
      end
    end
  end.

Definition make_moves (ms : list Move) : M System E unit := mfor ms make_move.

Section Schedules.
Context {G : Type} (g0 : G).
Context (Pre : G -> S -> list E -> Prop) (Step : G -> S -> list E -> G -> S -> list E -> Prop).
(** The state with the ghosts of all threads, the worker's first. *)
Context (Inv : list G -> S -> list E -> Prop) (admissible : R -> Prop).
Context (Inv_pre : forall gs s t i g, Inv gs s t -> gs !! i = Some g -> Pre g s t).
Context (Inv_step : forall gs s t i g g' s' t',
  Inv gs s t -> gs !! i = Some g -> Step g s t g' s' t' -> Inv (<[i := g']> gs) s' t').
Context (Inv_arrive : forall gs s t, Inv gs s t -> Inv (gs ++ [g0]) s t).
Context (serve_guaranteed : forall r, admissible r -> guaranteed Pre Step (fun _ _ => True) g0 (serve r)).
Context (task_guaranteed : forall gs s t c s',
  Inv gs s t -> take_task s = Some (c, s') ->
  Inv gs s' t /\ guaranteed Pre Step (fun _ g => g = g0) g0 c).

Definition system_ok (w : System) (t : list E) : Prop :=
  exists g gs, Inv (g :: gs) (shared w) t /\ guaranteed Pre Step (fun _ g => g = g0) g (worker w) /\
    Forall2 (fun g c => guaranteed Pre Step (fun _ _ => True) g c) gs (calls w).

Definition admissible_move (m : Move) : Prop := match m with Arrive r => admissible r | _ => True end.

Lemma make_move_guaranteed m w t :
  system_ok w t -> admissible_move m -> wp (make_move m) (fun _ => system_ok) w t.
Proof.
  intros (g & gs & HI & Hw & Hc) Hm. unfold make_move. apply wp_mbind, wp_get.
  destruct m as [r|i|]; cbn [admissible_move] in Hm.
  - apply wp_modify. exists g, (gs ++ [g0]). cbn. split; [by apply (Inv_arrive (g :: gs))|].
    split; [done|]. apply Forall2_app; [done|]. constructor; [by apply serve_guaranteed|constructor].
  - destruct (calls w !! i) as [[|body]|] eqn:E1; [by apply wp_mret; exists g, gs| |by apply wp_mret; exists g, gs].
    destruct (Forall2_lookup_r _ _ _ _ _ Hc E1) as (gi & E2 & Hgi).
    pose proof (Hgi _ t (Inv_pre (g :: gs) _ t (Datatypes.S i) gi HI E2)) as Hb.
    apply wp_mbind. unfold wp at 1, enter_section.
    destruct (body (shared w) t) as [[[c s'] t']| |] eqn:E3; [|done..]. destruct Hb as (g' & Hs & Hg').
    eexists _, _, _. split; [reflexivity|]. apply wp_modify. exists g, (<[i := g']> gs). cbn.
    split; [by apply (Inv_step (g :: gs) (shared w) t (Datatypes.S i) gi)|]. split; [done|].
    by apply Forall2_insert.
  - destruct (worker w) as [u|body] eqn:E1.
    + cbn in Hw. destruct (take_task (shared w)) as [[c s]|] eqn:E2.
      * apply wp_modify. destruct (task_guaranteed _ _ t _ _ HI E2) as [HI' Hg]. exists g, gs. cbn.
        subst g. done.
      * apply wp_mret. exists g, gs. split; [done|]. by rewrite E1.
    + pose proof (Hw _ t (Inv_pre (g :: gs) _ t 0%nat g HI eq_refl)) as Hb.
      apply wp_mbind. unfold wp at 1, enter_section.
      destruct (body (shared w) t) as [[[c s'] t']| |] eqn:E3; [|done..]. destruct Hb as (g' & Hs & Hg').
      eexists _, _, _. split; [reflexivity|]. apply wp_modify. exists g', gs. cbn.
      split; [by apply (Inv_step (g :: gs) (shared w) t 0%nat g)|]. done.
Qed.

(** Whatever the schedule, the system keeps the invariant and no section fails. *)
Theorem make_moves_guaranteed ms w t :
  system_ok w t -> Forall admissible_move ms -> wp (make_moves ms) (fun _ => system_ok) w t.
Proof.
  intros Hok Hms. apply wp_mfor; [done|]. intros m w' t' Hm Hok'. apply make_move_guaranteed; [done|].
  rewrite List.Forall_forall in Hms. by apply Hms.
Qed.
End Schedules.
End System.
Arguments System : clear implicits.
Arguments Move : clear implicits.
Arguments Arrive {R}.
Arguments Proceed {R}.
Arguments Work {R}.
