(* ===== verification/MessageParcel.v ===== *)
(** * Parcels of remote calls

    [MessageParcel] is the parcel of the ipc and c_utils libraries, which carries the
    arguments of a remote call: values are appended one after the other and read back in
    that order.  [MessageParcelOk] is its documented behaviour in terms of the items that
    are still to be read; [Items] is a parcel that can be run. *)

From Stdlib Require Import ZArith Lia.
From stdpp Require Import base list.
From S2P Require Import Prelude StdString Framework.

(** A UTF-16 string is the list of its units, a remote object a number. *)
Definition string16 : Type := list Z.

Inductive Item :=
| ItemToken (descriptor : string16)
| ItemInt32 (z : Z)
| ItemString16 (s : string16)
| ItemString16Vector (l : list string16)
| ItemRemoteObject (object : Z)
| ItemParcelable.

(** A write answers whether it succeeded; a read that fails answers nothing, for which the
    forms that return the value take the default of the type. *)
Class MessageParcel := {
  Parcel : Type;
  Parcel_new : Parcel;
  Str8ToStr16 : bytes -> string16;
  Str16ToStr8 : string16 -> bytes;
  WriteInterfaceToken : string16 -> Parcel -> Parcel * bool;
  WriteInt32 : Z -> Parcel -> Parcel * bool;
  WriteString16 : string16 -> Parcel -> Parcel * bool;
  WriteString16Vector : list string16 -> Parcel -> Parcel * bool;
  WriteRemoteObject : Z -> Parcel -> Parcel * bool;
  WriteParcelable : (Parcel -> Parcel * bool) -> Parcel -> Parcel * bool;
  ReadInterfaceToken : Parcel -> option string16 * Parcel;
  ReadInt32 : Parcel -> option Z * Parcel;
  ReadString16 : Parcel -> option string16 * Parcel;
  ReadString16Vector : Parcel -> option (list string16) * Parcel;
  ReadRemoteObject : Parcel -> option Z * Parcel;
  ReadParcelable : forall {A}, (Parcel -> option A * Parcel) -> Parcel -> option A * Parcel;
  GetReadableBytes : Parcel -> Z
}.
Arguments ReadParcelable {_ A}.

Section Values.
Context {P : MessageParcel}.

(** A write whose failure ends the caller. *)
Definition checked (write : Parcel -> Parcel * bool) (p : Parcel) : option Parcel :=
  let '(p, ok) := write p in if ok : bool then Some p else None.

Definition ReadInt32_value (p : Parcel) : Z * Parcel :=
  let '(z, p) := ReadInt32 p in (default 0 z, p).
Definition ReadString8_value (p : Parcel) : bytes * Parcel :=
  let '(s, p) := ReadString16 p in (Str16ToStr8 (default [] s), p).
End Values.

(** The laws are about [unread], the items still to be read, for a parcel that has [room]. *)
Section Laws.
Context {P : MessageParcel} (unread : Parcel -> list Item) (room : Parcel -> list Item -> Prop).

Definition appends_to (write : Parcel -> Parcel * bool) (items : list Item) : Prop :=
  forall p l, room p (items ++ l) ->
    exists p', write p = (p', true) /\ unread p' = unread p ++ items /\ room p' l.

Definition takes_from {A} (read : Parcel -> option A * Parcel) (items : list Item) (a : A) : Prop :=
  forall p l, unread p = items ++ l -> exists p', read p = (Some a, p') /\ unread p' = l.
End Laws.

Class MessageParcelOk (P : MessageParcel) := {
  unread : Parcel -> list Item;
  room : Parcel -> list Item -> Prop;
  (** Texts that a conversion to UTF-16 and back leaves alone. *)
  is_text : bytes -> Prop;
  text_back s : is_text s -> Str16ToStr8 (Str8ToStr16 s) = s;
  unread_new : unread Parcel_new = [];
  write_token d : appends_to unread room (WriteInterfaceToken d) [ItemToken d];
  write_int32 z : is_int32 z -> appends_to unread room (WriteInt32 z) [ItemInt32 z];
  write_string16 s : appends_to unread room (WriteString16 s) [ItemString16 s];
  write_string16_vector l : appends_to unread room (WriteString16Vector l) [ItemString16Vector l];
  write_remote_object o : appends_to unread room (WriteRemoteObject o) [ItemRemoteObject o];
  write_parcelable w items :
    appends_to unread room w items -> appends_to unread room (WriteParcelable w) (ItemParcelable :: items);
  read_token d : takes_from unread ReadInterfaceToken [ItemToken d] d;
  read_int32 z : takes_from unread ReadInt32 [ItemInt32 z] z;
  read_string16 s : takes_from unread ReadString16 [ItemString16 s] s;
  read_string16_vector l : takes_from unread ReadString16Vector [ItemString16Vector l] l;
  read_remote_object o : takes_from unread ReadRemoteObject [ItemRemoteObject o] o;
  read_parcelable {A} (u : Parcel -> option A * Parcel) items a :
    takes_from unread u items a -> takes_from unread (ReadParcelable u) (ItemParcelable :: items) a;
  readable_bytes p : Z.of_nat (length (unread p)) <= GetReadableBytes p
}.

Abbreviation appends := (appends_to unread room).
Abbreviation takes := (takes_from unread).

Section Lemmas.
Context {P : MessageParcel} {PO : MessageParcelOk P}.

Lemma appends_nil : appends (fun p => (p, true)) [].
Proof. intros p l H. exists p. by rewrite app_nil_r. Qed.

Lemma checked_appends w items p l :
  appends w items -> room p (items ++ l) ->
  exists p', checked w p = Some p' /\ unread p' = unread p ++ items /\ room p' l.
Proof. intros Hw Hr. destruct (Hw p l Hr) as (p' & E & H). exists p'. unfold checked. by rewrite E. Qed.

(** Two writes, the second after the first whatever it answered. *)
Lemma appends_then w1 i1 w2 i2 :
  appends w1 i1 -> appends w2 i2 -> appends (fun p => w2 (w1 p).1) (i1 ++ i2).
Proof.
  intros H1 H2 p l Hr. rewrite <- app_assoc in Hr. destruct (H1 _ _ Hr) as (p1 & E1 & U1 & R1).
  destruct (H2 _ _ R1) as (p2 & E2 & U2 & R2). exists p2. rewrite E1. cbn.
  by rewrite E2, U2, U1, app_assoc.
Qed.

Lemma ReadInt32_value_takes z p l :
  unread p = ItemInt32 z :: l -> exists p', ReadInt32_value p = (z, p') /\ unread p' = l.
Proof.
  intros Hu. destruct (read_int32 z p l Hu) as (p' & E & U). exists p'. unfold ReadInt32_value.
  by rewrite E.
Qed.

Lemma ReadString8_value_takes s p l :
  is_text s -> unread p = ItemString16 (Str8ToStr16 s) :: l ->
  exists p', ReadString8_value p = (s, p') /\ unread p' = l.
Proof.
  intros Hs Hu. destruct (read_string16 _ p l Hu) as (p' & E & U). exists p'. unfold ReadString8_value.
  rewrite E. cbn. by rewrite text_back.
Qed.
End Lemmas.

(** ** A parcel that can be run *)
Module Items.
Definition reader (A : Type) : Type := list Item -> option A * list Item.
Definition write (i : Item) (p : list Item) : list Item * bool := (p ++ [i], true).

#[export] Instance parcel : MessageParcel := {|
  Parcel := list Item;
  Parcel_new := [];
  Str8ToStr16 := id;
  Str16ToStr8 := id;
  WriteInterfaceToken d := write (ItemToken d);
  WriteInt32 z := write (ItemInt32 z);
  WriteString16 s := write (ItemString16 s);
  WriteString16Vector l := write (ItemString16Vector l);
  WriteRemoteObject o := write (ItemRemoteObject o);
  WriteParcelable w p := w (p ++ [ItemParcelable]);
  ReadInterfaceToken p := match p with ItemToken d :: p => (Some d, p) | _ => (None, p) end;
  ReadInt32 p := match p with ItemInt32 z :: p => (Some z, p) | _ => (None, p) end;
  ReadString16 p := match p with ItemString16 s :: p => (Some s, p) | _ => (None, p) end;
  ReadString16Vector p := match p with ItemString16Vector l :: p => (Some l, p) | _ => (None, p) end;
  ReadRemoteObject p := match p with ItemRemoteObject o :: p => (Some o, p) | _ => (None, p) end;
  ReadParcelable A u p := match p with ItemParcelable :: p => u p | _ => (None, p) end;
  GetReadableBytes p := Z.of_nat (length p)
|}.

Lemma write_appends i : appends_to (P := parcel) id (fun _ _ => True) (write i) [i].
Proof. intros p l _. by exists (p ++ [i]). Qed.

#[export] Instance parcel_ok : MessageParcelOk parcel.
Proof.
  refine {| unread := id : Parcel -> list Item; room := fun _ _ => True; is_text := fun _ => True |};
    intros; try apply write_appends; try done.
  all: try (cbv [takes_from id]; intros p l' ->; by exists l').
  - intros p l _. destruct (H (p ++ [ItemParcelable]) l I) as (p' & E & U & R). exists p'.
    change (p' = (p ++ [ItemParcelable]) ++ items) in U. subst p'. cbn. by rewrite E, <- app_assoc.
  - cbv [takes_from id]. intros p l' ->. by apply H.
Defined.
End Items.
