(* ===== verification/SelectionData.v ===== *)
(** * What travels between the parts of the device selection

    services/dtbabilitymgr/src/continuation_manager/{continuation_extra_params,
    continuation_result,device_selection_notifier_proxy,device_selection_notifier_stub}.cpp:
    the parameters of a selection, the devices a user selected, and the remote call that
    tells an application of them. *)

From Stdlib Require Import ZArith Lia String.
From stdpp Require Import base list option.
From S2P Require Import Prelude ErrorCodes StdString Framework MessageParcel.
Import ErrorCodes.Dms.

Definition VALUE_NULL : Z := -1.
Definition VALUE_OBJECT : Z := 1.

(** [ContinuationMode] is cast from any int. *)
Definition COLLABORATION_SINGLE : Z := 0.
Definition COLLABORATION_MUTIPLE : Z := 1.

Record ContinuationExtraParams := mkContinuationExtraParams {
  deviceTypeVec_ : list bytes;
  targetBundle_ : bytes;
  description_ : bytes;
  filter_ : bytes;
  continuationMode_ : Z;
  authInfo_ : bytes
}.

Record ContinuationResult := mkContinuationResult {
  result_deviceId_ : bytes;
  result_deviceType_ : bytes;
  result_deviceName_ : bytes
}.

(** [IDRequestInterfaceCode]. *)
Definition EVENT_DEVICE_CONNECT : Z := 1.
Definition EVENT_DEVICE_DISCONNECT : Z := 2.

Definition DEVICE_SELECTION_NOTIFIER_INTERFACE_TOKEN : string16 :=
  str "OHOS.DistributedSchedule.IDeviceSelectionNotifier".

(** Error codes of the ipc library, and its answer to an unknown request code. *)
Class IpcCodes := {
  ERR_INVALID_VALUE : Z;
  ERR_INVALID_STATE : Z;
  ERR_INVALID_DATA : Z;
  ERR_NULL_OBJECT : Z;
  ERR_FLATTEN_OBJECT : Z;
  ERR_NONE : Z;
  IPCObjectStub_OnRemoteRequest : Z
}.

(** What the stub of an application has to be told. *)
Inductive Selection :=
| Selected (results : list ContinuationResult)
| Unselected (results : list ContinuationResult).

Section Operations.
Context {P : MessageParcel} {IC : IpcCodes}.

Definition Str8VecToStr16Vec (input : list bytes) : list string16 := List.map Str8ToStr16 input.
Definition Str16VecToStr8Vec (input : list string16) : list bytes := List.map Str16ToStr8 input.

(** ** Parameters *)

(** The answers of the writes are not looked at. *)
Definition params_Marshalling (e : ContinuationExtraParams) (p : Parcel) : Parcel * bool :=
  let p := (WriteString16Vector (Str8VecToStr16Vec (deviceTypeVec_ e)) p).1 in
  let p := (WriteString16 (Str8ToStr16 (targetBundle_ e)) p).1 in
  let p := (WriteString16 (Str8ToStr16 (description_ e)) p).1 in
  let p := (WriteString16 (Str8ToStr16 (filter_ e)) p).1 in
  let p := (WriteInt32 (continuationMode_ e) p).1 in
  let p := (WriteString16 (Str8ToStr16 (authInfo_ e)) p).1 in
  (p, true).

Definition params_ReadFromParcel (p : Parcel) : option ContinuationExtraParams * Parcel :=
  match ReadString16Vector p with
  | (None, p) => (None, p)
  | (Some deviceTypeVec, p) =>
    let '(targetBundle, p) := ReadString8_value p in
    let '(description, p) := ReadString8_value p in
    let '(filter, p) := ReadString8_value p in
    let '(mode, p) := ReadInt32_value p in
    let '(authInfo, p) := ReadString8_value p in
    (Some (mkContinuationExtraParams (Str16VecToStr8Vec deviceTypeVec) targetBundle description filter
             mode authInfo), p)
  end.

(** [Unmarshalling] makes an empty object and reads into it. *)
Definition params_Unmarshalling : Parcel -> option ContinuationExtraParams * Parcel := params_ReadFromParcel.

(** ** Results *)

Definition result_Marshalling (r : ContinuationResult) (p : Parcel) : Parcel * bool :=
  let p := (WriteString16 (Str8ToStr16 (result_deviceId_ r)) p).1 in
  let p := (WriteString16 (Str8ToStr16 (result_deviceType_ r)) p).1 in
  let p := (WriteString16 (Str8ToStr16 (result_deviceName_ r)) p).1 in
  (p, true).

Definition result_ReadFromParcel (p : Parcel) : option ContinuationResult * Parcel :=
  let '(deviceId, p) := ReadString8_value p in
  let '(deviceType, p) := ReadString8_value p in
  let '(deviceName, p) := ReadString8_value p in
  (Some (mkContinuationResult deviceId deviceType deviceName), p).

Definition result_Unmarshalling : Parcel -> option ContinuationResult * Parcel := result_ReadFromParcel.

Fixpoint write_results (results : list ContinuationResult) (p : Parcel) : Parcel * bool :=
  match results with
  | [] => (p, true)
  | r :: results =>
    let '(p, ok) := WriteParcelable (result_Marshalling r) p in
    if ok then write_results results p else (p, false)
  end.

Definition WriteContinuationResultsToParcel (results : list ContinuationResult) (p : Parcel) : Parcel * bool :=
  let size := Z.of_nat (length results) in
  if size =? 0 then WriteInt32 VALUE_NULL p
  else
    let '(p, ok) := WriteInt32 VALUE_OBJECT p in
    if negb ok then (p, false)
    else
      let '(p, ok) := WriteInt32 (to_int32 size) p in
      if negb ok then (p, false) else write_results results p.

(** The loop over [size] elements; the vector so far is dropped by its callers. *)
Fixpoint read_results (size : nat) (p : Parcel) : option (list ContinuationResult) * Parcel :=
  match size with
  | O => (Some [], p)
  | S size =>
    match ReadParcelable result_Unmarshalling p with
    | (None, p) => (None, p)
    | (Some r, p) =>
      let '(rest, p) := read_results size p in
      (match rest with Some rest => Some (r :: rest) | None => None end, p)
    end
  end.

(** A count never exceeds the vector's [max_size]. *)
Definition ReadContinuationResultsFromParcel (p : Parcel) : option (list ContinuationResult) * Parcel :=
  let '(empty, p) := ReadInt32_value p in
  if negb (empty =? VALUE_OBJECT) then (Some [], p)
  else
    let '(len, p) := ReadInt32_value p in
    if len <? 0 then (None, p)
    else if GetReadableBytes p <? len then (None, p)
    else read_results (Z.to_nat len) p.

(** ** Telling an application *)

(** The request of [DeviceSelectionNotifierProxy::OnDeviceConnect] and [OnDeviceDisconnect]. *)
Definition selection_request (results : list ContinuationResult) : option Parcel :=
  match checked (WriteInterfaceToken DEVICE_SELECTION_NOTIFIER_INTERFACE_TOKEN) Parcel_new with
  | None => None
  | Some p => checked (WriteContinuationResultsToParcel results) p
  end.

(** [DeviceSelectionNotifierStub::OnRemoteRequest]; [IDeviceSelectionNotifier]'s methods are
    the application's. *)
Definition notifier_OnRemoteRequest (code : Z) (data : Parcel) : Z * option Selection :=
  let '(descriptor, data) := ReadInterfaceToken data in
  if negb (bytes_eqb (default [] descriptor) DEVICE_SELECTION_NOTIFIER_INTERFACE_TOKEN) then
    (ERR_INVALID_VALUE, None)
  else if code =? EVENT_DEVICE_CONNECT then
    match (ReadContinuationResultsFromParcel data).1 with
    | None => (ERR_FLATTEN_OBJECT, None)
    | Some results => (ERR_OK, Some (Selected results))
    end
  else if code =? EVENT_DEVICE_DISCONNECT then
    match (ReadContinuationResultsFromParcel data).1 with
    | None => (ERR_FLATTEN_OBJECT, None)
    | Some results => (ERR_OK, Some (Unselected results))
    end
  else (IPCObjectStub_OnRemoteRequest, None).
End Operations.

(** ** Round trips *)
Section RoundTrips.
Context {P : MessageParcel} {PO : MessageParcelOk P} {IC : IpcCodes}.

Definition string_item (s : bytes) : Item := ItemString16 (Str8ToStr16 s).

Lemma write_string s : appends (WriteString16 (Str8ToStr16 s)) [string_item s].
Proof. apply write_string16. Qed.

Lemma str8vec_back l : Forall is_text l -> Str16VecToStr8Vec (Str8VecToStr16Vec l) = l.
Proof.
  unfold Str16VecToStr8Vec, Str8VecToStr16Vec. induction 1 as [|s l Hs Hl IH]; [done|]. cbn.
  by rewrite IH, text_back.
Qed.

(** *** Parameters *)

Definition params_items (e : ContinuationExtraParams) : list Item :=
  [ItemString16Vector (Str8VecToStr16Vec (deviceTypeVec_ e)); string_item (targetBundle_ e);
   string_item (description_ e); string_item (filter_ e); ItemInt32 (continuationMode_ e);
   string_item (authInfo_ e)].

Definition params_texts (e : ContinuationExtraParams) : Prop :=
  Forall is_text (deviceTypeVec_ e) /\ is_text (targetBundle_ e) /\ is_text (description_ e) /\
  is_text (filter_ e) /\ is_text (authInfo_ e).

Lemma params_Marshalling_appends e :
  is_int32 (continuationMode_ e) -> appends (params_Marshalling e) (params_items e).
Proof.
  intros Hm p l Hr.
  destruct (appends_then _ _ _ _ (write_string16_vector (Str8VecToStr16Vec (deviceTypeVec_ e)))
    (appends_then _ _ _ _ (write_string (targetBundle_ e))
    (appends_then _ _ _ _ (write_string (description_ e))
    (appends_then _ _ _ _ (write_string (filter_ e))
    (appends_then _ _ _ _ (write_int32 _ Hm) (write_string (authInfo_ e)))))) p l Hr)
    as (p' & E & U & R).
  exists p'. unfold params_Marshalling. cbv zeta. by rewrite E.
Qed.

Lemma params_Unmarshalling_takes e :
  params_texts e -> takes params_Unmarshalling (params_items e) e.
Proof.
  intros (Hd & Ht & Hde & Hf & Ha) p l Hu. unfold params_Unmarshalling, params_ReadFromParcel.
  destruct (read_string16_vector _ p _ Hu) as (p1 & -> & U1).
  destruct (ReadString8_value_takes _ _ _ Ht U1) as (p2 & -> & U2).
  destruct (ReadString8_value_takes _ _ _ Hde U2) as (p3 & -> & U3).
  destruct (ReadString8_value_takes _ _ _ Hf U3) as (p4 & -> & U4).
  destruct (ReadInt32_value_takes _ _ _ U4) as (p5 & -> & U5).
  destruct (ReadString8_value_takes _ _ _ Ha U5) as (p6 & -> & U6).
  exists p6. split; [|done]. rewrite str8vec_back by done. by destruct e.
Qed.

(** *** Results *)

Definition result_items (r : ContinuationResult) : list Item :=
  [string_item (result_deviceId_ r); string_item (result_deviceType_ r); string_item (result_deviceName_ r)].
Definition result_texts (r : ContinuationResult) : Prop :=
  is_text (result_deviceId_ r) /\ is_text (result_deviceType_ r) /\ is_text (result_deviceName_ r).
Definition all_result_items (results : list ContinuationResult) : list Item :=
  List.concat (List.map (fun r => ItemParcelable :: result_items r) results).
Definition results_items (results : list ContinuationResult) : list Item :=
  match results with
  | [] => [ItemInt32 VALUE_NULL]
  | _ => ItemInt32 VALUE_OBJECT :: ItemInt32 (Z.of_nat (length results)) :: all_result_items results
  end.

Lemma result_Marshalling_appends r : appends (result_Marshalling r) (result_items r).
Proof.
  intros p l Hr. destruct (appends_then _ _ _ _ (write_string (result_deviceId_ r))
    (appends_then _ _ _ _ (write_string (result_deviceType_ r)) (write_string (result_deviceName_ r))) p l Hr)
    as (p' & E & U & R).
  exists p'. unfold result_Marshalling. cbv zeta. by rewrite E.
Qed.

Lemma result_Unmarshalling_takes r : result_texts r -> takes result_Unmarshalling (result_items r) r.
Proof.
  intros (Hi & Ht & Hn) p l Hu. unfold result_Unmarshalling, result_ReadFromParcel.
  destruct (ReadString8_value_takes _ _ _ Hi Hu) as (p1 & -> & U1).
  destruct (ReadString8_value_takes _ _ _ Ht U1) as (p2 & -> & U2).
  destruct (ReadString8_value_takes _ _ _ Hn U2) as (p3 & -> & U3).
  exists p3. split; [|done]. by destruct r.
Qed.

Lemma write_results_appends results : appends (write_results results) (all_result_items results).
Proof.
  induction results as [|r results IH]; [apply appends_nil|]. intros p l Hr. cbn [write_results].
  unfold all_result_items in *. cbn [List.map List.concat] in *. rewrite <- app_assoc in Hr.
  destruct (write_parcelable _ _ (result_Marshalling_appends r) p _ Hr) as (p1 & -> & U1 & R1).
  destruct (IH p1 l R1) as (p2 & -> & U2 & R2). exists p2. by rewrite U2, U1, <- app_assoc.
Qed.

Lemma read_results_takes results :
  Forall result_texts results -> takes (read_results (length results)) (all_result_items results) results.
Proof.
  induction 1 as [|r results Hr Hrs IH]; [by intros p l Hu; exists p|]. intros p l Hu.
  unfold all_result_items in *. cbn [List.map List.concat length read_results] in *. rewrite <- app_assoc in Hu.
  destruct (read_parcelable _ _ _ (result_Unmarshalling_takes r Hr) p _ Hu) as (p1 & -> & U1).
  destruct (IH p1 l U1) as (p2 & -> & U2). by exists p2.
Qed.

Lemma WriteContinuationResults_appends results :
  Z.of_nat (length results) < 2 ^ 31 -> appends (WriteContinuationResultsToParcel results) (results_items results).
Proof.
  intros Hn p l Hr. unfold WriteContinuationResultsToParcel. destruct results as [|r results].
  - by apply (write_int32 VALUE_NULL).
  - remember (r :: results) as rs. assert (Z.of_nat (length rs) =? 0 = false) as ->.
    { subst rs. cbn [length]. apply Z.eqb_neq. lia. }
    assert (to_int32 (Z.of_nat (length rs)) = Z.of_nat (length rs)) as ->.
    { unfold to_int32. rewrite Z.mod_small by lia. lia. }
    assert (results_items rs = [ItemInt32 VALUE_OBJECT] ++ [ItemInt32 (Z.of_nat (length rs))] ++ all_result_items rs)
      as E by (by subst rs). rewrite E, <- !app_assoc in Hr.
    destruct (write_int32 VALUE_OBJECT ltac:(done) p _ Hr) as (p1 & -> & U1 & R1). cbn [negb].
    destruct (write_int32 (Z.of_nat (length rs)) ltac:(unfold is_int32; lia) p1 _ R1) as (p2 & -> & U2 & R2).
    cbn [negb]. destruct (write_results_appends rs p2 l R2) as (p3 & -> & U3 & R3).
    exists p3. by rewrite U3, U2, U1, E, <- !app_assoc.
Qed.

Lemma ReadContinuationResults_takes results :
  Forall result_texts results ->
  takes ReadContinuationResultsFromParcel (results_items results) results.
Proof.
  intros Ht p l Hu. unfold ReadContinuationResultsFromParcel. destruct results as [|r results].
  - destruct (ReadInt32_value_takes _ _ _ Hu) as (p1 & -> & U1). by exists p1.
  - remember (r :: results) as rs.
    assert (results_items rs = ItemInt32 VALUE_OBJECT :: ItemInt32 (Z.of_nat (length rs)) :: all_result_items rs)
      as E by (by subst rs). rewrite E in Hu.
    destruct (ReadInt32_value_takes _ _ _ Hu) as (p1 & -> & U1). cbn [negb Z.eqb VALUE_OBJECT Pos.eqb].
    destruct (ReadInt32_value_takes _ _ _ U1) as (p2 & -> & U2).
    assert (Z.of_nat (length rs) <=? GetReadableBytes p2 = true) as Hb.
    { apply Z.leb_le. etrans; [|apply readable_bytes]. change (unread p2 = all_result_items rs ++ l) in U2.
      rewrite U2, length_app. unfold all_result_items. clear. induction rs as [|r rs IH]; [cbn; lia|].
      cbn [List.map List.concat length]. rewrite length_app. cbn [length]. lia. }
    assert (Z.of_nat (length rs) <? 0 = false) as -> by (apply Z.ltb_ge; lia).
    assert (GetReadableBytes p2 <? Z.of_nat (length rs) = false) as -> by (apply Z.ltb_ge; by apply Z.leb_le).
    rewrite Nat2Z.id. by apply read_results_takes.
Qed.

(** What a notifier is told arrives at the application's stub. *)
Lemma selection_arrives results :
  Forall result_texts results -> Z.of_nat (length results) < 2 ^ 31 ->
  room Parcel_new (ItemToken DEVICE_SELECTION_NOTIFIER_INTERFACE_TOKEN :: results_items results) ->
  exists data, selection_request results = Some data /\
    notifier_OnRemoteRequest EVENT_DEVICE_CONNECT data = (ERR_OK, Some (Selected results)) /\
    notifier_OnRemoteRequest EVENT_DEVICE_DISCONNECT data = (ERR_OK, Some (Unselected results)).
Proof.
  intros Ht Hn Hr. unfold selection_request. rewrite <- (app_nil_r (results_items results)) in Hr.
  destruct (checked_appends _ _ _ _ (write_token DEVICE_SELECTION_NOTIFIER_INTERFACE_TOKEN) Hr) as (p1 & -> & U1 & R1).
  destruct (checked_appends _ _ _ _ (WriteContinuationResults_appends results Hn) R1) as (p2 & -> & U2 & _).
  exists p2. split; [done|]. unfold notifier_OnRemoteRequest. rewrite U1, unread_new in U2.
  destruct (read_token _ p2 (results_items results) U2) as (p3 & -> & U3). cbn [default].
  rewrite bytes_eqb_refl. cbn [negb]. rewrite <- (app_nil_r (results_items results)) in U3.
  destruct (ReadContinuationResults_takes results Ht p3 [] U3) as (p4 & -> & _). done.
Qed.
End RoundTrips.
