(* ===== verification/DeviceSelection.v ===== *)
(** * The device selection service

    services/dtbabilitymgr: applications register for a token, leave callbacks under it and
    have a panel of another application started, in which the user selects devices.  The
    service ([DistributedAbilityManagerService]) is called from many threads at once; each
    call takes its mutexes one after the other, and what runs under one is a critical
    section here.  What the code does to shared fields without a lock is a section for each
    statement.  Tasks go to a serial queue with a worker of its own. *)

From Stdlib Require Import ZArith Lia String.
From stdpp Require Import base list option.
From S2P Require Import Prelude ErrorCodes StdMap StdString Framework Effects Interleaving MessageParcel SelectionData.
Import ErrorCodes.Dms.

(** ** Error codes: services/dtbabilitymgr/include/base/continuationmgr_log.h *)
Module SelectionErrors.
Definition DMS_WRITE_FILE_FAILED_ERR : Z := 29360141.
Definition DMS_PERMISSION_DENIED : Z := 29360157.
Definition REGISTER_EXCEED_MAX_TIMES : Z := 29360207.
Definition TOKEN_HAS_NOT_REGISTERED : Z := 29360208.
Definition CALLBACK_HAS_REGISTERED : Z := 29360209.
Definition CALLBACK_HAS_NOT_REGISTERED : Z := 29360210.
Definition CONNECT_ABILITY_FAILED : Z := 29360211.
Definition DISCONNECT_ABILITY_FAILED : Z := 29360212.
Definition UNKNOWN_CALLBACK_TYPE : Z := 29360214.
Definition INVALID_CONNECT_STATUS : Z := 29360215.
Definition INVALID_CONTINUATION_MODE : Z := 29360216.
End SelectionErrors.
Import SelectionErrors.

Definition HIPLAY_PANEL_INTERFACE_TOKEN : string16 := str "ohos.hiplay.panel".
Definition APP_DEVICE_CALLBACK_DESCRIPTOR : string16 := str "OHOS.DistributedSchedule.IAppDeviceCallback".
Definition EVENT_CONNECT : bytes := str "deviceSelected".
Definition EVENT_DISCONNECT : bytes := str "deviceUnselected".
Definition DEFAULT_TOKEN_VALUE : bytes := str "0".
Definition MAX_TOKEN_NUM : Z := 100000000.
Definition MAX_REGISTER_NUM : Z := 600.
Definition START_DEVICE_MANAGER_CODE : Z := 1.
Definition UPDATE_CONNECT_STATUS_CODE : Z := 2.

(** [DeviceConnectStatus] is an int of a remote call. *)
Definition IDLE : Z := 0.
Definition DISCONNECTING : Z := 3.

(** [IDRequestCallbackInterfaceCode]. *)
Definition CALLBACK_DEVICE_CONNECT : Z := 1.
Definition CALLBACK_DEVICE_DISCONNECT : Z := 2.
Definition CALLBACK_DEVICE_CANCEL : Z := 3.

#[export] Instance bytes_order : KeyOrder bytes := bytes_ltb.

(** ** State *)

Record ConnectStatusInfo := mkConnectStatusInfo { deviceId_ : bytes; deviceConnectStatus_ : Z }.

(** A remote object is a number; a reference to one may be null. *)
Record NotifierInfo := mkNotifierInfo {
  notifierMap_ : std_map bytes (option Z);
  connectStatusInfo_ : option ConnectStatusInfo
}.

(** [AppConnectionStub]. *)
Record AppConnection := mkAppConnection {
  connection_token_ : Z;
  continuationExtraParams_ : option ContinuationExtraParams
}.

(** The tasks of [continuationHandler_], with what their lambdas capture. *)
Inductive SelectionTask :=
| TaskDisconnectAbility
| TaskStartDeviceManager (token : Z) (params : option ContinuationExtraParams) (appProxy : option Z)
| TaskUpdateConnectStatus (token : Z) (deviceId : bytes) (status : Z) (appProxy : option Z)
| TaskDeviceConnect (notifier : Z) (results : list ContinuationResult)
| TaskDeviceDisconnect (notifier : Z) (results : list ContinuationResult)
| TaskNotifierDied (notifier : Z).

(** A [unique_ptr] in [callbackMap_] may be null. *)
Record Service := mkService {
  token_ : Z;
  tokenMap_ : std_map Z (list Z);
  callbackMap_ : std_map Z (option NotifierInfo);
  connect_ : option AppConnection;
  appProxy_ : option Z;
  continuationHandler_ : option (list SelectionTask)
}.

Definition Service_new : Service := mkService 0 [] [] None None None.

Definition set_token (x : Z) (s : Service) : Service :=
  mkService x (tokenMap_ s) (callbackMap_ s) (connect_ s) (appProxy_ s) (continuationHandler_ s).
Definition set_tokenMap (x : std_map Z (list Z)) (s : Service) : Service :=
  mkService (token_ s) x (callbackMap_ s) (connect_ s) (appProxy_ s) (continuationHandler_ s).
Definition set_callbackMap (x : std_map Z (option NotifierInfo)) (s : Service) : Service :=
  mkService (token_ s) (tokenMap_ s) x (connect_ s) (appProxy_ s) (continuationHandler_ s).
Definition set_connect (x : option AppConnection) (s : Service) : Service :=
  mkService (token_ s) (tokenMap_ s) (callbackMap_ s) x (appProxy_ s) (continuationHandler_ s).
Definition set_appProxy (x : option Z) (s : Service) : Service :=
  mkService (token_ s) (tokenMap_ s) (callbackMap_ s) (connect_ s) x (continuationHandler_ s).
Definition set_handler (x : option (list SelectionTask)) (s : Service) : Service :=
  mkService (token_ s) (tokenMap_ s) (callbackMap_ s) (connect_ s) (appProxy_ s) x.

(** ** Notifiers: notifier_info.cpp *)

Definition NotifierInfo_new : NotifierInfo := mkNotifierInfo [] None.

Definition GetNotifier (cbType : bytes) (i : NotifierInfo) : option Z :=
  match map_find (notifierMap_ i) cbType with Some notifier => notifier | None => None end.
Definition SetNotifier (cbType : bytes) (notifier : option Z) (i : NotifierInfo) : NotifierInfo :=
  mkNotifierInfo (map_assign (notifierMap_ i) cbType notifier) (connectStatusInfo_ i).
Definition DeleteNotifier (cbType : bytes) (i : NotifierInfo) : NotifierInfo :=
  mkNotifierInfo (map_erase (notifierMap_ i) cbType) (connectStatusInfo_ i).
Definition QueryNotifier (notifier : option Z) (i : NotifierInfo) : bool :=
  existsb (fun e => bool_decide (e.2 = notifier)) (notifierMap_ i).
Definition IsNotifierMapEmpty (i : NotifierInfo) : bool :=
  match notifierMap_ i with [] => true | _ => false end.
Definition SetConnectStatusInfo (c : option ConnectStatusInfo) (i : NotifierInfo) : NotifierInfo :=
  mkNotifierInfo (notifierMap_ i) c.

(** [std::atoi]; a number that does not fit is undefined. *)
Definition atoi (s : bytes) : run Z :=
  let s := skip_spaces s in
  let v := match s with
    | 45 :: s => - digits_value s 0
    | 43 :: s => digits_value s 0
    | s => digits_value s 0
    end in
  if (- 2 ^ 31 <=? v) && (v <? 2 ^ 31) then Done v else Undefined.

(** ** Effects and environment *)

Inductive SelectionEffect `{P : MessageParcel} :=
| PermissionChecked (accessToken : Z)
| ParameterRead
| ParameterSet (value : bytes)
| ServicePublished
| DeathRecipientAdded (notifier : Z)
| DeathRecipientRemoved (notifier : Z)
| AccountsQueried
| SystemAbilityQueried
| ExtensionsQueried (account : Z)
| AbilityManagerConnected
| PanelConnected (connect : option AppConnection) (account : Z)
| PanelDisconnected (connect : option AppConnection)
| RequestSent (object code : Z) (data : Parcel).

(** The services that are asked; the default build has accounts ([OS_ACCOUNT_PART]). *)
Class SelectionEnv `{P : MessageParcel} := {
  VerifyAccessToken : list SelectionEffect -> bool;
  GetParameter : list SelectionEffect -> bytes;
  (** Nothing when the query fails. *)
  QueryActiveOsAccountIds : list SelectionEffect -> option (list Z);
  (** Whether system ability manager and bundle manager answer. *)
  GetBundleManager : list SelectionEffect -> bool;
  (** Bundle and ability name of each extension. *)
  QueryExtensionAbilityInfos : list SelectionEffect -> list (bytes * bytes);
  AbilityManager_Connect : list SelectionEffect -> Z;
  AbilityManager_ConnectAbility : list SelectionEffect -> Z;
  AbilityManager_DisconnectAbility : list SelectionEffect -> Z;
  SendRequest : list SelectionEffect -> Z;
  (** The remote object of a new [AppDeviceCallbackStub]. *)
  AppDeviceCallback : Z;
  (** [AAFwk::IAbilityConnection], and the element name in its requests. *)
  ABILITY_CONNECTION_DESCRIPTOR : string16;
  ON_ABILITY_CONNECT_DONE : Z;
  ON_ABILITY_DISCONNECT_DONE : Z;
  ReadElementName : Parcel -> option unit * Parcel
}.

(** What a call of an application or of the panel returns: its code, and the token that
    [Register] writes. *)
Definition Answer : Type := Z * option Z.

(** The calls that reach the service, each from a thread of its own. *)
Inductive Request `{P : MessageParcel} :=
| ReqRegister (params : option ContinuationExtraParams)
| ReqUnregister (token : Z)
| ReqRegisterCallback (token : Z) (cbType : bytes) (notifier : option Z)
| ReqUnregisterCallback (token : Z) (cbType : bytes)
| ReqUpdateConnectStatus (token : Z) (deviceId : bytes) (status : Z)
| ReqStartDeviceManager (token : Z) (params : option ContinuationExtraParams)
| ReqRegisterWithoutExtraParam
| ReqStartDeviceManagerWithoutExtraParam (token : Z)
| ReqPanel (code : Z) (data : Parcel)
| ReqAbilityConnection (connection : AppConnection) (code : Z) (data : Parcel)
| ReqNotifierDied (notifier : option Z).

Section Operations.
Context {P : MessageParcel} {IC : IpcCodes} {SE : SelectionEnv}.

Definition Sv (A : Type) : Type := M Service SelectionEffect A.
Definition Call (A : Type) : Type := thread Service SelectionEffect A.

Definition answer (code : Z) : Call Answer := Finished (code, None).

Definition VerifyPermission (accessToken : Z) : Sv bool := call (PermissionChecked accessToken) VerifyAccessToken.

Definition IsContinuationModeValid (mode : Z) : bool :=
  negb ((mode <? COLLABORATION_SINGLE) || (COLLABORATION_MUTIPLE <? mode)).
Definition IsConnectStatusValid (status : Z) : bool :=
  negb ((status <? IDLE) || (DISCONNECTING <? status)).

(** [continuationExtraParams] is null or has a valid mode. *)
Definition valid_params (params : option ContinuationExtraParams) : bool :=
  match params with Some e => IsContinuationModeValid (continuationMode_ e) | None => true end.

(** ** Tables *)

Definition IsExceededRegisterMaxNum (accessToken : Z) : Sv bool :=
  let! s := get in
  mret match map_find (tokenMap_ s) accessToken with
    | Some tokens => MAX_REGISTER_NUM <=? Z.of_nat (length tokens)
    | None => false
    end.

Definition IsTokenRegistered (accessToken token : Z) : Sv bool :=
  let! s := get in
  mret match map_find (tokenMap_ s) accessToken with
    | Some tokens => existsb (Z.eqb token) tokens
    | None => false
    end.

Definition IsNotifierRegistered (token : Z) : Sv bool :=
  let! s := get in
  mret match map_find (callbackMap_ s) token with
    | Some (Some _) => true
    | _ => false
    end.

(** [callbackMap_[token]->]: an absent entry is made, with a null pointer. *)
Definition deref_notifier (token : Z) : Sv NotifierInfo :=
  let! s := get in
  match map_find (callbackMap_ s) token with
  | Some (Some i) => mret i
  | _ => undefined
  end.

(** What a method of the object that [callbackMap_[token]] points to leaves. *)
Definition put_notifier (token : Z) (i : NotifierInfo) : Sv unit :=
  modify (fun s => set_callbackMap (map_assign (callbackMap_ s) token (Some i)) s).

Definition IsNotifierRegisteredLocked (token : Z) (cbType : bytes) : Sv bool :=
  let! registered := IsNotifierRegistered token in
  if negb registered then mret false
  else
    let! i := deref_notifier token in
    mret match GetNotifier cbType i with Some _ => true | None => false end.

(** [NotifierInfo::RemoveDeathRecipient] with an empty type and with a type. *)
Definition remove_recipient (notifier : option Z) : Sv unit :=
  match notifier with Some n => emit (DeathRecipientRemoved n) | None => undefined end.
Definition RemoveDeathRecipient (i : NotifierInfo) (cbType : bytes) : Sv unit :=
  if empty cbType then mfor (notifierMap_ i) (fun e => remove_recipient e.2)
  else match map_find (notifierMap_ i) cbType with
    | Some notifier => remove_recipient notifier
    | None => mret tt
    end.

(** [callbackMap_] loses the token, whose notifiers are no longer watched. *)
Definition forget_notifiers (token : Z) : Sv unit :=
  let! registered := IsNotifierRegistered token in
  when registered do
    let! i := deref_notifier token in
    do! RemoveDeathRecipient i [] in
    modify (fun s => set_callbackMap (map_erase (callbackMap_ s) token) s).

(** The loop over [tokenMap_] ends with the first application that has no token left. *)
Fixpoint erase_token (token : Z) (l : std_map Z (list Z)) : std_map Z (list Z) :=
  match l with
  | [] => []
  | (accessToken, tokens) :: l =>
    match List.filter (fun n => negb (n =? token)) tokens with
    | [] => l
    | rest => (accessToken, rest) :: erase_token token l
    end
  end.
Definition forget_token (token : Z) : Sv unit :=
  modify (fun s => set_tokenMap (erase_token token (tokenMap_ s)) s).

(** ** Tasks *)

Definition submit (task : SelectionTask) : Sv bool :=
  let! s := get in
  match continuationHandler_ s with
  | None => mret false
  | Some tasks => do! modify (set_handler (Some (tasks ++ [task]))) in mret true
  end.

Definition HandleDisconnectAbility : Sv bool := submit TaskDisconnectAbility.

Definition HandleStartDeviceManager (token : Z) (params : option ContinuationExtraParams) : Sv unit :=
  let! s := get in
  do! submit (TaskStartDeviceManager token params (appProxy_ s)) in mret tt.

Definition HandleUpdateConnectStatus (token : Z) (deviceId : bytes) (status : Z) : Sv unit :=
  let! s := get in
  do! submit (TaskUpdateConnectStatus token deviceId status (appProxy_ s)) in mret tt.

Definition handle_device (notifier : option Z) (task : Z -> SelectionTask) : Sv bool :=
  let! s := get in
  match continuationHandler_ s, notifier with
  | None, _ | _, None => mret false
  | Some _, Some n => submit (task n)
  end.
Definition HandleDeviceConnect (notifier : option Z) (results : list ContinuationResult) : Sv bool :=
  handle_device notifier (fun n => TaskDeviceConnect n results).
Definition HandleDeviceDisconnect (notifier : option Z) (results : list ContinuationResult) : Sv bool :=
  handle_device notifier (fun n => TaskDeviceDisconnect n results).

(** ** The panel *)

(** Account, then the first extension that can show the panel: samgr, the bundle manager and
    its interface may be missing. *)
Definition QueryExtensionAbilityInfo (account : Z) : Sv bool :=
  let! up := call SystemAbilityQueried GetBundleManager in
  if negb up then mret false
  else
    let! infos := call (ExtensionsQueried account) QueryExtensionAbilityInfos in
    mret match infos with
      | [] => false
      | (bundleName, name) :: _ => negb (empty bundleName || empty name)
      end.

(** [connect_] is used without a lock. *)
Definition ConnectAbility (token : Z) (params : option ContinuationExtraParams) : Call Z :=
  step! ids := atomically (call AccountsQueried QueryActiveOsAccountIds) in
  match ids with
  | None | Some [] => Finished INVALID_PARAMETERS_ERR
  | Some (account :: _) =>
    step! found := atomically (QueryExtensionAbilityInfo account) in
    if negb found then Finished CONNECT_ABILITY_FAILED
    else
      step! _ := atomically (modify (fun s => match connect_ s with
        | None => set_connect (Some (mkAppConnection token params)) s
        | Some _ => s
        end)) in
      step! errCode := atomically (call AbilityManagerConnected AbilityManager_Connect) in
      if negb (errCode =? ERR_OK) then Finished errCode
      else
        step! errCode := atomically (
          let! s := get in call (PanelConnected (connect_ s) account) AbilityManager_ConnectAbility) in
        if negb (errCode =? ERR_OK) then
          step! _ := atomically (modify (set_connect None)) in Finished CONNECT_ABILITY_FAILED
        else Finished ERR_OK
  end.

Definition DisconnectAbility : Call Z :=
  step! connect := atomically (let! s := get in mret (connect_ s)) in
  match connect with
  | None => Finished ERR_NULL_OBJECT
  | Some _ =>
    step! errCode := atomically (call AbilityManagerConnected AbilityManager_Connect) in
    if negb (errCode =? ERR_OK) then Finished errCode
    else
      step! errCode := atomically (
        let! s := get in call (PanelDisconnected (connect_ s)) AbilityManager_DisconnectAbility) in
      step! _ := atomically (modify (set_connect None)) in
      if negb (errCode =? ERR_OK) then Finished DISCONNECT_ABILITY_FAILED else Finished ERR_OK
  end.

(** ** Calls of applications *)

(** [++token_] of an int, stored for the next start. *)
Definition next_token : Sv Z :=
  let! s := get in
  if token_ s =? 2 ^ 31 - 1 then undefined
  else
    let tToken := if MAX_TOKEN_NUM <? token_ s + 1 then 1 else token_ s + 1 in
    do! modify (set_token tToken) in
    do! emit (ParameterSet (to_string tToken)) in
    mret tToken.

Definition enter_token (accessToken token : Z) : Sv unit :=
  modify (fun s => set_tokenMap (map_assign (tokenMap_ s) accessToken
    (default [] (map_find (tokenMap_ s) accessToken) ++ [token])) s).

Definition RegisterWithoutExtraParam (accessToken : Z) : Call Answer :=
  step! granted := atomically (VerifyPermission accessToken) in
  if negb granted then answer DMS_PERMISSION_DENIED
  else
    step! exceeded := atomically (IsExceededRegisterMaxNum accessToken) in
    if exceeded then answer REGISTER_EXCEED_MAX_TIMES
    else
      step! token := atomically next_token in
      step! _ := atomically (enter_token accessToken token) in
      Finished (ERR_OK, Some token).

Definition Register (accessToken : Z) (params : option ContinuationExtraParams) : Call Answer :=
  step! granted := atomically (VerifyPermission accessToken) in
  if negb granted then answer DMS_PERMISSION_DENIED
  else if negb (valid_params params) then answer INVALID_CONTINUATION_MODE
  else RegisterWithoutExtraParam accessToken.

Definition Unregister (accessToken token : Z) : Call Answer :=
  step! granted := atomically (VerifyPermission accessToken) in
  if negb granted then answer DMS_PERMISSION_DENIED
  else
    step! registered := atomically (IsTokenRegistered accessToken token) in
    if negb registered then answer TOKEN_HAS_NOT_REGISTERED
    else
      step! _ := atomically (forget_notifiers token) in
      step! _ := atomically (forget_token token) in
      step! _ := atomically HandleDisconnectAbility in
      answer ERR_OK.

(** The notifier under a lock: the first one of a token is watched. *)
Definition enter_notifier (token : Z) (cbType : bytes) (notifier : option Z) : Sv Z :=
  let! s := get in
  match map_find (callbackMap_ s) token with
  | Some None => mret ERR_NULL_OBJECT
  | Some (Some i) => do! put_notifier token (SetNotifier cbType notifier i) in mret ERR_OK
  | None =>
    do! put_notifier token (SetNotifier cbType notifier NotifierInfo_new) in
    match notifier with
    | Some n => do! emit (DeathRecipientAdded n) in mret ERR_OK
    | None => undefined
    end
  end.

Definition RegisterDeviceSelectionCallback (accessToken token : Z) (cbType : bytes) (notifier : option Z) : Call Answer :=
  step! granted := atomically (VerifyPermission accessToken) in
  if negb granted then answer DMS_PERMISSION_DENIED
  else if negb (bytes_eqb cbType EVENT_CONNECT) && negb (bytes_eqb cbType EVENT_DISCONNECT) then
    answer UNKNOWN_CALLBACK_TYPE
  else
    step! registered := atomically (IsTokenRegistered accessToken token) in
    if negb registered then answer TOKEN_HAS_NOT_REGISTERED
    else
      step! taken := atomically (IsNotifierRegisteredLocked token cbType) in
      if taken then answer CALLBACK_HAS_REGISTERED
      else step! ret := atomically (enter_notifier token cbType notifier) in answer ret.

Definition delete_notifier (token : Z) (cbType : bytes) : Sv unit :=
  let! s := get in
  match map_find (callbackMap_ s) token with
  | None => mret tt
  | Some None => undefined
  | Some (Some i) =>
    do! RemoveDeathRecipient i cbType in
    if IsNotifierMapEmpty (DeleteNotifier cbType i) then
      modify (fun s => set_callbackMap (map_erase (callbackMap_ s) token) s)
    else put_notifier token (DeleteNotifier cbType i)
  end.

Definition UnregisterDeviceSelectionCallback (accessToken token : Z) (cbType : bytes) : Call Answer :=
  step! granted := atomically (VerifyPermission accessToken) in
  if negb granted then answer DMS_PERMISSION_DENIED
  else if negb (bytes_eqb cbType EVENT_CONNECT) && negb (bytes_eqb cbType EVENT_DISCONNECT) then
    answer UNKNOWN_CALLBACK_TYPE
  else
    step! registered := atomically (IsTokenRegistered accessToken token) in
    if negb registered then answer TOKEN_HAS_NOT_REGISTERED
    else
      step! taken := atomically (IsNotifierRegisteredLocked token cbType) in
      if negb taken then answer CALLBACK_HAS_NOT_REGISTERED
      else step! _ := atomically (delete_notifier token cbType) in answer ERR_OK.

Definition UpdateConnectStatus (accessToken token : Z) (deviceId : bytes) (status : Z) : Call Answer :=
  step! granted := atomically (VerifyPermission accessToken) in
  if negb granted then answer DMS_PERMISSION_DENIED
  else if empty deviceId then answer ERR_NULL_OBJECT
  else if negb (IsConnectStatusValid status) then answer INVALID_CONNECT_STATUS
  else
    step! registered := atomically (IsTokenRegistered accessToken token) in
    if negb registered then answer TOKEN_HAS_NOT_REGISTERED
    else
      step! taken := atomically (
        let! taken := IsNotifierRegistered token in
        if negb taken then mret false
        else
          let! i := deref_notifier token in
          do! put_notifier token (SetConnectStatusInfo (Some (mkConnectStatusInfo deviceId status)) i) in
          mret true) in
      if negb taken then answer CALLBACK_HAS_NOT_REGISTERED
      else
        step! _ := atomically (
          let! s := get in
          match appProxy_ s with
          | Some _ => HandleUpdateConnectStatus token deviceId status
          | None => mret tt
          end) in
        answer ERR_OK.

(** From the second check of both ways to start the panel to their end. *)
Definition start_registered (accessToken token : Z) (params : option ContinuationExtraParams) : Call Answer :=
  step! registered := atomically (IsTokenRegistered accessToken token) in
  if negb registered then answer TOKEN_HAS_NOT_REGISTERED
  else
    step! taken := atomically (IsNotifierRegistered token) in
    if negb taken then answer CALLBACK_HAS_NOT_REGISTERED
    else
      step! started := atomically (
        let! s := get in
        match appProxy_ s with
        | Some _ => do! HandleStartDeviceManager token params in mret true
        | None => mret false
        end) in
      if started : bool then answer ERR_OK
      else
        step! errCode := ConnectAbility token params in
        if negb (errCode =? ERR_OK) then answer CONNECT_ABILITY_FAILED else answer ERR_OK.

Definition StartDeviceManager (accessToken token : Z) (params : option ContinuationExtraParams) : Call Answer :=
  step! granted := atomically (VerifyPermission accessToken) in
  if negb granted then answer DMS_PERMISSION_DENIED
  else if negb (valid_params params) then answer INVALID_CONTINUATION_MODE
  else start_registered accessToken token params.

Definition StartDeviceManagerWithoutExtraParam (accessToken token : Z) : Call Answer :=
  step! granted := atomically (VerifyPermission accessToken) in
  if negb granted then answer DMS_PERMISSION_DENIED
  else start_registered accessToken token None.

(** ** Calls of the panel: app_device_callback_stub.cpp *)

Definition on_device (token : Z) (cbType : bytes) (handle : option Z -> Sv bool) : Call Z :=
  step! submitted := atomically HandleDisconnectAbility in
  if negb submitted then Finished DISCONNECT_ABILITY_FAILED
  else
    step! registered := atomically (IsNotifierRegisteredLocked token cbType) in
    if negb registered then Finished CALLBACK_HAS_NOT_REGISTERED
    else
      step! handled := atomically (let! i := deref_notifier token in handle (GetNotifier cbType i)) in
      Finished (if handled : bool then ERR_OK else INVALID_PARAMETERS_ERR).

Definition OnDeviceConnect (token : Z) (results : list ContinuationResult) : Call Z :=
  on_device token EVENT_CONNECT (fun notifier => HandleDeviceConnect notifier results).
Definition OnDeviceDisconnect (token : Z) (results : list ContinuationResult) : Call Z :=
  on_device token EVENT_DISCONNECT (fun notifier => HandleDeviceDisconnect notifier results).

Definition OnDeviceCancel : Call Z :=
  step! submitted := atomically HandleDisconnectAbility in
  Finished (if submitted : bool then ERR_OK else DISCONNECT_ABILITY_FAILED).

(** Token and results of a request of the panel. *)
Definition panel_arguments (data : Parcel) : option (Z * list ContinuationResult) :=
  match ReadInt32 data with
  | (None, _) => None
  | (Some token, data) =>
    match (ReadContinuationResultsFromParcel data).1 with
    | None => None
    | Some results => Some (token, results)
    end
  end.

Definition panel_OnRemoteRequest (code : Z) (data : Parcel) : Call Z :=
  let '(descriptor, data) := ReadInterfaceToken data in
  if negb (bytes_eqb (default [] descriptor) APP_DEVICE_CALLBACK_DESCRIPTOR) then Finished ERR_INVALID_STATE
  else if code =? CALLBACK_DEVICE_CONNECT then
    match panel_arguments data with
    | None => Finished ERR_FLATTEN_OBJECT
    | Some (token, results) => OnDeviceConnect token results
    end
  else if code =? CALLBACK_DEVICE_DISCONNECT then
    match panel_arguments data with
    | None => Finished ERR_FLATTEN_OBJECT
    | Some (token, results) => OnDeviceDisconnect token results
    end
  else if code =? CALLBACK_DEVICE_CANCEL then OnDeviceCancel
  else Finished IPCObjectStub_OnRemoteRequest.

(** ** Calls of the ability manager: app_connection_stub.cpp *)

Definition ScheduleStartDeviceManager (appProxy : option Z) (token : Z) (params : option ContinuationExtraParams) : Sv unit :=
  do! modify (set_appProxy appProxy) in
  match appProxy with
  | None => mret tt
  | Some _ => HandleStartDeviceManager token params
  end.

Definition OnAbilityConnectDone (c : AppConnection) (remoteObject : option Z) : Call unit :=
  atomically (ScheduleStartDeviceManager remoteObject (connection_token_ c) (continuationExtraParams_ c)).
Definition OnAbilityDisconnectDone (c : AppConnection) : Call unit :=
  atomically (ScheduleStartDeviceManager None (connection_token_ c) (continuationExtraParams_ c)).

(** The result codes of the requests are read and not used. *)
Definition connection_OnRemoteRequest (c : AppConnection) (code : Z) (data : Parcel) : Call Z :=
  let '(descriptor, data) := ReadInterfaceToken data in
  if negb (bytes_eqb (default [] descriptor) ABILITY_CONNECTION_DESCRIPTOR) then Finished ERR_INVALID_STATE
  else match ReadElementName data with
    | (None, _) => Finished ERR_INVALID_VALUE
    | (Some _, data) =>
      if code =? ON_ABILITY_CONNECT_DONE then
        match ReadRemoteObject data with
        | (None, _) => Finished ERR_INVALID_DATA
        | (Some remoteObject, _) =>
          step! _ := OnAbilityConnectDone c (Some remoteObject) in Finished ERR_NONE
        end
      else if code =? ON_ABILITY_DISCONNECT_DONE then
        step! _ := OnAbilityDisconnectDone c in Finished ERR_NONE
      else Finished IPCObjectStub_OnRemoteRequest
    end.

(** ** Dead notifiers *)

Definition ProcessNotifierDied (notifier : option Z) : Sv unit :=
  match notifier with
  | None => mret tt
  | Some n => do! submit (TaskNotifierDied n) in mret tt
  end.

(** The first token with the notifier, unless a null entry comes before it. *)
Fixpoint query_token (notifier : Z) (l : std_map Z (option NotifierInfo)) : option Z :=
  match l with
  | [] => None
  | (_, None) :: _ => None
  | (token, Some i) :: l => if QueryNotifier (Some notifier) i then Some token else query_token notifier l
  end.
Definition QueryTokenByNotifier (notifier : Z) : Sv (option Z) :=
  let! s := get in mret (query_token notifier (callbackMap_ s)).

Definition notifier_died (notifier : Z) : Call unit :=
  step! token := atomically (QueryTokenByNotifier notifier) in
  match token with
  | None => Finished tt
  | Some token =>
    step! _ := atomically (forget_notifiers token) in
    step! _ := atomically (forget_token token) in
    step! _ := atomically HandleDisconnectAbility in
    Finished tt
  end.

(** ** The worker *)

Notation "'write!' p ':=' w 'in' k" := (match w with Some p => k | None => Finished tt end)
  (at level 10, p pattern, w at level 100, k at level 200).

(** The request is sent only to a panel that is there. *)
Definition send_request (appProxy : option Z) (code : Z) (data : Parcel) : Call unit :=
  match appProxy with
  | None => Finished tt
  | Some proxy =>
    step! _ := atomically (call (RequestSent proxy code data) SendRequest) in Finished tt
  end.

(** The connect status of the token's notifiers. *)
Definition connect_status (token : Z) : Sv (option ConnectStatusInfo) :=
  let! registered := IsNotifierRegistered token in
  if negb registered then mret None
  else let! i := deref_notifier token in mret (connectStatusInfo_ i).

Definition write_status (info : option ConnectStatusInfo) (data : Parcel) : option Parcel :=
  match info with
  | None => checked (WriteInt32 VALUE_NULL) data
  | Some c =>
    match checked (WriteInt32 VALUE_OBJECT) data with
    | None => None
    | Some data =>
      match checked (WriteString16 (Str8ToStr16 (deviceId_ c))) data with
      | None => None
      | Some data => checked (WriteInt32 (deviceConnectStatus_ c)) data
      end
    end
  end.

Definition write_params (params : option ContinuationExtraParams) (data : Parcel) : option Parcel :=
  match params with
  | None => checked (WriteInt32 VALUE_NULL) data
  | Some e =>
    match checked (WriteInt32 VALUE_OBJECT) data with
    | None => None
    | Some data => checked (WriteParcelable (params_Marshalling e)) data
    end
  end.

Definition start_device_manager (token : Z) (params : option ContinuationExtraParams) (appProxy : option Z) : Call unit :=
  write! data := checked (WriteInterfaceToken HIPLAY_PANEL_INTERFACE_TOKEN) Parcel_new in
  write! data := checked (WriteInt32 token) data in
  write! data := write_params params data in
  write! data := checked (WriteRemoteObject AppDeviceCallback) data in
  step! info := atomically (connect_status token) in
  write! data := write_status info data in
  send_request appProxy START_DEVICE_MANAGER_CODE data.

Definition update_connect_status (token : Z) (deviceId : bytes) (status : Z) (appProxy : option Z) : Call unit :=
  write! data := checked (WriteInterfaceToken HIPLAY_PANEL_INTERFACE_TOKEN) Parcel_new in
  write! data := checked (WriteInt32 token) data in
  write! data := checked (WriteString16 (Str8ToStr16 deviceId)) data in
  write! data := checked (WriteInt32 status) data in
  send_request appProxy UPDATE_CONNECT_STATUS_CODE data.

(** [DeviceSelectionNotifierProxy] of the notifier. *)
Definition tell_notifier (notifier code : Z) (results : list ContinuationResult) : Call unit :=
  write! data := selection_request results in send_request (Some notifier) code data.

Definition run_task (task : SelectionTask) : Call unit :=
  match task with
  | TaskDisconnectAbility => step! _ := DisconnectAbility in Finished tt
  | TaskStartDeviceManager token params appProxy => start_device_manager token params appProxy
  | TaskUpdateConnectStatus token deviceId status appProxy => update_connect_status token deviceId status appProxy
  | TaskDeviceConnect notifier results => tell_notifier notifier EVENT_DEVICE_CONNECT results
  | TaskDeviceDisconnect notifier results => tell_notifier notifier EVENT_DEVICE_DISCONNECT results
  | TaskNotifierDied notifier => notifier_died notifier
  end.

Definition take_task (s : Service) : option (Call unit * Service) :=
  match continuationHandler_ s with
  | Some (task :: tasks) => Some (run_task task, set_handler (Some tasks) s)
  | _ => None
  end.

(** ** The service as a whole *)

Definition serve (r : Z * Request) : Call Answer :=
  let '(accessToken, r) := r in
  match r with
  | ReqRegister params => Register accessToken params
  | ReqUnregister token => Unregister accessToken token
  | ReqRegisterCallback token cbType notifier => RegisterDeviceSelectionCallback accessToken token cbType notifier
  | ReqUnregisterCallback token cbType => UnregisterDeviceSelectionCallback accessToken token cbType
  | ReqUpdateConnectStatus token deviceId status => UpdateConnectStatus accessToken token deviceId status
  | ReqStartDeviceManager token params => StartDeviceManager accessToken token params
  | ReqRegisterWithoutExtraParam => RegisterWithoutExtraParam accessToken
  | ReqStartDeviceManagerWithoutExtraParam token => StartDeviceManagerWithoutExtraParam accessToken token
  | ReqPanel code data => step! ret := panel_OnRemoteRequest code data in answer ret
  | ReqAbilityConnection c code data => step! ret := connection_OnRemoteRequest c code data in answer ret
  | ReqNotifierDied notifier => step! _ := atomically (ProcessNotifierDied notifier) in answer ERR_OK
  end.

(** The service runs before any call reaches it. *)
Definition OnStart : Sv unit :=
  let! tokenStr := call ParameterRead GetParameter in
  do! (if empty tokenStr then mret tt
       else let! token := from_run (atoi tokenStr) in modify (set_token token)) in
  do! modify (fun s => match continuationHandler_ s with
    | None => set_handler (Some []) s
    | Some _ => s
    end) in
  emit ServicePublished.

Definition Selection_system : Type := System Service SelectionEffect Answer.
Definition system_of (s : Service) : Selection_system := mkSystem s [] (Finished tt).
Definition make_moves : list (Move (Z * Request)) -> M Selection_system SelectionEffect unit :=
  Interleaving.make_moves serve take_task.

(** A call that returns before another begins, and a task that runs alone. *)
Definition run_call (accessToken : Z) (r : Request) : Sv Answer := alone (serve (accessToken, r)).
Definition run_worker : Sv unit :=
  let! s := get in
  match take_task s with
  | None => mret tt
  | Some (c, s) => do! modify (fun _ => s) in alone c
  end.
End Operations.

(** ** Dump: distributed_ability_manager_dumper.cpp *)
Module Dumper.
Definition ARGS_HELP : bytes := str "-h".
Definition ARGS_APP_REGISTER_INFO : bytes := str "-register".
Definition newline : bytes := [10].

Definition dump_notifiers (i : NotifierInfo) : bytes :=
  if IsNotifierMapEmpty i then []
  else
    str ", cbType: " ++
    match GetNotifier EVENT_CONNECT i with Some _ => str " " ++ EVENT_CONNECT | None => [] end ++
    match GetNotifier EVENT_DISCONNECT i with Some _ => str " " ++ EVENT_DISCONNECT | None => [] end.

(** A null entry ends the list. *)
Fixpoint DumpNotifierLocked (callbacks : std_map Z (option NotifierInfo)) (tokens : list Z) : bytes :=
  match tokens with
  | [] => []
  | token :: tokens =>
    str ", token: " ++ to_string token ++
    match map_find callbacks token with
    | None => DumpNotifierLocked callbacks tokens
    | Some None => []
    | Some (Some i) => dump_notifiers i ++ DumpNotifierLocked callbacks tokens
    end
  end.

Definition DumpAppRegisterInfo (s : Service) : bytes :=
  str "application register infos:" ++ newline ++ str "  " ++
  match tokenMap_ s with
  | [] => str "  <none info>" ++ newline
  | l => List.concat (List.map (fun e =>
      str "accessToken: " ++ to_string e.1 ++ DumpNotifierLocked (callbackMap_ s) e.2 ++ newline ++ str "  ") l)
  end.

Definition ShowHelp : bytes :=
  str "ContinuationManagerService Dump options:" ++ newline ++ str "  [-h] [cmd]..." ++ newline ++
  str "cmd maybe one of:" ++ newline ++ str "  -register: show all application register infos." ++ newline.

(** [CanDump]: the caller is the dumper. *)
Definition Dump (allowed : bool) (args : list bytes) (s : Service) : bool * bytes :=
  if negb allowed then (false, str "Dump failed, not allowed")
  else match args with
  | [] => (true, str "ContinuationManagerService Dump" ++ newline ++ newline ++ DumpAppRegisterInfo s)
  | [arg] =>
    if bytes_eqb arg ARGS_HELP then (true, ShowHelp)
    else if bytes_eqb arg ARGS_APP_REGISTER_INFO then (true, DumpAppRegisterInfo s)
    else (false, str "The arguments are illegal and you can enter '-h' for help." ++ newline)
  | _ => (false, str "The arguments are illegal and you can enter '-h' for help." ++ newline)
  end.
End Dumper.

(** ** Client of an application: distributed_ability_manager_client.cpp

    [service] says whether samgr has the service; a call ends with an error or becomes a
    request of the generated proxy. *)
Module Client.
Section Calls.
Context {P : MessageParcel} {IC : IpcCodes} (service : bool).

Definition with_service (r : Z + Request) : Z + Request := if service then r else inl ERR_NULL_OBJECT.

Definition Register (params : option ContinuationExtraParams) : Z + Request :=
  with_service (inr match params with None => ReqRegisterWithoutExtraParam | Some _ => ReqRegister params end).
Definition Unregister (token : Z) : Z + Request := with_service (inr (ReqUnregister token)).
Definition RegisterDeviceSelectionCallback (token : Z) (cbType : bytes) (notifier : option Z) : Z + Request :=
  with_service (if empty cbType then inl INVALID_PARAMETERS_ERR
    else match notifier with
      | None => inl ERR_NULL_OBJECT
      | Some _ => inr (ReqRegisterCallback token cbType notifier)
      end).
Definition UnregisterDeviceSelectionCallback (token : Z) (cbType : bytes) : Z + Request :=
  with_service (if empty cbType then inl INVALID_PARAMETERS_ERR else inr (ReqUnregisterCallback token cbType)).
Definition UpdateConnectStatus (token : Z) (deviceId : bytes) (status : Z) : Z + Request :=
  with_service (inr (ReqUpdateConnectStatus token deviceId status)).
Definition StartDeviceManager (token : Z) (params : option ContinuationExtraParams) : Z + Request :=
  with_service (inr match params with
    | None => ReqStartDeviceManagerWithoutExtraParam token
    | Some _ => ReqStartDeviceManager token params
    end).
End Calls.
End Client.
