(* ===== verification/DeviceSelectionLemmas.v ===== *)
(** * Lemmas about the device selection service

    The tokens of all applications, the tokens given so far, and what the sections of each
    call guarantee: whatever runs in between, the notifiers that are there are not null and
    a token is only given, passed on or dropped, never doubled. *)

From Stdlib Require Import ZArith Lia String Permutation.
From stdpp Require Import base list option.
From S2P Require Import Prelude ErrorCodes StdMap StdString Framework Effects Interleaving MessageParcel SelectionData DeviceSelection.
Import ErrorCodes.Dms SelectionErrors.

#[export] Instance bytes_order_weak : StrictWeakOrder bytes := order_by (fun s => s).
#[export] Instance Z_order_weak : StrictWeakOrder Z.
Proof.
  split; unfold key_eq, key_lt, Z_key_order; intros a.
  - by rewrite Z.ltb_irrefl.
  - intros b c. rewrite !Z.ltb_lt. lia.
  - intros b c. rewrite !andb_true_iff, !negb_true_iff, !Z.ltb_ge. lia.
Qed.

(** ** Tokens *)

(** The tokens of all applications. *)
Definition tokens (s : Service) : list Z := List.concat (List.map snd (tokenMap_ s)).

Definition token_after (x : Z) : Z := if MAX_TOKEN_NUM <? x + 1 then 1 else x + 1.
(** The [n]th token given by a service that starts with [k], and the first [n]. *)
Definition nth_token (k : Z) (n : nat) : Z := Nat.iter n token_after k.
Definition given (k : Z) (n : nat) : list Z := List.map (nth_token k) (seq 1 n).

Lemma nth_token_closed k n : 0 <= k <= MAX_TOKEN_NUM ->
  nth_token k (S n) = (k + Z.of_nat n) mod MAX_TOKEN_NUM + 1.
Proof.
  intros Hk. induction n as [|n IH].
  - cbn. unfold token_after. rewrite Z.add_0_r. destruct (Z.ltb_spec MAX_TOKEN_NUM (k + 1)).
    + replace k with MAX_TOKEN_NUM by lia. by rewrite Z.mod_same.
    + by rewrite Z.mod_small by lia.
  - change (nth_token k (S (S n))) with (token_after (nth_token k (S n))). rewrite IH. unfold token_after.
    pose proof (Z.mod_pos_bound (k + Z.of_nat n) MAX_TOKEN_NUM eq_refl) as Hb.
    replace (k + Z.of_nat (S n)) with (k + Z.of_nat n + 1) by lia.
    rewrite <- (Zplus_mod_idemp_l (k + Z.of_nat n)).
    destruct (Z.ltb_spec MAX_TOKEN_NUM ((k + Z.of_nat n) mod MAX_TOKEN_NUM + 1 + 1)).
    + replace ((k + Z.of_nat n) mod MAX_TOKEN_NUM + 1) with MAX_TOKEN_NUM by lia. by rewrite Z.mod_same.
    + by rewrite (Z.mod_small (_ + 1)) by lia.
Qed.

Lemma nth_token_range k n : 0 <= k <= MAX_TOKEN_NUM -> 0 <= nth_token k n <= MAX_TOKEN_NUM.
Proof.
  intros Hk. destruct n as [|n]; [done|]. rewrite nth_token_closed by done.
  pose proof (Z.mod_pos_bound (k + Z.of_nat n) MAX_TOKEN_NUM eq_refl). lia.
Qed.

(** No token is given twice before all have been given. *)
Lemma nth_token_inj k i j : 0 <= k <= MAX_TOKEN_NUM -> (i < j)%nat ->
  Z.of_nat j - Z.of_nat i < MAX_TOKEN_NUM -> nth_token k (S i) <> nth_token k (S j).
Proof.
  intros Hk Hij Hn. rewrite !nth_token_closed by done. intros H.
  assert ((k + Z.of_nat i) mod MAX_TOKEN_NUM = (k + Z.of_nat j) mod MAX_TOKEN_NUM) as E by lia.
  pose proof (Z_div_mod_eq_full (k + Z.of_nat i) MAX_TOKEN_NUM).
  pose proof (Z_div_mod_eq_full (k + Z.of_nat j) MAX_TOKEN_NUM). rewrite E in *.
  assert (Z.of_nat j - Z.of_nat i =
    MAX_TOKEN_NUM * ((k + Z.of_nat j) / MAX_TOKEN_NUM - (k + Z.of_nat i) / MAX_TOKEN_NUM)) by lia.
  unfold MAX_TOKEN_NUM in *. lia.
Qed.

Lemma given_NoDup k n : 0 <= k <= MAX_TOKEN_NUM -> Z.of_nat n <= MAX_TOKEN_NUM -> NoDup (given k n).
Proof.
  intros Hk Hn. unfold given. rewrite <- seq_shift, List.map_map. apply NoDup_ListNoDup.
  assert (forall m l, (forall i, In i l -> (i < m)%nat) -> List.NoDup l -> (m <= n)%nat ->
    List.NoDup (List.map (fun x => nth_token k (S x)) l)) as H.
  { intros m l Hl Hd Hm. induction Hd as [|i l Hi Hd IH]; [constructor|]. cbn. constructor.
    - rewrite in_map_iff. intros (j & E & Hj). pose proof (Hl i (or_introl eq_refl)).
      pose proof (Hl j (or_intror Hj)). destruct (lt_eq_lt_dec i j) as [[Hij|<-]|Hij]; [|done|].
      + apply (nth_token_inj k i j); [done|done|lia|by symmetry].
      + apply (nth_token_inj k j i); [done|done|lia|done].
    - apply IH. intros j Hj. apply Hl. by right. }
  apply (H n); [|apply seq_NoDup|lia]. intros i Hi. apply in_seq in Hi. lia.
Qed.

Lemma given_S k n : given k (S n) = given k n ++ [nth_token k (S n)].
Proof. unfold given. by rewrite seq_S, List.map_app. Qed.

Lemma erase_token_submseteq token l :
  List.concat (List.map snd (erase_token token l)) ⊆+ List.concat (List.map snd l).
Proof.
  induction l as [|[a v] l IH]; [done|]. cbn.
  assert (List.filter (fun n => negb (n =? token)) v ⊆+ v) as Hv.
  { clear. induction v as [|n v IH]; [done|]. cbn. destruct (negb (n =? token)); [by apply submseteq_skip|].
    by apply submseteq_cons. }
  destruct (List.filter _ v) as [|n r] eqn:E1; cbn; [by apply submseteq_inserts_l|].
  change (n :: r ++ ?x) with ((n :: r) ++ x). by apply submseteq_app.
Qed.

(** The loop finds the token of the one application that has it, if no list is empty. *)
Lemma erase_token_gone token l :
  NoDup (List.concat (List.map snd l)) -> Forall (fun e => e.2 <> []) l ->
  token ∉ List.concat (List.map snd (erase_token token l)).
Proof.
  induction l as [|[a v] l IH]; [intros _ _; apply not_elem_of_nil|]. cbn.
  intros (Hv & Hvl & Hl)%list.NoDup_app [Hne Hf]%list.Forall_cons. cbn in Hne.
  destruct (List.filter _ v) as [|n r] eqn:E1.
  - apply Hvl. destruct v as [|x v]; [done|]. cbn in E1.
    destruct (Z.eqb_spec x token) as [->|]; [|done]. by left.
  - cbn. change (n :: r ++ ?x) with ((n :: r) ++ x). rewrite elem_of_app, <- E1. intros [Hin|Hin].
    + apply list_elem_of_In, List.filter_In in Hin as [_ Hin]. by rewrite Z.eqb_refl in Hin.
    + by apply IH.
Qed.

Lemma erase_token_others token x l : x <> token ->
  x ∈ List.concat (List.map snd l) -> x ∈ List.concat (List.map snd (erase_token token l)).
Proof.
  intros Hx. induction l as [|[a v] l IH]; [done|]. cbn. rewrite elem_of_app.
  assert (x ∈ v -> x ∈ List.filter (fun n => negb (n =? token)) v) as Hv.
  { intros Hin%list_elem_of_In. apply list_elem_of_In, List.filter_In. split; [done|].
    by rewrite (proj2 (Z.eqb_neq x token)). }
  destruct (List.filter _ v) as [|n r] eqn:E1; cbn.
  - intros [Hin|Hin]; [|done]. apply Hv in Hin. by apply not_elem_of_nil in Hin.
  - change (n :: r ++ ?y) with ((n :: r) ++ y). rewrite elem_of_app. intros [Hin|Hin]; [left|right]; auto.
Qed.

Lemma erase_token_nonempty token l :
  Forall (fun e : Z * list Z => e.2 <> []) l -> Forall (fun e => e.2 <> []) (erase_token token l).
Proof.
  induction 1 as [|[a v] l Hv Hl IH]; [constructor|]. cbn.
  destruct (List.filter _ v) eqn:E1; [done|]. by constructor.
Qed.

Lemma erase_token_sorted token l : map_sorted l -> map_sorted (erase_token token l).
Proof.
  assert (forall (P : Z * list Z -> Prop) l, (forall a v w, P (a, v) -> P (a, w)) -> Forall P l ->
    Forall P (erase_token token l)) as Hf.
  { clear. intros P l HP. induction 1 as [|[a v] l Hv Hl IH]; [constructor|]. cbn.
    destruct (List.filter _ v); [done|]. constructor; [by eapply HP|done]. }
  unfold map_sorted. induction 1 as [|[a v] l Hl IH Ha]; [constructor|]. cbn.
  destruct (List.filter _ v); [done|]. constructor; [done|]. by apply Hf.
Qed.

Lemma map_find_below {V} (l : std_map Z V) a : Forall (fun e => a < e.1) l -> map_find l a = None.
Proof.
  unfold map_find. induction 1 as [|[b v] l Hb Hl IH]; [done|]. cbn [List.find fst] in *.
  rewrite Z_key_eq, (proj2 (Z.eqb_neq b a)) by lia. apply IH.
Qed.

(** [tokenMap_[accessToken].emplace_back(token)] adds one token. *)
Lemma enter_token_Permutation (l : std_map Z (list Z)) a token : map_sorted l ->
  Permutation (List.concat (List.map snd (map_assign l a (default [] (map_find l a) ++ [token]))))
    (token :: List.concat (List.map snd l)).
Proof.
  unfold map_sorted. induction 1 as [|[b v] l Hl IH Hb]; [done|].
  assert (map_find ((b, v) :: l) a = if b =? a then Some v else map_find l a) as ->.
  { unfold map_find at 1. cbn [List.find fst]. rewrite Z_key_eq. by destruct (b =? a). }
  cbn [map_assign]. unfold key_lt, Z_key_order in *.
  destruct (Z.ltb_spec a b) as [Hab|Hab]; [|destruct (Z.ltb_spec b a) as [Hba|Hba]].
  - rewrite (proj2 (Z.eqb_neq b a)) by lia. rewrite map_find_below; [done|].
    eapply list.Forall_impl; [exact Hb|]. intros e He%Z.ltb_lt. cbn in He. lia.
  - rewrite (proj2 (Z.eqb_neq b a)) by lia. cbn. rewrite IH. by rewrite Permutation_middle.
  - rewrite (proj2 (Z.eqb_eq b a)) by lia. cbn. rewrite <- app_assoc. cbn. by rewrite <- Permutation_middle.
Qed.

Lemma NoDup_part {A} (l k : list A) : l ⊆+ k -> NoDup k -> NoDup l.
Proof.
  intros (r & Hp)%submseteq_Permutation Hd. rewrite Hp in Hd. by apply list.NoDup_app in Hd as [Hd _].
Qed.

(** The stored text of a token reads back. *)
Lemma atoi_to_string n : 0 <= n < 2 ^ 31 -> atoi (to_string n) = Done n.
Proof.
  intros Hn. assert (digits_value (to_string n) 0 = n) as Hv.
  { unfold to_string. bool_lia. rewrite decimal_value; [done|]. change (10 ^ Z.of_nat 20) with (10 ^ 20). lia. }
  pose proof (to_string_digits n ltac:(lia)) as Hd. unfold atoi.
  destruct Hd as [|c s Hc _]; [by rewrite <- Hv|]. unfold is_digit in Hc.
  apply andb_true_iff in Hc as (H1%Z.leb_le & H2%Z.leb_le). cbn [skip_spaces].
  replace (is_space c) with false by (unfold is_space; bool_lia; rewrite ?andb_false_r; done).
  assert (In c [48; 49; 50; 51; 52; 53; 54; 55; 56; 57]) as Hin by (cbn; lia). clear H1 H2.
  cbn [In] in Hin.
  repeat (destruct Hin as [<-|Hin]; [cbn -[digits_value Z.leb Z.ltb]; rewrite Hv; bool_lia; done|]). done.
Qed.

Lemma to_string_nonempty n : empty (to_string n) = false.
Proof.
  assert (forall fuel n acc, fuel <> O \/ empty acc = false -> empty (decimal fuel n acc) = false) as H.
  { induction fuel as [|fuel IH]; intros m acc [Ha|Ha]; cbn [decimal]; try done;
      (destruct (m <? 10); [done|]); apply IH; by right. }
  unfold to_string. destruct (n <? 0); [done|]. apply H. by left.
Qed.

(** ** What every section keeps *)

Section Keeps.
Context {P : MessageParcel} {IC : IpcCodes} {SE : SelectionEnv}.

Definition is_draw (e : SelectionEffect) : bool := match e with ParameterSet _ => true | _ => false end.
(** How many tokens were given. *)
Definition draws (t : list SelectionEffect) : nat := length (List.filter is_draw t).

(** The token that was stored last. *)
Definition stored (t : list SelectionEffect) : option bytes :=
  fold_left (fun v e => match e with ParameterSet v => Some v | _ => v end) t None.

Definition notifiers_ok (l : std_map bytes (option Z)) : Prop := l <> [] /\ Forall (fun e => e.2 <> None) l.
Definition callback_ok (e : Z * option NotifierInfo) : Prop :=
  match e.2 with Some i => notifiers_ok (notifierMap_ i) | None => False end.

(** The tables of a service that started with the token [k]. *)
Record service_ok (k : Z) (s : Service) (t : list SelectionEffect) : Prop := {
  ok_callbacks : Forall callback_ok (callbackMap_ s);
  ok_sorted : map_sorted (tokenMap_ s);
  ok_nonempty : Forall (fun e : Z * list Z => e.2 <> []) (tokenMap_ s);
  ok_token : token_ s = nth_token k (draws t);
  ok_stored : forall v, stored t = Some v -> v = to_string (token_ s)
}.

Context (k : Z).

(** A section that gives no token. *)
Definition kept (s : Service) (t : list SelectionEffect) (s' : Service) (t' : list SelectionEffect) : Prop :=
  service_ok k s' t' /\ draws t' = draws t /\ tokens s' ⊆+ tokens s.
Definition quiet {A} (m : Sv A) : Prop := forall s t, service_ok k s t -> wp m (fun _ s' t' => kept s t s' t') s t.

Lemma sel_kept_refl s t : service_ok k s t -> kept s t s t.
Proof. by split. Qed.
Lemma sel_kept_trans s1 t1 s2 t2 s3 t3 : kept s1 t1 s2 t2 -> kept s2 t2 s3 t3 -> kept s1 t1 s3 t3.
Proof. intros (H1 & D1 & T1) (H2 & D2 & T2). split; [done|]. split; [congruence|by etrans]. Qed.

Lemma draws_emit t e : is_draw e = false -> draws (t ++ [e]) = draws t.
Proof. intros He. unfold draws. rewrite List.filter_app. cbn. by rewrite He, app_nil_r. Qed.

Lemma stored_emit t e : is_draw e = false -> stored (t ++ [e]) = stored t.
Proof. intros He. unfold stored. rewrite fold_left_app. by destruct e. Qed.

Lemma sel_kept_emit s t e : service_ok k s t -> is_draw e = false -> kept s t s (t ++ [e]).
Proof.
  intros [H1 H2 H3 H4 H5] He.
  split; [split; [done..| |]|split; [|done]]; by rewrite ?draws_emit, ?stored_emit.
Qed.

Lemma quiet_mret {A} (a : A) : quiet (mret a).
Proof. intros s t H. apply wp_mret. by apply sel_kept_refl. Qed.
Lemma quiet_get : quiet get.
Proof. intros s t H. apply wp_get. by apply sel_kept_refl. Qed.
Lemma sel_quiet_emit e : is_draw e = false -> quiet (emit e).
Proof. intros He s t H. apply wp_emit. by apply sel_kept_emit. Qed.
Lemma quiet_call {A} e (o : list SelectionEffect -> A) : is_draw e = false -> quiet (call e o).
Proof. intros He s t H. apply wp_call. by apply sel_kept_emit. Qed.
Lemma quiet_mbind {A B} (m : Sv A) (f : A -> Sv B) : quiet m -> (forall a, quiet (f a)) -> quiet (mbind m f).
Proof.
  intros Hm Hf s t H. apply wp_mbind. eapply wp_mono; [by apply Hm|]. cbn. intros a s1 t1 K1.
  eapply wp_mono; [apply (Hf a s1 t1), K1|]. cbn. intros _ s2 t2 K2. by eapply sel_kept_trans.
Qed.

(** What touches neither the tables nor the counter. *)
Lemma quiet_modify f :
  (forall s, token_ (f s) = token_ s /\ tokenMap_ (f s) = tokenMap_ s /\ callbackMap_ (f s) = callbackMap_ s) ->
  quiet (modify f).
Proof.
  intros Hf s t [H1 H2 H3 H4 H5]. destruct (Hf s) as (E1 & E2 & E3). apply wp_modify.
  split; [split|split; [done|]]; unfold tokens; by rewrite ?E1, ?E2, ?E3.
Qed.

Ltac quiet_code :=
  repeat first
    [ done
    | apply quiet_mret | apply quiet_get
    | apply sel_quiet_emit; reflexivity | apply quiet_call; reflexivity
    | apply quiet_modify; let s := fresh in intros s; cbn; repeat match goal with |- context [match ?x with _ => _ end] => destruct x end; done
    | apply quiet_mbind; [|let a := fresh in intros a]
    | match goal with |- quiet (match ?x with _ => _ end) => destruct x eqn:? end ].

Lemma submit_quiet task : quiet (submit task).
Proof. unfold submit. quiet_code. Qed.
Lemma handle_device_quiet notifier task : quiet (handle_device notifier task).
Proof. unfold handle_device. quiet_code. Qed.
Lemma HandleStartDeviceManager_quiet token params : quiet (HandleStartDeviceManager token params).
Proof. unfold HandleStartDeviceManager. quiet_code. Qed.
Lemma HandleUpdateConnectStatus_quiet token deviceId status : quiet (HandleUpdateConnectStatus token deviceId status).
Proof. unfold HandleUpdateConnectStatus. quiet_code. Qed.
Lemma QueryExtensionAbilityInfo_quiet account : quiet (QueryExtensionAbilityInfo account).
Proof. unfold QueryExtensionAbilityInfo. quiet_code. Qed.
Lemma ScheduleStartDeviceManager_quiet p token params : quiet (ScheduleStartDeviceManager p token params).
Proof. unfold ScheduleStartDeviceManager. quiet_code. Qed.
Lemma ProcessNotifierDied_quiet notifier : quiet (ProcessNotifierDied notifier).
Proof. unfold ProcessNotifierDied. quiet_code. Qed.

(** ** Notifiers *)

Lemma callback_found s t token o :
  service_ok k s t -> map_find (callbackMap_ s) token = Some o ->
  exists i, o = Some i /\ notifiers_ok (notifierMap_ i).
Proof.
  intros [H _ _ _ _] (token' & Hin & _)%map_find_Some. rewrite List.Forall_forall in H.
  specialize (H _ Hin). unfold callback_ok in H. cbn in H. destruct o as [i|]; [by exists i|done].
Qed.

Lemma IsNotifierRegistered_wp token s t Q :
  Q match map_find (callbackMap_ s) token with Some (Some _) => true | _ => false end s t ->
  wp (IsNotifierRegistered token) Q s t.
Proof. intros H. unfold IsNotifierRegistered. by wp_with fail. Qed.

Lemma deref_notifier_wp token i s t Q :
  map_find (callbackMap_ s) token = Some (Some i) -> Q i s t -> wp (deref_notifier token) Q s t.
Proof. intros E H. unfold deref_notifier. apply wp_mbind, wp_get. rewrite E. by apply wp_mret. Qed.

(** The object under the token is replaced by one with notifiers. *)
Lemma put_notifier_kept token i s t :
  service_ok k s t -> notifiers_ok (notifierMap_ i) ->
  wp (put_notifier token i) (fun _ s' t' => kept s t s' t') s t.
Proof.
  intros [H1 H2 H3 H4 H5] Hi. apply wp_modify. split; [split; [|done..]|done]. cbn.
  by apply Forall_map_assign.
Qed.

Lemma erase_callback_kept token s t :
  service_ok k s t ->
  wp (modify (fun s => set_callbackMap (map_erase (callbackMap_ s) token) s)) (fun _ s' t' => kept s t s' t') s t.
Proof.
  intros [H1 H2 H3 H4 H5]. apply wp_modify. split; [split; [|done..]|done]. cbn. by apply Forall_map_erase.
Qed.

Lemma wp_quiet {A B} (m : Sv A) (f : A -> Sv B) s t :
  service_ok k s t -> wp m (fun _ s' t' => kept s t s' t') s t ->
  (forall a s' t', service_ok k s' t' -> wp (f a) (fun _ s2 t2 => kept s' t' s2 t2) s' t') ->
  wp (mbind m f) (fun _ s' t' => kept s t s' t') s t.
Proof.
  intros H Hm Hf. apply wp_mbind. eapply wp_mono; [exact Hm|]. cbn. intros a s1 t1 K1.
  eapply wp_mono; [apply Hf, K1|]. cbn. intros _ s2 t2. by apply sel_kept_trans.
Qed.

Lemma IsNotifierRegisteredLocked_quiet token cbType : quiet (IsNotifierRegisteredLocked token cbType).
Proof.
  intros s t H. unfold IsNotifierRegisteredLocked. apply wp_mbind, IsNotifierRegistered_wp.
  destruct (map_find (callbackMap_ s) token) as [[i|]|] eqn:E1; cbn; try by apply wp_mret, sel_kept_refl.
  apply wp_mbind. eapply deref_notifier_wp; [exact E1|]. by apply wp_mret, sel_kept_refl.
Qed.

Lemma remove_all_quiet (l : std_map bytes (option Z)) :
  Forall (fun e => e.2 <> None) l -> quiet (mfor l (fun e => remove_recipient e.2)).
Proof.
  intros Hl s t H. apply wp_mfor; [by apply sel_kept_refl|]. intros e s' t' He K.
  rewrite List.Forall_forall in Hl. specialize (Hl _ He). destruct (e.2) as [n|]; [|done].
  apply wp_emit. eapply sel_kept_trans; [exact K|]. apply sel_kept_emit; [apply K|done].
Qed.

Lemma RemoveDeathRecipient_quiet i cbType : notifiers_ok (notifierMap_ i) -> quiet (RemoveDeathRecipient i cbType).
Proof.
  intros [_ Hi]. unfold RemoveDeathRecipient. destruct (empty cbType); [by apply remove_all_quiet|].
  destruct (map_find (notifierMap_ i) cbType) as [n|] eqn:E1; [|apply quiet_mret].
  apply map_find_Some in E1 as (c & Hin & _). rewrite List.Forall_forall in Hi. specialize (Hi _ Hin).
  cbn in Hi. destruct n; [by apply sel_quiet_emit|done].
Qed.

Lemma forget_notifiers_quiet token : quiet (forget_notifiers token).
Proof.
  intros s t H. unfold forget_notifiers. apply wp_mbind, IsNotifierRegistered_wp.
  destruct (map_find (callbackMap_ s) token) as [[i|]|] eqn:E1; cbn; try by apply wp_mret, sel_kept_refl.
  apply wp_mbind. eapply deref_notifier_wp; [exact E1|].
  apply (callback_found _ _ _ _ H) in E1 as (j & [= <-] & Hi).
  apply wp_quiet; [done|by apply (RemoveDeathRecipient_quiet i [] Hi)|]. intros _ s' t' H'. by apply erase_callback_kept.
Qed.

Lemma forget_token_quiet token : quiet (forget_token token).
Proof.
  intros s t [H1 H2 H3 H4 H5]. apply wp_modify. split; [split; [done|..|done|done]|split; [done|]]; cbn.
  - by apply erase_token_sorted.
  - by apply erase_token_nonempty.
  - apply erase_token_submseteq.
Qed.

Lemma assigned_notifiers_ok (l : std_map bytes (option Z)) cbType n :
  Forall (fun e => e.2 <> None) l -> notifiers_ok (map_assign l cbType (Some n)).
Proof.
  intros Hl. split; [|by apply Forall_map_assign]. destruct l as [|[c v] l]; [done|]. cbn.
  by destruct (key_lt cbType c), (key_lt c cbType).
Qed.

Lemma enter_notifier_quiet token cbType notifier : notifier <> None -> quiet (enter_notifier token cbType notifier).
Proof.
  intros Hn s t H. destruct notifier as [n|]; [|done]. unfold enter_notifier. apply wp_mbind, wp_get.
  destruct (map_find (callbackMap_ s) token) as [o|] eqn:E1.
  - apply (callback_found _ _ _ _ H) in E1 as (i & -> & _ & Hi).
    apply wp_quiet; [done|by apply put_notifier_kept, assigned_notifiers_ok|]. intros _ s' t' H'.
    by apply wp_mret, sel_kept_refl.
  - apply wp_quiet; [done|by apply put_notifier_kept, assigned_notifiers_ok|]. intros _ s' t' H'.
    apply wp_quiet; [done|by apply (sel_quiet_emit (DeathRecipientAdded n))|]. intros _ s2 t2 H2. by apply wp_mret, sel_kept_refl.
Qed.

Lemma delete_notifier_quiet token cbType : quiet (delete_notifier token cbType).
Proof.
  intros s t H. unfold delete_notifier. apply wp_mbind, wp_get.
  destruct (map_find (callbackMap_ s) token) as [o|] eqn:E1; [|by apply wp_mret, sel_kept_refl].
  apply (callback_found _ _ _ _ H) in E1 as (i & -> & Hi).
  apply wp_quiet; [done|by eapply (RemoveDeathRecipient_quiet _ _ Hi)|]. intros _ s' t' H'.
  destruct (IsNotifierMapEmpty (DeleteNotifier cbType i)) eqn:E2; [by apply erase_callback_kept|].
  apply put_notifier_kept; [done|]. split; [|by apply Forall_map_erase, Hi]. intros E3.
  unfold IsNotifierMapEmpty in E2. by rewrite E3 in E2.
Qed.

Lemma update_status_quiet token c :
  quiet (let! taken := IsNotifierRegistered token in
         if negb taken then mret false
         else
           let! i := deref_notifier token in
           do! put_notifier token (SetConnectStatusInfo c i) in
           mret true).
Proof.
  intros s t H. apply wp_mbind, IsNotifierRegistered_wp.
  destruct (map_find (callbackMap_ s) token) as [[i|]|] eqn:E1; cbn; try by apply wp_mret, sel_kept_refl.
  apply wp_mbind. eapply deref_notifier_wp; [exact E1|].
  apply (callback_found _ _ _ _ H) in E1 as (j & [= <-] & Hi).
  apply wp_quiet; [done|by apply put_notifier_kept|]. intros _ s' t' H'. by apply wp_mret, sel_kept_refl.
Qed.

Lemma connect_status_quiet token : quiet (connect_status token).
Proof.
  intros s t H. unfold connect_status. apply wp_mbind, IsNotifierRegistered_wp.
  destruct (map_find (callbackMap_ s) token) as [[i|]|] eqn:E1; cbn; try by apply wp_mret, sel_kept_refl.
  apply wp_mbind. eapply deref_notifier_wp; [exact E1|]. by apply wp_mret, sel_kept_refl.
Qed.

(** ** The sections that give a token *)

Context (Hk : 0 <= k <= MAX_TOKEN_NUM).

Lemma next_token_wp s t Q :
  service_ok k s t ->
  (forall s' t', service_ok k s' t' -> draws t' = S (draws t) -> tokens s' = tokens s ->
    connect_ s' = connect_ s -> continuationHandler_ s' = continuationHandler_ s ->
    Q (nth_token k (S (draws t))) s' t') ->
  wp next_token Q s t.
Proof.
  intros [H1 H2 H3 H4 H5] HQ. unfold next_token. apply wp_mbind, wp_get.
  pose proof (nth_token_range k (draws t) Hk) as Hr. rewrite <- H4 in Hr.
  rewrite (proj2 (Z.eqb_neq _ _)) by (unfold MAX_TOKEN_NUM in Hr; lia).
  apply wp_mbind, wp_modify, wp_mbind, wp_emit, wp_mret.
  assert (nth_token k (S (draws t)) = token_after (token_ s)) as E1 by (rewrite H4; done).
  unfold token_after in E1. rewrite <- E1.
  assert (draws (t ++ [ParameterSet (to_string (nth_token k (S (draws t))))]) = S (draws t)) as E2.
  { unfold draws. rewrite List.filter_app, length_app. cbn. lia. }
  apply HQ; [|done..]. split; [done..|by rewrite E2|].
  intros v. unfold stored. rewrite fold_left_app. by intros [= <-].
Qed.

Lemma enter_token_wp accessToken token s t Q :
  service_ok k s t ->
  (forall s', service_ok k s' t -> Permutation (tokens s') (token :: tokens s) -> Q tt s' t) ->
  wp (enter_token accessToken token) Q s t.
Proof.
  intros [H1 H2 H3 H4 H5] HQ. apply wp_modify, HQ; [|by apply enter_token_Permutation].
  split; [done|by apply map_sorted_assign| |done|done]. apply Forall_map_assign; [done|]. intros a _. cbn.
  by destruct (default [] _).
Qed.

(** ** What the calls guarantee

    The ghost of a thread is the list of tokens that it was given and has not entered. *)

Definition Pre (_ : list Z) (s : Service) (t : list SelectionEffect) : Prop := service_ok k s t.
Definition Step (g : list Z) (s : Service) (t : list SelectionEffect)
    (g' : list Z) (s' : Service) (t' : list SelectionEffect) : Prop :=
  service_ok k s' t' /\
  exists fresh, given k (draws t') = given k (draws t) ++ fresh /\ tokens s' ++ g' ⊆+ fresh ++ tokens s ++ g.

Notation guarantees := (guaranteed Pre Step).

Lemma kept_step g s t s' t' : kept s t s' t' -> Step g s t g s' t'.
Proof.
  intros (H & Hd & Ht). split; [done|]. exists []. rewrite Hd, app_nil_r. split; [done|].
  cbn. by apply submseteq_app.
Qed.

(** A quiet section, and the code after it. *)
Lemma quiet_then {A B} (Post : B -> list Z -> Prop) g (m : Sv A) (f : A -> Call B) :
  quiet m -> (forall a, guarantees Post g (f a)) -> guarantees Post g (after (atomically m) f).
Proof.
  intros Hm Hf. apply (guaranteed_after _ _ (fun _ g' => g' = g)); [|by intros a ? ->].
  apply guaranteed_atomically. intros s t H. eapply wp_mono; [by apply Hm|]. cbn.
  intros _ s' t' K. exists g. split; [by apply kept_step|done].
Qed.

Lemma quiet_last {A} g (m : Sv A) : quiet m -> guarantees (fun _ g' => g' = g) g (atomically m).
Proof.
  intros Hm. apply guaranteed_atomically. intros s t H. eapply wp_mono; [by apply Hm|]. cbn.
  intros _ s' t' K. exists g. split; [by apply kept_step|done].
Qed.

Lemma register_then g accessToken :
  guarantees (fun _ g' => g' = g) g
    (step! token := atomically next_token in
     step! _ := atomically (enter_token accessToken token) in
     Finished (ERR_OK, Some token)).
Proof.
  apply (guaranteed_after _ _ (fun token g' => g' = token :: g)).
  - apply guaranteed_atomically. intros s t H. eapply next_token_wp; [done|].
    intros s' t' H' Hd Ht _ _. eexists. split; [|reflexivity]. split; [done|].
    exists [nth_token k (S (draws t))]. rewrite Hd, Ht. split; [apply given_S|].
    cbn. by rewrite <- Permutation_middle.
  - intros token ? ->. apply (guaranteed_after _ _ (fun _ g' => g' = g)); [|done].
    apply guaranteed_atomically. intros s t H. eapply enter_token_wp; [done|].
    intros s' H' Ht. exists g. split; [|done]. split; [done|]. exists []. rewrite app_nil_r. split; [done|].
    cbn. rewrite Ht. cbn. by rewrite <- Permutation_middle.
Qed.

Ltac quiet_section :=
  first
    [ apply IsNotifierRegisteredLocked_quiet | apply forget_notifiers_quiet | apply forget_token_quiet
    | apply delete_notifier_quiet | apply update_status_quiet | apply connect_status_quiet
    | apply submit_quiet | apply handle_device_quiet | apply HandleStartDeviceManager_quiet
    | apply HandleUpdateConnectStatus_quiet | apply QueryExtensionAbilityInfo_quiet
    | apply ScheduleStartDeviceManager_quiet | apply ProcessNotifierDied_quiet
    | solve [quiet_code] ].

Ltac guarantee_code base :=
  repeat first
    [ base
    | match goal with
      | |- guaranteed _ _ _ _ (after (atomically _) _) => apply quiet_then; [try quiet_section|let a := fresh in intros a]
      | |- guaranteed _ _ _ _ (atomically _) => apply quiet_last; try quiet_section
      | |- guaranteed _ _ _ _ (match ?x with _ => _ end) => destruct x eqn:?
      | |- guaranteed _ _ _ _ (answer _) => reflexivity
      | |- guaranteed _ _ _ _ (Finished _) => reflexivity
      end ].

Definition restores {A} (c : Call A) : Prop := forall g, guarantees (fun _ g' => g' = g) g c.

Lemma restores_then {A B} (c : Call A) (f : A -> Call B) g (Post : B -> list Z -> Prop) :
  restores c -> (forall a, guarantees Post g (f a)) -> guarantees Post g (after c f).
Proof. intros Hc Hf. eapply guaranteed_after; [apply Hc|]. cbn. by intros a ? ->. Qed.

Lemma ConnectAbility_restores token params : restores (ConnectAbility token params).
Proof. intros g. unfold ConnectAbility. guarantee_code fail. Qed.
Lemma DisconnectAbility_restores : restores DisconnectAbility.
Proof. intros g. unfold DisconnectAbility. guarantee_code fail. Qed.
Lemma RegisterWithoutExtraParam_restores accessToken : restores (RegisterWithoutExtraParam accessToken).
Proof. intros g. unfold RegisterWithoutExtraParam. guarantee_code ltac:(apply register_then). Qed.
Lemma Register_restores accessToken params : restores (Register accessToken params).
Proof.
  intros g. unfold Register. guarantee_code ltac:(apply RegisterWithoutExtraParam_restores).
Qed.
Lemma Unregister_restores accessToken token : restores (Unregister accessToken token).
Proof. intros g. unfold Unregister, HandleDisconnectAbility. guarantee_code fail. Qed.
Lemma RegisterCallback_restores accessToken token cbType notifier :
  notifier <> None -> restores (RegisterDeviceSelectionCallback accessToken token cbType notifier).
Proof.
  intros Hn g. unfold RegisterDeviceSelectionCallback. guarantee_code fail. by apply enter_notifier_quiet.
Qed.
Lemma UnregisterCallback_restores accessToken token cbType :
  restores (UnregisterDeviceSelectionCallback accessToken token cbType).
Proof. intros g. unfold UnregisterDeviceSelectionCallback. guarantee_code fail. Qed.
Lemma UpdateConnectStatus_restores accessToken token deviceId status :
  restores (UpdateConnectStatus accessToken token deviceId status).
Proof. intros g. unfold UpdateConnectStatus. guarantee_code fail. Qed.
Lemma start_registered_restores accessToken token params : restores (start_registered accessToken token params).
Proof.
  intros g. unfold start_registered.
  guarantee_code ltac:(apply restores_then; [apply ConnectAbility_restores|let a := fresh in intros a]).
Qed.
Lemma StartDeviceManager_restores accessToken token params : restores (StartDeviceManager accessToken token params).
Proof. intros g. unfold StartDeviceManager. guarantee_code ltac:(apply start_registered_restores). Qed.
Lemma StartDeviceManagerWithout_restores accessToken token :
  restores (StartDeviceManagerWithoutExtraParam accessToken token).
Proof.
  intros g. unfold StartDeviceManagerWithoutExtraParam. guarantee_code ltac:(apply start_registered_restores).
Qed.
Lemma connection_restores c code data : restores (connection_OnRemoteRequest c code data).
Proof. intros g. unfold connection_OnRemoteRequest, OnAbilityConnectDone, OnAbilityDisconnectDone. guarantee_code fail. Qed.
Lemma OnDeviceCancel_restores : restores OnDeviceCancel.
Proof. intros g. unfold OnDeviceCancel, HandleDisconnectAbility. guarantee_code fail. Qed.

(** ** Tasks *)

Lemma send_request_restores p code data : restores (send_request p code data).
Proof. intros g. unfold send_request. guarantee_code fail. Qed.

Lemma run_task_restores task : restores (run_task task).
Proof.
  intros g. destruct task; cbn [run_task]; unfold start_device_manager, update_connect_status, tell_notifier,
    notifier_died, HandleDisconnectAbility;
    guarantee_code ltac:(first [apply send_request_restores|
      apply restores_then; [apply DisconnectAbility_restores|let a := fresh in intros a]]).
Qed.

(** Whatever is requested except a selection of the panel, and with a notifier that is there. *)
Definition tame (r : Request) : Prop :=
  match r with
  | ReqRegisterCallback _ _ notifier => notifier <> None
  | ReqPanel code _ => code <> CALLBACK_DEVICE_CONNECT /\ code <> CALLBACK_DEVICE_DISCONNECT
  | _ => True
  end.

Lemma panel_restores code data :
  code <> CALLBACK_DEVICE_CONNECT -> code <> CALLBACK_DEVICE_DISCONNECT -> restores (panel_OnRemoteRequest code data).
Proof.
  intros H1 H2 g. unfold panel_OnRemoteRequest.
  rewrite (proj2 (Z.eqb_neq _ _) H1), (proj2 (Z.eqb_neq _ _) H2).
  guarantee_code ltac:(apply OnDeviceCancel_restores).
Qed.

Lemma serve_restores accessToken r : tame r -> restores (serve (accessToken, r)).
Proof.
  intros Hr g. destruct r; cbn [serve tame] in *.
  - apply Register_restores.
  - apply Unregister_restores.
  - by apply RegisterCallback_restores.
  - apply UnregisterCallback_restores.
  - apply UpdateConnectStatus_restores.
  - apply StartDeviceManager_restores.
  - apply RegisterWithoutExtraParam_restores.
  - apply StartDeviceManagerWithout_restores.
  - destruct Hr. by apply restores_then; [apply panel_restores|].
  - by apply restores_then; [apply connection_restores|].
  - guarantee_code fail.
Qed.
End Keeps.
