(* ===== verification/DeviceSelectionProperties.v ===== *)
(** * What the device selection service does

    Safety of every schedule, safety of calls one at a time, and what reaches the
    application; and the schedules and states in which the service fails it. *)

From Stdlib Require Import ZArith Lia String Permutation.
From stdpp Require Import base list option.
From S2P Require Import Prelude ErrorCodes StdMap StdString Framework Effects Interleaving MessageParcel SelectionData DeviceSelection DeviceSelectionLemmas.
Import ErrorCodes.Dms SelectionErrors.

Section Schedules.
Context {P : MessageParcel} {IC : IpcCodes} {SE : SelectionEnv}.

(** The tokens of the applications and those that threads were given are among the given. *)
Definition shared_ok (k : Z) (gs : list (list Z)) (s : Service) (t : list SelectionEffect) : Prop :=
  service_ok k s t /\ tokens s ++ List.concat gs ⊆+ given k (draws t).

Lemma shared_ok_step k gs s t i g g' s' t' :
  shared_ok k gs s t -> gs !! i = Some g -> Step k g s t g' s' t' -> shared_ok k (<[i := g']> gs) s' t'.
Proof.
  intros [H Ht] Hi [H' (fresh & Eg & Hs)]. split; [done|].
  assert (forall g, Permutation (List.concat (<[i := g]> gs)) (g ++ List.concat (delete i gs))) as Hp.
  { intros x. clear -Hi. revert i Hi. induction gs as [|y gs IH]; intros i Hi; [done|]. destruct i as [|i]; [done|].
    cbn. change (list_delete i gs) with (delete i gs). rewrite (IH i) by done. by rewrite !app_assoc, (Permutation_app_comm y x). }
  rewrite Hp, app_assoc. pose proof (Hp g) as Hpg. rewrite list_insert_id in Hpg by done. rewrite Hpg in Ht.
  rewrite Eg. etrans; [apply submseteq_app; [exact Hs|done]|]. rewrite <- !app_assoc.
  etrans; [apply submseteq_app; [done|exact Ht]|]. by rewrite Permutation_app_comm.
Qed.

Lemma take_task_ok k gs s t c s' :
  0 <= k <= MAX_TOKEN_NUM -> shared_ok k gs s t -> take_task s = Some (c, s') ->
  shared_ok k gs s' t /\ guaranteed (Pre k) (Step k) (fun _ g => g = []) [] c.
Proof.
  intros Hk [[H1 H2 H3 H4 H5] Ht] E. unfold take_task in E.
  destruct (continuationHandler_ s) as [[|task tasks]|]; [done| |done].
  injection E as <- <-. split; [by split; [split|]|]. by apply run_task_restores.
Qed.

(** What holds when the service was started with a stored token. *)
Lemma OnStart_ok s t :
  OnStart Service_new [] = Done (tt, s, t) -> service_ok (token_ s) s t /\ tokens s = [] /\ draws t = 0%nat /\
    continuationHandler_ s = Some [].
Proof.
  unfold OnStart, mbind, call, from_run, modify, emit, mret. cbn.
  destruct (empty (GetParameter [])); cbn; [|destruct (atoi (GetParameter [])) as [n| |]; cbn; [|done..]];
    intros [= <- <-]; (split; [|done]); (split; [done|constructor|constructor|done|done]).
Qed.

(** Every schedule of a started service keeps its tables. *)
Lemma schedule_ok (moves : list (Move (Z * Request))) s t :
  OnStart Service_new [] = Done (tt, s, t) -> 0 <= token_ s <= MAX_TOKEN_NUM ->
  Forall (admissible_move (fun r => tame r.2)) moves ->
  wp (make_moves moves) (fun _ w' t' => shared_ok (token_ s) [] (shared w') t') (system_of s) t.
Proof.
  intros (Hs & E1 & E2 & _)%OnStart_ok Hk Hm. unfold make_moves.
  eapply wp_mono; [apply (make_moves_guaranteed serve take_task [] (Pre (token_ s)) (Step (token_ s))
    (shared_ok (token_ s)) (fun r => tame r.2)); [..|exact Hm]|].
  - intros gs s' t' i g [H _] _. exact H.
  - intros gs s' t' i g g' s2 t2. apply shared_ok_step.
  - intros gs s' t' [H Ht]. split; [done|]. by rewrite List.concat_app, app_nil_r.
  - intros [a r] Hr. eapply guaranteed_mono; [by apply serve_restores|done].
  - intros gs s' t' c s2. by apply take_task_ok.
  - exists [], []. cbn. split; [split; [done|]; by rewrite E1, E2|]. by split.
  - cbn. intros _ w' t' (g & gs & [H Ht] & _). split; [done|]. cbn. rewrite app_nil_r.
    etrans; [|exact Ht]. by apply submseteq_inserts_r.
Qed.

(** C6 Whatever calls of applications, of the ability manager and of dying notifiers arrive,
    and however their critical sections and the worker's interleave, no section uses a null
    notifier or an absent entry; and until all 100 000 000 tokens have been given, no token
    belongs to two applications or twice to one.  The selections of the panel are left out:
    see [selection_races_with_unregister]. *)
Theorem selection_run_safe (moves : list (Move (Z * Request))) (s : Service) (t : list SelectionEffect) :
  OnStart Service_new [] = Done (tt, s, t) -> 0 <= token_ s <= MAX_TOKEN_NUM ->
  Forall (admissible_move (fun r => tame r.2)) moves ->
  wp (make_moves moves) (fun _ w' t' =>
    Forall callback_ok (callbackMap_ (shared w')) /\
    (Z.of_nat (draws t') <= MAX_TOKEN_NUM -> NoDup (tokens (shared w'))) /\
    0 <= token_ (shared w') <= MAX_TOKEN_NUM) (system_of s) t.
Proof.
  intros Hs Hk Hm. eapply wp_mono; [by apply schedule_ok|]. cbn. intros _ w' t' [H Ht].
  split; [apply H|]. split; [|rewrite (ok_token _ _ _ H); by apply nth_token_range].
  intros Hn. eapply NoDup_part; [|by apply (given_NoDup (token_ s) (draws t'))].
  by rewrite <- (app_nil_r (tokens _)).
Qed.

(** C14 Whatever a service did, a service that is started afterwards with the text it stored last
    goes on with the token after the last one given. *)
Theorem tokens_survive_restart (SE2 : SelectionEnv) (moves : list (Move (Z * Request))) (s : Service) (t : list SelectionEffect) :
  @OnStart _ SE Service_new [] = Done (tt, s, t) -> 0 <= token_ s <= MAX_TOKEN_NUM ->
  Forall (admissible_move (fun r => tame r.2)) moves ->
  wp (@make_moves _ _ SE moves) (fun _ w' t' =>
    stored t' = Some (@GetParameter _ SE2 []) ->
    exists s2 t2, @OnStart _ SE2 Service_new [] = Done (tt, s2, t2) /\ token_ s2 = token_ (shared w')) (system_of s) t.
Proof.
  intros Hs Hk Hm. eapply wp_mono; [by apply schedule_ok|]. cbn. intros _ w' t' [H _] Hst.
  apply (ok_stored _ _ _ H) in Hst.
  assert (0 <= token_ (shared w') < 2 ^ 31) as Hr.
  { rewrite (ok_token _ _ _ H). pose proof (nth_token_range (token_ s) (draws t') Hk) as Hn.
    unfold MAX_TOKEN_NUM in Hn. lia. }
  unfold OnStart, mbind, call, from_run, modify, emit, mret. rewrite Hst.
  rewrite to_string_nonempty, atoi_to_string by done. cbn. by eexists _, _.
Qed.

(** ** Calls that return before another begins *)

Definition action : Type := option (Z * Request).
Definition run_action (a : action) : Sv unit :=
  match a with
  | Some (accessToken, r) => do! run_call accessToken r in mret tt
  | None => run_worker
  end.

Definition notifier_there (a : action) : Prop :=
  match a with Some (_, ReqRegisterCallback _ _ notifier) => notifier <> None | _ => True end.

(** A selection of the panel that nothing interrupts. *)
Lemma on_device_alone k token cbType (handle : option Z -> Sv bool) s t :
  (forall n, quiet k (handle n)) -> service_ok k s t ->
  wp (alone (on_device token cbType handle)) (fun _ s' t' => kept k s t s' t') s t.
Proof.
  intros Hh H. unfold on_device. apply wp_after, wp_atomically. eapply wp_mono; [by apply submit_quiet|].
  intros submitted s1 t1 K1. destruct submitted; cbv beta iota delta [negb]; [|by apply wp_mret].
  apply wp_after, wp_atomically. unfold IsNotifierRegisteredLocked.
  apply wp_mbind, IsNotifierRegistered_wp.
  destruct (map_find (callbackMap_ s1) token) as [[i|]|] eqn:E1; cbv beta iota delta [negb]; try by apply wp_mret, wp_mret.
  apply wp_mbind. eapply deref_notifier_wp; [exact E1|]. apply wp_mret.
  destruct (GetNotifier cbType i) eqn:E2; cbv beta iota delta [negb]; [|by apply wp_mret].
  apply wp_after, wp_atomically, wp_mbind. eapply deref_notifier_wp; [exact E1|]. rewrite E2.
  eapply wp_mono; [apply Hh, K1|]. intros b s2 t2 K2. apply wp_mret. by eapply sel_kept_trans.
Qed.

Lemma restores_alone {A} k (c : Call A) s t :
  restores k c -> service_ok k s t -> wp (alone c) (fun _ s' t' => service_ok k s' t') s t.
Proof.
  intros Hc H. eapply wp_mono;
    [apply (guaranteed_alone (Pre k) (Step k) (fun _ s t => service_ok k s t) (fun _ g => g = []) [] c s t)|].
  - done.
  - intros g s1 t1 g' s2 t2 _ [H2 _]. exact H2.
  - apply Hc.
  - done.
  - cbn. by intros _ s' t' (g & H' & _).
Qed.

Lemma run_action_ok k a s t : 0 <= k <= MAX_TOKEN_NUM ->
  notifier_there a -> service_ok k s t -> wp (run_action a) (fun _ s' t' => service_ok k s' t') s t.
Proof.
  intros Hk Ha H. destruct a as [[accessToken r]|]; cbn [run_action].
  - apply wp_mbind. unfold run_call.
    eapply (wp_mono _ (fun _ s' t' => service_ok k s' t')); [|intros; by apply wp_mret].
    destruct r; try by apply restores_alone; [apply serve_restores|].
    cbn [serve]. apply wp_after. eapply (wp_mono _ (fun _ s' t' => service_ok k s' t')); [|intros; by apply wp_mret].
    assert (forall c, restores k c -> wp (alone c) (fun (_ : Z) s' t' => service_ok k s' t') s t) as Hr
      by (intros; by apply restores_alone).
    assert (forall token cbType task, wp (alone (on_device token cbType (fun n => handle_device n task)))
      (fun _ s' t' => service_ok k s' t') s t) as Hd.
    { intros. eapply wp_mono; [by apply on_device_alone; [intros; apply handle_device_quiet|]|]. by intros ? ? ? []. }
    unfold panel_OnRemoteRequest. destruct (ReadInterfaceToken data) as [d data'].
    destruct (negb _); [by apply wp_mret|]. destruct (code =? _); [|destruct (code =? _)].
    + destruct (panel_arguments data') as [[token results]|]; [apply Hd|by apply wp_mret].
    + destruct (panel_arguments data') as [[token results]|]; [apply Hd|by apply wp_mret].
    + destruct (code =? _); [|by apply wp_mret]. apply Hr, OnDeviceCancel_restores.
  - unfold run_worker. apply wp_mbind, wp_get.
    destruct (take_task s) as [[c s1]|] eqn:E1; [|by apply wp_mret]. apply wp_mbind, wp_modify.
    unfold take_task in E1. destruct (continuationHandler_ s) as [[|task tasks]|]; [done| |done].
    injection E1 as <- <-. apply restores_alone; [by apply run_task_restores|]. by destruct H; split.
Qed.

(** C0 As long as each call returns before the next begins and the tasks run between them, no
    call fails, the selections of the panel included: every notifier that is used is there. *)
Theorem selection_calls_safe (actions : list action) (s : Service) (t : list SelectionEffect) :
  OnStart Service_new [] = Done (tt, s, t) -> 0 <= token_ s <= MAX_TOKEN_NUM ->
  Forall notifier_there actions ->
  wp (mfor actions run_action) (fun _ s' t' => Forall callback_ok (callbackMap_ s')) s t.
Proof.
  intros (Hs & _)%OnStart_ok Hk Ha. eapply wp_mono; [apply (wp_mfor (service_ok (token_ s))); [done|]|].
  - intros a s' t' Hin H. apply run_action_ok; [done| |done]. rewrite List.Forall_forall in Ha. by apply Ha.
  - cbn. intros _ s' t' H. apply H.
Qed.
End Schedules.

(** ** What reaches the application *)
Section Functions.
Context {P : MessageParcel} {PO : MessageParcelOk P} {IC : IpcCodes} {SE : SelectionEnv}.

Lemma submit_wp task tasks s t (Q : bool -> Service -> list SelectionEffect -> Prop) :
  continuationHandler_ s = Some tasks -> Q true (set_handler (Some (tasks ++ [task])) s) t ->
  wp (submit task) Q s t.
Proof. intros E H. unfold submit. apply wp_mbind, wp_get. rewrite E. by apply wp_mbind, wp_modify, wp_mret. Qed.

Lemma run_worker_wp task tasks s t (Q : unit -> Service -> list SelectionEffect -> Prop) :
  continuationHandler_ s = Some (task :: tasks) ->
  wp (alone (run_task task)) Q (set_handler (Some tasks) s) t -> wp run_worker Q s t.
Proof.
  intros E H. unfold run_worker. apply wp_mbind, wp_get. unfold take_task. rewrite E.
  by apply wp_mbind, wp_modify.
Qed.

(** Effects without a request to another process. *)
Definition silent (t : list SelectionEffect) : Prop :=
  Forall (fun e => match e with RequestSent _ _ _ => False | _ => True end) t.

(** Disconnecting the panel leaves the tables and the queue alone. *)
Lemma disconnect_task_wp s t (Q : unit -> Service -> list SelectionEffect -> Prop) :
  (forall c more, silent more -> Q tt (set_connect c s) (t ++ more)) ->
  wp (alone (run_task TaskDisconnectAbility)) Q s t.
Proof.
  intros H. assert (forall more, silent more -> Q tt s (t ++ more)) as H0.
  { intros more Hm. specialize (H (connect_ s) more Hm). by destruct s. }
  cbn [run_task]. unfold DisconnectAbility.
  apply wp_after, wp_after, wp_atomically, wp_mbind, wp_get, wp_mret.
  destruct (connect_ s).
  2:{ apply wp_mret, wp_mret. rewrite <- (app_nil_r t). apply H0. constructor. }
  apply wp_after, wp_atomically, wp_call.
  destruct (negb _); [apply wp_mret, wp_mret, H0; by unfold silent; repeat constructor|].
  apply wp_after, wp_atomically, wp_mbind, wp_get, wp_call.
  apply wp_after, wp_atomically, wp_modify. rewrite <- app_assoc.
  destruct (negb _); apply wp_mret, wp_mret, H; by unfold silent; repeat constructor.
Qed.

(** What the panel writes to tell of a selection. *)
Definition panel_items (token : Z) (results : list ContinuationResult) : list Item :=
  ItemToken APP_DEVICE_CALLBACK_DESCRIPTOR :: ItemInt32 token :: results_items results.

Lemma panel_arguments_read data token results :
  unread data = panel_items token results -> Forall result_texts results ->
  exists data', ReadInterfaceToken data = (Some APP_DEVICE_CALLBACK_DESCRIPTOR, data') /\
    panel_arguments data' = Some (token, results).
Proof.
  intros Hu Ht. destruct (read_token _ data _ Hu) as (p1 & E1 & U1). exists p1. split; [done|].
  unfold panel_arguments. destruct (read_int32 _ p1 _ U1) as (p2 & -> & U2).
  rewrite <- (app_nil_r (results_items results)) in U2.
  by destruct (ReadContinuationResults_takes results Ht p2 [] U2) as (p3 & -> & _).
Qed.

(** The codes and names of a selection and of its withdrawal. *)
Definition panel_code (selected : bool) : Z := if selected then CALLBACK_DEVICE_CONNECT else CALLBACK_DEVICE_DISCONNECT.
Definition event_name (selected : bool) : bytes := if selected then EVENT_CONNECT else EVENT_DISCONNECT.
Definition notifier_code (selected : bool) : Z := if selected then EVENT_DEVICE_CONNECT else EVENT_DEVICE_DISCONNECT.
Definition told (selected : bool) (results : list ContinuationResult) : Selection :=
  if selected then Selected results else Unselected results.

(** C13 When the panel reports the devices that a user selected or deselected for a token, and the
    worker then runs its two tasks, the application's notifier of that event, and no other,
    has a request from which its stub reads exactly those devices. *)
Theorem selection_reaches_app (selected : bool) panel token n i results data s t :
  unread data = panel_items token results ->
  map_find (callbackMap_ s) token = Some (Some i) -> GetNotifier (event_name selected) i = Some n ->
  continuationHandler_ s = Some [] ->
  Forall result_texts results -> Z.of_nat (length results) < 2 ^ 31 ->
  room Parcel_new (ItemToken DEVICE_SELECTION_NOTIFIER_INTERFACE_TOKEN :: results_items results) ->
  wp (let! a := run_call panel (ReqPanel (panel_code selected) data) in
      do! run_worker in do! run_worker in mret a)
    (fun a s' t' => a = (ERR_OK, None) /\ continuationHandler_ s' = Some [] /\
      exists before data', t' = t ++ before ++ [RequestSent n (notifier_code selected) data'] /\ silent before /\
        notifier_OnRemoteRequest (notifier_code selected) data' = (ERR_OK, Some (told selected results))) s t.
Proof.
  intros Hu Hi Hn Hq Ht Hl Hr.
  destruct (panel_arguments_read _ _ _ Hu Ht) as (data1 & E1 & E2).
  destruct (selection_arrives results Ht Hl Hr) as (sent & E3 & E4 & E5).
  apply wp_mbind. unfold run_call. cbn [serve]. apply wp_after.
  assert (forall Q, Q ERR_OK (set_handler (Some [TaskDisconnectAbility;
      if selected then TaskDeviceConnect n results else TaskDeviceDisconnect n results]) s) t ->
    wp (alone (panel_OnRemoteRequest (panel_code selected) data)) Q s t) as Hcall.
  { intros Q HQ. unfold panel_OnRemoteRequest. rewrite E1. cbn [default]. rewrite bytes_eqb_refl. cbn [negb].
    rewrite E2.
    assert (forall cbType task, GetNotifier cbType i = Some n ->
      Q ERR_OK (set_handler (Some [TaskDisconnectAbility; task n]) s) t ->
      wp (alone (on_device token cbType (fun notifier => handle_device notifier task))) Q s t) as Hd.
    { intros cbType task Hc HQ'. unfold on_device. apply wp_after, wp_atomically. eapply submit_wp; [exact Hq|].
      cbv beta iota delta [negb]. apply wp_after, wp_atomically. unfold IsNotifierRegisteredLocked.
      apply wp_mbind, IsNotifierRegistered_wp. cbn [callbackMap_ set_handler]. rewrite Hi.
      cbv beta iota delta [negb]. apply wp_mbind. eapply deref_notifier_wp; [exact Hi|]. rewrite Hc. apply wp_mret.
      cbv beta iota delta [negb]. apply wp_after, wp_atomically, wp_mbind.
      eapply deref_notifier_wp; [exact Hi|]. rewrite Hc. unfold handle_device. apply wp_mbind, wp_get.
      cbn [continuationHandler_ set_handler]. eapply submit_wp; [reflexivity|]. by apply wp_mret. }
    destruct selected; [by apply Hd|by apply Hd]. }
  apply Hcall. apply wp_mret. apply wp_mbind. eapply run_worker_wp; [reflexivity|].
  apply disconnect_task_wp. intros c before Hb. apply wp_mbind. eapply run_worker_wp; [reflexivity|].
  assert (forall Q, Q tt (set_handler (Some []) (set_connect c (set_handler (Some []) s)))
      ((t ++ before) ++ [RequestSent n (notifier_code selected) sent]) ->
    wp (alone (run_task (if selected then TaskDeviceConnect n results else TaskDeviceDisconnect n results))) Q
      (set_handler (Some []) (set_connect c (set_handler (Some []) s))) (t ++ before)) as Ht2.
  { intros Q HQ. destruct selected; cbn [run_task]; unfold tell_notifier, send_request; rewrite E3;
      by apply wp_after, wp_atomically, wp_call, wp_mret. }
  apply Ht2, wp_mret. split; [done|]. split; [done|]. exists before, sent. rewrite <- app_assoc.
  split; [done|]. split; [done|]. by destruct selected.
Qed.

(** ** What a token leaves behind *)

(** Nothing is kept for the token, and everything for the others. *)
Definition forgotten (token : Z) (s s' : Service) : Prop :=
  (token ∉ tokens s') /\ map_find (callbackMap_ s') token = None /\
  (forall x, x <> token -> x ∈ tokens s -> x ∈ tokens s') /\
  (forall x, x <> token -> map_find (callbackMap_ s') x = map_find (callbackMap_ s) x).

Lemma forget_notifiers_wp k token s t (Q : unit -> Service -> list SelectionEffect -> Prop) :
  service_ok k s t ->
  (forall s' t', service_ok k s' t' -> map_find (callbackMap_ s') token = None ->
    (forall x, x <> token -> map_find (callbackMap_ s') x = map_find (callbackMap_ s) x) ->
    tokenMap_ s' = tokenMap_ s -> continuationHandler_ s' = continuationHandler_ s -> Q tt s' t') ->
  wp (forget_notifiers token) Q s t.
Proof.
  intros H HQ. unfold forget_notifiers. apply wp_mbind, IsNotifierRegistered_wp.
  destruct (map_find (callbackMap_ s) token) as [o|] eqn:E1.
  2:{ apply wp_mret. by apply HQ. }
  destruct (callback_found _ _ _ _ _ H E1) as (i & -> & Hi). apply wp_mbind.
  eapply deref_notifier_wp; [exact E1|]. apply wp_mbind.
  assert (wp (RemoveDeathRecipient i []) (fun _ s' t' => s' = s /\ service_ok k s t') s t) as Hw.
  { unfold RemoveDeathRecipient. cbn [empty].
    apply (wp_mfor (fun s' t' => s' = s /\ service_ok k s t')); [done|].
    intros e s' t' He (-> & H'). destruct Hi as [_ Hi]. rewrite List.Forall_forall in Hi. specialize (Hi _ He).
    unfold remove_recipient. destruct (e.2) as [n|]; [|done]. apply wp_emit. split; [done|].
    by apply (sel_kept_emit k s t'). }
  eapply wp_mono; [exact Hw|]. intros _ ? t' (-> & H'). apply wp_modify. apply HQ; [..|done|done]; cbn.
  - destruct H' as [H1 H2 H3 H4 H5]. split; [by apply Forall_map_erase|done..].
  - apply map_find_erase_eq.
  - intros x Hx. apply map_find_erase_ne. rewrite Z_key_eq. by apply Z.eqb_neq.
Qed.

(** The end of [Unregister], and all that the death of a notifier does for its token. *)
Lemma forget_wp {A} k token (c : Call A) tasks s t (Q : A -> Service -> list SelectionEffect -> Prop) :
  service_ok k s t -> NoDup (tokens s) -> continuationHandler_ s = Some tasks ->
  (forall s' t', forgotten token s s' -> continuationHandler_ s' = Some (tasks ++ [TaskDisconnectAbility]) ->
    wp (alone c) Q s' t') ->
  wp (alone (step! _ := atomically (forget_notifiers token) in
             step! _ := atomically (forget_token token) in
             step! _ := atomically HandleDisconnectAbility in c)) Q s t.
Proof.
  intros H Hd Hq Hc. apply wp_after, wp_atomically. eapply forget_notifiers_wp; [exact H|].
  intros s1 t1 H1 E1 E2 E3 E4. apply wp_after, wp_atomically, wp_modify, wp_after, wp_atomically.
  eapply submit_wp; [cbn; by rewrite E4|]. apply Hc; [|by cbn]. repeat split; cbn.
  - unfold tokens. cbn. rewrite E3. apply erase_token_gone; [done|]. rewrite <- E3. apply H1.
  - done.
  - unfold tokens. cbn. rewrite E3. intros x Hx. by apply erase_token_others.
  - done.
Qed.

(** C0 An application that gives back a token of its own has a success, and then the service keeps
    neither token nor notifiers of it, whatever the others have registered stays, and the
    panel is due to be disconnected. *)
Theorem unregister_frees k accessToken token l tasks s t :
  (forall t, VerifyAccessToken t = true) -> service_ok k s t -> NoDup (tokens s) ->
  map_find (tokenMap_ s) accessToken = Some l -> token ∈ l -> continuationHandler_ s = Some tasks ->
  wp (run_call accessToken (ReqUnregister token)) (fun a s' t' =>
    a = (ERR_OK, None) /\ forgotten token s s' /\
    continuationHandler_ s' = Some (tasks ++ [TaskDisconnectAbility])) s t.
Proof.
  intros Hp H Hd Hl Hin Hq. unfold run_call. cbn [serve]. unfold Unregister.
  apply wp_after, wp_atomically, wp_call. rewrite Hp. cbn [negb].
  apply wp_after, wp_atomically. unfold IsTokenRegistered. apply wp_mbind, wp_get, wp_mret. rewrite Hl.
  assert (existsb (Z.eqb token) l = true) as ->.
  { apply existsb_exists. exists token. split; [by apply list_elem_of_In|apply Z.eqb_refl]. }
  cbv beta iota delta [negb]. apply (forget_wp k token _ tasks); [|done|done|].
  - by apply (sel_kept_emit k s t).
  - intros s' t' Hf Hq'. by apply wp_mret.
Qed.

(** C15 When a watched notifier dies, the worker's next turn forgets the first token it was
    registered for, with all its notifiers, and leaves every other token alone. *)
Theorem dead_notifier_forgotten k accessToken n token s t :
  service_ok k s t -> NoDup (tokens s) -> query_token n (callbackMap_ s) = Some token ->
  continuationHandler_ s = Some [] ->
  wp (do! run_call accessToken (ReqNotifierDied (Some n)) in run_worker) (fun _ s' _ =>
    forgotten token s s' /\ continuationHandler_ s' = Some [TaskDisconnectAbility]) s t.
Proof.
  intros H Hd Hn Hq. apply wp_mbind. unfold run_call. cbn [serve]. unfold ProcessNotifierDied.
  apply wp_after, wp_atomically, wp_mbind. eapply submit_wp; [exact Hq|]. apply wp_mret, wp_mret.
  eapply run_worker_wp; [reflexivity|]. cbn [run_task]. unfold notifier_died.
  apply wp_after, wp_atomically. unfold QueryTokenByNotifier. apply wp_mbind, wp_get, wp_mret.
  cbn [callbackMap_ set_handler]. rewrite Hn.
  apply (forget_wp k token _ []); [|done|done|].
  - destruct H as [H1 H2 H3 H4 H5]. by split.
  - intros s' t' (F1 & F2 & F3 & F4) Hq'. apply wp_mret. split; [|done]. done.
Qed.

(** The token that a call of an application is about. *)
Definition about (token : Z) (r : Request) : Prop :=
  match r with
  | ReqUnregister x | ReqRegisterCallback x _ _ | ReqUnregisterCallback x _ | ReqUpdateConnectStatus x _ _
  | ReqStartDeviceManager x _ | ReqStartDeviceManagerWithoutExtraParam x => x = token
  | _ => False
  end.

Definition registered (s : Service) (accessToken token : Z) : bool :=
  match map_find (tokenMap_ s) accessToken with Some l => existsb (Z.eqb token) l | None => false end.

(** C28 A call about a token that the caller does not own is refused with an error and changes
    nothing, whatever else is wrong or right with it. *)
Theorem foreign_token_refused accessToken token (r : Request) s t :
  registered s accessToken token = false -> about token r -> ERR_NULL_OBJECT <> ERR_OK ->
  wp (run_call accessToken r) (fun a s' _ => a.1 <> ERR_OK /\ a.2 = None /\ s' = s) s t.
Proof.
  intros Hr Ha Hn. unfold run_call.
  assert (forall (c : bool -> Call Answer), c false = answer TOKEN_HAS_NOT_REGISTERED ->
    forall t, wp (alone (after (atomically (IsTokenRegistered accessToken token)) c))
      (fun a s' _ => a.1 <> ERR_OK /\ a.2 = None /\ s' = s) s t) as Hc.
  { intros c Ec t'. apply wp_after, wp_atomically. unfold IsTokenRegistered. apply wp_mbind, wp_get, wp_mret.
    unfold registered in Hr. rewrite Hr, Ec. by apply wp_mret. }
  destruct r; cbn [about] in Ha; try done; subst; cbn [serve];
    unfold Unregister, RegisterDeviceSelectionCallback, UnregisterDeviceSelectionCallback, UpdateConnectStatus,
      StartDeviceManager, StartDeviceManagerWithoutExtraParam, start_registered;
    apply wp_after, wp_atomically, wp_call; destruct (VerifyAccessToken t); cbv beta iota delta [negb];
    try (by apply wp_mret);
    repeat match goal with |- wp (alone (if ?b then _ else _)) _ _ _ => destruct b; [by apply wp_mret|] end;
    by apply Hc.
Qed.

(** ** The panel *)

Definition status_items (info : option ConnectStatusInfo) : list Item :=
  match info with
  | None => [ItemInt32 VALUE_NULL]
  | Some c => [ItemInt32 VALUE_OBJECT; string_item (deviceId_ c); ItemInt32 (deviceConnectStatus_ c)]
  end.
Definition start_items (token : Z) (params : option ContinuationExtraParams) (info : option ConnectStatusInfo) : list Item :=
  [ItemToken HIPLAY_PANEL_INTERFACE_TOKEN; ItemInt32 token] ++
  match params with
  | None => [ItemInt32 VALUE_NULL]
  | Some e => ItemInt32 VALUE_OBJECT :: ItemParcelable :: params_items e
  end ++ [ItemRemoteObject AppDeviceCallback] ++ status_items info.

Lemma write_params_appends params p l :
  match params with Some e => is_int32 (continuationMode_ e) | None => True end ->
  room p (match params with
    | None => [ItemInt32 VALUE_NULL]
    | Some e => ItemInt32 VALUE_OBJECT :: ItemParcelable :: params_items e
    end ++ l) ->
  exists p', write_params params p = Some p' /\ room p' l /\
    unread p' = unread p ++ match params with
      | None => [ItemInt32 VALUE_NULL]
      | Some e => ItemInt32 VALUE_OBJECT :: ItemParcelable :: params_items e
      end.
Proof.
  intros Hm Hr. unfold write_params. destruct params as [e|].
  - destruct (checked_appends _ _ _ _ (write_int32 VALUE_OBJECT ltac:(done)) Hr) as (p1 & -> & U1 & R1).
    destruct (checked_appends _ _ _ _ (write_parcelable _ _ (params_Marshalling_appends e Hm)) R1) as (p2 & -> & U2 & R2).
    exists p2. by rewrite U2, U1, <- app_assoc.
  - destruct (checked_appends _ _ _ _ (write_int32 VALUE_NULL ltac:(done)) Hr) as (p1 & -> & U1 & R1). by exists p1.
Qed.

Lemma write_status_appends info p l :
  match info with Some c => is_int32 (deviceConnectStatus_ c) | None => True end ->
  room p (status_items info ++ l) ->
  exists p', write_status info p = Some p' /\ room p' l /\ unread p' = unread p ++ status_items info.
Proof.
  intros Hs Hr. unfold write_status. destruct info as [c|]; cbn [status_items] in *.
  - destruct (checked_appends _ _ _ _ (write_int32 VALUE_OBJECT ltac:(done)) Hr) as (p1 & -> & U1 & R1).
    destruct (checked_appends _ _ _ _ (write_string (deviceId_ c)) R1) as (p2 & -> & U2 & R2).
    destruct (checked_appends _ _ _ _ (write_int32 _ Hs) R2) as (p3 & -> & U3 & R3).
    exists p3. by rewrite U3, U2, U1, <- !app_assoc.
  - destruct (checked_appends _ _ _ _ (write_int32 VALUE_NULL ltac:(done)) Hr) as (p1 & -> & U1 & R1). by exists p1.
Qed.

(** C0 When the panel is connected, starting it for a token is answered with success, and the
    worker then asks the panel once, with the token, the parameters, a callback and the connect
    status that was last set for the token. *)
Theorem start_reaches_panel accessToken token params proxy i s t :
  (forall t, VerifyAccessToken t = true) -> is_int32 token ->
  match params with Some e => IsContinuationModeValid (continuationMode_ e) = true | None => True end ->
  match connectStatusInfo_ i with Some c => is_int32 (deviceConnectStatus_ c) | None => True end ->
  registered s accessToken token = true -> map_find (callbackMap_ s) token = Some (Some i) ->
  appProxy_ s = Some proxy -> continuationHandler_ s = Some [] ->
  room Parcel_new (start_items token params (connectStatusInfo_ i)) ->
  wp (let! a := run_call accessToken (ReqStartDeviceManager token params) in do! run_worker in mret a)
    (fun a s' t' => a = (ERR_OK, None) /\ s' = s /\
      exists data, t' = t ++ [PermissionChecked accessToken; RequestSent proxy START_DEVICE_MANAGER_CODE data] /\
        unread data = start_items token params (connectStatusInfo_ i)) s t.
Proof.
  intros Hp Htok Hm Hs Hr Hi Ha Hq Hroom. apply wp_mbind. unfold run_call. cbn [serve]. unfold StartDeviceManager.
  apply wp_after, wp_atomically, wp_call. rewrite Hp. cbv beta iota delta [negb].
  assert (valid_params params = true) as -> by (by destruct params). cbv beta iota delta [negb].
  unfold start_registered. apply wp_after, wp_atomically. unfold IsTokenRegistered. apply wp_mbind, wp_get, wp_mret.
  unfold registered in Hr. rewrite Hr. cbv beta iota delta [negb].
  apply wp_after, wp_atomically, IsNotifierRegistered_wp. rewrite Hi. cbv beta iota delta [negb].
  apply wp_after, wp_atomically, wp_mbind, wp_get. rewrite Ha. apply wp_mbind. unfold HandleStartDeviceManager.
  apply wp_mbind, wp_get, wp_mbind. eapply submit_wp; [exact Hq|]. apply wp_mret, wp_mret, wp_mret.
  apply wp_mbind. eapply run_worker_wp; [reflexivity|]. cbn [run_task]. unfold start_device_manager.
  unfold start_items in Hroom. cbn [app] in Hroom.
  destruct (checked_appends _ _ _ _ (write_token HIPLAY_PANEL_INTERFACE_TOKEN) Hroom) as (p1 & -> & U1 & R1).
  destruct (checked_appends _ _ _ _ (write_int32 token Htok) R1) as (p2 & -> & U2 & R2).
  assert (match params with Some e => is_int32 (continuationMode_ e) | None => True end) as Hm32.
  { destruct params as [e|]; [|done]. unfold IsContinuationModeValid, COLLABORATION_SINGLE, COLLABORATION_MUTIPLE in Hm.
    apply negb_true_iff, orb_false_iff in Hm as [Hm1%Z.ltb_ge Hm2%Z.ltb_ge]. unfold is_int32. lia. }
  destruct (write_params_appends params p2 _ Hm32 R2) as (p3 & -> & R3 & U3).
  destruct (checked_appends _ _ _ _ (write_remote_object AppDeviceCallback) R3) as (p4 & -> & U4 & R4).
  apply wp_after, wp_atomically. unfold connect_status. apply wp_mbind, IsNotifierRegistered_wp.
  cbn [callbackMap_ set_handler]. rewrite Hi. cbv beta iota delta [negb]. apply wp_mbind.
  eapply deref_notifier_wp; [exact Hi|]. apply wp_mret. rewrite <- (app_nil_r (status_items _)) in R4.
  destruct (write_status_appends _ p4 [] Hs R4) as (p5 & -> & R5 & U5). rewrite Ha. unfold send_request.
  apply wp_after, wp_atomically, wp_call, wp_mret, wp_mret. split; [done|]. split.
  - cbn. rewrite <- Hq. by destruct s.
  - exists p5. split; [by rewrite <- app_assoc|]. unfold start_items.
    by rewrite U5, U4, U3, U2, U1, unread_new, <- !app_assoc.
Qed.

(** ** What goes wrong *)

(** C0 While the panel that was started for one token is being connected, a start for another
    token is answered with success although it is recorded nowhere: the connection that is made
    is again the first one's, and the panel will be told of the first token only. *)
Theorem start_while_connecting_lost accessToken token params c s t account more infos :
  (forall t, VerifyAccessToken t = true) -> valid_params params = true ->
  registered s accessToken token = true ->
  (exists i, map_find (callbackMap_ s) token = Some (Some i)) ->
  appProxy_ s = None -> connect_ s = Some c ->
  (forall t, QueryActiveOsAccountIds t = Some (account :: more)) -> (forall t, GetBundleManager t = true) ->
  (forall t, exists b n, empty b = false /\ empty n = false /\ QueryExtensionAbilityInfos t = (b, n) :: infos) ->
  (forall t, AbilityManager_Connect t = ERR_OK) -> (forall t, AbilityManager_ConnectAbility t = ERR_OK) ->
  wp (run_call accessToken (ReqStartDeviceManager token params))
    (fun a s' t' => a = (ERR_OK, None) /\ s' = s /\
      t' = t ++ [PermissionChecked accessToken; AccountsQueried; SystemAbilityQueried; ExtensionsQueried account;
                 AbilityManagerConnected; PanelConnected (Some c) account]) s t.
Proof.
  intros Hp Hv Hr (i & Hi) Ha Hc Hacc Hb He H1 H2. unfold run_call. cbn [serve]. unfold StartDeviceManager.
  apply wp_after, wp_atomically, wp_call. rewrite Hp, Hv. cbv beta iota delta [negb].
  unfold start_registered. apply wp_after, wp_atomically. unfold IsTokenRegistered. apply wp_mbind, wp_get, wp_mret.
  unfold registered in Hr. rewrite Hr. cbv beta iota delta [negb].
  apply wp_after, wp_atomically, IsNotifierRegistered_wp. rewrite Hi. cbv beta iota delta [negb].
  apply wp_after, wp_atomically, wp_mbind, wp_get. rewrite Ha. apply wp_mret.
  apply wp_after. unfold ConnectAbility. apply wp_after, wp_atomically, wp_call. rewrite Hacc.
  apply wp_after, wp_atomically. unfold QueryExtensionAbilityInfo. apply wp_mbind, wp_call. rewrite Hb.
  cbv beta iota delta [negb]. apply wp_mbind, wp_call, wp_mret.
  match goal with |- context [QueryExtensionAbilityInfos ?t] => destruct (He t) as (b & n & Eb & En & ->) end.
  rewrite Eb, En. cbv beta iota delta [negb orb].
  apply wp_after, wp_atomically, wp_modify. rewrite Hc.
  apply wp_after, wp_atomically, wp_call. rewrite H1. cbn [ERR_OK Z.eqb negb].
  apply wp_after, wp_atomically, wp_mbind, wp_get, wp_call. rewrite H2. cbn [ERR_OK Z.eqb negb].
  apply wp_mret. rewrite Hc. apply wp_mret. split; [done|]. split; [done|]. by rewrite <- !app_assoc.
Qed.

(** C0 Only the first notifier of a token is watched: one that is registered for the token's other
    event is entered, but nobody will tell the service when its application dies. *)
Theorem second_notifier_unwatched accessToken token cbType n i s t :
  (forall t, VerifyAccessToken t = true) -> cbType = EVENT_CONNECT \/ cbType = EVENT_DISCONNECT ->
  registered s accessToken token = true -> map_find (callbackMap_ s) token = Some (Some i) ->
  GetNotifier cbType i = None ->
  wp (run_call accessToken (ReqRegisterCallback token cbType (Some n)))
    (fun a s' t' => a = (ERR_OK, None) /\ t' = t ++ [PermissionChecked accessToken] /\
      map_find (callbackMap_ s') token = Some (Some (SetNotifier cbType (Some n) i))) s t.
Proof.
  intros Hp Hc Hr Hi Hg. unfold run_call. cbn [serve]. unfold RegisterDeviceSelectionCallback.
  apply wp_after, wp_atomically, wp_call. rewrite Hp. cbv beta iota delta [negb].
  assert (negb (bytes_eqb cbType EVENT_CONNECT) && negb (bytes_eqb cbType EVENT_DISCONNECT) = false) as E1.
  { destruct Hc as [-> | ->]; by rewrite bytes_eqb_refl, ?andb_false_r. }
  unfold negb in E1. rewrite E1.
  apply wp_after, wp_atomically. unfold IsTokenRegistered. apply wp_mbind, wp_get, wp_mret.
  unfold registered in Hr. rewrite Hr. apply wp_after, wp_atomically.
  unfold IsNotifierRegisteredLocked. apply wp_mbind, IsNotifierRegistered_wp. rewrite Hi.
  cbv beta iota delta [negb]. apply wp_mbind. eapply deref_notifier_wp; [exact Hi|]. rewrite Hg. apply wp_mret.
  apply wp_after, wp_atomically. unfold enter_notifier. apply wp_mbind, wp_get. rewrite Hi.
  apply wp_mbind, wp_modify, wp_mret, wp_mret. split; [done|]. split; [done|]. cbn. apply map_find_assign_eq.
Qed.

(** C0 The death of an application whose notifier is registered for two tokens forgets only the
    first of them; the other keeps its notifier. *)
Theorem dead_app_keeps_second_token k accessToken n token token2 i2 s t :
  service_ok k s t -> NoDup (tokens s) -> query_token n (callbackMap_ s) = Some token ->
  continuationHandler_ s = Some [] -> token2 <> token ->
  map_find (callbackMap_ s) token2 = Some (Some i2) -> QueryNotifier (Some n) i2 = true ->
  wp (do! run_call accessToken (ReqNotifierDied (Some n)) in do! run_worker in run_worker) (fun _ s' _ =>
    continuationHandler_ s' = Some [] /\ map_find (callbackMap_ s') token2 = Some (Some i2)) s t.
Proof.
  intros H Hd Hn Hq Ht Hi2 _. apply wp_mbind. unfold run_call. cbn [serve]. unfold ProcessNotifierDied.
  apply wp_after, wp_atomically, wp_mbind. eapply submit_wp; [exact Hq|]. apply wp_mret, wp_mret, wp_mbind.
  eapply run_worker_wp; [reflexivity|]. cbn [run_task]. unfold notifier_died.
  apply wp_after, wp_atomically. unfold QueryTokenByNotifier. apply wp_mbind, wp_get, wp_mret.
  cbn [callbackMap_ set_handler]. rewrite Hn.
  apply (forget_wp k token _ []); [|done|done|].
  - destruct H as [H1 H2 H3 H4 H5]. by split.
  - intros s' t' (F1 & F2 & F3 & F4) Hq'. apply wp_mret. eapply run_worker_wp; [exact Hq'|].
    apply disconnect_task_wp. intros c more _. cbn. split; [done|]. by rewrite F4.
Qed.
End Functions.

(** ** A service that can be run *)
Module DemoSelection.
Import Items.

#[export] Instance codes : IpcCodes := {|
  ERR_INVALID_VALUE := 22; ERR_INVALID_STATE := 5; ERR_INVALID_DATA := 6; ERR_NULL_OBJECT := 7;
  ERR_FLATTEN_OBJECT := 8; ERR_NONE := 0; IPCObjectStub_OnRemoteRequest := 305
|}.

#[export] Instance env : SelectionEnv := {|
  VerifyAccessToken _ := true;
  GetParameter _ := str "41";
  QueryActiveOsAccountIds _ := Some [100];
  GetBundleManager _ := true;
  QueryExtensionAbilityInfos _ := [(str "panel", str "select")];
  AbilityManager_Connect _ := 0;
  AbilityManager_ConnectAbility _ := 0;
  AbilityManager_DisconnectAbility _ := 0;
  SendRequest _ := 0;
  AppDeviceCallback := 900;
  ABILITY_CONNECTION_DESCRIPTOR := str "ohos.abilityshell.AbilityConnection";
  ON_ABILITY_CONNECT_DONE := 1;
  ON_ABILITY_DISCONNECT_DONE := 2;
  ReadElementName p := (Some tt, p)
|}.

(** The environment of a later start, which has what the service stored. *)
Definition env_later : SelectionEnv := {|
  VerifyAccessToken _ := true;
  GetParameter _ := str "43";
  QueryActiveOsAccountIds _ := Some [100];
  GetBundleManager _ := true;
  QueryExtensionAbilityInfos _ := [(str "panel", str "select")];
  AbilityManager_Connect _ := 0;
  AbilityManager_ConnectAbility _ := 0;
  AbilityManager_DisconnectAbility _ := 0;
  SendRequest _ := 0;
  AppDeviceCallback := 900;
  ABILITY_CONNECTION_DESCRIPTOR := str "ohos.abilityshell.AbilityConnection";
  ON_ABILITY_CONNECT_DONE := 1;
  ON_ABILITY_DISCONNECT_DONE := 2;
  ReadElementName p := (Some tt, p)
|}.

Definition app : Z := 1.
Definition panel : Z := 9.
Definition started : Service := mkService 41 [] [] None None (Some []).
Definition phone : ContinuationResult := mkContinuationResult (str "id") (str "phone") (str "Phone").
Definition selection : Parcel := panel_items 42 [phone].

Lemma service_started : OnStart Service_new [] = Done (tt, started, [ParameterRead; ServicePublished]).
Proof. reflexivity. Defined.

(** One application has the tokens 42 and 43, and its notifier is registered for both. *)
Definition info : NotifierInfo := mkNotifierInfo [(EVENT_CONNECT, Some 7)] None.
Definition ready : Service :=
  mkService 43 [(app, [42; 43])] [(42, Some info); (43, Some info)] None None (Some []).
Definition ready_trace : list SelectionEffect := [ParameterSet (str "42"); ParameterSet (str "43")].

Lemma selection_ready_ok : service_ok 41 ready ready_trace.
Proof.
  split; cbn.
  - by repeat constructor.
  - by repeat constructor.
  - by repeat constructor.
  - reflexivity.
  - intros v [= <-]. reflexivity.
Defined.

Lemma ready_distinct : NoDup (tokens ready).
Proof. by apply (bool_decide_unpack _). Defined.

(** The panel reports a selection for token 42 while the application gives the token back: the
    notifier is there when it is asked for and gone when it is used. *)
Definition race : list (Move (Z * Request)) :=
  [Arrive (panel, ReqPanel CALLBACK_DEVICE_CONNECT selection); Arrive (app, ReqUnregister 42);
   Proceed 0; Proceed 0; Proceed 1; Proceed 1; Proceed 1; Proceed 0].

(** C0 A selection of the panel that arrives while the application gives its token back
    dereferences the null pointer that [callbackMap_[token]] makes. *)
Theorem selection_races_with_unregister : make_moves race (system_of ready) ready_trace = Undefined.
Proof. reflexivity. Qed.

(** C0 Two calls of an application that has 599 tokens are both let in when they are counted
    before either token is entered: it then has one more than the limit. *)
Theorem limit_passed_by_race :
  match make_moves
    [Arrive (app, ReqRegisterWithoutExtraParam); Arrive (app, ReqRegisterWithoutExtraParam);
     Proceed 0; Proceed 1; Proceed 0; Proceed 1; Proceed 0; Proceed 1; Proceed 0; Proceed 1]
    (system_of (mkService 599 [(app, List.map Z.of_nat (seq 1 599))] [] None None (Some []))) []
  with
  | Done (_, w, _) => Z.of_nat (length (tokens (shared w))) = MAX_REGISTER_NUM + 1 /\
      List.map (fun c => match c with Finished a => Some a | _ => None end) (calls w) =
        [Some (ERR_OK, Some 600); Some (ERR_OK, Some 601)]
  | _ => False
  end.
Proof. vm_compute. by split. Qed.

(** ** Witnesses *)

(** Two applications register and one gives its token back, with their sections interleaved. *)
Definition busy : list (Move (Z * Request)) :=
  [Arrive (app, ReqRegisterWithoutExtraParam); Arrive (2, ReqRegisterWithoutExtraParam);
   Proceed 0; Proceed 1; Proceed 0; Proceed 1; Proceed 1; Proceed 0; Proceed 0; Proceed 1;
   Arrive (2, ReqRegisterCallback 42 EVENT_CONNECT (Some 7)); Proceed 2; Proceed 2; Proceed 2; Proceed 2;
   Arrive (2, ReqUnregister 42); Arrive (panel, ReqNotifierDied (Some 7));
   Proceed 3; Proceed 4; Proceed 3; Work; Proceed 3; Work; Proceed 3; Proceed 3; Work; Work].

Lemma busy_admissible : Forall (admissible_move (fun r : Z * Request => tame r.2)) busy.
Proof. by repeat constructor. Defined.

Lemma selection_run_safe_witness :
  wp (make_moves busy) (fun _ w' t' =>
    Forall callback_ok (callbackMap_ (shared w')) /\
    (Z.of_nat (draws t') <= MAX_TOKEN_NUM -> NoDup (tokens (shared w'))) /\
    0 <= token_ (shared w') <= MAX_TOKEN_NUM) (system_of started) [ParameterRead; ServicePublished].
Proof. apply selection_run_safe; [exact service_started|done|exact busy_admissible]. Defined.

Lemma tokens_survive_restart_witness :
  wp (make_moves busy) (fun _ w' t' =>
    stored t' = Some (@GetParameter _ env_later []) ->
    exists s2 t2, @OnStart _ env_later Service_new [] = Done (tt, s2, t2) /\ token_ s2 = token_ (shared w'))
    (system_of started) [ParameterRead; ServicePublished].
Proof. apply (tokens_survive_restart env_later); [exact service_started|done|exact busy_admissible]. Defined.

(** The text is the one that the run above stored last. *)
Lemma busy_stored : match make_moves busy (system_of started) [ParameterRead; ServicePublished] with
  | Done (_, w, t) => stored t = Some (@GetParameter _ env_later []) /\ token_ (shared w) = 43
  | _ => False
  end.
Proof. vm_compute. by split. Qed.

Definition one_by_one : list action :=
  [Some (app, ReqRegisterWithoutExtraParam); Some (app, ReqRegisterCallback 42 EVENT_CONNECT (Some 7));
   Some (panel, ReqPanel CALLBACK_DEVICE_CONNECT selection); None; None].

Lemma selection_calls_safe_witness :
  wp (mfor one_by_one run_action) (fun _ s' t' => Forall callback_ok (callbackMap_ s')) started
    [ParameterRead; ServicePublished].
Proof.
  apply selection_calls_safe; [exact service_started|done|]. by repeat constructor.
Defined.

Lemma selection_reaches_app_witness :
  wp (let! a := run_call panel (ReqPanel (panel_code true) selection) in
      do! run_worker in do! run_worker in mret a)
    (fun a s' t' => a = (ERR_OK, None) /\ continuationHandler_ s' = Some [] /\
      exists before data', t' = ready_trace ++ before ++ [RequestSent 7 (notifier_code true) data'] /\ silent before /\
        notifier_OnRemoteRequest (notifier_code true) data' = (ERR_OK, Some (told true [phone]))) ready ready_trace.
Proof.
  apply (selection_reaches_app true panel 42 7 info [phone]); [reflexivity|reflexivity|reflexivity|reflexivity|
    by repeat constructor|reflexivity|exact I].
Defined.

Lemma unregister_frees_witness :
  wp (run_call app (ReqUnregister 42)) (fun a s' t' =>
    a = (ERR_OK, None) /\ forgotten 42 ready s' /\
    continuationHandler_ s' = Some ([] ++ [TaskDisconnectAbility])) ready ready_trace.
Proof.
  apply (unregister_frees 41 app 42 [42; 43]); [reflexivity|exact selection_ready_ok|exact ready_distinct|reflexivity|
    by left|reflexivity].
Defined.

Lemma dead_notifier_forgotten_witness :
  wp (do! run_call panel (ReqNotifierDied (Some 7)) in run_worker) (fun _ s' _ =>
    forgotten 42 ready s' /\ continuationHandler_ s' = Some [TaskDisconnectAbility]) ready ready_trace.
Proof.
  apply (dead_notifier_forgotten 41); [exact selection_ready_ok|exact ready_distinct|reflexivity|reflexivity].
Defined.

Lemma foreign_token_refused_witness :
  wp (run_call 2 (ReqUnregister 42)) (fun a s' _ => a.1 <> ERR_OK /\ a.2 = None /\ s' = ready) ready ready_trace.
Proof. apply (foreign_token_refused 2 42); [reflexivity|reflexivity|done]. Defined.

Definition shown : Service :=
  mkService 43 [(app, [42; 43])] [(42, Some info); (43, Some info)] None (Some 55) (Some []).

Lemma start_reaches_panel_witness :
  wp (let! a := run_call app (ReqStartDeviceManager 42 None) in do! run_worker in mret a)
    (fun a s' t' => a = (ERR_OK, None) /\ s' = shown /\
      exists data, t' = [] ++ [PermissionChecked app; RequestSent 55 START_DEVICE_MANAGER_CODE data] /\
        unread data = start_items 42 None (connectStatusInfo_ info)) shown [].
Proof.
  apply (start_reaches_panel app 42 None 55 info); [reflexivity|done|exact I|exact I|reflexivity..|exact I].
Defined.

Definition connecting : Service :=
  mkService 43 [(app, [42; 43])] [(42, Some info); (43, Some info)] (Some (mkAppConnection 42 None)) None (Some []).

Lemma start_while_connecting_lost_witness :
  wp (run_call app (ReqStartDeviceManager 43 None))
    (fun a s' t' => a = (ERR_OK, None) /\ s' = connecting /\
      t' = [] ++ [PermissionChecked app; AccountsQueried; SystemAbilityQueried; ExtensionsQueried 100;
                 AbilityManagerConnected; PanelConnected (Some (mkAppConnection 42 None)) 100]) connecting [].
Proof.
  apply (start_while_connecting_lost app 43 None (mkAppConnection 42 None) connecting [] 100 [] []);
    [reflexivity|reflexivity|reflexivity|by exists info|reflexivity|reflexivity|reflexivity|reflexivity| |reflexivity|reflexivity].
  intros t. by exists (str "panel"), (str "select").
Defined.

Lemma second_notifier_unwatched_witness :
  wp (run_call app (ReqRegisterCallback 42 EVENT_DISCONNECT (Some 8)))
    (fun a s' t' => a = (ERR_OK, None) /\ t' = [] ++ [PermissionChecked app] /\
      map_find (callbackMap_ s') 42 = Some (Some (SetNotifier EVENT_DISCONNECT (Some 8) info))) ready [].
Proof. apply second_notifier_unwatched; [reflexivity|by right|reflexivity|reflexivity|reflexivity]. Defined.

Lemma dead_app_keeps_second_token_witness :
  wp (do! run_call panel (ReqNotifierDied (Some 7)) in do! run_worker in run_worker) (fun _ s' _ =>
    continuationHandler_ s' = Some [] /\ map_find (callbackMap_ s') 43 = Some (Some info)) ready ready_trace.
Proof.
  apply (dead_app_keeps_second_token 41 panel 7 42); [exact selection_ready_ok|exact ready_distinct|reflexivity|reflexivity|
    done|reflexivity|reflexivity].
Defined.
End DemoSelection.
